(* ===== verification/_CoqProject ===== *)
-Q . S2P
Prelude.v
Bits.v
Mktime.v
Vsprintf.v
StringAsm.v
StringSpec.v
Memory.v
PageTables.v
Malloc.v
MallocSpec.v
Console.v
Terminal.v
Sched.v
Timers.v
WaitQueue.v
FsState.v
Wakeup.v
BlkDev.v
Elevator.v
Buffer.v
Cache.v
Getblk.v
Shared.v
Inode.v
Namei.v
Files.v
Bytes.v
Build.v
PipeSpec.v
InodeIO.v
FileSpec.v
Process.v
ProcessSpec.v
ForkSpec.v
Tty.v
TtyQueue.v
TtySpec.v
TtyCook.v
TtyWrite.v
TtyRead.v
TtyIoctl.v
Serial.v
Printk.v
Keyboard.v
KeyboardSpec.v
Exec.v
ExecArgs.v
ExecImage.v
ExecSpec.v
SharePage.v
NoPage.v
Hd.v
HdDrive.v
HdSpec.v
HdQueue.v
Pthread.v
Rwlock.v
Mqueue.v
MqueueSpec.v
Semaphore.v
Hoc.v
HocSpec.v
HocRun.v
HocExpr.v
HocStmt.v
HocCompile.v
HocSession.v
HocTyped.v
HocLex.v
