(* ===== verification/Prelude.v ===== *)
(** * A verification of LearnLinux

    The repository LearnLinux is a collection of C programs that its author studied and
    modified.  The largest is the Linux kernel, version 0.11 (linux-0.11); then come the
    programs of a book on interprocess communication (unpv22e) and six stages of the
    calculator hoc (hoc-soledad).  This development translates the parts that compute
    something into Rocq functions and proves what makes them correct.

    ** How the code is modelled

    Integers are [Z] with the conversions of the i386 written out ([u8], [u16], [u32],
    [s8], [s32] below).  A routine of the kernel is a function in a small monad [M]: it
    takes the state and returns a value with a new state ([Ok]), or stops in [panic], or
    ends the process, or does something C leaves undefined, such as reading behind a
    table ([Ub]).  Tables are lists; a pointer into a table is an index, [NULL] is [None] or
    0.  The state of a part is a record and is updated with [put] and [over] (below).
    Devices, what other tasks do while one sleeps, and libraries that are not in the
    repository are parameters ([Env] in FsState.v, [TtyEnv] in Tty.v, [Keyboard] in
    Keyboard.v, [Controller] in Hd.v, [Files] in Build.v, [Libm] in Hoc.v, [Scanf] in
    HocLex.v).

    A loop whose end is not obvious has fuel, and running out of fuel is a result of its
    own, never taken for an answer: theorems give the fuel that is enough or hold for
    every sufficient amount (66 tries for a process number, the length of a queue for a
    walk along it, the number of rows or columns on the console, the characters left in
    the input for the formatter and the lexical analysis, any number of steps for hoc,
    where the machine is shown to stop exactly when the interpreter does).

    ** The parts and the files

    Prelude.v has the integers, the monad, the records and lemmas on lists; Bits.v has
    masks as arithmetic.

    Time and text.  Mktime.v: kernel/mktime.c and the clock reading of init/main.c,
    against a calendar counted day by day ([kernel_mktime_correct], [time_init_correct]).
    Vsprintf.v: kernel/vsprintf.c; numbers are printed so that they can be read back, in
    their width ([vsprintf_number_roundtrip], [number_width]), text is copied
    ([vsprintf_text]).  StringAsm.v: include/string.h, which is inline assembly, instruction
    by instruction on a processor with registers, flags and memory.  StringSpec.v: [strstr]
    finds the first place, [strtok] splits, [memmove] moves overlapping regions
    ([strstr_finds], [strtok_splits], [memmove_moves]); execution is a step function, and
    the theorems say that it comes to the end of the code.

    Memory.  Memory.v: mm/memory.c on physical memory, with its page tables; a page is
    handed out once and comes back when its last user is gone ([get_free_page_correct],
    [free_page_correct], [get_free_roundtrip], [mem_init_correct]); a write to a shared
    page gets a private copy in a frame that was free, and only a sole user writes in place
    ([un_wp_page_private]).  PageTables.v: fork and exit on page tables conserve the use
    counts ([fork_exit_conserves]), and after a fork both tasks have the same pages and
    neither can write what the other one sees ([fork_copy_on_write]).  Malloc.v: lib/malloc.c, whose
    descriptors and free lists lie in that physical memory.  MallocSpec.v: it refines a
    set of blocks that do not overlap, and panics without a change on what it cannot serve
    ([kheap_refines], [kheap_refuses]).

    Console.  Console.v: kernel/chr_drv/console.c, the screen as a window into video
    memory with scrolling by the origin.  Terminal.v: every character keeps the cursor on
    the screen and writes only to video memory ([con_char_safe]); the console refines a
    terminal that is just a grid with a cursor ([con_normal_is_terminal],
    [cursor_address], [con_init_correct]).

    Terminals.  Tty.v: the queues, the line discipline, reading, writing and settings of
    kernel/chr_drv/tty_io.c and tty_ioctl.c, with include/linux/tty.h, include/termios.h,
    lib/ctype.c, fs/ioctl.c and the drivers (console.c, serial.c).  TtyQueue.v: a ring
    buffer holds a sequence.  TtySpec.v, TtyCook.v: what is typed edits a line
    ([copy_to_cooked_edits]); this also covers the loop in which the line discipline and the
    driver of the screen call each other.  TtyWrite.v: what is written reaches the screen
    once and in order ([tty_write_shows]).  TtyRead.v: what is read is what was typed
    ([tty_read_takes]).  TtyIoctl.v: settings are kept ([tty_settings_roundtrip]).  Printk.v:
    the messages of the kernel (printk.c, panic.c, show_stat of sched.c).  Serial.v: the interrupts
    of the serial lines (rs_io.s); the write queue of a line goes out over its port, all of
    it and in order, and the waiting task runs again ([serial_transmits]).  Keyboard.v:
    kernel/chr_drv/keyboard.S with the tables of four keyboards.  KeyboardSpec.v: whatever
    keys are pressed and released, the driver knows which shift keys are down, and the text
    of the keys edits the line that is read ([keyboard_types]).

    Tasks.  Sched.v: kernel/sched.c.  The scheduler picks a task with the most time left
    and goes on giving out time until there is one ([schedule_correct]).  Timers.v: the
    chain of timers is a queue of deadlines, also when a routine that is called adds a timer
    ([add_timer_correct], [run_timers_correct]).
    WaitQueue.v: sleeping and waking as steps of several tasks; nobody who sleeps is
    forgotten ([no_lost_wakeup]).  Process.v: kernel/sys.c, signal.c, exit.c, fork.c and
    the related parts of system_call.s.  ProcessSpec.v: process numbers, identities and
    the frame of a signal handler ([find_empty_process_correct], [setreuid_no_gain],
    [signal_frame]).  ForkSpec.v: the fork system call as a whole ([fork_correct]), on top
    of the page tables, the tasks and the files.

    Programs.  Exec.v: fs/exec.c with include/a.out.h, and the loading of pages on demand
    (share_page and do_no_page of mm/memory.c).  ExecArgs.v, ExecImage.v, ExecSpec.v: the
    strings go from the old program into physical pages, the old space is freed, the pages
    are mapped, and the new program finds its arguments ([exec_arguments]).  SharePage.v: a
    page is shared with a task that runs the same program.  NoPage.v: a page that is missing
    is shared, read from the file or empty, or the task is killed ([do_no_page_loads]).  Elsewhere the memory of the
    current program is the map [umem] of FsState.v; [user_memory] is what the page tables
    show, and the switch to a new program sets the one to the other.

    Files.  FsState.v: the tables of include/linux/fs.h.  BlkDev.v, Elevator.v: the
    request queues; a busy device whose requests differ sweeps over the disk
    ([add_request_two_sweeps]).
    Buffer.v, Cache.v, Getblk.v, Shared.v: fs/buffer.c; at most one buffer holds a block
    and getblk returns it, also when other tasks use the cache while it sleeps;
    a write through a null pointer in it is part of the statement ([getblk_correct],
    [getblk_shared], [buffer_init_queued]).  Inode.v: fs/bitmap.c, inode.c, truncate.c, super.c.  Namei.v: fs/namei.c.  Files.v: fs/open.c, read_write.c,
    file_dev.c, block_dev.c, char_dev.c, pipe.c, fcntl.c, stat.c.  Bytes.v, InodeIO.v: an
    inode written through the cache is what is read back ([inode_write_read]).  FileSpec.v:
    a regular file with direct and indirect blocks and holes is a sequence of bytes, which
    reading delivers and writing changes at the position and nowhere else
    ([file_read_delivers], [file_write_stores]).  PipeSpec.v: a pipe is a queue of bytes,
    also when the other end acts while one waits ([read_pipe_takes], [write_pipe_puts]);
    Wakeup.v has what waking does to the tasks.

    Disks.  Hd.v: kernel/blk_drv/hd.c, the entry of its interrupt in system_call.s, and
    rd_load of ramdisk.c, over a controller that answers port accesses.  HdDrive.v: what the
    driver relies on, as the laws of a class [Drive], with a simulated controller that has
    them.  HdSpec.v, HdQueue.v: a queue of requests is served by the interrupts it causes,
    every sector at its place ([hd_queue_served]), and never outside the partition it is for
    ([hd_partitions_apart]).

    Image.  Build.v: tools/build.c; it makes an image exactly when its arguments and files
    are right, and then boot sector, setup code and kernel lie where the boot code looks for
    them; in every other case it exits with 1 ([build_image]).

    Threads.  Pthread.v: threads with a mutex and condition variables as interleaved
    steps.  Rwlock.v: unpv22e/my_rwlock, which excludes writers from readers and forgets
    nobody who waits ([rwlock_excludes], [rwlock_no_lost_wakeup]).  Mqueue.v, MqueueSpec.v:
    unpv22e/my_pxmsg_mmap refines a bounded queue by priority ([mq_refines]).  Semaphore.v:
    unpv22e/my_pxsem_mmap counts ([semaphore_counts]).

    hoc.  Hoc.v: the symbols, the stack machine and the code generation of hoc6.
    HocSpec.v: an interpreter of the trees.  HocRun.v, HocExpr.v, HocStmt.v, HocCompile.v,
    HocSession.v: compiling a session and executing the code is the same as interpreting
    it, results, messages and endless loops included ([session_correct]).  HocTyped.v:
    every symbol holds what its type says, but for what a definition leaves
    ([symbols_typed]).  HocLex.v: the lexical
    analysis reads back what is written out ([lex_roundtrip]).

    Theorems about things the code does and should not do are [vsprintf_star_width_ignored],
    [esc_7_8_ignored], [tty_read_spins], [memcmp_nothing], [strncat_writes_behind] and
    [memmove_leaves_df]; others are only described in the manifest.

    ** Not modelled

    Of the kernel: the boot code (boot/), the interrupt and trap entries (kernel/asm.s,
    traps.c, most of system_call.s, page.s), which are assembly about
    registers and descriptor tables; the floppy driver (floppy.c), whose work is the timing
    of motors and the programming of the DMA controller; the coprocessor; the wrappers of
    system calls in lib/, which have no code of their own.
    Messages are left out of the routines that print them.

    Of unpv22e: the wrappers that end the program when a call fails (lib/), and the
    example programs around pipes, FIFOs, System V queues, semaphores and shared memory,
    doors, Sun RPC and their measurements: they consist of calls to the operating system.
    Of hoc: the stages hoc1 to hoc5, which hoc6 contains, and the parser that yacc
    generates.  The frame buffer programs, the shell scripts and the small programs in the
    root of the repository draw on devices or call commands. *)
From stdpp Require Import base list gmap strings.
From Stdlib Require Import ZArith Lia.
Open Scope Z_scope.

(** * Machine integers

    The kernel is i386 code: [char], [short] and [long]/[int] are 8, 16 and 32
    bits wide.  A value is a [Z]; the functions below are the conversions the
    compiler inserts at an assignment. *)

Definition u8 (x : Z) : Z := x mod 2 ^ 8.
Definition u16 (x : Z) : Z := x mod 2 ^ 16.
Definition u32 (x : Z) : Z := x mod 2 ^ 32.
Definition s8 (x : Z) : Z := (x + 2 ^ 7) mod 2 ^ 8 - 2 ^ 7.
Definition s32 (x : Z) : Z := (x + 2 ^ 31) mod 2 ^ 32 - 2 ^ 31.

(** C truth: an integer used as a condition. *)
Definition cbool (x : Z) : bool := negb (x =? 0).
Definition bool_to_c (b : bool) : Z := if b then 1 else 0.

(** Boolean conditions as propositions, in the goal; [blia] decides a boolean
    equation between comparisons. *)
Ltac b2p :=
  rewrite ?andb_true_iff, ?orb_true_iff, ?negb_true_iff, ?andb_false_iff, ?orb_false_iff,
    ?negb_false_iff, ?Z.leb_le, ?Z.ltb_lt, ?Z.eqb_eq, ?Z.leb_gt, ?Z.ltb_ge, ?Z.eqb_neq.
Ltac b2p_in H :=
  rewrite ?andb_true_iff, ?orb_true_iff, ?negb_true_iff, ?andb_false_iff, ?orb_false_iff,
    ?negb_false_iff, ?Z.leb_le, ?Z.ltb_lt, ?Z.eqb_eq, ?Z.leb_gt, ?Z.ltb_ge, ?Z.eqb_neq in H.
Ltac blia :=
  first [lia | b2p; lia | symmetry; b2p; lia | apply eq_true_iff_eq; b2p; lia].

(** Case analysis on a decision in the goal. *)
Ltac goal_decide := match goal with |- context [@decide ?P ?i] => destruct (@decide P i) end.

Create HintDb kernel discriminated.
Create HintDb machine discriminated.
Create Rewrite HintDb machine.

Lemma u8_range x : 0 <= u8 x < 2 ^ 8.
Proof. apply Z.mod_pos_bound. lia. Qed.

Lemma u16_range x : 0 <= u16 x < 2 ^ 16.
Proof. apply Z.mod_pos_bound. lia. Qed.

Lemma u32_range x : 0 <= u32 x < 2 ^ 32.
Proof. apply Z.mod_pos_bound. lia. Qed.

Lemma s32_range x : - 2 ^ 31 <= s32 x < 2 ^ 31.
Proof. unfold s32. pose proof (Z.mod_pos_bound (x + 2 ^ 31) (2 ^ 32)). lia. Qed.

Lemma u8_small x : 0 <= x < 2 ^ 8 -> u8 x = x.
Proof. apply Z.mod_small. Qed.

Lemma u16_small x : 0 <= x < 2 ^ 16 -> u16 x = x.
Proof. apply Z.mod_small. Qed.

Lemma u32_small x : 0 <= x < 2 ^ 32 -> u32 x = x.
Proof. apply Z.mod_small. Qed.

Lemma s32_small x : - 2 ^ 31 <= x < 2 ^ 31 -> s32 x = x.
Proof. intros H. unfold s32. rewrite Z.mod_small by lia. lia. Qed.

Lemma s8_small x : - 2 ^ 7 <= x < 2 ^ 7 -> s8 x = x.
Proof. intros H. unfold s8. rewrite Z.mod_small by lia. lia. Qed.

(** Wrapping is a congruence modulo [2^32]: an intermediate wrap is absorbed by
    a later one. *)
Lemma s32_mod x : s32 x mod 2 ^ 32 = x mod 2 ^ 32.
Proof.
  unfold s32. rewrite Zminus_mod, Zmod_mod, <- Zminus_mod.
  f_equal. lia.
Qed.

Lemma s32_ext x y : x mod 2 ^ 32 = y mod 2 ^ 32 -> s32 x = s32 y.
Proof.
  intros H. unfold s32. rewrite (Zplus_mod x), H, <- Zplus_mod. done.
Qed.

Lemma s32_add_l x y : s32 (s32 x + y) = s32 (x + y).
Proof.
  apply s32_ext. rewrite (Zplus_mod (s32 x)), s32_mod, <- Zplus_mod. done.
Qed.

Lemma s32_sub_l x y : s32 (s32 x - y) = s32 (x - y).
Proof.
  apply s32_ext. rewrite (Zminus_mod (s32 x)), s32_mod, <- Zminus_mod. done.
Qed.

Lemma u32_s32 x : u32 (s32 x) = u32 x.
Proof. apply s32_mod. Qed.

#[export] Hint Rewrite u32_s32 : machine.

(** Collapse a chain of wrapped additions and subtractions into one wrap. *)
Ltac wrap_chain :=
  rewrite <- ?Z.add_opp_r;
  repeat (rewrite <- ?Z.add_assoc; rewrite s32_add_l);
  apply (f_equal s32).
#[export] Hint Resolve u8_range u16_range u32_range s32_range : machine.

(** * C strings

    A C string is the list of its bytes without the terminating NUL. *)

Definition cstr (s : string) : list Z :=
  map (fun a => Z.of_nat (Ascii.nat_of_ascii a)) (String.list_ascii_of_string s).

(** * Kernel code as state passing with abnormal exits

    A kernel routine runs on a state and either returns, ends in [panic] (which
    never returns), transfers control to [do_exit], or performs an access the
    C program has no right to (an index outside an array, a dereferenced null
    pointer). *)

Inductive outcome (S A : Type) : Type :=
| Ok (a : A) (s : S)
| Panic (msg : string) (s : S)
| Exit (code : Z) (s : S)
| Ub.
Arguments Ok {S A} a s.
Arguments Panic {S A} msg s.
Arguments Exit {S A} code s.
Arguments Ub {S A}.

Definition M (S A : Type) : Type := S -> outcome S A.

Section Monad.
Context {S : Type}.

Definition ret {A} (a : A) : M S A := fun s => Ok a s.

Definition bind {A B} (m : M S A) (k : A -> M S B) : M S B :=
  fun s => match m s with
           | Ok a s' => k a s'
           | Panic msg s' => Panic msg s'
           | Exit code s' => Exit code s'
           | Ub => Ub
           end.

Definition panic {A} (msg : string) : M S A := fun s => Panic msg s.
Definition exit_with {A} (code : Z) : M S A := fun s => Exit code s.
Definition ub {A} : M S A := fun _ => Ub.
Definition get {A} (f : S -> A) : M S A := fun s => Ok (f s) s.
Definition modify (f : S -> S) : M S unit := fun s => Ok tt (f s).

(** An optional value that the C code uses unconditionally. *)
Definition need {A} (o : option A) : M S A :=
  match o with Some a => ret a | None => ub end.

(** [while (c) body], for at most [fuel] tests of [c]. *)
Fixpoint while_do (fuel : nat) (c : M S bool) (body : M S unit) : M S unit :=
  match fuel with
  | O => ub
  | Datatypes.S fuel => bind c (fun b => if b then bind body (fun _ => while_do fuel c body) else ret tt)
  end.

(** [for] over the values in [l]. *)
Fixpoint for_each {A} (l : list A) (body : A -> M S unit) : M S unit :=
  match l with
  | [] => ret tt
  | a :: l => bind (body a) (fun _ => for_each l body)
  end.
End Monad.

Declare Scope kernel_scope.
Delimit Scope kernel_scope with kernel.
Notation "'let*' x ':=' m 'in' k" := (bind m (fun x => k))
  (at level 10, x pattern, m at level 100, k at level 200,
   format "'[v' 'let*'  x  ':='  m  'in' '/' k ']'") : kernel_scope.
Notation "m ';;;' k" := (bind m (fun _ => k))
  (at level 190, right associativity) : kernel_scope.
Open Scope kernel_scope.

(** Weakest precondition for returning normally. *)
Definition wp {S A} (m : M S A) (Q : A -> S -> Prop) (s : S) : Prop :=
  match m s with Ok a s' => Q a s' | _ => False end.

Lemma wp_bind {S A B} (m : M S A) (k : A -> M S B) Q s :
  wp m (fun a s' => wp (k a) Q s') s -> wp (bind m k) Q s.
Proof. unfold wp, bind. by destruct (m s). Qed.

Lemma wp_mono {S A} (m : M S A) (Q R : A -> S -> Prop) s :
  wp m Q s -> (forall a s', Q a s' -> R a s') -> wp m R s.
Proof. unfold wp. destruct (m s); [auto | done..]. Qed.

Lemma wp_Ok {S A} (m : M S A) Q s :
  wp m Q s <-> exists a s', m s = Ok a s' /\ Q a s'.
Proof.
  unfold wp. destruct (m s); (split; [try done | intros (? & ? & [=] & ?); by subst]).
  intros H. by do 2 eexists.
Qed.

(** Reduce the first statement of a sequence. *)
Lemma bind_Ok {S A B} (m : M S A) (k : A -> M S B) s a s' :
  m s = Ok a s' -> bind m k s = k a s'.
Proof. unfold bind. by intros ->. Qed.

(** A postcondition of the runs that return, and an invariant of a routine. *)
Definition hoare {S A} (P : S -> Prop) (m : M S A) (Q : A -> S -> Prop) : Prop :=
  forall s a s', P s -> m s = Ok a s' -> Q a s'.
Definition preserves {S A} (P : S -> Prop) (m : M S A) : Prop := hoare P m (fun _ => P).

Create HintDb preserves discriminated.

Section Hoare.
Context {S : Type} (P : S -> Prop).

Lemma hoare_bind {A B} (m : M S A) (k : A -> M S B) R Q :
  hoare P m R -> (forall a, hoare (R a) (k a) Q) -> hoare P (bind m k) Q.
Proof. intros Hm Hk s b s' Hs. unfold bind. destruct (m s) eqn:E; try done. intros Eb. by eapply Hk, Eb; eapply Hm. Qed.

Lemma hoare_then {A B} (m : M S A) (k : A -> M S B) Q :
  preserves P m -> (forall a, hoare P (k a) Q) -> hoare P (bind m k) Q.
Proof. apply hoare_bind. Qed.
Lemma preserves_bind {A B} (m : M S A) (k : A -> M S B) :
  preserves P m -> (forall a, preserves P (k a)) -> preserves P (bind m k).
Proof. apply hoare_bind. Qed.
Lemma preserves_ret {A} (a : A) : preserves P (ret a).
Proof. by intros s b s' Hs [= <- <-]. Qed.
Lemma preserves_get {A} (f : S -> A) : preserves P (get f).
Proof. by intros s b s' Hs [= <- <-]. Qed.
Lemma preserves_panic {A} msg : preserves P (panic (A := A) msg).
Proof. done. Qed.
Lemma preserves_ub {A} : preserves P (ub (A := A)).
Proof. done. Qed.
Lemma preserves_need {A} (o : option A) : preserves P (need o).
Proof. destruct o; [apply preserves_ret | done]. Qed.
Lemma preserves_while fuel c body : preserves P c -> preserves P body -> preserves P (while_do fuel c body).
Proof.
  intros Hc Hb. induction fuel as [|fuel IH]; [done |]. apply preserves_bind; [done | intros [|]; [| apply preserves_ret]].
  apply preserves_bind; [done | intros _; apply IH].
Qed.
Lemma preserves_for {A} (l : list A) body : (forall a, preserves P (body a)) -> preserves P (for_each l body).
Proof. intros Hb. induction l; [apply preserves_ret | apply preserves_bind; [done | intros _; apply IHl]]. Qed.
End Hoare.
#[export] Hint Resolve preserves_bind preserves_ret preserves_get preserves_panic preserves_ub preserves_need preserves_while preserves_for : preserves.

(** * Records updated by field

    [put f v r] and [over f g r] are assignments [r.f = v] and [r.f = g(r.f)]; the
    setter of a projection is read off the record's instance of [Fields], which
    rebuilds a value from its fields. *)

Class Fields (R : Type) := rebuild : R -> R.
Class Setter {R T : Type} (p : R -> T) := setter : (T -> T) -> R -> R.

Ltac derive_setter :=
  lazymatch goal with
  | |- @Setter ?R ?T ?p =>
    let r := constr:(rebuild (R := R)) in
    let r := eval hnf in r in
    let r := eval pattern p in r in
    lazymatch r with ?f _ => exact (fun (h : T -> T) (x : R) => f (fun x => h (p x)) x) end
  end.
#[export] Hint Extern 0 (Setter _) => derive_setter : typeclass_instances.

Definition over {R T} (p : R -> T) {s : Setter p} (h : T -> T) (r : R) : R := s h r.
Definition put {R T} (p : R -> T) {s : Setter p} (v : T) (r : R) : R := s (fun _ => v) r.

(** A routine run on a part of the state. *)
Definition zoom {S T A} (f : S -> T) {sf : Setter f} (m : M T A) : M S A := fun s =>
  match m (f s) with
  | Ok a x => Ok a (put f x s)
  | Panic msg x => Panic msg (put f x s)
  | Exit c x => Exit c (put f x s)
  | Ub => Ub
  end.

(** * Lists updated in place *)

(** Updating an entry of a table. *)
Lemma alter_insert {A} (f : A -> A) (l : list A) i x : l !! i = Some x -> alter f i l = <[i := f x]> l.
Proof.
  intros Hx. apply list_eq. intros j. destruct (decide (j = i)) as [-> | Hne].
  - by rewrite list_lookup_alter_eq, list_lookup_insert_eq, Hx by by eapply lookup_lt_Some.
  - by rewrite list_lookup_alter_ne, list_lookup_insert_ne.
Qed.

Lemma alter_insert_eq {A} (g : A -> A) k v (l : list A) : alter g k (<[k := v]> l) = <[k := g v]> l.
Proof. revert k. induction l as [|a l IH]; intros [|k]; cbn; [done.. | f_equal; apply IH]. Qed.

Lemma list_lookup_Z {A} (l : list A) (i : Z) :
  0 <= i < Z.of_nat (length l) -> exists x, l !! Z.to_nat i = Some x.
Proof. intros H. apply lookup_lt_is_Some_2. lia. Qed.

Lemma list_filter_all {A} (P : A -> Prop) `{!forall x, Decision (P x)} l : Forall P l -> filter P l = l.
Proof. induction 1; [done |]. rewrite filter_cons_True by done. by f_equal. Qed.

Lemma list_filter_none {A} (P : A -> Prop) `{!forall x, Decision (P x)} l :
  Forall (fun x => ~ P x) l -> filter P l = [].
Proof. induction 1; [done |]. by rewrite filter_cons_False. Qed.
