(* ===== verification/Bits.v ===== *)
(** Masks and bit fields as arithmetic: what the kernel's [&], [|] and [>>]
    with constant masks compute. *)
From Stdlib Require Import ZArith Lia.
From coqutil Require Import Z.bitblast.
Open Scope Z_scope.

(** A mask of [n] ones at position [k] extracts a field in place. *)
Lemma land_field (e n k : Z) :
  0 <= n -> 0 <= k ->
  Z.land (Z.shiftl (Z.ones n) k) e = 2 ^ k * ((e / 2 ^ k) mod 2 ^ n).
Proof.
  intros Hn Hk.
  rewrite <- Z.land_ones, <- Z.shiftr_div_pow2, Z.mul_comm, <- Z.shiftl_mul_pow2 by lia.
  Z.bitblast.
Qed.

(** Or-ing small bits into an aligned word is addition. *)
Lemma lor_low (p x n : Z) :
  0 <= n -> p mod 2 ^ n = 0 -> 0 <= x < 2 ^ n -> Z.lor p x = p + x.
Proof.
  intros Hn Hp Hx. apply Z.or_to_plus.
  rewrite <- (Z.mod_small x (2 ^ n)) by lia. rewrite <- Z.land_ones by lia.
  rewrite (Z.land_comm x), Z.land_assoc, Z.land_ones, Hp by lia. apply Z.land_0_l.
Qed.

(** Clearing one bit. *)
Lemma land_clear_bit (e k : Z) :
  0 <= k -> Z.land e (Z.lnot (2 ^ k)) = e - 2 ^ k * ((e / 2 ^ k) mod 2).
Proof.
  intros Hk. pose proof (land_field e 1 k ltac:(lia) Hk) as F.
  rewrite Z.pow_1_r in F. rewrite <- F. clear F.
  replace (Z.shiftl (Z.ones 1) k) with (2 ^ k)
    by (rewrite Z.shiftl_mul_pow2 by lia; change (Z.ones 1) with 1; lia).
  pose proof (Z.add_lor_land (Z.land (2 ^ k) e) (Z.land e (Z.lnot (2 ^ k)))) as H.
  replace (Z.land (Z.land (2 ^ k) e) (Z.land e (Z.lnot (2 ^ k)))) with 0 in H.
  - replace (Z.lor (Z.land (2 ^ k) e) (Z.land e (Z.lnot (2 ^ k)))) with e in H; [lia |].
    apply Z.bits_inj'. intros i Hi.
    rewrite Z.lor_spec, !Z.land_spec, Z.lnot_spec by lia.
    now destruct (Z.testbit e i), (Z.testbit (2 ^ k) i).
  - symmetry. apply Z.bits_inj'. intros i Hi.
    rewrite !Z.land_spec, Z.lnot_spec, Z.bits_0 by lia.
    now destruct (Z.testbit e i), (Z.testbit (2 ^ k) i).
Qed.

Lemma land_1 (e : Z) : Z.land 1 e = e mod 2.
Proof. change 1 with (Z.ones 1). rewrite Z.land_comm, Z.land_ones by lia. reflexivity. Qed.

Lemma shiftr_div (a n : Z) : 0 <= n -> Z.shiftr a n = a / 2 ^ n.
Proof. apply Z.shiftr_div_pow2. Qed.
