(* ===== verification/Mktime.v ===== *)
(** kernel/mktime.c: the kernel's conversion of a broken-down time into seconds
    since 1970, checked against a day-by-day Gregorian calendar. *)
From stdpp Require Import base list.
From Stdlib Require Import ZArith Lia.
From S2P Require Import Prelude.
Open Scope Z_scope.

(** ** Data *)

(** [struct tm] of include/time.h. *)
Record tm := mk_tm {
  tm_sec : Z; tm_min : Z; tm_hour : Z; tm_mday : Z; tm_mon : Z; tm_year : Z;
  tm_wday : Z; tm_yday : Z; tm_isdst : Z }.

Definition MINUTE : Z := 60.
Definition HOUR : Z := 60 * MINUTE.
Definition DAY : Z := 24 * HOUR.
Definition YEAR : Z := 365 * DAY.

(** "interestingly, we assume leap-years" *)
Definition month : list Z :=
  [ 0;
    DAY*(31);
    DAY*(31+29);
    DAY*(31+29+31);
    DAY*(31+29+31+30);
    DAY*(31+29+31+30+31);
    DAY*(31+29+31+30+31+30);
    DAY*(31+29+31+30+31+30+31);
    DAY*(31+29+31+30+31+30+31+31);
    DAY*(31+29+31+30+31+30+31+31+30);
    DAY*(31+29+31+30+31+30+31+31+30+31);
    DAY*(31+29+31+30+31+30+31+31+30+31+30) ].

(** [kernel_mktime]; [None] is the read of [month] outside its bounds.  [res] is
    a 32-bit [long], so every assignment to it wraps. *)
Definition kernel_mktime (t : tm) : option Z :=
  let year := s32 (tm_year t - 70) in
  let res := s32 (YEAR * year + DAY * Z.quot (year + 1) 4) in
  if (tm_mon t <? 0) then None else
  match month !! Z.to_nat (tm_mon t) with
  | None => None
  | Some m =>
    let res := s32 (res + m) in
    let res := if (1 <? tm_mon t) && cbool (Z.rem (year + 2) 4)
               then s32 (res - DAY) else res in
    let res := s32 (res + DAY * (tm_mday t - 1)) in
    let res := s32 (res + HOUR * tm_hour t) in
    let res := s32 (res + MINUTE * tm_min t) in
    let res := s32 (res + tm_sec t) in
    Some res
  end.

(** ** init/main.c: reading the clock chip at boot *)

Definition BCD_TO_BIN (val : Z) : Z := Z.land val 15 + Z.shiftr val 4 * 10.

Section TimeInit.
(** [cmos n addr] is what the [n]-th [CMOS_READ] of the boot returns for
    register [addr]: the clock chip is hardware. *)
Variable cmos : nat -> Z -> Z.

(** The [do .. while (time.tm_sec != CMOS_READ(0))] loop, from the [n]-th
    read on: seven reads per turn. *)
Fixpoint read_clock (fuel n : nat) : option tm :=
  match fuel with
  | O => None
  | S fuel =>
    let t := mk_tm (cmos n 0) (cmos (n + 1) 2) (cmos (n + 2) 4) (cmos (n + 3) 7)
                   (cmos (n + 4) 8) (cmos (n + 5) 9) 0 0 0 in
    if (tm_sec t =? cmos (n + 6) 0)%Z then Some t else read_clock fuel (n + 7)
  end%nat.

(** [time_init]: the value stored in [startup_time]. *)
Definition time_init (fuel : nat) : option Z :=
  match read_clock fuel 0 with
  | None => None
  | Some t =>
    kernel_mktime
      (mk_tm (BCD_TO_BIN (tm_sec t)) (BCD_TO_BIN (tm_min t)) (BCD_TO_BIN (tm_hour t))
             (BCD_TO_BIN (tm_mday t)) (BCD_TO_BIN (tm_mon t) - 1)
             (BCD_TO_BIN (tm_year t)) (tm_wday t) (tm_yday t) (tm_isdst t))
  end.
End TimeInit.

(** ** The reference calendar *)

Definition is_leap (y : Z) : bool :=
  (y mod 4 =? 0) && (negb (y mod 100 =? 0) || (y mod 400 =? 0)).

Definition year_days (y : Z) : Z := if is_leap y then 366 else 365.

Definition month_lengths (y : Z) : list Z :=
  [31; if is_leap y then 29 else 28; 31; 30; 31; 30; 31; 31; 30; 31; 30; 31].

Definition days_in_month (y mon : Z) : Z :=
  nth (Z.to_nat mon) (month_lengths y) 0.

(** Days of the [n] years that start at 1970. *)
Fixpoint days_before_year (n : nat) : Z :=
  match n with
  | O => 0
  | S n => days_before_year n + year_days (1970 + Z.of_nat n)
  end.

Definition days_before_month (y mon : Z) : Z :=
  foldr Z.add 0 (take (Z.to_nat mon) (month_lengths y)).

Definition calendar_seconds (t : tm) : Z :=
  let y := 1900 + tm_year t in
  let days := days_before_year (Z.to_nat (y - 1970)) + days_before_month y (tm_mon t)
              + (tm_mday t - 1) in
  ((days * 24 + tm_hour t) * 60 + tm_min t) * 60 + tm_sec t.

Definition valid_tm (t : tm) : Prop :=
  70 <= tm_year t <= 137 /\ 0 <= tm_mon t < 12 /\
  1 <= tm_mday t <= days_in_month (1900 + tm_year t) (tm_mon t) /\
  0 <= tm_hour t < 24 /\ 0 <= tm_min t < 60 /\ 0 <= tm_sec t < 60.

(** ** Correctness *)

(** The part of [kernel_mktime] that depends on year and month only, compared
    with the calendar for every month of the 68 years up to 2037. *)
Definition month_start (year mon : Z) : Z :=
  YEAR * year + DAY * Z.quot (year + 1) 4 + nth (Z.to_nat mon) month 0
  - (if (1 <? mon) && cbool (Z.rem (year + 2) 4) then DAY else 0).

Definition month_start_ok (y m : nat) : bool :=
  (month_start (Z.of_nat y) (Z.of_nat m)
   =? DAY * (days_before_year y + days_before_month (1970 + Z.of_nat y) (Z.of_nat m)))
  && (0 <=? month_start (Z.of_nat y) (Z.of_nat m))
  && (month_start (Z.of_nat y) (Z.of_nat m)
      + DAY * days_in_month (1970 + Z.of_nat y) (Z.of_nat m) <=? 2 ^ 31).

Lemma month_starts_checked :
  forallb (fun y => forallb (month_start_ok y) (seq 0 12)) (seq 0 68) = true.
Proof. vm_compute. reflexivity. Qed.

Lemma month_start_calendar y m :
  0 <= y < 68 -> 0 <= m < 12 ->
  month_start y m
  = DAY * (days_before_year (Z.to_nat y) + days_before_month (1970 + y) m)
  /\ 0 <= month_start y m
  /\ month_start y m + DAY * days_in_month (1970 + y) m <= 2 ^ 31.
Proof.
  intros Hy Hm. pose proof month_starts_checked as H.
  rewrite forallb_forall in H.
  specialize (H (Z.to_nat y)). rewrite in_seq, forallb_forall in H.
  specialize (H ltac:(lia) (Z.to_nat m)). rewrite in_seq in H.
  specialize (H ltac:(lia)). unfold month_start_ok in H.
  rewrite !Z2Nat.id in H by lia.
  rewrite !andb_true_iff, Z.eqb_eq, !Z.leb_le in H. tauto.
Qed.

(** All the intermediate wraps collapse into one. *)
Lemma kernel_mktime_flat t :
  0 <= tm_mon t < 12 ->
  kernel_mktime t =
  Some (s32 (month_start (s32 (tm_year t - 70)) (tm_mon t) + DAY * (tm_mday t - 1)
             + HOUR * tm_hour t + MINUTE * tm_min t + tm_sec t)).
Proof.
  intros Hm. unfold kernel_mktime, month_start.
  destruct (tm_mon t <? 0) eqn:E; [lia |].
  destruct (month !! Z.to_nat (tm_mon t)) as [m|] eqn:Hl.
  2: { apply lookup_ge_None in Hl. simpl in Hl. lia. }
  rewrite (nth_lookup_Some _ _ 0 m Hl). f_equal.
  destruct (_ && _); wrap_chain; lia.
Qed.

Lemma kernel_mktime_calendar (t : tm) :
  valid_tm t -> kernel_mktime t = Some (calendar_seconds t).
Proof.
  intros (Hy & Hm & Hd & Hh & Hi & Hs).
  rewrite kernel_mktime_flat by done. rewrite (s32_small (tm_year t - 70)) by lia.
  destruct (month_start_calendar (tm_year t - 70) (tm_mon t)) as (E & Hlo & Hhi);
    [lia | lia |].
  replace (1970 + (tm_year t - 70)) with (1900 + tm_year t) in * by lia.
  rewrite s32_small.
  - f_equal. rewrite E. unfold calendar_seconds, DAY, HOUR, MINUTE.
    replace (1900 + tm_year t - 1970) with (tm_year t - 70) by lia. lia.
  - unfold DAY, HOUR, MINUTE in *. lia.
Qed.

(** For every valid date from 1970 to the end of 2037 [kernel_mktime]
    returns the number of seconds the Gregorian calendar gives, with no wrap of
    the 32-bit result. *)
Theorem kernel_mktime_correct (t : tm) :
  valid_tm t -> kernel_mktime t = Some (calendar_seconds t).
Proof. apply kernel_mktime_calendar. Qed.

Lemma kernel_mktime_correct_witness :
  kernel_mktime (mk_tm 59 59 23 31 11 137 0 0 0) = Some 2145916799.
Proof.
  rewrite (kernel_mktime_correct (mk_tm 59 59 23 31 11 137 0 0 0)); [reflexivity |].
  repeat split; vm_compute; congruence.
Defined.

(** The BCD digit pair of a two-digit number, as the clock chip stores it. *)
Definition to_bcd (n : Z) : Z := 16 * (n / 10) + n mod 10.

Lemma bcd_checked :
  forallb (fun n => BCD_TO_BIN (to_bcd (Z.of_nat n)) =? Z.of_nat n) (seq 0 100) = true.
Proof. vm_compute. reflexivity. Qed.

Lemma bcd_roundtrip n : 0 <= n < 100 -> BCD_TO_BIN (to_bcd n) = n.
Proof.
  intros H. pose proof bcd_checked as C. rewrite forallb_forall in C.
  specialize (C (Z.to_nat n)). rewrite in_seq, Z2Nat.id, Z.eqb_eq in C by lia.
  apply C. lia.
Qed.

(** What the chip's registers hold for the date [t]: the month counts from 1. *)
Definition chip_register (t : tm) (addr : Z) : Z :=
  if addr =? 0 then to_bcd (tm_sec t) else if addr =? 2 then to_bcd (tm_min t)
  else if addr =? 4 then to_bcd (tm_hour t) else if addr =? 7 then to_bcd (tm_mday t)
  else if addr =? 8 then to_bcd (tm_mon t + 1) else to_bcd (tm_year t).

Lemma days_in_month_le y m : days_in_month y m <= 31.
Proof.
  unfold days_in_month, month_lengths. destruct (is_leap y);
    destruct (Z.to_nat m) as [|[|[|[|[|[|[|[|[|[|[|[|k]]]]]]]]]]]]; simpl; try lia;
    destruct k; simpl; lia.
Qed.

(** if the clock chip shows one second [t] of the years 1970 to 1999 over
    the first complete round of reads, after [k] rounds interrupted by a second
    tick, then [time_init] sets [startup_time] to the calendar's seconds of
    [t]. *)
Theorem time_init_correct (cmos : nat -> Z -> Z) (t : tm) (k : nat) :
  valid_tm t -> tm_year t <= 99 ->
  (forall j, (j < k)%nat -> cmos (7 * j)%nat 0 <> cmos (7 * j + 6)%nat 0) ->
  (forall i addr, (i < 7)%nat -> cmos (7 * k + i)%nat addr = chip_register t addr) ->
  time_init cmos (S k) = Some (calendar_seconds t).
Proof.
  intros Hv Hy Hbad Hgood.
  assert (Hr : forall j, (j <= k)%nat ->
    read_clock cmos (S (k - j)) (7 * j)%nat = read_clock cmos 1 (7 * k)%nat).
  { intros j Hj. remember (k - j)%nat as d eqn:Hd. revert j Hj Hd.
    induction d as [|d IH]; intros j Hj Hd.
    - by replace j with k by lia.
    - cbn [read_clock tm_sec]. rewrite (proj2 (Z.eqb_neq _ _)) by (apply Hbad; lia).
      replace (7 * j + 7)%nat with (7 * S j)%nat by lia. apply IH; lia. }
  unfold time_init. specialize (Hr 0%nat ltac:(lia)).
  rewrite Nat.sub_0_r, Nat.mul_0_r in Hr. rewrite Hr. cbn [read_clock].
  pose proof (Hgood 0%nat 0 ltac:(lia)) as H0. rewrite Nat.add_0_r in H0.
  rewrite !Hgood, H0 by lia. cbn [tm_sec]. rewrite Z.eqb_refl.
  cbn [tm_min tm_hour tm_mday tm_mon tm_year tm_wday tm_yday tm_isdst].
  unfold chip_register. cbn.
  pose proof Hv as (Hyy & Hm & Hd & Hh & Hi & Hs).
  pose proof (days_in_month_le (1900 + tm_year t) (tm_mon t)).
  rewrite !bcd_roundtrip by lia.
  replace (tm_mon t + 1 - 1) with (tm_mon t) by lia.
  rewrite kernel_mktime_calendar; [done |]. destruct t; done.
Qed.

Lemma time_init_correct_witness :
  time_init (fun n addr => chip_register (mk_tm 7 6 5 25 8 91 0 0 0) addr) 1
  = Some 685775167.
Proof.
  rewrite (time_init_correct _ (mk_tm 7 6 5 25 8 91 0 0 0) 0).
  - reflexivity.
  - repeat split; vm_compute; congruence.
  - vm_compute. congruence.
  - intros j Hj. exfalso. inversion Hj.
  - intros. reflexivity.
Defined.
