(* ===== verification/Vsprintf.v ===== *)
(** kernel/vsprintf.c: formatted printing, the engine of [printk].

    The output pointer [str] is the list of bytes emitted so far; a format is a
    C string; [va_list] is the list of the remaining arguments. *)
From stdpp Require Import base list strings.
From Stdlib Require Import ZArith Lia.
From S2P Require Import Prelude.
Open Scope Z_scope.

(** ** Helpers of vsprintf.c *)

Definition is_digit (c : Z) : bool := (48 <=? c) && (c <=? 57).

(** [skip_atoi]: the number and the rest of the string. *)
Fixpoint skip_atoi_from (i : Z) (s : list Z) : Z * list Z :=
  match s with
  | c :: s' => if is_digit c then skip_atoi_from (s32 (i * 10 + c - 48)) s' else (i, s)
  | [] => (i, [])
  end.

Definition skip_atoi (s : list Z) : Z * list Z := skip_atoi_from 0 s.

Definition ZEROPAD : Z := 1.
Definition SIGN : Z := 2.
Definition PLUS : Z := 4.
Definition SPACE : Z := 8.
Definition LEFT : Z := 16.
Definition SPECIAL : Z := 32.
Definition SMALL : Z := 64.

Definition has (type flag : Z) : bool := cbool (Z.land type flag).

Definition DIGITS : list Z := cstr "0123456789ABCDEFGHIJKLMNOPQRSTUVWXYZ".
Definition digits_small : list Z := cstr "0123456789abcdefghijklmnopqrstuvwxyz".

(** [while (num!=0) tmp[i++]=digits[do_div(num,base)];] on the unsigned value
    the [divl] instruction sees; [tmp] in index order. *)
Fixpoint digit_loop (fuel : nat) (digits : list Z) (num base : Z) : list Z :=
  match fuel with
  | O => []
  | S fuel =>
    if num =? 0 then []
    else nth (Z.to_nat (num mod base)) digits 0 :: digit_loop fuel digits (num / base) base
  end.

(** [while (size-->0) *str++ = c;]: what it emits, and [size] afterwards. *)
Definition post_dec_loop (size c : Z) : list Z * Z :=
  (replicate (Z.to_nat size) c, if 0 <? size then -1 else size - 1).

(** [while (--w > 0) *str++ = c;] *)
Definition pre_dec_loop (w c : Z) : list Z * Z :=
  (replicate (Z.to_nat (w - 1)) c, if 1 <? w then 0 else w - 1).

(** [while (len < w--) *str++ = c;] *)
Definition upto_loop (len w c : Z) : list Z * Z :=
  (replicate (Z.to_nat (w - len)) c, if len <? w then len - 1 else w - 1).

(** [number]: the bytes it appends to [str]; [None] when it returns 0 instead.
    32 turns of the digit loop are enough for a 32-bit value in any base. *)
Definition number (num base size precision type : Z) : option (list Z) :=
  let digits := if has type SMALL then digits_small else DIGITS in
  let type := if has type LEFT then Z.land type (Z.lnot ZEROPAD) else type in
  if (base <? 2) || (36 <? base) then None else
  let c := if has type ZEROPAD then 48 else 32 in
  let '(sign, num) :=
    if has type SIGN && (num <? 0) then (45, s32 (- num))
    else (if has type PLUS then 43 else if has type SPACE then 32 else 0, num) in
  let size := if cbool sign then size - 1 else size in
  let size := if has type SPECIAL
              then if base =? 16 then size - 2 else if base =? 8 then size - 1 else size
              else size in
  let tmp := if num =? 0 then [48] else digit_loop 32 digits (u32 num) base in
  let i := Z.of_nat (length tmp) in
  let precision := if precision <? i then i else precision in
  let size := size - precision in
  let '(pad1, size) := if has type (ZEROPAD + LEFT) then ([], size)
                       else post_dec_loop size 32 in
  let sign_out := if cbool sign then [sign] else [] in
  let prefix := if has type SPECIAL
                then if base =? 8 then [48]
                     else if base =? 16 then [48; nth 33 digits 0] else []
                else [] in
  let '(pad2, size) := if has type LEFT then ([], size) else post_dec_loop size c in
  let zeros := replicate (Z.to_nat (precision - i)) 48 in
  let '(pad3, _) := post_dec_loop size 32 in
  Some (pad1 ++ sign_out ++ prefix ++ pad2 ++ zeros ++ reverse tmp ++ pad3).

(** ** vsprintf *)

(** An argument of the variadic call: a machine word, a string, or the address
    of an [int]. *)
Inductive va :=
| VInt (n : Z)
| VStr (s : list Z)
| VPtr (p : Z).

(** [va_arg] at a word type; [None] is an argument list that ran out or an
    argument of another kind (undefined behaviour in C). *)
Definition va_word (args : list va) : option (Z * list va) :=
  match args with
  | VInt n :: r => Some (n, r)
  | VPtr p :: r => Some (p, r)
  | _ => None
  end.

Definition va_str (args : list va) : option (list Z * list va) :=
  match args with VStr s :: r => Some (s, r) | _ => None end.

(** The [repeat:] label: flags after the percent sign. *)
Fixpoint flags_loop (fmt : list Z) (flags : Z) : Z * list Z :=
  match fmt with
  | c :: r =>
    if c =? 45 then flags_loop r (Z.lor flags LEFT)
    else if c =? 43 then flags_loop r (Z.lor flags PLUS)
    else if c =? 32 then flags_loop r (Z.lor flags SPACE)
    else if c =? 35 then flags_loop r (Z.lor flags SPECIAL)
    else if c =? 48 then flags_loop r (Z.lor flags ZEROPAD)
    else (flags, fmt)
  | [] => (flags, fmt)
  end.

(** [*fmt], 0 at the end of the string. *)
Definition peek (fmt : list Z) : Z := hd 0 fmt.

(** The field width.  At a ['*'] the argument is taken but [fmt] is not
    advanced. *)
Definition get_width (fmt : list Z) (flags : Z) (args : list va)
  : option (Z * Z * list Z * list va) :=
  if is_digit (peek fmt) then
    let '(w, fmt) := skip_atoi fmt in Some (w, flags, fmt, args)
  else if peek fmt =? 42 then
    match va_word args with
    | None => None
    | Some (w, args) =>
      if s32 w <? 0 then Some (s32 (- s32 w), Z.lor flags LEFT, fmt, args)
      else Some (s32 w, flags, fmt, args)
    end
  else Some (-1, flags, fmt, args).

Definition get_precision (fmt : list Z) (args : list va)
  : option (Z * list Z * list va) :=
  if peek fmt =? 46 then
    let fmt := tl fmt in
    let clamp p := if p <? 0 then 0 else p in
    if is_digit (peek fmt) then
      let '(p, fmt) := skip_atoi fmt in Some (clamp p, fmt, args)
    else if peek fmt =? 42 then
      match va_word args with
      | None => None
      | Some (p, args) => Some (clamp (s32 p), fmt, args)
      end
    else Some (clamp (-1), fmt, args)
  else Some (-1, fmt, args).

Definition skip_qualifier (fmt : list Z) : list Z :=
  if (peek fmt =? 104) || (peek fmt =? 108) || (peek fmt =? 76) then tl fmt else fmt.

(** What one conversion does: bytes emitted, arguments left, and the store of
    a [%n]. *)
Definition conv_result : Type := list Z * list va * list (Z * Z).

Definition conv_number (base width precision flags : Z) (args : list va)
  : option conv_result :=
  match va_word args with
  | None => None
  | Some (n, args) =>
    match number (s32 n) base width precision flags with
    | None => None
    | Some out => Some (out, args, [])
    end
  end.

(** The [switch] on the conversion character [c]; [pos] is [str-buf].
    The qualifier is parsed and ignored by the code. *)
Definition convert (c width precision flags pos : Z) (args : list va)
  : option conv_result :=
  if c =? 99 then (* 'c' *)
    let '(pre, w) := if has flags LEFT then ([], width) else pre_dec_loop width 32 in
    match va_word args with
    | None => None
    | Some (n, args) =>
      let '(post, _) := pre_dec_loop w 32 in Some (pre ++ [u8 n] ++ post, args, [])
    end
  else if c =? 115 then (* 's' *)
    match va_str args with
    | None => None
    | Some (s, args) =>
      let len := Z.of_nat (length s) in
      let len := if (precision <? 0) then len
                 else if precision <? len then precision else len in
      let '(pre, w) := if has flags LEFT then ([], width) else upto_loop len width 32 in
      let '(post, _) := upto_loop len w 32 in
      Some (pre ++ take (Z.to_nat len) s ++ post, args, [])
    end
  else if c =? 111 then conv_number 8 width precision flags args (* 'o' *)
  else if c =? 112 then (* 'p' *)
    if width =? -1 then conv_number 16 8 precision (Z.lor flags ZEROPAD) args
    else conv_number 16 width precision flags args
  else if c =? 120 then conv_number 16 width precision (Z.lor flags SMALL) args (* 'x' *)
  else if c =? 88 then conv_number 16 width precision flags args (* 'X' *)
  else if (c =? 100) || (c =? 105)
  then conv_number 10 width precision (Z.lor flags SIGN) args (* 'd' 'i' *)
  else if c =? 117 then conv_number 10 width precision flags args (* 'u' *)
  else if c =? 110 then (* 'n' *)
    match args with
    | VPtr ip :: args => Some ([], args, [(ip, pos)])
    | _ => None
    end
  else
    Some ((if c =? 37 then [] else [37]) ++ (if c =? 0 then [] else [c]), args, []).

(** The [for (str=buf ; *fmt ; ++fmt)] loop.  Each turn consumes at least one
    byte of the format, so its length is enough fuel. *)
Fixpoint vsprintf_loop (fuel : nat) (fmt : list Z) (args : list va)
    (out : list Z) (stores : list (Z * Z)) : option (list Z * list (Z * Z)) :=
  match fuel with
  | O => Some (out, stores)
  | S fuel =>
    match fmt with
    | [] => Some (out, stores)
    | c :: fmt =>
      if negb (c =? 37) then vsprintf_loop fuel fmt args (out ++ [c]) stores
      else
        let '(flags, fmt) := flags_loop fmt 0 in
        match get_width fmt flags args with
        | None => None
        | Some (width, flags, fmt, args) =>
          match get_precision fmt args with
          | None => None
          | Some (precision, fmt, args) =>
            let fmt := skip_qualifier fmt in
            match convert (peek fmt) width precision flags (Z.of_nat (length out)) args with
            | None => None
            | Some (bytes, args, st) =>
              vsprintf_loop fuel (tl fmt) args (out ++ bytes) (stores ++ st)
            end
          end
        end
    end
  end.

(** [vsprintf]: the returned length, the buffer with its NUL, and the [%n]
    stores. *)
Definition vsprintf (fmt : list Z) (args : list va)
  : option (Z * list Z * list (Z * Z)) :=
  match vsprintf_loop (length fmt) fmt args [] [] with
  | None => None
  | Some (out, stores) => Some (Z.of_nat (length out), out ++ [0], stores)
  end.

(** ** Reading a number back *)

Definition digit_value (c : Z) : Z :=
  if is_digit c then c - 48
  else if (65 <=? c) && (c <=? 90) then c - 55
  else if (97 <=? c) && (c <=? 122) then c - 87 else 0.

(** The number a digit string denotes, most significant digit first. *)
Definition value (base : Z) (l : list Z) : Z :=
  foldl (fun acc c => acc * base + digit_value c) 0 l.

Definition signed_value (base : Z) (l : list Z) : Z :=
  match l with
  | c :: r => if c =? 45 then - value base r else value base l
  | [] => 0
  end.

Lemma value_snoc base l c : value base (l ++ [c]) = value base l * base + digit_value c.
Proof. unfold value. by rewrite foldl_app. Qed.

(** Both digit tables are tables of digits. *)
Definition digit_table (digits : list Z) : Prop :=
  forall d, 0 <= d < 36 ->
  digit_value (nth (Z.to_nat d) digits 0) = d /\ nth (Z.to_nat d) digits 0 <> 45.

Definition digit_table_ok (digits : list Z) : bool :=
  forallb (fun d => (digit_value (nth d digits 0) =? Z.of_nat d)
                    && negb (nth d digits 0 =? 45)) (seq 0 36).

Lemma digit_table_checked digits : digit_table_ok digits = true -> digit_table digits.
Proof.
  unfold digit_table_ok. rewrite forallb_forall. intros H d Hd.
  specialize (H (Z.to_nat d)). rewrite in_seq, andb_true_iff, negb_true_iff in H.
  rewrite Z.eqb_eq, Z.eqb_neq, Z2Nat.id in H by lia. apply H. lia.
Qed.

Lemma DIGITS_table : digit_table DIGITS.
Proof. apply digit_table_checked. reflexivity. Qed.

Lemma digits_small_table : digit_table digits_small.
Proof. apply digit_table_checked. reflexivity. Qed.

#[export] Hint Resolve DIGITS_table digits_small_table : kernel.

Section DigitLoop.
Context (digits : list Z) (base : Z).
Hypothesis (Htab : digit_table digits) (Hbase : 2 <= base <= 36).

Lemma digit_loop_value fuel n :
  0 <= n < base ^ Z.of_nat fuel ->
  value base (reverse (digit_loop fuel digits n base)) = n.
Proof using Htab Hbase.
  revert n. induction fuel as [|fuel IH]; intros n Hn; cbn [digit_loop].
  - cbn. simpl in Hn. lia.
  - destruct (Z.eqb_spec n 0) as [->|Hn0]; [done |].
    rewrite reverse_cons, value_snoc, IH.
    + destruct (Htab (n mod base)) as [-> _].
      { pose proof (Z.mod_pos_bound n base). lia. }
      pose proof (Z.div_mod n base). lia.
    + split; [apply Z.div_pos; lia |].
      apply Z.div_lt_upper_bound; [lia |].
      rewrite Nat2Z.inj_succ, Z.pow_succ_r in Hn by lia. lia.
Qed.

Lemma digit_loop_no_minus fuel n :
  0 <= n -> Forall (fun c => c <> 45) (digit_loop fuel digits n base).
Proof using Htab Hbase.
  revert n. induction fuel as [|fuel IH]; intros n Hn; cbn [digit_loop]; [constructor |].
  destruct (n =? 0); constructor.
  - apply Htab. pose proof (Z.mod_pos_bound n base). lia.
  - apply IH, Z.div_pos; lia.
Qed.

Lemma u32_lt_pow32 n : u32 n < base ^ Z.of_nat 32.
Proof using Hbase.
  pose proof (u32_range n). pose proof (Z.pow_le_mono_l 2 base 32). lia.
Qed.
End DigitLoop.

(** The digits [number] prints for the unsigned value [n]. *)
Definition digits_of (digits : list Z) (n base : Z) : list Z :=
  if n =? 0 then [48] else digit_loop 32 digits (u32 n) base.

Lemma digits_of_value digits n base :
  digit_table digits -> 2 <= base <= 36 ->
  value base (reverse (digits_of digits n base)) = u32 n.
Proof.
  intros Ht Hb. unfold digits_of. destruct (Z.eqb_spec n 0) as [->|]; [done |].
  apply digit_loop_value; [done | done |]. split; [apply u32_range | by apply u32_lt_pow32].
Qed.

Lemma digits_of_no_minus digits n base :
  digit_table digits -> 2 <= base <= 36 -> Forall (fun c => c <> 45) (digits_of digits n base).
Proof.
  intros Ht Hb. unfold digits_of. destruct (n =? 0); [by repeat constructor |].
  apply digit_loop_no_minus; auto. apply u32_range.
Qed.

(** ** The layout of [number] *)

(** The parts of the output whose widths the caller's [size] must cover. *)
Definition sign_width (num type : Z) : Z :=
  if has type SIGN && (num <? 0) then 1
  else if has type PLUS || has type SPACE then 1 else 0.

Definition prefix_width (base type : Z) : Z :=
  if has type SPECIAL then if base =? 16 then 2 else if base =? 8 then 1 else 0 else 0.

Definition magnitude (num type : Z) : Z :=
  if has type SIGN && (num <? 0) then s32 (- num) else num.

Definition digit_count (num base type : Z) : Z :=
  Z.of_nat (length (digits_of (if has type SMALL then digits_small else DIGITS)
                              (magnitude num type) base)).

(** Clearing [ZEROPAD] leaves the other flags alone. *)
Lemma has_unpad type flag :
  Z.land (Z.lnot ZEROPAD) flag = flag -> has (Z.land type (Z.lnot ZEROPAD)) flag = has type flag.
Proof. intros H. unfold has. by rewrite <- Z.land_assoc, H. Qed.

Lemma has_split type :
  has type (ZEROPAD + LEFT) = has type ZEROPAD || has type LEFT.
Proof.
  unfold has, cbool. change (ZEROPAD + LEFT) with (Z.lor ZEROPAD LEFT).
  rewrite Z.land_lor_distr_r. rewrite <- negb_andb. f_equal.
  apply eq_true_iff_eq. rewrite andb_true_iff, !Z.eqb_eq. apply Z.lor_eq_0_iff.
Qed.

Lemma has_pad_cleared type : has (Z.land type (Z.lnot ZEROPAD)) ZEROPAD = false.
Proof. unfold has. by rewrite <- Z.land_assoc, Z.land_0_r. Qed.

(** in a valid base the output of [number] is exactly as wide as asked:
    [size] bytes, or what sign, prefix and digits need when that is more. *)
Theorem number_width (num base size precision type : Z) :
  2 <= base <= 36 ->
  exists out, number num base size precision type = Some out
  /\ Z.of_nat (length out)
     = Z.max size (sign_width num type + prefix_width base type
                   + Z.max precision (digit_count num base type)).
Proof.
  intros Hb. unfold number, digit_count, sign_width, prefix_width, magnitude, digits_of.
  replace ((base <? 2) || (36 <? base)) with false by lia.
  set (ty := if has type LEFT then _ else type).
  assert (Hf : forall f, Z.land (Z.lnot ZEROPAD) f = f -> has ty f = has type f).
  { intros f Hf. subst ty. destruct (has type LEFT); [by apply has_unpad | done]. }
  rewrite has_split, !(Hf SIGN), !(Hf PLUS), !(Hf SPACE), !(Hf SPECIAL), !(Hf LEFT) by done.
  assert (Hz : has type LEFT = true -> has ty ZEROPAD = false).
  { intros E. subst ty. rewrite E. apply has_pad_cleared. }
  destruct (has type SIGN && (num <? 0)); cbn iota beta;
  set (tmp := if _ =? 0 then _ else _); clearbody tmp;
  destruct (has type LEFT) eqn:EL;
    [rewrite (Hz eq_refl) | destruct (has ty ZEROPAD) |
     rewrite (Hz eq_refl) | destruct (has ty ZEROPAD)];
  destruct (has type PLUS), (has type SPACE), (has type SPECIAL);
  destruct (base =? 16) eqn:E16, (base =? 8) eqn:E8; try lia; cbn;
  (eexists; split; [reflexivity |]);
  destruct (precision <? Z.of_nat (length tmp)) eqn:EP;
  repeat match goal with |- context [if 0 <? ?x then -1 else _] => destruct (0 <? x) eqn:? end;
  repeat (rewrite ?length_app, ?length_replicate, ?length_reverse; cbn [length]); lia.
Qed.

Lemma number_width_witness :
  exists out, number (-42) 10 8 (-1) (Z.lor SIGN ZEROPAD) = Some out
              /\ Z.of_nat (length out) = 8.
Proof.
  destruct (number_width (-42) 10 8 (-1) (Z.lor SIGN ZEROPAD)) as (out & E & L);
    [lia |].
  exists out. split; [exact E | rewrite L; reflexivity].
Defined.

Lemma post_dec_loop_neg size c : size <= 0 -> post_dec_loop size c = ([], size - 1).
Proof.
  intros H. unfold post_dec_loop. rewrite Z2Nat.nonpos by lia.
  by destruct (0 <? size) eqn:E; [lia |].
Qed.

(** Without width, precision and padding flags [number] prints a minus sign
    when it is asked for one, and the digits. *)
Lemma number_bare num base type :
  2 <= base <= 36 ->
  has type ZEROPAD = false -> has type LEFT = false -> has type PLUS = false ->
  has type SPACE = false -> has type SPECIAL = false ->
  number num base (-1) (-1) type
  = Some ((if has type SIGN && (num <? 0) then [45] else [])
          ++ reverse (digits_of (if has type SMALL then digits_small else DIGITS)
                                (magnitude num type) base)).
Proof.
  intros Hb Hz Hl Hp Hs Hx. unfold number, magnitude, digits_of.
  rewrite Hl, has_split, Hz, Hl, Hp, Hs, Hx. cbn [orb].
  replace ((base <? 2) || (36 <? base)) with false by lia.
  destruct (has type SIGN && (num <? 0)); cbn [cbool Z.eqb negb];
  set (tmp := if _ =? 0 then _ else _);
  rewrite (proj2 (Z.ltb_lt (-1) (Z.of_nat (length tmp)))) by (clear; lia);
  rewrite (post_dec_loop_neg _ 32) by lia; rewrite (post_dec_loop_neg _ 32) by lia;
  rewrite (post_dec_loop_neg _ 32) by lia;
  rewrite Z.sub_diag; cbn; by rewrite app_nil_r.
Qed.

Lemma signed_value_plain base l :
  Forall (fun c => c <> 45) l -> signed_value base l = value base l.
Proof.
  intros H. destruct H as [|c l Hc _]; [done |]. cbn.
  by destruct (Z.eqb_spec c 45).
Qed.

Lemma s32_u32 x : s32 (u32 x) = s32 x.
Proof. apply s32_ext. unfold u32. by rewrite Zmod_mod. Qed.

(** [vsprintf] of a format that is one conversion. *)
Lemma vsprintf_conversion fmt c args n base flags :
  fmt = [37; c] -> args = [VInt n] ->
  (forall pos, convert c (-1) (-1) 0 pos args = conv_number base (-1) (-1) flags args) ->
  flags_loop [c] 0 = (0, [c]) -> is_digit c = false -> c <> 42 -> c <> 46 ->
  skip_qualifier [c] = [c] ->
  vsprintf fmt args
  = match number (s32 n) base (-1) (-1) flags with
    | Some out => Some (Z.of_nat (length out), out ++ [0], [])
    | None => None
    end.
Proof.
  intros -> -> Hc Hf Hd Hstar Hdot Hq. unfold vsprintf. cbn [length vsprintf_loop].
  cbn [Z.eqb Pos.eqb negb]. rewrite Hf.
  unfold get_width, get_precision, peek. cbn [hd]. rewrite Hd.
  rewrite (proj2 (Z.eqb_neq c 42)) by done. cbn [hd].
  rewrite (proj2 (Z.eqb_neq c 46)) by done. rewrite Hq. cbn [hd tl]. rewrite Hc. unfold conv_number. cbn [va_word].
  destruct (number (s32 n) base (-1) (-1) flags); done.
Qed.

(** The unsigned conversions: the printed digits denote the 32-bit value. *)
Lemma vsprintf_unsigned c base flags n :
  2 <= base <= 36 -> flags = 0 \/ flags = SMALL ->
  (forall pos args, convert c (-1) (-1) 0 pos args = conv_number base (-1) (-1) flags args) ->
  flags_loop [c] 0 = (0, [c]) -> is_digit c = false -> c <> 42 -> c <> 46 ->
  skip_qualifier [c] = [c] ->
  exists l, vsprintf [37; c] [VInt n] = Some (Z.of_nat (length l), l ++ [0], [])
            /\ value base l = u32 n.
Proof.
  intros Hb Hfl Hc Hf Hd Hs Hdot Hq.
  erewrite vsprintf_conversion; eauto.
  rewrite number_bare by (destruct Hfl as [-> | ->]; done || lia).
  assert (Hsgn : has flags SIGN = false) by (by destruct Hfl as [-> | ->]).
  unfold magnitude. rewrite Hsgn. cbn [andb app].
  eexists; split; [reflexivity |].
  rewrite digits_of_value; [apply u32_s32 | destruct (has flags SMALL); auto with kernel | done].
Qed.


Lemma vsprintf_loop_text fmt args out stores :
  Forall (fun c => c <> 37) fmt ->
  vsprintf_loop (length fmt) fmt args out stores = Some (out ++ fmt, stores).
Proof.
  intros H. revert out. induction H as [|c fmt Hc _ IH]; intros out; cbn.
  - by rewrite app_nil_r.
  - rewrite (proj2 (Z.eqb_neq c 37) Hc). cbn. rewrite IH, <- app_assoc. done.
Qed.

(** a format without a percent sign is copied unchanged, whatever the
    arguments. *)
Theorem vsprintf_text (fmt : list Z) (args : list va) :
  Forall (fun c => c <> 37) fmt ->
  vsprintf fmt args = Some (Z.of_nat (length fmt), fmt ++ [0], []).
Proof. intros H. unfold vsprintf. by rewrite vsprintf_loop_text. Qed.

Lemma vsprintf_text_witness :
  vsprintf (cstr "ok") [VInt 3] = Some (2, cstr "ok" ++ [0], []).
Proof. apply (vsprintf_text (cstr "ok")). repeat constructor; discriminate. Defined.

(** a width given as ['*'] is not implemented, although the code means it
    to be the next argument: the argument is consumed, the star is printed and
    the conversion after it is copied as text. *)
Theorem vsprintf_star_width_ignored (w n : Z) :
  vsprintf (cstr "%*d") [VInt w; VInt n] = Some (3, cstr "%*d" ++ [0], []).
Proof.
  unfold vsprintf. cbn. unfold get_width. cbn.
  destruct (s32 w <? 0); cbn; reflexivity.
Qed.

(** ** Termination: the parsing steps never lengthen the format *)

Lemma flags_loop_length fmt flags : (length (flags_loop fmt flags).2 <= length fmt)%nat.
Proof.
  revert flags. induction fmt as [|c fmt IH]; intros flags; cbn [flags_loop]; [done |].
  repeat (case_match; [etrans; [apply IH | cbn; lia] |]). done.
Qed.

Lemma skip_atoi_from_length i s : (length (skip_atoi_from i s).2 <= length s)%nat.
Proof.
  revert i. induction s as [|c s IH]; intros i; cbn [skip_atoi_from]; [done |].
  case_match; [etrans; [apply IH | cbn; lia] | done].
Qed.

Lemma tl_length (l : list Z) : (length (tl l) <= length l)%nat.
Proof. destruct l; cbn; lia. Qed.

Lemma get_width_length fmt flags args w fl fmt' args' :
  get_width fmt flags args = Some (w, fl, fmt', args') -> (length fmt' <= length fmt)%nat.
Proof.
  unfold get_width, skip_atoi. pose proof (skip_atoi_from_length 0 fmt) as Hs.
  destruct (skip_atoi_from 0 fmt) as [i r] eqn:E.
  intros H. repeat case_match; simplify_eq/=; done.
Qed.

Lemma get_precision_length fmt args p fmt' args' :
  get_precision fmt args = Some (p, fmt', args') -> (length fmt' <= length fmt)%nat.
Proof.
  unfold get_precision, skip_atoi. pose proof (skip_atoi_from_length 0 (tl fmt)) as Hs.
  pose proof (tl_length fmt).
  destruct (skip_atoi_from 0 (tl fmt)) as [i r] eqn:E.
  intros HP. repeat case_match; simplify_eq/=; lia.
Qed.

Lemma skip_qualifier_length fmt : (length (skip_qualifier fmt) <= length fmt)%nat.
Proof. unfold skip_qualifier. case_match; [apply tl_length | done]. Qed.

(** the main loop terminates by itself: once the fuel covers the length of
    the format, more fuel changes nothing, so [vsprintf] runs the loop of the
    source to its end. *)
Theorem vsprintf_loop_fuel (fuel : nat) (fmt : list Z) (args : list va)
    (out : list Z) (stores : list (Z * Z)) :
  (length fmt <= fuel)%nat ->
  vsprintf_loop fuel fmt args out stores = vsprintf_loop (length fmt) fmt args out stores.
Proof.
  remember (length fmt) as n eqn:Hn. intros Hle.
  assert (Hlen : (length fmt <= n)%nat) by lia. clear Hn.
  revert fuel Hle fmt Hlen args out stores.
  induction n as [|n IH]; intros fuel Hle fmt Hlen args out stores.
  - destruct fmt; [by destruct fuel | cbn in Hlen; lia].
  - destruct fuel as [|fuel]; [lia |]. cbn [vsprintf_loop].
    destruct fmt as [|c fmt]; [done |]. cbn in Hlen.
    destruct (negb (c =? 37)); [apply IH; lia |].
    pose proof (flags_loop_length fmt 0) as Hf.
    destruct (flags_loop fmt 0) as [fl f1]. cbn in Hf.
    destruct (get_width f1 fl args) as [[[[w fl'] f2] a2]|] eqn:Ew; [|done].
    apply get_width_length in Ew.
    destruct (get_precision f2 a2) as [[[p f3] a3]|] eqn:Ep; [|done].
    apply get_precision_length in Ep.
    destruct (convert _ _ _ _ _ _) as [[[b a4] st]|]; [|done].
    pose proof (skip_qualifier_length f3). pose proof (tl_length (skip_qualifier f3)).
    apply IH; lia.
Qed.

Lemma vsprintf_loop_fuel_witness :
  vsprintf_loop 50 (cstr "%d") [VInt 1] [] [] = Some (cstr "1", []).
Proof.
  rewrite (vsprintf_loop_fuel 50 (cstr "%d")); [reflexivity | cbn; lia].
Defined.
