(* ===== verification/StringAsm.v ===== *)
(** The string routines of include/string.h, which are inline assembly: the instructions they
    use, as a processor with six registers, flags and memory, and the routines themselves,
    instruction by instruction. *)
From stdpp Require Import base list strings.
From Stdlib Require Import ZArith Lia.
From S2P Require Import Prelude.
Open Scope Z_scope.

(** ** The processor *)

(** [lt] is what [jl] tests, the sign flag against the overflow flag; [df] is the direction
    flag. *)
Record cpu := mk_cpu {
  eax : Z; ebx : Z; ecx : Z; edx : Z; esi : Z; edi : Z;
  zf : bool; sf : bool; lt : bool; df : bool; mem : Z -> Z }.
#[export] Instance cpu_fields : Fields cpu := fun s =>
  mk_cpu (eax s) (ebx s) (ecx s) (edx s) (esi s) (edi s) (zf s) (sf s) (lt s) (df s) (mem s).

Definition stored (a v : Z) (m : Z -> Z) : Z -> Z := fun b => if b =? a then v else m b.
Definition al (s : cpu) : Z := eax s mod 256.
Definition ah (s : cpu) : Z := eax s / 256 mod 256.
Definition set_al (v : Z) (s : cpu) : cpu := over eax (fun a => a - a mod 256 + v) s.

Inductive reg := EAX | EBX | ECX | EDX | ESI | EDI.
Definition rd (r : reg) (s : cpu) : Z :=
  match r with EAX => eax s | EBX => ebx s | ECX => ecx s | EDX => edx s | ESI => esi s | EDI => edi s end.
Definition wr (r : reg) (v : Z) (s : cpu) : cpu :=
  match r with
  | EAX => put eax v s | EBX => put ebx v s | ECX => put ecx v s | EDX => put edx v s | ESI => put esi v s | EDI => put edi v s
  end.

(** Flags of a result of 32 bits, where [less] says whether its true value is negative; of a
    comparison of bytes; of the test of a byte. *)
Definition flags32 (v : Z) (less : bool) (s : cpu) : cpu := put zf (v =? 0) (put sf (2 ^ 31 <=? v) (put lt less s)).
Definition cmp8 (a b : Z) (s : cpu) : cpu := put zf (a =? b) (put sf (128 <=? u8 (a - b)) (put lt (s8 a <? s8 b) s)).
Definition test8 (a : Z) (s : cpu) : cpu := put zf (a =? 0) (put sf (128 <=? a) (put lt (128 <=? a) s)).

(** A label as gas has it: the nearest [n:] before or behind. *)
Inductive label := B (n : nat) | F (n : nat).
Inductive string_op := lodsb | stosb | scasb | movsb | cmpsb.
Inductive cond := always | equal | not_equal | sign | less.
Inductive instr :=
| L (n : nat)
| cld | std
| str (op : string_op) | rep (op : string_op) | repne (op : string_op) | repe (op : string_op)
| testb_al | testl (r : reg) | movb_al_ah | cmpb_ah_al
| cmpb_0 (disp : Z) (r : reg) | movb_0 (r : reg)
| decl (r : reg) | incl (r : reg) | negl (r : reg) | notl (r : reg) | xorl (r : reg)
| movl (src dst : reg) | movl_imm (v : Z) (r : reg) | xchgl (r1 r2 : reg)
| j (c : cond) (l : label).

Definition advance (s : cpu) (a : Z) : Z := if df s then u32 (a - 1) else u32 (a + 1).
Definition do_op (op : string_op) (s : cpu) : cpu :=
  match op with
  | lodsb => put esi (advance s (esi s)) (set_al (mem s (esi s)) s)
  | stosb => put edi (advance s (edi s)) (over mem (stored (edi s) (al s)) s)
  | scasb => put edi (advance s (edi s)) (cmp8 (al s) (mem s (edi s)) s)
  | movsb => put esi (advance s (esi s)) (put edi (advance s (edi s)) (over mem (stored (edi s) (mem s (esi s))) s))
  | cmpsb => put esi (advance s (esi s)) (put edi (advance s (edi s)) (cmp8 (mem s (esi s)) (mem s (edi s)) s))
  end.

Definition is_label (n : nat) (i : instr) : bool := match i with L m => (m =? n)%nat | _ => false end.
(** Where the nearest label is, from [pc] on and backwards from it. *)
Fixpoint forwards (code : list instr) (n pc : nat) : option nat :=
  match code with
  | [] => None
  | i :: code => if is_label n i then Some pc else forwards code n (S pc)
  end.
Fixpoint backwards (code : list instr) (n pc : nat) : option nat :=
  match pc with
  | O => None
  | S pc => if match code !! pc with Some i => is_label n i | None => false end then Some pc else backwards code n pc
  end.
Definition target (code : list instr) (pc : nat) (l : label) : option nat :=
  match l with B n => backwards code n pc | F n => forwards (drop pc code) n pc end.
Definition holds_now (c : cond) (s : cpu) : bool :=
  match c with always => true | equal => zf s | not_equal => negb (zf s) | sign => sf s | less => lt s end.

(** One instruction, and one turn of a repeated one. *)
Definition step (code : list instr) (pc : nat) (s : cpu) : option (nat * cpu) :=
  match code !! pc with
  | None => None
  | Some i =>
    let next s := Some (S pc, s) in
    match i with
    | L _ => next s
    | cld => next (put df false s)
    | std => next (put df true s)
    | str op => next (do_op op s)
    | rep op => if ecx s =? 0 then next s else Some (pc, over ecx (fun c => c - 1) (do_op op s))
    | repne op => if ecx s =? 0 then next s else let s := over ecx (fun c => c - 1) (do_op op s) in if zf s then next s else Some (pc, s)
    | repe op => if ecx s =? 0 then next s else let s := over ecx (fun c => c - 1) (do_op op s) in if zf s then Some (pc, s) else next s
    | testb_al => next (test8 (al s) s)
    | testl r => next (flags32 (rd r s) (2 ^ 31 <=? rd r s) s)
    | movb_al_ah => next (over eax (fun a => a - a / 256 mod 256 * 256 + a mod 256 * 256) s)
    | cmpb_ah_al => next (cmp8 (al s) (ah s) s)
    | cmpb_0 d r => next (cmp8 (mem s (u32 (rd r s + d))) 0 s)
    | movb_0 r => next (over mem (stored (rd r s) 0) s)
    | decl r => let v := u32 (rd r s - 1) in next (wr r v (flags32 v (s32 (rd r s) - 1 <? 0) s))
    | incl r => let v := u32 (rd r s + 1) in next (wr r v (flags32 v (s32 (rd r s) + 1 <? 0) s))
    | negl r => let v := u32 (- rd r s) in next (wr r v (flags32 v (- s32 (rd r s) <? 0) s))
    | notl r => next (wr r (u32 (- 1 - rd r s)) s)
    | xorl r => next (wr r 0 (flags32 0 false s))
    | movl src dst => next (wr dst (rd src s) s)
    | movl_imm v r => next (wr r v s)
    | xchgl r1 r2 => next (wr r1 (rd r2 s) (wr r2 (rd r1 s) s))
    | j c l => if holds_now c s then match target code pc l with Some pc => Some (pc, s) | None => None end else next s
    end
  end.

(** Execution up to the end of the code. *)
Fixpoint run (fuel : nat) (code : list instr) (pc : nat) : M cpu unit := fun s =>
  if (pc =? length code)%nat then Ok tt s else
  match fuel with
  | O => Ub
  | S fuel => match step code pc s with Some (pc, s) => run fuel code pc s | None => Ub end
  end.
Definition asm (fuel : nat) (code : list instr) : M cpu unit := run fuel code 0.
Definition load (r : reg) (v : Z) : M cpu unit := modify (wr r v).

(** ** The routines *)

Section Routines.
Context (fuel : nat).

(** Characters and counts are words in registers; what is not loaded is whatever was there. *)
Definition strcpy_code : list instr :=
  [cld; L 1; str lodsb; str stosb; testb_al; j not_equal (B 1)].
Definition strcpy (dest src : Z) : M cpu Z :=
  load ESI src ;;; load EDI dest ;;; asm fuel strcpy_code ;;; ret dest.

Definition strncpy_code : list instr :=
  [cld; L 1; decl ECX; j sign (F 2); str lodsb; str stosb; testb_al; j not_equal (B 1); rep stosb; L 2].
Definition strncpy (dest src count : Z) : M cpu Z :=
  load ESI src ;;; load EDI dest ;;; load ECX count ;;; asm fuel strncpy_code ;;; ret dest.

Definition strcat_code : list instr :=
  [cld; repne scasb; decl EDI; L 1; str lodsb; str stosb; testb_al; j not_equal (B 1)].
Definition strcat (dest src : Z) : M cpu Z :=
  load ESI src ;;; load EDI dest ;;; load EAX 0 ;;; load ECX 0xffffffff ;;; asm fuel strcat_code ;;; ret dest.

(** An operand "g" may be anything but the registers in use; it is an immediate value here. *)
Definition strncat_code (count : Z) : list instr :=
  [cld; repne scasb; decl EDI; movl_imm count ECX; L 1; decl ECX; j sign (F 2); str lodsb; str stosb; testb_al; j not_equal (B 1); L 2; xorl EAX; str stosb].
Definition strncat (dest src count : Z) : M cpu Z :=
  load ESI src ;;; load EDI dest ;;; load EAX 0 ;;; load ECX 0xffffffff ;;; asm fuel (strncat_code count) ;;; ret dest.

Definition strcmp_code : list instr :=
  [cld; L 1; str lodsb; str scasb; j not_equal (F 2); testb_al; j not_equal (B 1); xorl EAX; j always (F 3);
   L 2; movl_imm 1 EAX; j less (F 3); negl EAX; L 3].
Definition strcmp (cs ct : Z) : M cpu Z :=
  load EDI cs ;;; load ESI ct ;;; asm fuel strcmp_code ;;; get (fun s => s32 (eax s)).

Definition strncmp_code : list instr :=
  [cld; L 1; decl ECX; j sign (F 2); str lodsb; str scasb; j not_equal (F 3); testb_al; j not_equal (B 1); L 2; xorl EAX; j always (F 4);
   L 3; movl_imm 1 EAX; j less (F 4); negl EAX; L 4].
Definition strncmp (cs ct count : Z) : M cpu Z :=
  load EDI cs ;;; load ESI ct ;;; load ECX count ;;; asm fuel strncmp_code ;;; get (fun s => s32 (eax s)).

Definition strchr_code : list instr :=
  [cld; movb_al_ah; L 1; str lodsb; cmpb_ah_al; j equal (F 2); testb_al; j not_equal (B 1); movl_imm 1 ESI; L 2; movl ESI EAX; decl EAX].
Definition strchr (s c : Z) : M cpu Z :=
  load ESI s ;;; load EAX c ;;; asm fuel strchr_code ;;; get eax.

Definition strrchr_code : list instr :=
  [cld; movb_al_ah; L 1; str lodsb; cmpb_ah_al; j not_equal (F 2); movl ESI EDX; decl EDX; L 2; testb_al; j not_equal (B 1)].
Definition strrchr (s c : Z) : M cpu Z :=
  load EDX 0 ;;; load ESI s ;;; load EAX c ;;; asm fuel strrchr_code ;;; get edx.

(** The start of the routines that look for characters of [ct]: its length goes to %edx. *)
Definition length_of (ct : Z) : list instr := [cld; movl_imm ct EDI; repne scasb; notl ECX; decl ECX; movl ECX EDX].
(** Is the character in %al one of [ct]? *)
Definition among (ct : Z) : list instr := [movl_imm ct EDI; movl EDX ECX; repne scasb].

Definition strspn_code (ct : Z) : list instr :=
  length_of ct ++ [L 1; str lodsb; testb_al; j equal (F 2)] ++ among ct ++ [j equal (B 1); L 2; decl ESI].
Definition strcspn_code (ct : Z) : list instr :=
  length_of ct ++ [L 1; str lodsb; testb_al; j equal (F 2)] ++ among ct ++ [j not_equal (B 1); L 2; decl ESI].
Definition strpbrk_code (ct : Z) : list instr :=
  length_of ct ++ [L 1; str lodsb; testb_al; j equal (F 2)] ++ among ct ++ [j not_equal (B 1); decl ESI; j always (F 3); L 2; xorl ESI; L 3].
Definition load_cs (cs : Z) : M cpu unit := load EAX 0 ;;; load ECX 0xffffffff ;;; load ESI cs.
Definition strspn (cs ct : Z) : M cpu Z := load_cs cs ;;; asm fuel (strspn_code ct) ;;; get (fun s => s32 (esi s - cs)).
Definition strcspn (cs ct : Z) : M cpu Z := load_cs cs ;;; asm fuel (strcspn_code ct) ;;; get (fun s => s32 (esi s - cs)).
Definition strpbrk (cs ct : Z) : M cpu Z := load_cs cs ;;; asm fuel (strpbrk_code ct) ;;; get esi.

Definition strstr_code (ct : Z) : list instr :=
  length_of ct ++ [L 1; movl_imm ct EDI; movl ESI EAX; movl EDX ECX; repe cmpsb; j equal (F 2);
   xchgl EAX ESI; incl ESI; cmpb_0 (-1) EAX; j not_equal (B 1); xorl EAX; L 2].
Definition strstr (cs ct : Z) : M cpu Z := load_cs cs ;;; asm fuel (strstr_code ct) ;;; get eax.

Definition strlen_code : list instr := [cld; repne scasb; notl ECX; decl ECX].
Definition strlen (s : Z) : M cpu Z :=
  load EDI s ;;; load EAX 0 ;;; load ECX 0xffffffff ;;; asm fuel strlen_code ;;; get (fun s => s32 (ecx s)).

(** [saved] is the variable [___strtok]; its new value is the second result. *)
Definition strtok_code (ct : Z) : list instr :=
  [testl ESI; j not_equal (F 1); testl EBX; j equal (F 8); movl EBX ESI;
   L 1; xorl EBX; movl_imm 0xffffffff ECX; xorl EAX; cld; movl_imm ct EDI; repne scasb; notl ECX; decl ECX; j equal (F 7); movl ECX EDX;
   L 2; str lodsb; testb_al; j equal (F 7)] ++ among ct ++ [j equal (B 2); decl ESI; cmpb_0 0 ESI; j equal (F 7); movl ESI EBX;
   L 3; str lodsb; testb_al; j equal (F 5)] ++ among ct ++ [j not_equal (B 3); decl ESI; cmpb_0 0 ESI; j equal (F 5); movb_0 ESI; incl ESI; j always (F 6);
   L 5; xorl ESI; L 6; cmpb_0 0 EBX; j not_equal (F 7); xorl EBX; L 7; testl EBX; j not_equal (F 8); movl EBX ESI; L 8].
Definition strtok (saved s ct : Z) : M cpu (Z * Z) :=
  load EBX saved ;;; load ESI s ;;; asm fuel (strtok_code ct) ;;; get (fun s => (ebx s, esi s)).

Definition memcpy_code : list instr := [cld; rep movsb].
Definition load_copy (dest src n : Z) : M cpu unit := load ECX n ;;; load ESI src ;;; load EDI dest.
Definition memcpy (dest src n : Z) : M cpu Z := load_copy dest src n ;;; asm fuel memcpy_code ;;; ret dest.

Definition memmove_down_code : list instr := [std; rep movsb].
Definition memmove (dest src n : Z) : M cpu Z :=
  (if dest <? src then load_copy dest src n ;;; asm fuel memcpy_code
   else load_copy (u32 (dest + n - 1)) (u32 (src + n - 1)) n ;;; asm fuel memmove_down_code) ;;;
  ret dest.

Definition memcmp_code : list instr := [cld; repe cmpsb; j equal (F 1); movl_imm 1 EAX; j less (F 1); negl EAX; L 1].
Definition memcmp (cs ct count : Z) : M cpu Z :=
  load EAX 0 ;;; load EDI cs ;;; load ESI ct ;;; load ECX count ;;; asm fuel memcmp_code ;;; get (fun s => s32 (eax s)).

Definition memchr_code : list instr := [cld; repne scasb; j equal (F 1); movl_imm 1 EDI; L 1; decl EDI].
Definition memchr (cs c count : Z) : M cpu Z :=
  if count =? 0 then ret 0 else
  load EAX c ;;; load EDI cs ;;; load ECX count ;;; asm fuel memchr_code ;;; get edi.

Definition memset_code : list instr := [cld; rep stosb].
Definition memset (s c count : Z) : M cpu Z :=
  load EAX c ;;; load EDI s ;;; load ECX count ;;; asm fuel memset_code ;;; ret s.
End Routines.
