(* ===== verification/StringSpec.v ===== *)
(** What the string routines of include/string.h compute: the loops of string instructions,
    registers and flags do what the names of the routines say. *)
From stdpp Require Import base list strings.
From Stdlib Require Import ZArith Lia.
From S2P Require Import Prelude StringAsm.
Open Scope Z_scope.

(** ** Executions *)

Inductive steps (code : list instr) : nat -> cpu -> nat -> cpu -> Prop :=
| steps_refl pc s : steps code pc s pc s
| steps_S pc s pc1 s1 pc2 s2 : step code pc s = Some (pc1, s1) -> steps code pc1 s1 pc2 s2 -> steps code pc s pc2 s2.
Lemma steps_trans code pc s pc1 s1 pc2 s2 : steps code pc s pc1 s1 -> steps code pc1 s1 pc2 s2 -> steps code pc s pc2 s2.
Proof. induction 1; [done |]. intros. by eapply steps_S; [| auto]. Qed.
(** Code that comes to its end does so with enough fuel. *)
Lemma steps_run code pc s pc' s' : steps code pc s pc' s' -> pc' = length code -> exists f0, forall f, (f0 <= f)%nat -> run f code pc s = Ok tt s'.
Proof.
  induction 1 as [pc s | pc s pc1 s1 pc2 s2 E _ IH]; intros ->.
  - exists 0%nat. intros f _. destruct f; cbn [run]; by rewrite Nat.eqb_refl.
  - destruct IH as (f0 & IH); [done |]. exists (S f0). intros f Hf. destruct f as [|f]; [lia |]. cbn [run].
    destruct (Nat.eqb_spec pc (length code)) as [-> |]; [| rewrite E; apply IH; lia].
    unfold step in E. by rewrite (lookup_ge_None_2 code) in E.
Qed.

(** [returns m s v s']: the routine [m] ends with the value [v] when it has enough fuel. *)
Definition returns {A} (m : nat -> M cpu A) (s : cpu) (v : A) (s' : cpu) : Prop := exists f0, forall f, (f0 <= f)%nat -> m f s = Ok v s'.
Lemma returns_setup {A} (setup : M cpu unit) (m : nat -> M cpu A) s s0 x s' : setup s = Ok tt s0 -> returns m s0 x s' -> returns (fun f => setup ;;; m f) s x s'.
Proof. intros E (f0 & Hf). exists f0. intros f Hle. rewrite (bind_Ok _ _ _ _ _ E). by apply Hf. Qed.
Lemma returns_asm {A} code (k : M cpu A) s s1 x s' : steps code 0 s (length code) s1 -> k s1 = Ok x s' -> returns (fun f => asm f code ;;; k) s x s'.
Proof.
  intros H Hk. destruct (steps_run _ _ _ _ _ H eq_refl) as (f0 & Hf). exists f0. intros f Hle. unfold bind, asm. by rewrite Hf.
Qed.
(** The processor with the direction flag clear, and one instruction of known code. *)
#[local] Abbreviation up a b c d si di z f l m := (mk_cpu a b c d si di z f l false m).
Ltac exec := cbn -[do_op cmp8 test8 flags32 set_al wr put over];
  cbv [do_op cmp8 test8 flags32 set_al al ah advance wr rd put over eax ebx ecx edx esi edi zf sf lt df mem].
Ltac one := eapply steps_S; [exec; reflexivity |].

(** A byte in %al. *)
Definition low (a c : Z) : Z := a - a mod 256 + c.
Lemma low_al a c : 0 <= c < 256 -> low a c mod 256 = c.
Proof.
  intros Hc. unfold low. rewrite (Z.div_mod a 256) at 1 by lia. replace (256 * (a / 256) + a mod 256 - a mod 256 + c) with (c + a / 256 * 256) by lia.
  rewrite Z.mod_add by lia. by apply Z.mod_small.
Qed.
Lemma low_low a c d : 0 <= c < 256 -> low (low a c) d = low a d.
Proof. intros Hc. unfold low at 1. rewrite low_al by done. unfold low. lia. Qed.

(** ** Strings in memory *)

Definition bytes_at (m : Z -> Z) (a : Z) (l : list Z) : Prop := forall k c, l !! k = Some c -> m (a + Z.of_nat k) = c.
(** A string of the characters [l] starts at [a]. *)
Record cstring (m : Z -> Z) (a : Z) (l : list Z) : Prop := {
  cs_bytes : bytes_at m a (l ++ [0]);
  cs_chars : Forall (fun c => 0 < c < 256) l;
  cs_addr : 0 < a /\ a + Z.of_nat (length l) < 2 ^ 32 - 1 }.

Lemma bytes_at_cons m a c l : bytes_at m a (c :: l) -> m a = c /\ bytes_at m (a + 1) l.
Proof.
  intros H. split; [rewrite <- (H 0%nat c eq_refl); f_equal; lia |]. intros k d Hk. rewrite <- (H (S k) d Hk). f_equal. lia.
Qed.
Lemma cstring_cons m a c l : cstring m a (c :: l) -> m a = c /\ 0 < c < 256 /\ cstring m (a + 1) l.
Proof.
  intros [H1 H2 H3]. apply bytes_at_cons in H1 as (Hc & H1). apply Forall_cons in H2 as (Hr & H2). cbn [length] in H3. split_and!; try done; try lia. constructor; [done.. | lia].
Qed.
Lemma cstring_nil m a : cstring m a [] -> m a = 0.
Proof. intros [H _ _]. by apply bytes_at_cons in H as (H & _). Qed.

(** [repne scasb] stops behind the first byte that is %al, or when %ecx is zero. *)
Lemma scan_found code pc : code !! pc = Some (repne scasb) -> forall l a b c d si di z f t m x, bytes_at m di (l ++ [x]) -> a mod 256 = x -> x ∉ l ->
  Z.of_nat (length l) < c -> 0 <= di -> di + Z.of_nat (length l) < 2 ^ 32 - 1 ->
  exists f' t', steps code pc (up a b c d si di z f t m) (S pc) (up a b (c - Z.of_nat (length l) - 1) d si (di + Z.of_nat (length l) + 1) true f' t' m).
Proof.
  intros Hpc l. induction l as [|y l IH]; intros a b c d si di z f t m x Hm Hx Hn Hc Hd Hdi.
  - apply bytes_at_cons in Hm as (Hy & _). cbn [length] in *.
    assert (E : exists f' t', step code pc (up a b c d si di z f t m) = Some (S pc, up a b (c - 1) d si (di + 1) true f' t' m)).
    { unfold step. rewrite Hpc. exec. rewrite (proj2 (Z.eqb_neq c 0)) by lia. rewrite Hy, Hx, Z.eqb_refl, u32_small by lia. by eexists _, _. }
    destruct E as (f' & t' & E). exists f', t'. eapply steps_S; [exact E |]. replace (c - Z.of_nat 0 - 1) with (c - 1) by lia. replace (di + Z.of_nat 0 + 1) with (di + 1) by lia. constructor.
  - apply bytes_at_cons in Hm as (Hy & Hm). cbn [length] in *. rewrite not_elem_of_cons in Hn. destruct Hn as (Hxy & Hn).
    assert (E : exists f' t', step code pc (up a b c d si di z f t m) = Some (pc, up a b (c - 1) d si (di + 1) false f' t' m)).
    { unfold step. rewrite Hpc. exec. rewrite (proj2 (Z.eqb_neq c 0)) by lia. rewrite Hy, Hx, (proj2 (Z.eqb_neq x y)), u32_small by (done || lia). by eexists _, _. }
    destruct E as (f1 & t1 & E). destruct (IH a b (c - 1) d si (di + 1) false f1 t1 m x Hm Hx Hn ltac:(lia) ltac:(lia) ltac:(lia)) as (f' & t' & H').
    exists f', t'. eapply steps_S; [exact E |]. replace (c - Z.of_nat (S (length l)) - 1) with (c - 1 - Z.of_nat (length l) - 1) by lia.
    by replace (di + Z.of_nat (S (length l)) + 1) with (di + 1 + Z.of_nat (length l) + 1) by lia.
Qed.
Lemma scan_missing code pc : code !! pc = Some (repne scasb) -> forall l a b c d si di z f t m, bytes_at m di l -> a mod 256 ∉ l ->
  Z.of_nat (length l) = c -> 0 <= di -> di + Z.of_nat (length l) < 2 ^ 32 ->
  exists f' t', steps code pc (up a b c d si di z f t m) (S pc) (up a b 0 d si (di + c) (match l with [] => z | _ => false end) f' t' m).
Proof.
  intros Hpc l. induction l as [|y l IH]; intros a b c d si di z f t m Hm Hn Hc Hd Hdi; cbn [length] in *.
  - exists f, t. replace c with 0 by lia. rewrite Z.add_0_r. eapply steps_S; [| constructor]. unfold step. by rewrite Hpc.
  - apply bytes_at_cons in Hm as (Hy & Hm). rewrite not_elem_of_cons in Hn. destruct Hn as (Hxy & Hn).
    assert (E : exists f' t', step code pc (up a b c d si di z f t m) = Some (pc, up a b (c - 1) d si (di + 1) false f' t' m)).
    { unfold step. rewrite Hpc. exec. rewrite (proj2 (Z.eqb_neq c 0)) by lia. rewrite Hy, (proj2 (Z.eqb_neq _ y)), u32_small by (done || lia). by eexists _, _. }
    destruct E as (f1 & t1 & E). destruct (IH a b (c - 1) d si (di + 1) false f1 t1 m Hm Hn ltac:(lia) ltac:(lia) ltac:(lia)) as (f' & t' & H').
    exists f', t'. eapply steps_S; [exact E |]. replace (di + c) with (di + 1 + (c - 1)) by lia. by destruct l.
Qed.

(** The length of a string: %ecx counts down from -1. *)
Lemma count_string n : 0 <= n < 2 ^ 32 - 1 -> u32 (-1 - (0xffffffff - n - 1)) = n + 1 /\ u32 (n + 1 - 1) = n.
Proof. intros Hn. split; [replace (-1 - (0xffffffff - n - 1)) with (n + 1 + (-1) * 2 ^ 32) by lia; unfold u32; rewrite Z.mod_add by lia | ]; rewrite ?Z.mod_small, ?u32_small; lia. Qed.
Lemma cstring_scan m a l : cstring m a l -> bytes_at m a (l ++ [0]) /\ 0 ∉ l.
Proof. intros [H1 H2 _]. split; [done |]. intros H0. rewrite Forall_forall in H2. specialize (H2 0 H0). lia. Qed.
Lemma length_of_ok rest ct p a b d si di z f t df0 m : cstring m ct p -> a mod 256 = 0 ->
  exists f' t' , steps (length_of ct ++ rest) 0 (mk_cpu a b 0xffffffff d si di z f t df0 m)
    6 (up a b (Z.of_nat (length p)) (Z.of_nat (length p)) si (ct + Z.of_nat (length p) + 1) (Z.of_nat (length p) =? 0) f' t' m).
Proof.
  intros Hp Ha. destruct (cstring_scan m ct p Hp) as (Hb & H0). pose proof (cs_addr _ _ _ Hp) as Hr.
  destruct (scan_found (length_of ct ++ rest) 2 eq_refl p a b 0xffffffff d si ct z f t m 0 Hb Ha H0 ltac:(lia) ltac:(lia) ltac:(lia)) as (f' & t' & H').
  destruct (count_string (Z.of_nat (length p)) ltac:(lia)) as (C1 & C2).
  eexists _, _. one. one. eapply steps_trans; [exact H' |]. one. one. one. rewrite C1, C2. constructor.
Qed.

(** The search for %al among the characters of [ct]; %zf says whether it is one.  If there
    are none, the flag is left from before. *)
Lemma among_ok code pc ct p a b c si di f t m : code !! pc = Some (movl_imm ct EDI) -> code !! S pc = Some (movl EDX ECX) -> code !! S (S pc) = Some (repne scasb) ->
  cstring m ct p -> exists c' di' f' t', steps code pc (up a b c (Z.of_nat (length p)) si di false f t m)
    (S (S (S pc))) (up a b c' (Z.of_nat (length p)) si di' (bool_decide (a mod 256 ∈ p)) f' t' m).
Proof.
  intros E1 E2 E3 Hp. pose proof (cs_addr _ _ _ Hp) as Hr. set (n := Z.of_nat (length p)) in *.
  assert (S1 : forall s, step code pc s = Some (S pc, put edi ct s)) by (intros s; unfold step; by rewrite E1).
  assert (S2 : forall s, step code (S pc) s = Some (S (S pc), put ecx (edx s) s)) by (intros s; unfold step; by rewrite E2).
  assert (Hpb : bytes_at m ct p) by (intros k x Hk; apply (cs_bytes _ _ _ Hp); by apply lookup_app_l_Some).
  destruct (bool_decide (a mod 256 ∈ p)) eqn:Hin.
  - apply bool_decide_eq_true in Hin. destruct (list_elem_of_split_l p (a mod 256) Hin) as (l1 & l2 & Hsp & Hn).
    assert (Hl : length p = (length l1 + S (length l2))%nat) by (rewrite Hsp, length_app; done).
    assert (Hb : bytes_at m ct (l1 ++ [a mod 256])) by (intros k x Hk; apply Hpb; rewrite Hsp, cons_middle, app_assoc; by apply lookup_app_l_Some).
    destruct (scan_found code (S (S pc)) E3 l1 a b n n si ct false f t m (a mod 256) Hb eq_refl Hn ltac:(lia) ltac:(lia) ltac:(lia)) as (f' & t' & H').
    eexists _, _, f', t'. eapply steps_S; [apply S1 |]. eapply steps_S; [apply S2 |]. exact H'.
  - apply bool_decide_eq_false in Hin.
    destruct (scan_missing code (S (S pc)) E3 p a b n n si ct false f t m Hpb Hin eq_refl ltac:(lia) ltac:(lia)) as (f' & t' & H').
    eexists _, _, f', t'. eapply steps_S; [apply S1 |]. eapply steps_S; [apply S2 |]. replace (match p with [] => false | _ => false end) with false in H' by by destruct p. exact H'.
Qed.

(** ** Finding a string in another *)

Fixpoint begins (p q : list Z) : bool :=
  match p, q with
  | [], _ => true
  | _, [] => false
  | c :: p, d :: q => (c =? d) && begins p q
  end.
Fixpoint find (p q : list Z) : option nat :=
  if begins p q then Some O else match q with [] => None | _ :: q => S <$> find p q end.

Lemma begins_ok p : forall q, begins p q = true <-> exists r, q = p ++ r.
Proof.
  induction p as [|c p IH]; intros [|d q]; cbn [begins]; try (split; [by eexists | done]).
  - split; [done |]. by intros (r & Hr).
  - rewrite andb_true_iff, Z.eqb_eq, IH. split; [intros (-> & r & ->); by exists r | intros (r & Hr); injection Hr as -> ->; split; [done | by exists r]].
Qed.
Lemma begins_short p q : (length q < length p)%nat -> begins p q = false.
Proof. intros H. destruct (begins p q) eqn:E; [| done]. apply begins_ok in E as (r & ->). rewrite length_app in H. lia. Qed.
Lemma find_short p q : (length q < length p)%nat -> find p q = None.
Proof.
  induction q as [|d q IH]; intros H; cbn [find]; rewrite begins_short by done; [done |]. cbn [length] in H. by rewrite IH by lia.
Qed.
(** [find] finds the first place. *)
Lemma find_ok p q : match find p q with
  | Some i => exists r, drop i q = p ++ r /\ (i <= length q)%nat /\ forall j, (j < i)%nat -> ~ exists r, drop j q = p ++ r
  | None => forall j, ~ exists r, drop j q = p ++ r
  end.
Proof.
  induction q as [|d q IH]; cbn [find]; destruct (begins p _) eqn:E.
  - apply begins_ok in E as (r & Hr). exists r. split_and!; [done | lia | lia].
  - intros j Hj. rewrite drop_nil in Hj. apply begins_ok in Hj. congruence.
  - apply begins_ok in E as (r & Hr). exists r. split_and!; [done | lia | lia].
  - assert (H0 : ~ exists r, d :: q = p ++ r) by (rewrite <- begins_ok; congruence). destruct (find p q) as [i |]; cbn.
    + destruct IH as (r & Hr & Hi & Hj). exists r. split_and!; [done | lia |]. intros [|j] Hlt; [exact H0 |]. apply Hj. lia.
    + intros [|j]; [exact H0 | apply IH].
Qed.

(** [repe cmpsb] compares a string with the characters [p]; where they differ, %esi is one
    behind. *)
Lemma compare code pc : code !! pc = Some (repe cmpsb) -> forall p q a b c d si di z f t m, cstring m si q -> bytes_at m di p -> Forall (fun c => 0 < c < 256) p ->
  Z.of_nat (length p) = c -> 0 <= di -> di + Z.of_nat (length p) < 2 ^ 32 -> (p = [] -> z = true) ->
  exists c' si' di' f' t', steps code pc (up a b c d si di z f t m) (S pc) (up a b c' d si' di' (begins p q) f' t' m) /\ 0 < si' < 2 ^ 32
    /\ (begins p q = false -> if m (si' - 1) =? 0 then (length q < length p)%nat else q <> []).
Proof.
  intros Hpc p. induction p as [|x p IH]; intros q a b c d si di z f t m Hq Hp Hx Hc Hd Hdi Hz; cbn [length] in *.
  - exists c, si, di, f, t. rewrite (Hz eq_refl). cbn [begins]. pose proof (cs_addr _ _ _ Hq). split_and!; [| lia | lia | done].
    eapply steps_S; [| constructor]. unfold step. rewrite Hpc. cbn. by rewrite (proj2 (Z.eqb_eq c 0)) by lia.
  - apply bytes_at_cons in Hp as (Hm & Hp). apply Forall_cons in Hx as (Hxr & Hx). pose proof (cs_addr _ _ _ Hq) as Hr.
    assert (E : exists f' t', step code pc (up a b c d si di z f t m) =
      Some (if m si =? x then pc else S pc, up a b (c - 1) d (si + 1) (di + 1) (m si =? x) f' t' m)).
    { unfold step. rewrite Hpc. exec. rewrite (proj2 (Z.eqb_neq c 0)) by lia. rewrite Hm, !u32_small by lia. destruct (m si =? x); by eexists _, _. }
    destruct E as (f1 & t1 & E). destruct q as [|y q]; cbn [begins].
    + apply cstring_nil in Hq. rewrite Hq, (proj2 (Z.eqb_neq 0 x)) in E by lia. eexists _, _, _, f1, t1. split_and!; [eapply steps_S; [exact E | constructor] | lia | lia |].
      intros _. replace (si + 1 - 1) with si by lia. rewrite Hq. cbn. lia.
    + apply cstring_cons in Hq as (Hy & Hyr & Hq). rewrite Hy in E. rewrite (Z.eqb_sym x y). destruct (y =? x) eqn:Exy; cbn [andb].
      * destruct (IH q a b (c - 1) d (si + 1) (di + 1) true f1 t1 m Hq Hp Hx ltac:(lia) ltac:(lia) ltac:(lia) ltac:(done)) as (c' & si' & di' & f' & t' & H1 & H2 & H3).
        exists c', si', di', f', t'. split_and!; [eapply steps_S; [exact E | exact H1] | lia | lia |]. intros Hb. specialize (H3 Hb). cbn [length]. destruct (m (si' - 1) =? 0); [lia | done].
      * eexists _, _, _, f1, t1. split_and!; [eapply steps_S; [exact E | constructor] | lia | cbn [length] in Hr; lia |].
        intros _. replace (si + 1 - 1) with si by lia. by rewrite Hy, (proj2 (Z.eqb_neq y 0)) by lia.
Qed.

(** One turn of the loop of [strstr], up to the comparison. *)
Lemma strstr_turn ct p q a b c si di z f t m : p <> [] -> cstring m ct p -> cstring m si q ->
  exists c' si' di' f' t', steps (strstr_code ct) 6 (up a b c (Z.of_nat (length p)) si di z f t m)
      11 (up si b c' (Z.of_nat (length p)) si' di' (begins p q) f' t' m) /\ 0 < si' < 2 ^ 32
    /\ (begins p q = false -> if m (si' - 1) =? 0 then (length q < length p)%nat else q <> []).
Proof.
  intros Hne Hp Hq. pose proof (cs_addr _ _ _ Hp) as Hpr.
  assert (Hpb : bytes_at m ct p) by (intros k x Hk; apply (cs_bytes _ _ _ Hp); by apply lookup_app_l_Some).
  destruct (compare (strstr_code ct) 10 eq_refl p q si b (Z.of_nat (length p)) (Z.of_nat (length p)) si ct z f t m Hq Hpb (cs_chars _ _ _ Hp))
    as (c' & si' & di' & f' & t' & H1 & H2 & H3); [done | lia | lia | done |].
  exists c', si', di', f', t'. split; [| done]. one. one. one. one. exact H1.
Qed.
(** The loop behind the start. *)
Lemma strstr_loop ct p : p <> [] -> forall q a b c si di z f t m, cstring m ct p -> cstring m si q ->
  exists s', steps (strstr_code ct) 6 (up a b c (Z.of_nat (length p)) si di z f t m) 18 s'
    /\ eax s' = match find p q with Some i => si + Z.of_nat i | None => 0 end /\ mem s' = m.
Proof.
  intros Hne q. induction q as [|y q IH]; intros a b c si di z f t m Hp Hq; pose proof (cs_addr _ _ _ Hq) as Hr;
    destruct (strstr_turn ct p _ a b c si di z f t m Hne Hp Hq) as (c' & si' & di' & f' & t' & H1 & H2 & H3); cbn [find].
  - rewrite (begins_short p []) in * by (destruct p; [done | cbn; lia]). specialize (H3 eq_refl). destruct (m (si' - 1) =? 0) eqn:E0; [| done].
    assert (E : u32 (si' + -1) = si' - 1) by (rewrite u32_small; lia).
    eexists. split; [eapply steps_trans; [exact H1 |]; one; one; one; one; rewrite E, E0; one; one; one; constructor | done].
  - destruct (begins p (y :: q)) eqn:Eb.
    + eexists. split; [eapply steps_trans; [exact H1 |]; one; one; constructor |]. cbn. split; [lia | done].
    + specialize (H3 eq_refl). assert (E : u32 (si' + -1) = si' - 1) by (rewrite u32_small; lia). destruct (m (si' - 1) =? 0) eqn:E0.
      * rewrite find_short by (cbn in H3; lia). eexists. split; [eapply steps_trans; [exact H1 |]; one; one; one; one; rewrite E, E0; one; one; one; constructor | done].
      * apply cstring_cons in Hq as (Hy & Hyr & Hq). assert (E1 : u32 (si + 1) = si + 1) by (rewrite u32_small; lia).
        edestruct (IH si' b c' (si + 1) di') as (s' & Hs' & Ea & Em); [exact Hp | exact Hq |].
        exists s'. split_and!; [| rewrite Ea; destruct (find p q) as [i |]; cbn; lia | done].
        eapply steps_trans; [exact H1 |]. one. one. one. one. rewrite E, E0. one. rewrite E1. exact Hs'.
Qed.

(** C25: [strstr] finds the first place.  For two strings anywhere in memory, also if they are
    the same or one is empty, it ends with the address of the first place of [cs] where the
    characters of [ct] stand, or 0 if there is none, and memory is as before. *)
Theorem strstr_finds s cs ct p q : cstring (mem s) cs q -> cstring (mem s) ct p ->
  exists v s', returns (fun f => strstr f cs ct) s v s' /\ mem s' = mem s /\
    ((exists pre post, q = pre ++ p ++ post /\ v = cs + Z.of_nat (length pre) /\ forall pre' post', q = pre' ++ p ++ post' -> (length pre <= length pre')%nat)
     \/ (v = 0 /\ forall pre post, q <> pre ++ p ++ post)).
Proof.
  intros Hq Hp. set (v := match find p q with Some i => cs + Z.of_nat i | None => 0 end).
  assert (exists s', returns (fun f => strstr f cs ct) s v s' /\ mem s' = mem s) as (s' & Hs' & Hm).
  { destruct s as [a b c d si di z f t df0 m]. cbn [mem] in *.
    destruct (length_of_ok (drop 6 (strstr_code ct)) ct p 0 b d cs di z f t df0 m Hp eq_refl) as (f' & t' & H1).
    change (length_of ct ++ drop 6 (strstr_code ct)) with (strstr_code ct) in H1.
    assert (exists s', steps (strstr_code ct) 0 (mk_cpu 0 b 0xffffffff d cs di z f t df0 m) 18 s' /\ eax s' = v /\ mem s' = m) as (s' & H2 & Ea & Em).
    { destruct p as [|x p].
      - eexists. split; [eapply steps_trans; [exact H1 |]; one; one; one; one; one; one; one; constructor |]. cbn. split; [| done]. unfold v. destruct q; cbn; lia.
      - match type of H1 with steps _ _ _ _ (mk_cpu _ _ ?c _ _ ?di ?z _ _ _ _) => destruct (strstr_loop ct (x :: p) ltac:(done) q 0 b c cs di z f' t' m Hp Hq) as (s' & H2 & H3) end.
        exists s'. split; [| done]. eapply steps_trans; [exact H1 |]. exact H2. }
    exists s'. split; [| done]. rewrite <- Ea. eapply (returns_setup (load_cs cs)); [reflexivity |]. by eapply returns_asm; [exact H2 |]. }
  exists v, s'. split_and!; [done | done |]. pose proof (find_ok p q) as Hf. unfold v. destruct (find p q) as [i |].
  - left. destruct Hf as (r & Hr & Hi & Hj). exists (take i q), r. rewrite length_take_le by done. split_and!; [by rewrite <- Hr, take_drop | done |].
    intros pre' post' E. destruct (decide (i <= length pre')%nat); [done |]. exfalso. apply (Hj (length pre')); [lia |]. exists post'. rewrite E. by apply drop_app_length.
  - right. split; [done |]. intros pre post E. apply (Hf (length pre)). exists post. rewrite E. by apply drop_app_length.
Qed.

(** ** Copying *)

(** [rep movsb] upwards copies when it does not overwrite what it has yet to read, and so
    does it downwards. *)
Lemma copy_up code pc : code !! pc = Some (rep movsb) -> forall n a b c d si di z f t m, Z.of_nat n = c -> 0 < si -> 0 < di -> si + c < 2 ^ 32 -> di + c < 2 ^ 32 ->
  di <= si \/ si + c <= di ->
  exists s', steps code pc (up a b c d si di z f t m) (S pc) s' /\ forall x, mem s' x = if (di <=? x) && (x <? di + c) then m (si + (x - di)) else m x.
Proof.
  intros Hpc n. induction n as [|n IH]; intros a b c d si di z f t m Hc Hs Hd Hsi Hdi Hov.
  - eexists. split; [eapply steps_S; [| constructor]; unfold step; rewrite Hpc; exec; rewrite (proj2 (Z.eqb_eq c 0)) by lia; reflexivity |].
    intros x. cbn [mem]. destruct (_ && _) eqn:E; [blia | done].
  - assert (E : step code pc (up a b c d si di z f t m) = Some (pc, up a b (c - 1) d (si + 1) (di + 1) z f t (stored di (m si) m))).
    { unfold step. rewrite Hpc. exec. by rewrite (proj2 (Z.eqb_neq c 0)), !u32_small by lia. }
    destruct (IH a b (c - 1) d (si + 1) (di + 1) z f t (stored di (m si) m)) as (s' & H' & Hm); [lia.. |].
    exists s'. split; [by eapply steps_S; [exact E |] |]. intros x. rewrite Hm. unfold stored. replace (si + 1 + (x - (di + 1))) with (si + (x - di)) by lia.
    destruct (Z.eqb_spec x di) as [-> | Hx].
    + replace (si + (di - di)) with si by lia. destruct ((di + 1 <=? di) && _) eqn:E1; [blia |]. by destruct ((di <=? di) && _) eqn:E2; [| blia].
    + destruct ((di + 1 <=? x) && _) eqn:E1, ((di <=? x) && _) eqn:E2; try blia. rewrite (proj2 (Z.eqb_neq _ di)); [done | blia].
Qed.
Lemma copy_down code pc : code !! pc = Some (rep movsb) -> forall n a b c d si di z f t m, Z.of_nat n = c -> 0 <= si - c -> 0 <= di - c -> si < 2 ^ 32 -> di < 2 ^ 32 -> si <= di ->
  exists s', steps code pc (mk_cpu a b c d si di z f t true m) (S pc) s' /\ forall x, mem s' x = if (di - c <? x) && (x <=? di) then m (si - (di - x)) else m x.
Proof.
  intros Hpc n. induction n as [|n IH]; intros a b c d si di z f t m Hc Hs Hd Hsi Hdi Hov.
  - eexists. split; [eapply steps_S; [| constructor]; unfold step; rewrite Hpc; exec; rewrite (proj2 (Z.eqb_eq c 0)) by lia; reflexivity |].
    intros x. cbn [mem]. destruct (_ && _) eqn:E; [blia | done].
  - assert (E : step code pc (mk_cpu a b c d si di z f t true m) = Some (pc, mk_cpu a b (c - 1) d (si - 1) (di - 1) z f t true (stored di (m si) m))).
    { unfold step. rewrite Hpc. exec. by rewrite (proj2 (Z.eqb_neq c 0)), !u32_small by lia. }
    destruct (IH a b (c - 1) d (si - 1) (di - 1) z f t (stored di (m si) m)) as (s' & H' & Hm); [lia.. |].
    exists s'. split; [by eapply steps_S; [exact E |] |]. intros x. rewrite Hm. unfold stored. replace (si - 1 - (di - 1 - x)) with (si - (di - x)) by lia.
    destruct (Z.eqb_spec x di) as [-> | Hx].
    + replace (si - (di - di)) with si by lia. destruct ((_ <? di) && (di <=? di - 1)) eqn:E1; [blia |]. by destruct ((_ <? di) && (di <=? di)) eqn:E2; [| blia].
    + destruct ((_ <? x) && (x <=? di - 1)) eqn:E1, ((_ <? x) && (x <=? di)) eqn:E2; try blia. rewrite (proj2 (Z.eqb_neq _ di)); [done | blia].
Qed.

Lemma returns_moved code d0 s0 n s s' (dest : Z) : steps code 0 (wr EDI d0 (wr ESI s0 (wr ECX n s))) (length code) s' ->
  returns (fun f => (load_copy d0 s0 n ;;; asm f code) ;;; ret dest) s dest s'.
Proof.
  intros H. destruct (steps_run _ _ _ _ _ H eq_refl) as (f0 & Hf). exists f0. intros f Hle. unfold load_copy, load, bind, modify, asm. by rewrite Hf.
Qed.

(** C26: [memmove] moves.  However the two regions overlap, afterwards the [n] bytes at [dest]
    are those that were at [src], and no other byte has changed. *)
Theorem memmove_moves s dest src n : 0 < dest -> 0 < src -> 0 <= n -> dest + n < 2 ^ 32 -> src + n < 2 ^ 32 ->
  exists s', returns (fun f => memmove f dest src n) s dest s' /\
    forall x, mem s' x = if (dest <=? x) && (x <? dest + n) then mem s (src + (x - dest)) else mem s x.
Proof.
  intros Hd Hs Hn Hd2 Hs2. destruct s as [a b c d si di z f t df0 m]. cbn [mem]. unfold memmove. destruct (Z.ltb_spec dest src) as [Hlt | Hge].
  - destruct (copy_up memcpy_code 1 eq_refl (Z.to_nat n) a b n d src dest z f t m) as (s' & H' & Hm); [lia.. |].
    exists s'. split; [| exact Hm]. apply (returns_moved memcpy_code dest src n _ s'). one. exact H'.
  - rewrite !u32_small by lia.
    destruct (copy_down memmove_down_code 1 eq_refl (Z.to_nat n) a b n d (src + n - 1) (dest + n - 1) z f t m) as (s' & H' & Hm); [lia.. |].
    exists s'. split; [apply (returns_moved memmove_down_code (dest + n - 1) (src + n - 1) n _ s' dest); one; exact H' |].
    intros x. rewrite Hm. replace (src + n - 1 - (dest + n - 1 - x)) with (src + (x - dest)) by lia.
    by replace ((dest + n - 1 - n <? x) && (x <=? dest + n - 1)) with ((dest <=? x) && (x <? dest + n)) by blia.
Qed.

(** Regions that overlap by two bytes, both ways. *)
Definition demo_cpu : cpu := mk_cpu 0 0 0 0 0 0 false false false false (fun a => a mod 256).
Lemma memmove_moves_witness : (exists s', returns (fun f => memmove f 102 100 4) demo_cpu 102 s' /\ map (mem s') [101; 102; 103; 104; 105; 106] = [101; 100; 101; 102; 103; 106])
  /\ (exists s', returns (fun f => memmove f 100 102 4) demo_cpu 100 s' /\ map (mem s') [99; 100; 101; 102; 103; 104] = [99; 102; 103; 104; 105; 104]).
Proof.
  split.
  - destruct (memmove_moves demo_cpu 102 100 4) as (s' & H & Hm); [lia.. |]. exists s'. split; [exact H |]. cbn [map]. rewrite !Hm. reflexivity.
  - destruct (memmove_moves demo_cpu 100 102 4) as (s' & H & Hm); [lia.. |]. exists s'. split; [exact H |]. cbn [map]. rewrite !Hm. reflexivity.
Defined.

(** ** Tokens *)

(** The code between labels 2 and 3 skips characters of [ct], the code behind label 3 goes on
    to the next of them; both start with the same test. *)
Lemma test_char code pc d x q a b c si di z f t m : code !! pc = Some (str lodsb) -> code !! S pc = Some testb_al -> cstring m si (x :: q) ->
  exists a' f' t', steps code pc (up a b c d si di z f t m) (S (S pc)) (up a' b c d (si + 1) di false f' t' m) /\ a' mod 256 = x.
Proof.
  intros E1 E2 Hq. pose proof (cs_addr _ _ _ Hq) as Hr. apply cstring_cons in Hq as (Hx & Hxr & _). cbn [length] in Hr.
  eexists (low a x), _, _. split; [| apply low_al; lia].
  eapply steps_S; [unfold step; rewrite E1; exec; rewrite Hx, u32_small by lia; reflexivity |].
  eapply steps_S; [unfold step; rewrite E2; exec; fold (low a x); rewrite low_al, (proj2 (Z.eqb_neq x 0)) by lia; reflexivity | constructor].
Qed.
Lemma test_end code pc d a b c si di z f t m : code !! pc = Some (str lodsb) -> code !! S pc = Some testb_al -> cstring m si [] ->
  exists a' f' t', steps code pc (up a b c d si di z f t m) (S (S pc)) (up a' b c d (si + 1) di true f' t' m).
Proof.
  intros E1 E2 Hq. pose proof (cs_addr _ _ _ Hq) as Hr. apply cstring_nil in Hq. cbn [length] in Hr. eexists (low a 0), _, _.
  eapply steps_S; [unfold step; rewrite E1; exec; rewrite Hq, u32_small by lia; reflexivity |].
  eapply steps_S; [unfold step; rewrite E2; exec; fold (low a 0); rewrite low_al by lia; reflexivity | constructor].
Qed.

Lemma cstring_app m a l1 l2 : cstring m a (l1 ++ l2) -> cstring m (a + Z.of_nat (length l1)) l2.
Proof.
  intros [H1 H2 H3]. apply Forall_app in H2 as (_ & H2). rewrite length_app in H3. constructor; [| done | lia].
  intros k c Hk. rewrite <- Z.add_assoc, <- Nat2Z.inj_add. apply H1. rewrite <- app_assoc. by rewrite lookup_app_r, Nat.add_comm, Nat.add_sub by lia.
Qed.
(** A zero byte makes two strings of one. *)
Lemma cstring_cut m a l1 x l2 : cstring m a (l1 ++ x :: l2) -> let e := a + Z.of_nat (length l1) in
  cstring (stored e 0 m) a l1 /\ cstring (stored e 0 m) (e + 1) l2.
Proof.
  intros Hs e. pose proof (cstring_app m a l1 (x :: l2) Hs) as H2. apply cstring_cons in H2 as (_ & _ & [B2 C2 A2]). destruct Hs as [B1 C1 A1].
  apply Forall_app in C1 as (C1 & _). rewrite length_app in A1. cbn [length] in A1. split; (constructor; [intros k c Hk | done | unfold e in *; lia]); unfold stored.
  - destruct (decide (k < length l1)%nat) as [Hlt | Hge].
    + rewrite (proj2 (Z.eqb_neq _ e)) by (unfold e; lia). apply B1. rewrite lookup_app_l in Hk |- * by (rewrite ?length_app; lia). by rewrite lookup_app_l.
    + rewrite lookup_app_r in Hk by lia. apply list_lookup_singleton_Some in Hk as (Hk & <-). by rewrite (proj2 (Z.eqb_eq _ e)) by (unfold e; lia).
  - rewrite (proj2 (Z.eqb_neq _ e)) by lia. by apply B2.
Qed.

Section Tokens.
Context (ct : Z) (p : list Z).

(** Label 2: past the characters of [ct], if something else follows. *)
Lemma skip_ok q : forall a b c si di z f t m, cstring m ct p -> cstring m si q ->
  exists skip q', q = skip ++ q' /\ Forall (fun x => x ∈ p) skip /\
    exists a' c' di' z' f' t' si', match q' with
      | [] => steps (strtok_code ct) 16 (up a b c (Z.of_nat (length p)) si di z f t m) 48 (up a' b c' (Z.of_nat (length p)) si' di' z' f' t' m)
      | x :: _ => (x ∉ p) /\ steps (strtok_code ct) 16 (up a b c (Z.of_nat (length p)) si di z f t m)
                             24 (up a' b c' (Z.of_nat (length p)) (si + Z.of_nat (length skip) + 1) di' z' f' t' m)
      end.
Proof.
  induction q as [|x q IH]; intros a b c si di z f t m Hp Hq.
  - exists [], []. split_and!; [done | done |]. destruct (test_end (strtok_code ct) 17 (Z.of_nat (length p)) a b c si di z f t m eq_refl eq_refl Hq) as (a' & f' & t' & H1).
    eexists _, _, _, _, _, _, _. one. eapply steps_trans; [exact H1 |]. one. constructor.
  - destruct (test_char (strtok_code ct) 17 (Z.of_nat (length p)) x q a b c si di z f t m eq_refl eq_refl Hq) as (a1 & f1 & t1 & H1 & Ha).
    destruct (among_ok (strtok_code ct) 20 ct p a1 b c (si + 1) di f1 t1 m eq_refl eq_refl eq_refl Hp) as (c2 & di2 & f2 & t2 & H2). rewrite Ha in H2.
    assert (Hgo : steps (strtok_code ct) 16 (up a b c (Z.of_nat (length p)) si di z f t m) 23 (up a1 b c2 (Z.of_nat (length p)) (si + 1) di2 (bool_decide (x ∈ p)) f2 t2 m)).
    { one. eapply steps_trans; [exact H1 |]. one. exact H2. }
    destruct (bool_decide (x ∈ p)) eqn:Hin.
    + apply bool_decide_eq_true in Hin. apply cstring_cons in Hq as (_ & _ & Hq).
      destruct (IH a1 b c2 (si + 1) di2 true f2 t2 m Hp Hq) as (skip & q' & -> & Hs & a' & c' & di' & z' & f' & t' & si' & H3).
      exists (x :: skip), q'. split_and!; [done | by constructor |]. exists a', c', di', z', f', t', si'. destruct q' as [|y q'].
      * eapply steps_trans; [exact Hgo |]. one. exact H3.
      * destruct H3 as (Hy & H3). split; [done |]. eapply steps_trans; [exact Hgo |]. one. cbn [length]. by replace (si + Z.of_nat (S (length skip)) + 1) with (si + 1 + Z.of_nat (length skip) + 1) by lia.
    + apply bool_decide_eq_false in Hin. exists [], (x :: q). split_and!; [done | done |]. exists a1, c2, di2, false, f2, t2, si. split; [done |].
      eapply steps_trans; [exact Hgo |]. one. cbn [length]. rewrite Z.add_0_r. constructor.
Qed.
(** Label 3: up to the next character of [ct] or the end. *)
Lemma token_ok q : forall a b c si di z f t m, cstring m ct p -> cstring m si q ->
  exists tok q', q = tok ++ q' /\ Forall (fun x => x ∉ p) tok /\
    exists a' c' di' z' f' t' si', match q' with
      | [] => steps (strtok_code ct) 28 (up a b c (Z.of_nat (length p)) si di z f t m) 42 (up a' b c' (Z.of_nat (length p)) si' di' z' f' t' m)
      | x :: _ => (x ∈ p) /\ steps (strtok_code ct) 28 (up a b c (Z.of_nat (length p)) si di z f t m)
                             36 (up a' b c' (Z.of_nat (length p)) (si + Z.of_nat (length tok) + 1) di' z' f' t' m)
      end.
Proof.
  induction q as [|x q IH]; intros a b c si di z f t m Hp Hq.
  - exists [], []. split_and!; [done | done |]. destruct (test_end (strtok_code ct) 29 (Z.of_nat (length p)) a b c si di z f t m eq_refl eq_refl Hq) as (a' & f' & t' & H1).
    eexists _, _, _, _, _, _, _. one. eapply steps_trans; [exact H1 |]. one. constructor.
  - destruct (test_char (strtok_code ct) 29 (Z.of_nat (length p)) x q a b c si di z f t m eq_refl eq_refl Hq) as (a1 & f1 & t1 & H1 & Ha).
    destruct (among_ok (strtok_code ct) 32 ct p a1 b c (si + 1) di f1 t1 m eq_refl eq_refl eq_refl Hp) as (c2 & di2 & f2 & t2 & H2). rewrite Ha in H2.
    assert (Hgo : steps (strtok_code ct) 28 (up a b c (Z.of_nat (length p)) si di z f t m) 35 (up a1 b c2 (Z.of_nat (length p)) (si + 1) di2 (bool_decide (x ∈ p)) f2 t2 m)).
    { one. eapply steps_trans; [exact H1 |]. one. exact H2. }
    destruct (bool_decide (x ∈ p)) eqn:Hin.
    + apply bool_decide_eq_true in Hin. exists [], (x :: q). split_and!; [done | done |]. exists a1, c2, di2, true, f2, t2, si. split; [done |].
      eapply steps_trans; [exact Hgo |]. one. cbn [length]. rewrite Z.add_0_r. constructor.
    + apply bool_decide_eq_false in Hin. apply cstring_cons in Hq as (_ & _ & Hq).
      destruct (IH a1 b c2 (si + 1) di2 false f2 t2 m Hp Hq) as (tok & q' & -> & Hs & a' & c' & di' & z' & f' & t' & si' & H3).
      exists (x :: tok), q'. split_and!; [done | by constructor |]. exists a', c', di', z', f', t', si'. destruct q' as [|y q'].
      * eapply steps_trans; [exact Hgo |]. one. exact H3.
      * destruct H3 as (Hy & H3). split; [done |]. eapply steps_trans; [exact Hgo |]. one. cbn [length]. by replace (si + Z.of_nat (S (length tok)) + 1) with (si + 1 + Z.of_nat (length tok) + 1) by lia.
Qed.

(** The start, up to label 2. *)
Lemma strtok_start saved s0 q a c d di z f t df0 m : let w := if s0 =? 0 then saved else s0 in 0 <= s0 < 2 ^ 32 -> 0 <= saved < 2 ^ 32 -> cstring m w q -> cstring m ct p -> p <> [] ->
  exists c' di' z' f' t', steps (strtok_code ct) 0 (mk_cpu a saved c d s0 di z f t df0 m) 16 (up 0 0 c' (Z.of_nat (length p)) w di' z' f' t' m).
Proof.
  intros w H0 H1 Hq Hp Hne. destruct (cstring_scan m ct p Hp) as (Hb & Hn0). pose proof (cs_addr _ _ _ Hp) as Hr. pose proof (cs_addr _ _ _ Hq) as Hw.
  assert (exists z' f' t', steps (strtok_code ct) 0 (mk_cpu a saved c d s0 di z f t df0 m) 5 (mk_cpu a saved c d w di z' f' t' df0 m)) as (z1 & f1 & t1 & H2).
  { unfold w in *. destruct (s0 =? 0) eqn:E0.
    - eexists _, _, _. one. rewrite E0. one. one. rewrite (proj2 (Z.eqb_neq saved 0)) by lia. one. one. constructor.
    - eexists _, _, _. one. rewrite E0. one. constructor. }
  destruct (scan_found (strtok_code ct) 11 eq_refl p 0 0 0xffffffff d w ct true false false m 0 Hb eq_refl Hn0 ltac:(lia) ltac:(lia) ltac:(lia)) as (f2 & t2 & H3).
  destruct (count_string (Z.of_nat (length p)) ltac:(lia)) as (C1 & C2).
  eexists _, _, _, _, _. eapply steps_trans; [exact H2 |]. one. one. one. one. one. one. eapply steps_trans; [exact H3 |]. one. rewrite C1. one. rewrite C2.
  rewrite (proj2 (Z.eqb_neq (Z.of_nat (length p)) 0)) by (destruct p; [done | cbn; lia]). one. one. constructor.
Qed.
End Tokens.

(** What follows label 3: the rest of the string is left over, or nothing. *)
Lemma token_last ct x r a c d si di z f t m : 0 < r < 2 ^ 32 -> m r = x -> x <> 0 ->
  exists s', steps (strtok_code ct) 42 (up a r c d si di z f t m) 53 s' /\ ebx s' = r /\ esi s' = 0 /\ mem s' = m.
Proof.
  intros Hr Hm Hx. assert (E2 : u32 (r + 0) = r) by (rewrite u32_small; lia).
  eexists. split; [one; one; one; one; rewrite E2, Hm, (proj2 (Z.eqb_neq x 0)) by done; one; one; one; rewrite (proj2 (Z.eqb_neq r 0)) by lia; one; one; constructor | done].
Qed.
Lemma token_cut ct x y r e a c d di z f t m : 0 < r < e -> e < 2 ^ 32 - 1 -> m r = x -> x <> 0 -> m e = y -> y <> 0 ->
  exists s', steps (strtok_code ct) 36 (up a r c d (e + 1) di z f t m) 53 s' /\ ebx s' = r /\ esi s' = e + 1 /\ mem s' = stored e 0 m.
Proof.
  intros Hr He Hm Hx Hme Hy. assert (E2 : u32 (r + 0) = r) by (rewrite u32_small; lia).
  assert (E3 : u32 (e + 1 - 1) = e) by (rewrite u32_small; lia). assert (E4 : u32 (e + 0) = e) by (rewrite u32_small; lia). assert (E5 : u32 (e + 1) = e + 1) by (rewrite u32_small; lia).
  assert (E6 : stored e 0 m r = x) by (unfold stored; rewrite (proj2 (Z.eqb_neq r e)) by lia; done).
  eexists. split; [one; rewrite E3; one; rewrite E4, Hme, (proj2 (Z.eqb_neq y 0)) by done; one; one; one; rewrite E5; one; one; one;
    rewrite E2, E6, (proj2 (Z.eqb_neq x 0)) by done; one; one; one; rewrite (proj2 (Z.eqb_neq r 0)) by lia; one; one; constructor | done].
Qed.

(** C24: [strtok] splits.  With a string of delimiters [p] at [ct], a call on a string, or on
    what the last call left, skips the delimiters at its start and returns the address of
    the token behind them, which is then a string of its own; what follows the delimiter
    behind the token is left for the next call, and only that one delimiter is overwritten.
    At the last token nothing is left, and without a token the result is 0. *)
Theorem strtok_splits s saved s0 ct q p : let w := if s0 =? 0 then saved else s0 in 0 <= s0 < 2 ^ 32 -> 0 <= saved < 2 ^ 32 ->
  cstring (mem s) w q -> cstring (mem s) ct p -> p <> [] ->
  exists r left s', returns (fun f => strtok f saved s0 ct) s (r, left) s' /\
    ((Forall (fun x => x ∈ p) q /\ r = 0 /\ left = 0 /\ mem s' = mem s)
     \/ exists skip tok rest, q = skip ++ tok ++ rest /\ Forall (fun x => x ∈ p) skip /\ tok <> [] /\ Forall (fun x => x ∉ p) tok
         /\ r = w + Z.of_nat (length skip) /\ cstring (mem s') r tok
         /\ match rest with
            | [] => left = 0 /\ mem s' = mem s
            | x :: rest => (x ∈ p) /\ left = r + Z.of_nat (length tok) + 1 /\ cstring (mem s') left rest
                           /\ forall b, b <> r + Z.of_nat (length tok) -> mem s' b = mem s b
            end).
Proof.
  intros w H0 H1 Hq Hp Hne. destruct s as [a b c d si di z f t df0 m]. cbn [mem] in *.
  destruct (strtok_start ct p saved s0 q a c d di z f t df0 m H0 H1 Hq Hp Hne) as (c1 & di1 & z1 & f1 & t1 & S1). fold w in S1.
  destruct (skip_ok ct p q 0 0 c1 w di1 z1 f1 t1 m Hp Hq) as (skip & q1 & -> & Hsk & a2 & c2 & di2 & z2 & f2 & t2 & si2 & S2).
  assert (Hret : forall r l s', steps (strtok_code ct) 0 (mk_cpu a saved c d s0 di z f t df0 m) 53 s' -> ebx s' = r -> esi s' = l ->
    returns (fun f => strtok f saved s0 ct) (mk_cpu a b c d si di z f t df0 m) (r, l) s').
  { intros r l s' Hst <- <-. eapply (returns_setup (load EBX saved)); [reflexivity |]. eapply (returns_setup (load ESI s0)); [reflexivity |]. by eapply returns_asm; [exact Hst |]. }
  destruct q1 as [|x q1].
  { eexists 0, 0, _. split; [apply Hret; [eapply steps_trans; [exact S1 |]; eapply steps_trans; [exact S2 |]; one; one; one; one; one; constructor | done | done] |].
    left. by rewrite app_nil_r. }
  destruct S2 as (Hx & S2). set (r := w + Z.of_nat (length skip)) in *. pose proof (cstring_app m w skip (x :: q1) Hq) as Hq1. fold r in Hq1.
  pose proof (cs_addr _ _ _ Hq1) as Hr. pose proof (cstring_cons _ _ _ _ Hq1) as (Emr & Hxr & _).
  assert (E1 : u32 (r + 1 - 1) = r) by (rewrite u32_small; lia). assert (E2 : u32 (r + 0) = r) by (rewrite u32_small; lia).
  destruct (token_ok ct p (x :: q1) a2 r c2 r di2 false (128 <=? u8 (x - 0)) (s8 x <? s8 0) m Hp Hq1) as (tok & q2 & Eq & Htok & a3 & c3 & di3 & z3 & f3 & t3 & si3 & S3).
  assert (S4 : steps (strtok_code ct) 0 (mk_cpu a saved c d s0 di z f t df0 m) 28 (up a2 r c2 (Z.of_nat (length p)) r di2 false (128 <=? u8 (x - 0)) (s8 x <? s8 0) m)).
  { eapply steps_trans; [exact S1 |]. eapply steps_trans; [exact S2 |]. one. rewrite E1. one. rewrite E2, Emr, (proj2 (Z.eqb_neq x 0)) by lia. one. one. constructor. }
  rewrite Eq in Hq1. destruct q2 as [|y q2].
  - rewrite app_nil_r in Eq, Hq1. destruct (token_last ct x r a3 c3 (Z.of_nat (length p)) si3 di3 z3 f3 t3 m) as (s' & S5 & Eb & Es & Em); [lia | done | lia |].
    exists r, 0, s'. split; [apply Hret; [eapply steps_trans; [exact S4 |]; eapply steps_trans; [exact S3 | exact S5] | done | done] |].
    right. exists skip, tok, []. rewrite app_nil_r, <- Eq, Em. split_and!; try done; by rewrite Eq.
  - destruct S3 as (Hy & S3). assert (Hne' : tok <> []) by (intros ->; injection Eq as -> _; done).
    assert (Hlen : (length (x :: q1) = length tok + S (length q2))%nat) by (rewrite Eq, length_app; done). assert (0 < length tok)%nat by (destruct tok; [done | cbn; lia]).
    destruct (cstring_cut m r tok y q2 Hq1) as (C1 & C2). pose proof (cstring_app m r tok (y :: q2) Hq1) as Hyq. apply cstring_cons in Hyq as (Eme & Hyr & _).
    destruct (token_cut ct x y r (r + Z.of_nat (length tok)) a3 c3 (Z.of_nat (length p)) di3 z3 f3 t3 m) as (s' & S5 & Eb & Es & Em); [lia | lia | done | lia | done | lia |].
    exists r, (r + Z.of_nat (length tok) + 1), s'. split; [apply Hret; [eapply steps_trans; [exact S4 |]; eapply steps_trans; [exact S3 | exact S5] | done | done] |].
    right. exists skip, tok, (y :: q2). rewrite <- Eq, Em. split_and!; try done. intros b' Hb. unfold stored. by rewrite (proj2 (Z.eqb_neq b' _)).
Qed.

(** ** Examples *)

Fixpoint place (a : Z) (l : list Z) (m : Z -> Z) : Z -> Z := match l with [] => m | c :: l => place (a + 1) l (stored a c m) end.
Definition demo_texts (l1 l2 : list Z) : cpu := put mem (place 100 (l1 ++ [0]) (place 200 (l2 ++ [0]) (fun _ => 7))) demo_cpu.
Ltac in_memory := constructor; [intros k c Hk; repeat (destruct k as [|k]; [injection Hk as <-; reflexivity |]); destruct k; discriminate
  | repeat (apply Forall_cons; split; [lia |]); by apply Forall_nil | cbn; lia].

(** [aba] in [ababac], which has it twice. *)
Lemma strstr_finds_witness : exists s', returns (fun f => strstr f 100 200) (demo_texts [97; 98; 97; 98; 97; 99] [97; 98; 97]) 100 s'.
Proof.
  destruct (strstr_finds (demo_texts [97; 98; 97; 98; 97; 99] [97; 98; 97]) 100 200 [97; 98; 97] [97; 98; 97; 98; 97; 99])
    as (v & s' & H & _ & [(pre & post & E & Ev & Hmin) | (_ & Hno)]); [in_memory | in_memory | |].
  - specialize (Hmin [] [98; 97; 99] eq_refl). destruct pre; [| cbn in Hmin; lia]. cbn in Ev. subst v. by exists s'.
  - exfalso. by apply (Hno [] [98; 97; 99]).
Defined.
(** The token of [,ab,c] starts at 101, and the rest at 104. *)
Lemma strtok_splits_witness : exists s', returns (fun f => strtok f 0 100 200) (demo_texts [44; 97; 98; 44; 99] [44]) (101, 104) s' /\ cstring (mem s') 101 [97; 98].
Proof.
  destruct (strtok_splits (demo_texts [44; 97; 98; 44; 99] [44]) 0 100 200 [44; 97; 98; 44; 99] [44])
    as (r & left & s' & H & [(Hall & _) | (skip & tok & rest & E & Hs & Hne & Ht & Er & Hc & Hrest)]); [lia | lia | in_memory | in_memory | done | |].
  - exfalso. apply Forall_cons in Hall as (_ & Hall). apply Forall_cons in Hall as (H97 & _). apply list_elem_of_singleton in H97. lia.
  - rewrite !Forall_forall in Hs, Ht. setoid_rewrite list_elem_of_singleton in Hs. setoid_rewrite list_elem_of_singleton in Ht.
    destruct skip as [|s1 [|s2 skip]]; cbn [app] in E.
    + destruct tok as [|t1 tok]; [done |]. injection E as <- _. exfalso. apply (Ht 44); [by left | done].
    + destruct tok as [|t1 [|t2 [|t3 tok]]]; [done | | |]; cbn [app] in E.
      * injection E as <- <- <-. destruct Hrest as (Hr & _). apply list_elem_of_singleton in Hr. lia.
      * injection E as <- <- <- <-. destruct Hrest as (_ & El & _). exists s'. rewrite El, Er in *. split; [exact H | exact Hc].
      * injection E as <- <- <- <- _. exfalso. apply (Ht 44); [right; right; by left | done].
    + injection E as <- <- _. exfalso. specialize (Hs 97 ltac:(right; by left)). lia.
Defined.

(** ** What the routines should not do *)

(** Comparing no bytes at all looks at the flags of whatever came before. *)
Lemma memcmp_nothing s cs ct : returns (fun f => memcmp f cs ct 0) s (if zf s then 0 else if lt s then 1 else -1) (put df false (put eax (if zf s then 0 else if lt s then 1 else 2 ^ 32 - 1)
  (put edi cs (put esi ct (put ecx 0 (if zf s then s else if lt s then s else put zf false (put sf true (put lt true s)))))))).
Proof.
  destruct s as [a b c d si di z f t df0 m]. exists 10%nat. intros n Hn. do 10 (destruct n as [|n]; [lia |]). destruct z, t; reflexivity.
Qed.
(** Appending at most five characters, of which there is one, writes a zero behind the end of
    the result; moving upwards leaves the direction flag set. *)
Lemma strncat_writes_behind : match strncat 100 100 200 5 (demo_texts [97; 98] [99]) with
  | Ok _ s => map (mem s) [100; 101; 102; 103; 104] = [97; 98; 99; 0; 0] | _ => False end /\ mem (demo_texts [97; 98] [99]) 104 = 7.
Proof. vm_compute. done. Qed.
Lemma memmove_leaves_df : match memmove 10 101 100 4 demo_cpu with Ok _ s => df s = true | _ => False end.
Proof. vm_compute. done. Qed.
