(* ===== verification/Memory.v ===== *)
(** mm/memory.c: page allocation, page tables, copy on write. *)
From stdpp Require Import base list gmap strings.
From Stdlib Require Import ZArith Lia.
From S2P Require Import Prelude Bits.
Open Scope Z_scope.

(** ** State *)

Definition LOW_MEM : Z := 0x100000.
Definition PAGING_MEMORY : Z := 15 * 1024 * 1024.
Definition PAGING_PAGES : Z := Z.shiftr PAGING_MEMORY 12.
Definition MAP_NR (addr : Z) : Z := Z.shiftr (addr - LOW_MEM) 12.
Definition USED : Z := 100.
Definition PAGE_SIZE : Z := 4096.
Definition SIGSEGV : Z := 11.

(** Physical memory as 32-bit words at word addresses (a word never written is
    zero), the page directory at address 0, the use counts of the pages above
    1 MB, the end of memory, and how often [invalidate()] reloaded [cr3]. *)
Record mm := mk_mm {
  mem : gmap Z Z;
  mem_map : list Z;
  HIGH_MEMORY : Z;
  cr3_loads : nat }.

Definition set_mem (f : gmap Z Z -> gmap Z Z) (s : mm) : mm :=
  mk_mm (f (mem s)) (mem_map s) (HIGH_MEMORY s) (cr3_loads s).
Definition set_mem_map (f : list Z -> list Z) (s : mm) : mm :=
  mk_mm (mem s) (f (mem_map s)) (HIGH_MEMORY s) (cr3_loads s).

Definition rd (s : mm) (a : Z) : Z := default 0 (mem s !! a).

Definition load (a : Z) : M mm Z := get (fun s => rd s a).
Definition store (a v : Z) : M mm unit := modify (set_mem (<[a := u32 v]>)).

Definition mem_map_get (i : Z) : M mm Z := fun s =>
  if i <? 0 then Ub else
  match mem_map s !! Z.to_nat i with Some v => Ok v s | None => Ub end.
Definition mem_map_set (i v : Z) : M mm unit := fun s =>
  if (0 <=? i) && (i <? Z.of_nat (length (mem_map s)))
  then Ok tt (set_mem_map (<[Z.to_nat i := u8 v]>) s) else Ub.

(** [invalidate()]: reload [cr3]. *)
Definition invalidate : M mm unit :=
  modify (fun s => mk_mm (mem s) (mem_map s) (HIGH_MEMORY s) (S (cr3_loads s))).

(** [oom()] prints a message and leaves through [do_exit(SIGSEGV)]. *)
Definition oom {A} : M mm A := exit_with SIGSEGV.

(** ** Page allocation *)

(** [std ; repne ; scasb] over the [n] bytes that end at index [n-1]. *)
Fixpoint scan_down (n : nat) (l : list Z) : option nat :=
  match n with
  | O => None
  | S k => if decide (l !! k = Some 0) then Some k else scan_down k l
  end.

(** [rep ; stosl] downwards: [n] zero words that start at [page]. *)
Fixpoint clear_words (n : nat) (page : Z) (m : gmap Z Z) : gmap Z Z :=
  match n with
  | O => m
  | S k => clear_words k page (<[page + 4 * Z.of_nat k := 0]> m)
  end.

(** [copy_page]: [rep ; movsl] of [n] words upwards. *)
Fixpoint copy_words (n : nat) (from to : Z) (m : gmap Z Z) : gmap Z Z :=
  match n with
  | O => m
  | S k => copy_words k (from + 4) (to + 4) (<[to := default 0 (m !! from)]> m)
  end.

Definition get_free_page : M mm Z := fun s =>
  match scan_down (Z.to_nat PAGING_PAGES) (mem_map s) with
  | None => Ok 0 s
  | Some i =>
    let page := Z.shiftl (Z.of_nat i) 12 + LOW_MEM in
    Ok page (set_mem (clear_words 1024 page) (set_mem_map (<[i := 1]>) s))
  end.

Definition free_page (addr : Z) : M mm unit :=
  if addr <? LOW_MEM then ret tt else
  let* high := get HIGH_MEMORY in
  if high <=? addr then panic "trying to free nonexistent page" else
  let i := Z.shiftr (addr - LOW_MEM) 12 in
  let* c := mem_map_get i in
  mem_map_set i (c - 1) ;;;
  if cbool c then ret tt else
  mem_map_set i 0 ;;;
  panic "trying to free free page".

(** ** Freeing and copying page tables *)

Definition frame (e : Z) : Z := Z.land 0xfffff000 e.
Definition present (e : Z) : bool := cbool (Z.land 1 e).

(** The body of the inner loop of [free_page_tables], and the loop over [n]
    entries from [pg_table] on. *)
Definition free_entry (pg_table : Z) : M mm unit :=
  let* e := load pg_table in
  (if present e then free_page (frame e) else ret tt) ;;;
  store pg_table 0.

Fixpoint free_entries (n : nat) (pg_table : Z) : M mm unit :=
  match n with
  | O => ret tt
  | S n => free_entry pg_table ;;; free_entries n (pg_table + 4)
  end.

(** The body of the outer loop, and the loop over [n] directory entries. *)
Definition free_dir (dir : Z) : M mm unit :=
  let* d := load dir in
  if negb (present d) then ret tt else
  free_entries 1024 (frame d) ;;;
  (let* d := load dir in free_page (frame d)) ;;;
  store dir 0.

Fixpoint free_dirs (n : nat) (dir : Z) : M mm unit :=
  match n with
  | O => ret tt
  | S n => free_dir dir ;;; free_dirs n (dir + 4)
  end.

Definition free_page_tables (from size : Z) : M mm Z :=
  if cbool (Z.land from 0x3fffff)
  then panic "free_page_tables called with wrong alignment" else
  if from =? 0 then panic "Trying to free up swapper memory space" else
  let size := Z.shiftr (u32 (size + 0x3fffff)) 22 in
  let dir := Z.land (Z.shiftr from 20) 0xffc in
  free_dirs (Z.to_nat size) dir ;;;
  invalidate ;;;
  ret 0.

(** The body of the inner loop of [copy_page_tables], and the loop. *)
Definition copy_entry (from_pt to_pt : Z) : M mm unit :=
  let* this_page := load from_pt in
  if negb (present this_page) then ret tt else
  let this_page := Z.land this_page (Z.lnot 2) in
  store to_pt this_page ;;;
  if LOW_MEM <? this_page then
    store from_pt this_page ;;;
    let i := Z.shiftr (this_page - LOW_MEM) 12 in
    let* c := mem_map_get i in
    mem_map_set i (c + 1)
  else ret tt.

Fixpoint copy_entries (nr : nat) (from_pt to_pt : Z) : M mm unit :=
  match nr with
  | O => ret tt
  | S nr => copy_entry from_pt to_pt ;;; copy_entries nr (from_pt + 4) (to_pt + 4)
  end.

(** The outer loop; the result is [copy_page_tables]'s. *)
Fixpoint copy_dirs (n : nat) (from from_dir to_dir : Z) : M mm Z :=
  match n with
  | O => invalidate ;;; ret 0
  | S n =>
    let* t := load to_dir in
    if present t then panic "copy_page_tables: already exist" else
    let* f := load from_dir in
    if negb (present f) then copy_dirs n from (from_dir + 4) (to_dir + 4) else
    let* to_page_table := get_free_page in
    if negb (cbool to_page_table) then ret (-1) else
    store to_dir (Z.lor to_page_table 7) ;;;
    copy_entries (if from =? 0 then 0xA0 else 1024) (frame f) to_page_table ;;;
    copy_dirs n from (from_dir + 4) (to_dir + 4)
  end.

Definition copy_page_tables (from to size : Z) : M mm Z :=
  if cbool (Z.land from 0x3fffff) || cbool (Z.land to 0x3fffff)
  then panic "copy_page_tables called with wrong alignment" else
  let from_dir := Z.land (Z.shiftr from 20) 0xffc in
  let to_dir := Z.land (Z.shiftr to 20) 0xffc in
  let size := Z.shiftr (u32 (size + 0x3fffff)) 22 in
  copy_dirs (Z.to_nat size) from from_dir to_dir.

(** ** Mapping and unsharing single pages *)

(** [put_page]; its two [printk] warnings are not modelled, but the second one
    reads [mem_map] first. *)
Definition put_page (page address : Z) : M mm Z :=
  mem_map_get (Z.shiftr (u32 (page - LOW_MEM)) 12) ;;;
  let dir := Z.land (Z.shiftr address 20) 0xffc in
  let* e := load dir in
  let set_entry pt :=
    store (pt + 4 * Z.land (Z.shiftr address 12) 0x3ff) (Z.lor page 7) ;;; ret page in
  if present e then set_entry (frame e) else
  let* tmp := get_free_page in
  if negb (cbool tmp) then ret 0 else
  store dir (Z.lor tmp 7) ;;;
  set_entry tmp.

Definition un_wp_page (table_entry : Z) : M mm unit :=
  let* e := load table_entry in
  let old_page := frame e in
  let* sole :=
    (if LOW_MEM <=? old_page then
       let* c := mem_map_get (MAP_NR old_page) in ret (c =? 1)
     else ret false) in
  if sole then
    (let* e := load table_entry in store table_entry (Z.lor e 2)) ;;;
    invalidate
  else
    let* new_page := get_free_page in
    if negb (cbool new_page) then oom else
    (if LOW_MEM <=? old_page then
       let* c := mem_map_get (MAP_NR old_page) in mem_map_set (MAP_NR old_page) (c - 1)
     else ret tt) ;;;
    store table_entry (Z.lor new_page 7) ;;;
    invalidate ;;;
    modify (set_mem (copy_words 1024 old_page new_page)).

(** The [error_code] argument is not used by the code. *)
Definition do_wp_page (error_code address : Z) : M mm unit :=
  let* d := load (Z.land (Z.shiftr address 20) 0xffc) in
  un_wp_page (Z.land (Z.shiftr address 10) 0xffc + frame d).

Definition write_verify (address : Z) : M mm unit :=
  let* page := load (Z.land (Z.shiftr address 20) 0xffc) in
  if negb (present page) then ret tt else
  let page := Z.land page 0xfffff000 in
  let page := page + Z.land (Z.shiftr address 10) 0xffc in
  let* e := load page in
  if Z.land 3 e =? 1 then un_wp_page page else ret tt.

Definition get_empty_page (address : Z) : M mm unit :=
  let* tmp := get_free_page in
  let* ok := (if negb (cbool tmp) then ret false
              else let* r := put_page tmp address in ret (cbool r)) in
  if ok then ret tt else
  free_page tmp ;;;
  oom.

(** [try_to_share]: [p_start] and [cur_start] are [p->start_code] and
    [current->start_code]. *)
Definition try_to_share (address p_start cur_start : Z) : M mm Z :=
  let from_page := Z.land (Z.shiftr address 20) 0xffc
                   + Z.land (Z.shiftr p_start 20) 0xffc in
  let to_page := Z.land (Z.shiftr address 20) 0xffc
                 + Z.land (Z.shiftr cur_start 20) 0xffc in
  let* from := load from_page in
  if negb (present from) then ret 0 else
  let from := Z.land from 0xfffff000 in
  let from_page := from + Z.land (Z.shiftr address 10) 0xffc in
  let* phys_addr := load from_page in
  if negb (Z.land phys_addr 0x41 =? 0x01) then ret 0 else
  let phys_addr := Z.land phys_addr 0xfffff000 in
  let* high := get HIGH_MEMORY in
  if (high <=? phys_addr) || (phys_addr <? LOW_MEM) then ret 0 else
  let* to := load to_page in
  let* to :=
    (if present to then ret to else
     let* to := get_free_page in
     if cbool to then store to_page (Z.lor to 7) ;;; ret to else oom) in
  let to := Z.land to 0xfffff000 in
  let to_page := to + Z.land (Z.shiftr address 10) 0xffc in
  let* t := load to_page in
  if present t then panic "try_to_share: to_page already exists" else
  (let* e := load from_page in store from_page (Z.land e (Z.lnot 2))) ;;;
  (let* e := load from_page in store to_page e) ;;;
  invalidate ;;;
  let i := Z.shiftr (phys_addr - LOW_MEM) 12 in
  let* c := mem_map_get i in
  mem_map_set i (c + 1) ;;;
  ret 1.

(** ** Boot-time set-up and statistics *)

(** [while (end_mem-->0) mem_map[i++]=0;] *)
Fixpoint free_range (n : nat) (i : Z) : M mm unit :=
  match n with
  | O => ret tt
  | S n => mem_map_set i 0 ;;; free_range n (i + 1)
  end.

Definition mem_init (start_mem end_mem : Z) : M mm unit :=
  modify (fun s => mk_mm (mem s) (mem_map s) end_mem (cr3_loads s)) ;;;
  modify (set_mem_map (fun _ => replicate (Z.to_nat PAGING_PAGES) USED)) ;;;
  free_range (Z.to_nat (Z.shiftr (end_mem - start_mem) 12)) (MAP_NR start_mem).

(** [calc_mem] prints the number of free pages and, for each directory entry in
    use from entry 2 on, the number of pages of its table. *)
Definition count_true (l : list bool) : nat := length (filter (fun b => b = true) l).

Definition calc_mem (s : mm) : nat * list (Z * nat) :=
  (count_true (map (fun c => negb (cbool c)) (mem_map s)),
   omap (fun i =>
           let d := rd s (4 * i) in
           if present d
           then Some (i, count_true (map (fun j => present (rd s (frame d + 4 * j)))
                                         (seqZ 0 1024)))
           else None)
        (seqZ 2 1022)).

(** ** Lemmas on the memory primitives *)

Definition page_addr (i : nat) : Z := LOW_MEM + 4096 * Z.of_nat i.

(** Word [a] lies in the [n] words that start at [p]. *)
Definition in_words (n : nat) (p a : Z) : bool :=
  (p <=? a) && (a <? p + 4 * Z.of_nat n) && ((a - p) mod 4 =? 0).

Lemma in_words_S n p a :
  in_words (S n) p a = (a =? p + 4 * Z.of_nat n) || in_words n p a.
Proof.
  unfold in_words. apply eq_true_iff_eq.
  rewrite orb_true_iff, !andb_true_iff, !Z.leb_le, !Z.ltb_lt, !Z.eqb_eq.
  split.
  - intros ((H1 & H2) & H3). destruct (Z.eq_dec a (p + 4 * Z.of_nat n)); [by left | right].
    pose proof (Z.div_mod (a - p) 4). lia.
  - intros [-> | H]; [| lia]. replace (p + 4 * Z.of_nat n - p) with (Z.of_nat n * 4) by lia.
    rewrite Z.mod_mul; lia.
Qed.

Lemma in_words_cons n p a :
  in_words (S n) p a = (a =? p) || in_words n (p + 4) a.
Proof.
  unfold in_words. apply eq_true_iff_eq.
  rewrite orb_true_iff, !andb_true_iff, !Z.leb_le, !Z.ltb_lt, !Z.eqb_eq.
  pose proof (Z.div_mod (a - p) 4). pose proof (Z.div_mod (a - (p + 4)) 4).
  assert ((a - (p + 4)) mod 4 = (a - p) mod 4) as E.
  { replace (a - (p + 4)) with (a - p + -1 * 4) by lia. apply Z.mod_add. lia. }
  rewrite E in *. split.
  - intros ((H1 & H2) & H3). destruct (Z.eq_dec a p); [by left | right]. lia.
  - intros [-> | ?]; [| lia]. rewrite Z.sub_diag. split; [lia | done].
Qed.

Lemma clear_words_lookup n p m a :
  default 0 (clear_words n p m !! a) = if in_words n p a then 0 else default 0 (m !! a).
Proof.
  revert m. induction n as [|n IH]; intros m; cbn [clear_words].
  - unfold in_words. by replace ((p <=? a) && (a <? p + 4 * Z.of_nat 0)) with false by blia.
  - rewrite IH, in_words_S, lookup_insert. destruct (in_words n p a);
      [by rewrite orb_true_r |].
    rewrite orb_false_r. by case_decide as E; [subst; rewrite Z.eqb_refl |
      rewrite (proj2 (Z.eqb_neq _ _)) by congruence].
Qed.

(** Copying upwards between areas that do not overlap. *)
Lemma copy_words_lookup n from to m a :
  from + 4 * Z.of_nat n <= to \/ to + 4 * Z.of_nat n <= from ->
  default 0 (copy_words n from to m !! a)
  = if in_words n to a then default 0 (m !! (from + (a - to))) else default 0 (m !! a).
Proof.
  revert from to m. induction n as [|n IH]; intros from to m Hd; cbn [copy_words].
  - unfold in_words. by replace ((to <=? a) && (a <? to + 4 * Z.of_nat 0)) with false by blia.
  - rewrite IH by lia. rewrite in_words_cons.
    destruct (Z.eqb_spec a to) as [->|Hne]; cbn [orb].
    + replace (in_words n (to + 4) to) with false by (unfold in_words; blia).
      rewrite lookup_insert_eq. cbn. do 2 f_equal. lia.
    + destruct (in_words n (to + 4) a) eqn:E.
      * replace (from + 4 + (a - (to + 4))) with (from + (a - to)) by lia.
        unfold in_words in E. rewrite lookup_insert_ne; [done | lia].
      * by rewrite lookup_insert_ne.
Qed.

Lemma scan_down_Some n l i :
  scan_down n l = Some i ->
  (i < n)%nat /\ l !! i = Some 0 /\ forall j, (i < j < n)%nat -> l !! j <> Some 0.
Proof.
  induction n as [|n IH]; cbn; [done |]. case_decide as E.
  - intros [= <-]. split_and!; [lia | done | lia].
  - intros H. destruct (IH H) as (H1 & H2 & H3). split_and!; [lia | done |].
    intros j Hj. destruct (decide (j = n)) as [->|]; [done | apply H3; lia].
Qed.

Lemma scan_down_None n l :
  scan_down n l = None -> forall j, (j < n)%nat -> l !! j <> Some 0.
Proof.
  induction n as [|n IH]; cbn; [lia |]. case_decide as E; [done |].
  intros H j Hj. destruct (decide (j = n)) as [->|]; [done | apply IH; [done | lia]].
Qed.

(** ** The allocator's invariant

    One byte of use count per page, 32-bit words, and no free page beyond the
    end of memory, which the use counts cover. *)
Record mm_wf (s : mm) : Prop := {
  wf_length : length (mem_map s) = Z.to_nat PAGING_PAGES;
  wf_bytes : Forall (fun c => 0 <= c < 256) (mem_map s);
  wf_words : forall a, 0 <= rd s a < 2 ^ 32;
  wf_high : HIGH_MEMORY s <= LOW_MEM + PAGING_MEMORY;
  wf_free : forall i, mem_map s !! i = Some 0 -> page_addr i + PAGE_SIZE <= HIGH_MEMORY s }.

(** What [get_free_page] may do to a well-formed state. *)
Definition allocated (s : mm) (p : Z) (s' : mm) : Prop :=
  exists i, p = page_addr i
  /\ mem_map s !! i = Some 0
  /\ (forall j, (i < j)%nat -> mem_map s !! j <> Some 0)
  /\ mem_map s' = <[i := 1]> (mem_map s)
  /\ (forall a, rd s' a = if in_words 1024 p a then 0 else rd s a)
  /\ HIGH_MEMORY s' = HIGH_MEMORY s /\ cr3_loads s' = cr3_loads s.

Lemma shiftl_page (i : nat) : Z.shiftl (Z.of_nat i) 12 + LOW_MEM = page_addr i.
Proof. unfold page_addr. rewrite Z.shiftl_mul_pow2 by lia. lia. Qed.

Lemma get_free_page_cases s :
  mm_wf s ->
  (get_free_page s = Ok 0 s /\ forall i, mem_map s !! i <> Some 0)
  \/ (exists p s', get_free_page s = Ok p s' /\ allocated s p s').
Proof.
  intros Hwf. pose proof (wf_length s Hwf) as HL. unfold get_free_page.
  destruct (scan_down _ _) as [i|] eqn:E.
  - right. apply scan_down_Some in E as (Hi & H0 & Hj).
    do 2 eexists; split; [reflexivity |]. exists i. rewrite shiftl_page.
    cbn [mem_map set_mem set_mem_map HIGH_MEMORY cr3_loads]. split_and!; try done.
    + intros j Hij. destruct (decide (j < Z.to_nat PAGING_PAGES)%nat); [by apply Hj; lia |].
      rewrite lookup_ge_None_2 by lia. done.
    + intros a. unfold rd. cbn [mem set_mem set_mem_map]. by rewrite clear_words_lookup.
  - left. split; [done |]. intros i.
    destruct (decide (i < Z.to_nat PAGING_PAGES)%nat).
    + by apply (scan_down_None _ _ E).
    + rewrite lookup_ge_None_2 by lia. done.
Qed.

Lemma PAGING_PAGES_val : PAGING_PAGES = 3840.
Proof. reflexivity. Qed.

Lemma allocated_wf s p s' : mm_wf s -> allocated s p s' -> mm_wf s'.
Proof.
  intros [HL HB HW HH HF] (i & -> & H0 & Hj & HM & HR & HH' & _).
  constructor; rewrite ?HM, ?HH'; try done.
  - by rewrite length_insert.
  - by apply Forall_insert.
  - intros a. rewrite HR. case_match; [lia | apply HW].
  - intros j Hj'. apply HF.
    destruct (decide (j = i)) as [->|]; [done | by rewrite list_lookup_insert_ne in Hj'].
Qed.

(** ** Entries as arithmetic *)

Lemma frame_div e : frame e = 4096 * ((e / 4096) mod 2 ^ 20).
Proof. unfold frame. change 0xfffff000 with (Z.shiftl (Z.ones 20) 12). by rewrite land_field. Qed.

Lemma frame_word e : 0 <= e < 2 ^ 32 -> frame e = 4096 * (e / 4096).
Proof.
  intros He. rewrite frame_div, (Z.mod_small (e / 4096)); [done |].
  split; [apply Z.div_pos; lia | apply Z.div_lt_upper_bound; lia].
Qed.

Lemma present_odd e : present e = (e mod 2 =? 1).
Proof.
  unfold present, cbool. rewrite land_1. pose proof (Z.mod_pos_bound e 2). blia.
Qed.

(** The entry [copy_page_tables] stores: write permission removed. *)
Definition clr (e : Z) : Z := Z.land e (Z.lnot 2).

Lemma clr_arith e : clr e = e - 2 * ((e / 2) mod 2).
Proof. unfold clr. change 2 with (2 ^ 1) at 1. by rewrite land_clear_bit. Qed.

Lemma clr_word e : 0 <= e < 2 ^ 32 -> 0 <= clr e < 2 ^ 32 /\ clr e / 4096 = e / 4096
  /\ clr e mod 2 = e mod 2.
Proof.
  intros He. rewrite clr_arith.
  assert (Hq : e / 4096 = e / 2 / 2 / 1024) by (rewrite !Z.div_div; done).
  rewrite Hq. pose proof (Z.mod_pos_bound (e / 2) 2 eq_refl).
  pose proof (Z.mod_pos_bound e 2 eq_refl).
  pose proof (Z.mod_pos_bound (e / 2 / 2) 1024 eq_refl).
  pose proof (Z.div_mod e 2 ltac:(lia)). pose proof (Z.div_mod (e / 2) 2 ltac:(lia)).
  pose proof (Z.div_mod (e / 2 / 2) 1024 ltac:(lia)).
  generalize dependent (e / 2 / 2 / 1024). generalize dependent ((e / 2 / 2) mod 1024).
  generalize dependent (e / 2 / 2). generalize dependent ((e / 2) mod 2).
  generalize dependent (e / 2). generalize dependent (e mod 2). intros r0 ? q ? r1 ? q2 ? r2 ? q3 ? ?.
  split_and!; [lia | lia | |].
  - symmetry. apply (Z.div_unique _ _ _ (4 * r2 + r0)); lia.
  - symmetry. apply (Z.mod_unique _ _ (q - r1)); lia.
Qed.

Lemma frame_clr e : 0 <= e < 2 ^ 32 -> frame (clr e) = frame e.
Proof. intros He. destruct (clr_word e He) as (Hr & Hd & _). by rewrite !frame_word, Hd. Qed.

Lemma present_clr e : 0 <= e < 2 ^ 32 -> present (clr e) = present e.
Proof. intros He. destruct (clr_word e He) as (_ & _ & Hm). by rewrite !present_odd, Hm. Qed.

(** The test [this_page > LOW_MEM] of the copy loop is the test of [free_page]
    on the frame. *)
Lemma low_clr e :
  0 <= e < 2 ^ 32 -> present e = true ->
  (LOW_MEM <? clr e) = (LOW_MEM <=? frame e)
  /\ Z.shiftr (clr e - LOW_MEM) 12 = Z.shiftr (frame e - LOW_MEM) 12.
Proof.
  intros He Hp. rewrite present_odd in Hp. b2p_in Hp.
  destruct (clr_word e He) as (Hr & Hd & Hm). rewrite frame_word, !shiftr_div by lia.
  pose proof (Z.div_mod (clr e) 4096). pose proof (Z.mod_pos_bound (clr e) 4096).
  rewrite Hd in *. unfold LOW_MEM. split.
  - apply eq_true_iff_eq. b2p. pose proof (Z.div_mod (clr e) 2).
    assert (clr e <> 256 * 4096); [| lia]. intros E. by rewrite E, Hp in Hm.
  - change (2 ^ 12) with 4096. replace 0x100000 with (256 * 4096) by done.
    rewrite (Z.mul_comm 4096), <- Z.mul_sub_distr_r, Z.div_mul by lia.
    symmetry. apply (Z.div_unique _ _ _ (clr e mod 4096)); lia.
Qed.

(** ** Counting references

    The use counts change by lists of page indices: [incs l A] adds one for
    each occurrence in [A]. *)

Definition incs (l : list Z) (A : list nat) : list Z := foldr (fun i l => alter Z.succ i l) l A.

Definition occ (A : list nat) (i : nat) : Z := Z.of_nat (count_occ Nat.eq_dec A i).

Lemma occ_cons A i j : occ (i :: A) j = (if decide (i = j) then 1 else 0) + occ A j.
Proof. unfold occ. cbn. destruct (Nat.eq_dec i j), (decide (i = j)); lia || done. Qed.

Lemma occ_app A B i : occ (A ++ B) i = occ A i + occ B i.
Proof. unfold occ. rewrite count_occ_app. lia. Qed.

Lemma occ_nonneg A i : 0 <= occ A i.
Proof. unfold occ. lia. Qed.

Lemma incs_lookup l A i : incs l A !! i = (fun c => c + occ A i) <$> l !! i.
Proof.
  induction A as [|j A IH]; cbn [incs foldr].
  - destruct (l !! i); cbn; [f_equal; unfold occ; cbn; lia | done].
  - fold (incs l A). rewrite list_lookup_alter, occ_cons.
    case_decide; subst; rewrite IH; destruct (l !! i); cbn; try done; f_equal; lia.
Qed.

Lemma incs_length l A : length (incs l A) = length l.
Proof. induction A as [|j A IH]; cbn; [done |]. by rewrite length_alter. Qed.

Lemma incs_app l A B : incs l (A ++ B) = incs (incs l B) A.
Proof. unfold incs. by rewrite foldr_app. Qed.

#[export] Instance incs_Permutation : Proper ((=) ==> (≡ₚ) ==> (=)) incs.
Proof.
  intros l _ <- A B HAB. apply list_eq. intros i. rewrite !incs_lookup.
  unfold occ. by rewrite (proj1 (Permutation_count_occ Nat.eq_dec A B) HAB i).
Qed.

(** The counts of [A] fit into the bytes of [l]. *)
Definition fits (l : list Z) (A : list nat) : Prop :=
  forall i, i ∈ A -> exists c, l !! i = Some c /\ 0 <= c /\ c + occ A i < 256.

Lemma occ_elem A i : i ∈ A <-> 0 < occ A i.
Proof.
  rewrite list_elem_of_In. unfold occ.
  rewrite (count_occ_In Nat.eq_dec). lia.
Qed.

Lemma fits_app_l l A B : fits l (A ++ B) -> fits l A.
Proof.
  intros H i Hi. destruct (H i) as (c & Hc & H0 & H1); [by apply elem_of_app; left |].
  exists c. rewrite occ_app in H1. pose proof (occ_nonneg B i). split_and!; [done | done | lia].
Qed.

Lemma fits_app_r l A B : fits l (A ++ B) -> fits (incs l A) B.
Proof.
  intros H i Hi. destruct (H i) as (c & Hc & H0 & H1); [by apply elem_of_app; right |].
  exists (c + occ A i). rewrite incs_lookup, Hc. rewrite occ_app in H1.
  pose proof (occ_nonneg A i). split_and!; [done | lia | lia].
Qed.

(** The page a present entry refers to, if it is a counted one. *)
Definition page_refs (e : Z) : list nat :=
  if present e && (LOW_MEM <=? frame e) then [Z.to_nat (Z.shiftr (frame e - LOW_MEM) 12)]
  else [].

(** The references of the [n] entries from [pt] on. *)
Fixpoint table_refs (f : Z -> Z) (n : nat) (pt : Z) : list nat :=
  match n with
  | O => []
  | S n => page_refs (f pt) ++ table_refs f n (pt + 4)
  end.

Lemma table_refs_ext f g n pt :
  (forall a, in_words n pt a = true -> page_refs (f a) = page_refs (g a)) ->
  table_refs f n pt = table_refs g n pt.
Proof.
  revert pt. induction n as [|n IH]; intros pt H; cbn; [done |].
  rewrite (H pt), (IH (pt + 4)); [done | |].
  - intros a Ha. apply H. rewrite in_words_cons, Ha. apply orb_true_r.
  - rewrite in_words_cons, Z.eqb_refl. done.
Qed.

Lemma page_refs_clr e : 0 <= e < 2 ^ 32 -> page_refs (clr e) = page_refs e.
Proof. intros He. unfold page_refs. by rewrite present_clr, frame_clr. Qed.

(** ** One entry of the copy loop *)

Definition upd (f : Z -> Z) (a v : Z) : Z -> Z := fun b => if b =? a then v else f b.

Lemma rd_store s a v b : rd (set_mem (<[a := v]>) s) b = upd (rd s) a v b.
Proof.
  unfold rd, upd. cbn [mem set_mem]. rewrite lookup_insert.
  case_decide as E; [subst; by rewrite Z.eqb_refl |].
  by rewrite (proj2 (Z.eqb_neq b a)) by congruence.
Qed.

(** The use counts became [l]; end of memory and [cr3] are as before. *)
Definition counts_are (s : mm) (l : list Z) (s' : mm) : Prop :=
  mem_map s' = l /\ HIGH_MEMORY s' = HIGH_MEMORY s /\ cr3_loads s' = cr3_loads s.

Lemma alter_insert_lookup (l : list Z) (i : nat) (g : Z -> Z) (c : Z) :
  l !! i = Some c -> <[i := g c]> l = alter g i l.
Proof.
  intros Hl. apply lookup_lt_Some in Hl as Hlt. apply list_eq. intros j.
  destruct (decide (i = j)) as [->|].
  - by rewrite list_lookup_insert_eq, list_lookup_alter_eq, Hl.
  - by rewrite list_lookup_insert_ne, list_lookup_alter_ne.
Qed.

Lemma mem_map_incr s i c :
  mem_map s !! Z.to_nat i = Some c -> 0 <= i -> 0 <= c < 255 ->
  (let* c := mem_map_get i in mem_map_set i (c + 1)) s
  = Ok tt (set_mem_map (alter Z.succ (Z.to_nat i)) s).
Proof.
  intros Hl Hi Hc. unfold bind, mem_map_get, mem_map_set.
  rewrite (proj2 (Z.ltb_ge i 0)) by lia. rewrite Hl.
  apply lookup_lt_Some in Hl as Hlt.
  rewrite (proj2 (Z.leb_le 0 i)), (proj2 (Z.ltb_lt i _)) by lia. cbn [andb].
  rewrite u8_small by lia. unfold set_mem_map. do 2 f_equal.
  by apply (alter_insert_lookup _ _ Z.succ).
Qed.

Definition words (f : Z -> Z) : Prop := forall a, 0 <= f a < 2 ^ 32.

Lemma store_ok a v s : 0 <= v < 2 ^ 32 -> store a v s = Ok tt (set_mem (<[a := v]>) s).
Proof. intros Hv. unfold store, modify. by rewrite u32_small. Qed.

Lemma page_index i : Z.shiftr (page_addr i - LOW_MEM) 12 = Z.of_nat i.
Proof.
  unfold page_addr. rewrite shiftr_div by lia.
  replace (LOW_MEM + 4096 * Z.of_nat i - LOW_MEM) with (Z.of_nat i * 4096) by lia.
  apply Z.div_mul. lia.
Qed.

(** Freeing a page in use takes one from its count. *)
Lemma free_page_ok s i c :
  mem_map s !! i = Some c -> 1 <= c < 256 -> page_addr i < HIGH_MEMORY s ->
  free_page (page_addr i) s = Ok tt (set_mem_map (alter Z.pred i) s).
Proof.
  intros Hc Hr Hh. unfold free_page.
  assert (HL : LOW_MEM <= page_addr i) by (unfold page_addr; lia).
  rewrite (proj2 (Z.ltb_ge _ _)) by lia. unfold bind, get.
  rewrite (proj2 (Z.leb_gt _ _)) by lia. rewrite page_index.
  unfold mem_map_get, mem_map_set. rewrite (proj2 (Z.ltb_ge _ _)) by lia. rewrite Nat2Z.id, Hc.
  apply lookup_lt_Some in Hc as Hlt.
  rewrite (proj2 (Z.leb_le 0 _)), (proj2 (Z.ltb_lt _ (Z.of_nat (length _)))) by lia. cbn [andb].
  unfold cbool. rewrite (proj2 (Z.eqb_neq c 0)) by lia. cbn [negb ret].
  rewrite u8_small by lia. unfold set_mem_map, ret. do 2 f_equal.
  by apply (alter_insert_lookup _ _ Z.pred).
Qed.

(** Two distinct pages do not overlap. *)
Lemma in_words_page n k k' a :
  (n <= 1024)%nat -> in_words n (4096 * k) a = true -> in_words 1024 (4096 * k') a = true ->
  k = k'.
Proof. intros Hn Ha Hb. unfold in_words in *. b2p_in Ha. b2p_in Hb. lia. Qed.

Lemma in_words_offset n p j : 0 <= j < Z.of_nat n -> in_words n p (p + 4 * j) = true.
Proof.
  intros Hj. unfold in_words. b2p. replace (p + 4 * j - p) with (j * 4) by lia.
  rewrite Z.mod_mul by lia. lia.
Qed.

Lemma in_words_inv n p a : in_words n p a = true -> exists j, 0 <= j < Z.of_nat n /\ a = p + 4 * j.
Proof.
  unfold in_words. intros Ha. b2p_in Ha. pose proof (Z.div_mod (a - p) 4).
  exists ((a - p) / 4). lia.
Qed.

Lemma lor_7 i : frame (Z.lor (page_addr i) 7) = frame (page_addr i)
  /\ Z.lor (page_addr i) 7 = page_addr i + 7.
Proof.
  assert (E : Z.lor (page_addr i) 7 = page_addr i + 7).
  { apply (lor_low _ _ 12); [lia | | lia].
    replace (page_addr i) with ((256 + Z.of_nat i) * 2 ^ 12) by (unfold page_addr, LOW_MEM; lia).
    apply Z.mod_mul. lia. }
  rewrite E. split; [| done]. rewrite !frame_div. do 2 f_equal.
  unfold page_addr, LOW_MEM.
  rewrite <- (Z.div_unique (0x100000 + 4096 * Z.of_nat i) 4096 (256 + Z.of_nat i) 0) by lia.
  symmetry. apply (Z.div_unique _ _ _ 7); lia.
Qed.

Lemma page_word i : (i < Z.to_nat PAGING_PAGES)%nat -> 0 <= page_addr i < 2 ^ 24
  /\ frame (page_addr i) = page_addr i.
Proof.
  rewrite PAGING_PAGES_val. intros Hi. unfold page_addr, LOW_MEM. split; [lia |].
  rewrite frame_word by lia.
  rewrite <- (Z.div_unique (0x100000 + 4096 * Z.of_nat i) 4096 (256 + Z.of_nat i) 0) by lia. lia.
Qed.

Lemma page_addr_frame i : page_addr i = 4096 * (256 + Z.of_nat i).
Proof. unfold page_addr, LOW_MEM. lia. Qed.

Lemma frame_aligned e : 0 <= e < 2 ^ 32 -> exists k, frame e = 4096 * k.
Proof. intros He. exists (e / 4096). by apply frame_word. Qed.

(** Pages apart: no word in common. *)
Lemma pages_apart n k k' a :
  (n <= 1024)%nat -> k <> k' -> in_words n (4096 * k) a = true -> in_words 1024 (4096 * k') a = false.
Proof.
  intros Hn Hk Ha. destruct (in_words 1024 (4096 * k') a) eqn:E; [| done].
  destruct Hk. by eapply in_words_page.
Qed.

(** The directory entry [page | 7] of a counted page. *)
Lemma new_entry i :
  (i < Z.to_nat PAGING_PAGES)%nat ->
  let e := Z.lor (page_addr i) 7 in
  0 <= e < 2 ^ 32 /\ present e = true /\ frame e = page_addr i /\ page_refs e = [i].
Proof.
  intros Hi e. destruct (page_word i Hi) as (Hr & Hf). destruct (lor_7 i) as (H1 & H2).
  assert (He : 0 <= e < 2 ^ 32) by (unfold e; rewrite H2; lia).
  assert (Hp : present e = true).
  { rewrite present_odd. unfold e. rewrite H2. apply Z.eqb_eq. symmetry.
    apply (Z.mod_unique _ _ (2 ^ 11 * (256 + Z.of_nat i) + 3)); unfold page_addr, LOW_MEM; lia. }
  assert (Hfe : frame e = page_addr i) by (unfold e; congruence).
  split_and!; [lia | lia | done | done |].
  unfold page_refs. rewrite Hp, Hfe, page_index, Nat2Z.id.
  by rewrite (proj2 (Z.leb_le _ _)) by (unfold page_addr; lia).
Qed.

(** ** The theorems on single pages *)

Definition in_free_page (s : mm) (a : Z) : Prop :=
  exists i, mem_map s !! i = Some 0 /\ in_words 1024 (page_addr i) a = true.

(** A machine with 16 MB: a task at 64 MB with one page table (page 0) that maps
    page 1, which has [c] users. *)
Definition demo (c : Z) : mm :=
  mk_mm (<[64 := page_addr 0 + 7]> (<[page_addr 0 + 20 := page_addr 1 + 7]> ∅))
        (1 :: c :: replicate 3838 0) 0x1000000 0.

Lemma demo_wf c : 0 <= c < 256 -> mm_wf (demo c).
Proof.
  intros Hc. constructor.
  - reflexivity.
  - cbn [mem_map demo]. do 2 (apply Forall_cons; split; [lia |]). apply Forall_replicate. lia.
  - intros a. unfold rd. cbn [mem demo]. rewrite !lookup_insert, !page_addr_frame, lookup_empty.
    repeat case_decide; cbn; lia.
  - done.
  - intros i Hi. apply lookup_lt_Some in Hi. change (length (mem_map (demo c))) with 3840%nat in Hi.
    rewrite page_addr_frame. cbn [HIGH_MEMORY demo]. unfold PAGE_SIZE. lia.
Qed.

(** [get_free_page] returns 0 and changes nothing when no page is free;
    otherwise it takes the highest free page, sets its count to 1, clears it, and
    changes no other page or count; the allocator stays well formed. *)
Theorem get_free_page_correct s :
  mm_wf s ->
  (get_free_page s = Ok 0 s /\ forall i, mem_map s !! i <> Some 0)
  \/ (exists i s', get_free_page s = Ok (page_addr i) s' /\ mm_wf s'
      /\ page_addr i + PAGE_SIZE <= HIGH_MEMORY s
      /\ mem_map s !! i = Some 0 /\ (forall j, (i < j)%nat -> mem_map s !! j <> Some 0)
      /\ mem_map s' = <[i := 1]> (mem_map s)
      /\ forall a, rd s' a = if in_words 1024 (page_addr i) a then 0 else rd s a).
Proof.
  intros Hwf. destruct (get_free_page_cases s Hwf) as [H | (p & s' & E & Hal)]; [by left | right].
  pose proof (allocated_wf s p s' Hwf Hal) as Hwf'.
  destruct Hal as (i & -> & H0 & Hj & HM & HR & _). exists i, s'.
  split_and!; [done | done | by apply (wf_free s Hwf) | done | done | done | done].
Qed.

Lemma get_free_page_correct_witness :
  (get_free_page (demo 1) = Ok 0 (demo 1) /\ forall i, mem_map (demo 1) !! i <> Some 0)
  \/ (exists i s', get_free_page (demo 1) = Ok (page_addr i) s' /\ mm_wf s'
      /\ mem_map s' = <[i := 1]> (mem_map (demo 1))).
Proof.
  destruct (get_free_page_correct (demo 1) (demo_wf 1 ltac:(lia)))
    as [H | (i & s' & E & W & _ & _ & _ & M & _)]; [by left | right]. by exists i, s'.
Defined.

(** Every branch of [free_page]: an address below 1 MB is ignored, one past
    the end of memory panics, a page in use loses one user, and freeing a free
    page panics and leaves its count at 0. *)
Theorem free_page_correct s addr :
  mm_wf s -> 0 <= addr ->
  let i := Z.to_nat (Z.shiftr (addr - LOW_MEM) 12) in
  free_page addr s =
    (if addr <? LOW_MEM then Ok tt s
    else if HIGH_MEMORY s <=? addr then Panic "trying to free nonexistent page" s
    else match mem_map s !! i with
         | Some 0 => Panic "trying to free free page" s
         | Some c => Ok tt (set_mem_map (<[i := c - 1]>) s)
         | None => Ub
         end)
  /\ (LOW_MEM <= addr < HIGH_MEMORY s -> is_Some (mem_map s !! i)).
Proof.
  intros Hwf Ha i. unfold free_page. split.
  2:{ intros Hr. apply lookup_lt_is_Some_2. rewrite (wf_length s Hwf), PAGING_PAGES_val.
      pose proof (wf_high s Hwf) as Hh. unfold i. rewrite shiftr_div by lia.
      unfold LOW_MEM, PAGING_MEMORY in *.
      assert ((addr - 0x100000) / 2 ^ 12 < 3840) by (apply Z.div_lt_upper_bound; lia).
      assert (0 <= (addr - 0x100000) / 2 ^ 12) by (apply Z.div_pos; lia). lia. }
  destruct (Z.ltb_spec addr LOW_MEM) as [|Hl]; [done |]. unfold bind, get.
  destruct (Z.leb_spec (HIGH_MEMORY s) addr) as [|Hh]; [done |].
  assert (Hi : 0 <= Z.shiftr (addr - LOW_MEM) 12) by (apply Z.shiftr_nonneg; lia).
  unfold mem_map_get. rewrite (proj2 (Z.ltb_ge _ _)) by done. fold i.
  destruct (mem_map s !! i) as [c|] eqn:Hc; [| done].
  apply lookup_lt_Some in Hc as Hlt. unfold mem_map_set.
  rewrite (proj2 (Z.leb_le 0 _)), (proj2 (Z.ltb_lt _ (Z.of_nat _))) by (done || lia). cbn [andb].
  pose proof (proj1 (Forall_lookup _ _) (wf_bytes s Hwf) _ _ Hc) as Hb. cbn in Hb. fold i.
  destruct (decide (c = 0)) as [->|Hne].
  - cbn [cbool Z.eqb negb set_mem_map mem_map]. rewrite length_insert.
    rewrite (proj2 (Z.ltb_lt _ (Z.of_nat _))) by lia.
    unfold panic, set_mem_map. cbn. f_equal. destruct s; cbn in *.
    f_equal. rewrite list_insert_insert_eq. by apply list_insert_id.
  - replace (cbool c) with true by (unfold cbool; blia). rewrite u8_small by lia.
    destruct c; done.
Qed.

Lemma free_page_correct_witness :
  free_page (page_addr 1) (demo 2) = Ok tt (set_mem_map (<[1%nat := 1]>) (demo 2)).
Proof.
  destruct (free_page_correct (demo 2) (page_addr 1)) as (E & _);
    [apply demo_wf; lia | done |]. exact E.
Defined.

(** a page taken with [get_free_page] and given back with [free_page]
    leaves every use count as it was. *)
Theorem get_free_roundtrip s p s1 :
  mm_wf s -> get_free_page s = Ok p s1 -> p <> 0 ->
  exists s2, free_page p s1 = Ok tt s2 /\ mem_map s2 = mem_map s /\ mm_wf s2.
Proof.
  intros Hwf E Hp.
  destruct (get_free_page_cases s Hwf) as [(E' & _) | (p' & s' & E' & Hal)];
    rewrite E in E'; injection E' as -> ->; [done |].
  pose proof (allocated_wf _ _ _ Hwf Hal) as Hwf'.
  destruct Hal as (i & -> & H0 & Hj & HM & HR & HH & _).
  pose proof (wf_free s Hwf i H0) as Hf. unfold PAGE_SIZE in Hf.
  assert (HL : mem_map s' !! i = Some 1).
  { rewrite HM. apply list_lookup_insert_eq. by eapply lookup_lt_Some. }
  rewrite (free_page_ok s' i 1) by (done || lia). eexists; split; [reflexivity |].
  assert (HB : alter Z.pred i (mem_map s') = mem_map s).
  { rewrite <- (alter_insert_lookup _ _ _ 1), HM, list_insert_insert_eq by done.
    by apply list_insert_id. }
  split; [done |]. destruct Hwf as [WL WB WW WH WF]. destruct Hwf' as [_ _ WW' _ _].
  constructor; cbn [mem_map set_mem_map HIGH_MEMORY]; rewrite ?HB, ?HH; done.
Qed.

Lemma get_free_roundtrip_witness :
  exists p s1 s2, get_free_page (demo 1) = Ok p s1 /\ free_page p s1 = Ok tt s2
  /\ mem_map s2 = mem_map (demo 1).
Proof.
  destruct (get_free_roundtrip (demo 1) (page_addr 3839)
              (set_mem (clear_words 1024 (page_addr 3839)) (set_mem_map (<[3839%nat := 1]>) (demo 1))))
    as (s2 & E & M & _); [apply demo_wf; lia | reflexivity | done |].
  do 3 eexists. split; [| split; [exact E | exact M]]. reflexivity.
Defined.

Lemma lor_2 e :
  0 <= e < 2 ^ 32 ->
  let e' := Z.lor e 2 in
  0 <= e' < 2 ^ 32 /\ frame e' = frame e /\ present e' = present e /\ Z.testbit e' 1 = true.
Proof.
  intros He e'. unfold e', frame, present. rewrite !Z.land_lor_distr_r, Z.lor_spec.
  cbn [Z.land]. rewrite !Z.lor_0_r, orb_true_r. split_and!; try done.
  - apply Z.lor_nonneg. lia.
  - apply Z.log2_lt_cancel. rewrite Z.log2_lor by lia.
    apply Z.max_lub_lt; [| done]. destruct (decide (e = 0)) as [->|]; [done |].
    change (Z.log2 (2 ^ 32)) with 32. apply Z.log2_lt_pow2; lia.
Qed.

(** What [un_wp_page] needs of the entry at [te]: its page is in use, and [te]
    is neither in that page nor in a free one. *)
Record wp_pre (s : mm) (te : Z) : Prop := {
  wp_wf : mm_wf s;
  wp_present : present (rd s te) = true;
  wp_used : LOW_MEM <= frame (rd s te) ->
    exists i c, frame (rd s te) = page_addr i /\ mem_map s !! i = Some c /\ 1 <= c;
  wp_self : in_words 1024 (frame (rd s te)) te = false;
  wp_entry : ~ in_free_page s te }.

(** The entry is the only user of a page that is counted. *)
Definition is_sole (s : mm) (te : Z) : Prop :=
  exists i, frame (rd s te) = page_addr i /\ mem_map s !! i = Some 1.

(** What it leaves: a writable entry for a page with one user and the old
    contents; that page is the old one only if it had no other user, and otherwise
    one that was free, and the old page lost a user; nothing else changed. *)
Record wp_post (s : mm) (te : Z) (s' : mm) : Prop := {
  wq_wf : mm_wf s';
  wq_entry : present (rd s' te) = true /\ Z.testbit (rd s' te) 1 = true;
  wq_sole : is_sole s te -> rd s' te = Z.lor (rd s te) 2 /\ mem_map s' = mem_map s;
  wq_new : ~ is_sole s te -> frame (rd s' te) <> frame (rd s te)
    /\ exists i, rd s' te = Z.lor (page_addr i) 7 /\ mem_map s !! i = Some 0;
  wq_counts : exists i, frame (rd s' te) = page_addr i
    /\ forall k, mem_map s' !! k =
         if decide (k = i) then Some 1
         else if page_addr k =? frame (rd s te) then Z.pred <$> mem_map s !! k
         else mem_map s !! k;
  wq_copy : forall j, 0 <= j < 1024 ->
    rd s' (frame (rd s' te) + 4 * j) = rd s (frame (rd s te) + 4 * j);
  wq_frame : forall a, a <> te -> in_words 1024 (frame (rd s' te)) a = false -> rd s' a = rd s a;
  wq_cr3 : cr3_loads s' = S (cr3_loads s) }.

Lemma page_addr_inj i j : page_addr i = page_addr j -> i = j.
Proof. rewrite !page_addr_frame. lia. Qed.

(** The only user: the entry is made writable. *)
Lemma wp_sole s te i :
  wp_pre s te -> frame (rd s te) = page_addr i -> mem_map s !! i = Some 1 ->
  un_wp_page te s = Ok tt (mk_mm (<[te := Z.lor (rd s te) 2]> (mem s)) (mem_map s)
                                 (HIGH_MEMORY s) (S (cr3_loads s)))
  /\ wp_post s te (mk_mm (<[te := Z.lor (rd s te) 2]> (mem s)) (mem_map s)
                         (HIGH_MEMORY s) (S (cr3_loads s))).
Proof.
  intros Hpre Hf Hc. pose proof (wf_words s (wp_wf s te Hpre)) as Hw.
  destruct (lor_2 (rd s te) (Hw te)) as (L1 & L2 & L3 & L4).
  assert (HL : LOW_MEM <= frame (rd s te)) by (rewrite Hf; unfold page_addr; lia).
  split.
  - unfold un_wp_page, bind, load, get. rewrite (proj2 (Z.leb_le _ _) HL).
    unfold MAP_NR. rewrite Hf, page_index. unfold mem_map_get.
    rewrite (proj2 (Z.ltb_ge _ _)), Nat2Z.id, Hc by lia. cbn [ret Z.eqb Pos.eqb].
    by rewrite store_ok.
  - set (s' := mk_mm _ _ _ _).
    assert (HR : forall a, rd s' a = upd (rd s) te (Z.lor (rd s te) 2) a)
      by (intros a; apply (rd_store s te _ a)).
    assert (HE : rd s' te = Z.lor (rd s te) 2) by (rewrite HR; unfold upd; by rewrite Z.eqb_refl).
    assert (HO : forall a, a <> te -> rd s' a = rd s a).
    { intros a Ha. rewrite HR. unfold upd. by rewrite (proj2 (Z.eqb_neq _ _)). }
    destruct (wp_wf s te Hpre) as [W1 W2 W3 W4 W5].
    constructor; rewrite ?HE, ?L2, ?L3; try done.
    + constructor; try done. intros a. rewrite HR. unfold upd. by case_match.
    + split; [apply Hpre | done].
    + intros Hns. destruct Hns. by exists i.
    + exists i. split; [done |]. intros k. cbn [mem_map s'].
      case_decide; [by subst |]. destruct (Z.eqb_spec (page_addr k) (frame (rd s te))) as [E|]; [| done].
      rewrite Hf in E. by apply page_addr_inj in E.
    + intros j Hj. apply HO. intros E. pose proof (wp_self s te Hpre) as Hs.
      pose proof (in_words_offset 1024 (frame (rd s te)) j ltac:(lia)). congruence.
    + intros a Ha _. by apply HO.
Qed.

(** The count of the old page after the copy. *)
Definition dropped (s : mm) (old : Z) (l : list Z) : list Z :=
  if LOW_MEM <=? old then alter Z.pred (Z.to_nat (MAP_NR old)) l else l.

Lemma wp_shared_run s te p s1 :
  wp_pre s te -> ~ is_sole s te -> get_free_page s = Ok p s1 -> allocated s p s1 ->
  un_wp_page te s =
  Ok tt (mk_mm (copy_words 1024 (frame (rd s te)) p (<[te := Z.lor p 7]> (mem s1)))
               (dropped s (frame (rd s te)) (mem_map s1)) (HIGH_MEMORY s) (S (cr3_loads s))).
Proof.
  intros Hpre Hns E (i & -> & H0 & _ & HM & _ & HH & HC).
  pose proof (wp_wf s te Hpre) as Hwf. pose proof (wf_bytes s Hwf) as HB.
  assert (Hi : (i < Z.to_nat PAGING_PAGES)%nat).
  { rewrite <- (wf_length s Hwf). by eapply lookup_lt_Some. }
  destruct (new_entry i Hi) as (Hr & _).
  assert (Hnz : cbool (page_addr i) = true) by (rewrite page_addr_frame; unfold cbool; blia).
  unfold un_wp_page, dropped, MAP_NR. unfold bind at 1. cbn [load get].
  destruct (Z.leb_spec LOW_MEM (frame (rd s te))) as [Hl|Hl].
  - destruct (wp_used s te Hpre Hl) as (o & c & Ho & Hc & H1).
    assert (Hc1 : c <> 1) by (intros ->; apply Hns; by exists o).
    pose proof (proj1 (Forall_lookup _ _) HB _ _ Hc) as Hb. cbn in Hb.
    assert (Hoi : o <> i) by (intros ->; rewrite H0 in Hc; injection Hc; lia).
    assert (Hc2 : mem_map s1 !! o = Some c) by (by rewrite HM, list_lookup_insert_ne).
    apply lookup_lt_Some in Hc2 as Hlt.
    rewrite Ho, page_index, Nat2Z.id. unfold mem_map_get, mem_map_set, bind.
    rewrite (proj2 (Z.ltb_ge _ _)), Nat2Z.id, Hc by lia. cbn [ret].
    rewrite (proj2 (Z.eqb_neq c 1)), E, Hnz by done. cbn [negb]. rewrite Hc2.
    rewrite (proj2 (Z.leb_le 0 _)), (proj2 (Z.ltb_lt _ (Z.of_nat (length _)))) by lia. cbn [andb].
    rewrite store_ok by done. unfold set_mem_map, set_mem, invalidate, modify.
    cbn [mem mem_map HIGH_MEMORY cr3_loads]. rewrite HH, HC, u8_small by lia.
    do 2 f_equal. by apply (alter_insert_lookup _ _ Z.pred).
  - cbn [ret]. unfold bind. cbn [ret]. rewrite E, Hnz. cbn [negb ret].
    rewrite store_ok by done. unfold set_mem, invalidate, modify.
    cbn [mem mem_map HIGH_MEMORY cr3_loads]. by rewrite HH, HC.
Qed.

Lemma wp_none s te :
  wp_pre s te -> ~ is_sole s te -> get_free_page s = Ok 0 s -> un_wp_page te s = Exit SIGSEGV s.
Proof.
  intros Hpre Hns E. unfold un_wp_page, bind. cbn [load get].
  destruct (Z.leb_spec LOW_MEM (frame (rd s te))) as [Hl|Hl].
  - destruct (wp_used s te Hpre Hl) as (o & c & Ho & Hc & H1).
    assert (Hc1 : c <> 1) by (intros ->; apply Hns; by exists o).
    unfold MAP_NR. rewrite Ho, page_index. unfold mem_map_get.
    rewrite (proj2 (Z.ltb_ge _ _)), Nat2Z.id, Hc by lia. cbn [ret].
    by rewrite (proj2 (Z.eqb_neq c 1)), E by done.
  - cbn [ret]. by rewrite E.
Qed.

(** The new page is not the old one. *)
Lemma wp_apart s te i :
  wp_pre s te -> mem_map s !! i = Some 0 ->
  exists x, frame (rd s te) = 4096 * x /\ x <> 256 + Z.of_nat i.
Proof.
  intros Hpre H0. destruct (frame_aligned (rd s te)) as (x & Hx).
  { apply (wf_words s), Hpre. }
  exists x. split; [done |]. intros ->. rewrite <- page_addr_frame in Hx.
  destruct (wp_used s te Hpre) as (o & c & Ho & Hc & H1); [rewrite Hx; unfold page_addr; lia |].
  rewrite Hx in Ho. apply page_addr_inj in Ho as <-. rewrite H0 in Hc. injection Hc. lia.
Qed.

Section Shared.
Context (s s1 : mm) (te : Z) (i : nat).
Context (Hpre : wp_pre s te) (Hns : ~ is_sole s te) (H0 : mem_map s !! i = Some 0).
Context (HM : mem_map s1 = <[i := 1]> (mem_map s)).
Context (HR1 : forall a, rd s1 a = if in_words 1024 (page_addr i) a then 0 else rd s a).

Lemma wp_shared_rd a l h c :
  rd (mk_mm (copy_words 1024 (frame (rd s te)) (page_addr i) (<[te := Z.lor (page_addr i) 7]> (mem s1))) l h c) a
  = if in_words 1024 (page_addr i) a then rd s (frame (rd s te) + (a - page_addr i))
    else upd (rd s) te (Z.lor (page_addr i) 7) a.
Proof using Hpre H0 HR1.
  destruct (wp_apart s te i Hpre H0) as (x & Hx & Hxi). pose proof (page_addr_frame i) as Hp.
  unfold rd at 1. cbn [mem]. rewrite copy_words_lookup by lia.
  change (default 0 (<[te:=?v]> (mem s1) !! ?b)) with (rd (set_mem (<[te := v]>) s1) b).
  rewrite !rd_store. unfold upd. rewrite !HR1.
  destruct (in_words 1024 (page_addr i) a) eqn:Ha; [| done].
  apply in_words_inv in Ha as (j & Hj & ->).
  replace (page_addr i + 4 * j - page_addr i) with (4 * j) by lia.
  pose proof (in_words_offset 1024 (frame (rd s te)) j ltac:(lia)) as Hin.
  pose proof (wp_self s te Hpre) as Hself.
  rewrite (proj2 (Z.eqb_neq _ te)) by congruence.
  rewrite Hp, (pages_apart 1024 x (256 + Z.of_nat i)); [done | lia | done |]. by rewrite <- Hx.
Qed.

Lemma wp_shared_counts k :
  dropped s (frame (rd s te)) (mem_map s1) !! k
  = if decide (k = i) then Some 1
    else if page_addr k =? frame (rd s te) then Z.pred <$> mem_map s !! k else mem_map s !! k.
Proof using Hpre H0 HM.
  apply lookup_lt_Some in H0 as Hlt. destruct (wp_apart s te i Hpre H0) as (x & Hx & Hxi).
  unfold dropped, MAP_NR. destruct (Z.leb_spec LOW_MEM (frame (rd s te))) as [Hl|Hl].
  - destruct (wp_used s te Hpre Hl) as (o & c & Ho & Hc & H1).
    rewrite Ho, page_index, Nat2Z.id, list_lookup_alter, HM.
    assert (o <> i) by (rewrite Ho, page_addr_frame in Hx; lia).
    case_decide as E; [subst k; rewrite decide_False, Z.eqb_refl by done; by rewrite list_lookup_insert_ne |].
    case_decide as E2; [subst k; by apply list_lookup_insert_eq |].
    rewrite list_lookup_insert_ne by done.
    rewrite (proj2 (Z.eqb_neq _ _)); [done |]. intros ?%page_addr_inj. congruence.
  - rewrite HM. case_decide; [subst k; by apply list_lookup_insert_eq |].
    rewrite list_lookup_insert_ne by done.
    rewrite (proj2 (Z.eqb_neq _ _)); [done |]. unfold page_addr. lia.
Qed.

Lemma wp_shared_wf m n :
  words (rd (mk_mm m (dropped s (frame (rd s te)) (mem_map s1)) (HIGH_MEMORY s) n)) ->
  mm_wf (mk_mm m (dropped s (frame (rd s te)) (mem_map s1)) (HIGH_MEMORY s) n).
Proof using Hpre Hns H0 HM.
  intros Hw. destruct (wp_wf s te Hpre) as [W1 W2 W3 W4 W5].
  assert (HK : forall k c, dropped s (frame (rd s te)) (mem_map s1) !! k = Some c ->
            c = 1 \/ (1 <= c < 256) \/ (mem_map s !! k = Some c)).
  { intros k c. rewrite wp_shared_counts. case_decide; [intros [= <-]; by left |].
    destruct (Z.eqb_spec (page_addr k) (frame (rd s te))) as [E|]; [| by auto].
    destruct (mem_map s !! k) as [c'|] eqn:Hc'; [| done]. cbn. intros [= <-]. right. left.
    pose proof (proj1 (Forall_lookup _ _) W2 _ _ Hc') as Hb. cbn in Hb.
    destruct (wp_used s te Hpre) as (o & c2 & Ho & Hc2 & H2); [rewrite <- E; unfold page_addr; lia |].
    rewrite <- E in Ho. apply page_addr_inj in Ho as ->. rewrite Hc' in Hc2. injection Hc2 as ->.
    assert (c2 <> 1) by (intros ->; apply Hns; by exists o). lia. }
  constructor; cbn [mem_map HIGH_MEMORY]; try done.
  - unfold dropped. rewrite HM. case_match; rewrite ?length_alter, length_insert; done.
  - apply Forall_lookup. intros k c Hc. destruct (HK k c Hc) as [-> | [|Hk]]; [lia | lia |].
    by apply (proj1 (Forall_lookup _ _) W2 k).
  - intros k Hc. destruct (HK k 0 Hc) as [? | [|Hk]]; [lia | lia |]. by apply W5.
Qed.
End Shared.

Lemma wp_shared_post s te p s1 :
  wp_pre s te -> ~ is_sole s te -> allocated s p s1 ->
  wp_post s te (mk_mm (copy_words 1024 (frame (rd s te)) p (<[te := Z.lor p 7]> (mem s1)))
               (dropped s (frame (rd s te)) (mem_map s1)) (HIGH_MEMORY s) (S (cr3_loads s))).
Proof.
  intros Hpre Hns Hal. pose proof (wp_wf s te Hpre) as Hwf.
  pose proof (allocated_wf _ _ _ Hwf Hal) as Hwf1.
  destruct Hal as (i & -> & H0 & _ & HM & HR1 & HH & HC).
  assert (Hi : (i < Z.to_nat PAGING_PAGES)%nat).
  { rewrite <- (wf_length s Hwf). by eapply lookup_lt_Some. }
  destruct (new_entry i Hi) as (N1 & N2 & N3 & _).
  set (s' := mk_mm _ _ _ _).
  assert (HR : forall a, rd s' a =
      if in_words 1024 (page_addr i) a then rd s (frame (rd s te) + (a - page_addr i))
      else upd (rd s) te (Z.lor (page_addr i) 7) a) by (intros a; exact (wp_shared_rd s s1 te i Hpre H0 HR1 a _ _ _)).
  assert (HT : in_words 1024 (page_addr i) te = false).
  { destruct (in_words _ _ te) eqn:E; [| done]. destruct (wp_entry s te Hpre). by exists i. }
  assert (HE : rd s' te = Z.lor (page_addr i) 7).
  { rewrite HR, HT. unfold upd. by rewrite Z.eqb_refl. }
  constructor; rewrite ?HE, ?N3.
  - apply (wp_shared_wf s s1 te i Hpre Hns H0 HM). intros a. fold s'. rewrite HR. unfold upd.
    repeat case_match; [apply (wf_words s Hwf) | done | apply (wf_words s Hwf)].
  - split; [done |]. rewrite Z.lor_spec. apply orb_true_r.
  - intros Hs. exfalso. exact (Hns Hs).
  - intros _. destruct (wp_apart s te i Hpre H0) as (x & -> & Hx).
    split; [rewrite page_addr_frame; lia |]. exists i. split; [reflexivity | exact H0].
  - exists i. split; [done |]. exact (wp_shared_counts s s1 te i Hpre H0 HM).
  - intros j Hj. rewrite HR, in_words_offset by lia. f_equal. lia.
  - intros a Ha Hn. rewrite HR, Hn. unfold upd. by rewrite (proj2 (Z.eqb_neq _ _)).
  - reflexivity.
Qed.

Lemma is_sole_dec s te : is_sole s te \/ ~ is_sole s te.
Proof.
  destruct (decide (Exists (fun k => frame (rd s te) = page_addr k /\ mem_map s !! k = Some 1)
                           (seq 0 (length (mem_map s))))) as [H|H].
  - left. apply Exists_exists in H as (k & _ & Hk). by exists k.
  - right. intros (k & Hk & Hc). apply H, Exists_exists. exists k. split; [| done].
    apply elem_of_seq. apply lookup_lt_Some in Hc. lia.
Qed.

(** C15: [un_wp_page], the write to a page that is write-protected.  If the task is its
    only user, its entry becomes writable and no count changes.  Otherwise the entry is
    for another page, which was free, writable and with the old contents; the old page
    keeps its contents and loses one user.  When no page is free, the task is killed with
    [SIGSEGV] and nothing has changed. *)
Theorem un_wp_page_private s te :
  wp_pre s te ->
  match un_wp_page te s with
  | Ok _ s' => wp_post s te s'
  | Exit code s' => code = SIGSEGV /\ s' = s /\ forall i, mem_map s !! i <> Some 0
  | _ => False
  end.
Proof.
  intros Hpre. pose proof (wp_wf s te Hpre) as Hwf.
  destruct (is_sole_dec s te) as [(i & Hf & Hc) | Hns].
  { by destruct (wp_sole s te i Hpre Hf Hc) as (-> & ?). }
  destruct (get_free_page_cases s Hwf) as [(E & Hn) | (p & s1 & E & Hal)].
  - rewrite (wp_none s te); done.
  - rewrite (wp_shared_run s te p s1 Hpre Hns E Hal). by apply wp_shared_post.
Qed.

Lemma demo_wp_pre : wp_pre (demo 2) (page_addr 0 + 20).
Proof.
  constructor.
  - apply demo_wf. lia.
  - reflexivity.
  - intros _. exists 1%nat, 2. done.
  - reflexivity.
  - intros (i & H0 & Hi). rewrite !page_addr_frame in Hi. unfold in_words in Hi. b2p_in Hi.
    assert (i = 0%nat) as -> by lia. done.
Qed.

Lemma un_wp_page_private_witness :
  match un_wp_page (page_addr 0 + 20) (demo 2) with
  | Ok _ s' => wp_post (demo 2) (page_addr 0 + 20) s'
  | Exit code s' => code = SIGSEGV /\ s' = demo 2 /\ forall i, mem_map (demo 2) !! i <> Some 0
  | _ => False
  end.
Proof. exact (un_wp_page_private (demo 2) (page_addr 0 + 20) demo_wp_pre). Defined.

Lemma free_range_ok n i s :
  0 <= i -> i + Z.of_nat n <= Z.of_nat (length (mem_map s)) ->
  exists s', free_range n i s = Ok tt s' /\ mem s' = mem s /\ HIGH_MEMORY s' = HIGH_MEMORY s
  /\ length (mem_map s') = length (mem_map s)
  /\ forall k, mem_map s' !! k =
       if (i <=? Z.of_nat k) && (Z.of_nat k <? i + Z.of_nat n) then Some 0 else mem_map s !! k.
Proof.
  revert i s. induction n as [|n IH]; intros i s Hi Hn; cbn [free_range].
  - exists s. split_and!; try done. intros k.
    by replace ((i <=? Z.of_nat k) && (Z.of_nat k <? i + Z.of_nat 0)) with false by blia.
  - unfold bind at 1, mem_map_set at 1.
    rewrite (proj2 (Z.leb_le 0 i)), (proj2 (Z.ltb_lt _ (Z.of_nat _))) by lia. cbn [andb].
    destruct (IH (i + 1) (set_mem_map (<[Z.to_nat i := u8 0]>) s)) as (s' & E & H1 & H2 & H3 & H4).
    + lia.
    + cbn [mem_map set_mem_map]. rewrite length_insert. lia.
    + exists s'. cbn [mem_map set_mem_map] in H3, H4. rewrite length_insert in H3.
      split_and!; try done. intros k. rewrite H4.
      destruct (decide (Z.to_nat i = k)) as [<-|Hk].
      * rewrite list_lookup_insert_eq by lia. change (u8 0) with 0.
        replace ((i <=? Z.of_nat (Z.to_nat i)) && (Z.of_nat (Z.to_nat i) <? i + Z.of_nat (S n)))
          with true by blia. by case_match.
      * rewrite list_lookup_insert_ne by done.
        replace ((i <=? Z.of_nat k) && (Z.of_nat k <? i + Z.of_nat (S n)))
          with ((i + 1 <=? Z.of_nat k) && (Z.of_nat k <? i + 1 + Z.of_nat n)); [done |].
        apply eq_true_iff_eq. b2p. lia.
Qed.

(** [mem_init] makes exactly the pages between [start_mem] and [end_mem]
    available, marks every other page used, and establishes the allocator's
    invariant. *)
Theorem mem_init_correct s start_mem end_mem :
  words (rd s) -> LOW_MEM <= start_mem <= end_mem -> end_mem <= LOW_MEM + PAGING_MEMORY ->
  start_mem mod 4096 = 0 -> end_mem mod 4096 = 0 ->
  exists s', mem_init start_mem end_mem s = Ok tt s' /\ mm_wf s' /\ HIGH_MEMORY s' = end_mem
  /\ forall i, (i < Z.to_nat PAGING_PAGES)%nat ->
       mem_map s' !! i
       = Some (if (start_mem <=? page_addr i) && (page_addr i <? end_mem) then 0 else USED).
Proof.
  intros Hw Hs He Ms Me. unfold mem_init, MAP_NR, bind, modify. unfold LOW_MEM, PAGING_MEMORY in *.
  rewrite !shiftr_div by lia. change (2 ^ 12) with 4096.
  apply Z.mod_divide in Ms as (x & ->); [| lia]. apply Z.mod_divide in Me as (y & ->); [| lia].
  replace (y * 4096 - x * 4096) with ((y - x) * 4096) by lia.
  replace (x * 4096 - 0x100000) with ((x - 256) * 4096) by lia. rewrite !Z.div_mul by lia.
  set (s0 := set_mem_map _ _).
  assert (HL : length (mem_map s0) = 3840%nat) by (cbn [mem_map s0 set_mem_map]; by rewrite length_replicate).
  destruct (free_range_ok (Z.to_nat (y - x)) (x - 256) s0) as (s' & E & H1 & H2 & H3 & H4); [lia | lia |].
  assert (HC : forall i, (i < 3840)%nat -> mem_map s' !! i =
    Some (if (x * 4096 <=? page_addr i) && (page_addr i <? y * 4096) then 0 else USED)).
  { intros i Hi. rewrite H4, page_addr_frame. cbn [mem_map s0 set_mem_map].
    rewrite lookup_replicate_2 by (rewrite PAGING_PAGES_val; lia).
    replace ((x * 4096 <=? 4096 * (256 + Z.of_nat i)) && (4096 * (256 + Z.of_nat i) <? y * 4096))
      with ((x - 256 <=? Z.of_nat i) && (Z.of_nat i <? x - 256 + Z.of_nat (Z.to_nat (y - x))));
      [by case_match |]. apply eq_true_iff_eq. b2p. lia. }
  rewrite HL in H3. exists s'. split; [done |]. split; [| done]. constructor.
  - done.
  - apply Forall_lookup. intros i c Hc. apply lookup_lt_Some in Hc as Hlt.
    rewrite HC in Hc by lia. injection Hc as <-. unfold USED. case_match; lia.
  - intros a. unfold rd. rewrite H1. apply Hw.
  - rewrite H2. cbn [HIGH_MEMORY s0 set_mem_map]. unfold LOW_MEM, PAGING_MEMORY. lia.
  - intros i Hc. apply lookup_lt_Some in Hc as Hlt. rewrite HC in Hc by lia. rewrite H2.
    cbn [HIGH_MEMORY s0 set_mem_map]. injection Hc as Hc. rewrite page_addr_frame in *.
    unfold USED, PAGE_SIZE in *. case_match eqn:E1; [| lia]. b2p_in E1. lia.
Qed.

Lemma mem_init_correct_witness :
  exists s', mem_init 0x400000 0x1000000 (mk_mm ∅ [] 0 0) = Ok tt s' /\ mm_wf s'
  /\ HIGH_MEMORY s' = 0x1000000.
Proof.
  destruct (mem_init_correct (mk_mm ∅ [] 0 0) 0x400000 0x1000000) as (s' & E & W & H & _);
    [intros a; done | done | done | done | done |].
  exists s'. split; [exact E | split; [exact W | exact H]].
Defined.
