(* ===== verification/PageTables.v ===== *)
(** Forking and exiting in mm/memory.c: what [copy_page_tables] and
    [free_page_tables] do to the page tables and to the use counts. *)
From stdpp Require Import base list gmap strings.
From Stdlib Require Import ZArith Lia.
From S2P Require Import Prelude Bits Memory.
Open Scope Z_scope.

(** ** Copying entries *)

(** What copying one entry, and [n] entries, does to the words of memory. *)
Definition entry_copied (fp tp : Z) (f : Z -> Z) : Z -> Z :=
  let e := f fp in
  if present e then
    let f1 := upd f tp (clr e) in
    if LOW_MEM <=? frame e then upd f1 fp (clr e) else f1
  else f.

Fixpoint entries_copied (n : nat) (fp tp : Z) (f : Z -> Z) : Z -> Z :=
  match n with
  | O => f
  | S n => entries_copied n (fp + 4) (tp + 4) (entry_copied fp tp f)
  end.

Lemma upd_words f a v : words f -> 0 <= v < 2 ^ 32 -> words (upd f a v).
Proof. intros Hf Hv b. unfold upd. case_match; [done | apply Hf]. Qed.

Lemma entry_copied_words fp tp f : words f -> words (entry_copied fp tp f).
Proof.
  intros Hf. pose proof (clr_word (f fp) (Hf fp)) as (Hc & _).
  unfold entry_copied. repeat case_match; auto using upd_words.
Qed.

Lemma entries_copied_ext n fp tp f g :
  (forall a, f a = g a) -> forall a, entries_copied n fp tp f a = entries_copied n fp tp g a.
Proof.
  revert fp tp f g. induction n as [|n IH]; intros fp tp f g H; cbn; [done |].
  apply IH. intros a. unfold entry_copied, upd. rewrite (H fp).
  repeat case_match; auto.
Qed.

Lemma copy_entry_ok s fp tp :
  words (rd s) -> fits (mem_map s) (page_refs (rd s fp)) ->
  exists s', copy_entry fp tp s = Ok tt s'
  /\ counts_are s (incs (mem_map s) (page_refs (rd s fp))) s'
  /\ forall a, rd s' a = entry_copied fp tp (rd s) a.
Proof.
  intros Hw Hfit. unfold copy_entry, entry_copied, page_refs in *.
  unfold bind at 1. cbn [load get]. fold (clr (rd s fp)).
  destruct (present (rd s fp)) eqn:Hp; cbn [negb andb] in *; [|by exists s].
  destruct (low_clr (rd s fp) (Hw fp) Hp) as (Hlow & Hidx). rewrite Hlow, Hidx.
  destruct (clr_word (rd s fp) (Hw fp)) as (Hc & _).
  unfold bind at 1. cbn [store modify]. rewrite (u32_small (clr (rd s fp))) by done.
  destruct (LOW_MEM <=? frame (rd s fp)) eqn:Hlo.
  - unfold bind at 1. cbn [store modify]. rewrite (u32_small (clr (rd s fp))) by done.
    destruct (Hfit (Z.to_nat (Z.shiftr (frame (rd s fp) - LOW_MEM) 12)))
      as (c & Hl & Hc0 & Hc1); [by apply list_elem_of_singleton |].
    rewrite occ_cons, decide_True in Hc1 by done. unfold occ in Hc1. cbn in Hc1.
    rewrite (mem_map_incr _ _ c); [|done | apply Z.shiftr_nonneg; b2p_in Hlo; lia | lia].
    eexists; split; [reflexivity |]. split; [by repeat split |].
    intros a. change (rd (set_mem_map _ ?x)) with (rd x). rewrite !rd_store.
    unfold upd. rewrite rd_store. done.
  - eexists; split; [reflexivity |]. split; [by repeat split |]. intros a. by rewrite rd_store.
Qed.

Lemma entry_copied_refs fp tp f a :
  words f -> a <> tp -> page_refs (entry_copied fp tp f a) = page_refs (f a).
Proof.
  intros Hw Ha. unfold entry_copied, upd.
  repeat case_match; rewrite ?Z.eqb_eq in *; subst; try done. by rewrite page_refs_clr.
Qed.

Lemma copy_entries_ok n fp tp s :
  words (rd s) -> fp + 4 * Z.of_nat n <= tp \/ tp + 4 * Z.of_nat n <= fp ->
  fits (mem_map s) (table_refs (rd s) n fp) ->
  exists s', copy_entries n fp tp s = Ok tt s'
  /\ counts_are s (incs (mem_map s) (table_refs (rd s) n fp)) s'
  /\ forall a, rd s' a = entries_copied n fp tp (rd s) a.
Proof.
  revert fp tp s. induction n as [|n IH]; intros fp tp s Hw Hd Hfit; cbn.
  - by exists s.
  - cbn in Hfit.
    destruct (copy_entry_ok s fp tp Hw (fits_app_l _ _ _ Hfit)) as (s1 & E1 & C1 & R1).
    destruct C1 as (CM & CH & CC).
    assert (HT : table_refs (rd s1) n (fp + 4) = table_refs (rd s) n (fp + 4)).
    { apply table_refs_ext. intros a Ha. rewrite R1. apply entry_copied_refs; [done |].
      unfold in_words in Ha. b2p_in Ha. lia. }
    destruct (IH (fp + 4) (tp + 4) s1) as (s2 & E2 & (CM2 & CH2 & CC2) & R2).
    + intros a. rewrite R1. by apply entry_copied_words.
    + lia.
    + rewrite HT, CM. by apply fits_app_r.
    + exists s2. split; [by rewrite (bind_Ok _ _ _ _ _ E1) |]. split; [split_and!; try congruence |].
      * rewrite CM2, CM, HT, <- incs_app. by rewrite Permutation_app_comm.
      * intros a. rewrite R2. by apply entries_copied_ext.
Qed.

(** ** What a copied table looks like

    An entry the copy loop visits is unchanged up to its write permission, which it loses
    only if it is for a page above 1 MB. *)
Definition same_entry (x y : Z) : Prop :=
  y = x \/ (y = clr x /\ present x = true /\ LOW_MEM <= frame x).

Lemma clr_clr e : clr (clr e) = clr e.
Proof. unfold clr. by rewrite <- Z.land_assoc, Z.land_diag. Qed.

Lemma same_entry_trans x y z :
  0 <= x < 2 ^ 32 -> same_entry x y -> same_entry y z -> same_entry x z.
Proof.
  unfold same_entry. intros Hx [-> | (-> & Hp)] [-> | (-> & Hq)]; auto. by rewrite clr_clr; auto.
Qed.

Lemma same_entry_inv x y :
  0 <= x < 2 ^ 32 -> same_entry x y ->
  present y = present x /\ frame y = frame x /\ page_refs y = page_refs x /\ clr y = clr x.
Proof.
  intros Hx [-> | (-> & _)]; [done |].
  by rewrite present_clr, frame_clr, page_refs_clr, clr_clr.
Qed.

Lemma entry_copied_same fp tp f a : a <> tp -> same_entry (f a) (entry_copied fp tp f a).
Proof.
  intros Ha. unfold entry_copied, upd.
  repeat case_match; rewrite ?Z.eqb_eq, ?Z.leb_le in *; subst; first [by left | by right].
Qed.

Lemma entry_copied_to fp tp f :
  fp <> tp -> entry_copied fp tp f tp = if present (f fp) then clr (f fp) else f tp.
Proof.
  intros Hne. unfold entry_copied, upd.
  repeat case_match; rewrite ?Z.eqb_eq, ?Z.eqb_neq in *; congruence.
Qed.

Lemma entry_copied_other fp tp f a : a <> fp -> a <> tp -> entry_copied fp tp f a = f a.
Proof.
  intros H1 H2. unfold entry_copied, upd.
  repeat case_match; rewrite ?Z.eqb_eq in *; congruence.
Qed.

Lemma entries_copied_words n fp tp f : words f -> words (entries_copied n fp tp f).
Proof.
  revert fp tp f. induction n; intros; cbn; [done |]. auto using entry_copied_words.
Qed.

Lemma entries_copied_same n fp tp f a :
  words f -> in_words n tp a = false -> same_entry (f a) (entries_copied n fp tp f a).
Proof.
  revert fp tp f. induction n as [|n IH]; intros fp tp f Hw Ha; cbn; [by left |].
  rewrite in_words_cons in Ha. apply orb_false_iff in Ha as (Ha & Hr). apply Z.eqb_neq in Ha.
  eapply same_entry_trans; [apply Hw | by apply entry_copied_same |].
  apply IH; [by apply entry_copied_words | done].
Qed.

Lemma entries_copied_to n fp tp f a :
  words f -> fp + 4 * Z.of_nat n <= tp \/ tp + 4 * Z.of_nat n <= fp ->
  in_words n tp a = true ->
  entries_copied n fp tp f a
  = (let e := f (fp + (a - tp)) in if present e then clr e else f a).
Proof.
  revert fp tp f. induction n as [|n IH]; intros fp tp f Hw Hd Ha; cbn [entries_copied].
  { unfold in_words in Ha. b2p_in Ha. lia. }
  rewrite in_words_cons in Ha. destruct (in_words n (tp + 4) a) eqn:Hn.
  - rewrite IH by (try apply entry_copied_words; done || lia).
    unfold in_words in Hn. b2p_in Hn. cbn zeta.
    replace (fp + 4 + (a - (tp + 4))) with (fp + (a - tp)) by lia.
    destruct (same_entry_inv (f (fp + (a - tp))) (entry_copied fp tp f (fp + (a - tp))))
      as (-> & _ & _ & ->); [apply Hw | apply entry_copied_same; lia |].
    case_match; [done |]. apply entry_copied_other; lia.
  - rewrite orb_false_r in Ha. apply Z.eqb_eq in Ha as ->. rewrite Z.sub_diag, Z.add_0_r.
    cbn zeta. rewrite <- (entry_copied_to fp tp f) by lia.
    assert (HF : forall m fp tp' g, tp < tp' -> tp < fp \/ fp + 4 * Z.of_nat m <= tp ->
              entries_copied m fp tp' g tp = g tp).
    { induction m as [|m IHm]; intros fp' tp' g H1 H2; cbn [entries_copied]; [done |].
      rewrite IHm by lia. apply entry_copied_other; lia. }
    apply HF; lia.
Qed.

Lemma entries_copied_from n fp tp f a :
  words f -> fp + 4 * Z.of_nat n <= tp \/ tp + 4 * Z.of_nat n <= fp ->
  in_words n fp a = true -> present (f a) = true -> LOW_MEM <= frame (f a) ->
  entries_copied n fp tp f a = clr (f a).
Proof.
  intros Hw Hd Ha Hp Hl. revert fp tp f Hw Hd Ha Hp Hl.
  induction n as [|n IH]; intros fp tp f Hw Hd Ha Hp Hl; cbn [entries_copied].
  { unfold in_words in Ha. b2p_in Ha. lia. }
  rewrite in_words_cons in Ha. destruct (a =? fp) eqn:Hf.
  - apply Z.eqb_eq in Hf as ->.
    assert (HE : entry_copied fp tp f fp = clr (f fp)).
    { unfold entry_copied, upd. rewrite Hp, (proj2 (Z.leb_le _ _) Hl), Z.eqb_refl. done. }
    destruct (entries_copied_same n (fp + 4) (tp + 4) (entry_copied fp tp f) fp) as [-> | (-> & _)];
      rewrite ?HE, ?clr_clr; try done.
    + by apply entry_copied_words.
    + unfold in_words. apply andb_false_intro1. blia.
  - cbn [orb] in Ha. apply Z.eqb_neq in Hf.
    assert (Hat : a <> tp) by (unfold in_words in Ha; b2p_in Ha; lia).
    rewrite <- (entry_copied_other fp tp f a) in * by done.
    apply IH; auto using entry_copied_words; lia.
Qed.

Lemma entries_copied_other n fp tp f a :
  in_words n fp a = false -> in_words n tp a = false -> entries_copied n fp tp f a = f a.
Proof.
  revert fp tp f. induction n as [|n IH]; intros fp tp f; cbn [entries_copied]; [done |].
  rewrite !in_words_cons, !orb_false_iff, !Z.eqb_neq. intros (H1 & H2) (H3 & H4).
  rewrite IH by done. by apply entry_copied_other.
Qed.

Lemma table_refs_add f n m p :
  table_refs f (n + m) p = table_refs f n p ++ table_refs f m (p + 4 * Z.of_nat n).
Proof.
  revert p. induction n as [|n IH]; intros p; cbn [Nat.add table_refs].
  - by rewrite Z.add_0_r.
  - rewrite IH, app_assoc. do 2 f_equal. lia.
Qed.

Lemma table_refs_shift f g n p q :
  (forall a, in_words n q a = true -> page_refs (g a) = page_refs (f (p + (a - q)))) ->
  table_refs g n q = table_refs f n p.
Proof.
  revert p q. induction n as [|n IH]; intros p q H; cbn; [done |].
  rewrite (H q), (IH (p + 4) (q + 4)).
  - by rewrite Z.sub_diag, Z.add_0_r.
  - intros a Ha. rewrite H by (by rewrite in_words_cons, Ha, orb_true_r). do 2 f_equal. lia.
  - by rewrite in_words_cons, Z.eqb_refl.
Qed.

Lemma table_refs_nil f n p :
  (forall a, in_words n p a = true -> present (f a) = false) -> table_refs f n p = [].
Proof.
  revert p. induction n as [|n IH]; intros p H; cbn; [done |].
  unfold page_refs. rewrite H by (by rewrite in_words_cons, Z.eqb_refl).
  apply IH. intros a Ha. apply H. by rewrite in_words_cons, Ha, orb_true_r.
Qed.

(** ** Freeing drops exactly the references it finds *)

Lemma page_refs_spec e i :
  0 <= e < 2 ^ 32 -> i ∈ page_refs e ->
  present e = true /\ frame e = page_addr i /\ page_refs e = [i].
Proof.
  intros He. unfold page_refs. destruct (present e) eqn:Hp; cbn [andb]; [| by intros ?%elem_of_nil].
  case_match eqn:Hl; [| by intros ?%elem_of_nil]. intros ->%list_elem_of_singleton. b2p_in Hl.
  split_and!; [done | | done]. unfold page_addr. rewrite shiftr_div by lia.
  rewrite frame_word in * by done. unfold LOW_MEM in *.
  replace (4096 * (e / 4096) - 0x100000) with ((e / 4096 - 256) * 4096) by lia.
  change (2 ^ 12) with 4096. rewrite Z.div_mul by lia. lia.
Qed.

Lemma incs_pred l i B c :
  l !! i = Some c -> alter Z.pred i (incs l (i :: B)) = incs l B.
Proof.
  intros Hc. apply list_eq. intros j.
  rewrite list_lookup_alter, !incs_lookup.
  case_decide; [subst; rewrite Hc | destruct (l !! j); [| done]];
    cbn [fmap option_fmap option_map]; rewrite occ_cons; case_decide; done || (f_equal; lia).
Qed.

(** The references [A] can be dropped from [incs l A]. *)
Definition droppable (high : Z) (l : list Z) (A : list nat) : Prop :=
  forall i, i ∈ A ->
    page_addr i < high /\ exists c, l !! i = Some c /\ 0 <= c /\ c + occ A i < 256.

Lemma droppable_app h l A B : droppable h l (A ++ B) -> droppable h l B.
Proof.
  intros H i Hi. destruct (H i) as (Hh & c & Hc & H0 & H1); [by apply elem_of_app; right |].
  split; [done |]. exists c. rewrite occ_app in H1. pose proof (occ_nonneg A i).
  split_and!; [done | done | lia].
Qed.

Lemma free_frame_ok s e l B :
  0 <= e < 2 ^ 32 -> present e = true ->
  droppable (HIGH_MEMORY s) l (page_refs e ++ B) -> mem_map s = incs l (page_refs e ++ B) ->
  exists s', free_page (frame e) s = Ok tt s' /\ counts_are s (incs l B) s'
  /\ forall a, rd s' a = rd s a.
Proof.
  intros He Hp Hd Hm. destruct (decide (LOW_MEM <= frame e)) as [Hl|Hl].
  - set (i := Z.to_nat (Z.shiftr (frame e - LOW_MEM) 12)).
    assert (Hi : i ∈ page_refs e).
    { unfold page_refs. rewrite Hp, (proj2 (Z.leb_le _ _) Hl). by apply list_elem_of_singleton. }
    destruct (page_refs_spec e i He Hi) as (_ & -> & Hr). rewrite Hr in *. cbn [app] in *.
    destruct (Hd i) as (Hh & c & Hc & H0 & H1); [by left |].
    rewrite occ_cons, decide_True in H1 by done.
    erewrite (free_page_ok s i (c + occ (i :: B) i)); [| | | done].
    + eexists; split; [reflexivity |]. split; [| done]. split; [| done].
      cbn [mem_map set_mem_map]. rewrite Hm. by eapply incs_pred.
    + by rewrite Hm, incs_lookup, Hc.
    + rewrite occ_cons, decide_True by done. pose proof (occ_nonneg B i). lia.
  - exists s. assert (page_refs e = []) as Hr.
    { unfold page_refs. by rewrite (proj2 (Z.leb_gt _ _)), andb_false_r by lia. }
    rewrite Hr in Hm. unfold free_page. rewrite (proj2 (Z.ltb_lt _ _)) by lia. by repeat split.
Qed.

Lemma free_entry_ok s pt l B :
  words (rd s) -> droppable (HIGH_MEMORY s) l (page_refs (rd s pt) ++ B) ->
  mem_map s = incs l (page_refs (rd s pt) ++ B) ->
  exists s', free_entry pt s = Ok tt s' /\ counts_are s (incs l B) s'
  /\ forall a, rd s' a = upd (rd s) pt 0 a.
Proof.
  intros Hw Hd Hm. unfold free_entry. unfold bind at 1. cbn [load get].
  destruct (present (rd s pt)) eqn:Hp.
  - destruct (free_frame_ok s (rd s pt) l B) as (s1 & E1 & (C1 & C2 & C3) & R1); [done.. |].
    rewrite (bind_Ok _ _ _ _ _ E1). eexists; split; [reflexivity |]. split; [by repeat split |].
    intros a. rewrite rd_store. unfold upd. by rewrite R1.
  - eexists; split; [reflexivity |]. split; [| intros a; apply rd_store].
    unfold page_refs in Hm. rewrite Hp in Hm. by repeat split.
Qed.

Lemma free_entries_ok n pt s l B :
  words (rd s) -> droppable (HIGH_MEMORY s) l (table_refs (rd s) n pt ++ B) ->
  mem_map s = incs l (table_refs (rd s) n pt ++ B) ->
  exists s', free_entries n pt s = Ok tt s' /\ counts_are s (incs l B) s'
  /\ forall a, rd s' a = if in_words n pt a then 0 else rd s a.
Proof.
  revert pt s. induction n as [|n IH]; intros pt s Hw Hd Hm; cbn [free_entries].
  - exists s. split; [done |]. split; [by repeat split |]. intros a. unfold in_words.
    by replace ((pt <=? a) && (a <? pt + 4 * Z.of_nat 0)) with false by blia.
  - cbn [table_refs] in Hd, Hm. rewrite <- app_assoc in Hd, Hm.
    destruct (free_entry_ok s pt l _ Hw Hd Hm) as (s1 & E1 & (C1 & C2 & C3) & R1).
    assert (HT : table_refs (rd s1) n (pt + 4) = table_refs (rd s) n (pt + 4)).
    { apply table_refs_ext. intros a Ha. rewrite R1. unfold upd, in_words in *. b2p_in Ha.
      by rewrite (proj2 (Z.eqb_neq a pt)) by lia. }
    destruct (IH (pt + 4) s1) as (s2 & E2 & (C4 & C5 & C6) & R2).
    + intros a. rewrite R1. unfold upd. case_match; [lia | apply Hw].
    + rewrite HT, C2. by eapply droppable_app.
    + by rewrite HT.
    + exists s2. rewrite (bind_Ok _ _ _ _ _ E1). split; [done |]. split; [split_and!; congruence |].
      intros a. rewrite R2, R1, in_words_cons. unfold upd.
      destruct (in_words n (pt + 4) a), (a =? pt); done.
Qed.

(** ** Page directories

    The references and the tables of [n] directory entries from [d] on, [k]
    entries per table. *)
Fixpoint dir_refs (f : Z -> Z) (k n : nat) (d : Z) : list nat :=
  match n with
  | O => []
  | S n =>
    (if present (f d) then table_refs f k (frame (f d)) ++ page_refs (f d) else [])
    ++ dir_refs f k n (d + 4)
  end.

Fixpoint dir_tables (f : Z -> Z) (n : nat) (d : Z) : list Z :=
  match n with
  | O => []
  | S n => (if present (f d) then [frame (f d)] else []) ++ dir_tables f n (d + 4)
  end.

(** The directory's view of memory: its own words and its tables. *)
Lemma dir_ext f g k n d :
  (forall a, in_words n d a = true -> g a = f a) ->
  (forall t a, t ∈ dir_tables f n d -> in_words k t a = true -> page_refs (g a) = page_refs (f a)) ->
  dir_refs g k n d = dir_refs f k n d /\ dir_tables g n d = dir_tables f n d.
Proof.
  revert d. induction n as [|n IH]; intros d Hd Ht; cbn [dir_refs dir_tables]; [done |].
  rewrite (Hd d) by (by rewrite in_words_cons, Z.eqb_refl).
  destruct (IH (d + 4)) as (-> & ->).
  - intros a Ha. apply Hd. by rewrite in_words_cons, Ha, orb_true_r.
  - intros t a Hi. apply Ht. cbn. apply elem_of_app. by right.
  - split; [| done]. case_match; [| done]. do 2 f_equal. apply table_refs_ext.
    intros a Ha. apply (Ht (frame (f d))); [| done]. cbn. case_match; [by left | done].
Qed.

Lemma dir_tables_frame f n d t :
  words f -> t ∈ dir_tables f n d -> exists k, t = 4096 * k.
Proof.
  intros Hw. revert d. induction n as [|n IH]; intros d; cbn; [by intros ?%elem_of_nil |].
  intros [Ht|Ht]%elem_of_app; [| by apply IH in Ht].
  case_match; [| by apply elem_of_nil in Ht].
  apply list_elem_of_singleton in Ht as ->. by apply frame_aligned.
Qed.

(** Words after one directory entry has been freed. *)
Definition dir_freed (d : Z) (f : Z -> Z) (a : Z) : Z :=
  if a =? d then 0 else if in_words 1024 (frame (f d)) a then 0 else f a.

Lemma free_dir_ok s d l B :
  words (rd s) -> present (rd s d) = true -> d < 4096 <= frame (rd s d) ->
  let A := table_refs (rd s) 1024 (frame (rd s d)) ++ page_refs (rd s d) ++ B in
  droppable (HIGH_MEMORY s) l A -> mem_map s = incs l A ->
  exists s', free_dir d s = Ok tt s' /\ counts_are s (incs l B) s'
  /\ forall a, rd s' a = dir_freed d (rd s) a.
Proof.
  intros Hw Hp Hd A Hdr Hm. unfold free_dir. unfold bind at 1. cbn [load get].
  rewrite Hp. cbn [negb].
  destruct (free_entries_ok 1024 (frame (rd s d)) s l _ Hw Hdr Hm) as (s1 & E1 & (C1 & C2 & C3) & R1).
  assert (HR : rd s1 d = rd s d).
  { rewrite R1. unfold in_words. by replace (frame (rd s d) <=? d) with false by blia. }
  destruct (free_frame_ok s1 (rd s d) l B) as (s2 & E2 & (C4 & C5 & C6) & R2); [done | done | | done |].
  { rewrite C2. by eapply droppable_app. }
  rewrite (bind_Ok _ _ _ _ _ E1).
  rewrite (bind_Ok (bind (load d) _) _ s1 tt s2) by (rewrite <- E2, <- HR; done).
  eexists; split; [reflexivity |]. split.
  - split_and!; cbn [set_mem mem_map HIGH_MEMORY cr3_loads]; congruence.
  - intros a. rewrite rd_store. unfold upd, dir_freed. by rewrite R2, R1.
Qed.

(** Freeing a directory entry leaves the rest of the directory alone. *)
Lemma dir_freed_ext d f n :
  words f -> d + 4 * Z.of_nat (S n) <= 4096 -> present (f d) = true ->
  NoDup (dir_tables f (S n) d) -> Forall (Z.le 4096) (dir_tables f (S n) d) ->
  dir_refs (dir_freed d f) 1024 n (d + 4) = dir_refs f 1024 n (d + 4)
  /\ dir_tables (dir_freed d f) n (d + 4) = dir_tables f n (d + 4).
Proof.
  intros Hw Hn Hp HN HF. cbn [dir_tables] in HN, HF. rewrite Hp in HN, HF. cbn [app] in *.
  apply NoDup_cons in HN as (HN1 & _). apply Forall_cons in HF as (HF1 & HF2).
  destruct (frame_aligned (f d) (Hw d)) as (k & Hk). unfold dir_freed. apply dir_ext.
  - intros a Ha. unfold in_words in *. b2p_in Ha.
    rewrite (proj2 (Z.eqb_neq a d)) by lia.
    by replace (frame (f d) <=? a) with false by blia.
  - intros t a Ht Ha. pose proof (dir_tables_frame _ _ _ _ Hw Ht) as (k' & ->).
    pose proof (proj1 (Forall_forall _ _) HF2 _ Ht).
    destruct (in_words 1024 (frame (f d)) a) eqn:Ha2.
    + exfalso. rewrite Hk in Ha2. apply (in_words_page 1024 k k') in Ha2; [| lia | done].
      subst. apply HN1. by rewrite Hk.
    + unfold in_words in Ha. b2p_in Ha. by rewrite (proj2 (Z.eqb_neq a d)) by lia.
Qed.

Lemma dir_refs_ext f g k n d : (forall a, g a = f a) -> dir_refs g k n d = dir_refs f k n d.
Proof. intros H. apply dir_ext; intros; by rewrite H. Qed.

Lemma dir_tables_ext f g n d : (forall a, g a = f a) -> dir_tables g n d = dir_tables f n d.
Proof. intros H. apply (dir_ext f g 0 n d); intros; by rewrite H. Qed.

(** Words after [n] directory entries have been freed: the entries are absent, and outside
    of them and of their tables nothing has changed. *)
Record dirs_freed (n : nat) (d : Z) (f g : Z -> Z) : Prop := {
  df_words : words g;
  df_absent : forall a, in_words n d a = true -> present (g a) = false;
  df_same : forall a, in_words n d a = false -> (forall t, t ∈ dir_tables f n d -> in_words 1024 t a = false) -> g a = f a }.

Lemma in_words_ge n p a : a < p -> in_words n p a = false.
Proof. intros H. unfold in_words. by rewrite (proj2 (Z.leb_gt _ _)) by lia. Qed.

(** The first entry, then the others. *)
Lemma dirs_freed_step n d f g h :
  words f -> d + 4 * Z.of_nat (S n) <= 4096 -> Forall (Z.le 4096) (dir_tables f (S n) d) ->
  g d = 0 \/ present (g d) = false -> dir_tables g n (d + 4) = dir_tables f n (d + 4) ->
  (forall a, a <> d -> (present (f d) = true -> in_words 1024 (frame (f d)) a = false) -> g a = f a) ->
  dirs_freed n (d + 4) g h -> dirs_freed (S n) d f h.
Proof.
  intros Hw Hn HF H0 HT Hsame [W A S]. assert (Hd : h d = g d).
  { apply S; [apply in_words_ge; lia |]. intros t Ht. apply in_words_ge. rewrite HT in Ht. cbn [dir_tables] in HF.
    apply Forall_app in HF as (_ & HF). pose proof (proj1 (Forall_forall _ _) HF _ Ht). lia. }
  constructor; [done | |].
  - intros a Ha. rewrite in_words_cons in Ha. apply orb_true_iff in Ha as [Ha | Ha]; [| by apply A].
    apply Z.eqb_eq in Ha as ->. rewrite Hd. by destruct H0 as [-> | ?].
  - intros a Ha Ht. rewrite in_words_cons in Ha. apply orb_false_iff in Ha as (Ha1 & Ha). apply Z.eqb_neq in Ha1. cbn [dir_tables] in Ht.
    rewrite S; [| done | intros t Hin; apply Ht, elem_of_app; right; by rewrite <- HT].
    apply Hsame; [done |]. intros Hp. apply Ht. rewrite Hp. by left.
Qed.

Lemma free_dirs_ok n d s l :
  words (rd s) -> d + 4 * Z.of_nat n <= 4096 ->
  NoDup (dir_tables (rd s) n d) -> Forall (Z.le 4096) (dir_tables (rd s) n d) ->
  droppable (HIGH_MEMORY s) l (dir_refs (rd s) 1024 n d) ->
  mem_map s = incs l (dir_refs (rd s) 1024 n d) ->
  exists s', free_dirs n d s = Ok tt s' /\ counts_are s l s' /\ dirs_freed n d (rd s) (rd s').
Proof.
  revert d s. induction n as [|n IH]; intros d s Hw Hn HN HF Hdr Hm; cbn [free_dirs].
  { exists s. split; [done |]. split; [by repeat split |]. constructor; [done | | done]. intros a Ha. unfold in_words in Ha. b2p_in Ha. lia. }
  destruct (present (rd s d)) eqn:Hp.
  2:{ cbn [dir_refs dir_tables] in *. rewrite Hp in *.
      destruct (IH (d + 4) s) as (s' & E & C & D); [by auto with lia | lia | done | done | done | done |].
      exists s'. rewrite (bind_Ok _ _ s tt s); [| unfold free_dir, bind; cbn [load get]; by rewrite Hp].
      split; [done |]. split; [done |]. apply (dirs_freed_step n d (rd s) (rd s)); [done | done | cbn [dir_tables]; by rewrite Hp | by right | done | done | done]. }
  destruct (dir_freed_ext d (rd s) n Hw Hn Hp HN HF) as (HD & HT).
  cbn [dir_refs dir_tables] in *. rewrite Hp in *. cbn [app] in *.
  apply NoDup_cons in HN as (_ & HN). apply Forall_cons in HF as (HF1 & HF).
  rewrite <- !app_assoc in Hdr, Hm.
  destruct (free_dir_ok s d l (dir_refs (rd s) 1024 n (d + 4)))
    as (s1 & E1 & (C1 & C2 & C3) & R1); [done | done | lia | done | done |].
  rewrite (bind_Ok _ _ _ _ _ E1).
  destruct (IH (d + 4) s1) as (s2 & E2 & (C4 & C5 & C6) & D2).
  - intros a. rewrite R1. unfold dir_freed. repeat case_match; [lia | lia | apply Hw].
  - lia.
  - by rewrite (dir_tables_ext _ _ _ _ R1), HT.
  - by rewrite (dir_tables_ext _ _ _ _ R1), HT.
  - rewrite (dir_refs_ext _ _ _ _ _ R1), HD, C2. by eapply droppable_app, droppable_app.
  - by rewrite (dir_refs_ext _ _ _ _ _ R1), HD.
  - exists s2. split; [done |]. split; [split_and!; congruence |].
    apply (dirs_freed_step n d (rd s) (rd s1)); [done | done | cbn [dir_tables]; rewrite Hp; by constructor | | | | done].
    + left. rewrite R1. unfold dir_freed. by rewrite Z.eqb_refl.
    + by rewrite (dir_tables_ext _ _ _ _ R1), HT.
    + intros a Ha Hin. rewrite R1. unfold dir_freed. by rewrite (proj2 (Z.eqb_neq _ _)), Hin.
Qed.

(** ** Copying a directory range *)

(** The references of the tables alone. *)
Fixpoint src_refs (f : Z -> Z) (k n : nat) (d : Z) : list nat :=
  match n with
  | O => []
  | S n => (if present (f d) then table_refs f k (frame (f d)) else []) ++ src_refs f k n (d + 4)
  end.

(** The pages of [A] are in use and their counts leave room for [A]. *)
Definition counted (l : list Z) (A : list nat) : Prop :=
  forall i, i ∈ A -> exists c, l !! i = Some c /\ 1 <= c /\ c + occ A i < 256.

Lemma counted_fits l A : counted l A -> fits l A.
Proof. intros H i Hi. destruct (H i Hi) as (c & ? & ? & ?). exists c. split_and!; [done | lia | lia]. Qed.

Lemma counted_app l A B : counted l (A ++ B) -> counted l A /\ counted (incs l A) B.
Proof.
  intros H. split; intros i Hi.
  - destruct (H i) as (c & Hc & H0 & H1); [by apply elem_of_app; left |].
    rewrite occ_app in H1. pose proof (occ_nonneg B i). exists c. split_and!; [done | done | lia].
  - destruct (H i) as (c & Hc & H0 & H1); [by apply elem_of_app; right |].
    rewrite occ_app in H1. pose proof (occ_nonneg A i).
    exists (c + occ A i). rewrite incs_lookup, Hc. split_and!; [done | lia | lia].
Qed.

Lemma counted_insert l A i v : l !! i = Some 0 -> counted l A -> counted (<[i := v]> l) A.
Proof.
  intros H0 H j Hj. destruct (H j Hj) as (c & Hc & H1 & H2). exists c.
  split_and!; [| done | done]. rewrite list_lookup_insert_ne; [done |]. intros ->.
  rewrite H0 in Hc. injection Hc. lia.
Qed.

Record copy_pre (s : mm) (k n : nat) (fd td : Z) : Prop := {
  cp_wf : mm_wf s;
  cp_k : (k <= 1024)%nat;
  cp_to : forall a, in_words n td a = true -> present (rd s a) = false;
  cp_low : 0 <= fd /\ 0 <= td /\ fd + 4 * Z.of_nat n <= 4096 /\ td + 4 * Z.of_nat n <= 4096;
  cp_disj : fd + 4 * Z.of_nat n <= td \/ td + 4 * Z.of_nat n <= fd;
  cp_tables : forall a, in_words n fd a = true -> present (rd s a) = true ->
    4096 <= frame (rd s a) /\ forall i, frame (rd s a) = page_addr i -> mem_map s !! i <> Some 0;
  cp_refs : counted (mem_map s) (src_refs (rd s) k n fd) }.

(** The child's entry for the parent's entry [e] at index [j]. *)
Definition child_entry (k : nat) (j e : Z) : Z :=
  if (j <? Z.of_nat k) && present e then clr e else 0.

(** [a] is in the first [k] entries of a table of the [n] directory entries at [fd]. *)
Definition in_tables (f : Z -> Z) (k n : nat) (fd a : Z) : Prop :=
  exists i, 0 <= i < Z.of_nat n /\ present (f (fd + 4 * i)) = true
  /\ in_words k (frame (f (fd + 4 * i))) a = true.

(** What [copy_dirs] promises when it returns [r] in state [s']. *)
Record forked (s : mm) (k n : nat) (fd td r : Z) (s' : mm) : Prop := {
  fk_wf : mm_wf s';
  fk_high : HIGH_MEMORY s' = HIGH_MEMORY s;
  fk_ret : r = 0 \/ r = -1;
  fk_fail : r = -1 -> forall i, mem_map s' !! i <> Some 0;
  fk_counts : mem_map s' = incs (mem_map s) (dir_refs (rd s') 1024 n td);
  fk_refs : forall i, i ∈ dir_refs (rd s') 1024 n td ->
    i ∈ src_refs (rd s) k n fd \/ mem_map s !! i = Some 0;
  fk_nodup : NoDup (dir_tables (rd s') n td);
  fk_fresh : forall t, t ∈ dir_tables (rd s') n td ->
    exists i, t = page_addr i /\ mem_map s !! i = Some 0;
  fk_frame : forall a, in_words n td a = false -> ~ in_free_page s a ->
    same_entry (rd s a) (rd s' a);
  fk_same : forall a, in_words n td a = false -> ~ in_free_page s a -> ~ in_tables (rd s) k n fd a ->
    rd s' a = rd s a;
  fk_child : r = 0 -> forall i, 0 <= i < Z.of_nat n ->
    present (rd s' (td + 4 * i)) = present (rd s (fd + 4 * i))
    /\ (present (rd s (fd + 4 * i)) = true -> forall j, 0 <= j < 1024 ->
        rd s' (frame (rd s' (td + 4 * i)) + 4 * j)
        = child_entry k j (rd s (frame (rd s (fd + 4 * i)) + 4 * j)));
  fk_parent : r = 0 -> forall i, 0 <= i < Z.of_nat n -> present (rd s (fd + 4 * i)) = true ->
    forall j, 0 <= j < Z.of_nat k ->
    let e := rd s (frame (rd s (fd + 4 * i)) + 4 * j) in
    present e = true -> LOW_MEM <= frame e ->
    rd s' (frame (rd s (fd + 4 * i)) + 4 * j) = clr e }.

Lemma wf_counts s A s' :
  mm_wf s -> counted (mem_map s) A -> counts_are s (incs (mem_map s) A) s' -> words (rd s') ->
  mm_wf s'.
Proof.
  intros [HL HB HW HH HF] Hf (C1 & C2 & _) Hw. constructor; rewrite ?C1, ?C2; try done.
  - by rewrite incs_length.
  - apply Forall_lookup. intros i x. rewrite incs_lookup.
    destruct (mem_map s !! i) as [c|] eqn:Hc; [| done]. cbn. intros [= <-].
    pose proof (proj1 (Forall_lookup _ _) HB _ _ Hc). pose proof (occ_nonneg A i). cbn in *.
    destruct (decide (0 < occ A i)) as [Ho|Ho]; [| lia].
    apply occ_elem in Ho. destruct (Hf i Ho) as (c' & Hc' & ? & ?). rewrite Hc in Hc'. injection Hc'. lia.
  - intros i. rewrite incs_lookup. destruct (mem_map s !! i) as [c|] eqn:Hc; [| done].
    cbn. intros [= E]. apply HF. rewrite Hc. f_equal.
    pose proof (proj1 (Forall_lookup _ _) HB _ _ Hc). cbn in *. pose proof (occ_nonneg A i). lia.
Qed.

(** *** One directory entry *)

(** Memory when the new table [p] is cleared and entered in the directory. *)
Definition table_entered (td p : Z) (f : Z -> Z) (a : Z) : Z :=
  if a =? td then Z.lor p 7 else if in_words 1024 p a then 0 else f a.

Section CopyStep.
Context (f : Z -> Z) (k : nat) (fp td p : Z) (x q : Z).
Context (Hw : words f) (Hk : (k <= 1024)%nat) (Hx : fp = 4096 * x) (Hq : p = 4096 * q) (Hxq : x <> q).
Context (Htd : td < 4096) (Hfp : 4096 <= fp) (Hp : 4096 <= p).
Context (Hpw : 0 <= Z.lor p 7 < 2 ^ 32).

Local Abbreviation f2 := (table_entered td p f).
Local Abbreviation f3 := (entries_copied k fp p f2).

Lemma table_entered_words : words f2.
Proof using Hw Hpw. intros a. unfold table_entered. repeat case_match; [done | done | apply Hw]. Qed.

Lemma table_entered_from a : in_words k fp a = true -> f2 a = f a.
Proof.
  intros Ha. unfold table_entered. rewrite Hx in Ha. rewrite Hq, (pages_apart k x q) by done.
  unfold in_words in Ha. b2p_in Ha. by rewrite (proj2 (Z.eqb_neq a td)) by lia.
Qed.

Lemma step_apart : fp + 4 * Z.of_nat k <= p \/ p + 4 * Z.of_nat k <= fp.
Proof. lia. Qed.

Lemma step_frame a : a <> td -> in_words 1024 p a = false -> same_entry (f a) (f3 a).
Proof.
  intros Ha Hn. replace (f a) with (f2 a).
  - apply entries_copied_same; [apply table_entered_words |].
    destruct (in_words k p a) eqn:E; [| done].
    apply in_words_inv in E as (j & Hj & ->). by rewrite in_words_offset in Hn by lia.
  - unfold table_entered. by rewrite (proj2 (Z.eqb_neq a td)), Hn by done.
Qed.

Lemma step_same a :
  a <> td -> in_words 1024 p a = false -> in_words k fp a = false -> f3 a = f a.
Proof.
  intros Ha Hn Hf. rewrite entries_copied_other; [| done |].
  - unfold table_entered. by rewrite (proj2 (Z.eqb_neq a td)), Hn by done.
  - destruct (in_words k p a) eqn:E; [| done].
    apply in_words_inv in E as (j & Hj & ->). by rewrite in_words_offset in Hn by lia.
Qed.

Lemma step_child j :
  0 <= j < 1024 -> f3 (p + 4 * j) = child_entry k j (f (fp + 4 * j)).
Proof.
  intros Hj. unfold child_entry. destruct (Z.ltb_spec j (Z.of_nat k)) as [Hl|Hl]; cbn [andb].
  - rewrite entries_copied_to; [| apply table_entered_words | apply step_apart | apply in_words_offset; lia].
    cbn zeta. replace (fp + (p + 4 * j - p)) with (fp + 4 * j) by lia.
    rewrite table_entered_from by (apply in_words_offset; lia). case_match; [done |].
    unfold table_entered. rewrite in_words_offset by lia. by rewrite (proj2 (Z.eqb_neq _ td)) by lia.
  - assert (H0 : f2 (p + 4 * j) = 0).
    { unfold table_entered. rewrite in_words_offset by lia. by rewrite (proj2 (Z.eqb_neq _ td)) by lia. }
    destruct (entries_copied_same k fp p f2 (p + 4 * j)) as [-> | (-> & _)]; rewrite ?H0; try done.
    + apply table_entered_words.
    + unfold in_words. replace (p + 4 * j <? p + 4 * Z.of_nat k) with false by blia. by rewrite andb_false_r.
Qed.

Lemma step_dir : same_entry (Z.lor p 7) (f3 td).
Proof.
  replace (Z.lor p 7) with (f2 td) by (unfold table_entered; by rewrite Z.eqb_refl).
  apply entries_copied_same; [apply table_entered_words |].
  unfold in_words. by replace (p <=? td) with false by blia.
Qed.

Lemma step_parent a :
  in_words k fp a = true -> present (f a) = true -> LOW_MEM <= frame (f a) -> f3 a = clr (f a).
Proof.
  intros Ha Hpr Hl. rewrite <- (table_entered_from a) in * by done.
  apply entries_copied_from; auto using table_entered_words, step_apart.
Qed.

Lemma step_refs : table_refs f3 1024 p = table_refs f k fp /\ table_refs f2 k fp = table_refs f k fp.
Proof.
  split; [| apply table_refs_ext; intros a Ha; by rewrite table_entered_from].
  replace 1024%nat with (k + (1024 - k))%nat by lia.
  rewrite table_refs_add, (table_refs_nil _ (1024 - k)), app_nil_r.
  - apply table_refs_shift. intros a (j & Hj & ->)%in_words_inv.
    rewrite step_child by lia. replace (fp + (p + 4 * j - p)) with (fp + 4 * j) by lia.
    unfold child_entry. rewrite (proj2 (Z.ltb_lt _ _)) by lia. cbn [andb].
    case_match eqn:E; [by apply page_refs_clr |]. unfold page_refs. by rewrite E.
  - intros a (j & Hj & ->)%in_words_inv.
    replace (p + 4 * Z.of_nat k + 4 * j) with (p + 4 * (Z.of_nat k + j)) by lia.
    rewrite step_child by lia. unfold child_entry. by rewrite (proj2 (Z.ltb_ge _ _)) by lia.
Qed.
End CopyStep.

Lemma in_words_head n p : in_words (S n) p p = true.
Proof. by rewrite in_words_cons, Z.eqb_refl. Qed.

Lemma in_words_tail n p a : in_words n (p + 4) a = true -> in_words (S n) p a = true.
Proof. intros H. by rewrite in_words_cons, H, orb_true_r. Qed.

(** Memory after one directory entry has been copied to the new page [p]. *)
Definition dir_copied (k : nat) (fd td p : Z) (f : Z -> Z) : Z -> Z :=
  entries_copied k (frame (f fd)) p (table_entered td p f).

(** The side conditions of the section above, for a copy that is under way. *)
Lemma copy_pre_step s k n fd td p s1 :
  copy_pre s k (S n) fd td -> present (rd s fd) = true -> allocated s p s1 ->
  exists i x, p = page_addr i /\ mem_map s !! i = Some 0 /\ (i < Z.to_nat PAGING_PAGES)%nat
  /\ frame (rd s fd) = 4096 * x /\ x <> 256 + Z.of_nat i
  /\ td < 4096 <= frame (rd s fd) /\ 0 <= Z.lor p 7 < 2 ^ 32.
Proof.
  intros Hpre Hp (i & -> & H0 & _). destruct (frame_aligned (rd s fd)) as (x & Hx).
  { apply (wf_words s), Hpre. }
  assert (Hi : (i < Z.to_nat PAGING_PAGES)%nat).
  { rewrite <- (wf_length s) by apply Hpre. by eapply lookup_lt_Some. }
  destruct (cp_tables _ _ _ _ _ Hpre fd (in_words_head n fd) Hp) as (Hlo & Hnf).
  pose proof (cp_low _ _ _ _ _ Hpre). exists i, x. split_and!; try done; try lia.
  - intros ->. apply (Hnf i); [| done]. by rewrite page_addr_frame.
  - by apply new_entry.
  - by apply new_entry.
Qed.

Lemma copy_one_dir s k n fd td p s1 :
  copy_pre s k (S n) fd td -> present (rd s fd) = true -> allocated s p s1 ->
  exists i s3, p = page_addr i /\ mem_map s !! i = Some 0
  /\ (store td (Z.lor p 7) ;;; copy_entries k (frame (rd s fd)) p) s1 = Ok tt s3
  /\ counts_are s (incs (mem_map s) (table_refs (rd s) k (frame (rd s fd)) ++ [i])) s3
  /\ forall a, rd s3 a = dir_copied k fd td p (rd s) a.
Proof.
  intros Hpre Hp Hal.
  destruct (copy_pre_step _ _ _ _ _ _ _ Hpre Hp Hal) as (i & x & Hpi & H0 & Hi & Hx & Hxi & Htd & Hpw).
  destruct Hal as (i' & Hi' & _ & _ & HM & HR & HH & HC).
  assert (i' = i) as -> by (rewrite Hpi, !page_addr_frame in Hi'; lia).
  pose proof (wf_words _ (cp_wf _ _ _ _ _ Hpre)) as Hw.
  pose proof (cp_k _ _ _ _ _ Hpre) as Hk.
  pose proof (page_addr_frame i) as Hq.
  set (s2 := set_mem (<[td := Z.lor p 7]>) s1).
  assert (R2 : forall a, rd s2 a = table_entered td p (rd s) a).
  { intros a. unfold s2. rewrite rd_store. unfold upd, table_entered. by rewrite HR. }
  assert (HT : table_refs (rd s2) k (frame (rd s fd)) = table_refs (rd s) k (frame (rd s fd))).
  { apply table_refs_ext. intros a Ha. rewrite R2, Hpi. f_equal.
    by eapply (table_entered_from _ k (frame (rd s fd)) td _ x); [.. | done]; eauto; lia. }
  assert (HI : <[i := 1]> (mem_map s) = incs (mem_map s) [i]).
  { cbn. change 1 with (Z.succ 0). by apply alter_insert_lookup. }
  destruct (copy_entries_ok k (frame (rd s fd)) p s2) as (s3 & E3 & (C1 & C2 & C3) & R3).
  - intros a. rewrite R2. by apply (table_entered_words (rd s) td p).
  - lia.
  - rewrite HT. apply counted_fits. unfold s2. cbn [mem_map set_mem]. rewrite HM.
    apply counted_insert; [done |]. pose proof (cp_refs _ _ _ _ _ Hpre) as Hc. cbn [src_refs] in Hc.
    rewrite Hp in Hc. by apply counted_app in Hc as (Hc & _).
  - exists i, s3. split; [done |]. split; [done |].
    split; [by rewrite (bind_Ok _ _ _ _ _ (store_ok td _ s1 Hpw)) |]. split.
    + unfold s2 in C1, C2, C3. cbn [mem_map set_mem HIGH_MEMORY cr3_loads] in C1, C2, C3.
      fold s2 in C1. rewrite HT, HM, HI in C1. rewrite incs_app. split_and!; congruence.
    + intros a. rewrite R3. by apply entries_copied_ext.
Qed.

Record dir_copied_ok (k : nat) (fd td p : Z) (i : nat) (f g : Z -> Z) : Prop := {
  dc_words : words g;
  dc_frame : forall a, a <> td -> in_words 1024 p a = false -> same_entry (f a) (g a);
  dc_same : forall a, a <> td -> in_words 1024 p a = false -> in_words k (frame (f fd)) a = false -> g a = f a;
  dc_dir : same_entry (Z.lor p 7) (g td);
  dc_child : forall j, 0 <= j < 1024 -> g (p + 4 * j) = child_entry k j (f (frame (f fd) + 4 * j));
  dc_parent : forall j, 0 <= j < Z.of_nat k -> let e := f (frame (f fd) + 4 * j) in
    present e = true -> LOW_MEM <= frame e -> g (frame (f fd) + 4 * j) = clr e;
  dc_refs : table_refs g 1024 p = table_refs f k (frame (f fd)) }.

Lemma dir_copied_facts s k n fd td p s1 i :
  copy_pre s k (S n) fd td -> present (rd s fd) = true -> allocated s p s1 -> p = page_addr i ->
  dir_copied_ok k fd td p i (rd s) (dir_copied k fd td p (rd s)).
Proof.
  intros Hpre Hp Hal Hpi.
  destruct (copy_pre_step _ _ _ _ _ _ _ Hpre Hp Hal) as (i' & x & Hpi' & H0 & Hi & Hx & Hxi & Htd & Hpw).
  assert (i' = i) as -> by (rewrite Hpi, !page_addr_frame in Hpi'; lia).
  pose proof (wf_words _ (cp_wf _ _ _ _ _ Hpre)) as Hw.
  pose proof (cp_k _ _ _ _ _ Hpre) as Hk. rewrite page_addr_frame in Hpi.
  assert (Hp4 : 4096 <= p) by lia. unfold dir_copied. constructor.
  - by apply entries_copied_words, table_entered_words.
  - intros a. eapply step_frame; try done; lia.
  - intros a Ha Hn Hfr. eapply step_same; try done; lia.
  - eapply step_dir; try done; lia.
  - intros j Hj. eapply step_child; try done; lia.
  - intros j Hj e Hpr Hl. eapply step_parent; try done; try lia. by apply in_words_offset.
  - eapply step_refs; try done; lia.
Qed.

Lemma low_not_free s a : a < 4096 -> ~ in_free_page s a.
Proof.
  intros Ha (i & _ & Hi). unfold in_words in Hi. rewrite page_addr_frame in Hi. b2p_in Hi. lia.
Qed.

(** The words of the tables that are copied are not in free pages. *)
Lemma table_not_free s k n fd td d a :
  copy_pre s k n fd td -> in_words n fd d = true -> present (rd s d) = true ->
  in_words k (frame (rd s d)) a = true -> 4096 <= a /\ ~ in_free_page s a.
Proof.
  intros Hpre Hd Hp Ha. destruct (cp_tables _ _ _ _ _ Hpre d Hd Hp) as (Hl & Hnf).
  pose proof (cp_k _ _ _ _ _ Hpre).
  split; [unfold in_words in Ha; b2p_in Ha; lia |]. intros (i & H0 & Hi).
  destruct (frame_aligned (rd s d)) as (x & Hx); [apply (wf_words s), Hpre |].
  rewrite page_addr_frame in Hi. rewrite Hx in Ha.
  apply (in_words_page k x) in Hi; [| done | done]. subst x. apply (Hnf i); [| done].
  by rewrite Hx, page_addr_frame.
Qed.

Lemma src_refs_ext f g k n d :
  words f -> (forall a, in_words n d a = true -> same_entry (f a) (g a)) ->
  (forall b a, in_words n d b = true -> present (f b) = true -> in_words k (frame (f b)) a = true ->
    same_entry (f a) (g a)) ->
  src_refs g k n d = src_refs f k n d.
Proof.
  intros Hw. revert d. induction n as [|n IH]; intros d Hd Ht; cbn [src_refs]; [done |].
  destruct (same_entry_inv _ _ (Hw d) (Hd d (in_words_head n d))) as (-> & -> & _).
  rewrite IH; [| by eauto using in_words_tail..].
  case_match eqn:E; [| done]. f_equal. apply table_refs_ext. intros a Ha.
  apply (same_entry_inv _ _ (Hw a)). eapply Ht; [apply in_words_head | done | done].
Qed.

Lemma copy_pre_tail s s' k n fd td :
  copy_pre s k (S n) fd td -> mm_wf s' ->
  (forall a, a <> td -> ~ in_free_page s a -> same_entry (rd s a) (rd s' a)) ->
  (forall i, mem_map s' !! i = Some 0 -> mem_map s !! i = Some 0) ->
  counted (mem_map s') (src_refs (rd s) k n (fd + 4)) ->
  copy_pre s' k n (fd + 4) (td + 4).
Proof.
  intros Hpre Hwf Hfr Hz Hc. pose proof (wf_words _ (cp_wf _ _ _ _ _ Hpre)) as Hw.
  pose proof (cp_low _ _ _ _ _ Hpre). pose proof (cp_disj _ _ _ _ _ Hpre).
  assert (Hsame : forall a, in_words n (fd + 4) a = true \/ in_words n (td + 4) a = true ->
            same_entry (rd s a) (rd s' a)).
  { intros a Ha. apply Hfr; [| apply low_not_free];
      destruct Ha as [Ha|Ha]; unfold in_words in Ha; b2p_in Ha; lia. }
  constructor; try done; try lia.
  - apply Hpre.
  - intros a Ha. destruct (same_entry_inv _ _ (Hw a) (Hsame a (or_intror Ha))) as (-> & _).
    by apply (cp_to _ _ _ _ _ Hpre), in_words_tail.
  - intros a Ha. destruct (same_entry_inv _ _ (Hw a) (Hsame a (or_introl Ha))) as (-> & -> & _).
    intros Hp. destruct (cp_tables _ _ _ _ _ Hpre a (in_words_tail _ _ _ Ha) Hp) as (Hl & Hnf).
    split; [done |]. intros i Hi Hi0. by apply (Hnf i Hi), Hz.
  - rewrite (src_refs_ext (rd s)); [done | done | by auto |].
    intros b a Hb Hpr Ha.
    destruct (table_not_free s k (S n) fd td b a) as (Hl & Hnf); eauto using in_words_tail.
    apply Hfr; [lia | done].
Qed.

Lemma dir_absent f k n d :
  (forall a, in_words n d a = true -> present (f a) = false) ->
  dir_refs f k n d = [] /\ dir_tables f n d = [].
Proof.
  revert d. induction n as [|n IH]; intros d H; cbn; [done |].
  rewrite H by apply in_words_head. apply IH. eauto using in_words_tail.
Qed.

(** A state in which nothing has been copied: the end of the range, or no
    memory for the next table. *)
Lemma forked_nothing s s' k n fd td r :
  copy_pre s k n fd td -> mm_wf s' -> mem_map s' = mem_map s ->
  HIGH_MEMORY s' = HIGH_MEMORY s -> (forall a, rd s' a = rd s a) ->
  (r = -1 /\ forall i, mem_map s !! i <> Some 0) \/ (r = 0 /\ n = O) -> forked s k n fd td r s'.
Proof.
  intros Hpre Hwf Hm Hh Hr Hret.
  destruct (dir_absent (rd s') 1024 n td) as (E1 & E2).
  { intros a Ha. rewrite Hr. by apply (cp_to _ _ _ _ _ Hpre). }
  constructor; rewrite ?E1, ?E2; try done.
  - destruct Hret as [(-> & _) | (-> & _)]; auto.
  - intros Hr1. rewrite Hm. destruct Hret as [(_ & Hn) | (-> & _)]; done.
  - by intros i ?%elem_of_nil.
  - constructor.
  - by intros t ?%elem_of_nil.
  - intros a _ _. left. apply Hr.
  - destruct Hret as [(-> & _) | (_ & ->)]; [done | lia].
  - destruct Hret as [(-> & _) | (_ & ->)]; [done | lia].
Qed.

Lemma in_tables_tail f k n fd a : in_tables f k n (fd + 4) a -> in_tables f k (S n) fd a.
Proof.
  intros (i & Hi & Ht). exists (i + 1). replace (fd + 4 * (i + 1)) with (fd + 4 + 4 * i) by lia.
  split; [lia | done].
Qed.

(** A parent without a table here: the rest of the range decides. *)
Lemma forked_skip s s' k n fd td r :
  copy_pre s k (S n) fd td -> present (rd s fd) = false ->
  forked s k n (fd + 4) (td + 4) r s' -> forked s k (S n) fd td r s'.
Proof.
  intros Hpre Hp Hf. pose proof (wf_words _ (cp_wf _ _ _ _ _ Hpre)) as Hw.
  pose proof (cp_low _ _ _ _ _ Hpre).
  assert (Htd : present (rd s' td) = false).
  { rewrite <- (cp_to _ _ _ _ _ Hpre td (in_words_head n td)).
    apply (same_entry_inv _ _ (Hw td)), (fk_frame _ _ _ _ _ _ _ Hf); [| by apply low_not_free; lia].
    unfold in_words. by replace (td + 4 <=? td) with false by blia. }
  constructor; try apply Hf; cbn [dir_refs dir_tables src_refs]; rewrite ?Htd, ?Hp; try apply Hf.
  - intros a Ha. apply Hf. rewrite in_words_cons in Ha. by apply orb_false_iff in Ha as (_ & ?).
  - intros a Ha Hn Ht. rewrite in_words_cons in Ha. apply orb_false_iff in Ha as (_ & Ha).
    apply (fk_same _ _ _ _ _ _ _ Hf); [done | done |]. intros Ht'. by apply Ht, in_tables_tail.
  - intros Hr i Hi. destruct (decide (i = 0)) as [->|].
    + rewrite !Z.mul_0_r, !Z.add_0_r, Htd, Hp. done.
    + replace (td + 4 * i) with (td + 4 + 4 * (i - 1)) by lia.
      replace (fd + 4 * i) with (fd + 4 + 4 * (i - 1)) by lia. apply Hf; [done | lia].
  - intros Hr i Hi. destruct (decide (i = 0)) as [->|].
    + rewrite !Z.mul_0_r, !Z.add_0_r, Hp. done.
    + replace (fd + 4 * i) with (fd + 4 + 4 * (i - 1)) by lia. apply Hf; [done | lia].
Qed.

Lemma dir_copied_ok_ext k fd td p i f g h :
  (forall a, h a = g a) -> dir_copied_ok k fd td p i f g -> dir_copied_ok k fd td p i f h.
Proof.
  intros E [H1 H2 H3 H4 H5 H6 H7]. constructor; intros; rewrite ?E; auto.
  - intros a. rewrite E. apply H1.
  - rewrite <- H7. apply table_refs_ext. intros; by rewrite E.
Qed.

(** One directory entry copied: the state [s3] between two iterations. *)
Record copy_stepped (s : mm) (k : nat) (fd td p : Z) (i : nat) (s3 : mm) : Prop := {
  cs_page : p = page_addr i;
  cs_free : mem_map s !! i = Some 0;
  cs_index : (i < Z.to_nat PAGING_PAGES)%nat;
  cs_wf : mm_wf s3;
  cs_high : HIGH_MEMORY s3 = HIGH_MEMORY s;
  cs_counts : mem_map s3 = incs (mem_map s) (table_refs (rd s) k (frame (rd s fd)) ++ [i]);
  cs_mem : dir_copied_ok k fd td p i (rd s) (rd s3) }.

Lemma copy_step s k n fd td p s1 :
  copy_pre s k (S n) fd td -> present (rd s fd) = true -> allocated s p s1 ->
  exists i s3,
    (store td (Z.lor p 7) ;;; copy_entries k (frame (rd s fd)) p) s1 = Ok tt s3
    /\ copy_stepped s k fd td p i s3.
Proof.
  intros Hpre Hp Hal.
  destruct (copy_one_dir _ _ _ _ _ _ _ Hpre Hp Hal) as (i & s3 & Hpi & H0 & E & (C1 & C2 & C3) & R).
  pose proof (dir_copied_facts _ _ _ _ _ _ _ i Hpre Hp Hal Hpi) as D.
  apply (dir_copied_ok_ext _ _ _ _ _ _ _ _ R) in D.
  assert (HS : incs (mem_map s) [i] = mem_map s1).
  { destruct Hal as (i' & Hi' & _ & _ & -> & _). symmetry.
    assert (i' = i) as -> by (rewrite Hpi, !page_addr_frame in Hi'; lia).
    change 1 with (Z.succ 0). by apply alter_insert_lookup. }
  exists i, s3. split; [done |]. constructor; try done.
  - rewrite <- (wf_length s) by apply Hpre. by eapply lookup_lt_Some.
  - eapply (wf_counts s1); [by eapply allocated_wf; [apply Hpre |] | | | apply D].
    + pose proof (cp_refs _ _ _ _ _ Hpre) as Hc. cbn [src_refs] in Hc. rewrite Hp in Hc.
      apply counted_app in Hc as (Hc & _). rewrite <- HS. cbn.
      rewrite <- (alter_insert_lookup _ _ _ 0) by done. by apply counted_insert.
    + destruct Hal as (_ & _ & _ & _ & _ & _ & HH & HC).
      rewrite <- HS, <- incs_app. split_and!; congruence.
Qed.

Lemma stepped_free s k fd td p i s3 j :
  mm_wf s -> copy_stepped s k fd td p i s3 -> mem_map s3 !! j = Some 0 -> mem_map s !! j = Some 0 /\ j <> i.
Proof.
  intros Hwf Hs. rewrite (cs_counts _ _ _ _ _ _ _ Hs), incs_lookup.
  destruct (mem_map s !! j) as [c|] eqn:Hc; [| done]. cbn. intros [= H].
  pose proof (proj1 (Forall_lookup _ _) (wf_bytes s Hwf) _ _ Hc) as Hb. cbn in Hb.
  rewrite occ_app, occ_cons in H. pose proof (occ_nonneg (table_refs (rd s) k (frame (rd s fd))) j).
  pose proof (occ_nonneg [] j). case_decide; [lia |]. split; [f_equal; lia | congruence].
Qed.

Lemma stepped_pre s k n fd td p i s3 :
  copy_pre s k (S n) fd td -> present (rd s fd) = true -> copy_stepped s k fd td p i s3 ->
  copy_pre s3 k n (fd + 4) (td + 4).
Proof.
  intros Hpre Hp Hs. pose proof (cp_wf _ _ _ _ _ Hpre) as Hwf.
  eapply copy_pre_tail; [done | apply Hs | | |].
  - intros a Ha Hn. apply (cs_mem _ _ _ _ _ _ _ Hs); [done |].
    destruct (in_words 1024 p a) eqn:E; [| done]. destruct Hn. exists i.
    rewrite <- (cs_page _ _ _ _ _ _ _ Hs). split; [apply Hs | done].
  - intros j Hj. by eapply stepped_free.
  - rewrite (cs_counts _ _ _ _ _ _ _ Hs), incs_app.
    pose proof (cp_refs _ _ _ _ _ Hpre) as Hc. cbn [src_refs] in Hc. rewrite Hp in Hc.
    apply (counted_insert _ _ i 1) in Hc; [| apply Hs].
    apply counted_app in Hc as (_ & Hc). cbn.
    rewrite <- (alter_insert_lookup _ i Z.succ 0); [done | apply Hs].
Qed.

Section ForkedStep.
Context (s s3 s' : mm) (k n : nat) (fd td p r : Z) (i : nat).
Context (Hpre : copy_pre s k (S n) fd td) (Hp : present (rd s fd) = true).
Context (Hs : copy_stepped s k fd td p i s3).
Context (Hf : forked s3 k n (fd + 4) (td + 4) r s').

Let Hw : words (rd s) := wf_words _ (cp_wf _ _ _ _ _ Hpre).
Let Hw3 : words (rd s3) := wf_words _ (cs_wf _ _ _ _ _ _ _ Hs).
Let Hm := cs_mem _ _ _ _ _ _ _ Hs.

(** The new page is out of reach of the rest of the copy. *)
Lemma later_page a : in_words 1024 p a = true -> same_entry (rd s3 a) (rd s' a).
Proof.
  intros Ha. pose proof (cp_low _ _ _ _ _ Hpre). pose proof (cs_page _ _ _ _ _ _ _ Hs) as Hpi.
  rewrite Hpi, page_addr_frame in Ha. apply (fk_frame _ _ _ _ _ _ _ Hf).
  - unfold in_words in *. b2p_in Ha. apply andb_false_intro1, andb_false_intro2. blia.
  - intros (j & Hj & Hja). rewrite page_addr_frame in Hja.
    apply (stepped_free _ _ _ _ _ _ _ _ (cp_wf _ _ _ _ _ Hpre) Hs) in Hj as (_ & Hji).
    apply (in_words_page 1024 (256 + Z.of_nat i)) in Hja; [lia | lia | done].
Qed.

Lemma later_low a : a < td + 4 -> same_entry (rd s3 a) (rd s' a).
Proof.
  intros Ha. pose proof (cp_low _ _ _ _ _ Hpre). apply (fk_frame _ _ _ _ _ _ _ Hf).
  - unfold in_words. by replace (td + 4 <=? a) with false by blia.
  - apply low_not_free. lia.
Qed.

Lemma later_dir : present (rd s' td) = true /\ frame (rd s' td) = p /\ page_refs (rd s' td) = [i].
Proof.
  destruct (new_entry i (cs_index _ _ _ _ _ _ _ Hs)) as (Hr & H1 & H2 & H3).
  rewrite <- (cs_page _ _ _ _ _ _ _ Hs) in *.
  destruct (same_entry_inv _ _ Hr (dc_dir _ _ _ _ _ _ _ Hm)) as (E1 & E2 & E3 & _).
  destruct (same_entry_inv _ _ (Hw3 td) (later_low td ltac:(lia))) as (-> & -> & -> & _).
  rewrite E1, E2, E3. done.
Qed.

Lemma later_refs : table_refs (rd s') 1024 p = table_refs (rd s) k (frame (rd s fd)).
Proof.
  rewrite <- (dc_refs _ _ _ _ _ _ _ Hm). apply table_refs_ext. intros a Ha.
  by apply (same_entry_inv _ _ (Hw3 a)), later_page.
Qed.

Lemma later_frame a :
  in_words (S n) td a = false -> ~ in_free_page s a -> same_entry (rd s a) (rd s' a).
Proof.
  rewrite in_words_cons, orb_false_iff, Z.eqb_neq. intros (Ha & Hn) Hfree.
  eapply same_entry_trans; [apply Hw | apply (dc_frame _ _ _ _ _ _ _ Hm); [done |] |].
  - destruct (in_words 1024 p a) eqn:E; [| done]. destruct Hfree. exists i.
    rewrite <- (cs_page _ _ _ _ _ _ _ Hs). split; [apply Hs | done].
  - apply (fk_frame _ _ _ _ _ _ _ Hf); [done |]. intros (j & Hj & Hja). apply Hfree.
    exists j. split; [| done]. by eapply (stepped_free s); [apply Hpre | |].
Qed.

(** An entry the rest of the copy may touch keeps its copied value. *)
Lemma same_clr x y : same_entry x y -> clr x = x -> y = x.
Proof. by intros [-> | (-> & _)]. Qed.

Lemma child_entry_clr j e : clr (child_entry k j e) = child_entry k j e.
Proof. unfold child_entry. case_match; [apply clr_clr | done]. Qed.

(** The parent's tables in [s] and in [s3]. *)
Lemma from_dir_entry a : in_words n (fd + 4) a = true -> same_entry (rd s a) (rd s3 a).
Proof.
  intros Ha. pose proof (cp_low _ _ _ _ _ Hpre). pose proof (cp_disj _ _ _ _ _ Hpre).
  unfold in_words in Ha. b2p_in Ha. apply (dc_frame _ _ _ _ _ _ _ Hm); [lia |].
  unfold in_words. rewrite (cs_page _ _ _ _ _ _ _ Hs), page_addr_frame.
  by replace (4096 * (256 + Z.of_nat i) <=? a) with false by blia.
Qed.

Lemma from_dir_same a : in_words n (fd + 4) a = true ->
  present (rd s3 a) = present (rd s a) /\ frame (rd s3 a) = frame (rd s a).
Proof.
  intros Ha. by destruct (same_entry_inv _ _ (Hw a) (from_dir_entry a Ha)) as (? & ? & _).
Qed.

Lemma from_table_same d a :
  in_words n (fd + 4) d = true -> present (rd s d) = true -> in_words k (frame (rd s d)) a = true ->
  same_entry (rd s a) (rd s3 a).
Proof.
  intros Hd Hpd Ha. pose proof (cp_low _ _ _ _ _ Hpre).
  destruct (table_not_free s k (S n) fd td d a Hpre) as (Hl & Hnf); [by apply in_words_tail | done | done |].
  apply (dc_frame _ _ _ _ _ _ _ Hm); [lia |].
  destruct (in_words 1024 p a) eqn:E; [| done]. destruct Hnf. exists i.
  rewrite <- (cs_page _ _ _ _ _ _ _ Hs). split; [apply Hs | done].
Qed.
Lemma from_src_refs : src_refs (rd s3) k n (fd + 4) = src_refs (rd s) k n (fd + 4).
Proof. apply src_refs_ext; [apply Hw | apply from_dir_entry | apply from_table_same]. Qed.

Lemma later_same a :
  in_words (S n) td a = false -> ~ in_free_page s a -> ~ in_tables (rd s) k (S n) fd a -> rd s' a = rd s a.
Proof.
  rewrite in_words_cons, orb_false_iff, Z.eqb_neq. intros (Ha & Hn) Hfree Ht.
  rewrite (fk_same _ _ _ _ _ _ _ Hf); [apply (dc_same _ _ _ _ _ _ _ Hm); [done | |] | done | |].
  - destruct (in_words 1024 p a) eqn:E; [| done]. destruct Hfree. exists i.
    rewrite <- (cs_page _ _ _ _ _ _ _ Hs). split; [apply Hs | done].
  - destruct (in_words k _ a) eqn:E; [| done]. destruct Ht. exists 0.
    rewrite Z.mul_0_r, Z.add_0_r. split; [lia | done].
  - intros (j & Hj & Hja). apply Hfree. exists j. split; [| done]. by eapply (stepped_free s); [apply Hpre | |].
  - intros (m & Hmn & Hd & Hi). apply Ht, in_tables_tail. exists m.
    destruct (from_dir_same (fd + 4 + 4 * m)) as (E1 & E2); [by apply in_words_offset |].
    by rewrite <- E1, <- E2.
Qed.

Lemma child_entry_same j x y :
  0 <= x < 2 ^ 32 -> (j < Z.of_nat k -> same_entry x y) -> child_entry k j y = child_entry k j x.
Proof.
  intros Hx H. unfold child_entry. destruct (Z.ltb_spec j (Z.of_nat k)) as [Hj|]; [| done].
  by destruct (same_entry_inv x y Hx (H Hj)) as (-> & _ & _ & ->).
Qed.

Lemma forked_child j m :
  r = 0 -> 0 <= m < Z.of_nat (S n) -> 0 <= j < 1024 -> present (rd s (fd + 4 * m)) = true ->
  rd s' (frame (rd s' (td + 4 * m)) + 4 * j)
  = child_entry k j (rd s (frame (rd s (fd + 4 * m)) + 4 * j)).
Proof.
  intros Hr Hmn Hj Hpm. destruct later_dir as (_ & HE & _).
  destruct (decide (m = 0)) as [->|].
  - rewrite !Z.mul_0_r, !Z.add_0_r, HE. apply (same_clr (child_entry _ _ _)).
    + rewrite <- (dc_child _ _ _ _ _ _ _ Hm) by done. apply later_page. by apply in_words_offset.
    + apply child_entry_clr.
  - replace (td + 4 * m) with (td + 4 + 4 * (m - 1)) by lia.
    assert (HI : in_words n (fd + 4) (fd + 4 * m) = true).
    { replace (fd + 4 * m) with (fd + 4 + 4 * (m - 1)) by lia. apply in_words_offset. lia. }
    destruct (from_dir_same _ HI) as (E1 & E2).
    destruct (fk_child _ _ _ _ _ _ _ Hf Hr (m - 1)) as (_ & HC); [lia |].
    replace (fd + 4 + 4 * (m - 1)) with (fd + 4 * m) in HC by lia.
    rewrite HC, E2 by (by rewrite ?E1). apply child_entry_same; [apply Hw |].
    intros Hjk. eapply from_table_same; [done | done | by apply in_words_offset; lia].
Qed.

Lemma forked_parent j m :
  r = 0 -> 0 <= m < Z.of_nat (S n) -> 0 <= j < Z.of_nat k -> present (rd s (fd + 4 * m)) = true ->
  let e := rd s (frame (rd s (fd + 4 * m)) + 4 * j) in
  present e = true -> LOW_MEM <= frame e -> rd s' (frame (rd s (fd + 4 * m)) + 4 * j) = clr e.
Proof.
  intros Hr Hmn Hj Hpm. cbn zeta. intros He Hl. pose proof (cp_low _ _ _ _ _ Hpre).
  destruct (decide (m = 0)) as [->|].
  - rewrite !Z.mul_0_r, !Z.add_0_r in *.
    destruct (table_not_free s k (S n) fd td fd (frame (rd s fd) + 4 * j) Hpre) as (Ha & Hnf);
      [apply in_words_head | done | by apply in_words_offset |].
    apply (same_clr (clr _)); [| apply clr_clr].
    rewrite <- (dc_parent _ _ _ _ _ _ _ Hm) by done. apply (fk_frame _ _ _ _ _ _ _ Hf).
    + unfold in_words. apply andb_false_intro1, andb_false_intro2. blia.
    + intros (x & Hx & Hxa). apply Hnf. exists x. split; [| done].
      by eapply (stepped_free s); [apply Hpre | |].
  - assert (HI : in_words n (fd + 4) (fd + 4 * m) = true).
    { replace (fd + 4 * m) with (fd + 4 + 4 * (m - 1)) by lia. apply in_words_offset. lia. }
    destruct (from_dir_same _ HI) as (E1 & E2).
    assert (HS : same_entry (rd s (frame (rd s (fd + 4 * m)) + 4 * j)) (rd s3 (frame (rd s (fd + 4 * m)) + 4 * j))).
    { eapply from_table_same; [done | done | by apply in_words_offset]. }
    destruct (same_entry_inv _ _ (Hw _) HS) as (F1 & F2 & _ & F4).
    rewrite <- F4, <- E2. replace (fd + 4 * m) with (fd + 4 + 4 * (m - 1)) in * by lia.
    apply (fk_parent _ _ _ _ _ _ _ Hf Hr (m - 1)); try lia; rewrite ?E1, ?E2; [done | by rewrite F1 |].
    by rewrite F2.
Qed.

Lemma forked_step : forked s k (S n) fd td r s'.
Proof.
  destruct later_dir as (D1 & D2 & D3).
  constructor; cbn [dir_refs dir_tables src_refs]; rewrite ?D1, ?D2, ?D3; try apply Hf.
  - rewrite (fk_high _ _ _ _ _ _ _ Hf). apply Hs.
  - rewrite (fk_counts _ _ _ _ _ _ _ Hf), (cs_counts _ _ _ _ _ _ _ Hs), <- incs_app.
    by rewrite later_refs, Permutation_app_comm.
  - rewrite later_refs, Hp. intros j. rewrite !elem_of_app.
    intros [[Hj | ->%list_elem_of_singleton] | Hj]; [by auto | right; apply Hs |].
    destruct (fk_refs _ _ _ _ _ _ _ Hf j Hj) as [Hj' | Hj'].
    + rewrite from_src_refs in Hj'. by auto.
    + right. by eapply (stepped_free s); [apply Hpre | |].
  - apply NoDup_cons. split; [| apply Hf]. intros Hin.
    destruct (fk_fresh _ _ _ _ _ _ _ Hf _ Hin) as (j & Hj & Hj0).
    apply (stepped_free _ _ _ _ _ _ _ _ (cp_wf _ _ _ _ _ Hpre) Hs) in Hj0 as (_ & Hji).
    rewrite (cs_page _ _ _ _ _ _ _ Hs), !page_addr_frame in Hj. lia.
  - intros t [->%list_elem_of_singleton | Ht]%elem_of_app.
    + exists i. split; apply Hs.
    + destruct (fk_fresh _ _ _ _ _ _ _ Hf _ Ht) as (j & -> & Hj0). exists j. split; [done |].
      by eapply (stepped_free s); [apply Hpre | |].
  - apply later_frame.
  - apply later_same.
  - intros Hr m Hmn. split; [| intros; by apply forked_child].
    destruct (decide (m = 0)) as [->|].
    + by rewrite !Z.mul_0_r, !Z.add_0_r, D1, Hp.
    + replace (td + 4 * m) with (td + 4 + 4 * (m - 1)) by lia.
      replace (fd + 4 * m) with (fd + 4 + 4 * (m - 1)) by lia.
      destruct (fk_child _ _ _ _ _ _ _ Hf Hr (m - 1)) as (-> & _); [lia |].
      apply from_dir_same. apply in_words_offset. lia.
  - intros Hr m Hmn Hpm j Hj. by apply forked_parent.
Qed.
End ForkedStep.

Lemma copy_dirs_ok n from fd td s :
  let k := if from =? 0 then 0xA0%nat else 1024%nat in
  copy_pre s k n fd td ->
  exists r s', copy_dirs n from fd td s = Ok r s' /\ forked s k n fd td r s'.
Proof.
  intros k. revert fd td s. induction n as [|n IH]; intros fd td s Hpre; cbn [copy_dirs].
  - do 2 eexists. split; [reflexivity |]. pose proof (cp_wf _ _ _ _ _ Hpre) as [? ? ? ? ?].
    apply forked_nothing; try done. by right.
  - unfold bind at 1. cbn [load get].
    rewrite (cp_to _ _ _ _ _ Hpre td (in_words_head n td)).
    unfold bind at 1. cbn [load get]. destruct (present (rd s fd)) eqn:Hp; cbn [negb].
    + destruct (get_free_page_cases s (cp_wf _ _ _ _ _ Hpre)) as [(E & Hnone) | (p & s1 & E & Hal)];
        rewrite (bind_Ok _ _ _ _ _ E).
      * do 2 eexists. split; [reflexivity |]. apply forked_nothing; auto. apply Hpre.
      * destruct (copy_step _ _ _ _ _ _ _ Hpre Hp Hal) as (i & s3 & E3 & Hs).
        assert (Hc : cbool p = true).
        { rewrite (cs_page _ _ _ _ _ _ _ Hs), page_addr_frame. unfold cbool. blia. }
        rewrite Hc. cbn [negb].
        destruct (IH (fd + 4) (td + 4) s3) as (r & s' & E' & Hf); [by eapply stepped_pre |].
        exists r, s'. split; [| by eapply forked_step]. rewrite <- E'.
        unfold bind in E3 |- *. destruct (store _ _ s1); [| done..]. fold k. by rewrite E3.
    + destruct (IH (fd + 4) (td + 4) s) as (r & s' & E & Hf).
      * eapply copy_pre_tail; [done | apply Hpre | by left | done |].
        pose proof (cp_refs _ _ _ _ _ Hpre) as Hc. cbn [src_refs] in Hc. by rewrite Hp in Hc.
      * exists r, s'. split; [done |]. by apply forked_skip.
Qed.

(** ** The theorems *)

(** The directory range of [size] bytes of linear address space at [addr]. *)
Definition dir_of (addr : Z) : Z := Z.land (Z.shiftr addr 20) 0xffc.
Definition dirs_of (size : Z) : nat := Z.to_nat (Z.shiftr (u32 (size + 0x3fffff)) 22).

Lemma forked_droppable s k n fd td r s' :
  mm_wf s -> forked s k n fd td r s' ->
  (forall i, i ∈ src_refs (rd s) k n fd -> page_addr i < HIGH_MEMORY s) ->
  counted (mem_map s) (src_refs (rd s) k n fd) ->
  droppable (HIGH_MEMORY s') (mem_map s) (dir_refs (rd s') 1024 n td).
Proof.
  intros Hwf Hf Hhi Hc i Hi. rewrite (fk_high _ _ _ _ _ _ _ Hf).
  assert (HB : exists c, mem_map s !! i = Some c /\ page_addr i < HIGH_MEMORY s).
  { destruct (fk_refs _ _ _ _ _ _ _ Hf i Hi) as [Hs|Hz].
    - destruct (Hc i Hs) as (c & Hcc & _). eauto.
    - exists 0. split; [done |]. pose proof (wf_free s Hwf i Hz). unfold PAGE_SIZE in *. lia. }
  destruct HB as (c & Hcc & Hh). split; [done |]. exists c. split; [done |].
  pose proof (proj1 (Forall_lookup _ _) (wf_bytes s Hwf) _ _ Hcc) as H1.
  pose proof (wf_bytes s' (fk_wf _ _ _ _ _ _ _ Hf)) as HB. rewrite Forall_lookup in HB.
  specialize (HB i (c + occ (dir_refs (rd s') 1024 n td) i)).
  rewrite (fk_counts _ _ _ _ _ _ _ Hf) in HB at 1. rewrite incs_lookup, Hcc in HB.
  specialize (HB eq_refl). cbn beta in *. lia.
Qed.

(** How many entries of a table the copy takes: the first task keeps 640 kB. *)
Definition entries_of (from : Z) : nat := if from =? 0 then 0xA0 else 1024.

(** The parent's address space can be copied: nothing mapped at the target yet,
    the parent's tables and pages are in use, counted and within memory. *)
Definition fork_pre (s : mm) (from to size : Z) : Prop :=
  Z.land from 0x3fffff = 0 /\ Z.land to 0x3fffff = 0
  /\ copy_pre s (entries_of from) (dirs_of size) (dir_of from) (dir_of to)
  /\ forall i, i ∈ src_refs (rd s) (entries_of from) (dirs_of size) (dir_of from) ->
       page_addr i < HIGH_MEMORY s.

Lemma copy_page_tables_ok s from to size :
  fork_pre s from to size ->
  exists r s1, copy_page_tables from to size s = Ok r s1
  /\ forked s (entries_of from) (dirs_of size) (dir_of from) (dir_of to) r s1.
Proof.
  intros (Hf & Ht & Hpre & _). unfold copy_page_tables. rewrite Hf, Ht. cbn [cbool Z.eqb negb orb].
  by apply copy_dirs_ok.
Qed.

(** The copy, and freeing what it made. *)
Lemma copy_then_free s from to size :
  fork_pre s from to size -> to <> 0 ->
  exists r s1 s2, copy_page_tables from to size s = Ok r s1
  /\ forked s (entries_of from) (dirs_of size) (dir_of from) (dir_of to) r s1
  /\ free_page_tables to size s1 = Ok 0 s2 /\ mem_map s2 = mem_map s /\ HIGH_MEMORY s2 = HIGH_MEMORY s.
Proof.
  intros Hpre Hto. destruct (copy_page_tables_ok _ _ _ _ Hpre) as (r & s1 & E1 & Hf).
  destruct Hpre as (_ & Ht & Hpre & Hhi). pose proof (cp_low _ _ _ _ _ Hpre) as (_ & _ & _ & Hlo).
  destruct (free_dirs_ok (dirs_of size) (dir_of to) s1 (mem_map s)) as (s2 & E2 & (HC & HH & _) & _).
  - intros a. apply (wf_words s1), Hf.
  - done.
  - apply Hf.
  - apply Forall_forall. intros t Hin. destruct (fk_fresh _ _ _ _ _ _ _ Hf t Hin) as (i & -> & _).
    rewrite page_addr_frame. lia.
  - eapply forked_droppable; [apply Hpre | done | done | apply Hpre].
  - apply Hf.
  - exists r, s1. eexists. split; [done |]. split; [done |].
    unfold free_page_tables. rewrite Ht. cbn [cbool Z.eqb negb].
    rewrite (proj2 (Z.eqb_neq to 0)) by done. rewrite (bind_Ok _ _ _ _ _ E2).
    split_and!; [reflexivity | done |]. change (HIGH_MEMORY s2 = HIGH_MEMORY s). rewrite HH. apply Hf.
Qed.

(** C2: after a fork ([copy_page_tables]) that succeeds or runs out of memory
    half way, freeing the child's address space ([free_page_tables] on the same
    range, as [copy_mem] and [exit] do) returns, and every page has the use
    count it had before: no page leaks and none is freed twice. *)
Theorem fork_exit_conserves s from to size :
  fork_pre s from to size -> to <> 0 ->
  exists r s1 s2,
    copy_page_tables from to size s = Ok r s1 /\ (r = 0 \/ r = -1)
    /\ free_page_tables to size s1 = Ok 0 s2 /\ mem_map s2 = mem_map s.
Proof.
  intros Hpre Hto. destruct (copy_then_free _ _ _ _ Hpre Hto) as (r & s1 & s2 & E1 & Hf & E2 & HM & _).
  exists r, s1, s2. split_and!; [done | apply Hf | done | done].
Qed.

(** The parent's entry [e] after the fork: it loses its write permission if it is for a
    page above 1 MB, which is one that is counted. *)
Definition parent_entry (e : Z) : Z := if present e && (LOW_MEM <=? frame e) then clr e else e.

Lemma forked_parent_entry s k n fd td s' m j :
  copy_pre s k n fd td -> forked s k n fd td 0 s' -> 0 <= m < Z.of_nat n -> 0 <= j < Z.of_nat k ->
  present (rd s (fd + 4 * m)) = true ->
  rd s' (frame (rd s (fd + 4 * m)) + 4 * j) = parent_entry (rd s (frame (rd s (fd + 4 * m)) + 4 * j)).
Proof.
  intros Hpre Hf Hm Hj Hp. pose proof (cp_low _ _ _ _ _ Hpre). unfold parent_entry.
  destruct (table_not_free s k n fd td (fd + 4 * m) (frame (rd s (fd + 4 * m)) + 4 * j) Hpre) as (Hl & Hnf);
    [by apply in_words_offset | done | by apply in_words_offset |].
  destruct (present (rd s (frame (rd s (fd + 4 * m)) + 4 * j)) && _) eqn:E.
  - apply andb_true_iff in E as (E1 & E2). apply Z.leb_le in E2.
    by apply (fk_parent _ _ _ _ _ _ _ Hf eq_refl m).
  - destruct (fk_frame _ _ _ _ _ _ _ Hf (frame (rd s (fd + 4 * m)) + 4 * j)) as [-> | (_ & E1 & E2)]; try done.
    + unfold in_words. apply andb_false_intro1, andb_false_intro2. blia.
    + apply Z.leb_le in E2. by rewrite E1, E2 in E.
Qed.

(** C7: [copy_page_tables] returns, with -1 only when no page is free, and otherwise
    with 0.  Then for each of the parent's directory entries the child has a page table
    exactly if the parent has one.  Entry by entry, the child's table has the parent's
    entry without write permission where the parent has a page, and 0 elsewhere; when the
    first task forks, only the first 160 entries are copied and the others are 0.  The
    parent's copied entries for pages above 1 MB lose their write permission, so that
    neither task can change a shared page without [do_wp_page]; its copied entries for
    pages below 1 MB stay as they are.  Every other word of memory that is neither in the
    child's directory nor in a page that was free is what it was. *)
Theorem fork_copy_on_write s from to size :
  fork_pre s from to size ->
  exists r s1, copy_page_tables from to size s = Ok r s1
  /\ ((r = -1 /\ forall i, mem_map s1 !! i <> Some 0)
      \/ (r = 0 /\ forall m, 0 <= m < Z.of_nat (dirs_of size) ->
           let dir := rd s (dir_of from + 4 * m) in
           let dir1 := rd s1 (dir_of to + 4 * m) in
           present dir1 = present dir
           /\ (present dir = true -> forall j, 0 <= j < 1024 ->
               let e := rd s (frame dir + 4 * j) in
               if j <? Z.of_nat (entries_of from)
               then rd s1 (frame dir1 + 4 * j) = (if present e then Z.land e (Z.lnot 2) else 0)
                    /\ rd s1 (frame dir + 4 * j) = parent_entry e
               else rd s1 (frame dir1 + 4 * j) = 0)))
  /\ forall a, in_words (dirs_of size) (dir_of to) a = false -> ~ in_free_page s a ->
       ~ in_tables (rd s) (entries_of from) (dirs_of size) (dir_of from) a -> rd s1 a = rd s a.
Proof.
  intros Hpre. destruct (copy_page_tables_ok _ _ _ _ Hpre) as (r & s1 & E & Hf).
  exists r, s1. split; [done |]. split; [| exact (fk_same _ _ _ _ _ _ _ Hf)].
  destruct (fk_ret _ _ _ _ _ _ _ Hf) as [-> | ->].
  2:{ left. split; [done |]. by apply Hf. }
  right. split; [done |]. intros m Hm. cbn zeta.
  destruct (fk_child _ _ _ _ _ _ _ Hf eq_refl m Hm) as (HC1 & HC2).
  split; [done |]. intros Hp j Hj. specialize (HC2 Hp j Hj). unfold child_entry in HC2.
  destruct (Z.ltb_spec j (Z.of_nat (entries_of from))) as [Hk|Hk]; [| exact HC2].
  split; [exact HC2 |].
  apply (forked_parent_entry _ _ _ _ _ _ _ _ (proj1 (proj2 (proj2 Hpre))) Hf); [exact Hm | lia | exact Hp].
Qed.

Lemma in_words_1 p a : in_words 1 p a = true -> a = p.
Proof. intros (j & Hj & ->)%in_words_inv. lia. Qed.

Lemma demo_refs : src_refs (rd (demo 1)) 1024 1 64 = [1%nat].
Proof. vm_compute. reflexivity. Qed.

Lemma demo_fork_pre : fork_pre (demo 1) 0x4000000 0x8000000 0x400000.
Proof.
  unfold fork_pre. change (entries_of 0x4000000) with 1024%nat.
  change (dirs_of 0x400000) with 1%nat.
  change (dir_of 0x4000000) with 64. change (dir_of 0x8000000) with 128.
  split_and!; [done | done | constructor |]; rewrite ?demo_refs; try lia.
  - apply demo_wf. lia.
  - intros a ->%in_words_1. reflexivity.
  - intros a ->%in_words_1 _. change (frame (rd (demo 1) 64)) with (page_addr 0).
    rewrite page_addr_frame. split; [lia |]. intros i Hi. rewrite page_addr_frame in Hi.
    assert (i = 0%nat) as -> by lia. done.
  - intros i ->%list_elem_of_singleton. by exists 1.
  - intros i ->%list_elem_of_singleton. done.
Qed.

Lemma fork_exit_conserves_witness :
  exists r s1 s2,
    copy_page_tables 0x4000000 0x8000000 0x400000 (demo 1) = Ok r s1 /\ (r = 0 \/ r = -1)
    /\ free_page_tables 0x8000000 0x400000 s1 = Ok 0 s2 /\ mem_map s2 = mem_map (demo 1).
Proof. apply (fork_exit_conserves (demo 1) 0x4000000); [apply demo_fork_pre | done]. Defined.

Lemma fork_copy_on_write_witness :
  exists r s1, copy_page_tables 0x4000000 0x8000000 0x400000 (demo 1) = Ok r s1
  /\ ((r = -1 /\ forall i, mem_map s1 !! i <> Some 0)
      \/ (r = 0 /\ rd s1 (frame (rd s1 128) + 20) = Z.land (page_addr 1 + 7) (Z.lnot 2)
         /\ rd s1 (page_addr 0 + 20) = Z.land (page_addr 1 + 7) (Z.lnot 2))).
Proof.
  destruct (fork_copy_on_write (demo 1) 0x4000000 0x8000000 0x400000 demo_fork_pre)
    as (r & s1 & E & H & _).
  exists r, s1. split; [exact E |]. clear E. destruct H as [H | (-> & H)]; [by left |]. right. split; [done |].
  destruct (H 0) as (_ & H1); [done |]. exact (H1 eq_refl 5 ltac:(done)).
Defined.
