(* ===== verification/Malloc.v ===== *)
(** The kernel's own memory allocator (lib/malloc.c), on top of the page allocator and
    in the same physical memory: pages cut into blocks of one size, the free blocks of a
    page linked through their first words, and a 16-byte descriptor for each page. *)
From stdpp Require Import base list gmap strings.
From Stdlib Require Import ZArith Lia.
From S2P Require Import Prelude Bits Memory.
Open Scope Z_scope.

(** ** The code *)

Module Malloc.

(** [bucket_dir]: the sizes, and in the state the chains of descriptors. *)
Definition bucket_sizes : list Z := [16; 32; 64; 128; 256; 512; 1024; 2048; 4096].

Record kheap := mk_kheap { hmm : mm; chain : list Z; free_bucket_desc : Z }.
#[export] Instance kheap_fields : Fields kheap := fun s => mk_kheap (hmm s) (chain s) (free_bucket_desc s).

Definition on_mm {A} (m : M mm A) : M kheap A := fun s =>
  match m (hmm s) with
  | Ok a x => Ok a (put hmm x s)
  | Panic msg x => Panic msg (put hmm x s)
  | Exit c x => Exit c (put hmm x s)
  | Ub => Ub
  end.

(** The members of a descriptor at [d]: [refcnt] is the lower half of its last word and
    [bucket_size] the upper half. *)
Definition get_page (d : Z) : M mm Z := load d.
Definition set_page (d v : Z) : M mm unit := store d v.
Definition get_next (d : Z) : M mm Z := load (d + 4).
Definition set_next (d v : Z) : M mm unit := store (d + 4) v.
Definition get_freeptr (d : Z) : M mm Z := load (d + 8).
Definition set_freeptr (d v : Z) : M mm unit := store (d + 8) v.
Definition get_refcnt (d : Z) : M mm Z := let* w := load (d + 12) in ret (w mod 2 ^ 16).
Definition set_refcnt (d v : Z) : M mm unit := let* w := load (d + 12) in store (d + 12) (w / 2 ^ 16 * 2 ^ 16 + u16 v).
Definition set_bucket_size (d v : Z) : M mm unit := let* w := load (d + 12) in store (d + 12) (w mod 2 ^ 16 + u16 v * 2 ^ 16).

(** The loops that link what lies [step] bytes apart from [p] on, [n] times: the [next]
    of descriptors ([off] is 4) and the first words of blocks ([off] is 0). *)
Fixpoint link_up (n : nat) (off step p : Z) : M mm Z :=
  match n with
  | O => ret p
  | S n => store (p + off) (p + step) ;;; link_up n off step (p + step)
  end.

Definition init_bucket_desc : M kheap unit :=
  let* first := on_mm get_free_page in
  if first =? 0 then panic "Out of memory in init_bucket_desc()" else
  let* bdesc := on_mm (link_up (Z.to_nat (PAGE_SIZE / 16 - 1)) 4 16 first) in
  let* f := get free_bucket_desc in
  on_mm (set_next bdesc f) ;;;
  modify (put free_bucket_desc first).

(** The size for a request, with its place in [bucket_dir]. *)
Fixpoint find_dir (j : nat) (l : list Z) (len : Z) : option (nat * Z) :=
  match l with
  | [] => None
  | size :: l => if len <=? size then Some (j, size) else find_dir (S j) l len
  end.
(** The first descriptor of a chain with a free block, or 0; [fuel] bounds the length of
    the chain. *)
Fixpoint find_free (fuel : nat) (bdesc : Z) : M mm Z :=
  match fuel with
  | O => ub
  | S fuel =>
    if bdesc =? 0 then ret 0 else
    let* f := get_freeptr bdesc in
    if cbool f then ret bdesc else let* n := get_next bdesc in find_free fuel n
  end.

Definition get_chain (j : nat) : M kheap Z := let* l := get chain in need (l !! j).
Definition set_chain (j : nat) (v : Z) : M kheap unit := modify (over chain <[j := v]>).

(** A page of blocks for bucket [j], put in front of its chain. *)
Definition new_bucket (j : nat) (size : Z) : M kheap Z :=
  let* f := get free_bucket_desc in
  (if f =? 0 then init_bucket_desc else ret tt) ;;;
  let* bdesc := get free_bucket_desc in
  let* n := on_mm (get_next bdesc) in
  modify (put free_bucket_desc n) ;;;
  on_mm (set_refcnt bdesc 0) ;;;
  on_mm (set_bucket_size bdesc size) ;;;
  let* cp := on_mm get_free_page in
  on_mm (set_freeptr bdesc cp) ;;;
  on_mm (set_page bdesc cp) ;;;
  if cp =? 0 then panic "Out of memory in kernel malloc()" else
  let* cp := on_mm (link_up (Z.to_nat (PAGE_SIZE / size - 1)) 0 size cp) in
  on_mm (store cp 0) ;;;
  let* c := get_chain j in
  on_mm (set_next bdesc c) ;;;
  set_chain j bdesc ;;;
  ret bdesc.

Definition malloc (fuel : nat) (len : Z) : M kheap Z :=
  match find_dir 0 bucket_sizes len with
  | None => panic "malloc: bad arg"
  | Some (j, size) =>
    let* c := get_chain j in
    let* bdesc := on_mm (find_free fuel c) in
    let* bdesc := (if bdesc =? 0 then new_bucket j size else ret bdesc) in
    let* retval := on_mm (get_freeptr bdesc) in
    let* n := on_mm (load retval) in
    on_mm (set_freeptr bdesc n) ;;;
    let* r := on_mm (get_refcnt bdesc) in
    on_mm (set_refcnt bdesc (r + 1)) ;;;
    ret retval
  end.

(** The descriptor of [page] in a chain, and the one before it (or 0). *)
Fixpoint find_page (fuel : nat) (page bdesc prev : Z) : M mm (option (Z * Z)) :=
  match fuel with
  | O => ub
  | S fuel =>
    if bdesc =? 0 then ret None else
    let* p := get_page bdesc in
    if p =? page then ret (Some (bdesc, prev)) else
    let* n := get_next bdesc in find_page fuel page n bdesc
  end.
(** The search through [bucket_dir] from [j] on. *)
Fixpoint find_bucket (fuel : nat) (page size : Z) (j : nat) (l : list Z) : M kheap (nat * Z * Z) :=
  match l with
  | [] => panic "Bad address passed to kernel free_s()"
  | sz :: l =>
    if sz <? size then find_bucket fuel page size (S j) l else
    let* c := get_chain j in
    let* r := on_mm (find_page fuel page c 0) in
    match r with
    | Some (bdesc, prev) => ret (j, bdesc, prev)
    | None => find_bucket fuel page size (S j) l
    end
  end.
(** The element of a chain in front of [bdesc], or 0. *)
Fixpoint find_prev (fuel : nat) (bdesc prev : Z) : M mm Z :=
  match fuel with
  | O => ub
  | S fuel =>
    if prev =? 0 then ret 0 else
    let* n := get_next prev in
    if n =? bdesc then ret prev else find_prev fuel bdesc n
  end.

(** Takes an empty bucket off its chain and gives its page back. *)
Definition release_bucket (fuel j : nat) (bdesc prev : Z) : M kheap unit :=
  let* c := get_chain j in
  let* stale := (if cbool prev then let* n := on_mm (get_next prev) in ret (negb (n =? bdesc)) else ret (negb (c =? bdesc))) in
  let* prev := (if stale then on_mm (find_prev fuel bdesc c) else ret prev) in
  let* n := on_mm (get_next bdesc) in
  (if cbool prev then on_mm (set_next prev n) else
   let* c := get_chain j in
   if negb (c =? bdesc) then panic "malloc bucket chains corrupted" else set_chain j n) ;;;
  let* page := on_mm (get_page bdesc) in
  on_mm (free_page page) ;;;
  let* f := get free_bucket_desc in
  on_mm (set_next bdesc f) ;;;
  modify (put free_bucket_desc bdesc).

Definition free_s (fuel : nat) (obj size : Z) : M kheap unit :=
  let page := Z.land obj 0xfffff000 in
  let* r := find_bucket fuel page size 0 bucket_sizes in
  let '(j, bdesc, prev) := r in
  let* f := on_mm (get_freeptr bdesc) in
  on_mm (store obj f) ;;;
  on_mm (set_freeptr bdesc obj) ;;;
  let* r := on_mm (get_refcnt bdesc) in
  on_mm (set_refcnt bdesc (r - 1)) ;;;
  let* r := on_mm (get_refcnt bdesc) in
  if r =? 0 then release_bucket fuel j bdesc prev else ret tt.
End Malloc.
