(* ===== verification/MallocSpec.v ===== *)
(** What the kernel's memory allocator (lib/malloc.c) promises: blocks of memory that are
    at least as long as asked for and do not overlap, until they are given back. *)
From stdpp Require Import base list gmap strings.
From Stdlib Require Import ZArith Lia.
From S2P Require Import Prelude Bits Memory Malloc.
Import Malloc.
Open Scope Z_scope.

(** ** Lists in memory *)

(** [l] are the elements from [p] on, linked through the word at offset [off]. *)
Fixpoint links (off : Z) (f : Z -> Z) (p : Z) (l : list Z) : Prop :=
  match l with
  | [] => p = 0
  | d :: l => p = d /\ d <> 0 /\ links off f (f (d + off)) l
  end.
Lemma links_ext off f g p l : (forall d, d ∈ l -> f (d + off) = g (d + off)) -> links off f p l -> links off g p l.
Proof.
  revert p. induction l as [|d l IH]; intros p Hf; [done |]. intros (-> & Hd & Hl). split_and!; [done | done |].
  rewrite <- (Hf d) by set_solver. apply IH; [| done]. intros e He. apply Hf. set_solver.
Qed.
Lemma links_nil off f p l : links off f p l -> p = 0 -> l = [].
Proof. destruct l as [|d l]; [done |]. by intros (-> & Hd & _) ->. Qed.
Lemma links_next off f p l : links off f p l -> p <> 0 -> exists l', l = p :: l' /\ links off f (f (p + off)) l'.
Proof. destruct l as [|d l]; [done |]. intros (-> & Hd & Hl) _. by exists l. Qed.

(** [n] addresses [step] apart. *)
Definition spread (p step : Z) (n : nat) : list Z := map (fun k => p + step * Z.of_nat k) (seq 0 n).
Lemma elem_of_spread p step n a : a ∈ spread p step n <-> exists k, (k < n)%nat /\ a = p + step * Z.of_nat k.
Proof.
  unfold spread. rewrite list_elem_of_In, in_map_iff. split.
  - intros (k & <- & Hk). apply in_seq in Hk. exists k. split; [lia | done].
  - intros (k & Hk & ->). exists k. split; [done |]. apply in_seq. lia.
Qed.
Lemma spread_S p step n : spread p step (S n) = p :: spread (p + step) step n.
Proof.
  unfold spread. cbn [seq map]. rewrite Z.mul_0_r, Z.add_0_r. f_equal. rewrite <- seq_shift, map_map. apply map_ext. intros k. lia.
Qed.
Lemma spread_length p step n : length (spread p step n) = n.
Proof. unfold spread. by rewrite length_map, length_seq. Qed.
Lemma spread_NoDup p step n : 0 < step -> NoDup (spread p step n).
Proof.
  intros Hs. unfold spread. apply NoDup_ListNoDup. apply Finite.Injective_map_NoDup; [| apply seq_NoDup].
  intros i j E. nia.
Qed.

(** What [link_up] and the store behind it leave. *)
Lemma link_up_ok off step last n : forall p m, 0 < step -> 0 <= p -> p + step * Z.of_nat n < 2 ^ 32 -> 0 <= last < 2 ^ 32 ->
  exists m', (let* q := link_up n off step p in store (q + off) last) m = Ok tt m'
    /\ mem_map m' = mem_map m /\ HIGH_MEMORY m' = HIGH_MEMORY m
    /\ (forall a, (forall d, d ∈ spread p step (S n) -> a <> d + off) -> rd m' a = rd m a)
    /\ (forall k, (k < n)%nat -> rd m' (p + step * Z.of_nat k + off) = p + step * Z.of_nat (S k))
    /\ rd m' (p + step * Z.of_nat n + off) = last.
Proof.
  induction n as [|n IH]; intros p m Hs Hp Hlt Hlast; cbn [link_up].
  - exists (set_mem (<[p + off := last]>) m). change (bind (ret p) (fun q => store (q + off) last) m) with (store (p + off) last m).
    rewrite store_ok by done. rewrite Z.mul_0_r, Z.add_0_r in *. split_and!; try done.
    + intros a Ha. rewrite rd_store. unfold upd. rewrite (proj2 (Z.eqb_neq _ _)); [done |]. apply Ha. apply elem_of_spread. exists 0%nat. split; lia.
    + intros k Hk. lia.
    + rewrite rd_store. unfold upd. by rewrite Z.eqb_refl.
  - set (m1 := set_mem (<[p + off := p + step]>) m). destruct (IH (p + step) m1) as (m' & E & H1 & H2 & H3 & H4 & H5); [lia.. |]. exists m'.
    split_and!; [| done | done | | |].
    + rewrite <- E. unfold bind at 1. unfold bind at 1. rewrite store_ok by lia. done.
    + intros a Ha. rewrite spread_S in Ha. rewrite H3; [| intros d Hd; apply Ha; by right]. unfold m1. rewrite rd_store. unfold upd.
      rewrite (proj2 (Z.eqb_neq _ _)); [done |]. apply Ha. by left.
    + intros [|k] Hk.
      * rewrite Z.mul_0_r, Z.add_0_r. rewrite H3.
        -- unfold m1. rewrite rd_store. unfold upd. rewrite Z.eqb_refl. lia.
        -- intros d Hd. apply elem_of_spread in Hd as (j & _ & ->). nia.
      * specialize (H4 k ltac:(lia)). replace (p + step * Z.of_nat (S k) + off) with (p + step + step * Z.of_nat k + off) by lia. rewrite H4. lia.
    + replace (p + step * Z.of_nat (S n) + off) with (p + step + step * Z.of_nat n + off) by lia. done.
Qed.
Lemma links_spread off step f last l : forall n p, 0 < step -> 0 < p -> (forall k, (k < n)%nat -> f (p + step * Z.of_nat k + off) = p + step * Z.of_nat (S k)) ->
  f (p + step * Z.of_nat n + off) = last -> links off f last l -> links off f p (spread p step (S n) ++ l).
Proof.
  induction n as [|n IH]; intros p Hs Hp Hk Hn Hl.
  - cbn. rewrite Z.mul_0_r, Z.add_0_r in *. split_and!; [done | lia |]. by rewrite Hn.
  - rewrite spread_S. cbn [app links]. split_and!; [done | lia |]. pose proof (Hk 0%nat ltac:(lia)) as H0. rewrite Z.mul_0_r, Z.add_0_r in H0. rewrite H0.
    replace (p + step * Z.of_nat 1) with (p + step) by lia. apply IH; [done | lia | | | done].
    + intros k Hk'. specialize (Hk (S k) ltac:(lia)). replace (p + step + step * Z.of_nat k + off) with (p + step * Z.of_nat (S k) + off) by lia. rewrite Hk. lia.
    + replace (p + step + step * Z.of_nat n + off) with (p + step * Z.of_nat (S n) + off) by lia. done.
Qed.

(** ** The state of the allocator *)

(** A bucket: its descriptor, its page, the size of its blocks and the free ones among
    them. *)
Record bucket := mk_bucket { b_desc : Z; b_page : nat; b_size : Z; b_free : list Z }.
Definition blocks (b : bucket) : list Z := spread (page_addr (b_page b)) (b_size b) (Z.to_nat (4096 / b_size b)).

Record bucket_ok (f : Z -> Z) (b : bucket) : Prop := {
  bo_size : b_size b ∈ bucket_sizes;
  bo_page : f (b_desc b) = page_addr (b_page b);
  bo_count : f (b_desc b + 12) = b_size b * 2 ^ 16 + (4096 / b_size b - Z.of_nat (length (b_free b)));
  bo_free : links 0 f (f (b_desc b + 8)) (b_free b);
  bo_NoDup : NoDup (b_free b);
  bo_sub : b_free b ⊆ blocks b }.

Definition descs (n : Z) (bk : list bucket) : list Z := map b_desc (filter (fun b => b_size b = n) bk).

(** The words of memory and the number of users of a page. *)
Declare Scope heap_scope.
Notation "'word' s" := (rd (hmm s)) (at level 10, s at level 9) : heap_scope.
Open Scope heap_scope.
Definition held (s : kheap) (i : nat) : Prop := mem_map (hmm s) !! i = Some 1 /\ page_addr i + PAGE_SIZE <= HIGH_MEMORY (hmm s).

(** The buckets [bk], the free descriptors [fd] and the pages [dp] of descriptors are what
    the memory of [s] holds. *)
Record layout (s : kheap) (bk : list bucket) (fd : list Z) (dp : list nat) : Prop := {
  la_wf : mm_wf (hmm s);
  la_chain : forall j n, bucket_sizes !! j = Some n -> exists c, chain s !! j = Some c /\ links 4 (word s) c (descs n bk);
  la_bucket : forall b, b ∈ bk -> bucket_ok (word s) b;
  la_free : links 4 (word s) (free_bucket_desc s) fd;
  la_nodup : NoDup (map b_desc bk ++ fd);
  la_desc : forall d, d ∈ map b_desc bk ++ fd -> d mod 16 = 0 /\ exists i, i ∈ dp /\ d / 4096 = 256 + Z.of_nat i;
  la_pages : NoDup (map b_page bk ++ dp);
  la_held : forall i, i ∈ map b_page bk ++ dp -> held s i }.
Arguments la_wf {_ _ _ _}. Arguments la_chain {_ _ _ _}. Arguments la_bucket {_ _ _ _}. Arguments la_free {_ _ _ _}.
Arguments la_nodup {_ _ _ _}. Arguments la_desc {_ _ _ _}. Arguments la_pages {_ _ _ _}. Arguments la_held {_ _ _ _}.

(** [(a, n)] is a block in use. *)
Definition live (bk : list bucket) (x : Z * Z) : Prop :=
  exists b, b ∈ bk /\ b_size b = x.2 /\ x.1 ∈ blocks b /\ x.1 ∉ b_free b.

(** Every bucket has one. *)
Definition busy (bk : list bucket) : Prop := forall b, b ∈ bk -> exists a, a ∈ blocks b /\ a ∉ b_free b.

(** [L] are the blocks in use in [s]. *)
Definition heap_of (s : kheap) (L : gset (Z * Z)) : Prop :=
  exists bk fd dp, layout s bk fd dp /\ busy bk /\ forall x, x ∈ L <-> live bk x.

(** ** Where things are *)

Lemma bucket_size_range n : n ∈ bucket_sizes -> 16 <= n <= 4096 /\ n * (4096 / n) = 4096 /\ n mod 16 = 0.
Proof.
  intros H. unfold bucket_sizes in H. repeat (apply elem_of_cons in H as [-> | H]; [split_and!; (lia || reflexivity) |]). by apply not_elem_of_nil in H.
Qed.
Lemma page_addr_div i x : 0 <= x < 4096 -> (page_addr i + x) / 4096 = 256 + Z.of_nat i.
Proof. intros Hx. rewrite page_addr_frame. symmetry. apply Z.div_unique with x; lia. Qed.
Lemma in_blocks b a : b_size b ∈ bucket_sizes -> a ∈ blocks b ->
  exists k, a = page_addr (b_page b) + b_size b * k /\ 0 <= k < 4096 / b_size b /\ b_size b * k + b_size b <= 4096.
Proof.
  intros Hn Ha. apply bucket_size_range in Hn as (H1 & H2 & _). apply elem_of_spread in Ha as (k & Hk & ->).
  exists (Z.of_nat k). split_and!; [done | lia | lia | nia].
Qed.
(** Every word of a block is in the page of its bucket. *)
Lemma block_page b a x : b_size b ∈ bucket_sizes -> a ∈ blocks b -> a <= x < a + b_size b -> x / 4096 = 256 + Z.of_nat (b_page b).
Proof.
  intros Hn Ha Hx. destruct (in_blocks b a Hn Ha) as (k & -> & Hk & Hle). pose proof (bucket_size_range _ Hn) as (H1 & _).
  replace x with (page_addr (b_page b) + (x - page_addr (b_page b))) by lia. apply page_addr_div. nia.
Qed.
Lemma block_start b a : b_size b ∈ bucket_sizes -> a ∈ blocks b -> a / 4096 = 256 + Z.of_nat (b_page b).
Proof. intros Hn Ha. apply (block_page b a a Hn Ha). pose proof (bucket_size_range _ Hn). lia. Qed.
(** Blocks of a bucket do not overlap. *)
Lemma blocks_apart b a a' x : b_size b ∈ bucket_sizes -> a ∈ blocks b -> a' ∈ blocks b -> a <> a' -> a <= x < a + b_size b ->
  ~ (a' <= x < a' + b_size b).
Proof.
  intros Hn Ha Ha' Hne Hx Hx'. pose proof (bucket_size_range _ Hn) as (H1 & _).
  destruct (in_blocks b a Hn Ha) as (k & -> & _), (in_blocks b a' Hn Ha') as (k' & -> & _).
  assert (k <> k') by congruence. assert (k < k' \/ k' < k) as [?|?] by lia; nia.
Qed.

Section Layout.
Context {s : kheap} {bk : list bucket} {fd : list Z} {dp : list nat}.
Hypothesis (HL : layout s bk fd dp).

Lemma desc_in b : b ∈ bk -> b_desc b ∈ map b_desc bk ++ fd.
Proof. intros Hb. apply elem_of_app. left. by apply list_elem_of_fmap_2. Qed.
(** A word of one descriptor is not in another one. *)
Lemma desc_apart d d' o o' : d ∈ map b_desc bk ++ fd -> d' ∈ map b_desc bk ++ fd -> 0 <= o < 16 -> 0 <= o' < 16 -> d + o = d' + o' -> d = d' /\ o = o'.
Proof.
  intros Hd Hd' Ho Ho' E. destruct (la_desc HL d Hd) as (H1 & _), (la_desc HL d' Hd') as (H2 & _).
  pose proof (Z.div_mod d 16). pose proof (Z.div_mod d' 16). lia.
Qed.
Lemma desc_page d o : d ∈ map b_desc bk ++ fd -> 0 <= o < 16 -> exists i, i ∈ dp /\ (d + o) / 4096 = 256 + Z.of_nat i.
Proof.
  intros Hd Ho. destruct (la_desc HL d Hd) as (H1 & i & Hi & E). exists i. split; [done |]. rewrite <- E.
  pose proof (Z.div_mod d 4096). pose proof (Z.mod_pos_bound d 4096). symmetry.
  apply Z.div_unique with (d mod 4096 + o); [| lia]. left. pose proof (Z.div_mod (d mod 4096) 16). pose proof (Z.mod_pos_bound (d mod 4096) 16).
  assert ((d mod 4096) mod 16 = d mod 16) by (apply Z.mod_mod_divide; by exists 256). lia.
Qed.
Lemma pages_differ b i : b ∈ bk -> i ∈ dp -> b_page b <> i.
Proof.
  intros Hb Hi <-. destruct (proj1 (NoDup_app _ _) (la_pages HL)) as (_ & H & _).
  apply (H (b_page b)); [by apply list_elem_of_fmap_2 | done].
Qed.
(** A word of a block is not in a descriptor. *)
Lemma desc_not_block b a x d o : b ∈ bk -> a ∈ blocks b -> a <= x < a + b_size b -> d ∈ map b_desc bk ++ fd -> 0 <= o < 16 -> x <> d + o.
Proof.
  intros Hb Ha Hx Hd Ho ->. destruct (desc_page d o Hd Ho) as (i & Hi & E).
  rewrite (block_page b a _ (bo_size _ _ (la_bucket HL b Hb)) Ha Hx) in E. apply (pages_differ b i Hb Hi). lia.
Qed.
Lemma bucket_of_page b b' : b ∈ bk -> b' ∈ bk -> b_page b = b_page b' -> b = b'.
Proof.
  intros Hb Hb' E. destruct (proj1 (NoDup_app _ _) (la_pages HL)) as (H & _).
  apply list_elem_of_lookup in Hb as (k & Hk), Hb' as (k' & Hk').
  assert (k = k'); [| congruence]. eapply NoDup_lookup; [exact H | |]; rewrite list_lookup_fmap; [by rewrite Hk | by rewrite Hk', E].
Qed.
Lemma bucket_of_desc b b' : b ∈ bk -> b' ∈ bk -> b_desc b = b_desc b' -> b = b'.
Proof.
  intros Hb Hb' E. apply bucket_of_page; [done | done |]. apply page_addr_inj.
  by rewrite <- (bo_page _ _ (la_bucket HL b Hb)), <- (bo_page _ _ (la_bucket HL b' Hb')), E.
Qed.
(** Blocks in use do not overlap. *)
Lemma live_apart a n a' n' x : live bk (a, n) -> live bk (a', n') -> a <= x < a + n -> a' <= x < a' + n' -> (a, n) = (a', n').
Proof.
  intros (b & Hb & E & Ha & _) (b' & Hb' & E' & Ha' & _) Hx Hx'. cbn in *. subst n n'.
  assert (b = b') as <-.
  { apply bucket_of_page; [done | done |]. apply Nat2Z.inj. apply (Z.add_cancel_l _ _ 256).
    by rewrite <- (block_page b a x), <- (block_page b' a' x) by (done || by apply bo_size with (word s), (la_bucket HL)). }
  destruct (decide (a = a')) as [-> | Hne]; [done |]. exfalso.
  by apply (blocks_apart b a a' x (bo_size _ _ (la_bucket HL b Hb)) Ha Ha' Hne).
Qed.
End Layout.

(** ** Steps of the code *)

Definition wr (a v : Z) (s : kheap) : kheap := over hmm (set_mem (<[a := v]>)) s.
Lemma on_load a s : on_mm (load a) s = Ok (word s a) s.
Proof. by destruct s. Qed.
Lemma on_store a v s : 0 <= v < 2 ^ 32 -> on_mm (store a v) s = Ok tt (wr a v s).
Proof. intros Hv. unfold on_mm. by rewrite store_ok. Qed.
Lemma word_wr a v s x : word (wr a v s) x = if x =? a then v else word s x.
Proof. cbn. apply rd_store. Qed.
Lemma wr_eq a v s : word (wr a v s) a = v.
Proof. rewrite word_wr. by rewrite Z.eqb_refl. Qed.
Lemma wr_ne a v s x : x <> a -> word (wr a v s) x = word s x.
Proof. intros Hx. rewrite word_wr. by rewrite (proj2 (Z.eqb_neq _ _) Hx). Qed.
Lemma wr_wf a v s : 0 <= v < 2 ^ 32 -> mm_wf (hmm s) -> mm_wf (hmm (wr a v s)).
Proof.
  intros Hv [H1 H2 H3 H4 H5]. constructor; [done | done | | done | done]. intros x. rewrite word_wr. case_match; [done | apply H3].
Qed.
Lemma on_refcnt d s : on_mm (get_refcnt d) s = Ok (word s (d + 12) mod 2 ^ 16) s.
Proof. by destruct s. Qed.
Lemma on_set_refcnt d v s : mm_wf (hmm s) -> on_mm (set_refcnt d v) s = Ok tt (wr (d + 12) (word s (d + 12) / 2 ^ 16 * 2 ^ 16 + u16 v) s).
Proof.
  intros Hwf. change (on_mm (set_refcnt d v) s) with (on_mm (store (d + 12) (word s (d + 12) / 2 ^ 16 * 2 ^ 16 + u16 v)) s).
  apply on_store. pose proof (wf_words _ Hwf (d + 12)). unfold u16. pose proof (Z.mod_pos_bound v (2 ^ 16)).
  pose proof (Z.div_mod (word s (d + 12)) (2 ^ 16)). pose proof (Z.mod_pos_bound (word s (d + 12)) (2 ^ 16)).
  assert (word s (d + 12) / 2 ^ 16 < 2 ^ 16) by (apply Z.div_lt_upper_bound; lia). lia.
Qed.
Lemma on_set_bucket_size d v s : 0 <= v < 2 ^ 16 -> on_mm (set_bucket_size d v) s = Ok tt (wr (d + 12) (word s (d + 12) mod 2 ^ 16 + v * 2 ^ 16) s).
Proof.
  intros Hv. change (on_mm (set_bucket_size d v) s) with (on_mm (store (d + 12) (word s (d + 12) mod 2 ^ 16 + u16 v * 2 ^ 16)) s).
  unfold u16. rewrite (Z.mod_small v) by done. apply on_store. pose proof (Z.mod_pos_bound (word s (d + 12)) (2 ^ 16)). lia.
Qed.

(** ** What the layout depends on *)

(** The words that hold it. *)
Definition meta (bk : list bucket) (fd : list Z) (x : Z) : Prop :=
  (exists d o, d ∈ map b_desc bk ++ fd /\ 0 <= o < 16 /\ x = d + o) \/ exists b, b ∈ bk /\ x ∈ b_free b.
Definition same_lists (s s' : kheap) : Prop := chain s' = chain s /\ free_bucket_desc s' = free_bucket_desc s.

Lemma bucket_frame f g b : bucket_ok f b -> (forall o, 0 <= o < 16 -> g (b_desc b + o) = f (b_desc b + o)) ->
  (forall o, o ∈ b_free b -> g o = f o) -> bucket_ok g b.
Proof.
  intros [H1 H2 H3 H4 H5 H6] Hd Ho. constructor; [done | | | | done | done].
  - specialize (Hd 0). rewrite Z.add_0_r in Hd. by rewrite Hd.
  - by rewrite Hd.
  - rewrite Hd by lia. revert H4. apply links_ext. intros x Hx. rewrite Z.add_0_r. symmetry. by apply Ho.
Qed.
Lemma descs_sub n bk d : d ∈ descs n bk -> d ∈ map b_desc bk.
Proof. unfold descs. intros (b & -> & Hb)%list_elem_of_fmap. apply list_elem_of_filter in Hb as (_ & Hb). by apply list_elem_of_fmap_2. Qed.
Lemma layout_frame s s' bk fd dp : layout s bk fd dp -> mm_wf (hmm s') -> same_lists s s' ->
  (forall i, i ∈ map b_page bk ++ dp -> held s' i) -> (forall x, meta bk fd x -> word s' x = word s x) -> layout s' bk fd dp.
Proof.
  intros [H1 H2 H3 H4 H5 H6 H7 H8] Hwf (Hc & Hfb) Hh Hx.
  assert (Hd : forall d o, d ∈ map b_desc bk ++ fd -> 0 <= o < 16 -> word s' (d + o) = word s (d + o)).
  { intros d o Hd Ho. apply Hx. left. by exists d, o. }
  constructor; rewrite ?Hc, ?Hfb; try done.
  - intros j n Hn. destruct (H2 j n Hn) as (c & Ec & Hl). exists c. split; [done |]. revert Hl. apply links_ext.
    intros d Hd'. symmetry. apply Hd; [| lia]. apply elem_of_app. left. by apply descs_sub in Hd'.
  - intros b Hb. apply (bucket_frame (word s)); [by apply H3 | |].
    + intros o Ho. apply Hd; [| done]. by apply desc_in.
    + intros o Ho. apply Hx. right. by exists b.
  - revert H4. apply links_ext. intros d Hd'. symmetry. apply Hd; [| lia]. apply elem_of_app. by right.
Qed.
(** All of it is in the pages of the allocator. *)
Lemma meta_page s bk fd dp x : layout s bk fd dp -> meta bk fd x -> exists i, i ∈ map b_page bk ++ dp /\ x / 4096 = 256 + Z.of_nat i.
Proof.
  intros HL [(d & o & Hd & Ho & ->) | (b & Hb & Hx)].
  - destruct (desc_page HL d o Hd Ho) as (i & Hi & E). exists i. split; [| done]. apply elem_of_app. by right.
  - exists (b_page b). split; [apply elem_of_app; left; by apply list_elem_of_fmap_2 |].
    apply (block_start b x); [by apply bo_size with (word s), (la_bucket HL) | by apply (bo_sub _ _ (la_bucket HL b Hb))].
Qed.

(** ** Other free blocks in one bucket *)

Definition set_free (fl : list Z) (b : bucket) : bucket := mk_bucket (b_desc b) (b_page b) (b_size b) fl.

Lemma maps_set_free {A} (p : bucket -> A) bk1 b fl bk2 : p (set_free fl b) = p b -> map p (bk1 ++ set_free fl b :: bk2) = map p (bk1 ++ b :: bk2).
Proof. intros E. rewrite !map_app. cbn. by rewrite E. Qed.
Lemma descs_app n bk1 bk2 : descs n (bk1 ++ bk2) = descs n bk1 ++ descs n bk2.
Proof. unfold descs. by rewrite filter_app, map_app. Qed.
Lemma descs_cons n b bk : descs n (b :: bk) = if decide (b_size b = n) then b_desc b :: descs n bk else descs n bk.
Proof. unfold descs. rewrite filter_cons. by case_decide. Qed.

Lemma elem_of_middle {A} (x a : A) l1 l2 : x ∈ l1 ++ a :: l2 <-> x = a \/ x ∈ l1 ++ l2.
Proof. rewrite !elem_of_app, elem_of_cons. tauto. Qed.

(** The others of a bucket. *)
Lemma others_differ s bk1 b bk2 fd dp b' : layout s (bk1 ++ b :: bk2) fd dp -> b' ∈ bk1 ++ bk2 ->
  b' ∈ bk1 ++ b :: bk2 /\ b_desc b' <> b_desc b /\ b_page b' <> b_page b.
Proof.
  intros HL Hb'. assert (Hin : b' ∈ bk1 ++ b :: bk2) by (apply elem_of_middle; by right).
  destruct (proj1 (NoDup_app _ _) (la_pages HL)) as (Hp & _). rewrite map_app in Hp. cbn in Hp.
  assert (Hne : b_page b' <> b_page b).
  { intros E. apply NoDup_app in Hp as (_ & H1 & (H2 & _)%NoDup_cons).
    apply elem_of_app in Hb' as [Hb' | Hb']; apply (list_elem_of_fmap_2 b_page) in Hb'; rewrite E in Hb'.
    - apply (H1 _ Hb'). by left.
    - by apply H2. }
  split_and!; [done | | done]. intros E. apply Hne. f_equal. apply (bucket_of_desc HL); [done | apply elem_of_middle; by left | done].
Qed.
Lemma layout_set_free s s' bk1 b bk2 fd dp fl : layout s (bk1 ++ b :: bk2) fd dp -> mm_wf (hmm s') -> same_lists s s' ->
  mem_map (hmm s') = mem_map (hmm s) -> HIGH_MEMORY (hmm s') = HIGH_MEMORY (hmm s) ->
  (forall x, x <> b_desc b + 8 -> x <> b_desc b + 12 -> x ∉ blocks b -> word s' x = word s x) ->
  bucket_ok (word s') (set_free fl b) -> layout s' (bk1 ++ set_free fl b :: bk2) fd dp.
Proof.
  intros HL Hwf (Hc & Hfb) Hm Hh Hx Hb. assert (Hin : b ∈ bk1 ++ b :: bk2) by (apply elem_of_middle; by left).
  assert (Hd : forall d o, d ∈ map b_desc (bk1 ++ b :: bk2) ++ fd -> 0 <= o < 16 -> d <> b_desc b \/ o = 4 -> word s' (d + o) = word s (d + o)).
  { intros d o Hd Ho Hne. pose proof (bo_size _ _ (la_bucket HL b Hin)) as Hn. pose proof (bucket_size_range _ Hn) as Hr. apply Hx.
    - intros E. apply (desc_apart HL _ (b_desc b)) in E; [lia | done | by apply desc_in | done | lia].
    - intros E. apply (desc_apart HL _ (b_desc b)) in E; [lia | done | by apply desc_in | done | lia].
    - intros Ha. apply (desc_not_block HL b (d + o) (d + o) d o); [done | done | lia | done | done | done]. }
  pose proof HL as [H1 H2 H3 H4 H5 H6 H7 H8].
  constructor; rewrite ?Hc, ?Hfb, ?maps_set_free by done; try done.
  - intros j n Hn. destruct (H2 j n Hn) as (c & Ec & Hl). exists c. split; [done |].
    replace (descs n (bk1 ++ set_free fl b :: bk2)) with (descs n (bk1 ++ b :: bk2)) by (rewrite !descs_app, !descs_cons; done).
    revert Hl. apply links_ext. intros d Hd'. symmetry. apply Hd; [| lia | by right]. apply elem_of_app. left. by apply descs_sub in Hd'.
  - intros b' Hb'. apply elem_of_middle in Hb' as [-> | Hb'']; [done |].
    destruct (others_differ _ _ _ _ _ _ _ HL Hb'') as (Hi & Hdd & Hpp). pose proof (la_bucket HL b' Hi) as Hok.
    apply (bucket_frame (word s)); [done | |].
    + intros o Ho. apply Hd; [| done | by left]. by apply desc_in.
    + intros o Ho. pose proof (bucket_size_range _ (bo_size _ _ Hok)). pose proof (bo_sub _ _ Hok o Ho) as Hblk. apply Hx.
      * apply (desc_not_block HL b' o o); [done | done | lia | by apply desc_in | lia].
      * apply (desc_not_block HL b' o o); [done | done | lia | by apply desc_in | lia].
      * intros Hob. apply Hpp, Nat2Z.inj, (Z.add_cancel_l _ _ 256). rewrite <- (block_start b' o), <- (block_start b o); [done | | done | |  done].
        -- apply (bo_size _ _ (la_bucket HL b Hin)).
        -- apply (bo_size _ _ Hok).
  - revert H4. apply links_ext. intros d Hd'. symmetry. apply Hd; [| lia | by right]. apply elem_of_app. by right.
  - unfold held. rewrite Hm, Hh. apply (la_held HL).
Qed.

(** The blocks in use are those of the other buckets and the rest of this one. *)
Lemma live_set_free bk1 b bk2 fl x :
  live (bk1 ++ set_free fl b :: bk2) x <-> live (bk1 ++ bk2) x \/ b_size b = x.2 /\ x.1 ∈ blocks b /\ x.1 ∉ fl.
Proof.
  split.
  - intros (b' & Hb' & H). apply elem_of_middle in Hb' as [-> | Hb'']; [by right |]. left. by exists b'.
  - intros [(b' & Hb' & H) | H]; [exists b' | exists (set_free fl b)]; (split; [apply elem_of_middle; first [by left | by right] | exact H]).
Qed.
Lemma live_split bk1 b bk2 x : live (bk1 ++ b :: bk2) x <-> live (bk1 ++ bk2) x \/ b_size b = x.2 /\ x.1 ∈ blocks b /\ x.1 ∉ b_free b.
Proof. rewrite <- live_set_free. by destruct b. Qed.

(** ** Taking a free block *)

Lemma refcnt_range n c : n ∈ bucket_sizes -> 0 <= c <= 4096 / n -> 0 <= n * 2 ^ 16 + c < 2 ^ 32
  /\ (n * 2 ^ 16 + c) mod 2 ^ 16 = c /\ (n * 2 ^ 16 + c) / 2 ^ 16 = n.
Proof.
  intros Hn Hc. pose proof (bucket_size_range n Hn) as (H1 & H2 & _). assert (4096 / n <= 4096) by nia. split_and!; [lia | lia | |].
  - rewrite Z.add_comm, Z.mod_add by lia. apply Z.mod_small. lia.
  - rewrite Z.div_add_l by lia. rewrite Z.div_small by lia. lia.
Qed.
Lemma blocks_length b : b_size b ∈ bucket_sizes -> Z.of_nat (length (blocks b)) = 4096 / b_size b.
Proof. intros Hn. pose proof (bucket_size_range _ Hn) as (H1 & _). unfold blocks. rewrite spread_length. apply Z2Nat.id. apply Z.div_pos; lia. Qed.
Lemma free_length f b : bucket_ok f b -> Z.of_nat (length (b_free b)) <= 4096 / b_size b.
Proof.
  intros Hb. rewrite <- blocks_length by apply (bo_size _ _ Hb). apply inj_le.
  apply submseteq_length, NoDup_submseteq; [apply (bo_NoDup _ _ Hb) | apply (bo_sub _ _ Hb)].
Qed.
(** What the rest of [malloc] does once there is a bucket with a free block. *)
Definition take_block (bdesc : Z) : M kheap Z :=
  let* retval := on_mm (get_freeptr bdesc) in
  let* n := on_mm (load retval) in
  on_mm (set_freeptr bdesc n) ;;;
  let* r := on_mm (get_refcnt bdesc) in
  on_mm (set_refcnt bdesc (r + 1)) ;;;
  ret retval.
Lemma take_block_ok s bk1 b bk2 fd dp o fl : layout s (bk1 ++ b :: bk2) fd dp -> b_free b = o :: fl ->
  exists s', take_block (b_desc b) s = Ok o s' /\ layout s' (bk1 ++ set_free fl b :: bk2) fd dp
    /\ (forall x, x <> b_desc b + 8 -> x <> b_desc b + 12 -> word s' x = word s x) /\ mem_map (hmm s') = mem_map (hmm s).
Proof.
  intros HL Ef. assert (Hin : b ∈ bk1 ++ b :: bk2) by (apply elem_of_middle; by left).
  pose proof (la_bucket HL b Hin) as Hb. pose proof (bo_size _ _ Hb) as Hn. pose proof (free_length _ _ Hb) as Hlen.
  pose proof (bo_free _ _ Hb) as Hl. rewrite Ef in Hl, Hlen. destruct Hl as (Eo & Ho & Hl). rewrite Z.add_0_r in Hl. cbn [length] in Hlen.
  pose proof (bo_count _ _ Hb) as Hc. rewrite Ef in Hc. cbn [length] in Hc. set (c := 4096 / b_size b - Z.of_nat (S (length fl))) in *.
  destruct (refcnt_range _ c Hn ltac:(lia)) as (R1 & R2 & R3).
  destruct (refcnt_range _ (c + 1) Hn ltac:(lia)) as (R4 & R5 & R6).
  set (s1 := wr (b_desc b + 8) (word s o) s). set (s2 := wr (b_desc b + 12) (b_size b * 2 ^ 16 + (c + 1)) s1).
  pose proof (wf_words _ (la_wf HL)) as HW. assert (Hwf1 : mm_wf (hmm s1)) by (apply wr_wf; [apply HW | apply (la_wf HL)]).
  assert (E12 : word s1 (b_desc b + 12) = b_size b * 2 ^ 16 + c) by (unfold s1; rewrite wr_ne by lia; done).
  exists s2. split_and!.
  - unfold take_block, get_freeptr, set_freeptr. rewrite (bind_Ok _ _ _ _ _ (on_load _ _)), Eo, (bind_Ok _ _ _ _ _ (on_load _ _)).
    rewrite (bind_Ok _ _ _ _ _ (on_store _ _ _ (HW o))). fold s1. rewrite (bind_Ok _ _ _ _ _ (on_refcnt _ _)), E12, R2.
    rewrite (bind_Ok _ _ _ _ _ (on_set_refcnt _ _ _ Hwf1)), E12, R3. unfold u16. rewrite (Z.mod_small (c + 1)); [done |].
    assert (4096 / b_size b <= 4096) by (pose proof (bucket_size_range _ Hn); nia). lia.
  - apply (layout_set_free s); [done | by apply wr_wf | done | done | done | |].
    + intros x H8 H12 _. unfold s2, s1. by rewrite !wr_ne by done.
    + assert (Hx : forall x, x <> b_desc b + 8 -> x <> b_desc b + 12 -> word s2 x = word s x) by (intros; unfold s2, s1; by rewrite !wr_ne by done).
      destruct Hb as [H1 H2 H3 H4 H5 H6]. rewrite Ef in H5, H6. constructor; cbn [set_free b_desc b_page b_size b_free]; [done | | | | |].
      * by rewrite Hx by lia.
      * unfold s2. rewrite wr_eq. lia.
      * unfold s2. rewrite wr_ne by lia. unfold s1. rewrite wr_eq. revert Hl. apply links_ext. intros d Hd. rewrite Z.add_0_r.
        pose proof (bucket_size_range _ Hn). symmetry. apply Hx; apply (desc_not_block HL b d d); try (done || lia || by apply desc_in); apply H6; by right.
      * by apply NoDup_cons in H5 as (_ & ?).
      * intros x Hx'. apply H6. by right.
  - intros x H8 H12. unfold s2, s1. by rewrite !wr_ne by done.
  - done.
Qed.

(** ** The search for a free block *)

Lemma find_free_ok m l : forall fuel c, (forall b, b ∈ l -> bucket_ok (rd m) b) -> links 4 (rd m) c (map b_desc l) -> (length l < fuel)%nat ->
  (find_free fuel c m = Ok 0 m) \/ exists b, b ∈ l /\ b_desc b <> 0 /\ b_free b <> [] /\ find_free fuel c m = Ok (b_desc b) m.
Proof.
  induction l as [|b l IH]; intros fuel c Hb Hl Hf; (destruct fuel as [|fuel]; [lia |]).
  - cbn in Hl. subst c. by left.
  - destruct Hl as (-> & Hd & Hl).
    assert (Est : find_free (S fuel) (b_desc b) m = (if cbool (rd m (b_desc b + 8)) then Ok (b_desc b) m else find_free fuel (rd m (b_desc b + 4)) m)).
    { cbn [find_free]. rewrite (proj2 (Z.eqb_neq _ _) Hd). unfold bind, get_freeptr, get_next, load, get. by case_match. }
    rewrite Est. pose proof (bo_free _ _ (Hb b ltac:(by left))) as Hfr. destruct (b_free b) as [|o fl] eqn:Ef.
    + cbn in Hfr. rewrite Hfr. cbn [length] in Hf.
      destruct (IH fuel (rd m (b_desc b + 4))) as [E | (b' & Hb' & E)]; [intros; apply Hb; by right | done | lia | by left |].
      right. exists b'. split; [by right | done].
    + destruct Hfr as (E & Ho & _). right. exists b. rewrite E, Ef. unfold cbool. rewrite (proj2 (Z.eqb_neq _ _) Ho). split_and!; first [by left | done].
Qed.
(** A chain is not longer than there are pages. *)
Lemma size_chain_length s bk fd dp n : layout s bk fd dp -> (length (filter (fun b => b_size b = n) bk) <= Z.to_nat PAGING_PAGES)%nat.
Proof.
  intros HL. rewrite <- (wf_length _ (la_wf HL)). etransitivity; [apply length_filter |]. destruct (proj1 (NoDup_app _ _) (la_pages HL)) as (Hp & _).
  rewrite <- (length_map b_page). generalize (length (mem_map (hmm s))) as n', (fun i Hi => lookup_lt_Some _ _ _ (proj1 (la_held HL i Hi))).
  intros n' Hlt. rewrite <- (length_seq n' 0). apply submseteq_length, NoDup_submseteq; [done |]. intros i Hi.
  apply elem_of_seq. split; [lia |]. apply Hlt, elem_of_app. by left.
Qed.

(** ** A page of descriptors *)

Lemma alloc_layout s bk fd dp m' i : layout s bk fd dp -> mm_wf m' -> mem_map (hmm s) !! i = Some 0 ->
  mem_map m' = <[i := 1]> (mem_map (hmm s)) -> HIGH_MEMORY m' = HIGH_MEMORY (hmm s) ->
  (forall x, x / 4096 <> 256 + Z.of_nat i -> rd m' x = word s x) ->
  layout (put hmm m' s) bk fd dp /\ (i ∉ map b_page bk ++ dp) /\ held (put hmm m' s) i.
Proof.
  intros HL Hwf Hi Hm Hh Hx.
  assert (Hni : i ∉ map b_page bk ++ dp) by (intros H; destruct (la_held HL i H) as (E & _); congruence).
  split_and!; [| done |].
  - apply (layout_frame s); [done | done | done | |].
    + intros j Hj. destruct (la_held HL j Hj) as (E & E'). unfold held. cbn. rewrite Hm, Hh. split; [| done].
      rewrite list_lookup_insert_ne; [done |]. by intros ->.
    + intros x Hmx. cbn. apply Hx. destruct (meta_page _ _ _ _ _ HL Hmx) as (j & Hj & ->). intros E. apply Hni. by replace i with j by lia.
  - unfold held. cbn. rewrite Hm, Hh. split; [| by apply (wf_free _ (la_wf HL))]. apply list_lookup_insert_eq. by eapply lookup_lt_Some.
Qed.
Lemma layout_descs s bk dp fd i : layout s bk [] dp -> i ∉ map b_page bk ++ dp -> held s i -> links 4 (word s) (page_addr i) fd ->
  fd = spread (page_addr i) 16 256 -> layout (put free_bucket_desc (page_addr i) s) bk fd (i :: dp).
Proof.
  intros HL Hi Hh Hl ->. pose proof HL as [H1 H2 H3 H4 H5 H6 H7 H8]. rewrite app_nil_r in *.
  assert (Hpg : forall d, d ∈ spread (page_addr i) 16 256 -> d mod 16 = 0 /\ d / 4096 = 256 + Z.of_nat i).
  { intros d (k & Hk & ->)%elem_of_spread. split; [| apply page_addr_div; lia]. rewrite page_addr_frame.
    replace (4096 * (256 + Z.of_nat i) + 16 * Z.of_nat k) with ((256 * (256 + Z.of_nat i) + Z.of_nat k) * 16) by lia. apply Z.mod_mul. lia. }
  constructor; try done.
  - apply NoDup_app. split_and!; [done | | by apply spread_NoDup]. intros d Hd (_ & E)%Hpg. destruct (H6 d Hd) as (_ & j & Hj & E').
    apply Hi. apply elem_of_app. right. by replace i with j by lia.
  - intros d Hd. apply elem_of_app in Hd as [Hd | Hd].
    + destruct (H6 d Hd) as (Hm & j & Hj & E). split; [done |]. exists j. split; [by right | done].
    + destruct (Hpg d Hd) as (Hm & E). split; [done |]. exists i. split; [by left | done].
  - apply NoDup_app in H7 as (A1 & A2 & A3). apply NoDup_app. split_and!; [done | | apply NoDup_cons; split; [intros H; apply Hi, elem_of_app; by right | done]].
    intros p Hp [-> | Hd]%elem_of_cons; [| by apply (A2 p)]. apply Hi. apply elem_of_app. by left.
  - intros p Hp. apply elem_of_middle in Hp as [-> | Hp]; [done | by apply H8].
Qed.
Lemma lists_eq s s' : same_lists s s' -> s' = put hmm (hmm s') s.
Proof. destruct s, s'. by intros ([=] & [=]); subst. Qed.

(** The loop and the store behind it, in the state of the allocator. *)
Lemma on_link_up n off step p last s : mm_wf (hmm s) -> 0 < step -> 0 <= p -> p + step * Z.of_nat n < 2 ^ 32 -> 0 <= last < 2 ^ 32 ->
  exists q s1 s', on_mm (link_up n off step p) s = Ok q s1 /\ on_mm (store (q + off) last) s1 = Ok tt s'
    /\ same_lists s s1 /\ same_lists s s' /\ mm_wf (hmm s') /\ mem_map (hmm s') = mem_map (hmm s) /\ HIGH_MEMORY (hmm s') = HIGH_MEMORY (hmm s)
    /\ (forall a, (forall d, d ∈ spread p step (S n) -> a <> d + off) -> word s' a = word s a)
    /\ (forall l, 0 < p -> links off (word s') last l -> links off (word s') p (spread p step (S n) ++ l)).
Proof.
  intros Hwf Hs Hp Hlt Hlast. destruct (link_up_ok off step last n p (hmm s) Hs Hp Hlt Hlast) as (m' & E & H1 & H2 & H3 & H4 & H5).
  unfold bind in E. destruct (link_up n off step p (hmm s)) as [q m1 | | |] eqn:El; try done.
  exists q, (put hmm m1 s), (put hmm m' s). split_and!; try done.
  - unfold on_mm. by rewrite El.
  - unfold on_mm. cbn [hmm put]. change (hmm (put hmm m1 s)) with m1. by rewrite E.
  - destruct Hwf as [W1 W2 W3 W4 W5]. constructor; cbn; rewrite ?H1, ?H2; try done. intros a.
    destruct (decide (a - off ∈ spread p step (S n))) as [Ha | Ha].
    + apply elem_of_spread in Ha as (k & Hk & Ha). replace a with (p + step * Z.of_nat k + off) by lia.
      destruct (decide (k = n)) as [-> | Hne]; [by rewrite H5 |]. rewrite (H4 k) by lia. split; [lia |]. nia.
    + rewrite H3; [apply W3 |]. intros d Hd ->. apply Ha. by replace (d + off - off) with d by lia.
  - intros l Hp' Hl. by apply (links_spread off step (rd m') last).
Qed.

Lemma init_bucket_desc_ok s bk dp : layout s bk [] dp ->
  (exists msg s', init_bucket_desc s = Panic msg s' /\ forall i, mem_map (hmm s) !! i <> Some 0)
  \/ exists i s', init_bucket_desc s = Ok tt s' /\ layout s' bk (spread (page_addr i) 16 256) (i :: dp)
      /\ mem_map (hmm s) !! i = Some 0 /\ mem_map (hmm s') = <[i := 1]> (mem_map (hmm s))
      /\ forall x, x / 4096 <> 256 + Z.of_nat i -> word s' x = word s x.
Proof.
  intros HL. unfold init_bucket_desc. destruct (get_free_page_cases _ (la_wf HL)) as [(E & Hno) | (p & m1 & E & Hal)].
  - left. unfold bind, on_mm. rewrite E. cbn. by do 2 eexists.
  - right. pose proof (allocated_wf _ _ _ (la_wf HL) Hal) as Hwf1. destruct Hal as (i & -> & Hi & _ & Hm & Hx & Hh & _).
    assert (Hil : (i < Z.to_nat PAGING_PAGES)%nat) by (rewrite <- (wf_length _ (la_wf HL)); by eapply lookup_lt_Some).
    destruct (page_word i Hil) as (Hpw & _). assert (Hp0 : 0 < page_addr i) by (rewrite page_addr_frame; lia).
    assert (Eg : on_mm get_free_page s = Ok (page_addr i) (put hmm m1 s)) by (unfold on_mm; by rewrite E).
    rewrite (bind_Ok _ _ _ _ _ Eg), (proj2 (Z.eqb_neq _ _)) by lia.
    destruct (on_link_up 255 4 16 (page_addr i) 0 (put hmm m1 s)) as (q & s1 & s2 & E1 & E2 & (S1 & S1') & (S2 & S2') & W2 & M2 & G2 & X2 & L2); [done | lia.. |].
    rewrite (bind_Ok _ _ _ _ _ E1). change (bind (get free_bucket_desc) ?k s1) with (k (free_bucket_desc s1) s1). cbv beta. rewrite S1'.
    change (free_bucket_desc (put hmm m1 s)) with (free_bucket_desc s). assert (Ef : free_bucket_desc s = 0) by apply (la_free HL). rewrite Ef.
    change (set_next q 0) with (store (q + 4) 0). rewrite (bind_Ok _ _ _ _ _ E2).
    assert (Hxx : forall x, x / 4096 <> 256 + Z.of_nat i -> word s2 x = word s x).
    { intros x Hne. rewrite X2.
      - cbn. rewrite Hx. destruct (in_words 1024 (page_addr i) x) eqn:Ew; [| done]. apply in_words_inv in Ew as (k & Hk & ->). destruct Hne. apply page_addr_div. lia.
      - intros d (k & Hk & ->)%elem_of_spread ->. apply Hne. rewrite <- Z.add_assoc. apply page_addr_div. lia. }
    exists i. eexists. split_and!; [reflexivity | | done | by cbn; rewrite M2 | done].
    destruct (alloc_layout s bk [] dp (hmm s2) i) as (A1 & A2 & A3); [done.. | by rewrite M2 | by rewrite G2 | done |].
    replace s2 with (put hmm (hmm s2) s) by (symmetry; by apply lists_eq).
    apply layout_descs; [done | done | done | | done]. cbn [put hmm]. change (hmm (put hmm (hmm s2) s)) with (hmm s2).
    rewrite <- (app_nil_r (spread _ _ _)). by apply L2.
Qed.

(** ** A new bucket *)

Lemma sizes_inj j j' n : bucket_sizes !! j = Some n -> bucket_sizes !! j' = Some n -> j = j'.
Proof. apply NoDup_lookup. by apply (bool_decide_unpack _). Qed.
Lemma layout_add s bk fd dp j c b : layout s bk fd dp -> bucket_sizes !! j = Some (b_size b) -> chain s !! j = Some c ->
  bucket_ok (word s) b -> word s (b_desc b + 4) = c -> b_desc b <> 0 -> (b_desc b ∉ map b_desc bk ++ fd) ->
  b_desc b mod 16 = 0 -> (exists i, i ∈ dp /\ b_desc b / 4096 = 256 + Z.of_nat i) -> (b_page b ∉ map b_page bk ++ dp) -> held s (b_page b) ->
  layout (over chain <[j := b_desc b]> s) (b :: bk) fd dp.
Proof.
  intros [H1 H2 H3 H4 H5 H6 H7 H8] Hj Hc Hb Hw H0 Hd Hal Hpg Hp Hh. constructor; cbn [map app]; try done.
  - intros j' n Hn. destruct (H2 j' n Hn) as (c' & Ec' & Hl). rewrite descs_cons. destruct (decide (j' = j)) as [-> | Hne].
    + assert (n = b_size b) as -> by congruence. rewrite decide_True by done. exists (b_desc b). split; [by apply list_lookup_insert_eq, lookup_lt_Some with c |].
      split_and!; [done | done |]. cbn. change (word (over chain <[j:=b_desc b]> s)) with (word s). rewrite Hw. by simplify_eq.
    + rewrite decide_False; [exists c' | intros E; apply Hne; eapply sizes_inj; [exact Hn | by rewrite Hj, E]].
      split; [| done]. cbn. by rewrite list_lookup_insert_ne.
  - intros b' [-> | Hb']%elem_of_cons; [done | by apply H3].
  - by apply NoDup_cons.
  - intros d [-> | Hd']%elem_of_cons; [done | by apply H6].
  - by apply NoDup_cons.
  - intros i [-> | Hi]%elem_of_cons; [done | by apply H8].
Qed.
(** The first of the free descriptors is taken. *)
Lemma layout_pop s bk d fd dp : layout s bk (d :: fd) dp -> layout (put free_bucket_desc (word s (d + 4)) s) bk fd dp.
Proof.
  intros [H1 H2 H3 H4 H5 H6 H7 H8]. destruct H4 as (_ & _ & H4). constructor; try done.
  - apply NoDup_app in H5 as (A1 & A2 & (_ & A3)%NoDup_cons). apply NoDup_app. split_and!; [done | | done]. intros x Hx Hx'. apply (A2 x Hx). by right.
  - intros x Hx. apply H6. apply elem_of_middle. by right.
Qed.

(** [new_bucket] once there is a descriptor. *)
Definition fill_bucket (j : nat) (size : Z) : M kheap Z :=
  let* bdesc := get free_bucket_desc in
  let* n := on_mm (get_next bdesc) in
  modify (put free_bucket_desc n) ;;;
  on_mm (set_refcnt bdesc 0) ;;;
  on_mm (set_bucket_size bdesc size) ;;;
  let* cp := on_mm get_free_page in
  on_mm (set_freeptr bdesc cp) ;;;
  on_mm (set_page bdesc cp) ;;;
  if cp =? 0 then panic "Out of memory in kernel malloc()" else
  let* cp := on_mm (link_up (Z.to_nat (PAGE_SIZE / size - 1)) 0 size cp) in
  on_mm (store cp 0) ;;;
  let* c := get_chain j in
  on_mm (set_next bdesc c) ;;;
  set_chain j bdesc ;;;
  ret bdesc.
(** The descriptor [d] without blocks. *)
Definition cleared (d size : Z) (s : kheap) : kheap :=
  wr (d + 12) (size * 2 ^ 16) (wr (d + 12) (word s (d + 12) / 2 ^ 16 * 2 ^ 16) (put free_bucket_desc (word s (d + 4)) s)).
Lemma fill_start j size s : mm_wf (hmm s) -> size ∈ bucket_sizes ->
  let d := free_bucket_desc s in
  fill_bucket j size s = (let* cp := on_mm get_free_page in
    on_mm (set_freeptr d cp) ;;;
    on_mm (set_page d cp) ;;;
    if cp =? 0 then panic "Out of memory in kernel malloc()" else
    let* cp := on_mm (link_up (Z.to_nat (PAGE_SIZE / size - 1)) 0 size cp) in
    on_mm (store cp 0) ;;;
    let* c := get_chain j in
    on_mm (set_next d c) ;;;
    set_chain j d ;;;
    ret d) (cleared d size s).
Proof.
  intros Hwf Hn d. pose proof (bucket_size_range _ Hn) as (Hr & _). unfold fill_bucket.
  change (bind (get free_bucket_desc) ?k s) with (k d s). cbv beta. unfold get_next. rewrite (bind_Ok _ _ _ _ _ (on_load _ _)).
  set (s0 := put free_bucket_desc (word s (d + 4)) s). change (bind (modify (put free_bucket_desc (word s (d + 4)))) ?k s) with (k tt s0). cbv beta.
  rewrite (bind_Ok _ _ _ _ _ (on_set_refcnt d 0 s0 Hwf)). change (u16 0) with 0. rewrite Z.add_0_r.
  change (word s0 (d + 12)) with (word s (d + 12)). set (sA := wr (d + 12) _ s0).
  rewrite (bind_Ok _ _ _ _ _ (on_set_bucket_size d size sA ltac:(lia))). replace (word sA (d + 12) mod 2 ^ 16 + size * 2 ^ 16) with (size * 2 ^ 16); [done |].
  unfold sA. rewrite wr_eq, Z.mod_mul by lia. done.
Qed.
Lemma cleared_wf d size s : mm_wf (hmm s) -> size ∈ bucket_sizes -> mm_wf (hmm (cleared d size s)).
Proof.
  intros Hwf Hn. pose proof (bucket_size_range _ Hn) as (Hr & _). apply wr_wf; [lia |]. apply wr_wf; [| done].
  pose proof (wf_words _ Hwf (d + 12)). pose proof (Z.div_mod (word s (d + 12)) (2 ^ 16)). pose proof (Z.mod_pos_bound (word s (d + 12)) (2 ^ 16)).
  assert (0 <= word s (d + 12) / 2 ^ 16) by (apply Z.div_pos; lia). lia.
Qed.
(** The page cut into blocks. *)
Lemma fill_page d size cp c j s : mm_wf (hmm s) -> size ∈ bucket_sizes -> 0 < cp -> cp + 4096 < 2 ^ 32 -> chain s !! j = Some c -> 0 <= c < 2 ^ 32 ->
  (forall o k, 0 <= o < 16 -> 0 <= k < 4096 -> d + o <> cp + k) ->
  exists s', (on_mm (set_freeptr d cp) ;;;
    on_mm (set_page d cp) ;;;
    if cp =? 0 then panic "Out of memory in kernel malloc()" else
    let* cp := on_mm (link_up (Z.to_nat (PAGE_SIZE / size - 1)) 0 size cp) in
    on_mm (store cp 0) ;;;
    let* c := get_chain j in
    on_mm (set_next d c) ;;;
    set_chain j d ;;;
    ret d) s = Ok d (over chain <[j := d]> s')
  /\ same_lists s s' /\ mm_wf (hmm s') /\ mem_map (hmm s') = mem_map (hmm s) /\ HIGH_MEMORY (hmm s') = HIGH_MEMORY (hmm s)
  /\ word s' (d + 8) = cp /\ word s' d = cp /\ word s' (d + 4) = c /\ word s' (d + 12) = word s (d + 12)
  /\ links 0 (word s') cp (spread cp size (Z.to_nat (4096 / size)))
  /\ (forall x, (forall o, 0 <= o < 16 -> x <> d + o) -> (forall k, 0 <= k < 4096 -> x <> cp + k) -> word s' x = word s x).
Proof.
  intros Hwf Hn Hcp Hlt Hc Hcr Hap. pose proof (bucket_size_range _ Hn) as (Hr & Hmul & _). change PAGE_SIZE with 4096.
  set (n := Z.to_nat (4096 / size - 1)). assert (HS : Z.to_nat (4096 / size) = S n) by (unfold n; nia).
  assert (HSn : Z.of_nat n = 4096 / size - 1) by (unfold n; nia). rewrite HS.
  assert (Hmul' : size * Z.of_nat n = 4096 - size) by (rewrite HSn; lia).
  assert (Hsp : forall x, x ∈ spread cp size (S n) -> exists k, 0 <= k < 4096 /\ x = cp + k).
  { intros x (k & Hk & ->)%elem_of_spread. exists (size * Z.of_nat k). split; [nia | done]. }
  set (s1 := wr (d + 8) cp s). set (s2 := wr d cp s1).
  assert (W2 : mm_wf (hmm s2)) by (repeat apply wr_wf; (done || lia)).
  destruct (on_link_up n 0 size cp 0 s2) as (q & s3 & s4 & E1 & E2 & S1 & S2 & W4 & M4 & G4 & X4 & L4); [done | lia | lia | lia | lia |].
  set (s5 := wr (d + 4) c s4). rewrite Z.add_0_r in E2.
  assert (Hd4 : forall o, 0 <= o < 16 -> word s4 (d + o) = word s2 (d + o)).
  { intros o Ho. apply X4. intros x (k & Hk & ->)%Hsp. rewrite Z.add_0_r. by apply Hap. }
  exists s5. split_and!; try done.
  - unfold set_freeptr, set_page, set_next. rewrite (bind_Ok _ _ _ _ _ (on_store (d + 8) cp s ltac:(lia))), (bind_Ok _ _ _ _ _ (on_store d cp s1 ltac:(lia))).
    fold s2. rewrite (proj2 (Z.eqb_neq _ _)) by lia. rewrite (bind_Ok _ _ _ _ _ E1), (bind_Ok _ _ _ _ _ E2).
    assert (Eg : get_chain j s4 = Ok c s4) by (unfold get_chain, bind, get; rewrite (proj1 S2); change (chain s2) with (chain s); by rewrite Hc).
    rewrite (bind_Ok _ _ _ _ _ Eg), (bind_Ok _ _ _ _ _ (on_store _ _ _ Hcr)). done.
  - by apply wr_wf.
  - unfold s5. rewrite wr_ne by lia. rewrite Hd4 by lia. unfold s2. rewrite wr_ne by lia. apply wr_eq.
  - unfold s5. rewrite wr_ne by lia. specialize (Hd4 0 ltac:(lia)). rewrite Z.add_0_r in Hd4. rewrite Hd4. apply wr_eq.
  - apply wr_eq.
  - unfold s5. rewrite wr_ne by lia. rewrite Hd4 by lia. unfold s2, s1. by rewrite !wr_ne by lia.
  - rewrite <- (app_nil_r (spread _ _ _)). specialize (L4 [] ltac:(lia) ltac:(done)). revert L4. apply links_ext.
    intros x Hx. rewrite app_nil_r in Hx. destruct (Hsp x Hx) as (k & Hk & ->). rewrite Z.add_0_r. symmetry. apply wr_ne. intros E. symmetry in E. revert E. apply Hap; lia.
  - intros x Hx Hk. unfold s5. rewrite wr_ne by (apply Hx; lia). rewrite X4.
    + unfold s2, s1. rewrite !wr_ne; [done | apply Hx; lia |]. rewrite <- (Z.add_0_r d). apply Hx. lia.
    + intros y (k & Hk' & ->)%Hsp. rewrite Z.add_0_r. by apply Hk.
Qed.
Lemma held_page s bk fd dp i : layout s bk fd dp -> i ∈ map b_page bk ++ dp -> 0 < page_addr i /\ page_addr i + 4096 < 2 ^ 32.
Proof.
  intros HL Hi. destruct (la_held HL i Hi) as (E & _). apply lookup_lt_Some in E. rewrite (wf_length _ (la_wf HL)), PAGING_PAGES_val in E.
  rewrite page_addr_frame. lia.
Qed.
Lemma desc_range s bk fd dp d : layout s bk fd dp -> d ∈ map b_desc bk ++ fd -> 0 < d < 2 ^ 32.
Proof.
  intros HL Hd. destruct (la_desc HL d Hd) as (_ & i & Hi & E). destruct (held_page s bk fd dp i HL); [apply elem_of_app; by right |].
  rewrite page_addr_frame in *. pose proof (Z.div_mod d 4096). pose proof (Z.mod_pos_bound d 4096). lia.
Qed.
Lemma links_range s bk fd dp f p l : layout s bk fd dp -> links 4 f p l -> l ⊆ map b_desc bk ++ fd -> 0 <= p < 2 ^ 32.
Proof.
  intros HL Hl Hs. destruct l as [|d l]; [cbn in Hl; lia |]. destruct Hl as (-> & _). pose proof (desc_range _ _ _ _ d HL (Hs d ltac:(by left))). lia.
Qed.
(** The layout with the bucket in it. *)
Lemma fill_layout s s5 bk d fd dp j c size i : layout s bk (d :: fd) dp -> bucket_sizes !! j = Some size -> chain s !! j = Some c ->
  mm_wf (hmm s5) -> chain s5 = chain s -> free_bucket_desc s5 = word s (d + 4) -> mem_map (hmm s) !! i = Some 0 ->
  mem_map (hmm s5) = <[i := 1]> (mem_map (hmm s)) -> HIGH_MEMORY (hmm s5) = HIGH_MEMORY (hmm s) ->
  word s5 (d + 8) = page_addr i -> word s5 d = page_addr i -> word s5 (d + 4) = c -> word s5 (d + 12) = size * 2 ^ 16 ->
  let l := spread (page_addr i) size (Z.to_nat (4096 / size)) in links 0 (word s5) (page_addr i) l ->
  (forall x, x / 4096 <> 256 + Z.of_nat i -> (forall o, 0 <= o < 16 -> x <> d + o) -> word s5 x = word s x) ->
  layout (over chain <[j := d]> s5) (mk_bucket d i size l :: bk) fd dp.
Proof.
  intros HL Hj Hc W5 C5 F5 Hi M5 G5 X8 X0 X4 X12 l Xl Xx. assert (Hn : size ∈ bucket_sizes) by by eapply list_elem_of_lookup_2.
  pose proof (bucket_size_range _ Hn) as (Hr & Hmul & _). pose proof (la_free HL) as (_ & Hd0 & _).
  assert (Hdin : d ∈ map b_desc bk ++ d :: fd) by (apply elem_of_middle; by left). destruct (la_desc HL d Hdin) as (Hd16 & Hdp).
  assert (Hnd : d ∉ map b_desc bk ++ fd).
  { pose proof (la_nodup HL) as Hnd. rewrite <- Permutation_middle in Hnd. by apply NoDup_cons in Hnd as (? & _). }
  assert (Hni : i ∉ map b_page bk ++ dp) by (intros H; destruct (la_held HL i H) as (E' & _); congruence).
  set (b := mk_bucket d i size l). change d with (b_desc b) at 1. apply (layout_add s5 bk fd dp j c b); try done.
  - apply (layout_frame (put free_bucket_desc (word s (d + 4)) s)); [by apply layout_pop | done | done | |].
    + intros i' Hi'. destruct (la_held HL i' Hi') as (H1 & H2). unfold held. rewrite M5, G5. split; [| done].
      rewrite list_lookup_insert_ne; [done |]. by intros ->.
    + intros x Hx. change (word (put free_bucket_desc (word s (d + 4)) s) x) with (word s x). apply Xx.
      * destruct (meta_page _ _ _ _ _ (layout_pop _ _ _ _ _ HL) Hx) as (i' & Hi' & ->). intros E. apply Hni. by replace i with i' by lia.
      * intros o Ho ->. destruct Hx as [(d' & o' & Hd' & Ho' & E) | (b' & Hb' & Hx)].
        -- apply (desc_apart HL) in E as (-> & _); try done. apply elem_of_middle. by right.
        -- pose proof (la_bucket HL b' Hb') as Hok. pose proof (bucket_size_range _ (bo_size _ _ Hok)).
           apply (desc_not_block HL b' (d + o) (d + o) d o); [done | by apply (bo_sub _ _ Hok) | lia | done..].
  - by rewrite C5.
  - constructor; cbn [b_desc b_page b_size b_free b]; [done | done | | by rewrite X8 | apply spread_NoDup; lia | done].
    rewrite X12. unfold l. rewrite spread_length, Z2Nat.id by (apply Z.div_pos; lia). lia.
  - unfold held. rewrite M5, G5. split; [| by apply (wf_free _ (la_wf HL))]. apply list_lookup_insert_eq. by eapply lookup_lt_Some.
Qed.
Lemma fill_ok s bk d fd dp j size : layout s bk (d :: fd) dp -> bucket_sizes !! j = Some size ->
  (exists msg s', fill_bucket j size s = Panic msg s' /\ forall i, mem_map (hmm s) !! i <> Some 0)
  \/ exists i s', let b := mk_bucket d i size (spread (page_addr i) size (Z.to_nat (4096 / size))) in
      fill_bucket j size s = Ok d s' /\ layout s' (b :: bk) fd dp
      /\ mem_map (hmm s) !! i = Some 0 /\ mem_map (hmm s') = <[i := 1]> (mem_map (hmm s))
      /\ forall x, x / 4096 <> 256 + Z.of_nat i -> (forall o, 0 <= o < 16 -> x <> d + o) -> word s' x = word s x.
Proof.
  intros HL Hj. assert (Hn : size ∈ bucket_sizes) by by eapply list_elem_of_lookup_2.
  pose proof (bucket_size_range _ Hn) as (Hr & Hmul & _). destruct (la_free HL) as (Ed & Hd0 & _).
  assert (Hdin : d ∈ map b_desc bk ++ d :: fd) by (apply elem_of_middle; by left).
  destruct (la_desc HL d Hdin) as (Hd16 & dpi & Hdpi & Hdp). rewrite fill_start by (done || apply (la_wf HL)). rewrite Ed.
  pose proof (cleared_wf d size s (la_wf HL) Hn) as Wc. destruct (get_free_page_cases _ Wc) as [(E & Hno) | (p & m1 & E & Hal)].
  - left. unfold bind at 1. unfold on_mm at 1. rewrite E. cbn [put hmm]. change (0 =? 0) with true. cbv iota.
    unfold set_freeptr, set_page. rewrite (bind_Ok _ _ _ _ _ (on_store (d + 8) 0 _ ltac:(lia))), (bind_Ok _ _ _ _ _ (on_store d 0 _ ltac:(lia))).
    by do 2 eexists.
  - right. pose proof (allocated_wf _ _ _ Wc Hal) as Hwf1. destruct Hal as (i & -> & Hi & _ & Hm & Hx & Hh & _).
    change (mem_map (hmm s) !! i = Some 0) in Hi. change (mem_map (hmm (cleared d size s))) with (mem_map (hmm s)) in Hm.
    change (HIGH_MEMORY (hmm (cleared d size s))) with (HIGH_MEMORY (hmm s)) in Hh.
    assert (Eg : on_mm get_free_page (cleared d size s) = Ok (page_addr i) (put hmm m1 (cleared d size s))) by (unfold on_mm; by rewrite E).
    rewrite (bind_Ok _ _ _ _ _ Eg). set (s1 := put hmm m1 (cleared d size s)) in *.
    destruct (la_chain HL j size Hj) as (c & Hc & Hcl).
    assert (Hni : i ∉ map b_page bk ++ dp) by (intros H; destruct (la_held HL i H) as (E' & _); congruence).
    assert (Hip : (i < Z.to_nat PAGING_PAGES)%nat) by (rewrite <- (wf_length _ (la_wf HL)); by eapply lookup_lt_Some).
    pose proof (page_word i Hip) as (Hpw & _).
    assert (Hdpage : forall o, 0 <= o < 16 -> (d + o) / 4096 <> 256 + Z.of_nat i).
    { intros o Ho. destruct (desc_page HL d o Hdin Ho) as (i' & Hi' & ->). intros E'. apply Hni, elem_of_app. right. by replace i with i' by lia. }
    assert (Hcr : 0 <= c < 2 ^ 32) by (eapply links_range; [exact HL | exact Hcl |]; intros x Hx'; apply elem_of_app; left; by apply descs_sub in Hx').
    destruct (fill_page d size (page_addr i) c j s1) as (s5 & E5 & L5 & W5 & M5 & G5 & X8 & X0 & X4 & X12 & Xl & Xx); [done | done | rewrite page_addr_frame; lia | lia | done | done | |].
    { intros o k Ho Hk E'. apply (Hdpage o Ho). rewrite E'. by apply page_addr_div. }
    assert (Hs1 : forall x, x / 4096 <> 256 + Z.of_nat i -> x <> d + 12 -> word s1 x = word s x).
    { intros x Hp H12. cbn. rewrite Hx. destruct (in_words 1024 (page_addr i) x) eqn:Ew; [apply in_words_inv in Ew as (k & Hk & ->); destruct Hp; apply page_addr_div; lia |].
      unfold cleared. by rewrite !wr_ne by done. }
    assert (Hs5 : forall x, x / 4096 <> 256 + Z.of_nat i -> (forall o, 0 <= o < 16 -> x <> d + o) -> word s5 x = word s x).
    { intros x Hp Ho. rewrite Xx; [apply Hs1; [done | apply Ho; lia] | done |]. intros k Hk ->. apply Hp. by apply page_addr_div. }
    exists i. eexists. cbv zeta. split_and!; [exact E5 | | done | by cbn; rewrite M5 | done].
    apply (fill_layout s s5 bk d fd dp j c size i); try done.
    + by destruct L5 as (-> & _).
    + by destruct L5 as (_ & ->).
    + by rewrite M5.
    + by rewrite G5.
    + rewrite X12. cbn. rewrite Hx. destruct (in_words 1024 (page_addr i) (d + 12)) eqn:Ew; [| apply wr_eq].
      apply in_words_inv in Ew as (k & Hk & E'). destruct (Hdpage 12 ltac:(lia)). rewrite E'. apply page_addr_div. lia.
Qed.

Lemma new_bucket_ok s bk fd dp j size : layout s bk fd dp -> bucket_sizes !! j = Some size ->
  (exists msg s', new_bucket j size s = Panic msg s' /\ forall i i', mem_map (hmm s) !! i = Some 0 -> mem_map (hmm s) !! i' = Some 0 -> i = i')
  \/ exists i d s' fd' dp', let b := mk_bucket d i size (spread (page_addr i) size (Z.to_nat (4096 / size))) in
      new_bucket j size s = Ok d s' /\ layout s' (b :: bk) fd' dp'
      /\ forall x i', i' ∈ map b_page bk -> x / 4096 = 256 + Z.of_nat i' -> word s' x = word s x.
Proof.
  intros HL Hj. assert (En : new_bucket j size s = ((if free_bucket_desc s =? 0 then init_bucket_desc else ret tt) ;;; fill_bucket j size) s) by done.
  rewrite En. destruct fd as [|d fd].
  - pose proof (la_free HL) as Ef. cbn in Ef. rewrite Ef. change (0 =? 0) with true. cbv iota.
    destruct (init_bucket_desc_ok s bk dp HL) as [(msg & s' & E & Hno) | (i0 & s0 & E & HL0 & Hi0 & M0 & X0)].
    + left. unfold bind. rewrite E. do 2 eexists. split; [reflexivity |]. intros i i' Hi. by destruct (Hno i).
    + rewrite (bind_Ok _ _ _ _ _ E). change 256%nat with (S 255) in HL0. rewrite spread_S in HL0.
      destruct (fill_ok _ _ _ _ _ _ _ HL0 Hj) as [(msg & s' & E' & Hno) | (i & s' & E' & HL' & Hi & M & X)].
      * left. do 2 eexists. split; [exact E' |]. rewrite M0 in Hno.
        assert (Ho : forall i, mem_map (hmm s) !! i = Some 0 -> i = i0).
        { intros i Hi. destruct (decide (i = i0)) as [| Hne]; [done |]. destruct (Hno i). by rewrite list_lookup_insert_ne. }
        intros i i' Hi Hi'. by rewrite (Ho i), (Ho i').
      * right. do 5 eexists. split_and!; [exact E' | exact HL' |]. intros x i' Hi' Hx.
        assert (Hp : i' ∈ map b_page bk ++ dp) by (apply elem_of_app; by left). destruct (la_held HL i' Hp) as (Hc & _).
        rewrite X; [apply X0 | |].
        -- rewrite Hx. intros Ee. replace i0 with i' in Hi0 by lia. congruence.
        -- rewrite Hx. intros Ee. replace i with i' in Hi by lia. rewrite M0, list_lookup_insert_ne in Hi; congruence.
        -- intros o Ho ->. rewrite page_addr_div in Hx by lia. replace i0 with i' in Hi0 by lia. congruence.
  - pose proof (la_free HL) as (Ef & Hd & _). rewrite Ef, (proj2 (Z.eqb_neq _ _) Hd). change (bind (ret tt) ?k s) with (k tt s). cbv beta.
    destruct (fill_ok _ _ _ _ _ _ _ HL Hj) as [(msg & s' & E' & Hno) | (i & s' & E' & HL' & Hi & M & X)].
    + left. do 2 eexists. split; [exact E' |]. intros i i' Hi. by destruct (Hno i).
    + right. do 5 eexists. split_and!; [exact E' | exact HL' |]. intros x i' Hi' Hx.
      assert (Hp : i' ∈ map b_page bk ++ dp) by (apply elem_of_app; by left). destruct (la_held HL i' Hp) as (Hc & _). apply X.
      * rewrite Hx. intros Ee. replace i with i' in Hi by lia. congruence.
      * intros o Ho ->. destruct (desc_page HL d o) as (i1 & Hi1 & Ee); [apply elem_of_middle; by left | done |]. rewrite Hx in Ee. replace i1 with i' in Hi1 by lia.
        apply list_elem_of_fmap in Hi' as (b & -> & Hb). by apply (pages_differ HL b (b_page b)).
Qed.

(** ** [malloc] *)

Lemma find_dir_ok l len : forall j, match find_dir j l len with
  | Some (k, n) => exists i, k = (j + i)%nat /\ l !! i = Some n /\ len <= n /\ forall i' n', (i' < i)%nat -> l !! i' = Some n' -> n' < len
  | None => forall n, n ∈ l -> n < len
  end.
Proof.
  induction l as [|n l IH]; intros j; cbn [find_dir].
  - intros n Hn. by apply not_elem_of_nil in Hn.
  - destruct (Z.leb_spec len n).
    + exists 0%nat. split_and!; [lia | done | done |]. intros i' n' Hi'. lia.
    + specialize (IH (S j)). destruct (find_dir (S j) l len) as [(k & n0)|].
      * destruct IH as (i & -> & Hi & Hle & Hlt). exists (S i). split_and!; [lia | done | done |]. intros [|i'] n' Hi' E; [by simplify_eq/= |]. apply (Hlt i'); [lia | done].
      * intros n' [-> | Hn']%elem_of_cons; [done | by apply IH].
Qed.

Lemma sizes_sorted j j' n n' : (j <= j')%nat -> bucket_sizes !! j = Some n -> bucket_sizes !! j' = Some n' -> n <= n'.
Proof.
  intros Hle Hj Hj'. do 9 (destruct j as [|j]; [do 9 (destruct j' as [|j']; [simplify_eq/=; lia |]); done |]). done.
Qed.

(** What a run keeps of the blocks in use. *)
Definition keeps_blocks (P : Z * Z -> Prop) (s s' : kheap) : Prop :=
  forall a n x, P (a, n) -> a <= x < a + n -> word s' x = word s x.

Lemma take_block_live s bk1 b bk2 fd dp : layout s (bk1 ++ b :: bk2) fd dp -> busy (bk1 ++ bk2) -> b_free b <> [] ->
  exists p s' bk', take_block (b_desc b) s = Ok p s' /\ layout s' bk' fd dp /\ busy bk'
    /\ (forall x, live bk' x <-> live (bk1 ++ b :: bk2) x \/ x = (p, b_size b)) /\ ~ live (bk1 ++ b :: bk2) (p, b_size b)
    /\ keeps_blocks (live (bk1 ++ b :: bk2)) s s'.
Proof.
  intros HL Hbusy Hne. destruct (b_free b) as [|o fl] eqn:Ef; [done |]. clear Hne.
  assert (Hin : b ∈ bk1 ++ b :: bk2) by (apply elem_of_middle; by left). pose proof (la_bucket HL b Hin) as Hb. pose proof (bucket_size_range _ (bo_size _ _ Hb)) as (Hr & _).
  destruct (take_block_ok _ _ _ _ _ _ _ _ HL Ef) as (s' & E & HL' & Hx & _). exists o, s', (bk1 ++ set_free fl b :: bk2).
  pose proof (bo_NoDup _ _ Hb) as Hnd. rewrite Ef in Hnd. apply NoDup_cons in Hnd as (Ho & _).
  assert (Hob : o ∈ blocks b) by (apply (bo_sub _ _ Hb); rewrite Ef; by left).
  assert (Hnl : ~ live (bk1 ++ b :: bk2) (o, b_size b)).
  { intros Hl. pose proof Hl as (b' & Hb' & E' & Ho' & Hn'). cbn in *. assert (b = b') as <-; [| rewrite Ef in Hn'; apply Hn'; by left].
    apply (bucket_of_page HL); [done | done |]. apply Nat2Z.inj, (Z.add_cancel_l _ _ 256).
    by rewrite <- (block_start b o), <- (block_start b' o) by (done || apply (bo_size (word s)), (la_bucket HL); done). }
  split_and!; [done | done | | | done |].
  - intros b' [-> | Hb']%elem_of_middle; [by exists o | by apply Hbusy].
  - intros [a n]. rewrite live_set_free, live_split, Ef. cbn. split.
    + intros [Hl | (-> & Ha & Hf)]; [by left; left |]. destruct (decide (a = o)) as [-> | Hne]; [by right | left; right]. split_and!; [done | done |].
      by intros [| ?]%elem_of_cons.
    + intros [[Hl | (-> & Ha & Hf)] | [= -> ->]]; [by left | right | by right]. split_and!; [done | done |]. intros ?. apply Hf. by right.
  - intros a n x (b' & Hb' & En & Ha & _) Hxr. cbn in *. subst n.
    apply Hx; apply (desc_not_block HL b' a x); first [done | by apply desc_in | lia].
Qed.
Lemma malloc_ok s bk fd dp fuel len : layout s bk fd dp -> busy bk -> len <= 4096 -> (Z.to_nat PAGING_PAGES < fuel)%nat ->
  (exists msg s', malloc fuel len s = Panic msg s' /\ forall i i', mem_map (hmm s) !! i = Some 0 -> mem_map (hmm s) !! i' = Some 0 -> i = i')
  \/ exists p n s' bk' fd' dp', malloc fuel len s = Ok p s' /\ layout s' bk' fd' dp' /\ busy bk'
      /\ n ∈ bucket_sizes /\ len <= n /\ (forall n', n' ∈ bucket_sizes -> len <= n' -> n <= n')
      /\ (forall x, live bk' x <-> live bk x \/ x = (p, n)) /\ ~ live bk (p, n) /\ keeps_blocks (live bk) s s'.
Proof.
  intros HL Hbusy Hlen Hfuel. unfold malloc. pose proof (find_dir_ok bucket_sizes len 0) as Hdir.
  destruct (find_dir 0 bucket_sizes len) as [(j & n)|]; [| specialize (Hdir 4096 ltac:(by apply (bool_decide_unpack _))); lia].
  destruct Hdir as (? & -> & Hj & Hle & Hmin). cbn [Nat.add]. rename x into j.
  assert (Hn : n ∈ bucket_sizes) by by eapply list_elem_of_lookup_2.
  assert (Hmin' : forall n', n' ∈ bucket_sizes -> len <= n' -> n <= n').
  { intros n' (j' & Hj')%list_elem_of_lookup Hl. destruct (decide (j' < j)%nat) as [Hlt | Hge]; [specialize (Hmin j' n' Hlt Hj'); lia |].
    apply (sizes_sorted j j'); [lia | done | done]. }
  destruct (la_chain HL j n Hj) as (c & Hc & Hl).
  assert (Eg : get_chain j s = Ok c s) by (unfold get_chain, bind, get; by rewrite Hc). rewrite (bind_Ok _ _ _ _ _ Eg).
  assert (Hfin : forall d, (let* bdesc := (if d =? 0 then new_bucket j n else ret d) in take_block bdesc) s
    = (let* bdesc := (if d =? 0 then new_bucket j n else ret d) in
       let* retval := on_mm (get_freeptr bdesc) in let* n := on_mm (load retval) in on_mm (set_freeptr bdesc n) ;;;
       let* r := on_mm (get_refcnt bdesc) in on_mm (set_refcnt bdesc (r + 1)) ;;; ret retval) s) by done.
  assert (Efind : forall r, find_free fuel c (hmm s) = Ok r (hmm s) -> on_mm (find_free fuel c) s = Ok r s) by (intros r Er; unfold on_mm; rewrite Er; by destruct s).
  destruct (find_free_ok (hmm s) (filter (fun b => b_size b = n) bk) fuel c) as [E | (b & Hb & Hd0 & Hf & E)].
  - intros b (_ & Hb)%list_elem_of_filter. by apply (la_bucket HL).
  - done.
  - pose proof (size_chain_length s bk fd dp n HL). lia.
  - rewrite (bind_Ok _ _ _ _ _ (Efind _ E)), <- Hfin. change (0 =? 0) with true. cbv iota.
    destruct (new_bucket_ok s bk fd dp j n HL Hj) as [(msg & s' & En & Hno) | (i & d & s1 & fd' & dp' & En & HL1 & X1)].
    + left. unfold bind. rewrite En. by do 2 eexists.
    + right. rewrite (bind_Ok _ _ _ _ _ En). set (b := mk_bucket d i n _) in *. change d with (b_desc b).
      pose proof (bucket_size_range _ Hn) as (Hr & Hmul & _).
      destruct (take_block_live s1 [] b bk fd' dp' HL1 Hbusy) as (p & s' & bk' & Et & HL' & Hbusy' & Hlive & Hnl & Hk).
      { intros Ee. apply (f_equal length) in Ee. unfold b in Ee. cbn [b_free] in Ee. rewrite spread_length in Ee. cbn in Ee. nia. }
      assert (Hsame : forall x, live (b :: bk) x <-> live bk x) by (intros x; rewrite (live_split [] b bk); cbn; split; [intros [|(_ & ? & ?)]; done | by left]).
      exists p, n, s', bk', fd', dp'. split_and!; try done.
      * intros x. rewrite Hlive. cbn [app]. by rewrite Hsame.
      * intros Hl'. apply Hnl. by apply Hsame.
      * intros a n' x Hl' Hx. rewrite (Hk a n' x) by (done || by apply Hsame). destruct Hl' as (b' & Hb' & En' & Ha & _). cbn in *. subst n'.
        apply (X1 x (b_page b')); [by apply list_elem_of_fmap_2 |]. apply (block_page b' a x); [apply (bo_size (word s)), (la_bucket HL) | |]; done.
  - rewrite (bind_Ok _ _ _ _ _ (Efind _ E)), <- Hfin, (proj2 (Z.eqb_neq _ _) Hd0). change (bind (ret (b_desc b)) ?k s) with (k (b_desc b) s). cbv beta.
    apply list_elem_of_filter in Hb as (En & Hb). apply list_elem_of_split in Hb as (bk1 & bk2 & ->). right.
    destruct (take_block_live s bk1 b bk2 fd dp HL) as (p & s' & bk' & Et & HL' & Hbusy' & Hlive & Hnl & Hk);
      [intros b' Hb'; apply Hbusy, elem_of_middle; by right | done |]. rewrite En in *. by exists p, n, s', bk', fd, dp.
Qed.

(** ** The search for the bucket of a block *)

Lemma find_page_step m fuel page d prev : d <> 0 -> find_page (S fuel) page d prev m
  = if rd m d =? page then Ok (Some (d, prev)) m else find_page fuel page (rd m (d + 4)) d m.
Proof. intros Hd. cbn [find_page]. rewrite (proj2 (Z.eqb_neq _ _) Hd). unfold bind, get_page, get_next, load, get. by case_match. Qed.
Lemma find_page_None m page l : forall fuel c prev, (forall b, b ∈ l -> rd m (b_desc b) <> page) -> links 4 (rd m) c (map b_desc l) ->
  (length l < fuel)%nat -> find_page fuel page c prev m = Ok None m.
Proof.
  induction l as [|b l IH]; intros fuel c prev Hb Hl Hf; (destruct fuel as [|fuel]; [lia |]).
  - cbn in Hl. by subst c.
  - destruct Hl as (-> & Hd & Hl). rewrite find_page_step by done. rewrite (proj2 (Z.eqb_neq _ _)) by (apply Hb; by left).
    apply IH; [intros; apply Hb; by right | done | cbn in Hf; lia].
Qed.
Lemma find_page_Some m page b l2 l1 : forall fuel c prev, (forall b, b ∈ l1 -> rd m (b_desc b) <> page) -> rd m (b_desc b) = page ->
  links 4 (rd m) c (map b_desc (l1 ++ b :: l2)) -> (length (l1 ++ b :: l2) < fuel)%nat ->
  find_page fuel page c prev m = Ok (Some (b_desc b, default prev (last (map b_desc l1)))) m.
Proof.
  induction l1 as [|b' l1 IH]; intros fuel c prev Hb Hp Hl Hf; (destruct fuel as [|fuel]; [lia |]).
  - destruct Hl as (-> & Hd & Hl). rewrite find_page_step by done. by rewrite (proj2 (Z.eqb_eq _ _) Hp).
  - destruct Hl as (-> & Hd & Hl). rewrite find_page_step by done. rewrite (proj2 (Z.eqb_neq _ _)) by (apply Hb; by left).
    rewrite (IH fuel _ (b_desc b')); [| intros; apply Hb; by right | done | done | cbn in Hf; lia]. cbn [map]. rewrite last_cons. by destruct (last (map b_desc l1)).
Qed.

Section Search.
Context {s : kheap} {bk1 bk2 : list bucket} {b : bucket} {fd : list Z} {dp : list nat} (fuel : nat).
Hypothesis (HL : layout s (bk1 ++ b :: bk2) fd dp) (Hfuel : (Z.to_nat PAGING_PAGES < fuel)%nat).

Lemma other_page b' : b' ∈ bk1 ++ bk2 -> word s (b_desc b') <> page_addr (b_page b).
Proof.
  intros Hb'. destruct (others_differ _ _ _ _ _ _ _ HL Hb') as (Hin & _ & Hp). rewrite (bo_page _ _ (la_bucket HL b' Hin)). intros E. by apply Hp, page_addr_inj.
Qed.
Lemma descs_middle n : n = b_size b -> filter (fun b' => b_size b' = n) (bk1 ++ b :: bk2) = filter (fun b' => b_size b' = n) bk1 ++ b :: filter (fun b' => b_size b' = n) bk2.
Proof. intros ->. by rewrite filter_app, filter_cons_True. Qed.
Lemma on_find_page j n : bucket_sizes !! j = Some n -> exists c, get_chain j s = Ok c s
  /\ on_mm (find_page fuel (page_addr (b_page b)) c 0) s = Ok (if decide (n = b_size b) then Some (b_desc b, default 0 (last (descs n bk1))) else None) s.
Proof.
  intros Hj. destruct (la_chain HL j n Hj) as (c & Hc & Hl). exists c. split; [unfold get_chain, bind, get; by rewrite Hc |].
  pose proof (size_chain_length _ _ _ _ n HL) as Hlen. unfold on_mm. unfold descs in Hl. case_decide as En.
  - rewrite (descs_middle n En) in Hl, Hlen. rewrite (find_page_Some _ _ b (filter (fun b' => b_size b' = n) bk2) (filter (fun b' => b_size b' = n) bk1)); [by destruct s | | | done | lia].
    + intros b' (_ & Hb')%list_elem_of_filter. apply other_page, elem_of_app. by left.
    + apply (bo_page _ _ (la_bucket HL b ltac:(apply elem_of_middle; by left))).
  - rewrite (find_page_None _ _ (filter (fun b' => b_size b' = n) (bk1 ++ b :: bk2))); [by destruct s | | done | lia].
    intros b' (En' & Hb')%list_elem_of_filter. apply elem_of_middle in Hb' as [-> | Hb']; [done | by apply other_page].
Qed.
Lemma find_bucket_ok size : size <= b_size b -> forall l j j0, (forall i, bucket_sizes !! (j + i)%nat = l !! i) -> bucket_sizes !! j0 = Some (b_size b) -> (j <= j0)%nat ->
  find_bucket fuel (page_addr (b_page b)) size j l s = Ok (j0, b_desc b, default 0 (last (descs (b_size b) bk1))) s.
Proof.
  intros Hsz. induction l as [|n l IH]; intros j j0 Hl Hj0 Hle.
  - specialize (Hl (j0 - j)%nat). replace (j + (j0 - j))%nat with j0 in Hl by lia. rewrite Hj0 in Hl. by destruct (j0 - j)%nat.
  - cbn [find_bucket]. pose proof (Hl 0%nat) as Hn. rewrite Nat.add_0_r in Hn. cbn in Hn.
    assert (Hnext : n <> b_size b -> find_bucket fuel (page_addr (b_page b)) size (S j) l s = Ok (j0, b_desc b, default 0 (last (descs (b_size b) bk1))) s).
    { intros Hne. apply IH; [| done |].
      - intros i. change (l !! i) with ((n :: l) !! S i). rewrite <- (Hl (S i)). f_equal. lia.
      - destruct (decide (j = j0)) as [-> | ?]; [congruence | lia]. }
    destruct (Z.ltb_spec n size); [apply Hnext; lia |].
    destruct (on_find_page j n Hn) as (c & Eg & Ef). rewrite (bind_Ok _ _ _ _ _ Eg), (bind_Ok _ _ _ _ _ Ef). case_decide as En; [| by apply Hnext].
    subst n. by rewrite (sizes_inj _ _ _ Hn Hj0).
Qed.
End Search.

(** ** Giving a block back *)

Lemma put_block_ok s bk1 b bk2 fd dp o : layout s (bk1 ++ b :: bk2) fd dp -> o ∈ blocks b -> o ∉ b_free b ->
  let d := b_desc b in let c := 4096 / b_size b - Z.of_nat (length (b_free b)) - 1 in
  exists s', 0 <= c /\ layout s' (bk1 ++ set_free (o :: b_free b) b :: bk2) fd dp /\ mem_map (hmm s') = mem_map (hmm s)
    /\ (forall x, x <> o -> x <> d + 8 -> x <> d + 12 -> word s' x = word s x)
    /\ forall K : Z -> M kheap unit, (let* f := on_mm (get_freeptr d) in
         on_mm (store o f) ;;;
         on_mm (set_freeptr d o) ;;;
         let* r := on_mm (get_refcnt d) in
         on_mm (set_refcnt d (r - 1)) ;;;
         let* r := on_mm (get_refcnt d) in K r) s = K c s'.
Proof.
  intros HL Ho Hno d c. assert (Hin : b ∈ bk1 ++ b :: bk2) by (apply elem_of_middle; by left).
  pose proof (la_bucket HL b Hin) as Hb. pose proof (bo_size _ _ Hb) as Hn. pose proof (bucket_size_range _ Hn) as (Hr & Hmul & _).
  assert (Hc : 0 <= c).
  { unfold c. rewrite <- blocks_length by done. assert (S (length (b_free b)) <= length (blocks b))%nat; [| lia].
    apply (submseteq_length (o :: b_free b)), NoDup_submseteq; [apply NoDup_cons; split; [done | apply (bo_NoDup _ _ Hb)] |].
    intros x [-> | Hx]%elem_of_cons; [done | by apply (bo_sub _ _ Hb)]. }
  assert (Hcle : c + 1 <= 4096 / b_size b) by (unfold c; lia). assert (4096 / b_size b <= 4096) by nia.
  destruct (refcnt_range _ (c + 1) Hn ltac:(lia)) as (R1 & R2 & R3). destruct (refcnt_range _ c Hn ltac:(lia)) as (R4 & R5 & R6).
  pose proof (wf_words _ (la_wf HL)) as HW. pose proof (bo_count _ _ Hb) as Hw. fold d in Hw.
  replace (4096 / b_size b - Z.of_nat (length (b_free b))) with (c + 1) in Hw by (unfold c; lia).
  assert (Hod : forall k, 0 <= k < 16 -> o <> d + k) by (intros k Hk; apply (desc_not_block HL b o o); first [done | by apply desc_in | lia]).
  assert (Hor : 0 <= o < 2 ^ 32).
  { destruct (in_blocks b o Hn Ho) as (k & -> & Hk & Hle). destruct (held_page _ _ _ _ (b_page b) HL); [apply elem_of_app; left; by apply list_elem_of_fmap_2 | nia]. }
  set (s1 := wr o (word s (d + 8)) s). set (s2 := wr (d + 8) o s1). set (s3 := wr (d + 12) (b_size b * 2 ^ 16 + c) s2).
  assert (W2 : mm_wf (hmm s2)) by (do 2 (apply wr_wf; [done || apply HW |]); apply (la_wf HL)).
  assert (E12 : word s2 (d + 12) = b_size b * 2 ^ 16 + (c + 1)).
  { unfold s2, s1. rewrite !wr_ne; [done | intros E; symmetry in E; revert E; apply Hod; lia | lia]. }
  assert (Hx : forall x, x <> o -> x <> d + 8 -> x <> d + 12 -> word s3 x = word s x) by (intros; unfold s3, s2, s1; by rewrite !wr_ne by done).
  assert (Hfree : forall x, x ∈ b_free b -> word s3 x = word s x).
  { intros x Hx'. pose proof (bo_sub _ _ Hb x Hx') as Hxb.
    apply Hx; [by intros -> | |]; apply (desc_not_block HL b x x); first [done | by apply desc_in | lia]. }
  exists s3. split_and!; [done | | done | done |].
  - apply (layout_set_free s); [done | by apply wr_wf | done | done | done | |].
    + intros x H8 H12 Hxb. apply Hx; [by intros -> | done | done].
    + destruct Hb as [H1 H2 H3 H4 H5 H6]. constructor; cbn [set_free b_desc b_page b_size b_free]; fold d; [done | | | | by apply NoDup_cons |].
      * rewrite Hx; [done | | lia | lia]. rewrite <- (Z.add_0_r d). intros E. symmetry in E. revert E. apply Hod. lia.
      * unfold s3. rewrite wr_eq. cbn [length]. unfold c. lia.
      * unfold s3 at 2. rewrite wr_ne by lia. unfold s2. rewrite wr_eq. split_and!; [done | |].
        { destruct (in_blocks b o Hn Ho) as (k & -> & Hk & Hle). destruct (held_page _ _ _ _ (b_page b) HL); [apply elem_of_app; left; by apply list_elem_of_fmap_2 | nia]. }
        rewrite Z.add_0_r. replace (word s3 o) with (word s (d + 8)).
        -- revert H4. apply links_ext. intros x Hx'. rewrite Z.add_0_r. symmetry. by apply Hfree.
        -- unfold s3, s2. rewrite !wr_ne by (apply Hod; lia). unfold s1. by rewrite wr_eq.
      * intros x [-> | Hx']%elem_of_cons; [done | by apply H6].
  - intros K. unfold get_freeptr, set_freeptr. rewrite (bind_Ok _ _ _ _ _ (on_load _ _)), (bind_Ok _ _ _ _ _ (on_store o _ s (HW _))).
    rewrite (bind_Ok _ _ _ _ _ (on_store (d + 8) o s1 Hor)), (bind_Ok _ _ _ _ _ (on_refcnt _ _)). fold s2. rewrite E12, R2.
    rewrite (bind_Ok _ _ _ _ _ (on_set_refcnt _ _ _ W2)), E12, R3. replace (c + 1 - 1) with c by lia. unfold u16. rewrite (Z.mod_small c) by lia.
    fold s3. rewrite (bind_Ok _ _ _ _ _ (on_refcnt _ _)). unfold s3 at 1. rewrite wr_eq, R5. done.
Qed.

(** *** An empty bucket is taken off its chain *)

Lemma links_unlink off f g q d l2 l : forall p, links off f p (l ++ q :: d :: l2) -> (forall x, x ∈ l ++ l2 -> g (x + off) = f (x + off)) ->
  g (q + off) = f (d + off) -> links off g p (l ++ q :: l2) /\ f (q + off) = d /\ q <> 0.
Proof.
  induction l as [|x l IH]; intros p.
  - intros (-> & Hq & Hd & Hd0 & Hl) Hg Hqd. split_and!; [| done | done]. cbn. split_and!; [done | done |]. rewrite Hqd. revert Hl. apply links_ext. intros x Hx. symmetry. by apply Hg.
  - intros (-> & Hx & Hl) Hg Hqd. destruct (IH _ Hl) as (H1 & H2 & H3); [intros; apply Hg; by right | done |].
    split_and!; [| done | done]. cbn. split_and!; [done | done |]. rewrite Hg by by left. done.
Qed.

Section Release.
Context {s : kheap} {bk1 bk2 : list bucket} {b : bucket} {fd : list Z} {dp : list nat} (fuel j : nat).
Hypothesis (HL : layout s (bk1 ++ b :: bk2) fd dp) (Hj : bucket_sizes !! j = Some (b_size b)).
Let d := b_desc b.
Definition give_back (d : Z) : M kheap unit :=
  let* page := on_mm (get_page d) in
  on_mm (free_page page) ;;;
  let* f := get free_bucket_desc in
  on_mm (set_next d f) ;;;
  modify (put free_bucket_desc d).

Lemma middle_in : b ∈ bk1 ++ b :: bk2.
Proof. apply elem_of_middle. by left. Qed.
(** The chains without the bucket. *)
Definition unlinked (s1 : kheap) : Prop :=
  mm_wf (hmm s1) /\ mem_map (hmm s1) = mem_map (hmm s) /\ HIGH_MEMORY (hmm s1) = HIGH_MEMORY (hmm s) /\ free_bucket_desc s1 = free_bucket_desc s
  /\ (forall j n, bucket_sizes !! j = Some n -> exists c, chain s1 !! j = Some c /\ links 4 (word s1) c (descs n (bk1 ++ bk2)))
  /\ forall x, (forall b', b' ∈ bk1 -> x <> b_desc b' + 4) -> word s1 x = word s x.
Lemma descs_others n : n <> b_size b -> descs n (bk1 ++ b :: bk2) = descs n (bk1 ++ bk2).
Proof. intros Hn. rewrite !descs_app, descs_cons. by rewrite decide_False. Qed.
Lemma word_range a : 0 <= word s a < 2 ^ 32.
Proof. apply (wf_words _ (la_wf HL)). Qed.
(** First of its chain. *)
Lemma unlink_first : descs (b_size b) bk1 = [] -> unlinked (over chain <[j := word s (d + 4)]> s) /\ chain s !! j = Some d.
Proof.
  intros E. destruct (la_chain HL j _ Hj) as (c & Hc & Hl). rewrite descs_app, descs_cons, decide_True, E in Hl by done. destruct Hl as (-> & Hd & Hl).
  split; [| done]. split_and!; [apply (la_wf HL) | done | done | done | | done]. intros j' n Hn. destruct (decide (j' = j)) as [-> | Hne].
  - assert (n = b_size b) as -> by congruence. eexists. split; [by apply list_lookup_insert_eq, lookup_lt_Some with (b_desc b) |]. by rewrite descs_app, E.
  - destruct (la_chain HL j' n Hn) as (c' & Hc' & Hl'). exists c'. split; [cbn; by rewrite list_lookup_insert_ne |].
    rewrite descs_others in Hl'; [done |]. intros ->. apply Hne. by eapply sizes_inj.
Qed.
(** Behind [q]. *)
Lemma descs_NoDup n : NoDup (descs n (bk1 ++ b :: bk2)).
Proof.
  unfold descs. eapply sublist_NoDup; [apply (proj1 (proj1 (NoDup_app _ _) (la_nodup HL))) |]. apply (fmap_sublist b_desc), sublist_filter.
Qed.
Lemma unlink_behind l q : descs (b_size b) bk1 = l ++ [q] ->
  unlinked (wr (q + 4) (word s (d + 4)) s) /\ word s (q + 4) = d /\ q <> 0.
Proof.
  intros E. destruct (la_chain HL j _ Hj) as (c & Hc & Hl). pose proof (descs_NoDup (b_size b)) as Hnd.
  rewrite descs_app, descs_cons, decide_True, E, <- app_assoc in Hl, Hnd by done. cbn [app] in Hl, Hnd.
  assert (Hq : q ∈ descs (b_size b) bk1) by (rewrite E; apply elem_of_app; right; by left).
  apply list_elem_of_fmap in Hq as (bq & Eq & (Esz & Hbq)%list_elem_of_filter).
  destruct (links_unlink 4 (word s) (word (wr (q + 4) (word s (d + 4)) s)) q (b_desc b) (descs (b_size b) bk2) l c Hl) as (H1 & H2 & H3).
  { intros x Hx. apply wr_ne. intros E'. replace x with q in Hx by lia. rewrite <- !Permutation_middle in Hnd. apply NoDup_cons in Hnd as (Hnd & _). apply Hnd. by right. }
  { apply wr_eq. }
  split; [| done]. split_and!; [apply wr_wf; [apply word_range | apply (la_wf HL)] | done | done | done | |].
  - intros j' n Hn. destruct (decide (j' = j)) as [-> | Hne].
    + assert (n = b_size b) as -> by congruence. exists c. split; [done |]. by rewrite descs_app, E, <- app_assoc.
    + destruct (la_chain HL j' n Hn) as (c' & Hc' & Hl'). exists c'. split; [done |].
      assert (Hnb : n <> b_size b) by (intros ->; apply Hne; by eapply sizes_inj). rewrite descs_others in Hl' by done. revert Hl'. apply links_ext.
      intros x Hx. symmetry. apply wr_ne. intros E'. replace x with q in Hx by lia. apply list_elem_of_fmap in Hx as (bx & Ex & (Esx & Hbx)%list_elem_of_filter).
      apply Hnb. rewrite <- Esx, <- Esz. f_equal. apply (bucket_of_desc HL); [apply elem_of_middle; by right | apply elem_of_app; by left | congruence].
  - intros x Hx. apply wr_ne. rewrite Eq. by apply Hx.
Qed.
Lemma unlink_ok : exists s1, release_bucket fuel j d (default 0 (last (descs (b_size b) bk1))) s = give_back d s1 /\ unlinked s1.
Proof.
  destruct (la_chain HL j _ Hj) as (c & Hc & _). assert (Eg : get_chain j s = Ok c s) by (unfold get_chain, bind, get; by rewrite Hc).
  unfold release_bucket. rewrite (bind_Ok _ _ _ _ _ Eg). remember (descs (b_size b) bk1) as dl eqn:E. symmetry in E. destruct dl as [|q l _] using rev_ind.
  - destruct (unlink_first E) as (Hu & Hd). assert (c = d) as -> by congruence. eexists. split; [| exact Hu]. cbn [last default from_option].
    change (cbool 0) with false. cbv iota. rewrite Z.eqb_refl. change (bind (ret (negb true)) ?k s) with (k false s). cbv beta iota.
    change (bind (ret 0) ?k s) with (k 0 s). cbv beta. change (cbool 0) with false. cbv iota. unfold get_next. rewrite (bind_Ok _ _ _ _ _ (on_load _ _)).
    assert (Es : (let* c := get_chain j in if negb (c =? d) then panic "malloc bucket chains corrupted" else set_chain j (word s (d + 4))) s
      = Ok tt (over chain <[j := word s (d + 4)]> s)) by (rewrite (bind_Ok _ _ _ _ _ Eg), Z.eqb_refl; done).
    by rewrite (bind_Ok _ _ _ _ _ Es).
  - destruct (unlink_behind l q E) as (Hu & Hq & Hq0). eexists. split; [| exact Hu]. rewrite last_snoc. change (default 0 (Some q)) with q.
    assert (Hcq : cbool q = true) by (unfold cbool; by rewrite (proj2 (Z.eqb_neq _ _) Hq0)). rewrite Hcq. unfold get_next, set_next.
    assert (Es : (let* n := on_mm (load (q + 4)) in ret (negb (n =? d))) s = Ok false s) by (rewrite (bind_Ok _ _ _ _ _ (on_load _ _)), Hq, Z.eqb_refl; done).
    rewrite (bind_Ok _ _ _ _ _ Es). cbv beta iota. rewrite (bind_Ok (ret q) _ s q s) by done.
    rewrite (bind_Ok _ _ _ _ _ (on_load _ _)), Hcq, (bind_Ok _ _ _ _ _ (on_store (q + 4) _ s (word_range _))). done.
Qed.

(** The layout without the bucket. *)
Lemma give_back_layout s1 : unlinked s1 -> let i := b_page b in
  layout (put free_bucket_desc d (wr (d + 4) (free_bucket_desc s) (over hmm (set_mem_map (alter Z.pred i)) s1))) (bk1 ++ bk2) (d :: fd) dp.
Proof.
  intros (W1 & M1 & G1 & F1 & C1 & X1) i. pose proof middle_in as Hin.
  destruct (la_held HL i) as (Hi1 & Hi2); [apply elem_of_app; left; by apply list_elem_of_fmap_2 |].
  set (s2 := over hmm (set_mem_map (alter Z.pred i)) s1). set (s3 := put free_bucket_desc d (wr (d + 4) (free_bucket_desc s) s2)).
  assert (Hdr : 0 < d < 2 ^ 32) by (apply (desc_range _ _ _ _ d HL), desc_in, Hin).
  assert (Hfb : 0 <= free_bucket_desc s < 2 ^ 32).
  { apply (links_range _ _ _ _ _ _ _ HL (la_free HL)). intros x Hx. apply elem_of_app. by right. }
  assert (Hperm : map b_desc (bk1 ++ b :: bk2) ++ fd ≡ₚ map b_desc (bk1 ++ bk2) ++ d :: fd).
  { rewrite !map_app. cbn. by rewrite <- !Permutation_middle. }
  assert (Hpp : map b_page (bk1 ++ b :: bk2) ++ dp ≡ₚ i :: map b_page (bk1 ++ bk2) ++ dp).
  { rewrite !map_app. cbn. by rewrite <- !Permutation_middle. }
  pose proof (la_nodup HL) as Hnd. rewrite Hperm in Hnd. pose proof (la_pages HL) as Hnp. rewrite Hpp in Hnp. apply NoDup_cons in Hnp as (Hni & Hnp).
  assert (W3 : mm_wf (hmm s3)).
  { apply wr_wf; [done |]. destruct W1 as [A1 A2 A3 A4 A5]. constructor; cbn; rewrite ?M1, ?G1 in *; try done.
    - by rewrite length_alter.
    - by apply Forall_alter; [| intros; simplify_eq; lia].
    - intros i'. destruct (decide (i' = i)) as [-> | Hne]; [intros _; done | rewrite list_lookup_alter_ne by done; apply A5]. }
  assert (X3 : forall x, x <> d + 4 -> (forall b', b' ∈ bk1 -> x <> b_desc b' + 4) -> word s3 x = word s x).
  { intros x Hx Hx'. change (word s3 x) with (word (wr (d + 4) (free_bucket_desc s) s2) x). rewrite wr_ne by done. by apply X1. }
  assert (X3' : forall d' o, d' ∈ map b_desc (bk1 ++ b :: bk2) ++ fd -> 0 <= o < 16 -> o <> 4 -> word s3 (d' + o) = word s (d' + o)).
  { intros d' o Hd' Ho Ho'. apply X3.
    - intros E. apply (desc_apart HL) in E; [lia | done | by apply desc_in | done | lia].
    - intros b' Hb' E. apply (desc_apart HL) in E; [lia | done | apply desc_in, elem_of_app; by left | done | lia]. }
  constructor; [done | | | | done | | done |].
  - intros j' n Hn. destruct (C1 j' n Hn) as (c & Hc & Hl). exists c. split; [done |]. revert Hl. apply links_ext. intros x Hx. symmetry.
    change (word s3 (x + 4)) with (word (wr (d + 4) (free_bucket_desc s) s2) (x + 4)). change (word s1 (x + 4)) with (word s2 (x + 4)). apply wr_ne. intros E. replace x with d in Hx by lia.
    apply NoDup_app in Hnd as (_ & Hnd & _). apply (Hnd d); [by apply descs_sub in Hx | by left].
  - intros b' Hb'. destruct (others_differ _ _ _ _ _ _ _ HL Hb') as (Hin' & Hdd & _). pose proof (la_bucket HL b' Hin') as Hok.
    pose proof (bucket_size_range _ (bo_size _ _ Hok)) as (Hr & _).
    assert (Hfr : forall x, x ∈ b_free b' -> word s3 x = word s x).
    { intros x Hx. pose proof (bo_sub _ _ Hok x Hx) as Hxb. apply X3.
      - apply (desc_not_block HL b' x x); first [done | lia | by apply desc_in].
      - intros b0 Hb0. apply (desc_not_block HL b' x x); first [done | lia | apply desc_in, elem_of_app; by left]. }
    destruct Hok as [H1 H2 H3 H4 H5 H6]. constructor; [done | | | | done | done].
    + specialize (X3' (b_desc b') 0 ltac:(by apply desc_in) ltac:(lia) ltac:(lia)). rewrite Z.add_0_r in X3'. by rewrite X3'.
    + by rewrite X3' by (by apply desc_in || lia).
    + rewrite X3' by (by apply desc_in || lia). revert H4. apply links_ext. intros x Hx. rewrite Z.add_0_r. symmetry. by apply Hfr.
  - split_and!; [done | lia |]. change (word s3 (d + 4)) with (word (wr (d + 4) (free_bucket_desc s) s2) (d + 4)). rewrite wr_eq.
    pose proof (la_free HL) as Hl. revert Hl. apply links_ext. intros x Hx. symmetry.
    pose proof (la_nodup HL) as (_ & Hnd' & _)%NoDup_app. apply X3.
    + intros E. replace x with d in Hx by lia. apply (Hnd' d); [by apply list_elem_of_fmap_2 | done].
    + intros b' Hb' E. replace x with (b_desc b') in Hx by lia. apply (Hnd' (b_desc b')); [apply list_elem_of_fmap_2, elem_of_app; by left | done].
  - intros x Hx. apply (la_desc HL). by rewrite Hperm.
  - intros i' Hi'. destruct (la_held HL i') as (H1 & H2); [rewrite Hpp; by right |]. unfold held. cbn. rewrite M1, G1. split; [| done].
    rewrite list_lookup_alter_ne; [done |]. by intros ->.
Qed.
Lemma release_ok : exists s', release_bucket fuel j d (default 0 (last (descs (b_size b) bk1))) s = Ok tt s'
  /\ layout s' (bk1 ++ bk2) (d :: fd) dp /\ mem_map (hmm s') = alter Z.pred (b_page b) (mem_map (hmm s))
  /\ forall x, (forall b', b' ∈ bk1 ++ b :: bk2 -> x <> b_desc b' + 4) -> word s' x = word s x.
Proof.
  pose proof middle_in as Hin. destruct unlink_ok as (s1 & -> & Hu). pose proof (give_back_layout s1 Hu) as HL'. cbv zeta in HL'.
  destruct (la_held HL (b_page b)) as (Hi1 & Hi2); [apply elem_of_app; left; by apply list_elem_of_fmap_2 |].
  destruct Hu as (W1 & M1 & G1 & F1 & C1 & X1). eexists. split_and!; [| exact HL' | cbn; by rewrite M1 |].
  - unfold give_back, get_page, set_next. rewrite (bind_Ok _ _ _ _ _ (on_load _ _)). rewrite X1.
    2:{ intros b' Hb' E. rewrite <- (Z.add_0_r d) in E. apply (desc_apart HL) in E; [lia | by apply desc_in | apply desc_in, elem_of_app; by left | lia | lia]. }
    change (word s d) with (word s (b_desc b)). rewrite (bo_page _ _ (la_bucket HL b Hin)).
    assert (Ef : on_mm (free_page (page_addr (b_page b))) s1 = Ok tt (over hmm (set_mem_map (alter Z.pred (b_page b))) s1)).
    { unfold on_mm. rewrite (free_page_ok (hmm s1) (b_page b) 1); [done | by rewrite M1 | lia | rewrite G1; change PAGE_SIZE with 4096 in Hi2; lia]. }
    rewrite (bind_Ok _ _ _ _ _ Ef). set (s2 := over hmm _ s1). change (bind (get free_bucket_desc) ?k s2) with (k (free_bucket_desc s2) s2). cbv beta.
    change (free_bucket_desc s2) with (free_bucket_desc s1). rewrite F1.
    assert (Hfb : 0 <= free_bucket_desc s < 2 ^ 32) by (apply (links_range _ _ _ _ _ _ _ HL (la_free HL)); intros x Hx; apply elem_of_app; by right).
    by rewrite (bind_Ok _ _ _ _ _ (on_store (d + 4) (free_bucket_desc s) s2 Hfb)).
  - intros x Hx. set (s2 := over hmm _ s1). change (word (put free_bucket_desc d ?t) x) with (word t x). rewrite wr_ne by (apply Hx, Hin).
    apply X1. intros b' Hb'. apply Hx, elem_of_app. by left.
Qed.
End Release.

(** ** [free_s] *)

Definition page_nr (a : Z) : nat := Z.to_nat (a / 4096 - 256).
Lemma block_page_nr b a : b_size b ∈ bucket_sizes -> a ∈ blocks b -> page_nr a = b_page b.
Proof. intros Hn Ha. unfold page_nr. rewrite (block_start b a Hn Ha). lia. Qed.
(** With all blocks free there is none in use, else there is one. *)
Lemma all_free b l : b_size b ∈ bucket_sizes -> NoDup l -> l ⊆ blocks b -> 4096 / b_size b = Z.of_nat (length l) -> blocks b ⊆ l.
Proof.
  intros Hn Hnd Hs E. rewrite <- blocks_length in E by done. intros x Hx.
  assert (Hp : l ≡ₚ blocks b) by (apply submseteq_length_Permutation; [by apply NoDup_submseteq | lia]). by rewrite Hp.
Qed.
Lemma some_used b l : b_size b ∈ bucket_sizes -> Z.of_nat (length l) < 4096 / b_size b -> exists x, x ∈ blocks b /\ x ∉ l.
Proof.
  intros Hn Hlt. rewrite <- blocks_length in Hlt by done. pose proof (bucket_size_range _ Hn) as (Hr & _).
  destruct (decide (Forall (fun x => x ∈ l) (blocks b))) as [Ha | (x & Hx & Hn')%not_Forall_Exists%Exists_exists]; [| by exists x | apply _].
  assert (length (blocks b) <= length l)%nat; [| lia]. apply submseteq_length, NoDup_submseteq; [apply spread_NoDup; lia |].
  intros x Hx. by apply (proj1 (Forall_forall _ _) Ha).
Qed.

Lemma block_land b a : b_size b ∈ bucket_sizes -> a ∈ blocks b -> 0 < page_addr (b_page b) /\ page_addr (b_page b) + 4096 < 2 ^ 32 ->
  Z.land a 0xfffff000 = page_addr (b_page b).
Proof.
  intros Hn Ha Hp. pose proof (block_start b a Hn Ha) as Hd. destruct (in_blocks b a Hn Ha) as (k & E & Hk & Hle). pose proof (bucket_size_range _ Hn).
  rewrite Z.land_comm. change (Z.land 0xfffff000 a) with (frame a). rewrite frame_word, Hd, page_addr_frame by nia. done.
Qed.
Lemma live_put s bk1 b bk2 fd dp p x : layout s (bk1 ++ b :: bk2) fd dp -> p ∈ blocks b ->
  live (bk1 ++ set_free (p :: b_free b) b :: bk2) x <-> live (bk1 ++ b :: bk2) x /\ x <> (p, b_size b).
Proof.
  intros HL Hp. pose proof (la_bucket HL b (@middle_in bk1 bk2 b)) as Hok. destruct x as [a n]. rewrite live_set_free, live_split. cbn. rewrite not_elem_of_cons. split.
  - intros [Hl | (-> & Ha & Hne & Hf)]; [| split; [by right | congruence]]. split; [by left |]. intros [= -> ->].
    destruct Hl as (b0 & Hb0 & En & Ha & _). cbn in En, Ha. destruct (others_differ _ _ _ _ _ _ _ HL Hb0) as (Hin0 & _ & Hpp). apply Hpp.
    rewrite <- (block_page_nr b0 p), <- (block_page_nr b p); [done | apply (bo_size _ _ Hok) | done | apply (bo_size (word s)), (la_bucket HL); done | done].
  - intros ([Hl | (-> & Ha & Hf)] & Hne); [by left |]. right. split_and!; [done | done | congruence | done].
Qed.
Lemma free_s_ok s bk fd dp fuel p n size : layout s bk fd dp -> busy bk -> live bk (p, n) -> size <= n -> (Z.to_nat PAGING_PAGES < fuel)%nat ->
  exists s' bk' fd', free_s fuel p size s = Ok tt s' /\ layout s' bk' fd' dp /\ busy bk'
    /\ (forall x, live bk' x <-> live bk x /\ x <> (p, n)) /\ keeps_blocks (fun x => live bk x /\ x <> (p, n)) s s'
    /\ ((exists a n', live bk' (a, n') /\ page_nr a = page_nr p) /\ mem_map (hmm s') = mem_map (hmm s)
        \/ (forall a n', live bk' (a, n') -> page_nr a <> page_nr p) /\ mem_map (hmm s') = alter Z.pred (page_nr p) (mem_map (hmm s))).
Proof.
  intros HL Hbusy (b & Hb & En & Hp & Hnf) Hsz Hfuel. cbn in En, Hp, Hnf. subst n. apply list_elem_of_split in Hb as (bk1 & bk2 & ->).
  pose proof (@middle_in bk1 bk2 b) as Hin. pose proof (la_bucket HL b Hin) as Hok. pose proof (bo_size _ _ Hok) as Hn. pose proof (bucket_size_range _ Hn) as (Hr & _).
  pose proof (proj1 (list_elem_of_lookup _ _) Hn) as (j & Hj). pose proof (block_page_nr b p Hn Hp) as Epn.
  set (b' := set_free (p :: b_free b) b).
  assert (Hlive : forall x, live (bk1 ++ b' :: bk2) x <-> live (bk1 ++ b :: bk2) x /\ x <> (p, b_size b)) by (intros x; by apply (live_put s bk1 b bk2 fd dp)).
  destruct (put_block_ok s bk1 b bk2 fd dp p HL Hp Hnf) as (s1 & Hc & HL1 & M1 & X1 & E1). fold b' in HL1.
  assert (Hk1 : keeps_blocks (fun x => live (bk1 ++ b :: bk2) x /\ x <> (p, b_size b)) s s1).
  { intros a n x (Hl & Hne) Hx. pose proof Hl as (b0 & Hb0 & En & Ha & _). cbn in En, Ha. subst n. apply X1.
    - intros ->. apply Hne. apply (live_apart HL a _ p (b_size b) p); [done | by exists b | done | lia].
    - apply (desc_not_block HL b0 a x); first [done | by apply desc_in | lia].
    - apply (desc_not_block HL b0 a x); first [done | by apply desc_in | lia]. }
  assert (Hpage : Z.land p 0xfffff000 = page_addr (b_page b)).
  { apply block_land; [done | done |]. apply (held_page _ _ _ _ _ HL), elem_of_app. left. by apply list_elem_of_fmap_2. }
  unfold free_s. rewrite Hpage, (bind_Ok _ _ _ _ _ (find_bucket_ok fuel HL Hfuel size Hsz bucket_sizes 0 j (fun i => eq_refl) Hj ltac:(lia))).
  rewrite (E1 (fun r => if r =? 0 then release_bucket fuel j (b_desc b) _ else ret tt)).
  pose proof (la_bucket HL1 b' (@middle_in bk1 bk2 b')) as Hok'. destruct (Z.eqb_spec (4096 / b_size b - Z.of_nat (length (b_free b)) - 1) 0) as [E0 | E0].
  - destruct (release_ok fuel j HL1 Hj) as (s' & E' & HL' & M' & X'). exists s', (bk1 ++ bk2), (b_desc b :: fd).
    pose proof (all_free b' (b_free b') Hn (bo_NoDup _ _ Hok') (bo_sub _ _ Hok') ltac:(cbn; lia)) as Hall.
    assert (Hsame : forall x, live (bk1 ++ bk2) x <-> live (bk1 ++ b' :: bk2) x).
    { intros x. rewrite live_split. split; [by left | intros [| (_ & Hx & Hx')]; [done |]]. destruct Hx'. by apply Hall. }
    split_and!; [done | done | intros b0 Hb0; apply Hbusy, elem_of_middle; by right | intros x; by rewrite Hsame | |].
    + intros a n x Hl Hx. rewrite <- (Hk1 a n x Hl Hx). apply Hlive in Hl as (b0 & Hb0 & En & Ha & _). cbn in En, Ha. subst n.
      apply X'. intros b1 Hb1. apply (desc_not_block HL1 b0 a x); first [done | by apply desc_in | lia].
    + right. split; [| by rewrite M', M1, Epn]. intros a n' (b0 & Hb0 & En & Ha & _). cbn in En, Ha.
      destruct (others_differ _ _ _ _ _ _ _ HL Hb0) as (Hin0 & _ & Hpp). rewrite Epn, (block_page_nr b0 a); [done | apply (bo_size (word s)), (la_bucket HL) | ]; done.
  - exists s1, (bk1 ++ b' :: bk2), fd. destruct (some_used b' (b_free b') Hn ltac:(cbn; lia)) as (x & Hx & Hx'). split_and!; [done | done | | done | done |].
    { intros b0 [-> | Hb0]%elem_of_middle; [by exists x | apply Hbusy, elem_of_middle; by right]. }
    left. split; [| done]. exists x, (b_size b). split; [exists b'; split_and!; [apply middle_in | done..] |].
    by rewrite (block_page_nr b' x), Epn.
Qed.

(** ** The contract *)

Inductive request := Malloc (len : Z) | Free (obj size : Z).
Definition run_request (fuel : nat) (r : request) : M kheap Z :=
  match r with
  | Malloc len => malloc fuel len
  | Free obj size => free_s fuel obj size ;;; ret 0
  end.

(** What callers may ask for when the blocks [L] are in use. *)
Definition may_ask (L : gset (Z * Z)) (r : request) : Prop :=
  match r with
  | Malloc len => len <= 4096
  | Free obj size => exists n, (obj, n) ∈ L /\ size <= n
  end.
Definition apart (L : gset (Z * Z)) : Prop :=
  forall a n a' n' x, (a, n) ∈ L -> (a', n') ∈ L -> a <= x < a + n -> a' <= x < a' + n' -> (a, n) = (a', n').
(** What they get: a block of the smallest size that will do, next to no other; one block
    less in use. *)
Inductive serve (L : gset (Z * Z)) : request -> Z -> gset (Z * Z) -> Prop :=
  | serve_malloc len p n : n ∈ bucket_sizes -> len <= n -> (forall n', n' ∈ bucket_sizes -> len <= n' -> n <= n') ->
      (p, n) ∉ L -> serve L (Malloc len) p ({[(p, n)]} ∪ L)
  | serve_free obj size n : (obj, n) ∈ L -> serve L (Free obj size) 0 (L ∖ {[(obj, n)]}).
(** The page of a block that was given back is kept as long as there are others in it. *)
Definition page_kept (L : gset (Z * Z)) (obj : Z) (s s' : kheap) : Prop :=
  (exists a n, (a, n) ∈ L /\ page_nr a = page_nr obj) /\ mem_map (hmm s') = mem_map (hmm s)
  \/ (forall a n, (a, n) ∈ L -> page_nr a <> page_nr obj) /\ mem_map (hmm s') = alter Z.pred (page_nr obj) (mem_map (hmm s)).

Lemma heap_apart s L : heap_of s L -> apart L.
Proof. intros (bk & fd & dp & HL & _ & Hl) a n a' n' x H1%Hl H2%Hl. by apply (live_apart HL). Qed.

(** C5: Requests to the kernel's memory allocator are served as its callers expect. Started
    where the blocks [L] are in use, a request for at most 4096 bytes returns a block of the
    smallest of the nine sizes that is long enough, which overlaps no block in use; giving
    back a block (with a size that is at most the block's) takes it out of those in use. In
    both cases what is in the other blocks in use does not change, the state represents the
    new set of blocks, and the page of the freed block goes back to the page allocator
    exactly when no other block of it is in use. The only other outcome is a panic of
    [malloc] with less than two free pages in the system; a search is over after as many
    steps as there are pages. *)
Theorem kheap_refines s L fuel r :
  heap_of s L -> may_ask L r -> (Z.to_nat PAGING_PAGES < fuel)%nat ->
  (exists len msg s', r = Malloc len /\ run_request fuel r s = Panic msg s'
     /\ forall i i', mem_map (hmm s) !! i = Some 0 -> mem_map (hmm s) !! i' = Some 0 -> i = i')
  \/ exists v s' L', run_request fuel r s = Ok v s' /\ serve L r v L' /\ heap_of s' L' /\ apart L'
      /\ keeps_blocks (fun x => x ∈ L /\ x ∈ L') s s'
      /\ (forall obj size, r = Free obj size -> page_kept L' obj s s').
Proof.
  intros (bk & fd & dp & HL & Hbusy & Hl) Hr Hfuel. destruct r as [len | obj size]; cbn in Hr.
  - destruct (malloc_ok s bk fd dp fuel len HL Hbusy Hr Hfuel) as [(msg & s' & E & Hno) | (p & n & s' & bk' & fd' & dp' & E & HL' & Hb' & Hn & Hle & Hmin & Hl' & Hnl & Hk)].
    + left. by exists len, msg, s'.
    + right. exists p, s', ({[(p, n)]} ∪ L).
      assert (Hh : heap_of s' ({[(p, n)]} ∪ L)) by (exists bk', fd', dp'; split_and!; [done | done |]; intros x; rewrite Hl', <- Hl, elem_of_union, elem_of_singleton; tauto).
      split_and!; [done | | done | by apply (heap_apart s') | | done].
      * apply serve_malloc; [done | done | done |]. by rewrite Hl.
      * intros a n' x (Ha & _) Hx. apply (Hk a n'); [by apply Hl | done].
  - destruct Hr as (n & Hin & Hsz). right.
    destruct (free_s_ok s bk fd dp fuel obj n size HL Hbusy) as (s' & bk' & fd' & E & HL' & Hb' & Hl' & Hk & Hpg); [by apply Hl | done | done |].
    exists 0, s', (L ∖ {[(obj, n)]}).
    assert (Hset : forall x, x ∈ L ∖ {[(obj, n)]} <-> live bk' x) by (intros x; by rewrite Hl', <- Hl, elem_of_difference, elem_of_singleton).
    assert (Hh : heap_of s' (L ∖ {[(obj, n)]})) by by exists bk', fd', dp.
    split_and!; [by cbn; rewrite (bind_Ok _ _ _ _ _ E) | by apply serve_free | done | by apply (heap_apart s') | |].
    + intros a n' x (Ha & Ha') Hx. apply (Hk a n'); [| done]. apply elem_of_difference in Ha' as (_ & Ha'). rewrite elem_of_singleton in Ha'. by rewrite <- Hl.
    + intros ? ? [= <- <-]. unfold page_kept. setoid_rewrite Hset. done.
Qed.

(** An allocator that was not used yet. *)
Definition fresh_heap : kheap := mk_kheap (demo 1) (replicate 9 0) 0.
Lemma fresh_heap_of : heap_of fresh_heap ∅.
Proof.
  exists [], [], []. split_and!.
  - constructor; cbn [map app]; try (intros ? H; by apply not_elem_of_nil in H); try by apply NoDup_nil.
    + by apply demo_wf.
    + intros j n Hj. exists 0. split; [| done]. cbn. do 9 (destruct j as [|j]; [done |]). done.
    + done.
  - intros b Hb. by apply not_elem_of_nil in Hb.
  - intros x. split; [by intros ?%elem_of_empty | intros (b & Hb & _); by apply not_elem_of_nil in Hb].
Qed.
(** A block of 100 bytes is taken and given back. *)
Lemma kheap_refines_witness : exists p s1 s2,
  run_request 3841 (Malloc 100) fresh_heap = Ok p s1 /\ heap_of s1 {[(p, 128)]} /\ run_request 3841 (Free p 100) s1 = Ok 0 s2 /\ heap_of s2 ∅.
Proof.
  assert (Hfuel : (Z.to_nat PAGING_PAGES < 3841)%nat) by (rewrite PAGING_PAGES_val; lia).
  destruct (kheap_refines fresh_heap ∅ 3841 (Malloc 100) fresh_heap_of ltac:(cbn; lia) Hfuel) as [(? & ? & ? & _ & _ & Hno) | (p & s1 & L1 & E1 & S1 & H1 & _)].
  { assert (2 = 3)%nat by by apply Hno. lia. }
  inversion S1 as [len p' n Hn Hle Hmin Hnl |]; subst. assert (n = 128) as ->.
  { clear E1 H1 S1 Hnl Hfuel. assert (n <= 128) by (apply Hmin; [by apply (bool_decide_unpack _) | lia]). unfold bucket_sizes in Hn.
    repeat (apply elem_of_cons in Hn as [-> | Hn]; [lia |]). by apply not_elem_of_nil in Hn. }
  rewrite union_empty_r_L in H1.
  destruct (kheap_refines s1 {[(p, 128)]} 3841 (Free p 100) H1) as [(? & ? & ? & [=] & _) | (v & s2 & L2 & E2 & S2 & H2 & _)];
    [exists 128; split; [apply elem_of_singleton; reflexivity | lia] | exact Hfuel |].
  inversion S2 as [| obj size n Hin]; subst. apply elem_of_singleton in Hin as [= ->]. rewrite difference_diag_L in H2.
  exists p, s1, s2. exact (conj E1 (conj H1 (conj E2 H2))).
Defined.

(** ** Requests that are refused *)

Lemma find_bucket_none s bk fd dp fuel i size : layout s bk fd dp -> (Z.to_nat PAGING_PAGES < fuel)%nat ->
  (forall b, b ∈ bk -> size <= b_size b -> b_page b <> i) ->
  forall l j, (forall k, bucket_sizes !! (j + k)%nat = l !! k) ->
  find_bucket fuel (page_addr i) size j l s = Panic "Bad address passed to kernel free_s()" s.
Proof.
  intros HL Hfuel Hb. induction l as [|n l IH]; intros j Hl; [done |]. cbn [find_bucket].
  pose proof (Hl 0%nat) as Hn. rewrite Nat.add_0_r in Hn. cbn in Hn.
  assert (Hnext : find_bucket fuel (page_addr i) size (S j) l s = Panic "Bad address passed to kernel free_s()" s).
  { apply IH. intros k. change (l !! k) with ((n :: l) !! S k). rewrite <- (Hl (S k)). f_equal. lia. }
  destruct (Z.ltb_spec n size); [done |]. destruct (la_chain HL j n Hn) as (c & Hc & Hlk).
  assert (Eg : get_chain j s = Ok c s) by (unfold get_chain, bind, get; by rewrite Hc). rewrite (bind_Ok _ _ _ _ _ Eg).
  assert (Ef : on_mm (find_page fuel (page_addr i) c 0) s = Ok None s).
  { unfold on_mm. rewrite (find_page_None _ _ (filter (fun b => b_size b = n) bk)); [by destruct s | | done |].
    - intros b (<- & Hin)%list_elem_of_filter. rewrite (bo_page _ _ (la_bucket HL b Hin)). intros E%page_addr_inj. by apply (Hb b).
    - pose proof (size_chain_length _ _ _ _ n HL). lia. }
  by rewrite (bind_Ok _ _ _ _ _ Ef).
Qed.

(** What the allocator refuses, it refuses with a panic and without having changed
    anything: a request for more than 4096 bytes, and giving back an address of main memory
    when no block of at least the given size is in use in its page. *)
Theorem kheap_refuses s L fuel :
  heap_of s L -> (Z.to_nat PAGING_PAGES < fuel)%nat ->
  (forall len, 4096 < len -> malloc fuel len s = Panic "malloc: bad arg" s)
  /\ (forall obj size, LOW_MEM <= obj < 2 ^ 32 -> (forall a n, (a, n) ∈ L -> size <= n -> page_nr a <> page_nr obj) ->
      free_s fuel obj size s = Panic "Bad address passed to kernel free_s()" s).
Proof.
  intros (bk & fd & dp & HL & Hbusy & Hl) Hfuel. split.
  - intros len Hlen. unfold malloc. pose proof (find_dir_ok bucket_sizes len 0) as Hdir.
    destruct (find_dir 0 bucket_sizes len) as [(j & n)|]; [| done]. destruct Hdir as (i & _ & Hi & Hle & _).
    pose proof (bucket_size_range n ltac:(by eapply list_elem_of_lookup_2)). lia.
  - intros obj size Hobj Hno. unfold free_s. rewrite Z.land_comm. change (Z.land 0xfffff000 obj) with (frame obj).
    assert (E : frame obj = page_addr (page_nr obj)).
    { rewrite frame_word, page_addr_frame by (unfold LOW_MEM in Hobj; lia). unfold page_nr. f_equal.
      assert (256 <= obj / 4096) by (apply Z.div_le_lower_bound; unfold LOW_MEM in Hobj; lia). lia. }
    rewrite E. unfold bind. rewrite (find_bucket_none s bk fd dp); [done | done | done | | done].
    intros b Hb Hsz Ep. destruct (Hbusy b Hb) as (a & Ha & Hf). apply (Hno a (b_size b)); [apply Hl; by exists b | done |].
    rewrite <- Ep. apply block_page_nr; [apply (bo_size _ _ (la_bucket HL b Hb)) | done].
Qed.
Lemma kheap_refuses_witness : malloc 3841 5000 fresh_heap = Panic "malloc: bad arg" fresh_heap
  /\ free_s 3841 0x200000 0 fresh_heap = Panic "Bad address passed to kernel free_s()" fresh_heap.
Proof.
  destruct (kheap_refuses fresh_heap ∅ 3841 fresh_heap_of ltac:(rewrite PAGING_PAGES_val; lia)) as (H1 & H2).
  split; [apply H1; lia |]. apply H2; [unfold LOW_MEM; lia |]. intros a n Hin. destruct (not_elem_of_empty _ Hin).
Defined.
