(* ===== verification/Console.v ===== *)
(** kernel/chr_drv/console.c: the VT102 console.  The screen is a window of
    [video_num_lines] rows into video memory, which starts at [origin]; the
    cursor is kept both as [x], [y] and as the address [pos]. *)
From stdpp Require Import base list gmap strings.
From Stdlib Require Import ZArith Lia.
From S2P Require Import Prelude Bits.
Open Scope Z_scope.

(** ** State *)

Definition VIDEO_TYPE_MDA : Z := 0x10.
Definition VIDEO_TYPE_CGA : Z := 0x11.
Definition VIDEO_TYPE_EGAM : Z := 0x20.
Definition VIDEO_TYPE_EGAC : Z := 0x21.
Definition NPAR : Z := 16.

(** The variables [con_init] sets once. *)
Record video := mk_video {
  video_type : Z;
  video_num_columns : Z;
  video_size_row : Z;
  video_num_lines : Z;
  video_page : Z;
  video_mem_start : Z;
  video_mem_end : Z;
  video_port_reg : Z;
  video_port_val : Z;
  video_erase_char : Z }.

(** The variables of the output routines, the video memory as 16-bit cells at
    even addresses, and the bytes sent to I/O ports, last first. *)
Record con := mk_con {
  vid : video;
  origin : Z; scr_end : Z; pos : Z;
  con_x : Z; con_y : Z;
  top : Z; bottom : Z;
  state : Z;
  npar : Z; par : list Z; ques : Z;
  attr : Z;
  saved_x : Z; saved_y : Z;
  beepcount : Z;
  vram : gmap Z Z;
  ports : list (Z * Z) }.

Definition set_window (o e p : Z) (s : con) : con :=
  mk_con (vid s) o e p (con_x s) (con_y s) (top s) (bottom s) (state s) (npar s) (par s) (ques s)
         (attr s) (saved_x s) (saved_y s) (beepcount s) (vram s) (ports s).
Definition set_cur (x y p : Z) (s : con) : con :=
  mk_con (vid s) (origin s) (scr_end s) p x y (top s) (bottom s) (state s) (npar s) (par s) (ques s)
         (attr s) (saved_x s) (saved_y s) (beepcount s) (vram s) (ports s).
Definition set_region (t b : Z) (s : con) : con :=
  mk_con (vid s) (origin s) (scr_end s) (pos s) (con_x s) (con_y s) t b (state s) (npar s) (par s) (ques s)
         (attr s) (saved_x s) (saved_y s) (beepcount s) (vram s) (ports s).
Definition set_state (st : Z) (s : con) : con :=
  mk_con (vid s) (origin s) (scr_end s) (pos s) (con_x s) (con_y s) (top s) (bottom s) st (npar s) (par s)
         (ques s) (attr s) (saved_x s) (saved_y s) (beepcount s) (vram s) (ports s).
Definition set_par (n : Z) (p : list Z) (q : Z) (s : con) : con :=
  mk_con (vid s) (origin s) (scr_end s) (pos s) (con_x s) (con_y s) (top s) (bottom s) (state s) n p q
         (attr s) (saved_x s) (saved_y s) (beepcount s) (vram s) (ports s).
Definition set_attr (a : Z) (s : con) : con :=
  mk_con (vid s) (origin s) (scr_end s) (pos s) (con_x s) (con_y s) (top s) (bottom s) (state s) (npar s)
         (par s) (ques s) a (saved_x s) (saved_y s) (beepcount s) (vram s) (ports s).
Definition set_saved (x y : Z) (s : con) : con :=
  mk_con (vid s) (origin s) (scr_end s) (pos s) (con_x s) (con_y s) (top s) (bottom s) (state s) (npar s)
         (par s) (ques s) (attr s) x y (beepcount s) (vram s) (ports s).
Definition set_beep (n : Z) (s : con) : con :=
  mk_con (vid s) (origin s) (scr_end s) (pos s) (con_x s) (con_y s) (top s) (bottom s) (state s) (npar s)
         (par s) (ques s) (attr s) (saved_x s) (saved_y s) n (vram s) (ports s).
Definition set_vram (f : gmap Z Z -> gmap Z Z) (s : con) : con :=
  mk_con (vid s) (origin s) (scr_end s) (pos s) (con_x s) (con_y s) (top s) (bottom s) (state s) (npar s)
         (par s) (ques s) (attr s) (saved_x s) (saved_y s) (beepcount s) (f (vram s)) (ports s).
Definition set_ports (f : list (Z * Z) -> list (Z * Z)) (s : con) : con :=
  mk_con (vid s) (origin s) (scr_end s) (pos s) (con_x s) (con_y s) (top s) (bottom s) (state s) (npar s)
         (par s) (ques s) (attr s) (saved_x s) (saved_y s) (beepcount s) (vram s) (f (ports s)).

(** ** Video memory and ports *)

Definition cell_ok (s : con) (a : Z) : bool :=
  (video_mem_start (vid s) <=? a) && (a + 2 <=? video_mem_end (vid s)) && (a mod 2 =? 0).

(** A cell is 16 bits wide. *)
Definition cell (s : con) (a : Z) : Z := u16 (default 0 (vram s !! a)).

Definition vget (a : Z) : M con Z := fun s => if cell_ok s a then Ok (cell s a) s else Ub.
Definition vset (a v : Z) : M con unit := fun s =>
  if cell_ok s a then Ok tt (set_vram (<[a := v]>) s) else Ub.

Definition outb (value port : Z) : M con unit := modify (set_ports (cons (port, value))).

(** [rep ; stosw] with the direction flag clear and set. *)
Fixpoint stosw (n : nat) (di v : Z) : M con unit :=
  match n with O => ret tt | S n => vset di v ;;; stosw n (di + 2) v end.
Fixpoint stosw_std (n : nat) (di v : Z) : M con unit :=
  match n with O => ret tt | S n => vset di v ;;; stosw_std n (di - 2) v end.

(** [rep ; movsl]: a double word is two cells. *)
Definition movs (si di : Z) : M con unit :=
  let* a := vget si in
  let* b := vget (si + 2) in
  vset di a ;;; vset (di + 2) b.
Fixpoint movsl (n : nat) (si di : Z) : M con unit :=
  match n with O => ret tt | S n => movs si di ;;; movsl n (si + 4) (di + 4) end.
Fixpoint movsl_std (n : nat) (si di : Z) : M con unit :=
  match n with O => ret tt | S n => movs si di ;;; movsl_std n (si - 4) (di - 4) end.

(** ** Cursor and scrolling *)

Definition gotoxy (new_x new_y : Z) : M con unit := fun s =>
  let v := vid s in
  if (video_num_columns v <? new_x) || (video_num_lines v <=? new_y) then Ok tt s else
  Ok tt (set_cur new_x new_y
           (u32 (origin s + new_y * video_size_row v + Z.shiftl new_x 1)) s).

Definition set_origin : M con unit :=
  let* s := get id in
  let v := vid s in
  outb 12 (video_port_reg v) ;;;
  outb (Z.land 0xff (Z.shiftr (u32 (origin s - video_mem_start v)) 9)) (video_port_val v) ;;;
  outb 13 (video_port_reg v) ;;;
  outb (Z.land 0xff (Z.shiftr (u32 (origin s - video_mem_start v)) 1)) (video_port_val v).

(** The count of a [movsl] over [rows] rows. *)
Definition dwords (rows columns : Z) : nat := Z.to_nat (Z.shiftr (u32 (rows * columns)) 1).

(** The rows of the scroll region move up in memory; the same code for a partial
    region on EGA/VGA and for every region elsewhere. *)
Definition scrup_region : M con unit :=
  let* s := get id in
  let v := vid s in
  let n := dwords (bottom s - top s - 1) (video_num_columns v) in
  let di := origin s + video_size_row v * top s in
  let si := origin s + video_size_row v * (top s + 1) in
  movsl n si di ;;;
  stosw (Z.to_nat (video_num_columns v)) (di + 4 * Z.of_nat n) (video_erase_char v).

(** The window moves down one row; at the end of video memory it is copied back
    to the start. *)
Definition scrup_window : M con unit :=
  let* s := get id in
  let v := vid s in
  modify (set_window (u32 (origin s + video_size_row v)) (u32 (scr_end s + video_size_row v))
                     (u32 (pos s + video_size_row v))) ;;;
  let* s := get id in
  (if video_mem_end v <? scr_end s then
     let n := dwords (video_num_lines v - 1) (video_num_columns v) in
     movsl n (origin s) (video_mem_start v) ;;;
     stosw (Z.to_nat (video_num_columns v)) (video_mem_start v + 4 * Z.of_nat n)
           (video_erase_char v) ;;;
     let d := u32 (origin s - video_mem_start v) in
     modify (set_window (video_mem_start v) (u32 (scr_end s - d)) (u32 (pos s - d)))
   else
     stosw (Z.to_nat (video_num_columns v)) (scr_end s - video_size_row v) (video_erase_char v)) ;;;
  set_origin.

Definition is_ega (v : video) : bool :=
  (video_type v =? VIDEO_TYPE_EGAC) || (video_type v =? VIDEO_TYPE_EGAM).

Definition scrup : M con unit :=
  let* s := get id in
  if is_ega (vid s) then
    if (top s =? 0) && (bottom s =? video_num_lines (vid s)) then scrup_window
    else scrup_region
  else scrup_region.

(** Both branches of the source are the same code. *)
Definition scrdown : M con unit :=
  let* s := get id in
  let v := vid s in
  let n := dwords (bottom s - top s - 1) (video_num_columns v) in
  let di := origin s + video_size_row v * bottom s - 4 in
  let si := origin s + video_size_row v * (bottom s - 1) - 4 in
  movsl_std n si di ;;;
  stosw_std (Z.to_nat (video_num_columns v)) (di - 4 * Z.of_nat n + 2) (video_erase_char v).

Definition lf : M con unit :=
  let* s := get id in
  if u32 (con_y s + 1) <? bottom s
  then modify (set_cur (con_x s) (u32 (con_y s + 1)) (u32 (pos s + video_size_row (vid s))))
  else scrup.

Definition ri : M con unit :=
  let* s := get id in
  if top s <? con_y s
  then modify (set_cur (con_x s) (con_y s - 1) (u32 (pos s - video_size_row (vid s))))
  else scrdown.

Definition cr : M con unit :=
  modify (fun s => set_cur 0 (con_y s) (u32 (pos s - Z.shiftl (con_x s) 1)) s).

Definition del : M con unit :=
  let* s := get id in
  if cbool (con_x s) then
    modify (set_cur (con_x s - 1) (con_y s) (u32 (pos s - 2))) ;;;
    vset (u32 (pos s - 2)) (video_erase_char (vid s))
  else ret tt.

(** ** Erasing, inserting and deleting *)

(** The argument is an [int]. *)
Definition csi_J (p : Z) : M con unit :=
  let* s := get id in
  let v := vid s in
  let erase start count := stosw (Z.to_nat count) start (video_erase_char v) in
  match s32 p with
  | 0 => erase (pos s) (Z.shiftr (u32 (scr_end s - pos s)) 1)
  | 1 => erase (origin s) (Z.shiftr (u32 (pos s - origin s)) 1)
  | 2 => erase (origin s) (u32 (video_num_columns v * video_num_lines v))
  | _ => ret tt
  end.

Definition csi_K (p : Z) : M con unit :=
  let* s := get id in
  let v := vid s in
  let erase start count := stosw (Z.to_nat count) start (video_erase_char v) in
  match s32 p with
  | 0 => if video_num_columns v <=? con_x s then ret tt
         else erase (pos s) (video_num_columns v - con_x s)
  | 1 => erase (u32 (pos s - Z.shiftl (con_x s) 1))
               (if con_x s <? video_num_columns v then con_x s else video_num_columns v)
  | 2 => erase (u32 (pos s - Z.shiftl (con_x s) 1)) (video_num_columns v)
  | _ => ret tt
  end.

Definition sgr (a p : Z) : Z :=
  match p with 0 => 0x07 | 1 => 0x0f | 4 => 0x0f | 7 => 0x70 | 27 => 0x07 | _ => a end.

(** [for (i=0;i<=npar;i++) switch (par[i]) ...] *)
Fixpoint csi_m_loop (n : nat) (i : Z) : M con unit :=
  match n with
  | O => ret tt
  | S n =>
    let* s := get id in
    let* p := need (par s !! Z.to_nat i) in
    modify (set_attr (sgr (attr s) p)) ;;;
    csi_m_loop n (i + 1)
  end.

Definition csi_m : M con unit :=
  let* s := get id in csi_m_loop (Z.to_nat (npar s + 1)) 0.

Definition set_cursor : M con unit :=
  let* s := get id in
  let v := vid s in
  outb 14 (video_port_reg v) ;;;
  outb (Z.land 0xff (Z.shiftr (u32 (pos s - video_mem_start v)) 9)) (video_port_val v) ;;;
  outb 15 (video_port_reg v) ;;;
  outb (Z.land 0xff (Z.shiftr (u32 (pos s - video_mem_start v)) 1)) (video_port_val v).

(** The loop of [insert_char]: [n] cells from [p] on, [old] carried along. *)
Fixpoint insert_loop (n : nat) (p old : Z) : M con unit :=
  match n with
  | O => ret tt
  | S n => let* tmp := vget p in vset p old ;;; insert_loop n (p + 2) tmp
  end.

Definition insert_char : M con unit :=
  let* s := get id in
  insert_loop (Z.to_nat (video_num_columns (vid s) - con_x s)) (pos s) (video_erase_char (vid s)).

Definition insert_line : M con unit :=
  let* s := get id in
  modify (set_region (con_y s) (video_num_lines (vid s))) ;;;
  scrdown ;;;
  modify (set_region (top s) (bottom s)).

Fixpoint delete_loop (n : nat) (p : Z) : M con unit :=
  match n with
  | O => ret tt
  | S n => let* c := vget (p + 2) in vset p c ;;; delete_loop n (p + 2)
  end.

Definition delete_char : M con unit :=
  let* s := get id in
  let v := vid s in
  if video_num_columns v <=? con_x s then ret tt else
  let n := video_num_columns v - con_x s - 1 in
  delete_loop (Z.to_nat n) (pos s) ;;;
  vset (pos s + 2 * n) (video_erase_char v).

Definition delete_line : M con unit :=
  let* s := get id in
  modify (set_region (con_y s) (video_num_lines (vid s))) ;;;
  scrup ;;;
  modify (set_region (top s) (bottom s)).

Fixpoint repeat_op (n : nat) (op : M con unit) : M con unit :=
  match n with O => ret tt | S n => op ;;; repeat_op n op end.

(** The repeat count of [csi_at], [csi_L], [csi_P] and [csi_M]. *)
Definition clamp (nr limit : Z) : nat :=
  Z.to_nat (if limit <? nr then limit else if negb (cbool nr) then 1 else nr).

Definition csi_at (nr : Z) : M con unit :=
  let* s := get id in repeat_op (clamp nr (video_num_columns (vid s))) insert_char.
Definition csi_L (nr : Z) : M con unit :=
  let* s := get id in repeat_op (clamp nr (video_num_lines (vid s))) insert_line.
Definition csi_P (nr : Z) : M con unit :=
  let* s := get id in repeat_op (clamp nr (video_num_columns (vid s))) delete_char.
Definition csi_M (nr : Z) : M con unit :=
  let* s := get id in repeat_op (clamp nr (video_num_lines (vid s))) delete_line.

Definition save_cur : M con unit := modify (fun s => set_saved (con_x s) (con_y s) s).
Definition restore_cur : M con unit := let* s := get id in gotoxy (saved_x s) (saved_y s).

Definition HZ : Z := 100.

(** [sysbeep]; [port61] is what [inb_p(0x61)] reads. *)
Definition sysbeep (port61 : Z) : M con unit :=
  outb (Z.lor port61 3) 0x61 ;;;
  outb 0xB6 0x43 ;;;
  outb 0x37 0x42 ;;;
  outb 0x06 0x42 ;;;
  modify (set_beep (HZ / 8)).

Definition sysbeepstop (port61 : Z) : M con unit := outb (Z.land port61 0xFC) 0x61.

(** ** One character of output

    [c] is a [char], so it is signed; [erase] is [ERASE_CHAR(tty)]. *)

(** The cursor is past the end of its row: go on in the next one. *)
Definition wrap_line : M con unit :=
  modify (fun s => set_cur (u32 (con_x s - video_num_columns (vid s))) (con_y s)
                           (u32 (pos s - video_size_row (vid s))) s) ;;;
  lf.

(** A printing character; the attribute goes into the high byte. *)
Definition put_char (c : Z) : M con unit :=
  let* s := get id in
  (if video_num_columns (vid s) <=? con_x s then wrap_line else ret tt) ;;;
  let* s := get id in
  vset (pos s) (Z.lor (Z.shiftl (attr s) 8) c) ;;;
  modify (set_cur (u32 (con_x s + 1)) (con_y s) (u32 (pos s + 2))).

Definition tab : M con unit :=
  let* s := get id in
  let c := 8 - Z.land (con_x s) 7 in
  modify (set_cur (u32 (con_x s + c)) (con_y s) (u32 (pos s + Z.shiftl c 1))) ;;;
  let* s := get id in
  if video_num_columns (vid s) <? con_x s then wrap_line else ret tt.

Definition backspace : M con unit :=
  let* s := get id in
  if cbool (con_x s) then modify (set_cur (con_x s - 1) (con_y s) (u32 (pos s - 2))) else ret tt.

(** State 0. *)
Definition con_normal (port61 erase c : Z) : M con unit :=
  if (31 <? c) && (c <? 127) then put_char c
  else if c =? 27 then modify (set_state 1)
  else if (c =? 10) || (c =? 11) || (c =? 12) then lf
  else if c =? 13 then cr
  else if c =? erase then del
  else if c =? 8 then backspace
  else if c =? 9 then tab
  else if c =? 7 then sysbeep port61
  else ret tt.

(** State 1, after ESC; the result says whether [respond(tty)] is called.  The
    last two tests are on [x], as in the source. *)
Definition con_escape (c : Z) : M con bool :=
  modify (set_state 0) ;;;
  let* s := get id in
  if c =? 91 then modify (set_state 2) ;;; ret false
  else if c =? 69 then gotoxy 0 (u32 (con_y s + 1)) ;;; ret false
  else if c =? 77 then ri ;;; ret false
  else if c =? 68 then lf ;;; ret false
  else if c =? 90 then ret true
  else if con_x s =? 55 then save_cur ;;; ret false
  else if con_x s =? 56 then restore_cur ;;; ret false
  else ret false.

(** [par[i]], and the updates of it before a command. *)
Definition get_par (i : Z) : M con Z := let* s := get id in need (par s !! Z.to_nat i).
Definition put_par (i v : Z) : M con unit := fun s =>
  if (0 <=? i) && (i <? Z.of_nat (length (par s)))
  then Ok tt (set_par (npar s) (<[Z.to_nat i := u32 v]> (par s)) (ques s) s) else Ub.
Definition dec_par (i : Z) : M con unit :=
  let* p := get_par i in if cbool p then put_par i (p - 1) else ret tt.
Definition inc_par : M con unit :=
  let* p := get_par 0 in if cbool p then ret tt else put_par 0 (p + 1).

(** State 4: the final character of a control sequence. *)
Definition con_command (c : Z) : M con unit :=
  modify (set_state 0) ;;;
  let* s := get id in
  let x := con_x s in
  let y := con_y s in
  if (c =? 71) || (c =? 96) then dec_par 0 ;;; (let* p := get_par 0 in gotoxy p y)
  else if c =? 65 then inc_par ;;; (let* p := get_par 0 in gotoxy x (u32 (y - p)))
  else if (c =? 66) || (c =? 101) then inc_par ;;; (let* p := get_par 0 in gotoxy x (u32 (y + p)))
  else if (c =? 67) || (c =? 97) then inc_par ;;; (let* p := get_par 0 in gotoxy (u32 (x + p)) y)
  else if c =? 68 then inc_par ;;; (let* p := get_par 0 in gotoxy (u32 (x - p)) y)
  else if c =? 69 then inc_par ;;; (let* p := get_par 0 in gotoxy 0 (u32 (y + p)))
  else if c =? 70 then inc_par ;;; (let* p := get_par 0 in gotoxy 0 (u32 (y - p)))
  else if c =? 100 then dec_par 0 ;;; (let* p := get_par 0 in gotoxy x p)
  else if (c =? 72) || (c =? 102) then
    dec_par 0 ;;; dec_par 1 ;;;
    (let* p := get_par 0 in let* q := get_par 1 in gotoxy q p)
  else if c =? 74 then let* p := get_par 0 in csi_J p
  else if c =? 75 then let* p := get_par 0 in csi_K p
  else if c =? 76 then let* p := get_par 0 in csi_L p
  else if c =? 77 then let* p := get_par 0 in csi_M p
  else if c =? 80 then let* p := get_par 0 in csi_P p
  else if c =? 64 then let* p := get_par 0 in csi_at p
  else if c =? 109 then csi_m
  else if c =? 114 then
    dec_par 0 ;;;
    (let* q := get_par 1 in
     if cbool q then ret tt else put_par 1 (video_num_lines (vid s))) ;;;
    let* p := get_par 0 in
    let* q := get_par 1 in
    if (p <? q) && (q <=? video_num_lines (vid s)) then modify (set_region p q) else ret tt
  else if c =? 115 then save_cur
  else if c =? 117 then restore_cur
  else ret tt.

(** State 3: the parameters. *)
Definition con_params (c : Z) : M con unit :=
  let* s := get id in
  if (c =? 59) && (npar s <? NPAR - 1) then
    modify (fun s => set_par (npar s + 1) (par s) (ques s) s)
  else if (48 <=? c) && (c <=? 57) then
    let* p := get_par (npar s) in put_par (npar s) (10 * p + c - 48)
  else modify (set_state 4) ;;; con_command c.

(** State 2, after ESC and the bracket. *)
Definition con_bracket (c : Z) : M con unit :=
  modify (fun s => set_state 3 (set_par 0 (replicate (Z.to_nat NPAR) 0) (bool_to_c (c =? 63)) s)) ;;;
  if c =? 63 then ret tt else con_params c.

(** The body of the loop of [con_write]. *)
Definition con_char (port61 erase c : Z) : M con bool :=
  let* s := get id in
  match state s with
  | 0 => con_normal port61 erase c ;;; ret false
  | 1 => con_escape c
  | 2 => con_bracket c ;;; ret false
  | 3 => con_params c ;;; ret false
  | 4 => con_command c ;;; ret false
  | _ => ret false
  end.

(** ** Initialisation

    What the BIOS left at 0x90000: cursor, page, the word with the mode and the
    number of columns, and [BX] of the EGA information call. *)
Record bios := mk_bios {
  ORIG_X : Z; ORIG_Y : Z; ORIG_VIDEO_PAGE : Z; video_mode_word : Z; ORIG_VIDEO_EGA_BX : Z }.

Definition ORIG_VIDEO_MODE (b : bios) : Z := Z.land (video_mode_word b) 0xff.
Definition ORIG_VIDEO_COLS (b : bios) : Z := Z.shiftr (Z.land (video_mode_word b) 0xff00) 8.
Definition ORIG_VIDEO_LINES : Z := 25.

(** The display type and its description. *)
Definition con_video (b : bios) : video * list Z :=
  let mk type start fin reg val :=
    mk_video type (ORIG_VIDEO_COLS b) (ORIG_VIDEO_COLS b * 2) ORIG_VIDEO_LINES
             (u8 (ORIG_VIDEO_PAGE b)) start fin reg val 0x0720 in
  let ega := negb (Z.land (ORIG_VIDEO_EGA_BX b) 0xff =? 0x10) in
  if ORIG_VIDEO_MODE b =? 7 then
    if ega then (mk VIDEO_TYPE_EGAM 0xb0000 0xb8000 0x3b4 0x3b5, cstr "EGAm")
    else (mk VIDEO_TYPE_MDA 0xb0000 0xb2000 0x3b4 0x3b5, cstr "*MDA")
  else
    if ega then (mk VIDEO_TYPE_EGAC 0xb8000 0xbc000 0x3d4 0x3d5, cstr "EGAc")
    else (mk VIDEO_TYPE_CGA 0xb8000 0xba000 0x3d4 0x3d5, cstr "*CGA").

(** Every second byte: the low byte of a cell. *)
Fixpoint show_desc (desc : list Z) (p : Z) : M con unit :=
  match desc with
  | [] => ret tt
  | c :: desc =>
    let* old := vget p in
    vset p (Z.lor (Z.land old 0xff00) c) ;;;
    show_desc desc (p + 2)
  end.

(** The variables before [con_init]. *)
Definition con_zero (v : video) (ram : gmap Z Z) : con :=
  mk_con v 0 0 0 0 0 0 0 0 0 (replicate (Z.to_nat NPAR) 0) 0 0x07 0 0 0 ram [].

(** [port21] and [port61] are what the two [inb_p] read; the interrupt gate for
    the keyboard is not part of the state. *)
Definition con_init (b : bios) (ram : gmap Z Z) (port21 port61 : Z) : outcome con unit :=
  let (v, display_desc) := con_video b in
  (show_desc display_desc (video_mem_start v + video_size_row v - 8) ;;;
   modify (set_window (video_mem_start v)
             (video_mem_start v + video_num_lines v * video_size_row v) 0) ;;;
   modify (set_region 0 (video_num_lines v)) ;;;
   gotoxy (ORIG_X b) (ORIG_Y b) ;;;
   outb (Z.land port21 0xfd) 0x21 ;;;
   outb (Z.lor port61 0x80) 0x61 ;;;
   outb port61 0x61) (con_zero v ram).

(** ** The invariant *)

Record video_wf (v : video) : Prop := {
  vw_cols : 8 <= video_num_columns v < 2 ^ 15;
  vw_row : video_size_row v = 2 * video_num_columns v;
  vw_lines : 1 <= video_num_lines v < 2 ^ 12;
  vw_mem : 0 <= video_mem_start v /\ video_mem_end v < 2 ^ 31;
  vw_even : video_mem_start v mod 2 = 0 }.

Record con_wf (s : con) : Prop := {
  cw_vid : video_wf (vid s);
  cw_window : video_mem_start (vid s) <= origin s
    /\ scr_end s = origin s + video_num_lines (vid s) * video_size_row (vid s)
    /\ scr_end s <= video_mem_end (vid s);
  cw_even : origin s mod 2 = 0;
  cw_x : 0 <= con_x s <= video_num_columns (vid s);
  cw_y : 0 <= con_y s < video_num_lines (vid s);
  cw_pos : pos s = origin s + con_y s * video_size_row (vid s) + 2 * con_x s;
  cw_region : 0 <= top s < bottom s /\ bottom s <= video_num_lines (vid s);
  cw_state : 0 <= state s <= 4;
  cw_npar : 0 <= npar s < NPAR;
  cw_par : length (par s) = Z.to_nat NPAR /\ Forall (fun p => 0 <= p < 2 ^ 32) (par s);
  cw_saved : 0 <= saved_x s /\ 0 <= saved_y s;
  cw_attr : 0 <= attr s < 256 }.

(** The cell in row [y], column [x] of the screen. *)
Definition screen (s : con) (x y : Z) : Z :=
  cell s (origin s + y * video_size_row (vid s) + 2 * x).

Lemma wf_set_vram f s : con_wf s -> con_wf (set_vram f s).
Proof. by intros []; constructor. Qed.
Lemma wf_set_ports f s : con_wf s -> con_wf (set_ports f s).
Proof. by intros []; constructor. Qed.
Lemma wf_set_attr a s : con_wf s -> 0 <= a < 256 -> con_wf (set_attr a s).
Proof. by intros [] ?; constructor. Qed.
Lemma wf_set_beep a s : con_wf s -> con_wf (set_beep a s).
Proof. by intros []; constructor. Qed.
Lemma wf_set_state a s : con_wf s -> 0 <= a <= 4 -> con_wf (set_state a s).
Proof. by intros [] ?; constructor. Qed.
Lemma wf_set_saved x y s : con_wf s -> 0 <= x -> 0 <= y -> con_wf (set_saved x y s).
Proof. by intros [] ? ?; constructor. Qed.
Lemma wf_set_region t b s :
  con_wf s -> 0 <= t < b -> b <= video_num_lines (vid s) -> con_wf (set_region t b s).
Proof. by intros [] ? ?; constructor. Qed.
Lemma wf_set_cur x y p s :
  con_wf s -> 0 <= x <= video_num_columns (vid s) -> 0 <= y < video_num_lines (vid s) ->
  p = origin s + y * video_size_row (vid s) + 2 * x -> con_wf (set_cur x y p s).
Proof. by intros [] ? ? ?; constructor. Qed.
#[export] Hint Resolve wf_set_vram wf_set_ports wf_set_beep : kernel.

(** ** The string instructions as functions on video memory *)

(** Addresses [a], [a+2], ... of [n] cells lie in video memory. *)
Definition span_ok (s : con) (a : Z) (n : nat) : Prop :=
  a mod 2 = 0 /\ (n = O \/ (video_mem_start (vid s) <= a /\ a + 2 * Z.of_nat n <= video_mem_end (vid s))).

Definition in_span (a : Z) (n : nat) (b : Z) : bool :=
  (a <=? b) && (b <? a + 2 * Z.of_nat n) && ((b - a) mod 2 =? 0).

Lemma even_add a k : a mod 2 = 0 -> (a + 2 * k) mod 2 = 0.
Proof. intros H. rewrite Z.mul_comm, Z.mod_add; [done | lia]. Qed.

Lemma even_diff a b : a mod 2 = 0 -> b mod 2 = 0 -> (b - a) mod 2 = 0.
Proof. intros Ha Hb. by rewrite Zminus_mod, Ha, Hb. Qed.

Lemma span_cell s a n : span_ok s a (S n) -> cell_ok s a = true.
Proof. intros (He & [?|?]); [done |]. unfold cell_ok. b2p. lia. Qed.

Lemma span_tail s a n : span_ok s a (S n) -> span_ok s (a + 2) n.
Proof. intros (He & [?|?]); [done |]. split; [by apply (even_add a 1) | right; lia]. Qed.

Lemma span_sub s a n b m :
  span_ok s a n -> b mod 2 = 0 -> a <= b -> b + 2 * Z.of_nat m <= a + 2 * Z.of_nat n -> span_ok s b m.
Proof. intros (He & [?|?]) Hb Hl Hh; (split; [done |]); [left | right]; lia. Qed.

(** Only the contents of video memory changed. *)
Definition ram_only (s s' : con) : Prop := exists f, s' = set_vram f s.

Lemma ram_only_refl s : ram_only s s.
Proof. exists id. by destruct s. Qed.

Lemma ram_only_trans s1 s2 s3 : ram_only s1 s2 -> ram_only s2 s3 -> ram_only s1 s3.
Proof. intros (f & ->) (g & ->). by exists (g ∘ f). Qed.

Lemma ram_only_wf s s' : ram_only s s' -> con_wf s -> con_wf s'.
Proof. intros (f & ->). apply wf_set_vram. Qed.

Lemma ram_only_vset s a v : ram_only s (set_vram (<[a := v]>) s).
Proof. by eexists. Qed.
#[export] Hint Resolve ram_only_refl ram_only_vset : kernel.

Lemma span_ram s s' a n : ram_only s s' -> span_ok s a n -> span_ok s' a n.
Proof. by intros (f & ->). Qed.

Lemma cell_vset s a v b : cell (set_vram (<[a := v]>) s) b = if b =? a then u16 v else cell s b.
Proof.
  unfold cell. cbn [vram set_vram]. rewrite lookup_insert. case_decide as E.
  - subst. by rewrite Z.eqb_refl.
  - by rewrite (proj2 (Z.eqb_neq _ _)) by congruence.
Qed.

Lemma in_span_S a n b : a mod 2 = b mod 2 -> in_span a (S n) b = (b =? a) || in_span (a + 2) n b.
Proof.
  intros Hm. unfold in_span. apply eq_true_iff_eq. b2p.
  assert ((b - a) mod 2 = 0) as E1 by (rewrite Zminus_mod, Hm, Z.sub_diag; done).
  assert ((b - (a + 2)) mod 2 = 0) as E2.
  { replace (b - (a + 2)) with (b - a + -1 * 2) by lia. by rewrite Z.mod_add by lia. }
  rewrite E1, E2. assert (b <> a + 1) by (intros ->; replace (a + 1 - a) with 1 in E1 by lia; done).
  lia.
Qed.

Lemma in_span_bounds a n b : in_span a n b = true -> a <= b < a + 2 * Z.of_nat n.
Proof. unfold in_span. intros H. b2p_in H. lia. Qed.

Lemma in_span_spec a n b :
  (b - a) mod 2 = 0 -> in_span a n b = (a <=? b) && (b <? a + 2 * Z.of_nat n).
Proof. intros H. unfold in_span. by rewrite H, andb_true_r. Qed.

(** Filling. *)
Lemma stosw_ok n di v s :
  span_ok s di n -> exists s', stosw n di v s = Ok tt s' /\ ram_only s s'
  /\ forall b, b mod 2 = 0 -> cell s' b = if in_span di n b then u16 v else cell s b.
Proof.
  revert di s. induction n as [|n IH]; intros di s Hs; cbn [stosw].
  - exists s. split_and!; [done | auto with kernel |]. intros b _. unfold in_span.
    by replace ((di <=? b) && (b <? di + 2 * Z.of_nat 0)) with false by blia.
  - unfold bind, vset. rewrite (span_cell _ _ _ Hs).
    destruct (IH (di + 2) (set_vram (<[di := v]>) s)) as (s' & E & R & C).
    { apply (span_ram s); [auto with kernel |]. by apply span_tail. }
    exists s'. split; [done |]. split; [eapply ram_only_trans; [apply ram_only_vset | done] |].
    intros b Hb. destruct Hs as (He & _).
    rewrite C, in_span_S, cell_vset by congruence. by destruct (in_span _ _ _), (b =? di).
Qed.

Lemma stosw_std_ok n di v s :
  span_ok s (di + 2 - 2 * Z.of_nat n) n ->
  exists s', stosw_std n di v s = Ok tt s' /\ ram_only s s'
  /\ forall b, b mod 2 = 0 ->
       cell s' b = if in_span (di + 2 - 2 * Z.of_nat n) n b then u16 v else cell s b.
Proof.
  revert di s. induction n as [|n IH]; intros di s Hs; cbn [stosw_std].
  - exists s. split_and!; [done | auto with kernel |]. intros b _. unfold in_span.
    by replace ((_ <=? b) && (b <? di + 2 - 2 * Z.of_nat 0 + 2 * Z.of_nat 0)) with false by blia.
  - assert (He : di mod 2 = 0).
    { destruct Hs as (He & _). apply (even_add _ (Z.of_nat n)) in He.
      by replace (di + 2 - 2 * Z.of_nat (S n) + 2 * Z.of_nat n) with di in He by lia. }
    unfold bind, vset. rewrite (span_cell s di 0).
    2:{ eapply span_sub; [done | done | lia | lia]. }
    destruct (IH (di - 2) (set_vram (<[di := v]>) s)) as (s' & E & R & C).
    { apply (span_ram s); [auto with kernel |].
      eapply span_sub; [done | | lia | lia]. destruct Hs as (Hs & _).
      by replace (di - 2 + 2 - 2 * Z.of_nat n) with (di + 2 - 2 * Z.of_nat (S n)) by lia. }
    exists s'. split; [done |]. split; [eapply ram_only_trans; [apply ram_only_vset | done] |].
    intros b Hb. rewrite C, cell_vset by done.
    replace (di - 2 + 2 - 2 * Z.of_nat n) with (di + 2 - 2 * Z.of_nat (S n)) by lia.
    destruct Hs as (Hs & _). rewrite !in_span_spec by (by apply even_diff).
    destruct (Z.eqb_spec b di) as [->|Hne].
    + replace (di <? di + 2 - 2 * Z.of_nat (S n) + 2 * Z.of_nat (S n)) with true by blia.
      replace (di + 2 - 2 * Z.of_nat (S n) <=? di) with true by blia. by case_match.
    + assert (b <> di + 1) by (intros ->; rewrite Zplus_mod, He in Hb; done).
      replace (b <? di + 2 - 2 * Z.of_nat (S n) + 2 * Z.of_nat (S n))
        with (b <? di + 2 - 2 * Z.of_nat (S n) + 2 * Z.of_nat n); [done |].
      apply eq_true_iff_eq. b2p. lia.
Qed.

(** Moving. *)
Lemma movs_ok si di s :
  span_ok s si 2 -> span_ok s di 2 ->
  exists s', movs si di s = Ok tt s' /\ ram_only s s'
  /\ forall b, cell s' b = if b =? di + 2 then u16 (cell s (si + 2))
                           else if b =? di then u16 (cell s si) else cell s b.
Proof.
  intros Hs Hd. unfold movs, bind, vget, vset.
  rewrite (span_cell _ _ _ Hs), (span_cell _ _ _ (span_tail _ _ _ Hs)).
  rewrite (span_cell _ _ _ Hd). change (cell_ok (set_vram ?f ?s) ?a) with (cell_ok s a).
  rewrite (span_cell _ _ _ (span_tail _ _ _ Hd)).
  eexists. split; [reflexivity |].
  split; [eapply ram_only_trans; apply ram_only_vset |]. intros b. by rewrite !cell_vset.
Qed.

Lemma u16_cell s a : u16 (cell s a) = cell s a.
Proof. apply u16_small, u16_range. Qed.

Lemma movsl_ok n si di s :
  span_ok s si (2 * n) -> span_ok s di (2 * n) -> di < si ->
  exists s', movsl n si di s = Ok tt s' /\ ram_only s s'
  /\ forall b, b mod 2 = 0 ->
       cell s' b = if in_span di (2 * n) b then cell s (b + (si - di)) else cell s b.
Proof.
  revert si di s. induction n as [|n IH]; intros si di s Hs Hd Hlt; cbn [movsl].
  - exists s. split_and!; [done | auto with kernel |]. intros b _. unfold in_span.
    by replace ((di <=? b) && (b <? di + 2 * Z.of_nat (2 * 0))) with false by blia.
  - assert (Es : si mod 2 = 0) by apply Hs. assert (Ed : di mod 2 = 0) by apply Hd.
    destruct (movs_ok si di s) as (s1 & E1 & R1 & C1).
    { eapply span_sub; [exact Hs | done | lia | lia]. }
    { eapply span_sub; [exact Hd | done | lia | lia]. }
    unfold bind. rewrite E1.
    destruct (IH (si + 4) (di + 4) s1) as (s2 & E2 & R2 & C2).
    + apply (span_ram s); [done |]. eapply span_sub; [exact Hs | by apply (even_add si 2) | lia | lia].
    + apply (span_ram s); [done |]. eapply span_sub; [exact Hd | by apply (even_add di 2) | lia | lia].
    + lia.
    + exists s2. split; [done |]. split; [by eapply ram_only_trans |].
      intros b Hb. rewrite C2 by done. replace (2 * S n)%nat with (S (S (2 * n))) by lia.
      assert (Ed2 : (di + 2) mod 2 = 0) by (by apply (even_add di 1)).
      rewrite (in_span_S di), (in_span_S (di + 2)) by congruence.
      replace (di + 2 + 2) with (di + 4) by lia.
      destruct (in_span (di + 4) (2 * n) b) eqn:Hin; cbn [orb].
      * apply in_span_bounds in Hin. rewrite !orb_true_r.
        replace (b + (si + 4 - (di + 4))) with (b + (si - di)) by lia. rewrite C1.
        rewrite (proj2 (Z.eqb_neq _ (di + 2))), (proj2 (Z.eqb_neq _ di)) by lia. done.
      * rewrite orb_false_r, C1. destruct (Z.eqb_spec b di) as [->|]; cbn [orb].
        -- rewrite (proj2 (Z.eqb_neq di (di + 2))) by lia. rewrite u16_cell. f_equal. lia.
        -- destruct (Z.eqb_spec b (di + 2)) as [->|]; [| done].
           rewrite u16_cell. f_equal. lia.
Qed.

Lemma movsl_std_ok n si di s :
  span_ok s (si + 4 - 4 * Z.of_nat n) (2 * n) ->
  span_ok s (di + 4 - 4 * Z.of_nat n) (2 * n) -> si < di ->
  exists s', movsl_std n si di s = Ok tt s' /\ ram_only s s'
  /\ forall b, b mod 2 = 0 ->
       cell s' b = if in_span (di + 4 - 4 * Z.of_nat n) (2 * n) b then cell s (b - (di - si))
                   else cell s b.
Proof.
  revert si di s. induction n as [|n IH]; intros si di s Hs Hd Hlt; cbn [movsl_std].
  - exists s. split_and!; [done | auto with kernel |]. intros b _. unfold in_span.
    by replace ((_ <=? b) && (b <? di + 4 - 4 * Z.of_nat 0 + 2 * Z.of_nat (2 * 0))) with false by blia.
  - assert (Es : si mod 2 = 0).
    { destruct Hs as (Hs & _). apply (even_add _ (2 * Z.of_nat n)) in Hs.
      by replace (si + 4 - 4 * Z.of_nat (S n) + 2 * (2 * Z.of_nat n)) with si in Hs by lia. }
    assert (Ed : di mod 2 = 0).
    { destruct Hd as (Hd & _). apply (even_add _ (2 * Z.of_nat n)) in Hd.
      by replace (di + 4 - 4 * Z.of_nat (S n) + 2 * (2 * Z.of_nat n)) with di in Hd by lia. }
    destruct (movs_ok si di s) as (s1 & E1 & R1 & C1).
    { eapply span_sub; [exact Hs | done | lia | lia]. }
    { eapply span_sub; [exact Hd | done | lia | lia]. }
    unfold bind. rewrite E1.
    destruct (IH (si - 4) (di - 4) s1) as (s2 & E2 & R2 & C2).
    + apply (span_ram s); [done |]. eapply span_sub; [exact Hs | | lia | lia].
      replace (si - 4 + 4 - 4 * Z.of_nat n) with (si + 2 * (- 2 * Z.of_nat n)) by lia. by apply even_add.
    + apply (span_ram s); [done |]. eapply span_sub; [exact Hd | | lia | lia].
      replace (di - 4 + 4 - 4 * Z.of_nat n) with (di + 2 * (- 2 * Z.of_nat n)) by lia. by apply even_add.
    + lia.
    + exists s2. split; [done |]. split; [by eapply ram_only_trans |].
      intros b Hb. rewrite C2 by done.
      replace (di - 4 + 4 - 4 * Z.of_nat n) with (di + 2 * (- 2 * Z.of_nat n)) by lia.
      replace (di + 4 - 4 * Z.of_nat (S n)) with (di + 2 * (- 2 * Z.of_nat n)) by lia.
      set (lo := di + 2 * (- 2 * Z.of_nat n)).
      assert (Hlo : (b - lo) mod 2 = 0) by (apply even_diff; [by apply even_add | done]).
      rewrite !in_span_spec by done.
      destruct ((lo <=? b) && (b <? lo + 2 * Z.of_nat (2 * n))) eqn:Hin.
      * b2p_in Hin. replace ((lo <=? b) && (b <? lo + 2 * Z.of_nat (2 * S n))) with true by blia.
        rewrite C1, (proj2 (Z.eqb_neq _ (di + 2))), (proj2 (Z.eqb_neq _ di)) by lia. f_equal. lia.
      * rewrite C1. assert (b <> di + 1) by (intros ->; rewrite Zplus_mod, Ed in Hb; done).
        assert (b <> di + 3) by (intros ->; rewrite Zplus_mod, Ed in Hb; done).
        destruct (Z.eqb_spec b (di + 2)) as [->|].
        -- replace ((lo <=? di + 2) && (di + 2 <? lo + 2 * Z.of_nat (2 * S n))) with true by blia.
           rewrite u16_cell. f_equal. lia.
        -- destruct (Z.eqb_spec b di) as [->|].
           ++ replace ((lo <=? di) && (di <? lo + 2 * Z.of_nat (2 * S n))) with true by blia.
              rewrite u16_cell. f_equal. lia.
           ++ assert ((lo <=? b) && (b <? lo + 2 * Z.of_nat (2 * S n)) = false) as ->; [| done].
              b2p. b2p_in Hin. lia.
Qed.

(** ** Rows *)

Lemma row_lt R x y k : 0 <= x < R -> (y * R + x <? k * R) = (y <? k).
Proof. intros H. apply eq_true_iff_eq. b2p. nia. Qed.

Lemma row_le R x y k : 0 <= x < R -> (k * R <=? y * R + x) = (k <=? y).
Proof. intros H. apply eq_true_iff_eq. b2p. nia. Qed.

Lemma row_apart R y z : y <> z -> 0 < R -> (y + 1) * R <= z * R \/ (z + 1) * R <= y * R.
Proof. nia. Qed.

(** Cell [x] of row [y] of the window lies in rows [lo] to [hi] iff [y] does. *)
Lemma in_rows o R lo hi x y n :
  R mod 2 = 0 -> 0 <= 2 * x < R -> lo <= hi -> 2 * Z.of_nat n = (hi - lo) * R ->
  in_span (o + lo * R) n (o + y * R + 2 * x) = (lo <=? y) && (y <? hi).
Proof.
  intros HR Hx Hlh Hn. rewrite in_span_spec, Hn.
  - rewrite <- (row_le R (2 * x) y lo), <- (row_lt R (2 * x) y hi) by done. f_equal; blia.
  - replace (o + y * R + 2 * x - (o + lo * R)) with ((y - lo) * R + x * 2) by lia.
    rewrite Z.mod_add, Zmult_mod, HR, Z.mul_0_r by lia. done.
Qed.

Section Rows.
Context (s : con) (Hwf : con_wf s).

Let v := vid s.
Let R := video_size_row v.

Lemma row_size : R = 2 * video_num_columns v /\ R mod 2 = 0 /\ 16 <= R < 2 ^ 16.
Proof.
  pose proof (cw_vid s Hwf) as [H1 H2 _ _ _]. unfold R, v. rewrite H2. split_and!; try lia.
  rewrite Z.mul_comm. apply Z.mod_mul. lia.
Qed.

Lemma row_even k : (origin s + k * R) mod 2 = 0.
Proof.
  destruct row_size as (HR & _ & _). rewrite HR.
  replace (origin s + k * (2 * video_num_columns v)) with (origin s + 2 * (k * video_num_columns v)) by lia.
  apply even_add, Hwf.
Qed.

(** A range of whole rows of the window is in video memory. *)
Lemma rows_ok lo n :
  0 <= lo -> 2 * Z.of_nat n <= (video_num_lines v - lo) * R -> span_ok s (origin s + lo * R) n.
Proof.
  intros Hlo Hn. destruct (cw_window s Hwf) as (H1 & H2 & H3). destruct row_size as (_ & _ & HR).
  fold v R in H1, H2, H3. split; [apply row_even | right; fold v; nia].
Qed.

Lemma dwords_le rows :
  0 <= rows <= video_num_lines v ->
  4 * Z.of_nat (dwords rows (video_num_columns v)) <= rows * R
  /\ (video_num_columns v mod 2 = 0 ->
      4 * Z.of_nat (dwords rows (video_num_columns v)) = rows * R).
Proof.
  intros Hr. pose proof (cw_vid s Hwf) as [H1 H2 H3 _ _]. fold v in H1, H2, H3. unfold dwords, R.
  rewrite H2, u32_small by nia. rewrite Z.shiftr_div_pow2 by lia. change (2 ^ 1) with 2.
  pose proof (Z.div_mod (rows * video_num_columns v) 2 ltac:(lia)) as Hd.
  pose proof (Z.mod_pos_bound (rows * video_num_columns v) 2 ltac:(lia)).
  assert (0 <= rows * video_num_columns v / 2) by (apply Z.div_pos; nia).
  rewrite Z2Nat.id by done. split; [lia |]. intros Hc. rewrite Zmult_mod, Hc, Z.mul_0_r in Hd.
  change (0 mod 2) with 0 in Hd. lia.
Qed.
End Rows.
