(* ===== verification/Terminal.v ===== *)
(** kernel/chr_drv/console.c proved: scrolling, the invariant of every output
    routine, and the console as a terminal. *)
From stdpp Require Import base list gmap strings.
From Stdlib Require Import ZArith Lia.
From S2P Require Import Prelude Bits Console.
Open Scope Z_scope.

(** ** Scrolling *)

Definition scrolled_up (s : con) (x y : Z) : Z :=
  if (top s <=? y) && (y <? bottom s - 1) then screen s x (y + 1)
  else if y =? bottom s - 1 then u16 (video_erase_char (vid s)) else screen s x y.

Definition scrolled_down (s : con) (x y : Z) : Z :=
  if (top s <? y) && (y <? bottom s) then screen s x (y - 1)
  else if y =? top s then u16 (video_erase_char (vid s)) else screen s x y.

(** The screen of [s'] shows [f]; [x] and [y] range over the screen. *)
Definition shows (s s' : con) (f : con -> Z -> Z -> Z) : Prop :=
  video_num_columns (vid s) mod 2 = 0 ->
  forall x y, 0 <= x < video_num_columns (vid s) -> 0 <= y < video_num_lines (vid s) ->
  screen s' x y = f s x y.

Lemma screen_even s x y : con_wf s -> (origin s + y * video_size_row (vid s) + 2 * x) mod 2 = 0.
Proof. intros Hwf. apply even_add, (row_even s Hwf). Qed.

Lemma ram_only_screen s s' x y :
  ram_only s s' -> screen s' x y = cell s' (origin s + y * video_size_row (vid s) + 2 * x).
Proof. by intros (f & ->). Qed.

Lemma scrup_region_ok s :
  con_wf s -> exists s', scrup_region s = Ok tt s' /\ ram_only s s' /\ shows s s' scrolled_up.
Proof.
  intros Hwf. unfold scrup_region, bind at 1, get, id. cbn zeta.
  destruct (row_size s Hwf) as (HR & HRe & HRb). destruct (cw_region s Hwf) as (Ht & Hb).
  destruct (dwords_le s Hwf (bottom s - top s - 1)) as (Hn & Hne); [lia |].
  set (R := video_size_row (vid s)) in *. set (n := dwords _ _) in *.
  rewrite !(Z.mul_comm R).
  destruct (movsl_ok n (origin s + (top s + 1) * R) (origin s + top s * R) s) as (s1 & E1 & R1 & C1).
  { apply rows_ok; [done | lia | fold R; nia]. }
  { apply rows_ok; [done | lia | fold R; nia]. }
  { nia. }
  unfold bind. rewrite E1.
  destruct (stosw_ok (Z.to_nat (video_num_columns (vid s))) (origin s + top s * R + 4 * Z.of_nat n)
              (video_erase_char (vid s)) s1) as (s2 & E2 & R2 & C2).
  { apply (span_ram s); [done |].
    replace (origin s + top s * R + 4 * Z.of_nat n) with (origin s + top s * R + 2 * (2 * Z.of_nat n)) by lia.
    split; [apply even_add, (row_even s Hwf) |]. right.
    destruct (rows_ok s Hwf 0 (Z.to_nat (video_num_lines (vid s) * video_num_columns (vid s)))) as (_ & [H0 | H0]);
      [lia | nia | nia |]. fold R in H0. nia. }
  exists s2. split; [done |]. assert (HR2 : ram_only s s2) by (by eapply ram_only_trans).
  split; [done |]. intros Hc x y Hx Hy. specialize (Hne Hc).
  rewrite (ram_only_screen s s2) by done. fold R.
  rewrite C2, C1 by (by apply screen_even). unfold scrolled_up, screen. fold R.
  replace (origin s + top s * R + 4 * Z.of_nat n) with (origin s + (bottom s - 1) * R) by nia.
  rewrite !in_rows with (hi := bottom s) by (done || lia || nia).
  rewrite in_rows with (hi := bottom s - 1) by (done || lia || nia).
  replace ((bottom s - 1 <=? y) && (y <? bottom s)) with (y =? bottom s - 1) by blia.
  destruct (Z.eqb_spec y (bottom s - 1)) as [->|Hne2].
  - by replace ((top s <=? bottom s - 1) && (bottom s - 1 <? bottom s - 1)) with false by blia.
  - case_match; [| done]. f_equal. nia.
Qed.

(** Only the window, the contents of video memory and the ports changed. *)
Definition window_only (s s' : con) : Prop :=
  exists o e p f g, s' = set_ports g (set_vram f (set_window o e p s)).

Lemma window_only_ram s s1 s' : ram_only s s1 -> window_only s1 s' -> window_only s s'.
Proof. intros (f & ->) (o & e & p & f' & g & ->). by exists o, e, p, (f' ∘ f), g. Qed.

Lemma ram_only_window s s' : ram_only s s' -> window_only s s'.
Proof. intros (f & ->). exists (origin s), (scr_end s), (pos s), f, id. by destruct s. Qed.

Lemma set_origin_ok s : exists g, set_origin s = Ok tt (set_ports g s).
Proof.
  set (d := u32 (origin s - video_mem_start (vid s))).
  set (reg := video_port_reg (vid s)). set (val := video_port_val (vid s)).
  by exists (fun l => (val, Z.land 0xff (Z.shiftr d 1)) :: (reg, 13)
                   :: (val, Z.land 0xff (Z.shiftr d 9)) :: (reg, 12) :: l).
Qed.

(** The window at [o]; the cursor keeps its place on the screen. *)
Definition window_at (o : Z) (s : con) : con :=
  set_window o (o + video_num_lines (vid s) * video_size_row (vid s))
    (o + con_y s * video_size_row (vid s) + 2 * con_x s) s.

Lemma window_at_wf o s :
  con_wf s -> video_mem_start (vid s) <= o -> o mod 2 = 0 ->
  o + video_num_lines (vid s) * video_size_row (vid s) <= video_mem_end (vid s) ->
  con_wf (window_at o s).
Proof. by intros [] ? ? ?; constructor. Qed.

(** The rest of [scrup_window] after the window has moved, both cases. *)
Lemma scrup_copy_back s :
  con_wf s -> top s = 0 -> bottom s = video_num_lines (vid s) ->
  let R := video_size_row (vid s) in
  let n := dwords (video_num_lines (vid s) - 1) (video_num_columns (vid s)) in
  exists s2, (movsl n (origin s + R) (video_mem_start (vid s)) ;;;
     stosw (Z.to_nat (video_num_columns (vid s))) (video_mem_start (vid s) + 4 * Z.of_nat n)
           (video_erase_char (vid s))) (window_at (origin s + R) s) = Ok tt s2
  /\ ram_only (window_at (origin s + R) s) s2
  /\ shows s (window_at (video_mem_start (vid s)) s2) scrolled_up.
Proof.
  intros Hwf Htop Hbot R n.
  destruct (row_size s Hwf) as (HR & HRe & HRb). fold R in HR, HRe, HRb.
  destruct (cw_window s Hwf) as (W1 & W2 & W3). fold R in W2.
  pose proof (cw_vid s Hwf) as [V1 V2 V3 V4 V5].
  destruct (dwords_le s Hwf (video_num_lines (vid s) - 1)) as (Hn & Hne); [lia |]. fold n R in Hn, Hne.
  set (s1 := window_at (origin s + R) s). set (m := video_mem_start (vid s)) in *.
  destruct (movsl_ok n (origin s + R) m s1) as (s2 & E2 & R2 & C2).
  { split; [| right; cbn [s1 window_at set_window vid]; fold m; nia].
    rewrite <- (Z.mul_1_l R). apply (row_even s Hwf). }
  { split; [done | right; cbn [s1 window_at set_window vid]; fold m; nia]. }
  { nia. }
  destruct (stosw_ok (Z.to_nat (video_num_columns (vid s))) (m + 4 * Z.of_nat n)
              (video_erase_char (vid s)) s2) as (s3 & E3 & R3 & C3).
  { apply (span_ram s1); [done |]. split.
    - replace (m + 4 * Z.of_nat n) with (m + 2 * (2 * Z.of_nat n)) by lia. by apply even_add.
    - right. cbn [s1 window_at set_window vid]. fold m. nia. }
  exists s3. unfold bind. rewrite E2. split; [done |].
  assert (R13 : ram_only s1 s3) by (by eapply ram_only_trans). split; [done |].
  intros Hc x y Hx Hy. specialize (Hne Hc). unfold screen.
  change (cell (window_at m s3)) with (cell s3).
  assert (Hv : vid s3 = vid s) by (by destruct R13 as (f & ->)).
  cbn [origin window_at set_window vid]. rewrite Hv. fold R.
  assert (Hev : (m + y * R + 2 * x) mod 2 = 0).
  { rewrite HR. replace (m + y * (2 * video_num_columns (vid s)) + 2 * x)
      with (m + 2 * (y * video_num_columns (vid s) + x)) by lia. by apply even_add. }
  rewrite C3, C2 by done. change (cell s1) with (cell s).
  replace (m + 4 * Z.of_nat n) with (m + (bottom s - 1) * R) by nia.
  rewrite in_rows with (hi := bottom s) by (done || lia || nia).
  assert (in_span m (2 * n) (m + y * R + 2 * x) = (0 <=? y) && (y <? bottom s - 1)) as ->.
  { rewrite <- (in_rows m R 0 (bottom s - 1) x y (2 * n)) by (done || lia || nia).
    by rewrite Z.mul_0_l, Z.add_0_r. }
  unfold scrolled_up, screen. fold R. rewrite Htop.
  replace ((bottom s - 1 <=? y) && (y <? bottom s)) with (y =? bottom s - 1) by blia.
  destruct (Z.eqb_spec y (bottom s - 1)) as [->|Hne2].
  - by replace ((0 <=? bottom s - 1) && (bottom s - 1 <? bottom s - 1)) with false by blia.
  - case_match; [| lia]. f_equal. lia.
Qed.

Lemma scrup_erase_last s :
  con_wf s -> top s = 0 -> bottom s = video_num_lines (vid s) ->
  let R := video_size_row (vid s) in
  scr_end s + R <= video_mem_end (vid s) ->
  exists s2, stosw (Z.to_nat (video_num_columns (vid s))) (scr_end s) (video_erase_char (vid s))
               (window_at (origin s + R) s) = Ok tt s2
  /\ ram_only (window_at (origin s + R) s) s2 /\ shows s s2 scrolled_up.
Proof.
  intros Hwf Htop Hbot R Hend.
  destruct (row_size s Hwf) as (HR & HRe & HRb). fold R in HR, HRe, HRb.
  destruct (cw_window s Hwf) as (W1 & W2 & W3). fold R in W2.
  pose proof (cw_vid s Hwf) as [V1 V2 V3 V4 V5].
  set (s1 := window_at (origin s + R) s).
  destruct (stosw_ok (Z.to_nat (video_num_columns (vid s))) (scr_end s) (video_erase_char (vid s)) s1)
    as (s2 & E2 & R2 & C2).
  { rewrite W2. split; [apply (row_even s Hwf) | right].
    cbn [s1 window_at set_window vid]. nia. }
  exists s2. split; [done |]. split; [done |]. intros Hc x y Hx Hy.
  rewrite (ram_only_screen s1) by done. cbn [origin s1 window_at set_window vid]. fold R.
  assert (Hev : (origin s + R + y * R + 2 * x) mod 2 = 0).
  { replace (origin s + R + y * R + 2 * x) with (origin s + (y + 1) * R + 2 * x) by lia.
    by apply screen_even. }
  rewrite C2 by done. change (cell s1) with (cell s).
  replace (scr_end s) with (origin s + R + (bottom s - 1) * R) by nia.
  rewrite in_rows with (hi := bottom s) by (done || lia || nia).
  unfold scrolled_up, screen. fold R. rewrite Htop.
  replace ((bottom s - 1 <=? y) && (y <? bottom s)) with (y =? bottom s - 1) by blia.
  destruct (Z.eqb_spec y (bottom s - 1)) as [->|Hne2].
  - by replace ((0 <=? bottom s - 1) && (bottom s - 1 <? bottom s - 1)) with false by blia.
  - replace ((0 <=? y) && (y <? bottom s - 1)) with true by blia. f_equal. lia.
Qed.

(** A step of a console routine that scrolls: it returns, keeps the invariant
    and everything but window, memory and ports, and the screen shows [f]. *)
Definition scrolls (m : M con unit) (s : con) (f : con -> Z -> Z -> Z) : Prop :=
  exists s', m s = Ok tt s' /\ con_wf s' /\ window_only s s' /\ shows s s' f.

Lemma scrup_window_ok s :
  con_wf s -> top s = 0 -> bottom s = video_num_lines (vid s) -> scrolls scrup_window s scrolled_up.
Proof.
  intros Hwf Htop Hbot. set (R := video_size_row (vid s)).
  destruct (row_size s Hwf) as (HR & HRe & HRb). fold R in HR, HRe, HRb.
  destruct (cw_window s Hwf) as (W1 & W2 & W3). fold R in W2.
  pose proof (cw_vid s Hwf) as [V1 V2 V3 V4 V5]. pose proof (cw_pos s Hwf) as HP. fold R in HP.
  pose proof (cw_x s Hwf). pose proof (cw_y s Hwf).
  unfold scrolls, scrup_window, get, modify, id. unfold bind at 1 2. fold R.
  rewrite !u32_small by nia.
  replace (set_window _ _ _ s) with (window_at (origin s + R) s)
    by (unfold window_at; fold R; f_equal; nia).
  unfold bind at 1. cbn [scr_end window_at set_window]. fold R.
  replace (origin s + R + video_num_lines (vid s) * R - R) with (scr_end s) by nia.
  destruct (Z.ltb_spec (video_mem_end (vid s)) (origin s + R + video_num_lines (vid s) * R)) as [Hm|Hm].
  - destruct (scrup_copy_back s Hwf Htop Hbot) as (s2 & E2 & (f & ->) & S2). fold R in E2, S2.
    set (m := video_mem_start (vid s)) in *.
    change (window_at m (set_vram f (window_at (origin s + R) s)))
      with (set_vram f (window_at m s)) in S2.
    destruct (set_origin_ok (set_vram f (window_at m s))) as (g & Eg).
    exists (set_ports g (set_vram f (window_at m s))). split_and!.
    + unfold bind in E2 |- *. cbn [origin window_at set_window].
      destruct (movsl _ _ _ _) as [[] sa | | |]; try done. rewrite E2, <- Eg. f_equal.
      unfold window_at. fold R. cbn [pos set_window].
      rewrite (u32_small (origin s + R - m)), !u32_small by nia.
      unfold set_vram, set_window. cbn. f_equal; nia.
    + apply wf_set_ports, wf_set_vram, window_at_wf; try done. fold R. lia.
    + by do 5 eexists.
    + exact S2.
  - destruct (scrup_erase_last s Hwf Htop Hbot) as (s2 & E2 & (f & ->) & S2); [fold R; lia |].
    fold R in E2, S2. destruct (set_origin_ok (set_vram f (window_at (origin s + R) s))) as (g & Eg).
    exists (set_ports g (set_vram f (window_at (origin s + R) s))). split_and!.
    + unfold bind. by rewrite E2, <- Eg.
    + apply wf_set_ports, wf_set_vram, window_at_wf; try done; fold R; try lia.
      rewrite <- (Z.mul_1_l R). apply (row_even s Hwf).
    + by do 5 eexists.
    + exact S2.
Qed.

Lemma scrup_ok s : con_wf s -> scrolls scrup s scrolled_up.
Proof.
  intros Hwf.
  assert (HRegion : scrolls scrup_region s scrolled_up).
  { destruct (scrup_region_ok s Hwf) as (s' & E & R & S). exists s'.
    split_and!; [done | by eapply ram_only_wf | by apply ram_only_window | done]. }
  unfold scrolls, scrup, bind, get, id. destruct (is_ega (vid s)); [| done].
  destruct ((top s =? 0) && (bottom s =? video_num_lines (vid s))) eqn:E; [| done].
  b2p_in E. apply scrup_window_ok; [done | lia | lia].
Qed.

Lemma scrdown_ok s : con_wf s -> scrolls scrdown s scrolled_down.
Proof.
  intros Hwf. unfold scrolls, scrdown, bind at 1, get, id. cbn zeta.
  destruct (row_size s Hwf) as (HR & HRe & HRb). destruct (cw_region s Hwf) as (Ht & Hb).
  destruct (dwords_le s Hwf (bottom s - top s - 1)) as (Hn & Hne); [lia |].
  set (R := video_size_row (vid s)) in *. set (n := dwords _ _) in *.
  rewrite !(Z.mul_comm R).
  assert (HWin : span_ok s (origin s + 0 * R) (Z.to_nat (video_num_lines (vid s) * video_num_columns (vid s)))).
  { pose proof (cw_vid s Hwf) as [V1 V2 V3 V4 V5]. apply rows_ok; [done | lia | fold R; nia]. }
  pose proof (cw_vid s Hwf) as [V1 V2 V3 V4 V5].
  assert (HB : forall k, (origin s + k * R - 4 * Z.of_nat n) mod 2 = 0).
  { intros k. replace (origin s + k * R - 4 * Z.of_nat n) with (origin s + k * R + 2 * (- 2 * Z.of_nat n)) by lia.
    apply even_add, (row_even s Hwf). }
  destruct (movsl_std_ok n (origin s + (bottom s - 1) * R - 4) (origin s + bottom s * R - 4) s)
    as (s1 & E1 & R1 & C1).
  { eapply span_sub; [exact HWin | | nia | nia].
    replace (origin s + (bottom s - 1) * R - 4 + 4 - 4 * Z.of_nat n)
      with (origin s + (bottom s - 1) * R - 4 * Z.of_nat n) by lia. apply HB. }
  { eapply span_sub; [exact HWin | | nia | nia].
    replace (origin s + bottom s * R - 4 + 4 - 4 * Z.of_nat n)
      with (origin s + bottom s * R - 4 * Z.of_nat n) by lia. apply HB. }
  { nia. }
  set (w := Z.to_nat (video_num_columns (vid s))).
  destruct (stosw_std_ok w (origin s + bottom s * R - 4 - 4 * Z.of_nat n + 2)
              (video_erase_char (vid s)) s1) as (s2 & E2 & R2 & C2).
  { apply (span_ram s); [done |]. eapply span_sub; [exact HWin | | nia | nia].
    replace (origin s + bottom s * R - 4 - 4 * Z.of_nat n + 2 + 2 - 2 * Z.of_nat w)
      with (origin s + (bottom s - 1) * R - 4 * Z.of_nat n) by nia. apply HB. }
  exists s2. assert (R02 : ram_only s s2) by (by eapply ram_only_trans).
  split; [unfold bind; by rewrite E1 |]. split; [by eapply ram_only_wf |].
  split; [by apply ram_only_window |]. intros Hc x y Hx Hy. specialize (Hne Hc).
  rewrite (ram_only_screen s s2) by done. fold R.
  rewrite C2, C1 by (by apply screen_even). unfold scrolled_down, screen. fold R.
  replace (origin s + bottom s * R - 4 - 4 * Z.of_nat n + 2 + 2 - 2 * Z.of_nat w)
    with (origin s + top s * R) by nia.
  replace (origin s + bottom s * R - 4 + 4 - 4 * Z.of_nat n) with (origin s + (top s + 1) * R) by nia.
  rewrite in_rows with (hi := top s + 1) by (done || lia || nia).
  rewrite in_rows with (hi := bottom s) by (done || lia || nia).
  replace ((top s <=? y) && (y <? top s + 1)) with (y =? top s) by blia.
  replace ((top s + 1 <=? y) && (y <? bottom s)) with ((top s <? y) && (y <? bottom s))
    by (apply eq_true_iff_eq; b2p; lia).
  destruct (Z.eqb_spec y (top s)) as [->|Hne2].
  - by replace ((top s <? top s) && (top s <? bottom s)) with false by blia.
  - case_match; [| done]. f_equal. nia.
Qed.

(** ** Every operation keeps the invariant *)

(** [m] returns in [s], in a well-formed state with the same display. *)
Definition keeps {A} (m : M con A) (s : con) : Prop :=
  wp m (fun _ s' => con_wf s' /\ vid s' = vid s) s.

Lemma keeps_bind {A B} (m : M con A) (k : A -> M con B) s :
  keeps m s ->
  (forall a s', m s = Ok a s' -> con_wf s' -> vid s' = vid s -> keeps (k a) s') ->
  keeps (bind m k) s.
Proof.
  unfold keeps, wp, bind. destruct (m s) as [a s' | | |]; [| done..].
  intros (W & V) H. specialize (H a s' eq_refl W V). destruct (k a s') as [b s'' | | |]; [| done..].
  by rewrite <- V.
Qed.

Lemma keeps_seq {A B} (m : M con A) (k : M con B) s :
  keeps m s -> (forall s', con_wf s' -> vid s' = vid s -> keeps k s') -> keeps (m ;;; k) s.
Proof. intros Hm Hk. apply keeps_bind; auto. Qed.

Lemma keeps_get {A B} (f : con -> A) (k : A -> M con B) s : keeps (k (f s)) s -> keeps (bind (get f) k) s.
Proof. done. Qed.

Lemma keeps_ret {A} (a : A) s : con_wf s -> keeps (ret a) s.
Proof. done. Qed.

Lemma keeps_modify f s : con_wf (f s) -> vid (f s) = vid s -> keeps (modify f) s.
Proof. done. Qed.

Lemma keeps_modify_seq {B} f (k : M con B) s :
  vid (f s) = vid s -> keeps k (f s) -> keeps (modify f ;;; k) s.
Proof.
  unfold keeps, wp, bind, modify. intros V. destruct (k (f s)); [| done..].
  by rewrite V.
Qed.

Lemma keeps_window m s f : scrolls m s f -> keeps m s.
Proof.
  intros (s' & E & W & (o & e & p & g & h & ->) & _). unfold keeps, wp. by rewrite E.
Qed.

Lemma keeps_ram (m : M con unit) s s' : m s = Ok tt s' -> ram_only s s' -> con_wf s -> keeps m s.
Proof.
  intros E R W. unfold keeps, wp. rewrite E. split; [by eapply ram_only_wf | by destruct R as (f & ->)].
Qed.
#[export] Hint Resolve keeps_ret : kernel.

(** A fill of cells between [pos s] and the end of the screen, or from its start. *)
Lemma stosw_keeps n a v s : con_wf s -> span_ok s a n -> keeps (stosw n a v) s.
Proof. intros W H. destruct (stosw_ok n a v s H) as (s' & E & R & _). by eapply keeps_ram. Qed.

(** The window as one span of cells. *)
Lemma window_span s a n :
  con_wf s -> a mod 2 = 0 -> origin s <= a -> a + 2 * Z.of_nat n <= scr_end s -> span_ok s a n.
Proof.
  intros W He H1 H2. destruct (cw_window s W) as (W1 & W2 & W3). split; [done | right; lia].
Qed.

Lemma pos_even s : con_wf s -> pos s mod 2 = 0.
Proof. intros W. rewrite (cw_pos s W). by apply screen_even. Qed.

(** Where the cursor is, relative to its row and to the window. *)
Lemma cursor_bounds s :
  con_wf s ->
  let row := pos s - 2 * con_x s in
  origin s <= row /\ row + video_size_row (vid s) <= scr_end s /\ 0 <= origin s /\ scr_end s < 2 ^ 31
  /\ video_size_row (vid s) = 2 * video_num_columns (vid s) /\ row mod 2 = 0.
Proof.
  intros W row. destruct (cw_window s W) as (W1 & W2 & W3). pose proof (cw_pos s W) as HP.
  pose proof (cw_vid s W) as [V1 V2 V3 V4 V5]. pose proof (cw_y s W).
  unfold row. rewrite HP. split_and!; try lia; try nia.
  replace (_ - 2 * con_x s) with (origin s + con_y s * video_size_row (vid s)) by lia.
  by apply row_even.
Qed.

Lemma gotoxy_keeps a b s : con_wf s -> 0 <= a -> 0 <= b -> keeps (gotoxy a b) s.
Proof.
  intros W Ha Hb. unfold keeps, wp, gotoxy. destruct ((video_num_columns (vid s) <? a) || (video_num_lines (vid s) <=? b)) eqn:E; [done |]. b2p_in E.
  split; [| done]. destruct (cw_window s W) as (W1 & W2 & W3).
  pose proof (cw_vid s W) as [V1 V2 V3 V4 V5]. rewrite Z.shiftl_mul_pow2 by lia. change (2 ^ 1) with 2.
  rewrite u32_small by nia. apply wf_set_cur; [done | lia | lia | lia].
Qed.

Lemma lf_keeps s : con_wf s -> keeps lf s.
Proof.
  intros W. unfold lf. apply keeps_get. unfold id.
  pose proof (cw_y s W). pose proof (cw_vid s W) as [V1 V2 V3 V4 V5]. rewrite (u32_small (con_y s + 1)) by lia.
  case_match eqn:E; [| by eapply keeps_window, scrup_ok]. b2p_in E.
  destruct (cursor_bounds s W) as (B1 & B2 & B3 & B4 & B5 & _). pose proof (cw_x s W).
  destruct (cw_window s W) as (W1 & W2 & W3). pose proof (cw_region s W). pose proof (cw_pos s W).
  apply keeps_modify; [| done]. rewrite u32_small by nia.
  apply wf_set_cur; [done | lia | lia | lia].
Qed.

Lemma ri_keeps s : con_wf s -> keeps ri s.
Proof.
  intros W. unfold ri. apply keeps_get. unfold id.
  case_match eqn:E; [| by eapply keeps_window, scrdown_ok]. b2p_in E.
  destruct (cursor_bounds s W) as (B1 & B2 & B3 & B4 & B5 & _). pose proof (cw_x s W). pose proof (cw_y s W).
  pose proof (cw_region s W). pose proof (cw_pos s W). pose proof (cw_vid s W) as [V1 V2 V3 V4 V5].
  apply keeps_modify; [| done]. rewrite u32_small by nia.
  apply wf_set_cur; [done | lia | lia | lia].
Qed.
#[export] Hint Resolve lf_keeps ri_keeps : kernel.

(** The numeric facts of a well-formed console. *)
Ltac con_facts W :=
  let B := fresh "B" in pose proof (cursor_bounds _ W) as B; cbn zeta in B;
  pose proof (cw_x _ W); pose proof (cw_y _ W); pose proof (cw_pos _ W);
  pose proof (cw_region _ W); pose proof (cw_window _ W);
  pose proof (vw_cols _ (cw_vid _ W)); pose proof (vw_lines _ (cw_vid _ W));
  pose proof (vw_mem _ (cw_vid _ W)).

(** Move the cursor within its row. *)
Lemma set_cur_row x p s :
  con_wf s -> 0 <= x <= video_num_columns (vid s) -> p = pos s + 2 * (x - con_x s) ->
  con_wf (set_cur x (con_y s) (u32 p) s).
Proof.
  intros W Hx ->. con_facts W. rewrite u32_small by lia.
  apply wf_set_cur; [done | done | done | lia].
Qed.

Lemma shiftl_1 a : Z.shiftl a 1 = 2 * a.
Proof. rewrite Z.shiftl_mul_pow2 by lia. lia. Qed.

Lemma cr_keeps s : con_wf s -> keeps cr s.
Proof.
  intros W. apply keeps_modify; [| done]. con_facts W.
  apply set_cur_row; [done | lia | rewrite shiftl_1; lia].
Qed.

Lemma vset_keeps a v s :
  con_wf s -> a mod 2 = 0 -> origin s <= a -> a + 2 <= scr_end s -> keeps (vset a v) s.
Proof.
  intros W He H1 H2. unfold keeps, wp, vset.
  rewrite (span_cell s a 0) by (apply window_span; [done | done | lia | lia]). auto with kernel.
Qed.

Lemma del_keeps s : con_wf s -> keeps del s.
Proof.
  intros W. unfold del. apply keeps_get. unfold id, cbool. case_match eqn:E; [| auto with kernel].
  b2p_in E. con_facts W. pose proof (pos_even s W) as He.
  apply keeps_modify_seq; [done |]. rewrite u32_small by lia.
  apply vset_keeps; cbn [origin scr_end set_cur]; [| | lia | lia].
  - rewrite <- (u32_small (pos s - 2)) by lia. apply set_cur_row; [done | lia | lia].
  - replace (pos s - 2) with (pos s + 2 * -1) by lia. by apply even_add.
Qed.

Lemma csi_J_keeps p s : con_wf s -> keeps (csi_J p) s.
Proof.
  intros W. unfold csi_J. apply keeps_get. unfold id. con_facts W. pose proof (pos_even s W) as He.
  pose proof (cw_even s W) as Ho. unfold keeps.
  assert (HS : forall a c, a mod 2 = 0 -> origin s <= a -> 0 <= c -> a + 2 * c <= scr_end s ->
            keeps (stosw (Z.to_nat c) a (video_erase_char (vid s))) s).
  { intros a c Ha H1' H2' H3'. apply stosw_keeps; [done |]. apply window_span; [done | done | lia | lia]. }
  destruct (s32 p) as [|[q|[q|q|]|]|q]; try (by apply keeps_ret).
  - rewrite u32_small, Z.shiftr_div_pow2 by lia. change (2 ^ 1) with 2. apply HS; try done; try lia.
    + apply Z.div_pos; lia.
    + pose proof (Z.mul_div_le (scr_end s - pos s) 2). lia.
  - rewrite u32_small by nia. apply HS; try done; try nia.
  - rewrite u32_small, Z.shiftr_div_pow2 by lia. change (2 ^ 1) with 2. apply HS; try done; try lia.
    + apply Z.div_pos; lia.
    + pose proof (Z.mul_div_le (pos s - origin s) 2). lia.
Qed.

Lemma csi_K_keeps p s : con_wf s -> keeps (csi_K p) s.
Proof.
  intros W. unfold csi_K. apply keeps_get. unfold id. con_facts W. pose proof (pos_even s W) as He.
  assert (HS : forall a c, a mod 2 = 0 -> origin s <= a -> 0 <= c -> a + 2 * c <= scr_end s ->
            keeps (stosw (Z.to_nat c) a (video_erase_char (vid s))) s).
  { intros a c Ha H1' H2' H3'. apply stosw_keeps; [done |]. apply window_span; [done | done | lia | lia]. }
  rewrite shiftl_1, (u32_small (pos s - 2 * con_x s)) by lia.
  destruct (s32 p) as [|[q|[q|q|]|]|q]; try (by apply keeps_ret).
  - case_match eqn:E; [by apply keeps_ret |]. b2p_in E. apply HS; try done; lia.
  - apply HS; lia.
  - case_match eqn:E; b2p_in E; apply HS; lia.
Qed.

Lemma sgr_range a p : 0 <= a < 256 -> 0 <= sgr a p < 256.
Proof. intros Ha. unfold sgr. repeat case_match; lia. Qed.

Lemma csi_m_keeps s : con_wf s -> keeps csi_m s.
Proof.
  intros W. unfold csi_m. apply keeps_get. unfold id.
  assert (HL : forall n i s, con_wf s -> 0 <= i -> i + Z.of_nat n <= NPAR -> keeps (csi_m_loop n i) s).
  { clear. induction n as [|n IH]; intros i s W Hi Hn; cbn [csi_m_loop]; [by apply keeps_ret |].
    apply keeps_get. unfold id. destruct (cw_par s W) as (HL & _). unfold NPAR in *.
    destruct (list_lookup_Z (par s) i) as (q & Hq); [rewrite HL; lia |]. rewrite Hq. cbn [need].
    apply (keeps_modify_seq _ _ s); [done |]. apply IH; [| lia | lia].
    apply wf_set_attr; [done |]. by apply sgr_range, cw_attr. }
  pose proof (cw_npar s W). unfold NPAR in *. apply HL; [done | lia | unfold NPAR; lia].
Qed.
#[export] Hint Resolve cr_keeps del_keeps csi_J_keeps csi_K_keeps csi_m_keeps : kernel.

Lemma insert_loop_ok n p old s :
  span_ok s p n -> exists s', insert_loop n p old s = Ok tt s' /\ ram_only s s'
  /\ forall b, b mod 2 = 0 ->
       cell s' b = if in_span p n b then (if b =? p then u16 old else cell s (b - 2)) else cell s b.
Proof.
  revert p old s. induction n as [|n IH]; intros p old s Hs; cbn [insert_loop].
  - exists s. split_and!; [done | auto with kernel |]. intros b _. unfold in_span.
    by replace ((p <=? b) && (b <? p + 2 * Z.of_nat 0)) with false by blia.
  - unfold bind, vget, vset. rewrite !(span_cell _ _ _ Hs).
    destruct (IH (p + 2) (cell s p) (set_vram (<[p := old]>) s)) as (s' & E & R & C).
    { apply (span_ram s); [auto with kernel |]. by apply span_tail. }
    exists s'. split; [done |]. split; [eapply ram_only_trans; [apply ram_only_vset | done] |].
    intros b Hb. destruct Hs as (He & _).
    rewrite C, in_span_S, !cell_vset, u16_cell by congruence.
    destruct (in_span (p + 2) n b) eqn:Hin.
    + apply in_span_bounds in Hin. rewrite orb_true_r, (proj2 (Z.eqb_neq b p)) by lia.
      destruct (Z.eqb_spec b (p + 2)) as [->|]; [f_equal; lia |].
      by rewrite (proj2 (Z.eqb_neq (b - 2) p)) by lia.
    + rewrite orb_false_r. by destruct (b =? p).
Qed.

Lemma delete_loop_ok n p s :
  span_ok s p (S n) -> exists s', delete_loop n p s = Ok tt s' /\ ram_only s s'
  /\ forall b, b mod 2 = 0 -> cell s' b = if in_span p n b then cell s (b + 2) else cell s b.
Proof.
  revert p s. induction n as [|n IH]; intros p s Hs; cbn [delete_loop].
  - exists s. split_and!; [done | auto with kernel |]. intros b _. unfold in_span.
    by replace ((p <=? b) && (b <? p + 2 * Z.of_nat 0)) with false by blia.
  - unfold bind, vget, vset. rewrite (span_cell _ _ _ (span_tail _ _ _ Hs)), (span_cell _ _ _ Hs).
    destruct (IH (p + 2) (set_vram (<[p := cell s (p + 2)]>) s)) as (s' & E & R & C).
    { apply (span_ram s); [auto with kernel |]. by apply span_tail. }
    exists s'. split; [done |]. split; [eapply ram_only_trans; [apply ram_only_vset | done] |].
    intros b Hb. destruct Hs as (He & _).
    rewrite C, in_span_S, !cell_vset, u16_cell by congruence.
    destruct (in_span (p + 2) n b) eqn:Hin.
    + apply in_span_bounds in Hin. by rewrite orb_true_r, (proj2 (Z.eqb_neq (b + 2) p)) by lia.
    + rewrite orb_false_r. destruct (Z.eqb_spec b p) as [->|]; done.
Qed.

(** Rows after an insertion and a deletion at the cursor. *)
Definition row_inserted (s : con) (x y : Z) : Z :=
  if (y =? con_y s) && (con_x s <=? x)
  then if x =? con_x s then u16 (video_erase_char (vid s)) else screen s (x - 1) y
  else screen s x y.

Definition row_deleted (s : con) (x y : Z) : Z :=
  if (y =? con_y s) && (con_x s <=? x)
  then if x =? video_num_columns (vid s) - 1 then u16 (video_erase_char (vid s))
       else screen s (x + 1) y
  else screen s x y.

(** Cell [x] of row [y] lies in the cursor's row from column [k] to [k + n]. *)
Lemma in_cursor_row s k n x y :
  con_wf s -> 0 <= k -> k + Z.of_nat n <= video_num_columns (vid s) ->
  0 <= x < video_num_columns (vid s) ->
  in_span (pos s + 2 * (k - con_x s)) n (origin s + y * video_size_row (vid s) + 2 * x)
  = (y =? con_y s) && (k <=? x) && (x <? k + Z.of_nat n).
Proof.
  intros W Hk Hn Hx. con_facts W. rewrite in_span_spec.
  2:{ apply even_diff; [apply even_add, pos_even, W | by apply screen_even]. }
  set (R := video_size_row (vid s)) in *.
  destruct (Z.eqb_spec y (con_y s)) as [->|Hy]; cbn [andb].
  - apply eq_true_iff_eq. b2p. lia.
  - pose proof (row_apart R y (con_y s) Hy). b2p. lia.
Qed.

Lemma insert_char_ok s :
  con_wf s -> exists s', insert_char s = Ok tt s' /\ ram_only s s' /\ shows s s' row_inserted.
Proof.
  intros W. con_facts W. pose proof (pos_even s W). unfold insert_char, bind, get, id.
  set (n := Z.to_nat (video_num_columns (vid s) - con_x s)).
  destruct (insert_loop_ok n (pos s) (video_erase_char (vid s)) s) as (s' & E & R & C).
  { apply window_span; [done | done | lia | lia]. }
  exists s'. split; [done |]. split; [done |]. intros _ x y Hx Hy.
  rewrite (ram_only_screen s s') by done. rewrite C by (by apply screen_even).
  pose proof (in_cursor_row s (con_x s) n x y W) as Hin.
  rewrite Z.sub_diag, Z.mul_0_r, Z.add_0_r in Hin. rewrite Hin by lia.
  unfold row_inserted, screen. destruct (Z.eqb_spec y (con_y s)) as [->|]; cbn [andb]; [| done].
  replace (x <? con_x s + Z.of_nat n) with true by blia. rewrite andb_true_r.
  case_match eqn:Ex; [| done]. b2p_in Ex.
  destruct (Z.eqb_spec x (con_x s)) as [->|].
  - by rewrite (proj2 (Z.eqb_eq _ (pos s))) by lia.
  - rewrite (proj2 (Z.eqb_neq _ (pos s))) by lia. f_equal. lia.
Qed.

Lemma delete_char_ok s :
  con_wf s -> exists s', delete_char s = Ok tt s' /\ ram_only s s'
  /\ (con_x s < video_num_columns (vid s) -> shows s s' row_deleted).
Proof.
  intros W. con_facts W. pose proof (pos_even s W) as He. unfold delete_char, bind at 1, get, id. cbn zeta.
  destruct (Z.leb_spec (video_num_columns (vid s)) (con_x s)) as [Hc|Hc].
  { exists s. split_and!; [done | auto with kernel | lia]. }
  set (n := video_num_columns (vid s) - con_x s - 1).
  destruct (delete_loop_ok (Z.to_nat n) (pos s) s) as (s1 & E & R & C).
  { apply window_span; [done | done | lia | lia]. }
  unfold bind. rewrite E. unfold vset.
  assert (HE : (pos s + 2 * n) mod 2 = 0) by (by apply even_add).
  rewrite (span_cell s1 _ 0).
  2:{ apply (span_ram s); [done |]. apply window_span; [done | done | lia | lia]. }
  eexists. split; [reflexivity |]. split; [eapply ram_only_trans; [done | apply ram_only_vset] |].
  intros _ _ x y Hx Hy. rewrite (ram_only_screen s) by (eapply ram_only_trans; [done | apply ram_only_vset]).
  rewrite cell_vset, C by (by apply screen_even).
  pose proof (in_cursor_row s (con_x s) (Z.to_nat n) x y W) as Hin.
  rewrite Z.sub_diag, Z.mul_0_r, Z.add_0_r in Hin. rewrite Hin by lia.
  unfold row_deleted, screen. set (Rw := video_size_row (vid s)) in *.
  destruct (Z.eqb_spec y (con_y s)) as [->|Hny]; cbn [andb].
  - replace (origin s + con_y s * Rw + 2 * x =? pos s + 2 * n)
      with (x =? video_num_columns (vid s) - 1) by blia.
    replace (x <? con_x s + Z.of_nat (Z.to_nat n)) with (x <? video_num_columns (vid s) - 1) by blia.
    destruct (Z.eqb_spec x (video_num_columns (vid s) - 1)) as [->|].
    + by replace (con_x s <=? video_num_columns (vid s) - 1) with true by blia.
    + replace (x <? video_num_columns (vid s) - 1) with true by blia. rewrite andb_true_r.
      case_match; [f_equal; lia | done].
  - pose proof (row_apart Rw y (con_y s) Hny).
    by rewrite (proj2 (Z.eqb_neq _ (pos s + 2 * n))) by lia.
Qed.

Lemma insert_char_keeps s : con_wf s -> keeps insert_char s.
Proof. intros W. destruct (insert_char_ok s W) as (s' & E & R & _). by eapply keeps_ram. Qed.

Lemma delete_char_keeps s : con_wf s -> keeps delete_char s.
Proof. intros W. destruct (delete_char_ok s W) as (s' & E & R & _). by eapply keeps_ram. Qed.

(** [insert_line] and [delete_line] scroll the rows from the cursor down and put
    the scroll region back. *)
Lemma with_region_keeps m s f :
  con_wf s -> (forall s', con_wf s' -> scrolls m s' f) ->
  keeps (modify (set_region (con_y s) (video_num_lines (vid s))) ;;; m ;;;
         modify (set_region (top s) (bottom s))) s.
Proof.
  intros W Hm. con_facts W. apply keeps_modify_seq; [done |].
  apply keeps_seq.
  - eapply keeps_window, Hm, wf_set_region; [done | lia | lia].
  - intros s' W' Hv. cbn in Hv. apply keeps_modify; [| done].
    apply wf_set_region; rewrite ?Hv; [done | lia | lia].
Qed.

Lemma insert_line_keeps s : con_wf s -> keeps insert_line s.
Proof. intros W. unfold insert_line. apply keeps_get. eapply with_region_keeps; auto using scrdown_ok. Qed.

Lemma delete_line_keeps s : con_wf s -> keeps delete_line s.
Proof. intros W. unfold delete_line. apply keeps_get. eapply with_region_keeps; auto using scrup_ok. Qed.

Lemma repeat_keeps n op s :
  con_wf s -> (forall s, con_wf s -> keeps op s) -> keeps (repeat_op n op) s.
Proof.
  intros W H. revert s W. induction n as [|n IH]; intros s W; cbn [repeat_op]; [by apply keeps_ret |].
  apply keeps_seq; auto.
Qed.

Lemma csi_at_keeps p s : con_wf s -> keeps (csi_at p) s.
Proof. intros W. apply keeps_get, repeat_keeps; auto using insert_char_keeps. Qed.
Lemma csi_L_keeps p s : con_wf s -> keeps (csi_L p) s.
Proof. intros W. apply keeps_get, repeat_keeps; auto using insert_line_keeps. Qed.
Lemma csi_P_keeps p s : con_wf s -> keeps (csi_P p) s.
Proof. intros W. apply keeps_get, repeat_keeps; auto using delete_char_keeps. Qed.
Lemma csi_M_keeps p s : con_wf s -> keeps (csi_M p) s.
Proof. intros W. apply keeps_get, repeat_keeps; auto using delete_line_keeps. Qed.

Lemma save_cur_keeps s : con_wf s -> keeps save_cur s.
Proof.
  intros W. apply keeps_modify; [| done]. apply wf_set_saved; [done | |]; apply W.
Qed.

Lemma restore_cur_keeps s : con_wf s -> keeps restore_cur s.
Proof. intros W. apply keeps_get, gotoxy_keeps; [done | |]; apply W. Qed.

Lemma sysbeep_keeps p s : con_wf s -> keeps (sysbeep p) s.
Proof. intros W. unfold sysbeep. do 4 (apply keeps_modify_seq; [done |]). apply keeps_modify; [auto 7 with kernel | done]. Qed.

#[export] Hint Resolve csi_at_keeps csi_L_keeps csi_P_keeps csi_M_keeps save_cur_keeps
  restore_cur_keeps sysbeep_keeps : kernel.

(** ** A terminal as a specification

    Cursor and grid of cells; no video memory, no window, no addresses. *)
Record term := mk_term { tx : Z; ty : Z; tgrid : Z -> Z -> Z }.

(** What the operations on a terminal depend on. *)
Record setting := mk_setting {
  t_cols : Z; t_lines : Z; t_top : Z; t_bottom : Z; t_attr : Z; t_blank : Z }.

Definition t_lf (p : setting) (t : term) : term :=
  if ty t + 1 <? t_bottom p then mk_term (tx t) (ty t + 1) (tgrid t)
  else mk_term (tx t) (ty t)
         (fun x y => if (t_top p <=? y) && (y <? t_bottom p - 1) then tgrid t x (y + 1)
                     else if y =? t_bottom p - 1 then t_blank p else tgrid t x y).

Definition t_set (x y v : Z) (t : term) : term :=
  mk_term (tx t) (ty t) (fun a b => if (a =? x) && (b =? y) then v else tgrid t a b).

Definition t_move (x y : Z) (t : term) : term := mk_term x y (tgrid t).

(** The next row, at the column that is left over. *)
Definition t_wrap (p : setting) (t : term) : term := t_lf p (t_move (tx t - t_cols p) (ty t) t).

Definition t_put (p : setting) (c : Z) (t : term) : term :=
  let t := if t_cols p <=? tx t then t_wrap p t else t in
  t_move (tx t + 1) (ty t) (t_set (tx t) (ty t) (t_attr p * 256 + c) t).

Definition t_tab (p : setting) (t : term) : term :=
  let t := t_move (8 * (tx t / 8 + 1)) (ty t) t in
  if t_cols p <? tx t then t_wrap p t else t.

Definition t_char (p : setting) (erase c : Z) (t : term) : term :=
  if (31 <? c) && (c <? 127) then t_put p c t
  else if c =? 27 then t
  else if (c =? 10) || (c =? 11) || (c =? 12) then t_lf p t
  else if c =? 13 then t_move 0 (ty t) t
  else if c =? erase then
    if tx t =? 0 then t else t_set (tx t - 1) (ty t) (t_blank p) (t_move (tx t - 1) (ty t) t)
  else if c =? 8 then if tx t =? 0 then t else t_move (tx t - 1) (ty t) t
  else if c =? 9 then t_tab p t
  else t.

Definition setting_of (s : con) : setting :=
  mk_setting (video_num_columns (vid s)) (video_num_lines (vid s)) (top s) (bottom s)
             (attr s) (u16 (video_erase_char (vid s))).

(** The console shows the terminal [t]; the contents only when rows are whole
    double words, as the scrolling code assumes. *)
Definition agrees (s : con) (t : term) : Prop :=
  tx t = con_x s /\ ty t = con_y s
  /\ (video_num_columns (vid s) mod 2 = 0 -> forall x y,
       0 <= x < video_num_columns (vid s) -> 0 <= y < video_num_lines (vid s) ->
       tgrid t x y = screen s x y).

(** What output in state 0 leaves alone. *)
Definition kept (s s' : con) : Prop :=
  vid s' = vid s /\ top s' = top s /\ bottom s' = bottom s /\ attr s' = attr s
  /\ saved_x s' = saved_x s /\ saved_y s' = saved_y s
  /\ npar s' = npar s /\ par s' = par s /\ ques s' = ques s.

Lemma kept_trans s1 s2 s3 : kept s1 s2 -> kept s2 s3 -> kept s1 s3.
Proof. unfold kept. intros H1 H2. intuition congruence. Qed.

Lemma kept_window s s' : window_only s s' -> kept s s'.
Proof. by intros (o & e & p & f & g & ->). Qed.

Lemma kept_setting s s' : kept s s' -> setting_of s' = setting_of s.
Proof. unfold kept, setting_of. intros (-> & -> & -> & -> & _). done. Qed.

Definition refines (m : M con unit) (s : con) (t : term) : Prop :=
  exists s', m s = Ok tt s' /\ con_wf s' /\ kept s s' /\ agrees s' t.

Lemma refines_keeps m s t : refines m s t -> keeps m s.
Proof. intros (s' & E & W & (V & _) & _). unfold keeps, wp. by rewrite E. Qed.

Lemma refines_seq (m : M con unit) k s t t' :
  refines m s t ->
  (forall s', con_wf s' -> kept s s' -> agrees s' t -> refines k s' t') ->
  refines (m ;;; k) s t'.
Proof.
  intros (s1 & E & W & K & A) Hk. destruct (Hk s1 W K A) as (s2 & E2 & W2 & K2 & A2).
  exists s2. rewrite (bind_Ok _ _ _ _ _ E). split_and!; [done | done | by eapply kept_trans | done].
Qed.

Lemma refines_get {A} (f : con -> A) k s t : refines (k (f s)) s t -> refines (bind (get f) k) s t.
Proof. done. Qed.

Lemma lf_refines s t : con_wf s -> agrees s t -> refines lf s (t_lf (setting_of s) t).
Proof.
  intros W (Ax & Ay & Ag). con_facts W. unfold refines, lf, bind, get, id, t_lf.
  rewrite (u32_small (con_y s + 1)), Ay by lia. cbn [t_bottom t_top t_blank setting_of].
  destruct (Z.ltb_spec (con_y s + 1) (bottom s)) as [Hlt|Hge].
  - eexists. split; [reflexivity |]. split_and!; try done.
    rewrite u32_small by nia. apply wf_set_cur; [done | lia | lia | lia].
  - destruct (scrup_ok s W) as (s' & E & W' & K & S). exists s'. rewrite E. unfold agrees. split_and!; try done.
    + by apply kept_window.
    + destruct K as (o & e & p & f & g & ->). exact Ax.
    + by destruct K as (o & e & p & f & g & ->).
    + apply kept_window in K as (V & _). rewrite V. intros Hc x y Hx Hy. cbn [tgrid].
      rewrite (S Hc x y Hx Hy). unfold scrolled_up.
      destruct ((top s <=? y) && (y <? bottom s - 1)) eqn:E1; [b2p_in E1; apply Ag; [done | lia | lia] |].
      case_match; [done | by apply Ag].
Qed.

Lemma wrap_refines s t :
  con_wf (set_cur 0 (con_y s) (pos s - 2 * con_x s) s) ->
  video_num_columns (vid s) <= con_x s <= 2 * video_num_columns (vid s) -> agrees s t ->
  refines wrap_line s (t_wrap (setting_of s) t).
Proof.
  intros W Hx (Ax & Ay & Ag). con_facts W.
  cbn [con_x con_y pos vid origin scr_end set_cur] in *.
  unfold wrap_line, t_wrap, refines, bind, modify. rewrite !u32_small by nia.
  set (s1 := set_cur _ _ _ s).
  destruct (lf_refines s1 (t_move (tx t - t_cols (setting_of s)) (ty t) t)) as (s' & E & W' & K & A).
  - apply (wf_set_cur (con_x s - video_num_columns (vid s)) (con_y s) (pos s - video_size_row (vid s))) in W;
      [exact W | cbn [con_x con_y pos vid origin scr_end set_cur]; lia..].
  - split_and!; cbn [tx ty tgrid t_move t_cols setting_of s1 con_x con_y set_cur]; [lia | done | exact Ag].
  - by exists s'.
Qed.

(** Cell [x] of row [y] is the one under the cursor. *)
Lemma under_cursor s x y :
  con_wf s -> con_x s < video_num_columns (vid s) -> 0 <= x < video_num_columns (vid s) ->
  (origin s + y * video_size_row (vid s) + 2 * x =? pos s) = (x =? con_x s) && (y =? con_y s).
Proof.
  intros W Hx Hxr. con_facts W.
  destruct (Z.eqb_spec y (con_y s)) as [->|Hy]; [rewrite andb_true_r; blia |]. rewrite andb_false_r.
  pose proof (row_apart (video_size_row (vid s)) y (con_y s) Hy). blia.
Qed.

Lemma vset_cell s v :
  con_wf s -> con_x s < video_num_columns (vid s) ->
  vset (pos s) v s = Ok tt (set_vram (<[pos s := v]>) s)
  /\ forall x y, 0 <= x < video_num_columns (vid s) ->
       screen (set_vram (<[pos s := v]>) s) x y
       = if (x =? con_x s) && (y =? con_y s) then u16 v else screen s x y.
Proof.
  intros W Hx. con_facts W. pose proof (pos_even s W). unfold vset.
  rewrite (span_cell s (pos s) 0) by (apply window_span; [done | done | lia | lia]).
  split; [done |]. intros x y Hxr.
  rewrite (ram_only_screen s), cell_vset, under_cursor by (done || apply ram_only_vset). done.
Qed.

Lemma put_cell_refines s v t :
  con_wf s -> con_x s < video_num_columns (vid s) -> agrees s t ->
  refines (vset (pos s) v ;;; modify (set_cur (u32 (con_x s + 1)) (con_y s) (u32 (pos s + 2)))) s
    (t_move (tx t + 1) (ty t) (t_set (tx t) (ty t) (u16 v) t)).
Proof.
  intros W Hx (Ax & Ay & Ag). con_facts W. destruct (vset_cell s v W Hx) as (E & S).
  unfold refines, agrees. rewrite (bind_Ok _ _ _ _ _ E). eexists. split; [reflexivity |].
  rewrite (u32_small (con_x s + 1)) by lia. split_and!; try done.
  - change (con_wf (set_vram (<[pos s := v]>) (set_cur (con_x s + 1) (con_y s) (u32 (pos s + 2)) s))).
    apply wf_set_vram, set_cur_row; [done | lia | lia].
  - cbn. by rewrite Ax.
  - intros Hc x y Hxr Hyr. cbn [tgrid t_move t_set]. rewrite Ax, Ay.
    change (screen (set_cur ?a ?b ?c ?s)) with (screen s).
    rewrite S by done. case_match; [done | by apply Ag].
Qed.

Lemma put_char_refines c s t :
  con_wf s -> 31 < c < 127 -> agrees s t ->
  refines (put_char c) s (t_put (setting_of s) c t).
Proof.
  intros W Hc A. con_facts W. pose proof (cw_attr s W). unfold put_char, t_put. apply refines_get. unfold id.
  cbn [t_cols t_attr setting_of]. replace (tx t) with (con_x s) by (symmetry; apply A).
  set (t1 := if video_num_columns (vid s) <=? con_x s then t_wrap (setting_of s) t else t).
  apply refines_seq with (t := t1).
  { unfold t1. destruct (Z.leb_spec (video_num_columns (vid s)) (con_x s)).
    - apply wrap_refines; [| lia | done]. rewrite <- (u32_small (pos s - 2 * con_x s)) by lia.
      apply set_cur_row; [done | lia | lia].
    - by exists s. }
  intros s1 W1 K1 A1. apply refines_get. unfold id.
  assert (Hx1 : con_x s1 < video_num_columns (vid s1)).
  { destruct K1 as (-> & _). destruct A1 as (<- & _). unfold t1, t_wrap, t_lf.
    destruct A as (Ax & _). repeat case_match; cbn [tx t_move t_cols setting_of]; lia. }
  replace (attr s * 256 + c) with (u16 (Z.lor (Z.shiftl (attr s1) 8) c)).
  - by apply put_cell_refines.
  - assert (attr s1 = attr s) as -> by apply K1. rewrite Z.shiftl_mul_pow2 by lia.
    rewrite (lor_low _ _ 8); [| lia | by apply Z.mod_mul | lia].
    change (2 ^ 8) with 256. apply u16_small. lia.
Qed.

Lemma tab_refines s t : con_wf s -> agrees s t -> refines tab s (t_tab (setting_of s) t).
Proof.
  intros W (Ax & Ay & Ag). con_facts W. unfold tab, t_tab. apply refines_get. unfold id.
  assert (HT : con_x s + (8 - Z.land (con_x s) 7) = 8 * (con_x s / 8 + 1)).
  { change 7 with (Z.ones 3). rewrite Z.land_ones by lia. change (2 ^ 3) with 8.
    pose proof (Z.div_mod (con_x s) 8). lia. }
  assert (HX : con_x s < 8 * (con_x s / 8 + 1) <= con_x s + 8).
  { pose proof (Z.div_mod (con_x s) 8). pose proof (Z.mod_pos_bound (con_x s) 8). lia. }
  rewrite shiftl_1, Ax, HT, (u32_small (8 * _)) by lia.
  set (X := 8 * (con_x s / 8 + 1)) in *.
  assert (HP : pos s + 2 * (8 - Z.land (con_x s) 7) = pos s + 2 * (X - con_x s)) by lia.
  rewrite HP, u32_small by nia. unfold refines, bind at 1, modify.
  set (s1 := set_cur X (con_y s) (pos s + 2 * (X - con_x s)) s).
  set (t1 := t_move X (ty t) t).
  assert (A1 : agrees s1 t1) by done.
  unfold bind, get, id. cbn [t_cols setting_of tx t1 t_move con_x vid s1 set_cur].
  destruct (Z.ltb_spec (video_num_columns (vid s)) X).
  - destruct (wrap_refines s1 t1) as (s' & E & W' & K & A'); [| cbn; lia | done |].
    + cbn [con_y pos con_x s1 set_cur].
      replace (pos s + 2 * (X - con_x s) - 2 * X) with (pos s - 2 * con_x s) by lia.
      apply (wf_set_cur 0 (con_y s) (pos s - 2 * con_x s)) in W; [exact W | lia..].
    + by exists s'.
  - exists s1. split; [done |]. split_and!; try done.
    apply (wf_set_cur X (con_y s) (pos s + 2 * (X - con_x s))) in W; [exact W | lia..].
Qed.

Lemma del_refines s t :
  con_wf s -> agrees s t ->
  refines del s (if tx t =? 0 then t
                 else t_set (tx t - 1) (ty t) (t_blank (setting_of s)) (t_move (tx t - 1) (ty t) t)).
Proof.
  intros W (Ax & Ay & Ag). con_facts W. unfold del. apply refines_get. unfold id, cbool. rewrite Ax.
  destruct (Z.eqb_spec (con_x s) 0) as [Hz|Hz]; cbn [negb]; [by exists s |].
  assert (W1 : con_wf (set_cur (con_x s - 1) (con_y s) (u32 (pos s - 2)) s))
    by (apply set_cur_row; [done | lia | lia]).
  destruct (vset_cell _ (video_erase_char (vid s)) W1) as (E & S); [cbn; lia |].
  unfold refines, agrees, bind, modify.
  change (vset (u32 (pos s - 2))) with (vset (pos (set_cur (con_x s - 1) (con_y s) (u32 (pos s - 2)) s))).
  rewrite E. eexists. split; [reflexivity |].
  split_and!; try done; [by apply wf_set_vram |].
  intros Hc x y Hxr Hyr. rewrite S by done. cbn [tgrid t_set t_move con_x con_y set_cur].
  rewrite Ay. case_match; [done | by apply Ag].
Qed.

Lemma refines_modify f s t :
  con_wf (f s) -> kept s (f s) -> agrees (f s) t -> refines (modify f) s t.
Proof. intros. by exists (f s). Qed.

Lemma con_normal_refines port61 erase c s t :
  con_wf s -> agrees s t ->
  refines (con_normal port61 erase c) s (t_char (setting_of s) erase c t).
Proof.
  intros W A. con_facts W. unfold con_normal, t_char.
  destruct ((31 <? c) && (c <? 127)) eqn:Hc.
  { b2p_in Hc. by apply put_char_refines. }
  destruct (c =? 27).
  { apply refines_modify; [by apply wf_set_state | done | done]. }
  destruct ((c =? 10) || (c =? 11) || (c =? 12)); [by apply lf_refines |].
  destruct A as (Ax & Ay & Ag).
  destruct (c =? 13).
  { apply refines_modify; [| done | done].
    apply set_cur_row; [done | lia | rewrite shiftl_1; lia]. }
  destruct (c =? erase); [by apply del_refines |].
  destruct (c =? 8).
  { unfold backspace. apply refines_get. unfold id, cbool. rewrite Ax.
    destruct (Z.eqb_spec (con_x s) 0); cbn [negb]; [by exists s |].
    apply refines_modify; [| done | done]. apply set_cur_row; [done | lia | lia]. }
  destruct (c =? 9); [by apply tab_refines |].
  destruct (c =? 7).
  - exists (set_beep (HZ / 8) (set_ports (fun l => (0x42, 0x06) :: (0x42, 0x37) :: (0x43, 0xB6)
                                        :: (0x61, Z.lor port61 3) :: l) s)).
    split_and!; try done. by apply wf_set_beep, wf_set_ports.
  - by exists s.
Qed.

Lemma agrees_abs s : agrees s (mk_term (con_x s) (con_y s) (screen s)).
Proof. done. Qed.

(** Parameters. *)
Lemma get_par_keeps {A} i (k : Z -> M con A) s :
  con_wf s -> 0 <= i < NPAR ->
  (forall p, 0 <= p < 2 ^ 32 -> par s !! Z.to_nat i = Some p -> keeps (k p) s) ->
  keeps (bind (get_par i) k) s.
Proof.
  intros W Hi Hk. destruct (cw_par s W) as (HL & HF).
  destruct (list_lookup_Z (par s) i) as (q & Hq); [rewrite HL; unfold NPAR in *; lia |].
  unfold get_par, keeps, wp, bind, get, id. rewrite Hq. cbn [need ret].
  apply (Hk q); [| done]. by apply (proj1 (Forall_lookup _ _) HF (Z.to_nat i)).
Qed.

Lemma wf_set_par n p q s :
  con_wf s -> 0 <= n < NPAR -> length p = Z.to_nat NPAR -> Forall (fun p => 0 <= p < 2 ^ 32) p ->
  con_wf (set_par n p q s).
Proof. by intros [] ? ? ?; constructor. Qed.

Lemma put_par_keeps i v s : con_wf s -> 0 <= i < NPAR -> keeps (put_par i v) s.
Proof.
  intros W Hi. destruct (cw_par s W) as (HL & HF). unfold keeps, wp, put_par. rewrite HL.
  replace ((0 <=? i) && (i <? Z.of_nat (Z.to_nat NPAR))) with true by (unfold NPAR in *; blia).
  split; [| done]. apply wf_set_par; [done | apply W | by rewrite length_insert |].
  apply Forall_insert; [done | apply u32_range].
Qed.

Lemma dec_par_keeps i s : con_wf s -> 0 <= i < NPAR -> keeps (dec_par i) s.
Proof.
  intros W Hi. apply get_par_keeps; [done | done |]. intros p Hp _.
  case_match; [by apply put_par_keeps | by apply keeps_ret].
Qed.

Lemma inc_par_keeps s : con_wf s -> keeps inc_par s.
Proof.
  intros W. apply get_par_keeps; [done | done |]. intros p Hp _.
  case_match; [by apply keeps_ret | by apply put_par_keeps].
Qed.
#[export] Hint Resolve dec_par_keeps inc_par_keeps put_par_keeps : kernel.

Lemma u32_nonneg x : 0 <= u32 x.
Proof. apply u32_range. Qed.
#[export] Hint Resolve u32_nonneg : kernel.

(** One step of a proof that a command keeps the invariant. *)
Ltac keeps_step :=
  match goal with
  | |- keeps (if ?b then _ else _) _ => destruct b eqn:?
  | |- keeps (bind (get_par _) _) _ =>
      apply get_par_keeps; [done | done | let p := fresh "p" in let H := fresh "Hp" in intros p H _]
  | |- keeps (bind (modify _) _) _ => apply keeps_modify_seq; [done |]
  | |- keeps (bind (get _) _) _ => apply keeps_get; unfold id
  | |- keeps (bind _ (fun _ => _)) _ =>
      apply keeps_seq; [| let s' := fresh "s" in let W := fresh "W" in let V := fresh "V" in
                          intros s' W V; cbn [vid set_state] in V]
  | |- keeps (gotoxy _ _) _ => apply gotoxy_keeps; [done | |]; solve [auto with kernel; lia]
  | |- keeps (dec_par _) _ => by apply dec_par_keeps
  | |- keeps (put_par _ _) _ => by apply put_par_keeps
  | |- keeps _ _ => solve [auto with kernel]
  end.

Lemma con_command_keeps c s : con_wf s -> keeps (con_command c) s.
Proof.
  intros W0. unfold con_command. apply keeps_modify_seq; [done |].
  assert (W : con_wf (set_state 0 s)) by (by apply wf_set_state). clear W0.
  apply keeps_get. unfold id. pose proof (cw_x _ W). pose proof (cw_y _ W).
  cbn [con_x con_y set_state] in *. cbn zeta.
  repeat keeps_step. apply keeps_modify; [| done].
  match goal with E : _ && _ = true |- _ => b2p_in E end.
  apply wf_set_region; [done | lia |]. cbn [vid set_state] in *. rewrite V0, V. lia.
Qed.

Lemma con_params_keeps c s : con_wf s -> keeps (con_params c) s.
Proof.
  intros W. unfold con_params. apply keeps_get. unfold id. pose proof (cw_npar s W) as Hn.
  destruct ((c =? 59) && (npar s <? NPAR - 1)) eqn:E.
  { b2p_in E. apply keeps_modify; [| done]. apply wf_set_par; [done | lia | apply W | apply W]. }
  destruct ((48 <=? c) && (c <=? 57)).
  { apply get_par_keeps; [done | done |]. intros. by apply put_par_keeps. }
  apply keeps_modify_seq; [done |]. by apply con_command_keeps, wf_set_state.
Qed.

Lemma con_bracket_keeps c s : con_wf s -> keeps (con_bracket c) s.
Proof.
  intros W. unfold con_bracket. apply keeps_modify_seq; [done |].
  assert (W' : con_wf (set_state 3 (set_par 0 (replicate (Z.to_nat NPAR) 0) (bool_to_c (c =? 63)) s))).
  { apply wf_set_state; [| done]. apply wf_set_par; [done | done | done |]. by apply Forall_replicate. }
  case_match; [by apply keeps_ret | by apply con_params_keeps].
Qed.

Lemma con_escape_keeps c s : con_wf s -> keeps (con_escape c) s.
Proof.
  intros W0. unfold con_escape. apply keeps_modify_seq; [done |].
  assert (W : con_wf (set_state 0 s)) by (by apply wf_set_state). clear W0.
  apply keeps_get. unfold id. repeat keeps_step. apply keeps_ret. by apply wf_set_state.
Qed.

(** C17: whatever character arrives, in whatever state, one turn of [con_write]
    returns, never reads or writes outside video memory, and keeps the invariant:
    the window in video memory, the cursor on the screen and [pos] its address, the
    scroll region and the parameter index in range. *)
Theorem con_char_safe port61 erase c s :
  con_wf s -> exists b s', con_char port61 erase c s = Ok b s' /\ con_wf s' /\ vid s' = vid s.
Proof.
  intros W. enough (H : keeps (con_char port61 erase c) s).
  { unfold keeps in H. apply wp_Ok in H as (b & s' & E & H). by exists b, s'. }
  unfold con_char. apply keeps_get. unfold id. cbn zeta.
  assert (HN : keeps (con_normal port61 erase c) s)
    by (eapply refines_keeps, con_normal_refines; [done | apply agrees_abs]).
  repeat case_match; first [by apply keeps_ret | by apply con_escape_keeps |
    apply keeps_seq; [| by auto with kernel];
    by auto using con_command_keeps, con_params_keeps, con_bracket_keeps].
Qed.

(** C22: in its normal state the console is the terminal it is meant to be: for
    each character the cursor and the grid of cells become what the specification
    [t_char] says, wherever the window is in video memory and however it was moved. *)
Theorem con_normal_is_terminal port61 erase c s :
  con_wf s -> video_num_columns (vid s) mod 2 = 0 ->
  exists s', con_normal port61 erase c s = Ok tt s' /\ con_wf s' /\
    let t := t_char (setting_of s) erase c (mk_term (con_x s) (con_y s) (screen s)) in
    con_x s' = tx t /\ con_y s' = ty t
    /\ forall x y, 0 <= x < video_num_columns (vid s) -> 0 <= y < video_num_lines (vid s) ->
         screen s' x y = tgrid t x y.
Proof.
  intros W Hc. destruct (con_normal_refines port61 erase c s _ W (agrees_abs s))
    as (s' & E & W' & (V & _) & (Ax & Ay & Ag)).
  exists s'. split_and!; [done | done |]. cbn zeta. split_and!; [done | done |].
  intros x y Hx Hy. symmetry. rewrite V in Ag. by apply Ag.
Qed.

(** ** Start-up *)

Lemma show_desc_ok desc p s :
  span_ok s p (length desc) ->
  exists s', show_desc desc p s = Ok tt s' /\ ram_only s s'.
Proof.
  revert p s. induction desc as [|c desc IH]; intros p s Hs; cbn [show_desc].
  - exists s. auto with kernel.
  - unfold bind, vget, vset. rewrite !(span_cell _ _ _ Hs).
    destruct (IH (p + 2) (set_vram (<[p := Z.lor (Z.land (cell s p) 65280) c]>) s)) as (s' & E & R).
    { apply (span_ram s); [auto with kernel |]. by apply span_tail. }
    exists s'. split; [done |]. eapply ram_only_trans; [apply ram_only_vset | done].
Qed.

Lemma con_video_wf b :
  let v := (con_video b).1 in
  8 <= ORIG_VIDEO_COLS b < 160 ->
  video_wf v /\ length (con_video b).2 = 4%nat
  /\ video_num_columns v = ORIG_VIDEO_COLS b /\ video_num_lines v = 25
  /\ video_mem_start v + 25 * video_size_row v <= video_mem_end v.
Proof.
  intros v Hc. unfold v, con_video.
  repeat case_match; cbn [fst snd video_num_columns video_num_lines video_mem_start video_mem_end video_size_row];
    (split; [constructor; cbn; lia || done |]); split_and!; try done; lia.
Qed.

(** [con_init] leaves a well-formed console that shows the cursor where the
    BIOS left it, for every display type, if that cursor is on the screen. *)
Theorem con_init_correct b ram port21 port61 :
  8 <= ORIG_VIDEO_COLS b < 160 -> 0 <= ORIG_X b <= ORIG_VIDEO_COLS b -> 0 <= ORIG_Y b < 25 ->
  exists s, con_init b ram port21 port61 = Ok tt s /\ con_wf s
  /\ con_x s = ORIG_X b /\ con_y s = ORIG_Y b /\ vid s = (con_video b).1.
Proof.
  intros Hc Hx Hy. destruct (con_video_wf b Hc) as (V & HL & Hcol & Hlin & Hmem).
  unfold con_init. destruct (con_video b) as [v desc]. cbn [fst snd] in *.
  destruct V as [V1 V2 V3 V4 V5].
  destruct (show_desc_ok desc (video_mem_start v + video_size_row v - 8) (con_zero v ram))
    as (s1 & E1 & (f & ->)).
  { rewrite HL. split; [| right; cbn; lia]. rewrite V2.
    replace (video_mem_start v + 2 * video_num_columns v - 8)
      with (video_mem_start v + 2 * (video_num_columns v - 4)) by lia. by apply even_add. }
  rewrite (bind_Ok _ _ _ _ _ E1). unfold bind, modify, gotoxy. cbn [vid set_region set_window set_vram con_zero].
  replace ((video_num_columns v <? ORIG_X b) || (video_num_lines v <=? ORIG_Y b)) with false by blia.
  eexists. split; [reflexivity |]. split_and!; try done.
  do 3 apply wf_set_ports. rewrite shiftl_1.
  constructor; cbn; try done; try lia; try (rewrite u32_small; nia).
  split; [done | by apply Forall_replicate].
Qed.

Lemma con_init_correct_witness :
  exists s, con_init (mk_bios 0 3 0 0x5003 0x0100) ∅ 0 0 = Ok tt s /\ con_wf s
  /\ con_x s = 0 /\ con_y s = 3.
Proof.
  destruct (con_init_correct (mk_bios 0 3 0 0x5003 0x0100) ∅ 0 0) as (s & E & W & X & Y & _);
    [done | done | done |]. exists s. split; [exact E | split; [exact W | split; [exact X | exact Y]]].
Defined.

(** ** Control sequences *)

(** Feed characters one after the other. *)
Fixpoint con_chars (port61 erase : Z) (l : list Z) : M con unit :=
  match l with
  | [] => ret tt
  | c :: l => con_char port61 erase c ;;; con_chars port61 erase l
  end.

(** An 80 by 25 EGA colour screen, cursor at the top left. *)
Definition demo_con : con :=
  mk_con (mk_video VIDEO_TYPE_EGAC 80 160 25 0 0xb8000 0xbc000 0x3d4 0x3d5 0x0720)
    0xb8000 (0xb8000 + 25 * 160) 0xb8000 0 0 0 25 0 0 (replicate 16 0) 0 0x07 0 0 0 ∅ [].

Lemma demo_con_wf : con_wf demo_con.
Proof.
  constructor; cbn; try done; try lia.
  split; [done | by repeat constructor].
Qed.

Lemma con_char_safe_witness :
  exists b s', con_char 0 127 65 demo_con = Ok b s' /\ con_wf s' /\ vid s' = vid demo_con.
Proof. exact (con_char_safe 0 127 65 demo_con demo_con_wf). Defined.

Lemma con_normal_is_terminal_witness :
  exists s', con_normal 0 127 65 demo_con = Ok tt s' /\ con_wf s' /\ con_x s' = 1
  /\ screen s' 0 0 = 0x0741.
Proof.
  destruct (con_normal_is_terminal 0 127 65 demo_con demo_con_wf eq_refl) as (s' & E & W & X & _ & S).
  exists s'. split; [exact E |]. split; [exact W |]. split; [exact X |].
  exact (S 0 0 ltac:(done) ltac:(done)).
Defined.

Lemma con_chars_app port61 erase l l' s s' :
  con_chars port61 erase l s = Ok tt s' ->
  con_chars port61 erase (l ++ l') s = con_chars port61 erase l' s'.
Proof.
  revert s. induction l as [|c l IH]; intros s; cbn [con_chars app].
  - by intros [= ->].
  - unfold bind. destruct (con_char port61 erase c s) as [b s1 | | |]; [apply IH | done..].
Qed.

(** The number the digits [l] add up to after [v], at the width of [par]. *)
Definition dec (v : Z) (l : list Z) : Z := fold_left (fun v c => u32 (10 * v + c - 48)) l v.

Definition digit (c : Z) : Prop := 48 <= c <= 57.

Lemma con_chars_digits port61 erase l s v :
  Forall digit l -> state s = 3 -> 0 <= npar s -> par s !! Z.to_nat (npar s) = Some v ->
  con_chars port61 erase l s
  = Ok tt (set_par (npar s) (<[Z.to_nat (npar s) := dec v l]> (par s)) (ques s) s).
Proof.
  intros Hl. revert s v. induction Hl as [|c l Hc _ IH]; intros s v Hs Hn Hv; cbn [con_chars dec fold_left].
  - unfold ret. rewrite list_insert_id by done. by destruct s.
  - unfold digit in Hc. apply lookup_lt_Some in Hv as Hlt.
    unfold con_char, con_params, get_par, put_par, bind, get, id. rewrite Hs.
    rewrite (proj2 (Z.eqb_neq c 59)) by lia. cbn [andb].
    replace ((48 <=? c) && (c <=? 57)) with true by blia. rewrite Hv. cbn [need ret].
    replace ((0 <=? npar s) && (npar s <? Z.of_nat (length (par s)))) with true by blia.
    cbn [ret]. erewrite IH; [| done | done | by apply list_lookup_insert_eq].
    cbn [npar par ques set_par]. by rewrite list_insert_insert_eq.
Qed.

Lemma dec_range l : 0 <= dec 0 l < 2 ^ 32.
Proof.
  unfold dec. assert (H : forall v, 0 <= v < 2 ^ 32 ->
    0 <= fold_left (fun v c => u32 (10 * v + c - 48)) l v < 2 ^ 32).
  { induction l as [|c l IH]; intros v Hv; cbn; [done |]. apply IH, u32_range. }
  by apply H.
Qed.

Lemma con_csi port61 erase s :
  state s = 0 -> con_chars port61 erase [27; 91] s = Ok tt (set_state 2 s).
Proof.
  intros Hs. cbn [con_chars]. unfold con_char, bind, get, id. by rewrite Hs.
Qed.

(** After the bracket the parameters are reset, and the character is read as in
    state 3. *)
Definition csi_reset (s : con) : con := set_state 3 (set_par 0 (replicate (Z.to_nat NPAR) 0) 0 s).

Lemma con_chars_state2 port61 erase l s :
  l <> [] -> hd 0 l <> 63 ->
  con_chars port61 erase l (set_state 2 s) = con_chars port61 erase l (csi_reset s).
Proof.
  destruct l as [|c l]; [done |]. intros _ Hc. cbn [hd] in Hc. cbn [con_chars].
  unfold con_char, con_bracket, bind, get, id, modify. cbn [state set_state csi_reset].
  by rewrite (proj2 (Z.eqb_neq c 63)).
Qed.

Lemma csi_reset_wf s : con_wf s -> con_wf (csi_reset s).
Proof.
  intros W. apply wf_set_state; [| done]. apply wf_set_par; [done | done | done |].
  by apply Forall_replicate.
Qed.

Lemma dec_par_ok i s p :
  0 <= i -> 0 <= p < 2 ^ 32 -> par s !! Z.to_nat i = Some p ->
  dec_par i s = Ok tt (set_par (npar s) (<[Z.to_nat i := Z.max 1 p - 1]> (par s)) (ques s) s).
Proof.
  intros Hi Hr Hp. apply lookup_lt_Some in Hp as Hlt. unfold dec_par, get_par, put_par, bind, get, id.
  rewrite Hp. cbn [need ret]. unfold cbool. destruct (Z.eqb_spec p 0) as [->|]; cbn [negb].
  - change (Z.max 1 0 - 1) with 0. rewrite list_insert_id by done. by destruct s.
  - replace ((0 <=? i) && (i <? Z.of_nat (length (par s)))) with true by blia.
    rewrite u32_small by lia. do 4 f_equal. lia.
Qed.

(** The final H: both parameters count from 1. *)
Lemma cup_command port61 erase s a b l :
  state s = 3 -> par s = a :: b :: l -> 0 <= a < 2 ^ 32 -> 0 <= b < 2 ^ 32 ->
  con_chars port61 erase [72] s
  = gotoxy (Z.max 1 b - 1) (Z.max 1 a - 1)
      (set_state 0 (set_par (npar s) (Z.max 1 a - 1 :: Z.max 1 b - 1 :: l) (ques s) s)).
Proof.
  intros Hs Hp Ha Hb. cbn [con_chars]. unfold con_char, con_params, con_command, bind, get, id.
  rewrite Hs. cbn [Z.eqb Pos.eqb Z.leb Z.compare Pos.compare Pos.compare_cont andb orb modify].
  rewrite (dec_par_ok 0 _ a) by (cbn [par set_state]; rewrite ?Hp; done).
  rewrite (dec_par_ok 1 _ b) by (cbn [par set_par set_state]; rewrite ?Hp; done).
  cbn [par npar ques set_par set_state]. rewrite Hp.
  set (u := Z.max 1 b - 1). set (w := Z.max 1 a - 1).
  change (<[Z.to_nat 1 := u]> (<[Z.to_nat 0 := w]> (a :: b :: l))) with (w :: u :: l).
  unfold get_par, bind, get, id, gotoxy. cbn [par set_par].
  change ((w :: u :: l) !! Z.to_nat 0) with (Some w).
  cbn [need ret par set_par]. change ((w :: u :: l) !! Z.to_nat 1) with (Some u). cbn [need ret].
  change (vid (set_par _ _ _ (set_par _ _ _ (set_state _ (set_state _ s))))) with (vid s).
  change (vid (set_state 0 (set_par (npar s) (w :: u :: l) (ques s) s))) with (vid s).
  by destruct ((video_num_columns (vid s) <? u) || (video_num_lines (vid s) <=? w)).
Qed.

(** The sequence ESC [ row ; column H moves the cursor to that row and
    column, counted from 1, when they are on the screen; an omitted number counts
    as 1, and nothing else on the screen changes. *)
Theorem cursor_address port61 erase rows cols s :
  con_wf s -> state s = 0 -> Forall digit rows -> Forall digit cols ->
  let r := Z.max 1 (dec 0 rows) in
  let c := Z.max 1 (dec 0 cols) in
  r <= video_num_lines (vid s) -> c <= video_num_columns (vid s) ->
  exists s', con_chars port61 erase ([27; 91] ++ rows ++ [59] ++ cols ++ [72]) s = Ok tt s'
  /\ con_wf s' /\ state s' = 0 /\ con_x s' = c - 1 /\ con_y s' = r - 1
  /\ forall x y, screen s' x y = screen s x y.
Proof.
  intros W Hs Hrows Hcols r c Hr Hc. pose proof (cw_vid s W) as [V1 V2 V3 V4 V5].
  rewrite (con_chars_app _ _ _ _ _ _ (con_csi port61 erase s Hs)), con_chars_state2.
  3:{ destruct Hrows as [|a l Ha _]; cbn [app hd]; [lia |]. unfold digit in Ha. lia. }
  2:{ by destruct rows. }
  set (s0 := csi_reset s).
  rewrite (con_chars_app _ _ _ _ _ _ (con_chars_digits port61 erase rows s0 0 Hrows eq_refl (Z.le_refl 0) eq_refl)).
  set (l1 := <[Z.to_nat (npar s0) := dec 0 rows]> (par s0)).
  set (s1 := set_par 1 l1 0 s0).
  assert (E59 : con_chars port61 erase [59] (set_par (npar s0) l1 (ques s0) s0) = Ok tt s1) by done.
  rewrite (con_chars_app _ _ _ _ _ _ E59).
  assert (H1 : par s1 !! Z.to_nat (npar s1) = Some 0) by done.
  rewrite (con_chars_app _ _ _ _ _ _ (con_chars_digits port61 erase cols s1 0 Hcols eq_refl ltac:(done) H1)).
  set (s2 := set_par _ _ _ s1). pose proof (dec_range rows). pose proof (dec_range cols).
  rewrite (cup_command port61 erase s2 (dec 0 rows) (dec 0 cols) (replicate 14 0)) by done.
  fold r c. set (s3 := set_state 0 _).
  assert (W3' : con_wf s3).
  { change s3 with (set_state 0 (set_par 1 (r - 1 :: c - 1 :: replicate 14 0) 0 s0)).
    apply wf_set_state; [| done]. apply wf_set_par; [by apply csi_reset_wf | done | done |].
    do 2 (apply Forall_cons; split; [lia |]). by apply Forall_replicate. }
  pose proof (gotoxy_keeps (c - 1) (r - 1) s3 W3' ltac:(lia) ltac:(lia)) as K.
  unfold keeps, wp, gotoxy in K |- *. change (vid s3) with (vid s) in *.
  replace ((video_num_columns (vid s) <? c - 1) || (video_num_lines (vid s) <=? r - 1)) with false in * by blia.
  eexists. split; [reflexivity |]. by split_and!; try apply K.
Qed.

Lemma cursor_address_witness :
  exists s', con_chars 0 127 ([27; 91] ++ [49; 50] ++ [59] ++ [52; 48] ++ [72]) demo_con = Ok tt s'
  /\ con_x s' = 39 /\ con_y s' = 11.
Proof.
  destruct (cursor_address 0 127 [49; 50] [52; 48] demo_con demo_con_wf eq_refl)
    as (s' & E & _ & _ & X & Y & _);
    [repeat constructor; done | repeat constructor; done | done | done |].
  exists s'. split; [exact E | split; [exact X | exact Y]].
Defined.

(** After ESC, the characters 7 and 8 do not save and restore the cursor:
    unless the cursor happens to be in column 55 or 56 they do nothing. *)
Theorem esc_7_8_ignored c s :
  c = 55 \/ c = 56 -> state s = 1 -> con_x s <> 55 -> con_x s <> 56 ->
  con_char 0 127 c s = Ok false (set_state 0 s).
Proof.
  intros Hc Hs Hx Hy. unfold con_char, con_escape, bind, get, id, modify. rewrite Hs.
  cbn [con_x set_state]. rewrite (proj2 (Z.eqb_neq _ 55) Hx), (proj2 (Z.eqb_neq _ 56) Hy).
  by destruct Hc as [-> | ->].
Qed.

Lemma esc_7_8_ignored_witness :
  con_char 0 127 55 (set_state 1 demo_con) = Ok false (set_state 0 (set_state 1 demo_con)).
Proof. apply (esc_7_8_ignored 55); [by left | done | done | done]. Defined.
