(* ===== verification/Sched.v ===== *)
(** kernel/sched.c and include/linux/sched.h: tasks, the scheduler, sleeping and
    waking, timers, the floppy motor timers. *)
From stdpp Require Import base list gmap strings.
From Stdlib Require Import ZArith Lia.
From S2P Require Import Prelude.
Open Scope Z_scope.

(** ** Data *)

Definition NR_TASKS : nat := 64.
Definition TASK_RUNNING : Z := 0.
Definition TASK_INTERRUPTIBLE : Z := 1.
Definition TASK_UNINTERRUPTIBLE : Z := 2.
Definition TASK_ZOMBIE : Z := 3.
Definition TASK_STOPPED : Z := 4.
Definition HZ : Z := 100.

Definition SIGHUP : Z := 1.
Definition SIGINT : Z := 2.
Definition SIGQUIT : Z := 3.
Definition SIGKILL : Z := 9.
Definition SIGSEGV : Z := 11.
Definition SIGALRM : Z := 14.
Definition SIGCHLD : Z := 17.
Definition SIGSTOP : Z := 19.

Definition _S (nr : Z) : Z := Z.shiftl 1 (nr - 1).
Definition _BLOCKABLE : Z := Z.lnot (Z.lor (_S SIGKILL) (_S SIGSTOP)).

Record sigaction := mk_sigaction {
  sa_handler : Z; sa_mask : Z; sa_flags : Z; sa_restorer : Z }.

(** The part of the TSS that [copy_process] fills in. *)
Record tss_struct := mk_tss {
  back_link : Z; esp0 : Z; ss0 : Z; eip : Z; eflags : Z;
  eax : Z; ecx : Z; edx : Z; ebx : Z; esp : Z; ebp : Z; esi : Z; edi : Z;
  es : Z; cs : Z; ss : Z; ds : Z; fs : Z; gs : Z; tss_ldt : Z; trace_bitmap : Z }.

(** Base and limit of the code and data segments. *)
Record ldt := mk_ldt { code_base : Z; code_limit : Z; data_base : Z; data_limit : Z }.

Record task_struct := mk_task {
  ts_state : Z; ts_counter : Z; ts_priority : Z;
  ts_signal : Z; ts_sigaction : list sigaction; ts_blocked : Z;
  ts_exit_code : Z;
  ts_start_code : Z; ts_end_code : Z; ts_end_data : Z; ts_brk : Z; ts_start_stack : Z;
  ts_pid : Z; ts_father : Z; ts_pgrp : Z; ts_session : Z; ts_leader : Z;
  ts_uid : Z; ts_euid : Z; ts_suid : Z; ts_gid : Z; ts_egid : Z; ts_sgid : Z;
  ts_alarm : Z;
  ts_utime : Z; ts_stime : Z; ts_cutime : Z; ts_cstime : Z; ts_start_time : Z;
  ts_used_math : Z;
  ts_tty : Z; ts_umask : Z; ts_pwd : Z; ts_root : Z; ts_executable : Z;
  ts_close_on_exec : Z; ts_filp : list Z;
  ts_ldt : ldt; ts_tss : tss_struct }.

#[export] Instance task_fields : Fields task_struct := fun t =>
  mk_task (ts_state t) (ts_counter t) (ts_priority t) (ts_signal t) (ts_sigaction t) (ts_blocked t)
    (ts_exit_code t) (ts_start_code t) (ts_end_code t) (ts_end_data t) (ts_brk t) (ts_start_stack t)
    (ts_pid t) (ts_father t) (ts_pgrp t) (ts_session t) (ts_leader t) (ts_uid t) (ts_euid t)
    (ts_suid t) (ts_gid t) (ts_egid t) (ts_sgid t) (ts_alarm t) (ts_utime t) (ts_stime t)
    (ts_cutime t) (ts_cstime t) (ts_start_time t) (ts_used_math t) (ts_tty t) (ts_umask t)
    (ts_pwd t) (ts_root t) (ts_executable t) (ts_close_on_exec t) (ts_filp t) (ts_ldt t) (ts_tss t).

#[export] Instance tss_fields : Fields tss_struct := fun t =>
  mk_tss (back_link t) (esp0 t) (ss0 t) (eip t) (eflags t) (eax t) (ecx t) (edx t) (ebx t) (esp t)
    (ebp t) (esi t) (edi t) (es t) (cs t) (ss t) (ds t) (fs t) (gs t) (tss_ldt t) (trace_bitmap t).

Definition _LDT (n : Z) : Z := Z.shiftl n 4 + Z.shiftl 5 3.
Definition _TSS (n : Z) : Z := Z.shiftl n 4 + Z.shiftl 4 3.
Definition NR_OPEN : nat := 20.

(** The first task, for its structure at address [a]. *)
Definition INIT_TASK (a : Z) : task_struct :=
  mk_task 0 15 15 0 (replicate 32 (mk_sigaction 0 0 0 0)) 0
    0 0 0 0 0 0
    0 (-1) 0 0 0
    0 0 0 0 0 0
    0 0 0 0 0 0
    0
    (-1) 18 0 0 0 0 (replicate NR_OPEN 0)
    (mk_ldt 0 0xa0000 0 0xa0000)
    (mk_tss 0 (4096 + a) 0x10 0 0 0 0 0 0 0 0 0 0 0x17 0x17 0x17 0x17 0x17 0x17 (_LDT 0) 0x80000000).

(** A timer: ticks left relative to the one before it, the routine to call (0
    for a free slot), and the index of the next one. *)
Record timer_list := mk_timer { tl_jiffies : Z; tl_fn : Z; tl_next : option nat }.
#[export] Instance timer_fields : Fields timer_list := fun t =>
  mk_timer (tl_jiffies t) (tl_fn t) (tl_next t).

(** The variables of sched.c.  Task structures live at the addresses in [tasks];
    address 0 is [NULL]; [init_task] is the address of the first one. *)
Record sched := mk_sched {
  task : list Z;
  tasks : gmap Z task_struct;
  init_task : Z;
  current : Z;
  last_task_used_math : Z;
  jiffies : Z;
  startup_time : Z;
  wait_motor : list Z; mon_timer : list Z; moff_timer : list Z; current_DOR : Z; selected : Z;
  timers : list timer_list; next_timer : option nat;
  ports : list (Z * Z) }.

#[export] Instance sched_fields : Fields sched := fun s =>
  mk_sched (task s) (tasks s) (init_task s) (current s) (last_task_used_math s) (jiffies s)
    (startup_time s) (wait_motor s) (mon_timer s) (moff_timer s) (current_DOR s) (selected s)
    (timers s) (next_timer s) (ports s).

Definition CURRENT_TIME (s : sched) : Z := startup_time s + Z.quot (jiffies s) HZ.

(** ** Access to tasks *)

(** [*p] for a task pointer [p], and an assignment through it. *)
Definition task_at (p : Z) : M sched task_struct := fun s =>
  match tasks s !! p with Some t => Ok t s | None => Ub end.
Definition upd_task (p : Z) (f : task_struct -> task_struct) : M sched unit := fun s =>
  match tasks s !! p with Some t => Ok tt (over tasks <[p := f t]> s) | None => Ub end.

(** [current->...]. *)
Definition cur : M sched task_struct := let* me := get current in task_at me.
Definition upd_cur (f : task_struct -> task_struct) : M sched unit :=
  let* me := get current in upd_task me f.

(** [task[i]]. *)
Definition slot (i : nat) : M sched Z := let* s := get id in need (task s !! i).

(** [for (p = &task[n] ; p > &FIRST_TASK ; --p) body]. *)
Fixpoint for_down (n : nat) (body : nat -> M sched unit) : M sched unit :=
  match n with
  | O => ret tt
  | S k => body n ;;; for_down k body
  end.

(** ** The scheduler *)

(** Check alarms, wake up any interruptible task that has got a signal. *)
Definition check_alarm (i : nat) : M sched unit :=
  let* p := slot i in
  if negb (cbool p) then ret tt else
  (let* t := task_at p in
   let* now := get jiffies in
   if cbool (ts_alarm t) && (ts_alarm t <? now) then
     upd_task p (fun t => put ts_alarm 0 (over ts_signal (fun x => Z.lor x (Z.shiftl 1 (SIGALRM - 1))) t))
   else ret tt) ;;;
  let* t := task_at p in
  if cbool (Z.land (ts_signal t) (Z.lnot (Z.land _BLOCKABLE (ts_blocked t))))
     && (ts_state t =? TASK_INTERRUPTIBLE)
  then upd_task p (put ts_state TASK_RUNNING) else ret tt.

(** The inner loop: [i] counts down to 1, [c] and [next] are the best so far. *)
Fixpoint pick_loop (i : nat) (c : Z) (next : nat) : M sched (Z * nat) :=
  match i with
  | O => ret (c, next)
  | S k =>
    let* p := slot i in
    if negb (cbool p) then pick_loop k c next else
    let* t := task_at p in
    if (ts_state t =? TASK_RUNNING) && (c <? ts_counter t)
    then pick_loop k (ts_counter t) i else pick_loop k c next
  end.

Definition recalc (i : nat) : M sched unit :=
  let* p := slot i in
  if negb (cbool p) then ret tt else
  upd_task p (fun t => put ts_counter (s32 (Z.shiftr (ts_counter t) 1 + ts_priority t)) t).

(** [while (1)]; no result when the fuel runs out. *)
Fixpoint schedule_loop (fuel : nat) : M sched (option nat) :=
  match fuel with
  | O => ret None
  | S fuel =>
    let* (c, next) := pick_loop (NR_TASKS - 1) (-1) 0 in
    if cbool c then ret (Some next) else
    for_down (NR_TASKS - 1) recalc ;;;
    schedule_loop fuel
  end.

(** From here on the processor runs task [n]. *)
Definition switch_to (n : nat) : M sched unit := let* p := slot n in modify (put current p).

Definition schedule (fuel : nat) : M sched (option nat) :=
  for_down (NR_TASKS - 1) check_alarm ;;;
  let* next := schedule_loop fuel in
  match next with
  | Some n => switch_to n ;;; ret (Some n)
  | None => ret None
  end.

(** ** Sleeping and waking

    [p] is the variable that holds the wait queue.  A routine that sleeps is cut at
    its call of [schedule]: the first part returns the local [tmp], the second part
    runs when the task has been scheduled again. *)

Record var (S : Type) := mk_var { rd_var : S -> Z; wr_var : Z -> S -> S }.
Arguments mk_var {S} _ _.
Arguments rd_var {S} _ _.
Arguments wr_var {S} _ _ _.

(** A kernel state that contains the scheduler's. *)
Class HasSched (S : Type) := {
  the_sched : S -> sched;
  set_sched : sched -> S -> S;
  the_set_sched s x : the_sched (set_sched x s) = x }.
#[export] Instance sched_has_sched : HasSched sched :=
  {| the_sched := id; set_sched x _ := x; the_set_sched _ _ := eq_refl |}.

(** A scheduler routine run on the larger state. *)
Definition on_sched {S} `{HasSched S} {A} (m : M sched A) : M S A := fun s =>
  match m (the_sched s) with
  | Ok a x => Ok a (set_sched x s)
  | Panic msg x => Panic msg (set_sched x s)
  | Exit code x => Exit code (set_sched x s)
  | Ub => Ub
  end.

Definition not_init : M sched unit :=
  let* s := get id in
  if current s =? init_task s then panic "task[0] trying to sleep" else ret tt.

Definition set_state_of (p v : Z) : M sched unit := upd_task p (put ts_state v).

Section Sleep.
Context {St : Type} `{HasSched St}.

Definition me : M St Z := get (fun s => current (the_sched s)).

Definition sleep_on_1 (p : var St) : M St Z :=
  on_sched not_init ;;;
  let* tmp := get (rd_var p) in
  let* cur := me in
  modify (wr_var p cur) ;;;
  on_sched (set_state_of cur TASK_UNINTERRUPTIBLE) ;;;
  ret tmp.
Definition sleep_on_2 (tmp : Z) : M St unit :=
  if cbool tmp then on_sched (set_state_of tmp 0) else ret tt.

Definition interruptible_sleep_on_1 (p : var St) : M St Z :=
  on_sched not_init ;;;
  let* tmp := get (rd_var p) in
  let* cur := me in
  modify (wr_var p cur) ;;;
  on_sched (set_state_of cur TASK_INTERRUPTIBLE) ;;;
  ret tmp.
(** The result says whether to go back to [repeat] and sleep again. *)
Definition interruptible_sleep_on_2 (p : var St) (tmp : Z) : M St bool :=
  let* q := get (rd_var p) in
  let* cur := me in
  if cbool q && negb (q =? cur) then
    on_sched (set_state_of q 0) ;;;
    on_sched (set_state_of cur TASK_INTERRUPTIBLE) ;;;
    ret true
  else
    modify (wr_var p 0) ;;;
    (if cbool tmp then on_sched (set_state_of tmp 0) else ret tt) ;;;
    ret false.

Definition wake_up (p : var St) : M St unit :=
  let* q := get (rd_var p) in
  if cbool q then on_sched (set_state_of q 0) ;;; modify (wr_var p 0) else ret tt.

(** The whole routines, for a caller's view: [asleep] is what the rest of the
    system does between the call of [schedule] and its return. *)
Variable asleep : M St unit.

Definition sleep_on (p : var St) : M St unit :=
  let* tmp := sleep_on_1 p in asleep ;;; sleep_on_2 tmp.

Fixpoint sleep_again (fuel : nat) (p : var St) (tmp : Z) : M St unit :=
  match fuel with
  | O => ub
  | S fuel =>
    asleep ;;;
    let* again := interruptible_sleep_on_2 p tmp in
    if again then sleep_again fuel p tmp else ret tt
  end.
Definition interruptible_sleep_on (fuel : nat) (p : var St) : M St unit :=
  let* tmp := interruptible_sleep_on_1 p in sleep_again fuel p tmp.
End Sleep.

(** The first part of [sys_pause]; the second returns 0. *)
Definition sys_pause_1 : M sched unit :=
  let* cur := me in set_state_of cur TASK_INTERRUPTIBLE.

(** ** The floppy motor timers *)

Definition FD_DOR : Z := 0x3f2.

Definition outb (value port : Z) : M sched unit := modify (over ports (cons (port, value))).

(** [a[i]] and [a[i] = v] for one of the arrays of the state. *)
Definition arr_get {T} (a : sched -> list T) (i : Z) : M sched T :=
  let* s := get id in if i <? 0 then ub else need (a s !! Z.to_nat i).
Definition arr_put {T} (a : sched -> list T) {st : Setter a} (i : Z) (v : T) : M sched unit := fun s =>
  if (0 <=? i) && (i <? Z.of_nat (length (a s))) then Ok tt (over a <[Z.to_nat i := v]> s) else Ub.

Definition ticks_to_floppy_on (nr : Z) : M sched Z :=
  let mask := u8 (Z.shiftl 0x10 nr) in
  if 3 <? nr then panic "floppy_on: nr>3" else
  arr_put moff_timer nr 10000 ;;;
  let* s := get id in
  let mask := Z.lor mask (current_DOR s) in
  let mask := if negb (cbool (selected s)) then Z.lor (Z.land mask 0xFC) nr else mask in
  (if negb (mask =? current_DOR s) then
     outb mask FD_DOR ;;;
     (if cbool (Z.land (Z.lxor mask (current_DOR s)) 0xf0) then arr_put mon_timer nr (HZ / 2)
      else let* m := arr_get mon_timer nr in
           if m <? 2 then arr_put mon_timer nr 2 else ret tt) ;;;
     modify (put current_DOR mask)
   else ret tt) ;;;
  arr_get mon_timer nr.

(** The wait queue [wait_motor[nr]]. *)
Definition wait_motor_var (nr : nat) : var sched :=
  mk_var (fun s => default 0 (wait_motor s !! nr)) (fun v => over wait_motor <[nr := v]>).

(** One turn of the loop of [floppy_on]: the [tmp] of the sleep, or done. *)
Definition floppy_on_turn (nr : Z) : M sched (option Z) :=
  let* t := ticks_to_floppy_on nr in
  if cbool t then let* tmp := sleep_on_1 (wait_motor_var (Z.to_nat nr)) in ret (Some tmp)
  else ret None.

Definition floppy_off (nr : Z) : M sched unit := arr_put moff_timer nr (3 * HZ).

(** The body of the loop of [do_floppy_timer] for drive [i]. *)
Definition floppy_tick (i mask : Z) : M sched unit :=
  let* dor := get current_DOR in
  if negb (cbool (Z.land mask dor)) then ret tt else
  let* m := arr_get mon_timer i in
  if cbool m then
    arr_put mon_timer i (m - 1) ;;;
    if negb (cbool (m - 1)) then wake_up (wait_motor_var (Z.to_nat i)) else ret tt
  else
    let* f := arr_get moff_timer i in
    if negb (cbool f) then
      modify (over current_DOR (fun d => Z.land d (Z.lnot mask))) ;;;
      (let* d := get current_DOR in outb d FD_DOR)
    else arr_put moff_timer i (f - 1).

Definition do_floppy_timer : M sched unit :=
  floppy_tick 0 0x10 ;;; floppy_tick 1 0x20 ;;; floppy_tick 2 0x40 ;;; floppy_tick 3 0x80.

(** ** Timers *)

Definition TIME_REQUESTS : nat := 64.

Definition timer_at (i : nat) : M sched timer_list := let* s := get id in need (timers s !! i).
Definition timer_put (i : nat) (t : timer_list) : M sched unit := modify (over timers <[i := t]>).

(** The first slot without a routine. *)
Fixpoint free_timer (l : list timer_list) : option nat :=
  match l with
  | [] => None
  | t :: l => if negb (cbool (tl_fn t)) then Some O else S <$> free_timer l
  end.

(** The loop that moves the new timer down the list by exchanging contents. *)
Fixpoint sink_timer (fuel : nat) (p : nat) : M sched unit :=
  match fuel with
  | O => ub
  | S fuel =>
    let* a := timer_at p in
    match tl_next a with
    | None => ret tt
    | Some q =>
      let* b := timer_at q in
      if tl_jiffies b <? tl_jiffies a then
        timer_put p (mk_timer (tl_jiffies b) (tl_fn b) (tl_next a)) ;;;
        timer_put q (mk_timer (s32 (tl_jiffies a - tl_jiffies b)) (tl_fn a) (tl_next b)) ;;;
        sink_timer fuel q
      else ret tt
    end
  end.

Section Timers.
(** What the routines do. *)
Variable call : Z -> M sched unit.

Definition add_timer (ticks fn : Z) : M sched unit :=
  if negb (cbool fn) then ret tt else
  if ticks <=? 0 then call fn else
  let* s := get id in
  match free_timer (timers s) with
  | None => panic "No more time requests free"
  | Some p =>
    timer_put p (mk_timer ticks fn (next_timer s)) ;;;
    modify (put next_timer (Some p)) ;;;
    sink_timer (S TIME_REQUESTS) p
  end.

(** [while (next_timer && next_timer->jiffies <= 0)] *)
Fixpoint fire_timers (fuel : nat) : M sched unit :=
  match fuel with
  | O => ub
  | S fuel =>
    let* nt := get next_timer in
    match nt with
    | None => ret tt
    | Some p =>
      let* t := timer_at p in
      if tl_jiffies t <=? 0 then
        timer_put p (put tl_fn 0 t) ;;;
        modify (put next_timer (tl_next t)) ;;;
        call (tl_fn t) ;;;
        fire_timers fuel
      else ret tt
    end
  end.

(** The timer part of [do_timer]. *)
Definition run_timers (fuel : nat) : M sched unit :=
  let* nt := get next_timer in
  match nt with
  | None => ret tt
  | Some p =>
    (let* t := timer_at p in timer_put p (over tl_jiffies (fun j => s32 (j - 1)) t)) ;;;
    fire_timers fuel
  end.

(** [do_timer]; [beepcount] is the console's variable, passed in and returned, and
    [port61] is what [sysbeepstop] reads. *)
Definition do_timer (fuel : nat) (port61 cpl beepcount : Z) : M sched Z :=
  (if (cbool beepcount) && negb (cbool (beepcount - 1)) then outb (Z.land port61 0xFC) 0x61 else ret tt) ;;;
  (if cbool cpl then upd_cur (over ts_utime (fun x => s32 (x + 1)))
   else upd_cur (over ts_stime (fun x => s32 (x + 1)))) ;;;
  run_timers fuel ;;;
  (let* dor := get current_DOR in
   if cbool (Z.land dor 0xf0) then do_floppy_timer else ret tt) ;;;
  upd_cur (over ts_counter (fun x => s32 (x - 1))) ;;;
  let* t := cur in
  (if 0 <? ts_counter t then ret tt else
   upd_cur (put ts_counter 0) ;;;
   if negb (cbool cpl) then ret tt else schedule fuel ;;; ret tt) ;;;
  ret (if cbool beepcount then beepcount - 1 else 0).
End Timers.

(** ** System calls on the current task *)

Definition sys_alarm (seconds : Z) : M sched Z :=
  let* t := cur in
  let* now := get jiffies in
  let old := if cbool (ts_alarm t) then Z.quot (s32 (ts_alarm t - now)) HZ else ts_alarm t in
  upd_cur (put ts_alarm (if 0 <? seconds then s32 (now + s32 (HZ * seconds)) else 0)) ;;;
  ret old.

Definition sys_getpid : M sched Z := let* t := cur in ret (ts_pid t).
Definition sys_getppid : M sched Z := let* t := cur in ret (ts_father t).
Definition sys_getuid : M sched Z := let* t := cur in ret (ts_uid t).
Definition sys_geteuid : M sched Z := let* t := cur in ret (ts_euid t).
Definition sys_getgid : M sched Z := let* t := cur in ret (ts_gid t).
Definition sys_getegid : M sched Z := let* t := cur in ret (ts_egid t).

Definition sys_nice (increment : Z) : M sched Z :=
  let* t := cur in
  (if 0 <? s32 (ts_priority t - increment)
   then upd_cur (put ts_priority (s32 (ts_priority t - increment))) else ret tt) ;;;
  ret 0.

(** [sched_init]: the task table and the ports of the timer chip; the descriptor
    tables and gates are not part of the state. *)
Fixpoint clear_tasks (i n : nat) : M sched unit :=
  match n with
  | O => ret tt
  | S n => arr_put task (Z.of_nat i) 0 ;;; clear_tasks (S i) n
  end.

Definition LATCH : Z := 1193180 / HZ.

Definition sched_init (port21 : Z) : M sched unit :=
  clear_tasks 1 (NR_TASKS - 1) ;;;
  outb 0x36 0x43 ;;;
  outb (Z.land LATCH 0xff) 0x40 ;;;
  outb (Z.shiftr LATCH 8) 0x40 ;;;
  outb (Z.land port21 (Z.lnot 0x01)) 0x21.

(** ** The task table

    64 slots; the tasks in them exist, are distinct, and the first is the initial
    task. *)
Record sched_wf (s : sched) : Prop := {
  sw_len : length (task s) = NR_TASKS;
  sw_some : forall i p, task s !! i = Some p -> p <> 0 -> is_Some (tasks s !! p);
  sw_inj : forall i j p, task s !! i = Some p -> task s !! j = Some p -> p <> 0 -> i = j;
  sw_init : task s !! O = Some (init_task s) /\ init_task s <> 0 }.

(** Apply [f] to the task in slot [i], if there is one. *)
Definition on_slot (f : task_struct -> task_struct) (i : nat) : M sched unit :=
  let* p := slot i in if negb (cbool p) then ret tt else upd_task p f.

Lemma slot_ok s i p : task s !! i = Some p -> slot i s = Ok p s.
Proof. intros H. unfold slot, bind, get, id. by rewrite H. Qed.

Lemma sched_slot s i : sched_wf s -> (i < NR_TASKS)%nat -> exists p, task s !! i = Some p.
Proof. intros W Hi. apply lookup_lt_is_Some_2. by rewrite (sw_len s W). Qed.

Lemma on_slot_ok f s i p :
  sched_wf s -> task s !! i = Some p ->
  on_slot f i s = Ok tt (if p =? 0 then s else over tasks (alter f p) s).
Proof.
  intros W Hp. unfold on_slot. rewrite (bind_Ok _ _ _ _ _ (slot_ok s i p Hp)). unfold cbool.
  destruct (Z.eqb_spec p 0) as [|Hz]; cbn [negb]; [done |].
  destruct (sw_some s W i p Hp Hz) as (t & Ht). unfold upd_task. rewrite Ht.
  f_equal. unfold over. cbn. f_equal. apply map_eq. intros a.
  rewrite lookup_insert, lookup_alter. by case_decide; subst; rewrite ?Ht.
Qed.

(** The tasks in slots 1 to [n]. *)
Definition in_slots (s : sched) (n : nat) (p : Z) : Prop :=
  p <> 0 /\ exists i, (1 <= i <= n)%nat /\ task s !! i = Some p.

#[export] Instance in_slots_dec s n p : Decision (in_slots s n p).
Proof.
  unfold in_slots.
  destruct (decide (p = 0)) as [->|Hp]; [by right; intros (? & _) |].
  destruct (decide (Exists (fun i => task s !! i = Some p) (seq 1 n))) as [H|H].
  - left. split; [done |]. apply Exists_exists in H as (i & Hi & Hs). exists i. split; [| done].
    apply elem_of_seq in Hi. lia.
  - right. intros (_ & i & Hi & Hs). apply H, Exists_exists. exists i. split; [| done].
    apply elem_of_seq. lia.
Qed.

(** Only the task structures differ. *)
Definition tasks_only (s s' : sched) : Prop := exists m, s' = put tasks m s.

Lemma tasks_only_wf s s' :
  tasks_only s s' -> (forall p, is_Some (tasks s !! p) -> is_Some (tasks s' !! p)) ->
  sched_wf s -> sched_wf s'.
Proof.
  intros (m & ->) Hm [H1 H2 H3 H4]. constructor; cbn in *; [done | | done | done].
  intros i p Hi Hp. by apply Hm, (H2 i).
Qed.

Lemma for_down_ok f n s :
  sched_wf s -> (n < NR_TASKS)%nat ->
  exists s', for_down n (on_slot f) s = Ok tt s' /\ tasks_only s s' /\ sched_wf s'
  /\ forall a, tasks s' !! a = if decide (in_slots s n a) then f <$> tasks s !! a else tasks s !! a.
Proof.
  revert s. induction n as [|n IH]; intros s W Hn; cbn [for_down].
  - exists s. split_and!; [done | by exists (tasks s); destruct s | done |]. intros a.
    rewrite decide_False; [done |]. intros (_ & i & Hi & _). lia.
  - destruct (sched_slot s (S n) W Hn) as (p & Hp).
    rewrite (bind_Ok _ _ _ _ _ (on_slot_ok f s (S n) p W Hp)).
    set (s1 := if p =? 0 then s else over tasks (alter f p) s).
    assert (T1 : tasks_only s s1).
    { unfold s1. case_match; [by exists (tasks s); destruct s | by eexists]. }
    assert (L1 : forall a, tasks s1 !! a = if decide (p <> 0 /\ a = p) then f <$> tasks s !! a else tasks s !! a).
    { intros a. unfold s1. destruct (Z.eqb_spec p 0); cbn.
      - by rewrite decide_False by tauto.
      - rewrite lookup_alter. destruct (decide (p = a)) as [->|];
          [by rewrite decide_True | rewrite decide_False; [done |]; intuition congruence]. }
    assert (W1 : sched_wf s1).
    { eapply tasks_only_wf; [done | | done]. intros a Ha. rewrite L1.
      destruct (decide (p <> 0 /\ a = p)); [by apply fmap_is_Some | done]. }
    destruct (IH s1 W1 ltac:(lia)) as (s2 & E2 & T2 & W2 & L2).
    assert (HT : task s1 = task s) by (by destruct T1 as (m & ->)).
    exists s2. split_and!; [done | | done |].
    { destruct T1 as (m1 & ->). destruct T2 as (m2 & ->). by exists m2. }
    intros a. rewrite L2, !L1. assert (HI : in_slots s1 n a <-> in_slots s n a).
    { unfold in_slots. by rewrite HT. }
    destruct (decide (in_slots s1 n a)) as [HA|HA].
    + rewrite (decide_True (P := in_slots s (S n) a)).
      2:{ apply HI in HA as (Ha & i & Hi & Hs). split; [done |]. exists i. split; [lia | done]. }
      rewrite decide_False; [done |]. intros (Hz & ->).
      apply HI in HA as (_ & i & Hi & Hs). pose proof (sw_inj s W i (S n) p Hs Hp Hz). lia.
    + destruct (decide (p <> 0 /\ a = p)) as [(Hz & ->)|Hne].
      * rewrite decide_True; [done |]. split; [done |]. exists (S n). split; [lia | done].
      * rewrite decide_False; [done |]. intros (Ha & i & Hi & Hs).
        destruct (decide (i = S n)) as [->|]; [rewrite Hp in Hs; injection Hs as ->; tauto |].
        apply HA, HI. split; [done |]. exists i. split; [lia | done].
Qed.

(** ** What [schedule] does to each task *)

Definition alarm_rings (now : Z) (t : task_struct) : bool := cbool (ts_alarm t) && (ts_alarm t <? now).

Definition ring (now : Z) (t : task_struct) : task_struct :=
  if alarm_rings now t
  then put ts_alarm 0 (over ts_signal (fun x => Z.lor x (Z.shiftl 1 (SIGALRM - 1))) t) else t.

Definition has_signal (t : task_struct) : bool :=
  cbool (Z.land (ts_signal t) (Z.lnot (Z.land _BLOCKABLE (ts_blocked t)))).

Definition rouse (t : task_struct) : task_struct :=
  if has_signal t && (ts_state t =? TASK_INTERRUPTIBLE) then put ts_state TASK_RUNNING t else t.

Definition refill (t : task_struct) : task_struct :=
  put ts_counter (s32 (Z.shiftr (ts_counter t) 1 + ts_priority t)) t.

Lemma upd_task_ok s p t f : tasks s !! p = Some t -> upd_task p f s = Ok tt (over tasks <[p := f t]> s).
Proof. intros H. unfold upd_task. by rewrite H. Qed.

Lemma task_at_ok s p t : tasks s !! p = Some t -> task_at p s = Ok t s.
Proof. intros H. unfold task_at. by rewrite H. Qed.

Lemma put_task_id s p t : tasks s !! p = Some t -> over tasks <[p := t]> s = s.
Proof. intros H. unfold over. cbn. rewrite insert_id by done. by destruct s. Qed.

Lemma put_task_twice s p t u : over tasks <[p := u]> (over tasks <[p := t]> s) = over tasks <[p := u]> s.
Proof. unfold over. cbn. f_equal. apply insert_insert_eq. Qed.

Lemma check_alarm_slot s i :
  sched_wf s -> (i < NR_TASKS)%nat ->
  check_alarm i s = on_slot (fun t => rouse (ring (jiffies s) t)) i s.
Proof.
  intros W Hi. destruct (sched_slot s i W Hi) as (p & Hp). unfold check_alarm, on_slot.
  rewrite !(bind_Ok _ _ _ _ _ (slot_ok s i p Hp)). change (cbool p) with (negb (p =? 0)).
  destruct (Z.eqb_spec p 0) as [|Hz]; cbn [negb]; [done |].
  destruct (sw_some s W i p Hp Hz) as (t & Ht). rewrite (upd_task_ok s p t _ Ht).
  set (s1 := over tasks <[p := ring (jiffies s) t]> s).
  assert (E1 : (let* t := task_at p in
     let* now := get jiffies in
     if cbool (ts_alarm t) && (ts_alarm t <? now) then
       upd_task p (fun t => put ts_alarm 0 (over ts_signal (fun x => Z.lor x (Z.shiftl 1 (SIGALRM - 1))) t))
     else ret tt) s = Ok tt s1).
  { rewrite (bind_Ok _ _ _ _ _ (task_at_ok s p t Ht)). unfold bind, get. cbn beta iota.
    unfold s1, ring, alarm_rings. case_match; [by rewrite (upd_task_ok s p t _ Ht) | by rewrite put_task_id]. }
  rewrite (bind_Ok _ _ _ _ _ E1).
  assert (L1 : tasks s1 !! p = Some (ring (jiffies s) t)) by apply lookup_insert_eq.
  rewrite (bind_Ok _ _ _ _ _ (task_at_ok s1 p _ L1)). unfold rouse, has_signal.
  case_match; [| done]. rewrite (upd_task_ok s1 p _ _ L1). f_equal. apply put_task_twice.
Qed.

Lemma tasks_only_refl s : tasks_only s s.
Proof. exists (tasks s). by destruct s. Qed.

Lemma tasks_only_trans s1 s2 s3 : tasks_only s1 s2 -> tasks_only s2 s3 -> tasks_only s1 s3.
Proof. intros (m & ->) (m' & ->). by exists m'. Qed.

Lemma on_slot_wf f s i :
  sched_wf s -> (i < NR_TASKS)%nat ->
  exists s', on_slot f i s = Ok tt s' /\ tasks_only s s' /\ sched_wf s'.
Proof.
  intros W Hi. destruct (sched_slot s i W Hi) as (p & Hp). rewrite (on_slot_ok f s i p W Hp).
  eexists. split; [reflexivity |]. destruct (p =? 0); [split; [apply tasks_only_refl | done] |].
  assert (T : tasks_only s (over tasks (alter f p) s)) by (by eexists). split; [done |].
  eapply tasks_only_wf; [done | | done]. intros a Ha. cbn. by apply lookup_alter_is_Some.
Qed.

Lemma for_down_ext body f n s :
  sched_wf s -> (n < NR_TASKS)%nat ->
  (forall s' i, tasks_only s s' -> sched_wf s' -> (i < NR_TASKS)%nat -> body i s' = on_slot f i s') ->
  for_down n body s = for_down n (on_slot f) s.
Proof.
  intros W Hn. revert s W. induction n as [|n IH]; intros s W H; cbn [for_down]; [done |].
  unfold bind. rewrite (H s (S n)) by (done || apply tasks_only_refl).
  destruct (on_slot_wf f s (S n) W Hn) as (s1 & -> & T1 & W1).
  apply IH; [lia | done |]. intros s' i T' W' Hi. apply H; [by eapply tasks_only_trans | done | done].
Qed.

(** Slot [i] holds a runnable task with [c] ticks left. *)
Definition runnable (s : sched) (i : nat) (c : Z) : Prop :=
  exists p t, task s !! i = Some p /\ p <> 0 /\ tasks s !! p = Some t
  /\ ts_state t = TASK_RUNNING /\ ts_counter t = c.

Lemma pick_loop_ok s i c next :
  sched_wf s -> (i < NR_TASKS)%nat ->
  exists c' next', pick_loop i c next s = Ok (c', next') s /\ c <= c'
  /\ ((c' = c /\ next' = next) \/ ((1 <= next' <= i)%nat /\ runnable s next' c'))
  /\ forall j cj, (1 <= j <= i)%nat -> runnable s j cj -> cj <= c'.
Proof.
  intros W. revert c next. induction i as [|i IH]; intros c next Hi; cbn [pick_loop].
  { exists c, next. split_and!; [done | lia | by left | lia]. }
  destruct (sched_slot s (S i) W Hi) as (p & Hp).
  rewrite (bind_Ok _ _ _ _ _ (slot_ok s _ p Hp)). unfold cbool.
  destruct (Z.eqb_spec p 0) as [Hz|Hz]; cbn [negb].
  { destruct (IH c next ltac:(lia)) as (c' & n' & E & Hc & Hor & Hmax). exists c', n'.
    split_and!; [done | done | |].
    - destruct Hor as [?|(? & ?)]; [by left | right; split; [lia | done]].
    - intros j cj Hj Hr. destruct (decide (j = S i)) as [->|]; [| apply (Hmax j); [lia | done]].
      destruct Hr as (q & t & Hq & Hq0 & _). congruence. }
  destruct (sw_some s W _ p Hp Hz) as (t & Ht). rewrite (bind_Ok _ _ _ _ _ (task_at_ok s p t Ht)).
  destruct ((ts_state t =? TASK_RUNNING) && (c <? ts_counter t)) eqn:Hr; b2p_in Hr.
  - destruct (IH (ts_counter t) (S i) ltac:(lia)) as (c' & n' & E & Hc & Hor & Hmax). exists c', n'.
    split_and!; [done | lia | |].
    + right. destruct Hor as [(-> & ->)|(? & ?)]; [| split; [lia | done]].
      split; [lia |]. exists p, t. tauto.
    + intros j cj Hj Hrj. destruct (decide (j = S i)) as [->|]; [| apply (Hmax j); [lia | done]].
      destruct Hrj as (q & u & Hq & _ & Hu & _ & <-). rewrite Hp in Hq. injection Hq as <-.
      rewrite Ht in Hu. injection Hu as <-. done.
  - destruct (IH c next ltac:(lia)) as (c' & n' & E & Hc & Hor & Hmax). exists c', n'.
    split_and!; [done | done | |].
    + destruct Hor as [?|(? & ?)]; [by left | right; split; [lia | done]].
    + intros j cj Hj Hrj. destruct (decide (j = S i)) as [->|]; [| apply (Hmax j); [lia | done]].
      destruct Hrj as (q & u & Hq & _ & Hu & Hs & <-). rewrite Hp in Hq. injection Hq as <-.
      rewrite Ht in Hu. injection Hu as <-. unfold TASK_RUNNING in *. lia.
Qed.

Definition task_ok (t : task_struct) : Prop := 0 <= ts_counter t < 2 ^ 30 /\ 0 < ts_priority t < 2 ^ 30.

Definition tasks_ok (s : sched) : Prop :=
  forall p t, in_slots s (NR_TASKS - 1) p -> tasks s !! p = Some t -> task_ok t.

(** The choice: the idle task when nothing is runnable, otherwise a runnable task
    with the most ticks left, and at least one. *)
Definition chosen (s : sched) (n : nat) : Prop :=
  (n = O /\ forall j c, (1 <= j < NR_TASKS)%nat -> ~ runnable s j c)
  \/ (exists c, (1 <= n < NR_TASKS)%nat /\ runnable s n c /\ 0 < c
      /\ forall j cj, (1 <= j < NR_TASKS)%nat -> runnable s j cj -> cj <= c).

Lemma runnable_ok s j c :
  tasks_ok s -> (1 <= j < NR_TASKS)%nat -> runnable s j c -> 0 <= c.
Proof.
  intros H Hj (p & t & Hp & Hz & Ht & _ & <-).
  destruct (H p t) as (? & _); [| done | lia]. split; [done |]. exists j. split; [lia | done].
Qed.

(** A turn of the loop that finds a task with ticks left, or none runnable. *)
Lemma schedule_turn s c next fuel :
  sched_wf s -> tasks_ok s -> pick_loop (NR_TASKS - 1) (-1) 0 s = Ok (c, next) s -> c <> 0 ->
  schedule_loop (S fuel) s = Ok (Some next) s /\ chosen s next.
Proof.
  intros W HT E Hc. destruct (pick_loop_ok s (NR_TASKS - 1) (-1) 0 W) as (c' & n' & E' & Hge & Hor & Hmax).
  { unfold NR_TASKS. lia. }
  rewrite E in E'. injection E' as <- <-. split.
  - cbn [schedule_loop]. rewrite (bind_Ok _ _ _ _ _ E). unfold cbool.
    by rewrite (proj2 (Z.eqb_neq c 0)).
  - destruct Hor as [(-> & ->)|(Hn & Hr)].
    + left. split; [done |]. intros j c Hj Hr. pose proof (runnable_ok s j c HT Hj Hr).
      pose proof (Hmax j c ltac:(unfold NR_TASKS in *; lia) Hr). lia.
    + right. exists c. assert (Hn' : (1 <= next < NR_TASKS)%nat) by (unfold NR_TASKS in *; lia).
      pose proof (runnable_ok s next c HT Hn' Hr). split_and!; [lia | lia | done | lia |].
      intros j cj Hj. apply Hmax. unfold NR_TASKS in *. lia.
Qed.

Lemma recalc_slot i s : recalc i s = on_slot refill i s.
Proof. done. Qed.

Lemma refill_ok t : task_ok t -> 1 <= ts_counter (refill t) < 2 ^ 30 + 2 ^ 29 /\ ts_state (refill t) = ts_state t.
Proof.
  intros (Hc & Hp). split; [| done]. unfold refill. cbn. rewrite Z.shiftr_div_pow2 by lia. change (2 ^ 1) with 2.
  assert (0 <= ts_counter t / 2 < 2 ^ 29) by (split; [apply Z.div_pos | apply Z.div_lt_upper_bound]; lia).
  rewrite s32_small; lia.
Qed.

Lemma schedule_loop_ok s :
  sched_wf s -> tasks_ok s ->
  exists n s' (again : bool), schedule_loop 2 s = Ok (Some n) s' /\ sched_wf s' /\ tasks_only s s' /\ chosen s' n
  /\ forall a, tasks s' !! a
       = if decide (again = true /\ in_slots s (NR_TASKS - 1) a) then refill <$> tasks s !! a else tasks s !! a.
Proof.
  intros W HT. destruct (pick_loop_ok s (NR_TASKS - 1) (-1) 0 W) as (c & n & E & Hge & Hor & Hmax).
  { unfold NR_TASKS. lia. }
  destruct (decide (c = 0)) as [->|Hc].
  2:{ destruct (schedule_turn s c n 1 W HT E Hc) as (E1 & H1). exists n, s, false.
      split_and!; [done | done | apply tasks_only_refl | done |]. intros a.
      rewrite decide_False; [done |]. by intros (? & _). }
  destruct Hor as [(? & _)|(Hn & Hr)]; [lia |].
  cbn [schedule_loop]. rewrite (bind_Ok _ _ _ _ _ E). cbn [cbool Z.eqb negb].
  destruct (for_down_ok refill (NR_TASKS - 1) s W) as (s1 & E1 & T1 & W1 & L1); [unfold NR_TASKS; lia |].
  assert (E1' : for_down (NR_TASKS - 1) recalc s = Ok tt s1) by exact E1.
  rewrite (bind_Ok _ _ _ _ _ E1').
  assert (HT1 : task s1 = task s) by (by destruct T1 as (m & ->)).
  assert (HS : forall k a, in_slots s1 k a <-> in_slots s k a) by (intros; unfold in_slots; by rewrite HT1).
  assert (HP : forall j c, (1 <= j < NR_TASKS)%nat -> runnable s1 j c -> 1 <= c).
  { intros j cj Hj (p & t & Hp & Hz & Ht & _ & <-).
    assert (HI : in_slots s (NR_TASKS - 1) p).
    { apply HS. split; [done |]. exists j. split; [unfold NR_TASKS in *; lia | done]. }
    rewrite L1, decide_True in Ht by done. destruct (tasks s !! p) as [u|] eqn:Hu; [| done].
    injection Ht as <-. destruct (refill_ok u); [by apply (HT p) | lia]. }
  destruct (pick_loop_ok s1 (NR_TASKS - 1) (-1) 0 W1) as (c1 & n1 & E2 & Hge1 & Hor1 & Hmax1).
  { unfold NR_TASKS. lia. }
  assert (Hc1 : 1 <= c1).
  { destruct Hr as (p & t & Hp & Hz & Ht & Hst & _).
    assert (HI : in_slots s (NR_TASKS - 1) p).
    { split; [done |]. exists n. split; [lia | done]. }
    assert (Hr1 : runnable s1 n (ts_counter (refill t))).
    { exists p, (refill t). rewrite L1, decide_True, Ht, HT1 by done. done. }
    pose proof (Hmax1 n _ Hn Hr1). pose proof (HP n _ ltac:(unfold NR_TASKS in *; lia) Hr1). lia. }
  exists n1, s1, true. split_and!; [| done | done | |].
  - cbn [schedule_loop]. rewrite (bind_Ok _ _ _ _ _ E2). unfold cbool.
    by rewrite (proj2 (Z.eqb_neq c1 0)) by lia.
  - right. exists c1. destruct Hor1 as [(? & _)|(Hn1 & Hr1)]; [lia |].
    unfold NR_TASKS in *. split_and!; [lia | lia | done | lia |]. intros j cj Hj. apply Hmax1. lia.
  - intros a. rewrite L1. destruct (decide (in_slots s (NR_TASKS - 1) a)).
    + by rewrite decide_True.
    + rewrite decide_False; [done |]. by intros (_ & ?).
Qed.

Lemma ring_rouse_ok now t : task_ok t -> task_ok (rouse (ring now t)).
Proof. intros H. unfold rouse, ring. by repeat case_match. Qed.

(** The result of [schedule]: the task chosen, and every task rung, roused and, if
    the loop went round [again], refilled. *)
Definition scheduled (s s' : sched) (n : nat) (again : bool) : Prop :=
  sched_wf s' /\ chosen s' n /\ task s' !! n = Some (current s')
  /\ tasks_only (put current (current s') s) s'
  /\ forall a, tasks s' !! a =
       if decide (in_slots s (NR_TASKS - 1) a)
       then (fun t => let t := rouse (ring (jiffies s) t) in if again then refill t else t) <$> tasks s !! a
       else tasks s !! a.

Lemma schedule_ok s :
  sched_wf s -> tasks_ok s -> exists n s' again, schedule 2 s = Ok (Some n) s' /\ scheduled s s' n again.
Proof.
  intros W HT. unfold schedule. set (f := fun t => rouse (ring (jiffies s) t)).
  destruct (for_down_ok f (NR_TASKS - 1) s W) as (s1 & E1 & T1 & W1 & L1); [unfold NR_TASKS; lia |].
  assert (E1' : for_down (NR_TASKS - 1) check_alarm s = Ok tt s1).
  { rewrite <- E1. apply for_down_ext; [done | unfold NR_TASKS; lia |]. intros s' i (m & ->) W' Hi.
    rewrite (check_alarm_slot (put tasks m s) i W' Hi). reflexivity. }
  rewrite (bind_Ok _ _ _ _ _ E1'). assert (HT1 : task s1 = task s) by (by destruct T1 as (m & ->)).
  assert (HS : forall k a, in_slots s1 k a <-> in_slots s k a) by (intros; unfold in_slots; by rewrite HT1).
  destruct (schedule_loop_ok s1 W1) as (n & s2 & again & E2 & W2 & T2 & C2 & L2).
  { intros p t Hp Ht. rewrite L1, decide_True in Ht by (by apply HS).
    destruct (tasks s !! p) as [u|] eqn:Hu; [| done]. injection Ht as <-.
    apply ring_rouse_ok, (HT p); [by apply HS | done]. }
  rewrite (bind_Ok _ _ _ _ _ E2). unfold switch_to.
  assert (HT2 : task s2 = task s) by (by destruct T2 as (m & ->)).
  destruct (sched_slot s2 n W2) as (p & Hp).
  { destruct C2 as [(-> & _)|(c & Hn & _)]; unfold NR_TASKS in *; lia. }
  exists n, (put current p s2), again. unfold scheduled. split_and!.
  - unfold bind. rewrite (slot_ok s2 n p Hp). done.
  - destruct W2 as [H1 H2 H3 H4]. by constructor.
  - exact C2.
  - exact Hp.
  - destruct T1 as (m1 & ->). destruct T2 as (m2 & ->). by exists m2.
  - intros a. change (tasks (put current p s2)) with (tasks s2). rewrite L2, L1.
    destruct (decide (in_slots s (NR_TASKS - 1) a)) as [Ha|Ha].
    + destruct again.
      * rewrite decide_True by (split; [done | by apply HS]). by destruct (tasks s !! a).
      * rewrite decide_False by (by intros (? & _)). by destruct (tasks s !! a).
    + rewrite decide_False; [done |]. intros (_ & Hs). by apply Ha, HS.
Qed.

(** No task changes its state but from interruptible sleep to running. *)
Lemma scheduled_states s s' n again a :
  scheduled s s' n again -> (ts_state <$> tasks s !! a) <> Some TASK_INTERRUPTIBLE ->
  (ts_state <$> tasks s' !! a) = (ts_state <$> tasks s !! a).
Proof.
  intros (_ & _ & _ & _ & L) Hs. rewrite L. destruct (decide _); [| done].
  destruct (tasks s !! a) as [t|]; [| done]. cbn in *. f_equal.
  assert (E : ts_state (ring (jiffies s) t) = ts_state t) by (unfold ring; by destruct (alarm_rings _ _)).
  transitivity (ts_state (rouse (ring (jiffies s) t))); [by destruct again |]. unfold rouse. rewrite <- E in *.
  destruct (Z.eqb_spec (ts_state (ring (jiffies s) t)) TASK_INTERRUPTIBLE); [congruence |].
  by rewrite andb_false_r.
Qed.

(** C27: [schedule] returns (its loop runs at most twice) and gives the processor
    to the idle task if no other task can run, otherwise to a runnable task with
    the most ticks left; on the way every expired alarm has become a [SIGALRM],
    every interruptible task with a signal that is not blocked has become runnable,
    the counters may have been refilled, and nothing else has changed. *)
Theorem schedule_correct s :
  sched_wf s -> tasks_ok s -> exists n s' again, schedule 2 s = Ok (Some n) s' /\ scheduled s s' n again.
Proof. exact (schedule_ok s). Qed.

(** Two tasks: the idle task and one at address 2000. *)
Definition demo_sched : sched :=
  mk_sched (1000 :: 2000 :: replicate 62 0)
    (<[1000 := INIT_TASK 1000]> (<[2000 := put ts_pid 1 (INIT_TASK 2000)]> ∅)) 1000 1000 0 7 0
    (replicate 4 0) (replicate 4 0) (replicate 4 0) 0x0C 0
    (replicate TIME_REQUESTS (mk_timer 0 0 None)) None [].

Lemma demo_slots i p : task demo_sched !! i = Some p -> p <> 0 -> (i = 0%nat /\ p = 1000) \/ (i = 1%nat /\ p = 2000).
Proof.
  cbn [task demo_sched]. destruct i as [|[|i]]; cbn; [intros [= <-]; by left | intros [= <-]; by right |].
  intros H Hp. apply (lookup_replicate_1 62) in H as (? & _). done.
Qed.

Lemma demo_sched_wf : sched_wf demo_sched.
Proof.
  constructor.
  - reflexivity.
  - intros i p H Hp. destruct (demo_slots i p H Hp) as [(_ & ->)|(_ & ->)]; by eexists.
  - intros i j p Hi Hj Hp. pose proof (demo_slots i p Hi Hp). pose proof (demo_slots j p Hj Hp). lia.
  - done.
Qed.

Lemma demo_tasks_ok : tasks_ok demo_sched.
Proof.
  intros p t (Hp & i & Hi & Hs) Ht.
  destruct (demo_slots i p Hs Hp) as [(_ & ->)|(_ & ->)]; injection Ht as <-; by split.
Qed.

Lemma schedule_correct_witness :
  exists n s', schedule 2 demo_sched = Ok (Some n) s' /\ chosen s' n.
Proof.
  destruct (schedule_correct demo_sched demo_sched_wf demo_tasks_ok) as (n & s' & again & E & _ & C & _).
  exists n, s'. split; [exact E | exact C].
Defined.
