(* ===== verification/Timers.v ===== *)
(** The timer list of kernel/sched.c as a queue of deadlines.

    The kernel keeps its timers in 64 slots chained in the order of expiry, each
    holding the ticks left after the one before it.  Here the chain is related to
    the list of [(delay, routine)] pairs it stands for and to their deadlines;
    [add_timer] inserts in that list and the timer part of [do_timer] takes the
    expired entries off its front. *)
From stdpp Require Import base list gmap strings.
From Stdlib Require Import ZArith Lia.
From S2P Require Import Prelude Sched.
Open Scope Z_scope.

(** ** The specification: a list of delays *)

Abbreviation entry := (Z * Z)%type.

(** Insert a timer that expires in [t] ticks. *)
Fixpoint t_insert (t f : Z) (q : list entry) : list entry :=
  match q with
  | [] => [(t, f)]
  | (d, g) :: q' => if d <? t then (d, g) :: t_insert (t - d) f q' else (t, f) :: q
  end.

(** The deadlines, counted from [base]. *)
Fixpoint due (base : Z) (q : list entry) : list entry :=
  match q with
  | [] => []
  | (d, f) :: q => (base + d, f) :: due (base + d) q
  end.

(** Take the expired timers off the front: their routines and the rest. *)
Fixpoint t_expired (q : list entry) : list Z * list entry :=
  match q with
  | [] => ([], [])
  | (d, f) :: q' =>
    if d <=? 0 then let (fs, r) := t_expired q' in (f :: fs, r) else ([], q)
  end.

Definition t_tick (q : list entry) : list Z * list entry :=
  match q with
  | [] => ([], [])
  | (d, f) :: q => t_expired ((d - 1, f) :: q)
  end.

Definition entry_ok (e : entry) : Prop := 0 <= e.1 < 2 ^ 31 /\ e.2 <> 0.
Definition head_pos (q : list entry) : Prop := match q with [] => True | (d, _) :: _ => 0 < d end.

Lemma due_shift b c q : due (b + c) q = (fun e => (e.1 + c, e.2)) <$> due b q.
Proof.
  revert b. induction q as [|[d f] q IH]; intros b; cbn; [done |].
  f_equal; [f_equal; lia |]. by rewrite <- IH, <- !Z.add_assoc, (Z.add_comm c).
Qed.

Lemma t_insert_due b t f q :
  Forall entry_ok q -> 0 < t ->
  exists before after r, due b q = before ++ after
  /\ due b (t_insert t f q) = before ++ (b + t, f) :: ((fun e => (e.1 + r, e.2)) <$> after)
  /\ 0 < r <= t /\ Forall (fun e => b <= e.1 < b + t) before.
Proof.
  intros Hq. revert b t. induction Hq as [|[d g] q (Hd & _) Hq IH]; intros b t Ht.
  { exists [], [], t. cbn. split_and!; [done | done | lia | lia | done]. }
  cbn in Hd. cbn [t_insert]. destruct (Z.ltb_spec d t).
  - destruct (IH (b + d) (t - d) ltac:(lia)) as (bf & af & r & E1 & E2 & Hr & Hb).
    exists ((b + d, g) :: bf), af, r. cbn. rewrite E1, E2. split_and!; [done | | lia | lia |].
    + by replace (b + d + (t - d)) with (b + t) by lia.
    + constructor; [cbn; lia |]. eapply Forall_impl; [done |]. cbn. lia.
  - exists [], (due b ((d, g) :: q)), t. split_and!; [done | | lia | lia | done].
    change (due b ((t, f) :: (d, g) :: q)) with ((b + t, f) :: due (b + t) ((d, g) :: q)).
    by rewrite due_shift.
Qed.

Lemma due_ge b q : Forall entry_ok q -> Forall (fun e => b <= e.1) (due b q).
Proof.
  intros H. revert b. induction H as [|[d f] q (Hd & _) _ IH]; intros b; cbn in *; constructor; cbn; [lia |].
  eapply Forall_impl; [apply (IH (b + d)) |]. cbn. lia.
Qed.

Lemma t_expired_due b q fs r :
  Forall entry_ok q -> t_expired q = (fs, r) ->
  fs = (filter (fun e => e.1 <= b) (due b q)).*2
  /\ due b r = filter (fun e => b < e.1) (due b q)
  /\ head_pos r /\ Forall entry_ok r.
Proof.
  intros H. revert fs r. induction H as [|[d f] q (Hd & Hf) Hq IH]; intros fs r; cbn [t_expired].
  { by intros [= <- <-]. }
  cbn in Hd. destruct (Z.leb_spec d 0).
  - assert (d = 0) as -> by lia. destruct (t_expired q) as [fs' r'] eqn:E. intros [= <- <-].
    destruct (IH _ _ eq_refl) as (-> & Er & Hh & Hr). cbn [due]. rewrite Z.add_0_r.
    rewrite filter_cons_True, filter_cons_False by (cbn; lia). done.
  - intros [= <- <-].
    pose proof (due_ge b ((d, f) :: q)) as Hge. cbn [due] in *.
    assert (HF : Forall (fun e => b < e.1) ((b + d, f) :: due (b + d) q)).
    { constructor; [cbn; lia |]. eapply Forall_impl; [by apply due_ge |]. cbn. lia. }
    rewrite (list_filter_all (fun e => b < e.1)) by done. split_and!; [| done | done | by constructor].
    rewrite list_filter_none; [done |]. eapply Forall_impl; [exact HF |]. cbn. lia.
Qed.

(** One tick: what expires is what was due, everything else is one tick closer. *)
Lemma t_tick_due q fs r :
  Forall entry_ok q -> head_pos q -> t_tick q = (fs, r) ->
  fs = (filter (fun e => e.1 <= 1) (due 0 q)).*2
  /\ due 1 r = filter (fun e => 1 < e.1) (due 0 q)
  /\ head_pos r /\ Forall entry_ok r.
Proof.
  destruct q as [|[d f] q]; intros Hq Hh E; [by injection E as <- <- |].
  inversion_clear Hq as [|?? (Hd & Hf) Hq']. cbn in Hd, Hf, Hh.
  eapply (t_expired_due 1) in E; [| by constructor; [split; cbn; lia |]].
  cbn [due] in *. by replace (1 + (d - 1)) with (0 + d) in E by lia.
Qed.

(** ** The chain of slots *)

Inductive chain (ts : list timer_list) : option nat -> list nat -> list entry -> Prop :=
| chain_nil : chain ts None [] []
| chain_cons p n d f ps q :
  ts !! p = Some (mk_timer d f n) -> chain ts n ps q -> chain ts (Some p) (p :: ps) ((d, f) :: q).

(** The slots in use are exactly those on the chain. *)
Record timers_ok (s : sched) (ps : list nat) (q : list entry) : Prop := {
  tk_len : length (timers s) = TIME_REQUESTS;
  tk_chain : chain (timers s) (next_timer s) ps q;
  tk_nodup : NoDup ps;
  tk_used : forall i t, timers s !! i = Some t -> tl_fn t <> 0 -> i ∈ ps;
  tk_entries : Forall entry_ok q;
  tk_head : head_pos q }.

(** The same but for the head, which has expired while [do_timer] is at work. *)
Definition firing (s : sched) (ps : list nat) (q : list entry) : Prop :=
  length (timers s) = TIME_REQUESTS /\ chain (timers s) (next_timer s) ps q /\ NoDup ps
  /\ (forall i t, timers s !! i = Some t -> tl_fn t <> 0 -> i ∈ ps) /\ Forall entry_ok q.

Lemma firing_ok s ps q : timers_ok s ps q <-> firing s ps q /\ head_pos q.
Proof. split; [intros []; by unfold firing | intros ((? & ? & ? & ? & ?) & ?); by constructor]. Qed.

Lemma chain_frame ts ts' o ps q :
  chain ts o ps q -> (forall i, i ∈ ps -> ts' !! i = ts !! i) -> chain ts' o ps q.
Proof.
  induction 1 as [|p n d f ps q H _ IH]; intros E; [constructor |].
  econstructor; [rewrite E; [done | left] |]. apply IH. intros i Hi. apply E. by right.
Qed.

Lemma chain_lookup ts o ps q i :
  chain ts o ps q -> Forall entry_ok q -> i ∈ ps -> exists t, ts !! i = Some t /\ tl_fn t <> 0.
Proof.
  induction 1 as [|p n d f ps q H _ IH]; intros Hq Hi; [by apply elem_of_nil in Hi |].
  inversion_clear Hq as [|?? (_ & Hf) Hq']. apply elem_of_cons in Hi as [->|Hi]; [by eexists | by apply IH].
Qed.

Lemma chain_length ts o ps q :
  chain ts o ps q -> NoDup ps -> (length ps <= length ts)%nat /\ length q = length ps.
Proof.
  intros H Hn. split.
  - rewrite <- (length_seq (length ts) 0). apply submseteq_length, NoDup_submseteq; [done |].
    intros i Hi. apply elem_of_seq. split; [lia |]. apply lookup_lt_is_Some_1.
    clear Hn. induction H; [by apply elem_of_nil in Hi |].
    apply elem_of_cons in Hi as [->|Hi]; [by eexists | by apply IHchain].
  - clear Hn. induction H; cbn; [done | by f_equal].
Qed.

(** ** Adding a timer *)

Lemma free_timer_Some l p : free_timer l = Some p -> exists t, l !! p = Some t /\ tl_fn t = 0.
Proof.
  revert p. induction l as [|t l IH]; intros p; cbn [free_timer]; [done |]. unfold cbool.
  destruct (Z.eqb_spec (tl_fn t) 0); cbn.
  - intros [= <-]. by exists t.
  - destruct (free_timer l); [| done]. intros [= <-]. by apply IH.
Qed.

Lemma free_timer_None l i t : free_timer l = None -> l !! i = Some t -> tl_fn t <> 0.
Proof.
  revert i. induction l as [|u l IH]; intros i; cbn [free_timer]; [done |]. unfold cbool.
  destruct (Z.eqb_spec (tl_fn u) 0); cbn; [done |]. destruct (free_timer l); [done |].
  intros _. destruct i; cbn; [by intros [= <-] | by apply IH].
Qed.

Lemma timer_at_ok s i t : timers s !! i = Some t -> timer_at i s = Ok t s.
Proof. intros H. unfold timer_at, bind, get, id. by rewrite H. Qed.

(** The new entry moves down the chain to its place. *)
Lemma sink_timer_ok fuel s p d f n ps q :
  timers s !! p = Some (mk_timer d f n) -> chain (timers s) n ps q -> NoDup (p :: ps) ->
  Forall entry_ok q -> 0 < d < 2 ^ 31 -> (length ps < fuel)%nat ->
  exists ts, sink_timer fuel p s = Ok tt (put timers ts s)
  /\ chain ts (Some p) (p :: ps) (t_insert d f q)
  /\ (forall i, i ∉ p :: ps -> ts !! i = timers s !! i) /\ length ts = length (timers s).
Proof.
  revert s p d n ps q. induction fuel as [|fuel IH]; intros s p d n ps q Hp Hc Hn Hq Hd Hf; [lia |].
  cbn [sink_timer]. rewrite (bind_Ok _ _ _ _ _ (timer_at_ok s p _ Hp)). cbn [tl_next tl_jiffies tl_fn].
  destruct Hc as [|r m b g ps q Hr Hc].
  { exists (timers s). split_and!; [by destruct s | | done | done]. econstructor; [done | constructor]. }
  inversion_clear Hq as [|?? (Hb & Hg) Hq']. cbn in Hb.
  rewrite (bind_Ok _ _ _ _ _ (timer_at_ok s r _ Hr)). cbn [tl_next tl_jiffies tl_fn t_insert].
  destruct (Z.ltb_spec b d).
  2:{ exists (timers s). split_and!; [by destruct s | | done | done]. econstructor; [done | by econstructor]. }
  rewrite s32_small by lia. unfold timer_put, bind at 1 2, modify. cbn beta iota.
  apply NoDup_cons in Hn as (Hpr & Hn). pose proof Hn as (Hrp & Hn')%NoDup_cons.
  set (s1 := over timers _ (over timers _ s)).
  assert (Hne : p <> r) by (intros ->; apply Hpr; left).
  assert (Hfr : forall i, i <> p -> i <> r -> timers s1 !! i = timers s !! i).
  { intros i Hip Hir. cbn. by rewrite !list_lookup_insert_ne. }
  destruct (IH s1 r (d - b) m ps q) as (ts & E & Hch & Hout & Hlen); [| | done | done | lia | cbn in Hf; lia |].
  { cbn. apply list_lookup_insert_eq. rewrite length_insert. by eapply lookup_lt_Some. }
  { eapply chain_frame; [done |]. intros i Hi. apply Hfr; intros ->; [apply Hpr; by right | done]. }
  exists ts. split_and!; [by rewrite E | | |].
  - econstructor; [| exact Hch]. rewrite Hout by done. cbn.
    rewrite list_lookup_insert_ne by done. apply list_lookup_insert_eq. by eapply lookup_lt_Some.
  - intros i Hi. rewrite Hout by (by apply not_elem_of_cons in Hi as (_ & ?)).
    rewrite !not_elem_of_cons in Hi. apply Hfr; tauto.
  - rewrite Hlen. cbn. by rewrite !length_insert.
Qed.

(** A queue entry keeps its bounds when another is inserted. *)
Lemma t_insert_ok t f q :
  Forall entry_ok q -> 0 < t < 2 ^ 31 -> f <> 0 ->
  Forall entry_ok (t_insert t f q) /\ (head_pos q -> head_pos (t_insert t f q)).
Proof.
  intros Hq Ht Hf. split.
  - revert t Ht. induction Hq as [|[d g] q (Hd & Hg) Hq IH]; intros t Ht; cbn [t_insert].
    + repeat constructor; cbn; lia.
    + cbn in Hd, Hg. destruct (Z.ltb_spec d t); repeat (constructor; [cbn; split; cbn; lia |]); [| done].
      apply IH. lia.
  - intros Hh. destruct q as [|[d g] q]; cbn in *; [lia |]. destruct (d <? t); cbn; lia.
Qed.

Lemma add_timer_inserts call s ps q ticks f :
  firing s ps q -> 0 < ticks < 2 ^ 31 -> f <> 0 ->
  if decide (length q < TIME_REQUESTS)%nat
  then exists ts p, add_timer call ticks f s = Ok tt (put next_timer (Some p) (put timers ts s))
       /\ firing (put next_timer (Some p) (put timers ts s)) (p :: ps) (t_insert ticks f q)
  else add_timer call ticks f s = Panic "No more time requests free" s.
Proof.
  intros (Hl & Hc & Hn & Hu & Hq) Ht Hf. unfold add_timer, cbool.
  rewrite (proj2 (Z.eqb_neq f 0)) by done. rewrite (proj2 (Z.leb_gt ticks 0)) by lia. cbn [negb].
  rewrite (bind_Ok (get id) _ s s s eq_refl). cbn beta.
  destruct (chain_length _ _ _ _ Hc Hn) as (Hps & Hqs).
  destruct (free_timer (timers s)) as [p|] eqn:Hfree.
  - destruct (free_timer_Some _ _ Hfree) as (t & Hp & Ht0).
    assert (Hpn : p ∉ ps).
    { intros Hi. destruct (chain_lookup _ _ _ _ p Hc Hq Hi) as (? & ? & ?). congruence. }
    rewrite decide_True.
    2:{ rewrite Hqs, <- Hl, <- (length_seq (length (timers s)) 0).
        assert (Hin : p ∈ seq 0 (length (timers s))).
        { apply elem_of_seq. split; [lia |]. by eapply lookup_lt_Some. }
        apply (Nat.lt_le_trans _ (length (p :: ps))); [cbn; lia |].
        apply submseteq_length, NoDup_submseteq; [by apply NoDup_cons |].
        intros i [->|Hi]%elem_of_cons; [done |].
        destruct (chain_lookup _ _ _ _ i Hc Hq Hi) as (? & ?%lookup_lt_Some & _). apply elem_of_seq. lia. }
    unfold timer_put, bind, modify. cbn beta iota.
    set (s1 := put next_timer _ _).
    assert (Hfr : forall i, i <> p -> timers s1 !! i = timers s !! i).
    { intros i Hi. cbn. by rewrite list_lookup_insert_ne. }
    destruct (sink_timer_ok (S TIME_REQUESTS) s1 p ticks f (next_timer s) ps q) as (ts & E & Hch & Hout & Hlen);
      [| | by apply NoDup_cons | done | done | lia |].
    { cbn. apply list_lookup_insert_eq. by eapply lookup_lt_Some. }
    { eapply chain_frame; [done |]. intros i Hi. apply Hfr. by intros ->. }
    exists ts, p. rewrite E. split; [done |].
    destruct (t_insert_ok ticks f q Hq Ht Hf) as (Hq' & _).
    split_and!; [| done | by apply NoDup_cons | | done].
    + cbn. rewrite Hlen. cbn. by rewrite length_insert.
    + intros i u Hi Hfn. destruct (decide (i ∈ p :: ps)) as [|Hni]; [done |]. cbn in Hi.
      rewrite Hout, Hfr in Hi by (done || (intros ->; apply Hni; left)). right. by eapply Hu.
  - rewrite decide_False; [done |]. rewrite Hqs, <- Hl. intros Hlt. apply Nat.lt_nge in Hlt. apply Hlt.
    rewrite <- (length_seq (length (timers s)) 0).
    apply submseteq_length, NoDup_submseteq; [apply NoDup_seq |]. intros i Hi. apply elem_of_seq in Hi.
    destruct (lookup_lt_is_Some_2 (timers s) i) as (t & Ht'); [lia |].
    eapply Hu; [done | by eapply free_timer_None].
Qed.

(** Adding a timer with a free slot left gives it the deadline asked for and
    keeps the deadlines of the timers due before it, and pushes the timers due at
    or after it back by the part [r] of its delay that the timers before it do not
    cover; with all 64 slots in use it panics.  A delay that is not positive calls
    the routine at once and a null routine is ignored. *)
Theorem add_timer_correct call s ps q ticks f :
  timers_ok s ps q -> - 2 ^ 31 <= ticks < 2 ^ 31 ->
  if decide (f = 0) then add_timer call ticks f s = Ok tt s
  else if decide (ticks <= 0) then add_timer call ticks f s = call f s
  else if decide (length q < TIME_REQUESTS)%nat then
    exists ts p q' before after r, let s' := put next_timer (Some p) (put timers ts s) in
    add_timer call ticks f s = Ok tt s' /\ timers_ok s' (p :: ps) q'
    /\ due 0 q = before ++ after
    /\ due 0 q' = before ++ (ticks, f) :: ((fun e => (e.1 + r, e.2)) <$> after)
    /\ 0 < r <= ticks /\ Forall (fun e => 0 <= e.1 < ticks) before
  else add_timer call ticks f s = Panic "No more time requests free" s.
Proof.
  intros Hok Ht. destruct (decide (f = 0)) as [->|Hf]; [done |].
  destruct (decide (ticks <= 0)) as [Hle|Hgt].
  { unfold add_timer, cbool. by rewrite (proj2 (Z.eqb_neq f 0)), (proj2 (Z.leb_le ticks 0)). }
  pose proof Hok as (Hfi & Hh)%firing_ok.
  pose proof (add_timer_inserts call s ps q ticks f Hfi ltac:(lia) Hf) as H.
  destruct (decide (length q < TIME_REQUESTS)%nat); [| done].
  destruct H as (ts & p & E & Hok').
  destruct (t_insert_due 0 ticks f q (tk_entries _ _ _ Hok) ltac:(lia)) as (bf & af & r & H1 & H2 & H3 & H4).
  exists ts, p, (t_insert ticks f q), bf, af, r. split_and!; try done; try lia.
  apply firing_ok. split; [done |]. by apply t_insert_ok; [apply Hok | lia | |].
Qed.

(** ** Firing *)

Definition insert_all (q : list entry) (l : list entry) : list entry :=
  foldl (fun q e => t_insert e.1 e.2 q) q l.

Lemma t_expired_length q fs r : t_expired q = (fs, r) -> (length fs <= length q)%nat.
Proof.
  revert fs r. induction q as [|[d f] q IH]; intros fs r; cbn; [by intros [= <- <-] |].
  destruct (d <=? 0); [| intros [= <- <-]; cbn; lia]. destruct (t_expired q) as [fs1 r1]. intros [= <- <-].
  specialize (IH fs1 r1 eq_refl). cbn. lia.
Qed.

(** A timer that is added while others are due is not due itself. *)
Lemma t_expired_insert t f q fs r :
  Forall entry_ok q -> 0 < t -> t_expired q = (fs, r) -> t_expired (t_insert t f q) = (fs, t_insert t f r).
Proof.
  intros Hq. revert t fs r. induction Hq as [|[d g] q (Hd & _) Hq IH]; intros t fs r Ht; cbn [t_expired t_insert].
  - intros [= <- <-]. cbn. by rewrite (proj2 (Z.leb_gt t 0)) by lia.
  - cbn in Hd. destruct (Z.leb_spec d 0).
    + assert (d = 0) as -> by lia. rewrite (proj2 (Z.ltb_lt 0 t)) by lia. rewrite Z.sub_0_r. cbn [t_expired Z.leb Z.compare].
      destruct (t_expired q) as [fs1 r1] eqn:E. intros [= <- <-]. by rewrite (IH t fs1 r1).
    + intros [= <- <-]. cbn [t_insert]. destruct (d <? t); cbn [t_expired]; by rewrite (proj2 (Z.leb_gt _ 0)) by lia.
Qed.

Section Run.
(** The timer routines run to completion.  Each may add one timer with a positive delay, as
    [floppy_on_interrupt] does; whether it does ([adds]) and what else it does ([eff]) has
    nothing to do with the timers there are. *)
Context (call : Z -> M sched unit) (eff : Z -> sched -> sched) (adds : Z -> sched -> option entry).
Hypothesis call_eff : forall f s,
  call f s = match adds f s with
             | None => Ok tt (eff f s)
             | Some (ticks, g) => add_timer (fun _ => ub) ticks g (eff f s)
             end.
Hypothesis eff_frame : forall f ts o s,
  eff f (put timers ts (put next_timer o s)) = put timers ts (put next_timer o (eff f s)).
Hypothesis adds_frame : forall f ts o s, adds f (put timers ts (put next_timer o s)) = adds f s.
Hypothesis adds_ok : forall f s t g, adds f s = Some (t, g) -> 0 < t < 2 ^ 31 /\ g <> 0.

(** The timers that routines [fs] add when they run one after the other. *)
Fixpoint added (fs : list Z) (s : sched) : list entry :=
  match fs with
  | [] => []
  | f :: fs => option_list (adds f s) ++ added fs (eff f s)
  end.

Lemma put_timers_id s : put timers (timers s) (put next_timer (next_timer s) s) = s.
Proof. by destruct s. Qed.

Lemma eff_timers f s : timers (eff f s) = timers s /\ next_timer (eff f s) = next_timer s.
Proof using eff_frame.
  pose proof (eff_frame f (timers s) (next_timer s) s) as E. rewrite put_timers_id in E. by rewrite E.
Qed.

Lemma foldl_frame fs ts o s :
  foldl (flip eff) (put timers ts (put next_timer o s)) fs
  = put timers ts (put next_timer o (foldl (flip eff) s fs)).
Proof using eff_frame.
  revert s. induction fs as [|f fs IH]; intros s; cbn [foldl flip]; [done |]. by rewrite eff_frame, IH.
Qed.

Lemma added_frame fs ts o s : added fs (put timers ts (put next_timer o s)) = added fs s.
Proof using eff_frame adds_frame.
  revert s. induction fs as [|f fs IH]; intros s; cbn [added]; [done |]. by rewrite adds_frame, eff_frame, IH.
Qed.

(** One routine: its slot is free again, so there is one for the timer that it adds. *)
Lemma call_fires f s ps q fs r ts1 n :
  firing (put timers ts1 (put next_timer n s)) ps q -> (length q < TIME_REQUESTS)%nat -> t_expired q = (fs, r) ->
  exists ts o ps' q', call f (put timers ts1 (put next_timer n s)) = Ok tt (put timers ts (put next_timer o (eff f s)))
  /\ firing (put timers ts (put next_timer o (eff f s))) ps' q'
  /\ t_expired q' = (fs, insert_all r (option_list (adds f s))).
Proof using call_eff eff_frame adds_frame adds_ok.
  intros HF Hl E. rewrite call_eff, adds_frame, eff_frame. destruct (adds f s) as [[t g]|] eqn:Ea.
  - destruct (adds_ok _ _ _ _ Ea) as (Ht & Hg).
    set (s2 := put timers ts1 (put next_timer n (eff f s))). assert (HF2 : firing s2 ps q) by exact HF.
    pose proof (add_timer_inserts (fun _ => ub) s2 ps q t g HF2 Ht Hg) as H.
    rewrite decide_True in H by done. destruct H as (ts & p & EA & HF').
    exists ts, (Some p), (p :: ps), (t_insert t g q). rewrite EA. split_and!; [done | exact HF' |].
    cbn. apply t_expired_insert; [apply HF | lia | done].
  - exists ts1, n, ps, q. by split_and!.
Qed.

Lemma fire_timers_ok fuel s ps q fs r :
  firing s ps q -> (length fs < fuel)%nat -> t_expired q = (fs, r) ->
  exists ts o ps', let s' := put timers ts (put next_timer o (foldl (flip eff) s fs)) in
  fire_timers call fuel s = Ok tt s' /\ firing s' ps' (insert_all r (added fs s)).
Proof using call_eff eff_frame adds_frame adds_ok.
  revert s ps q fs r. induction fuel as [|fuel IH]; intros s ps q fs r HF Hf E; [lia |].
  assert (Hnone : exists ts o ps', let s' := put timers ts (put next_timer o (foldl (flip eff) s [])) in
    Ok tt s = Ok tt s' /\ firing s' ps' q).
  { exists (timers s), (next_timer s), ps. cbn [foldl]. by rewrite put_timers_id. }
  destruct HF as (Hl & Hc & Hn & Hu & Hq). destruct (chain_length _ _ _ _ Hc Hn) as (Hps & Hqs).
  cbn [fire_timers]. rewrite (bind_Ok (get next_timer) _ s (next_timer s) s eq_refl).
  destruct (next_timer s) as [p|] eqn:Ho; inversion Hc as [|? n d f ps1 q1 Hp Hc1]; subst.
  2:{ by injection E as <- <-. }
  rewrite (bind_Ok _ _ _ _ _ (timer_at_ok s p _ Hp)). cbn [tl_jiffies tl_fn tl_next].
  cbn [t_expired] in E. destruct (d <=? 0); [clear Hnone | by injection E as <- <-].
  destruct (t_expired q1) as [fs1 r1] eqn:E1. injection E as <- <-.
  unfold timer_put, modify. unfold bind at 1 2. cbn beta iota.
  set (ts1 := <[p := mk_timer d 0 n]> (timers s)).
  change (put next_timer n _) with (put timers ts1 (put next_timer n s)).
  apply NoDup_cons in Hn as (Hpn & Hn). inversion_clear Hq as [|?? (_ & _) Hq1].
  destruct (call_fires f s ps1 q1 fs1 r1 ts1 n) as (ts2 & o2 & ps2 & q2 & EC & HF2 & E2); [| cbn in Hqs, Hps; lia | done |].
  { unfold firing. cbn. unfold ts1. rewrite length_insert. split_and!; [done | | done | | done].
    - eapply chain_frame; [done |]. intros i Hi. apply list_lookup_insert_ne. by intros <-.
    - intros i t Hi Ht. destruct (decide (p = i)) as [<-|Hne].
      + rewrite list_lookup_insert_eq in Hi by (by eapply lookup_lt_Some). by injection Hi as <-.
      + rewrite list_lookup_insert_ne in Hi by done.
        destruct (proj1 (elem_of_cons _ _ _) (Hu i t Hi Ht)); [congruence | done]. }
  rewrite (bind_Ok _ _ _ _ _ EC). destruct (IH _ _ _ fs1 (insert_all r1 (option_list (adds f s))) HF2) as (ts & o & ps' & E & HF); [cbn in Hf; lia | exact E2 |].
  exists ts, o, ps'. rewrite E, foldl_frame in *. rewrite added_frame in HF. split; [done |].
  unfold insert_all in *. cbn [added]. by rewrite foldl_app.
Qed.

Lemma insert_all_ok q fs s : Forall entry_ok q -> head_pos q -> head_pos (insert_all q (added fs s)).
Proof using adds_ok.
  revert q s. induction fs as [|f fs IH]; intros q s Hq Hh; cbn [added]; [done |]. unfold insert_all. rewrite foldl_app.
  destruct (adds f s) as [[t g]|] eqn:Ea; cbn [option_list foldl]; [| by apply IH].
  destruct (adds_ok _ _ _ _ Ea) as (Ht & Hg). destruct (t_insert_ok t g q Hq Ht Hg) as (? & ?). by apply IH; auto.
Qed.

(** C29: one clock tick calls exactly the routines of the timers whose deadline is
    this tick, in the order of the queue; the deadlines of the others are one tick
    closer, and the slots of the expired ones are free again.  What is assumed of the
    routines is in the hypotheses of the section: they return, each may add one timer with
    a positive delay, and otherwise they leave the timers alone.  The timers they add are
    inserted among those that are left, as [add_timer] does it, and none of them is run in
    this tick.  65 turns are enough for the loop. *)
Theorem run_timers_correct s ps q :
  timers_ok s ps q ->
  exists ts o ps' q', let fired := (filter (fun e => e.1 <= 1) (due 0 q)).*2 in
  let s' := put timers ts (put next_timer o (foldl (flip eff) s fired)) in
  run_timers call (S TIME_REQUESTS) s = Ok tt s' /\ timers_ok s' ps' (insert_all q' (added fired s))
  /\ due 1 q' = filter (fun e => 1 < e.1) (due 0 q).
Proof using call_eff eff_frame adds_frame adds_ok.
  intros [Hl Hc Hn Hu Hq Hh]. destruct (t_tick q) as [fs r] eqn:E.
  destruct (t_tick_due q fs r Hq Hh E) as (-> & Hdue & Hh' & Hq'). unfold run_timers.
  rewrite (bind_Ok (get next_timer) _ s (next_timer s) s eq_refl).
  destruct (chain_length _ _ _ _ Hc Hn) as (Hps & Hqs).
  destruct (next_timer s) as [p|] eqn:Ho; inversion Hc as [|? n d f ps1 q1 Hp Hc1]; subst.
  2:{ injection E as <-. exists (timers s), (next_timer s), [], []. cbn [due filter list_filter fmap list_fmap foldl].
      rewrite put_timers_id. split_and!; [done | | done]. constructor; try done. by rewrite Ho. }
  cbn [t_tick] in E. set (s1 := over timers <[p := mk_timer (d - 1) f n]> s).
  inversion Hq as [|?? (Hd & Hf) Hq1]; subst. cbn in Hd, Hf, Hh.
  rewrite (bind_Ok _ _ s tt s1).
  2:{ rewrite (bind_Ok _ _ _ _ _ (timer_at_ok s p _ Hp)). unfold timer_put, modify, s1, over. cbn.
      by rewrite s32_small by lia. }
  pose proof Hn as (Hpn & Hn1)%NoDup_cons.
  assert (HF0 : firing s1 (p :: ps1) ((d - 1, f) :: q1)).
  { unfold firing. cbn. rewrite length_insert, Ho. split_and!; [done | | done | | by constructor; [split; cbn; lia |]].
    - econstructor; [apply list_lookup_insert_eq; by eapply lookup_lt_Some |].
      eapply chain_frame; [done |]. intros i Hi. apply list_lookup_insert_ne. by intros <-.
    - intros i t Hi Ht. destruct (decide (p = i)) as [<-|Hne]; [left |].
      rewrite list_lookup_insert_ne in Hi by done. by eapply Hu. }
  pose proof (t_expired_length _ _ _ E) as Hfs. cbn in Hfs, Hqs.
  destruct (fun H => fire_timers_ok (S TIME_REQUESTS) s1 _ _ _ _ HF0 H E) as (ts & o & ps' & EF & HF); [cbn in *; lia |].
  assert (Es1 : s1 = put timers (timers s1) (put next_timer (next_timer s) s)) by (by destruct s).
  rewrite Es1, foldl_frame in EF, HF. rewrite added_frame in HF. rewrite <- Es1 in EF.
  exists ts, o, ps', r. cbn zeta. split_and!; [exact EF | | done].
  apply firing_ok. split; [exact HF | by apply insert_all_ok].
Qed.
End Run.

(** Timers for 3 and 5 ticks. *)
Definition demo_timers : sched :=
  put next_timer (Some 1%nat)
    (put timers (mk_timer 2 20 None :: mk_timer 3 10 (Some 0%nat) :: replicate 62 (mk_timer 0 0 None)) demo_sched).

Lemma demo_timers_ok : timers_ok demo_timers [1; 0]%nat [(3, 10); (2, 20)].
Proof.
  constructor; [done | | by compute_done | | | done].
  - econstructor; [reflexivity |]. econstructor; [reflexivity | constructor].
  - intros i t. destruct i as [|[|i]]; cbn; [right; left | left |].
    intros (-> & _)%(lookup_replicate_1 62). done.
  - repeat constructor; cbn; lia.
Qed.

Lemma add_timer_correct_witness :
  exists s' ps q', add_timer (fun _ => ret tt) 4 30 demo_timers = Ok tt s' /\ timers_ok s' ps q'.
Proof.
  pose proof (add_timer_correct (fun _ => ret tt) demo_timers _ _ 4 30 demo_timers_ok) as H.
  cbn [length] in H. rewrite !decide_False, decide_True in H by (done || (unfold TIME_REQUESTS; lia)).
  destruct H as (ts & p & q' & bf & af & r & E & Hok & _); [done |].
  exists (put next_timer (Some p) (put timers ts demo_timers)), (p :: [1; 0]%nat), q'. split; [exact E | exact Hok].
Defined.

(** A timer that is due and one for 4 ticks.  The routine of the first selects the drive and
    adds a timer for 2 ticks, as [floppy_on_interrupt] does; the other ones write their
    number to port 0. *)
Definition demo_due : sched := over timers <[1%nat := mk_timer 1 10 (Some 0%nat)]> (over timers <[0%nat := mk_timer 3 20 None]> demo_timers).
Definition demo_routine (f : Z) : M sched unit :=
  if f =? 10 then outb 0x1d FD_DOR ;;; add_timer (fun _ => ub) 2 30 else outb f 0.

Lemma demo_due_ok : timers_ok demo_due [1; 0]%nat [(1, 10); (3, 20)].
Proof.
  constructor; [done | | by compute_done | | | done].
  - econstructor; [reflexivity |]. econstructor; [reflexivity | constructor].
  - intros i t. destruct i as [|[|i]]; cbn; [right; left | left |].
    intros (-> & _)%(lookup_replicate_1 62). done.
  - repeat constructor; cbn; lia.
Qed.

Lemma run_timers_correct_witness :
  exists s' ps q', run_timers demo_routine (S TIME_REQUESTS) demo_due = Ok tt s'
  /\ timers_ok s' ps (t_insert 2 30 q') /\ due 1 q' = [(4, 20)] /\ ports s' = (FD_DOR, 0x1d) :: ports demo_due.
Proof.
  edestruct (run_timers_correct demo_routine
      (fun f => over ports (cons (if f =? 10 then (FD_DOR, 0x1d) else (0, f))))
      (fun f _ => if f =? 10 then Some (2, 30) else None))
    as (ts & o & ps' & q' & E & Hok & Hd).
  - intros f s. unfold demo_routine. by destruct (f =? 10).
  - done.
  - done.
  - intros f s t g. destruct (f =? 10); [| done]. intros [= <- <-]. lia.
  - exact demo_due_ok.
  - eexists _, ps', q'. split; [exact E |]. split; [exact Hok |]. split; [exact Hd | reflexivity].
Defined.
