(* ===== verification/WaitQueue.v ===== *)
(** Wait queues (kernel/sched.c, [sleep_on] and [wake_up]).

    A queue is one pointer; the rest of it is in the local [tmp] of each sleeper,
    on its kernel stack.  The tasks' steps on one queue interleave with each other
    and with anything that leaves the queue and the states of its sleepers alone;
    the invariant is that no sleeper is ever out of reach of a wake-up. *)
From stdpp Require Import base list gmap.
From Stdlib Require Import ZArith Lia.
From S2P Require Import Prelude Sched.
Open Scope Z_scope.

(** What the variable that holds a queue has to do with the rest of the state. *)
Class QueueVar {St} `{HasSched St} (p : var St) := {
  qv_ok : St -> Prop;
  qv_get s v : qv_ok s -> rd_var p (wr_var p v s) = v;
  qv_put s v : qv_ok s -> qv_ok (wr_var p v s);
  qv_tasks s v : tasks (the_sched (wr_var p v s)) = tasks (the_sched s);
  qv_frame s c m : qv_ok s ->
    qv_ok (set_sched (put current c (put tasks m (the_sched s))) s)
    /\ rd_var p (set_sched (put current c (put tasks m (the_sched s))) s) = rd_var p s }.

#[export] Instance wait_motor_queue nr : QueueVar (wait_motor_var nr).
Proof.
  refine {| qv_ok s := (nr < length (wait_motor s))%nat |}; cbn; intros; [| | done | done].
  - by rewrite list_lookup_insert_eq.
  - by rewrite length_insert.
Defined.

Section Queue.
Context {St : Type} `{HasSched St} (p : var St) `{!QueueVar p}.

Definition head (s : St) : Z := rd_var p s.
Definition state_of (s : St) (t : Z) : option Z := ts_state <$> tasks (the_sched s) !! t.
Definition running (s : St) (t : Z) : Prop := state_of s t = Some TASK_RUNNING.
Definition asleep (s : St) (t : Z) : Prop := state_of s t = Some TASK_UNINTERRUPTIBLE.

(** The state, and the [tmp] of every task between the two halves of [sleep_on]. *)
Abbreviation config := (St * gmap Z Z)%type.

(** One task at a time: the current task goes to sleep or returns from its sleep,
    somebody wakes the queue, or something else happens, which may change anything
    but the queue and the sleepers' states ([schedule], among others). *)
Inductive wq_step : config -> config -> Prop :=
| wq_sleep s m tmp s' (c := current (the_sched s)) :
  m !! c = None -> c <> 0 -> sleep_on_1 p s = Ok tmp s' -> wq_step (s, m) (s', <[c := tmp]> m)
| wq_resume s m tmp s' (c := current (the_sched s)) :
  m !! c = Some tmp -> running s c -> sleep_on_2 tmp s = Ok tt s' -> wq_step (s, m) (s', delete c m)
| wq_wake s m s' : wake_up p s = Ok tt s' -> wq_step (s, m) (s', m)
| wq_other s m s' :
  (forall t, is_Some (m !! t) -> state_of s' t = state_of s t) -> head s' = head s -> qv_ok s' ->
  wq_step (s, m) (s', m).

Definition wq_initial (x : config) : Prop := qv_ok x.1 /\ head x.1 = 0 /\ x.2 = ∅.

Inductive wq_reachable : config -> Prop :=
| wq_start x : wq_initial x -> wq_reachable x
| wq_then x y : wq_reachable x -> wq_step x y -> wq_reachable y.

(** [t] is on the list that starts at [u]. *)
Inductive linked (m : gmap Z Z) : Z -> Z -> Prop :=
| linked_here t : linked m t t
| linked_next u v t : m !! u = Some v -> v <> 0 -> linked m v t -> linked m u t.

(** A task that a wake-up of the queue, or a task already awake, will wake. *)
Definition within_reach (s : St) (m : gmap Z Z) (t : Z) : Prop :=
  (head s <> 0 /\ linked m (head s) t)
  \/ exists u, is_Some (m !! u) /\ running s u /\ linked m u t.

Record wq_inv (s : St) (m : gmap Z Z) : Prop := {
  wi_ok : qv_ok s;
  wi_state : forall t, is_Some (m !! t) -> running s t \/ asleep s t;
  wi_head : head s <> 0 -> is_Some (m !! head s) /\ asleep s (head s);
  wi_next : forall u v, m !! u = Some v -> v <> 0 -> is_Some (m !! v) /\ asleep s v /\ v <> head s;
  wi_inj : forall u u' v, m !! u = Some v -> m !! u' = Some v -> v <> 0 -> u = u';
  wi_reach : forall t, is_Some (m !! t) -> asleep s t -> within_reach s m t }.

Lemma not_both s t : running s t -> asleep s t -> False.
Proof. unfold running, asleep. intros ->. done. Qed.

(** ** What the steps do *)

Lemma set_state_inv t v s s' :
  on_sched (set_state_of t v) s = Ok tt s' -> qv_ok s ->
  qv_ok s' /\ head s' = head s /\ is_Some (state_of s t)
  /\ forall a, state_of s' a = if decide (a = t) then Some v else state_of s a.
Proof using QueueVar0.
  unfold on_sched, set_state_of, upd_task, state_of, head.
  destruct (tasks (the_sched s) !! t) as [x|] eqn:Ht; [| done]. intros [= <-] Hok.
  destruct (qv_frame s (current (the_sched s)) (<[t := put ts_state v x]> (tasks (the_sched s))) Hok) as (H1 & H2).
  split_and!; [exact H1 | exact H2 | by eexists |]. intros a. rewrite the_set_sched. cbn.
  rewrite lookup_insert. repeat case_decide; subst; done.
Qed.

Lemma put_head_inv v s :
  qv_ok s -> qv_ok (wr_var p v s) /\ head (wr_var p v s) = v /\ forall a, state_of (wr_var p v s) a = state_of s a.
Proof using QueueVar0.
  intros Hok. split_and!; [by apply qv_put | by apply qv_get |]. intros a. unfold state_of. by rewrite qv_tasks.
Qed.

Lemma sleep_on_1_inv s tmp s' (c := current (the_sched s)) :
  sleep_on_1 p s = Ok tmp s' -> qv_ok s ->
  tmp = head s /\ qv_ok s' /\ head s' = c
  /\ forall a, state_of s' a = if decide (a = c) then Some TASK_UNINTERRUPTIBLE else state_of s a.
Proof using QueueVar0.
  unfold sleep_on_1, bind at 1. destruct (on_sched not_init s) as [[] s0| | |] eqn:E0; try done.
  assert (E1 : tasks (the_sched s0) = tasks (the_sched s) /\ current (the_sched s0) = current (the_sched s)
    /\ (qv_ok s -> qv_ok s0 /\ head s0 = head s)).
  { revert E0. unfold on_sched, not_init, bind, get, id. destruct (_ =? _); [done |].
    intros [= <-]. rewrite the_set_sched. split_and!; [done | done |]. intros Hok.
    replace (the_sched s) with (put current (current (the_sched s)) (put tasks (tasks (the_sched s)) (the_sched s)))
      at 1 2 by (by destruct (the_sched s)).
    by apply qv_frame. }
  destruct E1 as (ET & EC & EH). unfold bind at 1, get. unfold bind at 1, me, get. unfold bind at 1, modify.
  intros E Hok. destruct (EH Hok) as (Hok0 & Hh0).
  destruct (put_head_inv (current (the_sched s0)) s0 Hok0) as (Hok1 & Hh1 & Hs1).
  revert E. unfold bind.
  destruct (on_sched (set_state_of (current (the_sched s0)) TASK_UNINTERRUPTIBLE) _) as [[] s2| | |] eqn:E2; try done. intros [= <- <-].
  destruct (set_state_inv _ _ _ _ E2 Hok1) as (Hok2 & Hh2 & _ & Hs2).
  split_and!; [done | done | by rewrite Hh2, Hh1 |]. intros a. rewrite Hs2, Hs1, EC.
  unfold state_of. by rewrite ET.
Qed.

(** ** Lists and the steps *)

Lemma linked_insert m c v u t : m !! c = None -> linked m u t -> linked (<[c := v]> m) u t.
Proof.
  intros Hc. induction 1 as [|u w t Hu Hw _ IH]; [constructor |]. eapply linked_next; [| done | done].
  rewrite lookup_insert_ne; [done |]. intros <-. congruence.
Qed.

(** A list of sleepers does not pass through a running task. *)
Lemma linked_delete s m c u t :
  wq_inv s m -> running s c -> u <> c -> linked m u t -> linked (delete c m) u t.
Proof.
  intros I Hc Hu H1. induction H1 as [|u v t Hv Hz _ IH]; [constructor |].
  eapply linked_next; [by rewrite lookup_delete_ne | done |]. apply IH. intros ->.
  destruct (wi_next _ _ I u c Hv Hz) as (_ & Ha & _). by eapply not_both.
Qed.

Lemma sleep_inv s m tmp s' (c := current (the_sched s)) :
  wq_inv s m -> m !! c = None -> c <> 0 -> sleep_on_1 p s = Ok tmp s' -> wq_inv s' (<[c := tmp]> m).
Proof using QueueVar0.
  intros I Hc Hz E. destruct (sleep_on_1_inv s tmp s' E (wi_ok _ _ I)) as (-> & Hok & Hh & Hs).
  fold c in Hh, Hs.
  assert (Hst : forall t, is_Some (m !! t) -> state_of s' t = state_of s t).
  { intros t (x & Hx). rewrite Hs, decide_False; [done |]. intros ->. congruence. }
  assert (Hcs : asleep s' c) by (unfold asleep; by rewrite Hs, decide_True).
  assert (HS : forall t, is_Some (<[c := head s]> m !! t) -> t = c \/ is_Some (m !! t)).
  { intros t. rewrite lookup_insert. case_decide; [by left | by right]. }
  assert (Hc' : is_Some (<[c := head s]> m !! c)) by (by rewrite lookup_insert_eq).
  assert (HT : forall t, is_Some (m !! t) -> is_Some (<[c := head s]> m !! t)).
  { intros t (x & Hx). rewrite lookup_insert. case_decide; by eexists. }
  assert (HN : forall t, is_Some (m !! t) -> t <> c) by (intros t (x & Hx) ->; congruence).
  constructor; [done | | | | |].
  - intros t [->|Ht]%HS; [by right |]. unfold running, asleep. rewrite Hst by done. by apply (wi_state _ _ I).
  - rewrite Hh. done.
  - intros u v. rewrite lookup_insert, Hh. case_decide as Hu.
    + intros [= <-] Hv. destruct (wi_head _ _ I Hv) as (H1 & H2).
      unfold asleep. rewrite Hst by done. split_and!; [by apply HT | done | by apply HN].
    + intros Hm Hv. destruct (wi_next _ _ I u v Hm Hv) as (H1 & H2 & H3).
      unfold asleep. rewrite Hst by done. split_and!; [by apply HT | done | by apply HN].
  - intros u u' v. rewrite !lookup_insert. repeat case_decide; subst; [done | | |].
    + intros [= <-] Hm Hv. by destruct (wi_next _ _ I u' _ Hm Hv) as (_ & _ & ?).
    + intros Hm [= <-] Hv. by destruct (wi_next _ _ I u _ Hm Hv) as (_ & _ & ?).
    + apply (wi_inj _ _ I).
  - intros t [->|Ht]%HS; [intros _; left; rewrite Hh; split; [done | constructor] |].
    unfold asleep. rewrite Hst by done. intros Ha.
    destruct (wi_reach _ _ I t Ht Ha) as [(Hn & Hl)|(u & Hu & Hr & Hl)].
    + left. rewrite Hh. split; [done |]. eapply linked_next; [apply lookup_insert_eq | done |].
      by apply linked_insert.
    + right. exists u. split_and!; [by apply HT | unfold running; by rewrite Hst | by apply linked_insert].
Qed.

Lemma resume_inv s m tmp s' (c := current (the_sched s)) :
  wq_inv s m -> m !! c = Some tmp -> running s c -> sleep_on_2 tmp s = Ok tt s' -> wq_inv s' (delete c m).
Proof using QueueVar0.
  intros I Hc Hr E. clearbody c.
  assert (H2 : qv_ok s' /\ head s' = head s
    /\ forall a, state_of s' a = if decide (tmp <> 0 /\ a = tmp) then Some TASK_RUNNING else state_of s a).
  { revert E. unfold sleep_on_2, cbool. destruct (Z.eqb_spec tmp 0); cbn [negb].
    - intros [= <-]. split_and!; [by destruct I | done |]. intros a. by rewrite decide_False by tauto.
    - intros E. destruct (set_state_inv _ _ _ _ E (wi_ok _ _ I)) as (? & ? & _ & Hs).
      split_and!; [done | done |]. intros a. rewrite Hs.
      destruct (decide (a = tmp)); [by rewrite decide_True | rewrite decide_False; tauto]. }
  destruct H2 as (Hok & Hh & Hs). clear E.
  assert (Hst : forall t, asleep s t -> (tmp <> 0 -> t <> tmp) -> asleep s' t).
  { intros t Ht Hne. unfold asleep. rewrite Hs, decide_False by tauto. done. }
  assert (Hrun : forall t, running s t -> running s' t).
  { intros t Ht. unfold running. rewrite Hs. destruct (decide (tmp <> 0 /\ t = tmp)); [reflexivity | exact Ht]. }
  assert (Hback : forall t, asleep s' t -> asleep s t /\ (tmp <> 0 -> t <> tmp)).
  { intros t. unfold asleep. rewrite Hs. destruct (decide (tmp <> 0 /\ t = tmp)); [done | tauto]. }
  assert (HD : forall t, is_Some (delete c m !! t) <-> t <> c /\ is_Some (m !! t)).
  { intros t. rewrite lookup_delete.
    destruct (decide (c = t)); [split; [by intros [] | intros (? & _); congruence] |].
    split; [by split; [congruence |] | by intros (_ & ?)]. }
  assert (HL : forall u v, delete c m !! u = Some v -> u <> c /\ m !! u = Some v).
  { intros u v. rewrite lookup_delete. destruct (decide (c = u)); [done |].
    by split; [congruence |]. }
  assert (Hne : forall t, asleep s t -> t <> c) by (intros t Ht ->; by eapply not_both).
  constructor; [done | | | | |].
  - intros t (_ & Ht)%HD. destruct (wi_state _ _ I t Ht) as [|Ha]; [left; by apply Hrun |].
    destruct (decide (tmp <> 0 /\ t = tmp)) as [Hd|Hd];
      [left; unfold running; by rewrite Hs, decide_True | right; apply Hst; tauto].
  - rewrite Hh. intros Hz. destruct (wi_head _ _ I Hz) as (H1 & H3). split; [apply HD; auto |].
    apply Hst; [done |]. intros Ht. destruct (wi_next _ _ I c tmp Hc Ht) as (_ & _ & ?). congruence.
  - intros u v (Hu & Hv)%HL Hz. destruct (wi_next _ _ I u v Hv Hz) as (H1 & H3 & H4).
    split_and!; [apply HD; auto | | by rewrite Hh]. apply Hst; [done |]. intros Ht ->.
    by apply Hu, (wi_inj _ _ I u c tmp).
  - intros u u' v (_ & Hu)%HL (_ & Hu')%HL. by apply (wi_inj _ _ I).
  - intros t (Htc & Ht)%HD (Ha & Hnt)%Hback.
    destruct (wi_reach _ _ I t Ht Ha) as [(Hz & Hl)|(u & Hu & Hru & Hl)].
    + left. rewrite Hh. split; [done |]. destruct (wi_head _ _ I Hz) as (_ & Hha).
      eapply linked_delete; eauto.
    + right. destruct (decide (u = c)) as [->|Huc].
      2:{ exists u. split_and!; [by apply HD | by apply Hrun | by eapply linked_delete]. }
      inversion Hl as [|? v ? Hv Hz Hl']; subst; [done |]. assert (v = tmp) as -> by congruence.
      destruct (wi_next _ _ I c tmp Hv Hz) as (H1 & H3 & _). exists tmp.
      split_and!; [apply HD; auto | unfold running; by rewrite Hs, decide_True | eapply linked_delete; eauto].
Qed.

Lemma wake_inv s m s' : wq_inv s m -> wake_up p s = Ok tt s' -> wq_inv s' m.
Proof using QueueVar0.
  intros I. unfold wake_up, bind at 1, get, cbool. cbn beta iota. fold (head s).
  destruct (Z.eqb_spec (head s) 0) as [|Hz]; cbn [negb]; [by intros [= <-] |].
  unfold bind. destruct (on_sched (set_state_of (head s) 0) s) as [[] s1| | |] eqn:E1; try done.
  intros [= <-]. destruct (set_state_inv _ _ _ _ E1 (wi_ok _ _ I)) as (Hok1 & _ & _ & Hs1).
  destruct (put_head_inv 0 s1 Hok1) as (Hok & Hh & Hs2). set (s' := wr_var p 0 s1) in *.
  assert (Hs : forall a, state_of s' a = if decide (a = head s) then Some TASK_RUNNING else state_of s a).
  { intros a. by rewrite Hs2, Hs1. }
  assert (Hrun : forall t, running s t -> running s' t).
  { intros t Ht. unfold running. rewrite Hs. case_decide; [reflexivity | exact Ht]. }
  assert (Hst : forall t, asleep s' t <-> asleep s t /\ t <> head s).
  { intros t. unfold asleep. rewrite Hs. destruct (decide (t = head s)); [| tauto].
    by split; [| intros (_ & ?)]. }
  destruct (wi_head _ _ I Hz) as (Hi & Ha).
  constructor; [done | | by rewrite Hh | | apply (wi_inj _ _ I) |].
  - intros t Ht. destruct (decide (t = head s)) as [->|]; [left; unfold running; by rewrite Hs, decide_True |].
    destruct (wi_state _ _ I t Ht); [left; by apply Hrun | right; by apply Hst].
  - intros u v Hv Hvz. destruct (wi_next _ _ I u v Hv Hvz) as (H1 & H2 & H3).
    split_and!; [done | by apply Hst | by rewrite Hh].
  - intros t Ht (Hta & Hth)%Hst. right.
    destruct (wi_reach _ _ I t Ht Hta) as [(_ & Hl)|(u & Hu & Hru & Hl)].
    + exists (head s). split_and!; [done | unfold running; by rewrite Hs, decide_True | done].
    + exists u. split_and!; [done | by apply Hrun | done].
Qed.

Lemma other_inv s m s' :
  wq_inv s m -> (forall t, is_Some (m !! t) -> state_of s' t = state_of s t) -> head s' = head s -> qv_ok s' ->
  wq_inv s' m.
Proof.
  intros [I1 I2 I3 I4 I5 I6] Hs Hh Hok. constructor; [done | | | | done |].
  - intros t Ht. unfold running, asleep. rewrite Hs by done. exact (I2 t Ht).
  - rewrite Hh. intros Hz. destruct (I3 Hz) as (H1 & H2). split; [done |]. unfold asleep. by rewrite (Hs _ H1).
  - intros u v Hv Hz. destruct (I4 u v Hv Hz) as (H1 & H2 & H3). rewrite Hh. unfold asleep. by rewrite (Hs v H1).
  - intros t Ht. unfold asleep at 1. rewrite Hs by done. intros Ha.
    destruct (I6 t Ht Ha) as [(Hz & Hl)|(u & Hu & Hr & Hl)]; [left; by rewrite Hh |].
    right. exists u. split_and!; [done | unfold running; by rewrite Hs | done].
Qed.

Lemma wq_reachable_inv x : wq_reachable x -> wq_inv x.1 x.2.
Proof using QueueVar0.
  induction 1 as [[s m] (Hok & Hh & ->)|x y _ I Hs].
  - cbn in *. constructor; [done | intros t (? & ?); done | by rewrite Hh | done | done | intros t (? & ?); done].
  - destruct Hs; cbn in *; [by eapply sleep_inv | by eapply resume_inv | by eapply wake_inv | by eapply other_inv].
Qed.

(** [schedule] is one of the other steps. *)
Lemma schedule_step s m x n again :
  wq_inv s m -> sched_wf (the_sched s) -> scheduled (the_sched s) x n again ->
  wq_step (s, m) (set_sched x s, m).
Proof using QueueVar0.
  intros I W HS. pose proof HS as (_ & _ & _ & (m' & T) & _).
  assert (E : x = put current (current x) (put tasks m' (the_sched s))) by (rewrite T; by destruct (the_sched s)).
  destruct (qv_frame s (current x) m' (wi_ok _ _ I)) as (Hok & Hh). rewrite <- E in Hok, Hh.
  constructor; [| done | done]. intros t Ht. unfold state_of. rewrite the_set_sched.
  eapply scheduled_states; [done |]. fold (state_of s t).
  destruct (wi_state _ _ I t Ht) as [->| ->]; done.
Qed.

(** C9: no wake-up is lost.  However the calls of [sleep_on] and [wake_up] on a
    queue interleave, a task that sleeps in it is either on the list that starts at
    the queue's pointer, which the next [wake_up] sets going, or on the list behind
    a task that is already awake and will wake its successor when it runs; and the
    next task on any such list exists and is asleep, so waking it is a valid write. *)
Theorem no_lost_wakeup s m t :
  wq_reachable (s, m) -> is_Some (m !! t) ->
  (running s t \/ asleep s t /\ within_reach s m t)
  /\ (forall u v, m !! u = Some v -> v <> 0 -> is_Some (m !! v) /\ asleep s v)
  /\ (head s <> 0 -> is_Some (m !! head s) /\ asleep s (head s)).
Proof using QueueVar0.
  intros R Ht. pose proof (wq_reachable_inv _ R) as I. cbn in I. split_and!.
  - destruct (wi_state _ _ I t Ht); [by left |]. right. split; [done | by apply (wi_reach _ _ I)].
  - intros u v Hv Hz. destruct (wi_next _ _ I u v Hv Hz) as (? & ? & _). done.
  - apply (wi_head _ _ I).
Qed.
End Queue.

(** Task 2000 goes to sleep. *)
Lemma no_lost_wakeup_witness :
  exists s m, wq_reachable (wait_motor_var 0) (s, m) /\ asleep s 2000
  /\ (running s 2000 \/ asleep s 2000 /\ within_reach (wait_motor_var 0) s m 2000).
Proof.
  destruct (sleep_on_1 (wait_motor_var 0) (put current 2000 demo_sched)) as [tmp s| | |] eqn:E;
    try discriminate E.
  assert (R : wq_reachable (wait_motor_var 0) (s, <[2000 := tmp]> ∅)).
  { apply (wq_then _ (put current 2000 demo_sched, ∅)).
    - apply wq_start. split; [cbn; lia | split; reflexivity].
    - exact (wq_sleep (wait_motor_var 0) (put current 2000 demo_sched) ∅ tmp s eq_refl ltac:(discriminate) E). }
  exists s, (<[2000 := tmp]> ∅). split; [exact R |]. split.
  - injection E as <- <-. reflexivity.
  - apply (no_lost_wakeup (wait_motor_var 0) s _ 2000 R). by rewrite lookup_insert_eq.
Defined.
