(* ===== verification/FsState.v ===== *)
(** The data of the file system and the block layer (include/linux/fs.h,
    kernel/blk_drv/blk.h): buffer heads, inodes, files, super blocks and requests
    live in tables and are pointed to by their index; [None] is [NULL].  The state
    includes the scheduler's and the page allocator's.

    [Env] is what the kernel meets from outside one system call: what happens
    while the task sleeps, and the device drivers that are not modelled. *)
From stdpp Require Import base list gmap strings.
From Stdlib Require Import ZArith Lia.
From S2P Require Import Prelude Memory Sched.
Open Scope Z_scope.

Definition READ : Z := 0.
Definition WRITE : Z := 1.
Definition READA : Z := 2.
Definition WRITEA : Z := 3.
Definition MAJOR (a : Z) : Z := Z.shiftr (u32 a) 8.
Definition MINOR (a : Z) : Z := Z.land a 0xff.
Definition NAME_LEN : nat := 14.
Definition ROOT_INO : Z := 1.
Definition I_MAP_SLOTS : nat := 8.
Definition Z_MAP_SLOTS : nat := 8.
Definition SUPER_MAGIC : Z := 0x137F.
Definition NR_INODE : nat := 32.
Definition NR_FILE : nat := 64.
Definition NR_SUPER : nat := 8.
Definition NR_HASH : nat := 307.
Definition BLOCK_SIZE : nat := 1024.
Definition INODES_PER_BLOCK : Z := 32.
Definition DIR_ENTRIES_PER_BLOCK : Z := 64.

Definition EPERM : Z := 1.
Definition ENOENT : Z := 2.
Definition ESRCH : Z := 3.
Definition EINTR : Z := 4.
Definition EIO : Z := 5.
Definition EBADF : Z := 9.
Definition ECHILD : Z := 10.
Definition EAGAIN : Z := 11.
Definition ENOMEM : Z := 12.
Definition EACCES : Z := 13.
Definition ENOTBLK : Z := 15.
Definition EBUSY : Z := 16.
Definition EEXIST : Z := 17.
Definition EXDEV : Z := 18.
Definition ENODEV : Z := 19.
Definition ENOTDIR : Z := 20.
Definition EISDIR : Z := 21.
Definition EINVAL : Z := 22.
Definition EMFILE : Z := 24.
Definition ENOTTY : Z := 25.
Definition ENOSPC : Z := 28.
Definition ESPIPE : Z := 29.
Definition ENOSYS : Z := 38.
Definition ENOTEMPTY : Z := 39.

Definition S_IFMT : Z := 0xf000.
Definition S_ISREG (m : Z) : bool := Z.land m S_IFMT =? 0x8000.
Definition S_ISDIR (m : Z) : bool := Z.land m S_IFMT =? 0x4000.
Definition S_ISCHR (m : Z) : bool := Z.land m S_IFMT =? 0x2000.
Definition S_ISBLK (m : Z) : bool := Z.land m S_IFMT =? 0x6000.
Definition S_ISVTX : Z := 0x200.
Definition I_DIRECTORY : Z := 0x4000.
Definition I_REGULAR : Z := 0x8000.

(** ** Structures *)

Record buffer_head := mk_bh {
  b_data : list Z; b_blocknr : Z; b_dev : Z; b_uptodate : Z; b_dirt : Z; b_count : Z; b_lock : Z;
  b_wait : Z; b_prev : option nat; b_next : option nat; b_prev_free : option nat; b_next_free : option nat }.
#[export] Instance bh_fields : Fields buffer_head := fun b =>
  mk_bh (b_data b) (b_blocknr b) (b_dev b) (b_uptodate b) (b_dirt b) (b_count b) (b_lock b)
    (b_wait b) (b_prev b) (b_next b) (b_prev_free b) (b_next_free b).

Record m_inode := mk_inode {
  i_mode : Z; i_uid : Z; i_size : Z; i_mtime : Z; i_gid : Z; i_nlinks : Z; i_zone : list Z;
  i_wait : Z; i_atime : Z; i_ctime : Z; i_dev : Z; i_num : Z; i_count : Z; i_lock : Z; i_dirt : Z;
  i_pipe : Z; i_mount : Z; i_seek : Z; i_update : Z }.
#[export] Instance inode_fields : Fields m_inode := fun i =>
  mk_inode (i_mode i) (i_uid i) (i_size i) (i_mtime i) (i_gid i) (i_nlinks i) (i_zone i) (i_wait i)
    (i_atime i) (i_ctime i) (i_dev i) (i_num i) (i_count i) (i_lock i) (i_dirt i) (i_pipe i)
    (i_mount i) (i_seek i) (i_update i).

Record file := mk_file { f_mode : Z; f_flags : Z; f_count : Z; f_inode : option nat; f_pos : Z }.
#[export] Instance file_fields : Fields file := fun f =>
  mk_file (f_mode f) (f_flags f) (f_count f) (f_inode f) (f_pos f).

Record super := mk_super {
  s_ninodes : Z; s_nzones : Z; s_imap_blocks : Z; s_zmap_blocks : Z; s_firstdatazone : Z;
  s_log_zone_size : Z; s_max_size : Z; s_magic : Z;
  s_imap : list (option nat); s_zmap : list (option nat); s_dev : Z; s_isup : option nat;
  s_imount : option nat; s_time : Z; s_wait : Z; s_lock : Z; s_rd_only : Z; s_dirt : Z }.
#[export] Instance super_fields : Fields super := fun s =>
  mk_super (s_ninodes s) (s_nzones s) (s_imap_blocks s) (s_zmap_blocks s) (s_firstdatazone s)
    (s_log_zone_size s) (s_max_size s) (s_magic s) (s_imap s) (s_zmap s) (s_dev s) (s_isup s)
    (s_imount s) (s_time s) (s_wait s) (s_lock s) (s_rd_only s) (s_dirt s).

(** The memory a request transfers: a buffer and where in its data [buffer] points. *)
Record request_t := mk_request {
  r_dev : Z; r_cmd : Z; r_errors : Z; r_sector : Z; r_nr_sectors : Z; r_buffer : option (nat * Z);
  r_waiting : Z; r_bh : option nat; r_next : option nat }.
#[export] Instance request_fields : Fields request_t := fun r =>
  mk_request (r_dev r) (r_cmd r) (r_errors r) (r_sector r) (r_nr_sectors r) (r_buffer r)
    (r_waiting r) (r_bh r) (r_next r).

(** [request_fn] is [true] for a device with a driver. *)
Record blk_dev_struct := mk_blk { has_request_fn : bool; current_request : option nat }.
#[export] Instance blk_fields : Fields blk_dev_struct := fun b =>
  mk_blk (has_request_fn b) (current_request b).

(** The variables of the file system; [at_20] is the word a write to [b_prev]
    through a null pointer lands in, [umem] the memory of the current process, and
    [rd_mem] the bytes from [rd_start] on. *)
Record fs_state := mk_fs {
  fs_sched : sched; fs_mm : mm; umem : gmap Z Z;
  bufs : list buffer_head; hash_table : list (option nat); free_list : option nat;
  buffer_wait : Z; at_20 : option nat;
  inode_table : list m_inode; last_inode : nat; file_table : list file;
  super_block : list super; ROOT_DEV : Z;
  request : list request_t; blk_dev : list blk_dev_struct; wait_for_request : Z;
  rd_mem : list Z; rd_start : Z; rd_length : Z }.
#[export] Instance fs_fields : Fields fs_state := fun s =>
  mk_fs (fs_sched s) (fs_mm s) (umem s) (bufs s) (hash_table s) (free_list s) (buffer_wait s)
    (at_20 s) (inode_table s) (last_inode s) (file_table s) (super_block s) (ROOT_DEV s)
    (request s) (blk_dev s) (wait_for_request s) (rd_mem s) (rd_start s) (rd_length s).

#[export, refine] Instance fs_has_sched : HasSched fs_state :=
  {| the_sched := fs_sched; set_sched x s := put fs_sched x s |}.
Proof. done. Defined.

(** [patience] bounds the turns of a loop that may sleep. *)
Class Env := {
  asleep : M fs_state unit;
  device_fn : nat -> M fs_state unit;
  floppy_change : Z -> M fs_state Z;
  tty_read : Z -> Z -> Z -> M fs_state Z;
  tty_write : Z -> Z -> Z -> M fs_state Z;
  set_tty_pgrp : Z -> Z -> M fs_state unit;
  inb : Z -> Z;
  patience : nat }.

(** ** Access *)

(** [t[n].f] and [t[n].f = v] for a table [t] of the state; an index outside the
    table is not an access the program may make. *)
Section Tables.
Context {R : Type} (t : fs_state -> list R) {st : Setter t}.

Definition row (n : nat) : M fs_state R := fun s => need (t s !! n) s.
Definition field {T} (f : R -> T) (n : nat) : M fs_state T := let* r := row n in ret (f r).
Definition update (n : nat) (h : R -> R) : M fs_state unit := fun s =>
  match t s !! n with Some _ => Ok tt (over t (alter h n) s) | None => Ub end.
Definition assign {T} (f : R -> T) {sf : Setter f} (n : nat) (v : T) : M fs_state unit :=
  update n (put f v).
End Tables.

Definition bh {T} (f : buffer_head -> T) (n : nat) : M fs_state T := field bufs f n.
Definition set_bh {T} (f : buffer_head -> T) {sf : Setter f} (n : nat) (v : T) : M fs_state unit :=
  assign bufs f n v.
Definition inode {T} (f : m_inode -> T) (n : nat) : M fs_state T := field inode_table f n.
Definition set_inode {T} (f : m_inode -> T) {sf : Setter f} (n : nat) (v : T) : M fs_state unit :=
  assign inode_table f n v.
Definition sb {T} (f : super -> T) (n : nat) : M fs_state T := field super_block f n.
Definition set_sb {T} (f : super -> T) {sf : Setter f} (n : nat) (v : T) : M fs_state unit :=
  assign super_block f n v.
Definition fil {T} (f : file -> T) (n : nat) : M fs_state T := field file_table f n.
Definition set_file {T} (f : file -> T) {sf : Setter f} (n : nat) (v : T) : M fs_state unit :=
  assign file_table f n v.

(** [a[i]] and [a[i] = v] for an array field. *)
Definition elem {R T} (t : fs_state -> list R) (f : R -> list T) (n : nat) (i : Z) : M fs_state T :=
  let* l := field t f n in if i <? 0 then ub else need (l !! Z.to_nat i).
Definition set_elem {R T} (t : fs_state -> list R) {st : Setter t} (f : R -> list T) {sf : Setter f}
    (n : nat) (i : Z) (v : T) : M fs_state unit :=
  let* l := field t f n in
  if (0 <=? i) && (i <? Z.of_nat (length l)) then assign t f n (<[Z.to_nat i := v]> l) else ub.

(** A wait queue in a row of a table. *)
Definition row_var {R} (t : fs_state -> list R) {st : Setter t} (f : R -> Z) {sf : Setter f} (n : nat) : var fs_state :=
  mk_var (fun s => from_option f 0 (t s !! n)) (fun v => over t (alter (put f v) n)).
Definition fs_var (f : fs_state -> Z) {sf : Setter f} : var fs_state := mk_var f (put f).

(** A routine of the page allocator run on this state. *)
Definition on_mm {A} (m : M mm A) : M fs_state A := fun s =>
  match m (fs_mm s) with
  | Ok a x => Ok a (put fs_mm x s)
  | Panic msg x => Panic msg (put fs_mm x s)
  | Exit code x => Exit code (put fs_mm x s)
  | Ub => Ub
  end.

(** The current task, and the time as it is stored in an inode. *)
Definition current_task : M fs_state task_struct := on_sched cur.
Definition now : M fs_state Z := get (fun s => u32 (CURRENT_TIME (fs_sched s))).
Definition suser : M fs_state bool := let* t := current_task in ret (ts_euid t =? 0).

Definition sleep_on_fs `{Env} (p : var fs_state) : M fs_state unit := sleep_on asleep p.

(** The little-endian 16-bit words of a block. *)
Definition word (l : list Z) (i : Z) : option Z :=
  lo ← l !! Z.to_nat (2 * i); hi ← l !! Z.to_nat (2 * i + 1); Some (lo + 256 * hi).
Definition put_word (l : list Z) (i v : Z) : list Z :=
  <[Z.to_nat (2 * i) := v mod 256]> (<[Z.to_nat (2 * i + 1) := v / 256 mod 256]> l).

(** Bytes [d] copied over [l] from position [i] on. *)
Definition splice (i : nat) (d l : list Z) : list Z := take i l ++ d ++ drop (i + length d) l.

(** ** Reading and writing rows *)

Lemma row_ok {R} (t : fs_state -> list R) n r s : t s !! n = Some r -> row t n s = Ok r s.
Proof. intros H. unfold row. by rewrite H. Qed.

Lemma field_ok {R T} (t : fs_state -> list R) (f : R -> T) n r s :
  t s !! n = Some r -> field t f n s = Ok (f r) s.
Proof. intros H. unfold field, bind. by rewrite (row_ok t n r s H). Qed.

Lemma update_ok {R} (t : fs_state -> list R) {st : Setter t} n h r s :
  t s !! n = Some r -> update t n h s = Ok tt (over t (alter h n) s).
Proof. intros H. unfold update. by rewrite H. Qed.

(** A machine without buffers, inodes or mounted devices in use. *)
Definition zero_inode : m_inode := mk_inode 0 0 0 0 0 0 (replicate 9 0) 0 0 0 0 0 0 0 0 0 0 0 0.
Definition zero_super : super :=
  mk_super 0 0 0 0 0 0 0 0 (replicate I_MAP_SLOTS None) (replicate Z_MAP_SLOTS None) 0 None None 0 0 0 0 0.
Definition empty_fs : fs_state :=
  mk_fs (put current 2000 demo_sched) (demo 0) ∅ [] (replicate NR_HASH None) None 0 None
    (replicate NR_INODE zero_inode) 0 (replicate NR_FILE (mk_file 0 0 0 None 0))
    (replicate NR_SUPER zero_super) 0 (replicate 32 (mk_request (-1) 0 0 0 0 None 0 None None))
    (replicate 7 (mk_blk false None)) 0 [] 0x200000 0.

(** The task is alone: nothing happens while it sleeps, and no device but the RAM
    disk is there. *)
Definition alone : Env :=
  {| asleep := ret tt; device_fn _ := ret tt; floppy_change _ := ret 0; tty_read _ _ _ := ret 0;
     tty_write _ _ _ := ret 0; set_tty_pgrp _ _ := ret tt; inb _ := 0; patience := 5 |}.
