(* ===== verification/Wakeup.v ===== *)
(** What [wake_up] (kernel/sched.c) does to the tasks, for the wait queues of the file system. *)
From stdpp Require Import base list gmap strings.
From Stdlib Require Import ZArith Lia.
From S2P Require Import Prelude Memory Sched FsState.
Open Scope Z_scope.

(** Tasks set going; nothing else changes in the scheduler. *)
Definition woken (l : list Z) (sc sc' : sched) : Prop :=
  sc' = put tasks (tasks sc') sc /\
  forall p, tasks sc' !! p = (fun t => if bool_decide (p <> 0 /\ p ∈ l) then put ts_state 0 t else t) <$> tasks sc !! p.
Definition waiter (sc : sched) (q : Z) : Prop := q <> 0 -> is_Some (tasks sc !! q).

Lemma woken_app l1 l2 a b c : woken l1 a b -> woken l2 b c -> woken (l1 ++ l2) a c.
Proof.
  intros [E1 H1] [E2 H2]. split; [by rewrite E2, E1 |]. intros p. rewrite H2, H1. destruct (tasks a !! p) as [t|]; [| done]. cbn. f_equal.
  repeat case_bool_decide; rewrite ?elem_of_app in *; try done; tauto.
Qed.
Lemma woken_nil sc : woken [] sc sc.
Proof.
  split; [by destruct sc |]. intros p. destruct (tasks sc !! p); [| done]. cbn. rewrite bool_decide_false; [done |].
  rewrite elem_of_nil. tauto.
Qed.
Lemma woken_equiv l l' a b : (forall p, p <> 0 -> p ∈ l <-> p ∈ l') -> woken l a b -> woken l' a b.
Proof.
  intros Hl [E Hw]. split; [done |]. intros p. rewrite Hw. destruct (tasks a !! p); [| done]. cbn.
  rewrite (bool_decide_ext (p <> 0 /\ p ∈ l) (p <> 0 /\ p ∈ l')); [done |]. split; intros [? ?]; (split; [done |]); by apply Hl.
Qed.
Lemma woken_zero sc : woken [0] sc sc.
Proof.
  split; [by destruct sc |]. intros p. destruct (tasks sc !! p); [| done]. cbn. rewrite bool_decide_false; [done |].
  rewrite list_elem_of_singleton. tauto.
Qed.
Lemma woken_waiter l sc sc' q : woken l sc sc' -> waiter sc q -> waiter sc' q.
Proof. intros [_ Hw] Hq Hne. rewrite Hw. by apply fmap_is_Some, Hq. Qed.

Lemma wake_up_woken (p : var fs_state) s : waiter (fs_sched s) (rd_var p s) ->
  exists sc, woken [rd_var p s] (fs_sched s) sc /\
    wake_up p s = Ok tt (if cbool (rd_var p s) then wr_var p 0 (put fs_sched sc s) else s).
Proof.
  intros Hw. unfold wake_up, bind at 1, get, cbool. destruct (Z.eqb_spec (rd_var p s) 0) as [E|E]; cbn [negb].
  - exists (fs_sched s). split; [| done]. rewrite E. apply woken_zero.
  - destruct (Hw E) as [t Ht]. exists (over tasks <[rd_var p s := put ts_state 0 t]> (fs_sched s)). split.
    + split; [done |]. intros q. cbn. destruct (decide (q = rd_var p s)) as [->|Hq].
      * rewrite lookup_insert_eq, Ht. cbn. rewrite bool_decide_true; [done |]. by rewrite list_elem_of_singleton.
      * rewrite lookup_insert_ne by done. destruct (tasks (fs_sched s) !! q); [| done]. cbn. rewrite bool_decide_false; [done |].
        rewrite list_elem_of_singleton. tauto.
    + unfold bind, on_sched, set_state_of, upd_task. cbn. by rewrite Ht.
Qed.
