(* ===== verification/BlkDev.v ===== *)
(** Requests to block devices (kernel/blk_drv/ll_rw_blk.c, blk.h) and the RAM disk
    (kernel/blk_drv/ramdisk.c).  A driver runs when a request arrives at an idle
    device; what the hardware does later is part of [asleep]. *)
From stdpp Require Import base list gmap strings.
From Stdlib Require Import ZArith Lia.
From S2P Require Import Prelude Memory Sched FsState.
Open Scope Z_scope.

Definition NR_BLK_DEV : nat := 7.
Definition NR_REQUEST : nat := 32.

(** Reads go before writes, then by device and sector. *)
Definition IN_ORDER (s1 s2 : request_t) : bool :=
  (r_cmd s1 <? r_cmd s2)
  || ((r_cmd s1 =? r_cmd s2)
      && ((r_dev s1 <? r_dev s2) || ((r_dev s1 =? r_dev s2) && (r_sector s1 <? r_sector s2)))).

Definition req_at (n : nat) : M fs_state request_t := row request n.
Definition set_req {T} (f : request_t -> T) {sf : Setter f} (n : nat) (v : T) : M fs_state unit :=
  assign request f n v.
Definition current_of (major : nat) : M fs_state (option nat) := field blk_dev current_request major.
Definition b_wait_var (b : nat) : var fs_state := row_var bufs b_wait b.

Section Env.
Context `{Env}.

Definition wait_on_buffer (b : nat) : M fs_state unit :=
  while_do patience (let* l := bh b_lock b in ret (cbool l)) (sleep_on_fs (b_wait_var b)).

Definition lock_buffer (b : nat) : M fs_state unit :=
  wait_on_buffer b ;;; set_bh b_lock b 1.

Definition unlock_buffer (b : nat) : M fs_state unit :=
  set_bh b_lock b 0 ;;; wake_up (b_wait_var b).

(** [end_request] for a device without a motor. *)
Definition end_request (major : nat) (uptodate : Z) : M fs_state unit :=
  let* c := current_of major in
  let* c := need c in
  let* r := req_at c in
  (match r_bh r with
   | Some b => set_bh b_uptodate b (u8 uptodate) ;;; unlock_buffer b
   | None => ret tt
   end) ;;;
  wake_up (row_var request r_waiting c) ;;;
  wake_up (fs_var wait_for_request) ;;;
  set_req r_dev c (-1) ;;;
  let* r := req_at c in
  assign blk_dev current_request major (r_next r).

(** The checks at the head of a driver: the current request, or none. *)
Definition INIT_REQUEST (major : nat) (name : string) : M fs_state (option nat) :=
  let* c := current_of major in
  match c with
  | None => ret None
  | Some c =>
    let* r := req_at c in
    if negb (MAJOR (r_dev r) =? Z.of_nat major) then panic (name ++ ": request list destroyed") else
    match r_bh r with
    | Some b => let* l := bh b_lock b in
                if negb (cbool l) then panic (name ++ ": block not locked") else ret (Some c)
    | None => ret (Some c)
    end
  end.

(** ** The RAM disk *)

(** The transfer of one request: 0 is an error. *)
Definition rd_transfer (r : request_t) : M fs_state Z :=
  let* s := get id in
  let addr := u32 (rd_start s + Z.shiftl (r_sector r) 9) in
  let len := Z.shiftl (r_nr_sectors r) 9 in
  if negb (MINOR (r_dev r) =? 1) || (u32 (rd_start s + rd_length s) <? u32 (addr + len)) then ret 0 else
  let off := addr - rd_start s in
  let* (b, o) := need (r_buffer r) in
  let* d := bh b_data b in
  if (off <? 0) || (Z.of_nat (length (rd_mem s)) <? off + len) || (Z.of_nat (length d) <? o + len) then ub else
  if r_cmd r =? WRITE then
    modify (over rd_mem (splice (Z.to_nat off) (take (Z.to_nat len) (drop (Z.to_nat o) d)))) ;;; ret 1
  else if r_cmd r =? READ then
    set_bh b_data b (splice (Z.to_nat o) (take (Z.to_nat len) (drop (Z.to_nat off) (rd_mem s))) d) ;;; ret 1
  else panic "unknown ramdisk-command".

Fixpoint rd_loop (fuel : nat) : M fs_state unit :=
  match fuel with
  | O => ub
  | S fuel =>
    let* c := INIT_REQUEST 1 "ramdisk" in
    match c with
    | None => ret tt
    | Some c => let* r := req_at c in let* ok := rd_transfer r in end_request 1 ok ;;; rd_loop fuel
    end
  end.
Definition do_rd_request : M fs_state unit := rd_loop (S NR_REQUEST).

Definition rd_init (mem_start length : Z) : M fs_state Z :=
  assign blk_dev has_request_fn 1 true ;;;
  modify (put rd_start mem_start) ;;;
  modify (put rd_length length) ;;;
  modify (put rd_mem (replicate (Z.to_nat length) 0)) ;;;
  ret length.

(** ** The request queue *)

Definition request_fn (major : nat) : M fs_state unit :=
  match major with 1%nat => do_rd_request | _ => device_fn major end.

(** The request to insert [req] after. *)
Fixpoint elevator (fuel : nat) (tmp : nat) (req : request_t) : M fs_state nat :=
  match fuel with
  | O => ub
  | S fuel =>
    let* t := req_at tmp in
    match r_next t with
    | None => ret tmp
    | Some n =>
      let* nx := req_at n in
      if (IN_ORDER t req || negb (IN_ORDER t nx)) && IN_ORDER req nx then ret tmp
      else elevator fuel n req
    end
  end.

Definition add_request (major req : nat) : M fs_state unit :=
  set_req r_next req None ;;;
  let* r := req_at req in
  (match r_bh r with Some b => set_bh b_dirt b 0 | None => ret tt end) ;;;
  let* c := current_of major in
  match c with
  | None => assign blk_dev current_request major (Some req) ;;; request_fn major
  | Some tmp =>
    let* tmp := elevator NR_REQUEST tmp r in
    let* t := req_at tmp in
    set_req r_next req (r_next t) ;;;
    set_req r_next tmp (Some req)
  end.

(** The last free request below [n]. *)
Fixpoint free_request (n : nat) (l : list request_t) : option nat :=
  match n with
  | O => None
  | S k => match l !! k with
           | Some r => if r_dev r <? 0 then Some k else free_request k l
           | None => None
           end
  end.

(** A free request; [None] if this is only read-ahead and there is none. *)
Fixpoint get_request (fuel : nat) (rw : Z) (rw_ahead : bool) : M fs_state (option nat) :=
  match fuel with
  | O => ub
  | S fuel =>
    let* l := get request in
    match free_request (if rw =? READ then NR_REQUEST else (NR_REQUEST * 2 / 3)%nat) l with
    | Some req => ret (Some req)
    | None => if rw_ahead then ret None
              else sleep_on_fs (fs_var wait_for_request) ;;; get_request fuel rw rw_ahead
    end
  end.

Definition make_request (major : nat) (rw : Z) (b : nat) : M fs_state unit :=
  let rw_ahead := (rw =? READA) || (rw =? WRITEA) in
  let* l := bh b_lock b in
  if rw_ahead && cbool l then ret tt else
  let rw := if rw_ahead then (if rw =? READA then READ else WRITE) else rw in
  if negb (rw =? READ) && negb (rw =? WRITE) then panic "Bad block dev command, must be R/W/RA/WA" else
  lock_buffer b ;;;
  let* x := row bufs b in
  if ((rw =? WRITE) && negb (cbool (b_dirt x))) || ((rw =? READ) && cbool (b_uptodate x)) then
    unlock_buffer b
  else
  let* req := get_request patience rw rw_ahead in
  match req with
  | None => unlock_buffer b
  | Some req =>
    let* x := row bufs b in
    update request req (fun _ =>
      mk_request (b_dev x) rw 0 (u32 (Z.shiftl (b_blocknr x) 1)) 2 (Some (b, 0)) 0 (Some b) None) ;;;
    add_request major req
  end.

Definition ll_rw_block (rw : Z) (b : nat) : M fs_state unit :=
  let* dev := bh b_dev b in
  let major := Z.to_nat (MAJOR dev) in
  let* bd := get blk_dev in
  if (Z.of_nat NR_BLK_DEV <=? MAJOR dev) || negb (from_option has_request_fn false (bd !! major)) then ret tt
  else make_request major rw b.
End Env.

Definition blk_dev_init : M fs_state unit :=
  for_each (seq 0 NR_REQUEST) (fun i => set_req r_dev i (-1) ;;; set_req r_next i None).
