(* ===== verification/Elevator.v ===== *)
(** The request queue of a busy device (kernel/blk_drv/ll_rw_blk.c): [add_request]
    keeps it a schedule of at most two ascending sweeps over the disk, and the
    request being served stays in front. *)
From stdpp Require Import base list gmap strings.
From Stdlib Require Import ZArith Lia.
From S2P Require Import Prelude Memory Sched FsState BlkDev.
Open Scope Z_scope.

(** ** The specification: insertion in a list of requests *)

(** The number of times the head has to go back. *)
Fixpoint descents (l : list request_t) : nat :=
  match l with
  | a :: (b :: _) as l' => ((if IN_ORDER a b then 0 else 1) + descents l')%nat
  | _ => O
  end.

Lemma descents_cons a b l :
  descents (a :: b :: l) = ((if IN_ORDER a b then 0 else 1) + descents (b :: l))%nat.
Proof. done. Qed.

(** The place the loop of [add_request] finds behind the head [a]. *)
Fixpoint elev_insert (x a : request_t) (l : list request_t) : list request_t :=
  match l with
  | [] => [a; x]
  | b :: l' =>
    if (IN_ORDER a x || negb (IN_ORDER a b)) && IN_ORDER x b then a :: x :: l else a :: elev_insert x b l'
  end.

(** Two requests for different sectors. *)
Definition differ (a b : request_t) : Prop := IN_ORDER a b = negb (IN_ORDER b a).

Lemma IN_ORDER_iff a b : IN_ORDER a b = true <->
  r_cmd a < r_cmd b \/ r_cmd a = r_cmd b /\ (r_dev a < r_dev b \/ r_dev a = r_dev b /\ r_sector a < r_sector b).
Proof. unfold IN_ORDER. repeat rewrite ?orb_true_iff, ?andb_true_iff. rewrite !Z.ltb_lt, !Z.eqb_eq. tauto. Qed.

Lemma IN_ORDER_trans a b c : IN_ORDER a b = true -> IN_ORDER b c = true -> IN_ORDER a c = true.
Proof. rewrite !IN_ORDER_iff. lia. Qed.

Lemma IN_ORDER_asym a b : IN_ORDER a b = true -> IN_ORDER b a = false.
Proof.
  intros H. destruct (IN_ORDER b a) eqn:E; [| done]. rewrite IN_ORDER_iff in *. lia.
Qed.

(** [differ] says that one of the two comes first. *)
Lemma differ_or a b : differ a b -> IN_ORDER a b = true \/ IN_ORDER b a = true.
Proof. unfold differ. intros ->. destruct (IN_ORDER b a); auto. Qed.

Lemma elev_insert_perm x a l : exists pre post, a :: l = pre ++ post /\ elev_insert x a l = pre ++ x :: post
  /\ pre <> [].
Proof.
  revert a. induction l as [|b l IH]; intros a; cbn [elev_insert].
  - by exists [a], [].
  - destruct (_ && _); [by exists [a], (b :: l) |].
    destruct (IH b) as (pre & post & -> & -> & _). by exists (a :: pre), post.
Qed.

(** Along an ascending list, [x] finds its place, or it is smaller than the head, or
    it goes to the end. *)
Lemma descents_insert_up x a l :
  descents (a :: l) = O -> Forall (differ x) (a :: l) -> IN_ORDER a x = true -> descents (elev_insert x a l) = O.
Proof.
  revert a. induction l as [|b l IH]; intros a Hd Hx Ha; cbn [elev_insert descents] in *; [by rewrite Ha |].
  destruct (IN_ORDER a b) eqn:Eab; [| done]. rewrite Ha. cbn [orb].
  inversion_clear Hx as [|?? _ Hx']. inversion Hx' as [|?? Hxb _]; subst.
  destruct (IN_ORDER x b) eqn:Exb; cbn [andb].
  - cbn [descents]. by rewrite Ha, Exb.
  - assert (Hbx : IN_ORDER b x = true) by (destruct (differ_or x b Hxb); congruence).
    pose proof (IH b Hd Hx' Hbx) as E. destruct (elev_insert_perm x b l) as (pre & post & E1 & E2 & Hne).
    destruct pre as [|b' pre]; [done |]. injection E1 as <- _. rewrite E2 in *. cbn [app descents] in *. by rewrite Eab.
Qed.

(** A request before all of an ascending list goes to its end. *)
Lemma descents_insert_down x a l :
  descents (a :: l) = O -> Forall (differ x) (a :: l) -> IN_ORDER x a = true ->
  elev_insert x a l = a :: l ++ [x] /\ descents (elev_insert x a l) = 1%nat.
Proof.
  revert a. induction l as [|b l IH]; intros a Hd Hx Ha; cbn [elev_insert descents] in *;
    rewrite (IN_ORDER_asym x a Ha); [done |].
  destruct (IN_ORDER a b) eqn:Eab; [| done]. cbn [orb andb negb].
  inversion_clear Hx as [|?? _ Hx']. destruct (IH b Hd Hx') as (E1 & E2); [by eapply IN_ORDER_trans |].
  rewrite E1 in *. split; [done |]. cbn [app descents] in *. by rewrite Eab.
Qed.

(** The first element of an insertion is the head. *)
Lemma descents_cons_insert c x a l :
  descents (c :: elev_insert x a l) = ((if IN_ORDER c a then 0 else 1) + descents (elev_insert x a l))%nat.
Proof.
  destruct (elev_insert_perm x a l) as ([|a' pre] & post & E1 & E2 & Hne); [done |].
  injection E1 as <- _. by rewrite E2.
Qed.

Lemma descents_insert x a l :
  (descents (a :: l) <= 1)%nat -> Forall (differ x) (a :: l) -> (descents (elev_insert x a l) <= 1)%nat.
Proof.
  revert a. induction l as [|b l IH]; intros a Hd Hx.
  { cbn. destruct (IN_ORDER a x); lia. }
  inversion Hx as [|?? Hxa Hx']; subst. inversion Hx' as [|?? Hxb _]; subst.
  cbn [elev_insert]. rewrite descents_cons in Hd. destruct (IN_ORDER a b) eqn:Eab; cbn [negb].
  - rewrite orb_false_r. destruct (IN_ORDER a x && IN_ORDER x b) eqn:Ei.
    + apply andb_true_iff in Ei as (E1 & E2). rewrite !descents_cons, E1, E2. exact Hd.
    + rewrite descents_cons_insert, Eab. apply IH; [exact Hd | done].
  - rewrite orb_true_r. cbn [andb]. assert (H0 : descents (b :: l) = O) by lia.
    assert (Eba : IN_ORDER x b = true -> IN_ORDER a x = false).
    { intros E. destruct (IN_ORDER a x) eqn:E'; [| done]. rewrite (IN_ORDER_trans a x b E' E) in Eab. done. }
    destruct (IN_ORDER x b) eqn:Exb.
    + rewrite !descents_cons, Eba, Exb by done. lia.
    + rewrite descents_cons_insert, Eab, descents_insert_up; [lia | done | done |].
      destruct (differ_or x b Hxb); congruence.
Qed.

(** ** The queue in the request table *)

Inductive rchain (t : list request_t) : option nat -> list nat -> list request_t -> Prop :=
| rchain_nil : rchain t None [] []
| rchain_cons n r ns rs :
  t !! n = Some r -> rchain t (r_next r) ns rs -> rchain t (Some n) (n :: ns) (r :: rs).

(** Requests up to their links. *)
Definition unlinked (r : request_t) : request_t := put r_next None r.

Lemma rchain_frame t t' o ns rs :
  rchain t o ns rs -> (forall n, n ∈ ns -> t' !! n = t !! n) -> rchain t' o ns rs.
Proof.
  induction 1 as [|n r ns rs H _ IH]; intros E; [constructor |].
  econstructor; [rewrite E; [done | left] |]. apply IH. intros i Hi. apply E. by right.
Qed.

Lemma rchain_lookup t o ns rs n : rchain t o ns rs -> n ∈ ns -> is_Some (t !! n).
Proof.
  induction 1; intros Hn; [by apply elem_of_nil in Hn |].
  apply elem_of_cons in Hn as [->|Hn]; [by eexists | by apply IHrchain].
Qed.

Lemma IN_ORDER_next f g a b : IN_ORDER (put r_next f a) (put r_next g b) = IN_ORDER a b.
Proof. done. Qed.

(** Where the loop stops: behind [t], the place of [elev_insert]. *)
Lemma elevator_ok s x fuel tmp ns a l :
  rchain (request s) (Some tmp) ns (a :: l) -> (length ns <= fuel)%nat ->
  exists pre t post r, ns = pre ++ t :: post /\ elevator fuel tmp x s = Ok t s /\ request s !! t = Some r
  /\ elev_insert x a l = take (S (length pre)) (a :: l) ++ x :: drop (S (length pre)) (a :: l).
Proof.
  revert tmp ns a l. induction fuel as [|fuel IH]; intros tmp ns a l Hc Hf; inversion Hc as [|? r ns' rs' Hr Hc']; subst;
    [cbn in Hf; lia |].
  cbn [elevator]. unfold req_at. rewrite (bind_Ok _ _ _ _ _ (row_ok request tmp a s Hr)).
  destruct (r_next a) as [n|] eqn:En; inversion Hc' as [|? b ns2 rs2 Hb Hc2]; subst.
  2:{ by exists [], tmp, [], a. }
  rewrite (bind_Ok _ _ _ _ _ (row_ok request n b s Hb)). cbn [elev_insert].
  destruct ((IN_ORDER a x || negb (IN_ORDER a b)) && IN_ORDER x b) eqn:Ei.
  - by exists [], tmp, (n :: ns2), a.
  - destruct (IH n (n :: ns2) b rs2 Hc') as (pre & t & post & u & E1 & E2 & E3 & E4); [cbn in *; lia |].
    exists (tmp :: pre), t, post, u. rewrite E1, E4. done.
Qed.

(** Link [req] in behind [t]. *)
Lemma rchain_insert tb tb' o pre t req post rs r u :
  rchain tb o (pre ++ t :: post) rs -> NoDup (pre ++ t :: post) -> req ∉ pre ++ t :: post ->
  tb !! t = Some u -> tb' !! t = Some (put r_next (Some req) u) -> tb' !! req = Some (put r_next (r_next u) r) ->
  (forall n, n <> t -> n <> req -> tb' !! n = tb !! n) ->
  exists rs', rchain tb' o (pre ++ t :: req :: post) rs'
  /\ map unlinked rs' = map unlinked (take (S (length pre)) rs) ++ unlinked r :: map unlinked (drop (S (length pre)) rs).
Proof.
  intros Hc Hn Hreq Hu Ht Hr Hfr. revert o rs Hc Hn Hreq.
  induction pre as [|p pre IH]; intros o rs Hc Hn Hreq; cbn [app] in *; inversion Hc as [|? v ns' rs' Hv Hc']; subst.
  - assert (v = u) as -> by congruence. apply NoDup_cons in Hn as (Htp & Hn).
    exists (put r_next (Some req) u :: put r_next (r_next u) r :: rs'). split; [| done].
    econstructor; [done |]. econstructor; [done |]. eapply rchain_frame; [done |]. intros n Hin.
    apply Hfr; intros ->; [done |]. apply Hreq. by right.
  - apply NoDup_cons in Hn as (Hpn & Hn). apply not_elem_of_cons in Hreq as (Hpr & Hreq).
    destruct (IH _ _ Hc' Hn Hreq) as (rs2 & H1 & H2). exists (v :: rs2). split.
    + econstructor; [| done]. rewrite Hfr; [done | | done]. intros ->. apply Hpn, elem_of_app. right. left.
    + cbn [map length take drop app] in *. by rewrite H2.
Qed.

Lemma descents_unlinked l : descents (map unlinked l) = descents l.
Proof.
  induction l as [|a [|b l] IH]; [done | done |]. cbn [map] in *. rewrite !descents_cons, IH. done.
Qed.

Lemma elev_insert_unlinked x a l :
  map unlinked (elev_insert x a l) = elev_insert (unlinked x) (unlinked a) (map unlinked l).
Proof.
  revert a. induction l as [|b l IH]; intros a; cbn [elev_insert map]; [done |].
  change (IN_ORDER (unlinked a) (unlinked x)) with (IN_ORDER a x).
  change (IN_ORDER (unlinked a) (unlinked b)) with (IN_ORDER a b).
  change (IN_ORDER (unlinked x) (unlinked b)) with (IN_ORDER x b).
  destruct (_ && _); [done |]. cbn [map]. by rewrite IH.
Qed.

(** The queue of a device: [ns] are the requests, [rs] what they ask for. *)
Record busy (s : fs_state) (major c : nat) (ns : list nat) (rs : list request_t) : Prop := {
  bz_dev : current_request <$> blk_dev s !! major = Some (Some c);
  bz_chain : rchain (request s) (Some c) ns rs;
  bz_nodup : NoDup ns;
  bz_len : length (request s) = NR_REQUEST }.

Lemma busy_length s major c ns rs req :
  busy s major c ns rs -> is_Some (request s !! req) -> req ∉ ns -> (length ns < NR_REQUEST)%nat.
Proof.
  intros [_ Hc Hn Hl] Hr Hni. rewrite <- Hl, <- (length_seq (length (request s)) 0).
  apply (Nat.lt_le_trans _ (length (req :: ns))); [cbn; lia |].
  apply submseteq_length, NoDup_submseteq; [by apply NoDup_cons |].
  intros n Hin. apply elem_of_seq. split; [lia |]. cbn. apply lookup_lt_is_Some_1.
  apply elem_of_cons in Hin as [->|Hin]; [done | by eapply rchain_lookup].
Qed.

(** The state when [req] has been linked in behind [t]. *)
Definition linked_in (s : fs_state) (req t : nat) (r u : request_t) : fs_state :=
  over request (alter (put r_next (Some req)) t)
    (over request (alter (put r_next (r_next u)) req)
       (match r_bh r with Some b => over bufs (alter (put b_dirt 0) b) | None => id end
          (over request (alter (put r_next None) req) s))).

Section Env.
Context `{Env}.

Lemma add_request_busy s major c ns a l req r :
  busy s major c ns (a :: l) -> request s !! req = Some r -> req ∉ ns ->
  (forall b, r_bh r = Some b -> is_Some (bufs s !! b)) ->
  exists pre t post u, ns = pre ++ t :: post /\ request s !! t = Some u
  /\ add_request major req s = Ok tt (linked_in s req t r u)
  /\ elev_insert (unlinked r) a l
     = take (S (length pre)) (a :: l) ++ unlinked r :: drop (S (length pre)) (a :: l).
Proof.
  intros B Hr Hni Hb. pose proof (busy_length s major c ns _ req B ltac:(by eexists) Hni) as Hlt.
  destruct B as [Hd Hc Hn Hl]. unfold add_request, set_req, assign.
  rewrite (bind_Ok _ _ _ _ _ (update_ok request req (put r_next None) r s Hr)).
  set (s1 := over request (alter (put r_next None) req) s).
  assert (Hr1 : request s1 !! req = Some (unlinked r)).
  { cbn. rewrite list_lookup_alter, decide_True by done. by rewrite Hr. }
  unfold req_at at 1. rewrite (bind_Ok _ _ _ _ _ (row_ok request req _ s1 Hr1)).
  set (s2 := match r_bh r with Some b => over bufs (alter (put b_dirt 0) b) | None => id end s1).
  rewrite (bind_Ok _ _ s1 tt s2).
  2:{ subst s2. change (r_bh (unlinked r)) with (r_bh r).
      destruct (r_bh r) as [b|] eqn:Eb; [| done]. destruct (Hb b eq_refl) as (x & Hx).
      unfold set_bh, assign. by rewrite (update_ok bufs b _ x s1 Hx). }
  assert (E2 : request s2 = request s1 /\ blk_dev s2 = blk_dev s) by (subst s2; by destruct (r_bh r)).
  destruct E2 as (Eq & Ebd). destruct (blk_dev s !! major) as [bd|] eqn:Hbd; [| done]. injection Hd as Hd.
  rewrite (bind_Ok _ _ s2 (Some c) s2).
  2:{ unfold current_of. rewrite (field_ok blk_dev current_request major bd s2); [by rewrite Hd | by rewrite Ebd]. }
  assert (Hc2 : rchain (request s2) (Some c) ns (a :: l)).
  { rewrite Eq. eapply rchain_frame; [done |]. intros n Hin. cbn. rewrite list_lookup_alter_ne; [done |].
    by intros ->. }
  destruct (elevator_ok s2 (unlinked r) NR_REQUEST c ns a l Hc2 ltac:(lia)) as (pre & t & post & u & -> & E & Hu & Hins).
  assert (Htr : t <> req) by (intros ->; apply Hni, elem_of_app; right; left).
  exists pre, t, post, u. split_and!; [done | | | done].
  - rewrite Eq in Hu. cbn in Hu. by rewrite list_lookup_alter_ne in Hu.
  - rewrite (bind_Ok _ _ _ _ _ E). unfold req_at. rewrite (bind_Ok _ _ _ _ _ (row_ok request t u s2 Hu)).
    rewrite <- Eq in Hr1. rewrite (bind_Ok _ _ _ _ _ (update_ok request req _ _ s2 Hr1)).
    erewrite update_ok; [done |]. cbn. rewrite list_lookup_alter_ne by done. exact Hu.
Qed.

(** C31: a request for a busy device is linked into its queue behind the request in
    progress; the order of the others is kept.  If the queue could be served in at most
    two ascending sweeps and no request in it is for the same command, device and sector
    as the new one, it still can.  The buffer of the request is marked clean; the
    requests in the queue change in their links only, those outside it and everything
    else do not change. *)
Theorem add_request_two_sweeps s major c ns rs req r :
  busy s major c ns rs -> request s !! req = Some r -> req ∉ ns ->
  (forall b, r_bh r = Some b -> is_Some (bufs s !! b)) ->
  Forall (differ r) rs -> (descents rs <= 1)%nat ->
  exists s' pre post rs', add_request major req s = Ok tt s'
  /\ ns = c :: pre ++ post /\ busy s' major c (c :: pre ++ req :: post) rs'
  /\ map unlinked rs' = map unlinked (take (S (length pre)) rs) ++ unlinked r :: map unlinked (drop (S (length pre)) rs)
  /\ (descents rs' <= 1)%nat /\ length (request s') = length (request s)
  /\ (forall n, n ∉ c :: pre ++ req :: post -> request s' !! n = request s !! n)
  /\ s' = put request (request s')
      (match r_bh r with Some b => over bufs (alter (put b_dirt 0) b) | None => id end s).
Proof.
  intros B Hr Hni Hb Hdf Hde. pose proof B as [Hd Hc Hn Hl]. inversion Hc as [|? a ns' l Ha Hc']; subst.
  destruct (add_request_busy s major c (c :: ns') a l req r B Hr Hni Hb) as (pre & t & post & u & Ens & Hu & E & Hins).
  set (s' := linked_in s req t r u) in *.
  assert (Htr : t <> req) by (intros ->; apply Hni; rewrite Ens; apply elem_of_app; right; left).
  assert (Erq : request s' = alter (put r_next (Some req)) t
    (alter (put r_next (r_next u)) req (alter (put r_next None) req (request s)))) by (unfold s', linked_in; by destruct (r_bh r)).
  destruct (rchain_insert (request s) (request s') (Some c) pre t req post (a :: l) r u) as (rs' & Hch & Hmap);
    [by rewrite <- Ens | by rewrite <- Ens | by rewrite <- Ens | done | | | |].
  { rewrite Erq, list_lookup_alter, decide_True by done. rewrite !list_lookup_alter_ne by done. by rewrite Hu. }
  { rewrite Erq, list_lookup_alter_ne by done. rewrite !list_lookup_alter, !decide_True by done. by rewrite Hr. }
  { intros n Hnt Hnr. by rewrite Erq, !list_lookup_alter_ne by done. }
  assert (Hds : (descents rs' <= 1)%nat).
  { rewrite <- descents_unlinked, Hmap. change (unlinked r) with (unlinked (unlinked r)).
    rewrite <- map_cons, <- map_app, <- Hins, descents_unlinked. apply descents_insert; [done |].
    by eapply Forall_impl. }
  assert (Hpre : exists pre', pre ++ [t] = c :: pre').
  { destruct pre; cbn in *; injection Ens as -> ->; by eexists. }
  destruct Hpre as (pre' & Hpre).
  assert (Hlen : length pre' = length pre) by (apply (f_equal length) in Hpre; rewrite length_app in Hpre; cbn in Hpre; lia).
  exists s', pre', post, rs'. rewrite Hlen. split_and!; [done | | | done | done | by rewrite Erq, !length_alter | |].
  - rewrite Ens, cons_middle, app_assoc, Hpre. done.
  - rewrite cons_middle, app_assoc, Hpre in Hch. constructor; [| done | |].
    + rewrite <- Hd. unfold s', linked_in. by destruct (r_bh r).
    + assert (Ens2 : (c :: pre') ++ post = c :: ns') by (rewrite <- Hpre, <- app_assoc; by symmetry).
      rewrite app_comm_cons, <- Permutation_middle, Ens2. by apply NoDup_cons.
    + rewrite Erq, !length_alter. done.
  - intros n Hnn. rewrite app_comm_cons, <- Hpre in Hnn. rewrite Erq, !list_lookup_alter_ne; [done | ..];
      intros ->; apply Hnn; rewrite !elem_of_app, !elem_of_cons; tauto.
  - unfold s', linked_in. destruct (r_bh r); done.
Qed.
End Env.

(** A device that reads sectors 10 and 40 and is asked to write sector 2. *)
Lemma add_request_two_sweeps_witness :
  let rq cmd sector next := mk_request 0x301 cmd 0 sector 2 None 0 None next in
  let s := put blk_dev (replicate 7 (mk_blk true (Some 0%nat)))
    (put request (rq 0 10 (Some 1%nat) :: rq 0 40 None :: rq 1 2 None :: replicate 29 (rq 0 0 None)) empty_fs) in
  exists s' ns' rs', @add_request alone 3 2 s = Ok tt s' /\ busy s' 3 0 ns' rs' /\ (descents rs' <= 1)%nat.
Proof.
  cbn zeta. set (s := put blk_dev _ _).
  assert (B : busy s 3 0 [0; 1]%nat (take 2 (request s))).
  { constructor; [reflexivity | | by compute_done | reflexivity].
    econstructor; [reflexivity |]. econstructor; [reflexivity | constructor]. }
  edestruct (@add_request_two_sweeps alone s 3 0 [0; 1]%nat (take 2 (request s)) 2) as (s' & pre & post & rs' & E & Ens & B' & _ & D & _);
    [exact B | reflexivity | by compute_done | done | by repeat constructor | cbn; lia |].
  eexists s', _, rs'. split; [exact E |]. split; [exact B' | exact D].
Defined.
