(* ===== verification/Buffer.v ===== *)
(** The buffer cache (fs/buffer.c).

    A dirty victim makes [getblk] write its device out, which writes inodes back,
    which reads their blocks through the cache again: the recursion through
    [sync_dev], [sync_inodes], [write_inode] and [bread] is cut here by a bound on
    its depth, so the parts of fs/inode.c and fs/super.c on that path are here. *)
From stdpp Require Import base list gmap strings.
From Stdlib Require Import ZArith Lia.
From S2P Require Import Prelude Memory Sched FsState BlkDev.
Open Scope Z_scope.

Definition _hashfn (dev block : Z) : nat := Z.to_nat (u32 (Z.lxor dev block) mod Z.of_nat NR_HASH).
Definition hash (dev block : Z) : M fs_state (option nat) :=
  let* t := get hash_table in need (t !! _hashfn dev block).
Definition set_hash (dev block : Z) (v : option nat) : M fs_state unit :=
  modify (over hash_table <[_hashfn dev block := v]>).

Definition same (p q : option nat) : bool := bool_decide (p = q).

(** ** The queues *)

Definition unlink_hash (b : nat) : M fs_state unit :=
  (let* x := row bufs b in
   match b_next x with Some n => set_bh b_prev n (b_prev x) | None => ret tt end) ;;;
  (let* x := row bufs b in
   match b_prev x with Some p => set_bh b_next p (b_next x) | None => ret tt end) ;;;
  let* x := row bufs b in
  let* h := hash (b_dev x) (b_blocknr x) in
  if same h (Some b) then set_hash (b_dev x) (b_blocknr x) (b_next x) else ret tt.

Definition unlink_free (b : nat) : M fs_state unit :=
  let* x := row bufs b in
  match b_prev_free x, b_next_free x with
  | Some p, Some n =>
    set_bh b_next_free p (Some n) ;;;
    (let* x := row bufs b in
     let* n := need (b_next_free x) in set_bh b_prev_free n (b_prev_free x)) ;;;
    let* f := get free_list in
    if same f (Some b) then (let* x := row bufs b in modify (put free_list (b_next_free x))) else ret tt
  | _, _ => panic "Free block list corrupted"
  end.

Definition remove_from_queues (b : nat) : M fs_state unit := unlink_hash b ;;; unlink_free b.

(** At the end of the free list. *)
Definition link_free (b : nat) : M fs_state unit :=
  let* f := get free_list in
  set_bh b_next_free b f ;;;
  let* f := need f in
  (let* p := bh b_prev_free f in set_bh b_prev_free b p) ;;;
  (let* p := bh b_prev_free f in let* p := need p in set_bh b_next_free p (Some b)) ;;;
  set_bh b_prev_free f (Some b).

(** In its hash queue, if it has a device. *)
Definition link_hash (b : nat) : M fs_state unit :=
  set_bh b_prev b None ;;;
  set_bh b_next b None ;;;
  let* x := row bufs b in
  if negb (cbool (b_dev x)) then ret tt else
  let* h := hash (b_dev x) (b_blocknr x) in
  set_bh b_next b h ;;;
  set_hash (b_dev x) (b_blocknr x) (Some b) ;;;
  match h with
  | Some n => set_bh b_prev n (Some b)
  | None => modify (put at_20 (Some b))
  end.

Definition insert_into_queues (b : nat) : M fs_state unit := link_free b ;;; link_hash b.

(** The end of [getblk]: buffer [b] is for another block from now on. *)
Definition reuse (dev block : Z) (b : nat) : M fs_state unit :=
  set_bh b_count b 1 ;;;
  set_bh b_dirt b 0 ;;;
  set_bh b_uptodate b 0 ;;;
  remove_from_queues b ;;;
  set_bh b_dev b (u16 dev) ;;;
  set_bh b_blocknr b (u32 block) ;;;
  insert_into_queues b.

Fixpoint find_from (fuel : nat) (tmp : option nat) (dev block : Z) : M fs_state (option nat) :=
  match fuel with
  | O => ub
  | S fuel =>
    match tmp with
    | None => ret None
    | Some b =>
      let* x := row bufs b in
      if (b_dev x =? dev) && (b_blocknr x =? u32 block) then ret (Some b) else find_from fuel (b_next x) dev block
    end
  end.
Definition find_buffer (dev block : Z) : M fs_state (option nat) :=
  let* h := hash dev block in
  let* l := get bufs in
  find_from (S (length l)) h dev block.

(** [inode[(i_num-1) % INODES_PER_BLOCK]] in its block. *)
Fixpoint le (n : nat) (v : Z) : list Z :=
  match n with O => [] | S n => v mod 256 :: le n (v / 256) end.
Definition unle (l : list Z) : Z := foldr (fun b acc => b + 256 * acc) 0 l.

(** The bytes of a [struct d_inode]. *)
Definition d_inode_bytes (i : m_inode) : list Z :=
  le 2 (i_mode i) ++ le 2 (i_uid i) ++ le 4 (i_size i) ++ le 4 (i_mtime i)
  ++ le 1 (i_gid i) ++ le 1 (i_nlinks i) ++ concat (map (le 2) (i_zone i)).
(** The bytes [n] to [n + k - 1] as a number. *)
Definition bytes_at (l : list Z) (n k : nat) : Z := unle (take k (drop n l)).
(** An inode whose disk part is read from [l]. *)
Definition d_inode_of (l : list Z) (i : m_inode) : m_inode :=
  put i_mode (bytes_at l 0 2) (put i_uid (bytes_at l 2 2) (put i_size (bytes_at l 4 4)
  (put i_mtime (bytes_at l 8 4) (put i_gid (bytes_at l 12 1) (put i_nlinks (bytes_at l 13 1)
  (put i_zone (map (fun k => bytes_at l (14 + 2 * k) 2) (seq 0 9)) i)))))).

Definition i_wait_var (n : nat) : var fs_state := row_var inode_table i_wait n.
Definition s_wait_var (n : nat) : var fs_state := row_var super_block s_wait n.

Section Env.
Context `{Env}.

(** ** Locks *)

Definition wait_on_inode (n : nat) : M fs_state unit :=
  while_do patience (let* l := inode i_lock n in ret (cbool l)) (sleep_on_fs (i_wait_var n)).
Definition lock_inode (n : nat) : M fs_state unit := wait_on_inode n ;;; set_inode i_lock n 1.
Definition unlock_inode (n : nat) : M fs_state unit := set_inode i_lock n 0 ;;; wake_up (i_wait_var n).

Definition wait_on_super (n : nat) : M fs_state unit :=
  while_do patience (let* l := sb s_lock n in ret (cbool l)) (sleep_on_fs (s_wait_var n)).
Definition lock_super (n : nat) : M fs_state unit := wait_on_super n ;;; set_sb s_lock n 1.
Definition free_super (n : nat) : M fs_state unit := set_sb s_lock n 0 ;;; wake_up (s_wait_var n).

(** The search starts again from the first entry after a sleep. *)
Fixpoint get_super_from (fuel n : nat) (dev : Z) : M fs_state (option nat) :=
  match fuel with
  | O => ub
  | S fuel =>
    if (NR_SUPER <=? n)%nat then ret None else
    let* d := sb s_dev n in
    if d =? dev then
      wait_on_super n ;;;
      let* d := sb s_dev n in
      if d =? dev then ret (Some n) else get_super_from fuel 0 dev
    else get_super_from fuel (S n) dev
  end.
Definition get_super (dev : Z) : M fs_state (option nat) :=
  if negb (cbool dev) then ret None else get_super_from (S NR_SUPER + patience) 0 dev.

(** ** Looking a block up *)

Fixpoint get_hash_loop (fuel : nat) (dev block : Z) : M fs_state (option nat) :=
  match fuel with
  | O => ub
  | S fuel =>
    let* r := find_buffer dev block in
    match r with
    | None => ret None
    | Some b =>
      (let* c := bh b_count b in set_bh b_count b (u8 (c + 1))) ;;;
      wait_on_buffer b ;;;
      let* x := row bufs b in
      if (b_dev x =? dev) && (b_blocknr x =? u32 block) then ret (Some b) else
      set_bh b_count b (u8 (b_count x - 1)) ;;;
      get_hash_loop fuel dev block
    end
  end.
Definition get_hash_table (dev block : Z) : M fs_state (option nat) := get_hash_loop patience dev block.

Definition brelse (buf : option nat) : M fs_state unit :=
  match buf with
  | None => ret tt
  | Some b =>
    wait_on_buffer b ;;;
    let* c := bh b_count b in
    set_bh b_count b (u8 (c - 1)) ;;;
    if negb (cbool c) then panic "Trying to free free buffer" else
    wake_up (fs_var buffer_wait)
  end.

Definition BADNESS (x : buffer_head) : Z := Z.shiftl (b_dirt x) 1 + b_lock x.

(** The search through the free list for the best buffer nobody uses. *)
Fixpoint find_victim (fuel : nat) (tmp : nat) (best : option nat) : M fs_state (option nat) :=
  match fuel with
  | O => ub
  | S fuel =>
    let* x := row bufs tmp in
    let* better := (match best with
                    | None => ret true
                    | Some b => let* y := row bufs b in ret (BADNESS x <? BADNESS y)
                    end) in
    if negb (cbool (b_count x)) && better && negb (cbool (BADNESS x)) then ret (Some tmp) else
    let best := if negb (cbool (b_count x)) && better then Some tmp else best in
    let* f := get free_list in
    if same (b_next_free x) f then ret best else
    let* n := need (b_next_free x) in find_victim fuel n best
  end.

(** [while (bh->b_dirt)] in [getblk]; the result says whether somebody took the
    buffer in the meantime. *)
Fixpoint flush_victim (fuel : nat) (sync_dev : Z -> M fs_state unit) (b : nat) : M fs_state bool :=
  match fuel with
  | O => ub
  | S fuel =>
    let* x := row bufs b in
    if negb (cbool (b_dirt x)) then ret false else
    sync_dev (b_dev x) ;;;
    wait_on_buffer b ;;;
    let* c := bh b_count b in
    if cbool c then ret true else flush_victim fuel sync_dev b
  end.

Section Recursion.
Variable sync_dev : Z -> M fs_state unit.

(** The part of [getblk] after the block was not found; [None] is [goto repeat]. *)
Definition take_victim (dev block : Z) : M fs_state (option nat) :=
  let* f := get free_list in
  let* f := need f in
  let* l := get bufs in
  let* v := find_victim (length l) f None in
  match v with
  | None => sleep_on_fs (fs_var buffer_wait) ;;; ret None
  | Some b =>
    wait_on_buffer b ;;;
    let* c := bh b_count b in
    if cbool c then ret None else
    let* taken := flush_victim patience sync_dev b in
    if taken then ret None else
    let* again := find_buffer dev block in
    match again with
    | Some _ => ret None
    | None =>
      reuse dev block b ;;; ret (Some b)
    end
  end.

Fixpoint getblk_loop (fuel : nat) (dev block : Z) : M fs_state nat :=
  match fuel with
  | O => ub
  | S fuel =>
    let* r := get_hash_table dev block in
    match r with
    | Some b => ret b
    | None =>
      let* v := take_victim dev block in
      match v with Some b => ret b | None => getblk_loop fuel dev block end
    end
  end.
End Recursion.

Section Bread.
Variable getblk : Z -> Z -> M fs_state nat.

Definition bread_with (dev block : Z) : M fs_state (option nat) :=
  let* b := getblk dev block in
  let* u := bh b_uptodate b in
  if cbool u then ret (Some b) else
  ll_rw_block READ b ;;;
  wait_on_buffer b ;;;
  let* u := bh b_uptodate b in
  if cbool u then ret (Some b) else brelse (Some b) ;;; ret None.

(** The block of an inode, and the position of the inode in it. *)
Definition inode_block (sup : super) (i : m_inode) : Z :=
  2 + s_imap_blocks sup + s_zmap_blocks sup + u32 (i_num i - 1) / INODES_PER_BLOCK.
Definition inode_offset (i : m_inode) : nat := Z.to_nat (32 * (u32 (i_num i - 1) mod INODES_PER_BLOCK)).

Definition write_inode_with (n : nat) : M fs_state unit :=
  lock_inode n ;;;
  let* i := row inode_table n in
  if negb (cbool (i_dirt i)) || negb (cbool (i_dev i)) then unlock_inode n else
  let* sp := get_super (i_dev i) in
  match sp with
  | None => panic "trying to write inode without device"
  | Some sp =>
    let* i := row inode_table n in
    let* sup := row super_block sp in
    let* b := bread_with (i_dev i) (inode_block sup i) in
    match b with
    | None => panic "unable to read i-node block"
    | Some b =>
      let* i := row inode_table n in
      (let* d := bh b_data b in set_bh b_data b (splice (inode_offset i) (d_inode_bytes i) d)) ;;;
      set_bh b_dirt b 1 ;;;
      set_inode i_dirt n 0 ;;;
      brelse (Some b) ;;;
      unlock_inode n
    end
  end.

Definition sync_inodes_with : M fs_state unit :=
  for_each (seq 0 NR_INODE) (fun n =>
    wait_on_inode n ;;;
    let* i := row inode_table n in
    if cbool (i_dirt i) && negb (cbool (i_pipe i)) then write_inode_with n else ret tt).

(** One of the two passes of [sync_dev] over the buffers. *)
Definition sync_pass (dev : Z) : M fs_state unit :=
  let* l := get bufs in
  for_each (seq 0 (length l)) (fun b =>
    let* d := bh b_dev b in
    if negb (d =? dev) then ret tt else
    wait_on_buffer b ;;;
    let* x := row bufs b in
    if (b_dev x =? dev) && cbool (b_dirt x) then ll_rw_block WRITE b else ret tt).

Definition sync_dev_with (dev : Z) : M fs_state unit :=
  sync_pass dev ;;; sync_inodes_with ;;; sync_pass dev.
End Bread.

(** [depth] bounds the nesting of write-backs. *)
Fixpoint getblk_at (depth : nat) (dev block : Z) : M fs_state nat :=
  match depth with
  | O => ub
  | S depth => getblk_loop (sync_dev_with (getblk_at depth)) patience dev block
  end.

Definition getblk (dev block : Z) : M fs_state nat := getblk_at patience dev block.
Definition bread (dev block : Z) : M fs_state (option nat) := bread_with getblk dev block.
Definition write_inode (n : nat) : M fs_state unit := write_inode_with getblk n.
Definition sync_inodes : M fs_state unit := sync_inodes_with getblk.
Definition sync_dev (dev : Z) : M fs_state Z := sync_dev_with getblk dev ;;; ret 0.

(** ** The rest of buffer.c *)

Definition sys_sync : M fs_state Z :=
  sync_inodes ;;;
  let* l := get bufs in
  for_each (seq 0 (length l)) (fun b =>
    wait_on_buffer b ;;;
    let* d := bh b_dirt b in if cbool d then ll_rw_block WRITE b else ret tt) ;;;
  ret 0.

Definition invalidate_buffers (dev : Z) : M fs_state unit :=
  let* l := get bufs in
  for_each (seq 0 (length l)) (fun b =>
    let* d := bh b_dev b in
    if negb (d =? dev) then ret tt else
    wait_on_buffer b ;;;
    let* d := bh b_dev b in
    if d =? dev then set_bh b_dirt b 0 ;;; set_bh b_uptodate b 0 else ret tt).

Definition invalidate_inodes (dev : Z) : M fs_state unit :=
  for_each (seq 0 NR_INODE) (fun n =>
    wait_on_inode n ;;;
    let* d := inode i_dev n in
    if d =? dev then set_inode i_dirt n 0 ;;; set_inode i_dev n 0 else ret tt).

(** The first loop of [bread_page]: a buffer per block number, and reads started. *)
Fixpoint page_buffers (l : list Z) (dev : Z) : M fs_state (list (option nat)) :=
  match l with
  | [] => ret []
  | n :: l =>
    let* o := (if cbool n then
                 let* b := getblk dev n in
                 let* u := bh b_uptodate b in
                 (if negb (cbool u) then ll_rw_block READ b else ret tt) ;;;
                 ret (Some b)
               else ret None) in
    let* r := page_buffers l dev in ret (o :: r)
  end.
(** The second: the blocks that could be read, [None] where memory is left as it is. *)
Fixpoint page_copy (l : list (option nat)) : M fs_state (list (option (list Z))) :=
  match l with
  | [] => ret []
  | None :: l => let* r := page_copy l in ret (None :: r)
  | Some b :: l =>
    wait_on_buffer b ;;;
    let* x := row bufs b in
    brelse (Some b) ;;;
    let* r := page_copy l in
    ret ((if cbool (b_uptodate x) then Some (b_data x) else None) :: r)
  end.
(** What is copied to [address], block by block. *)
Definition bread_page (dev : Z) (b : list Z) : M fs_state (list (option (list Z))) :=
  let* l := page_buffers b dev in page_copy l.

(** The arguments after [first], up to the negative one. *)
Definition breada (dev first : Z) (rest : list Z) : M fs_state (option nat) :=
  let* b := getblk dev first in
  (let* u := bh b_uptodate b in if negb (cbool u) then ll_rw_block READ b else ret tt) ;;;
  for_each rest (fun n =>
    let* t := getblk dev n in
    let* u := bh b_uptodate t in
    (if negb (cbool u) then ll_rw_block READA b else ret tt) ;;;
    let* c := bh b_count t in set_bh b_count t (u8 (c - 1))) ;;;
  wait_on_buffer b ;;;
  let* u := bh b_uptodate b in
  if cbool u then ret (Some b) else brelse (Some b) ;;; ret None.
End Env.

(** The loop of [buffer_init] that places buffers from [b] down and their heads (of
    36 bytes) from [h] up until they meet, passing over the memory between 640 kB
    and 1 MB: the number of buffers. *)
Fixpoint count_buffers (fuel : nat) (b h : Z) : nat :=
  match fuel with
  | O => O
  | S fuel =>
    let b := b - Z.of_nat BLOCK_SIZE in
    if h + 36 <=? b then S (count_buffers fuel (if b =? 0x100000 then 0xA0000 else b) (h + 36)) else O
  end.

(** The head of buffer [i] of [n]; [data] and [nr] are what its block and its block
    number happen to be: they are not initialized. *)
Definition init_bh (data : nat -> list Z) (nr : nat -> Z) (n i : nat) : buffer_head :=
  mk_bh (data i) (nr i) 0 0 0 0 0 0 None None
    (Some (if (i =? 0)%nat then (n - 1)%nat else (i - 1)%nat))
    (Some (if (i =? n - 1)%nat then 0%nat else S i)).

Definition buffer_init (data : nat -> list Z) (nr : nat -> Z) (start_buffer buffer_end : Z) : M fs_state unit :=
  let b := if buffer_end =? Z.shiftl 1 20 then 640 * 1024 else buffer_end in
  let n := count_buffers (Z.to_nat b) b start_buffer in
  modify (put bufs (map (init_bh data nr n) (seq 0 n))) ;;;
  modify (put free_list (Some 0%nat)) ;;;
  modify (put hash_table (replicate NR_HASH None)).
