(* ===== verification/Cache.v ===== *)
(** Correctness of the buffer cache (fs/buffer.c).

    The hash queues are doubly linked lists and the free list is a doubly linked
    ring of all buffers.  The four link fields of the buffer heads are looked at as
    four lists of pointers; the lists they describe are invariant under
    [remove_from_queues] followed by [insert_into_queues], at most one buffer ever
    holds a block, and [getblk] returns it. *)
From stdpp Require Import base list gmap strings.
From Stdlib Require Import ZArith Lia.
From S2P Require Import Prelude Memory Sched FsState BlkDev Buffer.
Open Scope Z_scope.

Abbreviation ptrs := (list (option nat)).

(** ** Doubly linked lists *)

(** [l] is the list from pointer [o] on along [nx]; [p] is the element before it. *)
Fixpoint dll (nx pv : ptrs) (o p : option nat) (l : list nat) : Prop :=
  match l with
  | [] => o = None
  | n :: l => o = Some n /\ pv !! n = Some p /\ exists q, nx !! n = Some q /\ dll nx pv q (Some n) l
  end.

(** [p->f = v] when [p] is not null. *)
Definition set_at (p : option nat) (v : option nat) (f : ptrs) : ptrs :=
  match p with Some n => <[n := v]> f | None => f end.

Lemma dll_frame nx pv nx' pv' o p l :
  dll nx pv o p l -> (forall n, n ∈ l -> nx' !! n = nx !! n /\ pv' !! n = pv !! n) -> dll nx' pv' o p l.
Proof.
  revert o p. induction l as [|n l IH]; intros o p; cbn [dll]; [done |].
  intros (-> & Hp & q & Hq & Hl) E. destruct (E n ltac:(left)) as (E1 & E2).
  split; [done |]. split; [by rewrite E2 |]. exists q. split; [by rewrite E1 |]. apply IH; [done |].
  intros m Hm. apply E. by right.
Qed.

(** The pointer before an element, and the one behind it, are in the list. *)
Lemma dll_head nx pv o p l : dll nx pv o p l -> o = list.head l.
Proof. destruct l; cbn; [done | by intros (-> & _)]. Qed.

Lemma dll_set_prev nx pv o p p' l :
  NoDup l -> dll nx pv o p l -> dll nx (set_at o p' pv) o p' l.
Proof.
  destruct l as [|n l]; cbn [dll]; [done |]. intros (Hn & _)%NoDup_cons (-> & Hp & q & Hq & Hl). split; [done |].
  cbn [set_at]. split; [apply list_lookup_insert_eq; by eapply lookup_lt_Some |]. exists q. split; [done |].
  eapply dll_frame; [done |]. intros m Hm. split; [done |]. apply list_lookup_insert_ne. by intros ->.
Qed.

(** The neighbours of an element. *)
Lemma dll_mid nx pv o p l1 b l2 :
  dll nx pv o p (l1 ++ b :: l2) ->
  nx !! b = Some (list.head l2) /\ pv !! b = Some (from_option Some p (last l1)).
Proof.
  revert o p. induction l1 as [|n l1 IH]; intros o p; cbn [app dll].
  - intros (_ & Hp & q & Hq & Hl). by rewrite <- (dll_head _ _ _ _ _ Hl).
  - intros (_ & _ & q & _ & Hl). destruct (IH _ _ Hl) as (H1 & H2). split; [done |].
    rewrite H2. destruct l1 as [|m l1]; [done |]. change (last (n :: m :: l1)) with (last (m :: l1)).
    destruct (last (m :: l1)) eqn:El; [done | by apply last_None in El].
Qed.

(** Take [b] out of the list: its neighbours are linked to each other. *)
Lemma dll_remove nx pv o p l1 b l2 nb pb :
  dll nx pv o p (l1 ++ b :: l2) -> NoDup (l1 ++ b :: l2) -> nx !! b = Some nb -> pv !! b = Some pb ->
  (match p with Some m => m ∉ l1 ++ b :: l2 | None => True end) ->
  dll (set_at pb nb nx) (set_at nb pb pv) (if l1 is [] then nb else o) p (l1 ++ l2).
Proof.
  intros H. pose proof (dll_mid _ _ _ _ _ _ _ H) as (Hn1 & Hp1). intros Hn Hnb Hpb.
  assert (nb = list.head l2) as -> by congruence. clear Hnb Hn1.
  revert o p H Hp1 Hn Hpb. induction l1 as [|n l1 IH]; intros o p H Hp1 Hn Hpb Hp; cbn [app] in *.
  - destruct H as (-> & Hp' & q & Hq & Hl). pose proof (dll_head _ _ _ _ _ Hl). subst q.
    assert (pb = p) as -> by congruence.
    apply NoDup_cons in Hn as (Hb & Hn). apply (dll_set_prev _ _ _ _ p) in Hl; [| done].
    eapply dll_frame; [done |]. intros m Hm. split; [| done]. destruct p as [k|]; [| done]. cbn [set_at].
    apply list_lookup_insert_ne. intros ->. apply Hp. by right.
  - destruct H as (-> & Hp' & q & Hq & Hl). apply NoDup_cons in Hn as (Hnl & Hn).
    pose proof (dll_mid _ _ _ _ _ _ _ Hl) as (_ & Hpm).
    pose proof (IH q (Some n) Hl Hpm Hn Hpb Hnl) as IH'. cbn [dll]. split; [done |]. split.
    + rewrite <- Hp'. destruct l2 as [|m l2]; [done |]. cbn. apply list_lookup_insert_ne. intros ->.
      apply Hnl, elem_of_app. right. right. left.
    + destruct l1 as [|m l1]; cbn [last from_option] in *.
      * exists (list.head l2). split; [| done]. assert (pb = Some n) as -> by congruence. cbn [set_at].
        apply list_lookup_insert_eq. by eapply lookup_lt_Some.
      * exists q. split; [| done]. rewrite <- Hq. destruct pb as [k|]; [| done]. cbn [set_at].
        apply list_lookup_insert_ne. intros ->. apply Hnl, elem_of_app. left.
        rewrite Hpb in Hpm. injection Hpm as Hpm.
        destruct (last (m :: l1)) as [k|] eqn:El; cbn in Hpm; [| by apply last_None in El].
        injection Hpm as ->. by apply last_Some_elem_of.
Qed.

(** Put [b] in front. *)
Lemma dll_insert nx pv h l b :
  dll nx pv h None l -> NoDup l -> b ∉ l -> (b < length nx)%nat -> (b < length pv)%nat ->
  dll (<[b := h]> nx) (set_at h (Some b) (<[b := None]> pv)) (Some b) None (b :: l).
Proof.
  intros H Hn Hb H1 H2. cbn [dll]. split; [done |].
  assert (Hh : h <> Some b) by (intros ->; apply dll_head in H; destruct l; [done |]; injection H as ->; apply Hb; left).
  split.
  - destruct h as [m|]; cbn [set_at]; [| by apply list_lookup_insert_eq].
    rewrite list_lookup_insert_ne by congruence. by apply list_lookup_insert_eq.
  - exists h. split; [by apply list_lookup_insert_eq |]. apply dll_set_prev with (p := None); [done |].
    eapply dll_frame; [done |]. intros m Hm.
    by rewrite !list_lookup_insert_ne by (intros ->; done).
Qed.

(** ** Rings *)

(** Consecutive elements are linked both ways. *)
Fixpoint links (nf pf : ptrs) (l : list nat) : Prop :=
  match l with
  | a :: (b :: _) as l' => nf !! a = Some (Some b) /\ pf !! b = Some (Some a) /\ links nf pf l'
  | _ => True
  end.

(** [f :: l] is the ring that starts at [f]. *)
Definition ring (nf pf : ptrs) (f : nat) (l : list nat) : Prop := links nf pf (f :: l ++ [f]).

Lemma links_cons nf pf a b l :
  links nf pf (a :: b :: l) <-> nf !! a = Some (Some b) /\ pf !! b = Some (Some a) /\ links nf pf (b :: l).
Proof. done. Qed.

Lemma links_app nf pf l1 x l2 :
  links nf pf (l1 ++ x :: l2) <-> links nf pf (l1 ++ [x]) /\ links nf pf (x :: l2).
Proof.
  induction l1 as [|a [|b l1] IH]; cbn [app] in *.
  - cbn. tauto.
  - rewrite (links_cons nf pf a x l2), (links_cons nf pf a x []). cbn. tauto.
  - rewrite !links_cons, IH. tauto.
Qed.

(** The ring may be entered anywhere. *)
Lemma ring_rotate nf pf f l1 b l2 : ring nf pf f (l1 ++ b :: l2) <-> ring nf pf b (l2 ++ f :: l1).
Proof.
  unfold ring. pose proof (links_app nf pf (f :: l1) b (l2 ++ [f])) as H1.
  pose proof (links_app nf pf (b :: l2) f (l1 ++ [b])) as H2.
  rewrite <- !app_assoc. cbn [app] in *. rewrite H1, H2. tauto.
Qed.

Lemma links_frame nf pf nf' pf' l :
  links nf pf l -> (forall n, n ∈ l -> nf' !! n = nf !! n /\ pf' !! n = pf !! n) -> links nf' pf' l.
Proof.
  induction l as [|a [|b l] IH]; [done | done |]. rewrite !links_cons. intros (H1 & H2 & H3) E.
  destruct (E a ltac:(left)) as (Ea & _). destruct (E b ltac:(right; left)) as (_ & Eb).
  rewrite Ea, Eb. split; [done |]. split; [done |]. apply IH; [done |]. intros n Hn. apply E. by right.
Qed.

(** The next and the previous element of a ring. *)
Lemma ring_next nf pf f l :
  ring nf pf f l -> nf !! f = Some (Some (default f (list.head l)))
  /\ pf !! f = Some (Some (default f (last l))).
Proof.
  unfold ring. destruct l as [|a l].
  - cbn. tauto.
  - intros H. split; [apply H |]. destruct (exists_last (l := a :: l)) as (l' & z & E); [done |].
    rewrite E in *. rewrite last_snoc. cbn [default]. rewrite <- app_assoc in H. cbn [app] in H.
    rewrite app_comm_cons in H. apply links_app in H as (_ & H). apply H.
Qed.

(** Only the next pointers of all but the last and the previous pointers of all but
    the first matter. *)
Lemma links_ends nf pf nf' pf' l z :
  links nf pf (l ++ [z]) -> (forall n, n ∈ l -> nf' !! n = nf !! n) ->
  (forall n, n ∈ tail (l ++ [z]) -> pf' !! n = pf !! n) -> links nf' pf' (l ++ [z]).
Proof.
  induction l as [|a l IH]; [done |]. cbn [app tail]. intros H H1 H2.
  destruct (l ++ [z]) as [|c r] eqn:E; [done |]. apply links_cons in H as (Ha & Hc & H).
  apply links_cons. rewrite H1 by left. rewrite H2 by left. split; [done |]. split; [done |].
  apply IH; [done | |].
  - intros n Hn. apply H1. by right.
  - intros n Hn. apply H2. by right.
Qed.

(** A ring from its last element [z]. *)
Lemma last_split (a : nat) l : exists l', a :: l = l' ++ [default a (last l)].
Proof.
  destruct l as [|b l]; [by exists [] |].
  destruct (exists_last (l := b :: l)) as (l' & z & ->); [done |]. exists (a :: l'). by rewrite last_snoc.
Qed.

(** Take the head [b] out: the ring that is left starts at its successor. *)
Lemma ring_remove nf pf b a l :
  ring nf pf b (a :: l) -> NoDup (b :: a :: l) ->
  ring (<[default a (last l) := Some a]> nf) (<[a := Some (default a (last l))]> pf) a l.
Proof.
  unfold ring. cbn [app]. intros H Hn. rewrite app_comm_cons in H |- *.
  destruct (last_split a l) as (l' & E). set (z := default a (last l)) in *. clearbody z. rewrite E in *.
  assert (H' : links nf pf (l' ++ [z]) /\ links nf pf [z; b] /\ is_Some (pf !! a)).
  { rewrite <- app_assoc in H. destruct l' as [|c l'].
    - cbn in E, H |- *. injection E as -> _. destruct H as (_ & Hp & H1 & H2 & _). by rewrite Hp.
    - injection E as <- _. cbn [app] in *. apply links_cons in H as (_ & Hp & H).
      rewrite app_comm_cons, links_app in H. destruct H as (H1 & H2). by rewrite Hp. }
  destruct H' as (H1 & (H2 & _) & Ha).
  rewrite <- app_assoc. cbn [app]. apply links_app. split.
  - apply NoDup_cons in Hn as (_ & Hn). apply links_ends with nf pf; [done | |].
    + intros n Hin. apply list_lookup_insert_ne. intros <-. apply NoDup_app in Hn as (_ & Hn & _).
      apply (Hn z Hin). left.
    + intros n Hin. apply list_lookup_insert_ne. intros <-. rewrite <- E in *. by apply NoDup_cons in Hn as (? & _).
  - cbn. split; [apply list_lookup_insert_eq; by eapply lookup_lt_Some |]. split; [| done].
    apply list_lookup_insert_eq. destruct Ha as (? & ?). by eapply lookup_lt_Some.
Qed.

(** Put [b] between the last element and the first. *)
Lemma ring_insert nf pf f l b :
  ring nf pf f l -> NoDup (f :: l) -> b ∉ f :: l -> (b < length nf)%nat -> (b < length pf)%nat ->
  ring (<[default f (last l) := Some b]> (<[b := Some f]> nf))
       (<[f := Some b]> (<[b := Some (default f (last l))]> pf)) f (l ++ [b]).
Proof.
  intros H Hn Hb H1 H2. destruct (ring_next _ _ _ _ H) as (_ & Hpf). unfold ring in *.
  rewrite <- app_assoc. cbn [app]. rewrite app_comm_cons in H |- *.
  destruct (last_split f l) as (l' & E). set (z := default f (last l)) in *. clearbody z. rewrite E in *.
  rewrite <- app_assoc in *. cbn [app] in *. apply links_app in H as (Hl & Hz & _).
  assert (Hzb : b <> z) by (intros ->; apply Hb, elem_of_app; right; left).
  assert (Hfb : b <> f) by (intros ->; rewrite <- E in Hb; apply Hb; left).
  apply links_app. split.
  - apply links_ends with nf pf; [done | |].
    + intros n Hin. rewrite !list_lookup_insert_ne; [done | |]; intros <-.
      * apply Hb, elem_of_app. by left.
      * apply NoDup_app in Hn as (_ & Hn & _). apply (Hn z Hin). left.
    + intros n Hin. assert (Hnn : n ∈ l' ++ [z]) by (destruct l'; [by apply elem_of_nil in Hin | by right]).
      rewrite !list_lookup_insert_ne; [done | |]; intros <-; [done |].
      rewrite <- E in *. by apply NoDup_cons in Hn as (? & _).
  - cbn. split_and!; try done.
    + apply list_lookup_insert_eq. rewrite length_insert. by eapply lookup_lt_Some.
    + rewrite list_lookup_insert_ne by done. by apply list_lookup_insert_eq.
    + rewrite list_lookup_insert_ne by done. by apply list_lookup_insert_eq.
    + apply list_lookup_insert_eq. rewrite length_insert. by eapply lookup_lt_Some.
Qed.

(** ** The links of a state *)

(** A buffer head without its links. *)
Definition core (x : buffer_head) : buffer_head :=
  put b_prev None (put b_next None (put b_prev_free None (put b_next_free None x))).

Record qview := mk_qview {
  q_nx : ptrs; q_pv : ptrs; q_nf : ptrs; q_pf : ptrs;
  q_core : list buffer_head; q_hash : ptrs; q_free : option nat; q_null : option nat }.
#[export] Instance qview_fields : Fields qview := fun q =>
  mk_qview (q_nx q) (q_pv q) (q_nf q) (q_pf q) (q_core q) (q_hash q) (q_free q) (q_null q).

Definition view (s : fs_state) : qview :=
  mk_qview (b_next <$> bufs s) (b_prev <$> bufs s) (b_next_free <$> bufs s) (b_prev_free <$> bufs s)
    (core <$> bufs s) (hash_table s) (free_list s) (at_20 s).

(** Everything but what is in the view: the cache and the word that is written through
    [NULL]. *)
Definition rest (s : fs_state) : fs_state :=
  put bufs [] (put hash_table [] (put free_list None (put at_20 None s))).

(** [m] returns and does [f] to the view, and nothing else. *)
Definition does (m : M fs_state unit) (f : qview -> qview) (s : fs_state) : Prop :=
  exists s', m s = Ok tt s' /\ view s' = f (view s) /\ rest s' = rest s.

Lemma fmap_alter_same {A B} (g : A -> B) (h : A -> A) n (l : list A) :
  (forall x, g (h x) = g x) -> g <$> alter h n l = g <$> l.
Proof. intros H. revert n. induction l as [|a l IH]; intros [|n]; cbn; [done.. | by rewrite H | f_equal; apply IH]. Qed.

Lemma fmap_alter_set {A B} (g : A -> B) (h : A -> A) v n (l : list A) :
  (forall x, g (h x) = v) -> g <$> alter h n l = <[n := v]> (g <$> l).
Proof. intros H. revert n. induction l as [|a l IH]; intros [|n]; cbn; [done.. | by rewrite H | f_equal; apply IH]. Qed.

Ltac set_link :=
  let x := fresh "x" in
  intros Hn; destruct (lookup_lt_is_Some_2 _ _ Hn) as (x & Hx); eexists;
  (split; [unfold set_bh, assign; apply (update_ok _ _ _ x _ Hx) |]); (split; [| done]);
  unfold view, over; cbn -[fmap alter insert];
  (f_equal; first [by apply fmap_alter_set | by apply fmap_alter_same]).

Lemma set_next_does s n v :
  (n < length (bufs s))%nat -> does (set_bh b_next n v) (over q_nx <[n := v]>) s.
Proof. set_link. Qed.
Lemma set_prev_does s n v :
  (n < length (bufs s))%nat -> does (set_bh b_prev n v) (over q_pv <[n := v]>) s.
Proof. set_link. Qed.
Lemma set_next_free_does s n v :
  (n < length (bufs s))%nat -> does (set_bh b_next_free n v) (over q_nf <[n := v]>) s.
Proof. set_link. Qed.
Lemma set_prev_free_does s n v :
  (n < length (bufs s))%nat -> does (set_bh b_prev_free n v) (over q_pf <[n := v]>) s.
Proof. set_link. Qed.

(** What is read from buffer head [n]. *)
Definition reads (s : fs_state) (n : nat) (x : buffer_head) : Prop :=
  row bufs n s = Ok x s /\ q_nx (view s) !! n = Some (b_next x) /\ q_pv (view s) !! n = Some (b_prev x)
  /\ q_nf (view s) !! n = Some (b_next_free x) /\ q_pf (view s) !! n = Some (b_prev_free x)
  /\ q_core (view s) !! n = Some (core x).

Lemma row_reads s n : (n < length (bufs s))%nat -> exists x, bufs s !! n = Some x /\ reads s n x.
Proof.
  intros Hn. destruct (lookup_lt_is_Some_2 _ _ Hn) as (x & Hx). exists x. split; [done |].
  unfold reads. rewrite (row_ok _ _ _ _ Hx). cbn. rewrite !list_lookup_fmap, Hx. by split_and!.
Qed.

Lemma length_view s s' f :
  view s' = f (view s) -> q_core (f (view s)) = q_core (view s) -> length (bufs s') = length (bufs s).
Proof. intros E Ec. apply (f_equal q_core) in E. rewrite Ec in E. apply (f_equal length) in E. cbn in E. by rewrite !length_fmap in E. Qed.

Lemma does_seq m k f g s :
  does m f s -> (forall s1, view s1 = f (view s) -> rest s1 = rest s -> does k g s1) ->
  does (m ;;; k) (fun q => g (f q)) s.
Proof.
  intros (s1 & E & Hv & Hr) Hk. destruct (Hk s1 Hv Hr) as (s2 & E2 & Hv2 & Hr2).
  exists s2. rewrite (bind_Ok _ _ _ _ _ E). split; [done |]. rewrite Hv2, Hv, Hr2. done.
Qed.

Lemma does_ret s : does (ret tt) id s.
Proof. by exists s. Qed.

Lemma does_bind {A} (m : M fs_state A) k a f s : m s = Ok a s -> does (k a) f s -> does (let* x := m in k x) f s.
Proof. intros E (s' & E' & H). exists s'. by rewrite (bind_Ok _ _ _ _ _ E). Qed.

Definition valid (k : nat) (o : option nat) : Prop := match o with Some n => (n < k)%nat | None => True end.

Lemma _hashfn_lt dev block : (_hashfn dev block < NR_HASH)%nat.
Proof.
  unfold _hashfn, NR_HASH. pose proof (Z.mod_pos_bound (u32 (Z.lxor dev block)) (Z.of_nat 307)). lia.
Qed.

Lemma hash_ok s dev block :
  length (hash_table s) = NR_HASH ->
  exists h, hash_table s !! _hashfn dev block = Some h /\ hash dev block s = Ok h s.
Proof.
  intros Hl. destruct (lookup_lt_is_Some_2 (hash_table s) (_hashfn dev block)) as (h & Hh).
  { rewrite Hl. apply _hashfn_lt. }
  exists h. split; [done |]. unfold hash, bind, get. by rewrite Hh.
Qed.

(** The same buffer in a later state. *)
Lemma reads_again s s' b x :
  bufs s !! b = Some x -> q_nx (view s') !! b = Some (b_next x) -> q_pv (view s') !! b = Some (b_prev x) ->
  q_nf (view s') !! b = Some (b_next_free x) -> q_pf (view s') !! b = Some (b_prev_free x) ->
  q_core (view s') = q_core (view s) -> bufs s' !! b = Some x.
Proof.
  intros Hx H1 H2 H3 H4 Hc. apply (f_equal (.!! b)) in Hc. cbn in *.
  rewrite !list_lookup_fmap in *. rewrite Hx in Hc. destruct (bufs s' !! b) as [y|]; [| done]. cbn in *.
  f_equal. destruct x, y. unfold core, put in Hc. cbn in *. congruence.
Qed.

Lemma set_at_ne o v f (b : nat) : o <> Some b -> set_at o v f !! b = f !! b.
Proof. intros H. destruct o; [| done]. apply list_lookup_insert_ne. congruence. Qed.

Lemma maybe_prev_does s o v :
  valid (length (bufs s)) o ->
  does (match o with Some n => set_bh b_prev n v | None => ret tt end) (over q_pv (set_at o v)) s.
Proof.
  intros V. destruct o; [by apply set_prev_does |]. exists s. split_and!; [done | by destruct (view s) | done].
Qed.
Lemma maybe_next_does s o v :
  valid (length (bufs s)) o ->
  does (match o with Some n => set_bh b_next n v | None => ret tt end) (over q_nx (set_at o v)) s.
Proof.
  intros V. destruct o; [by apply set_next_does |]. exists s. split_and!; [done | by destruct (view s) | done].
Qed.

Lemma bufs_length s : length (bufs s) = length (q_core (view s)).
Proof. cbn. by rewrite length_fmap. Qed.

Lemma same_spec p q : same p q = true <-> p = q.
Proof. unfold same. apply bool_decide_eq_true. Qed.

Lemma unhash_does s b x :
  bufs s !! b = Some x -> length (hash_table s) = NR_HASH ->
  does (let* x := row bufs b in
        let* h := hash (b_dev x) (b_blocknr x) in
        if same h (Some b) then set_hash (b_dev x) (b_blocknr x) (b_next x) else ret tt)
    (fun q => let h := _hashfn (b_dev x) (b_blocknr x) in
       put q_hash (if decide (q_hash q !! h = Some (Some b)) then <[h := b_next x]> (q_hash q) else q_hash q) q) s.
Proof.
  intros Hx Hl. apply does_bind with x; [by apply row_ok |].
  destruct (hash_ok s (b_dev x) (b_blocknr x) Hl) as (h & Hh & E). apply does_bind with h; [done |].
  change (q_hash (view s)) with (hash_table s). destruct (same h (Some b)) eqn:Es.
  - apply same_spec in Es as ->. eexists. split_and!; [done | | done]. cbn [view put q_hash]. by rewrite decide_True.
  - eexists. split_and!; [done | | done]. cbn [view]. unfold put. cbn [q_hash]. rewrite decide_False; [done |].
    intros E'. change (hash_table s !! _hashfn (b_dev x) (b_blocknr x) = Some (Some b)) in E'. rewrite Hh in E'. injection E' as ->. by rewrite (proj2 (same_spec _ _) eq_refl) in Es.
Qed.

(** ** The four halves *)

Definition q_unlink_hash (h b : nat) (nb pb : option nat) (q : qview) : qview :=
  put q_hash (if decide (q_hash q !! h = Some (Some b)) then <[h := nb]> (q_hash q) else q_hash q)
    (over q_nx (set_at pb nb) (over q_pv (set_at nb pb) q)).

Lemma unlink_hash_does s b x :
  bufs s !! b = Some x -> length (hash_table s) = NR_HASH ->
  valid (length (bufs s)) (b_next x) -> valid (length (bufs s)) (b_prev x) ->
  b_next x <> Some b -> b_prev x <> Some b ->
  does (unlink_hash b) (q_unlink_hash (_hashfn (b_dev x) (b_blocknr x)) b (b_next x) (b_prev x)) s.
Proof.
  intros Hx Hh Vn Vp Nn Np. assert (Hb : (b < length (bufs s))%nat) by (by eapply lookup_lt_Some).
  destruct (row_reads s b Hb) as (x0 & Hx0 & _ & R1 & R2 & R3 & R4 & _). rewrite Hx in Hx0. injection Hx0 as <-.
  rewrite !bufs_length in *.
  destruct (maybe_prev_does s (b_next x) (b_prev x)) as (s1 & E1 & V1 & T1); [by rewrite bufs_length |].
  assert (Hx1 : bufs s1 !! b = Some x).
  { apply (reads_again s); rewrite ?V1; try done. cbn -[view]. by rewrite set_at_ne. }
  destruct (maybe_next_does s1 (b_prev x) (b_next x)) as (s2 & E2 & V2 & T2); [by rewrite bufs_length, V1 |].
  assert (Hx2 : bufs s2 !! b = Some x).
  { apply (reads_again s1); rewrite ?V2, ?V1; try done; cbn -[view]; by rewrite set_at_ne. }
  destruct (unhash_does s2 b x Hx2) as (s3 & E3 & V3 & T3).
  { change (hash_table s2) with (q_hash (view s2)). by rewrite V2, V1. }
  exists s3. split_and!.
  - unfold unlink_hash. rewrite (bind_Ok _ _ s tt s1) by (by rewrite (bind_Ok _ _ _ _ _ (row_ok bufs b x s Hx))).
    by rewrite (bind_Ok _ _ s1 tt s2) by (by rewrite (bind_Ok _ _ _ _ _ (row_ok bufs b x s1 Hx1))).
  - by rewrite V3, V2, V1.
  - by rewrite T3, T2, T1.
Qed.

Definition q_unlink_free (b p n : nat) (q : qview) : qview :=
  put q_free (if decide (q_free q = Some b) then Some n else q_free q)
    (over q_nf <[p := Some n]> (over q_pf <[n := Some p]> q)).

Lemma unlink_free_does s b x p n :
  bufs s !! b = Some x -> b_prev_free x = Some p -> b_next_free x = Some n ->
  (p < length (bufs s))%nat -> (n < length (bufs s))%nat -> does (unlink_free b) (q_unlink_free b p n) s.
Proof.
  intros Hx Ep En Hp Hn. assert (Hb : (b < length (bufs s))%nat) by (by eapply lookup_lt_Some).
  destruct (row_reads s b Hb) as (x0 & Hx0 & _ & R1 & R2 & R3 & R4 & _). rewrite Hx in Hx0. injection Hx0 as <-.
  rewrite !bufs_length in *.
  destruct (set_next_free_does s p (Some n)) as (s4 & E4 & V4 & T4); [by rewrite bufs_length |].
  assert (Hx4 : bufs s4 !! b = Some x).
  { apply (reads_again s); rewrite ?V4; try done. cbn -[view]. rewrite list_lookup_insert.
    case_decide as Hd; [by rewrite En | done]. }
  destruct (set_prev_free_does s4 n (Some p)) as (s5 & E5 & V5 & T5); [by rewrite bufs_length, V4 |].
  assert (Hx5 : bufs s5 !! b = Some x).
  { apply (reads_again s4); rewrite ?V5, ?V4; try done; cbn -[view]; rewrite list_lookup_insert;
      (case_decide as Hd; [by rewrite ?En, ?Ep | done]). }
  assert (HF : free_list s5 = free_list s).
  { change (q_free (view s5) = q_free (view s)). by rewrite V5, V4. }
  exists (put free_list (if decide (free_list s = Some b) then Some n else free_list s) s5). split_and!.
  - unfold unlink_free. rewrite (bind_Ok _ _ _ _ _ (row_ok bufs b x s Hx)), Ep, En, (bind_Ok _ _ _ _ _ E4).
    rewrite (bind_Ok _ _ s4 tt s5).
    2:{ rewrite (bind_Ok _ _ _ _ _ (row_ok bufs b x s4 Hx4)), En, Ep. exact E5. }
    rewrite (bind_Ok (get free_list) _ s5 (free_list s5) s5 eq_refl), HF.
    destruct (same (free_list s) (Some b)) eqn:Es.
    + apply same_spec in Es. rewrite decide_True by done.
      by rewrite (bind_Ok _ _ _ _ _ (row_ok bufs b x s5 Hx5)), En.
    + rewrite decide_False; [| intros E; apply same_spec in E; congruence]. rewrite <- HF. by destruct s5.
  - change (view (put free_list ?v s5)) with (put q_free v (view s5)). by rewrite V5, V4.
  - change (rest (put free_list ?v s5)) with (rest s5). by rewrite T5, T4.
Qed.

Definition q_link_free (b f z : nat) (q : qview) : qview :=
  over q_nf (fun l => <[z := Some b]> (<[b := Some f]> l)) (over q_pf (fun l => <[f := Some b]> (<[b := Some z]> l)) q).

Lemma link_free_does s b f z :
  (b < length (bufs s))%nat -> free_list s = Some f -> q_pf (view s) !! f = Some (Some z) ->
  (z < length (bufs s))%nat -> (f = b -> z = b) -> does (link_free b) (q_link_free b f z) s.
Proof.
  intros Hb Hf Hz Lz Hfz.
  assert (Lf : (f < length (bufs s))%nat).
  { apply lookup_lt_Some in Hz. cbn in Hz. by rewrite length_fmap in Hz. }
  rewrite !bufs_length in *.
  destruct (set_next_free_does s b (Some f)) as (s1 & E1 & V1 & T1); [by rewrite bufs_length |].
  destruct (set_prev_free_does s1 b (Some z)) as (s2 & E2 & V2 & T2); [by rewrite bufs_length, V1 |].
  destruct (set_next_free_does s2 z (Some b)) as (s3 & E3 & V3 & T3); [by rewrite bufs_length, V2, V1 |].
  destruct (set_prev_free_does s3 f (Some b)) as (s4 & E4 & V4 & T4); [by rewrite bufs_length, V3, V2, V1 |].
  assert (Hpf : forall s', q_pf (view s') !! f = Some (Some z) -> bh b_prev_free f s' = Ok (Some z) s').
  { intros s' Hv. assert (Hlt : (f < length (bufs s'))%nat).
    { apply lookup_lt_Some in Hv. cbn in Hv. by rewrite length_fmap in Hv. }
    destruct (row_reads s' f Hlt) as (y & Hy & _ & _ & _ & _ & R & _). unfold bh.
    rewrite (field_ok _ _ _ _ _ Hy). congruence. }
  exists s4. split_and!.
  - unfold link_free. rewrite (bind_Ok (get free_list) _ s _ s eq_refl), Hf, (bind_Ok _ _ _ _ _ E1). cbn [need].
    rewrite (bind_Ok (ret f) _ s1 f s1 eq_refl).
    rewrite (bind_Ok _ _ s1 tt s2).
    2:{ rewrite (bind_Ok _ _ _ _ _ (Hpf s1 ltac:(by rewrite V1))). exact E2. }
    rewrite (bind_Ok _ _ s2 tt s3); [exact E4 |]. rewrite (bind_Ok _ _ s2 (Some z) s2); [exact E3 |].
    apply Hpf. rewrite V2, V1. cbn -[view]. rewrite list_lookup_insert.
    case_decide as Hbf; [| exact Hz]. destruct Hbf as (-> & _). done.
  - by rewrite V4, V3, V2, V1.
  - by rewrite T4, T3, T2, T1.
Qed.

Definition q_link_hash (hh b : nat) (h : option nat) (q : qview) : qview :=
  put q_null (match h with None => Some b | Some _ => q_null q end)
    (over q_nx <[b := h]> (over q_pv (fun l => set_at h (Some b) (<[b := None]> l)) (over q_hash <[hh := Some b]> q))).

Lemma link_hash_does s b x h :
  bufs s !! b = Some x -> b_dev x <> 0 -> valid (length (bufs s)) h ->
  hash_table s !! _hashfn (b_dev x) (b_blocknr x) = Some h ->
  does (link_hash b) (q_link_hash (_hashfn (b_dev x) (b_blocknr x)) b h) s.
Proof.
  intros Hx Hd Vh Hh. assert (Hb : (b < length (bufs s))%nat) by (by eapply lookup_lt_Some). rewrite !bufs_length in *.
  destruct (set_prev_does s b None) as (s5 & E5 & V5 & T5); [by rewrite bufs_length |].
  destruct (set_next_does s5 b None) as (s6 & E6 & V6 & T6); [by rewrite bufs_length, V5 |].
  destruct (set_next_does s6 b h) as (s7 & E7 & V7 & T7); [by rewrite bufs_length, V6, V5 |].
  assert (HH : hash_table s6 = hash_table s).
  { change (q_hash (view s6) = q_hash (view s)). by rewrite V6, V5. }
  assert (Hx6 : exists x6, bufs s6 !! b = Some x6 /\ b_dev x6 = b_dev x /\ b_blocknr x6 = b_blocknr x).
  { destruct (row_reads s6 b) as (x6 & H6 & _ & _ & _ & _ & _ & R6); [by rewrite bufs_length, V6, V5 |].
    exists x6. split; [done |]. rewrite V6, V5 in R6. cbn in R6. rewrite list_lookup_fmap, Hx in R6.
    split; [exact (eq_sym (f_equal (from_option b_dev 0) R6)) | exact (eq_sym (f_equal (from_option b_blocknr 0) R6))]. }
  destruct Hx6 as (x6 & Hx6 & Ed & Ebk). set (hh := _hashfn (b_dev x) (b_blocknr x)) in *.
  set (s8 := over hash_table <[hh := Some b]> s7).
  assert (E9 : does (match h with Some n => set_bh b_prev n (Some b) | None => modify (put at_20 (Some b)) end)
                 (fun q => put q_null (match h with None => Some b | Some _ => q_null q end) (over q_pv (set_at h (Some b)) q)) s8).
  { destruct h as [m|].
    - destruct (set_prev_does s8 m (Some b)) as (s9 & E9 & V9 & T9).
      { rewrite bufs_length. change (q_core (view s8)) with (q_core (view s7)). by rewrite V7, V6, V5. }
      exists s9. split_and!; [done | | done]. rewrite V9. by destruct (view s8).
    - eexists. split_and!; [done | | done]. by destruct s8. }
  destruct E9 as (s9 & E9 & V9 & T9). exists s9. split_and!.
  - unfold link_hash. rewrite (bind_Ok _ _ _ _ _ E5), (bind_Ok _ _ _ _ _ E6).
    rewrite (bind_Ok _ _ _ _ _ (row_ok bufs b x6 s6 Hx6)), Ed, Ebk. unfold cbool.
    rewrite (proj2 (Z.eqb_neq (b_dev x) 0)) by done. cbn [negb].
    rewrite (bind_Ok _ _ s6 h s6) by (unfold hash, bind, get; fold hh; by rewrite HH, Hh).
    by rewrite (bind_Ok _ _ _ _ _ E7), (bind_Ok (set_hash _ _ _) _ s7 tt s8 eq_refl).
  - rewrite V9. change (view s8) with (over q_hash <[hh := Some b]> (view s7)).
    rewrite V7, V6, V5. unfold q_link_hash, over. cbn -[view]. do 2 f_equal. apply list_insert_insert_eq.
  - rewrite T9. change (rest s8) with (rest s7). by rewrite T7, T6, T5.
Qed.

(** A buffer without a device is in no hash queue. *)
Definition q_unhash (b : nat) (q : qview) : qview := over q_nx <[b := None]> (over q_pv <[b := None]> q).

Lemma link_hash_nodev_does s b x :
  bufs s !! b = Some x -> b_dev x = 0 -> does (link_hash b) (q_unhash b) s.
Proof.
  intros Hx Hd. assert (Hb : (b < length (bufs s))%nat) by (by eapply lookup_lt_Some). rewrite !bufs_length in *.
  destruct (set_prev_does s b None) as (s1 & E1 & V1 & T1); [by rewrite bufs_length |].
  destruct (set_next_does s1 b None) as (s2 & E2 & V2 & T2); [by rewrite bufs_length, V1 |].
  destruct (row_reads s2 b) as (y & Hy & _ & _ & _ & _ & _ & R); [by rewrite bufs_length, V2, V1 |].
  assert (Hyd : b_dev y = 0).
  { rewrite V2, V1 in R. cbn in R. rewrite list_lookup_fmap, Hx in R. rewrite <- Hd.
    exact (eq_sym (f_equal (from_option b_dev 0) R)). }
  exists s2. split_and!; [| by rewrite V2, V1 | by rewrite T2].
  unfold link_hash. rewrite (bind_Ok _ _ _ _ _ E1), (bind_Ok _ _ _ _ _ E2).
  by rewrite (bind_Ok _ _ _ _ _ (row_ok bufs b y s2 Hy)), Hyd.
Qed.

(** ** The invariant of the queues

    [H] gives the hash queues, [f :: F] is the free list; the buffers in [out] are in
    neither. *)
Record queues (out : list nat) (q : qview) (H : nat -> list nat) (f : nat) (F : list nat) : Prop := {
  qs_lens : length (q_nx q) = length (q_core q) /\ length (q_pv q) = length (q_core q)
    /\ length (q_nf q) = length (q_core q) /\ length (q_pf q) = length (q_core q) /\ length (q_hash q) = NR_HASH;
  qs_chain : forall k, (k < NR_HASH)%nat -> exists h, q_hash q !! k = Some h /\ dll (q_nx q) (q_pv q) h None (H k);
  qs_nodup : forall k, NoDup (H k);
  qs_mem : forall k c, c ∈ H k <->
    (exists x, q_core q !! c = Some x /\ (c ∉ out) /\ b_dev x <> 0 /\ _hashfn (b_dev x) (b_blocknr x) = k);
  qs_nodev : forall c x, q_core q !! c = Some x -> c ∉ out -> b_dev x = 0 ->
    q_nx q !! c = Some None /\ q_pv q !! c = Some None;
  qs_uniq : forall c d x y, q_core q !! c = Some x -> q_core q !! d = Some y -> c ∉ out -> d ∉ out ->
    b_dev x <> 0 -> b_dev x = b_dev y -> b_blocknr x = b_blocknr y -> c = d;
  qs_head : q_free q = Some f;
  qs_ring : ring (q_nf q) (q_pf q) f F;
  qs_all : out ++ f :: F ≡ₚ seq 0 (length (q_core q)) }.

Lemma queues_nodup out q H f F : queues out q H f F -> NoDup (out ++ f :: F).
Proof. intros Q. rewrite (qs_all _ _ _ _ _ Q). apply NoDup_seq. Qed.

Lemma queues_lt out q H f F c : queues out q H f F -> c ∈ out ++ f :: F -> (c < length (q_core q))%nat.
Proof. intros Q Hc. rewrite (qs_all _ _ _ _ _ Q) in Hc. apply elem_of_seq in Hc. lia. Qed.

(** The hash queues are disjoint. *)
Lemma queues_disjoint out q H f F k k' c : queues out q H f F -> c ∈ H k -> c ∈ H k' -> k = k'.
Proof. intros Q (x & Hx & _ & _ & <-)%(qs_mem _ _ _ _ _ Q) (y & Hy & _ & _ & <-)%(qs_mem _ _ _ _ _ Q). congruence. Qed.

Lemma NoDup_filter_split (b : nat) l1 l2 :
  NoDup (l1 ++ b :: l2) -> filter (fun c => c <> b) (l1 ++ b :: l2) = l1 ++ l2.
Proof.
  intros (_ & Hd & (Hb & _)%NoDup_cons)%NoDup_app. rewrite filter_app, filter_cons_False by (by intros []).
  rewrite !list_filter_all; [done | |]; apply Forall_forall; intros c Hc ->; [done |]. apply (Hd b Hc). left.
Qed.

(** The neighbours of [b] in its hash queue. *)
Lemma queues_neighbours q H f F b x nb pb :
  queues [] q H f F -> q_core q !! b = Some x -> q_nx q !! b = Some nb -> q_pv q !! b = Some pb ->
  (nb = None /\ pb = None /\ forall k, b ∉ H k)
  \/ exists l1 l2, H (_hashfn (b_dev x) (b_blocknr x)) = l1 ++ b :: l2 /\ nb = list.head l2 /\ pb = last l1.
Proof.
  intros Q Hx Hnb Hpb. destruct (decide (b_dev x = 0)) as [Hd|Hd].
  - left. destruct (qs_nodev _ _ _ _ _ Q b x Hx ltac:(by apply not_elem_of_nil) Hd) as (H1 & H2).
    split_and!; [congruence | congruence |]. intros k (y & Hy & _ & Hyd & _)%(qs_mem _ _ _ _ _ Q). congruence.
  - right. assert (Hb : b ∈ H (_hashfn (b_dev x) (b_blocknr x))).
    { apply (qs_mem _ _ _ _ _ Q). exists x. split_and!; [done | by apply not_elem_of_nil | done | done]. }
    apply list_elem_of_split in Hb as (l1 & l2 & El). exists l1, l2.
    destruct (qs_chain _ _ _ _ _ Q _ (_hashfn_lt (b_dev x) (b_blocknr x))) as (h & _ & D). rewrite El in D.
    destruct (dll_mid _ _ _ _ _ _ _ D) as (H1 & H2). split_and!; [done | congruence |].
    rewrite Hpb in H2. injection H2 as ->. by destruct (last l1).
Qed.

Lemma queues_neighbours_in q H f F b x nb pb c k :
  queues [] q H f F -> q_core q !! b = Some x -> q_nx q !! b = Some nb -> q_pv q !! b = Some pb ->
  b ∉ H k -> c ∈ H k -> nb <> Some c /\ pb <> Some c.
Proof.
  intros Q Hx Hnb Hpb Hb Hc.
  destruct (queues_neighbours q H f F b x nb pb Q Hx Hnb Hpb) as [(-> & -> & _)|(l1 & l2 & El & -> & ->)]; [done |].
  assert (Hout : c ∈ l1 ++ b :: l2 -> False).
  { rewrite <- El. intros Hc'. apply Hb. rewrite (queues_disjoint [] q H f F _ _ c Q Hc Hc'), El.
    apply elem_of_app. right. left. }
  split; intros E; apply Hout, elem_of_app.
  - right. right. by apply head_Some_elem_of.
  - left. by apply last_Some_elem_of.
Qed.

(** [unlink_hash] takes [b] out of its queue. *)
Lemma unlink_hash_chains q H f F b x nb pb :
  queues [] q H f F -> q_core q !! b = Some x -> q_nx q !! b = Some nb -> q_pv q !! b = Some pb ->
  let q' := q_unlink_hash (_hashfn (b_dev x) (b_blocknr x)) b nb pb q in
  forall k, (k < NR_HASH)%nat ->
  exists h, q_hash q' !! k = Some h /\ dll (q_nx q') (q_pv q') h None (filter (fun c => c <> b) (H k)).
Proof.
  intros Q Hx Hnb Hpb q' k Hk. destruct (qs_chain _ _ _ _ _ Q k Hk) as (h & Hh & D).
  set (hh := _hashfn (b_dev x) (b_blocknr x)) in *. destruct (decide (b ∈ H k)) as [Hbk|Hbk].
  - assert (k = hh) as ->.
    { apply (qs_mem _ _ _ _ _ Q) in Hbk as (y & Hy & _ & _ & <-). rewrite Hx in Hy. by injection Hy as <-. }
    pose proof (qs_nodup _ _ _ _ _ Q hh) as Hn. apply list_elem_of_split in Hbk as (l1 & l2 & El).
    rewrite El in *. rewrite NoDup_filter_split by done.
    pose proof (dll_remove _ _ _ _ _ _ _ _ _ D Hn Hnb Hpb I) as D'.
    destruct l1 as [|c l1]; cbn [app] in D, Hn, D'.
    + destruct D as (-> & _). exists nb. split; [| done]. cbn. rewrite decide_True by done.
      apply list_lookup_insert_eq. by eapply lookup_lt_Some.
    + destruct D as (-> & _). exists (Some c). split; [| done]. cbn. rewrite decide_False; [done |].
      intros E. rewrite Hh in E. injection E as ->. apply NoDup_cons in Hn as (Hn & _). apply Hn, elem_of_app.
      right. left.
  - exists h. rewrite list_filter_all by (apply Forall_forall; by intros c Hc ->). split.
    + cbn. case_decide as E; [| done]. rewrite list_lookup_insert_ne; [done |]. intros <-. apply Hbk.
      rewrite Hh in E. injection E as ->. apply dll_head in D. by apply head_Some_elem_of.
    + eapply dll_frame; [done |]. intros c Hc.
      destruct (queues_neighbours_in q H f F b x nb pb c k Q Hx Hnb Hpb Hbk Hc). cbn. by rewrite !set_at_ne.
Qed.

Lemma last_cons_default (b a : nat) l : default b (last (a :: l)) = default a (last l).
Proof.
  destruct l as [|c l]; [done |]. change (last (a :: c :: l)) with (last (c :: l)).
  destruct (last (c :: l)) eqn:E; [done | by apply last_None in E].
Qed.

(** Take [b] out of a ring of at least two: where the ring starts then, and the
    neighbours of [b]. *)
Lemma ring_take nf pf f F b :
  ring nf pf f F -> NoDup (f :: F) -> b ∈ f :: F -> F <> [] ->
  exists p n f' F', nf !! b = Some (Some n) /\ pf !! b = Some (Some p)
  /\ ring (<[p := Some n]> nf) (<[n := Some p]> pf) f' F' /\ f' = (if decide (f = b) then n else f)
  /\ b :: f' :: F' ≡ₚ f :: F.
Proof.
  intros R Hn Hb HF. apply elem_of_cons in Hb as [->|Hb].
  - destruct F as [|a l]; [done |]. destruct (ring_next _ _ _ _ R) as (H1 & H2). cbn [list.head default] in H1.
    exists (default f (last (a :: l))), a, a, l. rewrite decide_True by done. split_and!; [done | done | | done | done].
    rewrite last_cons_default. by apply ring_remove with f.
  - assert (Hfb : f <> b) by (intros ->; by apply NoDup_cons in Hn as (? & _)).
    apply list_elem_of_split in Hb as (F1 & F2 & ->). apply ring_rotate in R.
    assert (Hp : b :: F2 ++ f :: F1 ≡ₚ f :: F1 ++ b :: F2) by solve_Permutation.
    rewrite <- Hp in Hn.
    destruct (F2 ++ f :: F1) as [|a l] eqn:E; [by destruct F2 |].
    destruct (ring_next _ _ _ _ R) as (H1 & H2). cbn [list.head default] in H1.
    pose proof (ring_remove _ _ _ _ _ R Hn) as R'.
    exists (default b (last (a :: l))), a, f, (F1 ++ F2). rewrite decide_False by done.
    split_and!; [done | done | | done | solve_Permutation].
    rewrite last_cons_default.
    destruct F2 as [|c F2]; injection E as <- <-; [by rewrite app_nil_r | by apply ring_rotate].
Qed.

(** What the invariant knows of a buffer head. *)
Definition ident (x : buffer_head) : Z * Z := (b_dev x, b_blocknr x).

Lemma queues_core out q H f F C :
  queues out q H f F -> length C = length (q_core q) ->
  (forall c, c ∉ out -> ident <$> C !! c = ident <$> q_core q !! c) -> queues out (put q_core C q) H f F.
Proof.
  intros [H1 H2 H3 H4 H5 H6 H7 H8 H9] HL HC.
  assert (HI : forall c x, C !! c = Some x -> c ∉ out ->
    exists y, q_core q !! c = Some y /\ b_dev y = b_dev x /\ b_blocknr y = b_blocknr x).
  { intros c x Hx Ho. specialize (HC c Ho). rewrite Hx in HC. destruct (q_core q !! c) as [y|]; [| done].
    injection HC as -> ->. by exists y. }
  constructor; cbn; rewrite ?HL; try done.
  - intros k c. rewrite H4. split; intros (x & Hx & Ho & Hd & Hh).
    + specialize (HC c Ho). rewrite Hx in HC. destruct (C !! c) as [y|]; [| done]. injection HC as E1 E2.
      exists y. by rewrite E1, E2.
    + destruct (HI c x Hx Ho) as (y & Hy & E1 & E2). exists y. by rewrite E1, E2.
  - intros c x Hx Ho Hd. destruct (HI c x Hx Ho) as (y & Hy & E1 & E2). apply (H5 c y); [done | done | by rewrite E1].
  - intros c d x y Hx Hy Hc Hd Hz E1 E2. destruct (HI c x Hx Hc) as (x' & Hx' & Ex1 & Ex2).
    destruct (HI d y Hy Hd) as (y' & Hy' & Ey1 & Ey2). apply (H6 c d x' y'); congruence.
Qed.

Lemma remove_queues q H f F b x nb pb :
  queues [] q H f F -> F <> [] -> q_core q !! b = Some x -> q_nx q !! b = Some nb -> q_pv q !! b = Some pb ->
  exists p n f' F', q_nf q !! b = Some (Some n) /\ q_pf q !! b = Some (Some p)
  /\ queues [b] (q_unlink_free b p n (q_unlink_hash (_hashfn (b_dev x) (b_blocknr x)) b nb pb q))
       (fun k => filter (fun c => c <> b) (H k)) f' F'.
Proof.
  intros Q HF Hx Hnb Hpb. pose proof Q as [(L1 & L2 & L3 & L4 & L5) H2 H3 H4 H5 H6 H7 H8 H9].
  pose proof (queues_nodup _ _ _ _ _ Q) as Hn. cbn [app] in *.
  assert (Hb : b ∈ f :: F) by (rewrite H9; apply elem_of_seq; apply lookup_lt_Some in Hx; lia).
  destruct (ring_take _ _ _ _ _ H8 Hn Hb HF) as (p & n & f' & F' & E1 & E2 & R & Ef & Hp).
  exists p, n, f', F'. split; [done |]. split; [done |].
  assert (Hset : forall o v l, length (set_at o v l) = length l) by (intros [] *; [apply length_insert | done]).
  constructor; cbn -[filter].
  - rewrite !Hset, !length_insert, L1, L2, L3, L4. split_and!; try done. goal_decide; rewrite ?length_insert; exact L5.
  - exact (unlink_hash_chains q H f F b x nb pb Q Hx Hnb Hpb).
  - intros k. by apply NoDup_filter.
  - intros k c. rewrite list_elem_of_filter, H4. split.
    + intros (Hc & y & Hy & _ & Hd & Hk). exists y. split_and!; [done | | done | done]. by rewrite list_elem_of_singleton.
    + intros (y & Hy & (Hc & _)%not_elem_of_cons & Hd & Hk). split; [done |]. exists y.
      split_and!; [done | apply not_elem_of_nil | done | done].
  - intros c y Hy (Hc & _)%not_elem_of_cons Hd. destruct (H5 c y Hy ltac:(by apply not_elem_of_nil) Hd) as (N1 & N2).
    destruct (queues_neighbours q H f F b x nb pb Q Hx Hnb Hpb) as [(-> & -> & _)|(l1 & l2 & El & -> & ->)]; [done |].
    assert (Hout : c ∉ l1 ++ b :: l2).
    { rewrite <- El. intros (y' & Hy' & _ & Hd' & _)%H4. congruence. }
    rewrite !set_at_ne; [done | |]; intros E; apply Hout, elem_of_app.
    + right. right. by apply head_Some_elem_of.
    + left. by apply last_Some_elem_of.
  - intros c d y z Hy Hz _ _. apply (H6 c d y z); [done | done | by apply not_elem_of_nil..].
  - rewrite Ef, H7. repeat goal_decide; congruence.
  - done.
  - rewrite <- H9, <- Hp. done.
Qed.

Lemma link_hash_chains q H f F b x h :
  queues [b] q H f F -> q_core q !! b = Some x -> q_hash q !! _hashfn (b_dev x) (b_blocknr x) = Some h ->
  let hh := _hashfn (b_dev x) (b_blocknr x) in
  let q' := q_link_hash hh b h q in
  forall k, (k < NR_HASH)%nat ->
  exists g, q_hash q' !! k = Some g /\ dll (q_nx q') (q_pv q') g None (if decide (k = hh) then b :: H k else H k).
Proof.
  intros Q Hx Hh hh q' k Hk. pose proof (qs_lens _ _ _ _ _ Q) as (L1 & L2 & _ & _ & L5).
  assert (Hb : (b < length (q_core q))%nat) by (by eapply lookup_lt_Some).
  assert (HbH : forall k, b ∉ H k).
  { intros j (y & _ & Ho & _)%(qs_mem _ _ _ _ _ Q). apply Ho. left. }
  destruct (qs_chain _ _ _ _ _ Q k Hk) as (g & Hg & D). goal_decide; cbn.
  - subst k. exists (Some b). split; [apply list_lookup_insert_eq; by rewrite L5 |].
    assert (g = h) as -> by (unfold hh in *; congruence).
    apply dll_insert; [done | apply (qs_nodup _ _ _ _ _ Q) | done | by rewrite L1 | by rewrite L2].
  - exists g. split; [by rewrite list_lookup_insert_ne |]. eapply dll_frame; [done |]. intros c Hc.
    assert (Hcb : b <> c) by (intros ->; by eapply HbH).
    assert (Hhc : h <> Some c).
    { intros ->. destruct (qs_chain _ _ _ _ _ Q hh (_hashfn_lt _ _)) as (g' & Hg' & D').
      assert (g' = Some c) as -> by (unfold hh in *; congruence). apply dll_head in D'.
      assert (c ∈ H hh) by (by apply head_Some_elem_of).
      by apply n, (queues_disjoint _ _ _ _ _ k hh c Q). }
    by rewrite set_at_ne, !list_lookup_insert_ne.
Qed.

Lemma insert_queues q H f F b x h :
  queues [b] q H f F -> q_core q !! b = Some x -> b_dev x <> 0 ->
  (forall c y, q_core q !! c = Some y -> c <> b -> ident y <> ident x) ->
  let hh := _hashfn (b_dev x) (b_blocknr x) in
  q_hash q !! hh = Some h ->
  queues [] (q_link_hash hh b h (q_link_free b f (default f (last F)) q))
    (fun k => if decide (k = hh) then b :: H k else H k) f (F ++ [b]).
Proof.
  intros Q Hx Hd Hu hh Hh. pose proof Q as [(L1 & L2 & L3 & L4 & L5) H2 H3 H4 H5 H6 H7 H8 H9].
  assert (Hb : (b < length (q_core q))%nat) by (by eapply lookup_lt_Some).
  pose proof (queues_nodup _ _ _ _ _ Q) as (HbF & Hn)%NoDup_cons.
  assert (HbH : forall k, b ∉ H k) by (intros j (y & _ & Ho & _)%H4; apply Ho; left).
  assert (Hone : forall c, c ∉ [b] <-> c <> b) by (intros c; by rewrite list_elem_of_singleton).
  constructor; cbn -[default].
  - unfold set_at. destruct h; rewrite !length_insert; by rewrite L1, L2, L3, L4.
  - exact (link_hash_chains q H f F b x h Q Hx Hh).
  - intros k. goal_decide; [apply NoDup_cons; split; [done | apply H3] | apply H3].
  - intros k c. assert (HE : c ∈ H k <-> exists y, q_core q !! c = Some y /\ (c ∉ [b]) /\ b_dev y <> 0
      /\ _hashfn (b_dev y) (b_blocknr y) = k) by apply H4.
    transitivity (c ∈ H k \/ c = b /\ k = hh); [goal_decide; rewrite ?elem_of_cons; clear -n || clear -e; intuition congruence |].
    split.
    + intros [(y & Hy & _ & Hyd & Hk)%HE|(-> & ->)]; [exists y | exists x]; split_and!; try done; apply not_elem_of_nil.
    + intros (y & Hy & _ & Hyd & Hk). destruct (decide (c = b)) as [->|Hc].
      * right. split; [done |]. rewrite Hx in Hy. by injection Hy as <-.
      * left. apply HE. exists y. rewrite Hone. by split_and!.
  - intros c y Hy _ Hyd. assert (Hc : c <> b) by (intros ->; congruence).
    destruct (H5 c y Hy ltac:(by apply Hone) Hyd) as (N1 & N2).
    assert (Hhc : h <> Some c).
    { intros ->. destruct (H2 hh (_hashfn_lt _ _)) as (g & Hg & D). assert (g = Some c) as -> by congruence.
      apply dll_head in D. assert (Hin : c ∈ H hh) by (by apply head_Some_elem_of).
      apply H4 in Hin as (y' & Hy' & _ & ? & _). congruence. }
    by rewrite set_at_ne, !list_lookup_insert_ne.
  - intros c d y z Hy Hz _ _ Hyd E1 E2. destruct (decide (c = b)) as [->|Hc], (decide (d = b)) as [->|Hd']; [done | | |].
    + exfalso. apply (Hu d z Hz Hd'). rewrite Hx in Hy. injection Hy as ->. unfold ident. congruence.
    + exfalso. apply (Hu c y Hy Hc). rewrite Hx in Hz. injection Hz as ->. unfold ident. congruence.
    + apply (H6 c d y z); try done; by apply Hone.
  - done.
  - apply ring_insert; [done | done | done | by rewrite L3 | by rewrite L4].
  - rewrite <- H9. cbn [app]. solve_Permutation.
Qed.

Lemma insert_queues_nodev q H f F b x :
  queues [b] q H f F -> q_core q !! b = Some x -> b_dev x = 0 ->
  queues [] (q_unhash b (q_link_free b f (default f (last F)) q)) H f (F ++ [b]).
Proof.
  intros Q Hx Hd. pose proof Q as [(L1 & L2 & L3 & L4 & L5) H2 H3 H4 H5 H6 H7 H8 H9].
  assert (Hb : (b < length (q_core q))%nat) by (by eapply lookup_lt_Some).
  pose proof (queues_nodup _ _ _ _ _ Q) as (HbF & Hn)%NoDup_cons.
  assert (HbH : forall k, b ∉ H k) by (intros j (y & _ & Ho & _)%H4; apply Ho; left).
  assert (Hone : forall c, c ∉ [b] <-> c <> b) by (intros c; by rewrite list_elem_of_singleton).
  assert (Hnb : forall c y, q_core q !! c = Some y -> b_dev y <> 0 -> c ∉ [b]) by (intros c y Hy Hyd; apply Hone; congruence).
  constructor; cbn -[default].
  - rewrite !length_insert; by rewrite L1, L2, L3, L4.
  - intros k Hk. destruct (H2 k Hk) as (h & Hh & D). exists h. split; [done |]. eapply dll_frame; [done |].
    intros c Hc. by rewrite !list_lookup_insert_ne by (intros <-; by apply (HbH k)).
  - done.
  - intros k c. rewrite H4. split; intros (y & Hy & Ho & Hyd & Hk); exists y; split_and!; try done;
      [apply not_elem_of_nil | by apply (Hnb c y)].
  - intros c y Hy _ Hyd. destruct (decide (c = b)) as [->|Hc].
    + rewrite !list_lookup_insert_eq by lia. done.
    + rewrite !list_lookup_insert_ne by done. apply (H5 c y); [done | by apply Hone | done].
  - intros c d y z Hy Hz _ _ Hyd E1 E2. apply (H6 c d y z); try done; [by apply (Hnb c y) | apply (Hnb d z); congruence].
  - done.
  - apply ring_insert; [done | done | done | by rewrite L3 | by rewrite L4].
  - rewrite <- H9. cbn [app]. solve_Permutation.
Qed.
