(* ===== verification/Getblk.v ===== *)
(** The buffer cache (fs/buffer.c): what [getblk] and the routines it is made of do
    to a cache whose queues are in order.  At most one buffer ever holds a block,
    whatever happens while a task sleeps in these routines. *)
From stdpp Require Import base list gmap strings.
From Stdlib Require Import ZArith Lia.
From S2P Require Import Prelude Memory Sched FsState BlkDev Buffer Cache.
Open Scope Z_scope.

(** ** Moving a buffer between the queues *)

(** Every buffer but those in [out] is in the queues where it belongs. *)
Definition queued (out : list nat) (s : fs_state) : Prop := exists H f F, queues out (view s) H f F.

Lemma queued_length out s : queued out s -> length (hash_table s) = NR_HASH.
Proof. intros (H & f & F & Q). by destruct (qs_lens _ _ _ _ _ Q) as (_ & _ & _ & _ & L). Qed.

Lemma default_in (d : nat) o l : (forall c, o = Some c -> c ∈ l) -> default d o ∈ d :: l.
Proof. intros H. destruct o; [right; by apply H | left]. Qed.

(** The neighbours of a buffer in the ring are in the ring. *)
Lemma ring_in nf pf f F b :
  ring nf pf f F -> b ∈ f :: F ->
  exists n p, nf !! b = Some (Some n) /\ pf !! b = Some (Some p) /\ n ∈ f :: F /\ p ∈ f :: F.
Proof.
  intros R Hb.
  assert (HR : exists F', ring nf pf b F' /\ b :: F' ≡ₚ f :: F).
  { apply elem_of_cons in Hb as [->|Hb]; [by exists F |]. apply list_elem_of_split in Hb as (l1 & l2 & ->).
    apply ring_rotate in R. eexists. split; [done | solve_Permutation]. }
  destruct HR as (F' & R' & Hp). destruct (ring_next _ _ _ _ R') as (H1 & H2). do 2 eexists.
  split_and!; [done | done | |]; rewrite <- Hp; apply default_in; intros c Hc;
    [by apply head_Some_elem_of | by apply last_Some_elem_of].
Qed.

Lemma queues_members q H f F k c : queues [] q H f F -> c ∈ H k -> (c < length (q_core q))%nat.
Proof. intros Q (x & Hx & _)%(qs_mem _ _ _ _ _ Q). by eapply lookup_lt_Some. Qed.

Lemma remove_from_queues_ok s b :
  queued [] s -> (b < length (bufs s))%nat -> (2 <= length (bufs s))%nat ->
  exists s', remove_from_queues b s = Ok tt s' /\ queued [b] s'
  /\ q_core (view s') = q_core (view s) /\ rest s' = rest s /\ at_20 s' = at_20 s.
Proof.
  intros (H & f & F & Q) Hb H2. destruct (row_reads s b Hb) as (x & Hx & _ & R1 & R2 & R3 & R4 & R5).
  assert (HF : F <> []).
  { intros ->. pose proof (Permutation_length (qs_all _ _ _ _ _ Q)) as E. cbn in E.
    rewrite length_seq, length_fmap in E. lia. }
  destruct (remove_queues _ _ _ _ _ _ _ _ Q HF R5 R1 R2) as (p & n & f' & F' & En & Ep & Q').
  assert (Hbf : b ∈ f :: F).
  { pose proof (qs_all _ _ _ _ _ Q) as Hp. cbn [app] in Hp. rewrite Hp, <- bufs_length. apply elem_of_seq. lia. }
  destruct (ring_in _ _ _ _ _ (qs_ring _ _ _ _ _ Q) Hbf) as (n' & p' & En' & Ep' & Hn & Hp).
  assert (n' = n) as -> by congruence. assert (p' = p) as -> by congruence.
  apply (queues_lt _ _ _ _ _ _ Q) in Hn, Hp.
  assert (Hv : valid (length (bufs s)) (b_next x) /\ valid (length (bufs s)) (b_prev x)
    /\ b_next x <> Some b /\ b_prev x <> Some b).
  { destruct (queues_neighbours _ _ _ _ _ _ _ _ Q R5 R1 R2) as [(-> & -> & _)|(l1 & l2 & El & -> & ->)]; [done |].
    pose proof (qs_nodup _ _ _ _ _ Q (_hashfn (b_dev (core x)) (b_blocknr (core x)))) as Hd. rewrite El in Hd.
    apply NoDup_app in Hd as (_ & Hd1 & (Hd2 & _)%NoDup_cons).
    assert (Hm : forall c, c ∈ l1 ++ b :: l2 -> (c < length (bufs s))%nat).
    { intros c Hc. rewrite <- El in Hc. rewrite bufs_length. by eapply queues_members. }
    split_and!.
    - destruct (list.head l2) eqn:E; [| done]. apply Hm, elem_of_app. right. right. by apply head_Some_elem_of.
    - destruct (last l1) eqn:E; [| done]. apply Hm, elem_of_app. left. by apply last_Some_elem_of.
    - intros E. by apply Hd2, head_Some_elem_of.
    - intros E. apply last_Some_elem_of in E. apply (Hd1 b E). left. }
  destruct Hv as (V1 & V2 & N1 & N2).
  destruct (unlink_hash_does s b x Hx) as (s1 & E1 & W1 & T1); try done; [by eapply queued_length; do 3 eexists |].
  destruct (row_reads s1 b) as (y & Hy & _ & _ & _ & S3 & S4 & S5); [rewrite bufs_length, W1; by rewrite bufs_length in Hb |].
  rewrite W1 in S3, S4, S5. cbn -[view] in S3, S4, S5.
  destruct (unlink_free_does s1 b y p n Hy) as (s2 & E2 & W2 & T2);
    [congruence | congruence | by rewrite bufs_length, W1.. |].
  exists s2. unfold remove_from_queues. rewrite (bind_Ok _ _ _ _ _ E1). split_and!; [done | | | by rewrite T2 |].
  - do 3 eexists. rewrite W2, W1. exact Q'.
  - by rewrite W2, W1.
  - change (q_null (view s2) = q_null (view s)). by rewrite W2, W1.
Qed.

(** Another buffer than [b] is in the hash queue of the block. *)
Definition chained (dev block : Z) (b : nat) (s : fs_state) : Prop :=
  exists c x, c <> b /\ bufs s !! c = Some x /\ b_dev x <> 0 /\ _hashfn (b_dev x) (b_blocknr x) = _hashfn dev block.

(** The write to [b_next->b_prev] at the end of [insert_into_queues]: if nothing else is in
    the queue, [b_next] is [NULL] and the address of [b] gets into the word there. *)
Definition through_null (dev block : Z) (b : nat) (s s' : fs_state) : Prop :=
  (chained dev block b s /\ at_20 s' = at_20 s) \/ (~ chained dev block b s /\ at_20 s' = Some b).

Lemma chained_core dev block b s s' :
  (forall c, c <> b -> q_core (view s') !! c = q_core (view s) !! c) -> chained dev block b s -> chained dev block b s'.
Proof.
  intros Hc (c & x & Hcb & Hx & Hd & Hh). specialize (Hc c Hcb). cbn in Hc. rewrite !list_lookup_fmap, Hx in Hc.
  destruct (bufs s' !! c) as [y|] eqn:Hy; [| done]. injection Hc as _ Eb Ed.
  exists c, y. cbn in *. split_and!; congruence.
Qed.

Lemma chained_queue s H f F b k dev block h :
  queues [b] (view s) H f F -> _hashfn dev block = k -> h = list.head (H k) -> chained dev block b s <-> h <> None.
Proof.
  intros Q <- ->. split.
  - intros (c & x & Hcb & Hx & Hd & Hh) E. assert (Hin : c ∈ H (_hashfn dev block)).
    { apply (qs_mem _ _ _ _ _ Q). exists (core x). cbn. rewrite list_lookup_fmap, Hx, list_elem_of_singleton. done. }
    destruct (H _); [by apply elem_of_nil in Hin | done].
  - intros Hn. destruct (H _) as [|c l] eqn:E; [done |]. assert (Hin : c ∈ H (_hashfn dev block)) by (rewrite E; left).
    apply (qs_mem _ _ _ _ _ Q) in Hin as (y & Hy & Hcb & Hd & Hh). rewrite list_elem_of_singleton in Hcb.
    cbn in Hy. rewrite list_lookup_fmap in Hy. destruct (bufs s !! c) as [x|] eqn:Hx; [| done]. injection Hy as <-.
    by exists c, x.
Qed.

(** [link_hash] after [link_free]. *)
Lemma link_hash_ok s b x z H f F :
  queues [b] (view s) H f F -> bufs s !! b = Some x -> z = default f (last F) ->
  (b_dev x <> 0 -> forall c y, bufs s !! c = Some y -> c <> b -> ident y <> ident x) ->
  forall s1, view s1 = q_link_free b f z (view s) ->
  exists s', link_hash b s1 = Ok tt s' /\ queued [] s' /\ q_core (view s') = q_core (view s) /\ rest s' = rest s1
  /\ (b_dev x <> 0 -> through_null (b_dev x) (b_blocknr x) b s s').
Proof.
  intros Q Hx -> Hu s1 W1. assert (Hb : (b < length (bufs s))%nat) by (by eapply lookup_lt_Some).
  destruct (row_reads s1 b) as (y & Hy & _ & _ & _ & _ & _ & S5); [rewrite bufs_length, W1; by rewrite bufs_length in Hb |].
  assert (Hi : ident y = ident x /\ q_core (view s) !! b = Some (core x)).
  { rewrite W1 in S5. cbn in *. rewrite list_lookup_fmap, Hx in *. split; [| done].
    by apply (f_equal (from_option ident (0, 0))) in S5. }
  destruct Hi as (Hi & Hc). injection Hi as Ed Eb. destruct (decide (b_dev x = 0)) as [Hd|Hd].
  - destruct (link_hash_nodev_does s1 b y Hy) as (s2 & E2 & W2 & T2); [congruence |].
    exists s2. split_and!; [done | | by rewrite W2, W1 | done | done]. do 3 eexists. rewrite W2, W1.
    by apply (insert_queues_nodev _ H f F b (core x)).
  - destruct (qs_chain _ _ _ _ _ Q _ (_hashfn_lt (b_dev x) (b_blocknr x))) as (h & Hh & D).
    destruct (link_hash_does s1 b y h Hy) as (s2 & E2 & W2 & T2); [by rewrite Ed | | |].
    { destruct h as [m|]; [| done]. cbn. apply dll_head in D. symmetry in D. apply head_Some_elem_of in D.
      apply (qs_mem _ _ _ _ _ Q) in D as (w & Hw & _). apply lookup_lt_Some in Hw. by rewrite bufs_length, W1. }
    { change (hash_table s1) with (q_hash (view s1)). by rewrite W1, Ed, Eb. }
    exists s2. split_and!; [done | | by rewrite W2, W1 | done |].
    2:{ intros _. pose proof (chained_queue s H f F b _ _ _ h Q eq_refl (dll_head _ _ _ _ _ D)) as Hq.
        assert (E20 : at_20 s2 = match h with None => Some b | Some _ => at_20 s end).
        { change (at_20 s2) with (q_null (view s2)). by rewrite W2, W1. }
        destruct h; [left | right]; (split; [rewrite Hq | exact E20]); [done | by intros []]. }
    do 3 eexists. rewrite W2, W1, Ed, Eb. apply (insert_queues _ H f F b (core x) h); try done.
    intros c w Hw Hcb. cbn in Hw. rewrite list_lookup_fmap in Hw. destruct (bufs s !! c) as [v|] eqn:Ev; [| done].
    injection Hw as <-. by apply (Hu Hd c v).
Qed.

Lemma insert_into_queues_ok s b x :
  queued [b] s -> bufs s !! b = Some x ->
  (b_dev x <> 0 -> forall c y, bufs s !! c = Some y -> c <> b -> ident y <> ident x) ->
  exists s', insert_into_queues b s = Ok tt s' /\ queued [] s'
  /\ q_core (view s') = q_core (view s) /\ rest s' = rest s /\ (b_dev x <> 0 -> through_null (b_dev x) (b_blocknr x) b s s').
Proof.
  intros (H & f & F & Q) Hx Hu. assert (Hb : (b < length (bufs s))%nat) by (by eapply lookup_lt_Some).
  destruct (ring_next _ _ _ _ (qs_ring _ _ _ _ _ Q)) as (_ & Hz). set (z := default f (last F)) in *.
  assert (Hz' : z ∈ f :: F) by (apply default_in; intros c; apply last_Some_elem_of).
  assert (Hfb : f <> b).
  { intros ->. pose proof (queues_nodup _ _ _ _ _ Q) as (Hn & _)%NoDup_cons. apply Hn. left. }
  destruct (link_free_does s b f z) as (s1 & E1 & W1 & T1); try done.
  { apply (qs_head _ _ _ _ _ Q). }
  { rewrite bufs_length. eapply queues_lt; [exact Q |]. by right. }
  destruct (link_hash_ok s b x z H f F Q Hx eq_refl Hu s1 W1) as (s2 & E2 & Q2 & C2 & T2 & N2).
  exists s2. unfold insert_into_queues. rewrite (bind_Ok _ _ _ _ _ E1). split_and!; [done | done | done | by rewrite T2 | done].
Qed.

(** ** Assignments to the other fields *)

(** [g] assigns fields that are not links. *)
Class Unlinked (g : buffer_head -> buffer_head) := {
  un_next x : b_next (g x) = b_next x; un_prev x : b_prev (g x) = b_prev x;
  un_next_free x : b_next_free (g x) = b_next_free x; un_prev_free x : b_prev_free (g x) = b_prev_free x;
  un_core x : core (g x) = g (core x) }.
#[export] Hint Extern 0 (Unlinked _) => by constructor : typeclass_instances.

Lemma fmap_alter_comm {A B} (f : A -> B) (g : A -> A) (h : B -> B) n (l : list A) :
  (forall x, f (g x) = h (f x)) -> f <$> alter g n l = alter h n (f <$> l).
Proof. intros H. revert n. induction l as [|a l IH]; intros [|n]; cbn; [done.. | by rewrite H | f_equal; apply IH]. Qed.

Lemma update_view b g `{!Unlinked g} s : view (over bufs (alter g b) s) = over q_core (alter g b) (view s).
Proof.
  unfold view, over. cbn -[alter fmap]. f_equal.
  1-4: apply fmap_alter_same; intros x; by destruct Unlinked0.
  apply fmap_alter_comm. intros x. by rewrite un_core.
Qed.

Lemma update_does b g `{!Unlinked g} s :
  (b < length (bufs s))%nat -> does (update bufs b g) (over q_core (alter g b)) s.
Proof.
  intros Hb. destruct (lookup_lt_is_Some_2 _ _ Hb) as (x & Hx). eexists. split_and!.
  - by apply (update_ok bufs b g x).
  - by apply update_view.
  - done.
Qed.

(** The queues do not depend on the other fields. *)
Lemma queued_update out b g s s' :
  queued out s -> view s' = over q_core (alter g b) (view s) -> (b ∈ out \/ forall x, ident (g x) = ident x) ->
  queued out s'.
Proof.
  intros (H & f & F & Q) E Hb. exists H, f, F. rewrite E. apply queues_core; [done | apply length_alter |].
  intros c Hc. rewrite list_lookup_alter. destruct (decide (b = c)) as [->|Hcb]; [| done].
  destruct Hb as [Hb|Hb]; [done |].
  destruct (q_core (view s) !! c); cbn; [by rewrite Hb | done].
Qed.

(** ** Searching a hash queue *)

Definition holds (dev block : Z) (x : buffer_head) : Prop := ident x = (dev, u32 block).
#[export] Instance holds_dec dev block x : Decision (holds dev block x).
Proof. unfold holds. apply _. Defined.

Lemma find_from_ok s fuel h p l dev block :
  dll (b_next <$> bufs s) (b_prev <$> bufs s) h p l -> (length l < fuel)%nat ->
  exists r, find_from fuel h dev block s = Ok r s
  /\ (forall b, r = Some b -> exists x, bufs s !! b = Some x /\ holds dev block x)
  /\ (r = None -> forall c x, c ∈ l -> bufs s !! c = Some x -> ~ holds dev block x).
Proof.
  revert fuel h p. induction l as [|b l IH]; intros [|fuel] h p D Hf; cbn [length] in Hf; try lia.
  - cbn in D. subst h. exists None. by split_and!; [| | intros _ c x Hc%elem_of_nil].
  - destruct D as (-> & _ & q & Hq & D). rewrite list_lookup_fmap in Hq.
    destruct (bufs s !! b) as [x|] eqn:Hx; [| done]. injection Hq as <-.
    cbn [find_from]. rewrite (bind_Ok _ _ _ _ _ (row_ok bufs b x s Hx)).
    assert (Hh : (b_dev x =? dev) && (b_blocknr x =? u32 block) = bool_decide (holds dev block x)).
    { apply eq_true_iff_eq. rewrite bool_decide_eq_true. b2p. unfold holds, ident. rewrite pair_equal_spec. tauto. }
    rewrite Hh. case_bool_decide as Hd.
    + exists (Some b). split_and!; [done | intros ? [= <-]; by exists x | done].
    + destruct (IH fuel (b_next x) (Some b) D ltac:(lia)) as (r & E & H1 & H2). exists r. split_and!; [done | done |].
      intros Hr c y [->|Hc]%elem_of_cons Hy; [congruence | by apply (H2 Hr c)].
Qed.

Lemma u32_lxor dev block : u32 (Z.lxor dev block) = u32 (Z.lxor dev (u32 block)).
Proof.
  unfold u32. apply Z.bits_inj'. intros n Hn. destruct (decide (n < 32)).
  - by rewrite !Z.mod_pow2_bits_low, !Z.lxor_spec, Z.mod_pow2_bits_low.
  - by rewrite !Z.mod_pow2_bits_high by lia.
Qed.

Lemma NoDup_length_le (l : list nat) n : NoDup l -> (forall c, c ∈ l -> (c < n)%nat) -> (length l <= n)%nat.
Proof.
  intros Hn Hl. rewrite <- (length_seq n 0). apply submseteq_length, NoDup_submseteq; [done |].
  intros c Hc. apply elem_of_seq. specialize (Hl c Hc). lia.
Qed.

(** [find_buffer] returns, and finds the buffer that holds the block if there is one. *)
Lemma find_buffer_ok s dev block :
  queued [] s -> dev <> 0 ->
  exists r, find_buffer dev block s = Ok r s
  /\ (forall b, r = Some b -> exists x, bufs s !! b = Some x /\ holds dev block x)
  /\ (r = None -> forall c x, bufs s !! c = Some x -> ~ holds dev block x).
Proof.
  intros Q0 Hd. pose proof Q0 as (H & f & F & Q). set (k := _hashfn dev block).
  destruct (qs_chain _ _ _ _ _ Q k (_hashfn_lt _ _)) as (h & Hh & D).
  destruct (hash_ok s dev block (queued_length _ _ Q0)) as (h' & Hh' & E).
  assert (h' = h) as -> by (cbn in Hh; unfold k in Hh; congruence).
  destruct (find_from_ok s (S (length (bufs s))) h None (H k) dev block D) as (r & Er & H1 & H2).
  { apply le_n_S, NoDup_length_le; [apply (qs_nodup _ _ _ _ _ Q) |]. intros c Hc. rewrite bufs_length.
    by eapply queues_members. }
  exists r. unfold find_buffer. rewrite (bind_Ok _ _ _ _ _ E), (bind_Ok (get bufs) _ s _ s eq_refl).
  split_and!; [done | done |]. intros Hr c x Hx Hh0. apply (H2 Hr c x); [| done | done].
  apply (qs_mem _ _ _ _ _ Q). exists (core x). injection Hh0 as Ed Eb. split_and!.
  - cbn. by rewrite list_lookup_fmap, Hx.
  - apply not_elem_of_nil.
  - cbn. by rewrite Ed.
  - cbn. rewrite Ed, Eb. unfold k, _hashfn. by rewrite <- u32_lxor.
Qed.

(** ** Choosing a buffer to reuse *)

(** [o] is the best buffer of [l] that nobody uses. *)
Definition best_of (s : fs_state) (l : list nat) (o : option nat) : Prop :=
  match o with
  | None => forall c x, c ∈ l -> bufs s !! c = Some x -> b_count x <> 0
  | Some b => exists y, bufs s !! b = Some y /\ b ∈ l /\ b_count y = 0
    /\ forall c x, c ∈ l -> bufs s !! c = Some x -> b_count x = 0 -> BADNESS y <= BADNESS x
  end.

(** Flags are not negative. *)
Definition flags_ok (s : fs_state) : Prop := forall c x, bufs s !! c = Some x -> 0 <= BADNESS x.

Lemma best_of_done s l b x :
  flags_ok s -> bufs s !! b = Some x -> b_count x = 0 -> BADNESS x = 0 -> b ∈ l -> best_of s l (Some b).
Proof. intros Hf Hx Hc Hb Hin. exists x. split_and!; [done | done | done |]. intros c y _ Hy _. rewrite Hb. by apply (Hf c). Qed.

Lemma best_of_step s l b x o :
  best_of s l o -> bufs s !! b = Some x ->
  best_of s (l ++ [b])
    (if negb (cbool (b_count x))
        && match o with None => true | Some a => from_option (fun y => BADNESS x <? BADNESS y) true (bufs s !! a) end
     then Some b else o).
Proof.
  intros Ho Hx. assert (Hin : forall c y, c ∈ l ++ [b] -> bufs s !! c = Some y -> c ∈ l \/ y = x).
  { intros c y [Hc|Hc]%elem_of_app Hy; [by left |]. apply list_elem_of_singleton in Hc as ->. right. congruence. }
  unfold cbool. destruct (Z.eqb_spec (b_count x) 0) as [Hc|Hc]; cbn [negb andb].
  - destruct o as [a|].
    + destruct Ho as (y & Hy & Ha & Hay & Hbest). rewrite Hy. cbn. destruct (Z.ltb_spec (BADNESS x) (BADNESS y)).
      * exists x. split_and!; [done | apply elem_of_app; right; left | done |]. intros c z Hc' Hz Hz0.
        destruct (Hin c z Hc' Hz) as [Hl| ->]; [| done]. specialize (Hbest c z Hl Hz Hz0). lia.
      * exists y. split_and!; [done | apply elem_of_app; by left | done |]. intros c z Hc' Hz Hz0.
        destruct (Hin c z Hc' Hz) as [Hl| ->]; [by apply (Hbest c) | lia].
    + exists x. split_and!; [done | apply elem_of_app; right; left | done |]. intros c z Hc' Hz Hz0.
      destruct (Hin c z Hc' Hz) as [Hl| ->]; [by pose proof (Ho c z Hl Hz) | lia].
  - destruct o as [a|].
    + destruct Ho as (y & Hy & Ha & Hay & Hbest). exists y.
      split_and!; [done | apply elem_of_app; by left | done |]. intros c z Hc' Hz Hz0.
      destruct (Hin c z Hc' Hz) as [Hl| ->]; [by apply (Hbest c) | done].
    + intros c z Hc' Hz. destruct (Hin c z Hc' Hz) as [Hl| ->]; [by apply (Ho c) | done].
Qed.

Lemma ring_succ nf pf f F l1 b l2 :
  ring nf pf f F -> f :: F = l1 ++ b :: l2 -> nf !! b = Some (Some (default f (list.head l2))).
Proof.
  intros R E. destruct l1 as [|a l1]; injection E as <- ->; [by apply ring_next in R as (-> & _) |].
  apply ring_rotate, ring_next in R as (-> & _). by destruct l2.
Qed.

Lemma find_victim_from s f F l1 tmp l2 best fuel :
  flags_ok s -> ring (b_next_free <$> bufs s) (b_prev_free <$> bufs s) f F -> NoDup (f :: F) -> free_list s = Some f ->
  f :: F = l1 ++ tmp :: l2 -> (length l2 < fuel)%nat -> best_of s l1 best ->
  exists r, find_victim fuel tmp best s = Ok r s /\ best_of s (f :: F) r.
Proof.
  intros Hf R Hn Hfl. revert fuel l1 tmp best. induction l2 as [|n l2 IH]; intros [|fuel] l1 tmp best El Hl Hbest;
    cbn [length] in Hl; try lia.
  all: pose proof (ring_succ _ _ _ _ _ _ _ R El) as Hs; rewrite list_lookup_fmap in Hs;
    destruct (bufs s !! tmp) as [x|] eqn:Hx; [| done]; injection Hs as Hs.
  all: cbn [find_victim]; rewrite (bind_Ok _ _ _ _ _ (row_ok bufs tmp x s Hx)).
  all: pose proof (best_of_step _ _ _ _ _ Hbest Hx) as Hstep.
  all: set (better := match best with None => true | Some a => _ end) in Hstep.
  all: rewrite (bind_Ok _ _ s better s) by (destruct best as [a|]; [| done]; destruct Hbest as (y & Hy & _);
    unfold better; by rewrite Hy, (bind_Ok _ _ _ _ _ (row_ok bufs a y s Hy))).
  all: destruct (negb (cbool (b_count x)) && better && negb (cbool (BADNESS x))) eqn:Eb.
  1,3: b2p_in Eb; destruct Eb as ((Ec & _) & Ebad); unfold cbool in Ec, Ebad; b2p_in Ec; b2p_in Ebad;
    exists (Some tmp); (split; [done |]); apply (best_of_done _ _ _ x); try done;
    rewrite El; apply elem_of_app; right; left.
  all: set (best' := if _ && better then Some tmp else best) in *.
  all: rewrite (bind_Ok (get free_list) _ s _ s eq_refl), Hs, Hfl.
  - rewrite (proj2 (same_spec _ _) eq_refl). exists best'. split; [done |]. by rewrite El.
  - cbn [list.head default]. destruct (same (Some n) (Some f)) eqn:En.
    + apply same_spec in En. injection En as ->. exfalso. rewrite El in Hn. destruct l1 as [|a l1]; injection El as -> ->.
      * apply NoDup_cons in Hn as (Hn & _). apply Hn. left.
      * apply NoDup_cons in Hn as (Hn & _). apply Hn, elem_of_app. right. right. left.
    + apply (IH fuel (l1 ++ [tmp]) n best'); [by rewrite <- app_assoc | lia | done].
Qed.

(** The search returns, and finds the least bad buffer among those nobody uses; it
    finds none only if every buffer is in use. *)
Lemma find_victim_ok s :
  queued [] s -> flags_ok s -> exists f r, free_list s = Some f
  /\ find_victim (length (bufs s)) f None s = Ok r s /\ best_of s (seq 0 (length (bufs s))) r.
Proof.
  intros (H & f & F & Q) Hf. pose proof (qs_all _ _ _ _ _ Q) as Hp. cbn [app] in Hp.
  destruct (find_victim_from s f F [] f F None (length (bufs s))) as (r & Er & Hr); try done.
  - apply (qs_ring _ _ _ _ _ Q).
  - apply (queues_nodup _ _ _ _ _ Q).
  - apply (qs_head _ _ _ _ _ Q).
  - apply Permutation_length in Hp. rewrite length_seq, <- bufs_length in Hp. cbn in Hp. lia.
  - intros c x Hc. by apply elem_of_nil in Hc.
  - exists f, r. split_and!; [apply (qs_head _ _ _ _ _ Q) | done |]. rewrite bufs_length.
    destruct r as [b|]; cbn in Hr |- *.
    + destruct Hr as (y & Hy & Hb & Hc & Hmin). exists y. split_and!; [done | by rewrite <- Hp | done |].
      intros c x Hc'. rewrite <- Hp in Hc'. by apply Hmin.
    + intros c x Hc. rewrite <- Hp in Hc. by apply Hr.
Qed.

(** ** Reusing a buffer *)

Definition claimed (x : buffer_head) : buffer_head := put b_uptodate 0 (put b_dirt 0 (put b_count 1 x)).
Definition renamed (dev block : Z) (x : buffer_head) : buffer_head :=
  put b_blocknr (u32 block) (put b_dev (u16 dev) (claimed x)).

Lemma view_lookup s b x : bufs s !! b = Some x -> q_core (view s) !! b = Some (core x).
Proof. intros H. cbn. by rewrite list_lookup_fmap, H. Qed.

Lemma view_lookup_inv s b y : q_core (view s) !! b = Some y -> exists x, bufs s !! b = Some x /\ y = core x.
Proof. cbn. rewrite list_lookup_fmap. destruct (bufs s !! b) as [x|]; [| done]. intros [= <-]. by exists x. Qed.

Lemma alter_alter {A} (g h : A -> A) n (l : list A) : alter h n (alter g n l) = alter (fun x => h (g x)) n l.
Proof. revert n. induction l as [|a l IH]; intros [|n]; cbn; [done.. | f_equal; apply IH]. Qed.

(** Two assignments to one buffer head. *)
Lemma update2_does b g h `{!Unlinked g, !Unlinked h} s :
  (b < length (bufs s))%nat -> does (update bufs b g ;;; update bufs b h) (over q_core (alter (fun x => h (g x)) b)) s.
Proof.
  intros Hb. destruct (update_does b g s Hb) as (s1 & E1 & W1 & T1).
  destruct (update_does b h s1) as (s2 & E2 & W2 & T2).
  { rewrite bufs_length, W1. cbn -[view]. by rewrite length_alter, <- bufs_length. }
  exists s2. rewrite (bind_Ok _ _ _ _ _ E1). split_and!; [done | | by rewrite T2].
  rewrite W2, W1. unfold over. cbn -[view]. f_equal. by rewrite alter_alter.
Qed.

Lemma bind_assoc {S A B C} (m : M S A) (k : A -> M S B) (h : B -> M S C) s :
  (let* y := (let* x := m in k x) in h y) s = (let* x := m in let* y := k x in h y) s.
Proof. unfold bind. by destruct (m s). Qed.

Lemma reuse_ok s b dev block :
  queued [] s -> (2 <= length (bufs s))%nat -> (b < length (bufs s))%nat -> 0 <= dev < 2 ^ 16 ->
  (dev <> 0 -> forall c x, bufs s !! c = Some x -> ~ holds dev block x) ->
  exists s', reuse dev block b s = Ok tt s' /\ queued [] s'
  /\ q_core (view s') = alter (renamed dev block) b (q_core (view s)) /\ rest s' = rest s
  /\ (dev <> 0 -> through_null dev (u32 block) b s s').
Proof.
  intros Q H2 Hb Hd Hno.
  destruct (update2_does b (put b_count 1) (put b_dirt 0) s Hb) as (s1 & E1 & W1 & T1).
  assert (L1 : length (bufs s1) = length (bufs s)) by (rewrite !bufs_length, W1; apply length_alter).
  destruct (update_does b (put b_uptodate 0) s1) as (s2 & E2 & W2 & T2); [by rewrite L1 |].
  assert (L2 : length (bufs s2) = length (bufs s)).
  { rewrite <- L1, !bufs_length, W2. apply length_alter. }
  destruct (remove_from_queues_ok s2 b) as (s3 & E3 & Q3 & C3 & T3 & N3); [| lia | lia |].
  { eapply queued_update; [| exact W2 | by right]. eapply queued_update; [done | exact W1 | by right]. }
  assert (L3 : length (bufs s3) = length (bufs s)) by (rewrite !bufs_length, C3, <- !bufs_length; done).
  destruct (update2_does b (put b_dev (u16 dev)) (put b_blocknr (u32 block)) s3) as (s4 & E4 & W4 & T4); [by rewrite L3 |].
  assert (C4 : q_core (view s4) = alter (renamed dev block) b (q_core (view s))).
  { rewrite W4. unfold over. cbn -[view]. rewrite C3, W2. unfold over. cbn -[view]. rewrite W1. unfold over. cbn -[view].
    by rewrite !alter_alter. }
  destruct (lookup_lt_is_Some_2 (bufs s4) b) as (x & Hx).
  { by rewrite bufs_length, C4, length_alter, <- bufs_length. }
  assert (Hi : ident x = (dev, u32 block)).
  { pose proof (view_lookup _ _ _ Hx) as Hc. rewrite C4, list_lookup_alter, decide_True in Hc by done.
    destruct (q_core (view s) !! b); [| done]. apply (f_equal (from_option ident (0, 0))) in Hc.
    change ((u16 dev, u32 block) = ident x) in Hc. by rewrite <- Hc, u16_small by lia. }
  destruct (insert_into_queues_ok s4 b x) as (s5 & E5 & Q5 & C5 & T5 & N5); [| done | |].
  { eapply queued_update; [done | exact W4 |]. left. left. }
  { assert (b_dev x = dev) as -> by (by injection Hi as -> _). intros Hd0 c y Hy Hcb. rewrite Hi. apply view_lookup in Hy. rewrite C4, list_lookup_alter, decide_False in Hy by done.
    apply view_lookup_inv in Hy as (z & Hz & E). intros Eq. apply (Hno Hd0 c z Hz). unfold holds.
    change (ident z) with (ident (core z)). by rewrite <- E. }
  assert (N4 : at_20 s4 = at_20 s).
  { change (q_null (view s4) = q_null (view s)). rewrite W4. change (at_20 s3 = q_null (view s)). rewrite N3.
    change (q_null (view s2) = q_null (view s)). by rewrite W2, W1. }
  exists s5. split_and!; [| done | by rewrite C5 | by rewrite T5, T4, T3, T2 |].
  2:{ injection Hi as Ed Ebk. rewrite Ed, Ebk in N5. intros Hd0. unfold through_null in *. rewrite N4 in N5.
      assert (HC : chained dev (u32 block) b s4 <-> chained dev (u32 block) b s).
      { split; apply chained_core; intros c Hc; by rewrite C4, list_lookup_alter, decide_False by done. }
      by rewrite <- HC; apply N5. }
  unfold reuse. rewrite <- bind_assoc, (bind_Ok _ _ s tt s1) by exact E1.
  rewrite (bind_Ok _ _ s1 tt s2) by exact E2. rewrite (bind_Ok _ _ _ _ _ E3).
  rewrite <- bind_assoc, (bind_Ok _ _ s3 tt s4) by exact E4. exact E5.
Qed.

(** ** getblk when nobody else is there *)

Section Quiet.
Context `{Env}.
Hypothesis Hpat : (0 < patience)%nat.

Lemma patient : exists p, patience = S p.
Proof. exists (pred patience). lia. Qed.

Lemma wait_unlocked b x s : bufs s !! b = Some x -> b_lock x = 0 -> wait_on_buffer b s = Ok tt s.
Proof.
  intros Hx Hl. unfold wait_on_buffer. destruct patient as (p & ->). cbn [while_do].
  rewrite (bind_Ok _ _ s false s); [done |]. unfold bh. by rewrite (bind_Ok _ _ _ _ _ (field_ok bufs b_lock b x s Hx)), Hl.
Qed.

(** The block is in the cache. *)
Lemma get_hash_hit s b x dev block :
  bufs s !! b = Some x -> holds dev block x -> b_lock x = 0 -> find_buffer dev block s = Ok (Some b) s ->
  get_hash_table dev block s = Ok (Some b) (over bufs (alter (put b_count (u8 (b_count x + 1))) b) s).
Proof.
  intros Hx Hh Hl Ef. unfold get_hash_table. destruct patient as (p & ->). cbn [get_hash_loop].
  rewrite (bind_Ok _ _ _ _ _ Ef). set (x' := put b_count (u8 (b_count x + 1)) x).
  set (s' := over bufs _ s).
  assert (Hx' : bufs s' !! b = Some x').
  { change (bufs s') with (alter (put b_count (u8 (b_count x + 1))) b (bufs s)).
    by rewrite list_lookup_alter, decide_True, Hx by done. }
  rewrite (bind_Ok _ _ s tt s').
  2:{ unfold bh. rewrite (bind_Ok _ _ _ _ _ (field_ok bufs b_count b x s Hx)). by apply (update_ok bufs b _ x). }
  rewrite (bind_Ok _ _ _ _ _ (wait_unlocked b x' s' Hx' Hl)), (bind_Ok _ _ _ _ _ (row_ok bufs b x' s' Hx')).
  injection Hh as Ed Eb. cbn [x' put b_dev b_blocknr]. change (b_dev x') with (b_dev x).
  change (b_blocknr x') with (b_blocknr x). by rewrite Ed, Eb, !Z.eqb_refl.
Qed.

Lemma get_hash_miss s dev block : find_buffer dev block s = Ok None s -> get_hash_table dev block s = Ok None s.
Proof.
  intros Ef. unfold get_hash_table. destruct patient as (p & ->). cbn [get_hash_loop].
  by rewrite (bind_Ok _ _ _ _ _ Ef).
Qed.

(** No buffer is locked. *)
Definition calm (s : fs_state) : Prop := forall c x, bufs s !! c = Some x -> 0 <= b_dirt x /\ b_lock x = 0.

Lemma calm_flags s : calm s -> flags_ok s.
Proof. intros Hc c x Hx. destruct (Hc c x Hx). unfold BADNESS. rewrite Z.shiftl_mul_pow2 by lia. lia. Qed.

(** Some buffer is clean, not locked and not used. *)
Definition spare (s : fs_state) : Prop := exists c x, bufs s !! c = Some x /\ b_count x = 0 /\ BADNESS x = 0.

Lemma take_victim_ok sync s dev block :
  queued [] s -> (2 <= length (bufs s))%nat -> calm s -> spare s -> 0 < dev < 2 ^ 16 -> find_buffer dev block s = Ok None s ->
  (forall c x, bufs s !! c = Some x -> ~ holds dev block x) ->
  exists b x s', take_victim sync dev block s = Ok (Some b) s' /\ bufs s !! b = Some x /\ b_count x = 0 /\ b_dirt x = 0
  /\ queued [] s' /\ q_core (view s') = alter (renamed dev block) b (q_core (view s)) /\ rest s' = rest s
  /\ through_null dev (u32 block) b s s'.
Proof.
  intros Q H2 Hl (c & y & Hy & Hyc & Hyb) Hd Ef Hno.
  destruct (find_victim_ok s Q (calm_flags s Hl)) as (f & r & Hfl & Ev & Hr).
  assert (Hc : c ∈ seq 0 (length (bufs s))) by (apply elem_of_seq; apply lookup_lt_Some in Hy; lia).
  destruct r as [b|]; [| by destruct (Hr c y Hc Hy)].
  destruct Hr as (x & Hx & Hb & Hxc & Hmin). specialize (Hmin c y Hc Hy Hyc).
  destruct (Hl b x Hx) as (Hxd & Hxl).
  assert (Hdirt : b_dirt x = 0). { unfold BADNESS in Hmin, Hyb. rewrite Z.shiftl_mul_pow2 in Hmin by lia. lia. }
  destruct (reuse_ok s b dev block) as (s' & E & Q' & C & T & N); try done; [by eapply lookup_lt_Some | lia |].
  exists b, x, s'. split_and!; try done; [| apply N; lia].
  unfold take_victim. rewrite (bind_Ok (get free_list) _ s _ s eq_refl), Hfl. cbn [need].
  rewrite (bind_Ok (ret f) _ s f s eq_refl), (bind_Ok (get bufs) _ s _ s eq_refl), (bind_Ok _ _ _ _ _ Ev).
  rewrite (bind_Ok _ _ _ _ _ (wait_unlocked b x s Hx Hxl)). unfold bh.
  rewrite (bind_Ok _ _ _ _ _ (field_ok bufs b_count b x s Hx)), Hxc. cbn [cbool Z.eqb negb].
  rewrite (bind_Ok _ _ s false s).
  2:{ destruct patient as (p & ->). cbn [flush_victim].
      by rewrite (bind_Ok _ _ _ _ _ (row_ok bufs b x s Hx)), Hdirt. }
  by rewrite (bind_Ok _ _ _ _ _ Ef), (bind_Ok _ _ _ _ _ E).
Qed.
(** C18: In a cache whose queues are in order, where no buffer is locked and one that
    nobody uses is clean, [getblk] returns a buffer that holds the block.  If the block
    was in the cache, all that changes is the count of users of its buffer; otherwise a
    clean buffer nobody used is taken out of its queues, gets the new device and block
    number, one user and is not up to date.  No other buffer changes but for its place
    in the queues, and the queues are in order again.  Nothing outside the cache changes,
    with one exception: if no other buffer is in the hash queue of the block, the address
    of the buffer is written through a [NULL] pointer ([through_null]). *)
Theorem getblk_correct s dev block :
  queued [] s -> (2 <= length (bufs s))%nat -> calm s -> spare s -> 0 < dev < 2 ^ 16 ->
  exists b x s', getblk dev block s = Ok b s' /\ bufs s !! b = Some x /\ queued [] s'
  /\ if decide (holds dev block x) then s' = over bufs (alter (put b_count (u8 (b_count x + 1))) b) s
     else (forall c y, bufs s !! c = Some y -> ~ holds dev block y) /\ b_count x = 0 /\ b_dirt x = 0
       /\ q_core (view s') = alter (renamed dev block) b (q_core (view s)) /\ rest s' = rest s
       /\ through_null dev (u32 block) b s s'.
Proof.
  intros Q H2 Hl Hs Hd. destruct (find_buffer_ok s dev block Q ltac:(lia)) as (r & Ef & H1 & Hno).
  assert (HG : getblk dev block s = (let* r := get_hash_table dev block in
    match r with Some b => ret b | None =>
      let* v := take_victim (sync_dev_with (getblk_at (pred patience))) dev block in
      match v with Some b => ret b | None =>
        getblk_loop (sync_dev_with (getblk_at (pred patience))) (pred patience) dev block end end) s).
  { unfold getblk. destruct patient as (p & E). rewrite E at 1. cbn [getblk_at]. rewrite E at 1. by rewrite E. }
  rewrite HG. clear HG. destruct r as [b|].
  - destruct (H1 b eq_refl) as (x & Hx & Hh). do 3 eexists.
    rewrite (bind_Ok _ _ _ _ _ (get_hash_hit s b x dev block Hx Hh (proj2 (Hl b x Hx)) Ef)).
    split_and!; [done | done | | by rewrite decide_True].
    eapply queued_update; [done | apply (update_view b (put b_count (u8 (b_count x + 1)))) | by right].
  - rewrite (bind_Ok _ _ _ _ _ (get_hash_miss s dev block Ef)).
    destruct (take_victim_ok (sync_dev_with (getblk_at (pred patience))) s dev block) as
      (b & x & s' & E & Hx & Hc & Hdi & Q' & C & T & N); try done; [by apply Hno |].
    exists b, x, s'. rewrite (bind_Ok _ _ _ _ _ E). split_and!; [done | done | done |].
    rewrite decide_False; [| by apply (Hno eq_refl b)]. split_and!; try done. by apply Hno.
Qed.
End Quiet.

(** ** The cache after buffer_init *)

(** The buffers of an empty cache form one ring. *)
Lemma links_seq nf pf a n :
  (forall i, (a <= i < a + n)%nat -> nf !! i = Some (Some (S i)) /\ pf !! S i = Some (Some i)) ->
  links nf pf (seq a (S n)).
Proof.
  revert a. induction n as [|n IH]; intros a Hl; [done |]. cbn [seq]. apply links_cons.
  destruct (Hl a ltac:(lia)). split_and!; [done | done |]. apply IH. intros i Hi. apply Hl. lia.
Qed.

Definition fresh (data : nat -> list Z) (nr : nat -> Z) (n : nat) (s : fs_state) : fs_state :=
  put hash_table (replicate NR_HASH None) (put free_list (Some 0%nat) (put bufs (map (init_bh data nr n) (seq 0 n)) s)).

Lemma fresh_lookup data nr n s i :
  (i < n)%nat -> bufs (fresh data nr n s) !! i = Some (init_bh data nr n i).
Proof. intros Hi. unfold fresh. cbn -[seq]. rewrite list_lookup_fmap, lookup_seq_lt by done. done. Qed.

Lemma fresh_lookup_inv data nr n s i x :
  bufs (fresh data nr n s) !! i = Some x -> (i < n)%nat /\ x = init_bh data nr n i.
Proof.
  intros Hx. assert (Hi : (i < n)%nat).
  { apply lookup_lt_Some in Hx. unfold fresh in Hx. cbn -[seq] in Hx. by rewrite length_map, length_seq in Hx. }
  split; [done |]. rewrite fresh_lookup in Hx by done. congruence.
Qed.

Lemma fresh_queued data nr n s : (0 < n)%nat -> queued [] (fresh data nr n s).
Proof.
  intros Hn. exists (fun _ => []), 0%nat, (seq 1 (n - 1)).
  assert (HL : forall {T} (g : buffer_head -> T), length (g <$> bufs (fresh data nr n s)) = n).
  { intros T g. unfold fresh. cbn -[seq]. by rewrite length_fmap, length_map, length_seq. }
  assert (Hl : forall {T} (g : buffer_head -> T) i, (i < n)%nat ->
    (g <$> bufs (fresh data nr n s)) !! i = Some (g (init_bh data nr n i))).
  { intros T g i Hi. by rewrite list_lookup_fmap, fresh_lookup. }
  constructor; cbn [view q_nx q_pv q_nf q_pf q_core q_hash q_free].
  - rewrite !HL. by split_and!.
  - intros k Hk. exists None. split; [| done]. by apply lookup_replicate_2.
  - intros k. constructor.
  - intros k c. rewrite elem_of_nil. split; [done |]. intros (x & Hx & _ & Hd & _).
    rewrite list_lookup_fmap in Hx. destruct (bufs _ !! c) as [y|] eqn:Ey; [| done]. injection Hx as <-.
    apply fresh_lookup_inv in Ey as (_ & ->). by apply Hd.
  - intros c x Hx _ _. apply lookup_lt_Some in Hx. rewrite HL in Hx. by rewrite !Hl.
  - intros c d x y Hx _ _ _ Hd. rewrite list_lookup_fmap in Hx. destruct (bufs _ !! c) as [z|] eqn:Ez; [| done].
    injection Hx as <-. apply fresh_lookup_inv in Ez as (_ & ->). by destruct Hd.
  - done.
  - unfold ring. destruct n as [|m]; [lia |]. replace (S m - 1)%nat with m by lia.
    change (0%nat :: seq 1 m ++ [0%nat]) with (seq 0 (S m) ++ [0%nat]).
    rewrite seq_S, <- app_assoc. apply links_app. split.
    + rewrite <- seq_S. apply links_seq. intros i Hi. rewrite !Hl by lia. cbn -[Nat.eqb Nat.sub].
      replace (i =? S m - 1)%nat with false by (symmetry; apply Nat.eqb_neq; lia).
      by replace (S i - 1)%nat with i by lia.
    + apply links_cons. rewrite !Hl by lia. cbn -[Nat.eqb Nat.sub]. replace (S m - 1)%nat with m by lia.
      by rewrite Nat.eqb_refl.
  - rewrite HL. cbn [app]. destruct n as [|n]; [lia |]. cbn [seq]. by replace (S n - 1)%nat with n by lia.
Qed.

Lemma count_buffers_fits fuel b h n :
  count_buffers fuel b h = n -> n <> 0%nat -> h + 36 * Z.of_nat n + Z.of_nat BLOCK_SIZE * Z.of_nat n <= b.
Proof.
  revert b h n. induction fuel as [|fuel IH]; intros b h n E Hn; cbn [count_buffers] in E; [lia |].
  destruct (Z.leb_spec (h + 36) (b - Z.of_nat BLOCK_SIZE)) as [Hle|Hle]; [| lia].
  set (b' := if b - Z.of_nat BLOCK_SIZE =? 0x100000 then 0xA0000 else b - Z.of_nat BLOCK_SIZE) in E.
  assert (Hb' : b' <= b - Z.of_nat BLOCK_SIZE) by (unfold b'; destruct (Z.eqb_spec (b - Z.of_nat BLOCK_SIZE) 0x100000); lia).
  destruct (count_buffers fuel b' (h + 36)) as [|m] eqn:Em; [lia |].
  specialize (IH b' (h + 36) (S m) Em ltac:(lia)). lia.
Qed.

(** [buffer_init] makes as many buffers as there is room for between the end of the
    kernel and the end of the buffer memory, at least one if one fits: heads and blocks
    together stay within that memory.  Every buffer is unused and holds no block, and
    the queues are in order. *)
Theorem buffer_init_queued data nr start_buffer buffer_end s :
  start_buffer + 36 + Z.of_nat BLOCK_SIZE <= buffer_end -> buffer_end <> 2 ^ 20 -> 0 <= start_buffer ->
  exists s', buffer_init data nr start_buffer buffer_end s = Ok tt s' /\ queued [] s'
  /\ (0 < length (bufs s'))%nat
  /\ (36 + Z.of_nat BLOCK_SIZE) * Z.of_nat (length (bufs s')) <= buffer_end - start_buffer
  /\ forall c x, bufs s' !! c = Some x -> b_dev x = 0 /\ b_count x = 0 /\ BADNESS x = 0.
Proof.
  intros Hfit He H0. unfold buffer_init. change (Z.shiftl 1 20) with (2 ^ 20). rewrite (proj2 (Z.eqb_neq _ _) He).
  set (n := count_buffers (Z.to_nat buffer_end) buffer_end start_buffer).
  assert (Hn : (0 < n)%nat).
  { unfold n. destruct (Z.to_nat buffer_end) eqn:E; [unfold BLOCK_SIZE in Hfit; lia |]. cbn [count_buffers].
    rewrite (proj2 (Z.leb_le _ _)) by lia. lia. }
  exists (fresh data nr n s). split; [done |]. split; [by apply fresh_queued |].
  assert (HL : length (bufs (fresh data nr n s)) = n) by (unfold fresh; cbn -[seq]; by rewrite length_map, length_seq).
  rewrite HL. split; [done |].
  split; [pose proof (count_buffers_fits _ _ _ n eq_refl ltac:(lia)); lia |].
  intros c x Hx. by apply fresh_lookup_inv in Hx as (_ & ->).
Qed.

Lemma buffer_init_queued_witness :
  exists s', buffer_init (fun _ => []) (fun _ => 0) 0x20000 0x400000 empty_fs = Ok tt s' /\ queued [] s'
  /\ (0 < length (bufs s'))%nat
  /\ (36 + Z.of_nat BLOCK_SIZE) * Z.of_nat (length (bufs s')) <= 0x400000 - 0x20000
  /\ forall c x, bufs s' !! c = Some x -> b_dev x = 0 /\ b_count x = 0 /\ BADNESS x = 0.
Proof. apply buffer_init_queued; unfold BLOCK_SIZE; lia. Defined.

(** A block is read into a cache of three buffers. *)
Lemma getblk_correct_witness :
  let s := fresh (fun _ => []) (fun _ => 0) 3 empty_fs in
  exists b x s', @getblk alone 0x101 7 s = Ok b s' /\ bufs s !! b = Some x /\ queued [] s'
  /\ if decide (holds 0x101 7 x) then s' = over bufs (alter (put b_count (u8 (b_count x + 1))) b) s
     else (forall c y, bufs s !! c = Some y -> ~ holds 0x101 7 y) /\ b_count x = 0 /\ b_dirt x = 0
       /\ q_core (view s') = alter (renamed 0x101 7) b (q_core (view s)) /\ rest s' = rest s
       /\ through_null 0x101 (u32 7) b s s'.
Proof.
  intros s. apply (@getblk_correct alone).
  - cbn. lia.
  - apply fresh_queued. lia.
  - cbn. lia.
  - by intros c x (_ & ->)%fresh_lookup_inv.
  - exists 0%nat. eexists. split; [apply fresh_lookup; lia | done].
  - lia.
Defined.
