(* ===== verification/Shared.v ===== *)
(** The buffer cache is shared: while a task sleeps in [getblk], [bread], [sync_dev]
    or [write_inode], other tasks and the interrupt handlers of the drivers run.  As
    long as those keep the queues of the cache in order, so do these routines, and
    [getblk] returns a buffer that holds the block it was asked for. *)
From stdpp Require Import base list gmap strings.
From Stdlib Require Import ZArith Lia.
From S2P Require Import Prelude Memory Sched FsState BlkDev Buffer Cache Getblk.
Open Scope Z_scope.

(** The queues are in order, there are two buffers at least, and an inode's device is
    a 16-bit number. *)
Record cache_ok (s : fs_state) : Prop := {
  ok_queued : queued [] s;
  ok_two : (2 <= length (bufs s))%nat;
  ok_dev : forall n i, inode_table s !! n = Some i -> 0 <= i_dev i < 2 ^ 16 }.

(** ** Routines that leave the cache alone *)

Lemma cache_ok_same s s' :
  cache_ok s -> view s' = view s -> inode_table s' = inode_table s -> cache_ok s'.
Proof.
  intros [Q H2 Hi] E1 E2. constructor; [| by rewrite bufs_length, E1, <- bufs_length | by rewrite E2].
  destruct Q as (H & f & F & Q). exists H, f, F. by rewrite E1.
Qed.

(** [m] changes neither the cache nor the inodes. *)
Definition elsewhere {A} (m : M fs_state A) : Prop :=
  forall s a s', m s = Ok a s' -> view s' = view s /\ inode_table s' = inode_table s.

Lemma preserves_elsewhere {A} (m : M fs_state A) : elsewhere m -> preserves cache_ok m.
Proof. intros Hm s a s' Hs E. destruct (Hm s a s' E). by eapply cache_ok_same. Qed.

Lemma preserves_row {R} (t : fs_state -> list R) n : preserves cache_ok (row t n).
Proof. intros s a s' Hs. unfold row. destruct (t s !! n); [| done]. by intros [= <- <-]. Qed.
Lemma preserves_field {R T} (t : fs_state -> list R) (f : R -> T) n : preserves cache_ok (field t f n).
Proof. apply preserves_bind; [apply preserves_row | intros a; apply preserves_ret]. Qed.

Lemma preserves_on_sched {A} (m : M sched A) : preserves cache_ok (on_sched m).
Proof.
  apply preserves_elsewhere. intros s a s'. unfold on_sched. destruct (m _); intros [= <- <-]; done.
Qed.
#[export] Hint Resolve preserves_row preserves_field preserves_on_sched : preserves.

(** An assignment to a table that is neither the buffers nor the inodes. *)
Lemma preserves_update_other {R} (t : fs_state -> list R) {st : Setter t} n h :
  (forall s, view (over t (alter h n) s) = view s /\ inode_table (over t (alter h n) s) = inode_table s) ->
  preserves cache_ok (update t n h).
Proof.
  intros Ht. apply preserves_elsewhere. intros s a s'. unfold update. destruct (t s !! n); [| done]. intros [= <- <-]. apply Ht.
Qed.

Lemma preserves_set_sb {T} (f : super -> T) {sf : Setter f} n v : preserves cache_ok (set_sb f n v).
Proof. by apply preserves_update_other. Qed.
Lemma preserves_set_req {T} (f : request_t -> T) {sf : Setter f} n v : preserves cache_ok (set_req f n v).
Proof. by apply preserves_update_other. Qed.
Lemma preserves_request n h : preserves cache_ok (update request n h).
Proof. by apply preserves_update_other. Qed.
Lemma preserves_blk_dev {T} (f : blk_dev_struct -> T) {sf : Setter f} n v : preserves cache_ok (assign blk_dev f n v).
Proof. by apply preserves_update_other. Qed.
Lemma preserves_rd_mem h : preserves cache_ok (modify (over rd_mem h)).
Proof. apply preserves_elsewhere. by intros s a s' [= <- <-]. Qed.
#[export] Hint Resolve preserves_set_sb preserves_set_req preserves_request preserves_blk_dev preserves_rd_mem : preserves.

(** ** Assignments to buffer heads and inodes *)

Lemma cache_ok_bufs b g s `{!Unlinked g} :
  (forall x, ident (g x) = ident x) -> cache_ok s -> cache_ok (over bufs (alter g b) s).
Proof.
  intros Hg [Q H2 Hi]. constructor.
  - eapply queued_update; [done | by apply update_view | by right].
  - change (bufs (over bufs (alter g b) s)) with (alter g b (bufs s)). by rewrite length_alter.
  - done.
Qed.

Lemma preserves_update_bh b g `{!Unlinked g} : (forall x, ident (g x) = ident x) -> preserves cache_ok (update bufs b g).
Proof.
  intros Hg s a s' Hs. unfold update. destruct (bufs s !! b); [| done]. intros [= <- <-]. by apply cache_ok_bufs.
Qed.

Lemma preserves_b_count b v : preserves cache_ok (set_bh b_count b v).
Proof. by apply preserves_update_bh; [apply _ |]. Qed.
Lemma preserves_b_dirt b v : preserves cache_ok (set_bh b_dirt b v).
Proof. by apply preserves_update_bh; [apply _ |]. Qed.
Lemma preserves_b_uptodate b v : preserves cache_ok (set_bh b_uptodate b v).
Proof. by apply preserves_update_bh; [apply _ |]. Qed.
Lemma preserves_b_lock b v : preserves cache_ok (set_bh b_lock b v).
Proof. by apply preserves_update_bh; [apply _ |]. Qed.
Lemma preserves_b_data b v : preserves cache_ok (set_bh b_data b v).
Proof. by apply preserves_update_bh; [apply _ |]. Qed.
#[export] Hint Resolve preserves_b_count preserves_b_dirt preserves_b_uptodate preserves_b_lock preserves_b_data : preserves.

Lemma cache_ok_inodes n g s :
  (forall i, 0 <= i_dev i < 2 ^ 16 -> 0 <= i_dev (g i) < 2 ^ 16) -> cache_ok s -> cache_ok (over inode_table (alter g n) s).
Proof.
  intros Hg [Q H2 Hi]. constructor; [done | done |].
  change (inode_table (over inode_table (alter g n) s)) with (alter g n (inode_table s)).
  intros m i. rewrite list_lookup_alter. destruct (decide (n = m)) as [->|Hm]; [| apply Hi].
  destruct (inode_table s !! m) as [j|] eqn:Ej; [| done]. intros [= <-]. by apply Hg, (Hi m).
Qed.

Lemma preserves_update_inode n g :
  (forall i, 0 <= i_dev i < 2 ^ 16 -> 0 <= i_dev (g i) < 2 ^ 16) -> preserves cache_ok (update inode_table n g).
Proof.
  intros Hg s a s' Hs. unfold update. destruct (inode_table s !! n); [| done]. intros [= <- <-]. by apply cache_ok_inodes.
Qed.
Lemma preserves_i_lock n v : preserves cache_ok (set_inode i_lock n v).
Proof. by apply preserves_update_inode. Qed.
Lemma preserves_i_dirt n v : preserves cache_ok (set_inode i_dirt n v).
Proof. by apply preserves_update_inode. Qed.
Lemma preserves_i_dev_0 n : preserves cache_ok (set_inode i_dev n 0).
Proof. by apply preserves_update_inode. Qed.
#[export] Hint Resolve preserves_i_lock preserves_i_dirt preserves_i_dev_0 : preserves.

(** ** Wait queues *)

Definition queue_var (p : var fs_state) : Prop := forall v s, cache_ok s -> cache_ok (wr_var p v s).

Lemma queue_b_wait b : queue_var (b_wait_var b).
Proof. intros v s Hs. by apply (cache_ok_bufs b (put b_wait v)); [apply _ | |]. Qed.
Lemma queue_i_wait n : queue_var (i_wait_var n).
Proof. intros v s Hs. by apply (cache_ok_inodes n (put i_wait v)). Qed.
Lemma queue_s_wait n : queue_var (s_wait_var n).
Proof. intros v s Hs. by eapply cache_ok_same. Qed.
Lemma queue_buffer_wait : queue_var (fs_var buffer_wait).
Proof. intros v s Hs. by eapply cache_ok_same. Qed.
Lemma queue_wait_for_request : queue_var (fs_var wait_for_request).
Proof. intros v s Hs. by eapply cache_ok_same. Qed.
Lemma queue_r_waiting n : queue_var (row_var request r_waiting n).
Proof. intros v s Hs. by eapply cache_ok_same. Qed.
#[export] Hint Resolve queue_b_wait queue_i_wait queue_s_wait queue_buffer_wait queue_wait_for_request queue_r_waiting : preserves.

Lemma preserves_wr_var p v : queue_var p -> preserves cache_ok (modify (wr_var p v)).
Proof. intros Hp s a s' Hs [= <- <-]. by apply Hp. Qed.
#[export] Hint Resolve preserves_wr_var : preserves.

(** Statement by statement, each either one that is known to keep the invariant or a
    case distinction. *)
Ltac keep :=
  repeat match goal with
  | |- forall _, _ => intro
  | |- preserves _ (bind _ _) => apply preserves_bind; [| intros ?]
  | |- preserves _ (if ?b then _ else _) => destruct b
  | |- preserves _ (match ?o with _ => _ end) => destruct o
  end; eauto 3 with preserves.

Lemma preserves_wake_up (p : var fs_state) : queue_var p -> preserves cache_ok (wake_up p).
Proof. intros Hp. unfold wake_up. keep. Qed.
#[export] Hint Resolve preserves_wake_up : preserves.

Section Shared.
Context `{Env}.
Hypothesis asleep_keeps : preserves cache_ok asleep.
Hypothesis device_keeps : forall n, preserves cache_ok (device_fn n).
#[local] Hint Resolve asleep_keeps device_keeps : preserves.

Lemma preserves_sleep (p : var fs_state) : queue_var p -> preserves cache_ok (sleep_on_fs p).
Proof. intros Hp. unfold sleep_on_fs, sleep_on, sleep_on_1, sleep_on_2, me. keep. Qed.
#[local] Hint Resolve preserves_sleep : preserves.

Lemma preserves_wait_on_buffer b : preserves cache_ok (wait_on_buffer b).
Proof. unfold wait_on_buffer, bh. apply preserves_while; keep. Qed.
Lemma preserves_wait_on_inode n : preserves cache_ok (wait_on_inode n).
Proof. unfold wait_on_inode, inode. apply preserves_while; keep. Qed.
Lemma preserves_wait_on_super n : preserves cache_ok (wait_on_super n).
Proof. unfold wait_on_super, sb. apply preserves_while; keep. Qed.
#[local] Hint Resolve preserves_wait_on_buffer preserves_wait_on_inode preserves_wait_on_super : preserves.

Lemma preserves_unlock_buffer b : preserves cache_ok (unlock_buffer b).
Proof. unfold unlock_buffer. keep. Qed.
Lemma preserves_lock_buffer b : preserves cache_ok (lock_buffer b).
Proof. unfold lock_buffer. keep. Qed.
Lemma preserves_unlock_inode n : preserves cache_ok (unlock_inode n).
Proof. unfold unlock_inode. keep. Qed.
#[local] Hint Resolve preserves_unlock_buffer preserves_lock_buffer preserves_unlock_inode : preserves.

(** *** Requests *)

Lemma preserves_current_of n : preserves cache_ok (current_of n).
Proof. apply preserves_field. Qed.
Lemma preserves_req_at n : preserves cache_ok (req_at n).
Proof. apply preserves_row. Qed.
Lemma preserves_bh {T} (f : buffer_head -> T) b : preserves cache_ok (bh f b).
Proof. apply preserves_field. Qed.
#[local] Hint Resolve preserves_current_of preserves_req_at preserves_bh : preserves.

Lemma preserves_end_request n u : preserves cache_ok (end_request n u).
Proof. unfold end_request. keep. Qed.
Lemma preserves_INIT_REQUEST n name : preserves cache_ok (INIT_REQUEST n name).
Proof. unfold INIT_REQUEST. keep. Qed.
Lemma preserves_rd_transfer r : preserves cache_ok (rd_transfer r).
Proof. unfold rd_transfer. keep. Qed.
#[local] Hint Resolve preserves_end_request preserves_INIT_REQUEST preserves_rd_transfer : preserves.

Lemma preserves_do_rd_request : preserves cache_ok do_rd_request.
Proof. unfold do_rd_request. induction (S NR_REQUEST) as [|n IH]; [done |]. cbn [rd_loop]. keep. Qed.
#[local] Hint Resolve preserves_do_rd_request : preserves.

Lemma preserves_elevator fuel tmp r : preserves cache_ok (elevator fuel tmp r).
Proof. revert tmp. induction fuel as [|fuel IH]; intros tmp; [done |]. cbn [elevator]. keep. Qed.
Lemma preserves_get_request fuel rw a : preserves cache_ok (get_request fuel rw a).
Proof. induction fuel as [|fuel IH]; [done |]. cbn [get_request]. keep. Qed.
Lemma preserves_request_fn n : preserves cache_ok (request_fn n).
Proof. unfold request_fn. keep. Qed.
#[local] Hint Resolve preserves_elevator preserves_get_request preserves_request_fn : preserves.

Lemma preserves_add_request n r : preserves cache_ok (add_request n r).
Proof. unfold add_request. keep. Qed.
#[local] Hint Resolve preserves_add_request : preserves.

Lemma preserves_ll_rw_block rw b : preserves cache_ok (ll_rw_block rw b).
Proof. unfold ll_rw_block, make_request. keep. Qed.
#[local] Hint Resolve preserves_ll_rw_block : preserves.

(** *** Blocks *)

(** Buffer [b] holds the block. *)
Definition has_block (dev block : Z) (b : nat) (s : fs_state) : Prop :=
  exists x, bufs s !! b = Some x /\ holds dev block x.

Lemma hoare_row {R B} (t : fs_state -> list R) n (k : R -> M fs_state B) P Q :
  (forall r, hoare (fun s => P s /\ t s !! n = Some r) (k r) Q) -> hoare P (let* r := row t n in k r) Q.
Proof.
  intros Hk s b s' Hs. unfold bind, row. destruct (t s !! n) as [r|] eqn:E; [| done]. cbn. intros Eb. by eapply Hk.
Qed.

Lemma hoare_weaken {A} (P P' : fs_state -> Prop) (m : M fs_state A) Q :
  hoare P m Q -> (forall s, P' s -> P s) -> hoare P' m Q.
Proof. intros Hm Hp s a s' Hs. apply Hm. by apply Hp. Qed.

Lemma find_from_same fuel o dev block s r s' : find_from fuel o dev block s = Ok r s' -> s' = s.
Proof.
  revert o. induction fuel as [|fuel IH]; intros [b|]; cbn [find_from]; try done; [| by intros [= <- <-]].
  unfold bind, row. destruct (bufs s !! b) as [x|]; [| done]. cbn.
  destruct ((b_dev x =? dev) && (b_blocknr x =? u32 block)); [by intros [= <- <-] | apply IH].
Qed.

Lemma preserves_find_buffer dev block : preserves cache_ok (find_buffer dev block).
Proof.
  intros s r s' Hs. unfold find_buffer, hash, bind, get. destruct (hash_table s !! _); [| done]. cbn [need ret].
  intros E. by apply find_from_same in E as ->.
Qed.
#[local] Hint Resolve preserves_find_buffer : preserves.

Lemma hoare_get_hash dev block :
  hoare cache_ok (get_hash_table dev block)
    (fun r s' => cache_ok s' /\ forall b, r = Some b -> has_block dev block b s').
Proof.
  unfold get_hash_table. induction patience as [|n IH]; [done |]. cbn [get_hash_loop].
  apply hoare_then; [keep |]. intros [b|]; [| by intros s a s' Hs [= <- <-]].
  apply hoare_then; [keep |]. intros _.
  apply hoare_then; [keep |]. intros _. apply hoare_row. intros x.
  destruct ((b_dev x =? dev) && (b_blocknr x =? u32 block)) eqn:E.
  - intros s a s' (Hs & Hx) [= <- <-]. split; [done |]. intros ? [= <-]. exists x. split; [done |].
    b2p_in E. unfold holds, ident. destruct E. by f_equal.
  - eapply hoare_weaken; [| by intros s (Hs & _)]. apply hoare_then; [keep |]. intros _. apply IH.
Qed.

Lemma hoare_reuse dev block b :
  0 <= dev < 2 ^ 16 ->
  hoare (fun s => cache_ok s /\ (dev <> 0 -> forall c x, bufs s !! c = Some x -> ~ holds dev block x)) (reuse dev block b)
    (fun _ s' => cache_ok s' /\ has_block dev block b s').
Proof.
  intros Hd s a s' ([Q H2 Hi] & Hno) E.
  assert (Hb : (b < length (bufs s))%nat).
  { destruct (decide (b < length (bufs s))%nat) as [|Hb]; [done |]. exfalso. revert E. unfold reuse, bind, set_bh, assign, update.
    by rewrite (lookup_ge_None_2 (bufs s) b) by lia. }
  destruct (reuse_ok s b dev block Q H2 Hb Hd Hno) as (s1 & E1 & Q1 & C1 & T1 & _).
  rewrite E in E1. injection E1 as -> <-. split.
  - constructor; [done | by rewrite bufs_length, C1, length_alter, <- bufs_length |].
    change (inode_table s') with (inode_table (rest s')). by rewrite T1.
  - destruct (lookup_lt_is_Some_2 _ _ Hb) as (x & Hx). apply view_lookup in Hx.
    assert (Hc : q_core (view s') !! b = Some (renamed dev block (core x))).
    { by rewrite C1, list_lookup_alter, decide_True, Hx. }
    apply view_lookup_inv in Hc as (y & Hy & Ey). exists y. split; [done |]. unfold holds.
    change (ident y) with (ident (core y)). rewrite <- Ey. change ((u16 dev, u32 block) = (dev, u32 block)).
    by rewrite u16_small by lia.
Qed.

Lemma preserves_find_victim fuel tmp best : preserves cache_ok (find_victim fuel tmp best).
Proof. revert tmp best. induction fuel as [|fuel IH]; intros tmp best; [done |]. cbn [find_victim]. keep. Qed.
#[local] Hint Resolve preserves_find_victim : preserves.

Section Depth.
Variable sync_dev : Z -> M fs_state unit.
Hypothesis sync_keeps : forall dev, preserves cache_ok (sync_dev dev).
#[local] Hint Resolve sync_keeps : preserves.

Lemma preserves_flush_victim fuel b : preserves cache_ok (flush_victim fuel sync_dev b).
Proof. induction fuel as [|fuel IH]; [done |]. cbn [flush_victim]. keep. Qed.
#[local] Hint Resolve preserves_flush_victim : preserves.

Lemma hoare_take_victim dev block :
  0 <= dev < 2 ^ 16 ->
  hoare cache_ok (take_victim sync_dev dev block)
    (fun r s' => cache_ok s' /\ forall b, r = Some b -> has_block dev block b s').
Proof.
  intros Hd. unfold take_victim.
  assert (Hnone : hoare cache_ok (ret None) (fun (r : option nat) s' => cache_ok s' /\ forall b, r = Some b -> has_block dev block b s')).
  { by intros s a s' Hs [= <- <-]. }
  do 4 (apply hoare_then; [keep | intros ?]).
  match goal with |- hoare _ (match ?o with _ => _ end) _ => destruct o as [b|] end.
  2:{ apply hoare_then; [keep | by intros ?]. }
  do 2 (apply hoare_then; [keep | intros ?]).
  match goal with |- hoare _ (if ?c then _ else _) _ => destruct c end; [done |].
  apply hoare_then; [keep | intros [|]]; [done |].
  eapply hoare_bind with (R := fun r s => cache_ok s /\ (r = None -> dev <> 0 -> forall c x, bufs s !! c = Some x -> ~ holds dev block x)).
  { intros s r s' Hs E. split; [by apply (preserves_find_buffer dev block s r) |]. intros Hr Hd0.
    destruct (find_buffer_ok s dev block (ok_queued s Hs) Hd0) as (r' & E' & _ & Hno).
    rewrite E in E'. injection E' as <- ->. by apply Hno. }
  intros [c|]; [by intros s r s' (Hs & _) [= <- <-] |].
  eapply hoare_bind; [eapply hoare_weaken; [by apply hoare_reuse |] |].
  { intros s (Hs & Hno). split; [done | by apply Hno]. }
  intros ? s r s' Hs [= <- <-]. destruct Hs. split; [done |]. by intros ? [= <-].
Qed.

Lemma hoare_getblk_loop fuel dev block :
  0 <= dev < 2 ^ 16 ->
  hoare cache_ok (getblk_loop sync_dev fuel dev block) (fun b s' => cache_ok s' /\ has_block dev block b s').
Proof.
  intros Hd. induction fuel as [|fuel IH]; [done |]. cbn [getblk_loop].
  eapply hoare_bind; [apply hoare_get_hash |]. intros [b|].
  { intros s a s' (Hs & Hb) [= <- <-]. split; [done | by apply Hb]. }
  eapply hoare_weaken; [| by intros s (Hs & _)].
  eapply hoare_bind; [by apply hoare_take_victim |]. intros [b|].
  { intros s a s' (Hs & Hb) [= <- <-]. split; [done | by apply Hb]. }
  eapply hoare_weaken; [exact IH | by intros s (Hs & _)].
Qed.
End Depth.

Lemma preserves_brelse o : preserves cache_ok (brelse o).
Proof. unfold brelse. keep. Qed.
Lemma preserves_get_super_from fuel n dev : preserves cache_ok (get_super_from fuel n dev).
Proof. revert n. induction fuel as [|fuel IH]; intros n; [done |]. cbn [get_super_from]. unfold sb. keep. Qed.
Lemma preserves_get_super dev : preserves cache_ok (get_super dev).
Proof. unfold get_super. pose proof preserves_get_super_from. keep. Qed.
#[local] Hint Resolve preserves_brelse preserves_get_super : preserves.

(** What is known of an inode that was read. *)
Lemma preserves_row_inode {B} n (k : m_inode -> M fs_state B) :
  (forall i, 0 <= i_dev i < 2 ^ 16 -> preserves cache_ok (k i)) -> preserves cache_ok (let* i := row inode_table n in k i).
Proof.
  intros Hk. apply hoare_row. intros i s a s' (Hs & Hi). apply Hk; [by apply (ok_dev s Hs n) | done].
Qed.

Section Level.
Variable getblk_below : Z -> Z -> M fs_state nat.
Hypothesis below_keeps : forall dev block, 0 <= dev < 2 ^ 16 -> preserves cache_ok (getblk_below dev block).

Lemma preserves_bread_with dev block : 0 <= dev < 2 ^ 16 -> preserves cache_ok (bread_with getblk_below dev block).
Proof. intros Hd. unfold bread_with. pose proof (below_keeps dev block Hd). keep. Qed.

Lemma preserves_write_inode n : preserves cache_ok (write_inode_with getblk_below n).
Proof.
  unfold write_inode_with, lock_inode. apply preserves_bind; [keep | intros _]. apply preserves_row_inode. intros i0 Hi0.
  destruct (negb (cbool (i_dirt i0)) || negb (cbool (i_dev i0))); [keep |].
  apply preserves_bind; [keep | intros [sp|]]; [| keep]. apply preserves_row_inode. intros i Hi.
  apply preserves_bind; [keep | intros sup].
  apply preserves_bind; [by apply preserves_bread_with |]. keep.
Qed.
#[local] Hint Resolve preserves_write_inode : preserves.

Lemma preserves_sync_pass dev : preserves cache_ok (sync_pass dev).
Proof. unfold sync_pass. apply preserves_bind; [keep | intros l]. apply preserves_for. keep. Qed.
#[local] Hint Resolve preserves_sync_pass : preserves.

Lemma preserves_sync_dev dev : preserves cache_ok (sync_dev_with getblk_below dev).
Proof.
  unfold sync_dev_with, sync_inodes_with. apply preserves_bind; [keep | intros _].
  apply preserves_bind; [| keep]. apply preserves_for. keep.
Qed.
End Level.

Lemma hoare_getblk_at depth dev block :
  0 <= dev < 2 ^ 16 ->
  hoare cache_ok (getblk_at depth dev block) (fun b s' => cache_ok s' /\ has_block dev block b s').
Proof.
  revert dev block. induction depth as [|depth IH]; intros dev block Hd; [done |]. cbn [getblk_at].
  apply hoare_getblk_loop; [| done]. apply preserves_sync_dev. intros d k Hdk s b s' Hs E.
  by destruct (IH d k Hdk s b s' Hs E).
Qed.

(** C23: As long as the other tasks and the drivers keep the queues of the buffer cache
    in order while this one sleeps, [getblk] does: at most one buffer holds a block, and
    the buffer that is returned, whatever happened meanwhile, is the one that holds the
    block that was asked for.  The searches after each sleep are what makes this true. *)
Theorem getblk_shared dev block s b s' :
  0 <= dev < 2 ^ 16 -> cache_ok s -> getblk dev block s = Ok b s' ->
  cache_ok s' /\ has_block dev block b s'.
Proof. intros Hd Hs. by apply hoare_getblk_at. Qed.

Lemma preserves_getblk dev block : 0 <= dev < 2 ^ 16 -> preserves cache_ok (getblk dev block).
Proof. intros Hd s b s' Hs E. by destruct (hoare_getblk_at _ dev block Hd s b s' Hs E). Qed.

Lemma hoare_bread dev block :
  0 <= dev < 2 ^ 16 -> preserves cache_ok (bread dev block).
Proof. intros Hd. apply preserves_bread_with; [apply preserves_getblk | done]. Qed.
End Shared.

Lemma fresh_cache_ok : cache_ok (fresh (fun _ => []) (fun _ => 0) 3 empty_fs).
Proof.
  constructor.
  - apply fresh_queued. lia.
  - cbn. lia.
  - intros n i Hi. unfold fresh, empty_fs in Hi. cbn -[replicate] in Hi. apply lookup_replicate in Hi as (-> & _). cbn. lia.
Qed.

Lemma getblk_shared_witness :
  exists b s', @getblk alone 0x101 7 (fresh (fun _ => []) (fun _ => 0) 3 empty_fs) = Ok b s'
  /\ cache_ok s' /\ has_block 0x101 7 b s'.
Proof.
  destruct (@getblk alone 0x101 7 (fresh (fun _ => []) (fun _ => 0) 3 empty_fs)) as [b s'| | |] eqn:E.
  - exists b, s'. split; [done |]. refine (@getblk_shared alone _ _ 0x101 7 _ b s' _ fresh_cache_ok E); [| | lia].
    + apply preserves_ret.
    + intros n. apply preserves_ret.
  - exfalso. revert E. vm_compute. discriminate.
  - exfalso. revert E. vm_compute. discriminate.
  - exfalso. revert E. vm_compute. discriminate.
Defined.
