(* ===== verification/Inode.v ===== *)
(** Bitmaps, inodes and super blocks (fs/bitmap.c, fs/inode.c, fs/truncate.c,
    fs/super.c). *)
From stdpp Require Import base list gmap strings.
From Stdlib Require Import ZArith Lia.
From S2P Require Import Prelude Memory Sched FsState BlkDev Buffer.
Open Scope Z_scope.

(** ** Bits of a block *)

Definition bit (nr : Z) (l : list Z) : bool :=
  Z.testbit (default 0 (l !! Z.to_nat (nr / 8))) (nr mod 8).
Definition change_bit (f : Z -> Z -> Z) (nr : Z) (l : list Z) : list Z :=
  alter (fun byte => f byte (nr mod 8)) (Z.to_nat (nr / 8)) l.

(** [set_bit] returns the old bit, [clear_bit] its negation. *)
Definition set_bit (nr : Z) (b : nat) : M fs_state bool :=
  let* l := bh b_data b in
  set_bh b_data b (change_bit Z.setbit nr l) ;;; ret (bit nr l).
Definition clear_bit (nr : Z) (b : nat) : M fs_state bool :=
  let* l := bh b_data b in
  set_bh b_data b (change_bit Z.clearbit nr l) ;;; ret (negb (bit nr l)).

(** The lowest set bit of a 32-bit word, from bit [i] on. *)
Fixpoint bsf (n : nat) (i x : Z) : Z :=
  match n with
  | O => i
  | S n => if Z.testbit x i then i else bsf n (i + 1) x
  end.

(** The loop of [find_first_zero]: [l] is what is left of the block, [ecx] the
    number of its first bit; 256 words. *)
Fixpoint ffz_words (n : nat) (l : list Z) (ecx : Z) : Z :=
  match n with
  | O => ecx
  | S n =>
    let eax := Z.lxor (bytes_at l 0 4) 0xffffffff in
    if eax =? 0 then ffz_words n (drop 4 l) (ecx + 32) else ecx + bsf 32 0 eax
  end.
Definition find_first_zero (l : list Z) : Z := ffz_words 256 l 0.

(** The search of [new_block] and [new_inode] through the maps, from number [i]
    on: where it stopped, the last map seen, and the bit. *)
Fixpoint find_map (maps : list (option nat)) (i : Z) (b : option nat) (j : Z) : M fs_state (Z * option nat * Z) :=
  match maps with
  | [] => ret (i, b, j)
  | None :: maps => find_map maps (i + 1) None j
  | Some m :: maps =>
    let* l := bh b_data m in
    let j := find_first_zero l in
    if j <? 8192 then ret (i, Some m, j) else find_map maps (i + 1) (Some m) j
  end.

(** A counter field. *)
Definition bump_inode (f : m_inode -> Z) {sf : Setter f} (wrap : Z -> Z) (n : nat) (d : Z) : M fs_state unit :=
  let* x := inode f n in set_inode f n (wrap (x + d)).

Section Env.
Context `{Env}.

(** ** Blocks *)

Definition free_block (dev block : Z) : M fs_state unit :=
  let* sp := get_super dev in
  match sp with
  | None => panic "trying to free block on nonexistent device"
  | Some sp =>
    let* sup := row super_block sp in
    if (block <? s_firstdatazone sup) || (s_nzones sup <=? block) then panic "trying to free block not in datazone" else
    let* o := get_hash_table dev block in
    let* busy := (match o with
                  | None => ret false
                  | Some b =>
                    let* c := bh b_count b in
                    if negb (c =? 1) then ret true else
                    set_bh b_dirt b 0 ;;; set_bh b_uptodate b 0 ;;; brelse (Some b) ;;; ret false
                  end) in
    if busy then ret tt else
    let* sup := row super_block sp in
    let block := block - (s_firstdatazone sup - 1) in
    let* m := need (s_zmap sup !! Z.to_nat (Z.quot block 8192)) in
    let* m := need m in
    let* clear := clear_bit (Z.land block 8191) m in
    if clear then panic "free_block: bit already cleared" else set_bh b_dirt m 1
  end.

Definition new_block (dev : Z) : M fs_state Z :=
  let* sp := get_super dev in
  match sp with
  | None => panic "trying to get new block from nonexistant device"
  | Some sp =>
    let* sup := row super_block sp in
    let* (i, o, j) := find_map (s_zmap sup) 0 None 8192 in
    if (8 <=? i) || (8192 <=? j) then ret 0 else
    match o with
    | None => ret 0
    | Some m =>
      let* old := set_bit j m in
      if old then panic "new_block: bit already set" else
      set_bh b_dirt m 1 ;;;
      let j := j + i * 8192 + s_firstdatazone sup - 1 in
      if s_nzones sup <=? j then ret 0 else
      let* b := getblk dev j in
      let* c := bh b_count b in
      if negb (c =? 1) then panic "new block: count is != 1" else
      (let* l := bh b_data b in set_bh b_data b (splice 0 (replicate BLOCK_SIZE 0) l)) ;;;
      set_bh b_uptodate b 1 ;;;
      set_bh b_dirt b 1 ;;;
      brelse (Some b) ;;;
      ret j
    end
  end.

(** ** Truncation *)

(** A loop over the zone numbers in block [b]; each is read when its turn comes. *)
Definition each_zone (b : nat) (f : Z -> M fs_state unit) : M fs_state unit :=
  for_each (seq 0 512) (fun i =>
    let* l := bh b_data b in
    let* z := need (word l (Z.of_nat i)) in
    if cbool z then f z else ret tt).

Definition free_ind (dev block : Z) : M fs_state unit :=
  if negb (cbool block) then ret tt else
  (let* o := bread dev block in
   match o with
   | Some b => each_zone b (free_block dev) ;;; brelse (Some b)
   | None => ret tt
   end) ;;;
  free_block dev block.

Definition free_dind (dev block : Z) : M fs_state unit :=
  if negb (cbool block) then ret tt else
  (let* o := bread dev block in
   match o with
   | Some b => each_zone b (free_ind dev) ;;; brelse (Some b)
   | None => ret tt
   end) ;;;
  free_block dev block.

Definition zone (n : nat) (i : Z) : M fs_state Z := elem inode_table i_zone n i.
Definition set_zone (n : nat) (i v : Z) : M fs_state unit := set_elem inode_table i_zone n i (u16 v).

Definition truncate (n : nat) : M fs_state unit :=
  let* i := row inode_table n in
  if negb (S_ISREG (i_mode i) || S_ISDIR (i_mode i)) then ret tt else
  for_each (seq 0 7) (fun k =>
    let* z := zone n (Z.of_nat k) in
    if cbool z then (let* d := inode i_dev n in free_block d z) ;;; set_zone n (Z.of_nat k) 0 else ret tt) ;;;
  (let* d := inode i_dev n in let* z := zone n 7 in free_ind d z) ;;;
  (let* d := inode i_dev n in let* z := zone n 8 in free_dind d z) ;;;
  set_zone n 8 0 ;;;
  set_zone n 7 0 ;;;
  set_inode i_size n 0 ;;;
  set_inode i_dirt n 1 ;;;
  let* t := now in
  set_inode i_ctime n t ;;;
  set_inode i_mtime n t.

(** ** Inodes *)

Definition free_inode (n : nat) : M fs_state unit :=
  let* i := row inode_table n in
  if negb (cbool (i_dev i)) then update inode_table n (fun _ => zero_inode) else
  if 1 <? i_count i then panic "free_inode" else
  if cbool (i_nlinks i) then panic "trying to free inode with links" else
  let* sp := get_super (i_dev i) in
  match sp with
  | None => panic "trying to free inode on nonexistent device"
  | Some sp =>
    let* sup := row super_block sp in
    let* i := row inode_table n in
    if (i_num i <? 1) || (s_ninodes sup <? i_num i) then panic "trying to free inode 0 or nonexistant inode" else
    let* m := need (s_imap sup !! Z.to_nat (Z.shiftr (i_num i) 13)) in
    match m with
    | None => panic "nonexistent imap in superblock"
    | Some m =>
      let* _ := clear_bit (Z.land (i_num i) 8191) m in
      set_bh b_dirt m 1 ;;;
      update inode_table n (fun _ => zero_inode)
    end
  end.

Fixpoint iput_loop (fuel n : nat) : M fs_state unit :=
  match fuel with
  | O => ub
  | S fuel =>
    let* i := row inode_table n in
    if 1 <? i_count i then bump_inode i_count u16 n (-1) else
    if negb (cbool (i_nlinks i)) then truncate n ;;; free_inode n else
    if cbool (i_dirt i) then write_inode n ;;; wait_on_inode n ;;; iput_loop fuel n else
    bump_inode i_count u16 n (-1)
  end.

Definition iput (o : option nat) : M fs_state unit :=
  match o with
  | None => ret tt
  | Some n =>
    wait_on_inode n ;;;
    let* i := row inode_table n in
    if negb (cbool (i_count i)) then panic "iput: trying to free free inode" else
    if cbool (i_pipe i) then
      wake_up (i_wait_var n) ;;;
      bump_inode i_count u16 n (-1) ;;;
      let* i := row inode_table n in
      if cbool (i_count i) then ret tt else
      on_mm (free_page (i_size i)) ;;;
      set_inode i_count n 0 ;;; set_inode i_dirt n 0 ;;; set_inode i_pipe n 0
    else
    if negb (cbool (i_dev i)) then bump_inode i_count u16 n (-1) else
    (if S_ISBLK (i_mode i) then
       (let* d := zone n 0 in sync_dev d) ;;; wait_on_inode n
     else ret tt) ;;;
    iput_loop patience n
  end.

(** The scan for an inode nobody uses, a clean and unlocked one if possible. *)
Fixpoint scan_inodes (i : nat) (found : option nat) : M fs_state (option nat) :=
  match i with
  | O => ret found
  | S i =>
    modify (over last_inode (fun k => if (NR_INODE <=? S k)%nat then O else S k)) ;;;
    let* k := get last_inode in
    let* x := row inode_table k in
    if cbool (i_count x) then scan_inodes i found else
    if negb (cbool (i_dirt x)) && negb (cbool (i_lock x)) then ret (Some k) else scan_inodes i (Some k)
  end.

Fixpoint get_empty_loop (fuel : nat) : M fs_state nat :=
  match fuel with
  | O => ub
  | S fuel =>
    let* o := scan_inodes NR_INODE None in
    match o with
    | None => panic "No free inodes in mem"
    | Some n =>
      wait_on_inode n ;;;
      while_do patience (let* d := inode i_dirt n in ret (cbool d)) (write_inode n ;;; wait_on_inode n) ;;;
      let* c := inode i_count n in
      if cbool c then get_empty_loop fuel else ret n
    end
  end.
Definition get_empty_inode : M fs_state nat :=
  let* n := get_empty_loop patience in
  update inode_table n (fun _ => zero_inode) ;;;
  set_inode i_count n 1 ;;;
  ret n.

Definition get_pipe_inode : M fs_state (option nat) :=
  let* n := get_empty_inode in
  let* p := on_mm get_free_page in
  set_inode i_size n p ;;;
  if negb (cbool p) then set_inode i_count n 0 ;;; ret None else
  set_inode i_count n 2 ;;;
  set_zone n 1 0 ;;; set_zone n 0 0 ;;;
  set_inode i_pipe n 1 ;;;
  ret (Some n).

Definition new_inode (dev : Z) : M fs_state (option nat) :=
  let* n := get_empty_inode in
  let* sp := get_super dev in
  match sp with
  | None => panic "new_inode with unknown device"
  | Some sp =>
    let* sup := row super_block sp in
    let* (i, o, j) := find_map (s_imap sup) 0 None 8192 in
    match o with
    | None => iput (Some n) ;;; ret None
    | Some m =>
      if (8192 <=? j) || (s_ninodes sup <? j + i * 8192) then iput (Some n) ;;; ret None else
      let* old := set_bit j m in
      if old then panic "new_inode: bit already set" else
      set_bh b_dirt m 1 ;;;
      set_inode i_count n 1 ;;;
      set_inode i_nlinks n 1 ;;;
      set_inode i_dev n (u16 dev) ;;;
      let* t := current_task in
      set_inode i_uid n (u16 (ts_euid t)) ;;;
      set_inode i_gid n (u8 (ts_egid t)) ;;;
      set_inode i_dirt n 1 ;;;
      set_inode i_num n (u16 (j + i * 8192)) ;;;
      let* t := now in
      set_inode i_ctime n t ;;; set_inode i_atime n t ;;; set_inode i_mtime n t ;;;
      ret (Some n)
    end
  end.

Definition read_inode (n : nat) : M fs_state unit :=
  lock_inode n ;;;
  let* i := row inode_table n in
  let* sp := get_super (i_dev i) in
  match sp with
  | None => panic "trying to read inode without dev"
  | Some sp =>
    let* i := row inode_table n in
    let* sup := row super_block sp in
    let* o := bread (i_dev i) (inode_block sup i) in
    match o with
    | None => panic "unable to read i-node block"
    | Some b =>
      let* l := bh b_data b in
      update inode_table n (fun i => d_inode_of (take 32 (drop (inode_offset i) l)) i) ;;;
      brelse (Some b) ;;;
      unlock_inode n
    end
  end.

(** ** The blocks of a file *)

(** [if (create && !inode->i_zone[k]) ...]: fill zone [k]. *)
Definition fill_zone (n : nat) (k : Z) (create : bool) : M fs_state unit :=
  let* z := zone n k in
  if create && negb (cbool z) then
    let* d := inode i_dev n in
    let* j := new_block d in
    set_zone n k j ;;;
    let* z := zone n k in
    if cbool z then
      (let* t := now in set_inode i_ctime n t) ;;; set_inode i_dirt n 1
    else ret tt
  else ret tt.

(** Entry [k] of the indirect block [block], allocated on demand. *)
Definition indirect (n : nat) (block k : Z) (create : bool) : M fs_state Z :=
  let* d := inode i_dev n in
  let* o := bread d block in
  match o with
  | None => ret 0
  | Some b =>
    let* l := bh b_data b in
    let* i := need (word l k) in
    let* i := (if create && negb (cbool i) then
                 let* d := inode i_dev n in
                 let* i := new_block d in
                 if cbool i then
                   (let* l := bh b_data b in set_bh b_data b (put_word l k i)) ;;;
                   set_bh b_dirt b 1 ;;; ret i
                 else ret i
               else ret i) in
    brelse (Some b) ;;;
    ret i
  end.

Definition _bmap (n : nat) (block : Z) (create : bool) : M fs_state Z :=
  if block <? 0 then panic "_bmap: block<0" else
  if 7 + 512 + 512 * 512 <=? block then panic "_bmap: block>big" else
  if block <? 7 then fill_zone n block create ;;; zone n block else
  let block := block - 7 in
  if block <? 512 then
    fill_zone n 7 create ;;;
    let* z := zone n 7 in
    if negb (cbool z) then ret 0 else indirect n z block create
  else
  let block := block - 512 in
  fill_zone n 8 create ;;;
  let* z := zone n 8 in
  if negb (cbool z) then ret 0 else
  let* i := indirect n z (Z.shiftr block 9) create in
  if negb (cbool i) then ret 0 else indirect n i (Z.land block 511) create.

Definition bmap (n : nat) (block : Z) : M fs_state Z := _bmap n block false.
Definition create_block (n : nat) (block : Z) : M fs_state Z := _bmap n block true.

(** ** Inodes in memory *)

(** The first super block mounted on inode [n]. *)
Fixpoint mounted_on (l : list super) (n k : nat) : option nat :=
  match l with
  | [] => None
  | s :: l => if same (s_imount s) (Some n) then Some k else mounted_on l n (S k)
  end.

Fixpoint iget_loop (fuel n : nat) (dev nr : Z) (empty : nat) : M fs_state (option nat) :=
  match fuel with
  | O => ub
  | S fuel =>
    if (NR_INODE <=? n)%nat then
      set_inode i_dev empty (u16 dev) ;;;
      set_inode i_num empty (u16 nr) ;;;
      read_inode empty ;;;
      ret (Some empty)
    else
    let* i := row inode_table n in
    if negb (i_dev i =? dev) || negb (i_num i =? nr) then iget_loop fuel (S n) dev nr empty else
    wait_on_inode n ;;;
    let* i := row inode_table n in
    if negb (i_dev i =? dev) || negb (i_num i =? nr) then iget_loop fuel 0 dev nr empty else
    bump_inode i_count u16 n 1 ;;;
    if cbool (i_mount i) then
      let* l := get super_block in
      match mounted_on l n 0 with
      | None => iput (Some empty) ;;; ret (Some n)
      | Some k =>
        iput (Some n) ;;;
        let* d := sb s_dev k in
        iget_loop fuel 0 d ROOT_INO empty
      end
    else iput (Some empty) ;;; ret (Some n)
  end.

Definition iget (dev nr : Z) : M fs_state (option nat) :=
  if negb (cbool dev) then panic "iget with dev==0" else
  let* empty := get_empty_inode in
  iget_loop (S NR_INODE * S patience) 0 dev nr empty.

(** ** Super blocks *)

Definition put_super (dev : Z) : M fs_state unit :=
  let* root := get ROOT_DEV in
  if dev =? root then ret tt else
  let* sp := get_super dev in
  match sp with
  | None => ret tt
  | Some sp =>
    let* m := sb s_imount sp in
    match m with
    | Some _ => ret tt
    | None =>
      lock_super sp ;;;
      set_sb s_dev sp 0 ;;;
      for_each (seq 0 I_MAP_SLOTS) (fun i => let* b := elem super_block s_imap sp (Z.of_nat i) in brelse b) ;;;
      for_each (seq 0 Z_MAP_SLOTS) (fun i => let* b := elem super_block s_zmap sp (Z.of_nat i) in brelse b) ;;;
      free_super sp
    end
  end.

Definition check_disk_change (dev : Z) : M fs_state unit :=
  if negb (MAJOR dev =? 2) then ret tt else
  let* c := floppy_change (Z.land dev 3) in
  if negb (cbool c) then ret tt else
  for_each (seq 0 NR_SUPER) (fun k =>
    let* d := sb s_dev k in if d =? dev then put_super d else ret tt) ;;;
  invalidate_inodes dev ;;;
  invalidate_buffers dev.

(** The fields of a [struct d_super_block]. *)
Definition d_super_of (l : list Z) (s : super) : super :=
  put s_ninodes (bytes_at l 0 2) (put s_nzones (bytes_at l 2 2) (put s_imap_blocks (bytes_at l 4 2)
  (put s_zmap_blocks (bytes_at l 6 2) (put s_firstdatazone (bytes_at l 8 2)
  (put s_log_zone_size (bytes_at l 10 2) (put s_max_size (bytes_at l 12 4) (put s_magic (bytes_at l 16 2) s))))))).

(** Read the bitmap blocks from [block] on into the slots [i], [i+1], ...: the
    first block not read.  There are [n] of them by the super block; the arrays
    have eight slots. *)
Fixpoint read_maps (n : nat) (map : super -> list (option nat)) {sm : Setter map} (sp : nat) (i : Z) (dev block : Z)
  : M fs_state Z :=
  match n with
  | O => ret block
  | S n =>
    let* b := bread dev block in
    set_elem super_block map sp i b ;;;
    match b with
    | Some _ => read_maps n map sp (i + 1) dev (block + 1)
    | None => ret block
    end
  end.

Fixpoint free_slot (l : list super) : option nat :=
  match l with
  | [] => None
  | s :: l => if negb (cbool (s_dev s)) then Some O else S <$> free_slot l
  end.

Definition set_map_bit0 (o : option nat) : M fs_state unit :=
  let* b := need o in
  let* l := bh b_data b in
  let* c := need (l !! O) in
  set_bh b_data b (<[O := Z.lor c 1]> l).

Definition read_super (dev : Z) : M fs_state (option nat) :=
  if negb (cbool dev) then ret None else
  check_disk_change dev ;;;
  let* o := get_super dev in
  match o with
  | Some sp => ret (Some sp)
  | None =>
    let* l := get super_block in
    match free_slot l with
    | None => ret None
    | Some sp =>
      set_sb s_dev sp (u16 dev) ;;;
      set_sb s_isup sp None ;;;
      set_sb s_imount sp None ;;;
      set_sb s_time sp 0 ;;;
      set_sb s_rd_only sp 0 ;;;
      set_sb s_dirt sp 0 ;;;
      lock_super sp ;;;
      let* o := bread dev 1 in
      match o with
      | None => set_sb s_dev sp 0 ;;; free_super sp ;;; ret None
      | Some b =>
        let* l := bh b_data b in
        update super_block sp (d_super_of l) ;;;
        brelse (Some b) ;;;
        let* m := sb s_magic sp in
        if negb (m =? SUPER_MAGIC) then set_sb s_dev sp 0 ;;; free_super sp ;;; ret None else
        set_sb s_imap sp (replicate I_MAP_SLOTS None) ;;;
        set_sb s_zmap sp (replicate Z_MAP_SLOTS None) ;;;
        let* ni := sb s_imap_blocks sp in
        let* block := read_maps (Z.to_nat ni) s_imap sp 0 dev 2 in
        let* nz := sb s_zmap_blocks sp in
        let* block := read_maps (Z.to_nat nz) s_zmap sp 0 dev block in
        if negb (block =? 2 + ni + nz) then
          for_each (seq 0 I_MAP_SLOTS) (fun i => let* b := elem super_block s_imap sp (Z.of_nat i) in brelse b) ;;;
          for_each (seq 0 Z_MAP_SLOTS) (fun i => let* b := elem super_block s_zmap sp (Z.of_nat i) in brelse b) ;;;
          set_sb s_dev sp 0 ;;; free_super sp ;;; ret None
        else
        (let* b := elem super_block s_imap sp 0 in set_map_bit0 b) ;;;
        (let* b := elem super_block s_zmap sp 0 in set_map_bit0 b) ;;;
        free_super sp ;;;
        ret (Some sp)
      end
    end
  end.

(** An inode pointer in a task structure: 0, or one more than the index. *)
Definition inode_ptr (n : nat) : Z := Z.of_nat n + 1.
Definition inode_of_ptr (p : Z) : option nat := if p <=? 0 then None else Some (Z.to_nat (p - 1)).

(** [mount_root]; the counts it prints are left out. *)
Definition mount_root : M fs_state unit :=
  for_each (seq 0 NR_FILE) (fun i => set_file f_count i 0) ;;;
  (let* root := get ROOT_DEV in if MAJOR root =? 2 then asleep else ret tt) ;;;
  for_each (seq 0 NR_SUPER) (fun i => set_sb s_dev i 0 ;;; set_sb s_lock i 0 ;;; set_sb s_wait i 0) ;;;
  let* root := get ROOT_DEV in
  let* o := read_super root in
  match o with
  | None => panic "Unable to mount root"
  | Some p =>
    let* root := get ROOT_DEV in
    let* o := iget root ROOT_INO in
    match o with
    | None => panic "Unable to read root i-node"
    | Some mi =>
      bump_inode i_count u16 mi 3 ;;;
      set_sb s_imount p (Some mi) ;;;
      set_sb s_isup p (Some mi) ;;;
      on_sched (upd_cur (put ts_pwd (inode_ptr mi))) ;;;
      on_sched (upd_cur (put ts_root (inode_ptr mi)))
    end
  end.
End Env.
