(* ===== verification/Namei.v ===== *)
(** Names (fs/namei.c), and the mount calls of fs/super.c.

    A path or name in user memory is the list of its bytes, ended by the end of the
    list; a directory entry is pointed to by its buffer and its number in it. *)
From stdpp Require Import base list gmap strings.
From Stdlib Require Import ZArith Lia.
From S2P Require Import Prelude Memory Sched FsState BlkDev Buffer Inode.
Open Scope Z_scope.

Definition O_ACCMODE : Z := 3.
Definition O_WRONLY : Z := 1.
Definition O_CREAT : Z := 0x40.
Definition O_EXCL : Z := 0x80.
Definition O_TRUNC : Z := 0x200.
Definition ERROR : Z := 99.

Definition ACC_MODE (x : Z) : Z :=
  match Z.land x O_ACCMODE with 0 => 4 | 1 => 2 | 2 => 6 | _ => -1 end.

Definition MAY_EXEC : Z := 1.
Definition MAY_WRITE : Z := 2.
Definition MAY_READ : Z := 4.

Definition slash : Z := 47.
Definition dot : Z := 46.

(** The byte at the start of a user string. *)
Definition get_fs_byte (p : list Z) : Z := match p with [] => 0 | c :: _ => c end.

Definition permission (n : nat) (mask : Z) : M fs_state bool :=
  let* i := row inode_table n in
  let* t := current_task in
  if cbool (i_dev i) && negb (cbool (i_nlinks i)) then ret false else
  let mode := if ts_euid t =? i_uid i then Z.shiftr (i_mode i) 6
              else if ts_egid t =? i_gid i then Z.shiftr (i_mode i) 3 else i_mode i in
  let* su := suser in
  ret ((Z.land (Z.land mode mask) 7 =? mask) || su).

(** ** Directory entries *)

(** The bytes of entry [k] of a block: the inode number and the name. *)
Definition de_inode (l : list Z) (k : Z) : Z := bytes_at l (Z.to_nat (16 * k)) 2.
Definition de_name (l : list Z) (k : Z) : list Z := take NAME_LEN (drop (Z.to_nat (16 * k) + 2) l).
Definition put_de_inode (l : list Z) (k v : Z) : list Z := splice (Z.to_nat (16 * k)) (le 2 v) l.
Definition put_de_name (l : list Z) (k : Z) (i : nat) (v : list Z) : list Z :=
  splice (Z.to_nat (16 * k) + 2 + i) v l.

(** [repe cmpsb] over [n] bytes. *)
Fixpoint same_bytes (n : nat) (p q : list Z) : bool :=
  match n with
  | O => true
  | S n => (get_fs_byte p =? get_fs_byte q) && same_bytes n (tail p) (tail q)
  end.

(** The name [name] of length [len] against entry [k] of the block [l]. *)
Definition match_ (len : nat) (name : list Z) (l : list Z) (k : Z) : bool :=
  if negb (cbool (de_inode l k)) || (NAME_LEN <? len)%nat then false else
  if (len <? NAME_LEN)%nat && cbool (default 0 (de_name l k !! len)) then false else
  same_bytes len name (de_name l k).

Section Env.
Context `{Env}.

(** The loop of [find_entry]: [o] is the buffer (not there after a block that could
    not be read), [k] the entry in it. *)
Fixpoint find_entry_loop (fuel : nat) (dir : nat) (name : list Z) (namelen : nat) (entries i : Z)
    (o : option nat) (k : Z) : M fs_state (option (nat * Z)) :=
  match fuel with
  | O => ub
  | S fuel =>
    if entries <=? i then brelse o ;;; ret None else
    let* b := need o in
    if DIR_ENTRIES_PER_BLOCK <=? k then
      brelse (Some b) ;;;
      let* block := bmap dir (i / DIR_ENTRIES_PER_BLOCK) in
      let* o := (if cbool block then let* d := inode i_dev dir in bread d block else ret None) in
      match o with
      | None => find_entry_loop fuel dir name namelen entries (i + DIR_ENTRIES_PER_BLOCK) None k
      | Some b =>
        let* l := bh b_data b in
        if match_ namelen name l 0 then ret (Some (b, 0))
        else find_entry_loop fuel dir name namelen entries (i + 1) (Some b) 1
      end
    else
      let* l := bh b_data b in
      if match_ namelen name l k then ret (Some (b, k))
      else find_entry_loop fuel dir name namelen entries (i + 1) (Some b) (k + 1)
  end.

(** The directory may be exchanged for the one it is mounted on: it is returned
    with the entry. *)
Definition find_entry (dir : nat) (name : list Z) (namelen : nat) : M fs_state (nat * option (nat * Z)) :=
  let namelen := if (NAME_LEN <? namelen)%nat then NAME_LEN else namelen in
  let* sz := inode i_size dir in
  let entries := sz / 16 in
  if (namelen =? 0)%nat then ret (dir, None) else
  let* (dir, namelen) :=
    (if (namelen =? 2)%nat && (get_fs_byte name =? dot) && (get_fs_byte (tail name) =? dot) then
       let* t := current_task in
       if inode_ptr dir =? ts_root t then ret (dir, 1%nat) else
       let* i := row inode_table dir in
       if i_num i =? ROOT_INO then
         let* sp := get_super (i_dev i) in
         let* sp := need sp in
         let* m := sb s_imount sp in
         match m with
         | None => ret (dir, namelen)
         | Some _ =>
           iput (Some dir) ;;;
           let* m := sb s_imount sp in
           let* m := need m in
           bump_inode i_count u16 m 1 ;;;
           ret (m, namelen)
         end
       else ret (dir, namelen)
     else ret (dir, namelen)) in
  let* block := zone dir 0 in
  if negb (cbool block) then ret (dir, None) else
  let* d := inode i_dev dir in
  let* o := bread d block in
  match o with
  | None => ret (dir, None)
  | Some b =>
    let* r := find_entry_loop (S (Z.to_nat entries)) dir name namelen entries 0 (Some b) 0 in
    ret (dir, r)
  end.

(** The end of [add_entry]: entry [k] of buffer [b] if it is free, for the [i]-th
    entry of the directory; a new one at the end of the file. *)
Definition claim_entry (dir : nat) (name : list Z) (namelen : nat) (i : Z) (b : nat) (k : Z) : M fs_state bool :=
  (let* sz := inode i_size dir in
   if sz <=? u32 (i * 16) then
     (let* l := bh b_data b in set_bh b_data b (put_de_inode l k 0)) ;;;
     set_inode i_size dir (u32 ((i + 1) * 16)) ;;;
     set_inode i_dirt dir 1 ;;;
     (let* t := now in set_inode i_ctime dir t)
   else ret tt) ;;;
  let* l := bh b_data b in
  if cbool (de_inode l k) then ret false else
  (let* t := now in set_inode i_mtime dir t) ;;;
  set_bh b_data b (put_de_name l k 0
    (map (fun i => if (i <? namelen)%nat then default 0 (name !! i) else 0) (seq 0 NAME_LEN))) ;;;
  set_bh b_dirt b 1 ;;;
  ret true.

Fixpoint add_entry_loop (fuel : nat) (dir : nat) (name : list Z) (namelen : nat) (i : Z) (o : option nat) (k : Z)
  : M fs_state (option (nat * Z)) :=
  match fuel with
  | O => ub
  | S fuel =>
    let* b := need o in
    let* r := (if DIR_ENTRIES_PER_BLOCK <=? k then
                 brelse (Some b) ;;;
                 let* block := create_block dir (i / DIR_ENTRIES_PER_BLOCK) in
                 if negb (cbool block) then ret None else
                 let* d := inode i_dev dir in
                 let* o := bread d block in
                 ret (Some (o, 0))
               else ret (Some (o, k))) in
    match r with
    | None => ret None
    | Some (None, _) => add_entry_loop fuel dir name namelen (i + DIR_ENTRIES_PER_BLOCK) None k
    | Some (Some b, k) =>
      let* done := claim_entry dir name namelen i b k in
      if done then ret (Some (b, k)) else add_entry_loop fuel dir name namelen (i + 1) (Some b) (k + 1)
    end
  end.

Definition add_entry (dir : nat) (name : list Z) (namelen : nat) : M fs_state (option (nat * Z)) :=
  let namelen := if (NAME_LEN <? namelen)%nat then NAME_LEN else namelen in
  if (namelen =? 0)%nat then ret None else
  let* block := zone dir 0 in
  if negb (cbool block) then ret None else
  let* d := inode i_dev dir in
  let* o := bread d block in
  match o with
  | None => ret None
  | Some b =>
    let* sz := inode i_size dir in
    add_entry_loop (Z.to_nat (sz / 16) + 2) dir name namelen 0 (Some b) 0
  end.

(** ** Paths *)

(** The bytes up to the next slash or the end: their number, the character that
    ended them (0 at the end) and what follows. *)
Fixpoint component (p : list Z) : nat * Z * list Z :=
  match p with
  | [] => (O, 0, [])
  | c :: p =>
    if c =? 0 then (O, 0, [])
    else if c =? slash then (O, c, p)
    else let '(n, e, r) := component p in (S n, e, r)
  end.

(** [while (1)] in [get_dir]. *)
Fixpoint walk (fuel : nat) (n : nat) (pathname : list Z) : M fs_state (option nat) :=
  match fuel with
  | O => ub
  | S fuel =>
    let* i := row inode_table n in
    let* ok := permission n MAY_EXEC in
    if negb (S_ISDIR (i_mode i)) || negb ok then iput (Some n) ;;; ret None else
    let '(namelen, c, rest) := component pathname in
    if c =? 0 then ret (Some n) else
    let* (n, e) := find_entry n pathname namelen in
    match e with
    | None => iput (Some n) ;;; ret None
    | Some (b, k) =>
      let* l := bh b_data b in
      let* idev := inode i_dev n in
      brelse (Some b) ;;;
      iput (Some n) ;;;
      let* o := iget idev (de_inode l k) in
      match o with
      | None => ret None
      | Some n => walk fuel n rest
      end
    end
  end.

(** An inode the current task holds. *)
Definition task_inode (p : Z) (msg : string) : M fs_state nat :=
  match inode_of_ptr p with
  | None => panic msg
  | Some n => let* c := inode i_count n in if cbool c then ret n else panic msg
  end.

Definition get_dir (pathname : list Z) : M fs_state (option nat) :=
  let* t := current_task in
  let* root := task_inode (ts_root t) "No root inode" in
  let* pwd := task_inode (ts_pwd t) "No cwd inode" in
  let c := get_fs_byte pathname in
  if c =? slash then
    bump_inode i_count u16 root 1 ;;; walk (S (length pathname)) root (tail pathname)
  else if cbool c then
    bump_inode i_count u16 pwd 1 ;;; walk (S (length pathname)) pwd pathname
  else ret None.

(** The last component of a path, and its length. *)
Fixpoint basename (base p : list Z) : list Z * nat :=
  match p with
  | [] => (base, length base)
  | c :: p' =>
    if c =? 0 then (base, (length base - length p)%nat)
    else if c =? slash then basename p' p' else basename base p'
  end.

Definition dir_namei (pathname : list Z) : M fs_state (option (nat * list Z * nat)) :=
  let* o := get_dir pathname in
  match o with
  | None => ret None
  | Some dir => let (base, namelen) := basename pathname pathname in ret (Some (dir, base, namelen))
  end.

Definition namei (pathname : list Z) : M fs_state (option nat) :=
  let* o := dir_namei pathname in
  match o with
  | None => ret None
  | Some (dir, base, namelen) =>
    if (namelen =? 0)%nat then ret (Some dir) else
    let* (dir, e) := find_entry dir base namelen in
    match e with
    | None => iput (Some dir) ;;; ret None
    | Some (b, k) =>
      let* l := bh b_data b in
      let* dev := inode i_dev dir in
      brelse (Some b) ;;;
      iput (Some dir) ;;;
      let* o := iget dev (de_inode l k) in
      match o with
      | None => ret None
      | Some n => (let* t := now in set_inode i_atime n t) ;;; set_inode i_dirt n 1 ;;; ret (Some n)
      end
    end
  end.

(** ** Making and removing names *)

(** [iput] some inodes and return an error. *)
Definition fail (l : list nat) (e : Z) : M fs_state Z := for_each l (fun n => iput (Some n)) ;;; ret (- e).

(** [de->inode = v; bh->b_dirt = 1]. *)
Definition set_entry (b : nat) (k v : Z) : M fs_state unit :=
  (let* l := bh b_data b in set_bh b_data b (put_de_inode l k v)) ;;; set_bh b_dirt b 1.

(** The result of [open_namei] is an error code and the inode. *)
Definition open_namei (pathname : list Z) (flag mode : Z) : M fs_state (Z * option nat) :=
  let flag := if cbool (Z.land flag O_TRUNC) && negb (cbool (Z.land flag O_ACCMODE)) then Z.lor flag O_WRONLY else flag in
  let* t := current_task in
  let mode := Z.lor (Z.land mode (Z.land 0x1ff (Z.lnot (ts_umask t)))) I_REGULAR in
  let err l e := let* r := fail l e in ret (r, None) in
  let* o := dir_namei pathname in
  match o with
  | None => ret (- ENOENT, None)
  | Some (dir, base, namelen) =>
    if (namelen =? 0)%nat then
      if negb (cbool (Z.land flag (Z.lor O_ACCMODE (Z.lor O_CREAT O_TRUNC)))) then ret (0, Some dir)
      else err [dir] EISDIR
    else
    let* (dir, e) := find_entry dir base namelen in
    match e with
    | None =>
      if negb (cbool (Z.land flag O_CREAT)) then err [dir] ENOENT else
      let* w := permission dir MAY_WRITE in
      if negb w then err [dir] EACCES else
      let* d := inode i_dev dir in
      let* o := new_inode d in
      match o with
      | None => err [dir] ENOSPC
      | Some n =>
        let* t := current_task in
        set_inode i_uid n (u16 (ts_euid t)) ;;;
        set_inode i_mode n (u16 mode) ;;;
        set_inode i_dirt n 1 ;;;
        let* e := add_entry dir base namelen in
        match e with
        | None => bump_inode i_nlinks u8 n (-1) ;;; err [n; dir] ENOSPC
        | Some (b, k) =>
          (let* nr := inode i_num n in set_entry b k nr) ;;;
          brelse (Some b) ;;;
          iput (Some dir) ;;;
          ret (0, Some n)
        end
      end
    | Some (b, k) =>
      let* l := bh b_data b in
      let* dev := inode i_dev dir in
      brelse (Some b) ;;;
      iput (Some dir) ;;;
      if cbool (Z.land flag O_EXCL) then ret (- EEXIST, None) else
      let* o := iget dev (de_inode l k) in
      match o with
      | None => ret (- EACCES, None)
      | Some n =>
        let* m := inode i_mode n in
        let* ok := permission n (ACC_MODE flag) in
        if (S_ISDIR m && cbool (Z.land flag O_ACCMODE)) || negb ok then err [n] EPERM else
        (let* t := now in set_inode i_atime n t) ;;;
        (if cbool (Z.land flag O_TRUNC) then truncate n else ret tt) ;;;
        ret (0, Some n)
      end
    end
  end.

Definition sys_mknod (filename : list Z) (mode dev : Z) : M fs_state Z :=
  let* su := suser in
  if negb su then ret (- EPERM) else
  let* o := dir_namei filename in
  match o with
  | None => ret (- ENOENT)
  | Some (dir, base, namelen) =>
    if (namelen =? 0)%nat then fail [dir] ENOENT else
    let* w := permission dir MAY_WRITE in
    if negb w then fail [dir] EPERM else
    let* (dir, e) := find_entry dir base namelen in
    match e with
    | Some (b, _) => brelse (Some b) ;;; fail [dir] EEXIST
    | None =>
      let* d := inode i_dev dir in
      let* o := new_inode d in
      match o with
      | None => fail [dir] ENOSPC
      | Some n =>
        set_inode i_mode n (u16 mode) ;;;
        (if S_ISBLK mode || S_ISCHR mode then set_zone n 0 dev else ret tt) ;;;
        (let* t := now in set_inode i_atime n t ;;; set_inode i_mtime n t) ;;;
        set_inode i_dirt n 1 ;;;
        let* e := add_entry dir base namelen in
        match e with
        | None => iput (Some dir) ;;; set_inode i_nlinks n 0 ;;; fail [n] ENOSPC
        | Some (b, k) =>
          (let* nr := inode i_num n in set_entry b k nr) ;;;
          iput (Some dir) ;;; iput (Some n) ;;; brelse (Some b) ;;;
          ret 0
        end
      end
    end
  end.

(** [strcpy(de->name, s)]: the bytes of [s] and a NUL. *)
Definition strcpy_name (b : nat) (k : Z) (s : string) : M fs_state unit :=
  let* l := bh b_data b in set_bh b_data b (put_de_name l k 0 (cstr s ++ [0])).

(** The two entries of a new directory. *)
Definition init_dir_block (b n dir : nat) : M fs_state unit :=
  (let* nr := inode i_num n in let* l := bh b_data b in set_bh b_data b (put_de_inode l 0 nr)) ;;;
  strcpy_name b 0 "." ;;;
  (let* nr := inode i_num dir in let* l := bh b_data b in set_bh b_data b (put_de_inode l 1 nr)) ;;;
  strcpy_name b 1 "..".

Definition sys_mkdir (pathname : list Z) (mode : Z) : M fs_state Z :=
  let* su := suser in
  if negb su then ret (- EPERM) else
  let* o := dir_namei pathname in
  match o with
  | None => ret (- ENOENT)
  | Some (dir, base, namelen) =>
    if (namelen =? 0)%nat then fail [dir] ENOENT else
    let* w := permission dir MAY_WRITE in
    if negb w then fail [dir] EPERM else
    let* (dir, e) := find_entry dir base namelen in
    match e with
    | Some (b, _) => brelse (Some b) ;;; fail [dir] EEXIST
    | None =>
      let* d := inode i_dev dir in
      let* o := new_inode d in
      match o with
      | None => fail [dir] ENOSPC
      | Some n =>
        set_inode i_size n 32 ;;;
        set_inode i_dirt n 1 ;;;
        (let* t := now in set_inode i_atime n t ;;; set_inode i_mtime n t) ;;;
        (let* d := inode i_dev n in let* j := new_block d in set_zone n 0 j) ;;;
        let* z := zone n 0 in
        if negb (cbool z) then iput (Some dir) ;;; bump_inode i_nlinks u8 n (-1) ;;; fail [n] ENOSPC else
        set_inode i_dirt n 1 ;;;
        let* d := inode i_dev n in
        let* o := bread d z in
        match o with
        | None =>
          iput (Some dir) ;;;
          (let* d := inode i_dev n in let* z := zone n 0 in free_block d z) ;;;
          bump_inode i_nlinks u8 n (-1) ;;;
          fail [n] ERROR
        | Some dir_block =>
          init_dir_block dir_block n dir ;;;
          set_inode i_nlinks n 2 ;;;
          set_bh b_dirt dir_block 1 ;;;
          brelse (Some dir_block) ;;;
          (let* t := current_task in
           set_inode i_mode n (u16 (Z.lor I_DIRECTORY (Z.land mode (Z.land 0x1ff (Z.lnot (ts_umask t))))))) ;;;
          set_inode i_dirt n 1 ;;;
          let* e := add_entry dir base namelen in
          match e with
          | None =>
            iput (Some dir) ;;;
            (let* d := inode i_dev n in let* z := zone n 0 in free_block d z) ;;;
            set_inode i_nlinks n 0 ;;;
            fail [n] ENOSPC
          | Some (b, k) =>
            (let* nr := inode i_num n in set_entry b k nr) ;;;
            bump_inode i_nlinks u8 dir 1 ;;;
            set_inode i_dirt dir 1 ;;;
            iput (Some dir) ;;; iput (Some n) ;;; brelse (Some b) ;;;
            ret 0
          end
        end
      end
    end
  end.

(** [!strcmp(s, de->name)] for a short [s]. *)
Definition name_is (s : string) (l : list Z) (k : Z) : bool :=
  same_bytes (S (String.length s)) (cstr s) (de_name l k).

Fixpoint empty_dir_loop (fuel : nat) (n : nat) (nr len : Z) (b : nat) (k : Z) : M fs_state bool :=
  match fuel with
  | O => ub
  | S fuel =>
    if len <=? nr then brelse (Some b) ;;; ret true else
    if DIR_ENTRIES_PER_BLOCK <=? k then
      brelse (Some b) ;;;
      let* block := bmap n (nr / DIR_ENTRIES_PER_BLOCK) in
      if negb (cbool block) then empty_dir_loop fuel n (nr + DIR_ENTRIES_PER_BLOCK) len b k else
      let* d := inode i_dev n in
      let* o := bread d block in
      match o with
      | None => ret false
      | Some b =>
        let* l := bh b_data b in
        if cbool (de_inode l 0) then brelse (Some b) ;;; ret false
        else empty_dir_loop fuel n (nr + 1) len b 1
      end
    else
      let* l := bh b_data b in
      if cbool (de_inode l k) then brelse (Some b) ;;; ret false
      else empty_dir_loop fuel n (nr + 1) len b (k + 1)
  end.

Definition empty_dir (n : nat) : M fs_state bool :=
  let* i := row inode_table n in
  let len := i_size i / 16 in
  let* z := zone n 0 in
  if (len <? 2) || negb (cbool z) then ret false else
  let* o := bread (i_dev i) z in
  match o with
  | None => ret false
  | Some b =>
    let* l := bh b_data b in
    let* nr := inode i_num n in
    if negb (de_inode l 0 =? nr) || negb (cbool (de_inode l 1)) || negb (name_is "." l 0) || negb (name_is ".." l 1)
    then ret false
    else empty_dir_loop (S (Z.to_nat len)) n 2 len b 2
  end.

Definition sys_rmdir (name : list Z) : M fs_state Z :=
  let* su := suser in
  if negb su then ret (- EPERM) else
  let* o := dir_namei name in
  match o with
  | None => ret (- ENOENT)
  | Some (dir, base, namelen) =>
    if (namelen =? 0)%nat then fail [dir] ENOENT else
    let* w := permission dir MAY_WRITE in
    if negb w then fail [dir] EPERM else
    let* (dir, e) := find_entry dir base namelen in
    match e with
    | None => fail [dir] ENOENT
    | Some (b, k) =>
      let* d := inode i_dev dir in
      let* l := bh b_data b in
      let* o := iget d (de_inode l k) in
      let err l e := for_each l (fun n => iput (Some n)) ;;; brelse (Some b) ;;; ret (- e) in
      match o with
      | None => err [dir] EPERM
      | Some n =>
        let* t := current_task in
        let* i := row inode_table n in
        let* di := row inode_table dir in
        if cbool (Z.land (i_mode di) S_ISVTX) && cbool (ts_euid t) && negb (i_uid i =? ts_euid t) then err [dir; n] EPERM else
        if negb (i_dev i =? i_dev di) || (1 <? i_count i) then err [dir; n] EPERM else
        if (n =? dir)%nat then err [n; dir] EPERM else
        if negb (S_ISDIR (i_mode i)) then err [n; dir] ENOTDIR else
        let* empty := empty_dir n in
        if negb empty then err [n; dir] ENOTEMPTY else
        set_entry b k 0 ;;;
        brelse (Some b) ;;;
        set_inode i_nlinks n 0 ;;;
        set_inode i_dirt n 1 ;;;
        bump_inode i_nlinks u8 dir (-1) ;;;
        (let* t := now in set_inode i_mtime dir t ;;; set_inode i_ctime dir t) ;;;
        set_inode i_dirt dir 1 ;;;
        iput (Some dir) ;;;
        iput (Some n) ;;;
        ret 0
      end
    end
  end.

Definition sys_unlink (name : list Z) : M fs_state Z :=
  let* o := dir_namei name in
  match o with
  | None => ret (- ENOENT)
  | Some (dir, base, namelen) =>
    if (namelen =? 0)%nat then fail [dir] ENOENT else
    let* w := permission dir MAY_WRITE in
    if negb w then fail [dir] EPERM else
    let* (dir, e) := find_entry dir base namelen in
    match e with
    | None => fail [dir] ENOENT
    | Some (b, k) =>
      let* d := inode i_dev dir in
      let* l := bh b_data b in
      let* o := iget d (de_inode l k) in
      let err l e := for_each l (fun n => iput (Some n)) ;;; brelse (Some b) ;;; ret (- e) in
      match o with
      | None => err [dir] ENOENT
      | Some n =>
        let* t := current_task in
        let* su := suser in
        let* i := row inode_table n in
        let* di := row inode_table dir in
        if cbool (Z.land (i_mode di) S_ISVTX) && negb su && negb (ts_euid t =? i_uid i) && negb (ts_euid t =? i_uid di)
        then err [dir; n] EPERM else
        if S_ISDIR (i_mode i) then err [n; dir] EPERM else
        (if negb (cbool (i_nlinks i)) then set_inode i_nlinks n 1 else ret tt) ;;;
        set_entry b k 0 ;;;
        brelse (Some b) ;;;
        bump_inode i_nlinks u8 n (-1) ;;;
        set_inode i_dirt n 1 ;;;
        (let* t := now in set_inode i_ctime n t) ;;;
        iput (Some n) ;;;
        iput (Some dir) ;;;
        ret 0
      end
    end
  end.

Definition sys_link (oldname newname : list Z) : M fs_state Z :=
  let* o := namei oldname in
  match o with
  | None => ret (- ENOENT)
  | Some old =>
    let* m := inode i_mode old in
    if S_ISDIR m then fail [old] EPERM else
    let* o := dir_namei newname in
    match o with
    | None => fail [old] EACCES
    | Some (dir, base, namelen) =>
      if (namelen =? 0)%nat then fail [old; dir] EPERM else
      let* d := inode i_dev dir in
      let* d' := inode i_dev old in
      if negb (d =? d') then fail [dir; old] EXDEV else
      let* w := permission dir MAY_WRITE in
      if negb w then fail [dir; old] EACCES else
      let* (dir, e) := find_entry dir base namelen in
      match e with
      | Some (b, _) => brelse (Some b) ;;; fail [dir; old] EEXIST
      | None =>
        let* e := add_entry dir base namelen in
        match e with
        | None => fail [dir; old] ENOSPC
        | Some (b, k) =>
          (let* nr := inode i_num old in set_entry b k nr) ;;;
          brelse (Some b) ;;;
          iput (Some dir) ;;;
          bump_inode i_nlinks u8 old 1 ;;;
          (let* t := now in set_inode i_ctime old t) ;;;
          set_inode i_dirt old 1 ;;;
          iput (Some old) ;;;
          ret 0
        end
      end
    end
  end.

(** ** Mounting *)

Definition sys_umount (dev_name : list Z) : M fs_state Z :=
  let* o := namei dev_name in
  match o with
  | None => ret (- ENOENT)
  | Some n =>
    let* dev := zone n 0 in
    let* m := inode i_mode n in
    if negb (S_ISBLK m) then fail [n] ENOTBLK else
    iput (Some n) ;;;
    let* root := get ROOT_DEV in
    if dev =? root then ret (- EBUSY) else
    let* sp := get_super dev in
    match sp with
    | None => ret (- ENOENT)
    | Some sp =>
      let* im := sb s_imount sp in
      match im with
      | None => ret (- ENOENT)
      | Some im =>
        let* l := get inode_table in
        if existsb (fun i => (i_dev i =? dev) && cbool (i_count i)) l then ret (- EBUSY) else
        set_inode i_mount im 0 ;;;
        iput (Some im) ;;;
        set_sb s_imount sp None ;;;
        (let* su := sb s_isup sp in iput su) ;;;
        set_sb s_isup sp None ;;;
        put_super dev ;;;
        sync_dev dev ;;;
        ret 0
      end
    end
  end.

Definition sys_mount (dev_name dir_name : list Z) : M fs_state Z :=
  let* o := namei dev_name in
  match o with
  | None => ret (- ENOENT)
  | Some dev_i =>
    let* dev := zone dev_i 0 in
    let* m := inode i_mode dev_i in
    if negb (S_ISBLK m) then fail [dev_i] EPERM else
    iput (Some dev_i) ;;;
    let* o := namei dir_name in
    match o with
    | None => ret (- ENOENT)
    | Some dir_i =>
      let* i := row inode_table dir_i in
      if negb (i_count i =? 1) || (i_num i =? ROOT_INO) then fail [dir_i] EBUSY else
      if negb (S_ISDIR (i_mode i)) then fail [dir_i] EPERM else
      let* o := read_super dev in
      match o with
      | None => fail [dir_i] EBUSY
      | Some sp =>
        let* im := sb s_imount sp in
        match im with
        | Some _ => fail [dir_i] EBUSY
        | None =>
          let* m := inode i_mount dir_i in
          if cbool m then fail [dir_i] EPERM else
          set_sb s_imount sp (Some dir_i) ;;;
          set_inode i_mount dir_i 1 ;;;
          set_inode i_dirt dir_i 1 ;;;
          ret 0
        end
      end
    end
  end.
End Env.
