(* ===== verification/Files.v ===== *)
(** Open files: reading and writing (fs/file_dev.c, fs/block_dev.c, fs/char_dev.c,
    fs/read_write.c), opening and closing (fs/open.c), descriptors (fs/fcntl.c),
    pipes (fs/pipe.c) and fs/stat.c.  Descriptors hold 0 or one more than the index
    in [file_table]. *)
From stdpp Require Import base list gmap strings.
From Stdlib Require Import ZArith Lia.
From S2P Require Import Prelude Memory Sched FsState BlkDev Buffer Inode Namei.
Open Scope Z_scope.

Definition O_APPEND : Z := 0x400.
Definition O_NONBLOCK : Z := 0x800.
Definition SIGPIPE : Z := 13.
Definition IS_SEEKABLE (x : Z) : bool := (1 <=? x) && (x <=? 3).
Definition bsize : Z := Z.of_nat BLOCK_SIZE.

(** ** User memory *)

Fixpoint store_bytes (a : Z) (l : list Z) (m : gmap Z Z) : gmap Z Z :=
  match l with [] => m | c :: l => store_bytes (a + 1) l (<[a := c]> m) end.
Fixpoint load_bytes (n : nat) (a : Z) (m : gmap Z Z) : list Z :=
  match n with O => [] | S n => default 0 (m !! a) :: load_bytes n (a + 1) m end.

Definition put_fs_bytes (a : Z) (l : list Z) : M fs_state unit := modify (over umem (store_bytes a l)).
Definition get_fs_bytes (a : Z) (n : Z) : M fs_state (list Z) := get (fun s => load_bytes (Z.to_nat n) a (umem s)).

(** Make the pages of a user buffer writable (kernel/fork.c). *)
Fixpoint verify_pages (fuel : nat) (start size : Z) : M fs_state unit :=
  match fuel with
  | O => ret tt
  | S fuel => if 0 <? size then on_mm (write_verify start) ;;; verify_pages fuel (u32 (start + 4096)) (size - 4096) else ret tt
  end.
Definition verify_area (addr size : Z) : M fs_state unit :=
  let* t := current_task in
  let size := size + Z.land addr 0xfff in
  let start := u32 (Z.land addr 0xfffff000 + data_base (ts_ldt t)) in
  verify_pages (Z.to_nat size) start size.

(** ** Descriptors *)

Definition file_ptr (f : nat) : Z := Z.of_nat f + 1.
Definition file_of_ptr (p : Z) : option nat := if p <=? 0 then None else Some (Z.to_nat (p - 1)).

(** [current->filp[fd]], when [fd < NR_OPEN]. *)
Definition filp (fd : Z) : M fs_state (option nat) :=
  let* t := current_task in
  let* p := need (ts_filp t !! Z.to_nat fd) in ret (file_of_ptr p).
Definition set_filp (fd : Z) (o : option nat) : M fs_state unit :=
  on_sched (upd_cur (over ts_filp <[Z.to_nat fd := from_option file_ptr 0 o]>)).
Definition bad_fd (fd : Z) : bool := Z.of_nat NR_OPEN <=? u32 fd.
Definition fd_file (fd : Z) : M fs_state (option nat) := if bad_fd fd then ret None else filp fd.

Definition keep_on_exec (fd : Z) : M fs_state unit :=
  on_sched (upd_cur (over ts_close_on_exec (fun x => Z.land x (Z.lnot (Z.shiftl 1 fd))))).

Definition bump_file (f : nat) (d : Z) : M fs_state unit :=
  let* c := fil f_count f in set_file f_count f (u16 (c + d)).

Section Env.
Context `{Env}.

(** ** Regular files *)

Fixpoint file_read_loop (fuel n f : nat) (buf rest : Z) : M fs_state Z :=
  match fuel with
  | O => ub
  | S fuel =>
    if rest =? 0 then ret rest else
    let* pos := fil f_pos f in
    let* nr := bmap n (Z.quot pos bsize) in
    let* o := (if cbool nr then
                 let* d := inode i_dev n in
                 let* o := bread d nr in
                 match o with None => ret None | Some b => ret (Some (Some b)) end
               else ret (Some None)) in
    match o with
    | None => ret rest
    | Some o =>
      let* pos := fil f_pos f in
      let nr := Z.rem pos bsize in
      let chars := Z.min (bsize - nr) rest in
      set_file f_pos f (s32 (pos + chars)) ;;;
      (match o with
       | Some b =>
         let* l := bh b_data b in
         put_fs_bytes buf (take (Z.to_nat chars) (drop (Z.to_nat nr) l)) ;;;
         brelse (Some b)
       | None => put_fs_bytes buf (replicate (Z.to_nat chars) 0)
       end) ;;;
      file_read_loop fuel n f (buf + chars) (rest - chars)
    end
  end.

Definition file_read (n f : nat) (buf count : Z) : M fs_state Z :=
  if count <=? 0 then ret 0 else
  let* rest := file_read_loop (S (Z.to_nat count)) n f buf count in
  (let* t := now in set_inode i_atime n t) ;;;
  ret (if cbool (count - rest) then count - rest else - ERROR).

Fixpoint file_write_loop (fuel n : nat) (buf count pos i : Z) : M fs_state (Z * Z) :=
  match fuel with
  | O => ub
  | S fuel =>
    if count <=? i then ret (pos, i) else
    let* block := create_block n (Z.quot pos bsize) in
    if negb (cbool block) then ret (pos, i) else
    let* d := inode i_dev n in
    let* o := bread d block in
    match o with
    | None => ret (pos, i)
    | Some b =>
      let c := Z.rem pos bsize in
      set_bh b_dirt b 1 ;;;
      let n_chars := Z.min (bsize - c) (count - i) in
      let pos := s32 (pos + n_chars) in
      (let* sz := inode i_size n in
       if sz <? u32 pos then set_inode i_size n (u32 pos) ;;; set_inode i_dirt n 1 else ret tt) ;;;
      let* d := get_fs_bytes buf n_chars in
      (let* l := bh b_data b in set_bh b_data b (splice (Z.to_nat c) d l)) ;;;
      brelse (Some b) ;;;
      file_write_loop fuel n (buf + n_chars) count pos (i + n_chars)
    end
  end.

Definition file_write (n f : nat) (buf count : Z) : M fs_state Z :=
  let* fl := fil f_flags f in
  let append := cbool (Z.land fl O_APPEND) in
  let* pos := (if append then let* sz := inode i_size n in ret (s32 sz) else fil f_pos f) in
  let* (pos, i) := file_write_loop (S (Z.to_nat count)) n buf count pos 0 in
  (let* t := now in set_inode i_mtime n t) ;;;
  (if negb append then set_file f_pos f pos ;;; (let* t := now in set_inode i_ctime n t) else ret tt) ;;;
  ret (if cbool i then i else -1).

(** ** Block devices: the result and the new position *)

Fixpoint block_write_loop (fuel : nat) (dev block offset pos buf count written : Z) : M fs_state (Z * Z) :=
  match fuel with
  | O => ub
  | S fuel =>
    if count <=? 0 then ret (written, pos) else
    let chars := Z.min (bsize - offset) count in
    let* o := (if chars =? bsize then let* b := getblk dev block in ret (Some b)
               else breada dev block [block + 1; block + 2]) in
    match o with
    | None => ret (if cbool written then written else - EIO, pos)
    | Some b =>
      let* d := get_fs_bytes buf chars in
      (let* l := bh b_data b in set_bh b_data b (splice (Z.to_nat offset) d l)) ;;;
      set_bh b_dirt b 1 ;;;
      brelse (Some b) ;;;
      block_write_loop fuel dev (block + 1) 0 (s32 (pos + chars)) (buf + chars) (count - chars) (written + chars)
    end
  end.
Definition block_write (dev pos buf count : Z) : M fs_state (Z * Z) :=
  block_write_loop (S (Z.to_nat count)) dev (Z.shiftr pos 10) (Z.land pos 1023) pos buf count 0.

Fixpoint block_read_loop (fuel : nat) (dev block offset pos buf count read : Z) : M fs_state (Z * Z) :=
  match fuel with
  | O => ub
  | S fuel =>
    if count <=? 0 then ret (read, pos) else
    let chars := Z.min (bsize - offset) count in
    let* o := breada dev block [block + 1; block + 2] in
    match o with
    | None => ret (if cbool read then read else - EIO, pos)
    | Some b =>
      let* l := bh b_data b in
      put_fs_bytes buf (take (Z.to_nat chars) (drop (Z.to_nat offset) l)) ;;;
      brelse (Some b) ;;;
      block_read_loop fuel dev (block + 1) 0 (s32 (pos + chars)) (buf + chars) (count - chars) (read + chars)
    end
  end.
Definition block_read (dev pos buf count : Z) : M fs_state (Z * Z) :=
  block_read_loop (S (Z.to_nat count)) dev (Z.shiftr (u32 pos) 10) (Z.land pos 1023) pos buf count 0.

(** ** Character devices *)

Fixpoint port_loop (fuel : nat) (rw buf count i : Z) : M fs_state Z :=
  match fuel with
  | O => ret i
  | S fuel =>
    if (0 <? count) && (i <? 65536) then
      (if rw =? READ then put_fs_bytes buf [inb i]
       else let* d := get_fs_bytes buf 1 in on_sched (for_each d (fun c => outb c i))) ;;;
      port_loop fuel rw (buf + 1) (count - 1) (i + 1)
    else ret i
  end.
Definition rw_port (rw buf count pos : Z) : M fs_state (Z * Z) :=
  let* i := port_loop (Z.to_nat count) rw buf count pos in ret (i - pos, i).

Definition rw_memory (rw minor buf count pos : Z) : M fs_state (Z * Z) :=
  match minor with
  | 3 => ret (if rw =? READ then 0 else count, pos)
  | 4 => rw_port rw buf count pos
  | _ => ret (- EIO, pos)
  end.

Definition rw_ttyx (rw minor buf count : Z) : M fs_state Z :=
  if rw =? READ then tty_read minor buf count else tty_write minor buf count.

Definition rw_tty (rw buf count : Z) : M fs_state Z :=
  let* t := current_task in
  if ts_tty t <? 0 then ret (- EPERM) else rw_ttyx rw (ts_tty t) buf count.

Definition rw_char (rw dev buf count pos : Z) : M fs_state (Z * Z) :=
  match MAJOR dev with
  | 1 => rw_memory rw (MINOR dev) buf count pos
  | 4 => let* r := rw_ttyx rw (MINOR dev) buf count in ret (r, pos)
  | 5 => let* r := rw_tty rw buf count in ret (r, pos)
  | _ => ret (- ENODEV, pos)
  end.

(** ** Pipes *)

(** Bytes in physical memory. *)
Definition rd_byte (s : mm) (a : Z) : Z := rd s (a - a mod 4) / 256 ^ (a mod 4) mod 256.
Definition store_byte (a v : Z) : M mm unit :=
  modify (fun s => set_mem (<[a - a mod 4 := rd s (a - a mod 4) + (u8 v - rd_byte s a) * 256 ^ (a mod 4)]>) s).
Fixpoint store_all (a : Z) (l : list Z) : M mm unit :=
  match l with
  | [] => ret tt
  | b :: l => store_byte a b ;;; store_all (a + 1) l
  end.

Definition PIPE_HEAD (i : m_inode) : Z := default 0 (i_zone i !! 0%nat).
Definition PIPE_TAIL (i : m_inode) : Z := default 0 (i_zone i !! 1%nat).
Definition PIPE_SIZE (i : m_inode) : Z := Z.land (PIPE_HEAD i - PIPE_TAIL i) (PAGE_SIZE - 1).

(** The inner loop of [read_pipe]: the bytes there are, or none and no writer. *)
Fixpoint wait_pipe (fuel n : nat) (room : m_inode -> Z) : M fs_state (option Z) :=
  match fuel with
  | O => ub
  | S fuel =>
    let* i := row inode_table n in
    if cbool (room i) then ret (Some (room i)) else
    wake_up (i_wait_var n) ;;;
    let* i := row inode_table n in
    if negb (i_count i =? 2) then ret None else
    sleep_on_fs (i_wait_var n) ;;; wait_pipe fuel n room
  end.

Fixpoint read_pipe_loop (fuel n : nat) (buf count read : Z) : M fs_state Z :=
  match fuel with
  | O => ub
  | S fuel =>
    if count <=? 0 then wake_up (i_wait_var n) ;;; ret read else
    let* size := wait_pipe patience n PIPE_SIZE in
    match size with
    | None => ret read
    | Some size =>
      let* i := row inode_table n in
      let tl := PIPE_TAIL i in
      let chars := Z.min (Z.min (PAGE_SIZE - tl) count) size in
      set_zone n 1 (Z.land (u16 (tl + chars)) (PAGE_SIZE - 1)) ;;;
      (let* m := get fs_mm in
       put_fs_bytes buf (map (fun k => rd_byte m (i_size i + tl + Z.of_nat k)) (seq 0 (Z.to_nat chars)))) ;;;
      read_pipe_loop fuel n (buf + chars) (count - chars) (read + chars)
    end
  end.
Definition read_pipe (n : nat) (buf count : Z) : M fs_state Z :=
  read_pipe_loop (S (Z.to_nat count)) n buf count 0.

Fixpoint write_pipe_loop (fuel n : nat) (buf count written : Z) : M fs_state Z :=
  match fuel with
  | O => ub
  | S fuel =>
    if count <=? 0 then wake_up (i_wait_var n) ;;; ret written else
    let* size := wait_pipe patience n (fun i => (PAGE_SIZE - 1) - PIPE_SIZE i) in
    match size with
    | None =>
      on_sched (upd_cur (over ts_signal (fun x => Z.lor x (Z.shiftl 1 (SIGPIPE - 1))))) ;;;
      ret (if cbool written then written else -1)
    | Some size =>
      let* i := row inode_table n in
      let hd := PIPE_HEAD i in
      let chars := Z.min (Z.min (PAGE_SIZE - hd) count) size in
      set_zone n 0 (Z.land (u16 (hd + chars)) (PAGE_SIZE - 1)) ;;;
      (let* d := get_fs_bytes buf chars in on_mm (store_all (i_size i + hd) d)) ;;;
      write_pipe_loop fuel n (buf + chars) (count - chars) (written + chars)
    end
  end.
Definition write_pipe (n : nat) (buf count : Z) : M fs_state Z :=
  write_pipe_loop (S (Z.to_nat count)) n buf count 0.

(** ** Reading, writing and seeking *)

(** [f_pos] after a transfer, and its result. *)
Definition with_pos (f : nat) (m : Z -> M fs_state (Z * Z)) : M fs_state Z :=
  let* pos := fil f_pos f in
  let* (r, pos) := m pos in
  set_file f_pos f pos ;;; ret r.

Definition sys_lseek (fd offset origin : Z) : M fs_state Z :=
  let* o := fd_file fd in
  match o with
  | None => ret (- EBADF)
  | Some f =>
    let* o := fil f_inode f in
    match o with
    | None => ret (- EBADF)
    | Some n =>
      let* i := row inode_table n in
      if negb (IS_SEEKABLE (MAJOR (i_dev i))) then ret (- EBADF) else
      if cbool (i_pipe i) then ret (- ESPIPE) else
      let* pos := fil f_pos f in
      let go p := if p <? 0 then ret (- EINVAL) else set_file f_pos f p ;;; ret p in
      match origin with
      | 0 => go offset
      | 1 => go (s32 (pos + offset))
      | 2 => go (s32 (i_size i + offset))
      | _ => ret (- EINVAL)
      end
    end
  end.

Definition sys_read (fd buf count : Z) : M fs_state Z :=
  if bad_fd fd || (count <? 0) then ret (- EINVAL) else
  let* o := filp fd in
  match o with
  | None => ret (- EINVAL)
  | Some f =>
    if negb (cbool count) then ret 0 else
    verify_area buf count ;;;
    let* n := fil f_inode f in
    let* n := need n in
    let* i := row inode_table n in
    if cbool (i_pipe i) then
      (let* m := fil f_mode f in if cbool (Z.land m 1) then read_pipe n buf count else ret (- EIO))
    else if S_ISCHR (i_mode i) then (let* z := zone n 0 in with_pos f (rw_char READ z buf count))
    else if S_ISBLK (i_mode i) then
      (let* z := zone n 0 in with_pos f (fun pos => block_read z pos buf count))
    else if S_ISDIR (i_mode i) || S_ISREG (i_mode i) then
      let* pos := fil f_pos f in
      let count := if i_size i <? u32 (count + pos) then s32 (i_size i - pos) else count in
      if count <=? 0 then ret 0 else file_read n f buf count
    else ret (- EINVAL)
  end.

Definition sys_write (fd buf count : Z) : M fs_state Z :=
  if bad_fd fd || (count <? 0) then ret (- EINVAL) else
  let* o := filp fd in
  match o with
  | None => ret (- EINVAL)
  | Some f =>
    if negb (cbool count) then ret 0 else
    let* n := fil f_inode f in
    let* n := need n in
    let* i := row inode_table n in
    if cbool (i_pipe i) then
      (let* m := fil f_mode f in if cbool (Z.land m 2) then write_pipe n buf count else ret (- EIO))
    else if S_ISCHR (i_mode i) then (let* z := zone n 0 in with_pos f (rw_char WRITE z buf count))
    else if S_ISBLK (i_mode i) then
      (let* z := zone n 0 in with_pos f (fun pos => block_write z pos buf count))
    else if S_ISREG (i_mode i) then file_write n f buf count
    else ret (- EINVAL)
  end.

(** ** Opening and closing *)

(** The first index from [i] on whose value satisfies [p]. *)
Fixpoint first_from {A} (p : A -> bool) (l : list A) (i : nat) : option nat :=
  match l with [] => None | x :: l => if p x then Some i else first_from p l (S i) end.

(** Give back the descriptor and the file of a failed open. *)
Definition undo_open (fd : Z) (f : nat) : M fs_state unit := set_filp fd None ;;; set_file f_count f 0.

(** The checks on the terminal of an inode just opened: [false] is an error. *)
Definition open_tty (n : nat) : M fs_state bool :=
  let* i := row inode_table n in
  let* z := zone n 0 in
  let* t := current_task in
  if negb (S_ISCHR (i_mode i)) then ret true else
  if MAJOR z =? 4 then
    (if cbool (ts_leader t) && (ts_tty t <? 0) then
       on_sched (upd_cur (put ts_tty (MINOR z))) ;;; set_tty_pgrp (MINOR z) (ts_pgrp t)
     else ret tt) ;;; ret true
  else if MAJOR z =? 5 then ret (negb (ts_tty t <? 0)) else ret true.

Definition sys_open (filename : list Z) (flag mode : Z) : M fs_state Z :=
  let* t := current_task in
  let mode := Z.land mode (Z.land 0x1ff (Z.lnot (ts_umask t))) in
  match first_from (fun p => p =? 0) (ts_filp t) 0 with
  | None => ret (- EINVAL)
  | Some fd =>
    let fd := Z.of_nat fd in
    keep_on_exec fd ;;;
    let* l := get file_table in
    match first_from (fun f => negb (cbool (f_count f))) l 0 with
    | None => ret (- EINVAL)
    | Some f =>
      set_filp fd (Some f) ;;;
      bump_file f 1 ;;;
      let* (r, o) := open_namei filename flag mode in
      if r <? 0 then undo_open fd f ;;; ret r else
      let* n := need o in
      let* ok := open_tty n in
      if negb ok then iput (Some n) ;;; undo_open fd f ;;; ret (- EPERM) else
      let* i := row inode_table n in
      (if S_ISBLK (i_mode i) then let* z := zone n 0 in check_disk_change z else ret tt) ;;;
      let* m := inode i_mode n in
      update file_table f (fun _ => mk_file m (u16 flag) 1 (Some n) 0) ;;;
      ret fd
    end
  end.

Definition sys_creat (pathname : list Z) (mode : Z) : M fs_state Z :=
  sys_open pathname (Z.lor O_CREAT O_TRUNC) mode.

Definition sys_close (fd : Z) : M fs_state Z :=
  if bad_fd fd then ret (- EINVAL) else
  keep_on_exec fd ;;;
  let* o := filp fd in
  match o with
  | None => ret (- EINVAL)
  | Some f =>
    set_filp fd None ;;;
    let* c := fil f_count f in
    if c =? 0 then panic "Close: file count is 0" else
    bump_file f (-1) ;;;
    let* c := fil f_count f in
    if cbool c then ret 0 else
    (let* n := fil f_inode f in iput n) ;;; ret 0
  end.

(** ** The rest of open.c *)

Definition sys_ustat : M fs_state Z := ret (- ENOSYS).

(** [times] is the pair of longs in user memory, if the pointer is not null. *)
Definition sys_utime (filename : list Z) (times : option (Z * Z)) : M fs_state Z :=
  let* o := namei filename in
  match o with
  | None => ret (- ENOENT)
  | Some n =>
    let* t := now in
    let (actime, modtime) := default (t, t) times in
    set_inode i_atime n (u32 actime) ;;;
    set_inode i_mtime n (u32 modtime) ;;;
    set_inode i_dirt n 1 ;;;
    iput (Some n) ;;;
    ret 0
  end.

Definition sys_access (filename : list Z) (mode : Z) : M fs_state Z :=
  let mode := Z.land mode 7 in
  let* o := namei filename in
  match o with
  | None => ret (- EACCES)
  | Some n =>
    let* m := inode i_mode n in
    let i_mode := Z.land m 0x1ff in
    iput (Some n) ;;;
    let* i := row inode_table n in
    let* t := current_task in
    let res := if (ts_uid t =? i_uid i) || (ts_gid t =? i_gid i) then Z.shiftr i_mode 6 else i_mode in
    if Z.land (Z.land res 7) mode =? mode then ret 0 else
    if (ts_uid t =? 0) && (negb (cbool (Z.land mode 1)) || cbool (Z.land i_mode 0x49)) then ret 0
    else ret (- EACCES)
  end.

(** [sys_chdir] and [sys_chroot]: the directory held by the task field [f]. *)
Definition change_dir (f : task_struct -> Z) {sf : Setter f} (filename : list Z) : M fs_state Z :=
  let* o := namei filename in
  match o with
  | None => ret (- ENOENT)
  | Some n =>
    let* m := inode i_mode n in
    if negb (S_ISDIR m) then fail [n] ENOTDIR else
    (let* t := current_task in iput (inode_of_ptr (f t))) ;;;
    on_sched (upd_cur (put f (inode_ptr n))) ;;;
    ret 0
  end.
Definition sys_chdir (filename : list Z) : M fs_state Z := change_dir ts_pwd filename.
Definition sys_chroot (filename : list Z) : M fs_state Z := change_dir ts_root filename.

Definition sys_chmod (filename : list Z) (mode : Z) : M fs_state Z :=
  let* o := namei filename in
  match o with
  | None => ret (- ENOENT)
  | Some n =>
    let* i := row inode_table n in
    let* t := current_task in
    let* su := suser in
    if negb (ts_euid t =? i_uid i) && negb su then fail [n] EACCES else
    set_inode i_mode n (u16 (Z.lor (Z.land mode 0xfff) (Z.land (i_mode i) (Z.lnot 0xfff)))) ;;;
    set_inode i_dirt n 1 ;;;
    iput (Some n) ;;;
    ret 0
  end.

Definition sys_chown (filename : list Z) (uid gid : Z) : M fs_state Z :=
  let* o := namei filename in
  match o with
  | None => ret (- ENOENT)
  | Some n =>
    let* su := suser in
    if negb su then fail [n] EACCES else
    set_inode i_uid n (u16 uid) ;;;
    set_inode i_gid n (u8 gid) ;;;
    set_inode i_dirt n 1 ;;;
    iput (Some n) ;;;
    ret 0
  end.

(** ** Duplicating descriptors *)

Definition dupfd (fd arg : Z) : M fs_state Z :=
  let* o := fd_file fd in
  match o with
  | None => ret (- EBADF)
  | Some f =>
    if bad_fd arg then ret (- EINVAL) else
    let* t := current_task in
    match first_from (fun p => p =? 0) (drop (Z.to_nat arg) (ts_filp t)) (Z.to_nat arg) with
    | None => ret (- EMFILE)
    | Some arg =>
      let arg := Z.of_nat arg in
      keep_on_exec arg ;;;
      (let* o := filp fd in set_filp arg o) ;;;
      bump_file f 1 ;;;
      ret arg
    end
  end.

Definition sys_dup2 (oldfd newfd : Z) : M fs_state Z := sys_close newfd ;;; dupfd oldfd newfd.
Definition sys_dup (fildes : Z) : M fs_state Z := dupfd fildes 0.

Definition sys_fcntl (fd cmd arg : Z) : M fs_state Z :=
  let* o := fd_file fd in
  match o with
  | None => ret (- EBADF)
  | Some f =>
    let* t := current_task in
    match cmd with
    | 0 => dupfd fd arg
    | 1 => ret (Z.land (Z.shiftr (ts_close_on_exec t) fd) 1)
    | 2 => (if cbool (Z.land arg 1)
            then on_sched (upd_cur (over ts_close_on_exec (fun x => Z.lor x (Z.shiftl 1 fd))))
            else keep_on_exec fd) ;;; ret 0
    | 3 => fil f_flags f
    | 4 => let m := Z.lor O_APPEND O_NONBLOCK in
           (let* fl := fil f_flags f in
            set_file f_flags f (u16 (Z.lor (Z.land fl (Z.lnot m)) (Z.land arg m)))) ;;; ret 0
    | _ => ret (-1)
    end
  end.

(** ** [sys_pipe] *)

(** The first two indices that satisfy [p]. *)
Definition first_two {A} (p : A -> bool) (l : list A) : list nat :=
  take 2 (omap (fun ix => if p ix.2 then Some ix.1 else None) (zip (seq 0 (length l)) l)).

(** The two longs are written to [fildes]. *)
Definition sys_pipe (fildes : Z) : M fs_state Z :=
  let* l := get file_table in
  let fs := first_two (fun f => negb (cbool (f_count f))) l in
  for_each fs (fun f => bump_file f 1) ;;;
  match fs with
  | [f0; f1] =>
    let* t := current_task in
    let fds := first_two (fun p => p =? 0) (ts_filp t) in
    for_each (zip fds fs) (fun x => set_filp (Z.of_nat x.1) (Some x.2)) ;;;
    match fds with
    | [d0; d1] =>
      let d0 := Z.of_nat d0 in let d1 := Z.of_nat d1 in
      let* o := get_pipe_inode in
      match o with
      | None =>
        set_filp d1 None ;;; set_filp d0 None ;;; set_file f_count f1 0 ;;; set_file f_count f0 0 ;;; ret (-1)
      | Some n =>
        set_file f_inode f1 (Some n) ;;; set_file f_inode f0 (Some n) ;;;
        set_file f_pos f1 0 ;;; set_file f_pos f0 0 ;;;
        set_file f_mode f0 1 ;;;
        set_file f_mode f1 2 ;;;
        put_fs_bytes fildes (le 4 d0) ;;;
        put_fs_bytes (fildes + 4) (le 4 d1) ;;;
        ret 0
      end
    | _ =>
      for_each fds (fun d => set_filp (Z.of_nat d) None) ;;;
      set_file f_count f1 0 ;;; set_file f_count f0 0 ;;; ret (-1)
    end
  | _ => for_each fs (fun f => set_file f_count f 0) ;;; ret (-1)
  end.

(** ** [stat] *)

(** The bytes of a [struct stat], with the padding of its shorts and bytes. *)
Definition stat_bytes (i : m_inode) : list Z :=
  le 2 (i_dev i) ++ le 2 (i_num i) ++ le 2 (i_mode i) ++ le 1 (i_nlinks i) ++ le 1 0
  ++ le 2 (i_uid i) ++ le 1 (i_gid i) ++ le 1 0 ++ le 2 (default 0 (i_zone i !! 0%nat)) ++ le 2 0
  ++ le 4 (i_size i) ++ le 4 (i_atime i) ++ le 4 (i_mtime i) ++ le 4 (i_ctime i).

Definition cp_stat (n : nat) (statbuf : Z) : M fs_state unit :=
  verify_area statbuf 32 ;;;
  let* i := row inode_table n in put_fs_bytes statbuf (stat_bytes i).

Definition sys_stat (filename : list Z) (statbuf : Z) : M fs_state Z :=
  let* o := namei filename in
  match o with
  | None => ret (- ENOENT)
  | Some n => cp_stat n statbuf ;;; iput (Some n) ;;; ret 0
  end.

Definition sys_fstat (fd statbuf : Z) : M fs_state Z :=
  let* o := fd_file fd in
  match o with
  | None => ret (- EBADF)
  | Some f =>
    let* o := fil f_inode f in
    match o with None => ret (- EBADF) | Some n => cp_stat n statbuf ;;; ret 0 end
  end.
End Env.
