(* ===== verification/Bytes.v ===== *)
(** Numbers and structures as bytes: words on disk and in user memory, and the inodes
    in a block of the inode table (fs/inode.c, include/linux/fs.h). *)
From stdpp Require Import base list gmap strings.
From Stdlib Require Import ZArith Lia.
From S2P Require Import Prelude Memory Sched FsState BlkDev Buffer Inode Namei Files.
Open Scope Z_scope.

(** ** Little-endian numbers *)

Definition is_byte (b : Z) : Prop := 0 <= b < 256.

Lemma le_length n v : length (le n v) = n.
Proof. revert v. induction n as [|n IH]; intros v; cbn; [done | by rewrite IH]. Qed.

Lemma le_bytes n v : Forall is_byte (le n v).
Proof. revert v. induction n as [|n IH]; intros v; constructor; [apply Z.mod_pos_bound; lia | apply IH]. Qed.

Lemma unle_le n v : 0 <= v < 256 ^ Z.of_nat n -> unle (le n v) = v.
Proof.
  revert v. induction n as [|n IH]; intros v Hv; [change (256 ^ Z.of_nat 0) with 1 in Hv; cbn; lia |].
  rewrite Nat2Z.inj_succ, Z.pow_succ_r in Hv by lia. cbn [le unle foldr]. fold (unle (le n (v / 256))).
  pose proof (Z.div_mod v 256 ltac:(lia)). pose proof (Z.mod_pos_bound v 256 ltac:(lia)).
  rewrite IH; [lia |]. split; [apply Z.div_pos; lia | apply Z.div_lt_upper_bound; lia].
Qed.

Lemma unle_range l : Forall is_byte l -> 0 <= unle l < 256 ^ Z.of_nat (length l).
Proof.
  induction 1 as [|b l Hb _ IH]; cbn [unle foldr length]; [done |]. fold (unle l).
  rewrite Nat2Z.inj_succ, Z.pow_succ_r by lia. unfold is_byte in Hb. lia.
Qed.

Lemma le_unle l : Forall is_byte l -> le (length l) (unle l) = l.
Proof.
  induction 1 as [|b l Hb Hl IH]; [done |]. cbn [length le unle foldr]. fold (unle l). unfold is_byte in Hb. f_equal.
  - rewrite Z.add_comm, (Z.mul_comm 256). rewrite Z.add_mod, Z.mod_mul, Z.add_0_l, Z.mod_mod by lia. by apply Z.mod_small.
  - rewrite (Z.mul_comm 256), Z.div_add, Z.div_small by lia. by rewrite Z.add_0_l, IH.
Qed.

(** ** Bytes in user memory *)

Lemma store_bytes_app l l' a m : store_bytes a (l ++ l') m = store_bytes (a + Z.of_nat (length l)) l' (store_bytes a l m).
Proof.
  revert a m. induction l as [|c l IH]; intros a m; cbn [app store_bytes length]; [by rewrite Z.add_0_r |].
  rewrite IH. f_equal. lia.
Qed.

Lemma store_bytes_lookup l a m x :
  store_bytes a l m !! x
  = (if decide (a <= x < a + Z.of_nat (length l)) then l !! Z.to_nat (x - a) else m !! x).
Proof.
  revert a m. induction l as [|c l IH]; intros a m; cbn [store_bytes length].
  - by rewrite decide_False by lia.
  - rewrite IH. destruct (decide (x = a)) as [->|Hx].
    + rewrite decide_False by lia. rewrite decide_True by lia. by rewrite lookup_insert_eq, Z.sub_diag.
    + destruct (decide (a + 1 <= x < a + 1 + Z.of_nat (length l))).
      * rewrite decide_True by lia. replace (Z.to_nat (x - a)) with (S (Z.to_nat (x - (a + 1)))) by lia. done.
      * rewrite decide_False by lia. by rewrite lookup_insert_ne.
Qed.

Lemma load_bytes_lookup n a m k : (k < n)%nat -> load_bytes n a m !! k = Some (default 0 (m !! (a + Z.of_nat k))).
Proof.
  revert a k. induction n as [|n IH]; intros a k Hk; [lia |]. destruct k as [|k]; cbn [load_bytes lookup list_lookup].
  - by rewrite Z.add_0_r.
  - fold (lookup (M := list Z) k). rewrite IH by lia. do 3 f_equal. lia.
Qed.

Lemma load_bytes_length n a m : length (load_bytes n a m) = n.
Proof. revert a. induction n as [|n IH]; intros a; cbn; [done | by rewrite IH]. Qed.

Lemma load_bytes_split n m a u : load_bytes (n + m) a u = load_bytes n a u ++ load_bytes m (a + Z.of_nat n) u.
Proof.
  revert a. induction n as [|n IH]; intros a; cbn [load_bytes Nat.add app]; [by rewrite Z.add_0_r |]. rewrite IH. do 2 f_equal. f_equal. lia.
Qed.

Lemma load_store l a m : load_bytes (length l) a (store_bytes a l m) = l.
Proof.
  apply list_eq. intros k. destruct (decide (k < length l)%nat) as [Hk|Hk].
  - rewrite load_bytes_lookup by done. rewrite store_bytes_lookup, decide_True by lia.
    replace (Z.to_nat (a + Z.of_nat k - a)) with k by lia. destruct (lookup_lt_is_Some_2 _ _ Hk) as (x & ->). done.
  - rewrite !lookup_ge_None_2; [done | lia | rewrite load_bytes_length; lia].
Qed.

(** Storing elsewhere. *)
Lemma load_store_other n l a b m :
  a + Z.of_nat n <= b \/ b + Z.of_nat (length l) <= a -> load_bytes n a (store_bytes b l m) = load_bytes n a m.
Proof.
  intros H. apply list_eq. intros k. destruct (decide (k < n)%nat) as [Hk|Hk].
  - rewrite !load_bytes_lookup by done. by rewrite store_bytes_lookup, decide_False by lia.
  - by rewrite !lookup_ge_None_2 by (rewrite load_bytes_length; lia).
Qed.

(** ** Inodes on disk *)

(** The part of an inode that is stored has fields of the size they have on disk. *)
Record inode_fits (i : m_inode) : Prop := {
  fits_mode : 0 <= i_mode i < 2 ^ 16; fits_uid : 0 <= i_uid i < 2 ^ 16; fits_size : 0 <= i_size i < 2 ^ 32;
  fits_mtime : 0 <= i_mtime i < 2 ^ 32; fits_gid : 0 <= i_gid i < 2 ^ 8; fits_nlinks : 0 <= i_nlinks i < 2 ^ 8;
  fits_zones : length (i_zone i) = 9%nat; fits_zone : Forall (fun z => 0 <= z < 2 ^ 16) (i_zone i) }.

(** [j] with the stored fields of [i]. *)
Definition with_disk_part (i j : m_inode) : m_inode :=
  put i_mode (i_mode i) (put i_uid (i_uid i) (put i_size (i_size i) (put i_mtime (i_mtime i)
  (put i_gid (i_gid i) (put i_nlinks (i_nlinks i) (put i_zone (i_zone i) j)))))).

Lemma zones_length l : length (concat (map (le 2) l)) = (2 * length l)%nat.
Proof. induction l as [|z l IH]; [done |]. cbn [map concat length]. rewrite length_app, le_length, IH. lia. Qed.

Lemma d_inode_length i : length (i_zone i) = 9%nat -> length (d_inode_bytes i) = 32%nat.
Proof. intros Hz. unfold d_inode_bytes. by rewrite !length_app, !le_length, zones_length, Hz. Qed.

Lemma two_bytes v : 0 <= v < 2 ^ 16 -> v mod 256 + 256 * (v / 256 mod 256 + 256 * 0) = v.
Proof. apply (unle_le 2). Qed.
Lemma four_bytes v : 0 <= v < 2 ^ 32 ->
  v mod 256 + 256 * (v / 256 mod 256 + 256 * (v / 256 / 256 mod 256 + 256 * (v / 256 / 256 / 256 mod 256 + 256 * 0))) = v.
Proof. apply (unle_le 4). Qed.
Lemma one_byte v : 0 <= v < 2 ^ 8 -> v mod 256 + 256 * 0 = v.
Proof. apply (unle_le 1). Qed.

(** What was written is what is read. *)
Lemma d_inode_read i j : inode_fits i -> d_inode_of (d_inode_bytes i) j = with_disk_part i j.
Proof.
  intros [H1 H2 H3 H4 H5 H6 H7 H8]. unfold d_inode_of, d_inode_bytes, with_disk_part, bytes_at.
  destruct (i_zone i) as [|z0 [|z1 [|z2 [|z3 [|z4 [|z5 [|z6 [|z7 [|z8 [|]]]]]]]]]]; try done.
  repeat (apply Forall_cons_1 in H8 as (? & H8)).
  cbn -[Z.modulo Z.div Z.add Z.mul put]. by rewrite !four_bytes, !two_bytes, !one_byte by assumption.
Qed.

Lemma le_bytes_at l n k : Forall is_byte l -> (n + k <= length l)%nat -> le k (bytes_at l n k) = take k (drop n l).
Proof.
  intros Hl Hn. unfold bytes_at. assert (E : length (take k (drop n l)) = k) by (rewrite length_take, length_drop; lia).
  rewrite <- E at 1. apply le_unle. by apply Forall_take, Forall_drop.
Qed.

(** Slices of a list put together again. *)
Lemma slice_app {A} (l : list A) n k : take k (drop n l) ++ drop (k + n) l = drop n l.
Proof. rewrite (Nat.add_comm k n), <- drop_drop. apply take_drop. Qed.
Lemma pairs_slice {A} (l : list A) n k : concat (map (fun i => take 2 (drop (n + 2 * i) l)) (seq 0 k)) = take (2 * k) (drop n l).
Proof.
  revert n. induction k as [|k IH]; intros n; [done |]. cbn [seq map concat]. rewrite Nat.mul_0_r, Nat.add_0_r.
  rewrite <- (seq_shift k 0), map_map, (map_ext _ (fun i => take 2 (drop (n + 2 + 2 * i) l))) by (intros i; do 2 f_equal; lia).
  rewrite IH. replace (2 * S k)%nat with (2 + 2 * k)%nat by lia. rewrite <- drop_drop.
  generalize (drop n l). intros m. apply take_take_drop.
Qed.

(** The fields of an inode read from [l]. *)
Section Fields.
Context (l : list Z) (j : m_inode).
Lemma d_inode_mode : i_mode (d_inode_of l j) = bytes_at l 0 2. Proof. reflexivity. Qed.
Lemma d_inode_uid : i_uid (d_inode_of l j) = bytes_at l 2 2. Proof. reflexivity. Qed.
Lemma d_inode_size : i_size (d_inode_of l j) = bytes_at l 4 4. Proof. reflexivity. Qed.
Lemma d_inode_mtime : i_mtime (d_inode_of l j) = bytes_at l 8 4. Proof. reflexivity. Qed.
Lemma d_inode_gid : i_gid (d_inode_of l j) = bytes_at l 12 1. Proof. reflexivity. Qed.
Lemma d_inode_nlinks : i_nlinks (d_inode_of l j) = bytes_at l 13 1. Proof. reflexivity. Qed.
Lemma d_inode_zone : i_zone (d_inode_of l j) = map (fun k => bytes_at l (14 + 2 * k) 2) (seq 0 9). Proof. reflexivity. Qed.
End Fields.

(** And the other way round: what was read is what is written back. *)
Lemma d_inode_write l j : length l = 32%nat -> Forall is_byte l -> d_inode_bytes (d_inode_of l j) = l.
Proof.
  intros Hl Hb.
  unfold d_inode_bytes. rewrite d_inode_mode, d_inode_uid, d_inode_size, d_inode_mtime, d_inode_gid, d_inode_nlinks, d_inode_zone, map_map, !le_bytes_at by (done || lia).
  rewrite (map_ext_in _ (fun k => take 2 (drop (14 + 2 * k) l))).
  2:{ intros k Hk. apply in_seq in Hk. apply le_bytes_at; [done | lia]. }
  rewrite pairs_slice. change (2 * 9)%nat with 18%nat. rewrite (take_ge (drop 14 l) 18) by (rewrite length_drop; lia).
  rewrite !slice_app. by rewrite drop_0.
Qed.

(** An inode read from bytes has every field in the range of its C type. *)
Lemma bytes_at_range l n k : Forall is_byte l -> (n + k <= length l)%nat -> 0 <= bytes_at l n k < 2 ^ (8 * Z.of_nat k).
Proof.
  intros Hl Hn. unfold bytes_at. assert (E : length (take k (drop n l)) = k) by (rewrite length_take, length_drop; lia).
  pose proof (unle_range (take k (drop n l)) ltac:(by apply Forall_take, Forall_drop)) as H. rewrite E in H.
  rewrite Z.pow_mul_r by lia. exact H.
Qed.
Lemma d_inode_fits l j : length l = 32%nat -> Forall is_byte l -> inode_fits (d_inode_of l j).
Proof.
  intros Hl Hb.
  assert (H : forall n k, (n + k <= 32)%nat -> 0 <= bytes_at l n k < 2 ^ (8 * Z.of_nat k)) by (intros; apply bytes_at_range; [done | lia]).
  split; rewrite ?d_inode_mode, ?d_inode_uid, ?d_inode_size, ?d_inode_mtime, ?d_inode_gid, ?d_inode_nlinks, ?d_inode_zone;
    [apply (H _ 2%nat) | apply (H _ 2%nat) | apply (H _ 4%nat) | apply (H _ 4%nat) | apply (H _ 1%nat) | apply (H _ 1%nat) | by rewrite length_map |];
    try lia.
  apply List.Forall_map, List.Forall_forall. intros k Hk. apply in_seq in Hk. apply (H (14 + 2 * k)%nat 2%nat). lia.
Qed.

Lemma d_inode_bytes_range i : Forall is_byte (d_inode_bytes i).
Proof.
  unfold d_inode_bytes. rewrite !Forall_app. repeat split; try apply le_bytes.
  induction (i_zone i) as [|z l IH]; [constructor |]. apply Forall_app. split; [apply le_bytes | exact IH].
Qed.

(** Splicing a piece of fixed length into a list of slots. *)
Section Slots.
Context (d : list Z) (l : list Z) (w i : nat).
Hypothesis d_length : length d = w.
Hypothesis fits : (w * i + w <= length l)%nat.

Lemma splice_length : length (splice (w * i) d l) = length l.
Proof. unfold splice. rewrite !length_app, length_take, length_drop. lia. Qed.

Lemma splice_same : take w (drop (w * i) (splice (w * i) d l)) = d.
Proof.
    unfold splice. rewrite drop_app_length' by (rewrite length_take; lia). by apply take_app_length'.
Qed.

Lemma splice_other k : k <> i -> take w (drop (w * k) (splice (w * i) d l)) = take w (drop (w * k) l).
Proof.
    intros Hk. apply list_eq. intros n. destruct (decide (n < w)%nat) as [Hn|Hn]; [| by rewrite !lookup_take_ge by lia].
    rewrite !lookup_take_lt, !lookup_drop by lia. unfold splice.
    destruct (decide (k < i)%nat).
    - rewrite lookup_app_l by (rewrite length_take; nia). apply lookup_take_lt. nia.
    - rewrite lookup_app_r by (rewrite length_take; nia). rewrite length_take, Nat.min_l by lia.
      rewrite lookup_app_r by nia. rewrite lookup_drop, d_length. f_equal. nia.
Qed.
End Slots.

(** The slot of an inode in its block. *)
Definition slot_of (i : m_inode) : nat := Z.to_nat (u32 (i_num i - 1) mod INODES_PER_BLOCK).
Lemma slot_small i : (slot_of i < 32)%nat.
Proof. unfold slot_of. change INODES_PER_BLOCK with 32. pose proof (Z.mod_pos_bound (u32 (i_num i - 1)) 32). lia. Qed.
Lemma inode_offset_slot i : inode_offset i = (32 * slot_of i)%nat.
Proof. unfold inode_offset, slot_of. change INODES_PER_BLOCK with 32. rewrite Z2Nat.inj_mul; [done | lia |]. apply Z.mod_pos_bound. lia. Qed.

(** ** Bytes of words *)

Lemma byte_set x k j v : 0 <= x < 2 ^ 32 -> 0 <= k < 4 -> 0 <= j < 4 -> 0 <= v < 256 ->
  let y := x + (v - x / 256 ^ k mod 256) * 256 ^ k in
  0 <= y < 2 ^ 32 /\ y / 256 ^ j mod 256 = if k =? j then v else x / 256 ^ j mod 256.
Proof.
  intros Hx Hk Hj Hv y.
  assert (Ek : k = 0 \/ k = 1 \/ k = 2 \/ k = 3) by lia. assert (Ej : j = 0 \/ j = 1 \/ j = 2 \/ j = 3) by lia.
  unfold y. clear y.
  destruct Ek as [-> | [-> | [-> | ->]]], Ej as [-> | [-> | [-> | ->]]]; cbn [Z.eqb Pos.eqb Z.pow Z.pow_pos Pos.iter Z.mul Pos.mul] in *; split; Z.to_euclidean_division_equations; lia.
Qed.

(** [s'] has byte [v] at [a] and is [s] otherwise. *)
Record byte_put (a v : Z) (s s' : mm) : Prop := {
  bp_words : words (rd s');
  bp_byte : forall b, rd_byte s' b = if b =? a then v else rd_byte s b;
  bp_word : forall b, b <> a - a mod 4 -> rd s' b = rd s b;
  bp_map : mem_map s' = mem_map s;
  bp_high : HIGH_MEMORY s' = HIGH_MEMORY s }.

Lemma store_byte_ok s a v : words (rd s) -> 0 <= v < 256 -> exists s', store_byte a v s = Ok tt s' /\ byte_put a v s s'.
Proof.
  intros Hw Hv. eexists. split; [reflexivity |].
  assert (Hk : 0 <= a mod 4 < 4) by (apply Z.mod_pos_bound; lia).
  constructor; try done.
  - intros b. rewrite rd_store. unfold upd. case_match; [| apply Hw]. rewrite u8_small by lia.
    apply (byte_set (rd s (a - a mod 4)) (a mod 4) 0 v); [apply Hw | lia | lia | lia].
  - intros b. unfold rd_byte. rewrite rd_store. unfold upd. assert (Hj : 0 <= b mod 4 < 4) by (apply Z.mod_pos_bound; lia).
    destruct (b - b mod 4 =? a - a mod 4) eqn:E.
    + apply Z.eqb_eq in E. rewrite u8_small, (proj2 (byte_set _ _ _ _ (Hw _) Hk Hj Hv)), E by lia.
      by replace (b =? a) with (a mod 4 =? b mod 4) by blia.
    + apply Z.eqb_neq in E. by rewrite (proj2 (Z.eqb_neq b a)) by congruence.
  - intros b Hb. rewrite rd_store. unfold upd. by rewrite (proj2 (Z.eqb_neq _ _)).
Qed.

Lemma rd_byte_range s a : 0 <= rd_byte s a < 256.
Proof. apply Z.mod_pos_bound. lia. Qed.

Lemma byte_word s s' a : rd s (a - a mod 4) = rd s' (a - a mod 4) -> rd_byte s a = rd_byte s' a.
Proof. unfold rd_byte. by intros ->. Qed.

(** Consecutive bytes stored. *)
Lemma store_all_ok l : forall s a, words (rd s) -> Forall is_byte l -> exists s', store_all a l s = Ok tt s' /\ words (rd s')
  /\ (forall b, rd_byte s' b = default (rd_byte s b) (if b <? a then None else l !! Z.to_nat (b - a)))
  /\ mem_map s' = mem_map s /\ HIGH_MEMORY s' = HIGH_MEMORY s.
Proof.
  induction l as [|v l IH]; intros s a Hw Hl.
  - exists s. split_and!; [done | done | | done | done]. intros b. by destruct (b <? a).
  - apply Forall_cons in Hl as [Hv Hl]. destruct (store_byte_ok s a v Hw Hv) as (s1 & E1 & [Hw1 Hb1 _ Hm1 Hh1]).
    destruct (IH s1 (a + 1) Hw1 Hl) as (s2 & E2 & Hw2 & Hb2 & Hm2 & Hh2). exists s2. cbn [store_all].
    rewrite (bind_Ok _ _ _ _ _ E1). split_and!; [done | done | | congruence | congruence]. intros b. rewrite Hb2, Hb1.
    destruct (Z.ltb_spec b (a + 1)), (Z.ltb_spec b a); try lia.
    + cbn. by rewrite (proj2 (Z.eqb_neq b a)) by lia.
    + replace b with a by lia. by rewrite Z.sub_diag, Z.eqb_refl.
    + rewrite (proj2 (Z.eqb_neq b a)) by lia. replace (Z.to_nat (b - a)) with (S (Z.to_nat (b - (a + 1)))) by lia. done.
Qed.
