(* ===== verification/Build.v ===== *)
(** The program that puts the boot sector, the setup code and the kernel together
    (tools/build.c), and what its image is: the parts at their places, or an error. *)
From stdpp Require Import base list strings.
From Stdlib Require Import ZArith Lia.
From S2P Require Import Prelude Memory FsState Buffer Files Bytes.
Open Scope Z_scope.

Definition MINIX_HEADER : Z := 32.
Definition GCC_HEADER : Z := 1024.
Definition SYS_SIZE : Z := 0x2000.
Definition DEFAULT_MAJOR_ROOT : Z := 3.
Definition DEFAULT_MINOR_ROOT : Z := 6.
Definition SETUP_SECTS : Z := 4.
Definition BUF_SIZE : Z := 1024.

(** What is left of the open file, [buf], and what was written to the standard output. *)
Record build_state := mk_build { bs_in : list Z; bs_buf : list Z; bs_out : list Z }.
#[export] Instance build_fields : Fields build_state := fun s => mk_build (bs_in s) (bs_buf s) (bs_out s).

(** The contents of a file that can be opened, the device number of a file that exists, and
    how many of so many bytes are written behind the first ones. *)
Class Files := { contents : string -> option (list Z); rdev : string -> option Z; writes : Z -> Z -> Z }.

Section Build.
Context `{Files}.

Definition die {A} : M build_state A := exit_with 1.
Definition open_file (name : string) : M build_state unit :=
  match contents name with None => die | Some l => modify (put bs_in l) end.
Definition read_buf (n : Z) : M build_state Z :=
  let* l := get bs_in in
  let d := take (Z.to_nat n) l in
  modify (put bs_in (drop (Z.to_nat n) l)) ;;;
  modify (over bs_buf (fun b => d ++ drop (length d) b)) ;;;
  ret (Z.of_nat (length d)).
Definition write_buf (n : Z) : M build_state unit :=
  let* s := get id in
  let c := writes (Z.of_nat (length (bs_out s))) n in
  modify (put bs_out (bs_out s ++ take (Z.to_nat c) (bs_buf s))) ;;;
  if negb (c =? n) then die else ret tt.
(** A [long] and an [unsigned short] of the buffer. *)
Definition long_at (k : nat) (b : list Z) : Z := s32 (unle (take 4 (drop (4 * k) b))).
Definition short_at (k : nat) (b : list Z) : Z := unle (take 2 (drop k b)).
Definition check (p : list Z -> bool) : M build_state unit := let* b := get bs_buf in if p b then ret tt else die.

(** The header of the first two files. *)
Definition minix_header : M build_state unit :=
  let* n := read_buf MINIX_HEADER in
  (if negb (n =? MINIX_HEADER) then die else ret tt) ;;;
  check (fun b => long_at 0 b =? 0x04100301) ;;;
  check (fun b => long_at 1 b =? MINIX_HEADER) ;;;
  check (fun b => long_at 3 b =? 0) ;;;
  check (fun b => long_at 4 b =? 0) ;;;
  check (fun b => long_at 5 b =? 0) ;;;
  check (fun b => long_at 7 b =? 0).
(** [i += c] for an [int]; an overflow is undefined. *)
Definition plus (i c : Z) : M build_state Z := if i + c <? 2 ^ 31 then ret (i + c) else ub.
(** [for (i=0 ; (c=read(id,buf,sizeof buf))>0 ; i+=c ) write] *)
Fixpoint copy_file (fuel : nat) (i : Z) : M build_state Z :=
  match fuel with
  | O => ub
  | S fuel =>
    let* c := read_buf BUF_SIZE in
    if c <=? 0 then ret i else write_buf c ;;; let* i := plus i c in copy_file fuel i
  end.
Definition copy_rest : M build_state Z := let* l := get bs_in in copy_file (S (length l)) 0.
Fixpoint pad_setup (fuel : nat) (i : Z) : M build_state unit :=
  match fuel with
  | O => ub
  | S fuel =>
    if i <? SETUP_SECTS * 512 then
      let c := Z.min (SETUP_SECTS * 512 - i) BUF_SIZE in
      write_buf c ;;; let* i := plus i c in pad_setup fuel i
    else ret tt
  end.

(** The root device: major and minor number. *)
Definition root_device (argv : list string) : M build_state (Z * Z) :=
  match argv with
  | [_; _; _; root] =>
    if String.eqb root "FLOPPY" then ret (0, 0)
    else match rdev root with None => die | Some d => ret (s8 (MAJOR d), s8 (MINOR d)) end
  | _ => ret (DEFAULT_MAJOR_ROOT, DEFAULT_MINOR_ROOT)
  end.
(** The three parts of [main] behind the arguments. *)
Definition boot_part (boot : string) (major_root minor_root : Z) : M build_state unit :=
  modify (put bs_buf (replicate (Z.to_nat BUF_SIZE) 0)) ;;;
  open_file boot ;;;
  minix_header ;;;
  let* i := read_buf BUF_SIZE in
  (if negb (i =? 512) then die else ret tt) ;;;
  check (fun b => short_at 510 b =? 0xAA55) ;;;
  modify (over bs_buf (fun b => <[509%nat := u8 major_root]> (<[508%nat := u8 minor_root]> b))) ;;;
  write_buf 512.
Definition setup_part (setup : string) : M build_state unit :=
  open_file setup ;;;
  minix_header ;;;
  let* i := copy_rest in
  (if SETUP_SECTS * 512 <? i then die else ret tt) ;;;
  modify (put bs_buf (replicate (Z.to_nat BUF_SIZE) 0)) ;;;
  pad_setup (S (Z.to_nat (SETUP_SECTS * 512))) i.
Definition system_part (system : string) : M build_state unit :=
  open_file system ;;;
  let* n := read_buf GCC_HEADER in
  (if negb (n =? GCC_HEADER) then die else ret tt) ;;;
  check (fun b => long_at 5 b =? 0) ;;;
  let* i := copy_rest in
  if SYS_SIZE * 16 <? i then die else ret tt.
(** [argv] is without the name of the program. *)
Definition main (argv : list string) : M build_state Z :=
  match argv with
  | boot :: setup :: system :: rest =>
    (if (1 <? length rest)%nat then die else ret tt) ;;;
    let* (major_root, minor_root) := root_device argv in
    (if negb (major_root =? 2) && negb (major_root =? 3) && negb (major_root =? 0) then die else ret tt) ;;;
    boot_part boot major_root minor_root ;;;
    setup_part setup ;;;
    system_part system ;;;
    ret 0
  | _ => die
  end.

(** ** What it should do *)

(** A part with its header of [n] bytes taken off, if that is what [ok] says. *)
Definition stripped (n : nat) (ok : list Z -> bool) (l : list Z) : option (list Z) :=
  if (n <=? length l)%nat && ok (take n l) then Some (drop n l) else None.
Definition minix_ok (b : list Z) : bool :=
  (long_at 0 b =? 0x04100301) && (long_at 1 b =? MINIX_HEADER) && (long_at 3 b =? 0) && (long_at 4 b =? 0) && (long_at 5 b =? 0) && (long_at 7 b =? 0).
Definition gcc_ok (b : list Z) : bool := long_at 5 b =? 0.

Definition boot_ok (b : list Z) : bool := (length b =? 512)%nat && (short_at 510 b =? 0xAA55).
Definition setup_ok (p : list Z) : bool := (length p <=? 2048)%nat.
Definition system_ok (k : list Z) : bool := Z.of_nat (length k) <=? 0x20000.
(** The image: the boot sector with the root device in it, the setup code filled up to four
    sectors, and the kernel. *)
Definition boot_sector (major minor : Z) (b : list Z) : list Z := take 508 b ++ [u8 minor; u8 major] ++ drop 510 b.
Definition setup_sectors (p : list Z) : list Z := p ++ replicate (2048 - length p) 0.
Definition part (name : string) (n : nat) (header ok : list Z -> bool) : option (list Z) :=
  l ← contents name ≫= stripped n header; if ok l then Some l else None.
Definition root_of (argv : list string) : option (Z * Z) :=
  match argv with
  | [_; _; _] => Some (3, 6)
  | [_; _; _; root] => if String.eqb root "FLOPPY" then Some (0, 0) else d ← rdev root; Some (s8 (MAJOR d), s8 (MINOR d))
  | _ => None
  end.
Definition expected (argv : list string) : option (list Z) :=
  match argv, root_of argv with
  | boot :: setup :: system :: _, Some (major, minor) =>
    if bool_decide (major ∈ [0; 2; 3]) then
      b ← part boot 32 minix_ok boot_ok;
      p ← part setup 32 minix_ok setup_ok;
      k ← part system 1024 gcc_ok system_ok;
      Some (boot_sector major minor b ++ setup_sectors p ++ k)
    else None
  | _, _ => None
  end.

Definition dies {A} (o : outcome build_state A) : Prop := exists s, o = Exit 1 s.
Lemma dies_bind {A B} (m : M build_state A) (k : A -> M build_state B) s : dies (m s) -> dies ((let* x := m in k x) s).
Proof. intros (s' & E). exists s'. unfold bind. by rewrite E. Qed.
Lemma dies_now {A} s : dies (@die A s).
Proof. by exists s. Qed.

Hypothesis Hw : forall o n, writes o n = n.

Hypothesis Hsize : forall name l, contents name = Some l -> Z.of_nat (length l) < 2 ^ 31.

Lemma plus_then {A} i c (k : Z -> M build_state A) s : i + c < 2 ^ 31 -> (let* i := plus i c in k i) s = k (i + c) s.
Proof. intros Hi. unfold plus. by rewrite (proj2 (Z.ltb_lt _ _) Hi). Qed.
Lemma stripped_length n ok l r : stripped n ok l = Some r -> (length r <= length l)%nat.
Proof. unfold stripped. case_match; [| done]. intros [= <-]. rewrite length_drop. lia. Qed.
Lemma read_buf_ok n s : length (bs_buf s) = 1024%nat -> 0 <= n <= 1024 -> let d := take (Z.to_nat n) (bs_in s) in
  read_buf n s = Ok (Z.of_nat (length d)) (mk_build (drop (Z.to_nat n) (bs_in s)) (d ++ drop (length d) (bs_buf s)) (bs_out s))
  /\ length (d ++ drop (length d) (bs_buf s)) = 1024%nat.
Proof.
  intros Hl Hn d. split; [by destruct s |]. rewrite length_app, length_drop, Hl. unfold d. rewrite length_take. lia.
Qed.
Lemma write_buf_ok n s : length (bs_buf s) = 1024%nat -> 0 <= n <= 1024 -> write_buf n s = Ok tt (mk_build (bs_in s) (bs_buf s) (bs_out s ++ take (Z.to_nat n) (bs_buf s))).
Proof. intros Hl Hn. unfold write_buf, bind, get, modify, id. cbn. rewrite Hw, Z.eqb_refl. by destruct s. Qed.
Lemma long_at_app k n l r : (4 * k + 4 <= n)%nat -> (n <= length l)%nat -> long_at k (take n l ++ r) = long_at k (take n l).
Proof.
  intros Hk Hn. unfold long_at. f_equal. f_equal. rewrite drop_app_le by (rewrite length_take; lia). rewrite take_app_le; [done |]. rewrite length_drop, length_take. lia.
Qed.
Lemma ret_then {A B} (a : A) (k : A -> M build_state B) s : (let* x := ret a in k x) s = k a s.
Proof. done. Qed.
Lemma check_ok p s : check p s = if p (bs_buf s) then Ok tt s else Exit 1 s.
Proof. unfold check, bind, get, die, exit_with, ret. by destruct (p (bs_buf s)). Qed.
Lemma check_then {A} p (k : unit -> M build_state A) s : (let* x := check p in k x) s = if p (bs_buf s) then k tt s else Exit 1 s.
Proof. unfold bind. rewrite check_ok. by destruct (p (bs_buf s)). Qed.
Lemma minix_header_ok s : length (bs_buf s) = 1024%nat -> match stripped 32 minix_ok (bs_in s) with
  | Some r => exists b, minix_header s = Ok tt (mk_build r b (bs_out s)) /\ length b = 1024%nat
  | None => dies (minix_header s)
  end.
Proof.
  intros Hl. destruct (read_buf_ok MINIX_HEADER s Hl ltac:(unfold MINIX_HEADER; lia)) as (E & Hb). cbv zeta in E, Hb.
  change (Z.to_nat MINIX_HEADER) with 32%nat in *. rewrite length_take in E, Hb. unfold stripped.
  destruct (Nat.leb_spec 32 (length (bs_in s))) as [Hle | Hlt]; cbn [andb].
  - rewrite Nat.min_l in * by done. set (b := take 32 (bs_in s) ++ _) in *.
    assert (Ek : forall k, (k <= 7)%nat -> long_at k b = long_at k (take 32 (bs_in s))) by (intros k Hk; apply long_at_app; lia).
    assert (Eh : minix_header s = if minix_ok (take 32 (bs_in s)) then Ok tt (mk_build (drop 32 (bs_in s)) b (bs_out s)) else Exit 1 (mk_build (drop 32 (bs_in s)) b (bs_out s))).
    { unfold minix_header, minix_ok. rewrite (bind_Ok _ _ _ _ _ E). change (Z.of_nat 32 =? MINIX_HEADER) with true. cbn [negb]. unfold bind at 1, ret at 1.
      rewrite !check_then, check_ok. cbn [bs_buf]. rewrite !Ek by lia. by repeat (destruct (long_at _ _ =? _); cbn [andb]; [| done]). }
    rewrite Eh. destruct (minix_ok _); [by exists b | by eexists].
  - unfold minix_header. rewrite (bind_Ok _ _ _ _ _ E). apply dies_bind. rewrite (proj2 (Z.eqb_neq _ MINIX_HEADER)) by (unfold MINIX_HEADER; lia). apply dies_now.
Qed.
Lemma copy_file_ok fuel : forall i s, length (bs_buf s) = 1024%nat -> (length (bs_in s) < fuel)%nat -> i + Z.of_nat (length (bs_in s)) < 2 ^ 31 ->
  exists b, copy_file fuel i s = Ok (i + Z.of_nat (length (bs_in s))) (mk_build [] b (bs_out s ++ bs_in s)) /\ length b = 1024%nat.
Proof.
  induction fuel as [|fuel IH]; intros i s Hl Hf Hi; [lia |]. cbn [copy_file].
  destruct (read_buf_ok BUF_SIZE s Hl ltac:(unfold BUF_SIZE; lia)) as (E & Hb). cbv zeta in E, Hb. rewrite (bind_Ok _ _ _ _ _ E). change (Z.to_nat BUF_SIZE) with 1024%nat in *.
  set (d := take 1024 (bs_in s)) in *. assert (Hdl : (length d <= length (bs_in s))%nat) by (unfold d; rewrite length_take; lia). destruct (bs_in s) as [|x l] eqn:Ein.
  - eexists. split; [| exact Hb]. cbn. unfold ret. by rewrite Z.add_0_r, app_nil_r.
  - assert (Hd : (0 < length d <= 1024)%nat) by (unfold d; rewrite length_take; cbn [length]; lia). rewrite (proj2 (Z.leb_gt _ _)) by lia.
    set (s1 := mk_build _ _ _). rewrite (bind_Ok _ _ _ _ _ (write_buf_ok (Z.of_nat (length d)) s1 Hb ltac:(lia))). unfold s1. cbn [bs_in bs_buf bs_out].
    rewrite Nat2Z.id, take_app_length, plus_then by lia. edestruct (IH (i + Z.of_nat (length d)) (mk_build (drop 1024 (x :: l)) (d ++ drop (length d) (bs_buf s)) (bs_out s ++ d))) as (b & E' & Hb');
      [exact Hb | cbn [bs_in]; rewrite length_drop; cbn [length] in *; lia | cbn [bs_in]; rewrite length_drop; unfold d in *; rewrite length_take in *; lia |].
    exists b. split; [| done]. rewrite E'. cbn [bs_in bs_out]. f_equal.
    + rewrite length_drop. unfold d. rewrite length_take. lia.
    + f_equal. rewrite <- app_assoc. f_equal. unfold d. apply take_drop.
Qed.
Lemma pad_setup_ok fuel : forall i s, bs_buf s = replicate 1024 0 -> 0 <= i <= 2048 -> 2048 - i < Z.of_nat fuel ->
  pad_setup fuel i s = Ok tt (mk_build (bs_in s) (bs_buf s) (bs_out s ++ replicate (Z.to_nat (2048 - i)) 0)).
Proof.
  induction fuel as [|fuel IH]; intros i s Hb Hi Hf; [lia |]. cbn [pad_setup]. change (SETUP_SECTS * 512) with 2048. destruct (Z.ltb_spec i 2048) as [Hlt | Hge].
  - cbv zeta. set (c := Z.min (2048 - i) BUF_SIZE). assert (Hc : 0 < c <= 1024 /\ c <= 2048 - i) by (unfold c, BUF_SIZE; lia).
    rewrite (bind_Ok _ _ _ _ _ (write_buf_ok c s ltac:(by rewrite Hb) ltac:(lia))). rewrite plus_then by lia. rewrite IH by (done || lia). cbn [bs_in bs_buf bs_out]. do 2 f_equal.
    rewrite Hb, take_replicate, <- app_assoc, <- replicate_add. do 3 f_equal. lia.
  - replace i with 2048 by lia. unfold ret. rewrite Z.sub_diag, app_nil_r. by destruct s.
Qed.

Lemma short_at_app b r : (length b = 512)%nat -> short_at 510 (b ++ r) = short_at 510 b.
Proof. intros Hl. unfold short_at. f_equal. rewrite drop_app_le by lia. rewrite take_app_le; [done |]. rewrite length_drop. lia. Qed.
Lemma boot_sector_ok major minor b : length b = 512%nat -> <[509%nat := u8 major]> (<[508%nat := u8 minor]> b) = boot_sector major minor b.
Proof.
  intros Hl. unfold boot_sector. assert (exists p q, b = take 508 b ++ [p; q] ++ drop 510 b) as (p & q & E).
  { destruct (lookup_lt_is_Some_2 b 508 ltac:(lia)) as (p & Hp). destruct (lookup_lt_is_Some_2 b 509 ltac:(lia)) as (q & Hq). exists p, q.
    rewrite <- (take_drop 508 b) at 1. f_equal. by rewrite (drop_S _ _ _ Hp), (drop_S _ _ _ Hq). }
  assert (Ht : length (take 508 b) = 508%nat) by (rewrite length_take; lia). rewrite E at 1.
  rewrite (insert_app_r_alt _ _ 508) by lia. rewrite (insert_app_r_alt _ _ 509) by lia. by rewrite Ht.
Qed.
Lemma open_ok name s l : contents name = Some l -> open_file name s = Ok tt (mk_build l (bs_buf s) (bs_out s)).
Proof. intros E. unfold open_file. rewrite E. by destruct s. Qed.
Lemma open_dies {A} name (k : unit -> M build_state A) s : contents name = None -> dies ((let* x := open_file name in k x) s).
Proof. intros E. apply dies_bind. unfold open_file. rewrite E. apply dies_now. Qed.

Lemma boot_part_ok boot major minor s : match part boot 32 minix_ok boot_ok with
  | Some b => exists buf, boot_part boot major minor s = Ok tt (mk_build [] buf (bs_out s ++ boot_sector major minor b)) /\ length buf = 1024%nat
  | None => dies (boot_part boot major minor s)
  end.
Proof.
  unfold part, boot_part. set (s0 := put bs_buf (replicate (Z.to_nat BUF_SIZE) 0) s). rewrite (bind_Ok _ _ s tt s0) by done.
  assert (Hl : length (bs_buf s0) = 1024%nat) by done.
  destruct (contents boot) as [l |] eqn:El; cbn [mbind option_bind]; [| by apply open_dies]. rewrite (bind_Ok _ _ _ _ _ (open_ok boot s0 l El)).
  set (s1 := mk_build l (bs_buf s0) (bs_out s0)). pose proof (minix_header_ok s1 Hl) as Hh. cbn [bs_in s1] in Hh. destruct (stripped 32 minix_ok l) as [b |]; [| by apply dies_bind].
  destruct Hh as (buf & Eh & Hbuf). rewrite (bind_Ok _ _ _ _ _ Eh). set (s2 := mk_build b buf _).
  destruct (read_buf_ok BUF_SIZE s2 Hbuf ltac:(unfold BUF_SIZE; lia)) as (E & Hb). cbv zeta in E, Hb. change (Z.to_nat BUF_SIZE) with 1024%nat in *. cbn [s2 bs_in bs_buf bs_out] in E, Hb.
  rewrite (bind_Ok _ _ _ _ _ E). cbn [mbind option_bind]. unfold boot_ok.
  destruct (Nat.eqb_spec (length b) 512) as [H512 | Hne]; cbn [andb].
  2: { apply dies_bind. rewrite (proj2 (Z.eqb_neq _ 512)); [apply dies_now |]. rewrite length_take. lia. }
  rewrite take_ge in * by lia. rewrite H512 in *. change (Z.of_nat 512 =? 512) with true. cbn [negb]. rewrite ret_then, check_then. cbn [bs_buf].
  set (s3 := mk_build _ (b ++ drop 512 buf) _). rewrite short_at_app by lia. destruct (short_at 510 b =? 0xAA55); [| by eexists]. cbv iota.
  set (b' := <[509%nat := u8 major]> (<[508%nat := u8 minor]> (b ++ drop 512 buf))). exists b'. rewrite (bind_Ok _ _ s3 tt (mk_build (drop 1024 b) b' (bs_out s))) by done.
  assert (Hb' : length b' = 1024%nat) by (unfold b'; rewrite !length_insert; exact Hb). split; [| done].
  rewrite write_buf_ok by (done || lia). cbn [bs_in bs_buf bs_out]. rewrite (drop_ge b) by lia. do 3 f_equal.
  unfold b'. rewrite !insert_app_l by (rewrite ?length_insert; lia). rewrite take_app_le by (rewrite !length_insert; lia). rewrite take_ge by (rewrite !length_insert; lia).
  by apply boot_sector_ok.
Qed.
Lemma setup_part_ok setup s : length (bs_buf s) = 1024%nat -> match part setup 32 minix_ok setup_ok with
  | Some p => exists buf, setup_part setup s = Ok tt (mk_build [] buf (bs_out s ++ setup_sectors p)) /\ length buf = 1024%nat
  | None => dies (setup_part setup s)
  end.
Proof.
  intros Hl. unfold part, setup_part. destruct (contents setup) as [l |] eqn:El; cbn [mbind option_bind]; [| by apply open_dies]. rewrite (bind_Ok _ _ _ _ _ (open_ok setup s l El)).
  set (s1 := mk_build l (bs_buf s) (bs_out s)). pose proof (minix_header_ok s1 Hl) as Hh. cbn [bs_in s1] in Hh. destruct (stripped 32 minix_ok l) as [p |] eqn:Ep; [| by apply dies_bind].
  apply stripped_length in Ep. specialize (Hsize _ _ El). destruct Hh as (buf & Eh & Hbuf). rewrite (bind_Ok _ _ _ _ _ Eh). set (s2 := mk_build p buf _). destruct (copy_file_ok (S (length p)) 0 s2 Hbuf ltac:(cbn; lia) ltac:(cbn; lia)) as (b2 & Ec & Hb2).
  change (copy_rest s2) with (copy_file (S (length p)) 0 s2) in *. rewrite (bind_Ok copy_rest _ _ _ _ Ec). cbn [s2 bs_in bs_out mbind option_bind]. unfold setup_ok. change (SETUP_SECTS * 512) with 2048.
  destruct (Nat.leb_spec (length p) 2048) as [Hle | Hlt].
  - rewrite (proj2 (Z.ltb_ge _ _)) by lia. rewrite ret_then, (bind_Ok _ _ _ tt (mk_build [] (replicate 1024 0) (bs_out s ++ p))) by done.
    exists (replicate 1024 0). rewrite pad_setup_ok by (done || lia). cbn [bs_in bs_buf bs_out]. split; [| done]. do 2 f_equal. unfold setup_sectors. rewrite <- app_assoc. do 3 f_equal. lia.
  - rewrite (proj2 (Z.ltb_lt _ _)) by lia. apply dies_bind, dies_now.
Qed.
Lemma system_part_ok system s : length (bs_buf s) = 1024%nat -> match part system 1024 gcc_ok system_ok with
  | Some k => exists buf, system_part system s = Ok tt (mk_build [] buf (bs_out s ++ k))
  | None => dies (system_part system s)
  end.
Proof.
  intros Hl. unfold part, system_part. destruct (contents system) as [l |] eqn:El; cbn [mbind option_bind]; [| by apply open_dies]. rewrite (bind_Ok _ _ _ _ _ (open_ok system s l El)).
  set (s1 := mk_build l (bs_buf s) (bs_out s)). destruct (read_buf_ok GCC_HEADER s1 Hl ltac:(unfold GCC_HEADER; lia)) as (E & Hb). cbv zeta in E, Hb. change (Z.to_nat GCC_HEADER) with 1024%nat in *.
  cbn [s1 bs_in bs_buf bs_out] in E, Hb. rewrite (bind_Ok _ _ _ _ _ E). rewrite length_take in *. unfold stripped. destruct (Nat.leb_spec 1024 (length l)) as [Hle | Hlt]; cbn [andb].
  2: { apply dies_bind. rewrite (proj2 (Z.eqb_neq _ GCC_HEADER)); [apply dies_now |]. unfold GCC_HEADER. lia. }
  rewrite Nat.min_l in * by done. change (Z.of_nat 1024 =? GCC_HEADER) with true. cbn [negb]. rewrite ret_then, check_then. cbn [bs_buf].
  rewrite long_at_app by lia. unfold gcc_ok. destruct (long_at 5 (take 1024 l) =? 0); [| by eexists]. cbn [mbind option_bind]. set (s2 := mk_build _ _ _).
  destruct (copy_file_ok (S (length (drop 1024 l))) 0 s2 Hb ltac:(cbn [s2 bs_in]; lia) ltac:(cbn [s2 bs_in]; specialize (Hsize _ _ El); rewrite length_drop; lia)) as (b2 & Ec & Hb2).
  change (copy_rest s2) with (copy_file (S (length (drop 1024 l))) 0 s2) in *. rewrite (bind_Ok copy_rest _ _ _ _ Ec). cbn [s2 bs_in bs_out]. unfold system_ok. change (SYS_SIZE * 16) with 0x20000.
  destruct (Z.leb_spec (Z.of_nat (length (drop 1024 l))) 0x20000) as [Hs | Hs].
  - rewrite (proj2 (Z.ltb_ge _ _)) by lia. by exists b2.
  - rewrite (proj2 (Z.ltb_lt _ _)) by lia. apply dies_now.
Qed.

Lemma root_device_ok boot setup system rest s : (length rest <= 1)%nat -> match root_of (boot :: setup :: system :: rest) with
  | Some r => root_device (boot :: setup :: system :: rest) s = Ok r s
  | None => dies (root_device (boot :: setup :: system :: rest) s)
  end.
Proof.
  intros Hr. destruct rest as [|root [|]]; [done | | cbn in Hr; lia]. cbn. destruct (String.eqb root "FLOPPY"); [done |]. destruct (rdev root); cbn; [done | apply dies_now].
Qed.
Lemma main_ok argv s : match expected argv with
  | Some img => exists s', main argv s = Ok 0 s' /\ bs_out s' = bs_out s ++ img
  | None => dies (main argv s)
  end.
Proof.
  destruct argv as [|boot [|setup [|system rest]]]; try apply dies_now. unfold expected, main.
  destruct (Nat.ltb_spec 1 (length rest)) as [Hlt | Hle].
  { destruct rest as [|? [|]]; cbn in Hlt; [lia | lia |]. apply dies_bind, dies_now. }
  rewrite ret_then. pose proof (root_device_ok boot setup system rest s Hle) as Hr. destruct (root_of _) as [[major minor] |]; [| by apply dies_bind].
  rewrite (bind_Ok _ _ _ _ _ Hr). assert (Hm : bool_decide (major ∈ [0; 2; 3]) = negb (negb (major =? 2) && negb (major =? 3) && negb (major =? 0))).
  { destruct (Z.eqb_spec major 2), (Z.eqb_spec major 3), (Z.eqb_spec major 0); cbn [negb andb]; rewrite ?bool_decide_eq_true, ?bool_decide_eq_false, !elem_of_cons, elem_of_nil; tauto. }
  rewrite Hm. destruct (negb _ && _ && _); cbn [negb]; [apply dies_bind, dies_now |]. rewrite ret_then.
  pose proof (boot_part_ok boot major minor s) as H1. destruct (part boot _ _ _) as [b |]; cbn [mbind option_bind]; [| by apply dies_bind]. destruct H1 as (buf1 & E1 & L1). rewrite (bind_Ok _ _ _ _ _ E1).
  set (s1 := mk_build [] buf1 _). pose proof (setup_part_ok setup s1 L1) as H2. destruct (part setup _ _ _) as [p |]; cbn [mbind option_bind]; [| by apply dies_bind]. destruct H2 as (buf2 & E2 & L2). rewrite (bind_Ok _ _ _ _ _ E2).
  set (s2 := mk_build [] buf2 _). pose proof (system_part_ok system s2 L2) as H3. destruct (part system _ _ _) as [k |]; cbn [mbind option_bind]; [| by apply dies_bind]. destruct H3 as (buf3 & E3). rewrite (bind_Ok _ _ _ _ _ E3).
  eexists. split; [reflexivity |]. cbn. by rewrite <- !app_assoc.
Qed.
End Build.

(** C28: the image of the kernel.  If writing works and no file has 2^31 bytes or more, for
    which the count of bytes overflows, the program returns 0 exactly when it has
    three or four arguments, the root device is allowed, the three files can be opened, their
    headers are right, the boot sector has 512 bytes and its flag, the setup code at most four
    sectors and the kernel at most 0x20000 bytes.  Then the output is the boot sector with the
    minor and major number of the root device at 508 and 509, the setup code filled up with
    zeros to 2048 bytes, and the kernel.  In every other case it exits with 1. *)
Theorem build_image `{Files} argv s : (forall o n, writes o n = n) ->
  (forall name l, contents name = Some l -> Z.of_nat (length l) < 2 ^ 31) -> match expected argv with
  | Some img => exists s', main argv s = Ok 0 s' /\ bs_out s' = bs_out s ++ img
  | None => exists s', main argv s = Exit 1 s'
  end.
Proof. intros Hw Hsize. exact (main_ok Hw Hsize argv s). Qed.

(** Files that are right; the setup code is too long in the second case. *)
Definition demo_header (n : nat) : list Z := take n ([1; 3; 16; 4; 32; 0; 0; 0] ++ replicate 1016 0).
Definition demo_files (setup : nat) : Files := {|
  contents f := if String.eqb f "boot" then Some (demo_header 32 ++ replicate 510 1 ++ [0x55; 0xaa])
    else if String.eqb f "setup" then Some (demo_header 32 ++ replicate setup 2) else if String.eqb f "system" then Some (demo_header 1024 ++ [3]) else None;
  rdev _ := None; writes _ n := n |}.
Lemma demo_files_small n : (n <= 2049)%nat -> forall name l, @contents (demo_files n) name = Some l -> Z.of_nat (length l) < 2 ^ 31.
Proof.
  intros Hn name l. cbn [contents demo_files]. repeat (destruct (String.eqb _ _)); try done; intros E; apply (inj Some) in E as <-;
    rewrite ?length_app, ?length_replicate; change (length (demo_header 32)) with 32%nat; change (length (demo_header 1024)) with 1024%nat; cbn [length]; lia.
Qed.
Lemma build_image_witness :
  (exists s', @main (demo_files 3) ["boot"; "setup"; "system"]%string (mk_build [] [] []) = Ok 0 s' /\ length (bs_out s') = 2561%nat /\ take 4 (drop 508 (bs_out s')) = [6; 3; 0x55; 0xaa])
  /\ exists s', @main (demo_files 2049) ["boot"; "setup"; "system"]%string (mk_build [] [] []) = Exit 1 s'.
Proof.
  split.
  - destruct (@build_image (demo_files 3) ["boot"; "setup"; "system"]%string (mk_build [] [] []) ltac:(done) (demo_files_small 3 ltac:(lia))) as (s' & E & Eo).
    exists s'. split; [exact E |]. rewrite Eo. split; vm_compute; reflexivity.
  - exact (@build_image (demo_files 2049) ["boot"; "setup"; "system"]%string (mk_build [] [] []) ltac:(done) (demo_files_small 2049 ltac:(lia))).
Defined.
