(* ===== verification/PipeSpec.v ===== *)
(** Pipes (fs/pipe.c, Files.v) are queues of bytes: the ring buffer in a page, and reading and
    writing while the other end works. *)
From stdpp Require Import base list gmap strings.
From Stdlib Require Import ZArith Lia.
From S2P Require Import Prelude Memory Sched FsState Wakeup BlkDev Buffer Inode Namei Files Bytes.
Open Scope Z_scope.

(** ** The ring *)

(** The bytes [q] lie from the tail on. *)
Record ring (m : mm) (i : m_inode) (q : list Z) : Prop := {
  rg_zone : exists h t z, i_zone i = h :: t :: z;
  rg_head : 0 <= PIPE_HEAD i < 4096;
  rg_tail : 0 <= PIPE_TAIL i < 4096;
  rg_size : PIPE_SIZE i = Z.of_nat (length q);
  rg_bytes : forall k c, q !! k = Some c -> rd_byte m (i_size i + (PIPE_TAIL i + Z.of_nat k) mod 4096) = c;
  rg_words : words (rd m) }.

Lemma pipe_size_mod i : PIPE_SIZE i = (PIPE_HEAD i - PIPE_TAIL i) mod 4096.
Proof. unfold PIPE_SIZE. change (PAGE_SIZE - 1) with (Z.ones 12). by rewrite Z.land_ones. Qed.

Lemma ring_length m i q : ring m i q -> Z.of_nat (length q) <= 4095.
Proof. intros Hr. pose proof (rg_size _ _ _ Hr) as E. rewrite pipe_size_mod in E. pose proof (Z.mod_pos_bound (PIPE_HEAD i - PIPE_TAIL i) 4096). lia. Qed.

(** Where the head is. *)
Lemma ring_head m i q : ring m i q -> PIPE_HEAD i = (PIPE_TAIL i + Z.of_nat (length q)) mod 4096.
Proof.
  intros [_ Hh Ht Hs _ _]. rewrite pipe_size_mod in Hs. rewrite <- Hs, Zplus_mod_idemp_r. rewrite Zplus_minus, Z.mod_small; [done | lia].
Qed.

(** The fields after a pointer has moved. *)
Definition move_tail (v : Z) (i : m_inode) : m_inode := over i_zone <[1%nat := v mod 4096]> i.
Definition move_head (v : Z) (i : m_inode) : m_inode := over i_zone <[0%nat := v mod 4096]> i.

Lemma pipe_ring_take m i q k : ring m i q -> (k <= length q)%nat -> ring m (move_tail (PIPE_TAIL i + Z.of_nat k) i) (drop k q).
Proof.
  intros [(h & t & z & Ez) Hh Ht Hs Hb Hw] Hk.
  assert (Et : PIPE_TAIL (move_tail (PIPE_TAIL i + Z.of_nat k) i) = (PIPE_TAIL i + Z.of_nat k) mod 4096) by (unfold PIPE_TAIL, move_tail; cbn; by rewrite Ez).
  assert (Eh : PIPE_HEAD (move_tail (PIPE_TAIL i + Z.of_nat k) i) = PIPE_HEAD i) by (unfold PIPE_HEAD, move_tail; cbn; by rewrite Ez).
  pose proof (Z.mod_pos_bound (PIPE_TAIL i + Z.of_nat k) 4096).
  constructor; [unfold move_tail; cbn; rewrite Ez; by eexists _, _, _ | by rewrite Eh | rewrite Et; lia | | | done].
  - rewrite pipe_size_mod, Eh, Et, length_drop, Zminus_mod_idemp_r. rewrite pipe_size_mod in Hs.
    Z.to_euclidean_division_equations; lia.
  - intros j c Hc. rewrite lookup_drop in Hc. rewrite Et. change (i_size (move_tail _ i)) with (i_size i).
    rewrite Zplus_mod_idemp_l, <- Z.add_assoc, <- Nat2Z.inj_add. by apply Hb.
Qed.

Lemma ring_put m m' i q d : ring m i q -> Z.of_nat (length q + length d) <= 4095 -> PIPE_HEAD i + Z.of_nat (length d) <= 4096 -> words (rd m') ->
  (forall a, rd_byte m' a = default (rd_byte m a) (if a <? i_size i + PIPE_HEAD i then None else d !! Z.to_nat (a - (i_size i + PIPE_HEAD i)))) ->
  ring m' (move_head (PIPE_HEAD i + Z.of_nat (length d)) i) (q ++ d).
Proof.
  intros Hr Hl Hd Hw' Hm. pose proof (ring_head _ _ _ Hr) as Ehd. destruct Hr as [(h & t & z & Ez) Hh Ht Hs Hb Hw].
  set (v := PIPE_HEAD i + Z.of_nat (length d)) in *.
  assert (Eh : PIPE_HEAD (move_head v i) = v mod 4096) by (unfold PIPE_HEAD, move_head; cbn; by rewrite Ez).
  assert (Et : PIPE_TAIL (move_head v i) = PIPE_TAIL i) by (unfold PIPE_TAIL, move_head; cbn; by rewrite Ez).
  pose proof (Z.mod_pos_bound v 4096).
  constructor; [unfold move_head; cbn; rewrite Ez; by eexists _, _, _ | rewrite Eh; lia | by rewrite Et | | | done].
  - rewrite pipe_size_mod, Eh, Et, length_app, Zminus_mod_idemp_l. rewrite pipe_size_mod in Hs. unfold v.
    Z.to_euclidean_division_equations; lia.
  - intros k c Hc. rewrite Et. change (i_size (move_head _ i)) with (i_size i). rewrite Hm.
    apply lookup_app_Some in Hc as [Hc | [Hk Hc]].
    + pose proof (lookup_lt_Some _ _ _ Hc) as Hlt. rewrite <- (Hb k c Hc). destruct (Z.ltb_spec (i_size i + (PIPE_TAIL i + Z.of_nat k) mod 4096) (i_size i + PIPE_HEAD i)); [done |].
      rewrite lookup_ge_None_2; [done |]. rewrite Ehd in *. Z.to_euclidean_division_equations; lia.
    + pose proof (lookup_lt_Some _ _ _ Hc) as Hlt.
      assert (E : (PIPE_TAIL i + Z.of_nat k) mod 4096 = PIPE_HEAD i + Z.of_nat (k - length q)).
      { rewrite Ehd in *. unfold v in *. Z.to_euclidean_division_equations; lia. }
      rewrite E, (proj2 (Z.ltb_ge _ _)) by lia. replace (Z.to_nat _) with (k - length q)%nat by lia. by rewrite Hc.
Qed.

(** ** The pipe in the machine *)

(** Inode [n] is a pipe with the bytes [q] in it, and a running task is about to use it. *)
Record pipe (n : nat) (s : fs_state) (i : m_inode) (q : list Z) : Prop := {
  pp_inode : inode_table s !! n = Some i;
  pp_ring : ring (fs_mm s) i q;
  pp_wait : waiter (fs_sched s) (i_wait i);
  pp_task : is_Some (tasks (fs_sched s) !! current (fs_sched s));
  pp_init : current (fs_sched s) <> init_task (fs_sched s) }.

Lemma ring_ext m i i' q : i_zone i' = i_zone i -> i_size i' = i_size i -> ring m i q -> ring m i' q.
Proof.
  intros Ez Es [Hz Hh Ht Hs Hb Hw]. unfold PIPE_SIZE, PIPE_HEAD, PIPE_TAIL in *. constructor; unfold PIPE_SIZE, PIPE_HEAD, PIPE_TAIL; by rewrite ?Ez, ?Es.
Qed.

(** [wake_up(&inode->i_wait)] *)
Lemma wake_pipe n s i q : pipe n s i q -> exists s', wake_up (i_wait_var n) s = Ok tt s' /\ pipe n s' (put i_wait 0 i) q /\ umem s' = umem s
  /\ (forall p, waiter (fs_sched s) p -> waiter (fs_sched s') p).
Proof.
  intros [Hi Hr Hw Ht Hc]. assert (E : rd_var (i_wait_var n) s = i_wait i) by (unfold i_wait_var, row_var; cbn [rd_var]; by rewrite Hi).
  destruct (wake_up_woken (i_wait_var n) s) as (sc & Hsc & E'); [by rewrite E |]. rewrite E in *. eexists. split; [exact E' |].
  unfold cbool. destruct (Z.eqb_spec (i_wait i) 0) as [E0|E0]; cbn [negb].
  - split; [| done]. assert (Ei : put i_wait 0 i = i) by (clear -E0; destruct i; cbn in *; by subst). by rewrite Ei.
  - assert (Hwt : forall p, waiter (fs_sched s) p -> waiter sc p) by (intros p; by eapply woken_waiter).
    split; [| split; [done | done]]. destruct Hsc as [Esc Hsc]. constructor; cbn [fs_sched fs_mm].
    + cbn. by rewrite list_lookup_alter_eq, Hi.
    + by eapply ring_ext, Hr.
    + by intros [].
    + change (is_Some (tasks sc !! current sc)). rewrite Hsc, Esc. by apply fmap_is_Some.
    + change (current sc <> init_task sc). by rewrite Esc.
Qed.

Lemma set_state_pipe n s i q p v : pipe n s i q -> is_Some (tasks (fs_sched s) !! p) ->
  exists s', on_sched (set_state_of p v) s = Ok tt s' /\ pipe n s' i q /\ umem s' = umem s
    /\ (forall p', waiter (fs_sched s) p' -> waiter (fs_sched s') p').
Proof.
  intros [Hi Hr Hw Ht Hc] [t Hp]. unfold on_sched, set_state_of, upd_task. cbn [the_sched fs_has_sched]. rewrite Hp.
  eexists. split; [reflexivity |].
  assert (Hs : forall k, is_Some (tasks (fs_sched s) !! k) -> is_Some (<[p := put ts_state v t]> (tasks (fs_sched s)) !! k)).
  { intros k Hk. destruct (decide (p = k)) as [->|Hne]; [rewrite lookup_insert_eq; by eexists | by rewrite lookup_insert_ne]. }
  assert (Hwt : forall p', waiter (fs_sched s) p' -> waiter (over tasks <[p := put ts_state v t]> (fs_sched s)) p') by (intros p' Hp' Hne; by apply Hs, Hp').
  split; [| split; [done | done]]. constructor; [done | done | by apply Hwt | by apply Hs | done].
Qed.

Lemma sleep_pipe_1 n s i q : pipe n s i q -> exists s' i', sleep_on_1 (i_wait_var n) s = Ok (i_wait i) s' /\ pipe n s' i' q
  /\ i_count i' = i_count i /\ umem s' = umem s /\ (forall p, waiter (fs_sched s) p -> waiter (fs_sched s') p).
Proof.
  intros Hp. pose proof Hp as [Hi Hr Hw Ht Hc].
  assert (E : rd_var (i_wait_var n) s = i_wait i) by (unfold i_wait_var, row_var; cbn [rd_var]; by rewrite Hi).
  set (c := current (fs_sched s)) in *. set (s1 := wr_var (i_wait_var n) c s). set (i1 := put i_wait c i).
  assert (Hp1 : pipe n s1 i1 q).
  { constructor; [cbn; by rewrite list_lookup_alter_eq, Hi | by eapply ring_ext, Hr | by intros _ | done | done]. }
  destruct (set_state_pipe n s1 i1 q c TASK_UNINTERRUPTIBLE Hp1 Ht) as (s2 & E2 & Hp2 & Hu2 & Hw2).
  exists s2, i1. split_and!; [| done | done | done | done].
  assert (En : on_sched not_init s = Ok tt s).
  { unfold on_sched, not_init, bind, get. cbn [the_sched fs_has_sched id]. unfold id. fold c. rewrite (proj2 (Z.eqb_neq _ _) Hc). cbn. by destruct s. }
  unfold sleep_on_1. rewrite (bind_Ok _ _ _ _ _ En), (bind_Ok (get (rd_var (i_wait_var n))) _ s (i_wait i) s) by (unfold get; by rewrite E).
  assert (Em : me s = Ok c s) by reflexivity. rewrite (bind_Ok _ _ _ _ _ Em), (bind_Ok (modify (wr_var (i_wait_var n) c)) _ s tt s1 eq_refl). by rewrite (bind_Ok _ _ _ _ _ E2).
Qed.

(** What the other end does to a pipe while a task sleeps. *)
Definition meanwhile `{Env} (n : nat) (s : fs_state) (i : m_inode) (q : list Z) (ok : m_inode -> list Z -> Prop) : Prop :=
  exists s' i' q', asleep s = Ok tt s' /\ pipe n s' i' q' /\ umem s' = umem s /\ (forall p, waiter (fs_sched s) p -> waiter (fs_sched s') p) /\ ok i' q'.

Lemma sleep_pipe `{Env} n s i q ok : pipe n s i q ->
  (forall s1 i1, pipe n s1 i1 q -> i_count i1 = i_count i -> umem s1 = umem s -> meanwhile n s1 i1 q ok) ->
  exists s' i' q', sleep_on_fs (i_wait_var n) s = Ok tt s' /\ pipe n s' i' q' /\ umem s' = umem s /\ ok i' q'.
Proof.
  intros Hp Hm. destruct (sleep_pipe_1 n s i q Hp) as (s1 & i1 & E1 & Hp1 & Hc1 & Hu1 & Hw1).
  destruct (Hm s1 i1 Hp1 Hc1 Hu1) as (s2 & i2 & q2 & E2 & Hp2 & Hu2 & Hw2 & Hok).
  unfold sleep_on_fs, sleep_on, sleep_on_2. rewrite (bind_Ok _ _ _ _ _ E1), (bind_Ok _ _ _ _ _ E2). unfold cbool.
  destruct (Z.eqb_spec (i_wait i) 0) as [E0|E0]; cbn [negb].
  - exists s2, i2, q2. split_and!; [done | done | congruence | done].
  - destruct (set_state_pipe n s2 i2 q2 (i_wait i) 0 Hp2) as (s3 & E3 & Hp3 & Hu3 & _); [apply (Hw2 _ (Hw1 _ (pp_wait _ _ _ _ Hp)) E0) |].
    exists s3, i2, q2. split_and!; [done | done | congruence | done].
Qed.

(** Moving a pointer of the pipe. *)
Lemma pointer_wraps v : u16 (Z.land (u16 v) (PAGE_SIZE - 1)) = v mod 4096.
Proof. change (PAGE_SIZE - 1) with (Z.ones 12). rewrite Z.land_ones by done. unfold u16. Z.to_euclidean_division_equations; lia. Qed.

Lemma set_pointer n s i q (k : nat) v : pipe n s i q -> (k < 2)%nat ->
  set_zone n (Z.of_nat k) (Z.land (u16 v) (PAGE_SIZE - 1)) s = Ok tt (over inode_table (alter (over i_zone <[k := v mod 4096]>) n) s).
Proof.
  intros [Hi Hr _ _ _] Hk. destruct (rg_zone _ _ _ Hr) as (h & t & z & Ez). unfold set_zone, set_elem.
  rewrite (bind_Ok _ _ _ _ _ (field_ok inode_table i_zone n i s Hi)), Ez.
  rewrite (proj2 (Z.leb_le 0 _)), (proj2 (Z.ltb_lt _ _)) by (cbn [length]; lia). cbn [andb]. rewrite Nat2Z.id.
  unfold assign. rewrite (update_ok inode_table n _ i s Hi). f_equal. unfold over, put. cbn. f_equal.
  rewrite !(alter_insert _ _ _ _ Hi). f_equal. by rewrite Ez, pointer_wraps.
Qed.

(** ** Waiting for the other end *)

Section Wait.
Context `{Env} (n : nat) (room : m_inode -> Z) (avail : list Z -> Z) (turns : list Z -> list Z -> Prop).
Hypothesis Hroom : forall m i q, ring m i q -> room i = avail q.

Lemma wait_none fuel s i q : pipe n s i q -> avail q = 0 -> i_count i <> 2 ->
  exists s', wait_pipe (S fuel) n room s = Ok None s' /\ pipe n s' (put i_wait 0 i) q /\ umem s' = umem s.
Proof.
  intros Hp Hq Hc. destruct (wake_pipe n s i q Hp) as (s1 & E1 & Hp1 & Hu1 & _). exists s1. split_and!; [| done | done].
  cbn [wait_pipe]. rewrite (bind_Ok _ _ _ _ _ (row_ok inode_table n i s (pp_inode _ _ _ _ Hp))).
  rewrite (Hroom _ _ _ (pp_ring _ _ _ _ Hp)), Hq. cbn [cbool Z.eqb negb].
  rewrite (bind_Ok _ _ _ _ _ E1), (bind_Ok _ _ _ _ _ (row_ok inode_table n _ s1 (pp_inode _ _ _ _ Hp1))).
  change (i_count (put i_wait 0 i)) with (i_count i). by rewrite (proj2 (Z.eqb_neq _ _) Hc).
Qed.
Lemma wait_some fuel s i q : pipe n s i q -> avail q <> 0 -> wait_pipe (S fuel) n room s = Ok (Some (avail q)) s.
Proof.
  intros Hp Hq. cbn [wait_pipe]. rewrite (bind_Ok _ _ _ _ _ (row_ok inode_table n i s (pp_inode _ _ _ _ Hp))).
  rewrite (Hroom _ _ _ (pp_ring _ _ _ _ Hp)). unfold cbool. by rewrite (proj2 (Z.eqb_neq _ _) Hq).
Qed.

Hypothesis Hpat : (2 <= patience)%nat.
Hypothesis other_end : forall s i q, pipe n s i q -> avail q = 0 -> i_count i = 2 ->
  meanwhile n s i q (fun i' q' => turns q q' /\ (avail q' <> 0 \/ i_count i' <> 2)).

(** Waiting ends with something to do, or with the other end gone. *)
Lemma wait_ok s i q : pipe n s i q -> exists s' i' q', pipe n s' i' q' /\ umem s' = umem s /\ (q' = q \/ avail q = 0 /\ turns q q') /\
  wait_pipe patience n room s = Ok (if avail q' =? 0 then None else Some (avail q')) s' /\ (avail q' = 0 -> i_count i' <> 2).
Proof.
  intros Hp. assert (Ef : exists f, patience = S (S f)) by (destruct patience as [|[|f]]; [lia | lia | by eexists]). destruct Ef as [f ->].
  destruct (decide (avail q = 0)) as [Hq|Hq]; cycle 1.
  { exists s, i, q. split_and!; [done | done | by left | | done]. rewrite (wait_some _ s i q Hp Hq). by rewrite (proj2 (Z.eqb_neq _ _) Hq). }
  destruct (decide (i_count i = 2)) as [Hc|Hc]; cycle 1.
  { destruct (wait_none (S f) s i q Hp Hq Hc) as (s1 & E1 & Hp1 & Hu1). exists s1, (put i_wait 0 i), q. rewrite Hq. split_and!; try done. by left. }
  destruct (wake_pipe n s i q Hp) as (s1 & E1 & Hp1 & Hu1 & _).
  destruct (sleep_pipe n s1 _ q (fun i' q' => turns q q' /\ (avail q' <> 0 \/ i_count i' <> 2)) Hp1) as (s2 & i2 & q2 & E2 & Hp2 & Hu2 & Ht & Hok).
  { intros s' i' Hp' Hc' _. apply other_end; [done | done |]. by rewrite Hc'. }
  rewrite Hu1 in Hu2. assert (E : wait_pipe (S (S f)) n room s = wait_pipe (S f) n room s2).
  { remember (S f) as g. cbn [wait_pipe]. rewrite (bind_Ok _ _ _ _ _ (row_ok inode_table n i s (pp_inode _ _ _ _ Hp))).
    rewrite (Hroom _ _ _ (pp_ring _ _ _ _ Hp)), Hq. cbn [cbool Z.eqb negb].
    rewrite (bind_Ok _ _ _ _ _ E1), (bind_Ok _ _ _ _ _ (row_ok inode_table n _ s1 (pp_inode _ _ _ _ Hp1))).
    change (i_count (put i_wait 0 i)) with (i_count i). rewrite Hc. cbn [Z.eqb Pos.eqb negb]. by rewrite (bind_Ok _ _ _ _ _ E2). }
  destruct (Z.eqb_spec (avail q2) 0) as [Hq2|Hq2].
  - destruct Hok as [|Hc2]; [done |]. destruct (wait_none f s2 i2 q2 Hp2 Hq2 Hc2) as (s3 & E3 & Hp3 & Hu3).
    exists s3, (put i_wait 0 i2), q2. rewrite Hq2. split_and!; [done | congruence | by right | by rewrite E | done].
  - exists s2, i2, q2. split_and!; [done | done | by right | | done]. rewrite E, (wait_some _ s2 i2 q2 Hp2 Hq2). by rewrite (proj2 (Z.eqb_neq _ _) Hq2).
Qed.
End Wait.

(** ** Reading *)

Lemma take_more {A} (l l' : list A) k r : (k <= length l)%nat -> take (k + r) (l ++ l') = take k l ++ take r (drop k l ++ l').
Proof.
  intros Hk. rewrite <- (take_drop k l) at 1. rewrite <- app_assoc. rewrite take_app_ge by (rewrite length_take; lia).
  f_equal. rewrite length_take. f_equal. lia.
Qed.

(** One turn: bytes from the tail on go to the buffer. *)
Lemma tail_bytes m i q chars : ring m i q -> 0 <= chars <= Z.of_nat (length q) -> PIPE_TAIL i + chars <= 4096 ->
  map (fun k => rd_byte m (i_size i + PIPE_TAIL i + Z.of_nat k)) (seq 0 (Z.to_nat chars)) = take (Z.to_nat chars) q.
Proof.
  intros Hr Hc Ht. pose proof (rg_tail _ _ _ Hr) as Ht'. apply list_eq. intros k. rewrite list_lookup_fmap.
  destruct (decide (k < Z.to_nat chars)%nat) as [Hk|Hk].
  - rewrite lookup_seq_lt, lookup_take_lt by done. destruct (lookup_lt_is_Some_2 q k) as [c Hq]; [lia |]. rewrite Hq. cbn. f_equal.
    rewrite <- (rg_bytes _ _ _ Hr k c Hq). rewrite Z.mod_small by lia. f_equal. lia.
  - rewrite lookup_seq_ge by lia. rewrite (lookup_ge_None_2 (take _ _)); [done |]. rewrite length_take. lia.
Qed.
Lemma read_moves n s i q chars buf : pipe n s i q -> 0 <= chars <= Z.of_nat (length q) ->
  pipe n (over umem (store_bytes buf (take (Z.to_nat chars) q)) (over inode_table (alter (over i_zone <[1%nat := (PIPE_TAIL i + chars) mod 4096]>) n) s))
    (move_tail (PIPE_TAIL i + chars) i) (drop (Z.to_nat chars) q).
Proof.
  intros [Hi Hr Hw Ht Hc] Hl. constructor; [cbn; by rewrite list_lookup_alter_eq, Hi | | done | done | done].
  pose proof (pipe_ring_take _ _ _ (Z.to_nat chars) Hr ltac:(lia)) as Hr'. by rewrite Z2Nat.id in Hr' by lia.
Qed.

Section Reader.
Context `{Env} (n : nat).
Hypothesis Hpat : (2 <= patience)%nat.
(** Whenever a reader waits at an empty pipe, the writer puts something in or closes its
    end. *)
Hypothesis writer : forall s i, pipe n s i [] -> i_count i = 2 -> meanwhile n s i [] (fun i' q' => q' <> [] \/ i_count i' <> 2).

Lemma wait_read s i q : pipe n s i q -> exists s' i' l, pipe n s' i' (q ++ l) /\ umem s' = umem s /\
  wait_pipe patience n PIPE_SIZE s = Ok (if Z.of_nat (length (q ++ l)) =? 0 then None else Some (Z.of_nat (length (q ++ l)))) s' /\
  (q ++ l = [] -> i_count i' <> 2).
Proof.
  intros Hp. destruct (wait_ok n PIPE_SIZE (fun q => Z.of_nat (length q)) (fun _ _ => True)) with (s := s) (i := i) (q := q)
    as (s' & i' & q' & Hp' & Hu & Ht & E & Hc); [apply rg_size | done | | done |].
  - intros s1 i1 [|c q1] Hp1 Hz Hc1; [| done]. destruct (writer s1 i1 Hp1 Hc1) as (s2 & i2 & q2 & ? & ? & ? & ? & Hok).
    exists s2, i2, q2. split_and!; try done. destruct Hok as [Hq|Hq]; [left | by right]. destruct q2; [done | cbn; lia].
  - assert (Hl : exists l, q' = q ++ l).
    { destruct Ht as [-> | [Hz _]]; [exists []; by rewrite app_nil_r |]. destruct q; [by exists q' | done]. }
    destruct Hl as [l ->]. exists s', i', l. split_and!; [done | done | done |]. intros Hz. apply Hc. by rewrite Hz.
Qed.

Lemma pipe_read_loop_ok fuel : forall s i q buf count read, pipe n s i q -> 0 <= count < Z.of_nat fuel ->
  exists added r s' i', read_pipe_loop fuel n buf count read s = Ok (read + r) s' /\ 0 <= r <= count /\ r <= Z.of_nat (length (q ++ added)) /\
    pipe n s' i' (drop (Z.to_nat r) (q ++ added)) /\ umem s' = store_bytes buf (take (Z.to_nat r) (q ++ added)) (umem s) /\
    (r < count -> i_count i' <> 2 /\ r = Z.of_nat (length (q ++ added))).
Proof.
  induction fuel as [|fuel IH]; intros s i q buf count read Hp Hf; [lia |]. cbn [read_pipe_loop].
  destruct (Z.leb_spec count 0) as [Hc|Hc].
  { destruct (wake_pipe n s i q Hp) as (s1 & E1 & Hp1 & Hu1 & _). exists [], 0, s1, (put i_wait 0 i). rewrite (bind_Ok _ _ _ _ _ E1).
    rewrite app_nil_r. split_and!; try done; try lia. unfold ret. by rewrite Z.add_0_r. }
  destruct (wait_read s i q Hp) as (s1 & i1 & l & Hp1 & Hu1 & E1 & Hn1). rewrite (bind_Ok _ _ _ _ _ E1).
  set (q1 := q ++ l) in *. assert (Hl : q1 = q ++ l) by done. clearbody q1. destruct (Z.eqb_spec (Z.of_nat (length q1)) 0) as [Hne|Hne].
  { destruct q1; [| done]. exists l, 0, s1, i1. rewrite <- Hl. split_and!; try done; try lia; [unfold ret; by rewrite Z.add_0_r |]. intros _. split; [by apply Hn1 | done]. }
  pose proof (pp_ring _ _ _ _ Hp1) as Hr. pose proof (rg_tail _ _ _ Hr) as Ht.
  rewrite (bind_Ok _ _ _ _ _ (row_ok inode_table n i1 s1 (pp_inode _ _ _ _ Hp1))).
  set (chars := Z.min (Z.min (PAGE_SIZE - PIPE_TAIL i1) count) (Z.of_nat (length q1))).
  assert (Hch : 0 < chars <= count /\ chars <= Z.of_nat (length q1) /\ PIPE_TAIL i1 + chars <= 4096) by (unfold chars; change PAGE_SIZE with 4096; lia).
  clearbody chars.
  rewrite (bind_Ok _ _ _ _ _ (set_pointer n s1 i1 q1 1 (PIPE_TAIL i1 + chars) Hp1 ltac:(lia))).
  unfold bind at 1, get, put_fs_bytes, bind at 1, modify. change (fs_mm (over inode_table ?f s1)) with (fs_mm s1).
  rewrite (tail_bytes (fs_mm s1) i1 q1 chars Hr) by lia. cbn beta iota.
  pose proof (read_moves n s1 i1 q1 chars buf Hp1 ltac:(lia)) as Hp2. set (s2 := over umem _ _) in *.
  destruct (IH s2 _ _ (buf + chars) (count - chars) (read + chars) Hp2 ltac:(lia)) as (added & r & s' & i' & E & Hr1 & Hr2 & Hp' & Hu' & Hend).
  exists (l ++ added), (chars + r), s', i'. rewrite app_assoc, <- Hl. rewrite length_app, length_drop in Hr2.
  rewrite E. split_and!; [f_equal; lia | lia | lia | rewrite length_app; lia | | |].
  - rewrite Z2Nat.inj_add, <- drop_drop, drop_app_le by lia. done.
  - rewrite Z2Nat.inj_add, take_more, Hu' by lia. rewrite store_bytes_app. cbn. rewrite Hu1. f_equal. rewrite length_take. lia.
  - intros Hlt. destruct Hend as [Hc' Hall]; [lia |]. split; [done |]. rewrite length_app, length_drop in Hall. rewrite length_app. lia.
Qed.
End Reader.

(** ** Writing *)

Section Writer.
Context `{Env} (n : nat).
Hypothesis Hpat : (2 <= patience)%nat.
(** Whenever a writer waits at a full pipe, the reader takes something out or closes its
    end. *)
Hypothesis reader : forall s i q, pipe n s i q -> Z.of_nat (length q) = 4095 -> i_count i = 2 ->
  meanwhile n s i q (fun i' q' => (exists k, q' = drop k q) /\ (Z.of_nat (length q') < 4095 \/ i_count i' <> 2)).

Definition left_in (q : list Z) : Z := 4095 - Z.of_nat (length q).

Lemma wait_write s i q : pipe n s i q -> exists s' i' k, pipe n s' i' (drop k q) /\ umem s' = umem s /\
  wait_pipe patience n (fun i => (PAGE_SIZE - 1) - PIPE_SIZE i) s = Ok (if left_in (drop k q) =? 0 then None else Some (left_in (drop k q))) s' /\
  (left_in (drop k q) = 0 -> i_count i' <> 2).
Proof.
  intros Hp. destruct (wait_ok n (fun i => (PAGE_SIZE - 1) - PIPE_SIZE i) left_in (fun q q' => exists k, q' = drop k q)) with (s := s) (i := i) (q := q)
    as (s' & i' & q' & Hp' & Hu & Ht & E & Hc); [| done | | done |].
  - intros m i0 q0 Hr. by rewrite (rg_size _ _ _ Hr).
  - intros s1 i1 q1 Hp1 Hz Hc1. unfold left_in in Hz. destruct (reader s1 i1 q1 Hp1 ltac:(lia) Hc1) as (s2 & i2 & q2 & ? & ? & ? & ? & Hk & Hok).
    exists s2, i2, q2. split_and!; try done. unfold left_in. destruct Hok; [left; lia | by right].
  - assert (Hk : exists k, q' = drop k q) by (destruct Ht as [-> | [_ ?]]; [by exists 0%nat | done]).
    destruct Hk as [k ->]. exists s', i', k. by split_and!.
Qed.

(** One turn: bytes of the buffer go behind the head. *)
Lemma write_moves s i q d : pipe n s i q -> Z.of_nat (length q + length d) <= 4095 -> PIPE_HEAD i + Z.of_nat (length d) <= 4096 -> Forall is_byte d ->
  exists m, store_all (i_size i + PIPE_HEAD i) d (fs_mm s) = Ok tt m /\
    pipe n (put fs_mm m (over inode_table (alter (over i_zone <[0%nat := (PIPE_HEAD i + Z.of_nat (length d)) mod 4096]>) n) s))
      (move_head (PIPE_HEAD i + Z.of_nat (length d)) i) (q ++ d).
Proof.
  intros [Hi Hr Hw Ht Hc] Hl Hh Hd. destruct (store_all_ok d (fs_mm s) (i_size i + PIPE_HEAD i) (rg_words _ _ _ Hr) Hd) as (m & E & Hm & Hb & _).
  exists m. split; [done |]. constructor; [cbn; by rewrite list_lookup_alter_eq, Hi | by eapply ring_put | done | done | done].
Qed.

(** The signal a writer without a reader gets. *)
Definition has_sigpipe (s : fs_state) : Prop :=
  exists t, tasks (fs_sched s) !! current (fs_sched s) = Some t /\ Z.testbit (ts_signal t) (SIGPIPE - 1) = true.
Lemma sigpipe_ok s i q : pipe n s i q -> exists s', on_sched (upd_cur (over ts_signal (fun x => Z.lor x (Z.shiftl 1 (SIGPIPE - 1))))) s = Ok tt s'
  /\ pipe n s' i q /\ umem s' = umem s /\ has_sigpipe s'.
Proof.
  intros [Hi Hr Hw [t Ht] Hc]. unfold on_sched, upd_cur, bind, get, upd_task. cbn [the_sched fs_has_sched]. rewrite Ht.
  eexists. split; [reflexivity |]. split; [| split; [done |]].
  - constructor; [done | done | | cbn; rewrite lookup_insert_eq; by eexists | done].
    intros Hne. cbn. destruct (decide (current (fs_sched s) = i_wait i)) as [->|]; [rewrite lookup_insert_eq; by eexists |].
    rewrite lookup_insert_ne by done. by apply Hw.
  - eexists. split; [cbn; apply lookup_insert_eq |]. cbn. by rewrite Z.lor_spec, orb_true_r.
Qed.

Lemma pipe_write_loop_ok fuel : forall s i q buf count written, pipe n s i q -> 0 <= count < Z.of_nat fuel -> 0 <= written ->
  Forall is_byte (load_bytes (Z.to_nat count) buf (umem s)) ->
  exists taken r s' i' q', pipe n s' i' q' /\ umem s' = umem s /\ 0 <= r <= count /\
    q ++ take (Z.to_nat r) (load_bytes (Z.to_nat count) buf (umem s)) = taken ++ q' /\
    write_pipe_loop fuel n buf count written s = Ok (if (r <? count) && (written + r =? 0) then -1 else written + r) s' /\
    (r < count -> i_count i' <> 2 /\ Z.of_nat (length q') = 4095 /\ has_sigpipe s').
Proof.
  induction fuel as [|fuel IH]; intros s i q buf count written Hp Hf Hwr Hby; [lia |]. cbn [write_pipe_loop].
  destruct (Z.leb_spec count 0) as [Hc|Hc].
  { destruct (wake_pipe n s i q Hp) as (s1 & E1 & Hp1 & Hu1 & _). exists [], 0, s1, (put i_wait 0 i), q. rewrite (bind_Ok _ _ _ _ _ E1).
    rewrite (proj2 (Z.ltb_ge 0 count)) by lia. cbn. rewrite app_nil_r, Z.add_0_r. split_and!; try done; lia. }
  destruct (wait_write s i q Hp) as (s1 & i1 & k & Hp1 & Hu1 & E1 & Hn1). rewrite (bind_Ok _ _ _ _ _ E1).
  set (q1 := drop k q) in *. assert (Hq : q = take k q ++ q1) by (unfold q1; by rewrite take_drop).
  destruct (Z.eqb_spec (left_in q1) 0) as [Hz|Hz].
  { destruct (sigpipe_ok s1 i1 q1 Hp1) as (s2 & E2 & Hp2 & Hu2 & Hs2). exists (take k q), 0, s2, i1, q1. rewrite (bind_Ok _ _ _ _ _ E2).
    rewrite (proj2 (Z.ltb_lt 0 count)) by lia. cbn [andb take Z.to_nat]. rewrite app_nil_r, Z.add_0_r. split_and!; try done; try lia; [congruence | | ].
    - unfold cbool, ret. by destruct (written =? 0).
    - intros _. unfold left_in in Hz. split_and!; [by apply Hn1 | lia | done]. }
  rewrite (bind_Ok _ _ _ _ _ (row_ok inode_table n i1 s1 (pp_inode _ _ _ _ Hp1))).
  pose proof (pp_ring _ _ _ _ Hp1) as Hr. pose proof (rg_head _ _ _ Hr) as Ht. pose proof (ring_length _ _ _ Hr) as Hlen.
  set (chars := Z.min (Z.min (PAGE_SIZE - PIPE_HEAD i1) count) (left_in q1)).
  assert (Hch : 0 < chars <= count /\ chars <= left_in q1 /\ PIPE_HEAD i1 + chars <= 4096) by (unfold chars, left_in in *; change PAGE_SIZE with 4096; lia).
  clearbody chars. unfold left_in in Hch.
  set (d := load_bytes (Z.to_nat chars) buf (umem s)).
  assert (Hd : Z.of_nat (length d) = chars) by (unfold d; rewrite load_bytes_length; lia).
  assert (Hall : load_bytes (Z.to_nat count) buf (umem s) = d ++ load_bytes (Z.to_nat (count - chars)) (buf + chars) (umem s)).
  { replace (Z.to_nat count) with (Z.to_nat chars + Z.to_nat (count - chars))%nat by lia. rewrite load_bytes_split. do 2 f_equal. lia. }
  rewrite Hall, Forall_app in Hby. destruct Hby as [Hd1 Hby].
  rewrite (bind_Ok _ _ _ _ _ (set_pointer n s1 i1 q1 0 (PIPE_HEAD i1 + chars) Hp1 ltac:(lia))).
  destruct (write_moves s1 i1 q1 d Hp1) as (m & Em & Hp2); [lia | lia | done |]. rewrite Hd in Hp2.
  set (s2 := put fs_mm m _) in Hp2.
  assert (E2 : (let* d0 := get_fs_bytes buf chars in on_mm (store_all (i_size i1 + PIPE_HEAD i1) d0))
      (over inode_table (alter (over i_zone <[0%nat := (PIPE_HEAD i1 + chars) mod 4096]>) n) s1) = Ok tt s2).
  { unfold get_fs_bytes, bind, get, on_mm. change (umem (over inode_table ?f s1)) with (umem s1). rewrite Hu1. fold d.
    change (fs_mm (over inode_table ?f s1)) with (fs_mm s1). by rewrite Em. }
  rewrite (bind_Ok _ _ _ _ _ E2).
  destruct (IH s2 _ _ (buf + chars) (count - chars) (written + chars) Hp2 ltac:(lia) ltac:(lia)) as (taken & r & s' & i' & q' & Hp' & Hu' & Hr' & Hq' & E & Hend).
  { change (umem s2) with (umem s1). by rewrite Hu1. }
  change (umem s2) with (umem s1) in Hq', Hu'. rewrite Hu1 in Hq', Hu'.
  exists (take k q ++ taken), (chars + r), s', i', q'. split_and!; [done | done | lia | lia | | |].
  - rewrite Hall. rewrite Z2Nat.inj_add by lia. replace (Z.to_nat chars) with (length d) by lia. rewrite take_app_add', <- app_assoc, <- Hq' by done.
    rewrite Hq at 1. by rewrite <- !app_assoc.
  - rewrite E. f_equal. replace (r <? count - chars) with (chars + r <? count) by blia. by replace (written + (chars + r)) with (written + chars + r) by lia.
  - intros Hlt. apply Hend. lia.
Qed.
End Writer.



(** A pipe in inode 0 with a page of its own; the other end puts an A in when it is waited
    for, or takes everything out. *)
Definition demo_pipe (h t : Z) : m_inode := put i_pipe 1 (put i_count 2 (put i_size 0x102000 (put i_zone (h :: t :: replicate 7 0) zero_inode))).
Definition demo_pipe_fs (h t : Z) : fs_state := put inode_table (demo_pipe h t :: replicate 31 zero_inode) empty_fs.

Definition puts_A : M fs_state unit :=
  let* i := row inode_table 0 in
  set_zone 0 0 (Z.land (u16 (PIPE_HEAD i + 1)) (PAGE_SIZE - 1)) ;;;
  on_mm (store_all (i_size i + PIPE_HEAD i) [65]).
Definition takes_all : M fs_state unit :=
  let* i := row inode_table 0 in set_zone 0 1 (Z.land (u16 (PIPE_TAIL i + PIPE_SIZE i)) (PAGE_SIZE - 1)).
Definition other_end_does (m : M fs_state unit) : Env :=
  {| asleep := m; device_fn _ := ret tt; floppy_change _ := ret 0; tty_read _ _ _ := ret 0;
     tty_write _ _ _ := ret 0; set_tty_pgrp _ _ := ret tt; inb _ := 0; patience := 5 |}.

Lemma demo_pipe_ok h t q : 0 <= h < 4096 -> 0 <= t < 4096 -> Z.land (h - t) (PAGE_SIZE - 1) = Z.of_nat (length q) -> Forall (eq 0) q ->
  pipe 0 (demo_pipe_fs h t) (demo_pipe h t) q.
Proof.
  intros Hh Ht Hs Hq. constructor; [done | | by intros [] | by vm_compute; eexists | by vm_compute].
  constructor; [by eexists _, _, _ | done | done | done | |].
  - intros k c Hk. rewrite Forall_lookup in Hq. rewrite <- (Hq k c Hk). set (a := i_size _ + _).
    assert (Ha : 0x102000 <= a) by (unfold a; change (i_size (demo_pipe h t)) with 0x102000; pose proof (Z.mod_pos_bound (PIPE_TAIL (demo_pipe h t) + Z.of_nat k) 4096); lia).
    unfold rd_byte, rd. cbn [fs_mm demo_pipe_fs put empty_fs demo mem]. clearbody a.
    assert (Hm : 0 <= a mod 4 < 4) by (apply Z.mod_pos_bound; lia). change (page_addr 0) with 0x100000.
    rewrite !lookup_insert_ne by lia. done.
  - exact (wf_words _ (demo_wf 0 ltac:(lia))).
Qed.

Lemma puts_A_ok s i : pipe 0 s i [] -> meanwhile (H := other_end_does puts_A) 0 s i [] (fun i' q' => q' <> [] \/ i_count i' <> 2).
Proof.
  intros Hp. pose proof (rg_head _ _ _ (pp_ring _ _ _ _ Hp)) as Hh.
  destruct (write_moves 0 s i [] [65] Hp) as (m & Em & Hp'); [cbn; lia | cbn; lia | apply Forall_singleton; unfold is_byte; lia |].
  eexists _, _, [65]. split_and!; [| exact Hp' | done | done | by left].
  cbn [asleep other_end_does]. unfold puts_A. rewrite (bind_Ok _ _ _ _ _ (row_ok inode_table 0 i s (pp_inode _ _ _ _ Hp))).
  rewrite (bind_Ok _ _ _ _ _ (set_pointer 0 s i [] 0 (PIPE_HEAD i + 1) Hp ltac:(lia))).
  unfold on_mm. change (fs_mm (over inode_table ?f s)) with (fs_mm s). by rewrite Em.
Qed.
Lemma takes_all_ok s i q : pipe 0 s i q -> Z.of_nat (length q) = 4095 ->
  meanwhile (H := other_end_does takes_all) 0 s i q (fun i' q' => (exists k, q' = drop k q) /\ (Z.of_nat (length q') < 4095 \/ i_count i' <> 2)).
Proof.
  intros Hp Hq. pose proof (read_moves 0 s i q (Z.of_nat (length q)) 0 Hp ltac:(lia)) as Hp'. rewrite Nat2Z.id, firstn_all in Hp'.
  pose proof (pp_ring _ _ _ _ Hp) as Hr. pose proof (rg_size _ _ _ Hr) as Hs.
  set (s1 := over inode_table (alter (over i_zone <[1%nat := (PIPE_TAIL i + Z.of_nat (length q)) mod 4096]>) 0%nat) s) in *.
  exists s1, (move_tail (PIPE_TAIL i + Z.of_nat (length q)) i), (drop (length q) q). split_and!; [| | done | done | by eexists | left; rewrite length_drop; lia].
  - cbn [asleep other_end_does]. unfold takes_all. rewrite (bind_Ok _ _ _ _ _ (row_ok inode_table 0 i s (pp_inode _ _ _ _ Hp))), Hs.
    apply (set_pointer 0 s i q 1); [done | lia].
  - destruct Hp' as [? ? ? ? ?]. by constructor.
Qed.

