(* ===== verification/InodeIO.v ===== *)
(** Inodes through the buffer cache (fs/inode.c): [write_inode] and [read_inode] on
    top of [get_super], [bread] and [brelse], when nobody else is at work. *)
From stdpp Require Import base list gmap strings.
From Stdlib Require Import ZArith Lia.
From S2P Require Import Prelude Memory Sched FsState BlkDev Buffer Cache Getblk Shared Inode Bytes.
Open Scope Z_scope.

(** [s] with another inode [n] and another buffer [b]. *)
Definition with_ib (n : nat) (i : m_inode) (b : nat) (x : buffer_head) (s : fs_state) : fs_state :=
  put inode_table (<[n := i]> (inode_table s)) (put bufs (<[b := x]> (bufs s)) s).

Lemma with_ib_id n i b x s : inode_table s !! n = Some i -> bufs s !! b = Some x -> with_ib n i b x s = s.
Proof. intros Hi Hx. unfold with_ib. rewrite (list_insert_id _ _ _ Hi), (list_insert_id _ _ _ Hx). by destruct s. Qed.

Lemma length_with_ib n i b x s : length (inode_table (with_ib n i b x s)) = length (inode_table s).
Proof. apply length_insert. Qed.

Section At.
Context (n b : nat) (s : fs_state).
Hypothesis Hn : (n < length (inode_table s))%nat.
Hypothesis Hb : (b < length (bufs s))%nat.

Lemma inode_at i x : inode_table (with_ib n i b x s) !! n = Some i.
Proof. apply list_lookup_insert_eq, Hn. Qed.
Lemma buf_at i x : bufs (with_ib n i b x s) !! b = Some x.
Proof. apply list_lookup_insert_eq, Hb. Qed.


Lemma over_inode_at g i x : over inode_table (alter g n) (with_ib n i b x s) = with_ib n (g i) b x s.
Proof. unfold with_ib, over. change (inode_table (put inode_table ?l _)) with l. rewrite alter_insert_eq. done. Qed.
Lemma update_inode_at g i x : update inode_table n g (with_ib n i b x s) = Ok tt (with_ib n (g i) b x s).
Proof. rewrite (update_ok inode_table n g i) by apply inode_at. f_equal. apply over_inode_at. Qed.
Lemma over_buf_at g i x : over bufs (alter g b) (with_ib n i b x s) = with_ib n i b (g x) s.
Proof.
  unfold with_ib, over. change (bufs (put inode_table _ (put bufs ?l _))) with l. rewrite alter_insert_eq. done.
Qed.
Lemma update_buf_at g i x : update bufs b g (with_ib n i b x s) = Ok tt (with_ib n i b (g x) s).
Proof. rewrite (update_ok bufs b g x) by apply buf_at. f_equal. apply over_buf_at. Qed.
End At.

Lemma wake_up_nobody (p : var fs_state) s : rd_var p s = 0 -> wake_up p s = Ok tt s.
Proof. intros E. unfold wake_up. by rewrite (bind_Ok (get (rd_var p)) _ s (rd_var p s) s eq_refl), E. Qed.

(** The buffer of a block that is in the cache is the one that is found. *)
Lemma find_buffer_hit s b x dev block :
  cache_ok s -> dev <> 0 -> bufs s !! b = Some x -> holds dev block x -> find_buffer dev block s = Ok (Some b) s.
Proof.
  intros [Q _ _] Hd Hx Hh. destruct (find_buffer_ok s dev block Q Hd) as (r & E & H1 & H2). rewrite E.
  destruct r as [c|]; [| by destruct (H2 eq_refl b x Hx)]. destruct (H1 c eq_refl) as (y & Hy & Hhy). do 2 f_equal.
  destruct Q as (H & f & F & Q). injection Hh as E1 E2. injection Hhy as E3 E4.
  eapply (qs_uniq _ _ _ _ _ Q c b (core y) (core x)).
  1,2: by apply view_lookup.
  1,2: apply not_elem_of_nil.
  all: cbn; congruence.
Qed.

Section Quiet.
Context `{Env}.
Hypothesis Hpat : (0 < patience)%nat.

(** ** The steps, one by one *)

Section Steps.
Context (n b : nat) (s : fs_state).
Hypothesis Hn : (n < length (inode_table s))%nat.
Hypothesis Hb : (b < length (bufs s))%nat.

Lemma lock_inode_at i x : i_lock i = 0 -> lock_inode n (with_ib n i b x s) = Ok tt (with_ib n (put i_lock 1 i) b x s).
Proof.
  intros Hl. unfold lock_inode. rewrite (bind_Ok _ _ _ tt (with_ib n i b x s)); [by apply update_inode_at |].
  unfold wait_on_inode. destruct (patient Hpat) as (p & ->). cbn [while_do].
  rewrite (bind_Ok _ _ _ false (with_ib n i b x s)); [done |].
  unfold inode. by rewrite (bind_Ok _ _ _ _ _ (field_ok _ _ _ _ _ (inode_at n b s Hn i x))), Hl.
Qed.

Lemma unlock_inode_at i x : i_wait i = 0 -> unlock_inode n (with_ib n i b x s) = Ok tt (with_ib n (put i_lock 0 i) b x s).
Proof.
  intros Hw. unfold unlock_inode, set_inode, assign. rewrite (bind_Ok _ _ _ _ _ (update_inode_at n b s Hn _ i x)).
  apply wake_up_nobody. unfold i_wait_var, row_var. cbn [rd_var]. by rewrite inode_at.
Qed.

Lemma brelse_at i x : b_lock x = 0 -> b_count x <> 0 -> buffer_wait s = 0 ->
  brelse (Some b) (with_ib n i b x s) = Ok tt (with_ib n i b (put b_count (u8 (b_count x - 1)) x) s).
Proof.
  intros Hl Hc Hw. unfold brelse. rewrite (bind_Ok _ _ _ _ _ (wait_unlocked Hpat b x _ (buf_at n b s Hb i x) Hl)). unfold bh.
  rewrite (bind_Ok _ _ _ _ _ (field_ok _ b_count _ _ _ (buf_at n b s Hb i x))). unfold set_bh, assign.
  rewrite (bind_Ok _ _ _ _ _ (update_buf_at n b s Hb _ i x)). unfold cbool. rewrite (proj2 (Z.eqb_neq _ _) Hc). cbn [negb].
  by apply wake_up_nobody.
Qed.

Lemma bread_at i x dev block :
  cache_ok (with_ib n i b x s) -> dev <> 0 -> holds dev block x -> b_lock x = 0 -> b_uptodate x <> 0 ->
  bread dev block (with_ib n i b x s) = Ok (Some b) (with_ib n i b (put b_count (u8 (b_count x + 1)) x) s).
Proof.
  intros Hk Hd Hh Hl Hu. pose proof (buf_at n b s Hb i x) as Hx. unfold bread, bread_with.
  assert (E : getblk dev block (with_ib n i b x s) = Ok b (with_ib n i b (put b_count (u8 (b_count x + 1)) x) s)).
  { unfold getblk. destruct (patient Hpat) as (p & E). rewrite E at 1. cbn [getblk_at]. rewrite E at 1. cbn [getblk_loop].
    rewrite (bind_Ok _ _ _ _ _ (get_hash_hit Hpat _ b x dev block Hx Hh Hl (find_buffer_hit _ b x dev block Hk Hd Hx Hh))).
    by rewrite over_buf_at. }
  rewrite (bind_Ok _ _ _ _ _ E). unfold bh. rewrite (bind_Ok _ _ _ _ _ (field_ok _ b_uptodate _ _ _ (buf_at n b s Hb i _))).
  change (b_uptodate (put b_count _ x)) with (b_uptodate x). unfold cbool. by rewrite (proj2 (Z.eqb_neq _ _) Hu).
Qed.
End Steps.

(** [sp] is the entry of the super block table [get_super] finds for [dev]. *)
Definition mounted (s : fs_state) (dev : Z) (sp : nat) (sup : super) : Prop :=
  (sp < NR_SUPER)%nat /\ super_block s !! sp = Some sup /\ s_dev sup = dev /\ s_lock sup = 0
  /\ forall k, (k < sp)%nat -> exists y, super_block s !! k = Some y /\ s_dev y <> dev.

Lemma get_super_at s dev sp sup : dev <> 0 -> mounted s dev sp sup -> get_super dev s = Ok (Some sp) s.
Proof.
  intros Hd (Hlt & Hsp & Hdev & Hlk & Hbefore). unfold get_super, cbool at 1. rewrite (proj2 (Z.eqb_neq _ _) Hd). cbn [negb].
  enough (G : forall k fuel, (k <= sp)%nat -> (sp - k < fuel)%nat -> get_super_from fuel k dev s = Ok (Some sp) s) by (apply G; lia).
  intros k fuel. revert k. induction fuel as [|fuel IH]; intros k Hk Hf; [lia |]. cbn [get_super_from].
  rewrite (proj2 (Nat.leb_gt _ _)) by lia. unfold sb. destruct (decide (k = sp)) as [->|Hne].
  - rewrite (bind_Ok _ _ _ _ _ (field_ok _ s_dev _ _ _ Hsp)), Hdev, Z.eqb_refl.
    rewrite (bind_Ok _ _ _ tt s); [by rewrite (bind_Ok _ _ _ _ _ (field_ok _ s_dev _ _ _ Hsp)), Hdev, Z.eqb_refl |].
    unfold wait_on_super. destruct (patient Hpat) as (p & ->). cbn [while_do]. rewrite (bind_Ok _ _ _ false s); [done |].
    unfold sb. by rewrite (bind_Ok _ _ _ _ _ (field_ok _ s_lock _ _ _ Hsp)), Hlk.
  - destruct (Hbefore k ltac:(lia)) as (y & Hy & Hyd).
    rewrite (bind_Ok _ _ _ _ _ (field_ok _ s_dev _ _ _ Hy)), (proj2 (Z.eqb_neq _ _) Hyd). apply IH; lia.
Qed.

(** Inode [n] is not locked, and its block is in buffer [b], up to date and not locked. *)
Record resident (s : fs_state) (n : nat) (i : m_inode) (b : nat) (x : buffer_head) (sup : super) : Prop := {
  re_cache : cache_ok s;
  re_inode : inode_table s !! n = Some i;
  re_buf : bufs s !! b = Some x;
  re_free : i_lock i = 0 /\ i_wait i = 0 /\ i_dev i <> 0;
  re_super : exists sp, mounted s (i_dev i) sp sup;
  re_holds : holds (i_dev i) (inode_block sup i) x;
  re_ready : b_lock x = 0 /\ b_uptodate x <> 0 /\ 0 <= b_count x < 255;
  re_wait : buffer_wait s = 0 }.

Lemma resident_locked s n i b x sup : resident s n i b x sup -> cache_ok (with_ib n (put i_lock 1 i) b x s).
Proof.
  intros R. rewrite <- over_inode_at, with_ib_id by apply R. apply cache_ok_inodes; [done | apply R].
Qed.

Lemma count_up_down c : 0 <= c < 255 -> u8 (c + 1) <> 0 /\ u8 (u8 (c + 1) - 1) = c.
Proof. intros Hc. unfold u8. rewrite (Z.mod_small (c + 1)) by lia. rewrite Z.mod_small; lia. Qed.

Lemma count_restored x : 0 <= b_count x < 255 -> put b_count (u8 (u8 (b_count x + 1) - 1)) (put b_count (u8 (b_count x + 1)) x) = x.
Proof. intros Hc. destruct (count_up_down _ Hc) as (_ & ->). by destruct x. Qed.

Lemma counted x : 0 <= b_count x < 255 -> b_count (put b_count (u8 (b_count x + 1)) x) <> 0.
Proof. intros Hc. change (u8 (b_count x + 1) <> 0). by apply count_up_down. Qed.

Lemma unlocked i : i_lock i = 0 -> put i_lock 0 (put i_lock 1 i) = i.
Proof. intros E. destruct i. cbn in *. by subst. Qed.
Lemma read_unlocked l i : i_lock i = 0 -> put i_lock 0 (d_inode_of l (put i_lock 1 i)) = d_inode_of l i.
Proof. intros E. transitivity (d_inode_of l (put i_lock 0 (put i_lock 1 i))); [by destruct i | by rewrite unlocked]. Qed.
Lemma written_unlocked i : i_lock i = 0 -> put i_lock 0 (put i_dirt 0 (put i_lock 1 i)) = put i_dirt 0 i.
Proof. intros E. transitivity (put i_dirt 0 (put i_lock 0 (put i_lock 1 i))); [by destruct i | by rewrite unlocked]. Qed.

Lemma read_inode_at s n i b x sup : resident s n i b x sup ->
  read_inode n s = Ok tt (with_ib n (d_inode_of (take 32 (drop (inode_offset i) (b_data x))) i) b x s).
Proof.
  intros R. pose proof (resident_locked _ _ _ _ _ _ R) as Hc. destruct R as [_ Hi Hx (Hl & Hw & Hd) (sp & Hs) Hh (Hbl & Hu & Hcnt) Hbw].
  pose proof (lookup_lt_Some _ _ _ Hi) as Hn. pose proof (lookup_lt_Some _ _ _ Hx) as Hb.
  rewrite <- (with_ib_id n i b x s Hi Hx) at 1. unfold read_inode.
  rewrite (bind_Ok _ _ _ _ _ (lock_inode_at n b s Hn i x Hl)). set (i1 := put i_lock 1 i) in *.
  rewrite (bind_Ok _ _ _ _ _ (row_ok _ _ _ _ (inode_at n b s Hn i1 x))).
  rewrite (bind_Ok _ _ _ _ _ (get_super_at (with_ib n i1 b x s) (i_dev i) sp sup Hd Hs)).
  rewrite (bind_Ok _ _ _ _ _ (row_ok _ _ _ _ (inode_at n b s Hn i1 x))).
  rewrite (bind_Ok _ _ _ _ _ (row_ok super_block sp sup (with_ib n i1 b x s) (proj1 (proj2 Hs)))).
  rewrite (bind_Ok _ _ _ _ _ (bread_at n b s Hb i1 x (i_dev i) (inode_block sup i) Hc Hd Hh Hbl Hu)).
  unfold bh. rewrite (bind_Ok _ _ _ _ _ (field_ok _ b_data _ _ _ (buf_at n b s Hb i1 _))).
  rewrite (bind_Ok _ _ _ _ _ (update_inode_at n b s Hn _ i1 _)).
  match goal with |- context [with_ib n ?i' b ?y s] =>
    rewrite (bind_Ok _ _ _ _ _ (brelse_at n b s Hb i' y Hbl (counted x Hcnt) Hbw)) end.
  rewrite unlock_inode_at by done. do 2 f_equal; [| by apply count_restored].
  by apply read_unlocked.
Qed.

Lemma write_inode_at s n i b x sup : resident s n i b x sup -> i_dirt i <> 0 ->
  write_inode n s = Ok tt (with_ib n (put i_dirt 0 i) b (put b_dirt 1 (put b_data (splice (inode_offset i) (d_inode_bytes i) (b_data x)) x)) s).
Proof.
  intros R Hdi. pose proof (resident_locked _ _ _ _ _ _ R) as Hc. destruct R as [_ Hi Hx (Hl & Hw & Hd) (sp & Hs) Hh (Hbl & Hu & Hcnt) Hbw].
  pose proof (lookup_lt_Some _ _ _ Hi) as Hn. pose proof (lookup_lt_Some _ _ _ Hx) as Hb.
  rewrite <- (with_ib_id n i b x s Hi Hx) at 1. unfold write_inode, write_inode_with.
  rewrite (bind_Ok _ _ _ _ _ (lock_inode_at n b s Hn i x Hl)). set (i1 := put i_lock 1 i) in *.
  rewrite (bind_Ok _ _ _ _ _ (row_ok _ _ _ _ (inode_at n b s Hn i1 x))).
  change (i_dirt i1) with (i_dirt i). change (i_dev i1) with (i_dev i). unfold cbool at 1 2.
  rewrite (proj2 (Z.eqb_neq _ _) Hdi), (proj2 (Z.eqb_neq _ _) Hd). cbn [negb orb].
  rewrite (bind_Ok _ _ _ _ _ (get_super_at (with_ib n i1 b x s) (i_dev i) sp sup Hd Hs)).
  rewrite (bind_Ok _ _ _ _ _ (row_ok _ _ _ _ (inode_at n b s Hn i1 x))).
  rewrite (bind_Ok _ _ _ _ _ (row_ok super_block sp sup (with_ib n i1 b x s) (proj1 (proj2 Hs)))).
  rewrite (bind_Ok _ _ _ _ _ (bread_at n b s Hb i1 x (i_dev i) (inode_block sup i) Hc Hd Hh Hbl Hu)).
  set (x1 := put b_count (u8 (b_count x + 1)) x).
  rewrite (bind_Ok _ _ _ _ _ (row_ok _ _ _ _ (inode_at n b s Hn i1 x1))).
  rewrite (bind_Ok _ _ _ tt (with_ib n i1 b (put b_data (splice (inode_offset i) (d_inode_bytes i) (b_data x)) x1) s)).
  2:{ unfold bh. rewrite (bind_Ok _ _ _ _ _ (field_ok _ b_data _ _ _ (buf_at n b s Hb i1 x1))). by apply update_buf_at. }
  unfold set_bh, set_inode, assign.
  rewrite (bind_Ok _ _ _ _ _ (update_buf_at n b s Hb _ i1 _)), (bind_Ok _ _ _ _ _ (update_inode_at n b s Hn _ i1 _)).
  match goal with |- context [with_ib n ?i' b ?y s] =>
    rewrite (bind_Ok _ _ _ _ _ (brelse_at n b s Hb i' y Hbl (counted x Hcnt) Hbw)) end.
  rewrite unlock_inode_at by done. do 2 f_equal.
  - by apply written_unlocked.
  - destruct (count_up_down _ Hcnt) as (_ & E). unfold x1. transitivity (put b_dirt 1 (put b_data
      (splice (inode_offset i) (d_inode_bytes i) (b_data x)) (put b_count (u8 (u8 (b_count x + 1) - 1)) x))); [by destruct x |].
    rewrite E. by destruct x.
Qed.

(** ** Writing, then reading *)

Lemma same_inode_place i j sup : i_num j = i_num i -> inode_offset j = inode_offset i /\ inode_block sup j = inode_block sup i.
Proof. unfold inode_offset, inode_block. intros ->. done. Qed.

Lemma resident_written s n i b x sup m j : resident s n i b x sup -> resident s m j b x sup -> m <> n ->
  let x' := put b_dirt 1 (put b_data (splice (inode_offset i) (d_inode_bytes i) (b_data x)) x) in
  resident (with_ib n (put i_dirt 0 i) b x' s) m j b x' sup.
Proof.
  intros R Rm Hmn x'. pose proof (lookup_lt_Some _ _ _ (re_inode _ _ _ _ _ _ R)) as Hn.
  pose proof (lookup_lt_Some _ _ _ (re_buf _ _ _ _ _ _ R)) as Hb. split; try apply Rm.
  - set (g := fun y => put b_dirt 1 (put b_data (splice (inode_offset i) (d_inode_bytes i) (b_data x)) y)).
    change x' with (g x). rewrite <- over_buf_at, <- over_inode_at, with_ib_id by apply R.
    apply cache_ok_bufs; [apply _ | done |]. apply cache_ok_inodes; [done | apply R].
  - change (<[n := put i_dirt 0 i]> (inode_table s) !! m = Some j). rewrite list_lookup_insert_ne by done. apply Rm.
  - by apply buf_at.
Qed.

(** C16: An inode goes through the buffer cache unharmed.  When the block of inode [n]
    is in the cache and nobody else is at work, [write_inode] stores the inode in its
    place in the block, marks the buffer dirty and the inode clean, and releases every
    lock and count it took.  [read_inode] of any inode [m] of that block then gets the
    seven fields that were written if it is the same inode of the disk, and what was on
    the disk before if it is another. *)
Theorem inode_write_read s n i b x sup m j :
  resident s n i b x sup -> resident s m j b x sup -> m <> n -> i_dirt i <> 0 -> inode_fits i -> length (b_data x) = BLOCK_SIZE ->
  let x' := put b_dirt 1 (put b_data (splice (inode_offset i) (d_inode_bytes i) (b_data x)) x) in
  let s1 := with_ib n (put i_dirt 0 i) b x' s in
  let j' := if decide (slot_of j = slot_of i) then with_disk_part i j
            else d_inode_of (take 32 (drop (inode_offset j) (b_data x))) j in
  write_inode n s = Ok tt s1 /\ read_inode m s1 = Ok tt (with_ib m j' b x' s1).
Proof.
  intros R Rm Hmn Hdi Hf Hlen x' s1 j'. split; [by apply (write_inode_at s n i b x sup) |].
  rewrite (read_inode_at s1 m j b x' sup) by (by apply resident_written). do 2 f_equal. subst j'.
  change (b_data x') with (splice (inode_offset i) (d_inode_bytes i) (b_data x)). rewrite !inode_offset_slot.
  pose proof (d_inode_length i (fits_zones _ Hf)) as Hd. pose proof (slot_small i) as Hi.
  assert (Hs : (32 * slot_of i + 32 <= length (b_data x))%nat) by (rewrite Hlen; change BLOCK_SIZE with 1024%nat; lia).
  destruct (decide (slot_of j = slot_of i)) as [->|Hne].
  - rewrite splice_same by done. by apply d_inode_read.
  - by rewrite splice_other by done.
Qed.
End Quiet.

(** Two inodes of one device in the table, the first of them changed. *)
Definition two_inodes : fs_state :=
  let i := put i_dev 0x101 (put i_num 3 zero_inode) in
  put inode_table (put i_dirt 1 (put i_mode 0x81a4 (put i_size 70000 (put i_zone [9; 8; 7; 6; 5; 4; 3; 2; 1] i)))
                   :: i :: replicate 30 zero_inode)
  (put super_block (put s_dev 0x101 (put s_imap_blocks 1 (put s_zmap_blocks 1 zero_super)) :: replicate 7 zero_super)
     empty_fs).
Definition two_inodes_start : fs_state := fresh (fun _ => replicate 1024 0) (fun _ => 0) 3 two_inodes.

Lemma two_inodes_ok : cache_ok two_inodes_start.
Proof.
  constructor; [apply fresh_queued; lia | cbn; lia |]. intros n i Hi.
  assert (Hall : forallb (fun i => (0 <=? i_dev i) && (i_dev i <? 2 ^ 16)) (inode_table two_inodes_start) = true) by (vm_compute; reflexivity).
  rewrite forallb_forall in Hall. specialize (Hall i (proj1 (list_elem_of_In _ _) (list_elem_of_lookup_2 _ _ _ Hi))). blia.
Qed.

(** The same with their block read into the cache. *)
Definition two_inodes_cached : fs_state :=
  match @getblk alone 0x101 4 two_inodes_start with Ok b s => over bufs (alter (put b_uptodate 1) b) s | _ => two_inodes_start end.

Lemma two_inodes_cached_ok : cache_ok two_inodes_cached.
Proof.
  unfold two_inodes_cached. destruct (@getblk alone 0x101 4 two_inodes_start) as [b s| | |] eqn:E; try apply two_inodes_ok.
  apply cache_ok_bufs; [apply _ | done |]. refine (@preserves_getblk alone _ _ 0x101 4 _ _ b s two_inodes_ok E); [| | lia].
  - apply preserves_ret.
  - intros n. apply preserves_ret.
Qed.

Lemma two_inodes_resident : exists x sup i j, resident two_inodes_cached 0 i 0 x sup /\ resident two_inodes_cached 1 j 0 x sup
  /\ i_dirt i <> 0 /\ inode_fits i /\ length (b_data x) = BLOCK_SIZE /\ i_size i = 70000 /\ slot_of j = slot_of i.
Proof.
  do 4 eexists. split_and!.
  1,2: split; [apply two_inodes_cached_ok | vm_compute; reflexivity | vm_compute; reflexivity | split_and!; vm_compute; congruence
    | exists 0%nat; split_and!; [apply Nat.ltb_lt; reflexivity | vm_compute; reflexivity | vm_compute; reflexivity | vm_compute; reflexivity | intros; lia]
    | vm_compute; reflexivity | vm_compute; split_and!; congruence | vm_compute; reflexivity].
  - vm_compute. congruence.
  - split; first [vm_compute; reflexivity | apply (bool_decide_unpack _); vm_compute; exact I].
  - vm_compute. reflexivity.
  - vm_compute. reflexivity.
  - vm_compute. reflexivity.
Qed.

Lemma inode_write_read_witness : exists s1 s2,
  @write_inode alone 0 two_inodes_cached = Ok tt s1 /\ @read_inode alone 1 s1 = Ok tt s2 /\ i_size <$> inode_table s2 !! 1%nat = Some 70000.
Proof.
  destruct two_inodes_resident as (x & sup & i & j & R & Rm & Hd & Hf & Hl & Hz & Hsl).
  pose proof (@inode_write_read alone ltac:(cbn; lia) _ 0 i 0 x sup 1 j R Rm ltac:(lia) Hd Hf Hl) as T. cbv zeta in T.
  destruct T as (T1 & T2). do 2 eexists. split_and!; [exact T1 | exact T2 |].
  rewrite decide_True by done. rewrite inode_at; [cbn; by rewrite <- Hz |].
  rewrite length_with_ib.
  apply (lookup_lt_Some _ _ j), Rm.
Defined.
