(* ===== verification/FileSpec.v ===== *)
(** Files are arrays of bytes (fs/file_dev.c, [_bmap] of fs/inode.c): reading and writing a
    file whose blocks are in the buffer cache, through direct and indirect blocks. *)
From stdpp Require Import base list gmap strings.
From Stdlib Require Import ZArith Lia.
From S2P Require Import Prelude Memory Sched FsState BlkDev Buffer Cache Getblk Shared Inode Namei Files Bytes InodeIO.
Open Scope Z_scope.

(** Block [z] of [dev] is in buffer [b], up to date and not locked. *)
Record cached (s : fs_state) (dev z : Z) (b : nat) (x : buffer_head) : Prop := {
  ca_buf : bufs s !! b = Some x;
  ca_holds : holds dev z x;
  ca_lock : b_lock x = 0;
  ca_uptodate : b_uptodate x <> 0;
  ca_count : 0 <= b_count x < 255;
  ca_data : length (b_data x) = BLOCK_SIZE }.

(** Entry [k] of the indirect block [z] is [v], and [ind] holds of its buffer; without an
    indirect block everything behind it is a hole. *)
Inductive points (s : fs_state) (i : m_inode) (ind : nat -> Prop) : Z -> Z -> Z -> Prop :=
| points_hole k : points s i ind 0 k 0
| points_at z k v b x : z <> 0 -> cached s (i_dev i) z b x -> ind b -> word (b_data x) k = Some v -> points s i ind z k v.

(** Block [k] of the file of inode [i] is block [z] of the device, 0 for a hole. *)
Inductive maps (s : fs_state) (i : m_inode) (ind : nat -> Prop) : Z -> Z -> Prop :=
| maps_direct k z : 0 <= k < 7 -> i_zone i !! Z.to_nat k = Some z -> maps s i ind k z
| maps_single k z v : 7 <= k < 7 + 512 -> i_zone i !! 7%nat = Some z -> points s i ind z (k - 7) v -> maps s i ind k v
| maps_double k z y v : 7 + 512 <= k < 7 + 512 + 512 * 512 -> i_zone i !! 8%nat = Some z ->
    points s i ind z (Z.shiftr (k - 7 - 512) 9) y -> points s i ind y (Z.land (k - 7 - 512) 511) v -> maps s i ind k v.

Lemma points_frame s s' i i' ind z k v : i_dev i' = i_dev i -> (forall b, ind b -> bufs s' !! b = bufs s !! b) ->
  points s i ind z k v -> points s' i' ind z k v.
Proof.
  intros Hd Hb [k' | z' k' v' b x Hz [? ? ? ? ? ?] Hi Hv]; [constructor |]. apply (points_at _ _ _ _ _ _ b x); [done | | done | done].
  rewrite Hd. constructor; try done. by rewrite Hb.
Qed.
Lemma maps_frame s s' i i' ind k z : i_dev i' = i_dev i -> i_zone i' = i_zone i -> (forall b, ind b -> bufs s' !! b = bufs s !! b) ->
  maps s i ind k z -> maps s' i' ind k z.
Proof.
  intros Hd Hz Hb [k' z' ? ? | k' z' v ? ? ? | k' z' y v ? ? ? ?].
  - constructor; [done | by rewrite Hz].
  - eapply maps_single; [done | by rewrite Hz | by eapply points_frame].
  - eapply maps_double; [done | by rewrite Hz | by eapply points_frame | by eapply points_frame].
Qed.

Section Quiet.
Context `{Env}.
Hypothesis Hpat : (0 < patience)%nat.
Context (n : nat).

(** Nobody waits for a buffer, and inode [n] is in use. *)
Record at_rest (s : fs_state) (i : m_inode) : Prop := {
  rs_cache : cache_ok s;
  rs_wait : buffer_wait s = 0;
  rs_inode : inode_table s !! n = Some i;
  rs_dev : i_dev i <> 0 }.

(** Between [bread] and [brelse] the buffer has one more user. *)
Definition used (x : buffer_head) : buffer_head := put b_count (u8 (b_count x + 1)) x.

Lemma bread_cached s i z b x : at_rest s i -> cached s (i_dev i) z b x ->
  bread (i_dev i) z s = Ok (Some b) (with_ib n i b (used x) s).
Proof.
  intros [Hc Hw Hi Hd] [Hx Hh Hl Hu Hn Hlen]. rewrite <- (with_ib_id n i b x s Hi Hx) at 1.
  apply bread_at; [done | by eapply lookup_lt_Some | by rewrite with_ib_id | done..].
Qed.
Lemma brelse_used s i i' b x y : at_rest s i -> bufs s !! b = Some x -> b_lock y = 0 -> 0 <= b_count y < 255 ->
  brelse (Some b) (with_ib n i' b (used y) s) = Ok tt (with_ib n i' b y s).
Proof.
  intros [Hc Hw Hi Hd] Hx Hl Hn.
  rewrite (brelse_at Hpat n b s ltac:(by eapply lookup_lt_Some) i' (used y)); [| done | by apply counted | done].
  do 2 f_equal. by apply count_restored.
Qed.

Lemma indirect_ok s i z k v b x create : at_rest s i -> cached s (i_dev i) z b x -> word (b_data x) k = Some v -> create && negb (cbool v) = false ->
  indirect n z k create s = Ok v s.
Proof.
  intros Hr Hx Hv Hc. pose proof (ca_buf _ _ _ _ _ Hx) as Hb. pose proof (lookup_lt_Some _ _ _ Hb) as Hlt. unfold indirect, inode, bh.
  rewrite (bind_Ok _ _ _ _ _ (field_ok inode_table i_dev n i s (rs_inode _ _ Hr))), (bind_Ok _ _ _ _ _ (bread_cached s i z b x Hr Hx)).
  rewrite (bind_Ok _ _ _ _ _ (field_ok bufs b_data b _ _ (buf_at n b s Hlt i (used x)))). change (b_data (used x)) with (b_data x). rewrite Hv. cbn [need].
  unfold bind at 1, ret at 1. rewrite Hc. unfold bind at 1, ret at 1. rewrite (bind_Ok _ _ _ tt s); [done |].
  rewrite (brelse_used s i i b x x Hr Hb); [by rewrite with_ib_id by apply Hr || done | apply Hx | apply Hx].
Qed.

Lemma zone_ok s i k z : inode_table s !! n = Some i -> 0 <= k -> i_zone i !! Z.to_nat k = Some z -> zone n k s = Ok z s.
Proof.
  intros Hi Hk Hz. unfold zone, elem. rewrite (bind_Ok _ _ _ _ _ (field_ok inode_table i_zone n i s Hi)).
  by rewrite (proj2 (Z.ltb_ge k 0)), Hz by done.
Qed.
Lemma fill_zone_ok s i k z create : inode_table s !! n = Some i -> 0 <= k -> i_zone i !! Z.to_nat k = Some z -> create && negb (cbool z) = false ->
  fill_zone n k create s = Ok tt s.
Proof. intros Hi Hk Hz Hc. unfold fill_zone. by rewrite (bind_Ok _ _ _ _ _ (zone_ok s i k z Hi Hk Hz)), Hc. Qed.

Lemma points_ok s i ind z k v create : at_rest s i -> points s i ind z k v -> create && negb (cbool v) = false ->
  create && negb (cbool z) = false /\ (if negb (cbool z) then ret 0 else indirect n z k create) s = Ok v s.
Proof.
  intros Hr [k' | z' k' v' b x Hz Hx _ Hv] Hc; [done |]. unfold cbool at 1 2. rewrite (proj2 (Z.eqb_neq z' 0) Hz). cbn [negb].
  split; [by rewrite andb_false_r | by eapply indirect_ok].
Qed.

Lemma bmap_ok s i ind k v create : at_rest s i -> maps s i ind k v -> create && negb (cbool v) = false -> _bmap n k create s = Ok v s.
Proof.
  intros Hr Hm Hc. pose proof (rs_inode _ _ Hr) as Hi. unfold _bmap. destruct Hm as [k z Hk Hz | k z v Hk Hz Hp | k z y v Hk Hz Hp Hq].
  - rewrite (proj2 (Z.ltb_ge k 0)), (proj2 (Z.leb_gt _ k)), (proj2 (Z.ltb_lt k 7)) by lia.
    rewrite (bind_Ok _ _ _ _ _ (fill_zone_ok s i k z create Hi ltac:(lia) Hz Hc)). eapply zone_ok; [done | lia | done].
  - destruct (points_ok _ _ _ _ _ _ _ Hr Hp Hc) as [Hcz E].
    rewrite (proj2 (Z.ltb_ge k 0)), (proj2 (Z.leb_gt _ k)), (proj2 (Z.ltb_ge k 7)), (proj2 (Z.ltb_lt (k - 7) 512)) by lia.
    rewrite (bind_Ok _ _ _ _ _ (fill_zone_ok s i 7 z create Hi ltac:(lia) Hz Hcz)), (bind_Ok _ _ _ _ _ (zone_ok s i 7 z Hi ltac:(lia) Hz)). exact E.
  - assert (Hcy : create && negb (cbool y) = false).
    { destruct create; [| done]. destruct (points_ok _ _ _ _ _ _ _ Hr Hq Hc) as [E _]. exact E. }
    destruct (points_ok _ _ _ _ _ _ _ Hr Hq Hc) as [_ E2]. destruct (points_ok _ _ _ _ _ _ _ Hr Hp Hcy) as [Hcz E1].
    rewrite (proj2 (Z.ltb_ge k 0)), (proj2 (Z.leb_gt _ k)), (proj2 (Z.ltb_ge k 7)), (proj2 (Z.ltb_ge (k - 7) 512)) by lia.
    rewrite (bind_Ok _ _ _ _ _ (fill_zone_ok s i 8 z create Hi ltac:(lia) Hz Hcz)), (bind_Ok _ _ _ _ _ (zone_ok s i 8 z Hi ltac:(lia) Hz)).
    destruct (cbool z) eqn:Ez; cbn [negb] in *.
    + by rewrite (bind_Ok _ _ _ _ _ E1).
    + injection E1 as <-. cbn [cbool Z.eqb negb] in E2. exact E2.
Qed.

(** ** The contents of a file *)

(** [B] gives the buffers of the first [N] blocks, [None] for a hole. *)
Record file_in (s : fs_state) (i : m_inode) (ind : nat -> Prop) (B : Z -> option nat) (N : Z) : Prop := {
  fi_rest : at_rest s i;
  fi_blocks k : 0 <= k < N -> match B k with
    | None => maps s i ind k 0
    | Some b => ~ ind b /\ exists z x, z <> 0 /\ maps s i ind k z /\ cached s (i_dev i) z b x
    end;
  fi_inj k k' b : B k = Some b -> B k' = Some b -> k = k' }.

Definition byte_at (s : fs_state) (B : Z -> option nat) (p : Z) : Z :=
  match B (p / bsize) with None => 0 | Some b => default 0 (from_option b_data [] (bufs s !! b) !! Z.to_nat (p mod bsize)) end.
Definition bytes_from (s : fs_state) (B : Z -> option nat) (p c : Z) : list Z := map (fun k => byte_at s B (p + k)) (seqZ 0 c).

Lemma bytes_from_app s B p c d : 0 <= c -> 0 <= d -> bytes_from s B p (c + d) = bytes_from s B p c ++ bytes_from s B (p + c) d.
Proof.
  intros Hc Hd. unfold bytes_from. rewrite seqZ_app by lia. rewrite map_app. f_equal.
  replace (0 + c) with (c + 0) by lia. rewrite <- (fmap_add_seqZ c 0 d).
  change (map ?f ?l) with (f <$> l). rewrite <- list_fmap_compose. apply list_fmap_ext. intros _ k _. cbn. f_equal. lia.
Qed.
Lemma bytes_from_length s B p c : length (bytes_from s B p c) = Z.to_nat c.
Proof. unfold bytes_from. by rewrite length_map, length_seqZ. Qed.

(** The bytes of a part of one block. *)
Lemma bytes_from_block s B p c b x : 0 <= p -> 0 <= c -> p mod bsize + c <= bsize -> B (p / bsize) = Some b -> bufs s !! b = Some x ->
  length (b_data x) = BLOCK_SIZE -> bytes_from s B p c = take (Z.to_nat c) (drop (Z.to_nat (p mod bsize)) (b_data x)).
Proof.
  intros Hp Hc Hm HB Hx Hl. apply list_eq. intros k. unfold bytes_from. rewrite list_lookup_fmap.
  pose proof (Z.mod_pos_bound p bsize ltac:(done)) as Hr. change BLOCK_SIZE with 1024%nat in Hl. change bsize with 1024 in *.
  destruct (decide (k < Z.to_nat c)%nat) as [Hk|Hk].
  - rewrite lookup_seqZ_lt, lookup_take_lt, lookup_drop by lia. cbn. unfold byte_at. change bsize with 1024.
    assert (E1 : (p + (0 + Z.of_nat k)) / 1024 = p / 1024) by (Z.to_euclidean_division_equations; lia).
    assert (E2 : (p + (0 + Z.of_nat k)) mod 1024 = p mod 1024 + Z.of_nat k) by (Z.to_euclidean_division_equations; lia).
    rewrite E1, E2, HB, Hx. cbn [from_option]. replace (Z.to_nat (p mod 1024 + Z.of_nat k)) with (Z.to_nat (p mod 1024) + k)%nat by lia.
    destruct (lookup_lt_is_Some_2 (b_data x) (Z.to_nat (p mod 1024) + k)) as [v Hv]; [lia |]. by rewrite Hv.
  - rewrite lookup_seqZ_ge by lia. rewrite (lookup_ge_None_2 (take _ _)); [done |]. rewrite length_take. lia.
Qed.
Lemma bytes_from_hole s B p c : 0 <= p -> 0 <= c -> p mod bsize + c <= bsize -> B (p / bsize) = None -> bytes_from s B p c = replicate (Z.to_nat c) 0.
Proof.
  intros Hp Hc Hm HB. apply list_eq. intros k. unfold bytes_from. rewrite list_lookup_fmap. change bsize with 1024 in *.
  destruct (decide (k < Z.to_nat c)%nat) as [Hk|Hk].
  - rewrite lookup_seqZ_lt, lookup_replicate_2 by lia. cbn. unfold byte_at. change bsize with 1024.
    assert (E1 : (p + (0 + Z.of_nat k)) / 1024 = p / 1024) by (Z.to_euclidean_division_equations; lia). by rewrite E1, HB.
  - rewrite lookup_seqZ_ge by lia. rewrite (lookup_ge_None_2 (replicate _ _)); [done |]. rewrite length_replicate. lia.
Qed.

(** Parts of the state a file does not depend on. *)
Lemma file_in_same s s' i ind B N : view s' = view s -> bufs s' = bufs s -> inode_table s' = inode_table s -> buffer_wait s' = buffer_wait s ->
  file_in s i ind B N -> file_in s' i ind B N.
Proof.
  intros Ev Eb Ei Ew [[Hc Hw Hi Hd] Hk Hj]. constructor; [| | done].
  - constructor; [by eapply cache_ok_same | congruence | congruence | done].
  - intros k Hr. specialize (Hk k Hr). destruct (B k) as [b|].
    + destruct Hk as (Hb & z & x & Hz & Hm & [? ? ? ? ? ?]). split; [done |]. exists z, x. split_and!; [done | |].
      * eapply maps_frame, Hm; try done. intros b' _. by rewrite Eb.
      * constructor; try done. by rewrite Eb.
    + eapply maps_frame, Hk; try done. intros b' _. by rewrite Eb.
Qed.

(** ** Reading *)

Section Read.
Context (f : nat) (ind : nat -> Prop) (B : Z -> option nat) (N : Z).

Definition read_so_far (s : fs_state) (fl : file) (buf c : Z) : fs_state :=
  over umem (store_bytes buf (bytes_from s B (f_pos fl) c)) (over file_table (alter (put f_pos (f_pos fl + c)) f) s).

Lemma read_on s fl buf c d : file_table s !! f = Some fl -> 0 <= c <= d ->
  read_so_far (read_so_far s fl buf c) (put f_pos (f_pos fl + c) fl) (buf + c) (d - c) = read_so_far s fl buf d.
Proof.
  intros Hfl Hc. unfold read_so_far. change (f_pos (put f_pos ?v fl)) with v.
  replace (bytes_from s B (f_pos fl) d) with (bytes_from s B (f_pos fl) c ++ bytes_from s B (f_pos fl + c) (d - c))
    by (rewrite <- bytes_from_app by lia; f_equal; lia).
  unfold over. cbn. rewrite store_bytes_app, bytes_from_length, !(alter_insert _ _ _ _ Hfl), alter_insert_eq.
  replace (f_pos fl + c + (d - c)) with (f_pos fl + d) by lia. by rewrite Z2Nat.id by lia.
Qed.

Lemma file_read_turn fuel s i fl buf rest : file_in s i ind B N -> file_table s !! f = Some fl -> 0 <= f_pos fl -> 0 < rest ->
  f_pos fl + rest <= N * bsize -> f_pos fl + rest < 2 ^ 31 ->
  let chars := Z.min (bsize - f_pos fl mod bsize) rest in
  0 < chars <= rest /\ file_read_loop (S fuel) n f buf rest s = file_read_loop fuel n f (buf + chars) (rest - chars) (read_so_far s fl buf chars).
Proof.
  intros Hf Hfl Hp Hr HN Hmax chars. pose proof (Z.mod_pos_bound (f_pos fl) bsize ltac:(done)) as Hmod.
  assert (Hch : 0 < chars <= rest) by lia. split; [done |]. pose proof (fi_rest _ _ _ _ _ Hf) as Hrest.
  assert (Hk : 0 <= f_pos fl / bsize < N).
  { split; [by apply Z.div_pos |]. apply Z.div_lt_upper_bound; [done |]. lia. }
  pose proof (fi_blocks _ _ _ _ _ Hf _ Hk) as Hb.
  cbn [file_read_loop]. rewrite (proj2 (Z.eqb_neq rest 0)) by lia. unfold fil.
  rewrite (bind_Ok _ _ _ _ _ (field_ok file_table f_pos f fl s Hfl)), Z.quot_div_nonneg by done.
  destruct (B (f_pos fl / bsize)) as [b|] eqn:EB.
  - destruct Hb as (_ & z & x & Hz & Hm & Hx). pose proof (ca_buf _ _ _ _ _ Hx) as Hbx. pose proof (lookup_lt_Some _ _ _ Hbx) as Hlt.
    unfold bmap. rewrite (bind_Ok _ _ _ _ _ (bmap_ok s i ind _ z false Hrest Hm eq_refl)).
    unfold cbool. rewrite (proj2 (Z.eqb_neq z 0) Hz). cbn [negb]. set (s1 := with_ib n i b (used x) s).
    rewrite (bind_Ok _ _ s (Some (Some b)) s1); cycle 1.
    { unfold inode. rewrite (bind_Ok _ _ _ _ _ (field_ok inode_table i_dev n i s (rs_inode _ _ Hrest))).
      by rewrite (bind_Ok _ _ _ _ _ (bread_cached s i z b x Hrest Hx)). }
    rewrite (bind_Ok _ _ _ _ _ (field_ok file_table f_pos f fl s1 Hfl)), Z.rem_mod_nonneg by done. fold chars.
    unfold set_file, assign. rewrite (bind_Ok _ _ _ _ _ (update_ok file_table f _ fl s1 Hfl)), s32_small by lia.
    set (s2 := over file_table (alter (put f_pos (f_pos fl + chars)) f) s).
    change (over file_table ?g s1) with (with_ib n i b (used x) s2).
    rewrite (bind_Ok _ _ _ tt (read_so_far s fl buf chars)); [done |]. unfold bh.
    rewrite (bind_Ok _ _ _ _ _ (field_ok bufs b_data b _ _ (buf_at n b s2 Hlt i (used x)))). unfold put_fs_bytes.
    rewrite (bind_Ok (modify _) _ _ tt (with_ib n i b (used x) (read_so_far s fl buf chars))); cycle 1.
    { unfold modify, read_so_far. rewrite (bytes_from_block s B _ _ b x) by (try apply Hx; try done; lia). done. }
    rewrite (brelse_used (read_so_far s fl buf chars) i i b x x); [| | done | apply Hx | apply Hx].
    + by rewrite with_ib_id by (done || apply Hrest).
    + destruct Hrest as [? ? ? ?]. constructor; try done. by eapply cache_ok_same.
  - unfold bmap. rewrite (bind_Ok _ _ _ _ _ (bmap_ok s i ind _ 0 false Hrest Hb eq_refl)). cbn [cbool Z.eqb negb].
    unfold bind at 1, ret at 1. rewrite (bind_Ok _ _ _ _ _ (field_ok file_table f_pos f fl s Hfl)), Z.rem_mod_nonneg by done. fold chars.
    unfold set_file, assign. rewrite (bind_Ok _ _ _ _ _ (update_ok file_table f _ fl s Hfl)), s32_small by lia.
    unfold put_fs_bytes. rewrite (bind_Ok (modify _) _ _ tt (read_so_far s fl buf chars)); [done |].
    unfold modify, read_so_far. by rewrite (bytes_from_hole s B) by (done || lia).
Qed.

Lemma file_read_loop_ok fuel : forall s i fl buf rest, file_in s i ind B N -> file_table s !! f = Some fl -> 0 <= f_pos fl -> 0 <= rest < Z.of_nat fuel ->
  f_pos fl + rest <= N * bsize -> f_pos fl + rest < 2 ^ 31 ->
  file_read_loop fuel n f buf rest s = Ok 0 (read_so_far s fl buf rest).
Proof.
  induction fuel as [|fuel IH]; intros s i fl buf rest Hf Hfl Hp Hr HN Hmax; [lia |].
  destruct (decide (rest = 0)) as [->|Hne].
  - cbn [file_read_loop Z.eqb]. unfold ret, read_so_far. f_equal. cbn. rewrite Z.add_0_r. unfold over. cbn.
    rewrite (alter_insert _ _ _ _ Hfl). replace (put f_pos (f_pos fl) fl) with fl by by destruct fl.
    rewrite list_insert_id by done. by destruct s.
  - destruct (file_read_turn fuel s i fl buf rest Hf Hfl Hp ltac:(lia) HN Hmax) as [Hch ->]. cbv zeta in Hch.
    set (chars := Z.min _ _) in *. clearbody chars. set (s1 := read_so_far s fl buf chars).
    rewrite (IH s1 i (put f_pos (f_pos fl + chars) fl)).
    + f_equal. unfold s1. apply read_on; [done | lia].
    + by eapply file_in_same, Hf.
    + cbn. by rewrite (alter_insert _ _ _ _ Hfl), list_lookup_insert_eq by by eapply lookup_lt_Some.
    + cbn. lia.
    + lia.
    + cbn. lia.
    + cbn. lia.
Qed.
End Read.

(** ** Writing *)

Section Write.
Context (ind : nat -> Prop) (B : Z -> option nat) (N : Z).

Definition grown (pos : Z) (i : m_inode) : m_inode := if i_size i <? pos then put i_dirt 1 (put i_size pos i) else i.
Definition filled (c : Z) (d : list Z) (x : buffer_head) : buffer_head := put b_data (splice (Z.to_nat c) d (b_data x)) (put b_dirt 1 x).

Lemma splice_len c (d l : list Z) : (c + length d <= length l)%nat -> length (splice c d l) = length l.
Proof. intros Hl. unfold splice. rewrite !length_app, length_take, length_drop. lia. Qed.
Lemma splice_lookup c (d l : list Z) k : (c + length d <= length l)%nat ->
  splice c d l !! k = if decide (c <= k < c + length d)%nat then d !! (k - c)%nat else l !! k.
Proof.
  intros Hl. unfold splice. destruct (decide (k < c)%nat) as [Hk|Hk].
  - rewrite lookup_app_l by (rewrite length_take; lia). rewrite lookup_take_lt, decide_False by lia. done.
  - rewrite lookup_app_r by (rewrite length_take; lia). rewrite length_take. replace (c `min` length l)%nat with c by lia.
    destruct (decide (k < c + length d)%nat) as [Hk2|Hk2].
    + by rewrite lookup_app_l, decide_True by lia.
    + rewrite lookup_app_r, decide_False, lookup_drop by lia. f_equal. lia.
Qed.

Lemma grown_same pos i : i_dev (grown pos i) = i_dev i /\ i_zone (grown pos i) = i_zone i.
Proof. unfold grown. by destruct (_ <? _). Qed.

(** The file after bytes of one of its blocks have changed. *)
Lemma file_in_filled s i k b x c d pos : file_in s i ind B N -> 0 <= k < N -> B k = Some b -> bufs s !! b = Some x -> 0 <= c ->
  c + Z.of_nat (length d) <= bsize -> file_in (with_ib n (grown pos i) b (filled c d x) s) (grown pos i) ind B N.
Proof.
  intros [[Hc Hw Hi Hd] Hk Hj] Hr HB Hx H0 Hl. destruct (grown_same pos i) as [Gd Gz].
  pose proof (lookup_lt_Some _ _ _ Hi) as Hn. pose proof (lookup_lt_Some _ _ _ Hx) as Hb.
  pose proof (Hk k Hr) as Hk0. rewrite HB in Hk0. destruct Hk0 as (Hib & z0 & x0 & _ & _ & Hx0).
  assert (Ex : x0 = x) by (pose proof (ca_buf _ _ _ _ _ Hx0); congruence). subst x0.
  assert (Hlen : length (b_data (filled c d x)) = BLOCK_SIZE).
  { change (b_data (filled c d x)) with (splice (Z.to_nat c) d (b_data x)). rewrite splice_len; [apply Hx0 |].
    rewrite (ca_data _ _ _ _ _ Hx0). unfold bsize in Hl. lia. }
  constructor; [| | done].
  - constructor; [| done | by apply inode_at | by rewrite Gd].
    set (g := fun y => put b_data (splice (Z.to_nat c) d (b_data x)) (put b_dirt 1 y)).
    assert (E : with_ib n (grown pos i) b (filled c d x) s = over bufs (alter g b) (over inode_table (alter (grown pos) n) s)).
    { rewrite <- (with_ib_id n i b x s Hi Hx) at 2. by rewrite over_inode_at, over_buf_at. }
    rewrite E. apply cache_ok_bufs; [apply _ | done |]. apply cache_ok_inodes; [| done]. intros j Hj'. by rewrite (proj1 (grown_same pos j)).
  - assert (Hfr : forall b', ind b' -> bufs (with_ib n (grown pos i) b (filled c d x) s) !! b' = bufs s !! b').
    { intros b' Hb'. cbn. rewrite list_lookup_insert_ne; [done |]. by intros ->. }
    intros k' Hr'. specialize (Hk k' Hr'). destruct (B k') as [b'|] eqn:EB.
    + destruct Hk as (Hi' & z & y & Hz & Hm & Hy). split; [done |].
      destruct (decide (b' = b)) as [->|Hne].
      * exists z, (filled c d x). split_and!; [done | by eapply maps_frame, Hm |]. rewrite Gd.
        assert (Ey : y = x) by (pose proof (ca_buf _ _ _ _ _ Hy); congruence). subst y.
        destruct Hy as [? ? ? ? ? ?]. constructor; try done. by apply buf_at.
      * exists z, y. split_and!; [done | by eapply maps_frame, Hm |]. rewrite Gd. destruct Hy as [? ? ? ? ? ?]. constructor; try done.
        cbn. by rewrite list_lookup_insert_ne.
    + by eapply maps_frame, Hk.
Qed.

(** What the file contains then. *)
Lemma byte_at_filled s i pos b x d p : file_in s i ind B N -> 0 <= pos -> 0 <= pos / bsize < N -> B (pos / bsize) = Some b -> bufs s !! b = Some x ->
  pos mod bsize + Z.of_nat (length d) <= bsize -> 0 <= p ->
  forall i', byte_at (with_ib n i' b (filled (pos mod bsize) d x) s) B p
  = if (pos <=? p) && (p <? pos + Z.of_nat (length d)) then default 0 (d !! Z.to_nat (p - pos)) else byte_at s B p.
Proof.
  intros [_ Hk Hj] Hp Hr HB Hx Hl Hp' i'. pose proof (lookup_lt_Some _ _ _ Hx) as Hb. specialize (Hk _ Hr). rewrite HB in Hk.
  destruct Hk as (_ & z0 & x0 & _ & _ & Hx0). assert (Ex : x0 = x) by (pose proof (ca_buf _ _ _ _ _ Hx0); congruence). subst x0.
  pose proof (ca_data _ _ _ _ _ Hx0) as Hlen. change BLOCK_SIZE with 1024%nat in Hlen. change bsize with 1024 in *. unfold byte_at. change bsize with 1024.
  destruct (decide (p / 1024 = pos / 1024)) as [Ep|Ep].
  - rewrite Ep, HB. rewrite buf_at, Hx by done. cbn [from_option]. change (b_data (filled ?c d x)) with (splice (Z.to_nat c) d (b_data x)).
    rewrite splice_lookup by (Z.to_euclidean_division_equations; lia).
    destruct (Z.leb_spec pos p), (Z.ltb_spec p (pos + Z.of_nat (length d))); cbn [andb].
    2-4: by rewrite decide_False by (Z.to_euclidean_division_equations; lia).
    rewrite decide_True by (Z.to_euclidean_division_equations; lia).
    do 2 f_equal. Z.to_euclidean_division_equations; lia.
  - assert (E : (pos <=? p) && (p <? pos + Z.of_nat (length d)) = false).
    { apply andb_false_iff. destruct (Z.leb_spec pos p); [right | by left]. apply Z.ltb_ge. Z.to_euclidean_division_equations; lia. }
    rewrite E. destruct (B (p / 1024)) as [b'|] eqn:EB; [| done]. cbn. rewrite list_lookup_insert_ne; [done |].
    intros ->. apply Ep. by eapply Hj.
Qed.

Lemma file_write_turn fuel s i buf count pos i0 : file_in s i ind B N -> 0 <= pos -> 0 <= i0 < count -> pos + (count - i0) <= N * bsize -> pos + (count - i0) < 2 ^ 31 ->
  is_Some (B (pos / bsize)) ->
  let chars := Z.min (bsize - pos mod bsize) (count - i0) in
  let d := load_bytes (Z.to_nat chars) buf (umem s) in
  0 < chars <= count - i0 /\ exists b x, B (pos / bsize) = Some b /\ bufs s !! b = Some x /\
  file_write_loop (S fuel) n buf count pos i0 s
  = file_write_loop fuel n (buf + chars) count (pos + chars) (i0 + chars) (with_ib n (grown (pos + chars) i) b (filled (pos mod bsize) d x) s).
Proof.
  intros Hf Hp Hc HN Hmax [b HB] chars d. pose proof (Z.mod_pos_bound pos bsize ltac:(done)) as Hmod.
  assert (Hch : 0 < chars <= count - i0) by lia. split; [done |]. pose proof (fi_rest _ _ _ _ _ Hf) as Hrest.
  assert (Hk : 0 <= pos / bsize < N).
  { split; [by apply Z.div_pos |]. apply Z.div_lt_upper_bound; [done |]. lia. }
  pose proof (fi_blocks _ _ _ _ _ Hf _ Hk) as Hb. rewrite HB in Hb. destruct Hb as (_ & z & x & Hz & Hm & Hx).
  pose proof (ca_buf _ _ _ _ _ Hx) as Hbx. pose proof (lookup_lt_Some _ _ _ Hbx) as Hlt. pose proof (lookup_lt_Some _ _ _ (rs_inode _ _ Hrest)) as Hn.
  exists b, x. split_and!; [done | done |]. cbn [file_write_loop]. rewrite (proj2 (Z.leb_gt count i0)), Z.quot_div_nonneg by lia.
  assert (Hcz : cbool z = true) by (unfold cbool; by rewrite (proj2 (Z.eqb_neq z 0) Hz)).
  unfold create_block. rewrite (bind_Ok _ _ _ _ _ (bmap_ok s i ind _ z true Hrest Hm ltac:(by rewrite Hcz))), Hcz. cbn [negb]. unfold inode.
  rewrite (bind_Ok _ _ _ _ _ (field_ok inode_table i_dev n i s (rs_inode _ _ Hrest))), (bind_Ok _ _ _ _ _ (bread_cached s i z b x Hrest Hx)).
  rewrite Z.rem_mod_nonneg by done. fold chars. unfold set_bh, set_inode, assign.
  rewrite (bind_Ok _ _ _ _ _ (update_buf_at n b s Hlt (put b_dirt 1) i (used x))).
  rewrite s32_small, u32_small by lia. set (x1 := put b_dirt 1 (used x)).
  rewrite (bind_Ok _ _ _ tt (with_ib n (grown (pos + chars) i) b x1 s)); cycle 1.
  { rewrite (bind_Ok _ _ _ _ _ (field_ok inode_table i_size n i _ (inode_at n b s Hn i x1))). unfold grown. destruct (_ <? _); [| done].
    rewrite (bind_Ok _ _ _ _ _ (update_inode_at n b s Hn _ i x1)). apply update_inode_at, Hn. }
  unfold get_fs_bytes, bind at 1, get at 1. change (umem (with_ib n ?i' b x1 s)) with (umem s). fold d.
  rewrite (bind_Ok _ _ _ tt (with_ib n (grown (pos + chars) i) b (used (filled (pos mod bsize) d x)) s)); cycle 1.
  { unfold bh. rewrite (bind_Ok _ _ _ _ _ (field_ok bufs b_data b _ _ (buf_at n b s Hlt _ x1))). by rewrite update_buf_at. }
  rewrite (bind_Ok _ _ _ _ _ (brelse_used s i (grown (pos + chars) i) b x (filled (pos mod bsize) d x) Hrest Hbx (ca_lock _ _ _ _ _ Hx) (ca_count _ _ _ _ _ Hx))).
  done.
Qed.

(** Bytes of user memory. *)
Definition user_byte (s : fs_state) (a : Z) : Z := default 0 (umem s !! a).

Lemma file_write_loop_ok fuel : forall s i buf count pos i0, file_in s i ind B N -> 0 <= pos -> 0 <= i0 <= count -> count - i0 < Z.of_nat fuel ->
  pos + (count - i0) <= N * bsize -> pos + (count - i0) < 2 ^ 31 -> (forall k, pos / bsize <= k < N -> k * bsize < pos + (count - i0) -> is_Some (B k)) ->
  exists s' sz dirt, let i' := put i_size sz (put i_dirt dirt i) in
    file_write_loop fuel n buf count pos i0 s = Ok (pos + (count - i0), count) s' /\ file_in s' i' ind B N /\
    s' = put inode_table (<[n := i']> (inode_table s)) (put bufs (bufs s') s) /\
    (sz = if decide (i0 = count) then i_size i else Z.max (i_size i) (pos + (count - i0))) /\
    (forall b, (forall k, B k <> Some b) -> bufs s' !! b = bufs s !! b) /\
    forall p, 0 <= p -> byte_at s' B p = if (pos <=? p) && (p <? pos + (count - i0)) then user_byte s (buf + (p - pos)) else byte_at s B p.
Proof.
  induction fuel as [|fuel IH]; intros s i buf count pos i0 Hf Hp Hi Hfu HN Hmax HB; [lia |].
  destruct (decide (i0 = count)) as [->|Hne].
  - exists s, (i_size i), (i_dirt i). replace (put i_size (i_size i) (put i_dirt (i_dirt i) i)) with i by by destruct i.
    cbn [file_write_loop]. rewrite Z.leb_refl, Z.sub_diag, Z.add_0_r. split_and!; [done | done | | done | done |].
    + rewrite list_insert_id by apply Hf. by destruct s.
    + intros p Hp'. destruct (Z.leb_spec pos p), (Z.ltb_spec p pos); try lia; done.
  - destruct (file_write_turn fuel s i buf count pos i0 Hf Hp ltac:(lia) HN Hmax) as [Hch (b & x & EB & Hx & ->)].
    { apply HB; [| pose proof (Z.mod_pos_bound pos bsize ltac:(done)); pose proof (Z.div_mod pos bsize ltac:(done)); lia].
      split; [lia |]. apply Z.div_lt_upper_bound; [done |]. lia. }
    cbv zeta in Hch. set (chars := Z.min _ _) in *. set (d := load_bytes _ _ _).
    assert (Hk : 0 <= pos / bsize < N) by (split; [by apply Z.div_pos | apply Z.div_lt_upper_bound; [done | lia]]).
    assert (Hm : 0 <= pos mod bsize /\ pos mod bsize + chars <= bsize) by (pose proof (Z.mod_pos_bound pos bsize ltac:(done)); lia).
    assert (Hd : Z.of_nat (length d) = chars) by (unfold d; rewrite load_bytes_length; lia). clearbody chars.
    set (s1 := with_ib n (grown (pos + chars) i) b (filled (pos mod bsize) d x) s).
    assert (Hf1 : file_in s1 (grown (pos + chars) i) ind B N) by (eapply file_in_filled; try done; lia).
    destruct (IH s1 _ (buf + chars) count (pos + chars) (i0 + chars) Hf1) as (s' & sz & dirt & E & Hf' & Es & Hsz & Hfr & Hby); try lia.
    { intros k Hk' Hlt. apply HB; [| lia]. split; [| lia]. etransitivity; [| apply Hk']. apply Z.div_le_mono; [done | lia]. }
    exists s', sz, dirt. replace (put i_size sz (put i_dirt dirt i)) with (put i_size sz (put i_dirt dirt (grown (pos + chars) i)))
      by (unfold grown; by destruct (_ <? _)).
    assert (Eg : i_size (grown (pos + chars) i) = Z.max (i_size i) (pos + chars)) by (unfold grown; destruct (Z.ltb_spec (i_size i) (pos + chars)); cbn; lia).
    split_and!.
    + rewrite E. do 2 f_equal. lia.
    + done.
    + rewrite Es. unfold s1, with_ib, put. cbn. by rewrite list_insert_insert_eq.
    + rewrite Hsz, Eg. destruct (decide _); lia.
    + intros b' Hb'. rewrite Hfr by done. cbn. rewrite list_lookup_insert_ne; [done |]. intros ->. by apply (Hb' (pos / bsize)).
    + intros p Hp'. rewrite Hby by done. change (user_byte s1 ?a) with (user_byte s a). unfold s1.
      rewrite (byte_at_filled s i pos b x d p Hf Hp Hk EB Hx ltac:(lia) Hp'), Hd. replace (pos + chars + (count - (i0 + chars))) with (pos + (count - i0)) by lia.
      destruct (Z.leb_spec (pos + chars) p), (Z.ltb_spec p (pos + (count - i0))), (Z.leb_spec pos p), (Z.ltb_spec p (pos + chars)); cbn [andb]; try lia; try done.
      * f_equal. lia.
      * unfold d. rewrite load_bytes_lookup by lia. cbn. unfold user_byte. do 2 f_equal. lia.
Qed.
End Write.

(** ** The operations *)

Definition stamp (s : fs_state) : Z := u32 (CURRENT_TIME (fs_sched s)).

Lemma stamp_ok g (s : fs_state) i : inode_table s !! n = Some i ->
  (let* t := now in update inode_table n (g t)) s = Ok tt (over inode_table (alter (g (stamp s)) n) s).
Proof. intros Hi. unfold now. rewrite (bind_Ok (get _) _ s (stamp s) s eq_refl). by apply (update_ok inode_table n _ i). Qed.

Lemma file_read_ok f ind B N s i fl buf count : file_in s i ind B N -> file_table s !! f = Some fl -> 0 <= f_pos fl -> 0 < count ->
  f_pos fl + count <= N * bsize -> f_pos fl + count < 2 ^ 31 ->
  file_read n f buf count s = Ok count (over inode_table (alter (put i_atime (stamp s)) n) (read_so_far f B s fl buf count)).
Proof.
  intros Hf Hfl Hp Hc HN Hmax. unfold file_read. rewrite (proj2 (Z.leb_gt count 0)) by lia.
  rewrite (bind_Ok _ _ _ _ _ (file_read_loop_ok f ind B N (S (Z.to_nat count)) s i fl buf count Hf Hfl Hp ltac:(lia) HN Hmax)).
  unfold set_inode, assign. rewrite (bind_Ok _ _ _ _ _ (stamp_ok (fun t => put i_atime t) (read_so_far f B s fl buf count) i (rs_inode _ _ (fi_rest _ _ _ _ _ Hf)))).
  rewrite Z.sub_0_r. unfold cbool. by rewrite (proj2 (Z.eqb_neq count 0)) by lia.
Qed.

Lemma file_in_inode g s i ind B N : (forall j, i_dev (g j) = i_dev j /\ i_zone (g j) = i_zone j) -> file_in s i ind B N ->
  file_in (over inode_table (alter g n) s) (g i) ind B N.
Proof.
  intros Hg [[Hc Hw Hi Hd] Hk Hj]. destruct (Hg i) as [Gd Gz]. constructor; [| | done].
  - constructor; [| done | cbn; by rewrite list_lookup_alter_eq, Hi | by rewrite Gd].
    apply cache_ok_inodes; [| done]. intros j. by rewrite (proj1 (Hg j)).
  - intros k Hr. specialize (Hk k Hr). destruct (B k) as [b|]; [| by eapply maps_frame, Hk].
    destruct Hk as (Hb & z & x & Hz & Hm & [? ? ? ? ? ?]). split; [done |]. exists z, x. split_and!; [done | by eapply maps_frame, Hm |].
    rewrite Gd. by constructor.
Qed.

Definition appends (fl : file) : bool := cbool (Z.land (f_flags fl) O_APPEND).
(** The inode after a write, and the state with it. *)
Definition written (fl : file) (sz dirt t : Z) (i : m_inode) : m_inode :=
  (if appends fl then id else put i_ctime t) (put i_mtime t (put i_size sz (put i_dirt dirt i))).

Definition with_inodes (l : list m_inode) (s : fs_state) : fs_state := put inode_table l s.
Definition with_files (l : list file) (s : fs_state) : fs_state := put file_table l s.

Lemma file_write_ok f ind B N s i fl buf count : file_in s i ind B N -> file_table s !! f = Some fl -> 0 < count ->
  let pos := if appends fl then i_size i else f_pos fl in
  0 <= pos -> pos + count <= N * bsize -> pos + count < 2 ^ 31 -> (forall k, pos / bsize <= k < N -> k * bsize < pos + count -> is_Some (B k)) ->
  exists s' dirt, let i' := written fl (Z.max (i_size i) (pos + count)) dirt (stamp s) i in
    file_write n f buf count s = Ok count s' /\ file_in s' i' ind B N /\
    s' = put inode_table (<[n := i']> (inode_table s)) (put bufs (bufs s')
           (put file_table (if appends fl then file_table s else <[f := put f_pos (pos + count) fl]> (file_table s)) s)) /\
    (forall b, (forall k, B k <> Some b) -> bufs s' !! b = bufs s !! b) /\
    forall p, 0 <= p -> byte_at s' B p = if (pos <=? p) && (p <? pos + count) then user_byte s (buf + (p - pos)) else byte_at s B p.
Proof.
  intros Hf Hfl Hc pos Hp HN Hmax HB. unfold file_write, fil. rewrite (bind_Ok _ _ _ _ _ (field_ok file_table f_flags f fl s Hfl)). fold (appends fl).
  pose proof (rs_inode _ _ (fi_rest _ _ _ _ _ Hf)) as Hi. rewrite (bind_Ok _ _ s pos s); cycle 1.
  { unfold pos. destruct (appends fl); [| by apply field_ok]. unfold inode. rewrite (bind_Ok _ _ _ _ _ (field_ok inode_table i_size n i s Hi)).
    by rewrite s32_small by lia. }
  destruct (file_write_loop_ok ind B N (S (Z.to_nat count)) s i buf count pos 0) as (s1 & sz & dirt & E & Hf1 & Es & Hsz & Hfr & Hby); rewrite ?Z.sub_0_r; try done; try lia.
  rewrite Z.sub_0_r in *. rewrite (bind_Ok _ _ _ _ _ E). rewrite decide_False in Hsz by lia. subst sz. set (i1 := put i_size _ _) in *.
  pose proof (rs_inode _ _ (fi_rest _ _ _ _ _ Hf1)) as Hi1. assert (Est : stamp s1 = stamp s) by (by rewrite Es).
  unfold set_inode, assign. rewrite (bind_Ok _ _ _ _ _ (stamp_ok (fun t => put i_mtime t) s1 i1 Hi1)), Est.
  assert (Hf2 : file_in (over inode_table (alter (put i_mtime (stamp s)) n) s1) (put i_mtime (stamp s) i1) ind B N) by (by apply file_in_inode).
  set (s2 := over inode_table _ s1) in *. unfold written. destruct (appends fl) eqn:Ea; cbn [negb id].
  - exists s2, dirt. split_and!; [| done | | done | done].
    + unfold bind at 1, ret at 1. unfold cbool. by rewrite (proj2 (Z.eqb_neq count 0)) by lia.
    + unfold s2. rewrite Es. unfold over, put. cbn. by rewrite alter_insert_eq.
  - set (s3 := over file_table (alter (put f_pos (pos + count)) f) s2).
    assert (Hf3 : file_in s3 (put i_mtime (stamp s) i1) ind B N) by (by eapply file_in_same, Hf2).
    exists (over inode_table (alter (put i_ctime (stamp s)) n) s3), dirt. split_and!; [| by apply file_in_inode | | done | done].
    + assert (Hfl2 : file_table s2 !! f = Some fl) by (unfold s2; by rewrite Es).
      unfold set_file, assign. rewrite (bind_Ok _ _ _ tt (over inode_table (alter (put i_ctime (stamp s)) n) s3)); cycle 1.
      { rewrite (bind_Ok _ _ _ _ _ (update_ok file_table f _ fl s2 Hfl2)). unfold pos.
        rewrite (stamp_ok (fun t => put i_ctime t) s3 _ (rs_inode _ _ (fi_rest _ _ _ _ _ Hf3))). unfold s3, s2. by rewrite Es. }
      unfold cbool. by rewrite (proj2 (Z.eqb_neq count 0)) by lia.
    + change (over inode_table _ s3) with (with_inodes (alter (put i_ctime (stamp s)) n (alter (put i_mtime (stamp s)) n (inode_table s1)))
        (with_files (alter (put f_pos (pos + count)) f (file_table s1)) s1)). change (bufs (with_inodes _ _)) with (bufs s1).
      assert (Ei : inode_table s1 = <[n := i1]> (inode_table s)) by (by rewrite Es). assert (Eff : file_table s1 = file_table s) by (by rewrite Es).
      rewrite Ei, Eff, !alter_insert_eq, (alter_insert _ _ _ _ Hfl), Es. done.
Qed.
End Quiet.

(** C12: reading a file.  With the blocks of a file in the cache, [file_read] at the position
    of the file stores the bytes of the file from there on in the buffer, zeros for a hole,
    through direct, indirect and doubly indirect blocks, and returns how many were asked for.
    The position moves behind them and the time of the last access is now; nothing else
    changes, no buffer stays in use. *)
Theorem file_read_delivers `{Env} n f ind B N s i fl buf count : (0 < patience)%nat -> file_in n s i ind B N -> file_table s !! f = Some fl ->
  0 <= f_pos fl -> 0 < count -> f_pos fl + count <= N * bsize -> f_pos fl + count < 2 ^ 31 ->
  file_read n f buf count s
  = Ok count (over inode_table (alter (put i_atime (stamp s)) n)
      (over umem (store_bytes buf (bytes_from s B (f_pos fl) count)) (over file_table (alter (put f_pos (f_pos fl + count)) f) s))).
Proof. intros Hpat Hf Hfl Hp Hc HN Hmax. by apply (file_read_ok Hpat n f ind B N s i fl). Qed.

(** C11: writing a file.  If the blocks to be written exist and are in the cache, [file_write]
    returns how many bytes were asked for, and the contents of the file have changed to the
    bytes of the buffer from the position on (from the end on, if the file appends) and
    nowhere else.  The file grows to the end of what was written, the times are set, no other
    inode, file or buffer changes, and the file can be read and written as before. *)
Theorem file_write_stores `{Env} n f ind B N s i fl buf count : (0 < patience)%nat -> file_in n s i ind B N -> file_table s !! f = Some fl -> 0 < count ->
  let pos := if appends fl then i_size i else f_pos fl in
  0 <= pos -> pos + count <= N * bsize -> pos + count < 2 ^ 31 -> (forall k, pos / bsize <= k < N -> k * bsize < pos + count -> is_Some (B k)) ->
  exists s' dirt, let i' := written fl (Z.max (i_size i) (pos + count)) dirt (stamp s) i in
    file_write n f buf count s = Ok count s' /\ file_in n s' i' ind B N /\
    s' = put inode_table (<[n := i']> (inode_table s)) (put bufs (bufs s')
           (put file_table (if appends fl then file_table s else <[f := put f_pos (pos + count) fl]> (file_table s)) s)) /\
    (forall b, (forall k, B k <> Some b) -> bufs s' !! b = bufs s !! b) /\
    forall p, 0 <= p -> byte_at s' B p = if (pos <=? p) && (p <? pos + count) then user_byte s (buf + (p - pos)) else byte_at s B p.
Proof. intros Hpat. by apply file_write_ok. Qed.

(** A file with a direct block, an indirect block with one entry, and holes. *)
Definition load_block (z : Z) (data : list Z) (s : fs_state) : fs_state :=
  match @getblk alone 0x101 z s with Ok b s => over bufs (alter (fun x => put b_count 0 (put b_uptodate 1 (put b_data data x))) b) s | _ => s end.
Definition demo_file_fs : fs_state :=
  let i := put i_dev 0x101 (put i_num 3 (put i_size 7200 (put i_zone [5; 0; 0; 0; 0; 0; 0; 6; 0] zero_inode))) in
  put inode_table (i :: replicate 31 zero_inode) (put file_table (mk_file 0 0 1 (Some 0%nat) 1000 :: replicate 63 (mk_file 0 0 0 None 0)) empty_fs).
Definition demo_file : fs_state :=
  load_block 7 (replicate 1024 9) (load_block 6 (7 :: replicate 1023 0) (load_block 5 (replicate 1024 3)
    (fresh (fun _ => replicate 1024 0) (fun _ => 0) 5 demo_file_fs))).
Definition demo_blocks (k : Z) : option nat := if k =? 0 then Some 0%nat else if k =? 7 then Some 2%nat else None.

Lemma load_block_ok z data s : cache_ok s -> cache_ok (load_block z data s).
Proof.
  intros Hs. unfold load_block. destruct (@getblk alone 0x101 z s) as [b s1| | |] eqn:E; try done.
  apply cache_ok_bufs; [apply _ | done |]. refine (@preserves_getblk alone _ _ 0x101 z _ _ b s1 Hs E); [| | lia].
  - apply preserves_ret.
  - intros n. apply preserves_ret.
Qed.
Lemma demo_file_ok : cache_ok demo_file.
Proof.
  unfold demo_file. do 3 apply load_block_ok. constructor; [apply fresh_queued; lia | cbn; lia |]. intros n i Hi.
  assert (Hall : forallb (fun i => (0 <=? i_dev i) && (i_dev i <? 2 ^ 16)) (inode_table demo_file_fs) = true) by (vm_compute; reflexivity).
  rewrite forallb_forall in Hall. specialize (Hall i (proj1 (list_elem_of_In _ _) (list_elem_of_lookup_2 _ _ _ Hi))). blia.
Qed.

Lemma demo_cached z b : (z, b) ∈ [(5, 0%nat); (6, 1%nat); (7, 2%nat)] -> exists x, cached demo_file 0x101 z b x.
Proof.
  rewrite !elem_of_cons, elem_of_nil. intros [[= -> ->] | [[= -> ->] | [[= -> ->] | []]]];
    eexists; constructor; vm_compute; first [reflexivity | split; congruence | congruence].
Qed.
Lemma demo_maps k : 0 <= k < 9 ->
  maps demo_file (default zero_inode (inode_table demo_file !! 0%nat)) (fun b => b = 1%nat) k (if k =? 0 then 5 else if k =? 7 then 7 else 0).
Proof.
  intros Hk. destruct (decide (k < 7)) as [Hd | Hd].
  - apply maps_direct; [lia |]. assert (k = 0 \/ k = 1 \/ k = 2 \/ k = 3 \/ k = 4 \/ k = 5 \/ k = 6) as Hin by lia.
    destruct_or! Hin; subst k; vm_compute; reflexivity.
  - destruct (demo_cached 6 1) as (x & Hx); [rewrite !elem_of_cons; tauto |].
    assert (Hw : word (b_data x) (k - 7) = Some (if k =? 0 then 5 else if k =? 7 then 7 else 0)).
    { pose proof (ca_buf _ _ _ _ _ Hx) as Hb. assert (k = 7 \/ k = 8) as [-> | ->] by lia; revert Hb; vm_compute; intros [= <-]; reflexivity. }
    apply (maps_single _ _ _ _ 6); [lia | vm_compute; reflexivity |]. by apply (points_at _ _ _ _ _ _ 1 x).
Qed.
Lemma demo_file_in : file_in 0 demo_file (default zero_inode (inode_table demo_file !! 0%nat)) (fun b => b = 1%nat) demo_blocks 9.
Proof.
  constructor.
  - constructor; [apply demo_file_ok | vm_compute; reflexivity | vm_compute; reflexivity | vm_compute; congruence].
  - intros k Hk. pose proof (demo_maps k Hk) as Hm. unfold demo_blocks. case_match eqn:E0; [| case_match eqn:E7; [| done]].
    + split; [done |]. destruct (demo_cached 5 0) as (x & Hx); [rewrite !elem_of_cons; tauto |]. by exists 5, x.
    + split; [done |]. destruct (demo_cached 7 2) as (x & Hx); [rewrite !elem_of_cons; tauto |]. by exists 7, x.
  - intros k k' b. unfold demo_blocks. repeat case_match; blia || congruence.
Qed.

(** Reading 6500 bytes from position 1000: 24 bytes of block 0, six holes, and the first 332
    bytes of block 7, which is the first one behind the indirect block. *)
Lemma file_read_delivers_witness :
  match @file_read alone 0 0 0 6500 demo_file with
  | Ok r s => r = 6500 /\ map (fun a => umem s !! a) [0; 23; 24; 6167; 6168; 6499; 6500] = [Some 3; Some 3; Some 0; Some 0; Some 9; Some 9; None] /\
              (from_option f_pos 0 (file_table s !! 0%nat) = 7500)
  | _ => False
  end.
Proof.
  rewrite (@file_read_delivers alone 0 0 _ demo_blocks 9 demo_file _ (mk_file 0 0 1 (Some 0%nat) 1000) 0 6500 ltac:(cbn; lia) demo_file_in);
    [| vm_compute; reflexivity | done..].
  vm_compute. repeat split.
Defined.
Lemma file_write_stores_witness :
  exists s', @file_write alone 0 0 0 24 demo_file = Ok 24 s' /\ byte_at s' demo_blocks 999 = 3 /\ byte_at s' demo_blocks 1000 = 0.
Proof.
  destruct (@file_write_stores alone 0 0 _ demo_blocks 9 demo_file _ (mk_file 0 0 1 (Some 0%nat) 1000) 0 24 ltac:(cbn; lia) demo_file_in)
    as (s' & dirt & E & _ & _ & _ & Hby); [vm_compute; reflexivity | done.. | |].
  - intros k Hk1 Hk2. change (0 <= k < 9) in Hk1. change (k * 1024 < 1024) in Hk2. assert (k = 0) as -> by lia. by eexists.
  - exists s'. split; [exact E |]. rewrite !Hby by done. split; vm_compute; reflexivity.
Defined.
