(* ===== verification/Process.v ===== *)
(** Processes: identities and process groups (kernel/sys.c), signals (kernel/signal.c),
    the end of a process and waiting for it (kernel/exit.c), and fork
    (kernel/fork.c). *)
From stdpp Require Import base list gmap strings.
From Stdlib Require Import ZArith Lia.
From S2P Require Import Prelude Memory Sched FsState BlkDev Buffer Inode Namei Files.
Open Scope Z_scope.

(** ** kernel/sys.c *)

Definition sys_ftime : M fs_state Z := ret (- ENOSYS).
Definition sys_break : M fs_state Z := ret (- ENOSYS).
Definition sys_ptrace : M fs_state Z := ret (- ENOSYS).
Definition sys_stty : M fs_state Z := ret (- ENOSYS).
Definition sys_gtty : M fs_state Z := ret (- ENOSYS).
Definition sys_rename : M fs_state Z := ret (- ENOSYS).
Definition sys_prof : M fs_state Z := ret (- ENOSYS).
Definition sys_acct : M fs_state Z := ret (- ENOSYS).
Definition sys_phys : M fs_state Z := ret (- ENOSYS).
Definition sys_lock : M fs_state Z := ret (- ENOSYS).
Definition sys_mpx : M fs_state Z := ret (- ENOSYS).
Definition sys_ulimit : M fs_state Z := ret (- ENOSYS).

(** [current->f = v]. *)
Definition set_cur {T} (f : task_struct -> T) {sf : Setter f} (v : T) : M fs_state unit :=
  on_sched (upd_cur (put f v)).

(** User and group ids are [unsigned short]. *)
Definition sys_setregid (rgid egid : Z) : M fs_state Z :=
  let* ok := (if 0 <? rgid then
                let* t := current_task in
                let* su := suser in
                if (ts_gid t =? rgid) || su then set_cur ts_gid (u16 rgid) ;;; ret true else ret false
              else ret true) in
  if negb ok then ret (- EPERM) else
  if 0 <? egid then
    let* t := current_task in
    let* su := suser in
    if (ts_gid t =? egid) || (ts_egid t =? egid) || (ts_sgid t =? egid) || su
    then set_cur ts_egid (u16 egid) ;;; ret 0 else ret (- EPERM)
  else ret 0.
Definition sys_setgid (gid : Z) : M fs_state Z := sys_setregid gid gid.

Definition sys_setreuid (ruid euid : Z) : M fs_state Z :=
  let* t := current_task in
  let old_ruid := ts_uid t in
  let* ok := (if 0 <? ruid then
                let* t := current_task in
                let* su := suser in
                if (ts_euid t =? ruid) || (old_ruid =? ruid) || su
                then set_cur ts_uid (u16 ruid) ;;; ret true else ret false
              else ret true) in
  if negb ok then ret (- EPERM) else
  if 0 <? euid then
    let* t := current_task in
    let* su := suser in
    if (old_ruid =? euid) || (ts_euid t =? euid) || su then set_cur ts_euid (u16 euid) ;;; ret 0
    else set_cur ts_uid old_ruid ;;; ret (- EPERM)
  else ret 0.
Definition sys_setuid (uid : Z) : M fs_state Z := sys_setreuid uid uid.

Definition put_fs_long (v addr : Z) : M fs_state unit := put_fs_bytes addr (le 4 (u32 v)).
Definition get_fs_long (addr : Z) : M fs_state Z := let* l := get_fs_bytes addr 4 in ret (unle l).

Definition sys_time (tloc : Z) : M fs_state Z :=
  let* i := get (fun s => CURRENT_TIME (fs_sched s)) in
  (if cbool tloc then verify_area tloc 4 ;;; put_fs_long i tloc else ret tt) ;;;
  ret i.

Definition sys_stime (tptr : Z) : M fs_state Z :=
  let* su := suser in
  if negb su then ret (- EPERM) else
  let* v := get_fs_long tptr in
  on_sched (let* j := get jiffies in modify (put startup_time (s32 (v - Z.quot j HZ)))) ;;;
  ret 0.

Definition sys_times (tbuf : Z) : M fs_state Z :=
  (if cbool tbuf then
     verify_area tbuf 16 ;;;
     let* t := current_task in
     put_fs_long (ts_utime t) tbuf ;;;
     put_fs_long (ts_stime t) (tbuf + 4) ;;;
     put_fs_long (ts_cutime t) (tbuf + 8) ;;;
     put_fs_long (ts_cstime t) (tbuf + 12)
   else ret tt) ;;;
  get (fun s => jiffies (fs_sched s)).

Definition sys_brk (end_data_seg : Z) : M fs_state Z :=
  (let* t := current_task in
   if (ts_end_code t <=? end_data_seg) && (end_data_seg <? u32 (ts_start_stack t - 16384))
   then set_cur ts_brk end_data_seg else ret tt) ;;;
  let* t := current_task in ret (ts_brk t).

(** [f] for the tasks [task[i]], ..., as long as it gives no result. *)
Fixpoint first_task {A} (n i : nat) (f : Z -> task_struct -> M fs_state (option A)) : M fs_state (option A) :=
  match n with
  | O => ret None
  | S n =>
    let* p := on_sched (slot i) in
    if negb (cbool p) then first_task n (S i) f else
    let* t := on_sched (task_at p) in
    let* r := f p t in
    match r with Some a => ret (Some a) | None => first_task n (S i) f end
  end.

Definition sys_setpgid (pid pgid : Z) : M fs_state Z :=
  let* me := current_task in
  let pid := if cbool pid then pid else ts_pid me in
  let pgid := if cbool pgid then pgid else ts_pid me in
  let* r := first_task NR_TASKS 0 (fun p t =>
    if negb (ts_pid t =? pid) then ret None else
    if cbool (ts_leader t) then ret (Some (- EPERM)) else
    if negb (ts_session t =? ts_session me) then ret (Some (- EPERM)) else
    on_sched (upd_task p (put ts_pgrp pgid)) ;;; ret (Some 0)) in
  ret (default (- ESRCH) r).

Definition sys_getpgrp : M fs_state Z := let* t := current_task in ret (ts_pgrp t).

Definition sys_setsid : M fs_state Z :=
  let* t := current_task in
  let* su := suser in
  if cbool (ts_leader t) && negb su then ret (- EPERM) else
  set_cur ts_leader 1 ;;;
  set_cur ts_pgrp (ts_pid t) ;;;
  set_cur ts_session (ts_pid t) ;;;
  set_cur ts_tty (-1) ;;;
  let* t := current_task in ret (ts_pgrp t).

(** The five names of nine bytes each. *)
Definition thisname : list Z :=
  concat (map (fun s => cstr s ++ replicate (9 - String.length s) 0)
    ["linux .0"; "nodename"; "release "; "version "; "machine "]%string).

Definition sys_uname (name : Z) : M fs_state Z :=
  if negb (cbool name) then ret (- ERROR) else
  verify_area name 45 ;;;
  put_fs_bytes name thisname ;;;
  ret 0.

Definition sys_umask (mask : Z) : M fs_state Z :=
  let* t := current_task in
  set_cur ts_umask (Z.land mask 511) ;;;
  ret (ts_umask t).

(** ** kernel/signal.c

    Sets of signals are 32-bit words. *)

Definition SA_NOMASK : Z := 0x40000000.
Definition SA_ONESHOT : Z := 0x80000000.

Definition sys_sgetmask : M fs_state Z := let* t := current_task in ret (s32 (ts_blocked t)).

Definition sys_ssetmask (newmask : Z) : M fs_state Z :=
  let* t := current_task in
  set_cur ts_blocked (u32 (Z.land newmask (Z.lnot (Z.shiftl 1 (SIGKILL - 1))))) ;;;
  ret (s32 (ts_blocked t)).

Definition sigaction_bytes (a : sigaction) : list Z :=
  le 4 (sa_handler a) ++ le 4 (sa_mask a) ++ le 4 (sa_flags a) ++ le 4 (sa_restorer a).
Definition sigaction_of (l : list Z) : sigaction :=
  mk_sigaction (bytes_at l 0 4) (bytes_at l 4 4) (bytes_at l 8 4) (bytes_at l 12 4).
#[export] Instance sigaction_fields : Fields sigaction := fun a =>
  mk_sigaction (sa_handler a) (sa_mask a) (sa_flags a) (sa_restorer a).

Definition save_old (from : sigaction) (to : Z) : M fs_state unit :=
  verify_area to 16 ;;; put_fs_bytes to (sigaction_bytes from).
Definition get_new (from : Z) : M fs_state sigaction :=
  let* l := get_fs_bytes from 16 in ret (sigaction_of l).

(** [current->sigaction[signum-1]]. *)
Definition sigaction_at (signum : Z) : M fs_state sigaction :=
  let* t := current_task in need (ts_sigaction t !! Z.to_nat (signum - 1)).
Definition set_sigaction (signum : Z) (a : sigaction) : M fs_state unit :=
  on_sched (upd_cur (over ts_sigaction <[Z.to_nat (signum - 1) := a]>)).

Definition bad_signal (signum : Z) : bool := (signum <? 1) || (32 <? signum) || (signum =? SIGKILL).

Definition sys_signal (signum handler restorer : Z) : M fs_state Z :=
  if bad_signal signum then ret (-1) else
  let* old := sigaction_at signum in
  set_sigaction signum (mk_sigaction (u32 handler) 0 (Z.lor SA_ONESHOT SA_NOMASK) (u32 restorer)) ;;;
  ret (s32 (sa_handler old)).

Definition sys_sigaction (signum action oldaction : Z) : M fs_state Z :=
  if bad_signal signum then ret (-1) else
  let* tmp := sigaction_at signum in
  (let* new := get_new action in set_sigaction signum new) ;;;
  (if cbool oldaction then save_old tmp oldaction else ret tt) ;;;
  let* a := sigaction_at signum in
  set_sigaction signum
    (if cbool (Z.land (sa_flags a) SA_NOMASK) then put sa_mask 0 a
     else over sa_mask (fun m => Z.lor m (Z.shiftl 1 (signum - 1))) a) ;;;
  ret 0.

(** The registers saved on the kernel stack that [do_signal] reads or changes. *)
Record pt_regs := mk_regs { r_eax : Z; r_ecx : Z; r_edx : Z; r_eip : Z; r_eflags : Z; r_esp : Z }.
#[export] Instance regs_fields : Fields pt_regs := fun r =>
  mk_regs (r_eax r) (r_ecx r) (r_edx r) (r_eip r) (r_eflags r) (r_esp r).

(** [put_fs_long(v, tmp_esp++)] for the values in [l]. *)
Fixpoint push_longs (l : list Z) (tmp_esp : Z) : M fs_state unit :=
  match l with [] => ret tt | v :: l => put_fs_long v tmp_esp ;;; push_longs l (tmp_esp + 4) end.

Definition do_signal (signr : Z) (r : pt_regs) : M fs_state pt_regs :=
  let* sa := sigaction_at signr in
  if sa_handler sa =? 1 then ret r else
  if negb (cbool (sa_handler sa)) then
    (if signr =? SIGCHLD then ret r else exit_with (s32 (Z.shiftl 1 (signr - 1))))
  else
  (if cbool (Z.land (sa_flags sa) SA_ONESHOT) then set_sigaction signr (put sa_handler 0 sa) else ret tt) ;;;
  let nomask := cbool (Z.land (sa_flags sa) SA_NOMASK) in
  let longs := if nomask then 7 else 8 in
  let esp := u32 (r_esp r - 4 * longs) in
  verify_area esp (4 * longs) ;;;
  (let* t := current_task in
   push_longs ([sa_restorer sa; signr] ++ (if nomask then [] else [ts_blocked t])
     ++ [r_eax r; r_ecx r; r_edx r; r_eflags r; r_eip r]) esp) ;;;
  on_sched (upd_cur (over ts_blocked (fun b => Z.lor b (sa_mask sa)))) ;;;
  ret (put r_eip (sa_handler sa) (put r_esp esp r)).

(** ** kernel/exit.c *)

Definition WNOHANG : Z := 1.
Definition WUNTRACED : Z := 2.

Definition raise (sig : Z) (t : task_struct) : task_struct :=
  over ts_signal (fun x => Z.lor x (Z.shiftl 1 (sig - 1))) t.

(** The loop of [release] from [task[i]] on; [resched] is its call of [schedule]. *)
Fixpoint release_from (n i : nat) (p : Z) (resched : M fs_state unit) : M fs_state unit :=
  match n with
  | O => panic "trying to release non-existent task"
  | S n =>
    let* q := on_sched (slot i) in
    if q =? p then
      on_sched (arr_put task (Z.of_nat i) 0) ;;;
      on_mm (free_page p) ;;;
      on_sched (modify (over tasks (delete p))) ;;;
      resched
    else release_from n (S i) p resched
  end.
Definition release (p : Z) (resched : M fs_state unit) : M fs_state unit :=
  if negb (cbool p) then ret tt else release_from (NR_TASKS - 1) 1 p resched.

Definition send_sig (sig p : Z) (priv : bool) : M fs_state Z :=
  if negb (cbool p) || (sig <? 1) || (32 <? sig) then ret (- EINVAL) else
  let* me := current_task in
  let* t := on_sched (task_at p) in
  let* su := suser in
  if priv || (ts_euid me =? ts_euid t) || su
  then on_sched (upd_task p (raise sig)) ;;; ret 0
  else ret (- EPERM).

(** [while (--p > &FIRST_TASK)] from [task[n]] on; the loop variable is the state of
    the routine. *)
Fixpoint down_tasks {A} (n : nat) (body : nat -> A -> M fs_state A) (a : A) : M fs_state A :=
  match n with
  | O => ret a
  | S k => let* a := body n a in down_tasks k body a
  end.

Definition kill_session : M fs_state unit :=
  let* me := current_task in
  down_tasks (NR_TASKS - 1) (fun i _ =>
    let* p := on_sched (slot i) in
    if negb (cbool p) then ret tt else
    let* t := on_sched (task_at p) in
    if ts_session t =? ts_session me then on_sched (upd_task p (raise SIGHUP)) else ret tt) tt.

(** [if (test) if (err = send_sig(...)) retval = err]. *)
Definition try_sig (sig p : Z) (priv : bool) (retval : Z) : M fs_state Z :=
  let* err := send_sig sig p priv in ret (if cbool err then err else retval).
Definition kill_if (test : task_struct -> bool) (sig : Z) (priv : bool) (i : nat) (retval : Z) : M fs_state Z :=
  let* p := on_sched (slot i) in
  if negb (cbool p) then ret retval else
  let* t := on_sched (task_at p) in
  if test t then try_sig sig p priv retval else ret retval.

(** The last [else] belongs to [if (err = send_sig(sig,*p,0))]: with [pid] -1 it runs
    over the rest of the tasks after the first signal that could be sent, and for other
    negative values nothing happens. *)
Fixpoint kill_all (n : nat) (sig pid retval : Z) : M fs_state Z :=
  match n with
  | O => ret retval
  | S k =>
    let* p := on_sched (slot n) in
    let* err := send_sig sig p false in
    if cbool err then kill_all k sig pid err
    else down_tasks k (kill_if (fun t => ts_pgrp t =? - pid) sig false) retval
  end.

Definition sys_kill (pid sig : Z) : M fs_state Z :=
  let* me := current_task in
  if negb (cbool pid) then down_tasks (NR_TASKS - 1) (kill_if (fun t => ts_pgrp t =? ts_pid me) sig true) 0
  else if 0 <? pid then down_tasks (NR_TASKS - 1) (kill_if (fun t => ts_pid t =? pid) sig false) 0
  else if pid =? -1 then kill_all (NR_TASKS - 1) sig pid 0
  else ret 0.

(** Whether the task had to release itself. *)
Definition tell_father (pid : Z) (resched : M fs_state unit) : M fs_state bool :=
  let* r := (if cbool pid then
               first_task NR_TASKS 0 (fun p t =>
                 if negb (ts_pid t =? pid) then ret None
                 else on_sched (upd_task p (raise SIGCHLD)) ;;; ret (Some tt))
             else ret None) in
  match r with
  | Some _ => ret false
  | None => let* me := get (fun s => current (fs_sched s)) in release me resched ;;; ret true
  end.

Section Env.
Context `{Env}.

(** Children of the task are given to task 1. *)
Definition adopt : M fs_state unit :=
  let* me := current_task in
  for_each (seq 0 NR_TASKS) (fun i =>
    let* p := on_sched (slot i) in
    if negb (cbool p) then ret tt else
    let* t := on_sched (task_at p) in
    if negb (ts_father t =? ts_pid me) then ret tt else
    on_sched (upd_task p (put ts_father 1)) ;;;
    if ts_state t =? TASK_ZOMBIE then
      (let* init := on_sched (slot 1) in let* _ := send_sig SIGCHLD init true in ret tt)
    else ret tt).

Definition drop_inode (f : task_struct -> Z) {sf : Setter f} : M fs_state unit :=
  (let* t := current_task in iput (inode_of_ptr (f t))) ;;; set_cur f 0.

(** The call of [schedule] never comes back; [fuel] is for its loop. *)
Definition do_exit (fuel : nat) (code : Z) : M fs_state unit :=
  let resched := (let* _ := on_sched (schedule fuel) in ret tt) in
  (let* t := current_task in on_mm (free_page_tables (code_base (ts_ldt t)) (code_limit (ts_ldt t)))) ;;;
  (let* t := current_task in on_mm (free_page_tables (data_base (ts_ldt t)) (data_limit (ts_ldt t)))) ;;;
  adopt ;;;
  for_each (seq 0 NR_OPEN) (fun i =>
    let* o := filp (Z.of_nat i) in
    match o with Some _ => let* _ := sys_close (Z.of_nat i) in ret tt | None => ret tt end) ;;;
  drop_inode ts_pwd ;;;
  drop_inode ts_root ;;;
  drop_inode ts_executable ;;;
  (let* t := current_task in
   if cbool (ts_leader t) && (0 <=? ts_tty t) then set_tty_pgrp (ts_tty t) 0 else ret tt) ;;;
  (let* me := get (fun s => current (fs_sched s)) in
   on_sched (modify (over last_task_used_math (fun m => if m =? me then 0 else m)))) ;;;
  (let* t := current_task in if cbool (ts_leader t) then kill_session else ret tt) ;;;
  set_cur ts_state TASK_ZOMBIE ;;;
  set_cur ts_exit_code code ;;;
  let* t := current_task in
  let* released := tell_father (ts_father t) resched in
  if released then ret tt else resched.

Definition sys_exit (fuel : nat) (error_code : Z) : M fs_state unit :=
  do_exit fuel (Z.shiftl (Z.land error_code 0xff) 8).

(** Which children [waitpid] waits for. *)
Definition waits_for (pid : Z) (me t : task_struct) : bool :=
  (ts_father t =? ts_pid me)
  && (if 0 <? pid then ts_pid t =? pid
      else if pid =? 0 then ts_pgrp t =? ts_pgrp me
      else (pid =? -1) || (ts_pgrp t =? - pid)).

(** The loop over the tasks: the result of the call, or whether a child was seen. *)
Fixpoint wait_scan (n : nat) (pid stat_addr options flag : Z) : M fs_state (Z + Z) :=
  match n with
  | O => ret (inr flag)
  | S k =>
    let* p := on_sched (slot n) in
    let* cur_p := get (fun s => current (fs_sched s)) in
    if negb (cbool p) || (p =? cur_p) then wait_scan k pid stat_addr options flag else
    let* me := current_task in
    let* t := on_sched (task_at p) in
    if negb (waits_for pid me t) then wait_scan k pid stat_addr options flag else
    if ts_state t =? TASK_STOPPED then
      if negb (cbool (Z.land options WUNTRACED)) then wait_scan k pid stat_addr options flag
      else put_fs_long 0x7f stat_addr ;;; ret (inl (ts_pid t))
    else if ts_state t =? TASK_ZOMBIE then
      on_sched (upd_cur (fun me => over ts_cutime (fun x => s32 (x + ts_utime t))
        (over ts_cstime (fun x => s32 (x + ts_stime t)) me))) ;;;
      release p asleep ;;;
      put_fs_long (ts_exit_code t) stat_addr ;;;
      ret (inl (ts_pid t))
    else wait_scan k pid stat_addr options 1
  end.

Fixpoint wait_loop (fuel : nat) (pid stat_addr options : Z) : M fs_state Z :=
  match fuel with
  | O => ub
  | S fuel =>
    let* r := wait_scan (NR_TASKS - 1) pid stat_addr options 0 in
    match r with
    | inl res => ret res
    | inr flag =>
      if negb (cbool flag) then ret (- ECHILD) else
      if cbool (Z.land options WNOHANG) then ret 0 else
      set_cur ts_state TASK_INTERRUPTIBLE ;;;
      asleep ;;;
      on_sched (upd_cur (over ts_signal (fun x => Z.land x (Z.lnot (Z.shiftl 1 (SIGCHLD - 1)))))) ;;;
      let* t := current_task in
      if negb (cbool (ts_signal t)) then wait_loop fuel pid stat_addr options else ret (- EINTR)
    end
  end.

Definition sys_waitpid (pid stat_addr options : Z) : M fs_state Z :=
  verify_area stat_addr 4 ;;; wait_loop patience pid stat_addr options.
End Env.

(** ** kernel/fork.c *)

(** The state with [last_pid] and the descriptors of the tasks: for each index of the
    descriptor table the kind of descriptor and the task it belongs to. *)
Record kproc := mk_kproc { k_fs : fs_state; last_pid : Z; gdt : gmap Z (Z * Z) }.
#[export] Instance kproc_fields : Fields kproc := fun k => mk_kproc (k_fs k) (last_pid k) (gdt k).

Definition on_fs {A} (m : M fs_state A) : M kproc A := fun k =>
  match m (k_fs k) with
  | Ok a s => Ok a (put k_fs s k)
  | Panic msg s => Panic msg (put k_fs s k)
  | Exit code s => Exit code (put k_fs s k)
  | Ub => Ub
  end.

(** A task has the number [pid]. *)
Definition pid_used (pid : Z) : M fs_state bool :=
  let* r := first_task NR_TASKS 0 (fun _ t => ret (if ts_pid t =? pid then Some tt else None)) in
  ret (bool_decide (r = Some tt)).

Fixpoint next_pid (fuel : nat) : M kproc unit :=
  match fuel with
  | O => ub
  | S fuel =>
    modify (over last_pid (fun p => let p := s32 (p + 1) in if p <? 0 then 1 else p)) ;;;
    let* p := get last_pid in
    let* used := on_fs (pid_used p) in
    if used then next_pid fuel else ret tt
  end.

(** The first free entry from [task[i]] on. *)
Fixpoint empty_slot (n i : nat) : M fs_state Z :=
  match n with
  | O => ret (- EAGAIN)
  | S n => let* p := on_sched (slot i) in if cbool p then empty_slot n (S i) else ret (Z.of_nat i)
  end.

Definition find_empty_process : M kproc Z :=
  next_pid (NR_TASKS + 2) ;;; on_fs (empty_slot (NR_TASKS - 1) 1).

(** The parent's segments; [p] is the child. *)
Definition copy_mem (nr p : Z) : M fs_state Z :=
  let* me := current_task in
  let l := ts_ldt me in
  if negb (data_base l =? code_base l) then panic "We don't support separate I&D" else
  if data_limit l <? code_limit l then panic "Bad data_limit" else
  let new_base := u32 (nr * 0x4000000) in
  on_sched (upd_task p (fun t => put ts_start_code new_base
    (over ts_ldt (fun l => mk_ldt new_base (code_limit l) new_base (data_limit l)) t))) ;;;
  let* r := on_mm (copy_page_tables (data_base l) new_base (data_limit l)) in
  if cbool r then (let* _ := on_mm (free_page_tables new_base (data_limit l)) in ret (- ENOMEM)) else ret 0.

(** The registers at the system call. *)
Record call_regs := mk_call {
  c_ebp : Z; c_edi : Z; c_esi : Z; c_gs : Z; c_ebx : Z; c_ecx : Z; c_edx : Z; c_fs : Z; c_es : Z; c_ds : Z;
  c_eip : Z; c_cs : Z; c_eflags : Z; c_esp : Z; c_ss : Z }.

(** The child's task structure at [p], before its memory is copied. *)
Definition child_of (me : task_struct) (p nr pid now : Z) (r : call_regs) : task_struct :=
  put ts_state TASK_UNINTERRUPTIBLE (put ts_pid pid (put ts_father (ts_pid me)
  (put ts_counter (ts_priority me) (put ts_signal 0 (put ts_alarm 0 (put ts_leader 0
  (put ts_utime 0 (put ts_stime 0 (put ts_cutime 0 (put ts_cstime 0 (put ts_start_time now
  (put ts_tss (mk_tss 0 (4096 + p) 0x10 (c_eip r) (c_eflags r) 0 (c_ecx r) (c_edx r) (c_ebx r) (c_esp r)
     (c_ebp r) (c_esi r) (c_edi r) (u16 (c_es r)) (u16 (c_cs r)) (u16 (c_ss r)) (u16 (c_ds r))
     (u16 (c_fs r)) (u16 (c_gs r)) (_LDT nr) 0x80000000) me)))))))))))).

Definition share_inode (f : task_struct -> Z) : M fs_state unit :=
  let* me := current_task in
  match inode_of_ptr (f me) with Some n => bump_inode i_count u16 n 1 | None => ret tt end.

(** What parent and child share from now on has one more user. *)
Definition share_files (p : Z) : M fs_state unit :=
  for_each (seq 0 NR_OPEN) (fun i =>
    let* t := on_sched (task_at p) in
    let* f := need (ts_filp t !! i) in
    match file_of_ptr f with Some f => bump_file f 1 | None => ret tt end) ;;;
  share_inode ts_pwd ;;;
  share_inode ts_root ;;;
  share_inode ts_executable.

Definition set_desc (n : Z) (type p : Z) : M kproc unit := modify (over gdt <[n := (type, p)]>).

(** The contents of the coprocessor, saved for the child if the parent uses it, are not
    part of the state. *)
Definition copy_process (nr : Z) (r : call_regs) : M kproc Z :=
  let* p := on_fs (on_mm get_free_page) in
  if negb (cbool p) then ret (- EAGAIN) else
  let* pid := get last_pid in
  on_fs (
    on_sched (arr_put task nr p) ;;;
    let* me := current_task in
    let* now := get (fun s => jiffies (fs_sched s)) in
    on_sched (modify (over tasks <[p := child_of me p nr pid now r]>))) ;;;
  let* failed := on_fs (copy_mem nr p) in
  if cbool failed then
    on_fs (on_sched (arr_put task nr 0) ;;; on_sched (modify (over tasks (delete p))) ;;; on_mm (free_page p)) ;;;
    ret (- EAGAIN)
  else
  on_fs (share_files p) ;;;
  set_desc (Z.shiftl nr 1 + 4) 0x89 p ;;;
  set_desc (Z.shiftl nr 1 + 5) 0x82 p ;;;
  on_fs (on_sched (upd_task p (put ts_state TASK_RUNNING))) ;;;
  get last_pid.

(** ** kernel/system_call.s *)

Definition sys_fork (r : call_regs) : M kproc Z :=
  let* nr := find_empty_process in
  if nr <? 0 then ret nr else copy_process nr r.

(** The way back to a user program with code segment [cs_] and stack segment [ss_]: the
    first signal that is not blocked is taken. *)
Definition ret_from_sys_call (cs_ ss_ : Z) (r : pt_regs) : M fs_state pt_regs :=
  let* s := get fs_sched in
  let* first := need (task s !! 0%nat) in
  if (current s =? first) || negb (cs_ =? 0x0f) || negb (ss_ =? 0x17) then ret r else
  let* t := current_task in
  let pending := Z.land (ts_signal t) (u32 (Z.lnot (ts_blocked t))) in
  if negb (cbool pending) then ret r else
  let n := bsf 32 0 pending in
  set_cur ts_signal (Z.clearbit (ts_signal t) n) ;;;
  do_signal (n + 1) r.
