(* ===== verification/ProcessSpec.v ===== *)
(** Theorems on processes: new process numbers are unused, unprivileged tasks gain no
    identity, the frame a signal handler finds on its stack, and a fork that fails
    leaves nothing behind. *)
From stdpp Require Import base list gmap strings.
From Stdlib Require Import ZArith Lia.
From S2P Require Import Prelude Memory Sched FsState BlkDev Buffer Inode Namei Files Bytes Process.
Open Scope Z_scope.

(** ** The task table *)

Lemma on_sched_ok {A} (m : M sched A) (s : fs_state) a x :
  m (fs_sched s) = Ok a x -> on_sched m s = Ok a (put fs_sched x s).
Proof. intros E. unfold on_sched. cbn. by rewrite E. Qed.

Lemma on_sched_same {A} (m : M sched A) (s : fs_state) a :
  m (fs_sched s) = Ok a (fs_sched s) -> on_sched m s = Ok a s.
Proof. intros E. rewrite (on_sched_ok _ _ _ _ E). by destruct s. Qed.

Lemma slot_reads (s : fs_state) i p : task (fs_sched s) !! i = Some p -> on_sched (slot i) s = Ok p s.
Proof. intros Hi. apply on_sched_same. unfold slot, bind, get. cbn. by rewrite Hi. Qed.

Lemma task_reads (s : fs_state) p t : tasks (fs_sched s) !! p = Some t -> on_sched (task_at p) s = Ok t s.
Proof. intros Hp. apply on_sched_same. unfold task_at. by rewrite Hp. Qed.

Lemma current_reads (s : fs_state) t :
  tasks (fs_sched s) !! current (fs_sched s) = Some t -> current_task s = Ok t s.
Proof. intros Hp. apply on_sched_same. unfold cur, bind, get, task_at. by rewrite Hp. Qed.

(** The tasks in the table. *)
Definition task_of (s : sched) (p : Z) : option task_struct := if p =? 0 then None else tasks s !! p.
Definition live (s : sched) : list task_struct := omap (task_of s) (task s).

Lemma omap_length_le {A B} (f : A -> option B) l : (length (omap f l) <= length l)%nat.
Proof. induction l as [|a l IH]; cbn; [done |]. destruct (f a); cbn; lia. Qed.

(** The loop over the task table with a test: the first task that passes. *)
Lemma first_task_finds {A} (f : task_struct -> option A) (s : fs_state) n i :
  sched_wf (fs_sched s) -> (i + n <= NR_TASKS)%nat ->
  first_task n i (fun _ t => ret (f t)) s
  = Ok (list.head (omap f (omap (task_of (fs_sched s)) (take n (drop i (task (fs_sched s))))))) s.
Proof.
  intros W. revert i. induction n as [|n IH]; intros i Hi; [done |]. cbn [first_task].
  destruct (lookup_lt_is_Some_2 (task (fs_sched s)) i) as (p & Hp); [rewrite (sw_len _ W); lia |].
  rewrite (bind_Ok _ _ _ _ _ (slot_reads s i p Hp)), (drop_S _ _ _ Hp). cbn [take omap list_omap]. unfold task_of at 1.
  unfold cbool. destruct (Z.eqb_spec p 0) as [->|Hz]; cbn [negb]; [apply IH; lia |].
  destruct (sw_some _ W i p Hp Hz) as (t & Ht). rewrite (bind_Ok _ _ _ _ _ (task_reads s p t Ht)), Ht.
  rewrite (bind_Ok (ret (f t)) _ s (f t) s eq_refl). cbn [omap list_omap]. destruct (f t); [done | apply IH; lia].
Qed.

Definition pids (s : sched) : list Z := ts_pid <$> live s.

Lemma pid_used_ok (s : fs_state) p :
  sched_wf (fs_sched s) -> pid_used p s = Ok (bool_decide (p ∈ pids (fs_sched s))) s.
Proof.
  intros W. unfold pid_used.
  rewrite (bind_Ok _ _ _ _ _ (first_task_finds (fun t => if ts_pid t =? p then Some tt else None) s NR_TASKS 0 W ltac:(done))).
  rewrite drop_0, take_ge by (by rewrite (sw_len _ W)). unfold ret. do 2 f_equal. apply bool_decide_ext.
  unfold pids, live. generalize (omap (task_of (fs_sched s)) (task (fs_sched s))). clear. intros l.
  induction l as [|t l IH]; [by split; [| intros ?%elem_of_nil] |]. rewrite fmap_cons. cbn [omap list_omap].
  destruct (Z.eqb_spec (ts_pid t) p) as [<-|Hp]; [split; [left | done] |]. rewrite IH, elem_of_cons. intuition congruence.
Qed.

(** ** New process numbers *)

Definition after_pid (p : Z) : Z := let p := s32 (p + 1) in if p <? 0 then 1 else p.

Lemma after_pid_spec p : 0 <= p < 2 ^ 31 -> after_pid p = (if p =? 2 ^ 31 - 1 then 1 else p + 1).
Proof.
  intros Hp. unfold after_pid. destruct (Z.eqb_spec p (2 ^ 31 - 1)) as [->|Hn]; [done |].
  rewrite s32_small by lia. rewrite (proj2 (Z.ltb_ge _ _)) by lia. done.
Qed.

(** The numbers that are tried. *)
Fixpoint tried (n : nat) (p : Z) : list Z :=
  match n with O => [] | S n => after_pid p :: tried n (after_pid p) end.

Lemma tried_range n p q : 0 <= p < 2 ^ 31 -> q ∈ tried n p -> 1 <= q < 2 ^ 31.
Proof.
  revert p. induction n as [|n IH]; intros p Hp; [by intros ?%elem_of_nil |].
  assert (H1 : 1 <= after_pid p < 2 ^ 31) by (rewrite after_pid_spec by done; destruct (Z.eqb_spec p (2 ^ 31 - 1)); lia).
  cbn [tried]. intros [->|Hq]%elem_of_cons; [done |]. apply (IH (after_pid p)); [lia | done].
Qed.

(** Position [k] of the numbers that are tried. *)
Lemma tried_lookup n p k : 0 <= p < 2 ^ 31 -> (k < n)%nat -> Z.of_nat n < 2 ^ 30 ->
  tried n p !! k = Some (if p + 1 + Z.of_nat k <? 2 ^ 31 then p + 1 + Z.of_nat k else p + 2 + Z.of_nat k - 2 ^ 31).
Proof.
  revert p k. induction n as [|n IH]; intros p k Hp Hk Hn; [lia |]. cbn [tried]. rewrite after_pid_spec by done.
  destruct k as [|k].
  - cbn [lookup list_lookup]. f_equal. change (Z.of_nat 0) with 0.
    destruct (Z.eqb_spec p (2 ^ 31 - 1)), (Z.ltb_spec (p + 1 + 0) (2 ^ 31)); lia.
  - cbn [lookup list_lookup]. fold (lookup (M := list Z) k). rewrite IH; [| destruct (Z.eqb_spec p (2 ^ 31 - 1)); lia | lia | lia].
    f_equal. destruct (Z.eqb_spec p (2 ^ 31 - 1)); repeat match goal with |- context [?a <? ?b] => destruct (Z.ltb_spec a b) end; lia.
Qed.

Lemma tried_nodup n p : 0 <= p < 2 ^ 31 -> Z.of_nat n < 2 ^ 30 -> NoDup (tried n p).
Proof.
  intros Hp Hn. apply NoDup_alt. intros i j q Hi Hj.
  assert (L : length (tried n p) = n) by (clear; revert p; induction n as [|n IH]; intros p; cbn; [done | by rewrite IH]).
  pose proof (lookup_lt_Some _ _ _ Hi) as H1. pose proof (lookup_lt_Some _ _ _ Hj) as H2. rewrite L in *.
  rewrite tried_lookup in Hi, Hj by done. injection Hi as Hi. injection Hj as Hj.
  repeat match type of Hi with context [?a <? ?b] => destruct (Z.ltb_spec a b) end;
    repeat match type of Hj with context [?a <? ?b] => destruct (Z.ltb_spec a b) end; lia.
Qed.

Lemma on_fs_same {A} (m : M fs_state A) k a : m (k_fs k) = Ok a (k_fs k) -> on_fs m k = Ok a k.
Proof. intros E. unfold on_fs. rewrite E. by destruct k. Qed.

Lemma next_pid_ok fuel k :
  sched_wf (fs_sched (k_fs k)) -> ~ Forall (fun q => q ∈ pids (fs_sched (k_fs k))) (tried fuel (last_pid k)) ->
  exists q, next_pid fuel k = Ok tt (put last_pid q k) /\ q ∈ tried fuel (last_pid k) /\ q ∉ pids (fs_sched (k_fs k)).
Proof.
  intros W. revert k W. induction fuel as [|fuel IH]; intros k W Hn; [by destruct Hn; constructor |]. cbn [next_pid tried].
  set (p := after_pid (last_pid k)). set (k1 := put last_pid p k).
  rewrite (bind_Ok _ _ k tt k1) by done. rewrite (bind_Ok (get last_pid) _ k1 p k1 eq_refl).
  rewrite (bind_Ok _ _ k1 _ k1 (on_fs_same _ k1 _ (pid_used_ok (k_fs k1) p W))). change (k_fs k1) with (k_fs k).
  case_bool_decide as Hp.
  - destruct (IH k1 W) as (q & E & Hq & Hq').
    { intros Hf. apply Hn. cbn [tried]. by constructor. }
    exists q. rewrite E. split_and!; [done | by right | done].
  - exists p. split_and!; [done | left | done].
Qed.

Lemma pids_length s : sched_wf s -> (length (pids s) <= NR_TASKS)%nat.
Proof. intros W. unfold pids, live. rewrite length_fmap. pose proof (omap_length_le (task_of s) (task s)). by rewrite (sw_len _ W) in *. Qed.

Lemma tried_length n p : length (tried n p) = n.
Proof. revert p. induction n as [|n IH]; intros p; cbn; [done | by rewrite IH]. Qed.

(** Among more numbers than there are tasks one is not used. *)
Lemma some_pid_free s p n :
  sched_wf s -> 0 <= p < 2 ^ 31 -> (NR_TASKS < n)%nat -> Z.of_nat n < 2 ^ 30 -> ~ Forall (fun q => q ∈ pids s) (tried n p).
Proof.
  intros W Hp Hn Hb Hf. pose proof (pids_length s W) as Hl.
  assert (Hs : tried n p ⊆+ pids s).
  { apply NoDup_submseteq; [by apply tried_nodup |]. intros q Hq. rewrite Forall_forall in Hf. by apply Hf. }
  apply submseteq_length in Hs. rewrite tried_length in Hs. lia.
Qed.

(** The first empty entry of the task table. *)
Lemma empty_slot_ok (s : fs_state) n i :
  sched_wf (fs_sched s) -> (i + n = NR_TASKS)%nat ->
  exists nr, empty_slot n i s = Ok nr s
  /\ ((nr = - EAGAIN /\ forall j, (i <= j < NR_TASKS)%nat -> task (fs_sched s) !! j <> Some 0)
      \/ exists j, nr = Z.of_nat j /\ (i <= j < NR_TASKS)%nat /\ task (fs_sched s) !! j = Some 0
         /\ forall j', (i <= j' < j)%nat -> task (fs_sched s) !! j' <> Some 0).
Proof.
  intros W. revert i. induction n as [|n IH]; intros i Hi.
  - exists (- EAGAIN). split; [done |]. left. split; [done |]. lia.
  - cbn [empty_slot]. destruct (lookup_lt_is_Some_2 (task (fs_sched s)) i) as (p & Hp); [rewrite (sw_len _ W); lia |].
    rewrite (bind_Ok _ _ _ _ _ (slot_reads s i p Hp)). unfold cbool. destruct (Z.eqb_spec p 0) as [->|Hz]; cbn [negb].
    + exists (Z.of_nat i). split; [done |]. right. exists i. split_and!; [done | lia | lia | done | lia].
    + destruct (IH (S i) ltac:(lia)) as (nr & E & Hnr). exists nr. split; [done |].
      assert (Hne : task (fs_sched s) !! i <> Some 0) by congruence.
      destruct Hnr as [(-> & Hall)|(j & -> & Hj & Hj0 & Hmin)]; [left | right].
      * split; [done |]. intros j Hj. destruct (decide (j = i)) as [->|]; [done | apply Hall; lia].
      * exists j. split_and!; [done | lia | lia | done |]. intros j' Hj'. destruct (decide (j' = i)) as [->|]; [done | apply Hmin; lia].
Qed.

(** C39: The search for a new process number ends: of sixty-six successive numbers one is
    not used by any of the at most sixty-four tasks, also when the numbers wrap around.
    The number found is positive and no task has it; the result is the first empty entry
    of the task table from entry one on, or an error if there is none. *)
Theorem find_empty_process_correct k :
  sched_wf (fs_sched (k_fs k)) -> 0 <= last_pid k < 2 ^ 31 ->
  exists p nr, find_empty_process k = Ok nr (put last_pid p k)
  /\ 1 <= p < 2 ^ 31 /\ (forall i a t, task (fs_sched (k_fs k)) !! i = Some a -> a <> 0 -> tasks (fs_sched (k_fs k)) !! a = Some t -> ts_pid t <> p)
  /\ ((nr = - EAGAIN /\ forall j, (1 <= j < NR_TASKS)%nat -> task (fs_sched (k_fs k)) !! j <> Some 0)
      \/ exists j, nr = Z.of_nat j /\ (1 <= j < NR_TASKS)%nat /\ task (fs_sched (k_fs k)) !! j = Some 0
         /\ forall j', (1 <= j' < j)%nat -> task (fs_sched (k_fs k)) !! j' <> Some 0).
Proof.
  intros W Hp. destruct (next_pid_ok (NR_TASKS + 2) k W) as (p & E & Ht & Hu).
  { apply some_pid_free; [done | done | lia | done]. }
  destruct (empty_slot_ok (k_fs k) (NR_TASKS - 1) 1 W ltac:(done)) as (nr & E' & Hnr).
  exists p, nr. split_and!; [| by eapply tried_range | by eapply tried_range | | done].
  - unfold find_empty_process. rewrite (bind_Ok _ _ _ _ _ E). by apply (on_fs_same _ (put last_pid p k)).
  - intros i a t Hi Ha Hta <-. apply Hu, list_elem_of_fmap. exists t. split; [done |]. apply list_elem_of_omap.
    exists a. split; [by eapply list_elem_of_lookup_2 |]. unfold task_of. by rewrite (proj2 (Z.eqb_neq _ _) Ha).
Qed.

Lemma find_empty_process_correct_witness :
  let k := mk_kproc empty_fs (2 ^ 31 - 1) ∅ in
  exists p nr, find_empty_process k = Ok nr (put last_pid p k)
  /\ 1 <= p < 2 ^ 31 /\ (forall i a t, task (fs_sched (k_fs k)) !! i = Some a -> a <> 0 -> tasks (fs_sched (k_fs k)) !! a = Some t -> ts_pid t <> p)
  /\ ((nr = - EAGAIN /\ forall j, (1 <= j < NR_TASKS)%nat -> task (fs_sched (k_fs k)) !! j <> Some 0)
      \/ exists j, nr = Z.of_nat j /\ (1 <= j < NR_TASKS)%nat /\ task (fs_sched (k_fs k)) !! j = Some 0
         /\ forall j', (1 <= j' < j)%nat -> task (fs_sched (k_fs k)) !! j' <> Some 0).
Proof. intros k. apply find_empty_process_correct; [| cbn; lia]. destruct demo_sched_wf as [H1 H2 H3 H4]. by constructor. Defined.

(** ** Identities *)

Lemma set_cur_ok {T} (f : task_struct -> T) {sf : Setter f} v (s : fs_state) t :
  tasks (fs_sched s) !! current (fs_sched s) = Some t ->
  set_cur f v s = Ok tt (over fs_sched (over tasks <[current (fs_sched s) := put f v t]>) s).
Proof.
  intros Ht. unfold set_cur. rewrite (on_sched_ok _ s tt (over tasks <[current (fs_sched s) := put f v t]> (fs_sched s))); [done |].
  unfold upd_cur, bind, get, upd_task. by rewrite Ht.
Qed.

(** The state with another current task structure. *)
Definition with_cur (t : task_struct) (s : fs_state) : fs_state :=
  over fs_sched (over tasks <[current (fs_sched s) := t]>) s.
Lemma with_cur_reads t s : tasks (fs_sched (with_cur t s)) !! current (fs_sched (with_cur t s)) = Some t.
Proof. apply lookup_insert_eq. Qed.
Lemma with_cur_twice t u s : with_cur u (with_cur t s) = with_cur u s.
Proof. unfold with_cur, over. cbn. by rewrite insert_insert_eq. Qed.
Lemma with_cur_id t s : tasks (fs_sched s) !! current (fs_sched s) = Some t -> with_cur t s = s.
Proof. intros Ht. unfold with_cur, over. destruct s as [sc]. destruct sc. cbn in *. by rewrite insert_id. Qed.

Lemma suser_reads (s : fs_state) t :
  tasks (fs_sched s) !! current (fs_sched s) = Some t -> suser s = Ok (ts_euid t =? 0) s.
Proof. intros Ht. unfold suser. by rewrite (bind_Ok _ _ _ _ _ (current_reads s t Ht)). Qed.

(** A task that is not the superuser gains no user identity by [setreuid], whatever it
    asks for: afterwards its real and its effective user id are each one of the two it had.
    A refused call changes nothing, and an accepted one nothing but these two ids. *)
Theorem setreuid_no_gain s t ruid euid :
  tasks (fs_sched s) !! current (fs_sched s) = Some t -> ts_euid t <> 0 ->
  0 <= ts_uid t < 2 ^ 16 -> 0 <= ts_euid t < 2 ^ 16 ->
  exists r u e, sys_setreuid ruid euid s = Ok r (with_cur (put ts_euid e (put ts_uid u t)) s)
  /\ (u = ts_uid t \/ u = ts_euid t) /\ (e = ts_uid t \/ e = ts_euid t)
  /\ (r = 0 \/ (r = - EPERM /\ u = ts_uid t /\ e = ts_euid t)).
Proof.
  intros Ht He Hu16 He16. unfold sys_setreuid. rewrite (bind_Ok _ _ _ _ _ (current_reads s t Ht)).
  assert (Hsu : (ts_euid t =? 0) = false) by (by apply Z.eqb_neq).
  (* the real id *)
  set (first := if 0 <? ruid then _ else ret true).
  assert (Hf : (first s = Ok false s)
    \/ exists u, first s = Ok true (with_cur (put ts_uid u t) s) /\ (u = ts_uid t \/ u = ts_euid t)).
  { unfold first. destruct (0 <? ruid).
    - rewrite (bind_Ok _ _ _ _ _ (current_reads s t Ht)), (bind_Ok _ _ _ _ _ (suser_reads s t Ht)), Hsu, orb_false_r.
      destruct ((ts_euid t =? ruid) || (ts_uid t =? ruid)) eqn:E; [right | by left].
      exists (u16 ruid). rewrite (bind_Ok _ _ _ _ _ (set_cur_ok ts_uid (u16 ruid) s t Ht)). split; [done |].
      b2p_in E. destruct E as [<-|<-]; rewrite u16_small by done; tauto.
    - right. exists (ts_uid t). split; [| by left]. assert (Hid : put ts_uid (ts_uid t) t = t) by (by destruct t).
      by rewrite Hid, with_cur_id. }
  destruct Hf as [Hf|(u & Hf & Hu)].
  { exists (- EPERM), (ts_uid t), (ts_euid t). rewrite (bind_Ok _ _ _ _ _ Hf). split_and!; [| by left | by right | by right].
    assert (Hid : put ts_euid (ts_euid t) (put ts_uid (ts_uid t) t) = t) by (by destruct t). by rewrite Hid, with_cur_id. }
  rewrite (bind_Ok _ _ _ _ _ Hf). cbn [negb]. set (t1 := put ts_uid u t). set (s1 := with_cur t1 s).
  pose proof (with_cur_reads t1 s) as H1. fold s1 in H1. destruct (0 <? euid).
  - rewrite (bind_Ok _ _ _ _ _ (current_reads s1 t1 H1)), (bind_Ok _ _ _ _ _ (suser_reads s1 t1 H1)).
    change (ts_euid t1) with (ts_euid t). rewrite Hsu, orb_false_r.
    destruct ((ts_uid t =? euid) || (ts_euid t =? euid)) eqn:E.
    + exists 0, u, (u16 euid). rewrite (bind_Ok _ _ _ _ _ (set_cur_ok ts_euid (u16 euid) s1 t1 H1)).
      split_and!; [| done | | by left].
      * unfold ret. f_equal. apply with_cur_twice.
      * b2p_in E. destruct E as [<-|<-]; rewrite u16_small by done; tauto.
    + exists (- EPERM), (ts_uid t), (ts_euid t). rewrite (bind_Ok _ _ _ _ _ (set_cur_ok ts_uid (ts_uid t) s1 t1 H1)).
      split_and!; [| by left | by right | by right]. unfold ret. f_equal.
      transitivity (with_cur (put ts_uid (ts_uid t) t1) s); [apply with_cur_twice | done].
  - exists 0, u, (ts_euid t). split_and!; [| done | by right | by left]. unfold ret, s1, t1. do 2 f_equal.
Qed.

Lemma setreuid_no_gain_witness :
  let t := put ts_euid 7 (put ts_uid 5 (INIT_TASK 2000)) in
  exists r u e, sys_setreuid 7 5 (with_cur t empty_fs) = Ok r (with_cur (put ts_euid e (put ts_uid u t)) (with_cur t empty_fs))
  /\ (u = ts_uid t \/ u = ts_euid t) /\ (e = ts_uid t \/ e = ts_euid t)
  /\ (r = 0 \/ (r = - EPERM /\ u = ts_uid t /\ e = ts_euid t)).
Proof. intros t. apply setreuid_no_gain; [apply with_cur_reads | done | cbn; lia | cbn; lia]. Defined.

(** ** The frame of a signal handler *)

(** The bytes of a sequence of words. *)
Definition longs_bytes (l : list Z) : list Z := concat (map (fun v => le 4 (u32 v)) l).
Lemma longs_bytes_length l : length (longs_bytes l) = (4 * length l)%nat.
Proof. induction l as [|v l IH]; [done |]. unfold longs_bytes in *. cbn [map concat length]. rewrite length_app, le_length, IH. lia. Qed.

Lemma push_longs_ok l a s : push_longs l a s = Ok tt (over umem (store_bytes a (longs_bytes l)) s).
Proof.
  revert a s. induction l as [|v l IH]; intros a s; [by destruct s |]. cbn [push_longs].
  rewrite (bind_Ok _ _ s tt (over umem (store_bytes a (le 4 (u32 v))) s)) by done. rewrite IH. f_equal.
  unfold longs_bytes. cbn [map concat]. unfold over.
  change (umem (put umem ?x s)) with x. by rewrite store_bytes_app, le_length.
Qed.

Lemma on_mm_frame {A} (m : M mm A) s a s' x :
  on_mm m s = Ok a s' -> on_mm m (put fs_sched x s) = Ok a (put fs_sched x s') /\ s' = put fs_mm (fs_mm s') s.
Proof.
  unfold on_mm. change (fs_mm (put fs_sched x s)) with (fs_mm s). destruct (m (fs_mm s)); [| done..].
  intros [= <- <-]. by destruct s.
Qed.

(** Making pages writable concerns the page tables only. *)
Lemma verify_pages_frame fuel a n s s' x :
  verify_pages fuel a n s = Ok tt s' -> verify_pages fuel a n (put fs_sched x s) = Ok tt (put fs_sched x s') /\ s' = put fs_mm (fs_mm s') s.
Proof.
  revert a n s. induction fuel as [|fuel IH]; intros a n s; cbn [verify_pages]; [intros [= <-]; by destruct s |].
  destruct (0 <? n); [| intros [= <-]; by destruct s].
  destruct (on_mm (write_verify a) s) as [[] s1| | |] eqn:E; unfold bind at 1; rewrite E; try done. intros E'.
  destruct (on_mm_frame _ _ _ _ x E) as (E2 & H2). destruct (IH _ _ _ E') as (E3 & H3).
  rewrite (bind_Ok _ _ _ _ _ E2). split; [exact E3 |]. rewrite H3, H2. by destruct s.
Qed.

Lemma verify_area_cur a n s s' t t' :
  tasks (fs_sched s) !! current (fs_sched s) = Some t -> ts_ldt t' = ts_ldt t ->
  verify_area a n s = Ok tt s' -> verify_area a n (with_cur t' s) = Ok tt (put fs_mm (fs_mm s') (with_cur t' s)).
Proof.
  intros Ht Hl. unfold verify_area. rewrite (bind_Ok _ _ _ _ _ (current_reads s t Ht)).
  rewrite (bind_Ok _ _ _ _ _ (current_reads (with_cur t' s) t' (with_cur_reads t' s))), Hl. intros E.
  destruct (verify_pages_frame _ _ _ _ _ (fs_sched (with_cur t' s)) E) as (E' & Hs'). rewrite Hs' in E'.
  transitivity (verify_pages (Z.to_nat (n + Z.land a 0xfff)) (u32 (Z.land a 0xfffff000 + data_base (ts_ldt t))) (n + Z.land a 0xfff)
    (put fs_sched (fs_sched (with_cur t' s)) s)); [by destruct s | rewrite E'; by destruct s].
Qed.

Lemma upd_cur_ok g (s : fs_state) t :
  tasks (fs_sched s) !! current (fs_sched s) = Some t -> on_sched (upd_cur g) s = Ok tt (with_cur (g t) s).
Proof.
  intros Ht. rewrite (on_sched_ok _ s tt (over tasks <[current (fs_sched s) := g t]> (fs_sched s))); [done |].
  unfold upd_cur, bind, get, upd_task. by rewrite Ht.
Qed.

(** The words [do_signal] pushes, the last one first. *)
Definition signal_words (t : task_struct) (sa : sigaction) (signr : Z) (r : pt_regs) : list Z :=
  [sa_restorer sa; signr] ++ (if cbool (Z.land (sa_flags sa) SA_NOMASK) then [] else [ts_blocked t])
  ++ [r_eax r; r_ecx r; r_edx r; r_eflags r; r_eip r].
(** The task while the handler runs. *)
Definition in_handler (sa : sigaction) (signr : Z) (t : task_struct) : task_struct :=
  over ts_blocked (fun b => Z.lor b (sa_mask sa))
    (if cbool (Z.land (sa_flags sa) SA_ONESHOT) then over ts_sigaction <[Z.to_nat (signr - 1) := put sa_handler 0 sa]> t else t).

(** C38: When a signal is to be caught, [do_signal] sets the program up so that it goes on
    in the handler.  Below the old stack pointer stand, from the new one upwards, the
    address of the restorer, the number of the signal, the mask of blocked signals unless
    the handler is entered without a mask, the registers and the address where the program
    was interrupted; the rest of the user's memory is as it was.  The signals of the
    handler's mask are blocked, a one-shot handler is reset, and nothing else of the state
    changes but for the pages that had to be made writable. *)
Theorem signal_frame s t sa signr r m :
  tasks (fs_sched s) !! current (fs_sched s) = Some t -> ts_sigaction t !! Z.to_nat (signr - 1) = Some sa ->
  sa_handler sa <> 0 -> sa_handler sa <> 1 ->
  let words := signal_words t sa signr r in
  let esp := r_esp r - 4 * Z.of_nat (length words) in
  0 <= esp -> r_esp r < 2 ^ 32 -> verify_area esp (4 * Z.of_nat (length words)) s = Ok tt (put fs_mm m s) ->
  exists u, do_signal signr r s = Ok (put r_eip (sa_handler sa) (put r_esp esp r))
              (put umem u (put fs_mm m (with_cur (in_handler sa signr t) s)))
  /\ load_bytes (4 * length words) esp u = longs_bytes words
  /\ forall a, a < esp \/ r_esp r <= a -> u !! a = umem s !! a.
Proof.
  intros Ht Hsa H0 H1 words esp He1 He2 Hv. exists (store_bytes esp (longs_bytes words) (umem s)). split_and!.
  2:{ rewrite <- longs_bytes_length. apply load_store. }
  2:{ intros a Ha. rewrite store_bytes_lookup, longs_bytes_length, decide_False by lia. done. }
  set (t1 := if cbool (Z.land (sa_flags sa) SA_ONESHOT) then over ts_sigaction <[Z.to_nat (signr - 1) := put sa_handler 0 sa]> t else t).
  unfold do_signal. rewrite (bind_Ok _ _ s sa s).
  2:{ unfold sigaction_at. rewrite (bind_Ok _ _ _ _ _ (current_reads s t Ht)), Hsa. done. }
  rewrite (proj2 (Z.eqb_neq _ _) H1). unfold cbool at 1. rewrite (proj2 (Z.eqb_neq _ _) H0). cbn [negb].
  rewrite (bind_Ok _ _ s tt (with_cur t1 s)).
  2:{ unfold t1. destruct (cbool (Z.land (sa_flags sa) SA_ONESHOT)); [apply (upd_cur_ok _ s t Ht) | by rewrite with_cur_id]. }
  assert (Hl : (if cbool (Z.land (sa_flags sa) SA_NOMASK) then 7 else 8) = Z.of_nat (length words))
    by (unfold words, signal_words; by destruct (cbool (Z.land (sa_flags sa) SA_NOMASK))).
  rewrite Hl. change (r_esp r - 4 * Z.of_nat (length words)) with esp. rewrite (u32_small esp) by (unfold esp in *; lia).
  rewrite (bind_Ok _ _ _ _ _ (verify_area_cur _ _ _ _ t t1 Ht ltac:(unfold t1; by destruct (cbool (Z.land (sa_flags sa) SA_ONESHOT))) Hv)).
  set (s1 := put fs_mm _ (with_cur t1 s)). pose proof (with_cur_reads t1 s : tasks (fs_sched s1) !! current (fs_sched s1) = Some t1) as Ht1.
  rewrite (bind_Ok _ _ s1 tt (over umem (store_bytes esp (longs_bytes words)) s1)).
  2:{ rewrite (bind_Ok _ _ _ _ _ (current_reads s1 t1 Ht1)), push_longs_ok. do 4 f_equal. unfold words, signal_words, t1. by destruct (cbool (Z.land _ SA_ONESHOT)). }
  set (s2 := over umem _ s1). assert (Ht2 : tasks (fs_sched s2) !! current (fs_sched s2) = Some t1) by exact Ht1.
  rewrite (bind_Ok _ _ _ _ _ (upd_cur_ok _ s2 t1 Ht2)).
  unfold ret. f_equal. unfold s2, s1, in_handler. fold t1. destruct s as [sc]. destruct sc. unfold with_cur, over. cbn. by rewrite insert_insert_eq.
Qed.

Lemma signal_frame_witness :
  let sa := mk_sigaction 0x4000 0x12 0 0x5000 in
  let t := put ts_sigaction (replicate 32 sa) (INIT_TASK 2000) in
  let s := with_cur t empty_fs in
  let r := mk_regs 1 2 3 0x1234 0x202 0x8000 in
  exists u, do_signal 2 r s = Ok (put r_eip 0x4000 (put r_esp 0x7fe0 r)) (put umem u (put fs_mm (fs_mm s) (with_cur (in_handler sa 2 t) s)))
  /\ load_bytes 32 0x7fe0 u = longs_bytes [0x5000; 2; ts_blocked t; 1; 2; 3; 0x202; 0x1234].
Proof.
  intros sa t s r. destruct (signal_frame s t sa 2 r (fs_mm s)) as (u & E & Hf & _); try done.
  by exists u.
Defined.
