(* ===== verification/ForkSpec.v ===== *)
(** The fork system call as a whole: sys_fork (kernel/system_call.s) with
    find_empty_process, copy_process and copy_mem (kernel/fork.c) on top of the page
    allocator, the page tables, the task table and the tables of files and inodes. *)
From stdpp Require Import base list gmap strings.
From Stdlib Require Import ZArith Lia.
From S2P Require Import Prelude Memory PageTables Sched FsState BlkDev Buffer Inode Namei Files Bytes Process ProcessSpec.
Open Scope Z_scope.

(** ** The page of the new task *)

(** Taking a page does not disturb the address space that is to be copied. *)
Lemma alloc_same s k n fd td p s1 a :
  copy_pre s k n fd td -> allocated s p s1 -> a < 4096 \/ (4096 <= a /\ ~ in_free_page s a) -> rd s1 a = rd s a.
Proof.
  intros Hpre (i & -> & H0 & _ & _ & Hrd & _) Ha. rewrite Hrd. destruct (in_words 1024 (page_addr i) a) eqn:E; [| done].
  destruct Ha as [Ha|(_ & Ha)].
  - exfalso. unfold in_words in E. b2p_in E. rewrite page_addr_frame in E. lia.
  - destruct Ha. exists i. done.
Qed.

Lemma copy_pre_alloc s k n fd td p s1 : copy_pre s k n fd td -> allocated s p s1 ->
  copy_pre s1 k n fd td /\ src_refs (rd s1) k n fd = src_refs (rd s) k n fd.
Proof.
  intros Hpre Hal. pose proof (alloc_same s k n fd td p s1) as Hsame. pose proof (cp_low _ _ _ _ _ Hpre) as (L1 & L2 & L3 & L4).
  assert (Hlow : forall d a, in_words n d a = true -> d + 4 * Z.of_nat n <= 4096 -> rd s1 a = rd s a).
  { intros d a (j & Hj & ->)%in_words_inv Hd. apply Hsame; [done | done |]. left. lia. }
  assert (Hsrc : src_refs (rd s1) k n fd = src_refs (rd s) k n fd).
  { apply src_refs_ext; [intros a; apply (wf_words s), Hpre | intros a Ha; left; by eapply Hlow |].
    intros b a Hb Hp Ha. left. apply Hsame; [done | done |]. right. by eapply table_not_free. }
  split; [| done]. destruct Hal as (i & -> & H0 & Hj & HM & Hrd & HH & Hc).
  assert (Hal : allocated s (page_addr i) s1) by (by exists i). split; try apply Hpre.
  - by eapply allocated_wf; [apply Hpre |].
  - intros a Ha. rewrite (Hlow td) by done. by apply Hpre.
  - intros a Ha. rewrite (Hlow fd) by done. intros Hp. destruct (cp_tables _ _ _ _ _ Hpre a Ha Hp) as (H1 & H2).
    split; [done |]. intros j Hj'. rewrite HM. destruct (decide (j = i)) as [->|Hji].
    + rewrite list_lookup_insert_eq; [done | by eapply lookup_lt_Some].
    + rewrite list_lookup_insert_ne by done. by apply H2.
  - rewrite Hsrc, HM. apply counted_insert; [done | apply Hpre].
Qed.

Lemma fork_pre_alloc s from to size p s1 : fork_pre s from to size -> allocated s p s1 -> fork_pre s1 from to size.
Proof.
  intros (H1 & H2 & H3 & H4) Hal. destruct (copy_pre_alloc _ _ _ _ _ _ _ H3 Hal) as (H5 & H6). split_and!; [done | done | done |].
  rewrite H6. destruct Hal as (i & _ & _ & _ & _ & _ & -> & _). done.
Qed.

(** ** One more user of files and inodes *)

Section Users.
Context {R : Type} (idx : Z -> option nat) (bump : R -> R).

(** Row [n] is changed for each pointer to it. *)
Definition add_user (l : list R) (p : Z) : list R := match idx p with Some n => alter bump n l | None => l end.
Definition add_users (ptrs : list Z) (l : list R) : list R := foldl add_user l ptrs.
Definition pointers (ptrs : list Z) (n : nat) : nat := length (filter (fun p => idx p = Some n) ptrs).

Lemma add_user_length l p : length (add_user l p) = length l.
Proof. unfold add_user. destruct (idx p); [apply length_alter | done]. Qed.

Lemma add_users_lookup ptrs l n : add_users ptrs l !! n = Nat.iter (pointers ptrs n) bump <$> l !! n.
Proof.
  unfold add_users, pointers. revert l. induction ptrs as [|p ptrs IH]; intros l; [cbn; by destruct (l !! n) |].
  cbn [foldl]. rewrite IH. unfold add_user. destruct (decide (idx p = Some n)) as [E|E].
  - rewrite filter_cons_True by done. rewrite E, list_lookup_alter, decide_True by done.
    destruct (l !! n); [| done]. cbn [length fmap option_fmap option_map]. by rewrite Nat.iter_succ_r.
  - rewrite filter_cons_False by done. destruct (idx p) as [m|]; [| done].
    rewrite list_lookup_alter, decide_False; [done | congruence].
Qed.
End Users.

Definition one_more_file (x : file) : file := over f_count (fun c => u16 (c + 1)) x.
Definition one_more_inode (x : m_inode) : m_inode := over i_count (fun c => u16 (c + 1)) x.

Lemma u16_count c k : u16 (u16 (c + Z.of_nat k) + 1) = u16 (c + Z.of_nat (S k)).
Proof. unfold u16. rewrite Zplus_mod_idemp_l. f_equal. lia. Qed.
Lemma more_files k x : 0 <= f_count x < 2 ^ 16 -> Nat.iter k one_more_file x = put f_count (u16 (f_count x + Z.of_nat k)) x.
Proof.
  intros Hx. induction k as [|k IH]; [cbn [Nat.iter nat_rect]; rewrite Z.add_0_r, u16_small by done; by destruct x |].
  rewrite Nat.iter_succ, IH, <- u16_count. by destruct x.
Qed.
Lemma more_inodes k x : 0 <= i_count x < 2 ^ 16 -> Nat.iter k one_more_inode x = put i_count (u16 (i_count x + Z.of_nat k)) x.
Proof.
  intros Hx. induction k as [|k IH]; [cbn [Nat.iter nat_rect]; rewrite Z.add_0_r, u16_small by done; by destruct x |].
  rewrite Nat.iter_succ, IH, <- u16_count. by destruct x.
Qed.

Definition in_table (idx : Z -> option nat) (n : nat) (p : Z) : Prop := forall k, idx p = Some k -> (k < n)%nat.

Lemma bump_file_ok f s x : file_table s !! f = Some x -> bump_file f 1 s = Ok tt (over file_table (alter one_more_file f) s).
Proof.
  intros Hx. unfold bump_file, fil. rewrite (bind_Ok _ _ _ _ _ (field_ok file_table f_count f x s Hx)).
  unfold set_file, assign. rewrite (update_ok file_table f _ x s Hx). unfold over. do 2 f_equal.
  apply list_eq. intros i. rewrite !list_lookup_alter. destruct (decide (f = i)) as [->|]; [| done]. rewrite Hx. by destruct x.
Qed.
Lemma bump_inode_ok n s x : inode_table s !! n = Some x -> bump_inode i_count u16 n 1 s = Ok tt (over inode_table (alter one_more_inode n) s).
Proof.
  intros Hx. unfold bump_inode, inode. rewrite (bind_Ok _ _ _ _ _ (field_ok inode_table i_count n x s Hx)).
  unfold set_inode, assign. rewrite (update_ok inode_table n _ x s Hx). unfold over. do 2 f_equal.
  apply list_eq. intros i. rewrite !list_lookup_alter. destruct (decide (n = i)) as [->|]; [| done]. rewrite Hx. by destruct x.
Qed.

Lemma share_loop p t n i s :
  tasks (fs_sched s) !! p = Some t -> length (ts_filp t) = (i + n)%nat ->
  Forall (in_table file_of_ptr (length (file_table s))) (ts_filp t) ->
  for_each (seq i n) (fun i =>
    let* t := on_sched (task_at p) in
    let* f := need (ts_filp t !! i) in
    match file_of_ptr f with Some f => bump_file f 1 | None => ret tt end) s
  = Ok tt (over file_table (add_users file_of_ptr one_more_file (drop i (ts_filp t))) s).
Proof.
  revert i s. induction n as [|n IH]; intros i s Ht Hl Hf.
  - rewrite drop_ge by lia. cbn. by destruct s.
  - destruct (lookup_lt_is_Some_2 (ts_filp t) i ltac:(lia)) as (q & Hq). rewrite (drop_S _ _ _ Hq). cbn [seq for_each].
    set (s1 := over file_table (fun l => add_user file_of_ptr one_more_file l q) s).
    rewrite (bind_Ok _ _ s tt s1).
    + rewrite IH; [| done | lia |]; [by destruct s |].
      eapply Forall_impl; [exact Hf |]. intros z Hz. change (length (file_table s1)) with (length (add_user file_of_ptr one_more_file (file_table s) q)).
      by rewrite add_user_length.
    + rewrite (bind_Ok _ _ _ _ _ (task_reads s p t Ht)), Hq. rewrite (bind_Ok (need (Some q)) _ s q s eq_refl).
      unfold s1, add_user. destruct (file_of_ptr q) as [f|] eqn:E; [| by destruct s].
      rewrite Forall_lookup in Hf. destruct (lookup_lt_is_Some_2 (file_table s) f (Hf i q Hq f E)) as (x & Hx). by apply (bump_file_ok f s x).
Qed.

Lemma share_inode_ok f s me :
  tasks (fs_sched s) !! current (fs_sched s) = Some me -> in_table inode_of_ptr (length (inode_table s)) (f me) ->
  share_inode f s = Ok tt (over inode_table (fun l => add_user inode_of_ptr one_more_inode l (f me)) s).
Proof.
  intros Hme Hf. unfold share_inode. rewrite (bind_Ok _ _ _ _ _ (current_reads s me Hme)). unfold add_user.
  destruct (inode_of_ptr (f me)) as [n|] eqn:E; [| by destruct s].
  destruct (lookup_lt_is_Some_2 (inode_table s) n (Hf n E)) as (x & Hx). by apply (bump_inode_ok n s x).
Qed.

(** The files and inodes a task uses. *)
Definition task_inodes (t : task_struct) : list Z := [ts_pwd t; ts_root t; ts_executable t].
Definition with_users (t : task_struct) (s : fs_state) : fs_state :=
  over inode_table (add_users inode_of_ptr one_more_inode (task_inodes t))
  (over file_table (add_users file_of_ptr one_more_file (ts_filp t)) s).

Record uses_ok (t : task_struct) (s : fs_state) : Prop := {
  uses_filp : length (ts_filp t) = NR_OPEN;
  uses_files : Forall (in_table file_of_ptr (length (file_table s))) (ts_filp t);
  uses_inodes : Forall (in_table inode_of_ptr (length (inode_table s))) (task_inodes t) }.

Lemma share_files_ok p t me s :
  tasks (fs_sched s) !! p = Some t -> tasks (fs_sched s) !! current (fs_sched s) = Some me ->
  ts_filp t = ts_filp me -> uses_ok me s -> share_files p s = Ok tt (with_users me s).
Proof.
  intros Hp Hme E [H1 H2 H3]. unfold share_files. rewrite (bind_Ok _ _ _ _ _ (share_loop p t NR_OPEN 0 s Hp ltac:(by rewrite E) ltac:(by rewrite E))).
  rewrite E, drop_0. set (s1 := over file_table _ s). unfold task_inodes in H3. rewrite !Forall_cons in H3. destruct H3 as (I1 & I2 & I3 & _).
  rewrite (bind_Ok _ _ _ _ _ (share_inode_ok ts_pwd s1 me Hme I1)). set (s2 := over inode_table _ s1).
  assert (L2 : length (inode_table s2) = length (inode_table s)) by apply add_user_length.
  rewrite (bind_Ok _ _ _ _ _ (share_inode_ok ts_root s2 me Hme ltac:(by rewrite L2))). set (s3 := over inode_table _ s2).
  assert (L3 : length (inode_table s3) = length (inode_table s)) by (rewrite <- L2; apply add_user_length).
  rewrite (share_inode_ok ts_executable s3 me Hme ltac:(by rewrite L3)). unfold s3, s2, s1, with_users. by destruct s.
Qed.

(** ** The memory of the child *)

(** The 64 MB of the linear address space that belong to task [nr]. *)
Definition task_base (nr : nat) : Z := Z.of_nat nr * 0x4000000.
(** The child with its own segments. *)
Definition based (nr : nat) (t : task_struct) : task_struct :=
  put ts_start_code (task_base nr)
    (over ts_ldt (fun l => mk_ldt (task_base nr) (code_limit l) (task_base nr) (data_limit l)) t).

Definition space_of (me : task_struct) (nr : nat) (m : mm) : Prop :=
  fork_pre m (data_base (ts_ldt me)) (task_base nr) (data_limit (ts_ldt me)).
Definition child_space (me : task_struct) (nr : nat) (r : Z) (m m' : mm) : Prop :=
  forked m (entries_of (data_base (ts_ldt me))) (dirs_of (data_limit (ts_ldt me))) (dir_of (data_base (ts_ldt me))) (dir_of (task_base nr)) r m'.

Lemma on_mm_ok {A} (f : M mm A) s a m : f (fs_mm s) = Ok a m -> on_mm f s = Ok a (put fs_mm m s).
Proof. intros E. unfold on_mm. by rewrite E. Qed.

Lemma task_base_small nr : (nr < NR_TASKS)%nat -> u32 (Z.of_nat nr * 0x4000000) = task_base nr.
Proof. intros H. apply u32_small. change (nr < 64)%nat in H. unfold task_base. lia. Qed.

Definition put_task (p : Z) (t : task_struct) (s : fs_state) : fs_state := over fs_sched (over tasks <[p := t]>) s.

Lemma upd_task_put p g (s : fs_state) t :
  tasks (fs_sched s) !! p = Some t -> on_sched (upd_task p g) s = Ok tt (put_task p (g t) s).
Proof.
  intros Ht. rewrite (on_sched_ok _ s tt (over tasks <[p := g t]> (fs_sched s))); [done |]. unfold upd_task. by rewrite Ht.
Qed.

Lemma copy_mem_ok nr p s me t :
  (1 <= nr < NR_TASKS)%nat -> tasks (fs_sched s) !! current (fs_sched s) = Some me -> tasks (fs_sched s) !! p = Some t ->
  data_base (ts_ldt me) = code_base (ts_ldt me) -> code_limit (ts_ldt me) <= data_limit (ts_ldt me) -> space_of me nr (fs_mm s) ->
  exists r m, copy_mem (Z.of_nat nr) p s = Ok r (put fs_mm m (put_task p (based nr t) s))
  /\ ((r = 0 /\ child_space me nr 0 (fs_mm s) m) \/ (r = - ENOMEM /\ mem_map m = mem_map (fs_mm s) /\ HIGH_MEMORY m = HIGH_MEMORY (fs_mm s))).
Proof.
  intros Hnr Hme Ht Hb Hl Hsp.
  destruct (copy_then_free _ _ _ _ Hsp) as (r & m1 & m2 & E1 & Hf & E2 & HM & HH); [unfold task_base; lia |].
  unfold copy_mem. rewrite (bind_Ok _ _ _ _ _ (current_reads s me Hme)), Hb, Z.eqb_refl. cbn [negb].
  rewrite (proj2 (Z.ltb_ge _ _)) by lia. rewrite task_base_small by lia.
  rewrite (bind_Ok _ _ _ _ _ (upd_task_put p _ s t Ht)). rewrite <- Hb.
  match goal with |- context [put_task p ?u s] => set (s1 := put_task p u s) end.
  assert (E1' : copy_page_tables (data_base (ts_ldt me)) (task_base nr) (data_limit (ts_ldt me)) (fs_mm s1) = Ok r m1) by done.
  rewrite (bind_Ok _ _ _ _ _ (on_mm_ok _ s1 r m1 E1')). destruct (fk_ret _ _ _ _ _ _ _ Hf) as [-> | ->].
  - exists 0, m1. split; [done | by left].
  - exists (- ENOMEM), m2. split; [| by right].
    assert (E2' : free_page_tables (task_base nr) (data_limit (ts_ldt me)) (fs_mm (put fs_mm m1 s1)) = Ok 0 m2) by done.
    cbn [cbool Z.eqb negb]. rewrite (bind_Ok _ _ _ _ _ (on_mm_ok _ _ _ _ E2')). unfold ret, s1. by destruct s.
Qed.

(** ** The new entry of the task table *)

Definition enter (nr : nat) (p : Z) (t : task_struct) (s : fs_state) : fs_state :=
  over fs_sched (fun c => over task <[nr := p]> (over tasks <[p := t]> c)) s.

Section Enter.
Context (nr : nat) (p : Z) (s : fs_state) (me : task_struct).
Hypothesis Hnr : task (fs_sched s) !! nr = Some 0.
Hypothesis Hp : tasks (fs_sched s) !! p = None.
Hypothesis Hme : tasks (fs_sched s) !! current (fs_sched s) = Some me.

Lemma enter_new t : tasks (fs_sched (enter nr p t s)) !! p = Some t.
Proof. apply lookup_insert_eq. Qed.
Lemma enter_current t : tasks (fs_sched (enter nr p t s)) !! current (fs_sched (enter nr p t s)) = Some me.
Proof.
  change (<[p := t]> (tasks (fs_sched s)) !! current (fs_sched s) = Some me).
  rewrite lookup_insert_ne; [done |]. intros E. rewrite E in Hp. by rewrite Hme in Hp.
Qed.
Lemma put_enter t u m : put_task p u (put fs_mm m (enter nr p t s)) = put fs_mm m (enter nr p u s).
Proof. clear Hnr Hp Hme. destruct s as [c]. destruct c. unfold put_task, enter, over. cbn. by rewrite insert_insert_eq. Qed.

(** The entry is made: [task[nr] = p] and [*p = t]. *)
Lemma enter_does t : (nr < length (task (fs_sched s)))%nat ->
  (on_sched (arr_put task (Z.of_nat nr) p) ;;; on_sched (modify (over tasks <[p := t]>))) s = Ok tt (enter nr p t s).
Proof.
  clear Hnr Hp Hme. intros Hl. rewrite (bind_Ok _ _ s tt (over fs_sched (over task <[nr := p]>) s)); [by destruct s as [c]; destruct c |].
  rewrite (on_sched_ok _ s tt (over task <[nr := p]> (fs_sched s))); [done |]. unfold arr_put.
  rewrite (proj2 (Z.leb_le _ _)), (proj2 (Z.ltb_lt _ _)), Nat2Z.id by lia. done.
Qed.

(** And taken back. *)
Lemma leave_does t m : (on_sched (arr_put task (Z.of_nat nr) 0) ;;; on_sched (modify (over tasks (delete p)))) (put fs_mm m (enter nr p t s))
  = Ok tt (put fs_mm m s).
Proof.
  clear Hme. pose proof (lookup_lt_Some _ _ _ Hnr) as Hl. set (s1 := put fs_mm m (enter nr p t s)).
  rewrite (bind_Ok _ _ s1 tt (over fs_sched (over task <[nr := 0]>) s1)).
  - unfold s1. revert Hnr Hp. destruct s as [c]. destruct c. cbn. intros Hnr' Hp'. unfold on_sched, enter, over. cbn.
    rewrite list_insert_insert_eq, (list_insert_id _ _ _ Hnr'), delete_insert_id by done. done.
  - rewrite (on_sched_ok _ s1 tt (over task <[nr := 0]> (fs_sched s1))); [done |]. unfold arr_put.
    change (length (task (fs_sched s1))) with (length (<[nr := p]> (task (fs_sched s)))). rewrite length_insert.
    rewrite (proj2 (Z.leb_le _ _)), (proj2 (Z.ltb_lt _ _)), Nat2Z.id by lia. done.
Qed.
End Enter.

(** ** The system call *)

(** What the kernel keeps true between system calls, as far as a fork by [me] depends
    on it: no task structure is in a free page, the tables [me] points to have the
    entries, the segments are what [copy_mem] supports, and the address space of [me]
    can be copied to every empty entry of the task table. *)
Record fork_ready (k : kproc) (me : task_struct) : Prop := {
  fr_sched : sched_wf (fs_sched (k_fs k));
  fr_pid : 0 <= last_pid k < 2 ^ 31;
  fr_cur : tasks (fs_sched (k_fs k)) !! current (fs_sched (k_fs k)) = Some me;
  fr_free : forall i, mem_map (fs_mm (k_fs k)) !! i = Some 0 -> tasks (fs_sched (k_fs k)) !! page_addr i = None;
  fr_uses : uses_ok me (k_fs k);
  fr_segments : data_base (ts_ldt me) = code_base (ts_ldt me) /\ code_limit (ts_ldt me) <= data_limit (ts_ldt me);
  fr_mm : mm_wf (fs_mm (k_fs k));
  fr_space : forall nr, (1 <= nr < NR_TASKS)%nat -> task (fs_sched (k_fs k)) !! nr = Some 0 -> space_of me nr (fs_mm (k_fs k)) }.

(** The child when it is about to run, field by field: it can run and has a time slice,
    its own number and the parent's as its father's, no signal, alarm or times, segments
    at 64 MB times its slot, the top of its page as kernel stack and the registers of the
    call with 0 as result; everything else is inherited. *)
Definition new_child (me : task_struct) (nr : nat) (p pid now : Z) (r : call_regs) : task_struct :=
  let base := Z.of_nat nr * 0x4000000 in {|
  ts_state := TASK_RUNNING; ts_counter := ts_priority me; ts_priority := ts_priority me;
  ts_signal := 0; ts_sigaction := ts_sigaction me; ts_blocked := ts_blocked me; ts_exit_code := ts_exit_code me;
  ts_start_code := base; ts_end_code := ts_end_code me; ts_end_data := ts_end_data me; ts_brk := ts_brk me;
  ts_start_stack := ts_start_stack me;
  ts_pid := pid; ts_father := ts_pid me; ts_pgrp := ts_pgrp me; ts_session := ts_session me; ts_leader := 0;
  ts_uid := ts_uid me; ts_euid := ts_euid me; ts_suid := ts_suid me;
  ts_gid := ts_gid me; ts_egid := ts_egid me; ts_sgid := ts_sgid me; ts_alarm := 0;
  ts_utime := 0; ts_stime := 0; ts_cutime := 0; ts_cstime := 0; ts_start_time := now; ts_used_math := ts_used_math me;
  ts_tty := ts_tty me; ts_umask := ts_umask me; ts_pwd := ts_pwd me; ts_root := ts_root me; ts_executable := ts_executable me;
  ts_close_on_exec := ts_close_on_exec me; ts_filp := ts_filp me;
  ts_ldt := mk_ldt base (code_limit (ts_ldt me)) base (data_limit (ts_ldt me));
  ts_tss := {| back_link := 0; esp0 := p + 4096; ss0 := 0x10; eip := c_eip r; eflags := c_eflags r; eax := 0;
    ecx := c_ecx r; edx := c_edx r; ebx := c_ebx r; esp := c_esp r; ebp := c_ebp r; esi := c_esi r; edi := c_edi r;
    es := u16 (c_es r); cs := u16 (c_cs r); ss := u16 (c_ss r); ds := u16 (c_ds r); fs := u16 (c_fs r); gs := u16 (c_gs r);
    tss_ldt := 16 * Z.of_nat nr + 40; trace_bitmap := 0x80000000 |} |}.
Lemma new_child_eq me nr p pid now r :
  put ts_state TASK_RUNNING (based nr (child_of me p (Z.of_nat nr) pid now r)) = new_child me nr p pid now r.
Proof.
  assert (El : _LDT (Z.of_nat nr) = 16 * Z.of_nat nr + 40) by (unfold _LDT; rewrite !Z.shiftl_mul_pow2 by lia; lia).
  unfold new_child, child_of. rewrite El, (Z.add_comm 4096 p). unfold based, task_base.
  generalize (16 * Z.of_nat nr + 40) (p + 4096) (Z.of_nat nr * 0x4000000) u16. destruct me. intros. vm_compute. reflexivity.
Qed.
(** The state after a fork. *)
Definition forked_state (me : task_struct) (nr : nat) (p pid : Z) (r : call_regs) (m : mm) (k : kproc) : kproc :=
  mk_kproc (with_users me (put fs_mm m (enter nr p (new_child me nr p pid (jiffies (fs_sched (k_fs k))) r) (k_fs k))))
    pid (<[Z.shiftl (Z.of_nat nr) 1 + 5 := (0x82, p)]> (<[Z.shiftl (Z.of_nat nr) 1 + 4 := (0x89, p)]> (gdt k))).

Lemma on_fs_ok {A} (m : M fs_state A) k a s : m (k_fs k) = Ok a s -> on_fs m k = Ok a (put k_fs s k).
Proof. intros E. unfold on_fs. by rewrite E. Qed.

Lemma page_not_null i : cbool (page_addr i) = true.
Proof. unfold cbool. rewrite (proj2 (Z.eqb_neq _ _)); [done |]. rewrite page_addr_frame. lia. Qed.

(** The first part: the task structure is made. *)
Lemma start_child k me nr p m r :
  task (fs_sched (k_fs k)) !! nr = Some 0 -> tasks (fs_sched (k_fs k)) !! current (fs_sched (k_fs k)) = Some me ->
  on_fs (on_sched (arr_put task (Z.of_nat nr) p) ;;;
    let* me := current_task in
    let* now := get (fun s => jiffies (fs_sched s)) in
    on_sched (modify (over tasks <[p := child_of me p (Z.of_nat nr) (last_pid k) now r]>))) (over k_fs (put fs_mm m) k)
  = Ok tt (over k_fs (fun s => put fs_mm m (enter nr p (child_of me p (Z.of_nat nr) (last_pid k) (jiffies (fs_sched s)) r) s)) k).
Proof.
  intros Hnr Hme. pose proof (lookup_lt_Some _ _ _ Hnr) as Hl. set (s := put fs_mm m (k_fs k)).
  set (t := child_of me p (Z.of_nat nr) (last_pid k) (jiffies (fs_sched (k_fs k))) r).
  pose proof (enter_does nr p s t Hl) as E. rewrite (on_fs_ok _ _ tt (enter nr p t s)); [by destruct k as [[]]; cbn |].
  rewrite <- E. change (k_fs (over k_fs (put fs_mm m) k)) with s.
  assert (E1 : on_sched (arr_put task (Z.of_nat nr) p) s = Ok tt (over fs_sched (over task <[nr := p]>) s)).
  { rewrite (on_sched_ok _ s tt (over task <[nr := p]> (fs_sched s))); [done |]. unfold arr_put.
    rewrite (proj2 (Z.leb_le _ _)), (proj2 (Z.ltb_lt _ _)), Nat2Z.id by (unfold s; cbn; lia). done. }
  rewrite !(bind_Ok _ _ _ _ _ E1). set (s1 := over fs_sched (over task <[nr := p]>) s).
  assert (Hme1 : tasks (fs_sched s1) !! current (fs_sched s1) = Some me) by exact Hme.
  by rewrite (bind_Ok _ _ _ _ _ (current_reads s1 me Hme1)).
Qed.

(** No memory for the child: everything is undone. *)
Lemma undo_child k nr i t m m' c :
  task (fs_sched (k_fs k)) !! nr = Some 0 -> tasks (fs_sched (k_fs k)) !! page_addr i = None ->
  mem_map m !! i = Some c -> 1 <= c < 256 -> page_addr i < HIGH_MEMORY m -> m' = set_mem_map (alter Z.pred i) m ->
  on_fs (on_sched (arr_put task (Z.of_nat nr) 0) ;;; on_sched (modify (over tasks (delete (page_addr i)))) ;;; on_mm (free_page (page_addr i)))
    (over k_fs (fun s => put fs_mm m (enter nr (page_addr i) t s)) k)
  = Ok tt (over k_fs (put fs_mm m') k).
Proof.
  intros Hnr Hp Hi Hc Hh ->. set (k1 := over k_fs _ k).
  rewrite (on_fs_ok _ k1 tt (put fs_mm (set_mem_map (alter Z.pred i) m) (k_fs k))); [by destruct k as [[]] |].
  change (k_fs k1) with (put fs_mm m (enter nr (page_addr i) t (k_fs k))).
  pose proof (leave_does nr (page_addr i) (k_fs k) Hnr Hp t m) as E.
  assert (E2 : on_mm (free_page (page_addr i)) (put fs_mm m (k_fs k)) = Ok tt (put fs_mm (set_mem_map (alter Z.pred i) m) (k_fs k))).
  { assert (Ef : free_page (page_addr i) (fs_mm (put fs_mm m (k_fs k))) = Ok tt (set_mem_map (alter Z.pred i) m)) by (by eapply free_page_ok).
    rewrite (on_mm_ok _ _ _ _ Ef). by destruct (k_fs k). }
  revert E. unfold bind. destruct (on_sched (arr_put task (Z.of_nat nr) 0) _) as [[] s1| | |]; try done. intros ->. exact E2.
Qed.

(** The last part: the child shares what the parent uses, and may run. *)
Lemma finish_child k me nr p t m :
  task (fs_sched (k_fs k)) !! nr = Some 0 -> tasks (fs_sched (k_fs k)) !! p = None ->
  tasks (fs_sched (k_fs k)) !! current (fs_sched (k_fs k)) = Some me -> uses_ok me (k_fs k) -> ts_filp t = ts_filp me ->
  (on_fs (share_files p) ;;;
   set_desc (Z.shiftl (Z.of_nat nr) 1 + 4) 0x89 p ;;;
   set_desc (Z.shiftl (Z.of_nat nr) 1 + 5) 0x82 p ;;;
   on_fs (on_sched (upd_task p (put ts_state TASK_RUNNING))) ;;;
   get last_pid) (over k_fs (fun s => put fs_mm m (enter nr p t s)) k)
  = Ok (last_pid k) (mk_kproc (with_users me (put fs_mm m (enter nr p (put ts_state TASK_RUNNING t) (k_fs k)))) (last_pid k)
      (<[Z.shiftl (Z.of_nat nr) 1 + 5 := (0x82, p)]> (<[Z.shiftl (Z.of_nat nr) 1 + 4 := (0x89, p)]> (gdt k)))).
Proof.
  intros Hnr Hp Hme Hu Hf. set (s1 := put fs_mm m (enter nr p t (k_fs k))).
  assert (Hp1 : tasks (fs_sched s1) !! p = Some t) by apply enter_new.
  assert (Hc1 : tasks (fs_sched s1) !! current (fs_sched s1) = Some me) by (by apply (enter_current nr p (k_fs k) me Hp Hme t)).
  assert (Hu1 : uses_ok me s1) by (by destruct Hu; constructor).
  set (k1 := over k_fs _ k). rewrite (bind_Ok _ _ _ _ _ (on_fs_ok _ k1 _ _ (share_files_ok p t me s1 Hp1 Hc1 Hf Hu1))).
  set (k2 := put k_fs _ k1). set (a := Z.shiftl (Z.of_nat nr) 1 + 4). set (b := Z.shiftl (Z.of_nat nr) 1 + 5).
  rewrite (bind_Ok (set_desc a 0x89 p) _ k2 tt (over gdt <[a := (0x89, p)]> k2) eq_refl).
  rewrite (bind_Ok (set_desc b 0x82 p) _ _ tt (over gdt <[b := (0x82, p)]> (over gdt <[a := (0x89, p)]> k2)) eq_refl).
  set (k3 := over gdt <[b := (0x82, p)]> _). assert (Hp3 : tasks (fs_sched (k_fs k3)) !! p = Some t) by exact Hp1.
  rewrite (bind_Ok _ _ _ _ _ (on_fs_ok _ k3 _ _ (upd_task_put p (put ts_state TASK_RUNNING) (k_fs k3) t Hp3))). unfold get. f_equal.
  change (k_fs k3) with (with_users me s1).
  replace (put_task p (put ts_state TASK_RUNNING t) (with_users me s1)) with (with_users me (put fs_mm m (enter nr p (put ts_state TASK_RUNNING t) (k_fs k)))); [done |].
  rewrite <- (put_enter nr p (k_fs k) t). done.
Qed.

Lemma copy_process_ok k me nr r :
  fork_ready k me -> (1 <= nr < NR_TASKS)%nat -> task (fs_sched (k_fs k)) !! nr = Some 0 ->
  (exists m, copy_process (Z.of_nat nr) r k = Ok (- EAGAIN) (over k_fs (put fs_mm m) k) /\ mem_map m = mem_map (fs_mm (k_fs k)))
  \/ (exists i m1 m, allocated (fs_mm (k_fs k)) (page_addr i) m1 /\ child_space me nr 0 m1 m
      /\ copy_process (Z.of_nat nr) r k = Ok (last_pid k) (forked_state me nr (page_addr i) (last_pid k) r m k)).
Proof.
  intros [W Hpid Hme Hfree Hu (Hb & Hl) Hmm Hsp] Hnr Hslot. specialize (Hsp nr Hnr Hslot). unfold copy_process.
  destruct (get_free_page_cases _ Hmm) as [(E & _)|(p & m1 & E & Hal)].
  { left. exists (fs_mm (k_fs k)). split; [| done]. rewrite (bind_Ok _ _ _ _ _ (on_fs_ok _ k _ _ (on_mm_ok _ _ _ _ E))). by destruct k as [[]]. }
  pose proof Hal as (i & -> & Hi & _ & HM & _ & HH & _). specialize (Hfree i Hi).
  rewrite (bind_Ok _ _ _ _ _ (on_fs_ok _ k _ _ (on_mm_ok _ _ _ _ E))), page_not_null. cbn [negb].
  change (put k_fs (put fs_mm m1 (k_fs k)) k) with (over k_fs (put fs_mm m1) k). set (k0 := over k_fs (put fs_mm m1) k).
  rewrite (bind_Ok (get last_pid) _ k0 (last_pid k) k0 eq_refl).
  rewrite (bind_Ok _ _ _ _ _ (start_child k me nr (page_addr i) m1 r Hslot Hme)).
  set (t := child_of me (page_addr i) (Z.of_nat nr) (last_pid k) (jiffies (fs_sched (k_fs k))) r).
  set (s1 := put fs_mm m1 (enter nr (page_addr i) t (k_fs k))). set (k1 := over k_fs _ k).
  assert (Hp1 : tasks (fs_sched s1) !! page_addr i = Some t) by apply enter_new.
  assert (Hc1 : tasks (fs_sched s1) !! current (fs_sched s1) = Some me) by (by apply (enter_current nr (page_addr i) (k_fs k) me Hfree Hme t)).
  destruct (copy_mem_ok nr (page_addr i) s1 me t Hnr Hc1 Hp1 Hb Hl (fork_pre_alloc _ _ _ _ _ _ Hsp Hal)) as (x & m & Ec & Hx).
  rewrite (bind_Ok _ _ _ _ _ (on_fs_ok _ k1 _ _ Ec)).
  replace (put k_fs (put fs_mm m (put_task (page_addr i) (based nr t) s1)) k1)
    with (over k_fs (fun s => put fs_mm m (enter nr (page_addr i) (based nr t) s)) k).
  2:{ unfold s1. by rewrite put_enter. }
  destruct Hx as [(-> & Hx)|(-> & HM2 & HH2)].
  - right. exists i, m1, m. split_and!; [done | done |].
    unfold forked_state. rewrite <- new_child_eq. by apply (finish_child k me nr (page_addr i) (based nr t)).
  - left. exists (set_mem_map (alter Z.pred i) m). pose proof (lookup_lt_Some _ _ _ Hi) as Hlt.
    assert (Hm : mem_map m !! i = Some 1) by (rewrite HM2; cbn; rewrite HM; by apply list_lookup_insert_eq). split.
    + change (cbool (- ENOMEM)) with true. cbn iota.
      by rewrite (bind_Ok _ _ _ _ _ (undo_child k nr i (based nr t) m _ 1 Hslot Hfree Hm ltac:(lia)
        ltac:(rewrite HH2; cbn; rewrite HH; pose proof (wf_free _ Hmm i Hi); unfold PAGE_SIZE in *; lia) eq_refl)).
    + change (alter Z.pred i (mem_map m) = mem_map (fs_mm (k_fs k))). rewrite HM2. cbn. rewrite HM.
      apply list_eq. intros j. rewrite list_lookup_alter. destruct (decide (i = j)) as [<-|Hj]; [by rewrite list_lookup_insert_eq |].
      by rewrite list_lookup_insert_ne.
Qed.

Lemma find_slot k me : fork_ready k me ->
  exists pid nr, find_empty_process k = Ok nr (put last_pid pid k) /\ 1 <= pid < 2 ^ 31 /\ (pid ∉ pids (fs_sched (k_fs k)))
  /\ (nr = - EAGAIN \/ exists j, nr = Z.of_nat j /\ (1 <= j < NR_TASKS)%nat /\ task (fs_sched (k_fs k)) !! j = Some 0).
Proof.
  intros F. pose proof (fr_sched _ _ F) as W. pose proof (fr_pid _ _ F) as Hp.
  destruct (next_pid_ok (NR_TASKS + 2) k W) as (pid & E & Ht & Hu); [apply some_pid_free; [done | done | lia | done] |].
  destruct (empty_slot_ok (k_fs k) (NR_TASKS - 1) 1 W ltac:(done)) as (nr & E' & Hnr). exists pid, nr.
  split_and!; [| by eapply tried_range | by eapply tried_range | done |].
  - unfold find_empty_process. rewrite (bind_Ok _ _ _ _ _ E). by apply (on_fs_same _ (put last_pid pid k)).
  - destruct Hnr as [(-> & _)|(j & -> & Hj & Hz & _)]; [by left | right; by exists j].
Qed.

Lemma fork_ready_pid k me pid : fork_ready k me -> 1 <= pid < 2 ^ 31 -> fork_ready (put last_pid pid k) me.
Proof. intros [W Hpid Hme Hfree Hu Hs Hmm Hsp] Hp. constructor; try done. change (0 <= pid < 2 ^ 31). lia. Qed.

Lemma with_users_file me s f x : file_table s !! f = Some x -> 0 <= f_count x < 2 ^ 16 ->
  file_table (with_users me s) !! f = Some (put f_count (u16 (f_count x + Z.of_nat (pointers file_of_ptr (ts_filp me) f))) x).
Proof.
  intros Hx Hc. change (file_table (with_users me s)) with (add_users file_of_ptr one_more_file (ts_filp me) (file_table s)).
  rewrite add_users_lookup, Hx. cbn [fmap option_fmap option_map]. by rewrite more_files.
Qed.
Lemma with_users_inode me s n x : inode_table s !! n = Some x -> 0 <= i_count x < 2 ^ 16 ->
  inode_table (with_users me s) !! n = Some (put i_count (u16 (i_count x + Z.of_nat (pointers inode_of_ptr (task_inodes me) n))) x).
Proof.
  intros Hx Hc. change (inode_table (with_users me s)) with (add_users inode_of_ptr one_more_inode (task_inodes me) (inode_table s)).
  rewrite add_users_lookup, Hx. cbn [fmap option_fmap option_map]. by rewrite more_inodes.
Qed.

(** C3: [fork] gives up cleanly or makes a complete child.  Either it returns an error,
    and apart from the process number that was tried nothing has changed: no entry of the
    task table, no count of a file or an inode, no use count of a page, also when memory
    ran out in the middle of copying the page tables.  Or it returns a process number that
    no task had, and in an entry of the task table that was empty there is, in a page that
    was free, a task ready to run: a copy of its parent that has this number, the parent's
    number as its father's, the child's result zero in its registers and segments of its
    own; the page tables of the two share all pages read-only, the child's two descriptors
    are in the descriptor table, and the use count of every file and inode has gone up by
    the number of references to it the child inherited. *)
Theorem fork_correct k me r : fork_ready k me ->
  exists pid, 1 <= pid < 2 ^ 31 /\ (pid ∉ pids (fs_sched (k_fs k))) /\
  ((exists m, sys_fork r k = Ok (- EAGAIN) (put last_pid pid (over k_fs (put fs_mm m) k)) /\ mem_map m = mem_map (fs_mm (k_fs k)))
   \/ exists nr i m1 m k', (1 <= nr < NR_TASKS)%nat /\ task (fs_sched (k_fs k)) !! nr = Some 0
      /\ allocated (fs_mm (k_fs k)) (page_addr i) m1 /\ child_space me nr 0 m1 m
      /\ sys_fork r k = Ok pid k' /\ k' = forked_state me nr (page_addr i) pid r m k
      /\ (forall f x, file_table (k_fs k) !! f = Some x -> 0 <= f_count x < 2 ^ 16 -> file_table (k_fs k') !! f
            = Some (put f_count (u16 (f_count x + Z.of_nat (pointers file_of_ptr (ts_filp me) f))) x))
      /\ (forall n x, inode_table (k_fs k) !! n = Some x -> 0 <= i_count x < 2 ^ 16 -> inode_table (k_fs k') !! n
            = Some (put i_count (u16 (i_count x + Z.of_nat (pointers inode_of_ptr (task_inodes me) n))) x))).
Proof.
  intros F. destruct (find_slot k me F) as (pid & nr & E & Hp & Hu & Hnr). exists pid. split_and!; try done; try lia.
  unfold sys_fork. rewrite (bind_Ok _ _ _ _ _ E). destruct Hnr as [->|(j & -> & Hj & Hz)].
  { left. exists (fs_mm (k_fs k)). split; [by destruct k as [[]] | done]. }
  rewrite (proj2 (Z.ltb_ge _ _)) by lia.
  destruct (copy_process_ok (put last_pid pid k) me j r (fork_ready_pid k me pid F Hp) Hj Hz) as [(m & Ec & Hm)|(i & m1 & m & Hal & Hsp & Ec)].
  - left. by exists m.
  - right. do 5 eexists. split_and!; [apply Hj | apply Hj | done | exact Hal | exact Hsp | exact Ec | done | |].
    + intros f x Hx Hc. by apply with_users_file.
    + intros n x Hx Hc. by apply with_users_inode.
Qed.

(** A machine where task 1 is running, with its memory at 64 MB. *)
Definition demo_task : task_struct :=
  put ts_pid 1 (put ts_ldt (mk_ldt 0x4000000 0x400000 0x4000000 0x400000) (INIT_TASK 2000)).
Definition demo_machine : kproc :=
  mk_kproc (put fs_mm (demo 1) (with_cur demo_task empty_fs)) 1 ∅.

Lemma demo_space nr : (2 <= nr < NR_TASKS)%nat -> space_of demo_task nr (demo 1).
Proof.
  intros Hnr. change (2 <= nr < 64)%nat in Hnr. destruct demo_fork_pre as (H1 & _ & [H2 H3 _ H4 H5 H6 H7] & H8).
  change (dir_of 0x8000000) with 128 in *. unfold space_of, demo_task.
  change (fork_pre (demo 1) 0x4000000 (task_base nr) 0x400000).
  assert (E : Z.land (task_base nr) 0x3fffff = 0 /\ dir_of (task_base nr) = 64 * Z.of_nat nr
    /\ present (rd (demo 1) (64 * Z.of_nat nr)) = false).
  { assert (Hin : nr ∈ seq 2 62) by (apply elem_of_seq; lia). clear -Hin. revert nr Hin. apply Forall_forall. apply (bool_decide_unpack _). vm_compute. exact I. }
  destruct E as (E1 & E2 & E3). split_and!; [done | done | | done]. rewrite E2. constructor; try done.
  - change (dirs_of 0x400000) with 1%nat. intros a ->%in_words_1. done.
  - change (dirs_of 0x400000) with 1%nat. change (dir_of 0x4000000) with 64. lia.
  - change (dirs_of 0x400000) with 1%nat. change (dir_of 0x4000000) with 64. lia.
Qed.

Lemma demo_machine_ready : fork_ready demo_machine demo_task.
Proof.
  assert (W : sched_wf (fs_sched (k_fs demo_machine))).
  { destruct demo_sched_wf as [H1 H2 H3 H4]. constructor; [done | | done | done].
    intros i p Hi Hp. destruct (demo_slots i p Hi Hp) as [(_ & ->)|(_ & ->)]; by eexists. }
  constructor; try done.
  - intros i Hi. change (<[2000 := demo_task]> (tasks demo_sched) !! page_addr i = None).
    rewrite page_addr_frame. cbn [tasks demo_sched]. rewrite !lookup_insert_ne by lia. apply lookup_empty.
  - constructor; [done | |]; apply Forall_forall; intros p Hp k Hk; exfalso; revert Hk.
    + change (ts_filp demo_task) with (replicate NR_OPEN 0) in Hp. by apply elem_of_replicate_inv in Hp as ->.
    + change (task_inodes demo_task) with [0; 0; 0] in Hp. rewrite !elem_of_cons, elem_of_nil in Hp. by destruct Hp as [->|[->|[->|[]]]].
  - apply demo_wf. lia.
  - intros nr Hnr Hz. apply demo_space. destruct (decide (nr = 1%nat)) as [->|]; [| lia]. discriminate Hz.
Qed.

Lemma fork_correct_witness :
  let k := demo_machine in
  let r := mk_call 0 0 0 0x17 0 0 0 0x17 0x17 0x17 0x1000 0xf 0x202 0x8000 0x17 in
  exists pid, 1 <= pid < 2 ^ 31 /\ (pid ∉ pids (fs_sched (k_fs k))) /\
  ((exists m, sys_fork r k = Ok (- EAGAIN) (put last_pid pid (over k_fs (put fs_mm m) k)) /\ mem_map m = mem_map (fs_mm (k_fs k)))
   \/ exists nr i m, sys_fork r k = Ok pid (forked_state demo_task nr (page_addr i) pid r m k)).
Proof.
  intros k r. destruct (fork_correct k demo_task r demo_machine_ready) as (pid & H1 & H2 & H3). exists pid. split_and!; [apply H1 | apply H1 | done |].
  destruct H3 as [H3|(nr & i & m1 & m & k' & _ & _ & _ & _ & E & -> & _)]; [by left | right]. by exists nr, i, m.
Defined.
