(* ===== verification/Tty.v ===== *)
(** Terminals: the queues of characters (include/linux/tty.h), the line discipline, reading
    and writing (kernel/chr_drv/tty_io.c), settings (kernel/chr_drv/tty_ioctl.c,
    include/termios.h, fs/ioctl.c), the drivers behind them ([con_write] and [respond] of
    kernel/chr_drv/console.c, [rs_write] of kernel/chr_drv/serial.c) and the table of
    characters (lib/ctype.c). *)
From stdpp Require Import base list gmap strings.
From Stdlib Require Import ZArith Lia.
From S2P Require Import Prelude Console Memory Sched FsState Buffer Files Process.
Open Scope Z_scope.

(** ** Classes of characters *)

Definition _U : Z := 0x01.
Definition _L : Z := 0x02.
Definition _D : Z := 0x04.
Definition _C : Z := 0x08.
Definition _P : Z := 0x10.
Definition _SPACE : Z := 0x20.
Definition _X : Z := 0x40.
Definition _SP : Z := 0x80.
Definition _ctype : list Z :=
  0 :: replicate 9 _C ++ replicate 5 (Z.lor _C _SPACE) ++ replicate 18 _C
  ++ Z.lor _SPACE _SP :: replicate 15 _P ++ replicate 10 _D ++ replicate 7 _P
  ++ replicate 6 (Z.lor _U _X) ++ replicate 20 _U ++ replicate 6 _P
  ++ replicate 6 (Z.lor _L _X) ++ replicate 20 _L ++ replicate 4 _P ++ [_C] ++ replicate 128 0.

(** [(_ctype+1)[c]]: there is nothing at an index below -1. *)
Definition char_class {S} (c : Z) : M S Z := if c + 1 <? 0 then ub else need (_ctype !! Z.to_nat (c + 1)).
Definition tolower {S} (c : Z) : M S Z :=
  let* k := char_class c in ret (if cbool (Z.land k _U) then c - (65 - 97) else c).
Definition toupper {S} (c : Z) : M S Z :=
  let* k := char_class c in ret (if cbool (Z.land k _L) then c - (97 - 65) else c).

(** ** Queues *)

Definition TTY_BUF_SIZE : Z := 1024.

Record tty_queue := mk_queue { q_data : Z; q_head : Z; q_tail : Z; q_proc_list : Z; q_buf : list Z }.
#[export] Instance tty_queue_fields : Fields tty_queue := fun q =>
  mk_queue (q_data q) (q_head q) (q_tail q) (q_proc_list q) (q_buf q).

Definition INC (a : Z) : Z := Z.land (a + 1) (TTY_BUF_SIZE - 1).
Definition DEC (a : Z) : Z := Z.land (a - 1) (TTY_BUF_SIZE - 1).
Definition EMPTY (q : tty_queue) : bool := q_head q =? q_tail q.
Definition LEFT (q : tty_queue) : Z := Z.land (q_tail q - q_head q - 1) (TTY_BUF_SIZE - 1).
Definition LAST (q : tty_queue) : option Z := q_buf q !! Z.to_nat (Z.land (TTY_BUF_SIZE - 1) (q_head q - 1)).
Definition FULL (q : tty_queue) : bool := LEFT q =? 0.
Definition CHARS (q : tty_queue) : Z := Z.land (q_head q - q_tail q) (TTY_BUF_SIZE - 1).
(** A [char] is signed; [None] is an access outside [buf]. *)
Definition getch (q : tty_queue) : option (Z * tty_queue) :=
  c ← q_buf q !! Z.to_nat (q_tail q); Some (c, over q_tail INC q).
Definition putch (c : Z) (q : tty_queue) : option tty_queue :=
  if q_head q <? Z.of_nat (length (q_buf q)) then Some (over q_head INC (over q_buf <[Z.to_nat (q_head q) := s8 c]> q)) else None.

(** ** Settings *)

(** [t_pad] is what fills up the structure to a multiple of four bytes. *)
Record termios := mk_termios { c_iflag : Z; c_oflag : Z; c_cflag : Z; c_lflag : Z; c_line : Z; c_cc : list Z; t_pad : list Z }.
#[export] Instance termios_fields : Fields termios := fun t =>
  mk_termios (c_iflag t) (c_oflag t) (c_cflag t) (c_lflag t) (c_line t) (c_cc t) (t_pad t).

Definition NCC : nat := 8.
Definition NCCS : nat := 17.
Definition VINTR : nat := 0.
Definition VQUIT : nat := 1.
Definition VERASE : nat := 2.
Definition VKILL : nat := 3.
Definition VEOF : nat := 4.
Definition VTIME : nat := 5.
Definition VMIN : nat := 6.
Definition VSTART : nat := 8.
Definition VSTOP : nat := 9.
Definition INLCR : Z := 0x40.
Definition IGNCR : Z := 0x80.
Definition ICRNL : Z := 0x100.
Definition IUCLC : Z := 0x200.
Definition OPOST : Z := 0x1.
Definition OLCUC : Z := 0x2.
Definition ONLCR : Z := 0x4.
Definition OCRNL : Z := 0x8.
Definition ONLRET : Z := 0x20.
Definition CBAUD : Z := 0xf.
Definition B2400 : Z := 0xb.
Definition CS8 : Z := 0x30.
Definition ISIG : Z := 0x1.
Definition ICANON : Z := 0x2.
Definition ECHO : Z := 0x8.
Definition ECHOCTL : Z := 0x200.
Definition ECHOKE : Z := 0x800.
Definition INIT_C_CC : list Z := [3; 28; 127; 21; 4; 0; 1; 0; 17; 19; 26; 0; 18; 15; 23; 22; 0].

(** ** Terminals *)

(** What [write] points to. *)
Inductive write_ptr := con_write_ptr | rs_write_ptr.

Record tty_struct := mk_tty {
  tty_termios : termios; tty_pgrp : Z; tty_stopped : Z; tty_write_ptr : write_ptr;
  read_q : tty_queue; write_q : tty_queue; secondary : tty_queue }.
#[export] Instance tty_struct_fields : Fields tty_struct := fun t =>
  mk_tty (tty_termios t) (tty_pgrp t) (tty_stopped t) (tty_write_ptr t) (read_q t) (write_q t) (secondary t).

Definition cc (i : nat) (t : tty_struct) : Z := default 0 (c_cc (tty_termios t) !! i).
Definition INTR_CHAR : tty_struct -> Z := cc VINTR.
Definition QUIT_CHAR : tty_struct -> Z := cc VQUIT.
Definition ERASE_CHAR : tty_struct -> Z := cc VERASE.
Definition KILL_CHAR : tty_struct -> Z := cc VKILL.
Definition EOF_CHAR : tty_struct -> Z := cc VEOF.
Definition START_CHAR : tty_struct -> Z := cc VSTART.
Definition STOP_CHAR : tty_struct -> Z := cc VSTOP.

Definition _L_FLAG (t : tty_struct) (f : Z) : bool := cbool (Z.land (c_lflag (tty_termios t)) f).
Definition _I_FLAG (t : tty_struct) (f : Z) : bool := cbool (Z.land (c_iflag (tty_termios t)) f).
Definition _O_FLAG (t : tty_struct) (f : Z) : bool := cbool (Z.land (c_oflag (tty_termios t)) f).

Definition new_queue (data : Z) : tty_queue := mk_queue data 0 0 0 (replicate 1024 0).
Definition serial_tty (port : Z) : tty_struct :=
  mk_tty (mk_termios 0 0 (Z.lor B2400 CS8) 0 0 INIT_C_CC [0; 0]) 0 0 rs_write_ptr (new_queue port) (new_queue port) (new_queue 0).
Definition init_tty_table : list tty_struct :=
  [mk_tty (mk_termios ICRNL (Z.lor OPOST ONLCR) 0 (Z.lor ISIG (Z.lor ICANON (Z.lor ECHO (Z.lor ECHOCTL ECHOKE)))) 0 INIT_C_CC [0; 0])
     0 0 con_write_ptr (new_queue 0) (new_queue 0) (new_queue 0);
   serial_tty 0x3f8; serial_tty 0x2f8].

(** The kernel with its terminals: the file system's state (with the scheduler's), the
    screen, the table of terminals, and [cr_flag] of [tty_write]. *)
Record kterm := mk_kterm { kt_fs : fs_state; kt_con : con; tty_table : list tty_struct; cr_flag : Z }.
#[export] Instance kterm_fields : Fields kterm := fun s => mk_kterm (kt_fs s) (kt_con s) (tty_table s) (cr_flag s).
#[export, refine] Instance kterm_has_sched : HasSched kterm :=
  {| the_sched s := fs_sched (kt_fs s); set_sched x s := over kt_fs (put fs_sched x) s |}.
Proof. done. Defined.

(** What the rest of the system does while the task sleeps and when [schedule] is called,
    what is read from ports, and a bound for loops that may sleep. *)
Class TtyEnv := { tty_asleep : M kterm unit; tty_schedule : M kterm unit; port_in : Z -> Z; tty_patience : nat }.

Definition tty (ch : nat) : M kterm tty_struct := fun s => need (tty_table s !! ch) s.
Definition upd_tty (ch : nat) (f : tty_struct -> tty_struct) : M kterm unit := fun s =>
  match tty_table s !! ch with Some _ => Ok tt (over tty_table (alter f ch) s) | None => Ub end.

Section Queues.
Context (q : tty_struct -> tty_queue) {sq : Setter q} (ch : nat).
Definition GETCH : M kterm Z :=
  let* t := tty ch in
  match getch (q t) with Some (c, q') => upd_tty ch (put q q') ;;; ret c | None => ub end.
Definition PUTCH (c : Z) : M kterm unit :=
  let* t := tty ch in
  match putch c (q t) with Some q' => upd_tty ch (put q q') | None => ub end.
Definition proc_list : var kterm :=
  mk_var (fun s => from_option (fun t => q_proc_list (q t)) 0 (tty_table s !! ch))
         (fun v => over tty_table (alter (over q (put q_proc_list v)) ch)).
End Queues.

(** ** Signals from the keyboard *)

Definition ALRMMASK : Z := _S SIGALRM.
Definition INTMASK : Z := _S SIGINT.
Definition QUITMASK : Z := _S SIGQUIT.

(** The loop over the tasks from [i] on. *)
Fixpoint intr_tasks (n i : nat) (pgrp mask : Z) : M sched unit :=
  match n with
  | O => ret tt
  | S n =>
    let* p := slot i in
    (if cbool p then
       let* t := task_at p in
       if ts_pgrp t =? pgrp then upd_task p (over ts_signal (Z.lor mask)) else ret tt
     else ret tt) ;;;
    intr_tasks n (S i) pgrp mask
  end.
Definition tty_intr (ch : nat) (mask : Z) : M kterm unit :=
  let* t := tty ch in
  if tty_pgrp t <=? 0 then ret tt else on_sched (intr_tasks NR_TASKS 0 (tty_pgrp t) mask).

(** ** The line discipline *)

Section Cook.
(** [tty->write(tty)]. *)
Context (write : nat -> M kterm unit).

(** Takes the last character [c] off the line, on the screen too. *)
Definition rub_out (ch : nat) (c : Z) : M kterm unit :=
  let* t := tty ch in
  (if _L_FLAG t ECHO then
     (if c <? 32 then PUTCH write_q ch 127 else ret tt) ;;;
     PUTCH write_q ch 127 ;;;
     write ch
   else ret tt) ;;;
  upd_tty ch (over secondary (over q_head DEC)).

(** The last character of the line, if it has one. *)
Definition last_of_line (ch : nat) : M kterm (option Z) :=
  let* t := tty ch in
  if EMPTY (secondary t) then ret None else
  let* c := need (LAST (secondary t)) in
  ret (if (c =? 10) || (c =? EOF_CHAR t) then None else Some c).

Fixpoint kill_line (fuel : nat) (ch : nat) : M kterm unit :=
  match fuel with
  | O => ub
  | S fuel =>
    let* o := last_of_line ch in
    match o with None => ret tt | Some c => rub_out ch c ;;; kill_line fuel ch end
  end.
Definition erase_char (ch : nat) : M kterm unit :=
  let* o := last_of_line ch in
  match o with None => ret tt | Some c => rub_out ch c end.

(** CR and NL as the settings say; [None] for a character that is ignored. *)
Definition cr_nl (t : tty_struct) (c : Z) : option Z :=
  if c =? 13 then if _I_FLAG t ICRNL then Some 10 else if _I_FLAG t IGNCR then None else Some c
  else if (c =? 10) && _I_FLAG t INLCR then Some 13 else Some c.

Definition echo_char (ch : nat) (c : Z) : M kterm unit :=
  let* t := tty ch in
  if _L_FLAG t ECHO then
    (if c =? 10 then PUTCH write_q ch 10 ;;; PUTCH write_q ch 13
     else if c <? 32 then
       if _L_FLAG t ECHOCTL then PUTCH write_q ch 94 ;;; PUTCH write_q ch (c + 64) else ret tt
     else PUTCH write_q ch c) ;;;
    write ch
  else ret tt.

Definition cook_char (ch : nat) : M kterm unit :=
  let* c := GETCH read_q ch in
  let* t := tty ch in
  match cr_nl t c with
  | None => ret tt
  | Some c =>
    let* c := (if _I_FLAG t IUCLC then tolower c else ret c) in
    if _L_FLAG t ICANON && (c =? KILL_CHAR t) then kill_line (Z.to_nat TTY_BUF_SIZE) ch
    else if _L_FLAG t ICANON && (c =? ERASE_CHAR t) then erase_char ch
    else if _L_FLAG t ICANON && (c =? STOP_CHAR t) then upd_tty ch (put tty_stopped 1)
    else if _L_FLAG t ICANON && (c =? START_CHAR t) then upd_tty ch (put tty_stopped 0)
    else if _L_FLAG t ISIG && (c =? INTR_CHAR t) then tty_intr ch INTMASK
    else if _L_FLAG t ISIG && (c =? QUIT_CHAR t) then tty_intr ch QUITMASK
    else
      (if (c =? 10) || (c =? EOF_CHAR t) then upd_tty ch (over secondary (over q_data (fun d => u32 (d + 1)))) else ret tt) ;;;
      echo_char ch c ;;;
      PUTCH secondary ch c
  end.

Fixpoint cook_loop (fuel : nat) (ch : nat) : M kterm unit :=
  match fuel with
  | O => ub
  | S fuel =>
    let* t := tty ch in
    if negb (EMPTY (read_q t)) && negb (FULL (secondary t)) then cook_char ch ;;; cook_loop fuel ch else ret tt
  end.
End Cook.

(** ** The drivers *)

Section Drivers.
Context `{TtyEnv}.

Definition RESPONSE : list Z := [27; 91; 63; 49; 59; 50; 99].

(** The terminal's answer to a request of its status; [cook] is [copy_to_cooked]. *)
Definition respond (cook : nat -> M kterm unit) (ch : nat) : M kterm unit :=
  for_each RESPONSE (PUTCH read_q ch) ;;; cook ch.

Fixpoint con_write_loop (cook : nat -> M kterm unit) (nr : nat) (ch : nat) : M kterm unit :=
  match nr with
  | O => ret tt
  | S nr =>
    let* c := GETCH write_q ch in
    let* t := tty ch in
    let* r := zoom kt_con (con_char (port_in 0x61) (ERASE_CHAR t) c) in
    (if r then respond cook ch else ret tt) ;;;
    con_write_loop cook nr ch
  end.
Definition con_write (cook : nat -> M kterm unit) (ch : nat) : M kterm unit :=
  let* t := tty ch in
  con_write_loop cook (Z.to_nat (CHARS (write_q t))) ch ;;;
  zoom kt_con set_cursor.

Definition rs_write (ch : nat) : M kterm unit :=
  let* t := tty ch in
  if EMPTY (write_q t) then ret tt else
  let port := u16 (q_data (write_q t) + 1) in
  on_sched (outb (Z.lor (port_in port) 0x02) port).

(** The serial lines are set to 2400 baud; [rs_init] without the interrupt gates. *)
Definition uart_init (port : Z) : M sched unit :=
  outb 0x80 (port + 3) ;;; outb 0x30 port ;;; outb 0x00 (port + 1) ;;; outb 0x03 (port + 3) ;;; outb 0x0b (port + 4) ;;; outb 0x0d (port + 1).
Definition rs_init : M kterm unit :=
  let* t1 := tty 1 in on_sched (uart_init (s32 (q_data (read_q t1)))) ;;;
  let* t2 := tty 2 in on_sched (uart_init (s32 (q_data (read_q t2)))) ;;;
  on_sched (outb (Z.land (port_in 0x21) 0xE7) 0x21).

Definition tty_driver (cook : nat -> M kterm unit) (ch : nat) : M kterm unit :=
  let* t := tty ch in
  match tty_write_ptr t with con_write_ptr => con_write cook ch | rs_write_ptr => rs_write ch end.

(** [copy_to_cooked] and the drivers call each other; [depth] bounds how often. *)
Fixpoint copy_to_cooked (depth : nat) (ch : nat) : M kterm unit :=
  match depth with
  | O => ub
  | S depth =>
    cook_loop (tty_driver (copy_to_cooked depth)) tty_patience ch ;;;
    wake_up (proc_list secondary ch)
  end.
Definition do_tty_interrupt (depth ch : nat) : M kterm unit := copy_to_cooked depth ch.
Definition driver (depth ch : nat) : M kterm unit := tty_driver (copy_to_cooked depth) ch.
End Drivers.

(** ** Reading and writing *)

Section ReadWrite.
Context `{TtyEnv}.

Definition cur_signal : M kterm Z := let* t := on_sched cur in ret (ts_signal t).
Definition set_alarm (v : Z) : M kterm unit := on_sched (upd_cur (put ts_alarm v)).

(** [cond] says whether to go on sleeping. *)
Fixpoint sleep_while (fuel : nat) (q : tty_struct -> tty_queue) {sq : Setter q} (ch : nat) (cond : tty_queue -> bool) : M kterm unit :=
  match fuel with
  | O => ub
  | S fuel =>
    let* sig := cur_signal in
    let* t := tty ch in
    if negb (cbool sig) && cond (q t) then
      interruptible_sleep_on tty_asleep tty_patience (proc_list q ch) ;;;
      sleep_while fuel q ch cond
    else ret tt
  end.
Definition sleep_if_empty (q : tty_struct -> tty_queue) {sq : Setter q} (ch : nat) : M kterm unit :=
  sleep_while tty_patience q ch EMPTY.
Definition sleep_if_full (q : tty_struct -> tty_queue) {sq : Setter q} (ch : nat) : M kterm unit :=
  let* t := tty ch in
  if negb (FULL (q t)) then ret tt else sleep_while tty_patience q ch (fun q => LEFT q <? 128).

Definition wait_for_keypress : M kterm unit := sleep_if_empty secondary 0.

(** The inner loop of [tty_read], with [nr] bytes to go and [b] bytes stored; the flag
    says that it ended with the end-of-file character. *)
Fixpoint read_chars (fuel : nat) (ch : nat) (buf nr b : Z) : M kterm (bool * Z * Z) :=
  match fuel with
  | O => ub
  | S fuel =>
    let* c := GETCH secondary ch in
    let* t := tty ch in
    (if (c =? EOF_CHAR t) || (c =? 10) then upd_tty ch (over secondary (over q_data (fun d => u32 (d - 1)))) else ret tt) ;;;
    if (c =? EOF_CHAR t) && _L_FLAG t ICANON then ret (true, nr, b) else
    zoom kt_fs (put_fs_bytes (buf + b) [u8 c]) ;;;
    let nr := nr - 1 in
    let b := b + 1 in
    if nr =? 0 then ret (false, nr, b) else
    let* t := tty ch in
    if (0 <? nr) && negb (EMPTY (secondary t)) then read_chars fuel ch buf nr b else ret (false, nr, b)
  end.

Definition alarm_sooner (time oldalarm : Z) : M kterm bool :=
  let* j := get (fun s => jiffies (the_sched s)) in ret (negb (cbool oldalarm) || (time + j <? oldalarm)).
Definition alarm_in (time : Z) : M kterm unit :=
  let* j := get (fun s => jiffies (the_sched s)) in set_alarm (time + j).

(** The outer loop; [inl] is a return from inside it. *)
Fixpoint read_loop (fuel : nat) (ch : nat) (buf time minimum oldalarm : Z) (flag : bool) (nr b : Z) : M kterm (Z + Z) :=
  match fuel with
  | O => ub
  | S fuel =>
    if nr <=? 0 then ret (inr b) else
    let* sig := cur_signal in
    if flag && cbool (Z.land sig ALRMMASK) then
      on_sched (upd_cur (over ts_signal (fun s => Z.land s (Z.lnot ALRMMASK)))) ;;; ret (inr b)
    else if cbool sig then ret (inr b) else
    let* t := tty ch in
    let q := secondary t in
    if EMPTY q || (_L_FLAG t ICANON && (q_data q =? 0) && (20 <? LEFT q)) then
      sleep_if_empty secondary ch ;;;
      read_loop fuel ch buf time minimum oldalarm flag nr b
    else
      let* r := read_chars (Z.to_nat TTY_BUF_SIZE) ch buf nr b in
      let '(eof, nr, b) := r in
      if eof then ret (inl b) else
      let* t := tty ch in
      let* flag :=
        (if cbool time && negb (_L_FLAG t ICANON) then
           let* sooner := alarm_sooner time oldalarm in
           (if sooner then alarm_in time else set_alarm oldalarm) ;;;
           ret sooner
         else ret flag) in
      if (if _L_FLAG t ICANON then cbool b else minimum <=? b) then ret (inr b)
      else read_loop fuel ch buf time minimum oldalarm flag nr b
  end.

Definition tty_read (channel buf nr : Z) : M kterm Z :=
  if (2 <? channel) || (nr <? 0) then ret (-1) else
  let ch := Z.to_nat channel in
  let* me := on_sched cur in
  let oldalarm := ts_alarm me in
  let* t := tty ch in
  let time := 10 * cc VTIME t in
  let minimum := cc VMIN t in
  let* start :=
    (if cbool time && negb (cbool minimum) then
       let* flag := alarm_sooner time oldalarm in
       (if flag then alarm_in time else ret tt) ;;;
       ret (1, flag)
     else ret (minimum, false)) in
  let '(minimum, flag) := start in
  let minimum := if nr <? minimum then nr else minimum in
  let* r := read_loop tty_patience ch buf time minimum oldalarm flag nr 0 in
  match r with
  | inl b => ret b
  | inr b =>
    set_alarm oldalarm ;;;
    let* sig := cur_signal in
    ret (if cbool sig && negb (cbool b) then - EINTR else b)
  end.

(** One turn of the inner loop of [tty_write]; the result says whether a byte of the
    buffer was used. *)
Definition write_char (ch : nat) (c : Z) : M kterm bool :=
  let* t := tty ch in
  let* o :=
    (if _O_FLAG t OPOST then
       let c := if (c =? 13) && _O_FLAG t OCRNL then 10 else if (c =? 10) && _O_FLAG t ONLRET then 13 else c in
       let* flag := get cr_flag in
       if (c =? 10) && negb (cbool flag) && _O_FLAG t ONLCR then ret None else
       if _O_FLAG t OLCUC then let* c := toupper c in ret (Some c) else ret (Some c)
     else ret (Some c)) in
  match o with
  | None => modify (put cr_flag 1) ;;; PUTCH write_q ch 13 ;;; ret false
  | Some c => modify (put cr_flag 0) ;;; PUTCH write_q ch c ;;; ret true
  end.
Fixpoint fill_queue (fuel : nat) (ch : nat) (buf nr b : Z) : M kterm (Z * Z) :=
  match fuel with
  | O => ub
  | S fuel =>
    let* t := tty ch in
    if (0 <? nr) && negb (FULL (write_q t)) then
      let* l := zoom kt_fs (get_fs_bytes (buf + b) 1) in
      let* used := write_char ch (s8 (default 0 (head l))) in
      if used then fill_queue fuel ch buf (nr - 1) (b + 1) else fill_queue fuel ch buf nr b
    else ret (nr, b)
  end.

Fixpoint write_loop (fuel depth : nat) (ch : nat) (buf nr b : Z) : M kterm Z :=
  match fuel with
  | O => ub
  | S fuel =>
    if nr <=? 0 then ret b else
    sleep_if_full write_q ch ;;;
    let* sig := cur_signal in
    if cbool sig then ret b else
    let* (nr, b) := fill_queue (Z.to_nat TTY_BUF_SIZE) ch buf nr b in
    driver depth ch ;;;
    (if 0 <? nr then tty_schedule else ret tt) ;;;
    write_loop fuel depth ch buf nr b
  end.
Definition tty_write (depth : nat) (channel buf nr : Z) : M kterm Z :=
  if (2 <? channel) || (nr <? 0) then ret (-1) else
  write_loop tty_patience depth (Z.to_nat channel) buf nr 0.
End ReadWrite.

(** ** Settings by [ioctl] *)

Definition TCGETS : Z := 0x5401.
Definition TCSETS : Z := 0x5402.
Definition TCSETSW : Z := 0x5403.
Definition TCSETSF : Z := 0x5404.
Definition TCGETA : Z := 0x5405.
Definition TCSETA : Z := 0x5406.
Definition TCSETAW : Z := 0x5407.
Definition TCSETAF : Z := 0x5408.
Definition TCSBRK : Z := 0x5409.
Definition TCFLSH : Z := 0x540B.
Definition TIOCGPGRP : Z := 0x540F.
Definition TIOCSPGRP : Z := 0x5410.
Definition TIOCOUTQ : Z := 0x5411.
Definition TIOCINQ : Z := 0x541B.

Definition quotient : list Z := [0; 2304; 1536; 1047; 857; 768; 576; 384; 192; 96; 64; 48; 24; 12; 6; 3].
Definition change_speed (ch : nat) : M kterm unit :=
  let* t := tty ch in
  let port := u16 (q_data (read_q t)) in
  if port =? 0 then ret tt else
  let* quot := need (quotient !! Z.to_nat (Z.land (c_cflag (tty_termios t)) CBAUD)) in
  on_sched (outb 0x80 (port + 3) ;;; outb (Z.land quot 0xff) port ;;; outb (Z.shiftr quot 8) (port + 1) ;;; outb 0x03 (port + 3)).

Definition flush (q : tty_struct -> tty_queue) {sq : Setter q} (ch : nat) : M kterm unit :=
  upd_tty ch (over q (fun q => put q_head (q_tail q) q)).
Definition wait_until_sent : M kterm unit := ret tt.
Definition send_break : M kterm unit := ret tt.

(** The structures as bytes. *)
Definition termios_bytes (t : termios) : list Z :=
  le 4 (c_iflag t) ++ le 4 (c_oflag t) ++ le 4 (c_cflag t) ++ le 4 (c_lflag t) ++ [c_line t] ++ c_cc t ++ t_pad t.
Definition termios_of (l : list Z) : termios :=
  mk_termios (bytes_at l 0 4) (bytes_at l 4 4) (bytes_at l 8 4) (bytes_at l 12 4) (bytes_at l 16 1) (take NCCS (drop 17 l)) (drop 34 l).

Definition get_termios (ch : nat) (addr : Z) : M kterm Z :=
  zoom kt_fs (verify_area addr 36) ;;;
  let* t := tty ch in
  zoom kt_fs (put_fs_bytes addr (termios_bytes (tty_termios t))) ;;;
  ret 0.
Definition set_termios (ch : nat) (addr : Z) : M kterm Z :=
  let* l := zoom kt_fs (get_fs_bytes addr 36) in
  upd_tty ch (put tty_termios (termios_of l)) ;;;
  change_speed ch ;;;
  ret 0.

(** [pad] is the byte that fills up a [struct termio] on the stack. *)
Definition get_termio (ch : nat) (addr pad : Z) : M kterm Z :=
  zoom kt_fs (verify_area addr 18) ;;;
  let* s := tty ch in
  let t := tty_termios s in
  zoom kt_fs (put_fs_bytes addr
    (le 2 (u16 (c_iflag t)) ++ le 2 (u16 (c_oflag t)) ++ le 2 (u16 (c_cflag t)) ++ le 2 (u16 (c_lflag t)) ++ [c_line t] ++ take NCC (c_cc t) ++ [pad])) ;;;
  ret 0.
Definition low_half (v w : Z) : Z := w / 2 ^ 16 * 2 ^ 16 + v.
Definition set_termio (ch : nat) (addr : Z) : M kterm Z :=
  let* l := zoom kt_fs (get_fs_bytes addr 18) in
  upd_tty ch (over tty_termios (fun t =>
    mk_termios (low_half (bytes_at l 0 2) (c_iflag t)) (low_half (bytes_at l 2 2) (c_oflag t)) (low_half (bytes_at l 4 2) (c_cflag t))
      (low_half (bytes_at l 6 2) (c_lflag t)) (bytes_at l 8 1) (take NCC (drop 9 l) ++ drop NCC (c_cc t)) (t_pad t))) ;;;
  change_speed ch ;;;
  ret 0.

Definition tty_ioctl (pad dev cmd arg : Z) : M kterm Z :=
  let* dev :=
    (if MAJOR dev =? 5 then
       let* me := on_sched cur in
       if ts_tty me <? 0 then panic "tty_ioctl: dev<0" else ret (ts_tty me)
     else ret (MINOR dev)) in
  let ch := Z.to_nat dev in
  let put_long (f : tty_struct -> Z) : M kterm Z :=
    zoom kt_fs (verify_area arg 4) ;;; (let* t := tty ch in zoom kt_fs (put_fs_long (f t) arg)) ;;; ret 0 in
  if cmd =? TCGETS then get_termios ch arg
  else if cmd =? TCSETSF then flush read_q ch ;;; wait_until_sent ;;; set_termios ch arg
  else if cmd =? TCSETSW then wait_until_sent ;;; set_termios ch arg
  else if cmd =? TCSETS then set_termios ch arg
  else if cmd =? TCGETA then get_termio ch arg pad
  else if cmd =? TCSETAF then flush read_q ch ;;; wait_until_sent ;;; set_termio ch arg
  else if cmd =? TCSETAW then wait_until_sent ;;; set_termio ch arg
  else if cmd =? TCSETA then set_termio ch arg
  else if cmd =? TCSBRK then (if arg =? 0 then wait_until_sent ;;; send_break else ret tt) ;;; ret 0
  else if cmd =? TCFLSH then
    if arg =? 0 then flush read_q ch ;;; ret 0
    else if arg =? 1 then flush write_q ch ;;; ret 0
    else if arg =? 2 then flush read_q ch ;;; flush write_q ch ;;; ret 0
    else ret (- EINVAL)
  else if cmd =? TIOCGPGRP then put_long tty_pgrp
  else if cmd =? TIOCSPGRP then
    let* v := zoom kt_fs (get_fs_long arg) in upd_tty ch (put tty_pgrp (s32 v)) ;;; ret 0
  else if cmd =? TIOCOUTQ then put_long (fun t => CHARS (write_q t))
  else if cmd =? TIOCINQ then put_long (fun t => CHARS (secondary t))
  else ret (- EINVAL).

(** fs/ioctl.c: only the major numbers 4 and 5 have an entry in [ioctl_table]. *)
Definition sys_ioctl (pad fd cmd arg : Z) : M kterm Z :=
  let* o := zoom kt_fs (fd_file fd) in
  match o with
  | None => ret (- EBADF)
  | Some f =>
  let* o := zoom kt_fs (fil f_inode f) in
  let* n := need o in
  let* mode := zoom kt_fs (inode i_mode n) in
  if negb (S_ISCHR mode) && negb (S_ISBLK mode) then ret (- EINVAL) else
  let* dev := zoom kt_fs (elem inode_table i_zone n 0) in
  if 8 <=? MAJOR dev then ret (- ENODEV)
  else if (MAJOR dev =? 4) || (MAJOR dev =? 5) then tty_ioctl pad dev cmd arg
  else ret (- ENOTTY)
  end.
