(* ===== verification/TtyQueue.v ===== *)
(** The queues of a terminal (include/linux/tty.h) are queues: a ring of 1024 characters
    stands for the list of at most 1023 characters from its tail to its head. *)
From stdpp Require Import base list gmap strings.
From Stdlib Require Import ZArith Lia.
From S2P Require Import Prelude Bits Console Memory Sched FsState Buffer Files Process Tty.
Open Scope Z_scope.

Record queue_wf (q : tty_queue) : Prop := {
  qw_buf : length (q_buf q) = 1024%nat;
  qw_head : 0 <= q_head q < 1024;
  qw_tail : 0 <= q_tail q < 1024 }.
Arguments qw_buf {_}. Arguments qw_head {_}. Arguments qw_tail {_}.

(** The character [k] places after the tail, and all of them. *)
Definition at_place (q : tty_queue) (k : nat) : Z := default 0 (q_buf q !! Z.to_nat ((q_tail q + Z.of_nat k) mod 1024)).
Definition chars (q : tty_queue) : list Z := map (at_place q) (seq 0 (Z.to_nat (CHARS q))).

Lemma land_1023 a : Z.land a (TTY_BUF_SIZE - 1) = a mod 1024.
Proof. apply (Z.land_ones a 10). lia. Qed.
Lemma CHARS_mod q : CHARS q = (q_head q - q_tail q) mod 1024.
Proof. apply land_1023. Qed.
Lemma CHARS_length q : Z.of_nat (length (chars q)) = CHARS q.
Proof. unfold chars. rewrite length_map, length_seq, Z2Nat.id; [done |]. rewrite CHARS_mod. pose proof (Z.mod_pos_bound (q_head q - q_tail q) 1024). lia. Qed.
Lemma chars_length q : Z.of_nat (length (chars q)) = (q_head q - q_tail q) mod 1024.
Proof. by rewrite CHARS_length, CHARS_mod. Qed.
Lemma chars_lookup q k : (k < length (chars q))%nat -> chars q !! k = Some (at_place q k).
Proof. unfold chars. rewrite length_map, length_seq. intros Hk. by rewrite list_lookup_fmap, lookup_seq_lt. Qed.
(** Two lists of characters are equal when they agree place by place. *)
Lemma chars_is q l : length (chars q) = length l -> (forall k c, l !! k = Some c -> at_place q k = c) -> chars q = l.
Proof.
  intros Hlen Hk. apply list_eq. intros k. destruct (decide (k < length (chars q))%nat) as [Hlt | Hge].
  - destruct (lookup_lt_is_Some_2 l k ltac:(lia)) as (c & E). rewrite chars_lookup, E by done. f_equal. by apply Hk.
  - rewrite !lookup_ge_None_2 by lia. done.
Qed.

(** Cases of the difference of two places in the ring. *)
Lemma ring_diff h t : 0 <= h < 1024 -> 0 <= t < 1024 -> (h - t) mod 1024 = if t <=? h then h - t else h - t + 1024.
Proof.
  intros Hh Ht. destruct (Z.leb_spec t h); [apply Z.mod_small; lia |]. rewrite <- (Z.mod_add _ 1) by lia. apply Z.mod_small. lia.
Qed.
Lemma ring_step a : 0 <= a < 1024 -> (a + 1) mod 1024 = if a =? 1023 then 0 else a + 1.
Proof. intros Ha. destruct (Z.eqb_spec a 1023) as [-> | Hne]; [done |]. apply Z.mod_small. lia. Qed.
Lemma ring_prev a : 0 <= a < 1024 -> (a - 1) mod 1024 = if a =? 0 then 1023 else a - 1.
Proof. intros Ha. destruct (Z.eqb_spec a 0) as [-> | Hne]; [done |]. apply Z.mod_small. lia. Qed.
Lemma ring_place t k : 0 <= t < 1024 -> (k < 1024)%nat -> (t + Z.of_nat k) mod 1024 = if t + Z.of_nat k <? 1024 then t + Z.of_nat k else t + Z.of_nat k - 1024.
Proof.
  intros Ht Hk. destruct (Z.ltb_spec (t + Z.of_nat k) 1024); [apply Z.mod_small; lia |]. rewrite <- (Z.mod_add _ (-1)) by lia. apply Z.mod_small. lia.
Qed.

Section Queue.
Context {q : tty_queue} (W : queue_wf q).

Lemma chars_bound : (length (chars q) < 1024)%nat.
Proof. pose proof (chars_length q). pose proof (Z.mod_pos_bound (q_head q - q_tail q) 1024). lia. Qed.
Lemma EMPTY_chars : EMPTY q = true <-> chars q = [].
Proof.
  pose proof (chars_length q) as L. destruct W as [_ Hh Ht]. rewrite ring_diff in L by done. unfold EMPTY. rewrite Z.eqb_eq.
  split; [intros E; apply nil_length_inv | intros E; rewrite E in L; cbn in L]; destruct (Z.leb_spec (q_tail q) (q_head q)); lia.
Qed.
Lemma LEFT_chars : LEFT q = 1023 - Z.of_nat (length (chars q)).
Proof.
  rewrite chars_length. unfold LEFT. rewrite land_1023. destruct W as [_ Hh Ht].
  replace (q_tail q - q_head q - 1) with (1023 - (q_head q - q_tail q) + (-1) * 1024) by lia. rewrite Z.mod_add by lia.
  rewrite Zminus_mod. rewrite (Z.mod_small 1023) by lia. pose proof (Z.mod_pos_bound (q_head q - q_tail q) 1024). apply Z.mod_small. lia.
Qed.
Lemma FULL_chars : FULL q = true <-> length (chars q) = 1023%nat.
Proof. unfold FULL. rewrite Z.eqb_eq, LEFT_chars. lia. Qed.

Lemma getch_ok c l : chars q = c :: l ->
  getch q = Some (c, over q_tail INC q) /\ queue_wf (over q_tail INC q) /\ chars (over q_tail INC q) = l.
Proof.
  intros E. pose proof (chars_length q) as L. pose proof chars_bound as B. pose proof W as [Hb Hh Ht]. rewrite E in L, B. cbn [length] in L, B.
  assert (Hi : 0 <= INC (q_tail q) < 1024) by (unfold INC; rewrite land_1023; apply Z.mod_pos_bound; lia).
  assert (Hinc : INC (q_tail q) = if q_tail q =? 1023 then 0 else q_tail q + 1) by (unfold INC; rewrite land_1023; by apply ring_step).
  split_and!.
  - unfold getch. pose proof (chars_lookup q 0) as H0. rewrite E in H0. specialize (H0 ltac:(cbn; lia)). injection H0 as H0.
    unfold at_place in H0. rewrite Z.add_0_r, Z.mod_small in H0 by done. destruct (list_lookup_Z (q_buf q) (q_tail q)) as (x & Ex); [lia |].
    rewrite Ex in H0 |- *. cbn in *. by subst x.
  - constructor; [done | done |]. exact Hi.
  - apply chars_is.
    + apply Nat2Z.inj. rewrite chars_length. cbn [q_head q_tail over]. change (q_head (over q_tail INC q)) with (q_head q). change (q_tail (over q_tail INC q)) with (INC (q_tail q)).
      rewrite ring_diff in L |- * by done. rewrite Hinc in *. destruct (Z.eqb_spec (q_tail q) 1023), (Z.leb_spec (q_tail q) (q_head q)); case_match; lia.
    + intros k x Hk. pose proof (chars_lookup q (S k)) as Hs. rewrite E in Hs. cbn [length] in Hs. change ((c :: l) !! S k) with (l !! k) in Hs.
      apply lookup_lt_Some in Hk as Hlt. rewrite Hk in Hs. specialize (Hs ltac:(lia)). injection Hs as ->.
      unfold at_place. cbn [q_buf q_tail over]. change (q_tail (over q_tail INC q)) with (INC (q_tail q)). change (q_buf (over q_tail INC q)) with (q_buf q).
      unfold INC. rewrite land_1023, Zplus_mod_idemp_l. by replace (q_tail q + Z.of_nat (S k)) with (q_tail q + 1 + Z.of_nat k) by lia.
Qed.

Lemma LAST_chars c l : chars q = l ++ [c] -> LAST q = Some c.
Proof.
  intros E. pose proof (chars_length q) as L. pose proof (chars_lookup q (length l)) as Hl. pose proof chars_bound as B. pose proof W as [Hb Hh Ht].
  rewrite E in L, Hl, B. rewrite length_app in L, Hl, B. cbn [length] in L, Hl, B. specialize (Hl ltac:(lia)). rewrite lookup_app_r, Nat.sub_diag in Hl by lia. injection Hl as ->.
  unfold LAST, at_place. rewrite Z.land_comm, land_1023, ring_prev, ring_place by (done || lia). rewrite ring_diff in L by done.
  assert (Ei : (if q_head q =? 0 then 1023 else q_head q - 1) = (if q_tail q + Z.of_nat (length l) <? 1024 then q_tail q + Z.of_nat (length l) else q_tail q + Z.of_nat (length l) - 1024)).
  { destruct (Z.eqb_spec (q_head q) 0), (Z.ltb_spec (q_tail q + Z.of_nat (length l)) 1024), (Z.leb_spec (q_tail q) (q_head q)); lia. }
  rewrite Ei. destruct (list_lookup_Z (q_buf q) (if q_tail q + Z.of_nat (length l) <? 1024 then q_tail q + Z.of_nat (length l) else q_tail q + Z.of_nat (length l) - 1024)) as (x & Ex).
  { destruct (Z.ltb_spec (q_tail q + Z.of_nat (length l)) 1024); lia. }
  by rewrite Ex.
Qed.
Lemma dec_ok c l : chars q = l ++ [c] -> queue_wf (over q_head DEC q) /\ chars (over q_head DEC q) = l.
Proof.
  intros E. pose proof (chars_length q) as L. pose proof chars_bound as B. pose proof W as [Hb Hh Ht].
  rewrite E in L, B. rewrite length_app in L, B. cbn [length] in L, B. rewrite ring_diff in L by done.
  assert (Hd : DEC (q_head q) = if q_head q =? 0 then 1023 else q_head q - 1) by (unfold DEC; rewrite land_1023; by apply ring_prev).
  assert (Hd' : 0 <= DEC (q_head q) < 1024) by (rewrite Hd; destruct (Z.eqb_spec (q_head q) 0); lia).
  split; [constructor; [done | exact Hd' | done] |]. apply chars_is.
  - apply Nat2Z.inj. rewrite chars_length. change (q_head (over q_head DEC q)) with (DEC (q_head q)). change (q_tail (over q_head DEC q)) with (q_tail q).
    rewrite ring_diff by done. rewrite Hd in *. destruct (Z.eqb_spec (q_head q) 0), (Z.leb_spec (q_tail q) (q_head q)); case_match; lia.
  - intros k x Hk. apply lookup_lt_Some in Hk as Hlt. pose proof (chars_lookup q k) as Hs. rewrite E, length_app in Hs. rewrite lookup_app_l, Hk in Hs by done.
    specialize (Hs ltac:(lia)). by injection Hs as ->.
Qed.
Lemma putch_some c : exists q', putch c q = Some q' /\ queue_wf q' /\ q_data q' = q_data q /\ q_proc_list q' = q_proc_list q.
Proof.
  pose proof W as [Hb Hh Ht]. unfold putch. rewrite (proj2 (Z.ltb_lt _ _)) by lia. eexists. split_and!; [reflexivity | | done | done].
  constructor; [cbn; by rewrite length_insert | | done]. cbn. unfold INC. rewrite land_1023. apply Z.mod_pos_bound. lia.
Qed.
Lemma putch_ok c : (length (chars q) < 1023)%nat ->
  exists q', putch c q = Some q' /\ queue_wf q' /\ q_data q' = q_data q /\ q_proc_list q' = q_proc_list q /\ chars q' = chars q ++ [s8 c].
Proof.
  intros Hlt. destruct (putch_some c) as (q' & Ep & W' & D & P). exists q'. split_and!; [done.. |].
  pose proof (chars_length q) as L. pose proof W as [Hb Hh Ht]. rewrite ring_diff in L by done.
  unfold putch in Ep. rewrite (proj2 (Z.ltb_lt _ _)) in Ep by lia. injection Ep as <-.
  assert (Hi : INC (q_head q) = if q_head q =? 1023 then 0 else q_head q + 1) by (unfold INC; rewrite land_1023; by apply ring_step).
  set (q' := over q_head INC _) in *. assert (Hh' : q_head q' = INC (q_head q)) by done. assert (Ht' : q_tail q' = q_tail q) by done.
  apply chars_is.
  - apply Nat2Z.inj. rewrite chars_length, Hh', Ht', length_app. cbn [length]. rewrite ring_diff, Hi by (rewrite ?Hi; destruct (Z.eqb_spec (q_head q) 1023); lia).
    destruct (Z.eqb_spec (q_head q) 1023), (Z.leb_spec (q_tail q) (q_head q)); case_match; lia.
  - intros k x Hk. apply lookup_lt_Some in Hk as Hlk. rewrite length_app in Hlk. cbn in Hlk. unfold at_place. rewrite Ht', ring_place by (done || lia).
    assert (Hbuf : q_buf q' = <[Z.to_nat (q_head q) := s8 c]> (q_buf q)) by done. rewrite Hbuf.
    destruct (decide (k = length (chars q))) as [-> | Hne].
    + rewrite lookup_app_r, Nat.sub_diag in Hk by lia. injection Hk as <-.
      replace (if q_tail q + Z.of_nat (length (chars q)) <? 1024 then q_tail q + Z.of_nat (length (chars q)) else q_tail q + Z.of_nat (length (chars q)) - 1024) with (q_head q)
        by (destruct (Z.ltb_spec (q_tail q + Z.of_nat (length (chars q))) 1024), (Z.leb_spec (q_tail q) (q_head q)); lia).
      rewrite list_lookup_insert_eq by lia. done.
    + rewrite lookup_app_l in Hk by lia. rewrite chars_lookup in Hk by lia. injection Hk as <-. unfold at_place. rewrite ring_place by (done || lia). f_equal.
      rewrite list_lookup_insert_ne; [done |]. destruct (Z.ltb_spec (q_tail q + Z.of_nat k) 1024), (Z.leb_spec (q_tail q) (q_head q)); lia.
Qed.
End Queue.
