(* ===== verification/TtySpec.v ===== *)
(** The line discipline of kernel/chr_drv/tty_io.c is a line editor: what a program can
    read is what was typed, edited line by line. *)
From stdpp Require Import base list gmap strings.
From Stdlib Require Import ZArith Lia.
From S2P Require Import Prelude Bits Console Memory Sched FsState Buffer Files Process Tty TtyQueue.
Open Scope Z_scope.

(** ** The editor *)

Definition lower (c : Z) : Z := if (65 <=? c) && (c <=? 90) then c + 32 else c.
Definition upper (c : Z) : Z := if (97 <=? c) && (c <=? 122) then c - 32 else c.

(** The complete lines, the line that is being typed, whether output is stopped, and the
    signals sent. *)
Record editor := mk_editor { e_done : list Z; e_line : list Z; e_stopped : Z; e_sent : list Z }.
#[export] Instance editor_fields : Fields editor := fun e => mk_editor (e_done e) (e_line e) (e_stopped e) (e_sent e).

Definition delim (t : tty_struct) (c : Z) : bool := (c =? 10) || (c =? EOF_CHAR t).

Definition type_char (t : tty_struct) (e : editor) (c : Z) : editor :=
  let canon := _L_FLAG t ICANON in
  let isig := _L_FLAG t ISIG in
  if canon && (c =? KILL_CHAR t) then put e_line [] e
  else if canon && (c =? ERASE_CHAR t) then over e_line (@removelast Z) e
  else if canon && (c =? STOP_CHAR t) then put e_stopped 1 e
  else if canon && (c =? START_CHAR t) then put e_stopped 0 e
  else if isig && (c =? INTR_CHAR t) then over e_sent (fun l => l ++ [INTMASK]) e
  else if isig && (c =? QUIT_CHAR t) then over e_sent (fun l => l ++ [QUITMASK]) e
  else if delim t c then put e_done (e_done e ++ e_line e ++ [c]) (put e_line [] e)
  else over e_line (fun l => l ++ [c]) e.
(** A key is translated first. *)
Definition key (t : tty_struct) (e : editor) (c : Z) : editor :=
  match cr_nl t c with
  | None => e
  | Some c => type_char t e (if _I_FLAG t IUCLC then lower c else c)
  end.

(** The queue of a terminal holds what was edited. *)
Record holds (t : tty_struct) (q : tty_queue) (e : editor) : Prop := {
  ho_wf : queue_wf q;
  ho_chars : chars q = e_done e ++ e_line e;
  ho_line : Forall (fun c => delim t c = false) (e_line e);
  ho_done : e_done e = [] \/ exists l c, e_done e = l ++ [c] /\ delim t c = true;
  ho_data : q_data q = Z.of_nat (length (filter (fun c => delim t c = true) (e_done e)));
  ho_proc : q_proc_list q = q_proc_list (secondary t) }.

(** ** Signals *)

Definition notified (pgrp mask : Z) (t : task_struct) : task_struct :=
  if ts_pgrp t =? pgrp then over ts_signal (Z.lor mask) t else t.
(** All processes of a group get the signals in [mask]. *)
Definition notify (pgrp mask : Z) (s : sched) : sched :=
  if pgrp <=? 0 then s else
  put tasks (map_imap (fun a t => Some (if decide (a <> 0 /\ a ∈ task s) then notified pgrp mask t else t)) (tasks s)) s.
Definition notify_all (pgrp : Z) (masks : list Z) (s : sched) : sched := fold_left (fun s m => notify pgrp m s) masks s.

Lemma notified_twice pgrp mask t : notified pgrp mask (notified pgrp mask t) = notified pgrp mask t.
Proof.
  unfold notified. destruct (ts_pgrp t =? pgrp) eqn:E; [| by rewrite E]. cbn. rewrite E. unfold over. cbn. by rewrite Z.lor_assoc, Z.lor_diag.
Qed.
Lemma intr_tasks_ok pgrp mask n : forall i s, sched_wf s -> (i + n <= NR_TASKS)%nat ->
  exists s', intr_tasks n i pgrp mask s = Ok tt s' /\ tasks_only s s'
  /\ forall a, tasks s' !! a = if decide (a <> 0 /\ a ∈ take n (drop i (task s))) then notified pgrp mask <$> tasks s !! a else tasks s !! a.
Proof.
  induction n as [|n IH]; intros i s W Hn; cbn [intr_tasks].
  - exists s. split_and!; [done | by exists (tasks s); destruct s |]. intros a. rewrite decide_False; [done |]. intros (_ & H). by apply not_elem_of_nil in H.
  - destruct (sched_slot s i W ltac:(lia)) as (p & Hp). rewrite (bind_Ok _ _ _ _ _ (slot_ok s i p Hp)).
    set (s1 := if p =? 0 then s else over tasks (alter (notified pgrp mask) p) s).
    assert (T1 : tasks_only s s1) by (unfold s1; destruct (p =? 0); [by exists (tasks s); destruct s | by eexists]).
    assert (E1 : (if cbool p then let* t := task_at p in if ts_pgrp t =? pgrp then upd_task p (over ts_signal (Z.lor mask)) else ret tt else ret tt) s = Ok tt s1).
    { unfold s1, cbool. destruct (Z.eqb_spec p 0) as [|Hz]; cbn [negb]; [done |]. destruct (sw_some s W i p Hp Hz) as (t & Ht).
      unfold task_at, bind. rewrite Ht. unfold notified. destruct (ts_pgrp t =? pgrp) eqn:Eg.
      - unfold upd_task. rewrite Ht. f_equal. unfold over. cbn. f_equal. apply map_eq. intros a. rewrite lookup_insert, lookup_alter. case_decide; [subst a |done]. rewrite Ht. cbn. by rewrite Eg.
      - unfold ret. f_equal. destruct s. unfold over. cbn in *. f_equal. apply map_eq. intros a. rewrite lookup_alter. case_decide; [subst a | done]. rewrite Ht. cbn. by rewrite Eg. }
    rewrite (bind_Ok _ _ _ _ _ E1).
    assert (L1 : forall a, tasks s1 !! a = if decide (p <> 0 /\ a = p) then notified pgrp mask <$> tasks s !! a else tasks s !! a).
    { intros a. unfold s1. destruct (Z.eqb_spec p 0); cbn; [by rewrite decide_False by tauto |]. rewrite lookup_alter.
      destruct (decide (p = a)) as [-> |]; [by rewrite decide_True | rewrite decide_False; [done |]; intuition congruence]. }
    assert (HT : task s1 = task s) by (by destruct T1 as (m & ->)).
    destruct (IH (S i) s1) as (s2 & E2 & T2 & L2); [| lia |].
    { eapply tasks_only_wf; [done | | done]. intros a Ha. rewrite L1. destruct (decide (p <> 0 /\ a = p)); [by apply fmap_is_Some | done]. }
    exists s2. split_and!; [done | destruct T1 as (m1 & ->); destruct T2 as (m2 & ->); by exists m2 |].
    intros a. rewrite L2, HT, L1. rewrite (drop_S _ _ _ Hp). cbn [take].
    destruct (decide (p <> 0 /\ a = p)) as [(Hz & ->) | Hne].
    + rewrite (decide_True (P := p <> 0 /\ p ∈ p :: take n (drop (S i) (task s)))) by (split; [done | by left]).
      destruct (decide (p <> 0 /\ p ∈ take n (drop (S i) (task s)))); [| done]. destruct (tasks s !! p) as [t |]; [| done]. change (Some (notified pgrp mask (notified pgrp mask t)) = Some (notified pgrp mask t)). by rewrite notified_twice.
    + destruct (decide (a <> 0 /\ a ∈ take n (drop (S i) (task s)))) as [(Ha & Hin) | Hn'].
      * rewrite decide_True; [done |]. split; [done | by right].
      * rewrite decide_False; [done |]. intros (Ha & [-> | Hin]%elem_of_cons); tauto.
Qed.
Lemma notify_wf pgrp mask s : sched_wf s -> sched_wf (notify pgrp mask s).
Proof.
  intros W. unfold notify. case_match; [done |]. eapply tasks_only_wf; [by eexists | | done]. intros p (t & Ht). cbn. rewrite map_lookup_imap, Ht. by eexists.
Qed.
Lemma intr_tasks_notify pgrp mask s : sched_wf s -> 0 < pgrp -> intr_tasks NR_TASKS 0 pgrp mask s = Ok tt (notify pgrp mask s).
Proof.
  intros W Hp. destruct (intr_tasks_ok pgrp mask NR_TASKS 0 s W ltac:(lia)) as (s' & -> & (m & ->) & L). f_equal. unfold notify.
  rewrite (proj2 (Z.leb_gt _ _) Hp). unfold put. cbn. f_equal. apply map_eq. intros a. specialize (L a). cbn [tasks] in L.
  rewrite map_lookup_imap. change (tasks (put tasks m s)) with m in L. rewrite L, drop_0, take_ge by by rewrite (sw_len s W).
  destruct (tasks s !! a); cbn [option_bind mbind]; by destruct (decide (a <> 0 /\ a ∈ task s)).
Qed.

(** ** Upper and lower case *)

Lemma ctype_ok c : -1 <= c < 128 -> exists k, _ctype !! Z.to_nat (c + 1) = Some k
  /\ cbool (Z.land k _U) = (65 <=? c) && (c <=? 90) /\ cbool (Z.land k _L) = (97 <=? c) && (c <=? 122).
Proof.
  intros Hc. set (ok (i : nat) := match _ctype !! i with
    | Some k => Bool.eqb (cbool (Z.land k _U)) ((65 <=? Z.of_nat i - 1) && (Z.of_nat i - 1 <=? 90))
                && Bool.eqb (cbool (Z.land k _L)) ((97 <=? Z.of_nat i - 1) && (Z.of_nat i - 1 <=? 122))
    | None => false end).
  assert (H : forallb ok (seq 0 129) = true) by (vm_compute; reflexivity).
  rewrite forallb_forall in H. specialize (H (Z.to_nat (c + 1)) ltac:(apply in_seq; lia)). unfold ok in H.
  destruct (_ctype !! Z.to_nat (c + 1)) as [k |]; [| done]. exists k. apply andb_prop in H as (H1 & H2). apply Bool.eqb_prop in H1, H2.
  rewrite Z2Nat.id in H1, H2 by lia. replace (c + 1 - 1) with c in H1, H2 by lia. done.
Qed.
Lemma tolower_ok {S} c (s : S) : -1 <= c < 128 -> tolower c s = Ok (lower c) s.
Proof.
  intros Hc. destruct (ctype_ok c Hc) as (k & E & Hu & _). unfold tolower, char_class. rewrite (proj2 (Z.ltb_ge _ _)) by lia.
  unfold bind. rewrite E. cbn [need ret]. rewrite Hu. unfold ret, lower. by destruct (_ && _).
Qed.
Lemma toupper_ok {S} c (s : S) : -1 <= c < 128 -> toupper c s = Ok (upper c) s.
Proof.
  intros Hc. destruct (ctype_ok c Hc) as (k & E & _ & Hu). unfold toupper, char_class. rewrite (proj2 (Z.ltb_ge _ _)) by lia.
  unfold bind. rewrite E. cbn [need ret]. rewrite Hu. unfold ret, upper. by destruct (_ && _).
Qed.

(** ** Editing *)

Section Editing.
Context (s0 : kterm) (ch : nat) (t0 : tty_struct) (write : nat -> M kterm unit).
Context (okc : Z -> Prop) (dev : con -> Prop).
Hypothesis (Hch : (ch < length (tty_table s0))%nat) (Hw : sched_wf (the_sched s0)).

(** The states of a run: the terminal [t] in place of [t0], the signals sent, and what the
    driver changed. *)
Definition at_tty (sent : list Z) (p : list (Z * Z)) (c : con) (t : tty_struct) : kterm :=
  mk_kterm (over fs_sched (fun s => put ports p (notify_all (tty_pgrp t0) sent s)) (kt_fs s0)) c (<[ch := t]> (tty_table s0)) (cr_flag s0).
Definition with_queues (stopped : Z) (rq wq sq : tty_queue) : tty_struct :=
  mk_tty (tty_termios t0) (tty_pgrp t0) stopped (tty_write_ptr t0) rq wq sq.
Definition st sent p c stopped rq wq sq : kterm := at_tty sent p c (with_queues stopped rq wq sq).

(** The output queue holds characters that the driver takes. *)
Definition out_ok (q : tty_queue) : Prop := queue_wf q /\ Forall okc (chars q).

Hypothesis (Hwrite : forall sent p c stopped rq wq sq, out_ok wq -> dev c ->
  exists p' c' wq', write ch (st sent p c stopped rq wq sq) = Ok tt (st sent p' c' stopped rq wq' sq) /\ out_ok wq' /\ dev c').
Hypothesis (Hokc : okc 127 /\ okc 10 /\ okc 13 /\ okc 94).

Lemma tty_st sent p c t : tty ch (at_tty sent p c t) = Ok t (at_tty sent p c t).
Proof. unfold tty. cbn. by rewrite list_lookup_insert_eq. Qed.
Lemma tty_q sent p c stopped rq wq sq : tty ch (st sent p c stopped rq wq sq) = Ok (with_queues stopped rq wq sq) (st sent p c stopped rq wq sq).
Proof. apply tty_st. Qed.
Lemma upd_st f sent p c t : upd_tty ch f (at_tty sent p c t) = Ok tt (at_tty sent p c (f t)).
Proof.
  unfold upd_tty. cbn [tty_table at_tty]. rewrite list_lookup_insert_eq by done. unfold at_tty, over. cbn. f_equal. f_equal.
  by rewrite (alter_insert _ _ _ t), list_insert_insert_eq by by apply list_lookup_insert_eq.
Qed.
Lemma upd_q f sent p c stopped rq wq sq : upd_tty ch f (st sent p c stopped rq wq sq) = Ok tt (at_tty sent p c (f (with_queues stopped rq wq sq))).
Proof. apply upd_st. Qed.
Lemma putch_out x sent p c stopped rq wq sq : out_ok wq -> okc (s8 x) ->
  exists wq', PUTCH write_q ch x (st sent p c stopped rq wq sq) = Ok tt (st sent p c stopped rq wq' sq) /\ out_ok wq'.
Proof.
  intros (W & F) Hx. assert (exists wq', putch x wq = Some wq' /\ out_ok wq') as (wq' & E & O).
  { destruct (decide (length (chars wq) < 1023)%nat) as [Hlt | Hge].
    - destruct (putch_ok W x Hlt) as (q' & E & W' & _ & _ & Ec). exists q'. split; [done |]. split; [done |]. rewrite Ec. apply Forall_app. by split; [| constructor].
    - pose proof (@chars_bound wq). pose proof (chars_length wq) as L. destruct (putch_some W x) as (q' & E & W' & _). exists q'. split; [done |]. split; [done |].
      assert (chars q' = []) as ->; [| by constructor]. apply (EMPTY_chars W'). unfold putch in E. case_match; [| done]. injection E as <-. unfold EMPTY. cbn.
      unfold INC. rewrite land_1023. apply Z.eqb_eq. pose proof W as [_ Hh Ht]. rewrite ring_diff in L by done. rewrite ring_step by done.
      destruct (Z.leb_spec (q_tail wq) (q_head wq)), (Z.eqb_spec (q_head wq) 1023); lia. }
  exists wq'. split; [| done]. unfold PUTCH. rewrite (bind_Ok _ _ _ _ _ (tty_q _ _ _ _ _ _ _)). cbn [write_q with_queues]. rewrite E. apply upd_st.
Qed.
(** Echo of a rubbed-out character. *)
Lemma rub_out_ok x l sent p c stopped rq wq sq : out_ok wq -> dev c -> queue_wf sq -> chars sq = l ++ [x] ->
  exists p' c' wq', rub_out write ch x (st sent p c stopped rq wq sq) = Ok tt (st sent p' c' stopped rq wq' (over q_head DEC sq))
    /\ out_ok wq' /\ dev c' /\ queue_wf (over q_head DEC sq) /\ chars (over q_head DEC sq) = l.
Proof.
  intros O D W E. destruct (dec_ok W _ _ E) as (W' & E'). destruct Hokc as (O1 & _). assert (Hs : okc (s8 127)) by done.
  unfold rub_out. rewrite (bind_Ok _ _ _ _ _ (tty_q _ _ _ _ _ _ _)).
  assert (exists p' c' wq', (if _L_FLAG (with_queues stopped rq wq sq) ECHO then (if x <? 32 then PUTCH write_q ch 127 else ret tt) ;;; PUTCH write_q ch 127 ;;; write ch else ret tt)
    (st sent p c stopped rq wq sq) = Ok tt (st sent p' c' stopped rq wq' sq) /\ out_ok wq' /\ dev c') as (p' & c' & wq' & E1 & O' & D').
  { destruct (_L_FLAG _ ECHO); [| by exists p, c, wq]. destruct (x <? 32).
    - destruct (putch_out 127 sent p c stopped rq wq sq O Hs) as (w1 & P1 & Q1). destruct (putch_out 127 sent p c stopped rq w1 sq Q1 Hs) as (w2 & P2 & Q2).
      destruct (Hwrite sent p c stopped rq w2 sq Q2 D) as (p' & c' & w3 & P3 & Q3 & D3). exists p', c', w3. split; [| done].
      by rewrite (bind_Ok _ _ _ _ _ P1), (bind_Ok _ _ _ _ _ P2).
    - destruct (putch_out 127 sent p c stopped rq wq sq O Hs) as (w2 & P2 & Q2).
      destruct (Hwrite sent p c stopped rq w2 sq Q2 D) as (p' & c' & w3 & P3 & Q3 & D3). exists p', c', w3. split; [| done].
      change (bind (ret tt) ?k ?s) with (k tt s). cbv beta. by rewrite (bind_Ok _ _ _ _ _ P2). }
  exists p', c', wq'. split; [| done]. rewrite (bind_Ok _ _ _ _ _ E1). apply upd_st.
Qed.

(** The state in which [e] was edited. *)
Definition se (e : editor) p c rq wq sq : kterm := st (e_sent e) p c (e_stopped e) rq wq sq.

Lemma tty_se e p c rq wq sq : tty ch (se e p c rq wq sq) = Ok (with_queues (e_stopped e) rq wq sq) (se e p c rq wq sq).
Proof. apply tty_st. Qed.
Lemma last_of_line_ok e p c rq wq sq : holds t0 sq e -> last_of_line ch (se e p c rq wq sq) = Ok (last (e_line e)) (se e p c rq wq sq).
Proof.
  intros [W Ec Hl Hd _ _]. unfold last_of_line. rewrite (bind_Ok _ _ _ _ _ (tty_se _ _ _ _ _ _)). cbn [secondary with_queues].
  change (EOF_CHAR (with_queues (e_stopped e) rq wq sq)) with (EOF_CHAR t0).
  assert (Hlast : forall l x, chars sq = l ++ [x] -> (if EMPTY sq then ret None else let* c := need (LAST sq) in ret (if (c =? 10) || (c =? EOF_CHAR t0) then None else Some c))
    (se e p c rq wq sq) = Ok (if delim t0 x then None else Some x) (se e p c rq wq sq)).
  { intros l x E. destruct (EMPTY sq) eqn:Ee; [apply (EMPTY_chars W) in Ee; rewrite Ee in E; by destruct l |]. by rewrite (LAST_chars W x l E). }
  destruct (e_line e) as [|x l _] using rev_ind.
  - rewrite app_nil_r in Ec. destruct Hd as [Hd | (l & x & Hd & Hx)].
    + rewrite Hd in Ec. by rewrite (proj2 (EMPTY_chars W) Ec).
    + rewrite Hd in Ec. rewrite (Hlast l x Ec), Hx. done.
  - apply Forall_app in Hl as (_ & Hx). apply Forall_cons in Hx as (Hx & _). rewrite app_assoc in Ec. by rewrite (Hlast _ x Ec), Hx, last_snoc.
Qed.
Lemma holds_shorter sq e l x : holds t0 sq e -> e_line e = l ++ [x] -> queue_wf (over q_head DEC sq) -> chars (over q_head DEC sq) = e_done e ++ l ->
  holds t0 (over q_head DEC sq) (put e_line l e).
Proof. intros [W Ec Hl Hd Hc Hp] E W' E'. constructor; [done | done | | done | done | done]. cbn. rewrite E in Hl. by apply Forall_app in Hl as (? & _). Qed.
Lemma kill_line_ok l : forall fuel e p c rq wq sq, e_line e = l -> holds t0 sq e -> out_ok wq -> dev c -> (length l < fuel)%nat ->
  exists p' c' wq' sq', kill_line write fuel ch (se e p c rq wq sq) = Ok tt (se (put e_line [] e) p' c' rq wq' sq')
    /\ holds t0 sq' (put e_line [] e) /\ out_ok wq' /\ dev c'.
Proof.
  induction l as [|x l IH] using rev_ind; intros fuel e p c rq wq sq El Hh O D Hf; (destruct fuel as [|fuel]; [lia |]); cbn [kill_line].
  - rewrite (bind_Ok _ _ _ _ _ (last_of_line_ok _ _ _ _ _ _ Hh)), El. exists p, c, wq, sq. destruct e. cbn in *. by subst.
  - rewrite (bind_Ok _ _ _ _ _ (last_of_line_ok _ _ _ _ _ _ Hh)), El, last_snoc.
    destruct (rub_out_ok x (e_done e ++ l) (e_sent e) p c (e_stopped e) rq wq sq O D (ho_wf _ _ _ Hh)) as (p' & c' & wq' & E & O' & D' & W' & Ec').
    { rewrite (ho_chars _ _ _ Hh), El. by rewrite app_assoc. }
    rewrite (bind_Ok _ _ _ _ _ E). rewrite length_app in Hf. cbn in Hf.
    destruct (IH fuel (put e_line l e) p' c' rq wq' (over q_head DEC sq)) as (p2 & c2 & w2 & q2 & E2 & H2); [done | by eapply holds_shorter | done | done | lia |].
    by exists p2, c2, w2, q2.
Qed.
Lemma erase_char_ok e p c rq wq sq : holds t0 sq e -> out_ok wq -> dev c ->
  exists p' c' wq' sq', erase_char write ch (se e p c rq wq sq) = Ok tt (se (over e_line (@removelast Z) e) p' c' rq wq' sq')
    /\ holds t0 sq' (over e_line (@removelast Z) e) /\ out_ok wq' /\ dev c'.
Proof.
  intros Hh O D. unfold erase_char. rewrite (bind_Ok _ _ _ _ _ (last_of_line_ok _ _ _ _ _ _ Hh)). destruct (e_line e) as [|x l _] eqn:El using rev_ind.
  - exists p, c, wq, sq. destruct e. cbn in *. by subst.
  - rewrite last_snoc. destruct (rub_out_ok x (e_done e ++ l) (e_sent e) p c (e_stopped e) rq wq sq O D (ho_wf _ _ _ Hh)) as (p' & c' & wq' & E & O' & D' & W' & Ec').
    { rewrite (ho_chars _ _ _ Hh), El. by rewrite app_assoc. }
    exists p', c', wq', (over q_head DEC sq). assert (Ee : over e_line (@removelast Z) e = put e_line l e) by (unfold over, put; cbn; by rewrite El, removelast_last).
    rewrite Ee. split_and!; [exact E | by eapply holds_shorter | done..].
Qed.

(** What may be typed: the translated character can be stored and echoed. *)
Definition fine (c : Z) : Prop := -128 <= c < 128 /\ okc (s8 (if c <? 32 then c + 64 else c)).
Definition may_type (c : Z) : Prop :=
  match cr_nl t0 c with
  | None => True
  | Some c => if _I_FLAG t0 IUCLC then -1 <= c < 128 /\ fine (lower c) else fine c
  end.

Lemma notify_ports pgrp mask p s : notify pgrp mask (put ports p s) = put ports p (notify pgrp mask s).
Proof. unfold notify. by case_match. Qed.
Lemma notify_all_wf pgrp l s : sched_wf s -> sched_wf (notify_all pgrp l s).
Proof. revert s. induction l as [|m l IH]; intros s W; [done |]. apply IH. by apply notify_wf. Qed.
Lemma ports_wf p s : sched_wf s -> sched_wf (put ports p s).
Proof. by intros [H1 H2 H3 H4]. Qed.
Lemma tty_intr_ok m e p c rq wq sq :
  tty_intr ch m (se e p c rq wq sq) = Ok tt (se (over e_sent (fun l => l ++ [m]) e) p c rq wq sq).
Proof.
  unfold tty_intr. rewrite (bind_Ok _ _ _ _ _ (tty_se _ _ _ _ _ _)). cbn [tty_pgrp with_queues]. set (s := se e p c rq wq sq).
  assert (Es : se (over e_sent (fun l => l ++ [m]) e) p c rq wq sq = set_sched (notify (tty_pgrp t0) m (the_sched s)) s).
  { unfold s, se, st, at_tty, set_sched, over. cbn. unfold notify_all. rewrite fold_left_app. cbn [fold_left]. by rewrite notify_ports. }
  rewrite Es. destruct (tty_pgrp t0 <=? 0) eqn:Eg.
  - unfold notify. rewrite Eg. unfold ret. f_equal.
  - unfold on_sched. rewrite intr_tasks_notify; [done | | by apply Z.leb_gt]. unfold s, se, st, at_tty. cbn. by apply ports_wf, notify_all_wf.
Qed.
Lemma echo_char_ok x e p c rq wq sq : out_ok wq -> dev c -> okc (s8 (if x <? 32 then x + 64 else x)) ->
  exists p' c' wq', echo_char write ch x (se e p c rq wq sq) = Ok tt (se e p' c' rq wq' sq) /\ out_ok wq' /\ dev c'.
Proof.
  intros O D Hx. destruct Hokc as (_ & O10 & O13 & O94). unfold echo_char. rewrite (bind_Ok _ _ _ _ _ (tty_se _ _ _ _ _ _)). set (t := with_queues _ _ _ _).
  destruct (_L_FLAG t ECHO); [| by exists p, c, wq].
  assert (exists wq', (if x =? 10 then PUTCH write_q ch 10 ;;; PUTCH write_q ch 13
     else if x <? 32 then if _L_FLAG t ECHOCTL then PUTCH write_q ch 94 ;;; PUTCH write_q ch (x + 64) else ret tt
     else PUTCH write_q ch x) (se e p c rq wq sq) = Ok tt (se e p c rq wq' sq) /\ out_ok wq') as (w1 & E1 & O1).
  { unfold se. destruct (x =? 10); [| destruct (x <? 32); [destruct (_L_FLAG t ECHOCTL) |]].
    - destruct (putch_out 10 (e_sent e) p c (e_stopped e) rq wq sq O O10) as (w1 & P1 & Q1).
      destruct (putch_out 13 (e_sent e) p c (e_stopped e) rq w1 sq Q1 O13) as (w2 & P2 & Q2). exists w2. by rewrite (bind_Ok _ _ _ _ _ P1).
    - destruct (putch_out 94 (e_sent e) p c (e_stopped e) rq wq sq O O94) as (w1 & P1 & Q1).
      destruct (putch_out (x + 64) (e_sent e) p c (e_stopped e) rq w1 sq Q1 Hx) as (w2 & P2 & Q2). exists w2. by rewrite (bind_Ok _ _ _ _ _ P1).
    - by exists wq.
    - destruct (putch_out x (e_sent e) p c (e_stopped e) rq wq sq O Hx) as (w1 & P1 & Q1). by exists w1. }
  rewrite (bind_Ok _ _ _ _ _ E1). destruct (Hwrite (e_sent e) p c (e_stopped e) rq w1 sq O1 D) as (p' & c' & w2 & E2 & H2). by exists p', c', w2.
Qed.
(** An ordinary character goes to the end of the line, or ends it. *)
Lemma store_char_ok x e p c rq wq sq : holds t0 sq e -> out_ok wq -> dev c -> fine x -> (length (chars sq) < 1023)%nat ->
  let e' := if delim t0 x then put e_done (e_done e ++ e_line e ++ [x]) (put e_line [] e) else over e_line (fun l => l ++ [x]) e in
  exists p' c' wq' sq', ((if (x =? 10) || (x =? EOF_CHAR t0) then upd_tty ch (over secondary (over q_data (fun d => u32 (d + 1)))) else ret tt) ;;;
      echo_char write ch x ;;; PUTCH secondary ch x) (se e p c rq wq sq) = Ok tt (se e' p' c' rq wq' sq')
    /\ holds t0 sq' e' /\ out_ok wq' /\ dev c'.
Proof.
  intros Hh O D (Hr & Hx) Hlt e'. change ((x =? 10) || (x =? EOF_CHAR t0)) with (delim t0 x). pose proof Hh as [W Ec Hl Hd Hc Hp].
  set (sq1 := if delim t0 x then over q_data (fun d => u32 (d + 1)) sq else sq).
  assert (E1 : (if delim t0 x then upd_tty ch (over secondary (over q_data (fun d => u32 (d + 1)))) else ret tt) (se e p c rq wq sq) = Ok tt (se e p c rq wq sq1)).
  { unfold sq1. destruct (delim t0 x); [apply upd_st | done]. }
  rewrite (bind_Ok _ _ _ _ _ E1). destruct (echo_char_ok x e p c rq wq sq1 O D Hx) as (p' & c' & w' & E2 & O' & D'). rewrite (bind_Ok _ _ _ _ _ E2).
  assert (W1 : queue_wf sq1 /\ chars sq1 = chars sq) by (unfold sq1; destruct (delim t0 x); [split; [by destruct W | done] | done]). destruct W1 as (W1 & C1).
  destruct (putch_ok W1 x ltac:(by rewrite C1)) as (q' & Ep & W' & Dq & Pq & Cq). exists p', c', w', q'.
  assert (Es : s8 x = x) by (unfold s8; rewrite Z.mod_small; lia). rewrite Es, C1, Ec in Cq. split_and!; [| | done | done].
  - unfold PUTCH. rewrite (bind_Ok _ _ _ _ _ (tty_se _ _ _ _ _ _)). cbn [secondary with_queues]. rewrite Ep.
    replace (se e' p' c' rq w' q') with (se e p' c' rq w' q') by (unfold se, e'; by destruct (delim t0 x)). apply upd_st.
  - unfold e', sq1 in *. destruct (delim t0 x) eqn:Ed; constructor; cbn [e_done e_line put over]; try done.
    + cbn. by rewrite Cq, app_nil_r, <- !app_assoc.
    + right. exists (e_done e ++ e_line e), x. by rewrite app_assoc.
    + rewrite Dq. cbn. rewrite Hc, !filter_app, !length_app, filter_cons_True by done. rewrite (list_filter_none _ (e_line e)).
      * cbn. rewrite u32_small; [lia |]. pose proof (length_filter (fun c => delim t0 c = true) (e_done e)). rewrite Ec, length_app in Hlt. lia.
      * eapply Forall_impl; [exact Hl |]. intros y Hy. cbn in Hy. by rewrite Hy.
    + by rewrite Pq.
    + cbn. by rewrite Cq, <- app_assoc.
    + cbn. apply Forall_app. by split; [| constructor].
    + cbn. by rewrite Dq.
    + by rewrite Pq.
Qed.

Lemma holds_same sq e e' : holds t0 sq e -> e_done e' = e_done e -> e_line e' = e_line e -> holds t0 sq e'.
Proof. intros [H1 H2 H3 H4 H5 H6] E1 E2. constructor; rewrite ?E1, ?E2; done. Qed.
(** One character is one key. *)
Lemma cook_char_ok x inp e p c rq wq sq : queue_wf rq -> chars rq = x :: inp -> holds t0 sq e -> out_ok wq -> dev c -> may_type x ->
  (length (chars sq) < 1023)%nat ->
  exists p' c' rq' wq' sq', cook_char write ch (se e p c rq wq sq) = Ok tt (se (key t0 e x) p' c' rq' wq' sq')
    /\ queue_wf rq' /\ q_proc_list rq' = q_proc_list rq /\ chars rq' = inp /\ holds t0 sq' (key t0 e x) /\ out_ok wq' /\ dev c'.
Proof.
  intros Wr Er Hh O D Hm Hlt. destruct (getch_ok Wr _ _ Er) as (Eg & Wr' & Er'). set (rq' := over q_tail INC rq) in *.
  assert (E0 : GETCH read_q ch (se e p c rq wq sq) = Ok x (se e p c rq' wq sq)).
  { unfold GETCH. rewrite (bind_Ok _ _ _ _ _ (tty_se _ _ _ _ _ _)). cbn [read_q with_queues]. rewrite Eg. unfold se.
    by rewrite (bind_Ok _ _ _ _ _ (upd_q _ _ _ _ _ _ _ _)). }
  unfold cook_char. rewrite (bind_Ok _ _ _ _ _ E0), (bind_Ok _ _ _ _ _ (tty_se _ _ _ _ _ _)).
  set (t := with_queues (e_stopped e) rq' wq sq). change (cr_nl t x) with (cr_nl t0 x). unfold key. unfold may_type in Hm.
  destruct (cr_nl t0 x) as [y |]; [| by exists p, c, rq', wq, sq]. change (_I_FLAG t IUCLC) with (_I_FLAG t0 IUCLC).
  set (z := if _I_FLAG t0 IUCLC then lower y else y).
  assert (Hz : fine z) by (unfold z; destruct (_I_FLAG t0 IUCLC); tauto).
  assert (E1 : (if _I_FLAG t0 IUCLC then tolower y else ret y) (se e p c rq' wq sq) = Ok z (se e p c rq' wq sq)).
  { unfold z. destruct (_I_FLAG t0 IUCLC); [apply tolower_ok; tauto | done]. }
  rewrite (bind_Ok _ _ _ _ _ E1). unfold type_char. change (_L_FLAG t) with (_L_FLAG t0).
  change (KILL_CHAR t) with (KILL_CHAR t0). change (ERASE_CHAR t) with (ERASE_CHAR t0). change (STOP_CHAR t) with (STOP_CHAR t0).
  change (START_CHAR t) with (START_CHAR t0). change (INTR_CHAR t) with (INTR_CHAR t0). change (QUIT_CHAR t) with (QUIT_CHAR t0). change (EOF_CHAR t) with (EOF_CHAR t0).
  destruct (_L_FLAG t0 ICANON && (z =? KILL_CHAR t0)).
  { destruct (kill_line_ok (e_line e) (Z.to_nat TTY_BUF_SIZE) e p c rq' wq sq eq_refl Hh O D) as (p' & c' & w' & q' & E & H').
    - rewrite (ho_chars _ _ _ Hh), length_app in Hlt. change (Z.to_nat TTY_BUF_SIZE) with 1024%nat. lia.
    - by exists p', c', rq', w', q'. }
  destruct (_L_FLAG t0 ICANON && (z =? ERASE_CHAR t0)).
  { destruct (erase_char_ok e p c rq' wq sq Hh O D) as (p' & c' & w' & q' & E & H'). by exists p', c', rq', w', q'. }
  destruct (_L_FLAG t0 ICANON && (z =? STOP_CHAR t0)).
  { exists p, c, rq', wq, sq. split; [apply upd_st |]. split_and!; [done | done | done | by apply (holds_same sq e) | done..]. }
  destruct (_L_FLAG t0 ICANON && (z =? START_CHAR t0)).
  { exists p, c, rq', wq, sq. split; [apply upd_st |]. split_and!; [done | done | done | by apply (holds_same sq e) | done..]. }
  destruct (_L_FLAG t0 ISIG && (z =? INTR_CHAR t0)).
  { exists p, c, rq', wq, sq. split; [apply tty_intr_ok |]. split_and!; [done | done | done | by apply (holds_same sq e) | done..]. }
  destruct (_L_FLAG t0 ISIG && (z =? QUIT_CHAR t0)).
  { exists p, c, rq', wq, sq. split; [apply tty_intr_ok |]. split_and!; [done | done | done | by apply (holds_same sq e) | done..]. }
  destruct (store_char_ok z e p c rq' wq sq Hh O D Hz Hlt) as (p' & c' & w' & q' & E & H'). by exists p', c', rq', w', q'.
Qed.
(** The loop types the characters until the input is empty or the line buffer is full. *)
Lemma cook_loop_ok inp : forall fuel e p c rq wq sq, queue_wf rq -> chars rq = inp -> holds t0 sq e -> out_ok wq -> dev c -> Forall may_type inp ->
  (length inp < fuel)%nat ->
  exists n p' c' rq' wq' sq', let e' := fold_left (key t0) (take n inp) e in
    cook_loop write fuel ch (se e p c rq wq sq) = Ok tt (se e' p' c' rq' wq' sq')
    /\ queue_wf rq' /\ q_proc_list rq' = q_proc_list rq /\ chars rq' = drop n inp /\ holds t0 sq' e' /\ (drop n inp = [] \/ length (chars sq') = 1023%nat) /\ out_ok wq' /\ dev c'.
Proof.
  induction inp as [|x inp IH]; intros fuel e p c rq wq sq Wr Er Hh O D Hm Hf; (destruct fuel as [|fuel]; [lia |]); cbn [cook_loop];
    rewrite (bind_Ok _ _ _ _ _ (tty_se _ _ _ _ _ _)); cbn [read_q secondary with_queues].
  - exists 0%nat, p, c, rq, wq, sq. rewrite (proj2 (EMPTY_chars Wr) Er). cbn. split_and!; try done; apply O || by left.
  - assert (He : EMPTY rq = false) by (destruct (EMPTY rq) eqn:E; [apply (EMPTY_chars Wr) in E; congruence | done]). rewrite He.
    apply Forall_cons in Hm as (Hx & Hm). destruct (FULL sq) eqn:Ef.
    + exists 0%nat, p, c, rq, wq, sq. cbn. split_and!; try done; try apply O. right. by apply (FULL_chars (ho_wf _ _ _ Hh)).
    + assert (Hlt : (length (chars sq) < 1023)%nat).
      { pose proof (@chars_bound sq). destruct (decide (length (chars sq) = 1023%nat)) as [E | ?]; [| lia]. apply (FULL_chars (ho_wf _ _ _ Hh)) in E. congruence. }
      cbn [negb andb]. destruct (cook_char_ok x inp e p c rq wq sq Wr Er Hh O D Hx Hlt) as (p1 & c1 & r1 & w1 & q1 & E1 & W1 & P1 & C1 & H1 & O1 & D1).
      rewrite (bind_Ok _ _ _ _ _ E1). cbn [length] in Hf. destruct (IH fuel (key t0 e x) p1 c1 r1 w1 q1) as (n & p' & c' & r' & w' & q' & E' & H'); [done.. | lia |].
      exists (S n), p', c', r', w', q'. rewrite <- P1. exact (conj E' H').
Qed.
End Editing.
