(* ===== verification/TtyCook.v ===== *)
(** The line discipline with the drivers behind it: the console (kernel/chr_drv/console.c)
    and the serial lines (kernel/chr_drv/serial.c). *)
From stdpp Require Import base list gmap strings.
From Stdlib Require Import ZArith Lia.
From S2P Require Import Prelude Bits Console Terminal Memory Sched FsState Buffer Files Process Tty TtyQueue TtySpec.
Open Scope Z_scope.

(** ** Output in the normal state of the console *)

Ltac stays :=
  repeat first [solve [auto with preserves] | apply preserves_bind | lazymatch goal with |- forall _, _ => intros ? end | case_match].

Section State.
Context (n : Z).
Definition in_state (s : con) : Prop := state s = n.
Lemma stays_modify f : (forall s, state (f s) = state s) -> preserves in_state (modify f).
Proof. intros Hf s a s' Hs [= <- <-]. unfold in_state in *. by rewrite Hf. Qed.
Lemma stays_vset a v : preserves in_state (vset a v).
Proof. intros s x s' Hs. unfold vset. case_match; [| done]. by intros [= <- <-]. Qed.
Lemma stays_vget a : preserves in_state (vget a).
Proof. intros s x s' Hs. unfold vget. case_match; [| done]. by intros [= <- <-]. Qed.
Lemma stays_outb v p : preserves in_state (Console.outb v p).
Proof. by apply stays_modify. Qed.
#[local] Hint Resolve stays_modify stays_vset stays_vget stays_outb : preserves.
Lemma stays_movsl k : forall si di, preserves in_state (movsl k si di).
Proof. induction k as [|k IH]; intros si di; cbn [movsl]; unfold movs; auto 10 with preserves. Qed.
Lemma stays_stosw k : forall di v, preserves in_state (stosw k di v).
Proof. induction k as [|k IH]; intros di v; cbn [stosw]; auto 10 with preserves. Qed.
#[local] Hint Resolve stays_movsl stays_stosw : preserves.
Lemma stays_lf : preserves in_state lf.
Proof.
  unfold lf, scrup, scrup_window, scrup_region, set_origin.
  stays.
Qed.
#[local] Hint Resolve stays_lf : preserves.
Lemma stays_con_normal port61 erase c : c <> 27 -> preserves in_state (con_normal port61 erase c).
Proof.
  intros Hc. unfold con_normal. rewrite (proj2 (Z.eqb_neq _ _) Hc). unfold put_char, wrap_line, cr, del, backspace, tab, sysbeep.
  stays.
Qed.
End State.

Definition calm (c : con) : Prop := con_wf c /\ state c = 0.

Lemma con_char_calm port61 erase x c : calm c -> x <> 27 -> exists c', con_char port61 erase x c = Ok false c' /\ calm c'.
Proof.
  intros (W & S) Hx. destruct (con_normal_refines port61 erase x c _ W (agrees_abs c)) as (c' & E & W' & _). exists c'.
  split; [| split; [done | by apply (stays_con_normal 0 port61 erase x Hx c tt c')]]. unfold con_char, bind, get, id. rewrite S, E. done.
Qed.

(** ** The drivers take what is echoed *)

Section Drivers.
Context `{TtyEnv} (s0 : kterm) (ch : nat) (t0 : tty_struct) (cook : nat -> M kterm unit).
Hypothesis (Hch : (ch < length (tty_table s0))%nat).

Lemma zoom_con {A} (m : M con A) a sent p c c' stopped rq wq sq : m c = Ok a c' ->
  zoom kt_con m (st s0 ch t0 sent p c stopped rq wq sq) = Ok a (st s0 ch t0 sent p c' stopped rq wq sq).
Proof. intros E. unfold zoom. cbn [kt_con st at_tty]. by rewrite E. Qed.
Lemma con_write_loop_ok sent p stopped rq sq l : forall c wq, queue_wf wq -> chars wq = l -> calm c -> Forall (fun x => x <> 27) l ->
  exists c' wq', con_write_loop cook (length l) ch (st s0 ch t0 sent p c stopped rq wq sq) = Ok tt (st s0 ch t0 sent p c' stopped rq wq' sq)
    /\ queue_wf wq' /\ chars wq' = [] /\ calm c' /\ con_chars (port_in 0x61) (ERASE_CHAR t0) l c = Ok tt c'.
Proof.
  induction l as [|x l IH]; intros c wq W Ec Hc Hl; cbn [length con_write_loop con_chars]; [by exists c, wq |].
  apply Forall_cons in Hl as (Hx & Hl). destruct (getch_ok W _ _ Ec) as (Eg & W' & Ec').
  assert (E0 : GETCH write_q ch (st s0 ch t0 sent p c stopped rq wq sq) = Ok x (st s0 ch t0 sent p c stopped rq (over q_tail INC wq) sq)).
  { unfold GETCH. rewrite (bind_Ok _ _ _ _ _ (tty_q s0 ch t0 Hch _ _ _ _ _ _ _)). cbn [write_q with_queues]. rewrite Eg.
    by rewrite (bind_Ok _ _ _ _ _ (upd_q s0 ch t0 Hch _ _ _ _ _ _ _ _)). }
  destruct (con_char_calm (port_in 0x61) (ERASE_CHAR t0) x c Hc Hx) as (c1 & E1 & C1).
  destruct (IH c1 (over q_tail INC wq) W' Ec' C1 Hl) as (c' & wq' & E' & H'). exists c', wq'.
  rewrite (bind_Ok _ _ _ _ _ E0), (bind_Ok _ _ _ _ _ (tty_q s0 ch t0 Hch _ _ _ _ _ _ _)), (bind_Ok _ _ _ _ _ (zoom_con _ _ _ _ _ _ _ _ _ _ E1)).
  split; [exact E' |]. by rewrite (bind_Ok _ _ _ _ _ E1).
Qed.
Lemma set_cursor_ok c : exists c', set_cursor c = Ok tt c' /\ exists ps, c' = set_ports ps c.
Proof. unfold set_cursor. eexists. split; [reflexivity |]. by eexists (fun l => _ :: _ :: _ :: _ :: l). Qed.
Lemma con_write_ok sent p stopped rq sq c wq : queue_wf wq -> calm c -> Forall (fun x => x <> 27) (chars wq) ->
  exists c1 c' wq', con_write cook ch (st s0 ch t0 sent p c stopped rq wq sq) = Ok tt (st s0 ch t0 sent p c' stopped rq wq' sq)
    /\ queue_wf wq' /\ chars wq' = [] /\ calm c' /\ con_chars (port_in 0x61) (ERASE_CHAR t0) (chars wq) c = Ok tt c1 /\ set_cursor c1 = Ok tt c'.
Proof.
  intros W Hc Hl. destruct (con_write_loop_ok sent p stopped rq sq (chars wq) c wq W eq_refl Hc Hl) as (c1 & wq' & E & W' & Ec' & (Hc1 & S1) & Ecc).
  destruct (set_cursor_ok c1) as (c' & E' & ps & ->). exists c1, (set_ports ps c1), wq'. unfold con_write.
  rewrite (bind_Ok _ _ _ _ _ (tty_q s0 ch t0 Hch _ _ _ _ _ _ _)). cbn [write_q with_queues]. rewrite <- CHARS_length, Nat2Z.id, (bind_Ok _ _ _ _ _ E), (zoom_con _ _ _ _ _ _ _ _ _ _ E').
  split_and!; [done | done | done | | done | done]. split; [by apply wf_set_ports | done].
Qed.
Lemma rs_write_ok sent p stopped rq sq c wq : exists p', rs_write ch (st s0 ch t0 sent p c stopped rq wq sq) = Ok tt (st s0 ch t0 sent p' c stopped rq wq sq).
Proof.
  unfold rs_write. rewrite (bind_Ok _ _ _ _ _ (tty_q s0 ch t0 Hch _ _ _ _ _ _ _)). cbn [write_q with_queues]. destruct (EMPTY wq); [by exists p |].
  eexists. unfold on_sched, outb, modify. reflexivity.
Qed.
End Drivers.

(** ** [copy_to_cooked] *)

(** A terminal that is ready for input: its queues are sound, whoever sleeps on it exists,
    and a console is in its normal state with nothing but plain text to be written. *)
Definition driver_char (t : tty_struct) (x : Z) : Prop := match tty_write_ptr t with con_write_ptr => x <> 27 | rs_write_ptr => True end.
Definition driver_dev (t : tty_struct) (c : con) : Prop := match tty_write_ptr t with con_write_ptr => calm c | rs_write_ptr => True end.
Record tty_ready (s : kterm) (t : tty_struct) : Prop := {
  tr_read : queue_wf (read_q t);
  tr_write : out_ok (driver_char t) (write_q t);
  tr_dev : driver_dev t (kt_con s);
  tr_sched : sched_wf (the_sched s);
  tr_proc : q_proc_list (secondary t) = 0 \/ is_Some (tasks (the_sched s) !! q_proc_list (secondary t)) }.

Lemma tty_driver_ok `{TtyEnv} s ch t cook : (ch < length (tty_table s))%nat ->
  forall sent p c stopped rq wq sq, out_ok (driver_char t) wq -> driver_dev t c ->
  exists p' c' wq', tty_driver cook ch (st s ch t sent p c stopped rq wq sq) = Ok tt (st s ch t sent p' c' stopped rq wq' sq)
    /\ out_ok (driver_char t) wq' /\ driver_dev t c'.
Proof.
  intros Hch sent p c stopped rq wq sq (W & F) D. unfold tty_driver. rewrite (bind_Ok _ _ _ _ _ (tty_q s ch t Hch _ _ _ _ _ _ _)). cbn [tty_write_ptr with_queues].
  unfold out_ok, driver_char, driver_dev in *. destruct (tty_write_ptr t).
  - destruct (con_write_ok s ch t cook Hch sent p stopped rq sq c wq W D F) as (_ & c' & wq' & E & W' & Ec & C' & _). exists p, c', wq'. rewrite Ec. by split_and!.
  - destruct (rs_write_ok s ch t Hch sent p stopped rq sq c wq) as (p' & E). by exists p', c, wq.
Qed.
Lemma st_start s ch t : tty_table s !! ch = Some t ->
  s = st s ch t [] (ports (the_sched s)) (kt_con s) (tty_stopped t) (read_q t) (write_q t) (secondary t).
Proof.
  intros Ht. unfold st, at_tty. change (notify_all (tty_pgrp t) []) with (fun s : sched => s). destruct s as [f c tb cf]. cbn in *.
  rewrite list_insert_id by (rewrite Ht; by destruct t). by destruct f as [[] ? ? ? ? ? ? ? ? ? ? ? ? ? ? ? ? ? ?].
Qed.

(** What waking the sleeper on a queue does to the tasks. *)
Definition woken (q : Z) (m : gmap Z task_struct) : gmap Z task_struct := if q =? 0 then m else alter (put ts_state 0) q m.
Lemma notify_all_dom pgrp l s a : is_Some (tasks s !! a) -> is_Some (tasks (notify_all pgrp l s) !! a).
Proof.
  revert s. induction l as [|m l IH]; intros s Ha; [done |]. apply IH. unfold notify. case_match; [done |]. cbn. rewrite map_lookup_imap. destruct Ha as (t & ->). by eexists.
Qed.
Lemma notify_all_slots pgrp l s : task (notify_all pgrp l s) = task s.
Proof. revert s. induction l as [|m l IH]; intros s; [done |]. cbn [notify_all fold_left]. unfold notify_all in IH. rewrite IH. unfold notify. by case_match. Qed.
Lemma insert_is_alter {A} (m : gmap Z A) a f x : m !! a = Some x -> <[a := f x]> m = alter f a m.
Proof. intros E. apply map_eq. intros b. rewrite lookup_insert, lookup_alter. case_decide; [subst b | done]. by rewrite E. Qed.
Lemma wake_up_ok s ch t sent p c stopped rq wq sq : (ch < length (tty_table s))%nat ->
  q_proc_list sq = 0 \/ is_Some (tasks (the_sched s) !! q_proc_list sq) ->
  exists s', wake_up (proc_list secondary ch) (st s ch t sent p c stopped rq wq sq) = Ok tt s'
    /\ tty_table s' = <[ch := with_queues t stopped rq wq (put q_proc_list 0 sq)]> (tty_table s) /\ kt_con s' = c /\ cr_flag s' = cr_flag s
    /\ the_sched s' = put tasks (woken (q_proc_list sq) (tasks (notify_all (tty_pgrp t) sent (the_sched s)))) (put ports p (notify_all (tty_pgrp t) sent (the_sched s))).
Proof.
  intros Hch Hp. set (s1 := st s ch t sent p c stopped rq wq sq).
  assert (Erd : rd_var (proc_list secondary ch) s1 = q_proc_list sq) by (cbn; by rewrite list_lookup_insert_eq).
  unfold wake_up, bind, get. rewrite Erd. unfold cbool, woken. destruct (Z.eqb_spec (q_proc_list sq) 0) as [E0 | Hne]; cbn [negb].
  - exists s1. split_and!; try done.
    unfold s1. cbn. f_equal. unfold with_queues. f_equal. destruct sq. cbn in *. by subst.
  - destruct Hp as [? | Hp]; [done |]. pose proof (notify_all_dom (tty_pgrp t) sent _ _ Hp) as (k & Hk).
    unfold on_sched, set_state_of, upd_task. change (tasks (the_sched s1)) with (tasks (notify_all (tty_pgrp t) sent (the_sched s))). rewrite Hk. eexists. split; [reflexivity |].
    split_and!; [| done | done |].
    + cbn. apply list_eq. intros i. destruct (decide (i = ch)) as [-> | Hi]; [by rewrite list_lookup_alter_eq, !list_lookup_insert_eq | by rewrite list_lookup_alter_ne, !list_lookup_insert_ne].
    + rewrite <- (insert_is_alter _ _ (put ts_state 0) _ Hk). done.
Qed.
Lemma woken_wf q s : sched_wf s -> sched_wf (put tasks (woken q (tasks s)) s).
Proof.
  intros W. eapply tasks_only_wf; [by eexists | | done]. intros a Ha. cbn. unfold woken. case_match; [done |]. rewrite lookup_alter. case_decide; [subst; by apply fmap_is_Some | done].
Qed.

Lemma copy_to_cooked_ok `{TtyEnv} s ch t e depth :
  tty_table s !! ch = Some t -> tty_ready s t -> holds t (secondary t) e -> e_sent e = [] -> e_stopped e = tty_stopped t ->
  Forall (may_type t (driver_char t)) (chars (read_q t)) -> (1024 <= tty_patience)%nat ->
  exists n s' t', let inp := chars (read_q t) in let e' := fold_left (key t) (take n inp) e in
    copy_to_cooked (S depth) ch s = Ok tt s'
    /\ tty_table s' = <[ch := t']> (tty_table s)
    /\ tty_termios t' = tty_termios t /\ tty_pgrp t' = tty_pgrp t /\ tty_write_ptr t' = tty_write_ptr t
    /\ holds t' (secondary t') e' /\ chars (read_q t') = drop n inp
    /\ (drop n inp = [] \/ length (chars (secondary t')) = 1023%nat)
    /\ tty_stopped t' = e_stopped e'
    /\ tasks (the_sched s') = woken (q_proc_list (secondary t)) (tasks (notify_all (tty_pgrp t) (e_sent e') (the_sched s)))
    /\ tty_ready s' t' /\ q_proc_list (read_q t') = q_proc_list (read_q t) /\ q_proc_list (secondary t') = 0 /\ task (the_sched s') = task (the_sched s).
Proof.
  intros Ht R Hh Hs Hst Hm Hpat. assert (Hch : (ch < length (tty_table s))%nat) by by eapply lookup_lt_Some. destruct R as [R1 R2 R3 R4 R5].
  assert (Hokc : driver_char t 127 /\ driver_char t 10 /\ driver_char t 13 /\ driver_char t 94) by (unfold driver_char; by destruct (tty_write_ptr t)).
  pose proof (cook_loop_ok s ch t (tty_driver (copy_to_cooked depth)) (driver_char t) (driver_dev t) Hch R4 (tty_driver_ok s ch t (copy_to_cooked depth) Hch) Hokc
    (chars (read_q t)) tty_patience e (ports (the_sched s)) (kt_con s) (read_q t) (write_q t) (secondary t) R1 eq_refl Hh R2 R3 Hm ltac:(pose proof (@chars_bound (read_q t)); lia))
    as (n & p' & c' & rq' & wq' & sq' & E & Wr & Pr & Er & Hh' & Hfull & O' & D').
  unfold se in E at 1. rewrite Hs, Hst, <- (st_start s ch t Ht) in E. set (e' := fold_left (key t) (take n (chars (read_q t))) e) in *.
  destruct (wake_up_ok s ch t (e_sent e') p' c' (e_stopped e') rq' wq' sq' Hch) as (s' & Ew & Et' & Ec' & _ & Es').
  { rewrite (ho_proc _ _ _ Hh'). exact R5. }
  exists n, s', (with_queues t (e_stopped e') rq' wq' (put q_proc_list 0 sq')). cbv zeta. fold e'. split_and!; try done.
  - cbn [copy_to_cooked]. rewrite (bind_Ok _ _ _ _ _ E). exact Ew.
  - destruct Hh' as [[Q1 Q2 Q3] H2 H3 H4 H5 H6]. by constructor.
  - rewrite Es', <- (ho_proc _ _ _ Hh'). done.
  - constructor; [done | done | by rewrite Ec' | | by left]. rewrite Es'.
    set (x := put ports p' (notify_all (tty_pgrp t) (e_sent e') (the_sched s))). change (sched_wf (put tasks (woken (q_proc_list sq') (tasks x)) x)).
    by apply woken_wf, ports_wf, notify_all_wf.
  - rewrite Es'. cbn. apply notify_all_slots.
Qed.

(** C6: The line discipline. Whatever was typed on a terminal (and is in its read queue)
    when [copy_to_cooked] runs, it ends, and what a program can then read from the secondary
    queue is what a line editor makes of the keys: characters are added to the line, the
    erase and kill characters take the last character or all of the unfinished line away and
    never touch a finished one, CR and NL are translated as set, the stop and start
    characters are kept back, and the interrupt and quit characters become signals to every
    process of the terminal's group and to no other. The counter of finished lines is
    exact, keys are left over only when the queue is full, the task that waited is woken,
    and the settings and the other terminals stay as they are. This holds for a serial line
    and for the console in its normal state. *)
Theorem copy_to_cooked_edits `{TtyEnv} s ch t e depth :
  tty_table s !! ch = Some t -> tty_ready s t -> holds t (secondary t) e -> e_sent e = [] -> e_stopped e = tty_stopped t ->
  Forall (may_type t (driver_char t)) (chars (read_q t)) -> (1024 <= tty_patience)%nat ->
  exists n s' t', let inp := chars (read_q t) in let e' := fold_left (key t) (take n inp) e in
    copy_to_cooked (S depth) ch s = Ok tt s'
    /\ tty_table s' = <[ch := t']> (tty_table s)
    /\ tty_termios t' = tty_termios t /\ tty_pgrp t' = tty_pgrp t /\ tty_write_ptr t' = tty_write_ptr t
    /\ holds t' (secondary t') e' /\ chars (read_q t') = drop n inp
    /\ (drop n inp = [] \/ length (chars (secondary t')) = 1023%nat)
    /\ tty_stopped t' = e_stopped e'
    /\ tasks (the_sched s') = woken (q_proc_list (secondary t)) (tasks (notify_all (tty_pgrp t) (e_sent e') (the_sched s)))
    /\ tty_ready s' t'.
Proof.
  intros Ht R Hh Hs Hst Hm Hpat. destruct (copy_to_cooked_ok s ch t e depth Ht R Hh Hs Hst Hm Hpat) as (n & s' & t' & H1 & H2 & H3 & H4 & H5 & H6 & H7 & H8 & H9 & H10 & H11 & _).
  by exists n, s', t'.
Qed.

(** ** An example *)

Definition quiet : TtyEnv := {| tty_asleep := ret tt; tty_schedule := ret tt; port_in _ := 0; tty_patience := 2000 |}.
(** The queue after [l] was put into an empty one. *)
Definition queue_of (data : Z) (l : list Z) : tty_queue := mk_queue data (Z.of_nat (length l)) 0 0 (l ++ replicate (1024 - length l) 0).
Definition typed_table (l : list Z) : list tty_struct := alter (put read_q (queue_of 0 l)) 0%nat init_tty_table.
Definition demo_term (l : list Z) : kterm := mk_kterm empty_fs demo_con (typed_table l) 0.
Lemma demo_term_sched l : sched_wf (the_sched (demo_term l)).
Proof. pose proof demo_sched_wf as [H1 H2 H3 H4]. by constructor. Qed.

(** [ab], delete, [c], return: [ac] and a new line can be read. *)
Lemma copy_to_cooked_edits_witness : exists s' t', @copy_to_cooked quiet 1 0 (demo_term [97; 98; 127; 99; 13]) = Ok tt s'
  /\ tty_table s' !! 0%nat = Some t' /\ chars (secondary t') = [97; 99; 10] /\ q_data (secondary t') = 1.
Proof.
  set (t := put read_q (queue_of 0 [97; 98; 127; 99; 13]) (mk_tty (mk_termios ICRNL (Z.lor OPOST ONLCR) 0 (Z.lor ISIG (Z.lor ICANON (Z.lor ECHO (Z.lor ECHOCTL ECHOKE)))) 0 INIT_C_CC [0; 0])
     0 0 con_write_ptr (new_queue 0) (new_queue 0) (new_queue 0))).
  assert (Hin : chars (read_q t) = [97; 98; 127; 99; 13]) by (vm_compute; reflexivity).
  destruct (@copy_to_cooked_edits quiet (demo_term [97; 98; 127; 99; 13]) 0%nat t (mk_editor [] [] 0 []) 0%nat) as (n & s' & t' & E & Et & Etm & _ & _ & Hh & _ & Hn & _).
  - reflexivity.
  - constructor; [by constructor | split; [by constructor | by constructor] | exact (conj demo_con_wf eq_refl) | exact (demo_term_sched _) | by left].
  - constructor; [by constructor | reflexivity | by constructor | by left | reflexivity | reflexivity].
  - reflexivity.
  - reflexivity.
  - rewrite Hin. repeat (apply Forall_cons; split; [vm_compute; split; [split; congruence | congruence] |]). by constructor.
  - cbn. lia.
  - exists s', t'. rewrite Hin in Hh, Hn. split; [exact E |]. split; [rewrite Et; reflexivity |].
    pose proof (ho_chars _ _ _ Hh) as Hc. pose proof (ho_data _ _ _ Hh) as Hd.
    unfold delim, EOF_CHAR, cc in Hd. rewrite Etm in Hd.
    do 5 (destruct n as [|n]; [destruct Hn as [Hn | Hn]; [discriminate Hn | exfalso; rewrite Hc in Hn; vm_compute in Hn; discriminate Hn] |]).
    rewrite Hc, Hd. rewrite take_ge by (cbn; lia). split; vm_compute; reflexivity.
Defined.
