(* ===== verification/TtyWrite.v ===== *)
(** Writing to the console through a terminal: [tty_write] of kernel/chr_drv/tty_io.c with
    [con_write] of kernel/chr_drv/console.c shows the text of the program, with the changes
    that the settings of the terminal ask for. *)
From stdpp Require Import base list gmap strings.
From Stdlib Require Import ZArith Lia.
From S2P Require Import Prelude Bits Console Terminal Memory Sched FsState Buffer Files Process Tty TtyQueue TtySpec TtyCook.
Open Scope Z_scope.

(** ** What is to be seen *)

(** The characters that are sent for one of the text. *)
Definition post_char (t : tty_struct) (c : Z) : list Z :=
  if _O_FLAG t OPOST then
    let c := if (c =? 13) && _O_FLAG t OCRNL then 10 else if (c =? 10) && _O_FLAG t ONLRET then 13 else c in
    if (c =? 10) && _O_FLAG t ONLCR then [13; if _O_FLAG t OLCUC then upper c else c]
    else [if _O_FLAG t OLCUC then upper c else c]
  else [c].
Definition post (t : tty_struct) (l : list Z) : list Z := flat_map (post_char t) l.

(** The screen after the characters were written, in whatever portions. *)
Inductive shown (port61 erase : Z) : list Z -> con -> con -> Prop :=
  | shown_chars l c c' : con_chars port61 erase l c = Ok tt c' -> shown port61 erase l c c'
  | shown_cursor c c' : set_cursor c = Ok tt c' -> shown port61 erase [] c c'
  | shown_app l l' c c' c'' : shown port61 erase l c c' -> shown port61 erase l' c' c'' -> shown port61 erase (l ++ l') c c''.

(** The bytes of the program, as characters. *)
Definition text_at (s : kterm) (buf : Z) (n : nat) : list Z := map s8 (load_bytes n buf (umem (kt_fs s))).

(** What is left to be sent when [flag] says that a carriage return went ahead. *)
Definition rest_of (t : tty_struct) (flag : bool) (l : list Z) : list Z := if flag then drop 1 (post t l) else post t l.
(** A carriage return goes ahead of a new line only. *)
Definition flag_ok (t : tty_struct) (flag : bool) (l : list Z) : Prop :=
  flag = true -> exists c l' x, l = c :: l' /\ post_char t c = [13; x].

Lemma load_bytes_S n a m : load_bytes (S n) a m = default 0 (m !! a) :: load_bytes n (a + 1) m.
Proof. done. Qed.

Section Console.
Context `{TtyEnv} (s : kterm) (ch : nat) (t : tty_struct).
Hypothesis (Ht : tty_table s !! ch = Some t).

Lemma Hlen : (ch < length (tty_table s))%nat.
Proof. by eapply lookup_lt_Some. Qed.

(** The states on the way: [cr_flag], the screen and the output queue change. *)
Definition ws (flag : bool) (c : con) (wq : tty_queue) : kterm :=
  st (put cr_flag (bool_to_c flag) s) ch t [] (ports (the_sched s)) c (tty_stopped t) (read_q t) wq (secondary t).
Lemma ws_start flag : cr_flag s = bool_to_c flag -> ws flag (kt_con s) (write_q t) = s.
Proof.
  intros E. unfold ws. assert (Es : put cr_flag (bool_to_c flag) s = s) by (rewrite <- E; by destruct s). rewrite Es. symmetry. by apply st_start.
Qed.
Lemma ws_fs flag c wq : kt_fs (ws flag c wq) = kt_fs s.
Proof. unfold ws, st, at_tty. cbn. change (notify_all (tty_pgrp t) []) with (fun x : sched => x). by destruct s as [[[] ? ? ? ? ? ? ? ? ? ? ? ? ? ? ? ? ? ?] ? ? ?]. Qed.
Lemma tty_ws flag c wq : tty ch (ws flag c wq) = Ok (with_queues t (tty_stopped t) (read_q t) wq (secondary t)) (ws flag c wq).
Proof. apply tty_q, Hlen. Qed.
Lemma putch_ws x flag c wq : queue_wf wq -> (length (chars wq) < 1023)%nat -> s8 x = x ->
  exists wq', PUTCH write_q ch x (ws flag c wq) = Ok tt (ws flag c wq') /\ queue_wf wq' /\ chars wq' = chars wq ++ [x].
Proof.
  intros W Hlt Hx. destruct (putch_ok W x Hlt) as (q' & E & W' & _ & _ & Ec). exists q'. rewrite Hx in Ec. split_and!; [| done | done].
  unfold PUTCH. rewrite (bind_Ok _ _ _ _ _ (tty_ws _ _ _)). cbn [write_q with_queues]. rewrite E. apply upd_q, Hlen.
Qed.

(** Characters that can be written: they are kept apart from escape sequences, and the
    table of upper-case letters has them. *)
Definition plain (c : Z) : Prop := -128 <= c < 128 /\ c <> 27 /\ (_O_FLAG t OLCUC = true -> -1 <= c).

Lemma s8_id x : -128 <= x < 128 -> s8 x = x.
Proof. intros Hx. unfold s8. rewrite Z.mod_small; lia. Qed.
Lemma upper_range x : -128 <= x < 128 -> x <> 27 -> -128 <= upper x < 128 /\ upper x <> 27.
Proof. unfold upper. destruct (Z.leb_spec 97 x), (Z.leb_spec x 122); cbn; lia. Qed.
Lemma post_char_plain c : plain c -> Forall (fun x => -128 <= x < 128 /\ x <> 27) (post_char t c).
Proof.
  intros (Hr & Hn & _). unfold post_char. destruct (_O_FLAG t OPOST); [| by apply Forall_singleton].
  set (d := if (c =? 13) && _O_FLAG t OCRNL then 10 else if (c =? 10) && _O_FLAG t ONLRET then 13 else c).
  assert (Hd : -128 <= d < 128 /\ d <> 27) by (unfold d; repeat case_match; lia). pose proof (upper_range d (proj1 Hd) (proj2 Hd)).
  repeat case_match; repeat apply Forall_cons_2; (apply Forall_nil_2 || lia).
Qed.

(** One turn of the inner loop sends the next character. *)
Lemma write_char_ok c0 l flag c wq : queue_wf wq -> (length (chars wq) < 1023)%nat -> plain c0 -> flag_ok t flag (c0 :: l) ->
  exists used x wq', write_char ch c0 (ws flag c wq) = Ok used (ws (negb used) c wq') /\ queue_wf wq' /\ chars wq' = chars wq ++ [x]
    /\ flag_ok t (negb used) (if used then l else c0 :: l)
    /\ rest_of t flag (c0 :: l) = x :: rest_of t (negb used) (if used then l else c0 :: l).
Proof.
  intros W Hlt (Hr & Hn & Hu) Hf. unfold write_char. rewrite (bind_Ok _ _ _ _ _ (tty_ws _ _ _)). set (t' := with_queues t _ _ _ _).
  change (_O_FLAG t') with (_O_FLAG t).
  set (d := if (c0 =? 13) && _O_FLAG t OCRNL then 10 else if (c0 =? 10) && _O_FLAG t ONLRET then 13 else c0).
  assert (Hd : -128 <= d < 128 /\ d <> 27) by (unfold d; repeat case_match; lia). pose proof (upper_range d (proj1 Hd) (proj2 Hd)) as Hud.
  assert (Hdu : _O_FLAG t OLCUC = true -> -1 <= d) by (intros Ho; specialize (Hu Ho); unfold d; repeat case_match; lia).
  set (y := if _O_FLAG t OLCUC then upper d else d).
  assert (Ey : s8 y = y) by (apply s8_id; unfold y; case_match; lia).
  set (z := if _O_FLAG t OPOST then y else c0). assert (Ez : s8 z = z) by (unfold z; case_match; [done | by apply s8_id]).
  set (ahead := _O_FLAG t OPOST && ((d =? 10) && negb flag && _O_FLAG t ONLCR)).
  assert (Eo : (if _O_FLAG t OPOST then let* f := get cr_flag in
       if (d =? 10) && negb (cbool f) && _O_FLAG t ONLCR then ret None else
       if _O_FLAG t OLCUC then let* c := toupper d in ret (Some c) else ret (Some d)
     else ret (Some c0)) (ws flag c wq) = Ok (if ahead then None else Some z) (ws flag c wq)).
  { unfold ahead, z, y. destruct (_O_FLAG t OPOST); [| done]. unfold bind, get. change (cr_flag (ws flag c wq)) with (bool_to_c flag). cbn [andb].
    replace (negb (cbool (bool_to_c flag))) with (negb flag) by by destruct flag. destruct ((d =? 10) && negb flag && _O_FLAG t ONLCR); [done |].
    destruct (_O_FLAG t OLCUC); [| done]. rewrite toupper_ok; [done |]. specialize (Hdu eq_refl). lia. }
  rewrite (bind_Ok _ _ _ _ _ Eo). clear Eo.
  assert (Epc : post_char t c0 = if _O_FLAG t OPOST && ((d =? 10) && _O_FLAG t ONLCR) then [13; z] else [z]).
  { unfold post_char. fold d. fold y. unfold z. destruct (_O_FLAG t OPOST); [| done]. cbn [andb]. by destruct ((d =? 10) && _O_FLAG t ONLCR). }
  destruct ahead eqn:Ea; unfold ahead in Ea.
  - destruct (_O_FLAG t OPOST), (d =? 10), flag, (_O_FLAG t ONLCR); try done. cbn [andb] in Epc.
    destruct (putch_ws 13 true c wq W Hlt eq_refl) as (wq' & E & W' & Ec). exists false, 13, wq'. split_and!; [| done | done | |].
    + change (bind (modify (put cr_flag 1)) ?k (ws false c wq)) with (k tt (ws true c wq)). cbv beta. by rewrite (bind_Ok _ _ _ _ _ E).
    + intros _. by exists c0, l, z.
    + cbn [negb]. unfold rest_of, post. cbn [flat_map]. by rewrite Epc.
  - destruct (putch_ws z false c wq W Hlt Ez) as (wq' & E & W' & Ec). exists true, z, wq'. split_and!; [| done | done | done |].
    + change (bind (modify (put cr_flag 0)) ?k (ws flag c wq)) with (k tt (ws false c wq)). cbv beta. by rewrite (bind_Ok _ _ _ _ _ E).
    + cbn [negb]. unfold rest_of, post. cbn [flat_map]. destruct flag.
      * destruct (Hf eq_refl) as (? & ? & x & [= <- <-] & Hx). rewrite Hx in Epc |- *. destruct (_O_FLAG t OPOST && ((d =? 10) && _O_FLAG t ONLCR)); [| done]. injection Epc as ->. done.
      * rewrite Epc. destruct (_O_FLAG t OPOST), (d =? 10), (_O_FLAG t ONLCR); done.
Qed.

Lemma text_at_S buf n : text_at s buf (S n) = s8 (default 0 (umem (kt_fs s) !! buf)) :: text_at s (buf + 1) n.
Proof. done. Qed.
Lemma fill_queue_ok buf : forall fuel (nr : nat) b flag c wq, queue_wf wq -> flag_ok t flag (text_at s (buf + b) nr) -> Forall plain (text_at s (buf + b) nr) ->
  (1023 - length (chars wq) < fuel)%nat ->
  exists k flag' wq' o, fill_queue fuel ch buf (Z.of_nat nr) b (ws flag c wq) = Ok (Z.of_nat (nr - k), b + Z.of_nat k) (ws flag' c wq')
    /\ (k <= nr)%nat /\ queue_wf wq' /\ flag_ok t flag' (text_at s (buf + b + Z.of_nat k) (nr - k))
    /\ (k = nr \/ length (chars wq') = 1023%nat) /\ chars wq' = chars wq ++ o
    /\ o ++ rest_of t flag' (text_at s (buf + b + Z.of_nat k) (nr - k)) = rest_of t flag (text_at s (buf + b) nr).
Proof.
  induction fuel as [|fuel IH]; intros nr b flag c wq W Hf Hp Hfuel; [lia |]. cbn [fill_queue].
  rewrite (bind_Ok _ _ _ _ _ (tty_ws _ _ _)). cbn [write_q with_queues].
  assert (Hstop : nr = 0%nat \/ length (chars wq) = 1023%nat -> exists k flag' wq' o, ret (Z.of_nat nr, b) (ws flag c wq) = Ok (Z.of_nat (nr - k), b + Z.of_nat k) (ws flag' c wq')
    /\ (k <= nr)%nat /\ queue_wf wq' /\ flag_ok t flag' (text_at s (buf + b + Z.of_nat k) (nr - k))
    /\ (k = nr \/ length (chars wq') = 1023%nat) /\ chars wq' = chars wq ++ o
    /\ o ++ rest_of t flag' (text_at s (buf + b + Z.of_nat k) (nr - k)) = rest_of t flag (text_at s (buf + b) nr)).
  { intros Hs. exists 0%nat, flag, wq, []. rewrite app_nil_r, !Z.add_0_r, Nat.sub_0_r. split_and!; try done; [lia |]. destruct Hs as [-> | Hs]; [by left | by right]. }
  destruct nr as [|nr]; [apply Hstop; by left |]. destruct (FULL wq) eqn:Ef; [rewrite andb_false_r; apply Hstop; right; by apply (FULL_chars W) |]. clear Hstop.
  assert (Hlt : (length (chars wq) < 1023)%nat).
  { pose proof (@chars_bound wq). destruct (decide (length (chars wq) = 1023%nat)) as [E | ?]; [| lia]. apply (FULL_chars W) in E. congruence. }
  rewrite (proj2 (Z.ltb_lt _ _)) by lia. cbn [negb andb]. rewrite text_at_S in Hf, Hp |- *. apply Forall_cons in Hp as (Hc & Hp).
  set (x := default 0 (umem (kt_fs s) !! (buf + b))) in *.
  assert (El : zoom kt_fs (get_fs_bytes (buf + b) 1) (ws flag c wq) = Ok [x] (ws flag c wq)).
  { unfold zoom, get_fs_bytes, get. rewrite ws_fs. cbn [load_bytes Z.to_nat]. f_equal. rewrite <- (ws_fs flag c wq). by destruct (ws flag c wq). }
  rewrite (bind_Ok _ _ _ _ _ El). cbn [head default from_option]. unfold id.
  destruct (write_char_ok (s8 x) (text_at s (buf + b + 1) nr) flag c wq W Hlt Hc Hf) as (used & y & wq1 & E1 & W1 & C1 & F1 & R1).
  rewrite (bind_Ok _ _ _ _ _ E1). destruct used; cbn [negb] in *.
  - replace (Z.of_nat (S nr) - 1) with (Z.of_nat nr) by lia.
    destruct (IH nr (b + 1) false c wq1 W1) as (k & flag' & wq' & o & E & Hk & W' & F' & Hn & C' & R'); [by rewrite Z.add_assoc | by rewrite Z.add_assoc | rewrite C1, length_app; cbn; lia |].
    exists (S k), flag', wq', (y :: o). rewrite E. replace (buf + b + Z.of_nat (S k)) with (buf + (b + 1) + Z.of_nat k) by lia.
    split_and!; [do 2 f_equal; lia | lia | done | done | destruct Hn as [-> | Hn]; [by left | by right] | by rewrite C', C1, <- app_assoc |].
    rewrite R1. cbn [app]. f_equal. replace (buf + (b + 1)) with (buf + b + 1) in * by lia. exact R'.
  - destruct (IH (S nr) b true c wq1 W1) as (k & flag' & wq' & o & E & Hk & W' & F' & Hn & C' & R'); [by rewrite text_at_S | rewrite text_at_S; by constructor | rewrite C1, length_app; cbn; lia |].
    exists k, flag', wq', (y :: o). split_and!; [exact E | done | done | done | done | by rewrite C', C1, <- app_assoc |].
    rewrite R1. cbn [app]. f_equal. rewrite text_at_S in R'. exact R'.
Qed.
End Console.

(** ** The whole text *)

(** The current task is there and has no signal. *)
Definition no_signal (s : kterm) : Prop := exists k, tasks (the_sched s) !! current (the_sched s) = Some k /\ ts_signal k = 0.
(** Whoever runs in between leaves the terminal, the text and the current task alone. *)
Definition undisturbed (s s' : kterm) : Prop :=
  kt_con s' = kt_con s /\ tty_table s' = tty_table s /\ cr_flag s' = cr_flag s /\ umem (kt_fs s') = umem (kt_fs s) /\ no_signal s'.

Lemma cur_signal_0 s : no_signal s -> cur_signal s = Ok 0 s.
Proof.
  intros (k & Hk & H0). unfold cur_signal, bind, on_sched, cur, get, bind, task_at. rewrite Hk. unfold ret. rewrite H0. f_equal.
  destruct s as [[] ? ? ?]. done.
Qed.
Lemma rest_length t f f' l : (length (rest_of t f l) <= length (rest_of t f' l) + 1)%nat.
Proof. unfold rest_of. destruct f, f'; rewrite ?length_drop; lia. Qed.
Lemma rest_plain t f l : Forall (plain t) l -> Forall (fun x => x <> 27) (rest_of t f l).
Proof.
  intros Hl. assert (Hp : Forall (fun x => x <> 27) (post t l)).
  { unfold post. induction Hl as [|c l Hc Hl IH]; [by constructor |]. cbn [flat_map]. apply Forall_app. split; [| done].
    eapply Forall_impl; [by apply post_char_plain |]. by intros x (_ & ?). }
  unfold rest_of. destruct f; [by apply Forall_drop | done].
Qed.
Lemma text_at_drop s buf n k : (k <= n)%nat -> text_at s (buf + Z.of_nat k) (n - k) = drop k (text_at s buf n).
Proof.
  revert buf n. induction k as [|k IH]; intros buf n Hk; [by rewrite Z.add_0_r, Nat.sub_0_r |]. destruct n as [|n]; [lia |].
  rewrite text_at_S. cbn [drop Nat.sub]. rewrite <- IH by lia. f_equal. lia.
Qed.

Section Writing.
Context `{TtyEnv} (ch depth : nat) (buf : Z).
Hypothesis (Hsched : forall s, no_signal s -> exists s', tty_schedule s = Ok tt s' /\ undisturbed s s').

(** A portion of the text goes to the screen. *)
Lemma write_turn s t flag (nr : nat) b : tty_table s !! ch = Some t -> tty_write_ptr t = con_write_ptr -> queue_wf (write_q t) -> chars (write_q t) = [] ->
  calm (kt_con s) -> cr_flag s = bool_to_c flag -> flag_ok t flag (text_at s (buf + b) nr) -> Forall (plain t) (text_at s (buf + b) nr) -> no_signal s -> (0 < nr)%nat ->
  exists k flag' o s1 wq, (let* (nr, b) := fill_queue (Z.to_nat TTY_BUF_SIZE) ch buf (Z.of_nat nr) b in driver depth ch ;;; ret (nr, b)) s = Ok (Z.of_nat (nr - k), b + Z.of_nat k) s1
    /\ (0 < k <= nr)%nat /\ tty_table s1 = <[ch := put write_q wq t]> (tty_table s) /\ queue_wf wq /\ chars wq = [] /\ calm (kt_con s1)
    /\ cr_flag s1 = bool_to_c flag' /\ kt_fs s1 = kt_fs s /\ flag_ok t flag' (text_at s (buf + b + Z.of_nat k) (nr - k))
    /\ shown (port_in 0x61) (ERASE_CHAR t) o (kt_con s) (kt_con s1)
    /\ o ++ rest_of t flag' (text_at s (buf + b + Z.of_nat k) (nr - k)) = rest_of t flag (text_at s (buf + b) nr).
Proof.
  intros Ht Hw Wq Hq Hc Hf Hfl Hp Hs Hnr.
  destruct (fill_queue_ok s ch t Ht buf (Z.to_nat TTY_BUF_SIZE) nr b flag (kt_con s) (write_q t) Wq Hfl Hp) as (k & flag' & wq' & o & E & Hk & W' & F' & Hn & C' & R').
  { rewrite Hq. change (Z.to_nat TTY_BUF_SIZE) with 1024%nat. cbn. lia. }
  rewrite (ws_start s ch t Ht flag Hf) in E. rewrite Hq in C'. cbn [app] in C'.
  assert (Hk0 : (0 < k)%nat).
  { destruct k as [|k]; [| lia]. destruct Hn as [Hn | Hn]; [lia |]. rewrite C' in Hn. apply (f_equal length) in R'. rewrite Nat.sub_0_r, Z.add_0_r, length_app in R'.
    pose proof (rest_length t flag flag' (text_at s (buf + b) nr)). lia. }
  rewrite (bind_Ok _ _ _ _ _ E).
  assert (Ho : Forall (fun x => x <> 27) (chars wq')).
  { rewrite C'. pose proof (rest_plain t flag _ Hp) as Hr. rewrite <- R' in Hr. by apply Forall_app in Hr as (? & _). }
  assert (Hlen' : (ch < length (tty_table (put cr_flag (bool_to_c flag') s)))%nat) by by eapply lookup_lt_Some.
  destruct (con_write_ok (put cr_flag (bool_to_c flag') s) ch t (copy_to_cooked depth) Hlen' [] (ports (the_sched s)) (tty_stopped t) (read_q t) (secondary t) (kt_con s) wq' W' Hc Ho)
    as (c1 & c' & wq & Ew & Wq' & Cq' & Hc' & Hcc & Ecur).
  assert (Ed : driver depth ch (ws s ch t flag' (kt_con s) wq') = Ok tt (ws s ch t flag' c' wq)).
  { unfold driver, tty_driver. rewrite (bind_Ok _ _ _ _ _ (tty_ws s ch t Ht _ _ _)). cbn [tty_write_ptr with_queues]. rewrite Hw. exact Ew. }
  exists k, flag', o, (ws s ch t flag' c' wq), wq. rewrite (bind_Ok _ _ _ _ _ Ed). split_and!; try done; [by apply ws_fs |].
  rewrite <- (app_nil_r o). apply shown_app with c1; [apply shown_chars; by rewrite <- C' | by apply shown_cursor].
Qed.

Lemma write_loop_ok : forall fuel s t flag (nr : nat) b, tty_table s !! ch = Some t -> tty_write_ptr t = con_write_ptr -> queue_wf (write_q t) -> chars (write_q t) = [] ->
  calm (kt_con s) -> cr_flag s = bool_to_c flag -> flag_ok t flag (text_at s (buf + b) nr) -> Forall (plain t) (text_at s (buf + b) nr) -> no_signal s -> (nr < fuel)%nat ->
  exists s' wq, write_loop fuel depth ch buf (Z.of_nat nr) b s = Ok (b + Z.of_nat nr) s'
    /\ tty_table s' = <[ch := put write_q wq t]> (tty_table s) /\ queue_wf wq /\ chars wq = [] /\ calm (kt_con s') /\ cr_flag s' = 0 /\ no_signal s'
    /\ umem (kt_fs s') = umem (kt_fs s) /\ shown (port_in 0x61) (ERASE_CHAR t) (rest_of t flag (text_at s (buf + b) nr)) (kt_con s) (kt_con s').
Proof.
  induction fuel as [|fuel IH]; intros s t flag nr b Ht Hw Wq Hq Hc Hf Hfl Hp Hs Hnr; [lia |]. cbn [write_loop]. destruct nr as [|nr].
  - exists s, (write_q t). assert (flag = false) as -> by (destruct flag; [destruct (Hfl eq_refl) as (? & ? & ? & [=] & _) | done]).
    cbn. rewrite Z.add_0_r. split_and!; try done; [| by apply shown_chars]. rewrite list_insert_id; [done |]. rewrite Ht. by destruct t.
  - rewrite (proj2 (Z.leb_gt _ _)) by lia.
    assert (E1 : sleep_if_full write_q ch s = Ok tt s).
    { unfold sleep_if_full, bind, tty. rewrite Ht. cbn. assert (FULL (write_q t) = false) as ->; [| done].
      destruct (FULL (write_q t)) eqn:E; [| done]. apply (FULL_chars Wq) in E. by rewrite Hq in E. }
    rewrite (bind_Ok _ _ _ _ _ E1), (bind_Ok _ _ _ _ _ (cur_signal_0 s Hs)). change (cbool 0) with false. cbv iota.
    destruct (write_turn s t flag (S nr) b Ht Hw Wq Hq Hc Hf Hfl Hp Hs ltac:(lia)) as (k & flag' & o & s1 & wq1 & E & Hk & T1 & W1 & C1 & K1 & F1 & U1 & Fl1 & Sh1 & R1).
    set (K := fun r : Z * Z => (if 0 <? r.1 then tty_schedule else ret tt) ;;; write_loop fuel depth ch buf r.1 r.2).
    assert (EK : (let* (nr, b) := fill_queue (Z.to_nat TTY_BUF_SIZE) ch buf (Z.of_nat (S nr)) b in driver depth ch ;;; (if 0 <? nr then tty_schedule else ret tt) ;;; write_loop fuel depth ch buf nr b) s
      = K (Z.of_nat (S nr - k), b + Z.of_nat k) s1).
    { revert E. unfold bind at 1 2 3. destruct (fill_queue _ _ _ _ _ s) as [(nr1 & b1) s' | | |]; try done. unfold bind at 1 2. destruct (driver depth ch s'); try done. by intros [= <- <- <-]. }
    rewrite EK. unfold K. cbn [fst snd]. clear EK K E E1.
    assert (exists s2, (if 0 <? Z.of_nat (S nr - k) then tty_schedule else ret tt) s1 = Ok tt s2 /\ undisturbed s1 s2) as (s2 & E2 & (K2 & T2 & F2 & U2 & N2)).
    { assert (N1 : no_signal s1) by (destruct Hs as (x & Hx); exists x; cbn in *; by rewrite U1). destruct (0 <? Z.of_nat (S nr - k)); [by apply Hsched | by exists s1]. }
    rewrite (bind_Ok _ _ _ _ _ E2).
    assert (Ht2 : tty_table s2 !! ch = Some (put write_q wq1 t)) by (rewrite T2, T1; apply list_lookup_insert_eq; by eapply lookup_lt_Some).
    assert (Etx : text_at s2 (buf + (b + Z.of_nat k)) (S nr - k) = text_at s (buf + b + Z.of_nat k) (S nr - k)) by (unfold text_at; by rewrite U2, U1, Z.add_assoc).
    destruct (IH s2 (put write_q wq1 t) flag' (S nr - k)%nat (b + Z.of_nat k)) as (s' & wq & E & T' & W' & C' & K' & F' & N' & U' & Sh'); rewrite ?Etx; try done; try congruence; [| lia |].
    { rewrite text_at_drop by lia. by apply Forall_drop. }
    exists s', wq. rewrite E. split_and!; try done; [f_equal; lia | | congruence |].
    + rewrite T', T2, T1. apply list_insert_insert_eq.
    + rewrite <- R1. apply shown_app with (kt_con s1); [done |]. rewrite <- K2, <- Etx. exact Sh'.
Qed.
End Writing.

(** C36: A program that writes to the console sees its text on the screen. [tty_write]
    returns the number of bytes it was given, and the console driver has processed, in
    order and without loss, exactly the characters of the text with the changes that the
    settings ask for (a carriage return in front of a new line, CR as NL, NL as CR, upper
    case), however many portions the text was cut into by the size of the queue; the queue
    is empty again and the text, the other terminals and the settings are unchanged. The
    text is without escape characters, the console in its normal state, the caller has no
    signal, [cr_flag] is clear at the start, and whoever runs in between leaves this terminal
    and [cr_flag] alone, although all terminals share it. *)
Theorem tty_write_shows `{TtyEnv} s channel t depth buf nr :
  tty_table s !! Z.to_nat channel = Some t -> 0 <= channel <= 2 -> tty_write_ptr t = con_write_ptr ->
  queue_wf (write_q t) -> chars (write_q t) = [] -> calm (kt_con s) -> cr_flag s = 0 -> no_signal s ->
  0 <= nr -> (Z.to_nat nr < tty_patience)%nat -> Forall (plain t) (text_at s buf (Z.to_nat nr)) ->
  (forall s, no_signal s -> exists s', tty_schedule s = Ok tt s' /\ undisturbed s s') ->
  exists s' wq, tty_write depth channel buf nr s = Ok nr s'
    /\ shown (port_in 0x61) (ERASE_CHAR t) (post t (text_at s buf (Z.to_nat nr))) (kt_con s) (kt_con s')
    /\ calm (kt_con s') /\ tty_table s' = <[Z.to_nat channel := put write_q wq t]> (tty_table s) /\ queue_wf wq /\ chars wq = []
    /\ cr_flag s' = 0 /\ umem (kt_fs s') = umem (kt_fs s).
Proof.
  intros Ht Hch Hw Wq Hq Hc Hf Hs Hnr Hpat Hp Hsch. unfold tty_write. rewrite (proj2 (Z.ltb_ge _ _)), (proj2 (Z.ltb_ge nr 0)) by lia. cbn [orb].
  destruct (write_loop_ok (Z.to_nat channel) depth buf Hsch tty_patience s t false (Z.to_nat nr) 0 Ht Hw Wq Hq Hc Hf) as (s' & wq & E & T' & W' & C' & K' & F' & _ & U' & Sh');
    rewrite ?Z.add_0_r; try done.
  rewrite Z2Nat.id in E by done. rewrite Z.add_0_r in Sh'. by exists s', wq.
Qed.

(** [Hi], a new line and [Yo] on an empty screen: the second line starts at the left. *)
Definition written : kterm := mk_kterm (over umem (store_bytes 100 [72; 105; 10; 89; 111]) empty_fs) demo_con init_tty_table 0.
Lemma written_no_signal : no_signal written.
Proof. eexists. split; [vm_compute; reflexivity | reflexivity]. Qed.
Lemma tty_write_shows_witness : exists s', @tty_write quiet 0 0 100 5 written = Ok 5 s'
  /\ shown 0 127 [72; 105; 13; 10; 89; 111] demo_con (kt_con s').
Proof.
  destruct (@tty_write_shows quiet written 0 (mk_tty (mk_termios ICRNL (Z.lor OPOST ONLCR) 0 (Z.lor ISIG (Z.lor ICANON (Z.lor ECHO (Z.lor ECHOCTL ECHOKE)))) 0 INIT_C_CC [0; 0])
     0 0 con_write_ptr (new_queue 0) (new_queue 0) (new_queue 0)) 0%nat 100 5) as (s' & wq & E & Sh & _).
  - reflexivity.
  - lia.
  - reflexivity.
  - by constructor.
  - reflexivity.
  - exact (conj demo_con_wf eq_refl).
  - reflexivity.
  - exact written_no_signal.
  - lia.
  - cbn. lia.
  - vm_compute. repeat (apply List.Forall_cons; [split; [split; congruence | split; [congruence | discriminate]] |]). apply List.Forall_nil.
  - intros s Hs. exists s. split; [reflexivity |]. repeat split; try reflexivity. exact Hs.
  - exists s'. split; [exact E | exact Sh].
Defined.
