(* ===== verification/TtyRead.v ===== *)
(** Reading lines from a terminal: [tty_read] of kernel/chr_drv/tty_io.c. *)
From stdpp Require Import base list gmap strings.
From Stdlib Require Import ZArith Lia.
From S2P Require Import Prelude Bits Console Terminal Memory Sched FsState Buffer Files Bytes Process Tty TtyQueue TtySpec TtyCook TtyWrite.
Open Scope Z_scope.

(** ** What is read *)

(** At most [nr] of the characters [l]: up to an end-of-file character, which is taken off
    the queue but not delivered. The result is what is delivered, whether the end of the
    file was met, and what stays in the queue. *)
Fixpoint got (t : tty_struct) (nr : nat) (l : list Z) : list Z * bool * list Z :=
  match nr, l with
  | S nr, c :: l =>
    if c =? EOF_CHAR t then ([], true, l) else
    let '(r, eof, rest) := got t nr l in (c :: r, eof, rest)
  | _, _ => ([], false, l)
  end.

Definition lines (t : tty_struct) (l : list Z) : Z := Z.of_nat (length (filter (fun c => delim t c = true) l)).

Section Reading.
Context `{TtyEnv} (s : kterm) (ch : nat) (t : tty_struct) (buf : Z).
Hypothesis (Ht : tty_table s !! ch = Some t).

(** The states on the way: the memory of the program and the secondary queue change. *)
Definition rs (m : gmap Z Z) (sq : tty_queue) : kterm :=
  mk_kterm (put umem m (kt_fs s)) (kt_con s) (<[ch := put secondary sq t]> (tty_table s)) (cr_flag s).
Lemma ch_lt : (ch < length (tty_table s))%nat.
Proof. by eapply lookup_lt_Some. Qed.
Lemma rs_start : rs (umem (kt_fs s)) (secondary t) = s.
Proof.
  unfold rs. rewrite list_insert_id by (rewrite Ht; by destruct t). by destruct s as [[] ? ? ?].
Qed.
Lemma tty_rs m sq : tty ch (rs m sq) = Ok (put secondary sq t) (rs m sq).
Proof. unfold tty. cbn. by rewrite list_lookup_insert_eq by apply ch_lt. Qed.
Lemma upd_rs f m sq q : f (put secondary sq t) = put secondary q t -> upd_tty ch f (rs m sq) = Ok tt (rs m q).
Proof.
  intros Ef. unfold upd_tty. cbn [tty_table rs]. rewrite list_lookup_insert_eq by apply ch_lt. unfold rs, over. cbn. f_equal. f_equal.
  by rewrite (alter_insert _ _ _ (put secondary sq t)), list_insert_insert_eq, Ef by apply list_lookup_insert_eq, ch_lt.
Qed.
Lemma getch_rs m sq c l : queue_wf sq -> chars sq = c :: l ->
  GETCH secondary ch (rs m sq) = Ok c (rs m (over q_tail INC sq)) /\ queue_wf (over q_tail INC sq) /\ chars (over q_tail INC sq) = l.
Proof.
  intros W E. destruct (getch_ok W c l E) as (Eg & W' & E'). split_and!; [| done | done]. unfold GETCH. rewrite (bind_Ok _ _ _ _ _ (tty_rs _ _)).
  cbn [secondary put]. change (secondary (put secondary sq t)) with sq. rewrite Eg.
  rewrite (bind_Ok _ _ _ _ _ (upd_rs _ m sq (over q_tail INC sq) eq_refl)). done.
Qed.

(** One character is taken off the queue. *)
Lemma taken_ok m sq c l : queue_wf sq -> chars sq = c :: l -> q_data sq = lines t (chars sq) ->
  exists q q1, queue_wf q /\ chars q = l /\ q_data q = lines t l
    /\ forall B (K : Z -> tty_struct -> M kterm B), (let* c := GETCH secondary ch in
      let* t := tty ch in
      (if (c =? EOF_CHAR t) || (c =? 10) then upd_tty ch (over secondary (over q_data (fun d => u32 (d - 1)))) else ret tt) ;;; K c t) (rs m sq)
      = K c (put secondary q1 t) (rs m q).
Proof.
  intros W E Hd. destruct (getch_rs m sq c l W E) as (Eg & W' & E'). pose proof (@chars_bound sq) as Hb. rewrite E in Hb, Hd. cbn [length] in Hb.
  set (q1 := over q_tail INC sq) in *. unfold lines in *. rewrite filter_cons in Hd.
  assert (Edel : (c =? EOF_CHAR t) || (c =? 10) = delim t c) by (unfold delim; by rewrite orb_comm).
  exists (if delim t c then over q_data (fun d => u32 (d - 1)) q1 else q1), q1. destruct (delim t c) eqn:Ec.
  - rewrite decide_True in Hd by done. cbn [length] in Hd. pose proof (length_filter (fun c => delim t c = true) l). split_and!; [by destruct W' | done | cbn; rewrite Hd, u32_small; lia |].
    intros B K. rewrite (bind_Ok _ _ _ _ _ Eg), (bind_Ok _ _ _ _ _ (tty_rs _ _)). change (EOF_CHAR (put secondary q1 t)) with (EOF_CHAR t). rewrite Edel.
    by rewrite (bind_Ok _ _ _ _ _ (upd_rs _ m q1 (over q_data (fun d => u32 (d - 1)) q1) eq_refl)).
  - rewrite decide_False in Hd by done. split_and!; [done | done | exact Hd |].
    intros B K. rewrite (bind_Ok _ _ _ _ _ Eg), (bind_Ok _ _ _ _ _ (tty_rs _ _)). change (EOF_CHAR (put secondary q1 t)) with (EOF_CHAR t). by rewrite Edel.
Qed.
Hypothesis (Hcanon : _L_FLAG t ICANON = true).
Lemma read_chars_ok : forall (nr fuel : nat) b m sq, queue_wf sq -> q_data sq = lines t (chars sq) -> chars sq <> [] -> (0 < nr)%nat -> (length (chars sq) < fuel)%nat ->
  let '(r, eof, rest) := got t nr (chars sq) in
  exists q, read_chars fuel ch buf (Z.of_nat nr) b (rs m sq) = Ok (eof, Z.of_nat (nr - length r), b + Z.of_nat (length r)) (rs (store_bytes (buf + b) (map u8 r) m) q)
    /\ queue_wf q /\ chars q = rest /\ q_data q = lines t rest /\ (eof = true \/ r <> []).
Proof.
  induction nr as [|nr IH]; intros fuel b m sq W Hd Hne Hnr Hf; [lia |]. destruct fuel as [|fuel]; [lia |]. destruct (chars sq) as [|c l] eqn:Ec; [done |].
  rewrite <- Ec in Hd. destruct (taken_ok m sq c l W Ec Hd) as (q & q1 & Wq & Cq & Dq & EK). cbn [got read_chars]. rewrite EK.
  change (EOF_CHAR (put secondary q1 t)) with (EOF_CHAR t). change (_L_FLAG (put secondary q1 t) ICANON) with (_L_FLAG t ICANON). rewrite Hcanon, andb_true_r.
  destruct (c =? EOF_CHAR t).
  - exists q. cbn [length map store_bytes]. rewrite Z.add_0_r, Nat.sub_0_r. split_and!; [done | done | done | done | by left].
  - assert (Ep : zoom kt_fs (put_fs_bytes (buf + b) [u8 c]) (rs m q) = Ok tt (rs (store_bytes (buf + b) [u8 c] m) q)) by done. rewrite (bind_Ok _ _ _ _ _ Ep).
    replace (Z.of_nat (S nr) - 1) with (Z.of_nat nr) by lia. set (m1 := store_bytes (buf + b) [u8 c] m).
    assert (Hend : nr = 0%nat \/ l = [] -> (if Z.of_nat nr =? 0 then ret (false, Z.of_nat nr, b + 1) else
        let* t := tty ch in if (0 <? Z.of_nat nr) && negb (EMPTY (secondary t)) then read_chars fuel ch buf (Z.of_nat nr) (b + 1) else ret (false, Z.of_nat nr, b + 1)) (rs m1 q)
      = Ok (false, Z.of_nat nr, b + 1) (rs m1 q) /\ got t nr l = ([], false, l)).
    { intros [-> | ->]; [done |]. split; [| by destruct nr]. destruct (Z.of_nat nr =? 0); [done |]. rewrite (bind_Ok _ _ _ _ _ (tty_rs _ _)).
      change (secondary (put secondary q t)) with q. rewrite (proj2 (EMPTY_chars Wq) Cq). by rewrite andb_false_r. }
    destruct (decide (nr = 0%nat \/ l = [])) as [Hz | Hz].
    + destruct (Hend Hz) as (-> & ->). exists q. cbn [length map]. replace (S nr - 1)%nat with nr by lia. split_and!; [done | done | done | done | by right].
    + rewrite (proj2 (Z.eqb_neq _ _)) by lia. rewrite (bind_Ok _ _ _ _ _ (tty_rs _ _)). change (secondary (put secondary q t)) with q.
      assert (EMPTY q = false) as -> by (destruct (EMPTY q) eqn:Ee; [apply (EMPTY_chars Wq) in Ee; rewrite Cq in Ee; tauto | done]).
      rewrite (proj2 (Z.ltb_lt _ _)) by lia. cbn [negb andb length] in *.
      specialize (IH fuel (b + 1) m1 q Wq ltac:(by rewrite Cq) ltac:(rewrite Cq; tauto) ltac:(lia) ltac:(rewrite Cq; lia)). rewrite Cq in IH.
      destruct (got t nr l) as [[r eof] rest]. destruct IH as (q' & E & W' & C' & D' & Hr). exists q'. rewrite E. split_and!; [| done | done | done | by right].
      cbn [length map]. replace (S nr - S (length r))%nat with (nr - length r)%nat by lia. replace (b + Z.of_nat (S (length r))) with (b + 1 + Z.of_nat (length r)) by lia.
      unfold m1. cbn [store_bytes]. by rewrite Z.add_assoc.
Qed.
End Reading.

Lemma cur_ok s k : tasks (the_sched s) !! current (the_sched s) = Some k -> on_sched cur s = Ok k s.
Proof. intros Hk. unfold on_sched, cur, bind, get, task_at. rewrite Hk. by destruct s as [[] ? ? ?]. Qed.
Lemma set_alarm_same s k : tasks (the_sched s) !! current (the_sched s) = Some k -> set_alarm (ts_alarm k) s = Ok tt s.
Proof.
  intros Hk. unfold set_alarm, on_sched, upd_cur, bind, get, upd_task. rewrite Hk. f_equal. destruct s as [f c tb cf]. unfold set_sched. cbn in *. destruct f as [sc]. unfold over, put. cbn in *.
  do 2 f_equal. destruct sc. cbn in *. f_equal. rewrite insert_id; [done |]. rewrite Hk. by destruct k.
Qed.

(** [tty_read] without a time limit is its loop. *)
Lemma tty_read_start `{TtyEnv} s channel t k buf nr : tty_table s !! Z.to_nat channel = Some t -> 0 <= channel <= 2 -> cc VTIME t = 0 ->
  tasks (the_sched s) !! current (the_sched s) = Some k -> 0 <= nr ->
  tty_read channel buf nr s = (let* r := read_loop tty_patience (Z.to_nat channel) buf 0 (if nr <? cc VMIN t then nr else cc VMIN t) (ts_alarm k) false nr 0 in
     match r with inl b => ret b | inr b => set_alarm (ts_alarm k) ;;; let* sig := cur_signal in ret (if cbool sig && negb (cbool b) then - EINTR else b) end) s.
Proof.
  intros Ht Hc Htime Hk Hnr. unfold tty_read. rewrite (proj2 (Z.ltb_ge _ _)), (proj2 (Z.ltb_ge nr 0)) by lia. cbn [orb].
  rewrite (bind_Ok _ _ _ _ _ (cur_ok s k Hk)). assert (Et : tty (Z.to_nat channel) s = Ok t s) by (unfold tty; by rewrite Ht). by rewrite (bind_Ok _ _ _ _ _ Et), Htime.
Qed.
(** One turn of the loop is enough. *)
Lemma read_loop_takes `{TtyEnv} s ch t buf (nr : nat) fuel minimum oldalarm :
  tty_table s !! ch = Some t -> _L_FLAG t ICANON = true -> queue_wf (secondary t) -> q_data (secondary t) = lines t (chars (secondary t)) -> chars (secondary t) <> [] ->
  q_data (secondary t) <> 0 \/ (1003 <= length (chars (secondary t)))%nat -> no_signal s -> (0 < nr)%nat ->
  let '(r, eof, rest) := got t nr (chars (secondary t)) in
  exists q, let s' := rs s ch t (store_bytes buf (map u8 r) (umem (kt_fs s))) q in
    read_loop (S fuel) ch buf 0 minimum oldalarm false (Z.of_nat nr) 0 s = Ok (if eof then inl (Z.of_nat (length r)) else inr (Z.of_nat (length r))) s'
    /\ queue_wf q /\ chars q = rest /\ q_data q = lines t rest.
Proof.
  intros Ht Hcanon W Hd Hne Hready Hns Hnr. pose proof (chars_bound (q := secondary t)) as Hb.
  assert (Hb' : (length (chars (secondary t)) < Z.to_nat TTY_BUF_SIZE)%nat) by (change (Z.to_nat TTY_BUF_SIZE) with 1024%nat; exact Hb).
  pose proof (read_chars_ok s ch t buf Ht Hcanon nr (Z.to_nat TTY_BUF_SIZE) 0 (umem (kt_fs s)) (secondary t) W Hd Hne Hnr Hb') as Hrc.
  destruct (got t nr (chars (secondary t))) as [[r eof] rest]. destruct Hrc as (q & E & Wq & Cq & Dq & Hr). rewrite (rs_start s ch t Ht), Z.add_0_r, Z.add_0_l in E.
  set (s' := rs s ch t (store_bytes buf (map u8 r) (umem (kt_fs s))) q) in *. exists q. split; [| done].
  assert (Et' : tty ch s' = Ok (put secondary q t) s') by by apply tty_rs. assert (Et : tty ch s = Ok t s) by (unfold tty; by rewrite Ht).
  cbn [read_loop]. rewrite (proj2 (Z.leb_gt _ _)) by lia. rewrite (bind_Ok _ _ _ _ _ (cur_signal_0 s Hns)). cbn [andb]. change (cbool 0) with false. cbv iota.
  rewrite (bind_Ok _ _ _ _ _ Et).
  assert (EMPTY (secondary t) = false) as -> by (destruct (EMPTY (secondary t)) eqn:Ee; [by apply (EMPTY_chars W) in Ee | done]).
  assert (Hcond : ((q_data (secondary t) =? 0) && (20 <? LEFT (secondary t))) = false).
  { rewrite LEFT_chars by done. apply andb_false_iff. destruct Hready as [? | ?]; [left; by apply Z.eqb_neq | right; apply Z.ltb_ge; lia]. }
  rewrite Hcanon. cbn [orb andb]. rewrite Hcond, (bind_Ok _ _ _ _ _ E). cbv iota. destruct eof; [done |].
  rewrite (bind_Ok _ _ _ _ _ Et'). change (cbool 0) with false. cbn [andb]. change (bind (ret false) ?f s') with (f false s'). cbv beta.
  change (_L_FLAG (put secondary q t) ICANON) with (_L_FLAG t ICANON). rewrite Hcanon.
  assert (cbool (Z.of_nat (length r)) = true) as ->; [| done]. destruct Hr as [? | Hr]; [done |]. unfold cbool. rewrite (proj2 (Z.eqb_neq _ _)); [done |]. destruct r; [done | cbn; lia].
Qed.

(** C37: A read from a terminal in canonical mode, once there is a finished line (or the
    queue is nearly full): [tty_read] returns at once with the characters of the queue in
    order, at most as many as were asked for and up to an end-of-file character, stores
    exactly those in the memory of the program, takes them (and that end-of-file character)
    off the queue and keeps the count of finished lines exact. It does not stop at the end
    of a line: what was typed after it, finished or not, is delivered too. *)
Theorem tty_read_takes `{TtyEnv} s channel t buf nr :
  tty_table s !! Z.to_nat channel = Some t -> 0 <= channel <= 2 -> _L_FLAG t ICANON = true -> cc VTIME t = 0 ->
  queue_wf (secondary t) -> q_data (secondary t) = lines t (chars (secondary t)) -> chars (secondary t) <> [] ->
  q_data (secondary t) <> 0 \/ (1003 <= length (chars (secondary t)))%nat ->
  no_signal s -> 0 <= nr -> (0 < tty_patience)%nat ->
  let '(r, _, rest) := got t (Z.to_nat nr) (chars (secondary t)) in
  exists s' q, tty_read channel buf nr s = Ok (Z.of_nat (length r)) s'
    /\ tty_table s' = <[Z.to_nat channel := put secondary q t]> (tty_table s) /\ queue_wf q /\ chars q = rest /\ q_data q = lines t rest
    /\ umem (kt_fs s') = store_bytes buf (map u8 r) (umem (kt_fs s)) /\ the_sched s' = the_sched s.
Proof.
  intros Ht Hc Hcanon Htime W Hd Hne Hready (k & Hk & Hsig) Hnr Hpat. assert (Hns : no_signal s) by by exists k.
  rewrite (tty_read_start s channel t k buf nr Ht Hc Htime Hk Hnr). destruct tty_patience as [|fuel]; [lia |].
  assert (Hend : forall s', tasks (the_sched s') !! current (the_sched s') = Some k -> forall b, (set_alarm (ts_alarm k) ;;; let* sig := cur_signal in ret (if cbool sig && negb (cbool b) then - EINTR else b)) s' = Ok b s').
  { intros s' Hk' b. by rewrite (bind_Ok _ _ _ _ _ (set_alarm_same s' k Hk')), (bind_Ok _ _ _ _ _ (cur_signal_0 s' ltac:(by exists k))). }
  destruct (decide (nr = 0)) as [-> | Hpos].
  - cbn [got Z.to_nat]. exists s, (secondary t). rewrite (bind_Ok _ _ s (inr 0) s) by done. cbv beta iota. rewrite (Hend s Hk 0).
    split_and!; try done. rewrite list_insert_id; [done |]. rewrite Ht. by destruct t.
  - pose proof (read_loop_takes s (Z.to_nat channel) t buf (Z.to_nat nr) fuel (if nr <? cc VMIN t then nr else cc VMIN t) (ts_alarm k) Ht Hcanon W Hd Hne Hready Hns ltac:(lia)) as Hl.
    destruct (got t (Z.to_nat nr) (chars (secondary t))) as [[r eof] rest]. destruct Hl as (q & E & Wq & Cq & Dq). rewrite Z2Nat.id in E by done.
    eexists _, q. rewrite (bind_Ok _ _ _ _ _ E). destruct eof; [by split_and! |]. rewrite Hend by done. by split_and!.
Qed.

(** [ab], a new line and [cd] are in the queue: all five characters are read. *)
Definition typed_lines : kterm := mk_kterm empty_fs demo_con (alter (put secondary (queue_of 1 [97; 98; 10; 99; 100])) 0%nat init_tty_table) 0.
Lemma typed_lines_no_signal : no_signal typed_lines.
Proof. eexists. split; [vm_compute; reflexivity | reflexivity]. Qed.
Lemma tty_read_takes_witness : exists s', @tty_read quiet 0 500 100 typed_lines = Ok 5 s' /\ umem (kt_fs s') = store_bytes 500 [97; 98; 10; 99; 100] ∅.
Proof.
  destruct (@tty_read_takes quiet typed_lines 0 (put secondary (queue_of 1 [97; 98; 10; 99; 100]) (mk_tty (mk_termios ICRNL (Z.lor OPOST ONLCR) 0 (Z.lor ISIG (Z.lor ICANON (Z.lor ECHO (Z.lor ECHOCTL ECHOKE)))) 0 INIT_C_CC [0; 0])
     0 0 con_write_ptr (new_queue 0) (new_queue 0) (new_queue 0))) 500 100) as (s' & q & E & _ & _ & _ & _ & U & _).
  - reflexivity.
  - lia.
  - reflexivity.
  - reflexivity.
  - by constructor.
  - vm_compute. reflexivity.
  - vm_compute. discriminate.
  - left. discriminate.
  - exact typed_lines_no_signal.
  - lia.
  - cbn. lia.
  - exists s'. split; [exact E | exact U].
Defined.

(** A task that reads from a terminal while its user is in the middle of a line does
    not sleep. [sleep_if_empty] returns at once because the queue is not empty, and the
    loop of [tty_read] starts over in the very same state: one more turn of it changes
    nothing, whatever the number of turns, until an interrupt brings the end of the line. *)
Theorem tty_read_spins `{TtyEnv} s ch t fuel buf time minimum oldalarm flag nr b :
  tty_table s !! ch = Some t -> _L_FLAG t ICANON = true -> queue_wf (secondary t) -> q_data (secondary t) = 0 ->
  (0 < length (chars (secondary t)) <= 1002)%nat -> no_signal s -> 0 < nr -> (0 < tty_patience)%nat ->
  read_loop (S fuel) ch buf time minimum oldalarm flag nr b s = read_loop fuel ch buf time minimum oldalarm flag nr b s.
Proof.
  intros Ht Hcanon W Hd Hlen Hns Hnr Hpat. cbn [read_loop]. rewrite (proj2 (Z.leb_gt _ _)) by lia. rewrite (bind_Ok _ _ _ _ _ (cur_signal_0 s Hns)).
  change (cbool (Z.land 0 ALRMMASK)) with false. rewrite andb_false_r. change (cbool 0) with false. cbv iota.
  assert (Et : tty ch s = Ok t s) by (unfold tty; by rewrite Ht). rewrite (bind_Ok _ _ _ _ _ Et).
  assert (He : EMPTY (secondary t) = false) by (destruct (EMPTY (secondary t)) eqn:Ee; [apply (EMPTY_chars W) in Ee; rewrite Ee in Hlen; cbn in Hlen; lia | done]).
  rewrite He, Hcanon, Hd, LEFT_chars, (proj2 (Z.ltb_lt _ _)) by (done || lia). cbn [orb andb Z.eqb].
  assert (Es : sleep_if_empty secondary ch s = Ok tt s).
  { unfold sleep_if_empty. destruct tty_patience as [|n]; [lia |]. cbn [sleep_while].
    rewrite (bind_Ok _ _ _ _ _ (cur_signal_0 s Hns)), (bind_Ok _ _ _ _ _ Et), He. done. }
  by rewrite (bind_Ok _ _ _ _ _ Es).
Qed.
Definition half_line : kterm := mk_kterm empty_fs demo_con (alter (put secondary (queue_of 0 [97; 98])) 0%nat init_tty_table) 0.
Lemma half_line_no_signal : no_signal half_line.
Proof. eexists. split; [vm_compute; reflexivity | reflexivity]. Qed.
Lemma tty_read_spins_witness : @read_loop quiet 8 0 500 0 1 0 false 100 0 half_line = @read_loop quiet 7 0 500 0 1 0 false 100 0 half_line.
Proof.
  apply (@tty_read_spins quiet half_line 0%nat (put secondary (queue_of 0 [97; 98]) (mk_tty (mk_termios ICRNL (Z.lor OPOST ONLCR) 0 (Z.lor ISIG (Z.lor ICANON (Z.lor ECHO (Z.lor ECHOCTL ECHOKE)))) 0 INIT_C_CC [0; 0])
     0 0 con_write_ptr (new_queue 0) (new_queue 0) (new_queue 0)))).
  - reflexivity.
  - reflexivity.
  - by constructor.
  - reflexivity.
  - vm_compute. lia.
  - exact half_line_no_signal.
  - lia.
  - cbn. lia.
Defined.
