(* ===== verification/TtyIoctl.v ===== *)
(** The settings of a terminal: the requests [TCSETS] and [TCGETS] of
    kernel/chr_drv/tty_ioctl.c. *)
From stdpp Require Import base list gmap strings.
From Stdlib Require Import ZArith Lia.
From S2P Require Import Prelude Bits Console Terminal Memory Sched FsState Buffer Files Bytes Process Tty TtyQueue TtySpec TtyCook TtyWrite.
Open Scope Z_scope.

(** ** The structure as bytes *)

Lemma termios_bytes_of l : length l = 36%nat -> Forall is_byte l -> termios_bytes (termios_of l) = l.
Proof.
  intros Hlen Hl. unfold termios_bytes, termios_of. cbn [c_iflag c_oflag c_cflag c_lflag c_line c_cc t_pad].
  rewrite !le_bytes_at by (done || lia).
  do 36 (destruct l as [|? l]; [discriminate |]). destruct l; [| discriminate]. unfold bytes_at. cbn. rewrite Z.add_0_r. reflexivity.
Qed.

(** ** The memory of the program during a request *)

Lemma verify_area_umem U addr size : preserves (fun s => umem s = U) (verify_area addr size).
Proof.
  assert (V : forall fuel start n, preserves (fun s => umem s = U) (verify_pages fuel start n)).
  { induction fuel as [|fuel IH]; intros start n; cbn [verify_pages]; [apply preserves_ret |].
    destruct (0 <? n); [| apply preserves_ret]. apply preserves_bind; [| intros; apply IH].
    intros s a s' Hs. unfold on_mm. destruct (write_verify start (fs_mm s)); intros [= _ <-]; exact Hs. }
  unfold verify_area. apply preserves_bind; [| intros; apply V]. unfold current_task, on_sched.
  intros s a s' Hs. by destruct (cur (the_sched s)); intros [= _ <-].
Qed.

Lemma land_CBAUD c : 0 <= Z.land c CBAUD < 16.
Proof. unfold CBAUD. change 15 with (Z.ones 4). rewrite Z.land_ones by lia. by apply Z.mod_pos_bound. Qed.

(** The speed of a serial line is one of the sixteen of the table. *)
Lemma change_speed_ok s ch t : tty_table s !! ch = Some t ->
  exists s', change_speed ch s = Ok tt s' /\ tty_table s' = tty_table s /\ umem (kt_fs s') = umem (kt_fs s).
Proof.
  intros Ht. unfold change_speed. assert (Et : tty ch s = Ok t s) by (unfold tty; by rewrite Ht). rewrite (bind_Ok _ _ _ _ _ Et). cbv zeta.
  destruct (_ =? 0); [by exists s |]. pose proof (land_CBAUD (c_cflag (tty_termios t))).
  destruct (lookup_lt_is_Some_2 quotient (Z.to_nat (Z.land (c_cflag (tty_termios t)) CBAUD))) as (q & ->); [cbn; lia |].
  eexists. split; [reflexivity |]. done.
Qed.

(** The settings of a terminal are what a program last made them. [TCSETS] and
    [TCSETSW] take the 36 bytes of a [struct termios] from the memory of the program, for
    a serial line the speed is sent to the port as well, and nothing else of the terminals
    or of the memory changes. [TCGETS] then stores the very same 36 bytes wherever the
    program wants them, the two that only fill up the structure included, as long as the
    pages there can be made writable. *)
Theorem tty_settings_roundtrip s pad dev cmd arg t :
  let ch := Z.to_nat (MINOR dev) in let l := load_bytes 36 arg (umem (kt_fs s)) in
  MAJOR dev <> 5 -> tty_table s !! ch = Some t -> Forall is_byte l -> cmd = TCSETS \/ cmd = TCSETSW ->
  exists s1, tty_ioctl pad dev cmd arg s = Ok 0 s1
    /\ tty_table s1 = <[ch := put tty_termios (termios_of l) t]> (tty_table s) /\ umem (kt_fs s1) = umem (kt_fs s)
    /\ forall arg' f, verify_area arg' 36 (kt_fs s1) = Ok tt f ->
       exists s2, tty_ioctl pad dev TCGETS arg' s1 = Ok 0 s2 /\ tty_table s2 = tty_table s1
         /\ umem (kt_fs s2) = store_bytes arg' l (umem (kt_fs s)).
Proof.
  intros ch l HM Ht Hl Hcmd.
  assert (Hdev : forall c a, tty_ioctl pad dev c a
    = (if c =? TCGETS then get_termios ch a else if c =? TCSETSF then flush read_q ch ;;; wait_until_sent ;;; set_termios ch a
       else if c =? TCSETSW then wait_until_sent ;;; set_termios ch a else if c =? TCSETS then set_termios ch a else tty_ioctl pad dev c a)).
  { intros. unfold tty_ioctl. rewrite (proj2 (Z.eqb_neq _ _) HM). by repeat destruct (_ =? _). }
  set (s0 := mk_kterm (kt_fs s) (kt_con s) (<[ch := put tty_termios (termios_of l) t]> (tty_table s)) (cr_flag s)).
  assert (Ht0 : tty_table s0 !! ch = Some (put tty_termios (termios_of l) t)) by (apply list_lookup_insert_eq; by eapply lookup_lt_Some).
  destruct (change_speed_ok s0 ch _ Ht0) as (s1 & E1 & T1 & U1).
  assert (E : set_termios ch arg s = Ok 0 s1).
  { unfold set_termios. rewrite (bind_Ok _ _ _ l s) by (by destruct s). rewrite (bind_Ok _ _ _ tt s0); [by rewrite (bind_Ok _ _ _ _ _ E1) |].
    unfold upd_tty. rewrite Ht. unfold s0, over. cbn. by rewrite (alter_insert _ _ _ _ Ht). }
  exists s1. split; [rewrite Hdev; destruct Hcmd as [-> | ->]; exact E |]. split; [exact T1 |]. split; [exact U1 |].
  intros arg' f Hv. rewrite Hdev. cbn [Z.eqb TCGETS Pos.eqb]. unfold get_termios.
  rewrite (bind_Ok _ _ _ tt (put kt_fs f s1)) by (unfold zoom; by rewrite Hv).
  rewrite (bind_Ok _ _ _ (put tty_termios (termios_of l) t) (put kt_fs f s1)) by (unfold tty; cbn; by rewrite T1, Ht0).
  change (tty_termios (put tty_termios (termios_of l) t)) with (termios_of l). rewrite termios_bytes_of by (done || apply load_bytes_length).
  eexists. split; [reflexivity |]. split; [done |].
  change (store_bytes arg' l (umem f) = store_bytes arg' l (umem (kt_fs s))). f_equal.
  transitivity (umem (kt_fs s1)); [exact (verify_area_umem _ _ _ _ _ _ eq_refl Hv) | exact U1].
Qed.

(** The settings of the first serial line, read from and stored back into the memory. *)
Definition set_up : kterm := mk_kterm (put umem (store_bytes 500 (seqZ 0 36) ∅) empty_fs) demo_con init_tty_table 0.
Lemma tty_settings_roundtrip_witness : exists s1 s2, tty_ioctl 0 0x401 TCSETS 500 set_up = Ok 0 s1 /\ tty_ioctl 0 0x401 TCGETS 900 s1 = Ok 0 s2
  /\ load_bytes 36 900 (umem (kt_fs s2)) = seqZ 0 36.
Proof.
  destruct (tty_settings_roundtrip set_up 0 0x401 TCSETS 500 (serial_tty 0x3f8)) as (s1 & E1 & T1 & U1 & G).
  - discriminate.
  - reflexivity.
  - vm_compute. repeat constructor; discriminate.
  - by left.
  - exists s1. destruct (verify_area 900 36 (kt_fs s1)) as [[] f | | |] eqn:Ev.
    + destruct (G 900 f Ev) as (s2 & E2 & _ & U2). exists s2. split; [exact E1 |]. split; [exact E2 |]. rewrite U2. vm_compute. reflexivity.
    + exfalso. revert Ev. clear -E1. vm_compute in E1. injection E1 as <-. vm_compute. discriminate.
    + exfalso. revert Ev. clear -E1. vm_compute in E1. injection E1 as <-. vm_compute. discriminate.
    + exfalso. revert Ev. clear -E1. vm_compute in E1. injection E1 as <-. vm_compute. discriminate.
Defined.
