(* ===== verification/Serial.v ===== *)
(** The interrupts of the serial lines (kernel/chr_drv/rs_io.s), and that what is in the write
    queue of a line goes out over it, byte by byte and in order. *)
From stdpp Require Import base list gmap strings.
From Stdlib Require Import ZArith Lia.
From S2P Require Import Prelude Bits Console Terminal Memory Sched FsState Buffer Files Process Tty TtyQueue TtySpec TtyCook.
Open Scope Z_scope.

(** The kernel and the reads of the registers of the line that come next: the port and what
    it gives. *)
Record serial := mk_serial { sr_reads : list (Z * Z); sr_term : kterm }.
#[export] Instance serial_fields : Fields serial := fun s => mk_serial (sr_reads s) (sr_term s).

Definition startup : Z := 256.
Section Serial.
Context `{TtyEnv} (depth : nat).

(** Reading another register than the one whose turn it is has no answer. *)
Definition inb (port : Z) : M serial Z := fun s =>
  match sr_reads s with (p, v) :: l => if p =? port then Ok v (put sr_reads l s) else Ub | [] => Ub end.
Definition line_out (value port : Z) : M serial unit := zoom sr_term (on_sched (outb value port)).
Definition line (ch : nat) : M serial tty_struct := zoom sr_term (tty ch).
(** [movl $0,( %ebx )] for the task that sleeps on the queue. *)
Definition wake_writer (ch : nat) : M serial unit :=
  let* t := line ch in
  if cbool (q_proc_list (write_q t)) then zoom sr_term (on_sched (set_state_of (q_proc_list (write_q t)) 0)) else ret tt.

Definition modem_status (port : Z) : M serial unit := inb (port + 6) ;;; ret tt.
Definition line_status (port : Z) : M serial unit := inb (port + 5) ;;; ret tt.
Definition read_char (ch : nat) (port : Z) : M serial unit :=
  let* al := inb port in
  let* t := line ch in
  let q := read_q t in
  (if negb (q_head q <? Z.of_nat (length (q_buf q))) then ub else ret tt) ;;;
  let q := over q_buf <[Z.to_nat (q_head q) := s8 al]> q in
  let ebx := Z.land (q_head q + 1) (TTY_BUF_SIZE - 1) in
  let q := if ebx =? q_tail q then q else put q_head ebx q in
  zoom sr_term (upd_tty ch (put read_q q)) ;;;
  zoom sr_term (do_tty_interrupt depth ch).
Definition write_buffer_empty (ch : nat) (port : Z) : M serial unit :=
  wake_writer ch ;;;
  let* al := inb (port + 1) in
  line_out (Z.land al 0xd) (port + 1).
Definition transmit_char (ch : nat) (port : Z) : M serial unit :=
  let* t := line ch in
  let q := write_q t in
  let ebx := Z.land (q_head q - q_tail q) (TTY_BUF_SIZE - 1) in
  if ebx =? 0 then write_buffer_empty ch port else
  (if startup <? ebx then ret tt else wake_writer ch) ;;;
  let* al := need (q_buf q !! Z.to_nat (q_tail q)) in
  line_out (u8 al) port ;;;
  let ebx := Z.land (q_tail q + 1) (TTY_BUF_SIZE - 1) in
  zoom sr_term (upd_tty ch (over write_q (put q_tail ebx))) ;;;
  if ebx =? q_head q then write_buffer_empty ch port else ret tt.

(** [rep_int]: until no interrupt is left. *)
Fixpoint rep_int (fuel ch : nat) (port : Z) : M serial unit :=
  match fuel with
  | O => ub
  | S fuel =>
    let* al := inb (port + 2) in
    if cbool (Z.land al 1) || (6 <? al) then ret tt else
    (if al =? 0 then modem_status port else if al =? 2 then transmit_char ch port else if al =? 4 then read_char ch port else line_status port) ;;;
    rep_int fuel ch port
  end.
Definition rs_interrupt (ch : nat) : M serial unit :=
  let* s := get id in
  let* t := line ch in
  rep_int (S (length (sr_reads s))) ch (q_data (read_q t)) ;;;
  line_out 0x20 0x20.
Definition rs1_interrupt : M serial unit := rs_interrupt 1.
Definition rs2_interrupt : M serial unit := rs_interrupt 2.
End Serial.

(** ** Sending *)

(** What went out over a port, first things first. *)
Definition out_on (port : Z) (p : list (Z * Z)) : list Z := reverse (map snd (filter (fun x => x.1 = port) p)).
(** How the registers answer while the characters [l] are sent: the one that identifies the
    interrupt, at [port + 2], says that the transmitter is empty, then that there is nothing
    else; at the last character the register with the enabled interrupts is read. *)
Definition answer {A} (port ier : Z) (more : list A) : list (Z * Z) :=
  (port + 2, 2) :: match more with [] => [(port + 1, ier)] | _ => [] end ++ [(port + 2, 1)].
Fixpoint answers (port ier : Z) (l : list Z) : list (Z * Z) :=
  match l with [] => [] | _ :: l => answer port ier l ++ answers port ier l end.

Section Sending.
Context `{TtyEnv} (depth ch : nat) (k : kterm) (t : tty_struct).
Hypothesis (Ht : tty_table k !! ch = Some t).

(** The states of a run: tasks, ports and the write queue change. *)
Definition sending (r : list (Z * Z)) (m : gmap Z task_struct) (p : list (Z * Z)) (wq : tty_queue) : serial :=
  mk_serial r (mk_kterm (over fs_sched (fun s => put tasks m (put ports p s)) (kt_fs k)) (kt_con k) (<[ch := put write_q wq t]> (tty_table k)) (cr_flag k)).
Lemma sending_start r : mk_serial r k = sending r (tasks (the_sched k)) (ports (the_sched k)) (write_q t).
Proof.
  unfold sending. f_equal. destruct k as [f c tb cf], t. cbn in *. rewrite list_insert_id by done. by destruct f as [[] ? ? ? ? ? ? ? ? ? ? ? ? ? ? ? ? ? ?].
Qed.

Lemma line_sending r m p wq : line ch (sending r m p wq) = Ok (put write_q wq t) (sending r m p wq).
Proof. unfold line, zoom, tty. cbn. rewrite list_lookup_insert_eq by by eapply lookup_lt_Some. done. Qed.
Lemma inb_sending q v r m p wq : inb q (sending ((q, v) :: r) m p wq) = Ok v (sending r m p wq).
Proof. unfold inb. cbn. by rewrite Z.eqb_refl. Qed.
Lemma out_sending v port r m p wq : line_out v port (sending r m p wq) = Ok tt (sending r m ((port, v) :: p) wq).
Proof. done. Qed.
Lemma queue_sending g r m p wq : zoom sr_term (upd_tty ch (over write_q g)) (sending r m p wq) = Ok tt (sending r m p (g wq)).
Proof.
  unfold zoom, upd_tty. cbn. assert (Hl : (ch < length (tty_table k))%nat) by by eapply lookup_lt_Some. rewrite list_lookup_insert_eq by done.
  unfold sending, over. cbn. do 3 f_equal. by rewrite (alter_insert _ _ _ (put write_q wq t)), list_insert_insert_eq by by apply list_lookup_insert_eq.
Qed.
Lemma wake_sending r m p wq : q_proc_list wq = 0 \/ is_Some (m !! q_proc_list wq) -> wake_writer ch (sending r m p wq) = Ok tt (sending r (woken (q_proc_list wq) m) p wq).
Proof.
  intros Hq. unfold wake_writer. rewrite (bind_Ok _ _ _ _ _ (line_sending r m p wq)). change (write_q (put write_q wq t)) with wq. unfold cbool, woken.
  destruct (Z.eqb_spec (q_proc_list wq) 0) as [E | Hne]; cbn [negb]; [done |]. destruct Hq as [? | (x & Hx)]; [done |].
  unfold zoom, on_sched, set_state_of, upd_task. cbn. rewrite Hx. unfold sending. do 4 f_equal. by rewrite <- (insert_is_alter _ _ (put ts_state 0) _ Hx).
Qed.

Lemma woken_twice w m : woken w (woken w m) = woken w m.
Proof.
  unfold woken. destruct (w =? 0); [done |]. apply map_eq. intros a. rewrite !lookup_alter. destruct (decide (w = a)) as [-> |]; [| done]. rewrite decide_True by done. by destruct (m !! a).
Qed.
(** Whether or not the writer was woken before, it can be. *)
Definition maybe_woken (w : Z) (m m' : gmap Z task_struct) : Prop := m' = m \/ m' = woken w m.
Lemma maybe_woken_dom w m m' : maybe_woken w m m' -> w = 0 \/ is_Some (m !! w) -> w = 0 \/ is_Some (m' !! w).
Proof.
  intros [-> | ->] [? | Hm]; [by left | by right | by left |]. unfold woken. destruct (w =? 0) eqn:E; [left; by apply Z.eqb_eq | right]. rewrite lookup_alter, decide_True by done. by apply fmap_is_Some.
Qed.
Lemma transmit_ok r m p wq c l ier port : queue_wf wq -> chars wq = c :: l -> q_proc_list wq = 0 \/ is_Some (m !! q_proc_list wq) ->
  exists m' wq', transmit_char ch port (sending (match l with [] => (port + 1, ier) :: r | _ => r end) m p wq)
      = Ok tt (sending r m' (match l with [] => [(port + 1, Z.land ier 0xd)] | _ => [] end ++ (port, u8 c) :: p) wq')
    /\ queue_wf wq' /\ chars wq' = l /\ q_proc_list wq' = q_proc_list wq /\ maybe_woken (q_proc_list wq) m m' /\ (l = [] -> m' = woken (q_proc_list wq) m).
Proof.
  intros W Hc Hp. set (rr := match l with [] => (port + 1, ier) :: r | _ => r end). destruct (getch_ok W c l Hc) as (Eg & W' & C'). set (wq' := over q_tail INC wq) in *. unfold transmit_char.
  rewrite (bind_Ok _ _ _ _ _ (line_sending rr m p wq)). change (write_q (put write_q wq t)) with wq. cbv zeta.
  change (Z.land (q_head wq - q_tail wq) (TTY_BUF_SIZE - 1)) with (CHARS wq). pose proof (CHARS_length wq) as Hl. rewrite Hc in Hl. cbn [length] in Hl.
  rewrite (proj2 (Z.eqb_neq (CHARS wq) 0)) by lia.
  assert (exists m1, (if startup <? CHARS wq then ret tt else wake_writer ch) (sending rr m p wq) = Ok tt (sending rr m1 p wq) /\ maybe_woken (q_proc_list wq) m m1) as (m1 & E1 & Hm1).
  { destruct (startup <? CHARS wq); [exists m; split; [done | by left] |]. exists (woken (q_proc_list wq) m). split; [by apply wake_sending | by right]. }
  rewrite (bind_Ok _ _ _ _ _ E1). unfold getch in Eg. destruct (q_buf wq !! Z.to_nat (q_tail wq)) as [x |]; [| done]. injection Eg as ->. cbn [need]. unfold bind at 1, ret at 1.
  rewrite (bind_Ok _ _ _ _ _ (out_sending (u8 c) port rr m1 p wq)), (bind_Ok _ _ _ _ _ (queue_sending _ rr m1 _ wq)).
  change (put q_tail (Z.land (q_tail wq + 1) (TTY_BUF_SIZE - 1)) wq) with wq'.
  change (Z.land (q_tail wq + 1) (TTY_BUF_SIZE - 1) =? q_head wq) with (q_tail wq' =? q_head wq').
  assert (Hend : (q_tail wq' =? q_head wq') = match l with [] => true | _ => false end).
  { rewrite Z.eqb_sym. fold (EMPTY wq'). destruct (EMPTY wq') eqn:Ee; [apply (EMPTY_chars W') in Ee; rewrite C' in Ee; by rewrite Ee |]. destruct l; [| done]. apply (EMPTY_chars W') in C'. congruence. }
  rewrite Hend. pose proof (maybe_woken_dom _ _ _ Hm1 Hp) as Hp1. destruct l as [|y l].
  - exists (woken (q_proc_list wq) m), wq'. unfold write_buffer_empty. rewrite (bind_Ok _ _ _ _ _ (wake_sending rr m1 ((port, u8 c) :: p) wq' Hp1)).
    unfold rr. rewrite (bind_Ok _ _ _ _ _ (inb_sending _ _ _ _ _ _)), out_sending. change (q_proc_list wq') with (q_proc_list wq).
    assert (Ew : woken (q_proc_list wq) m1 = woken (q_proc_list wq) m) by (destruct Hm1 as [-> | ->]; [done | apply woken_twice]). rewrite Ew.
    split_and!; try done. by right.
  - exists m1, wq'. by split_and!.
Qed.

(** One interrupt sends one character. *)
Lemma interrupt_sends r m p wq c l ier : queue_wf wq -> chars wq = c :: l -> q_proc_list wq = 0 \/ is_Some (m !! q_proc_list wq) ->
  let port := q_data (read_q t) in
  exists m' wq', rs_interrupt depth ch (sending (answer port ier l ++ r) m p wq)
      = Ok tt (sending r m' ((0x20, 0x20) :: match l with [] => [(port + 1, Z.land ier 0xd)] | _ => [] end ++ (port, u8 c) :: p) wq')
    /\ queue_wf wq' /\ chars wq' = l /\ q_proc_list wq' = q_proc_list wq /\ maybe_woken (q_proc_list wq) m m' /\ (l = [] -> m' = woken (q_proc_list wq) m).
Proof.
  intros W Hc Hp port. destruct (transmit_ok ((port + 2, 1) :: r) m p wq c l ier port W Hc Hp) as (m' & wq' & E & H'). exists m', wq'. split; [| done].
  unfold rs_interrupt, bind at 1, get at 1, id. rewrite (bind_Ok _ _ _ _ _ (line_sending _ m p wq)). change (q_data (read_q (put write_q wq t))) with port.
  assert (Hr : exists f, length (sr_reads (sending (answer port ier l ++ r) m p wq)) = S f) by (cbn; by eexists). destruct Hr as (f & ->).
  assert (Es : sending (answer port ier l ++ r) m p wq = sending ((port + 2, 2) :: match l with [] => (port + 1, ier) :: (port + 2, 1) :: r | _ => (port + 2, 1) :: r end) m p wq) by by destruct l. rewrite Es.
  rewrite (bind_Ok _ _ _ tt (sending r m' (match l with [] => [(port + 1, Z.land ier 0xd)] | _ => [] end ++ (port, u8 c) :: p) wq')); [by rewrite out_sending |].
  cbn [rep_int]. rewrite (bind_Ok _ _ _ _ _ (inb_sending _ _ _ _ _ _)). change (cbool (Z.land 2 1) || (6 <? 2)) with false. cbn [Z.eqb Pos.eqb].
  rewrite (bind_Ok _ _ _ _ _ E). rewrite (bind_Ok _ _ _ _ _ (inb_sending _ _ _ _ _ _)). done.
Qed.
Lemma out_on_other port q v p : q <> port -> out_on port ((q, v) :: p) = out_on port p.
Proof. intros Hq. unfold out_on. by rewrite filter_cons_False. Qed.
Lemma out_on_port port v p : out_on port ((port, v) :: p) = out_on port p ++ [v].
Proof. unfold out_on. rewrite filter_cons_True by done. cbn [map snd]. by rewrite reverse_cons. Qed.

Lemma sends_all l : forall c m p wq ier, queue_wf wq -> chars wq = c :: l -> q_proc_list wq = 0 \/ is_Some (m !! q_proc_list wq) ->
  let port := q_data (read_q t) in port <> 0x20 ->
  exists p' wq', for_each (c :: l) (fun _ => rs_interrupt depth ch) (sending (answers port ier (c :: l)) m p wq) = Ok tt (sending [] (woken (q_proc_list wq) m) p' wq')
    /\ queue_wf wq' /\ chars wq' = [] /\ out_on port p' = out_on port p ++ map u8 (c :: l) /\ exists p0, p' = (0x20, 0x20) :: (port + 1, Z.land ier 0xd) :: p0.
Proof.
  induction l as [|d l IH]; intros c m p wq ier W Hc Hp port Hport.
  - destruct (interrupt_sends [] m p wq c [] ier W Hc Hp) as (m' & wq' & E & W' & C' & _ & _ & Hm). cbn [for_each answers]. rewrite app_nil_r in E |- *. rewrite (bind_Ok _ _ _ _ _ E), Hm by done.
    eexists _, wq'. split_and!; [reflexivity | done | done | | by eexists]. cbn [app]. by rewrite !out_on_other, out_on_port by (fold port; lia).
  - destruct (interrupt_sends (answers port ier (d :: l)) m p wq c (d :: l) ier W Hc Hp) as (m' & wq' & E & W' & C' & P' & Hm & _).
    change (answers port ier (c :: d :: l)) with (answer port ier (d :: l) ++ answers port ier (d :: l)).
    destruct (IH d m' ((0x20, 0x20) :: (port, u8 c) :: p) wq' ier W' C') as (p2 & wq2 & E2 & W2 & C2 & O2 & H2); [rewrite P'; by eapply maybe_woken_dom | done |].
    exists p2, wq2. split_and!; [| done | done | | exact H2].
    + cbn [for_each]. rewrite (bind_Ok _ _ _ _ _ E). cbn [app]. rewrite P' in E2. destruct Hm as [-> | ->]; [exact E2 |]. by rewrite woken_twice in E2.
    + fold port in O2. rewrite O2, out_on_other, out_on_port by lia. by rewrite <- app_assoc.
Qed.
End Sending.

(** C30: a serial line sends what is in its write queue.  With the interrupt for an empty
    transmitter enabled, the interrupts put the characters of the queue out over the line's
    port, one each, all of them and in order; the last one disables that interrupt, the queue
    is empty, and the task that waits for room in it can run again. *)
Theorem serial_transmits `{TtyEnv} depth ch k t c l ier : tty_table k !! ch = Some t -> queue_wf (write_q t) -> chars (write_q t) = c :: l ->
  q_proc_list (write_q t) = 0 \/ is_Some (tasks (the_sched k) !! q_proc_list (write_q t)) -> let port := q_data (read_q t) in port <> 0x20 ->
  exists k' wq, for_each (c :: l) (fun _ => rs_interrupt depth ch) (mk_serial (answers port ier (c :: l)) k) = Ok tt (mk_serial [] k')
    /\ tty_table k' = <[ch := put write_q wq t]> (tty_table k) /\ chars wq = []
    /\ out_on port (ports (the_sched k')) = out_on port (ports (the_sched k)) ++ map u8 (c :: l)
    /\ (exists p0, ports (the_sched k') = (0x20, 0x20) :: (port + 1, Z.land ier 0xd) :: p0)
    /\ tasks (the_sched k') = woken (q_proc_list (write_q t)) (tasks (the_sched k)).
Proof.
  intros Ht W Hc Hp port Hport. rewrite (sending_start ch k t Ht).
  destruct (sends_all depth ch k t Ht l c _ (ports (the_sched k)) (write_q t) ier W Hc Hp Hport) as (p' & wq & E & W' & C' & O' & H').
  eexists _, wq. split_and!; [exact E | done..].
Qed.

(** Two characters on the first line, and a task that waits. *)
Lemma serial_transmits_witness : exists k', for_each [104; 105] (fun _ => @rs_interrupt quiet 1 1)
    (mk_serial (answers 0x3f8 0x0f [104; 105]) (mk_kterm empty_fs demo_con (alter (put write_q (queue_of 0x3f8 [104; 105])) 1%nat init_tty_table) 0)) = Ok tt (mk_serial [] k')
  /\ out_on 0x3f8 (ports (the_sched k')) = [104; 105].
Proof.
  destruct (@serial_transmits quiet 1 1 (mk_kterm empty_fs demo_con (alter (put write_q (queue_of 0x3f8 [104; 105])) 1%nat init_tty_table) 0)
    (put write_q (queue_of 0x3f8 [104; 105]) (serial_tty 0x3f8)) 104 [105] 0x0f) as (k' & wq & E & _ & _ & O & _); [reflexivity | by constructor | vm_compute; reflexivity | by left | done |].
  exists k'. split; [exact E | exact O].
Defined.
