(* ===== verification/Printk.v ===== *)
(** Messages of the kernel: [printk] (kernel/printk.c), which formats a text and writes it to
    the console, [panic] (kernel/panic.c), and the lists of tasks (show_task and show_stat of
    kernel/sched.c). *)
From stdpp Require Import base list gmap strings.
From Stdlib Require Import ZArith Lia.
From S2P Require Import Prelude Vsprintf Console Terminal Memory Sched FsState Buffer Files Process Tty TtyQueue TtySpec TtyCook TtyWrite.
Open Scope Z_scope.

Definition crlf : string := String (Ascii.ascii_of_nat 10) (String (Ascii.ascii_of_nat 13) EmptyString).

Section Printk.
Context `{TtyEnv}.

(** [static char buf[1024]]. *)
Definition PRINTK_BUF : Z := 1024.
(** While %fs is the segment of the kernel, what [get_fs_byte] reads is the buffer, which
    starts at address 0 here. *)
Definition with_text (text : list Z) : M kterm unit := zoom kt_fs (modify (put umem (store_bytes 0 text ∅))).
Definition printk (depth : nat) (fmt : string) (args : list va) : M kterm Z :=
  match vsprintf (cstr fmt) args with
  | Some (i, text, []) =>
    if PRINTK_BUF <? Z.of_nat (length text) then ub else
    let* fs := get (fun s => umem (kt_fs s)) in
    with_text text ;;;
    tty_write depth 0 0 i ;;;
    zoom kt_fs (modify (put umem fs)) ;;;
    ret i
  | _ => ub
  end.

(** The size of a task in bytes, as the fields of the structure give it. *)
Definition sizeof_task_struct : Z := 956.
(** The zero bytes from [a] on, at most [n]. *)
Fixpoint zero_bytes (m : mm) (n : nat) (a : Z) : Z :=
  match n with
  | O => 0
  | S n => if rd_byte m a =? 0 then 1 + zero_bytes m n (a + 1) else 0
  end.
Definition show_task (depth : nat) (nr p : Z) : M kterm unit :=
  let j := 4096 - sizeof_task_struct in
  let* t := on_sched (task_at p) in
  printk depth "%d: pid=%d, state=%d, " [VInt nr; VInt (ts_pid t); VInt (ts_state t)] ;;;
  let* m := get (fun s => fs_mm (kt_fs s)) in
  let i := zero_bytes m (Z.to_nat j) (p + sizeof_task_struct) in
  printk depth ("%d (of %d) chars free in kernel stack" ++ crlf) [VInt i; VInt j] ;;;
  ret tt.
Fixpoint show_tasks (depth n i : nat) : M kterm unit :=
  match n with
  | O => ret tt
  | S n =>
    let* p := on_sched (slot i) in
    (if cbool p then show_task depth (Z.of_nat i) p else ret tt) ;;;
    show_tasks depth n (S i)
  end.
Definition show_stat (depth : nat) : M kterm unit := show_tasks depth NR_TASKS 0.

(** [panic]: nothing happens after it.  Elsewhere only that is modelled. *)
Definition kpanic `{Env} (depth : nat) (msg : string) : M kterm unit :=
  printk depth ("Kernel panic: %s" ++ crlf) [VStr (cstr msg)] ;;;
  (let* s := get the_sched in
   let* p0 := on_sched (slot 0) in
   if current s =? p0 then printk depth ("In swapper task - not syncing" ++ crlf) [] ;;; ret tt
   else zoom kt_fs sys_sync ;;; ret tt) ;;;
  panic msg.
End Printk.
