(* ===== verification/Keyboard.v ===== *)
(** The keyboard (kernel/chr_drv/keyboard.S): the interrupt turns scan codes into characters
    in the read queue of the console, with the tables of four national keyboards. *)
From stdpp Require Import base list gmap strings.
From Stdlib Require Import ZArith Lia.
From S2P Require Import Prelude Console Memory Sched FsState Buffer Files Process Tty Printk.
Open Scope Z_scope.

(** ** Tables *)

(** The tables that depend on the keyboard: KBD_FINNISH, KBD_US, KBD_GR, KBD_FR. *)
Record layout := mk_layout { key_map : list Z; shift_map : list Z; alt_map : list Z; num_table : list Z }.

(** The end of the first two tables, from scan code 36 on. *)
Definition map_end (c : Z) : list Z :=
  [0; 42; 0; 32] ++ replicate 16 0 ++ [45; 0; 0; 0; 43] ++ replicate 7 0 ++ [c] ++ replicate 10 0.
(** The tables of the right alt key differ in two rows. *)
Definition alt_rows (digits : list Z) (q : Z) : list Z :=
  [0; 0] ++ digits ++ [0; 0] ++ q :: replicate 10 0 ++ [126; 13; 0] ++ replicate 11 0 ++ [0; 0] ++ replicate 11 0
  ++ replicate 4 0 ++ replicate 16 0 ++ replicate 5 0 ++ replicate 7 0 ++ [124] ++ replicate 10 0.
Definition alt_digits : list Z := [0; 64; 0; 36; 0; 0; 123; 91; 93; 125; 92; 0].

Definition finnish : layout := mk_layout
  ([0; 27] ++ cstr "1234567890+'" ++ [127; 9] ++ cstr "qwertyuiop}" ++ [0; 13; 0] ++ cstr "asdfghjkl|{" ++ [0; 0] ++ cstr "'zxcvbnm,.-" ++ map_end 60)
  ([0; 27] ++ [33; 34] ++ cstr "#$%&/()=?`" ++ [127; 9] ++ cstr "QWERTYUIOP]^" ++ [13; 0] ++ cstr "ASDFGHJKL\[" ++ [0; 0] ++ cstr "*ZXCVBNM;:_" ++ map_end 62)
  (alt_rows alt_digits 0) (cstr "789 456 1230,").
Definition us : layout := mk_layout
  ([0; 27] ++ cstr "1234567890-=" ++ [127; 9] ++ cstr "qwertyuiop[]" ++ [13; 0] ++ cstr "asdfghjkl;'" ++ [96; 0] ++ cstr "\zxcvbnm,./" ++ map_end 60)
  ([0; 27] ++ cstr "!@#$%^&*()_+" ++ [127; 9] ++ cstr "QWERTYUIOP{}" ++ [13; 0] ++ cstr "ASDFGHJKL:" ++ [34] ++ [126; 0] ++ cstr "|ZXCVBNM<>?" ++ map_end 62)
  (alt_rows alt_digits 0) (cstr "789 456 1230,").
Definition german : layout := mk_layout
  ([0; 27] ++ cstr "1234567890\'" ++ [127; 9] ++ cstr "qwertzuiop@+" ++ [13; 0] ++ cstr "asdfghjkl[]^" ++ [0; 35] ++ cstr "yxcvbnm,.-" ++ map_end 60)
  ([0; 27] ++ [33; 34] ++ cstr "#$%&/()=?`" ++ [127; 9] ++ cstr "QWERTZUIOP\*" ++ [13; 0] ++ cstr "ASDFGHJKL{}~" ++ [0; 39] ++ cstr "YXCVBNM;:_" ++ map_end 62)
  (alt_rows alt_digits 64) (cstr "789 456 1230,").
Definition french : layout := mk_layout
  ([0; 27] ++ [38; 123; 34] ++ cstr "'(-}_/@)=" ++ [127; 9] ++ cstr "azertyuiop^$" ++ [13; 0] ++ cstr "qsdfghjklm|" ++ [96; 0; 42] ++ cstr "wxcvbn,;:!" ++ map_end 60)
  ([0; 27] ++ cstr "1234567890]+" ++ [127; 9] ++ cstr "AZERTYUIOP<>" ++ [13; 0] ++ cstr "QSDFGHJKLM%" ++ [126; 0; 35] ++ cstr "WXCVBN?./\" ++ map_end 62)
  (alt_rows ([0] ++ cstr "~#{[|`\^@]}") 64) (cstr "789 456 1230.").

Definition cur_table : list Z := cstr "HA5 DGC YB623".
Definition func_table : list Z :=
  [0x415b5b1b; 0x425b5b1b; 0x435b5b1b; 0x445b5b1b; 0x455b5b1b; 0x465b5b1b; 0x475b5b1b; 0x485b5b1b; 0x495b5b1b; 0x4a5b5b1b; 0x4b5b5b1b; 0x4c5b5b1b].

(** The routine for a scan code. *)
Inductive routine :=
  none | do_self | minus | ctrl | unctrl | alt | unalt | lshift | unlshift | rshift | unrshift | caps | uncaps | num | scroll | cursor | func.
Definition key_table : list routine :=
  [none] ++ replicate 28 do_self ++ [ctrl] ++ replicate 12 do_self ++ [lshift] ++ replicate 10 do_self ++ [minus; rshift; do_self]
  ++ [alt; do_self; caps] ++ replicate 10 func ++ [num; scroll] ++ replicate 3 cursor ++ [do_self] ++ replicate 3 cursor ++ [do_self] ++ replicate 5 cursor
  ++ [none; none; do_self; func] ++ [func] ++ replicate 68 none
  ++ [unctrl] ++ replicate 12 none ++ [unlshift] ++ replicate 11 none ++ [unrshift; none] ++ [unalt; none; uncaps] ++ replicate 69 none.

(** ** The state *)

(** The bytes [mode], [leds] and [e0]; how often the status of the controller was read; the
    kernel. *)
Record kbd := mk_kbd { mode : Z; leds : Z; e0 : Z; kb_polls : nat; kb_term : kterm }.
#[export] Instance kbd_fields : Fields kbd := fun k => mk_kbd (mode k) (leds k) (e0 k) (kb_polls k) (kb_term k).
Definition kbd_start (s : kterm) : kbd := mk_kbd 0 2 0 0 s.

(** What each read of the controller's status gives, and a bound for the waiting loop. *)
Class Keyboard := { kb_status : nat -> Z; kb_patience : nat }.

Section Keyboard.
Context `{TtyEnv} `{Keyboard} (lay : layout) (depth : nat).

Definition out (value port : Z) : M kbd unit := zoom kb_term (on_sched (outb value port)).

Fixpoint kb_wait_loop (fuel : nat) : M kbd unit :=
  match fuel with
  | O => ub
  | S fuel =>
    let* n := get kb_polls in
    modify (put kb_polls (S n)) ;;;
    if cbool (Z.land (kb_status n) 0x02) then kb_wait_loop fuel else ret tt
  end.
Definition kb_wait : M kbd unit := kb_wait_loop kb_patience.

(** The bytes of %ebx:%eax go behind the head, which is in %ecx, until %eax is zero; the
    result is the queue and the new head, [None] if the queue ran full. *)
Fixpoint queue_bytes (fuel : nat) (q : tty_queue) (ecx eax ebx : Z) : option (tty_queue * option Z) :=
  match fuel with
  | O => None
  | S fuel =>
    if negb (ecx <? Z.of_nat (length (q_buf q))) then None else
    let q := over q_buf <[Z.to_nat ecx := s8 (u8 eax)]> q in
    let ecx := Z.land (ecx + 1) (TTY_BUF_SIZE - 1) in
    if ecx =? q_tail q then Some (q, None) else
    let eax := u32 (Z.lor (Z.shiftr eax 8) (Z.shiftl ebx 24)) in
    if eax =? 0 then Some (q, Some ecx) else queue_bytes fuel q ecx eax (Z.shiftr ebx 8)
  end.
Definition put_queue (eax ebx : Z) : M kbd unit :=
  zoom kb_term (
    let* t := tty 0 in
    match queue_bytes 8 (read_q t) (q_head (read_q t)) eax ebx with
    | None => ub
    | Some (q, None) => upd_tty 0 (put read_q q)
    | Some (q, Some head) =>
      upd_tty 0 (put read_q (put q_head head q)) ;;;
      if cbool (q_proc_list q) then on_sched (set_state_of (q_proc_list q) 0) else ret tt
    end).

(** ** The routines *)

(** [ctrl] and [alt], [unctrl] and [unalt]: the right keys come with a prefix. *)
Definition side (al : Z) : M kbd Z := let* x := get e0 in ret (if x =? 0 then al else u8 (al + al)).
Definition press (al : Z) : M kbd unit := let* al := side al in modify (over mode (Z.lor al)).
Definition release (al : Z) : M kbd unit := let* al := side al in modify (over mode (Z.land (u8 (Z.lnot al)))).

Definition set_leds : M kbd unit :=
  kb_wait ;;;
  out 0xed 0x60 ;;;
  kb_wait ;;;
  let* l := get leds in
  out l 0x60.
Definition caps_lock : M kbd unit :=
  let* m := get mode in
  if cbool (Z.land m 0x80) then ret tt else
  modify (over leds (Z.lxor 4)) ;;;
  modify (over mode (Z.lxor 0x40)) ;;;
  modify (over mode (Z.lor 0x80)) ;;;
  set_leds.

(** The controller is asked to reset the machine, and nothing else happens. *)
Definition reboot : M kbd unit :=
  kb_wait ;;;
  zoom kb_term (zoom kt_fs (on_mm (store_all 0x472 [0x34; 0x12]))) ;;;
  out 0xfc 0x64 ;;;
  panic "reboot".

Definition cur (al : nat) : M kbd unit :=
  let* c := need (cur_table !! al) in
  let ax := if 57 <? c then c else c + 126 * 2 ^ 8 in
  put_queue (ax * 2 ^ 16 + 0x5b1b) 0.
Definition cur2 (al : nat) : M kbd unit :=
  let* k := get id in
  if (e0 k =? 1) || negb (cbool (Z.land (leds k) 2)) || cbool (Z.land (mode k) 3) then cur al else
  let* c := need (num_table lay !! al) in
  put_queue c 0.
Definition cursor_key (scan : Z) : M kbd unit :=
  if scan <? 0x47 then ret tt else
  let al := scan - 0x47 in
  if 12 <? al then ret tt else
  let* m := get mode in
  if (al =? 12) && cbool (Z.land m 0x0c) && cbool (Z.land m 0x30) then reboot else cur2 (Z.to_nat al).

(** %ecx is that of the program that was interrupted. *)
Definition func_key (ecx scan : Z) : M kbd unit :=
  zoom kb_term (show_stat depth) ;;;
  if scan <? 0x3B then ret tt else
  let al := scan - 0x3B in
  let ok_func al := if s32 ecx <? 4 then ret tt else let* c := need (func_table !! Z.to_nat al) in put_queue c 0 in
  if al <=? 9 then ok_func al else
  let al := u8 (al - 18) in
  if (al <? 10) || (11 <? al) then ret tt else ok_func al.

Definition self (scan : Z) : M kbd unit :=
  let* m := get mode in
  let table := if cbool (Z.land m 0x20) then alt_map lay else if cbool (Z.land m 0x03) then shift_map lay else key_map lay in
  let* al := need (table !! Z.to_nat scan) in
  if al =? 0 then ret tt else
  let al := if cbool (Z.land m 0x4c) && (97 <=? al) && (al <=? 125) then al - 32 else al in
  let al := if cbool (Z.land m 0x0c) && (64 <=? al) && (al <? 96) then al - 64 else al in
  let al := if cbool (Z.land m 0x10) then Z.lor al 0x80 else al in
  put_queue al 0.

Definition call (r : routine) (ecx scan : Z) : M kbd unit :=
  match r with
  | none => ret tt
  | do_self => self scan
  | minus => let* x := get e0 in if x =? 1 then put_queue 47 0 else self scan
  | ctrl => press 0x04
  | unctrl => release 0x04
  | alt => press 0x10
  | unalt => release 0x10
  | lshift => modify (over mode (Z.lor 0x01))
  | unlshift => modify (over mode (Z.land 0xfe))
  | rshift => modify (over mode (Z.lor 0x02))
  | unrshift => modify (over mode (Z.land 0xfd))
  | caps => caps_lock
  | uncaps => modify (over mode (Z.land 0x7f))
  | num => modify (over leds (Z.lxor 2)) ;;; set_leds
  | scroll => modify (over leds (Z.lxor 1)) ;;; set_leds
  | cursor => cursor_key scan
  | func => func_key ecx scan
  end.

(** [scan] is what is read from port 0x60. *)
Definition keyboard_interrupt (ecx scan : Z) : M kbd unit :=
  (if scan =? 0xe0 then modify (put e0 1)
   else if scan =? 0xe1 then modify (put e0 2)
   else (let* r := need (key_table !! Z.to_nat scan) in call r ecx scan) ;;; modify (put e0 0)) ;;;
  (let al := Z.lor (port_in 0x61) 0x80 in out al 0x61 ;;; out (Z.land al 0x7F) 0x61) ;;;
  out 0x20 0x20 ;;;
  zoom kb_term (do_tty_interrupt depth 0).
End Keyboard.

Lemma key_table_length : length key_table = 256%nat.
Proof. vm_compute. reflexivity. Qed.
Lemma layouts_length : Forall (fun l => length (key_map l) = 97%nat /\ length (shift_map l) = 97%nat /\ length (alt_map l) = 97%nat /\ length (num_table l) = 13%nat)
  [finnish; us; german; french].
Proof. repeat constructor. Qed.
