(* ===== verification/KeyboardSpec.v ===== *)
(** The keyboard driver (kernel/chr_drv/keyboard.S) together with the line discipline: the
    keys that are pressed and released, as scan codes, edit the line a program reads.  The
    byte [mode] says which shift keys are down, whatever was pressed before. *)
From stdpp Require Import base list gmap strings.
From Stdlib Require Import ZArith Lia.
From S2P Require Import Prelude Bits Console Terminal Memory Sched FsState Buffer Files Bytes Process Tty TtyQueue TtySpec TtyCook Printk Keyboard.
Open Scope Z_scope.

(** ** The keys *)

(** Which keys are held down, and the locks. *)
Record held := mk_held {
  h_lshift : bool; h_rshift : bool; h_lctrl : bool; h_rctrl : bool; h_lalt : bool; h_altgr : bool; h_caps : bool; h_capskey : bool;
  h_num : bool; h_scroll : bool }.
#[export] Instance held_fields : Fields held := fun h => mk_held
  (h_lshift h) (h_rshift h) (h_lctrl h) (h_rctrl h) (h_lalt h) (h_altgr h) (h_caps h) (h_capskey h) (h_num h) (h_scroll h).
Definition no_keys : held := mk_held false false false false false false false false true false.

Definition bit (b : bool) (n : Z) : Z := if b then n else 0.
Definition mode_of (h : held) : Z :=
  bit (h_lshift h) 0x01 + bit (h_rshift h) 0x02 + bit (h_lctrl h) 0x04 + bit (h_rctrl h) 0x08
  + bit (h_lalt h) 0x10 + bit (h_altgr h) 0x20 + bit (h_caps h) 0x40 + bit (h_capskey h) 0x80.
Definition leds_of (h : held) : Z := bit (h_scroll h) 1 + bit (h_num h) 2 + bit (h_caps h) 4.

(** A key is pressed or released; some keys are told from others by a prefix. *)
Inductive event := Press (ext : bool) (code : Z) | Release (ext : bool) (code : Z).
Definition prefix (ext : bool) : list Z := if ext then [0xe0] else [].
Definition scans (ev : event) : list Z :=
  match ev with Press x c => prefix x ++ [c] | Release x c => prefix x ++ [c + 0x80] end.

Definition hold (down x : bool) (code : Z) (h : held) : held :=
  if code =? 0x2a then put h_lshift down h else if code =? 0x36 then put h_rshift down h
  else if code =? 0x1d then if x then put h_rctrl down h else put h_lctrl down h
  else if code =? 0x38 then if x then put h_altgr down h else put h_lalt down h
  else h.
(** Holding caps lock down does not repeat it. *)
Definition track (h : held) (ev : event) : held :=
  match ev with
  | Press x c =>
    if c =? 0x3a then if h_capskey h then h else put h_capskey true (over h_caps negb h)
    else if c =? 0x45 then over h_num negb h else if c =? 0x46 then over h_scroll negb h
    else hold true x c h
  | Release x c => if c =? 0x3a then put h_capskey false h else hold false x c h
  end.

(** The characters of the keypad, and what the same keys send as cursor keys after ESC [. *)
Definition pad (lay : layout) : list (Z * (Z * list Z)) :=
  [(0x47, (55, cstr "H")); (0x48, (56, cstr "A")); (0x49, (57, cstr "5~")); (0x4b, (52, cstr "D")); (0x4c, (53, cstr "G")); (0x4d, (54, cstr "C"));
   (0x4f, (49, cstr "Y")); (0x50, (50, cstr "B")); (0x51, (51, cstr "6~")); (0x52, (48, cstr "2~")); (0x53, (default 0 (last (num_table lay)), cstr "3~"))].
Definition pad_key (lay : layout) (code : Z) : option (Z * list Z) :=
  match list_find (fun x => x.1 = code) (pad lay) with Some (_, (_, v)) => Some v | None => None end.
Definition shifted (h : held) : bool := h_lshift h || h_rshift h.
Definition controlled (h : held) : bool := h_lctrl h || h_rctrl h.
Definition capital (c : Z) : Z := if (97 <=? c) && (c <=? 125) then c - 32 else c.
Definition control (c : Z) : Z := if (64 <=? c) && (c <? 96) then c - 64 else c.
Definition meta (c : Z) : Z := c + 128.
(** Shift keys, locks, and codes without a key. *)
Definition silent (code : Z) : bool := bool_decide (code ∈ [0; 0x1d; 0x2a; 0x36; 0x38; 0x3a; 0x45; 0x46; 0x54; 0x55]).
Definition table_of (lay : layout) (h : held) : list Z := if h_altgr h then alt_map lay else if shifted h then shift_map lay else key_map lay.

(** The shift keys change a character one after the other. *)
Definition key_char (h : held) (c : Z) : Z :=
  let c := if controlled h || h_caps h then capital c else c in
  let c := if controlled h then control c else c in
  if h_lalt h then meta c else c.
(** The bytes a key sends, and the characters of a sequence of keys. *)
Definition key_bytes (lay : layout) (h : held) (x : bool) (code : Z) : list Z :=
  match pad_key lay code with
  | Some (c, seq) => if x || negb (h_num h) || shifted h then [27; 91] ++ seq else [c]
  | None =>
    if (code =? 0x35) && x then [47] else
    if silent code then [] else
    let c := default 0 (table_of lay h !! Z.to_nat code) in
    if c =? 0 then [] else [key_char h c]
  end.
Definition event_text (lay : layout) (h : held) (ev : event) : list Z :=
  match ev with Press x c => map s8 (key_bytes lay h x c) | Release _ _ => [] end.
Fixpoint text (lay : layout) (h : held) (evs : list event) : list Z :=
  match evs with
  | [] => []
  | ev :: evs => event_text lay h ev ++ text lay (track h ev) evs
  end.

(** The keys up to F12, without the function keys and without control-alt-delete. *)
Definition function_key (c : Z) : bool := ((0x3b <=? c) && (c <=? 0x44)) || (c =? 0x57) || (c =? 0x58).
Definition usual (h : held) (ev : event) : Prop :=
  match ev with
  | Press x c => 0 <= c <= 0x58 /\ function_key c = false /\ (c = 0x53 -> controlled h && (h_lalt h || h_altgr h) = false)
  | Release x c => 0 <= c <= 0x58
  end.
Fixpoint usual_keys (h : held) (evs : list event) : Prop :=
  match evs with [] => True | ev :: evs => usual h ev /\ usual_keys (track h ev) evs end.

(** ** Bytes in a queue *)

Lemma unle_cons b l : is_byte b -> Forall is_byte l -> (length l < 4)%nat ->
  u8 (unle (b :: l)) = b /\ u32 (Z.lor (Z.shiftr (unle (b :: l)) 8) (Z.shiftl 0 24)) = unle l.
Proof.
  intros Hb Hl Hlen. pose proof (unle_range l Hl) as Hr. unfold is_byte in Hb. change (unle (b :: l)) with (b + 256 * unle l). split.
  - unfold u8. rewrite (Z.mul_comm 256), Z.mod_add by lia. by apply Z.mod_small.
  - rewrite Z.shiftl_0_l, Z.lor_0_r, Z.shiftr_div_pow2 by lia. change (2 ^ 8) with 256. rewrite (Z.mul_comm 256), Z.div_add, Z.div_small by lia.
    apply u32_small. assert (256 ^ Z.of_nat (length l) <= 256 ^ 3) by (apply Z.pow_le_mono_r; lia). lia.
Qed.
Lemma unle_one b : unle [b] = b.
Proof. cbn. lia. Qed.
Lemma queue_bytes_ok l : forall fuel q ecx, queue_wf (put q_head ecx q) -> l <> [] -> Forall is_byte l -> Forall (fun b => b <> 0) (tail l) -> (length l <= 4)%nat -> (length l <= fuel)%nat ->
  (length (chars (put q_head ecx q)) + length l <= 1023)%nat ->
  exists q' h, queue_bytes fuel q ecx (unle l) 0 = Some (q', Some h) /\ queue_wf (put q_head h q') /\ q_proc_list q' = q_proc_list q
    /\ chars (put q_head h q') = chars (put q_head ecx q) ++ map s8 l.
Proof.
  induction l as [|b l IH]; intros fuel q ecx W Hne Hb Hz Hlen Hf Hroom; [done |]. destruct fuel as [|fuel]; [cbn in Hf; lia |].
  apply Forall_cons in Hb as (Hb0 & Hl). cbn [length tail] in *.
  destruct (unle_cons b l Hb0 Hl ltac:(lia)) as (E8 & E32). cbn [queue_bytes].
  destruct (putch_ok W b ltac:(lia)) as (q2 & Ep & W2 & _ & P2 & C2). unfold putch in Ep. case_match eqn:Hlt; [| done]. injection Ep as Ep.
  change (q_head (put q_head ecx q)) with ecx in *. change (q_buf (put q_head ecx q)) with (q_buf q) in *.
  rewrite Hlt, E8, E32. cbn [negb]. set (qb := over q_buf _ q). change (Z.land (ecx + 1) (TTY_BUF_SIZE - 1)) with (INC ecx).
  assert (E2 : put q_head (INC ecx) qb = q2) by (rewrite <- Ep; by destruct q).
  assert (Ht : (INC ecx =? q_tail qb) = false).
  { transitivity (EMPTY q2); [by rewrite <- E2 |]. destruct (EMPTY q2) eqn:Ee; [| done]. apply (EMPTY_chars W2) in Ee. rewrite Ee in C2. by destruct (chars (put q_head ecx q)). }
  rewrite Ht. destruct l as [|b' l].
  - cbn [unle Z.eqb]. exists qb, (INC ecx). rewrite E2. by split_and!.
  - assert (Hnz : (unle (b' :: l) =? 0) = false).
    { apply Z.eqb_neq. apply Forall_cons in Hz as (Hb' & _). apply Forall_cons in Hl as (Hr & Hl). unfold is_byte in Hr. pose proof (unle_range l Hl). change (unle (b' :: l)) with (b' + 256 * unle l). lia. }
    rewrite Hnz, Z.shiftr_0_l. destruct (IH fuel qb (INC ecx)) as (q' & h & E' & W' & P' & C'); rewrite ?E2; try done; [by apply Forall_cons in Hz as (_ & ?) | lia | lia | rewrite C2, length_app; cbn in *; lia |].
    exists q', h. split_and!; [done | done | by rewrite P' |]. rewrite C', E2, C2, <- app_assoc. done.
Qed.

(** ** Tables *)

Definition layouts : list layout := [finnish; us; german; french].
Definition seven_bits (l : list Z) : bool := (length l =? 97)%nat && forallb (fun b => (0 <=? b) && (b <? 128)) l.
(** The tables of the keypad are what [pad] says. *)
Definition pad_ok (lay : layout) (c : Z) : bool :=
  match pad_key lay c with
  | None => true
  | Some (ch, seq) =>
    (0x47 <=? c) && (c <=? 0x53) && bool_decide (num_table lay !! Z.to_nat (c - 0x47) = Some ch) && (0 <? ch) && (ch <? 128)
    && match cur_table !! Z.to_nat (c - 0x47) with
       | Some k => ((if 57 <? k then k else k + 126 * 2 ^ 8) * 2 ^ 16 + 0x5b1b =? unle ([27; 91] ++ seq))
       | None => false
       end && (length seq <=? 2)%nat && forallb (fun b => (0 <? b) && (b <? 128)) seq
  end.
Definition codes : list Z := map Z.of_nat (seq 0 89).
(** The routine for a key that is pressed or released. *)
Definition press_routine (c : Z) : routine :=
  if bool_decide (c ∈ map fst (pad finnish)) then cursor else if c =? 0x35 then minus
  else if c =? 0x2a then lshift else if c =? 0x36 then rshift else if c =? 0x1d then ctrl else if c =? 0x38 then alt
  else if c =? 0x3a then caps else if c =? 0x45 then num else if c =? 0x46 then scroll
  else if function_key c then func else if silent c then none else do_self.
Definition release_routine (c : Z) : routine :=
  if c =? 0x2a then unlshift else if c =? 0x36 then unrshift else if c =? 0x1d then unctrl else if c =? 0x38 then unalt
  else if c =? 0x3a then uncaps else none.
#[export] Instance routine_eq_dec : EqDecision routine.
Proof. solve_decision. Defined.

Lemma codes_all c : 0 <= c <= 0x58 -> In c codes.
Proof. intros Hc. apply in_map_iff. exists (Z.to_nat c). split; [lia | apply in_seq; lia]. Qed.
Lemma key_table_ok c : 0 <= c <= 0x58 -> key_table !! Z.to_nat c = Some (press_routine c) /\ key_table !! Z.to_nat (c + 0x80) = Some (release_routine c).
Proof.
  intros Hc. assert (H : forallb (fun c => bool_decide (key_table !! Z.to_nat c = Some (press_routine c)) && bool_decide (key_table !! Z.to_nat (c + 0x80) = Some (release_routine c))) codes = true)
    by (vm_compute; reflexivity).
  rewrite forallb_forall in H. apply codes_all, H, andb_prop in Hc as (H1 & H2). by apply bool_decide_eq_true in H1, H2.
Qed.
Lemma layouts_ok lay : lay ∈ layouts ->
  seven_bits (key_map lay) = true /\ seven_bits (shift_map lay) = true /\ seven_bits (alt_map lay) = true /\ forall c, 0 <= c <= 0x58 -> pad_ok lay c = true.
Proof.
  intros Hl. assert (H : forallb (fun lay => seven_bits (key_map lay) && (seven_bits (shift_map lay) && (seven_bits (alt_map lay) && forallb (pad_ok lay) codes))) layouts = true)
    by (vm_compute; reflexivity).
  rewrite forallb_forall in H. apply list_elem_of_In, H in Hl. apply andb_prop in Hl as (-> & Hl). apply andb_prop in Hl as (-> & Hl). apply andb_prop in Hl as (-> & Hl).
  split_and!; [done..|]. intros c Hc. rewrite forallb_forall in Hl. by apply Hl, codes_all.
Qed.
Lemma pad_facts lay c ch sq : lay ∈ layouts -> 0 <= c <= 0x58 -> pad_key lay c = Some (ch, sq) ->
  0x47 <= c <= 0x53 /\ num_table lay !! Z.to_nat (c - 0x47) = Some ch /\ is_byte ch /\ Forall (fun b => 0 < b < 128) sq /\ (length sq <= 2)%nat
  /\ exists k, cur_table !! Z.to_nat (c - 0x47) = Some k /\ (if 57 <? k then k else k + 126 * 2 ^ 8) * 2 ^ 16 + 0x5b1b = unle ([27; 91] ++ sq).
Proof.
  intros Hl Hc Hp. destruct (layouts_ok lay Hl) as (_ & _ & _ & H). specialize (H c Hc). unfold pad_ok in H. rewrite Hp in H.
  destruct (cur_table !! Z.to_nat (c - 0x47)) as [k |]; [| rewrite andb_false_r in H; done].
  rewrite !andb_true_iff, bool_decide_eq_true, !Z.leb_le, !Z.ltb_lt, Z.eqb_eq, Nat.leb_le, forallb_forall in H.
  destruct H as (((((((H1 & H2) & H3) & H4) & H5) & H6) & H7) & H8). unfold is_byte. split_and!; try done; try lia; [| by exists k].
  apply Forall_forall. intros b Hb. apply list_elem_of_In, H8 in Hb. blia.
Qed.
Lemma pad_key_codes lay c : bool_decide (c ∈ map fst (pad finnish)) = match pad_key lay c with Some _ => true | None => false end.
Proof.
  unfold pad_key. destruct (list_find (fun x => x.1 = c) (pad lay)) as [[i [c' v]] |] eqn:E.
  - apply list_find_Some in E as (E & <- & _). apply bool_decide_eq_true. change (map fst (pad finnish)) with (map fst (pad lay)).
    apply list_elem_of_fmap. exists (c', v). split; [done |]. by eapply list_elem_of_lookup_2.
  - apply list_find_None in E. apply bool_decide_eq_false. change (map fst (pad finnish)) with (map fst (pad lay)).
    intros (y & -> & Hy)%list_elem_of_fmap. rewrite Forall_forall in E. by apply (E y).
Qed.
Lemma table_entry lay h c : lay ∈ layouts -> 0 <= c <= 0x58 -> exists b, table_of lay h !! Z.to_nat c = Some b /\ 0 <= b < 128.
Proof.
  intros Hl Hc. destruct (layouts_ok lay Hl) as (H1 & H2 & H3 & _). assert (Ht : seven_bits (table_of lay h) = true) by (unfold table_of; by repeat case_match).
  unfold seven_bits in Ht. apply andb_prop in Ht as (Hlen & Hall). apply Nat.eqb_eq in Hlen.
  destruct (lookup_lt_is_Some_2 (table_of lay h) (Z.to_nat c) ltac:(lia)) as (b & Hb). exists b. split; [done |].
  rewrite forallb_forall in Hall. specialize (Hall b (proj1 (list_elem_of_In _ _) (list_elem_of_lookup_2 _ _ _ Hb))). blia.
Qed.

(** ** The bits of [mode] and [leds] *)

Definition bools : list bool := [false; true].
Definition all_held : list held :=
  a ← bools; b ← bools; c ← bools; d ← bools; e ← bools; f ← bools; g ← bools; h ← bools; i ← bools; j ← bools; [mk_held a b c d e f g h i j].
Lemma all_held_in h : In h all_held.
Proof.
  apply list_elem_of_In. assert (Hb : forall b, b ∈ bools) by (intros []; set_solver). destruct h as [a b c d e f g h i j].
  do 10 (apply list_elem_of_bind; eexists; split; [| apply Hb]). by apply list_elem_of_singleton.
Qed.
Lemma held_Z (f g : held -> Z) : forallb (fun h => f h =? g h) all_held = true -> forall h, f h = g h.
Proof. intros H h. rewrite forallb_forall in H. apply Z.eqb_eq, H, all_held_in. Qed.
Lemma held_bool (f g : held -> bool) : forallb (fun h => Bool.eqb (f h) (g h)) all_held = true -> forall h, f h = g h.
Proof. intros H h. rewrite forallb_forall in H. apply Bool.eqb_prop, H, all_held_in. Qed.
Ltac bits h := pattern h; lazymatch goal with |- (fun h => @?l h = @?r h) h => first [apply (held_Z l r) | apply (held_bool l r)]; vm_compute; reflexivity end.
Lemma mode_bits h : cbool (Z.land (mode_of h) 0x20) = h_altgr h /\ cbool (Z.land (mode_of h) 0x03) = shifted h
  /\ cbool (Z.land (mode_of h) 0x4c) = controlled h || h_caps h /\ cbool (Z.land (mode_of h) 0x0c) = controlled h
  /\ cbool (Z.land (mode_of h) 0x10) = h_lalt h /\ cbool (Z.land (mode_of h) 0x30) = h_lalt h || h_altgr h
  /\ cbool (Z.land (mode_of h) 0x80) = h_capskey h /\ cbool (Z.land (leds_of h) 2) = h_num h.
Proof. split_and!; bits h. Qed.
Lemma mode_press (h : held) x c : c ∈ [0x2a; 0x36; 0x1d; 0x38] ->
  Z.lor (if c =? 0x2a then 1 else if c =? 0x36 then 2 else let al := if c =? 0x1d then 4 else 0x10 in if (if x : bool then 1 else 0) =? 0 then al else u8 (al + al)) (mode_of h)
  = mode_of (hold true x c h) /\ leds_of (hold true x c h) = leds_of h.
Proof. rewrite !elem_of_cons, elem_of_nil. intros [-> | [-> | [-> | [-> | []]]]]; destruct x; split; bits h. Qed.
Lemma mode_release (h : held) x c : c ∈ [0x2a; 0x36; 0x1d; 0x38] ->
  Z.land (if c =? 0x2a then 0xfe else if c =? 0x36 then 0xfd else let al := if c =? 0x1d then 4 else 0x10 in u8 (Z.lnot (if (if x : bool then 1 else 0) =? 0 then al else u8 (al + al)))) (mode_of h)
  = mode_of (hold false x c h) /\ leds_of (hold false x c h) = leds_of h.
Proof. rewrite !elem_of_cons, elem_of_nil. intros [-> | [-> | [-> | [-> | []]]]]; destruct x; split; bits h. Qed.
Lemma mode_locks h : Z.land 0x7f (mode_of h) = mode_of (put h_capskey false h) /\ Z.lxor 2 (leds_of h) = leds_of (over h_num negb h)
  /\ Z.lxor 1 (leds_of h) = leds_of (over h_scroll negb h) /\ Z.lxor 4 (leds_of h) = leds_of (put h_capskey true (over h_caps negb h))
  /\ Z.lor 0x80 (Z.lxor 0x40 (mode_of h)) = mode_of (put h_capskey true (over h_caps negb h)).
Proof. split_and!; bits h. Qed.

(** ** Feeding the queue *)

(** Terminal [t] is the console, waits for keys, and [e] is what was typed so far. *)
Record types (s : kterm) (t : tty_struct) (e : editor) : Prop := {
  ty_tty : tty_table s !! 0%nat = Some t;
  ty_ready : tty_ready s t;
  ty_holds : holds t (secondary t) e;
  ty_stopped : e_stopped e = tty_stopped t;
  ty_empty : chars (read_q t) = [];
  ty_proc : q_proc_list (read_q t) = 0 }.

(** What the interrupt does before the line discipline runs: ports were written, and
    characters wait in the read queue. *)
Definition fed (s : kterm) (t : tty_struct) (q : tty_queue) (p : list (Z * Z)) : kterm :=
  mk_kterm (over fs_sched (put ports p) (kt_fs s)) (kt_con s) (<[0%nat := put read_q q t]> (tty_table s)) (cr_flag s).
Definition feeds (s : kterm) (t : tty_struct) (l : list Z) (s1 : kterm) : Prop :=
  exists q p, s1 = fed s t q p /\ queue_wf q /\ chars q = l /\ q_proc_list q = 0.

Lemma feeds_none s t e : types s t e -> feeds s t [] s.
Proof.
  intros [Ht Hr _ _ He Hp]. exists (read_q t), (ports (the_sched s)). split_and!; [| by apply Hr | done | done].
  unfold fed. destruct s as [f c tb cf], t. cbn in *. rewrite list_insert_id by done. by destruct f as [[] ? ? ? ? ? ? ? ? ? ? ? ? ? ? ? ? ? ?].
Qed.

Section Keys.
Context `{TtyEnv} `{Keyboard}.
Hypothesis Hready : forall n, exists m, (m < kb_patience)%nat /\ cbool (Z.land (kb_status (n + m)) 0x02) = false.

Lemma out_fed s t l k v p : feeds s t l (kb_term k) -> exists s2, out v p k = Ok tt (put kb_term s2 k) /\ feeds s t l s2.
Proof.
  intros (q & ps & E & Hq). exists (fed s t q ((p, v) :: ps)). split; [| by exists q, ((p, v) :: ps)].
  unfold out, zoom. rewrite E. done.
Qed.
Lemma kb_wait_loop_ok m : forall fuel k, (m < fuel)%nat -> cbool (Z.land (kb_status (kb_polls k + m)) 0x02) = false ->
  exists n, kb_wait_loop fuel k = Ok tt (put kb_polls n k).
Proof.
  induction m as [|m IH]; intros fuel k Hf Hm; (destruct fuel as [|fuel]; [lia |]); cbn [kb_wait_loop]; unfold bind, get, modify.
  - rewrite Nat.add_0_r in Hm. rewrite Hm. by eexists.
  - case_match; [| by eexists]. destruct (IH fuel (put kb_polls (S (kb_polls k)) k)) as (n & E); [lia | by rewrite <- Nat.add_succ_comm in Hm |]. exists n. exact E.
Qed.
Lemma kb_wait_ok k : exists n, kb_wait k = Ok tt (put kb_polls n k).
Proof. destruct (Hready (kb_polls k)) as (m & Hm & Hs). by apply (kb_wait_loop_ok m). Qed.
Lemma set_leds_ok s t l k : feeds s t l (kb_term k) -> exists n s2, set_leds k = Ok tt (put kb_polls n (put kb_term s2 k)) /\ feeds s t l s2.
Proof.
  intros Hf. unfold set_leds. destruct (kb_wait_ok k) as (n1 & E1). rewrite (bind_Ok _ _ _ _ _ E1).
  destruct (out_fed s t l (put kb_polls n1 k) 0xed 0x60) as (s1 & E2 & Hf1); [exact Hf |]. rewrite (bind_Ok _ _ _ _ _ E2).
  destruct (kb_wait_ok (put kb_term s1 (put kb_polls n1 k))) as (n2 & E3). rewrite (bind_Ok _ _ _ _ _ E3). unfold bind, get.
  destruct (out_fed s t l (put kb_polls n2 (put kb_term s1 (put kb_polls n1 k))) (leds k) 0x60) as (s2 & E4 & Hf2); [exact Hf1 |]. by exists n2, s2.
Qed.
Lemma put_queue_ok s t e k l : types s t e -> feeds s t [] (kb_term k) -> l <> [] -> (length l <= 4)%nat -> Forall is_byte l -> Forall (fun b => b <> 0) (tail l) ->
  exists s2, put_queue (unle l) 0 k = Ok tt (put kb_term s2 k) /\ feeds s t (map s8 l) s2.
Proof.
  intros Ht (q & p & E & Wq & Cq & Pq) Hne Hlen Hl Hz.
  assert (Eq : put q_head (q_head q) q = q) by by destruct q.
  destruct (queue_bytes_ok l 8 q (q_head q)) as (q' & hd & Eb & W' & P' & C'); rewrite ?Eq, ?Cq; try done; [lia | cbn; lia |].
  exists (fed s t (put q_head hd q') p). split; [| exists (put q_head hd q'), p; rewrite C', Eq, Cq; split_and!; try done; by rewrite <- Pq, <- P'].
  assert (Hlt : (0 < length (tty_table s))%nat) by (eapply lookup_lt_Some, Ht).
  unfold put_queue, zoom. rewrite E. unfold tty, bind. change (tty_table (fed s t q p)) with (<[0%nat := put read_q q t]> (tty_table s)).
  rewrite list_lookup_insert_eq by done. cbn [need ret]. change (read_q (put read_q q t)) with q. rewrite Eb.
  unfold upd_tty. change (tty_table (fed s t q p)) with (<[0%nat := put read_q q t]> (tty_table s)). rewrite list_lookup_insert_eq by done.
  rewrite P', Pq. cbn [cbool Z.eqb negb]. unfold ret. do 2 f_equal. unfold fed, over. cbn. f_equal.
  by rewrite (alter_insert _ _ _ (put read_q q t)), list_insert_insert_eq by by apply list_lookup_insert_eq.
Qed.

(** ** One key *)

Context (lay : layout) (Hlay : lay ∈ layouts) (depth : nat).

(** [k1] is the state after a key: the bits follow the keys, and [l] was fed. *)
Record keyed (s : kterm) (t : tty_struct) (h : held) (l : list Z) (k k1 : kbd) : Prop := {
  kd_mode : mode k1 = mode_of h;
  kd_leds : leds k1 = leds_of h;
  kd_e0 : e0 k1 = e0 k;
  kd_fed : feeds s t l (kb_term k1) }.

Lemma lor_high_bit a : 0 <= a < 128 -> Z.lor a 0x80 = a + 128.
Proof. intros Ha. rewrite Z.lor_comm, (lor_low 0x80 a 7) by done. lia. Qed.
Lemma key_char_ok h b : 0 <= b < 128 ->
  let al := if (controlled h || h_caps h) && (97 <=? b) && (b <=? 125) then b - 32 else b in
  let al := if controlled h && (64 <=? al) && (al <? 96) then al - 64 else al in
  (if h_lalt h then Z.lor al 0x80 else al) = key_char h b /\ is_byte (key_char h b).
Proof.
  intros Hb al1 al2. unfold key_char. set (c1 := if controlled h || h_caps h then capital b else b). set (c2 := if controlled h then control c1 else c1).
  assert (E1 : al1 = c1) by (unfold al1, c1, capital; by destruct (controlled h || h_caps h)).
  assert (E2 : al2 = c2) by (unfold al2, c2, control; rewrite E1; by destruct (controlled h)).
  assert (H1 : 0 <= c1 < 128) by (unfold c1, capital; repeat case_match; blia).
  assert (H2 : 0 <= c2 < 128) by (unfold c2, control; repeat case_match; blia).
  rewrite E2. unfold is_byte, meta. destruct (h_lalt h); [| lia]. rewrite lor_high_bit by done. lia.
Qed.

(** A key that sends [l]. *)
Lemma sends s t e h k l : types s t e -> keyed s t h [] k k -> l <> [] -> (length l <= 4)%nat -> Forall is_byte l -> Forall (fun b => b <> 0) (tail l) ->
  exists k1, put_queue (unle l) 0 k = Ok tt k1 /\ keyed s t h (map s8 l) k k1.
Proof.
  intros Ht [Hm Hl _ Hf] H1 H2 H3 H4. destruct (put_queue_ok s t e k l Ht Hf H1 H2 H3 H4) as (s2 & E & Hf2). eexists. split; [exact E |]. by constructor.
Qed.
Lemma self_ok s t e h k c x : types s t e -> keyed s t h [] k k -> 0 <= c <= 0x58 -> pad_key lay c = None -> (c =? 0x35) && x = false -> silent c = false ->
  exists k1, self lay c k = Ok tt k1 /\ keyed s t h (map s8 (key_bytes lay h x c)) k k1.
Proof.
  intros Ht Hk Hc Hp Hx Hs. pose proof Hk as [Hm Hl _ Hf]. unfold self, key_bytes. rewrite Hp, Hx, Hs. unfold bind at 1, get. rewrite Hm.
  destruct (mode_bits h) as (B1 & B2 & B3 & B4 & B5 & _). rewrite B1, B2, B3, B4, B5. fold (table_of lay h).
  destruct (table_entry lay h c Hlay Hc) as (b & Hb & Hr). rewrite Hb. cbn [need default from_option id]. unfold bind at 1, ret at 1.
  destruct (Z.eqb_spec b 0) as [-> | Hnz]; [by exists k |]. destruct (key_char_ok h b Hr) as (Ek & Hbyte). rewrite Ek.
  destruct (sends s t e h k [key_char h b] Ht Hk) as (k1 & E & Hk1); [done | cbn; lia | by constructor | done |].
  rewrite unle_one in E. by exists k1.
Qed.
Lemma cursor_ok s t e h k c x ch sq : types s t e -> keyed s t h [] k k -> e0 k = (if x : bool then 1 else 0) -> 0 <= c <= 0x58 -> pad_key lay c = Some (ch, sq) ->
  (c = 0x53 -> controlled h && (h_lalt h || h_altgr h) = false) ->
  exists k1, cursor_key lay c k = Ok tt k1 /\ keyed s t h (map s8 (key_bytes lay h x c)) k k1.
Proof.
  intros Ht Hk Hx Hc Hp Hdel. pose proof Hk as [Hm Hl _ _]. destruct (pad_facts lay c ch sq Hlay Hc Hp) as (Hr & En & Hch & Hsq & Hlen & cc & Ec & Eu).
  unfold cursor_key, key_bytes. rewrite Hp, (proj2 (Z.ltb_ge c 0x47)), (proj2 (Z.ltb_ge 12 _)) by lia.
  unfold bind at 1, get. destruct (mode_bits h) as (_ & B2 & _ & B4 & _ & B6 & _ & B8). rewrite Hm, B4, B6.
  assert (Hd : (c - 0x47 =? 12) && controlled h && (h_lalt h || h_altgr h) = false).
  { destruct (Z.eqb_spec (c - 0x47) 12); [| done]. rewrite <- andb_assoc, Hdel by lia. done. }
  rewrite Hd. unfold cur2, bind at 1, get. cbn [id]. rewrite Hm, Hl, B2, B8, Hx. replace ((if x then 1 else 0) =? 1) with x by (by destruct x).
  destruct (x || negb (h_num h) || shifted h).
  - unfold cur. rewrite Ec. cbn [need]. unfold bind at 1, ret at 1. rewrite Eu. apply (sends s t e); [done.. | cbn; lia | |].
    + repeat (apply Forall_cons; split; [unfold is_byte; lia |]). eapply Forall_impl; [exact Hsq |]. unfold is_byte. cbn. lia.
    + cbn [tail app]. apply Forall_cons. split; [lia |]. eapply Forall_impl; [exact Hsq |]. cbn. lia.
  - rewrite En. cbn [need]. unfold bind at 1, ret at 1. destruct (sends s t e h k [ch] Ht Hk) as (k1 & E & Hk1); [done | cbn; lia | by constructor | done |].
    rewrite unle_one in E. by exists k1.
Qed.

Lemma elem_hold c : (c =? 0x2a) || (c =? 0x36) || (c =? 0x1d) || (c =? 0x38) = false -> forall down x h, hold down x c h = h.
Proof. rewrite !orb_false_iff. intros (((H1 & H2) & H3) & H4) down x h. unfold hold. by rewrite H1, H2, H3, H4. Qed.

Lemma quiet_key c h x : silent c = true -> pad_key lay c = None -> key_bytes lay h x c = [].
Proof. intros Hs Hp. unfold key_bytes. rewrite Hp, Hs. destruct (Z.eqb_spec c 0x35) as [-> |]; done. Qed.

Lemma leds_keyed s t h k k0 : mode k0 = mode_of h -> leds k0 = leds_of h -> e0 k0 = e0 k -> feeds s t [] (kb_term k0) ->
  exists k1, set_leds k0 = Ok tt k1 /\ keyed s t h [] k k1.
Proof.
  intros Hm Hl He Hf. destruct (set_leds_ok s t [] k0 Hf) as (n & s2 & E & Hf2). eexists. split; [exact E |]. by constructor.
Qed.

(** A key that is pressed. *)
Lemma key_press_ok s t e h k c x ecx : types s t e -> keyed s t h [] k k -> e0 k = (if x : bool then 1 else 0) -> usual h (Press x c) ->
  exists k1, call lay depth (press_routine c) ecx c k = Ok tt k1 /\ keyed s t (track h (Press x c)) (event_text lay h (Press x c)) k k1.
Proof.
  intros Ht Hk Hx (Hc & Hfn & Hdel). pose proof Hk as [Hm Hl _ Hf]. cbn [track event_text]. unfold press_routine. rewrite (pad_key_codes lay).
  destruct (pad_key lay c) as [[ch sq] |] eqn:Hp.
  { destruct (pad_facts lay c ch sq Hlay Hc Hp) as (Hr & _).
    rewrite (elem_hold c) by (rewrite !orb_false_iff; blia). rewrite (proj2 (Z.eqb_neq c 0x3a)), (proj2 (Z.eqb_neq c 0x45)), (proj2 (Z.eqb_neq c 0x46)) by lia.
    cbn [call]. by apply (cursor_ok s t e h k c x ch sq). }
  destruct (Z.eqb_spec c 0x35) as [-> | H35].
  { cbn [track Z.eqb Pos.eqb hold call]. unfold bind, get. rewrite Hx. destruct x; cbn [Z.eqb Pos.eqb].
    - unfold key_bytes. rewrite Hp. destruct (sends s t e h k [47] Ht Hk) as (k1 & E & Hk1); [done | cbn; lia | by constructor | done |]. by exists k1.
    - by apply (self_ok s t e). }
  destruct (bool_decide (c ∈ [0x2a; 0x36; 0x1d; 0x38])) eqn:Hin.
  { apply bool_decide_eq_true in Hin. destruct (mode_press h x c Hin) as (Em & El).
    rewrite (quiet_key c h x) by (done || (apply bool_decide_eq_true; rewrite !elem_of_cons, elem_of_nil in *; tauto)). rewrite !elem_of_cons, elem_of_nil in Hin.
    destruct Hin as [-> | [-> | [-> | [-> | []]]]]; (eexists; split; [reflexivity |]);
      (constructor; [cbn; rewrite ?Hx, Hm; exact Em | cbn; by rewrite Hl | done | done]). }
  apply bool_decide_eq_false in Hin. rewrite !elem_of_cons, elem_of_nil in Hin. rewrite (elem_hold c) by (rewrite !orb_false_iff; blia).
  destruct (mode_locks h) as (_ & L2 & L3 & L4 & L5). destruct (mode_bits h) as (_ & _ & _ & _ & _ & _ & B7 & _).
  rewrite !(proj2 (Z.eqb_neq c _)) by tauto.
  destruct (Z.eqb_spec c 0x3a) as [-> | H3a].
  { rewrite (quiet_key 0x3a h x) by done. cbn [call map]. unfold caps_lock, bind at 1, get. rewrite Hm, B7. destruct (h_capskey h); [by exists k |].
    apply leds_keyed; [cbn; rewrite Hm; exact L5 | cbn; rewrite Hl; exact L4 | done | done]. }
  destruct (Z.eqb_spec c 0x45) as [-> | H45].
  { rewrite (quiet_key 0x45 h x) by done. apply leds_keyed; [done | cbn; rewrite Hl; exact L2 | done | done]. }
  destruct (Z.eqb_spec c 0x46) as [-> | H46].
  { rewrite (quiet_key 0x46 h x) by done. apply leds_keyed; [done | cbn; rewrite Hl; exact L3 | done | done]. }
  rewrite Hfn. destruct (silent c) eqn:Hs; [rewrite quiet_key by done; by exists k |]. apply (self_ok s t e); try done. by rewrite (proj2 (Z.eqb_neq c 0x35)).
Qed.
(** A key that is released. *)
Lemma key_release_ok s t h k c x ecx : keyed s t h [] k k -> e0 k = (if x : bool then 1 else 0) ->
  exists k1, call lay depth (release_routine c) ecx (c + 0x80) k = Ok tt k1 /\ keyed s t (track h (Release x c)) [] k k1.
Proof.
  intros [Hm Hl _ Hf] Hx. cbn [track]. destruct (mode_locks h) as (L1 & _). unfold release_routine.
  destruct (bool_decide (c ∈ [0x2a; 0x36; 0x1d; 0x38])) eqn:Hin.
  { apply bool_decide_eq_true in Hin. destruct (mode_release h x c Hin) as (Em & El). rewrite !elem_of_cons, elem_of_nil in Hin.
    destruct Hin as [-> | [-> | [-> | [-> | []]]]]; (eexists; split; [reflexivity |]);
      (constructor; [cbn; rewrite ?Hx, Hm; exact Em | cbn; by rewrite Hl | done | done]). }
  apply bool_decide_eq_false in Hin. rewrite !elem_of_cons, elem_of_nil in Hin. rewrite (elem_hold c) by (rewrite !orb_false_iff; blia).
  rewrite !(proj2 (Z.eqb_neq c _)) by tauto. destruct (Z.eqb_spec c 0x3a) as [-> | H3a]; [| by exists k].
  eexists. split; [reflexivity |]. constructor; [cbn; by rewrite Hm | done..].
Qed.
End Keys.

(** ** The line discipline behind it *)

Lemma key_length t e c : (length (e_done (key t e c) ++ e_line (key t e c)) <= S (length (e_done e ++ e_line e)))%nat.
Proof.
  unfold key. destruct (cr_nl t c) as [d |]; [| lia]. generalize (if _I_FLAG t IUCLC then lower d else d). intros x. unfold type_char.
  assert (Hr : (length (removelast (e_line e)) <= length (e_line e))%nat).
  { destruct (e_line e) as [|y l _] using rev_ind; [done |]. rewrite removelast_last, length_app. lia. }
  repeat case_match; cbn; rewrite ?length_app; cbn; rewrite ?length_app; cbn; lia.
Qed.
Lemma keys_length t l : forall e, let e' := fold_left (key t) l e in (length (e_done e' ++ e_line e') <= length (e_done e ++ e_line e) + length l)%nat.
Proof. induction l as [|c l IH]; intros e; cbn [fold_left length]; [lia |]. pose proof (IH (key t e c)). pose proof (key_length t e c). cbv zeta in *. lia. Qed.
(** Signals are only added. *)
Lemma key_sent t e c m : key t (over e_sent (app m) e) c = over e_sent (app m) (key t e c).
Proof.
  unfold key. destruct (cr_nl t c) as [d |]; [| done]. generalize (if _I_FLAG t IUCLC then lower d else d). intros x. unfold type_char.
  repeat case_match; unfold over, put; cbn; by rewrite ?app_assoc.
Qed.
Lemma keys_sent t l m : forall e, fold_left (key t) l (over e_sent (app m) e) = over e_sent (app m) (fold_left (key t) l e).
Proof. induction l as [|c l IH]; intros e; cbn [fold_left]; [done |]. by rewrite key_sent, IH. Qed.
Lemma key_same t t' : tty_termios t' = tty_termios t -> key t' = key t.
Proof.
  intros E. unfold key, cr_nl, type_char, delim, _I_FLAG, _L_FLAG, KILL_CHAR, ERASE_CHAR, STOP_CHAR, START_CHAR, INTR_CHAR, QUIT_CHAR, EOF_CHAR, cc. by rewrite E.
Qed.
Definition unsent (e : editor) : editor := put e_sent [] e.
Lemma unsent_again e : over e_sent (app (e_sent e)) (unsent e) = e.
Proof. destruct e. unfold over, unsent, put. cbn. by rewrite app_nil_r. Qed.
Definition sent_by (t : tty_struct) (l : list Z) (e : editor) : list Z := e_sent (fold_left (key t) l (unsent e)).
Lemma sent_by_app t l1 l2 e : sent_by t (l1 ++ l2) e = sent_by t l1 e ++ sent_by t l2 (fold_left (key t) l1 e).
Proof.
  unfold sent_by. rewrite fold_left_app. set (e1 := fold_left (key t) l1 (unsent e)).
  assert (E : unsent (fold_left (key t) l1 e) = unsent e1) by (rewrite <- (unsent_again e) at 1; rewrite keys_sent; done).
  rewrite E. rewrite <- (unsent_again e1) at 1. by rewrite keys_sent.
Qed.

Lemma notify_all_ports g l p : forall s, notify_all g l (put ports p s) = put ports p (notify_all g l s).
Proof. induction l as [|m l IH]; intros s; [done |]. cbn [notify_all fold_left]. rewrite notify_ports. apply IH. Qed.
(** Waking a task and sending signals do not interfere. *)
Lemma notify_woken g m w s1 s2 : tasks s1 = woken w (tasks s2) -> task s1 = task s2 ->
  tasks (notify g m s1) = woken w (tasks (notify g m s2)) /\ task (notify g m s1) = task (notify g m s2).
Proof.
  intros E Et. unfold notify. destruct (g <=? 0); [done |]. split; [| done]. cbn. rewrite E, Et. unfold woken. destruct (w =? 0); [done |].
  apply map_eq. intros a. rewrite map_lookup_imap, !lookup_alter. destruct (decide (w = a)) as [-> |]; rewrite map_lookup_imap; [| done].
  destruct (tasks s2 !! a) as [k |]; [| done]. cbn. f_equal. destruct (decide (a <> 0 /\ a ∈ task s2)); [| done]. unfold notified. cbn. by destruct (ts_pgrp k =? g).
Qed.
Lemma notify_all_woken g l w : forall s1 s2, tasks s1 = woken w (tasks s2) -> task s1 = task s2 -> tasks (notify_all g l s1) = woken w (tasks (notify_all g l s2)).
Proof.
  induction l as [|m l IH]; intros s1 s2 E Et; [done |]. cbn [notify_all fold_left]. destruct (notify_woken g m w s1 s2 E Et) as (E' & Et'). by apply IH.
Qed.

Lemma may_type_same t t' l : tty_termios t' = tty_termios t -> tty_write_ptr t' = tty_write_ptr t -> Forall (may_type t (driver_char t)) l -> Forall (may_type t' (driver_char t')) l.
Proof. intros E1 E2 Hl. eapply Forall_impl; [exact Hl |]. intros c. unfold may_type, fine, driver_char, cr_nl, _I_FLAG. by rewrite E1, E2. Qed.

(** [l] was typed: from terminal [t] in state [s] to [t'] in [s']. *)
Record typed (s : kterm) (t : tty_struct) (e : editor) (l : list Z) (s' : kterm) (t' : tty_struct) : Prop := {
  td_table : tty_table s' = <[0%nat := t']> (tty_table s);
  td_same : tty_termios t' = tty_termios t /\ tty_pgrp t' = tty_pgrp t /\ tty_write_ptr t' = tty_write_ptr t;
  td_types : types s' t' (fold_left (key t) l e);
  td_slots : task (the_sched s') = task (the_sched s);
  td_proc : q_proc_list (secondary t') = 0;
  td_tasks : tasks (the_sched s') = woken (q_proc_list (secondary t)) (tasks (notify_all (tty_pgrp t) (sent_by t l e) (the_sched s))) }.

Lemma typed_app s t e l1 s1 t1 l2 s2 t2 : typed s t e l1 s1 t1 -> typed s1 t1 (fold_left (key t) l1 e) l2 s2 t2 -> typed s t e (l1 ++ l2) s2 t2.
Proof.
  intros [A1 (A2 & A3 & A4) A5 A6 A7 A8] [B1 (B2 & B3 & B4) B5 B6 B7 B8]. rewrite (key_same t t1 A2) in B5. constructor.
  - by rewrite B1, A1, list_insert_insert_eq.
  - split_and!; congruence.
  - by rewrite fold_left_app.
  - congruence.
  - done.
  - rewrite B8, A7, A3. change (woken 0 ?m) with m. rewrite (notify_all_woken _ _ _ _ _ A8) by by rewrite notify_all_slots.
    f_equal. f_equal. rewrite sent_by_app. unfold sent_by at 1. rewrite (key_same t t1 A2). unfold notify_all. by rewrite fold_left_app.
Qed.

Section Typing.
Context `{TtyEnv} `{Keyboard} (depth : nat).
Hypothesis Hpat : (1024 <= tty_patience)%nat.
Hypothesis Hready : forall n, exists m, (m < kb_patience)%nat /\ cbool (Z.land (kb_status (n + m)) 0x02) = false.

Lemma cooked s t e l s1 : types s t e -> feeds s t l s1 -> Forall (may_type t (driver_char t)) l -> (length (e_done e ++ e_line e) + length l < 1023)%nat ->
  exists s' t', do_tty_interrupt (S depth) 0 s1 = Ok tt s' /\ typed s t e l s' t'.
Proof.
  intros [T1 [R1 R2 R3 R4 R5] T3 T4 T5 T6] (q & p & -> & Wq & Cq & Pq) Hm Hroom. assert (Hlt : (0 < length (tty_table s))%nat) by by eapply lookup_lt_Some.
  set (t1 := put read_q q t). set (s1 := fed s t q p).
  destruct (copy_to_cooked_ok s1 0 t1 (unsent e) depth) as (n & s' & t' & E & E1 & E2 & E3 & E4 & E5 & E6 & E7 & E8 & E9 & E10 & E11 & E12 & E13).
  - by apply list_lookup_insert_eq.
  - constructor; [done | done | done | by apply ports_wf | done].
  - destruct T3. by constructor.
  - done.
  - done.
  - change (read_q t1) with q. by rewrite Cq.
  - done.
  - cbv zeta in *. change (read_q t1) with q in *. rewrite Cq in *. change (key t1) with (key t) in *.
    assert (Hn : drop n l = []).
    { destruct E7 as [? | E7]; [done |]. pose proof (keys_length t (take n l) (unsent e)) as Hk. cbv zeta in Hk. rewrite <- (ho_chars _ _ _ E5), E7, length_take in Hk.
      change (e_done (unsent e)) with (e_done e) in Hk. change (e_line (unsent e)) with (e_line e) in Hk. lia. }
    assert (Ht : take n l = l) by (rewrite <- (take_drop n l) at 2; by rewrite Hn, app_nil_r). rewrite Ht in *.
    assert (Ef : over e_sent (app (e_sent e)) (fold_left (key t) l (unsent e)) = fold_left (key t) l e) by by rewrite <- keys_sent, unsent_again.
    exists s', t'. split; [exact E |]. constructor.
    + rewrite E1. cbn. by rewrite list_insert_insert_eq.
    + by split_and!.
    + rewrite <- Ef. constructor; [rewrite E1; apply list_lookup_insert_eq; cbn; by rewrite length_insert | done | by destruct E5 | done | by rewrite E6 | by rewrite E11].
    + by rewrite E13.
    + done.
    + rewrite E9. change (the_sched s1) with (put ports p (the_sched s)). f_equal. rewrite notify_all_ports. done.
Qed.

(** What an interrupt does behind the routine of the key. *)
Definition ack (m : M kbd unit) : M kbd unit :=
  m ;;; (let al := Z.lor (port_in 0x61) 0x80 in out al 0x61 ;;; out (Z.land al 0x7F) 0x61) ;;; out 0x20 0x20 ;;; zoom kb_term (do_tty_interrupt (S depth) 0).
Lemma ack_ok m k k1 s t e l : types s t e -> m k = Ok tt k1 -> feeds s t l (kb_term k1) -> Forall (may_type t (driver_char t)) l ->
  (length (e_done e ++ e_line e) + length l < 1023)%nat ->
  exists s' t', ack m k = Ok tt (put kb_term s' k1) /\ typed s t e l s' t'.
Proof.
  intros Ht E Hf Hm Hr. unfold ack. rewrite (bind_Ok _ _ _ _ _ E). set (al := Z.lor (port_in 0x61) 0x80). cbv zeta.
  destruct (out_fed s t l k1 al 0x61 Hf) as (s2 & E2 & Hf2).
  destruct (out_fed s t l (put kb_term s2 k1) (Z.land al 0x7F) 0x61) as (s3 & E3 & Hf3); [exact Hf2 |].
  destruct (out_fed s t l (put kb_term s3 k1) 0x20 0x20) as (s4 & E4 & Hf4); [exact Hf3 |].
  destruct (cooked s t e l s4 Ht Hf4 Hm Hr) as (s5 & t' & E5 & Hd). exists s5, t'. split; [| done].
  unfold bind at 1 2. rewrite E2. change (put kb_term s3 (put kb_term s2 k1)) with (put kb_term s3 k1) in E3. rewrite E3. unfold bind. rewrite E4. unfold zoom.
  change (kb_term (put kb_term s4 (put kb_term s3 k1))) with s4. by rewrite E5.
Qed.

(** The driver between two keys: no prefix, the bits say which keys are down. *)
Record idle (k : kbd) (h : held) (t : tty_struct) (e : editor) : Prop := {
  id_mode : mode k = mode_of h;
  id_leds : leds k = leds_of h;
  id_e0 : e0 k = 0;
  id_types : types (kb_term k) t e }.

Context (lay : layout) (Hlay : lay ∈ layouts).
Lemma interrupt_ack ecx scan k : keyboard_interrupt lay (S depth) ecx scan k = ack (if scan =? 0xe0 then modify (put e0 1)
   else if scan =? 0xe1 then modify (put e0 2)
   else (let* r := need (key_table !! Z.to_nat scan) in call lay (S depth) r ecx scan) ;;; modify (put e0 0)) k.
Proof. done. Qed.
Definition code_of (ev : event) : bool * Z := match ev with Press x c => (x, c) | Release x c => (x, c + 0x80) end.
(** The code itself, behind its prefix. *)
Lemma code_ok ecx k h t e ev : usual h ev -> mode k = mode_of h -> leds k = leds_of h -> e0 k = (if (code_of ev).1 then 1 else 0) -> types (kb_term k) t e ->
  Forall (may_type t (driver_char t)) (event_text lay h ev) -> (length (e_done e ++ e_line e) + length (event_text lay h ev) < 1023)%nat ->
  exists k' t', keyboard_interrupt lay (S depth) ecx (code_of ev).2 k = Ok tt k' /\ idle k' (track h ev) t' (fold_left (key t) (event_text lay h ev) e)
    /\ typed (kb_term k) t e (event_text lay h ev) (kb_term k') t'.
Proof.
  intros Hu Hm Hl He Ht Hmt Hr. assert (Hk : keyed (kb_term k) t h [] k k) by (constructor; [done.. | by apply (feeds_none _ _ e)]).
  assert (exists r k1, key_table !! Z.to_nat (code_of ev).2 = Some r /\ (code_of ev).2 <> 0xe0 /\ (code_of ev).2 <> 0xe1
    /\ call lay (S depth) r ecx (code_of ev).2 k = Ok tt k1 /\ keyed (kb_term k) t (track h ev) (event_text lay h ev) k k1) as (r & k1 & Er & H0' & H1' & Ec & [K1 K2 K3 K4]).
  { destruct ev as [x c | x c]; cbn [code_of fst snd] in *; cbn [usual] in Hu.
    - destruct (key_table_ok c ltac:(lia)) as (Er & _). destruct (key_press_ok Hready lay Hlay (S depth) (kb_term k) t e h k c x ecx Ht Hk He Hu) as (k1 & E & K).
      exists (press_routine c), k1. split_and!; [done | lia | lia | done | done].
    - destruct (key_table_ok c ltac:(lia)) as (_ & Er). destruct (key_release_ok lay (S depth) (kb_term k) t h k c x ecx Hk He) as (k1 & E & K).
      exists (release_routine c), k1. split_and!; [done | lia | lia | done | done]. }
  rewrite interrupt_ack, (proj2 (Z.eqb_neq _ _) H0'), (proj2 (Z.eqb_neq _ _) H1').
  match goal with |- context [ack ?m k] => destruct (ack_ok m k (put e0 0 k1) (kb_term k) t e (event_text lay h ev) Ht) as (s' & t' & E & Hd); [| exact K4 | done | done |] end.
  { rewrite Er. cbn [need]. unfold bind at 1 2, ret at 1. rewrite Ec. reflexivity. }
  exists (put kb_term s' (put e0 0 k1)), t'. split_and!; [exact E | | exact Hd]. constructor; [exact K1 | exact K2 | done | apply Hd].
Qed.

(** The interrupts for a list of scan codes, each with the %ecx of whoever it interrupts. *)
Definition interrupts (l : list (Z * Z)) : M kbd unit := for_each l (fun x => keyboard_interrupt lay (S depth) x.1 x.2).

Lemma prefix_ok ecx k h t e : idle k h t e -> (length (e_done e ++ e_line e) < 1023)%nat ->
  exists k' t', keyboard_interrupt lay (S depth) ecx 0xe0 k = Ok tt k' /\ typed (kb_term k) t e [] (kb_term k') t'
    /\ mode k' = mode k /\ leds k' = leds k /\ e0 k' = 1.
Proof.
  intros [Hm Hl He Ht] Hr. rewrite interrupt_ack.
  match goal with |- context [ack ?m k] => destruct (ack_ok m k (put e0 1 k) (kb_term k) t e [] Ht) as (s' & t' & E & Hd); [done | by apply (feeds_none _ _ e) | done | cbn; lia |] end.
  by exists (put kb_term s' (put e0 1 k)), t'.
Qed.
Lemma event_ok l k h t e ev : usual h ev -> idle k h t e -> map snd l = scans ev ->
  Forall (may_type t (driver_char t)) (event_text lay h ev) -> (length (e_done e ++ e_line e) + length (event_text lay h ev) < 1023)%nat ->
  exists k' t', interrupts l k = Ok tt k' /\ idle k' (track h ev) t' (fold_left (key t) (event_text lay h ev) e)
    /\ typed (kb_term k) t e (event_text lay h ev) (kb_term k') t'.
Proof.
  intros Hu Hid Hl Hm Hr. pose proof Hid as [I1 I2 I3 I4].
  assert (Es : scans ev = prefix (code_of ev).1 ++ [(code_of ev).2]) by by destruct ev. rewrite Es in Hl. destruct (code_of ev).1 eqn:Ex; cbn [prefix app] in Hl.
  - destruct l as [|[c1 x1] [|[c2 x2] [|]]]; try done. injection Hl as -> ->. unfold interrupts. cbn [for_each fst snd].
    destruct (prefix_ok c1 k h t e Hid ltac:(lia)) as (k1 & t1 & E1 & D1 & M1 & L1 & X1). rewrite (bind_Ok _ _ _ _ _ E1). pose proof D1 as [_ (D2 & _ & D3) Ht1 _ _ _].
    destruct (code_ok c2 k1 h t1 e ev Hu) as (k2 & t2 & E2 & I & D); rewrite ?M1, ?L1, ?Ex; try done.
    { by apply (may_type_same t). }
    rewrite (bind_Ok _ _ _ _ _ E2). exists k2, t2. rewrite (key_same t t1 D2) in I. split_and!; [done | done |]. exact (typed_app _ _ _ [] _ _ _ _ _ D1 D).
  - destruct l as [|[c2 x2] [|]]; try done. injection Hl as ->. unfold interrupts. cbn [for_each fst snd].
    destruct (code_ok c2 k h t e ev Hu I1 I2 ltac:(by rewrite Ex) I4 Hm Hr) as (k2 & t2 & E2 & I & D). rewrite (bind_Ok _ _ _ _ _ E2). by exists k2, t2.
Qed.

Lemma interrupts_app l1 l2 k k1 : interrupts l1 k = Ok tt k1 -> interrupts (l1 ++ l2) k = interrupts l2 k1.
Proof.
  revert k. induction l1 as [|x l1 IH]; intros k E; [by injection E as -> |]. unfold interrupts in *. cbn [app for_each] in *.
  destruct (keyboard_interrupt lay (S depth) x.1 x.2 k) as [[] k0 | | |] eqn:E0; unfold bind in *; rewrite E0 in *; [| done..]. by apply IH.
Qed.
Lemma events_ok evs : forall ev l k h t e, usual_keys h (ev :: evs) -> idle k h t e -> map snd l = concat (map scans (ev :: evs)) ->
  Forall (may_type t (driver_char t)) (text lay h (ev :: evs)) -> (length (e_done e ++ e_line e) + length (text lay h (ev :: evs)) < 1023)%nat ->
  exists k' t', interrupts l k = Ok tt k' /\ idle k' (fold_left track (ev :: evs) h) t' (fold_left (key t) (text lay h (ev :: evs)) e)
    /\ typed (kb_term k) t e (text lay h (ev :: evs)) (kb_term k') t'.
Proof.
  induction evs as [|ev2 evs IH]; intros ev l k h t e (Hu & Hus) Hid Hl Hm Hr.
  { cbn [text fold_left map concat] in *. rewrite app_nil_r in *. by apply event_ok. }
  change (text lay h (ev :: ev2 :: evs)) with (event_text lay h ev ++ text lay (track h ev) (ev2 :: evs)) in *. apply Forall_app in Hm as (Hm1 & Hm2). rewrite (length_app (event_text lay h ev)) in Hr.
  set (n := length (scans ev)). change (concat (map scans (ev :: ev2 :: evs))) with (scans ev ++ concat (map scans (ev2 :: evs))) in Hl.
  assert (H1 : map snd (take n l) = scans ev) by (change (snd <$> take n l = scans ev); rewrite fmap_take; change (snd <$> l) with (map snd l); rewrite Hl; by apply take_app_length).
  assert (H2 : map snd (drop n l) = concat (map scans (ev2 :: evs))) by (change (snd <$> drop n l = concat (map scans (ev2 :: evs))); rewrite fmap_drop; change (snd <$> l) with (map snd l); rewrite Hl; by apply drop_app_length).
  destruct (event_ok (take n l) k h t e ev Hu Hid H1 Hm1 ltac:(lia)) as (k1 & t1 & E1 & I1 & D1). pose proof D1 as [_ (S1 & _ & S2) _ _ _ _].
  pose proof (keys_length t (event_text lay h ev) e) as Hk. cbv zeta in Hk.
  destruct (IH ev2 (drop n l) k1 (track h ev) t1 (fold_left (key t) (event_text lay h ev) e) Hus I1 H2 (may_type_same t t1 _ S1 S2 Hm2) ltac:(lia)) as (k2 & t2 & E2 & I2 & D2).
  exists k2, t2. rewrite fold_left_app. rewrite (key_same t t1 S1) in I2. split_and!; [| exact I2 | exact (typed_app _ _ _ _ _ _ _ _ _ D1 D2)].
  rewrite <- (take_drop n l). by rewrite (interrupts_app _ _ _ _ E1).
Qed.
End Typing.

(** C8: from the keys to the line.  However keys are pressed and released on one of the four
    keyboards (function keys and control-alt-delete excepted), whoever the interrupts
    interrupt, the driver knows afterwards which shift keys are down and which locks are on,
    and the line a program can read is what the line editor makes of the text of the keys:
    each key stands for its character under the shift keys that are down when it is pressed,
    in upper case with caps lock, as a control character, with the high bit, or as the
    sequence of a cursor key.  The signals of the text are sent, the task that waits is
    woken, and other terminals and the settings do not change. *)
Theorem keyboard_types `{TtyEnv} `{Keyboard} lay depth l k h t e evs : (1024 <= tty_patience)%nat ->
  (forall n, exists m, (m < kb_patience)%nat /\ cbool (Z.land (kb_status (n + m)) 0x02) = false) ->
  lay ∈ layouts -> idle k h t e -> evs <> [] -> usual_keys h evs -> map snd l = concat (map scans evs) ->
  Forall (may_type t (driver_char t)) (text lay h evs) -> (length (e_done e ++ e_line e) + length (text lay h evs) < 1023)%nat ->
  exists k' t', interrupts depth lay l k = Ok tt k' /\ idle k' (fold_left track evs h) t' (fold_left (key t) (text lay h evs) e)
    /\ typed (kb_term k) t e (text lay h evs) (kb_term k') t'.
Proof. intros Hpat Hr Hlay Hid Hne Hu Hl Hm Hroom. destruct evs as [|ev evs]; [done |]. by apply (events_ok depth Hpat Hr lay Hlay evs ev l k h t e). Qed.

(** Shift and [a], [b], rub out, caps lock, [c], return: [AC] and a new line can be read. *)
Definition demo_keys : list event :=
  [Press false 0x2a; Press false 0x1e; Release false 0x1e; Release false 0x2a; Press false 0x30; Release false 0x30; Press false 0x0e; Release false 0x0e;
   Press false 0x3a; Release false 0x3a; Press false 0x2e; Release false 0x2e; Press false 0x1c; Release false 0x1c].
Definition demo_controller : Keyboard := {| kb_status _ := 0; kb_patience := 1 |}.
Definition demo_console : tty_struct :=
  mk_tty (mk_termios ICRNL (Z.lor OPOST ONLCR) 0 (Z.lor ISIG (Z.lor ICANON (Z.lor ECHO (Z.lor ECHOCTL ECHOKE)))) 0 INIT_C_CC [0; 0])
    0 0 con_write_ptr (new_queue 0) (new_queue 0) (new_queue 0).
Lemma demo_idle : idle (kbd_start (demo_term [])) no_keys demo_console (mk_editor [] [] 0 []).
Proof.
  constructor; [done.. |]. constructor; [reflexivity | | | reflexivity | reflexivity | reflexivity].
  - constructor; [by constructor | split; [by constructor | by constructor] | exact (conj demo_con_wf eq_refl) | exact (demo_term_sched _) | by left].
  - constructor; [by constructor | reflexivity | by constructor | by left | reflexivity | reflexivity].
Qed.
Lemma keyboard_types_witness : exists k' t', @interrupts quiet demo_controller 0 us (map (fun c => (0, c)) (concat (map scans demo_keys))) (kbd_start (demo_term [])) = Ok tt k'
  /\ tty_table (kb_term k') !! 0%nat = Some t' /\ chars (secondary t') = [65; 67; 10] /\ mode k' = 0x40.
Proof.
  destruct (@keyboard_types quiet demo_controller us 0 (map (fun c => (0, c)) (concat (map scans demo_keys))) (kbd_start (demo_term [])) no_keys demo_console (mk_editor [] [] 0 []) demo_keys) as (k' & t' & E & [I1 _ _ [T1 _ T3 _ _ _]] & _);
    [cbn; lia | | | exact demo_idle | done | | reflexivity | | |].
  - intros n. exists 0%nat. split; [cbn; lia | reflexivity].
  - unfold layouts. rewrite !elem_of_cons. tauto.
  - vm_compute. repeat split; congruence.
  - vm_compute. repeat (apply Forall_cons; split; [repeat split; congruence |]). by constructor.
  - vm_compute. lia.
  - exists k', t'. split_and!; [exact E | exact T1 | rewrite (ho_chars _ _ _ T3); vm_compute; reflexivity | rewrite I1; vm_compute; reflexivity].
Defined.
