(* ===== verification/Exec.v ===== *)
(** Loading programs: fs/exec.c with the header of an executable (include/a.out.h), and the
    loading of pages when they are first used, [share_page] and [do_no_page] of
    mm/memory.c. *)
From stdpp Require Import base list gmap strings.
From Stdlib Require Import ZArith Lia.
From S2P Require Import Prelude Memory Sched FsState Buffer Inode Namei Files Process.
Open Scope Z_scope.

(** ** Memory as a program sees it *)

(** The page the page tables show at a linear address. *)
Definition page_of (s : mm) (address : Z) : option Z :=
  let d := rd s (Z.land (Z.shiftr address 20) 0xffc) in
  if negb (present d) then None else
  let e := rd s (frame d + 4 * Z.land (Z.shiftr address 12) 0x3ff) in
  if present e then Some (frame e) else None.
Definition page_bytes (s : mm) (p : Z) : list Z := map (fun k => rd_byte s (p + k)) (seqZ 0 4096).

(** What a program whose segment of 64 MB starts at [base] finds in the pages it has; a
    page it does not have yet is empty, or is loaded when it is used. *)
Definition user_memory (s : mm) (base : Z) : gmap Z Z :=
  foldr (fun i m => match page_of s (base + 4096 * i) with Some p => store_bytes (4096 * i) (page_bytes s p) m | None => m end)
    ∅ (seqZ 0 16384).

(** ** The header of an executable *)

Record exec := mk_exec {
  a_magic : Z; a_text : Z; a_data : Z; a_bss : Z; a_syms : Z; a_entry : Z; a_trsize : Z; a_drsize : Z }.
Definition exec_of (l : list Z) : exec :=
  mk_exec (bytes_at l 0 4) (bytes_at l 4 4) (bytes_at l 8 4) (bytes_at l 12 4)
    (bytes_at l 16 4) (bytes_at l 20 4) (bytes_at l 24 4) (bytes_at l 28 4).
Definition N_MAGIC (ex : exec) : Z := a_magic ex.
Definition ZMAGIC : Z := 0x10b.
Definition SEGMENT_SIZE : Z := 1024.
Definition _N_HDROFF : Z := SEGMENT_SIZE - 32.
Definition N_TXTOFF (ex : exec) : Z := if N_MAGIC ex =? ZMAGIC then _N_HDROFF + 32 else 32.

(** ** Arguments *)

Definition MAX_ARG_PAGES : Z := 32.
Definition S_ISUID : Z := 0x800.
Definition S_ISGID : Z := 0x400.
Definition ENOEXEC : Z := 8.

Definition get_fs_byte (a : Z) : M fs_state Z := get (fun s => default 0 (umem s !! a)).

(** [while (get_fs_byte(p++)) ;]: the address behind the string. *)
Fixpoint skip_string (fuel : nat) (p : Z) : M fs_state Z :=
  match fuel with
  | O => ub
  | S fuel => let* c := get_fs_byte p in if cbool c then skip_string fuel (p + 1) else ret (p + 1)
  end.
(** The addresses of [n] strings from [p] on are put into the table at [a]; the results
    are the ends of both. *)
Fixpoint put_table (fuel n : nat) (p a : Z) : M fs_state (Z * Z) :=
  match n with
  | O => ret (p, a)
  | S n => put_fs_long p a ;;; let* p := skip_string fuel p in put_table fuel n p (a + 4)
  end.
Definition create_tables (fuel : nat) (p argc envc : Z) : M fs_state Z :=
  let sp := Z.land 0xfffffffc p in
  let envp := sp - 4 * (envc + 1) in
  let argv := envp - 4 * (argc + 1) in
  put_fs_long envp (argv - 4) ;;;
  put_fs_long argv (argv - 8) ;;;
  put_fs_long argc (argv - 12) ;;;
  let* (p, a) := put_table fuel (Z.to_nat argc) p argv in
  put_fs_long 0 a ;;;
  let* (p, a) := put_table fuel (Z.to_nat envc) p envp in
  put_fs_long 0 a ;;;
  ret (argv - 12).

Fixpoint count_loop (fuel : nat) (tmp i : Z) : M fs_state Z :=
  match fuel with
  | O => ub
  | S fuel => let* v := get_fs_long tmp in if cbool v then count_loop fuel (tmp + 4) (i + 1) else ret i
  end.
Definition count (fuel : nat) (argv : Z) : M fs_state Z :=
  if cbool argv then count_loop fuel argv 0 else ret 0.

(** [copy_strings] with what [fs] selects for reading the table of pointers ([pointer]) and
    for reading the strings ([byte]). *)
Section CopyStrings.
Context (pointer byte : Z -> M fs_state Z).

(** [do len++; while (get_fs_byte(tmp++));]: the new [tmp]. *)
Fixpoint string_end (fuel : nat) (tmp : Z) : M fs_state Z :=
  match fuel with
  | O => ub
  | S fuel => let* c := byte tmp in if cbool c then string_end fuel (tmp + 1) else ret (tmp + 1)
  end.

(** Where the copy is: the page with its index, and the next address in the argument area. *)
Record copy_at := mk_at { cp_p : Z; cp_offset : Z; cp_pag : Z; cp_page : list Z }.

(** One byte; no result if there is no memory. *)
Definition copy_byte (tmp : Z) (w : copy_at) : M fs_state (option copy_at * list Z) :=
  let p := u32 (cp_p w - 1) in
  let offset := cp_offset w - 1 in
  let* o :=
    (if offset <? 0 then
       let i := Z.to_nat (p / PAGE_SIZE) in
       let* pag := need (cp_page w !! i) in
       if cbool pag then ret (Some (mk_at p (p mod PAGE_SIZE) pag (cp_page w))) else
       let* pag := on_mm get_free_page in
       ret (if cbool pag then Some (mk_at p (p mod PAGE_SIZE) pag (<[i := pag]> (cp_page w))) else None)
     else ret (Some (mk_at p offset (cp_pag w) (cp_page w)))) in
  match o with
  | None => ret (None, cp_page w)
  | Some w =>
    let* c := byte tmp in
    on_mm (store_byte (cp_pag w + cp_offset w) c) ;;;
    ret (Some w, cp_page w)
  end.
(** [len] bytes that end in front of [tmp], from the last one on. *)
Fixpoint copy_string (len : nat) (tmp : Z) (w : copy_at) : M fs_state (option copy_at * list Z) :=
  match len with
  | O => ret (Some w, cp_page w)
  | S len =>
    let* (o, page) := copy_byte (tmp - 1) w in
    match o with None => ret (None, page) | Some w => copy_string len (tmp - 1) w end
  end.
Fixpoint copy_loop (fuel argc : nat) (argv : Z) (w : copy_at) : M fs_state (Z * list Z) :=
  match argc with
  | O => ret (cp_p w, cp_page w)
  | S argc =>
    let* tmp := pointer (argv + 4 * Z.of_nat argc) in
    if negb (cbool tmp) then panic "argc is wrong" else
    let* e := string_end fuel tmp in
    let len := e - tmp in
    if u32 (cp_p w - len) <? 0 then ret (0, cp_page w) else
    let* (o, page) := copy_string (Z.to_nat len) e w in
    match o with None => ret (0, page) | Some w => copy_loop fuel argc argv w end
  end.
Definition copy_strings (fuel : nat) (argc argv : Z) (page : list Z) (p : Z) : M fs_state (Z * list Z) :=
  if negb (cbool p) then ret (0, page) else copy_loop fuel (Z.to_nat argc) argv (mk_at p 0 0 page).
End CopyStrings.

(** The environment and the arguments of a program. *)
Definition copy_args (fuel : nat) (argc argv envc envp : Z) (page : list Z) (p : Z) : M fs_state (Z * list Z) :=
  let* (p, page) := copy_strings get_fs_long get_fs_byte fuel envc envp page p in
  copy_strings get_fs_long get_fs_byte fuel argc argv page p.

(** ** A new program *)

(** Pages [page[i-1]] down to [page[0]] are put below [data_base]. *)
Fixpoint put_arg_pages (l : list Z) (data_base : Z) : M mm unit :=
  match l with
  | [] => ret tt
  | page :: l =>
    let data_base := data_base - PAGE_SIZE in
    (if cbool page then let* _ := put_page page data_base in ret tt else ret tt) ;;;
    put_arg_pages l data_base
  end.
(** The memory of the program is from now on what its new page tables show. *)
Definition change_ldt (text_size : Z) (page : list Z) : M fs_state Z :=
  let code_limit := Z.land (u32 (text_size + PAGE_SIZE - 1)) 0xFFFFF000 in
  let data_limit := 0x4000000 in
  let* t := current_task in
  let code_base := code_base (ts_ldt t) in
  let data_base := code_base in
  set_cur ts_ldt (mk_ldt code_base code_limit data_base data_limit) ;;;
  on_mm (put_arg_pages (rev page) (data_base + data_limit)) ;;;
  modify (fun s => put umem (user_memory (fs_mm s) data_base) s) ;;;
  ret data_limit.

(** [while (i&0xfff) put_fs_byte(0,i++);] *)
Fixpoint zero_fill (fuel : nat) (i : Z) : M fs_state unit :=
  match fuel with
  | O => ret tt
  | S fuel => if cbool (Z.land i 0xfff) then put_fs_bytes i [0] ;;; zero_fill fuel (i + 1) else ret tt
  end.

(** From [free_page_tables] to [create_tables]: the address space of the new program with
    its arguments; the result is its stack pointer. *)
Definition new_image (fuel : nat) (text_size : Z) (page : list Z) (p argc envc : Z) : M fs_state Z :=
  (let* t := current_task in on_mm (free_page_tables (code_base (ts_ldt t)) (code_limit (ts_ldt t)))) ;;;
  (let* t := current_task in on_mm (free_page_tables (data_base (ts_ldt t)) (data_limit (ts_ldt t)))) ;;;
  (let* me := get (fun s => current (fs_sched s)) in
   on_sched (modify (over last_task_used_math (fun m => if m =? me then 0 else m)))) ;;;
  set_cur ts_used_math 0 ;;;
  let* limit := change_ldt text_size page in
  create_tables fuel (u32 (p + limit - MAX_ARG_PAGES * PAGE_SIZE)) argc envc.

(** *** Scripts *)

Definition NUL_at (l : list Z) (i : nat) : Z := default 0 (l !! i).
(** [strncpy(buf, bh->b_data+2, 1022); buf[1022] = '\0';] *)
Fixpoint up_to_NUL (l : list Z) : list Z := match l with [] => [] | c :: l => if c =? 0 then [] else c :: up_to_NUL l end.
Definition script_buf (data : list Z) : list Z :=
  let t := up_to_NUL (take 1022 (drop 2 data)) in t ++ replicate (1023 - length t) 0.
(** [strchr]: the index of [c], if it comes before the end of the string. *)
Fixpoint strchr (c : Z) (l : list Z) (i : nat) : option nat :=
  match l with
  | [] => None
  | x :: l => if x =? c then Some i else if x =? 0 then None else strchr c l (S i)
  end.
Definition blank (c : Z) : bool := (c =? 32) || (c =? 9).
Fixpoint skip_blanks (l : list Z) (i : nat) : nat :=
  match l with c :: l => if blank c then skip_blanks l (S i) else i | [] => i end.
(** The end of the name of the interpreter, and the part behind the last slash. *)
Fixpoint interp_name (l : list Z) (i i_name : nat) : nat * nat :=
  match l with
  | c :: l => if negb (cbool c) || blank c then (i, i_name) else interp_name l (S i) (if c =? 47 then S i else i_name)
  | [] => (i, i_name)
  end.
(** The buffer with its strings ended, and where they start: the interpreter, its last
    part, and an argument. *)
Definition parse_script (data : list Z) : option (list Z * nat * nat * option nat) :=
  let buf := script_buf data in
  match strchr 10 buf 0 with
  | None => None
  | Some n =>
    let buf := <[n := 0]> buf in
    let interp := skip_blanks buf 0 in
    if NUL_at buf interp =? 0 then None else
    let '(e, i_name) := interp_name (drop interp buf) interp interp in
    Some (if NUL_at buf e =? 0 then (buf, interp, i_name, None) else (<[e := 0]> buf, interp, i_name, Some (S e)))
  end.

(** A byte of [buf], which the kernel has at address 1. *)
Definition buf_byte (buf : list Z) (a : Z) : M fs_state Z := need (buf !! Z.to_nat (a - 1)).
Definition buf_addr (i : nat) : Z := Z.of_nat i + 1.
(** The string at [filename]. *)
Fixpoint user_string (fuel : nat) (a : Z) : M fs_state (list Z) :=
  match fuel with
  | O => ub
  | S fuel => let* c := get_fs_byte a in if cbool c then let* l := user_string fuel (a + 1) in ret (c :: l) else ret []
  end.

(** *** [do_execve] *)

(** How the search for the program ends: in [exec_error1] or [exec_error2] with [retval],
    or with a program. *)
Inductive exec_result :=
| exec_error (retval : Z) (page : list Z) (inode : option nat)
| exec_found (inode : nat) (ex : exec) (e_uid e_gid argc : Z) (page : list Z) (p : Z).

Section Execve.
Context `{Env}.

(** Whether the file may be executed, and with which rights. *)
Definition may_exec (n : nat) : M fs_state bool :=
  let* i := row inode_table n in
  let* t := current_task in
  let mode := if ts_euid t =? i_uid i then Z.shiftr (i_mode i) 6
              else if ts_egid t =? i_gid i then Z.shiftr (i_mode i) 3 else i_mode i in
  let* su := suser in
  ret (cbool (Z.land mode 1) || (cbool (Z.land (i_mode i) 0x49) && su)).
Definition exec_ids (n : nat) : M fs_state (Z * Z) :=
  let* i := row inode_table n in
  let* t := current_task in
  ret (if cbool (Z.land (i_mode i) S_ISUID) then i_uid i else ts_euid t,
       if cbool (Z.land (i_mode i) S_ISGID) then i_gid i else ts_egid t).

Definition bad_header (ex : exec) (size : Z) : bool :=
  negb (N_MAGIC ex =? ZMAGIC) || cbool (a_trsize ex) || cbool (a_drsize ex)
  || (0x3000000 <? u32 (a_text ex + a_data ex + a_bss ex))
  || (size <? u32 (a_text ex + a_data ex + a_syms ex + N_TXTOFF ex))
  || negb (N_TXTOFF ex =? Z.of_nat BLOCK_SIZE).

(** The arguments of a script: the name of the interpreter, its argument, the file. *)
Definition splice (fuel : nat) (buf : list Z) (i_name : nat) (i_arg : option nat) (filename argc : Z) (page : list Z) (p : Z)
    : M fs_state (Z * Z * list Z) :=
  let* (p, page) := copy_strings (fun _ => ret filename) get_fs_byte fuel 1 0 page p in
  let argc := argc + 1 in
  let* (argc, pp) :=
    (match i_arg with
     | Some a => let* r := copy_strings (fun _ => ret (buf_addr a)) (buf_byte buf) fuel 1 0 page p in ret (argc + 1, r)
     | None => ret (argc, (p, page))
     end) in
  let '(p, page) := pp in
  let* (p, page) := copy_strings (fun _ => ret (buf_addr i_name)) (buf_byte buf) fuel 1 0 page p in
  ret (argc + 1, p, page).

(** From [restart_interp] on; a script is followed once ([turns]). *)
Fixpoint restart_interp (fuel turns : nat) (inode : nat) (sh_bang : bool) (filename argv envp argc envc : Z) (page : list Z) (p : Z)
    : M fs_state exec_result :=
  let* i := row inode_table inode in
  if negb (S_ISREG (i_mode i)) then ret (exec_error (- EACCES) page (Some inode)) else
  let* (e_uid, e_gid) := exec_ids inode in
  let* ok := may_exec inode in
  if negb ok then ret (exec_error (- ENOEXEC) page (Some inode)) else
  let* zone := elem inode_table i_zone inode 0 in
  let* o := bread (i_dev i) zone in
  match o with
  | None => ret (exec_error (- EACCES) page (Some inode))
  | Some b =>
    let* data := bh b_data b in
    let ex := exec_of data in
    if (NUL_at data 0 =? 35) && (NUL_at data 1 =? 33) && negb sh_bang then
      brelse (Some b) ;;;
      iput (Some inode) ;;;
      match parse_script data, turns with
      | None, _ => ret (exec_error (- ENOEXEC) page None)
      | Some (buf, interp, i_name, i_arg), S turns =>
        let argc := argc - 1 in
        let* (p, page) := copy_args fuel argc (argv + 4) envc envp page p in
        let* (r, page) := splice fuel buf i_name i_arg filename argc page p in
        let '(argc, p) := r in
        if negb (cbool p) then ret (exec_error (- ENOMEM) page None) else
        let* o := namei (up_to_NUL (drop interp buf)) in
        match o with
        | None => ret (exec_error (- ENOENT) page None)
        | Some inode => restart_interp fuel turns inode true filename argv envp argc envc page p
        end
      | Some _, O => ub
      end
    else
      brelse (Some b) ;;;
      let* size := FsState.inode i_size inode in
      if bad_header ex size then ret (exec_error (- ENOEXEC) page (Some inode)) else
      if sh_bang then ret (exec_found inode ex e_uid e_gid argc page p) else
      let* (p, page) := copy_args fuel argc argv envc envp page p in
      ret (if cbool p then exec_found inode ex e_uid e_gid argc page p else exec_error (- ENOMEM) page (Some inode))
  end.

(** The point of no return: the result is the instruction and the stack pointer the
    program starts with. *)
Definition begin_program (fuel : nat) (inode : nat) (ex : exec) (e_uid e_gid argc envc : Z) (page : list Z) (p : Z) : M fs_state (Z * Z) :=
  (let* t := current_task in if cbool (ts_executable t) then iput (inode_of_ptr (ts_executable t)) else ret tt) ;;;
  set_cur ts_executable (inode_ptr inode) ;;;
  (let* t := current_task in set_cur ts_sigaction (map (put sa_handler 0) (ts_sigaction t))) ;;;
  for_each (seq 0 NR_OPEN) (fun i =>
    let* t := current_task in
    if Z.testbit (ts_close_on_exec t) (Z.of_nat i) then let* _ := sys_close (Z.of_nat i) in ret tt else ret tt) ;;;
  set_cur ts_close_on_exec 0 ;;;
  let* p := new_image fuel (a_text ex) page p argc envc in
  let end_code := a_text ex in
  let end_data := u32 (a_data ex + end_code) in
  set_cur ts_end_code end_code ;;;
  set_cur ts_end_data end_data ;;;
  set_cur ts_brk (u32 (a_bss ex + end_data)) ;;;
  set_cur ts_start_stack (Z.land p 0xfffff000) ;;;
  set_cur ts_euid (u16 e_uid) ;;;
  set_cur ts_egid (u16 e_gid) ;;;
  zero_fill 4096 (s32 (a_text ex + a_data ex)) ;;;
  ret (a_entry ex, p).

(** [cs] is [eip[1]]; on success there are a new [eip[0]] and [eip[3]]. *)
Definition do_execve (fuel : nat) (cs filename argv envp : Z) : M fs_state (Z * option (Z * Z)) :=
  if negb (Z.land 0xffff cs =? 0x000f) then panic "execve called from supervisor mode" else
  let page := replicate (Z.to_nat MAX_ARG_PAGES) 0 in
  let* name := user_string fuel filename in
  let* o := namei name in
  match o with
  | None => ret (- ENOENT, None)
  | Some inode =>
    let* argc := count fuel argv in
    let* envc := count fuel envp in
    let* r := restart_interp fuel 1 inode false filename argv envp argc envc page (PAGE_SIZE * MAX_ARG_PAGES - 4) in
    match r with
    | exec_found inode ex e_uid e_gid argc page p =>
      let* start := begin_program fuel inode ex e_uid e_gid argc envc page p in ret (0, Some start)
    | exec_error retval page o =>
      (match o with Some inode => iput (Some inode) | None => ret tt end) ;;;
      for_each page (fun p => on_mm (free_page p)) ;;;
      ret (retval, None)
    end
  end.

(** ** Loading pages when they are used (mm/memory.c) *)

(** The tasks from slot [n] down to 1. *)
Fixpoint share_with (n : nat) (address : Z) : M fs_state bool :=
  match n with
  | O => ret false
  | S n' =>
    let* p := on_sched (slot n) in
    if negb (cbool p) then share_with n' address else
    let* me := get (fun s => current (fs_sched s)) in
    if me =? p then share_with n' address else
    let* t := current_task in
    let* o := on_sched (task_at p) in
    if negb (ts_executable o =? ts_executable t) then share_with n' address else
    let* r := on_mm (try_to_share address (ts_start_code o) (ts_start_code t)) in
    if cbool r then ret true else share_with n' address
  end.
Definition share_page (address : Z) : M fs_state bool :=
  let* t := current_task in
  match inode_of_ptr (ts_executable t) with
  | None => ret false
  | Some n =>
    let* c := inode i_count n in
    if c <? 2 then ret false else share_with (NR_TASKS - 1) address
  end.

(** The blocks that could be read are copied to the page. *)
Fixpoint fill_page (page : Z) (l : list (option (list Z))) : M mm unit :=
  match l with
  | [] => ret tt
  | o :: l => (match o with Some data => store_all page data | None => ret tt end) ;;; fill_page (page + 1024) l
  end.
Fixpoint bmaps (n : nat) (inode : nat) (block : Z) : M fs_state (list Z) :=
  match n with
  | O => ret []
  | S n => let* b := bmap inode block in let* r := bmaps n inode (block + 1) in ret (b :: r)
  end.
(** The four blocks of a page, from [block] on. *)
Definition page_blocks (n : nat) (block : Z) : M fs_state (list (option (list Z))) :=
  let* nr := bmaps 4 n block in
  let* dev := inode i_dev n in
  bread_page dev nr.
(** [while (i-- > 0) { tmp--; *(char * )tmp = 0; }] *)
Fixpoint clear_back (i : nat) (tmp : Z) : M mm unit :=
  match i with
  | O => ret tt
  | S i => store_byte (tmp - 1) 0 ;;; clear_back i (tmp - 1)
  end.

(** The [error_code] argument is not used by the code. *)
Definition do_no_page (error_code address : Z) : M fs_state unit :=
  let address := Z.land address 0xfffff000 in
  let* t := current_task in
  let tmp := u32 (address - ts_start_code t) in
  match inode_of_ptr (ts_executable t) with
  | None => on_mm (get_empty_page address)
  | Some n =>
    if ts_end_data t <=? tmp then on_mm (get_empty_page address) else
    let* shared := share_page tmp in
    if shared then ret tt else
    let* page := on_mm get_free_page in
    if negb (cbool page) then on_mm oom else
    let* l := page_blocks n (1 + tmp / Z.of_nat BLOCK_SIZE) in
    on_mm (fill_page page l) ;;;
    let* t := current_task in
    on_mm (clear_back (Z.to_nat (s32 (tmp + 4096 - ts_end_data t))) (page + 4096)) ;;;
    let* r := on_mm (put_page page address) in
    if cbool r then ret tt else
    on_mm (free_page page) ;;;
    on_mm oom
  end.
End Execve.
