(* ===== verification/ExecArgs.v ===== *)
(** The arguments of a program on their way: [copy_strings] of fs/exec.c puts the strings of
    the old program into pages of physical memory. *)
From stdpp Require Import base list gmap strings.
From Stdlib Require Import ZArith Lia.
From S2P Require Import Prelude Bits Memory PageTables Sched FsState Buffer Inode Namei Files Bytes Process Exec.
Open Scope Z_scope.

(** The word of a byte in a page lies in the page. *)
Lemma word_in_page i k : 0 <= k < 4096 -> in_words 1024 (page_addr i) (page_addr i + k - (page_addr i + k) mod 4) = true.
Proof.
  intros Hk. rewrite page_addr_frame. replace ((4096 * (256 + Z.of_nat i) + k) mod 4) with (k mod 4)
    by (rewrite <- (Z.mod_add k (1024 * (256 + Z.of_nat i))) by lia; f_equal; lia).
  replace (4096 * (256 + Z.of_nat i) + k - k mod 4) with (4096 * (256 + Z.of_nat i) + 4 * (k / 4)) by (pose proof (Z.div_mod k 4); lia).
  apply in_words_offset. pose proof (Z.div_mod k 4). pose proof (Z.mod_pos_bound k 4). lia.
Qed.
Lemma in_page_unique i j a : in_words 1024 (page_addr i) a = true -> in_words 1024 (page_addr j) a = true -> i = j.
Proof. rewrite !page_addr_frame. intros H1 H2. pose proof (in_words_page 1024 _ _ _ ltac:(lia) H1 H2). lia. Qed.

(** ** The pages of the arguments *)

Definition page_id (p : Z) : nat := Z.to_nat (Z.shiftr (p - LOW_MEM) 12).
Definition page_ids (page : list Z) : list nat := omap (fun p => if p =? 0 then None else Some (page_id p)) page.
Lemma page_id_addr i : page_id (page_addr i) = i.
Proof. unfold page_id. by rewrite page_index, Nat2Z.id. Qed.

(** [page] are pages that were free in [m0]; apart from free pages memory is as it was. *)
Record args_ok (m0 : mm) (page : list Z) (m : mm) : Prop := {
  ao_length : length page = 32%nat;
  ao_pages : forall i p, page !! i = Some p -> p <> 0 -> exists j, p = page_addr j /\ mem_map m0 !! j = Some 0;
  ao_once : NoDup (page_ids page);
  ao_wf : mm_wf m;
  ao_counts : mem_map m = incs (mem_map m0) (page_ids page);
  ao_high : HIGH_MEMORY m = HIGH_MEMORY m0;
  ao_frame : forall a, ~ in_free_page m0 a -> rd m a = rd m0 a }.

Lemma args_start m : mm_wf m -> args_ok m (replicate 32 0) m.
Proof.
  intros W. constructor; try done.
  - intros i p Hp Hn. by apply lookup_replicate in Hp as (-> & _).
  - cbn. constructor.
Qed.

(** An address of the argument area has byte [c]. *)
Definition has (m : mm) (page : list Z) (k c : Z) : Prop :=
  exists p, 0 <= k /\ page !! Z.to_nat (k / 4096) = Some p /\ p <> 0 /\ rd_byte m (p + k mod 4096) = c.
Definition holds_args (m : mm) (page : list Z) (k : Z) (l : list Z) : Prop :=
  forall i c, l !! i = Some c -> has m page (k + Z.of_nat i) c.

Lemma page_ids_elem page i p : page !! i = Some p -> p <> 0 -> page_id p ∈ page_ids page.
Proof.
  intros H Hp. apply list_elem_of_omap. exists p. split; [by eapply list_elem_of_lookup_2 | by rewrite (proj2 (Z.eqb_neq _ _))].
Qed.
Lemma page_ids_once page i j p q : NoDup (page_ids page) -> page !! i = Some p -> page !! j = Some q -> p <> 0 -> q <> 0 -> page_id p = page_id q -> i = j.
Proof.
  revert i j. induction page as [|x page IH]; intros i j Hn Hi Hj Hp Hq E; [done |].
  assert (Hn' : NoDup (page_ids page)).
  { cbn in Hn. destruct (x =? 0); [done |]. by apply NoDup_cons in Hn as (_ & ?). }
  assert (Hhead : forall y k, x <> 0 -> page !! k = Some y -> y <> 0 -> page_id x = page_id y -> False).
  { intros y k Hx Hk Hy Exy. cbn in Hn. rewrite (proj2 (Z.eqb_neq _ _) Hx) in Hn. apply NoDup_cons in Hn as (Hn & _).
    apply Hn. rewrite Exy. by eapply page_ids_elem. }
  destruct i as [|i], j as [|j]; cbn in Hi, Hj; [done | | |].
  - injection Hi as ->. exfalso. by eapply (Hhead q j).
  - injection Hj as ->. exfalso. by eapply (Hhead p i).
  - f_equal. by eapply IH.
Qed.
Lemma page_ids_insert page i p : page !! i = Some 0 -> p <> 0 -> page_ids (<[i := p]> page) ≡ₚ page_id p :: page_ids page.
Proof.
  intros Hi Hp. rewrite <- (take_drop_middle _ _ _ Hi). rewrite insert_app_r_alt by (rewrite length_take; apply lookup_lt_Some in Hi; lia).
  rewrite length_take_le, Nat.sub_diag by (apply lookup_lt_Some in Hi; lia). cbn [insert list_insert].
  unfold page_ids. rewrite !omap_app. cbn [omap list_omap]. rewrite (proj2 (Z.eqb_neq _ _) Hp). cbn. by rewrite Permutation_middle.
Qed.

Section Args.
Context (m0 : mm) (page : list Z) (m : mm).
Hypothesis (W0 : mm_wf m0) (O : args_ok m0 page m).

(** A page that is free now was free at the start, and is none of the pages. *)
Lemma free_now j : mem_map m !! j = Some 0 -> mem_map m0 !! j = Some 0 /\ j ∉ page_ids page.
Proof.
  rewrite (ao_counts _ _ _ O), incs_lookup. destruct (mem_map m0 !! j) as [c|] eqn:E; [| done]. cbn. intros [= Hc].
  pose proof (proj1 (Forall_lookup _ _) (wf_bytes _ W0) _ _ E) as Hr. cbn in Hr. pose proof (occ_nonneg (page_ids page) j).
  split; [f_equal; lia |]. rewrite occ_elem. lia.
Qed.
Lemma ids_addr i p : page !! i = Some p -> p <> 0 -> p = page_addr (page_id p).
Proof. intros Hi Hp. destruct (ao_pages _ _ _ O i p Hi Hp) as (j & -> & _). by rewrite page_id_addr. Qed.

Lemma args_new i p m1 : page !! i = Some 0 -> allocated m p m1 ->
  p <> 0 /\ args_ok m0 (<[i := p]> page) m1 /\ forall k c, has m page k c -> has m1 (<[i := p]> page) k c.
Proof.
  intros Hi Hal. pose proof (allocated_wf _ _ _ (ao_wf _ _ _ O) Hal) as W1. destruct Hal as (j & -> & Hj & _ & HM & HR & HH & _).
  assert (Hp : page_addr j <> 0) by (rewrite page_addr_frame; lia). destruct (free_now j Hj) as (Hj0 & Hnew).
  assert (Hlt : (i < length page)%nat) by by eapply lookup_lt_Some.
  split; [done |]. split.
  - constructor.
    + rewrite length_insert. apply O.
    + intros i' p' [(<- & <- & _) | (_ & H)]%list_lookup_insert_Some Hn; [by exists j | by apply (ao_pages _ _ _ O i' p')].
    + rewrite page_ids_insert, page_id_addr by done. constructor; [done | apply O].
    + done.
    + rewrite HM, (ao_counts _ _ _ O), page_ids_insert, page_id_addr by done. apply list_eq. intros x.
      rewrite incs_lookup, occ_cons. destruct (decide (x = j)) as [-> | Hx].
      * rewrite list_lookup_insert_eq by (rewrite incs_length; by eapply lookup_lt_Some). rewrite Hj0. cbn. rewrite decide_True by done.
        f_equal. rewrite occ_elem in Hnew. pose proof (occ_nonneg (page_ids page) j). lia.
      * rewrite list_lookup_insert_ne, incs_lookup, decide_False by done. by rewrite Z.add_0_l.
    + rewrite HH. apply O.
    + intros a Ha. rewrite HR. case_match eqn:E; [exfalso; apply Ha; by exists j | by apply O].
  - intros k c (q & H0 & Hq & Hq0 & Hc). exists q. split; [done |]. split.
    + rewrite list_lookup_insert_ne; [done |]. intros ->. rewrite Hi in Hq. congruence.
    + split; [done |]. rewrite <- Hc. apply byte_word. rewrite HR. case_match eqn:E; [| done]. exfalso. apply Hnew.
      rewrite (ids_addr _ _ Hq Hq0) in E. pose proof (Z.mod_pos_bound k 4096 ltac:(lia)).
      rewrite (in_page_unique j (page_id q) _ E) by (by apply word_in_page). by eapply page_ids_elem.
Qed.

Lemma args_byte i p k c m1 : page !! i = Some p -> p <> 0 -> 0 <= k < 4096 -> byte_put (p + k) c m m1 ->
  args_ok m0 page m1 /\ has m1 page (4096 * Z.of_nat i + k) c
  /\ forall x c', has m page x c' -> x <> 4096 * Z.of_nat i + k -> has m1 page x c'.
Proof.
  intros Hi Hp Hk B. pose proof (ids_addr _ _ Hi Hp) as Ea. split; [| split].
  - destruct O as [OL OP ON OW OC OH OF]. constructor; try done.
    + destruct OW. constructor; rewrite ?(bp_map _ _ _ _ B), ?(bp_high _ _ _ _ B); try done. apply B.
    + by rewrite (bp_map _ _ _ _ B).
    + by rewrite (bp_high _ _ _ _ B).
    + intros a Ha. rewrite (bp_word _ _ _ _ B); [by apply OF |]. intros ->. apply Ha.
      destruct (OP i p Hi Hp) as (j & -> & Hj). exists j. split; [done | by apply word_in_page].
  - exists p. replace ((4096 * Z.of_nat i + k) / 4096) with (Z.of_nat i) by (apply (Z.div_unique _ _ _ k); lia).
    rewrite Nat2Z.id. split; [lia |]. split; [done |]. split; [done |]. rewrite (bp_byte _ _ _ _ B).
    replace ((4096 * Z.of_nat i + k) mod 4096) with k by (apply (Z.mod_unique _ _ (Z.of_nat i)); lia). by rewrite Z.eqb_refl.
  - intros x c' (q & H0 & Hq & Hq0 & Hc) Hx. exists q. split; [done |]. split; [done |]. split; [done |]. rewrite (bp_byte _ _ _ _ B).
    rewrite (proj2 (Z.eqb_neq _ _)); [done |]. intros E. apply Hx. pose proof (Z.mod_pos_bound x 4096 ltac:(lia)).
    rewrite Ea, (ids_addr _ _ Hq Hq0), !page_addr_frame in E.
    assert (Z.to_nat (x / 4096) = i) by (eapply (page_ids_once page _ _ q p); [apply O | done | done | done | done | lia]).
    pose proof (Z.div_mod x 4096). pose proof (Z.div_pos x 4096). lia.
Qed.
End Args.

(** ** Copying *)

Lemma holds_mono m page m' page' k l : (forall x c, k <= x -> has m page x c -> has m' page' x c) -> holds_args m page k l -> holds_args m' page' k l.
Proof. intros H Hl i c Hi. apply H; [lia | by apply Hl]. Qed.
Lemma holds_cons m page k c l : has m page k c -> holds_args m page (k + 1) l -> holds_args m page k (c :: l).
Proof.
  intros Hc Hl [|i] x; cbn; [intros [= ->]; by rewrite Z.add_0_r |]. intros Hi. replace (k + Z.of_nat (S i)) with (k + 1 + Z.of_nat i) by lia. by apply Hl.
Qed.

Definition no_page (m : mm) : Prop := forall i, mem_map m !! i <> Some 0.

(** The byte copied last, if any, was at [cp_offset] of [cp_pag]. *)
Definition at_ok (w : copy_at) : Prop :=
  cp_offset w = 0
  \/ (cp_offset w = cp_p w mod 4096 /\ cp_page w !! Z.to_nat (cp_p w / 4096) = Some (cp_pag w) /\ cp_pag w <> 0).
Definition area_ok (w : copy_at) : Prop := 0 <= cp_p w <= 131072 /\ at_ok w.

Section Copy.
Context (m0 : mm) (s : fs_state) (byte : Z -> M fs_state Z) (f : Z -> Z).
Hypothesis (W0 : mm_wf m0).

Definition st (m : mm) : fs_state := put fs_mm m s.
Definition reads (a : Z) : Prop := is_byte (f a) /\ forall m, byte a (st m) = Ok (f a) (st m).
Lemma on_mm_st {A} (c : M mm A) m a m' : c m = Ok a m' -> on_mm c (st m) = Ok a (st m').
Proof. intros E. unfold on_mm, st. cbn. by rewrite E. Qed.

(** The position of the next byte. *)
Record located (w w' : copy_at) (m m' : mm) : Prop := {
  lo_p : cp_p w' = cp_p w - 1;
  lo_at : cp_offset w' = cp_p w' mod 4096 /\ cp_page w' !! Z.to_nat (cp_p w' / 4096) = Some (cp_pag w') /\ cp_pag w' <> 0;
  lo_ok : args_ok m0 (cp_page w') m';
  lo_has : forall x c, has m (cp_page w) x c -> has m' (cp_page w') x c }.

Lemma locate w m : args_ok m0 (cp_page w) m -> area_ok w -> 0 < cp_p w ->
  let p := u32 (cp_p w - 1) in
  let o : M fs_state (option copy_at) :=
    (if cp_offset w - 1 <? 0 then
       let* pag := need (cp_page w !! Z.to_nat (p / PAGE_SIZE)) in
       if cbool pag then ret (Some (mk_at p (p mod PAGE_SIZE) pag (cp_page w))) else
       let* pag := on_mm get_free_page in
       ret (if cbool pag then Some (mk_at p (p mod PAGE_SIZE) pag (<[Z.to_nat (p / PAGE_SIZE) := pag]> (cp_page w))) else None)
     else ret (Some (mk_at p (cp_offset w - 1) (cp_pag w) (cp_page w)))) in
  (o (st m) = Ok None (st m) /\ no_page m) \/ exists w' m', o (st m) = Ok (Some w') (st m') /\ located w w' m m'.
Proof.
  intros O (Hp & Hat) Hp0 p o. assert (Ep : p = cp_p w - 1) by (apply u32_small; lia). unfold PAGE_SIZE in *.
  destruct (cp_offset w - 1 <? 0) eqn:E; unfold o; clear o.
  - destruct (lookup_lt_is_Some_2 (cp_page w) (Z.to_nat (p / 4096))) as (pag & Hpag).
    { rewrite (ao_length _ _ _ O). assert (p / 4096 < 32) by (apply Z.div_lt_upper_bound; lia). lia. }
    rewrite (bind_Ok _ _ _ pag (st m)) by (by rewrite Hpag). destruct (cbool pag) eqn:Ec.
    + right. do 2 eexists. split; [reflexivity |]. unfold cbool in Ec. b2p_in Ec. by constructor.
    + destruct (get_free_page_cases m (ao_wf _ _ _ O)) as [(Eg & Hno) | (q & m1 & Eg & Hal)].
      * left. rewrite (bind_Ok _ _ _ _ _ (on_mm_st _ _ _ _ Eg)). done.
      * right. rewrite (bind_Ok _ _ _ _ _ (on_mm_st _ _ _ _ Eg)).
        assert (pag = 0) as -> by (unfold cbool in Ec; b2p_in Ec; lia).
        destruct (args_new m0 _ m W0 O _ q m1 Hpag Hal) as (Hq & O1 & Hh). unfold cbool. rewrite (proj2 (Z.eqb_neq _ _) Hq). cbn [negb].
        do 2 eexists. split; [reflexivity |]. constructor; cbn; [done | | done | done]. split; [done |]. split; [| done].
        apply list_lookup_insert_eq. by eapply lookup_lt_Some.
  - right. apply Z.ltb_ge in E. destruct Hat as [Hat | (Ho & Hpag & Hq)]; [lia |]. do 2 eexists. split; [reflexivity |].
    pose proof (Z.div_mod (cp_p w) 4096 ltac:(lia)). pose proof (Z.mod_pos_bound (cp_p w) 4096 ltac:(lia)).
    assert (Hdiv : p / 4096 = cp_p w / 4096) by (symmetry; apply (Z.div_unique _ _ _ (cp_p w mod 4096 - 1)); lia).
    constructor; cbn; [done | | done | done]. split; [| split; [by rewrite Hdiv | done]].
    apply (Z.mod_unique _ _ (cp_p w / 4096)); lia.
Qed.

Lemma copy_byte_ok w m l tmp : args_ok m0 (cp_page w) m -> area_ok w -> 0 < cp_p w -> reads tmp -> holds_args m (cp_page w) (cp_p w) l ->
  (copy_byte byte tmp w (st m) = Ok (None, cp_page w) (st m) /\ no_page m)
  \/ exists w' m', copy_byte byte tmp w (st m) = Ok (Some w', cp_page w') (st m') /\ cp_p w' = cp_p w - 1
     /\ args_ok m0 (cp_page w') m' /\ area_ok w' /\ holds_args m' (cp_page w') (cp_p w') (f tmp :: l).
Proof.
  intros O A Hp (Hf & Hr) Hl. unfold copy_byte. destruct (locate w m O A Hp) as [(E & Hno) | (w1 & m1 & E & L)].
  - left. split; [| done]. rewrite (bind_Ok _ _ _ _ _ E). done.
  - right. rewrite (bind_Ok _ _ _ _ _ E). rewrite (bind_Ok _ _ _ _ _ (Hr m1)). destruct L as [Lp (Lo & Lpage & Lpag) LO Lh].
    destruct (store_byte_ok m1 (cp_pag w1 + cp_offset w1) (f tmp)) as (m2 & E2 & B); [exact (wf_words m1 (ao_wf _ _ _ LO)) | done |].
    rewrite (bind_Ok _ _ _ _ _ (on_mm_st _ _ _ _ E2)). exists w1, m2. destruct A as (Ha & _).
    pose proof (Z.mod_pos_bound (cp_p w1) 4096 ltac:(lia)). pose proof (Z.div_mod (cp_p w1) 4096 ltac:(lia)). pose proof (Z.div_pos (cp_p w1) 4096).
    destruct (args_byte m0 _ m1 LO _ _ (cp_offset w1) (f tmp) m2 Lpage Lpag ltac:(lia) B) as (O2 & H2 & Hk).
    replace (4096 * Z.of_nat (Z.to_nat (cp_p w1 / 4096)) + cp_offset w1) with (cp_p w1) in * by lia.
    split; [done |]. split; [done |]. split; [done |]. split; [split; [lia | by right] |].
    apply holds_cons; [done |]. rewrite Lp, Z.sub_add. eapply holds_mono; [| exact Hl]. intros x c Hx Hh. apply Hk; [by apply Lh | lia].
Qed.

(** What [len] bytes that end in front of [tmp] are. *)
Definition text (len : nat) (a : Z) : list Z := map (fun i => f (a + i)) (seqZ 0 (Z.of_nat len)).
Lemma text_snoc len a : text (S len) a = text len a ++ [f (a + Z.of_nat len)].
Proof. unfold text. rewrite Nat2Z.inj_succ, <- Z.add_1_r, seqZ_app, map_app by lia. cbn. by rewrite Z.add_0_l. Qed.

Lemma copy_string_ok len tmp w m l : args_ok m0 (cp_page w) m -> area_ok w -> Z.of_nat len <= cp_p w ->
  (forall a, tmp - Z.of_nat len <= a < tmp -> reads a) -> holds_args m (cp_page w) (cp_p w) l ->
  (exists page' m', copy_string byte len tmp w (st m) = Ok (None, page') (st m') /\ args_ok m0 page' m' /\ no_page m')
  \/ exists w' m', copy_string byte len tmp w (st m) = Ok (Some w', cp_page w') (st m') /\ cp_p w' = cp_p w - Z.of_nat len
     /\ args_ok m0 (cp_page w') m' /\ area_ok w' /\ holds_args m' (cp_page w') (cp_p w') (text len (tmp - Z.of_nat len) ++ l).
Proof.
  revert tmp w m l. induction len as [|len IH]; intros tmp w m l O A Hp Hr Hl; cbn [copy_string].
  - right. exists w, m. split; [done |]. split; [lia |]. done.
  - destruct (copy_byte_ok w m l (tmp - 1) O A ltac:(lia) (Hr (tmp - 1) ltac:(lia)) Hl) as [(E & Hno) | (w1 & m1 & E & P1 & O1 & A1 & H1)].
    + left. rewrite (bind_Ok _ _ _ _ _ E). by exists (cp_page w), m.
    + rewrite (bind_Ok _ _ _ _ _ E). destruct (IH (tmp - 1) w1 m1 _ O1 A1 ltac:(lia) ltac:(intros; apply Hr; lia) H1) as [H | (w2 & m2 & E2 & P2 & O2 & A2 & H2)]; [by left | right].
      exists w2, m2. split; [done |]. split; [lia |]. split; [done |]. split; [done |]. rewrite text_snoc, <- app_assoc.
      replace (tmp - Z.of_nat (S len)) with (tmp - 1 - Z.of_nat len) by lia. replace (tmp - 1 - Z.of_nat len + Z.of_nat len) with (tmp - 1) by lia. exact H2.
Qed.
End Copy.

(** ** Tables of strings in the memory of a program *)

Definition long_at (u : gmap Z Z) (a : Z) : Z := unle (load_bytes 4 a u).
Definition string_in (u : gmap Z Z) (a : Z) (str : list Z) : Prop :=
  Forall (fun c => 0 < c < 256) str /\ load_bytes (S (length str)) a u = str ++ [0].
(** Pointers to the strings [strs], and a null pointer behind them. *)
Definition table_in (u : gmap Z Z) (a : Z) (strs : list (list Z)) : Prop :=
  (forall k str, strs !! k = Some str ->
     long_at u (a + 4 * Z.of_nat k) <> 0 /\ string_in u (long_at u (a + 4 * Z.of_nat k)) str)
  /\ long_at u (a + 4 * Z.of_nat (length strs)) = 0.
Definition flat (strs : list (list Z)) : list Z := concat (map (fun x => x ++ [0]) strs).
Definition short (fuel : nat) (strs : list (list Z)) : Prop := Forall (fun x => (length x < fuel)%nat) strs.

Lemma flat_snoc strs x : flat (strs ++ [x]) = flat strs ++ x ++ [0].
Proof. unfold flat. by rewrite map_app, concat_app; cbn; rewrite app_nil_r. Qed.

Lemma string_byte u a str i : string_in u a str -> (i <= length str)%nat -> (str ++ [0]) !! i = Some (default 0 (u !! (a + Z.of_nat i))).
Proof. intros (_ & <-) Hi. apply load_bytes_lookup. lia. Qed.

Section User.
Context (u : gmap Z Z).
Definition user_get (a : Z) : Z := default 0 (u !! a).

Lemma get_fs_byte_ok s a : umem s = u -> get_fs_byte a s = Ok (user_get a) s.
Proof. intros H. unfold get_fs_byte, user_get. by rewrite <- H. Qed.
Lemma get_fs_long_ok s a : umem s = u -> get_fs_long a s = Ok (long_at u a) s.
Proof. intros H. unfold long_at. by rewrite <- H. Qed.

Lemma string_end_ok s fuel a str : umem s = u -> string_in u a str -> (length str < fuel)%nat ->
  string_end get_fs_byte fuel a s = Ok (a + Z.of_nat (S (length str))) s.
Proof.
  intros Hu. revert a fuel. induction str as [|c str IH]; intros a [|fuel] H Hf; cbn [length] in Hf; try lia; cbn [string_end].
  - pose proof (string_byte _ _ _ 0 H ltac:(done)) as Hc. cbn in Hc. rewrite Z.add_0_r in Hc. injection Hc as Hc.
    rewrite (bind_Ok _ _ _ _ _ (get_fs_byte_ok s a Hu)). unfold user_get. by rewrite <- Hc.
  - pose proof (string_byte _ _ _ 0 H ltac:(cbn; lia)) as Hc. cbn in Hc. rewrite Z.add_0_r in Hc. injection Hc as Hc. destruct H as (HF & HL).
    apply Forall_cons in HF as (Hb & HF).
    rewrite (bind_Ok _ _ _ _ _ (get_fs_byte_ok s a Hu)). unfold user_get. rewrite <- Hc. unfold cbool. rewrite (proj2 (Z.eqb_neq c 0)) by lia. cbn [negb].
    rewrite IH; [f_equal; cbn; lia | | lia]. split; [done |]. cbn [length load_bytes app] in HL. by injection HL.
Qed.

Lemma count_ok s fuel a strs : umem s = u -> table_in u a strs -> (length strs < fuel)%nat ->
  forall i, count_loop fuel a i s = Ok (i + Z.of_nat (length strs)) s.
Proof.
  intros Hu. revert a fuel. induction strs as [|x strs IH]; intros a [|fuel] (HT & H0) Hf i; cbn [length] in Hf; try lia; cbn [count_loop].
  - cbn [length Z.of_nat] in H0. rewrite Z.mul_0_r, Z.add_0_r in H0. rewrite (bind_Ok _ _ _ _ _ (get_fs_long_ok s a Hu)), H0. cbn. f_equal. lia.
  - destruct (HT 0%nat x eq_refl) as (Hn & _). cbn [Z.of_nat] in Hn. rewrite Z.mul_0_r, Z.add_0_r in Hn.
    rewrite (bind_Ok _ _ _ _ _ (get_fs_long_ok s a Hu)). unfold cbool. rewrite (proj2 (Z.eqb_neq _ _) Hn). cbn [negb].
    rewrite IH; [f_equal; cbn [length]; lia | | lia]. split.
    + intros k str Hk. replace (a + 4 + 4 * Z.of_nat k) with (a + 4 * Z.of_nat (S k)) by lia. by apply (HT (S k)).
    + rewrite <- H0. f_equal. cbn [length]. lia.
Qed.

Lemma text_string a str : string_in u a str -> text user_get (S (length str)) a = str ++ [0].
Proof.
  intros (_ & <-). unfold text. generalize (S (length str)) as n. intros n. revert a.
  induction n as [|n IH]; intros a; [done |]. rewrite Nat2Z.inj_succ, seqZ_cons by lia. cbn [map load_bytes]. rewrite Z.add_0_r, <- IH.
  f_equal. replace (Z.pred (Z.succ (Z.of_nat n))) with (Z.of_nat n) by lia. change (Z.succ 0) with (1 + 0). rewrite <- (fmap_add_seqZ 1 0 (Z.of_nat n)).
  rewrite <- list_fmap_compose. apply map_ext. intros i. unfold compose. f_equal. lia.
Qed.
Lemma string_reads s a str : umem s = u -> string_in u a str -> forall x, a <= x < a + Z.of_nat (S (length str)) -> reads s get_fs_byte user_get x.
Proof.
  intros Hu H x Hx. split; [| by intros m; apply get_fs_byte_ok].
  pose proof (string_byte _ _ _ (Z.to_nat (x - a)) H ltac:(lia)) as Hc. replace (a + Z.of_nat (Z.to_nat (x - a))) with x in Hc by lia.
  fold (user_get x) in Hc. apply lookup_app_Some in Hc as [Hc | (_ & Hc)].
  - destruct H as (HF & _). pose proof (proj1 (Forall_lookup _ _) HF _ _ Hc) as Hr. cbn in Hr. unfold is_byte. lia.
  - apply list_lookup_singleton_Some in Hc as (_ & <-). unfold is_byte. lia.
Qed.
End User.

(** ** All strings of a table *)

Lemma put_put_mm m m' s : put fs_mm m' (put fs_mm m s) = put fs_mm m' s.
Proof. by destruct s. Qed.
Lemma put_same_mm s : put fs_mm (fs_mm s) s = s.
Proof. by destruct s. Qed.

(** The result of a copy that starts at [p] with [l] copied before: out of memory, or the
    strings are in front of [l]. *)
Definition copied (m0 : mm) (s : fs_state) (strs : list (list Z)) (p : Z) (l : list Z) (r : outcome fs_state (Z * list Z)) : Prop :=
  exists p' page' m', r = Ok (p', page') (put fs_mm m' s) /\ args_ok m0 page' m'
  /\ ((p' = 0 /\ no_page m') \/ (p' = p - Z.of_nat (length (flat strs)) /\ holds_args m' page' p' (flat strs ++ l))).

Lemma copy_loop_ok m0 s fuel argv strs : mm_wf m0 -> short fuel strs ->
  (forall k str, strs !! k = Some str -> long_at (umem s) (argv + 4 * Z.of_nat k) <> 0 /\ string_in (umem s) (long_at (umem s) (argv + 4 * Z.of_nat k)) str) ->
  forall w m l, args_ok m0 (cp_page w) m -> area_ok w -> Z.of_nat (length (flat strs)) <= cp_p w -> holds_args m (cp_page w) (cp_p w) l ->
  copied m0 s strs (cp_p w) l (copy_loop get_fs_long get_fs_byte fuel (length strs) argv w (st s m)).
Proof.
  intros W0. induction strs as [|x strs IH] using rev_ind; intros Hs HT w m l O A Hp Hl.
  { exists (cp_p w), (cp_page w), m. split; [done |]. split; [done |]. right. split; [cbn; lia | done]. }
  apply Forall_app in Hs as (Hs & Hx). apply Forall_cons in Hx as (Hx & _).
  destruct (HT (length strs) x) as (Hn & Hstr); [by rewrite lookup_app_r, Nat.sub_diag |].
  rewrite flat_snoc, !length_app in Hp. cbn [length] in Hp. rewrite length_app, Nat.add_comm. cbn [Nat.add length copy_loop].
  set (tmp := long_at (umem s) _) in *.
  assert (Ep : get_fs_long (argv + 4 * Z.of_nat (length strs)) (st s m) = Ok tmp (st s m)) by by apply get_fs_long_ok.
  rewrite (bind_Ok _ _ _ _ _ Ep). unfold cbool. rewrite (proj2 (Z.eqb_neq _ _) Hn). cbn [negb].
  rewrite (bind_Ok _ _ _ _ _ (string_end_ok (umem s) (st s m) fuel tmp x eq_refl Hstr Hx)).
  replace (tmp + Z.of_nat (S (length x)) - tmp) with (Z.of_nat (S (length x))) by lia. rewrite Nat2Z.id.
  rewrite (proj2 (Z.ltb_ge _ _)) by (apply u32_range).
  destruct (copy_string_ok m0 s get_fs_byte (user_get (umem s)) W0 (S (length x)) (tmp + Z.of_nat (S (length x))) w m l O A ltac:(lia)) as [(page' & m' & E & O' & Hno) | (w1 & m1 & E & P1 & O1 & A1 & H1)].
  - intros a Ha. apply (string_reads (umem s) s tmp x eq_refl Hstr). lia.
  - done.
  - rewrite (bind_Ok _ _ _ _ _ E). exists 0, page', m'. split; [done |]. split; [done |]. by left.
  - rewrite (bind_Ok _ _ _ _ _ E). replace (tmp + Z.of_nat (S (length x)) - Z.of_nat (S (length x))) with tmp in H1 by lia. rewrite (text_string (umem s) tmp x Hstr) in H1.
    destruct (IH Hs ltac:(intros k str Hk; apply HT; by apply lookup_app_l_Some) w1 m1 _ O1 A1 ltac:(lia) H1) as (p2 & page2 & m2 & E2 & O2 & H2).
    exists p2, page2, m2. split; [done |]. split; [done |]. destruct H2 as [H2 | (P2 & H2)]; [by left | right].
    rewrite flat_snoc, !length_app. cbn [length]. split; [lia |]. rewrite <- !app_assoc in *. exact H2.
Qed.

(** ** Arguments and environment *)

Lemma copy_args_ok s fuel argv envp args env : mm_wf (fs_mm s) -> short fuel args -> short fuel env ->
  table_in (umem s) argv args -> table_in (umem s) envp env -> Z.of_nat (length (flat args) + length (flat env)) < 131068 ->
  copied (fs_mm s) s (args ++ env) 131068 [] (copy_args fuel (Z.of_nat (length args)) argv (Z.of_nat (length env)) envp (replicate 32 0) 131068 s).
Proof.
  intros W Ha He (HA & _) (HE & _) Hlen. unfold copy_args, copy_strings. change (negb (cbool 131068)) with false. cbv iota. rewrite !Nat2Z.id.
  destruct (copy_loop_ok (fs_mm s) s fuel envp env W He HE (mk_at 131068 0 0 (replicate 32 0)) (fs_mm s) []) as (p1 & page1 & m1 & E1 & O1 & H1).
  - by apply args_start.
  - split; [cbn; lia | by left].
  - cbn. lia.
  - done.
  - unfold st in E1. rewrite put_same_mm in E1. rewrite (bind_Ok _ _ _ _ _ E1). cbn [cp_p] in H1.
    assert (Efl : length (flat (args ++ env)) = (length (flat args) + length (flat env))%nat) by (unfold flat; by rewrite map_app, concat_app, length_app).
    destruct H1 as [(-> & Hno) | (P1 & H1)].
    + exists 0, page1, m1. split; [done |]. split; [done |]. by left.
    + unfold cbool. rewrite (proj2 (Z.eqb_neq p1 0)) by lia. cbn [negb].
      destruct (copy_loop_ok (fs_mm s) s fuel argv args W Ha HA (mk_at p1 0 0 page1) m1 (flat env ++ [])) as (p2 & page2 & m2 & E2 & O2 & H2).
      * done.
      * split; [cbn; lia | by left].
      * cbn. lia.
      * done.
      * exists p2, page2, m2. split; [done |]. split; [done |]. destruct H2 as [H2 | (P2 & H2)]; [by left | right]. cbn [cp_p] in P2.
        split; [lia |]. unfold flat in *. by rewrite map_app, concat_app, <- app_assoc.
Qed.
