(* ===== verification/ExecImage.v ===== *)
(** The address space of a new program: the old one is freed and the pages with the
    arguments are mapped at its top ([new_image] in fs/exec.c, with [free_page_tables] and
    [put_page] of mm/memory.c). *)
From stdpp Require Import base list gmap strings.
From Stdlib Require Import ZArith Lia.
From S2P Require Import Prelude Bits Memory PageTables Sched FsState Buffer Inode Namei Files Bytes Process ProcessSpec Exec ExecArgs.
Open Scope Z_scope.

(** ** Freeing the old space *)

Lemma dir_refs_add f k n m d : dir_refs f k (n + m) d = dir_refs f k n d ++ dir_refs f k m (d + 4 * Z.of_nat n).
Proof.
  revert d. induction n as [|n IH]; intros d; cbn [dir_refs Nat.add app]; [by rewrite Z.add_0_r |].
  rewrite IH, app_assoc. do 2 f_equal. lia.
Qed.
Lemma dir_tables_add f n m d : dir_tables f (n + m) d = dir_tables f n d ++ dir_tables f m (d + 4 * Z.of_nat n).
Proof.
  revert d. induction n as [|n IH]; intros d; cbn [dir_tables Nat.add app]; [by rewrite Z.add_0_r |].
  rewrite IH, app_assoc. do 2 f_equal. lia.
Qed.
Lemma droppable_front h l A B : droppable h l (A ++ B) -> droppable h (incs l B) A.
Proof.
  intros H i Hi. destruct (H i) as (Hh & c & Hc & H0 & H1); [by apply elem_of_app; left |]. split; [done |].
  exists (c + occ B i). rewrite incs_lookup, Hc. rewrite occ_app in H1. pose proof (occ_nonneg B i). split_and!; [done | lia | lia].
Qed.

(** The tables of an address space of [n] directory entries from [d] on: all different, and
    counted in [mem_map] on top of [l], the counts of everything else. *)
Record space_ok (m : mm) (n : nat) (d : Z) (l : list Z) : Prop := {
  so_low : 0 <= d /\ d + 4 * Z.of_nat n <= 4096;
  so_once : NoDup (dir_tables (rd m) n d);
  so_above : Forall (Z.le 4096) (dir_tables (rd m) n d);
  so_drop : droppable (HIGH_MEMORY m) l (dir_refs (rd m) 1024 n d);
  so_counts : mem_map m = incs l (dir_refs (rd m) 1024 n d) }.

(** Part of the directory is freed: the other part is as it was. *)
Lemma rest_unchanged n1 n2 d f g : words f -> 0 <= d -> d + 4 * Z.of_nat (n1 + n2) <= 4096 ->
  NoDup (dir_tables f (n1 + n2) d) -> Forall (Z.le 4096) (dir_tables f (n1 + n2) d) -> dirs_freed n1 d f g ->
  dir_refs g 1024 n2 (d + 4 * Z.of_nat n1) = dir_refs f 1024 n2 (d + 4 * Z.of_nat n1)
  /\ dir_tables g n2 (d + 4 * Z.of_nat n1) = dir_tables f n2 (d + 4 * Z.of_nat n1).
Proof.
  intros Hw H0 Hn HN HF [_ _ S]. rewrite dir_tables_add in HN, HF. apply NoDup_app in HN as (_ & HN & _). apply Forall_app in HF as (HF1 & HF2).
  apply dir_ext.
  - intros a Ha. unfold in_words in Ha. b2p_in Ha. apply S.
    + unfold in_words. rewrite (proj2 (Z.ltb_ge _ _)) by lia. by rewrite andb_false_r.
    + intros t Ht. apply in_words_ge. pose proof (proj1 (Forall_forall _ _) HF1 _ Ht). lia.
  - intros t a Ht Ha. rewrite S; [done | |].
    + pose proof (proj1 (Forall_forall _ _) HF2 _ Ht). unfold in_words in *. b2p_in Ha. rewrite (proj2 (Z.ltb_ge _ _)) by lia. by rewrite andb_false_r.
    + intros t' Ht'. destruct (in_words 1024 t' a) eqn:E; [| done]. exfalso. apply (HN t' Ht').
      destruct (dir_tables_frame _ _ _ _ Hw Ht) as (k & ->), (dir_tables_frame _ _ _ _ Hw Ht') as (k' & ->).
      by rewrite (in_words_page 1024 k' k a ltac:(lia) E Ha).
Qed.

Lemma dirs_freed_trans n1 n2 d f g h : 0 <= d -> d + 4 * Z.of_nat (n1 + n2) <= 4096 -> Forall (Z.le 4096) (dir_tables f (n1 + n2) d) ->
  dir_tables g (n1 + n2) d = dir_tables f n2 (d + 4 * Z.of_nat n1) -> dirs_freed n1 d f g -> dirs_freed (n1 + n2) d g h -> dirs_freed (n1 + n2) d f h.
Proof.
  intros H0 Hn HF HT [W1 A1 S1] [W2 A2 S2]. constructor; [done | done |]. intros a Ha Ht. rewrite dir_tables_add in Ht, HF.
  rewrite S2, S1; [done | | | done |].
  - destruct (in_words n1 d a) eqn:E; [| done]. apply in_words_inv in E as (j & Hj & ->). rewrite in_words_offset in Ha by lia. done.
  - intros t H. apply Ht, elem_of_app. by left.
  - intros t H. apply Ht, elem_of_app. right. by rewrite <- HT.
Qed.

(** The space is freed by the limit of the code and then by that of the data. *)
Lemma free_twice m n1 n2 d l : mm_wf m -> space_ok m (n1 + n2) d l ->
  exists m1 m2, free_dirs n1 d m = Ok tt m1 /\ counts_are m (incs l (dir_refs (rd m) 1024 n2 (d + 4 * Z.of_nat n1))) m1
  /\ free_dirs (n1 + n2) d (mk_mm (mem m1) (mem_map m1) (HIGH_MEMORY m1) (S (cr3_loads m1))) = Ok tt m2
  /\ mem_map m2 = l /\ HIGH_MEMORY m2 = HIGH_MEMORY m /\ dirs_freed (n1 + n2) d (rd m) (rd m2).
Proof.
  intros W [(H0 & Hn) HN HF HD HC]. pose proof (wf_words m W) as Hw.
  destruct (free_dirs_ok n1 d m (incs l (dir_refs (rd m) 1024 n2 (d + 4 * Z.of_nat n1)))) as (m1 & E1 & C1 & F1).
  - done.
  - lia.
  - rewrite dir_tables_add in HN. by apply NoDup_app in HN as (? & _).
  - rewrite dir_tables_add in HF. by apply Forall_app in HF as (? & _).
  - rewrite dir_refs_add in HD. by apply droppable_front.
  - by rewrite HC, dir_refs_add, incs_app.
  - destruct (rest_unchanged n1 n2 d (rd m) (rd m1) Hw H0 Hn HN HF F1) as (R1 & T1). destruct (dir_absent (rd m1) 1024 n1 d (df_absent _ _ _ _ F1)) as (R0 & T0).
    set (m1' := mk_mm (mem m1) (mem_map m1) (HIGH_MEMORY m1) (S (cr3_loads m1))).
    assert (Er : dir_refs (rd m1') 1024 (n1 + n2) d = dir_refs (rd m) 1024 n2 (d + 4 * Z.of_nat n1)) by (change (rd m1') with (rd m1); rewrite dir_refs_add, R0, R1; done).
    assert (Et : dir_tables (rd m1') (n1 + n2) d = dir_tables (rd m) n2 (d + 4 * Z.of_nat n1)) by (change (rd m1') with (rd m1); rewrite dir_tables_add, T0, T1; done).
    destruct C1 as (C1 & C2 & C3). rewrite dir_tables_add in HN. apply NoDup_app in HN as (_ & _ & HN). pose proof HF as HF0. rewrite dir_tables_add in HF. apply Forall_app in HF as (_ & HF).
    destruct (free_dirs_ok (n1 + n2) d m1' l) as (m2 & E2 & (C4 & C5 & _) & F2).
    + apply F1.
    + done.
    + by rewrite Et.
    + by rewrite Et.
    + rewrite Er. cbn [HIGH_MEMORY m1']. rewrite C2. rewrite dir_refs_add in HD. by eapply droppable_app.
    + rewrite Er. exact C1.
    + exists m1, m2. split; [done |]. split; [by split_and! |]. split; [done |]. split; [done |]. split; [by rewrite C5 |].
      by apply (dirs_freed_trans n1 n2 d (rd m) (rd m1)).
Qed.

(** ** Mapping the pages of the arguments *)

(** The count that [put_page] looks at. *)
Lemma count_reads m j c : mm_wf m -> mem_map m !! j = Some c -> mem_map_get (Z.shiftr (u32 (page_addr j - LOW_MEM)) 12) m = Ok c m.
Proof.
  intros W Hc. assert (j < 3840)%nat by (change 3840%nat with (Z.to_nat PAGING_PAGES); rewrite <- (wf_length m W); by eapply lookup_lt_Some).
  rewrite u32_small by (unfold page_addr, LOW_MEM; lia). rewrite page_index. unfold mem_map_get. rewrite (proj2 (Z.ltb_ge _ _)) by lia. by rewrite Nat2Z.id, Hc.
Qed.

Section Map.
Context (ids : list nat) (dir : Z).
Hypothesis (Hdir : 0 <= dir < 4096).

Definition in_ids (a : Z) : Prop := exists i, i ∈ ids /\ in_words 1024 (page_addr i) a = true.
(** The page table for [dir], or a page that can become one. *)
Definition table_ready (m : mm) : Prop :=
  (present (rd m dir) = false /\ exists f, mem_map m !! f = Some 0)
  \/ (present (rd m dir) = true /\ exists t, frame (rd m dir) = page_addr t /\ (t ∉ ids) /\ mem_map m !! t <> Some 0).
Definition mapped_at (m : mm) (k : Z) : option Z :=
  if present (rd m dir) then let e := rd m (frame (rd m dir) + 4 * k) in if present e then Some (frame e) else None else None.
Record map_ok (m : mm) : Prop := {
  mk_wf : mm_wf m;
  mk_ids : forall i, i ∈ ids -> exists c, mem_map m !! i = Some c /\ c <> 0;
  mk_ready : table_ready m }.

(** After putting [p] at entry [k] of the table. *)
Record page_put (p k : Z) (m m' : mm) : Prop := {
  pp_ok : map_ok m';
  pp_here : mapped_at m' k = Some p;
  pp_there : forall j q, 0 <= j < 1024 -> j <> k -> mapped_at m j = Some q -> mapped_at m' j = Some q;
  pp_same : forall a, in_ids a -> rd m' a = rd m a;
  pp_counts : forall i c, mem_map m !! i = Some c -> c <> 0 -> mem_map m' !! i = Some c }.

Lemma dir_not_id a : a = dir -> ~ in_ids a.
Proof. intros -> (i & _ & H). unfold in_words in H. b2p_in H. rewrite page_addr_frame in *. lia. Qed.

(** The entry of page [j] in the table on page [t]. *)
Lemma set_entry m t j k : map_ok m -> present (rd m dir) = true -> frame (rd m dir) = page_addr t -> t ∉ ids -> mem_map m !! t <> Some 0 ->
  j ∈ ids -> 0 <= k < 1024 ->
  exists m', store (page_addr t + 4 * k) (Z.lor (page_addr j) 7) m = Ok tt m' /\ page_put (page_addr j) k m m'.
Proof.
  intros [W I R] Hp Hf Ht Htc Hj Hk. assert (Hjl : (j < Z.to_nat PAGING_PAGES)%nat).
  { destruct (I j Hj) as (c & Hc & _). rewrite <- (wf_length m W). by eapply lookup_lt_Some. }
  destruct (new_entry j Hjl) as (Hr & Hpr & Hfr & _). rewrite store_ok by done. eexists. split; [reflexivity |].
  set (m' := set_mem _ m). assert (Hin : in_words 1024 (page_addr t) (page_addr t + 4 * k) = true) by (apply in_words_offset; lia).
  assert (Ed : rd m' dir = rd m dir).
  { unfold m'. rewrite rd_store. unfold upd. rewrite (proj2 (Z.eqb_neq _ _)); [done |]. rewrite page_addr_frame. lia. }
  constructor.
  - constructor; [| done |].
    + destruct W. constructor; try done. intros a. unfold m'. rewrite rd_store. unfold upd. case_match; [lia | done].
    + right. rewrite Ed. split; [done |]. by exists t.
  - unfold mapped_at. rewrite Ed, Hp, Hf. cbv zeta. unfold m'. rewrite rd_store. unfold upd. by rewrite Z.eqb_refl, Hpr, Hfr.
  - intros i q Hi Hik. unfold mapped_at. rewrite Ed, Hp, Hf. cbv zeta. unfold m'. rewrite rd_store. unfold upd.
    by rewrite (proj2 (Z.eqb_neq _ _)) by lia.
  - intros a (i & Hi & Ha). unfold m'. rewrite rd_store. unfold upd. rewrite (proj2 (Z.eqb_neq _ _)); [done |]. intros ->.
    apply Ht. by rewrite (in_page_unique t i _ Hin Ha).
  - done.
Qed.

(** A table is allocated first if there is none. *)
Lemma new_table m p m1 : map_ok m -> present (rd m dir) = false -> allocated m p m1 ->
  exists t m2, p = page_addr t /\ store dir (Z.lor p 7) m1 = Ok tt m2 /\ map_ok m2 /\ present (rd m2 dir) = true /\ frame (rd m2 dir) = page_addr t
  /\ (t ∉ ids) /\ mem_map m2 !! t <> Some 0 /\ (forall a, in_ids a -> rd m2 a = rd m a)
  /\ (forall i c, mem_map m !! i = Some c -> c <> 0 -> mem_map m2 !! i = Some c).
Proof.
  intros [W I R] Hp Hal. pose proof (allocated_wf _ _ _ W Hal) as W1. destruct Hal as (t & -> & Ht & _ & HM & HR & HH & _).
  assert (Htl : (t < length (mem_map m))%nat) by by eapply lookup_lt_Some.
  assert (Hn : t ∉ ids) by (intros Hin; destruct (I t Hin) as (c & Hc & H0); congruence).
  destruct (new_entry t) as (Hr & Hpr & Hfr & _); [by rewrite <- (wf_length m W) |].
  exists t. eexists. split; [done |]. split; [by apply store_ok |]. set (m2 := set_mem _ m1).
  assert (Ed : rd m2 dir = Z.lor (page_addr t) 7) by (unfold m2; rewrite rd_store; unfold upd; by rewrite Z.eqb_refl).
  assert (Hcount : forall i c, mem_map m !! i = Some c -> c <> 0 -> mem_map m2 !! i = Some c).
  { intros i c Hi Hc. unfold m2. cbn [mem_map set_mem]. rewrite HM, list_lookup_insert_ne; [done |]. intros ->. congruence. }
  assert (Hnz : mem_map m2 !! t <> Some 0) by (unfold m2; cbn [mem_map set_mem]; rewrite HM, list_lookup_insert_eq by done; done).
  split; [| split; [by rewrite Ed | split; [by rewrite Ed |]]].
  - constructor.
    + destruct W1. constructor; try done. intros a. unfold m2. rewrite rd_store. unfold upd. case_match; [lia | done].
    + intros i Hi. destruct (I i Hi) as (c & Hc & H0). exists c. eauto.
    + right. rewrite Ed, Hpr, Hfr. split; [done |]. by exists t.
  - split; [done |]. split; [done |]. split; [| done]. intros a Ha. unfold m2. rewrite rd_store. unfold upd. case_match eqn:E.
    + apply Z.eqb_eq in E. by apply dir_not_id in E.
    + rewrite HR. case_match eqn:E2; [| done]. destruct Ha as (i & Hi & Ha). exfalso. apply Hn. by rewrite (in_page_unique t i _ E2 Ha).
Qed.

Lemma put_page_ok m j address : map_ok m -> j ∈ ids -> Z.land (Z.shiftr address 20) 0xffc = dir ->
  exists m', put_page (page_addr j) address m = Ok (page_addr j) m' /\ page_put (page_addr j) (Z.land (Z.shiftr address 12) 0x3ff) m m'.
Proof.
  intros O Hj Hd. pose proof O as [W I R]. destruct (I j Hj) as (c & Hc & _).
  assert (Hk : 0 <= Z.land (Z.shiftr address 12) 0x3ff < 1024) by (change 0x3ff with (Z.ones 10); rewrite Z.land_ones by lia; by apply Z.mod_pos_bound).
  pose proof (count_reads m j c W Hc) as Eg.
  unfold put_page. rewrite (bind_Ok _ _ _ _ _ Eg), Hd. cbv zeta. rewrite (bind_Ok (load dir) _ m (rd m dir) m) by done.
  destruct R as [(Hp & f & Hf) | (Hp & t & Ht & Hn & Htc)]; rewrite Hp.
  - destruct (get_free_page_cases m W) as [(_ & Hno) | (p & m1 & Ep & Hal)]; [by destruct (Hno f) |].
    destruct (new_table m p m1 O Hp Hal) as (t & m2 & -> & E2 & O2 & Hp2 & Hf2 & Hn & Htc & Hs & Hcs).
    rewrite (bind_Ok _ _ _ _ _ Ep). unfold cbool. rewrite (proj2 (Z.eqb_neq _ _)) by (rewrite page_addr_frame; lia). cbn [negb].
    rewrite (bind_Ok _ _ _ _ _ E2). destruct (set_entry m2 t j _ O2 Hp2 Hf2 Hn Htc Hj Hk) as (m3 & E3 & [P1 P2 P3 P4 P5]).
    rewrite (bind_Ok _ _ _ _ _ E3). exists m3. split; [done |]. constructor; [done | done | | |].
    + intros i q _ _. unfold mapped_at. by rewrite Hp.
    + intros a Ha. rewrite P4, Hs by done. done.
    + intros i x Hi Hx. by apply P5; [apply Hcs |].
  - rewrite Ht. destruct (set_entry m t j _ O Hp Ht Hn Htc Hj Hk) as (m3 & E3 & P). rewrite (bind_Ok _ _ _ _ _ E3). by exists m3.
Qed.
End Map.

(** Page [i] of the segment of task [nr]. *)
Definition segment (nr : Z) : Z := 0x4000000 * nr.
Lemma slot_addr nr i : 0 <= nr < 64 -> 0 <= i < 16384 ->
  Z.land (Z.shiftr (segment nr + 4096 * i) 20) 0xffc = 64 * nr + 4 * (i / 1024)
  /\ Z.land (Z.shiftr (segment nr + 4096 * i) 12) 0x3ff = i mod 1024.
Proof.
  intros Hn Hi. unfold segment. rewrite !shiftr_div by lia. split.
  - change 0xffc with (Z.shiftl (Z.ones 10) 2). rewrite Z.land_comm, land_field by lia. rewrite Z.div_div by lia.
    replace ((0x4000000 * nr + 4096 * i) / (2 ^ 20 * 2 ^ 2)) with (16 * nr + i / 1024).
    + rewrite Z.mod_small; [lia |]. assert (0 <= i / 1024 < 16) by (split; [apply Z.div_pos | apply Z.div_lt_upper_bound]; lia). lia.
    + apply (Z.div_unique _ _ _ (4096 * (i mod 1024))); pose proof (Z.div_mod i 1024); pose proof (Z.mod_pos_bound i 1024); lia.
  - change 0x3ff with (Z.ones 10). rewrite Z.land_ones by lia. replace ((0x4000000 * nr + 4096 * i) / 2 ^ 12) with (i + 16 * nr * 2 ^ 10); [by rewrite Z.mod_add by lia |].
    apply (Z.div_unique _ _ _ 0); lia.
Qed.
(** The last table of the segment. *)
Definition last_dir (nr : Z) : Z := 64 * nr + 60.
Lemma top_slot nr k : 0 <= nr < 64 -> 0 <= k < 1024 ->
  Z.land (Z.shiftr (segment nr + 0x4000000 - 4096 * (1024 - k)) 20) 0xffc = last_dir nr
  /\ Z.land (Z.shiftr (segment nr + 0x4000000 - 4096 * (1024 - k)) 12) 0x3ff = k.
Proof.
  intros Hn Hk. replace (segment nr + 0x4000000 - 4096 * (1024 - k)) with (segment nr + 4096 * (15 * 1024 + k)) by lia.
  destruct (slot_addr nr (15 * 1024 + k) Hn ltac:(lia)) as (-> & ->). rewrite Z.add_comm. split.
  - rewrite Z.add_comm with (n := 15 * 1024), Z.div_add, Z.div_small by lia. unfold last_dir. lia.
  - rewrite Z.add_comm, Z.mod_add, Z.mod_small by lia. done.
Qed.

(** The pages from the last one down, [q] of them done. *)
Lemma put_arg_pages_ok ids nr l q m : 0 <= nr < 64 -> (q + length l <= 32)%nat -> map_ok ids (last_dir nr) m ->
  (forall i p, l !! i = Some p -> p <> 0 -> exists j, p = page_addr j /\ j ∈ ids) ->
  exists m', put_arg_pages l (segment nr + 0x4000000 - 4096 * Z.of_nat q) m = Ok tt m' /\ map_ok ids (last_dir nr) m'
  /\ (forall i p, l !! i = Some p -> p <> 0 -> mapped_at (last_dir nr) m' (1023 - Z.of_nat (q + i)) = Some p)
  /\ (forall j x, 1024 - Z.of_nat q <= j < 1024 -> mapped_at (last_dir nr) m j = Some x -> mapped_at (last_dir nr) m' j = Some x)
  /\ (forall a, in_ids ids a -> rd m' a = rd m a).
Proof.
  intros Hnr. revert q m. induction l as [|p l IH]; intros q m Hq O Hl; cbn [put_arg_pages].
  { exists m. split; [done |]. split; [done |]. split; [intros i x Hi; by rewrite lookup_nil in Hi | done]. }
  cbn [length] in Hq. destruct (top_slot nr (1023 - Z.of_nat q) Hnr ltac:(lia)) as (Ed & Ek).
  replace (segment nr + 0x4000000 - 4096 * (1024 - (1023 - Z.of_nat q))) with (segment nr + 0x4000000 - 4096 * Z.of_nat q - PAGE_SIZE) in Ed, Ek by (unfold PAGE_SIZE; lia).
  assert (Step : exists m1, (if cbool p then let* _ := put_page p (segment nr + 0x4000000 - 4096 * Z.of_nat q - PAGE_SIZE) in ret tt else ret tt) m = Ok tt m1
    /\ map_ok ids (last_dir nr) m1 /\ (p <> 0 -> mapped_at (last_dir nr) m1 (1023 - Z.of_nat q) = Some p)
    /\ (forall j x, 1024 - Z.of_nat q <= j < 1024 -> mapped_at (last_dir nr) m j = Some x -> mapped_at (last_dir nr) m1 j = Some x)
    /\ (forall a, in_ids ids a -> rd m1 a = rd m a)).
  { unfold cbool. destruct (p =? 0) eqn:Ep; [apply Z.eqb_eq in Ep; by exists m | apply Z.eqb_neq in Ep]. cbn [negb].
    destruct (Hl 0%nat p eq_refl Ep) as (j & -> & Hj).
    destruct (put_page_ok ids (last_dir nr) ltac:(unfold last_dir; lia) m j _ O Hj Ed) as (m1 & E1 & [P1 P2 P3 P4 _]).
    rewrite Ek in *. exists m1. rewrite (bind_Ok _ _ _ _ _ E1). split; [done |]. split; [done |]. split; [done |]. split; [| done].
    intros i x Hi. apply P3; lia. }
  destruct Step as (m1 & E1 & O1 & P1 & K1 & S1). rewrite (bind_Ok _ _ _ _ _ E1).
  replace (segment nr + 0x4000000 - 4096 * Z.of_nat q - PAGE_SIZE) with (segment nr + 0x4000000 - 4096 * Z.of_nat (S q)) by (unfold PAGE_SIZE; lia).
  destruct (IH (S q) m1 ltac:(lia) O1 ltac:(intros i x Hi; by apply (Hl (S i)))) as (m2 & E2 & O2 & P2 & K2 & S2).
  exists m2. split; [done |]. split; [done |]. split; [| split].
  - intros [|i] x Hi Hx; cbn in Hi.
    + injection Hi as ->. rewrite Nat.add_0_r. apply K2; [lia | by apply P1].
    + replace (q + S i)%nat with (S q + i)%nat by lia. by apply P2.
  - intros j x Hj Hx. apply K2; [lia |]. by apply K1; [lia |].
  - intros a Ha. rewrite S2, S1; done.
Qed.

(** ** What the new program sees *)

Lemma page_bytes_lookup s p k : 0 <= k < 4096 -> page_bytes s p !! Z.to_nat k = Some (rd_byte s (p + k)).
Proof.
  intros Hk. unfold page_bytes. change (map (fun k => rd_byte s (p + k)) (seqZ 0 4096)) with ((fun k => rd_byte s (p + k)) <$> seqZ 0 4096).
  rewrite list_lookup_fmap, lookup_seqZ_lt by lia. cbn. do 3 f_equal. lia.
Qed.
Lemma page_bytes_length s p : length (page_bytes s p) = 4096%nat.
Proof. unfold page_bytes. by rewrite length_map, length_seqZ. Qed.

Lemma user_memory_lookup s base i p k : 0 <= i < 16384 -> 0 <= k < 4096 -> page_of s (base + 4096 * i) = Some p ->
  user_memory s base !! (4096 * i + k) = Some (rd_byte s (p + k)).
Proof.
  intros Hi Hk Hp. unfold user_memory. assert (Hin : i ∈ seqZ 0 16384) by (apply elem_of_seqZ; lia). revert Hin.
  induction (seqZ 0 16384) as [|j l IH]; [by intros ?%elem_of_nil |]. cbn [foldr]. intros Hin. destruct (decide (j = i)) as [-> | Hne].
  - rewrite Hp, store_bytes_lookup, page_bytes_length, decide_True by lia.
    replace (4096 * i + k - 4096 * i) with k by lia. by apply page_bytes_lookup.
  - apply elem_of_cons in Hin as [-> | Hin]; [done |]. destruct (page_of s (base + 4096 * j)); [| by apply IH].
    rewrite store_bytes_lookup, page_bytes_length, decide_False by lia. by apply IH.
Qed.

(** ** The old space while the arguments are copied *)

Section Space.
Context (m0 : mm) (page : list Z) (m : mm) (n : nat) (d : Z) (l : list Z).
Hypothesis (W0 : mm_wf m0) (O : args_ok m0 page m) (S0 : space_ok m0 n d l).

Lemma refs_used i : i ∈ (dir_refs (rd m0) 1024 n d) -> exists c, l !! i = Some c /\ 0 <= c /\ mem_map m0 !! i = Some (c + occ (dir_refs (rd m0) 1024 n d) i) /\ 0 < occ (dir_refs (rd m0) 1024 n d) i.
Proof.
  intros Hi. destruct (so_drop _ _ _ _ S0 i Hi) as (_ & c & Hc & H0 & _). exists c. split; [done |]. split; [done |].
  rewrite (so_counts _ _ _ _ S0), incs_lookup, Hc. split; [done | by apply occ_elem].
Qed.
Lemma ids_free i : i ∈ page_ids page -> mem_map m0 !! i = Some 0 /\ (i ∉ (dir_refs (rd m0) 1024 n d)) /\ l !! i = Some 0.
Proof.
  intros (p & Hp & Hi)%list_elem_of_omap. destruct (p =? 0) eqn:E; [done |]. injection Hi as <-. apply Z.eqb_neq in E.
  apply list_elem_of_lookup in Hp as (k & Hk). destruct (ao_pages _ _ _ O k p Hk E) as (j & -> & Hj). rewrite page_id_addr.
  assert (Hn : j ∉ (dir_refs (rd m0) 1024 n d)) by (intros H; destruct (refs_used j H) as (c & _ & H0 & Hc & Hocc); rewrite Hj in Hc; injection Hc; lia).
  split; [done |]. split; [done |]. pose proof Hj as Hj'. rewrite (so_counts _ _ _ _ S0), incs_lookup in Hj'. destruct (l !! j) as [c|]; [| done]. cbn in Hj'.
  injection Hj' as Hj'. rewrite occ_elem in Hn. pose proof (occ_nonneg (dir_refs (rd m0) 1024 n d) j). f_equal. lia.
Qed.
Lemma table_used t i : t ∈ dir_tables (rd m0) n d -> t = page_addr i -> i ∈ (dir_refs (rd m0) 1024 n d).
Proof.
  clear S0. intros Ht ->. revert Ht. generalize d. induction n as [|k IH]; intros e; cbn [dir_tables dir_refs]; [by intros ?%elem_of_nil |].
  intros [Ht | Ht]%elem_of_app; apply elem_of_app; [left | right; by apply IH]. destruct (present (rd m0 e)) eqn:Hp; [| by apply elem_of_nil in Ht].
  apply list_elem_of_singleton in Ht. apply elem_of_app. right. unfold page_refs. rewrite Hp, <- Ht, (proj2 (Z.leb_le _ _)) by (unfold page_addr; lia).
  cbn [andb]. apply list_elem_of_singleton. by rewrite page_index, Nat2Z.id.
Qed.
(** A table of the space is not a free page, so that it has not been touched. *)
Lemma table_kept t a : t ∈ dir_tables (rd m0) n d -> in_words 1024 t a = true -> rd m a = rd m0 a.
Proof.
  intros Ht Ha. apply O. intros (i & Hi & Ha'). destruct (dir_tables_frame _ _ _ _ (wf_words _ W0) Ht) as (k & ->).
  rewrite page_addr_frame in Ha'. pose proof (in_words_page 1024 _ _ _ ltac:(lia) Ha Ha') as ->.
  destruct (refs_used i) as (c & _ & H0 & Hc & Hocc); [apply (table_used _ i Ht); by rewrite page_addr_frame |]. rewrite Hi in Hc. injection Hc. lia.
Qed.
Lemma dir_kept a : a < 4096 -> rd m a = rd m0 a.
Proof. intros Ha. apply O. by apply low_not_free. Qed.

Lemma space_kept : dir_refs (rd m) 1024 n d = (dir_refs (rd m0) 1024 n d) /\ dir_tables (rd m) n d = dir_tables (rd m0) n d.
Proof.
  apply dir_ext.
  - intros a Ha. apply dir_kept. unfold in_words in Ha. b2p_in Ha. pose proof (so_low _ _ _ _ S0). lia.
  - intros t a Ht Ha. f_equal. by eapply table_kept.
Qed.
Lemma space_with_args : space_ok m n d (incs l (page_ids page)).
Proof.
  destruct space_kept as (Er & Et). destruct S0 as [HL HN HF HD HC]. constructor; rewrite ?Er, ?Et; try done.
  - intros i Hi. rewrite (ao_high _ _ _ O). destruct (HD i Hi) as (Hh & c & Hc & H0 & H1). split; [done |]. exists c.
    rewrite incs_lookup, Hc. cbn. split; [| done]. f_equal. assert (Hn : i ∉ page_ids page) by (intros H; by destruct (ids_free i H) as (_ & ? & _)).
    rewrite occ_elem in Hn. pose proof (occ_nonneg (page_ids page) i). lia.
  - rewrite (ao_counts _ _ _ O), HC, <- !incs_app. apply (incs_Permutation l l eq_refl), Permutation_app_comm.
Qed.
End Space.

(** ** The new space *)

(** What is assumed of the space of the task: [l] are the use counts without it, and one of
    its pages, such as a page table, is used by nobody else. *)
Record old_space (m : mm) (nr : Z) (n : nat) (l : list Z) : Prop := {
  os_nr : 0 < nr < 64;
  os_wf : mm_wf m;
  os_high : HIGH_MEMORY m mod 4096 = 0;
  os_space : space_ok m n (64 * nr) l;
  os_size : n = 16%nat \/ ((n < 16)%nat /\ present (rd m (last_dir nr)) = false);
  os_own : exists i, i ∈ dir_refs (rd m) 1024 n (64 * nr) /\ l !! i = Some 0 }.

Section NewSpace.
Context (m0 : mm) (page : list Z) (m : mm) (nr : Z) (n : nat) (l : list Z) (m2 : mm).
Hypothesis (OS : old_space m0 nr n l) (O : args_ok m0 page m).
Hypothesis (HC : mem_map m2 = incs l (page_ids page)) (HH : HIGH_MEMORY m2 = HIGH_MEMORY m) (F : dirs_freed n (64 * nr) (rd m) (rd m2)).
Let W0 := os_wf _ _ _ _ OS.
Let S0 := os_space _ _ _ _ OS.

(** The counts without the space are bytes, and what it alone used is free. *)
Lemma freed_wf : mm_wf m2.
Proof.
  pose proof (space_with_args m0 page m n (64 * nr) l W0 O S0) as S1. pose proof (ao_wf _ _ _ O) as [L B _ H Fr].
  destruct (space_kept m0 page m n (64 * nr) l W0 O S0) as (Er & _).
  assert (Hcase : forall i c, mem_map m2 !! i = Some c -> mem_map m !! i = Some c \/ (i ∈ dir_refs (rd m) 1024 n (64 * nr) /\ page_addr i < HIGH_MEMORY m /\ 0 <= c < 256)).
  { intros i c Hi. rewrite HC in Hi. destruct (decide (i ∈ dir_refs (rd m) 1024 n (64 * nr))) as [Hin | Hout].
    - right. split; [done |]. destruct (so_drop _ _ _ _ S1 i Hin) as (Hh & c' & Hc' & H0 & H1). split; [done |]. rewrite Hi in Hc'. injection Hc' as <-.
      pose proof (occ_nonneg (dir_refs (rd m) 1024 n (64 * nr)) i). lia.
    - left. rewrite (so_counts _ _ _ _ S1), incs_lookup, Hi. cbn. f_equal. rewrite occ_elem in Hout. pose proof (occ_nonneg (dir_refs (rd m) 1024 n (64 * nr)) i). lia. }
  constructor.
  - rewrite <- L, (so_counts _ _ _ _ S1), HC, !incs_length. done.
  - apply Forall_lookup. intros i c Hi. destruct (Hcase i c Hi) as [Hm | (_ & _ & Hr)]; [| done]. exact (proj1 (Forall_lookup _ _) B _ _ Hm).
  - apply F.
  - by rewrite HH.
  - intros i Hi. rewrite HH. destruct (Hcase i 0 Hi) as [Hm | (_ & Hlt & _)]; [by apply Fr |].
    rewrite (ao_high _ _ _ O) in *. pose proof (os_high _ _ _ _ OS) as Hmod. rewrite page_addr_frame in *. unfold PAGE_SIZE.
    apply Z.mod_divide in Hmod as (q & Hq); [| lia]. rewrite Hq in *. lia.
Qed.

Lemma freed_ready : map_ok (page_ids page) (last_dir nr) m2.
Proof.
  pose proof (so_low _ _ _ _ S0) as Hlow. constructor; [exact freed_wf | |].
  - intros i Hi. destruct (ids_free m0 page m n (64 * nr) l O S0 i Hi) as (_ & _ & Hl). exists (0 + occ (page_ids page) i). rewrite HC, incs_lookup, Hl. split; [done |].
    apply occ_elem in Hi. lia.
  - left. split.
    + destruct (os_size _ _ _ _ OS) as [Hn | (Hn & Habs)].
      * apply F. unfold last_dir. replace (64 * nr + 60) with (64 * nr + 4 * 15) by lia. apply in_words_offset. lia.
      * rewrite (df_same _ _ _ _ F); [by rewrite (dir_kept m0 page m O) by (unfold last_dir; pose proof (os_nr _ _ _ _ OS); lia) | |].
        -- unfold in_words, last_dir. rewrite (proj2 (Z.ltb_ge (64 * nr + 60) _)) by lia. by rewrite andb_false_r.
        -- intros t Ht. apply in_words_ge. destruct (space_kept m0 page m n (64 * nr) l W0 O S0) as (_ & Et). rewrite Et in Ht.
           pose proof (proj1 (Forall_forall _ _) (so_above _ _ _ _ S0) _ Ht). unfold last_dir. pose proof (os_nr _ _ _ _ OS). lia.
    + destruct (os_own _ _ _ _ OS) as (i & Hi & Hl). exists i. rewrite HC, incs_lookup, Hl. cbn. f_equal.
      assert (Hn : i ∉ page_ids page) by (intros H; by destruct (ids_free m0 page m n (64 * nr) l O S0 i H) as (_ & ? & _)).
      rewrite occ_elem in Hn. pose proof (occ_nonneg (page_ids page) i). lia.
Qed.

(** The pages with the arguments are as they were. *)
Lemma args_kept a : in_ids (page_ids page) a -> rd m2 a = rd m a.
Proof.
  intros (i & Hi & Ha). pose proof (so_low _ _ _ _ S0) as Hlow. apply (df_same _ _ _ _ F).
  - unfold in_words in *. b2p_in Ha. rewrite page_addr_frame in *. rewrite (proj2 (Z.ltb_ge a _)) by lia. by rewrite andb_false_r.
  - intros t Ht. destruct (space_kept m0 page m n (64 * nr) l W0 O S0) as (_ & Et). rewrite Et in Ht. destruct (in_words 1024 t a) eqn:E; [| done]. exfalso.
    destruct (dir_tables_frame _ _ _ _ (wf_words _ W0) Ht) as (k & ->). pose proof Ha as Ha'. rewrite page_addr_frame in Ha'.
    pose proof (in_words_page 1024 _ _ _ ltac:(lia) E Ha') as ->. destruct (ids_free m0 page m n (64 * nr) l O S0 i Hi) as (_ & Hn & _). apply Hn.
    apply (table_used m0 n (64 * nr) _ i Ht). by rewrite page_addr_frame.
Qed.

Lemma new_space : exists m3, put_arg_pages (rev page) (segment nr + 0x4000000) m2 = Ok tt m3 /\ mm_wf m3
  /\ forall k c, has m page k c -> user_memory m3 (segment nr) !! (0x4000000 - 131072 + k) = Some c.
Proof.
  pose proof (os_nr _ _ _ _ OS) as Hnr. pose proof (ao_length _ _ _ O) as Hlen.
  destruct (put_arg_pages_ok (page_ids page) nr (rev page) 0 m2 ltac:(lia) ltac:(rewrite length_rev; lia) freed_ready) as (m3 & E & M3 & P & _ & K).
  { intros i p Hi Hp. apply list_elem_of_lookup_2, list_elem_of_In, in_rev, list_elem_of_In in Hi.
    apply list_elem_of_lookup in Hi as (j & Hj). exists (page_id p). split; [by eapply ids_addr | by eapply page_ids_elem]. }
  change (4096 * Z.of_nat 0) with 0 in E. rewrite Z.sub_0_r in E. exists m3. split; [done |]. split; [apply M3 |].
  intros k c (p & H0 & Hp & Hp0 & Hc). assert (Hk : k < 131072) by (apply lookup_lt_Some in Hp; rewrite Hlen in Hp; pose proof (Z.div_mod k 4096); pose proof (Z.mod_pos_bound k 4096); pose proof (Z.div_pos k 4096); lia).
  assert (Hj : 0 <= k / 4096 < 32) by (split; [apply Z.div_pos | apply Z.div_lt_upper_bound]; lia). pose proof (Z.mod_pos_bound k 4096 ltac:(lia)) as Hmod.
  pose proof (Z.div_mod k 4096 ltac:(lia)) as Hdm.
  assert (Hmap : page_of m3 (segment nr + 4096 * (16352 + k / 4096)) = Some p).
  { unfold page_of. destruct (slot_addr nr (16352 + k / 4096) ltac:(lia) ltac:(lia)) as (-> & ->).
    replace ((16352 + k / 4096) / 1024) with 15 by (apply (Z.div_unique _ _ _ (992 + k / 4096)); lia).
    replace ((16352 + k / 4096) mod 1024) with (992 + k / 4096) by (apply (Z.mod_unique _ _ 15); lia).
    pose proof (P (31 - Z.to_nat (k / 4096))%nat p) as HP. unfold mapped_at, last_dir in HP. replace (1023 - Z.of_nat (0 + (31 - Z.to_nat (k / 4096)))) with (992 + k / 4096) in HP by lia.
    change (64 * nr + 4 * 15) with (64 * nr + 60). destruct (present (rd m3 (64 * nr + 60))); cbn [negb]; apply HP; try done.
    all: rewrite rev_alt; change (rev_append page []) with (reverse page); rewrite reverse_lookup, Hlen by lia; rewrite <- Hp; f_equal; lia. }
  replace (0x4000000 - 131072 + k) with (4096 * (16352 + k / 4096) + k mod 4096) by lia. rewrite (user_memory_lookup m3 _ _ p) by (done || lia). f_equal.
  rewrite <- Hc. assert (Hin : in_ids (page_ids page) (p + k mod 4096 - (p + k mod 4096) mod 4)).
  { pose proof (ids_addr m0 page m O _ _ Hp Hp0) as Ep. exists (page_id p). split; [by eapply page_ids_elem |]. rewrite Ep at 2 3. by apply word_in_page. }
  apply byte_word. by rewrite K, args_kept.
Qed.
End NewSpace.
