(* ===== verification/ExecSpec.v ===== *)
(** A new program finds its arguments: [copy_strings], [change_ldt] and [create_tables] of
    fs/exec.c together. *)
From stdpp Require Import base list gmap strings.
From Stdlib Require Import ZArith Lia.
From S2P Require Import Prelude Bits Memory PageTables Sched FsState Buffer Inode Namei Files Bytes Process ProcessSpec Exec ExecArgs ExecImage.
Open Scope Z_scope.

(** ** Words in the memory of a program *)

Lemma load_bytes_ext n a u v : (forall x, a <= x < a + Z.of_nat n -> v !! x = u !! x) -> load_bytes n a v = load_bytes n a u.
Proof.
  revert a. induction n as [|n IH]; intros a H; cbn [load_bytes]; [done |]. rewrite H, IH by (lia || (intros; apply H; lia)). done.
Qed.
Lemma long_ext a u v : (forall x, a <= x < a + 4 -> v !! x = u !! x) -> long_at v a = long_at u a.
Proof. intros H. unfold long_at. by rewrite (load_bytes_ext 4 a u v). Qed.

Definition put_long (a v : Z) (u : gmap Z Z) : gmap Z Z := store_bytes a (le 4 (u32 v)) u.
Lemma put_long_ok a v s : put_fs_long v a s = Ok tt (over umem (put_long a v) s).
Proof. done. Qed.
Lemma put_long_here a v u : 0 <= v < 2 ^ 32 -> long_at (put_long a v u) a = v.
Proof.
  intros Hv. unfold long_at, put_long. rewrite u32_small by done. change 4%nat with (length (le 4 v)) at 1. rewrite load_store.
  apply unle_le. change (256 ^ Z.of_nat 4) with (2 ^ 32). done.
Qed.
Lemma put_long_other a v u x : x < a \/ a + 4 <= x -> put_long a v u !! x = u !! x.
Proof. intros H. unfold put_long. by rewrite store_bytes_lookup, decide_False by (rewrite le_length; lia). Qed.

(** ** Tables of pointers *)

Definition good (str : list Z) : Prop := Forall (fun c => 0 < c < 256) str.
(** The strings one behind the other. *)
Definition texts (u : gmap Z Z) (p : Z) (strs : list (list Z)) : Prop := load_bytes (length (flat strs)) p u = flat strs /\ Forall good strs.

Lemma flat_cons x strs : flat (x :: strs) = (x ++ [0]) ++ flat strs.
Proof. done. Qed.
Lemma flat_app a b : flat (a ++ b) = flat a ++ flat b.
Proof. unfold flat. by rewrite map_app, concat_app. Qed.
Lemma texts_app u p a b : texts u p (a ++ b) <-> texts u p a /\ texts u (p + Z.of_nat (length (flat a))) b.
Proof.
  unfold texts. rewrite flat_app, length_app, load_bytes_split, Forall_app. split.
  - intros (E & Ha & Hb). apply app_inj_1 in E as (E1 & E2); [done | by rewrite load_bytes_length].
  - intros ((E1 & Ha) & E2 & Hb). by rewrite E1, E2.
Qed.
Lemma texts_head u p x strs : texts u p (x :: strs) -> string_in u p x /\ texts u (p + Z.of_nat (S (length x))) strs.
Proof.
  intros H. change (x :: strs) with ([x] ++ strs) in H. apply texts_app in H as ((E & Hx) & H). change (flat [x]) with ((x ++ [0]) ++ []) in *.
  rewrite app_nil_r, length_app in *. cbn [length] in *. rewrite Nat.add_1_r in *. apply Forall_cons in Hx as (Hx & _). done.
Qed.
Lemma texts_nth u p strs k x : texts u p strs -> strs !! k = Some x -> string_in u (p + Z.of_nat (length (flat (take k strs)))) x.
Proof.
  intros H Hk. rewrite <- (take_drop_middle _ _ _ Hk) in H. apply texts_app in H as (_ & H). by apply texts_head in H as (? & _).
Qed.
Lemma texts_ext u v p strs : (forall x, p <= x -> v !! x = u !! x) -> texts u p strs -> texts v p strs.
Proof. intros H (E & G). split; [| done]. rewrite <- E at 2. apply load_bytes_ext. intros x Hx. apply H. lia. Qed.

Lemma skip_string_ok s fuel a x : string_in (umem s) a x -> (length x < fuel)%nat -> skip_string fuel a s = Ok (a + Z.of_nat (S (length x))) s.
Proof. intros Hx Hf. exact (string_end_ok (umem s) s fuel a x eq_refl Hx Hf). Qed.

(** The table at [a] has got the addresses of the strings at [p]. *)
Record table_put (strs : list (list Z)) (p a : Z) (u v : gmap Z Z) : Prop := {
  tp_entry : forall k, (k < length strs)%nat -> long_at v (a + 4 * Z.of_nat k) = p + Z.of_nat (length (flat (take k strs)));
  tp_other : forall x, x < a \/ a + 4 * Z.of_nat (length strs) <= x -> v !! x = u !! x }.

Lemma put_table_ok fuel strs p a s : short fuel strs -> texts (umem s) p strs -> 0 <= p -> p + Z.of_nat (length (flat strs)) < 2 ^ 32 ->
  a + 4 * Z.of_nat (length strs) <= p ->
  exists v, put_table fuel (length strs) p a s = Ok (p + Z.of_nat (length (flat strs)), a + 4 * Z.of_nat (length strs)) (put umem v s)
  /\ table_put strs p a (umem s) v.
Proof.
  revert p a s. induction strs as [|x strs IH]; intros p a s Hs HT H0 Hp Ha; cbn [length put_table].
  { exists (umem s). split; [| constructor; [intros k Hk; cbn in Hk; lia | done]]. cbn. rewrite !Z.add_0_r. by destruct s. }
  apply Forall_cons in Hs as (Hx & Hs). rewrite flat_cons, !length_app in *. cbn [length] in *.
  set (s1 := over umem (put_long a p) s). assert (HT1 : texts (umem s1) p (x :: strs)).
  { eapply texts_ext; [| exact HT]. intros y Hy. apply put_long_other. lia. }
  destruct (texts_head _ _ _ _ HT1) as (Hx1 & HT2). rewrite (bind_Ok _ _ _ _ _ (put_long_ok a p s)). fold s1.
  rewrite (bind_Ok _ _ _ _ _ (skip_string_ok s1 fuel p x Hx1 Hx)).
  destruct (IH (p + Z.of_nat (S (length x))) (a + 4) s1 Hs HT2 ltac:(lia) ltac:(lia) ltac:(lia)) as (v & E & [TE TO]).
  exists v. split.
  - rewrite E. unfold s1. f_equal. f_equal; lia.
  - constructor.
    + intros [|k] Hk; cbn [length] in Hk.
      * replace (a + 4 * Z.of_nat 0) with a by lia. replace (p + Z.of_nat (length (flat (take 0 (x :: strs))))) with p by (cbn; lia).
        transitivity (long_at (put_long a p (umem s)) a); [| apply put_long_here; lia]. apply long_ext. intros y Hy. rewrite TO by lia. done.
      * replace (a + 4 * Z.of_nat (S k)) with (a + 4 + 4 * Z.of_nat k) by lia. rewrite TE by lia. cbn [take]. rewrite flat_cons, !length_app. cbn [length]. lia.
    + intros y Hy. cbn [length] in Hy. rewrite TO by lia. apply put_long_other. lia.
Qed.

(** ** The stack of a new program *)

(** The number of arguments, the arguments and the environment. *)
Definition stack_holds (u : gmap Z Z) (sp : Z) (args env : list (list Z)) : Prop :=
  long_at u sp = Z.of_nat (length args) /\ table_in u (long_at u (sp + 4)) args /\ table_in u (long_at u (sp + 8)) env.

(** A table with its null pointer, in a memory that may have changed elsewhere. *)
Lemma table_put_in strs p a u v w : texts w p strs -> 0 < p -> table_put strs p a u v ->
  (forall x, a <= x < a + 4 * Z.of_nat (length strs) -> w !! x = v !! x) -> long_at w (a + 4 * Z.of_nat (length strs)) = 0 -> table_in w a strs.
Proof.
  intros HT Hp [TE _] Hw H0. split; [| done]. intros k x Hk. assert (Hlt : (k < length strs)%nat) by by eapply lookup_lt_Some.
  rewrite (long_ext (a + 4 * Z.of_nat k) v w) by (intros; apply Hw; lia). rewrite TE by done. split; [lia |]. by apply (texts_nth w p strs).
Qed.

Lemma land_word p : 0 <= p < 2 ^ 32 -> Z.land 0xfffffffc p = p - p mod 4.
Proof.
  intros Hp. change 0xfffffffc with (Z.shiftl (Z.ones 30) 2). rewrite land_field by lia. change (2 ^ 2) with 4.
  rewrite Z.mod_small by (split; [apply Z.div_pos | apply Z.div_lt_upper_bound]; lia). pose proof (Z.div_mod p 4). lia.
Qed.

(** The memory after the three words, the two tables and their null pointers have been
    written in front of the strings. *)
Lemma stack_layout args env p argv envp u v1 v2 :
  let a0 := argv + 4 * Z.of_nat (length args) in let e0 := envp + 4 * Z.of_nat (length env) in let p1 := p + Z.of_nat (length (flat args)) in
  let u3 := put_long (argv - 12) (Z.of_nat (length args)) (put_long (argv - 8) argv (put_long (argv - 4) envp u)) in
  texts u p (args ++ env) -> 0 < argv -> envp = a0 + 4 -> e0 + 4 <= p -> p + Z.of_nat (length (flat args)) < 2 ^ 32 ->
  table_put args p argv u3 v1 -> table_put env p1 envp (put_long a0 0 v1) v2 -> stack_holds (put_long e0 0 v2) (argv - 12) args env.
Proof.
  intros a0 e0 p1 u3 HT H0 Henv He0 Hlen T1 T2.
  assert (Hlow : forall x, x < a0 -> put_long e0 0 v2 !! x = v1 !! x).
  { intros x Hx. rewrite put_long_other, (tp_other _ _ _ _ _ T2), put_long_other by lia. done. }
  assert (Hhead : forall x, argv - 12 <= x < argv -> put_long e0 0 v2 !! x = u3 !! x).
  { intros x Hx. rewrite Hlow by lia. rewrite (tp_other _ _ _ _ _ T1) by lia. done. }
  assert (Hhigh : forall x, p <= x -> put_long e0 0 v2 !! x = u !! x).
  { intros x Hx. rewrite put_long_other, (tp_other _ _ _ _ _ T2), put_long_other, (tp_other _ _ _ _ _ T1) by lia. unfold u3. by rewrite !put_long_other by lia. }
  pose proof (texts_ext _ _ _ _ Hhigh HT) as HTw. apply texts_app in HTw as (HWa & HWe).
  assert (Hargv : long_at (put_long e0 0 v2) (argv - 8) = argv).
  { rewrite (long_ext _ u3) by (intros; apply Hhead; lia). unfold u3. rewrite (long_ext _ (put_long (argv - 8) argv (put_long (argv - 4) envp u))).
    - apply put_long_here. lia.
    - intros x Hx. apply put_long_other. lia. }
  assert (Henvp : long_at (put_long e0 0 v2) (argv - 4) = envp).
  { rewrite (long_ext _ u3) by (intros; apply Hhead; lia). unfold u3. rewrite (long_ext _ (put_long (argv - 4) envp u)).
    - apply put_long_here. lia.
    - intros x Hx. rewrite !put_long_other by lia. done. }
  split; [| replace (argv - 12 + 4) with (argv - 8) by lia; replace (argv - 12 + 8) with (argv - 4) by lia; rewrite Hargv, Henvp; split].
  - rewrite (long_ext _ u3) by (intros; apply Hhead; lia). apply put_long_here. lia.
  - apply (table_put_in args p argv u3 v1); [done | lia | done | |].
    + intros x Hx. apply Hlow. lia.
    + rewrite (long_ext _ (put_long a0 0 v1)); [by apply put_long_here |]. intros x Hx. rewrite put_long_other, (tp_other _ _ _ _ _ T2) by lia. done.
  - apply (table_put_in env p1 envp (put_long a0 0 v1) v2); [done | lia | done | |].
    + intros x Hx. apply put_long_other. lia.
    + by apply put_long_here.
Qed.

Lemma create_tables_ok fuel s p args env : short fuel args -> short fuel env -> texts (umem s) p (args ++ env) ->
  0 < p -> p + Z.of_nat (length (flat (args ++ env))) < 2 ^ 32 -> 4 * Z.of_nat (length args + length env) + 24 <= p ->
  exists sp v, create_tables fuel p (Z.of_nat (length args)) (Z.of_nat (length env)) s = Ok sp (put umem v s) /\ stack_holds v sp args env.
Proof.
  intros Ha He HT Hp Hlen Hroom. unfold create_tables. rewrite land_word by lia. pose proof (Z.mod_pos_bound p 4 ltac:(lia)) as Hm.
  set (sp := p - p mod 4). set (envp := sp - 4 * (Z.of_nat (length env) + 1)). set (argv := envp - 4 * (Z.of_nat (length args) + 1)).
  rewrite (bind_Ok _ _ _ _ _ (put_long_ok _ _ _)), (bind_Ok _ _ _ _ _ (put_long_ok _ _ _)), (bind_Ok _ _ _ _ _ (put_long_ok _ _ _)). rewrite !Nat2Z.id.
  set (s3 := over umem (put_long (argv - 12) _) _).
  set (u3 := put_long (argv - 12) (Z.of_nat (length args)) (put_long (argv - 8) argv (put_long (argv - 4) envp (umem s)))).
  assert (Eu3 : umem s3 = u3) by done.
  assert (Hbelow : forall x, argv <= x -> u3 !! x = umem s !! x) by (intros x Hx; unfold u3; rewrite !put_long_other by lia; done).
  rewrite flat_app, length_app in Hlen.
  assert (HT3 : texts (umem s3) p (args ++ env)) by (rewrite Eu3; eapply texts_ext; [intros x Hx; apply Hbelow; unfold argv, envp, sp; lia | done]).
  apply texts_app in HT3 as (HTa & HTe).
  destruct (put_table_ok fuel args p argv s3 Ha HTa ltac:(lia) ltac:(lia) ltac:(unfold argv, envp, sp; lia)) as (v1 & E1 & T1).
  rewrite (bind_Ok _ _ _ _ _ E1). cbv beta iota. rewrite (bind_Ok _ _ _ _ _ (put_long_ok _ _ _)).
  set (a0 := argv + 4 * Z.of_nat (length args)) in *. set (p1 := p + Z.of_nat (length (flat args))) in *.
  set (s5 := over umem (put_long a0 0) (put umem v1 s3)). assert (Eu5 : umem s5 = put_long a0 0 v1) by done.
  assert (K5 : forall x, a0 + 4 <= x -> umem s5 !! x = u3 !! x) by (intros x Hx; rewrite Eu5, put_long_other, (tp_other _ _ _ _ _ T1) by lia; done).
  destruct (put_table_ok fuel env p1 envp s5 He) as (v2 & E2 & T2).
  { eapply texts_ext; [| exact HTe]. intros x Hx. rewrite K5, Eu3; [done |]. unfold p1, a0, argv, envp, sp in *. lia. }
  all: try (unfold p1, envp, sp; lia).
  rewrite (bind_Ok _ _ _ _ _ E2). cbv beta iota. rewrite (bind_Ok _ _ _ _ _ (put_long_ok _ _ _)).
  set (e0 := envp + 4 * Z.of_nat (length env)) in *. exists (argv - 12), (put_long e0 0 v2). split; [by destruct s |].
  apply (stack_layout args env p argv envp (umem s) v1 v2); [done | unfold argv, envp, sp; lia | unfold argv, envp; lia | unfold envp, sp; lia | lia | exact T1 | exact T2].
Qed.

(** ** Giving the pages back *)

Lemma free_args_ok l0 page m s : mem_map m = incs l0 (page_ids page) -> NoDup (page_ids page) ->
  (forall i p, page !! i = Some p -> p <> 0 -> exists j, p = page_addr j /\ l0 !! j = Some 0 /\ page_addr j < HIGH_MEMORY m) ->
  exists m', for_each page (fun p => on_mm (free_page p)) (put fs_mm m s) = Ok tt (put fs_mm m' s) /\ mem_map m' = l0.
Proof.
  revert m. induction page as [|p page IH]; intros m HC HN Hp; cbn [for_each]; [by exists m |].
  destruct (p =? 0) eqn:E; cbn in HC, HN; rewrite E in HC, HN.
  - apply Z.eqb_eq in E as ->. rewrite (bind_Ok _ _ _ tt (put fs_mm m s)) by done. apply IH; [done | done |]. intros i q Hi. by apply (Hp (S i)).
  - apply Z.eqb_neq in E. destruct (Hp 0%nat p eq_refl E) as (j & -> & Hj & Hh). rewrite page_id_addr in *. apply NoDup_cons in HN as (Hn & HN).
    assert (Hc : mem_map m !! j = Some 1).
    { rewrite HC. change (j :: omap _ page) with (j :: page_ids page). rewrite incs_lookup, Hj, occ_cons, decide_True by done. cbn. f_equal.
      assert (Hno : ~ 0 < occ (page_ids page) j) by (by rewrite <- occ_elem). pose proof (occ_nonneg (page_ids page) j). lia. }
    pose proof (free_page_ok m j 1 Hc ltac:(lia) Hh) as Ef. set (m1 := set_mem_map (alter Z.pred j) m) in Ef.
    assert (E1 : on_mm (free_page (page_addr j)) (put fs_mm m s) = Ok tt (put fs_mm m1 s)) by (unfold on_mm; cbn; by rewrite Ef).
    rewrite (bind_Ok _ _ _ _ _ E1). apply (IH m1); [| done | intros i q Hi; by apply (Hp (S i))].
    cbn [mem_map m1 set_mem_map]. rewrite HC. by eapply incs_pred.
Qed.

(** ** The whole way *)

(** The segments of the task: [n] directory entries from the start of its slot on. *)
Record task_space (t : task_struct) (nr : Z) (n : nat) : Prop := {
  tk_bases : code_base (ts_ldt t) = segment nr /\ data_base (ts_ldt t) = segment nr;
  tk_limits : (dirs_of (code_limit (ts_ldt t)) <= dirs_of (data_limit (ts_ldt t)))%nat /\ dirs_of (data_limit (ts_ldt t)) = n }.

Lemma segment_aligned nr : Z.land (segment nr) 0x3fffff = 0.
Proof. unfold segment. change 0x3fffff with (Z.ones 22). rewrite Z.land_ones by lia. replace (0x4000000 * nr) with (16 * nr * 2 ^ 22) by lia. apply Z.mod_mul. lia. Qed.
Lemma segment_dir nr : 0 <= nr < 64 -> Z.land (Z.shiftr (segment nr) 20) 0xffc = 64 * nr.
Proof. intros H. destruct (slot_addr nr 0 H ltac:(lia)) as (E & _). change (4096 * 0) with 0 in E. rewrite Z.add_0_r in E. rewrite E. change (0 / 1024) with 0. lia. Qed.

(** [free_page_tables] for the segment of a task. *)
Lemma free_segment nr size m m' : 0 < nr < 64 -> free_dirs (dirs_of size) (64 * nr) m = Ok tt m' ->
  free_page_tables (segment nr) size m = Ok 0 (mk_mm (mem m') (mem_map m') (HIGH_MEMORY m') (S (cr3_loads m'))).
Proof.
  intros Hnr E. unfold free_page_tables. rewrite segment_aligned, segment_dir by lia. cbn [cbool Z.eqb negb].
  rewrite (proj2 (Z.eqb_neq _ _)) by (unfold segment; lia). unfold dirs_of in E. by rewrite (bind_Ok _ _ _ _ _ E).
Qed.

Lemma change_ldt_ok s t nr m text page : tasks (fs_sched s) !! current (fs_sched s) = Some t -> code_base (ts_ldt t) = segment nr ->
  put_arg_pages (rev page) (segment nr + 0x4000000) (fs_mm s) = Ok tt m ->
  exists s', change_ldt text page s = Ok 0x4000000 s' /\ umem s' = user_memory m (segment nr).
Proof.
  intros Ht Hb Em. unfold change_ldt. cbv zeta. rewrite (bind_Ok _ _ _ _ _ (current_reads s t Ht)), Hb.
  rewrite (bind_Ok _ _ _ _ _ (set_cur_ok ts_ldt _ s t Ht)). set (s1 := over fs_sched _ s).
  rewrite (bind_Ok _ _ s1 tt (st s1 m)) by (unfold on_mm; change (fs_mm s1) with (fs_mm s); by rewrite Em).
  eexists. split; [reflexivity |]. done.
Qed.
(** The arguments at the top of the segment. *)
Lemma texts_at_top m page p strs u : (forall k c, has m page k c -> u !! (0x4000000 - 131072 + k) = Some c) ->
  holds_args m page p (flat strs) -> Forall good strs -> texts u (p + 0x4000000 - 131072) strs.
Proof.
  intros U H G. split; [| done]. apply list_eq. intros i. destruct (decide (i < length (flat strs))%nat) as [Hi | Hi].
  - rewrite load_bytes_lookup by done. destruct (lookup_lt_is_Some_2 _ _ Hi) as (c & Hc). rewrite Hc. specialize (U _ _ (H i c Hc)).
    replace (p + 0x4000000 - 131072 + Z.of_nat i) with (0x4000000 - 131072 + (p + Z.of_nat i)) by lia. by rewrite U.
  - rewrite !lookup_ge_None_2; [done | lia | rewrite load_bytes_length; lia].
Qed.

Lemma new_image_ok fuel s t nr n l m0 page p args env text :
  tasks (fs_sched s) !! current (fs_sched s) = Some t -> task_space t nr n -> old_space m0 nr n l -> args_ok m0 page (fs_mm s) ->
  holds_args (fs_mm s) page p (flat (args ++ env)) -> Forall good (args ++ env) -> short fuel args -> short fuel env ->
  0 < p -> p + Z.of_nat (length (flat (args ++ env))) < 131072 ->
  exists sp s', new_image fuel text page p (Z.of_nat (length args)) (Z.of_nat (length env)) s = Ok sp s' /\ stack_holds (umem s') sp args env.
Proof.
  intros Ht [(Bc & Bd) (Lc & Ld)] OS O Hargs Hgood Ha He Hp Hlen. pose proof (os_nr _ _ _ _ OS) as Hnr.
  pose proof (space_with_args m0 page (fs_mm s) n (64 * nr) l (os_wf _ _ _ _ OS) O (os_space _ _ _ _ OS)) as SO.
  set (n1 := dirs_of (code_limit (ts_ldt t))) in *. assert (Hn : n = (n1 + (n - n1))%nat) by lia. rewrite Hn in SO.
  destruct (free_twice (fs_mm s) n1 (n - n1) (64 * nr) _ (ao_wf _ _ _ O) SO) as (m1 & m2 & E1 & (_ & H1 & _) & E2 & C2 & H2 & F2).
  rewrite <- Hn in *. set (m1' := mk_mm (mem m1) (mem_map m1) (HIGH_MEMORY m1) (S (cr3_loads m1))) in *.
  set (m2' := mk_mm (mem m2) (mem_map m2) (HIGH_MEMORY m2) (S (cr3_loads m2))).
  destruct (new_space m0 page (fs_mm s) nr n l m2' OS O C2 H2 F2) as (m3 & E3 & _ & U3).
  assert (Hcur : forall m, current_task (st s m) = Ok t (st s m)) by (intros m; by apply current_reads).
  unfold new_image. rewrite (bind_Ok _ _ s 0 (st s m1')).
  2:{ rewrite (bind_Ok _ _ _ _ _ (current_reads s t Ht)), Bc. unfold on_mm. by rewrite (free_segment nr _ _ m1 Hnr E1). }
  rewrite (bind_Ok _ _ (st s m1') 0 (st s m2')).
  2:{ rewrite (bind_Ok _ _ _ _ _ (Hcur m1')), Bd. rewrite <- Ld in E2. apply on_mm_st. exact (free_segment nr _ m1' m2 Hnr E2). }
  set (s3 := over fs_sched (over last_task_used_math (fun m => if m =? current (fs_sched s) then 0 else m)) (st s m2')).
  rewrite (bind_Ok _ _ (st s m2') tt s3) by done.
  assert (Ht3 : tasks (fs_sched s3) !! current (fs_sched s3) = Some t) by done.
  rewrite (bind_Ok _ _ _ _ _ (set_cur_ok ts_used_math 0 s3 t Ht3)). fold (with_cur (put ts_used_math 0 t) s3).
  set (t4 := put ts_used_math 0 t). set (s4 := with_cur t4 s3). pose proof (with_cur_reads t4 s3 : tasks (fs_sched s4) !! _ = _) as Ht4.
  destruct (change_ldt_ok s4 t4 nr m3 text page Ht4 Bc E3) as (s5 & E5 & U5). rewrite (bind_Ok _ _ _ _ _ E5).
  change (MAX_ARG_PAGES * PAGE_SIZE) with 131072. rewrite u32_small by lia.
  destruct (create_tables_ok fuel s5 (p + 0x4000000 - 131072) args env Ha He) as (sp & v & E6 & Hst).
  - apply (texts_at_top (fs_mm s) page); [by rewrite U5 | done | done].
  - lia.
  - lia.
  - assert (length args + length env <= length (flat (args ++ env)))%nat; [| lia]. rewrite <- length_app. generalize (args ++ env). intros L.
    induction L as [|x L IH]; [cbn; lia |]. rewrite flat_cons, !length_app. cbn [length]. lia.
  - exists sp. eexists. split; [exact E6 | exact Hst].
Qed.

Lemma table_good u a strs : table_in u a strs -> Forall good strs.
Proof. intros (H & _). apply Forall_lookup. intros k x Hk. by destruct (H k x Hk) as (_ & G & _). Qed.

(** C4: A new program finds the arguments and the environment it was called with. The
    tables at [argv] and [envp] are counted and their strings copied into free pages of
    physical memory, from the last one on and each from its end on. If no page is free,
    the pages taken so far are given back and every use count is what it was. Otherwise the old
    address space is freed, the pages are mapped at the top of the new one, and the
    stack pointer is at the number of arguments, followed by pointers to two tables with the very
    same strings in the same order, each ended by a null pointer. What happens
    between the two parts, such as closing files, may change anything but physical memory
    and the space of the task. *)
Theorem exec_arguments fuel s nr n l args env argv envp text :
  let argc := Z.of_nat (length args) in let envc := Z.of_nat (length env) in
  table_in (umem s) argv args -> table_in (umem s) envp env -> argv <> 0 -> envp <> 0 ->
  short fuel args -> short fuel env -> (length args < fuel)%nat -> (length env < fuel)%nat ->
  Z.of_nat (length (flat args) + length (flat env)) < 131068 -> old_space (fs_mm s) nr n l ->
  count fuel argv s = Ok argc s /\ count fuel envp s = Ok envc s
  /\ exists p page s1, copy_args fuel argc argv envc envp (replicate 32 0) 131068 s = Ok (p, page) s1
     /\ ((p = 0 /\ no_page (fs_mm s1)
          /\ exists s2, for_each page (fun p => on_mm (free_page p)) s1 = Ok tt s2 /\ mem_map (fs_mm s2) = mem_map (fs_mm s))
         \/ (0 < p /\ forall s2 t, fs_mm s2 = fs_mm s1 -> tasks (fs_sched s2) !! current (fs_sched s2) = Some t -> task_space t nr n ->
             exists sp s3, new_image fuel text page p argc envc s2 = Ok sp s3 /\ stack_holds (umem s3) sp args env)).
Proof.
  intros argc envc Ta Te Hargv Henvp Sa Se La Le Hlen OS.
  assert (Hc : forall a strs, table_in (umem s) a strs -> a <> 0 -> (length strs < fuel)%nat -> count fuel a s = Ok (Z.of_nat (length strs)) s).
  { intros a strs Ht Hn Hf. unfold count, cbool. rewrite (proj2 (Z.eqb_neq _ _) Hn). exact (count_ok (umem s) s fuel a strs eq_refl Ht Hf 0). }
  split; [by apply Hc |]. split; [by apply Hc |].
  destruct (copy_args_ok s fuel argv envp args env (os_wf _ _ _ _ OS) Sa Se Ta Te Hlen) as (p & page & m1 & E & O & H).
  exists p, page. eexists. split; [exact E |]. rewrite app_nil_r in H. destruct H as [(Hp & Hno) | (Hp & Hh)].
  - left. split; [done |]. split; [done |]. destruct (free_args_ok (mem_map (fs_mm s)) page m1 s) as (m2 & E2 & C2); [apply O | apply O | |].
    + intros i q Hi Hq. destruct (ao_pages _ _ _ O i q Hi Hq) as (j & -> & Hj). exists j. split; [done |]. split; [done |].
      rewrite (ao_high _ _ _ O). pose proof (wf_free _ (os_wf _ _ _ _ OS) j Hj). unfold PAGE_SIZE in *. lia.
    + eexists. split; [exact E2 |]. exact C2.
  - right. rewrite flat_app, length_app in Hp. split; [lia |]. intros s2 t Hm Ht HS. cbn in Hm.
    apply (new_image_ok fuel s2 t nr n l (fs_mm s) page p args env text Ht HS OS); rewrite ?Hm; try done.
    + apply Forall_app. split; by eapply table_good.
    + lia.
    + rewrite flat_app, length_app. lia.
Qed.

(** A task at 64 MB with one page table calls [ls -l] with one variable. *)
Definition caller_memory : gmap Z Z :=
  store_bytes 100 (le 4 200 ++ le 4 210 ++ le 4 0 ++ le 4 220 ++ le 4 0)
    (store_bytes 200 [108; 115; 0] (store_bytes 210 [45; 108; 0] (store_bytes 220 [65; 61; 49; 0] ∅))).
Definition caller_task : task_struct := put ts_ldt (mk_ldt 0x4000000 0x400000 0x4000000 0x400000) (INIT_TASK 2000).
Definition caller : fs_state := put umem caller_memory (put fs_mm (demo 1) (with_cur caller_task empty_fs)).

Lemma caller_current : tasks (fs_sched caller) !! current (fs_sched caller) = Some caller_task.
Proof. exact (with_cur_reads caller_task empty_fs). Qed.
Lemma caller_refs : dir_refs (rd (demo 1)) 1024 1 64 = [1%nat; 0%nat] /\ dir_tables (rd (demo 1)) 1 64 = [page_addr 0].
Proof. split; vm_compute; reflexivity. Qed.
Lemma caller_space : old_space (demo 1) 1 1 (replicate 3840 0).
Proof.
  destruct caller_refs as (Er & Et). constructor.
  - lia.
  - apply demo_wf. lia.
  - reflexivity.
  - constructor; change (64 * 1) with 64; rewrite ?Er, ?Et.
    + lia.
    + apply NoDup_singleton.
    + constructor; [vm_compute; discriminate | constructor].
    + intros i Hi. assert (Hi' : i = 1%nat \/ i = 0%nat) by (apply elem_of_cons in Hi as [Hi | Hi]; [left; exact Hi | right; apply list_elem_of_singleton in Hi; exact Hi]).
      destruct Hi' as [-> | ->]; (split; [vm_compute; reflexivity | exists 0; split; [vm_compute; reflexivity | vm_compute; split; [discriminate | reflexivity]]]).
    + vm_compute. reflexivity.
  - right. split; [lia | vm_compute; reflexivity].
  - exists 0%nat. change (64 * 1) with 64. rewrite Er. split; [right; left | reflexivity].
Qed.

Lemma exec_arguments_witness : exists p page s1 sp s3,
  copy_args 20 2 100 1 112 (replicate 32 0) 131068 caller = Ok (p, page) s1 /\ new_image 20 5000 page p 2 1 (put fs_mm (fs_mm s1) caller) = Ok sp s3
  /\ stack_holds (umem s3) sp [[108; 115]; [45; 108]] [[65; 61; 49]].
Proof.
  destruct (exec_arguments 20 caller 1 1 (replicate 3840 0) [[108; 115]; [45; 108]] [[65; 61; 49]] 100 112 5000) as (_ & _ & p & page & s1 & E & H).
  - split; [| reflexivity]. intros [|[|[|k]]] x Hx; try discriminate; injection Hx as <-; (split; [discriminate |]); (split; [repeat constructor; lia | reflexivity]).
  - split; [| reflexivity]. intros [|[|k]] x Hx; try discriminate; injection Hx as <-; (split; [discriminate |]); (split; [repeat constructor; lia | reflexivity]).
  - lia.
  - lia.
  - repeat constructor; cbn; lia.
  - repeat constructor; cbn; lia.
  - cbn; lia.
  - cbn; lia.
  - cbn; lia.
  - exact caller_space.
  - exists p, page, s1. destruct H as [(Hp & _) | (_ & H)].
    + exfalso. assert (Hn : match copy_args 20 2 100 1 112 (replicate 32 0) 131068 caller with Ok (p, _) _ => p =? 0 | _ => true end = false) by (vm_compute; reflexivity).
      change (copy_args 20 2 100 1 112 (replicate 32 0) 131068 caller = Ok (p, page) s1) in E. rewrite E, Hp in Hn. discriminate Hn.
    + destruct (H (put fs_mm (fs_mm s1) caller) caller_task) as (sp & s3 & E3 & Hst); [reflexivity | exact caller_current | |].
      * constructor; [split; reflexivity | split; [apply Nat.le_refl | reflexivity]].
      * exists sp, s3. split; [exact E |]. split; [exact E3 | exact Hst].
Defined.
