(* ===== verification/SharePage.v ===== *)
(** Sharing a page with another task that runs the same program: [try_to_share] and
    [share_page] of mm/memory.c. *)
From stdpp Require Import base list gmap strings.
From Stdlib Require Import ZArith Lia.
From S2P Require Import Prelude Bits Memory PageTables Sched FsState Buffer Inode Namei Files Process ProcessSpec Exec ExecArgs ExecImage.
Open Scope Z_scope.

(** The page table for a directory entry, if there is one. *)
Definition table_at (m : mm) (dir : Z) (t : option nat) : Prop :=
  match t with
  | Some i => present (rd m dir) = true /\ frame (rd m dir) = page_addr i /\ mem_map m !! i <> Some 0
  | None => present (rd m dir) = false
  end.

(** ** The addresses *)

Lemma ffc_field x : Z.land x 0xffc = 4 * ((x / 4) mod 1024).
Proof. change 0xffc with (Z.shiftl (Z.ones 10) 2). rewrite Z.land_comm, land_field by lia. done. Qed.
Lemma ffc_entry x : exists j, 0 <= j < 1024 /\ Z.land x 0xffc = 4 * j.
Proof. exists ((x / 4) mod 1024). split; [by apply Z.mod_pos_bound | apply ffc_field]. Qed.

(** Where [try_to_share] looks for the entry of the current task. *)
Lemma share_place a start : start mod 0x400000 = 0 -> 0 <= start <= a -> a < 2 ^ 32 -> let tmp := u32 (a - start) in
  Z.land (Z.shiftr tmp 20) 0xffc + Z.land (Z.shiftr start 20) 0xffc = Z.land (Z.shiftr a 20) 0xffc
  /\ Z.land (Z.shiftr tmp 10) 0xffc = 4 * Z.land (Z.shiftr a 12) 0x3ff.
Proof.
  intros Hs Ha H32. apply Z.mod_divide in Hs as (q & ->); [| lia]. cbv zeta. rewrite u32_small by lia.
  set (t := a - q * 0x400000). assert (Ea : a = t + q * 0x400000) by lia. rewrite !ffc_field, !shiftr_div by lia.
  change 0x3ff with (Z.ones 10). rewrite Z.land_ones by lia. rewrite !Z.div_div by lia.
  change (2 ^ 20 * 4) with 0x400000. change (2 ^ 10 * 4) with 4096. change (2 ^ 12) with 4096. change (2 ^ 10) with 1024.
  rewrite Z.div_mul by lia. assert (Et : 0 <= t / 0x400000 /\ 0 <= q) by (split; [apply Z.div_pos; lia | lia]).
  assert (Eq : a / 0x400000 = t / 0x400000 + q) by (rewrite Ea, Z.div_add; lia).
  assert (Hlt : a / 0x400000 < 1024) by (apply Z.div_lt_upper_bound; lia). split.
  - rewrite !Z.mod_small by lia. lia.
  - f_equal. replace (a / 4096) with (t / 4096 + (q * 1024)); [by rewrite Z.mod_add by lia |].
    rewrite Ea. replace (q * 0x400000) with (q * 1024 * 4096) by lia. by rewrite Z.div_add by lia.
Qed.

Lemma clean_present e : Z.land e 0x41 = 1 -> present e = true.
Proof.
  intros E. rewrite present_odd. apply Z.eqb_eq. change 2 with (2 ^ 1). rewrite <- Z.land_ones by lia.
  change (Z.ones 1) with (Z.land 0x41 1). by rewrite Z.land_assoc, E.
Qed.

Lemma frame_land e : Z.land e 0xfffff000 = frame e.
Proof. apply Z.land_comm. Qed.

(** ** One task *)

(** The page at entry [idx] of the table at [fd], if there is one, is counted, and the table
    itself is not on a free page. *)
Definition shareable (m : mm) (fd idx : Z) : Prop := present (rd m fd) = true ->
  4096 <= frame (rd m fd) /\ (forall i, frame (rd m fd) = page_addr i -> mem_map m !! i <> Some 0)
  /\ let e := rd m (frame (rd m fd) + idx) in
     present e = true -> LOW_MEM <= frame e < HIGH_MEMORY m -> exists i c, frame e = page_addr i /\ mem_map m !! i = Some c /\ 1 <= c < 255.

(** The page of entry [fp] is now at entry [idx] of the table at [dir] as well: it was clean,
    both entries are without write permission, and it has one more user.  Other counts and
    other pages in use, apart from the table, are as they were. *)
Record page_shared (m m' : mm) (fp dir idx : Z) (t : option nat) : Prop := {
  sh_clean : Z.land (rd m fp) 0x41 = 1;
  sh_count : exists i c, frame (rd m fp) = page_addr i /\ mem_map m !! i = Some c /\ mem_map m' !! i = Some (c + 1);
  sh_from : rd m' fp = clr (rd m fp);
  sh_to : present (rd m' dir) = true /\ rd m' (frame (rd m' dir) + idx) = clr (rd m fp);
  sh_counts : forall k c, mem_map m !! k = Some c -> c <> 0 -> page_addr k <> frame (rd m fp) -> mem_map m' !! k = Some c;
  sh_others : forall i c b, mem_map m !! i = Some c -> c <> 0 -> Some i <> t -> in_words 1024 (page_addr i) b = true -> b <> fp -> rd m' b = rd m b }.

(** The end of [try_to_share], from the look at the entry of the current task on. *)
Definition share_entry (fp tp phys_addr : Z) : M mm Z :=
  let* t := load tp in
  if present t then panic "try_to_share: to_page already exists" else
  (let* e := load fp in store fp (Z.land e (Z.lnot 2))) ;;;
  (let* e := load fp in store tp e) ;;;
  invalidate ;;;
  let i := Z.shiftr (phys_addr - LOW_MEM) 12 in
  let* c := mem_map_get i in
  mem_map_set i (c + 1) ;;;
  ret 1.

Lemma share_entry_ok m fp tp i c : words (rd m) -> present (rd m tp) = false -> fp <> tp -> mem_map m !! i = Some c -> 0 <= c < 255 ->
  exists m', share_entry fp tp (page_addr i) m = Ok 1 m' /\ mem_map m' = <[i := c + 1]> (mem_map m)
  /\ forall a, rd m' a = if a =? tp then clr (rd m fp) else if a =? fp then clr (rd m fp) else rd m a.
Proof.
  intros Hw Hp Hne Hc Hb. destruct (clr_word (rd m fp) (Hw fp)) as (Hcl & _). unfold share_entry.
  rewrite (bind_Ok (load tp) _ m (rd m tp) m) by done. rewrite Hp. fold (clr (rd m fp)).
  set (m1 := set_mem (<[fp := clr (rd m fp)]>) m). set (m2 := set_mem (<[tp := clr (rd m fp)]>) m1).
  rewrite (bind_Ok _ _ m tt m1).
  2:{ rewrite (bind_Ok (load fp) _ m (rd m fp) m) by done. by apply store_ok. }
  assert (E1 : rd m1 fp = clr (rd m fp)) by (unfold m1; rewrite rd_store; unfold upd; by rewrite Z.eqb_refl).
  rewrite (bind_Ok _ _ m1 tt m2).
  2:{ rewrite (bind_Ok (load fp) _ m1 (rd m1 fp) m1) by done. rewrite E1. by apply store_ok. }
  rewrite page_index. unfold invalidate, modify, bind at 1. cbn beta iota. cbv zeta.
  set (m3 := mk_mm (mem m2) (mem_map m2) (HIGH_MEMORY m2) (S (cr3_loads m2))).
  pose proof (lookup_lt_Some _ _ _ Hc) as Hlt.
  exists (set_mem_map (<[i := c + 1]>) m3). split_and!.
  - rewrite (bind_Ok (mem_map_get _) _ _ c m3) by (unfold mem_map_get; rewrite (proj2 (Z.ltb_ge _ 0)), Nat2Z.id by lia; cbn [m3 mem_map m2 m1 set_mem]; by rewrite Hc).
    unfold mem_map_set, bind. cbn [mem_map m3]. rewrite (proj2 (Z.leb_le 0 _)), (proj2 (Z.ltb_lt _ (Z.of_nat _))) by (cbn; lia). cbn [andb].
    by rewrite Nat2Z.id, u8_small by lia.
  - done.
  - intros a. change (rd (set_mem_map _ m3) a) with (rd m2 a). unfold m2. rewrite rd_store. unfold upd. case_match; [done |]. unfold m1. rewrite rd_store. done.
Qed.

(** The table of the current task is there, with nothing at entry [tp] yet. *)
Lemma shared_from m m0 fp dir idx t ti i c : words (rd m0) -> Z.land (rd m fp) 0x41 = 1 -> rd m0 fp = rd m fp -> 0 <= c < 255 ->
  frame (rd m fp) = page_addr i -> mem_map m !! i = Some c -> 1 <= c ->
  present (rd m0 dir) = true -> frame (rd m0 dir) = page_addr ti -> (exists j, 0 <= j < 1024 /\ idx = 4 * j) -> dir < 4096 <= fp ->
  present (rd m0 (page_addr ti + idx)) = false -> (t = Some ti \/ mem_map m !! ti = Some 0) ->
  (forall k x, mem_map m !! k = Some x -> x <> 0 -> mem_map m0 !! k = Some x) ->
  (forall k x b, mem_map m !! k = Some x -> x <> 0 -> in_words 1024 (page_addr k) b = true -> rd m0 b = rd m b) ->
  exists m', share_entry fp (page_addr ti + idx) (frame (rd m fp)) m0 = Ok 1 m' /\ page_shared m m' fp dir idx t.
Proof.
  intros Hw Hcl Efp Hb Hf Hc H1 Hpd Hfd (j & Hj & ->) Hdir Hnp Htb Hcounts Hrest. pose proof (clean_present _ Hcl) as Hpe.
  assert (Hne : fp <> page_addr ti + 4 * j) by (intros E; rewrite <- E, Efp in Hnp; congruence).
  destruct (share_entry_ok m0 fp (page_addr ti + 4 * j) i c Hw Hnp Hne) as (m' & E & HM & HR); [apply Hcounts; [done | lia] | done |].
  rewrite Efp in HR. assert (Hti : page_addr ti >= 4096) by (rewrite page_addr_frame; lia).
  exists m'. rewrite Hf. split; [exact E |].
  assert (Ed : rd m' dir = rd m0 dir) by (rewrite HR, !(proj2 (Z.eqb_neq dir _)) by lia; done).
  assert (Hlt : (i < length (mem_map m0))%nat) by (eapply lookup_lt_Some, Hcounts; [done | lia]).
  constructor; [done | | | | |].
  - exists i, c. split_and!; [done | done |]. rewrite HM. by apply list_lookup_insert_eq.
  - rewrite HR, Z.eqb_refl. by destruct (fp =? _).
  - rewrite Ed, Hpd, Hfd, HR, Z.eqb_refl. done.
  - intros k x Hk Hx Hkf. rewrite HM, list_lookup_insert_ne; [by apply Hcounts |]. intros ->. by rewrite Hf in Hkf.
  - intros k x b Hk Hx Hkt Hb' Hbf. rewrite HR, (proj2 (Z.eqb_neq b fp)) by done. rewrite (proj2 (Z.eqb_neq b _)); [by apply (Hrest k x) |].
    intros ->. pose proof (in_page_unique _ _ _ (in_words_offset 1024 (page_addr ti) j Hj) Hb') as ->. destruct Htb as [-> | H0]; [done | congruence].
Qed.

Lemma try_to_share_ok m address p_start cur_start t : let fd := Z.land (Z.shiftr address 20) 0xffc + Z.land (Z.shiftr p_start 20) 0xffc in
  let dir := Z.land (Z.shiftr address 20) 0xffc + Z.land (Z.shiftr cur_start 20) 0xffc in let idx := Z.land (Z.shiftr address 10) 0xffc in
  mm_wf m -> table_at m dir t -> dir < 4096 -> (forall i, t = Some i -> present (rd m (page_addr i + idx)) = false) -> shareable m fd idx ->
  try_to_share address p_start cur_start m = Ok 0 m \/ try_to_share address p_start cur_start m = Exit SIGSEGV m
  \/ exists m', try_to_share address p_start cur_start m = Ok 1 m' /\ page_shared m m' (frame (rd m fd) + idx) dir idx t.
Proof.
  intros fd dir idx W T Hdir Hnp Hsh. unfold try_to_share. fold fd dir idx. cbv zeta. pose proof (wf_words _ W) as Hw.
  rewrite (bind_Ok (load fd) _ m (rd m fd) m) by done. destruct (present (rd m fd)) eqn:Hfd; cbn [negb]; [| by left].
  rewrite frame_land. destruct (Hsh Hfd) as (Hlo & Hnf & Hcnt). cbv zeta in Hcnt.
  set (fp := frame (rd m fd) + idx) in *. rewrite (bind_Ok (load fp) _ m (rd m fp) m) by done.
  destruct (Z.eqb_spec (Z.land (rd m fp) 0x41) 1) as [Hcl|]; cbn [negb]; [| by left].
  rewrite frame_land.
  rewrite (bind_Ok (get HIGH_MEMORY) _ m (HIGH_MEMORY m) m) by done. destruct ((HIGH_MEMORY m <=? _) || _) eqn:Hr; [by left |].
  apply orb_false_iff in Hr as (Hh & Hl). apply Z.leb_gt in Hh. apply Z.ltb_ge in Hl.
  destruct (Hcnt (clean_present _ Hcl)) as (i & c & Hf & Hc & Hcb); [lia |]. rewrite (bind_Ok (load dir) _ m (rd m dir) m) by done.
  destruct (ffc_entry (Z.shiftr address 10)) as (j & Hj & Eidx). fold idx in Eidx.
  assert (Hdir0 : 0 <= dir). { unfold dir. destruct (ffc_entry (Z.shiftr address 20)) as (? & ? & ->), (ffc_entry (Z.shiftr cur_start 20)) as (? & ? & ->). lia. }
  destruct t as [ti|]; cbn in T.
  - destruct T as (Hp & Hft & Htc). rewrite Hp. rewrite (bind_Ok (ret (rd m dir)) _ m (rd m dir) m) by done.
    rewrite frame_land, Hft.
    right. right. apply (shared_from m m fp dir idx (Some ti) ti i c); try done; try lia; eauto.
  - rewrite T. destruct (get_free_page_cases m W) as [(Eg & _) | (p & m1 & Eg & Hal)].
    { right. left. unfold bind at 1 2. by rewrite Eg. }
    pose proof Hal as (q & -> & Hq & _ & HM & HR & _). pose proof (allocated_wf _ _ _ W Hal) as W1.
    destruct (new_entry q) as (N1 & N2 & N3 & _); [rewrite <- (wf_length m W); by eapply lookup_lt_Some |].
    set (m2 := set_mem (<[dir := Z.lor (page_addr q) 7]>) m1).
    rewrite (bind_Ok _ _ m (page_addr q) m2).
    2:{ rewrite (bind_Ok _ _ _ _ _ Eg). replace (cbool (page_addr q)) with true by (rewrite page_addr_frame; unfold cbool; blia).
        by rewrite (bind_Ok _ _ _ _ _ (store_ok dir _ m1 N1)). }
    assert (R2 : forall a, rd m2 a = if a =? dir then Z.lor (page_addr q) 7 else if in_words 1024 (page_addr q) a then 0 else rd m a).
    { intros a. unfold m2. rewrite rd_store. unfold upd. by rewrite HR. }
    destruct (page_word q) as (_ & Hfq); [rewrite <- (wf_length m W); by eapply lookup_lt_Some |]. rewrite frame_land, Hfq.
    assert (Hfq' : in_words 1024 (page_addr q) fp = false).
    { destruct (in_words 1024 (page_addr q) fp) eqn:E; [| done]. destruct (frame_aligned (rd m fd) (Hw fd)) as (x & Hx).
      destruct (Hnf q); [| done]. unfold fp in E. rewrite Hx, Eidx, page_addr_frame in *.
      by rewrite (in_words_page 1024 x _ _ ltac:(lia) (in_words_offset 1024 _ j Hj) E). }
    right. right. apply (shared_from m m2 fp dir idx None q i c); try done; try lia; eauto.
    + intros a. rewrite R2. repeat case_match; [done | done | apply Hw].
    + rewrite R2, Hfq', (proj2 (Z.eqb_neq fp dir)) by lia. done.
    + by rewrite R2, Z.eqb_refl.
    + by rewrite R2, Z.eqb_refl.
    + rewrite R2, Eidx, in_words_offset by done. by rewrite (proj2 (Z.eqb_neq _ dir)) by (rewrite page_addr_frame; lia).
    + intros k x Hk Hx. unfold m2. cbn [mem_map set_mem]. rewrite HM, list_lookup_insert_ne; [done |]. intros ->. congruence.
    + intros k x b Hk Hx Hb. rewrite R2, (proj2 (Z.eqb_neq b dir)) by (unfold in_words in Hb; b2p_in Hb; rewrite page_addr_frame in *; lia).
      destruct (in_words 1024 (page_addr q) b) eqn:E; [| done]. pose proof (in_page_unique _ _ _ E Hb) as ->. congruence.
Qed.

(** ** The search for a task *)

Section Share.
Context `{Env} (s : fs_state) (t : task_struct) (a : Z) (tb : option nat).
Let tmp := u32 (a - ts_start_code t).
Let dir := Z.land (Z.shiftr a 20) 0xffc.
Let idx := Z.land (Z.shiftr tmp 10) 0xffc.

(** Another task that runs the program of the current one. *)
Definition runs_same (o : task_struct) : Prop := exists k p, (1 <= k < NR_TASKS)%nat /\ task (fs_sched s) !! k = Some p /\ p <> 0
  /\ p <> current (fs_sched s) /\ tasks (fs_sched s) !! p = Some o /\ ts_executable o = ts_executable t.
(** Its directory entry for the page. *)
Definition other_dir (o : task_struct) : Z := Z.land (Z.shiftr tmp 20) 0xffc + Z.land (Z.shiftr (ts_start_code o) 20) 0xffc.
(** The page of [o] is at [a] now, shared. *)
Definition shares_with (o : task_struct) (m' : mm) : Prop :=
  page_of m' a = Some (frame (rd (fs_mm s) (frame (rd (fs_mm s) (other_dir o)) + idx)))
  /\ page_shared (fs_mm s) m' (frame (rd (fs_mm s) (other_dir o)) + idx) dir idx tb.

Hypothesis Ht : tasks (fs_sched s) !! current (fs_sched s) = Some t.
Hypothesis Hsw : sched_wf (fs_sched s).
Hypothesis Hwf : mm_wf (fs_mm s).
Hypothesis Htab : table_at (fs_mm s) dir tb.
Hypothesis Habs : page_of (fs_mm s) a = None.
Hypothesis Hstart : ts_start_code t mod 0x400000 = 0 /\ 0 <= ts_start_code t <= a.
Hypothesis Ha : a < 2 ^ 32.
Hypothesis Hothers : forall o, runs_same o -> shareable (fs_mm s) (other_dir o) idx.

Lemma share_one o : runs_same o -> let r := try_to_share tmp (ts_start_code o) (ts_start_code t) (fs_mm s) in
  r = Ok 0 (fs_mm s) \/ r = Exit SIGSEGV (fs_mm s) \/ exists m', r = Ok 1 m' /\ shares_with o m'.
Proof using Hwf Htab Habs Hstart Ha Hothers.
  intros Ho. destruct Hstart as (Hs1 & Hs2). destruct (share_place a (ts_start_code t) Hs1 Hs2 Ha) as (Ed & Ei). fold tmp in Ed, Ei. fold dir in Ed. fold idx in Ei.
  pose proof (try_to_share_ok (fs_mm s) tmp (ts_start_code o) (ts_start_code t) tb Hwf) as HT. cbv zeta in HT. rewrite Ed in HT. fold idx in HT. fold (other_dir o) in HT.
  destruct HT as [E | [E | (m' & E & Sh)]]; [done | | | by apply Hothers | by left | by right; left |].
  - unfold dir. destruct (ffc_entry (Z.shiftr a 20)) as (j & Hj & ->). lia.
  - intros i ->. destruct Htab as (Hp & Hf & _). unfold page_of in Habs. fold dir in Habs. rewrite Hp, Hf, <- Ei in Habs. cbn [negb] in Habs. by destruct (present (rd _ (page_addr i + idx))).
  - right. right. exists m'. split; [done |]. split; [| done]. destruct (sh_to _ _ _ _ _ _ Sh) as (H1 & H2).
    set (fp := frame (rd (fs_mm s) (other_dir o)) + idx) in *. unfold page_of. fold dir. rewrite H1, <- Ei, H2. cbn [negb].
    rewrite present_clr, frame_clr by apply (wf_words _ Hwf). by rewrite (clean_present _ (sh_clean _ _ _ _ _ _ Sh)).
Qed.

Lemma share_with_ok n : (n < NR_TASKS)%nat -> share_with n tmp s = Ok false s \/ share_with n tmp s = Exit SIGSEGV s
  \/ exists o m', share_with n tmp s = Ok true (put fs_mm m' s) /\ runs_same o /\ shares_with o m'.
Proof using Ht Hsw Hwf Htab Habs Hstart Ha Hothers.
  induction n as [|n IH]; intros Hn; [by left |]. specialize (IH ltac:(lia)). cbn [share_with].
  destruct (sched_slot (fs_sched s) (S n) Hsw Hn) as (p & Hp). rewrite (bind_Ok _ _ _ _ _ (slot_reads s (S n) p Hp)).
  destruct (cbool p) eqn:Ep; cbn [negb]; [| exact IH]. assert (Hp0 : p <> 0) by (intros ->; done).
  rewrite (bind_Ok (get _) _ s (current (fs_sched s)) s) by done. destruct (Z.eqb_spec (current (fs_sched s)) p) as [|Hcp]; [exact IH |].
  rewrite (bind_Ok _ _ _ _ _ (current_reads s t Ht)). destruct (sw_some _ Hsw _ _ Hp Hp0) as (o & Ho).
  rewrite (bind_Ok _ _ s o s) by (apply on_sched_same; by apply task_at_ok).
  destruct (Z.eqb_spec (ts_executable o) (ts_executable t)) as [He|]; cbn [negb]; [| exact IH].
  assert (Hr : runs_same o) by (exists (S n), p; split_and!; done || lia).
  destruct (share_one o Hr) as [E | [E | (m' & E & Sh)]].
  - rewrite (bind_Ok _ _ s 0 s); [exact IH |]. unfold on_mm. rewrite E. by destruct s.
  - right. left. unfold bind at 1, on_mm. rewrite E. by destruct s.
  - right. right. exists o, m'. split; [| done]. by rewrite (bind_Ok _ _ s 1 (put fs_mm m' s)) by (unfold on_mm; by rewrite E).
Qed.

Lemma share_page_ok n x : inode_of_ptr (ts_executable t) = Some n -> inode_table s !! n = Some x ->
  share_page tmp s = Ok false s \/ share_page tmp s = Exit SIGSEGV s
  \/ exists o m', share_page tmp s = Ok true (put fs_mm m' s) /\ 2 <= i_count x /\ runs_same o /\ shares_with o m'.
Proof using Ht Hsw Hwf Htab Habs Hstart Ha Hothers.
  intros Hn Hx. unfold share_page. rewrite (bind_Ok _ _ _ _ _ (current_reads s t Ht)), Hn.
  rewrite (bind_Ok _ _ _ _ _ (field_ok inode_table i_count n x s Hx)). destruct (Z.ltb_spec (i_count x) 2); [by left |].
  destruct (share_with_ok (NR_TASKS - 1)) as [E | [E | (o & m' & E & Hr & Sh)]]; [unfold NR_TASKS; lia | by left | by right; left |].
  right. right. by exists o, m'.
Qed.
End Share.
