(* ===== verification/NoPage.v ===== *)
(** A page of a program is loaded when it is first used: [do_no_page] of mm/memory.c. *)
From stdpp Require Import base list gmap strings.
From Stdlib Require Import ZArith Lia.
From S2P Require Import Prelude Bits Memory PageTables Sched FsState Buffer Cache Getblk Inode Namei Files Bytes Process ProcessSpec Exec ExecArgs ExecImage SharePage.
Open Scope Z_scope.

(** ** Writing into one page *)

(** Page [j] now holds the bytes [f]; nothing else has changed. *)
Record page_is (j : nat) (f : Z -> Z) (m m' : mm) : Prop := {
  pi_words : words (rd m');
  pi_bytes : forall k, 0 <= k < 4096 -> rd_byte m' (page_addr j + k) = f k;
  pi_rest : forall b, in_words 1024 (page_addr j) b = false -> rd m' b = rd m b;
  pi_map : mem_map m' = mem_map m;
  pi_high : HIGH_MEMORY m' = HIGH_MEMORY m }.

Lemma page_is_trans j f g m m1 m2 : page_is j f m m1 -> page_is j g m1 m2 -> page_is j g m m2.
Proof.
  intros [W1 B1 R1 M1 H1] [W2 B2 R2 M2 H2]. constructor; try done; try congruence. intros b Hb. by rewrite R2, R1.
Qed.
Lemma page_is_ext j f g m m' : (forall k, 0 <= k < 4096 -> f k = g k) -> page_is j f m m' -> page_is j g m m'.
Proof. intros E [W B R M H]. constructor; try done. intros k Hk. by rewrite B, E. Qed.

Lemma store_byte_page j f m0 m k v : page_is j f m0 m -> 0 <= k < 4096 -> 0 <= v < 256 ->
  exists m', store_byte (page_addr j + k) v m = Ok tt m' /\ page_is j (fun x => if x =? k then v else f x) m0 m'.
Proof.
  intros P Hk Hv. destruct (store_byte_ok m (page_addr j + k) v (pi_words _ _ _ _ P) Hv) as (m' & E & [W B R M H]). exists m'. split; [done |].
  eapply page_is_trans; [exact P |]. constructor; try done.
  - intros x Hx. rewrite B, (pi_bytes _ _ _ _ P) by done. by replace (page_addr j + x =? page_addr j + k) with (x =? k) by blia.
  - intros b Hb. apply R. intros ->. by rewrite word_in_page in Hb.
Qed.

Lemma store_all_page j m0 data : forall f m k, page_is j f m0 m -> 0 <= k -> k + Z.of_nat (length data) <= 4096 -> Forall is_byte data ->
  exists m', store_all (page_addr j + k) data m = Ok tt m'
  /\ page_is j (fun x => if (k <=? x) && (x <? k + Z.of_nat (length data)) then default 0 (data !! Z.to_nat (x - k)) else f x) m0 m'.
Proof.
  induction data as [|c data IH]; intros f m k P H0 Hl HB; cbn [store_all length] in *.
  - exists m. split; [done |]. eapply page_is_ext; [| exact P]. intros x _. cbn beta. by replace ((k <=? x) && (x <? k + Z.of_nat 0)) with false by blia.
  - apply Forall_cons in HB as (Hc & HB). destruct (store_byte_page j f m0 m k c P ltac:(lia) Hc) as (m1 & E1 & P1).
    rewrite (bind_Ok _ _ _ _ _ E1), <- Z.add_assoc. destruct (IH _ m1 (k + 1) P1 ltac:(lia) ltac:(lia) HB) as (m2 & E2 & P2).
    exists m2. split; [done |]. eapply page_is_ext; [| exact P2]. intros x _. cbn beta. destruct (decide (x = k)) as [-> | Hx].
    + replace ((k + 1 <=? k) && _) with false by blia. rewrite Z.eqb_refl. replace ((k <=? k) && (k <? k + Z.of_nat (S (length data)))) with true by blia. by rewrite Z.sub_diag.
    + rewrite (proj2 (Z.eqb_neq x k)) by done. replace ((k <=? x) && (x <? k + Z.of_nat (S (length data)))) with ((k + 1 <=? x) && (x <? k + 1 + Z.of_nat (length data))) by blia.
      destruct ((k + 1 <=? x) && _) eqn:E; [| done]. b2p_in E. by replace (Z.to_nat (x - k)) with (S (Z.to_nat (x - (k + 1)))) by lia.
Qed.

(** ** The blocks of a file *)

Definition file_byte (l : list (option (list Z))) (k : Z) : Z :=
  match l !! Z.to_nat (k / 1024) with Some (Some data) => default 0 (data !! Z.to_nat (k mod 1024)) | _ => 0 end.
Definition block_ok (o : option (list Z)) : Prop := match o with Some data => length data = 1024%nat /\ Forall is_byte data | None => True end.

Lemma fill_page_ok j m0 l : forall f m q, page_is j f m0 m -> (q + length l <= 4)%nat -> Forall block_ok l ->
  (forall x, 1024 * Z.of_nat q <= x < 4096 -> f x = 0) ->
  exists m', fill_page (page_addr j + 1024 * Z.of_nat q) l m = Ok tt m'
  /\ page_is j (fun x => if x <? 1024 * Z.of_nat q then f x else file_byte l (x - 1024 * Z.of_nat q)) m0 m'.
Proof.
  induction l as [|o l IH]; intros f m q P Hq HB Hz; cbn [fill_page length] in *.
  - exists m. split; [done |]. eapply page_is_ext; [| exact P]. intros x Hx. cbn beta. case_match eqn:E; [done |]. b2p_in E. rewrite Hz by lia. by unfold file_byte; rewrite lookup_nil.
  - apply Forall_cons in HB as (Ho & HB).
    assert (S1 : exists m1, (match o with Some data => store_all (page_addr j + 1024 * Z.of_nat q) data | None => ret tt end) m = Ok tt m1
      /\ page_is j (fun x => if (1024 * Z.of_nat q <=? x) && (x <? 1024 * Z.of_nat (S q)) then file_byte (o :: l) (x - 1024 * Z.of_nat q) else f x) m0 m1).
    { destruct o as [data|].
      - destruct Ho as (Hd & Hb). destruct (store_all_page j m0 data f m (1024 * Z.of_nat q) P ltac:(lia) ltac:(lia) Hb) as (m1 & E1 & P1).
        exists m1. split; [done |]. eapply page_is_ext; [| exact P1]. intros x Hx. cbn beta. rewrite Hd. replace (1024 * Z.of_nat (S q)) with (1024 * Z.of_nat q + Z.of_nat 1024) by lia.
        destruct ((1024 * Z.of_nat q <=? x) && _) eqn:E; [| done]. b2p_in E. unfold file_byte. by rewrite Z.div_small, Z.mod_small by lia.
      - exists m. split; [done |]. eapply page_is_ext; [| exact P]. intros x Hx. cbn beta. destruct ((1024 * Z.of_nat q <=? x) && _) eqn:E; [| done]. b2p_in E. rewrite Hz by lia.
        unfold file_byte. by rewrite Z.div_small by lia. }
    destruct S1 as (m1 & E1 & P1). rewrite (bind_Ok _ _ _ _ _ E1). replace (page_addr j + 1024 * Z.of_nat q + 1024) with (page_addr j + 1024 * Z.of_nat (S q)) by lia.
    destruct (IH _ m1 (S q) P1 ltac:(lia) HB) as (m2 & E2 & P2).
    + intros x Hx. cbn beta. replace ((1024 * Z.of_nat q <=? x) && (x <? 1024 * Z.of_nat (S q))) with false by blia. apply Hz. lia.
    + exists m2. split; [done |]. eapply page_is_ext; [| exact P2]. intros x Hx. cbn beta. destruct (x <? 1024 * Z.of_nat (S q)) eqn:E3.
      * b2p_in E3. destruct (x <? 1024 * Z.of_nat q) eqn:E4; b2p_in E4; [by replace ((1024 * Z.of_nat q <=? x) && _) with false by blia | by replace ((1024 * Z.of_nat q <=? x) && true) with true by blia].
      * b2p_in E3. rewrite (proj2 (Z.ltb_ge x (1024 * Z.of_nat q))) by lia. unfold file_byte.
        replace (x - 1024 * Z.of_nat q) with (x - 1024 * Z.of_nat (S q) + 1 * 1024) by lia. rewrite Z.mod_add, Z.div_add by lia.
        replace (Z.to_nat ((x - 1024 * Z.of_nat (S q)) / 1024 + 1)) with (S (Z.to_nat ((x - 1024 * Z.of_nat (S q)) / 1024))) by (pose proof (Z.div_pos (x - 1024 * Z.of_nat (S q)) 1024); lia). done.
Qed.

Lemma clear_back_ok j m0 i : forall f m k, page_is j f m0 m -> Z.of_nat i <= k <= 4096 ->
  exists m', clear_back i (page_addr j + k) m = Ok tt m' /\ page_is j (fun x => if (k - Z.of_nat i <=? x) && (x <? k) then 0 else f x) m0 m'.
Proof.
  induction i as [|i IH]; intros f m k P Hk; cbn [clear_back].
  - exists m. split; [done |]. eapply page_is_ext; [| exact P]. intros x _. cbn beta. by replace ((k - Z.of_nat 0 <=? x) && (x <? k)) with false by blia.
  - replace (page_addr j + k - 1) with (page_addr j + (k - 1)) by lia. destruct (store_byte_page j f m0 m (k - 1) 0 P ltac:(lia) ltac:(lia)) as (m1 & E1 & P1).
    rewrite (bind_Ok _ _ _ _ _ E1). destruct (IH _ m1 (k - 1) P1 ltac:(lia)) as (m2 & E2 & P2). exists m2. split; [done |].
    eapply page_is_ext; [| exact P2]. intros x _. cbn beta. destruct (x =? k - 1) eqn:E; b2p_in E.
    + subst x. replace ((k - 1 - Z.of_nat i <=? k - 1) && (k - 1 <? k - 1)) with false by blia. by replace ((k - Z.of_nat (S i) <=? k - 1) && (k - 1 <? k)) with true by blia.
    + by replace ((k - Z.of_nat (S i) <=? x) && (x <? k)) with ((k - 1 - Z.of_nat i <=? x) && (x <? k - 1)) by blia.
Qed.

(** ** Which pages stay *)

(** The pages in use apart from page [t]. *)
Definition used_but (t : option nat) (m : mm) : list nat :=
  filter (fun i => mem_map m !! i <> Some 0 /\ Some i <> t) (seq 0 (length (mem_map m))).
Lemma used_but_elem t m i : i ∈ used_but t m <-> (exists c, mem_map m !! i = Some c /\ c <> 0) /\ Some i <> t.
Proof.
  unfold used_but. rewrite list_elem_of_filter, elem_of_seq. split.
  - intros ((H1 & H2) & Hi). split; [| done]. destruct (lookup_lt_is_Some_2 (mem_map m) i ltac:(lia)) as (c & Hc). exists c. split; [done |]. congruence.
  - intros ((c & Hc & H0) & H2). pose proof (lookup_lt_Some _ _ _ Hc). split; [| lia]. split; [congruence | done].
Qed.

Lemma table_ready_at m dir t : table_at m dir t -> (t = None -> exists f, mem_map m !! f = Some 0) -> table_ready (used_but t m) dir m.
Proof.
  destruct t as [i|]; cbn.
  - intros (Hp & Hf & Hc) _. right. split; [done |]. exists i. split; [done |]. split; [| done]. rewrite used_but_elem. by intros (_ & ?).
  - intros Hp Hf. left. by split; [| apply Hf].
Qed.
Lemma used_map_ok m dir t : mm_wf m -> table_at m dir t -> (t = None -> exists f, mem_map m !! f = Some 0) -> map_ok (used_but t m) dir m.
Proof. intros W T F. constructor; [done | | by apply table_ready_at]. intros i Hi. by apply used_but_elem in Hi as (? & _). Qed.

(** ** Loading a page *)

(** [page] is at [a] and has the bytes of the file up to the end of the data, zeros behind;
    the other pages in use, apart from the page table, are as they were. *)
Record page_loaded (a tmp end_data : Z) (l : list (option (list Z))) (t : option nat) (m m' : mm) (page : Z) : Prop := {
  pl_mapped : page_of m' a = Some page;
  pl_bytes : forall k, 0 <= k < 4096 -> rd_byte m' (page + k) = if tmp + k <? end_data then file_byte l k else 0;
  pl_others : forall i c b, mem_map m !! i = Some c -> c <> 0 -> Some i <> t -> in_words 1024 (page_addr i) b = true -> rd m' b = rd m b }.

(** A new page holds zeros. *)
Lemma cleared_page m m1 j : mm_wf m -> allocated m (page_addr j) m1 -> page_is j (fun _ => 0) m1 m1.
Proof.
  intros W Hal. pose proof (allocated_wf _ _ _ W Hal) as W1. destruct Hal as (i & Ei & _ & _ & _ & HR & _). apply page_addr_inj in Ei as <-.
  constructor; try done; [exact (wf_words _ W1) |]. intros k Hk. unfold rd_byte. rewrite HR, word_in_page by done. by rewrite Z.div_0_l by (apply Z.pow_nonzero; [lia | apply Z.mod_pos_bound; lia]).
Qed.

(** The contents of the new page. *)
Lemma page_filled m m1 j l tmp end_data : mm_wf m -> allocated m (page_addr j) m1 -> (length l <= 4)%nat -> Forall block_ok l -> 0 <= tmp < end_data -> end_data < 2 ^ 31 ->
  exists m2 m3, fill_page (page_addr j) l m1 = Ok tt m2 /\ clear_back (Z.to_nat (s32 (tmp + 4096 - end_data))) (page_addr j + 4096) m2 = Ok tt m3
  /\ page_is j (fun k => if tmp + k <? end_data then file_byte l k else 0) m1 m3.
Proof.
  intros W Hal Hl HB Ht He. pose proof (cleared_page _ _ _ W Hal) as P1.
  destruct (fill_page_ok j m1 l _ m1 0 P1 ltac:(lia) HB ltac:(done)) as (m2 & E2 & P2). change (1024 * Z.of_nat 0) with 0 in E2. rewrite Z.add_0_r in E2.
  assert (Es : s32 (tmp + 4096 - end_data) = tmp + 4096 - end_data) by (apply s32_small; lia).
  destruct (clear_back_ok j m1 (Z.to_nat (s32 (tmp + 4096 - end_data))) _ m2 4096 P2 ltac:(lia)) as (m3 & E3 & P3).
  exists m2, m3. split; [done |]. split; [done |]. eapply page_is_ext; [| exact P3]. intros k Hk. cbn beta. rewrite Es.
  replace (k <? 1024 * Z.of_nat 0) with false by blia. change (1024 * Z.of_nat 0) with 0. rewrite Z.sub_0_r. destruct (tmp + k <? end_data) eqn:E; b2p_in E.
  - by replace ((4096 - Z.of_nat (Z.to_nat (tmp + 4096 - end_data)) <=? k) && (k <? 4096)) with false by blia.
  - by replace ((4096 - Z.of_nat (Z.to_nat (tmp + 4096 - end_data)) <=? k) && (k <? 4096)) with true by blia.
Qed.

Lemma page_of_mapped m a p : mapped_at (Z.land (Z.shiftr a 20) 0xffc) m (Z.land (Z.shiftr a 12) 0x3ff) = Some p -> page_of m a = Some p.
Proof. unfold mapped_at, page_of. by destruct (present _). Qed.

(** Putting it where it belongs, or giving it back. *)
Lemma map_loaded m m1 m3 j f a t : let dir := Z.land (Z.shiftr a 20) 0xffc in
  mm_wf m -> allocated m (page_addr j) m1 -> page_is j f m1 m3 -> table_at m dir t ->
  (put_page (page_addr j) a m3 = Ok 0 m3 /\ exists m4, free_page (page_addr j) m3 = Ok tt m4 /\ mem_map m4 = mem_map m)
  \/ exists m4, put_page (page_addr j) a m3 = Ok (page_addr j) m4 /\ page_of m4 a = Some (page_addr j)
     /\ (forall k, 0 <= k < 4096 -> rd_byte m4 (page_addr j + k) = f k)
     /\ (forall i c b, mem_map m !! i = Some c -> c <> 0 -> Some i <> t -> in_words 1024 (page_addr i) b = true -> rd m4 b = rd m b).
Proof.
  intros dir W Hal P T. pose proof (allocated_wf _ _ _ W Hal) as W1. destruct Hal as (i & Ei & Hj & _ & HM & HR & HH & _). apply page_addr_inj in Ei as <-.
  assert (Hdir : 0 <= dir < 4096) by (unfold dir; change 0xffc with (Z.shiftl (Z.ones 10) 2); rewrite Z.land_comm, land_field by lia; pose proof (Z.mod_pos_bound (Z.shiftr a 20 / 2 ^ 2) (2 ^ 10)); lia).
  assert (Ed : rd m3 dir = rd m dir).
  { rewrite (pi_rest _ _ _ _ P), HR; rewrite in_words_ge; rewrite ?page_addr_frame; done || lia. }
  assert (W3 : mm_wf m3). { destruct W1. constructor; rewrite ?(pi_map _ _ _ _ P), ?(pi_high _ _ _ _ P); try done. apply P. }
  assert (HM3 : mem_map m3 = <[j := 1]> (mem_map m)) by (by rewrite (pi_map _ _ _ _ P)). assert (Hlt : (j < length (mem_map m))%nat) by by eapply lookup_lt_Some.
  assert (Hkeep : forall i c, mem_map m !! i = Some c -> c <> 0 -> mem_map m3 !! i = Some c) by (intros i c Hi Hc; rewrite HM3, list_lookup_insert_ne; [done | intros ->; congruence]).
  assert (Hj3 : mem_map m3 !! j = Some 1) by (rewrite HM3; by apply list_lookup_insert_eq).
  assert (T3 : table_at m3 dir t).
  { destruct t as [x|]; cbn in *; rewrite Ed; [| done]. destruct T as (T1 & T2 & T4). split; [done |]. split; [done |]. destruct (mem_map m !! x) as [c|] eqn:Ex.
    - rewrite (Hkeep x c Ex) by congruence. done.
    - rewrite HM3, list_lookup_insert_ne; [by rewrite Ex | intros ->; congruence]. }
  assert (Htj : Some j <> t) by (intros <-; destruct T as (_ & _ & T); done).
  assert (Hcase : (t = None /\ get_free_page m3 = Ok 0 m3) \/ (t = None -> exists f, mem_map m3 !! f = Some 0)).
  { destruct (get_free_page_cases m3 W3) as [(Eg & _) | (q & m' & _ & (x & _ & Hx & _))]; [| right; by exists x]. destruct t; [by right | by left]. }
  destruct Hcase as [(-> & Eg) | Hf].
  - left. split.
    + unfold put_page. rewrite (bind_Ok _ _ _ _ _ (count_reads m3 j 1 W3 Hj3)). fold dir. cbv zeta. rewrite (bind_Ok (load dir) _ m3 (rd m3 dir) m3) by done. cbn in T3.
      rewrite T3. by rewrite (bind_Ok _ _ _ _ _ Eg).
    + eexists. split; [apply (free_page_ok m3 j 1 Hj3); [lia |] |].
      * rewrite (pi_high _ _ _ _ P), HH. pose proof (wf_free _ W j Hj). unfold PAGE_SIZE in *. lia.
      * cbn [mem_map set_mem_map]. rewrite HM3. apply list_eq. intros x. destruct (decide (x = j)) as [-> | Hx].
        -- by rewrite list_lookup_alter_eq, list_lookup_insert_eq, Hj by done.
        -- by rewrite list_lookup_alter_ne, list_lookup_insert_ne by done.
  - right. destruct (put_page_ok (used_but t m3) dir Hdir m3 j a (used_map_ok m3 dir t W3 T3 Hf)) as (m4 & E4 & [_ P2 _ P4 _]).
    + apply used_but_elem. split; [by exists 1 | done].
    + done.
    + exists m4. split; [done |]. split; [exact (page_of_mapped m4 a _ P2) |]. split.
      * intros k Hk. rewrite <- (pi_bytes _ _ _ _ P k Hk). apply byte_word, P4. exists j. split; [apply used_but_elem; split; [by exists 1 | done] | by apply word_in_page].
      * intros i c b Hi Hc Hit Hb. assert (Hij : in_words 1024 (page_addr j) b = false) by (destruct (in_words 1024 (page_addr j) b) eqn:E; [| done]; pose proof (in_page_unique j i b E Hb); congruence).
        rewrite P4 by (exists i; split; [apply used_but_elem; split; [exists c; eauto | done] | done]). by rewrite (pi_rest _ _ _ _ P), HR, Hij.
Qed.

(** [do_no_page] once it is clear that the page is to be read. *)
Lemma do_no_page_reads `{Env} s t n e address :
  let a := Z.land address 0xfffff000 in let tmp := u32 (a - ts_start_code t) in
  tasks (fs_sched s) !! current (fs_sched s) = Some t -> inode_of_ptr (ts_executable t) = Some n -> tmp < ts_end_data t ->
  share_page tmp s = Ok false s ->
  do_no_page e address s =
    (let* page := on_mm get_free_page in
     if negb (cbool page) then on_mm oom else
     let* l := page_blocks n (1 + tmp / 1024) in
     on_mm (fill_page page l) ;;;
     let* t := current_task in
     on_mm (clear_back (Z.to_nat (s32 (tmp + 4096 - ts_end_data t))) (page + 4096)) ;;;
     let* r := on_mm (put_page page a) in
     if cbool r then ret tt else on_mm (free_page page) ;;; on_mm oom) s.
Proof.
  intros a tmp Ht Hn Hend Es. unfold do_no_page. fold a. cbv zeta. rewrite (bind_Ok _ _ _ _ _ (current_reads s t Ht)). fold tmp.
  by rewrite Hn, (proj2 (Z.leb_gt _ _)), (bind_Ok _ _ _ _ _ Es) by lia.
Qed.

Lemma page_nonzero j : cbool (page_addr j) = true.
Proof. unfold cbool. by rewrite (proj2 (Z.eqb_neq (page_addr j) 0)) by (rewrite page_addr_frame; lia). Qed.

(** How a fault ends if the page is not shared. *)
Definition mapped_or_killed (a tmp end_data : Z) (l : list (option (list Z))) (tb : option nat) (s : fs_state) (o : outcome fs_state unit) : Prop :=
  (exists s', o = Exit SIGSEGV s' /\ mem_map (fs_mm s') = mem_map (fs_mm s))
  \/ exists s' page, o = Ok tt s' /\ page_loaded a tmp end_data l tb (fs_mm s) (fs_mm s') page.

Lemma read_page `{Env} s t n e address l tb :
  let a := Z.land address 0xfffff000 in let tmp := u32 (a - ts_start_code t) in
  tasks (fs_sched s) !! current (fs_sched s) = Some t -> inode_of_ptr (ts_executable t) = Some n ->
  tmp < ts_end_data t < 2 ^ 31 -> share_page tmp s = Ok false s ->
  mm_wf (fs_mm s) -> table_at (fs_mm s) (Z.land (Z.shiftr a 20) 0xffc) tb -> (length l <= 4)%nat -> Forall block_ok l ->
  (forall page m1, get_free_page (fs_mm s) = Ok page m1 -> exists s1, page_blocks n (1 + tmp / 1024) (put fs_mm m1 s) = Ok l s1
     /\ fs_mm s1 = m1 /\ tasks (fs_sched s1) !! current (fs_sched s1) = Some t) ->
  mapped_or_killed a tmp (ts_end_data t) l tb s (do_no_page e address s).
Proof.
  intros a tmp Ht Hn Hend Es W T Hl HB Hread. pose proof (do_no_page_reads s t n e address Ht Hn (proj1 Hend) Es) as E. fold a in E. fold tmp in E.
  destruct (get_free_page_cases (fs_mm s) W) as [(Eg & _) | (page & m1 & Eg & Hal)].
  - left. rewrite (bind_Ok _ _ s 0 (put fs_mm (fs_mm s) s)) in E by (unfold on_mm; by rewrite Eg). eexists. split; [exact E |]. done.
  - destruct (Hread page m1 Eg) as (s1 & E1 & Em1 & Ht1). pose proof Hal as (j & -> & _). pose proof (page_nonzero j) as Hj.
    rewrite (bind_Ok _ _ s (page_addr j) (put fs_mm m1 s)) in E by (unfold on_mm; by rewrite Eg). rewrite Hj in E. cbn [negb] in E. rewrite (bind_Ok _ _ _ _ _ E1) in E.
    destruct (page_filled (fs_mm s) m1 j l tmp (ts_end_data t) W Hal Hl HB ltac:(pose proof (u32_range (a - ts_start_code t)); lia) ltac:(lia)) as (m2 & m3 & E2 & E3 & P3).
    rewrite (bind_Ok _ _ s1 tt (st s1 m2)) in E by (unfold on_mm; by rewrite Em1, E2).
    assert (Hcur : current_task (st s1 m2) = Ok t (st s1 m2)) by (by apply current_reads). rewrite (bind_Ok _ _ _ _ _ Hcur) in E.
    rewrite (bind_Ok _ _ _ _ _ (on_mm_st s1 _ _ _ _ E3)) in E.
    destruct (map_loaded (fs_mm s) m1 m3 j _ a tb W Hal P3 T) as [(E4 & m5 & E5 & C5) | (m4 & E4 & H1 & H2 & H3)]; rewrite (bind_Ok _ _ _ _ _ (on_mm_st s1 _ _ _ _ E4)) in E.
    + left. change (cbool 0) with false in E. cbv iota in E. rewrite (bind_Ok _ _ _ _ _ (on_mm_st s1 _ _ _ _ E5)) in E. eexists. split; [exact E |]. done.
    + right. rewrite Hj in E. exists (st s1 m4), (page_addr j). split; [exact E |]. by constructor.
Qed.

(** A page without contents. *)
Lemma empty_page s a tmp end_data l tb : mm_wf (fs_mm s) -> table_at (fs_mm s) (Z.land (Z.shiftr a 20) 0xffc) tb -> end_data <= tmp ->
  mapped_or_killed a tmp end_data l tb s (on_mm (get_empty_page a) s).
Proof.
  intros W T He. unfold get_empty_page, on_mm. destruct (get_free_page_cases (fs_mm s) W) as [(Eg & _) | (page & m1 & Eg & Hal)]; rewrite (bind_Ok _ _ _ _ _ Eg).
  - left. eexists. split; [reflexivity |]. done.
  - pose proof Hal as (j & -> & _). rewrite page_nonzero. cbn [negb].
    destruct (map_loaded (fs_mm s) m1 m1 j (fun _ => 0) a tb W Hal (cleared_page _ _ _ W Hal) T) as [(E4 & m5 & E5 & C5) | (m4 & E4 & H1 & H2 & H3)].
    + left. rewrite (bind_Ok _ _ m1 false m1) by (by rewrite (bind_Ok _ _ _ _ _ E4)). rewrite (bind_Ok _ _ _ _ _ E5). eexists. split; [reflexivity | exact C5].
    + right. rewrite (bind_Ok _ _ m1 true m4) by (rewrite (bind_Ok _ _ _ _ _ E4); by rewrite page_nonzero). eexists _, (page_addr j). split; [reflexivity |].
      constructor; [exact H1 | | exact H3]. intros k Hk. rewrite (proj2 (Z.ltb_ge _ _)) by lia. by apply H2.
Qed.


(** A program with 1000 bytes, whose first block is in the cache. *)
Definition loaded_task : task_struct :=
  put ts_start_code 0x4000000 (put ts_end_data 1000 (put ts_executable (inode_ptr 0) (INIT_TASK 2000))).
Definition program_fs : fs_state :=
  put fs_mm (demo 1) (with_cur loaded_task (fresh (fun _ => replicate 1024 144) (fun _ => 0) 3
    (put inode_table (put i_dev 0x101 (put i_count 1 (put i_zone [6; 7; 0; 0; 0; 0; 0; 0; 0] zero_inode)) :: replicate 31 zero_inode) empty_fs))).
Definition program_cached : fs_state :=
  match @getblk alone 0x101 7 program_fs with Ok b s => over bufs (alter (fun x => put b_count 0 (put b_uptodate 1 x)) b) s | _ => program_fs end.
Lemma program_current : tasks (fs_sched program_cached) !! current (fs_sched program_cached) = Some loaded_task.
Proof. vm_compute. reflexivity. Qed.
Lemma program_mm : fs_mm program_cached = demo 1.
Proof. vm_compute. reflexivity. Qed.
Lemma program_read m1 : exists s1, @page_blocks alone 0 1 (put fs_mm m1 program_cached) = Ok [Some (replicate 1024 144); None; None; None] s1
  /\ fs_mm s1 = m1 /\ tasks (fs_sched s1) !! current (fs_sched s1) = Some loaded_task.
Proof. eexists. split; [vm_compute; reflexivity |]. split; vm_compute; reflexivity. Qed.
Lemma program_runs : match @do_no_page alone 4 0x4000000 program_cached with Ok _ _ => true | _ => false end = true.
Proof. vm_compute. reflexivity. Qed.

Lemma program_sched : sched_wf (fs_sched program_cached).
Proof.
  assert (E : fs_sched program_cached = put current 2000 (over tasks <[2000 := loaded_task]> demo_sched)) by (vm_compute; reflexivity).
  rewrite E. destruct demo_sched_wf as [H1 H2 H3 H4]. constructor; [exact H1 | | exact H3 | exact H4].
  intros i p Hi Hp. cbn [tasks over put]. apply lookup_insert_is_Some. destruct (decide (2000 = p)); [by left | right; split; [done | by apply (H2 i)]].
Qed.
(** The task is the only one besides the first. *)
Lemma program_alone o : runs_same program_cached loaded_task o -> False.
Proof.
  intros (k & p & Hk & Hp & H0 & Hc & _). assert (E : task (fs_sched program_cached) = 1000 :: 2000 :: replicate 62 0) by (vm_compute; reflexivity).
  assert (Ec : current (fs_sched program_cached) = 2000) by (vm_compute; reflexivity). rewrite E in Hp. rewrite Ec in Hc.
  destruct k as [|[|k]]; [lia | injection Hp as <-; by apply Hc |]. by apply (lookup_replicate_1 62) in Hp as (-> & _).
Qed.

(** Two tasks run a program; the one at 0x4000000 has the page that the other one needs. *)
Definition twin_task (start : Z) : task_struct :=
  put ts_start_code start (put ts_end_data 0x6000 (put ts_executable (inode_ptr 0) (INIT_TASK 2000))).
Definition twin_sched : sched :=
  put task (1000 :: 2000 :: 3000 :: replicate 61 0) (put current 2000 (over tasks <[3000 := twin_task 0x4000000]> (over tasks <[2000 := twin_task 0x8000000]> demo_sched))).
Definition twin_fs : fs_state :=
  put fs_sched twin_sched (put fs_mm (demo 1) (put inode_table (put i_dev 0x101 (put i_count 2 zero_inode) :: replicate 31 zero_inode) empty_fs)).
Lemma twin_sched_wf : sched_wf twin_sched.
Proof.
  assert (Hs : forall i p, task twin_sched !! i = Some p -> p <> 0 -> (i, p) ∈ [(0%nat, 1000); (1%nat, 2000); (2%nat, 3000)]).
  { intros i p. cbn [task twin_sched put]. destruct i as [|[|[|i]]]; [intros [= <-] _; rewrite !elem_of_cons; tauto.. |].
    intros Hi Hp. by apply (lookup_replicate_1 61) in Hi as (-> & _). }
  constructor; [reflexivity | | | split; [reflexivity | discriminate]].
  - intros i p Hi Hp. specialize (Hs i p Hi Hp). rewrite !elem_of_cons, elem_of_nil in Hs.
    destruct Hs as [[= -> ->] | [[= -> ->] | [[= -> ->] | []]]]; vm_compute; by eexists.
  - intros i j p Hi Hj Hp. pose proof (Hs i p Hi Hp) as H1. pose proof (Hs j p Hj Hp) as H2. rewrite !elem_of_cons, elem_of_nil in H1, H2. destruct_or! H1; destruct_or! H2; congruence || done.
Qed.
Lemma twin_other o : runs_same twin_fs (twin_task 0x8000000) o -> o = twin_task 0x4000000.
Proof.
  intros (k & p & Hk & Hp & H0 & Hc & Ho & _). change (task (fs_sched twin_fs)) with (1000 :: 2000 :: 3000 :: replicate 61 0) in Hp. change (current (fs_sched twin_fs)) with 2000 in Hc.
  destruct k as [|[|[|k]]]; [lia | injection Hp as <-; by destruct Hc | injection Hp as <- | by apply (lookup_replicate_1 61) in Hp as (-> & _)].
  vm_compute in Ho |- *. congruence.
Qed.

Lemma twin_count : match @do_no_page alone 4 0x8005000 twin_fs with Ok _ s' => bool_decide (mem_map (fs_mm s') !! 1%nat = Some 2) | _ => false end = true.
Proof. vm_compute. reflexivity. Qed.

