(* ===== verification/Hd.v ===== *)
(** The hard disk driver (kernel/blk_drv/hd.c, include/linux/hdreg.h) with its interrupt
    entry in kernel/system_call.s, and loading the RAM disk (kernel/blk_drv/ramdisk.c).
    The controller is a parameter: a state that reacts to ports. *)
From stdpp Require Import base list gmap strings.
From Stdlib Require Import ZArith Lia.
From S2P Require Import Prelude Memory Sched FsState BlkDev Buffer Inode.
Open Scope Z_scope.

(** ** Registers and commands *)

Definition HD_DATA : Z := 0x1f0.
Definition HD_ERROR : Z := 0x1f1.
Definition HD_STATUS : Z := 0x1f7.
Definition HD_CMD : Z := 0x3f6.
Definition ERR_STAT : Z := 0x01.
Definition DRQ_STAT : Z := 0x08.
Definition SEEK_STAT : Z := 0x10.
Definition WRERR_STAT : Z := 0x20.
Definition READY_STAT : Z := 0x40.
Definition BUSY_STAT : Z := 0x80.
Definition WIN_RESTORE : Z := 0x10.
Definition WIN_READ : Z := 0x20.
Definition WIN_WRITE : Z := 0x30.
Definition WIN_SPECIFY : Z := 0x91.
Definition MAX_ERRORS : Z := 7.

(** Reading and writing a port, and the 512 bytes of a sector through the data port. *)
Class Controller (D : Type) := {
  d_in : Z -> D -> Z * D; d_out : Z -> Z -> D -> D; d_insw : D -> list Z * D; d_outsw : list Z -> D -> D }.

(** ** State *)

Record hd_i_struct := mk_hd_i { i_head : Z; i_sect : Z; i_cyl : Z; i_wpcom : Z; i_lzone : Z; i_ctl : Z }.
Record hd_struct := mk_hd { start_sect : Z; nr_sects : Z }.
(** What [do_hd] points to. *)
Inductive hd_intr := read_intr_p | write_intr_p | recal_intr_p.

Record hd_machine (D : Type) := mk_machine {
  hm_fs : fs_state; hm_dev : D; do_hd : option hd_intr; recalibrate : Z; reset : Z;
  hd_info : list hd_i_struct; hd : list hd_struct; NR_HD : Z; callable : Z }.
Arguments mk_machine {D}.
Arguments hm_fs {D}.
Arguments hm_dev {D}.
Arguments do_hd {D}.
Arguments recalibrate {D}.
Arguments reset {D}.
Arguments hd_info {D}.
Arguments hd {D}.
Arguments NR_HD {D}.
Arguments callable {D}.
#[export] Instance hd_machine_fields {D} : Fields (hd_machine D) := fun s =>
  mk_machine (hm_fs s) (hm_dev s) (do_hd s) (recalibrate s) (reset s) (hd_info s) (hd s) (NR_HD s) (callable s).

(** The driver before [sys_setup]. *)
Definition hd_start {D} (fs : fs_state) (d : D) : hd_machine D :=
  mk_machine fs d None 1 1 (replicate 2 (mk_hd_i 0 0 0 0 0 0)) (replicate 10 (mk_hd 0 0)) 0 1.

Section Driver.
Context {D : Type} `{Controller D} `{Env}.

Definition port_in (port : Z) : M (hd_machine D) Z := fun s =>
  let '(v, d) := d_in port (hm_dev s) in Ok (u8 v) (put hm_dev d s).
Definition port_out (v port : Z) : M (hd_machine D) unit := modify (over hm_dev (d_out port (u8 v))).
Definition info (drive : Z) : M (hd_machine D) hd_i_struct := fun s => need (hd_info s !! Z.to_nat drive) s.

(** [CURRENT], and an assignment to a field of it. *)
Definition CURRENT : M (hd_machine D) (nat * request_t) :=
  zoom hm_fs (let* c := current_of 3 in let* c := need c in let* r := req_at c in ret (c, r)).
Definition set_current {T} (f : request_t -> T) {sf : Setter f} (v : T) : M (hd_machine D) unit :=
  let* (c, _) := CURRENT in zoom hm_fs (set_req f c v).
Definition CURRENT_DEV : M (hd_machine D) Z := let* (_, r) := CURRENT in ret (MINOR (r_dev r) / 5).

(** A sector between the controller and [CURRENT->buffer]. *)
Definition port_read : M (hd_machine D) unit :=
  let* (_, r) := CURRENT in
  let* (b, o) := need (r_buffer r) in
  fun s =>
    let '(l, d) := d_insw (hm_dev s) in
    (let* data := zoom hm_fs (bh b_data b) in
     if Z.of_nat (length data) <? o + 512 then ub else zoom hm_fs (set_bh b_data b (splice (Z.to_nat o) l data))) (put hm_dev d s).
Definition port_write : M (hd_machine D) unit :=
  let* (_, r) := CURRENT in
  let* (b, o) := need (r_buffer r) in
  let* data := zoom hm_fs (bh b_data b) in
  if Z.of_nat (length data) <? o + 512 then ub else modify (over hm_dev (d_outsw (take 512 (drop (Z.to_nat o) data)))).

(** ** The controller *)

(** [retries] is the counter after [--retries]. *)
Fixpoint ready_loop (retries : nat) : M (hd_machine D) Z :=
  match retries with
  | O => ret 0
  | S n => let* v := port_in HD_STATUS in if Z.land v 0xc0 =? 0x40 then ret (Z.of_nat retries) else ready_loop n
  end.
Definition controller_ready : M (hd_machine D) Z := ready_loop (Z.to_nat 9999).

Definition win_result : M (hd_machine D) Z :=
  let* i := port_in HD_STATUS in
  if Z.land i (Z.lor BUSY_STAT (Z.lor READY_STAT (Z.lor WRERR_STAT (Z.lor SEEK_STAT ERR_STAT)))) =? Z.lor READY_STAT SEEK_STAT then ret 0 else
  (if cbool (Z.land i 1) then let* _ := port_in HD_ERROR in ret tt else ret tt) ;;;
  ret 1.

Definition hd_out (drive nsect sect head cyl cmd : Z) (intr_addr : hd_intr) : M (hd_machine D) unit :=
  if (1 <? drive) || (15 <? head) then panic "Trying to write bad sector" else
  let* r := controller_ready in
  if negb (cbool r) then panic "HD controller not ready" else
  modify (put do_hd (Some intr_addr)) ;;;
  let* i := info drive in
  port_out (i_ctl i) HD_CMD ;;;
  port_out (Z.shiftr (i_wpcom i) 2) (HD_DATA + 1) ;;;
  port_out nsect (HD_DATA + 2) ;;;
  port_out sect (HD_DATA + 3) ;;;
  port_out cyl (HD_DATA + 4) ;;;
  port_out (Z.shiftr cyl 8) (HD_DATA + 5) ;;;
  port_out (Z.lor (Z.lor 0xA0 (Z.shiftl drive 4)) head) (HD_DATA + 6) ;;;
  port_out cmd (HD_DATA + 7).

(** The loop ends when the drive is ready; the test behind it is
    [(i == READY_STAT) | SEEK_STAT]. *)
Fixpoint busy_loop (n : nat) : M (hd_machine D) unit :=
  match n with
  | O => ret tt
  | S n => let* v := port_in HD_STATUS in if READY_STAT =? Z.land v (Z.lor BUSY_STAT READY_STAT) then ret tt else busy_loop n
  end.
Definition drive_busy : M (hd_machine D) Z :=
  busy_loop (Z.to_nat 10000) ;;;
  let* i := port_in HD_STATUS in
  let i := Z.land i (Z.lor BUSY_STAT (Z.lor READY_STAT SEEK_STAT)) in
  ret (if cbool (Z.lor (Z.b2z (i =? READY_STAT)) SEEK_STAT) then 0 else 1).

Definition reset_controller : M (hd_machine D) unit :=
  port_out 4 HD_CMD ;;;
  let* i := info 0 in
  port_out (Z.land (i_ctl i) 0x0f) HD_CMD ;;;
  drive_busy ;;;
  let* _ := port_in HD_ERROR in
  ret tt.
Definition reset_hd (nr : Z) : M (hd_machine D) unit :=
  reset_controller ;;;
  let* i := info nr in
  hd_out nr (i_sect i) (i_sect i) (u32 (i_head i - 1)) (i_cyl i) WIN_SPECIFY recal_intr_p.

(** ** Requests *)

(** [CURRENT] is looked at again after [end_request] may have taken the last one away. *)
Definition bad_rw_intr : M (hd_machine D) unit :=
  let* (_, r) := CURRENT in
  set_current r_errors (r_errors r + 1) ;;;
  (if MAX_ERRORS <=? r_errors r + 1 then zoom hm_fs (end_request 3 0) else ret tt) ;;;
  let* (_, r) := CURRENT in
  if MAX_ERRORS / 2 <? r_errors r then modify (put reset 1) else ret tt.

(** Whether the drive asks for data, in at most [n] looks. *)
Fixpoint drq_loop (n : nat) : M (hd_machine D) bool :=
  match n with
  | O => ret false
  | S n => let* v := port_in HD_STATUS in if cbool (Z.land v DRQ_STAT) then ret true else drq_loop n
  end.

(** Sector, head and cylinder of a block of [drive]. *)
Definition chs (block : Z) (i : hd_i_struct) : M (hd_machine D) (Z * Z * Z) :=
  if (i_sect i =? 0) || (i_head i =? 0) then ub else
  let sec := block mod i_sect i in
  let block := block / i_sect i in
  ret (sec + 1, block mod i_head i, block / i_head i).

(** [do_hd_request] from [nsect = CURRENT->nr_sectors] on; the result says whether it goes
    back to [repeat]. *)
Definition hd_command (dev sec head cyl : Z) : M (hd_machine D) bool :=
  let* (_, r) := CURRENT in
  let nsect := r_nr_sectors r in
  let* rst := get reset in
  if cbool rst then
    modify (put reset 0) ;;;
    modify (put recalibrate 1) ;;;
    (let* d := CURRENT_DEV in reset_hd d) ;;;
    ret false
  else
  let* rec := get recalibrate in
  if cbool rec then
    modify (put recalibrate 0) ;;;
    let* d := CURRENT_DEV in
    let* i := info d in
    hd_out dev (i_sect i) 0 0 0 WIN_RESTORE recal_intr_p ;;;
    ret false
  else if r_cmd r =? WRITE then
    hd_out dev nsect sec head cyl WIN_WRITE write_intr_p ;;;
    let* r := drq_loop (Z.to_nat 3000) in
    if negb r then bad_rw_intr ;;; ret true else port_write ;;; ret false
  else if r_cmd r =? READ then hd_out dev nsect sec head cyl WIN_READ read_intr_p ;;; ret false
  else panic "unknown hd-command".

(** Every turn of the loop ends a request or counts an error. *)
Fixpoint hd_request_loop (turns : nat) : M (hd_machine D) unit :=
  match turns with
  | O => ub
  | S turns =>
    let* c := zoom hm_fs (INIT_REQUEST 3 "harddisk") in
    match c with
    | None => ret tt
    | Some _ =>
      let* (_, r) := CURRENT in
      let dev := MINOR (r_dev r) in
      let block := r_sector r in
      let* n := get NR_HD in
      let* h := get hd in
      let* bad := (if u32 (5 * n) <=? dev then ret true else
                   let* p := need (h !! Z.to_nat dev) in ret (u32 (nr_sects p) <? u32 (block + 2))) in
      if bad then zoom hm_fs (end_request 3 0) ;;; hd_request_loop turns else
      let* p := need (h !! Z.to_nat dev) in
      let block := u32 (block + start_sect p) in
      let dev := dev / 5 in
      let* i := info dev in
      let* (sec, head, cyl) := chs block i in
      let* again := hd_command dev sec head cyl in
      if again then hd_request_loop turns else ret tt
    end
  end.
Definition do_hd_request : M (hd_machine D) unit := hd_request_loop (S (NR_REQUEST * 8)).

(** ** Interrupts *)

Definition read_intr : M (hd_machine D) unit :=
  let* w := win_result in
  if cbool w then bad_rw_intr ;;; do_hd_request else
  port_read ;;;
  set_current r_errors 0 ;;;
  (let* (_, r) := CURRENT in set_current r_buffer (prod_map id (Z.add 512) <$> r_buffer r)) ;;;
  (let* (_, r) := CURRENT in set_current r_sector (u32 (r_sector r + 1))) ;;;
  (let* (_, r) := CURRENT in set_current r_nr_sectors (u32 (r_nr_sectors r - 1))) ;;;
  let* (_, r) := CURRENT in
  if cbool (r_nr_sectors r) then modify (put do_hd (Some read_intr_p)) else
  zoom hm_fs (end_request 3 1) ;;;
  do_hd_request.

Definition write_intr : M (hd_machine D) unit :=
  let* w := win_result in
  if cbool w then bad_rw_intr ;;; do_hd_request else
  (let* (_, r) := CURRENT in set_current r_nr_sectors (u32 (r_nr_sectors r - 1))) ;;;
  let* (_, r) := CURRENT in
  if cbool (r_nr_sectors r) then
    set_current r_sector (u32 (r_sector r + 1)) ;;;
    set_current r_buffer (prod_map id (Z.add 512) <$> r_buffer r) ;;;
    modify (put do_hd (Some write_intr_p)) ;;;
    port_write
  else
  zoom hm_fs (end_request 3 1) ;;;
  do_hd_request.

Definition recal_intr : M (hd_machine D) unit :=
  (let* w := win_result in if cbool w then bad_rw_intr else ret tt) ;;;
  do_hd_request.

(** The entry in system_call.s: [do_hd] is taken and reset; without a handler there is only a
    message. *)
Definition hd_interrupt : M (hd_machine D) unit :=
  port_out 0x20 0xA0 ;;;
  let* h := get do_hd in
  modify (put do_hd None) ;;;
  port_out 0x20 0x20 ;;;
  match h with
  | Some read_intr_p => read_intr
  | Some write_intr_p => write_intr
  | Some recal_intr_p => recal_intr
  | None => ret tt
  end.

(** [hd_init] without the interrupt gate. *)
Definition hd_init : M (hd_machine D) unit :=
  zoom hm_fs (assign blk_dev has_request_fn 3 true) ;;;
  (let* v := port_in 0x21 in port_out (Z.land v 0xfb) 0x21) ;;;
  (let* v := port_in 0xA1 in port_out (Z.land v 0xbf) 0xA1).

(** ** Set-up *)

(** The tables of the BIOS for two drives, and the entry of a partition. *)
Definition bios_info (bios : list Z) (drive : nat) : hd_i_struct :=
  let at_ := fun o n => bytes_at bios (16 * drive + o) n in
  mk_hd_i (at_ 2%nat 1%nat) (at_ 14%nat 1%nat) (at_ 0%nat 2%nat) (at_ 5%nat 2%nat) (at_ 12%nat 2%nat) (at_ 8%nat 1%nat).
Definition partition (data : list Z) (i : nat) : hd_struct :=
  mk_hd (s32 (bytes_at data (0x1BE + 16 * (i - 1) + 8) 4)) (s32 (bytes_at data (0x1BE + 16 * (i - 1) + 12) 4)).
Definition CMOS_READ (addr : Z) : M (hd_machine D) Z := port_out (Z.lor 0x80 addr) 0x70 ;;; port_in 0x71.

Definition read_partitions (drive : nat) : M (hd_machine D) unit :=
  let* o := zoom hm_fs (bread (0x300 + Z.of_nat drive * 5) 0) in
  match o with
  | None => panic ""
  | Some b =>
    let* data := zoom hm_fs (bh b_data b) in
    if negb (default 0 (data !! 510%nat) =? 0x55) || negb (default 0 (data !! 511%nat) =? 0xAA) then panic "" else
    for_each (seq 1 4) (fun i => modify (over hd <[(i + 5 * drive)%nat := partition data i]>)) ;;;
    zoom hm_fs (brelse (Some b))
  end.

(** A negative number of blocks in [rd_load] would be copied past the end of the RAM disk.
    Copying an image of [nblocks] blocks from [block] on to byte [cp] of the RAM disk. *)
Fixpoint rd_copy (nblocks : nat) (block : Z) (cp : nat) : M fs_state unit :=
  match nblocks with
  | O => modify (put ROOT_DEV 0x0101)
  | S n =>
    let* dev := get ROOT_DEV in
    let* o := (if (2 <? nblocks)%nat then breada dev block [block + 1; block + 2] else bread dev block) in
    match o with
    | None => ret tt
    | Some b =>
      let* data := bh b_data b in
      modify (over rd_mem (splice cp data)) ;;;
      brelse (Some b) ;;;
      rd_copy n (block + 1) (cp + BLOCK_SIZE)
    end
  end.
Definition rd_load : M fs_state unit :=
  let* len := get rd_length in
  if negb (cbool len) then ret tt else
  let* dev := get ROOT_DEV in
  if negb (MAJOR dev =? 2) then ret tt else
  let* o := breada dev 257 [256; 258] in
  match o with
  | None => ret tt
  | Some b =>
    let* data := bh b_data b in
    brelse (Some b) ;;;
    if negb (bytes_at data 16 2 =? SUPER_MAGIC) then ret tt else
    if 31 <? bytes_at data 10 2 then ub else
    let nblocks := s32 (Z.shiftl (bytes_at data 2 2) (bytes_at data 10 2)) in
    if Z.shiftr len 10 <? nblocks then ret tt else
    if nblocks <? 0 then ub else rd_copy (Z.to_nat nblocks) 256 0
  end.

(** [bios] is what [BIOS] points to. *)
Definition sys_setup (bios : list Z) : M (hd_machine D) Z :=
  let* c := get callable in
  if negb (cbool c) then ret (-1) else
  modify (put callable 0) ;;;
  modify (put hd_info [bios_info bios 0; bios_info bios 1]) ;;;
  (let* i := info 1 in modify (put NR_HD (if cbool (i_cyl i) then 2 else 1))) ;;;
  (let* n := get NR_HD in
   for_each (seq 0 (Z.to_nat n)) (fun i =>
     let* x := info (Z.of_nat i) in modify (over hd <[(5 * i)%nat := mk_hd 0 (s32 (i_head x * i_sect x * i_cyl x))]>))) ;;;
  (let* v := CMOS_READ 0x12 in
   modify (put NR_HD (if cbool (Z.land v 0xf0) then if cbool (Z.land v 0x0f) then 2 else 1 else 0))) ;;;
  let* n := get NR_HD in
  for_each (seq (Z.to_nat n) (2 - Z.to_nat n)) (fun i => modify (over hd <[(5 * i)%nat := mk_hd 0 0]>)) ;;;
  for_each (seq 0 (Z.to_nat n)) read_partitions ;;;
  zoom hm_fs rd_load ;;;
  zoom hm_fs mount_root ;;;
  ret 0.
End Driver.
