(* ===== verification/HdDrive.v ===== *)
(** What the driver of the hard disk (Hd.v) relies on: the AT controller as an abstract
    machine with its registers, its phase and the sectors of its drives, a class of laws
    that connects the ports to it, and a simulated controller that satisfies them. *)
From stdpp Require Import base list gmap strings.
From Stdlib Require Import ZArith Lia.
From S2P Require Import Prelude Hd.
Open Scope Z_scope.

(** ** The abstract controller *)

(** Between commands; about to hand over, or to be given, [n] sectors from [lba] on. *)
Inductive phase := Idle | Reading (drive lba : Z) (n : nat) | Writing (drive lba : Z) (n : nat).
Record taskfile := mk_task { t_nsect : Z; t_sect : Z; t_lcyl : Z; t_hcyl : Z; t_sdh : Z }.
#[export] Instance taskfile_fields : Fields taskfile := fun t =>
  mk_task (t_nsect t) (t_sect t) (t_lcyl t) (t_hcyl t) (t_sdh t).

(** [a_busy] is how many looks at the status still find the controller busy; an interrupt
    that is due comes when it is not.  [a_geom] has the sectors of a track and the heads. *)
Record ata := mk_ata {
  a_phase : phase; a_irq : bool; a_busy : nat; a_task : taskfile; a_geom : Z -> Z * Z; a_disk : Z -> Z -> list Z }.
#[export] Instance ata_fields : Fields ata := fun a =>
  mk_ata (a_phase a) (a_irq a) (a_busy a) (a_task a) (a_geom a) (a_disk a).

Definition t_drive (t : taskfile) : Z := Z.b2z (Z.testbit (t_sdh t) 4).
Definition t_head (t : taskfile) : Z := Z.land (t_sdh t) 15.
Definition t_lba (geom : Z -> Z * Z) (t : taskfile) : Z :=
  let '(spt, heads) := geom (t_drive t) in
  ((t_lcyl t + 256 * t_hcyl t) * heads + t_head t) * spt + t_sect t - 1.
Definition updated {A} (k : Z) (v : A) (f : Z -> A) : Z -> A := fun x => if x =? k then v else f x.

(** A register written while the controller is idle. *)
Definition ata_reg (port v : Z) (t : taskfile) : taskfile :=
  if port =? HD_DATA + 2 then put t_nsect v t
  else if port =? HD_DATA + 3 then put t_sect v t
  else if port =? HD_DATA + 4 then put t_lcyl v t
  else if port =? HD_DATA + 5 then put t_hcyl v t
  else if port =? HD_DATA + 6 then put t_sdh v t
  else t.
Definition ata_command (v : Z) (a : ata) : ata :=
  let t := a_task a in
  if v =? WIN_READ then put a_phase (Reading (t_drive t) (t_lba (a_geom a) t) (Z.to_nat (t_nsect t))) (put a_irq true a)
  else if v =? WIN_WRITE then put a_phase (Writing (t_drive t) (t_lba (a_geom a) t) (Z.to_nat (t_nsect t))) (put a_irq false a)
  else if v =? WIN_SPECIFY then put a_irq true (over a_geom (updated (t_drive t) (t_nsect t, t_head t + 1)) a)
  else put a_irq true a.
(** The abstract state after a look at the status, and after a sector was transferred. *)
Definition ata_looked (a : ata) : ata :=
  match a_busy a with O => put a_irq false a | S n => put a_busy n a end.
Definition ata_taken (drive lba : Z) (n : nat) (a : ata) : ata :=
  match n with
  | O => put a_phase Idle (put a_irq false a)
  | _ => put a_phase (Reading drive (lba + 1) n) (put a_irq true a)
  end.
Definition ata_given (drive lba : Z) (n : nat) (l : list Z) (a : ata) : ata :=
  put a_phase (match n with O => Idle | _ => Writing drive (lba + 1) n end)
    (put a_irq true (over a_disk (updated drive (updated lba l (a_disk a drive))) a)).
Definition wants_data (p : phase) : bool := match p with Idle => false | _ => true end.
(** The status is busy, or ready without an error. *)
Definition status_ok (a : ata) (v : Z) : Prop :=
  match a_busy a with
  | O => Z.land v 0xf1 = 0x50 /\ cbool (Z.land v DRQ_STAT) = wants_data (a_phase a)
  | _ => Z.land v 0xc0 <> 0x40 /\ Z.land v DRQ_STAT = 0
  end.

(** ** The laws *)

(** The looks the driver allows the controller to stay busy for. *)
Definition max_busy : nat := Z.to_nat 2999.
Definition then_busy (a' a : ata) : Prop := exists n, (n <= max_busy)%nat /\ a' = put a_busy n a.

Class Drive (D : Type) {C : Controller D} := {
  view : D -> ata;
  (** time passes until the controller is no longer busy *)
  d_wait : D -> D;
  wait_view d : view (d_wait d) = put a_busy 0%nat (view d);
  status_view d : status_ok (view d) (u8 (fst (d_in HD_STATUS d))) /\ view (snd (d_in HD_STATUS d)) = ata_looked (view d);
  error_view d : view (snd (d_in HD_ERROR d)) = view d;
  (** the other ports are those of the interrupt controllers *)
  pic_view v d : view (d_out 0x20 v d) = view d /\ view (d_out 0xA0 v d) = view d;
  control_view v d : Z.testbit v 2 = false -> view (d_out HD_CMD v d) = view d;
  reset_view v d : Z.testbit v 2 = true -> then_busy (view (d_out HD_CMD v d)) (put a_phase Idle (put a_irq false (view d)));
  register_view port v d : HD_DATA < port < HD_STATUS -> a_busy (view d) = 0%nat -> a_phase (view d) = Idle ->
    view (d_out port v d) = over a_task (ata_reg port v) (view d);
  command_view v d : v = WIN_READ \/ v = WIN_WRITE \/ v = WIN_RESTORE \/ v = WIN_SPECIFY ->
    a_busy (view d) = 0%nat -> a_phase (view d) = Idle -> then_busy (view (d_out HD_STATUS v d)) (ata_command v (view d));
  insw_view drive lba n d : a_busy (view d) = 0%nat -> a_phase (view d) = Reading drive lba (S n) ->
    fst (d_insw d) = a_disk (view d) drive lba /\ then_busy (view (snd (d_insw d))) (ata_taken drive lba n (view d));
  outsw_view drive lba n l d : a_busy (view d) = 0%nat -> a_phase (view d) = Writing drive lba (S n) ->
    length l = 512%nat -> then_busy (view (d_outsw l d)) (ata_given drive lba n l (view d)) }.

(** ** A simulated controller *)

(** It is busy for three looks after each command and sector. *)
Module Sim.
Definition sim := ata.
Definition sim_status (a : sim) : Z :=
  match a_busy a with O => if wants_data (a_phase a) then 0x58 else 0x50 | _ => 0x80 end.
Definition sim_in (port : Z) (a : sim) : Z * sim := if port =? HD_STATUS then (sim_status a, ata_looked a) else (1, a).
Definition sim_out (port v : Z) (a : sim) : sim :=
  if port =? HD_CMD then if Z.testbit v 2 then put a_busy 3%nat (put a_phase Idle (put a_irq false a)) else a
  else if port =? HD_STATUS then put a_busy 3%nat (ata_command v a)
  else if (HD_DATA <? port) && (port <? HD_STATUS) then over a_task (ata_reg port v) a
  else a.
Definition sim_insw (a : sim) : list Z * sim :=
  match a_phase a with
  | Reading drive lba (S n) => (a_disk a drive lba, put a_busy 3%nat (ata_taken drive lba n a))
  | _ => (replicate 512 0, a)
  end.
Definition sim_outsw (l : list Z) (a : sim) : sim :=
  match a_phase a with Writing drive lba (S n) => put a_busy 3%nat (ata_given drive lba n l a) | _ => a end.
End Sim.
Import Sim.

#[export] Instance sim_controller : Controller sim :=
  {| d_in := sim_in; d_out := sim_out; d_insw := sim_insw; d_outsw := sim_outsw |}.

#[export, refine] Instance sim_drive : Drive sim := {| view a := a; d_wait := put a_busy 0%nat |}.
Proof.
  all: intros; cbn [d_in d_out d_insw d_outsw sim_controller].
  - done.
  - unfold sim_in, sim_status, status_ok. cbn. split; [| done]. destruct (a_busy d); [| done]. by destruct (wants_data _).
  - done.
  - done.
  - unfold sim_out. by rewrite Z.eqb_refl, H.
  - exists 3%nat. split; [unfold max_busy; lia |]. unfold sim_out. by rewrite Z.eqb_refl, H.
  - unfold HD_DATA, HD_STATUS in H. unfold sim_out, HD_CMD, HD_DATA, HD_STATUS.
    by rewrite (proj2 (Z.eqb_neq port 0x3f6)), (proj2 (Z.eqb_neq port 0x1f7)), !(fun a b => proj2 (Z.ltb_lt a b)) by lia.
  - exists 3%nat. split; [unfold max_busy; lia | done].
  - unfold sim_insw. rewrite H0. split; [done |]. exists 3%nat. split; [unfold max_busy; lia | done].
  - unfold sim_outsw. rewrite H0. exists 3%nat. split; [unfold max_busy; lia | done].
Defined.
