(* ===== verification/HdSpec.v ===== *)
(** The hard disk driver (Hd.v) on a controller that keeps the laws of HdDrive.v: commands,
    interrupts and the way from a queue of requests to the sectors of the disk. *)
From stdpp Require Import base list gmap strings.
From Stdlib Require Import ZArith Lia.
From S2P Require Import Prelude Memory Sched FsState BlkDev Elevator Hd HdDrive.
Open Scope Z_scope.

(** The controller found ready: no interrupt is due any more. *)
Definition settled (a : ata) : ata := put a_busy 0%nat (put a_irq false a).

(** The sectors of a drive from [lba] on, and [data] stored there. *)
Fixpoint read_sectors (disk : Z -> list Z) (lba : Z) (n : nat) : list Z :=
  match n with O => [] | S n => disk lba ++ read_sectors disk (lba + 1) n end.
Fixpoint write_sectors (data : list Z) (drive lba : Z) (n : nat) (disk : Z -> Z -> list Z) : Z -> Z -> list Z :=
  match n with
  | O => disk
  | S n => write_sectors (drop 512 data) drive (lba + 1) n (updated drive (updated lba (take 512 data) (disk drive)) disk)
  end.

Lemma splice_app o (l1 l2 l : list Z) : (o + length l1 <= length l)%nat ->
  splice (o + length l1) l2 (splice o l1 l) = splice o (l1 ++ l2) l.
Proof.
  intros Hl. unfold splice. rewrite length_app, <- !app_assoc.
  assert (Ho : length (take o l) = o) by (rewrite length_take; lia).
  rewrite (app_assoc (take o l) l1), take_app_length' by (rewrite length_app; lia). rewrite <- !app_assoc. do 3 f_equal.
  rewrite app_assoc, drop_app_ge by (rewrite length_app; lia). rewrite length_app, Ho, drop_drop. f_equal. lia.
Qed.

(** What a driver keeps of a request until it ends it. *)
Definition moved (r r' : request_t) : Prop :=
  r_dev r' = r_dev r /\ r_bh r' = r_bh r /\ r_next r' = r_next r /\ r_waiting r' = r_waiting r.
Lemma moved_trans r1 r2 r3 : moved r1 r2 -> moved r2 r3 -> moved r1 r3.
Proof. unfold moved. intros (-> & -> & -> & ->) (-> & -> & -> & ->). done. Qed.

Section Driver.
Context {D : Type} `{Drive D}.
Context (infos : list hd_i_struct) (parts : list hd_struct) (nr call : Z).

(** The driver between two changes of its tables. *)
Definition mk (s : fs_state) (d : D) (h : option hd_intr) (rc rs : Z) : hd_machine D :=
  mk_machine s d h rc rs infos parts nr call.

(** ** Commands *)

Lemma status_at s d h rc rs : exists v d', port_in HD_STATUS (mk s d h rc rs) = Ok v (mk s d' h rc rs)
  /\ status_ok (view d) v /\ view d' = ata_looked (view d).
Proof.
  destruct (status_view d) as [Hv Hd]. unfold port_in. cbn [hm_dev mk]. destruct (d_in HD_STATUS d) as [v d'].
  exists (u8 v), d'. by split_and!.
Qed.

(** Looking until the status passes a test that fails as long as the controller is busy. *)
Lemma looked_busy d n : a_busy (view d) = S n -> ata_looked (view d) = put a_busy n (view d).
Proof. intros E. unfold ata_looked. by rewrite E. Qed.
Lemma looked_ready d : a_busy (view d) = 0%nat -> ata_looked (view d) = settled (view d).
Proof. intros E. unfold ata_looked, settled. rewrite E. destruct (view d). cbn in *. by subst. Qed.
Lemma settled_busy n a : settled (put a_busy n a) = settled a.
Proof. done. Qed.

Lemma poll_ok {A} (loop : nat -> M (hd_machine D) A) (test : Z -> bool) (res : nat -> A) p n s d h rc rs :
  (forall n, loop (S n) = (let* v := port_in HD_STATUS in if test v then ret (res n) else loop n)) ->
  (forall a v, a_phase a = p -> status_ok a v -> test v = (a_busy a =? 0)%nat) ->
  a_phase (view d) = p -> (a_busy (view d) < n)%nat ->
  exists k d', loop n (mk s d h rc rs) = Ok (res k) (mk s d' h rc rs) /\ view d' = settled (view d).
Proof.
  intros Hl Ht. revert d. induction n as [|n IH]; intros d Hp Hb; [lia |].
  destruct (status_at s d h rc rs) as (v & d' & Ev & Hs & Hd). rewrite Hl, (bind_Ok _ _ _ _ _ Ev), (Ht _ _ Hp Hs).
  destruct (a_busy (view d)) as [|k] eqn:Eb; cbn [Nat.eqb].
  - exists n, d'. by rewrite Hd, looked_ready.
  - rewrite (looked_busy _ _ Eb) in Hd.
    destruct (IH d') as (k' & d2 & E & Hd2); [by rewrite Hd | rewrite Hd; cbn; lia |].
    exists k', d2. by rewrite Hd2, Hd.
Qed.

Lemma status_ready a v : status_ok a v -> (Z.land v 0xc0 =? 0x40) = (a_busy a =? 0)%nat.
Proof.
  unfold status_ok. destruct (a_busy a); intros [Hs _]; [| by apply Z.eqb_neq].
  replace 0xc0 with (Z.land 0xf1 0xc0) by done. by rewrite Z.land_assoc, Hs.
Qed.
Lemma status_drq a v : wants_data (a_phase a) = true -> status_ok a v -> cbool (Z.land v DRQ_STAT) = (a_busy a =? 0)%nat.
Proof. unfold status_ok. destruct (a_busy a); intros Hw [_ Hs]; [by rewrite Hs | by rewrite Hs]. Qed.

Lemma controller_ready_ok s d h rc rs : (a_busy (view d) <= max_busy)%nat ->
  exists v d', controller_ready (mk s d h rc rs) = Ok v (mk s d' h rc rs) /\ v <> 0 /\ view d' = settled (view d).
Proof.
  intros Hb. destruct (poll_ok ready_loop (fun v => Z.land v 0xc0 =? 0x40) (fun n => Z.of_nat (S n)) (a_phase (view d)) (Z.to_nat 9999) s d h rc rs)
    as (k & d' & E & Hd); [done | intros a v _; apply status_ready | done | unfold max_busy in Hb; lia |].
  exists (Z.of_nat (S k)), d'. split_and!; [exact E | lia | done].
Qed.
Lemma busy_loop_ok s d h rc rs : (a_busy (view d) <= max_busy)%nat ->
  exists d', busy_loop (Z.to_nat 10000) (mk s d h rc rs) = Ok tt (mk s d' h rc rs) /\ view d' = settled (view d).
Proof.
  intros Hb. destruct (poll_ok busy_loop (fun v => READY_STAT =? Z.land v (Z.lor BUSY_STAT READY_STAT)) (fun _ => tt) (a_phase (view d)) (Z.to_nat 10000) s d h rc rs)
    as (k & d' & E & Hd); [done | | done | unfold max_busy in Hb; lia | by exists d'].
  intros a v _ Hs. rewrite Z.eqb_sym. by apply status_ready.
Qed.
Lemma drq_loop_ok s d h rc rs : (a_busy (view d) <= max_busy)%nat -> wants_data (a_phase (view d)) = true ->
  exists d', drq_loop (Z.to_nat 3000) (mk s d h rc rs) = Ok true (mk s d' h rc rs) /\ view d' = settled (view d).
Proof.
  intros Hb Hw. destruct (poll_ok drq_loop (fun v => cbool (Z.land v DRQ_STAT)) (fun _ => true) (a_phase (view d)) (Z.to_nat 3000) s d h rc rs)
    as (k & d' & E & Hd); [done | | done | unfold max_busy in Hb; lia | by exists d'].
  intros a v Hp. apply status_drq. by rewrite Hp.
Qed.

Lemma win_result_ok s d h rc rs : a_busy (view d) = 0%nat ->
  exists d', win_result (mk s d h rc rs) = Ok 0 (mk s d' h rc rs) /\ view d' = settled (view d).
Proof.
  intros Eb. destruct (status_at s d h rc rs) as (v & d' & Ev & Hs & Hd). unfold win_result. rewrite (bind_Ok _ _ _ _ _ Ev).
  unfold status_ok in Hs. rewrite Eb in Hs. destruct Hs as [Hs _].
  change (Z.lor BUSY_STAT _) with 0xf1. rewrite Hs. exists d'. split; [done |]. by rewrite Hd, looked_ready.
Qed.

Lemma info_ok i x (m : hd_machine D) : hd_info m !! Z.to_nat i = Some x -> info i m = Ok x m.
Proof. intros E. unfold info. by rewrite E. Qed.

(** The registers [hd_out] fills in. *)
Definition task_of (drive nsect sect head cyl : Z) : taskfile :=
  mk_task (u8 nsect) (u8 sect) (u8 cyl) (u8 (Z.shiftr cyl 8)) (u8 (Z.lor (Z.lor 0xA0 (Z.shiftl drive 4)) head)).

Lemma registers_ok l d : Forall (fun pv : Z * Z => HD_DATA < pv.1 < HD_STATUS) l -> a_busy (view d) = 0%nat -> a_phase (view d) = Idle ->
  view (foldl (fun d pv => d_out pv.1 pv.2 d) d l) = over a_task (fun t => foldl (fun t pv => ata_reg pv.1 pv.2 t) t l) (view d).
Proof.
  intros Hl. revert d. induction Hl as [|[p v] l Hp Hl IH]; intros d Hb Hd; cbn [foldl fst snd]; [by destruct (view d) |].
  rewrite IH; rewrite register_view by done; done.
Qed.

Lemma hd_out_ok drive nsect sect head cyl cmd intr i s d h rc rs :
  drive <= 1 -> head <= 15 -> infos !! Z.to_nat drive = Some i -> Z.testbit (u8 (i_ctl i)) 2 = false ->
  cmd = WIN_READ \/ cmd = WIN_WRITE \/ cmd = WIN_RESTORE \/ cmd = WIN_SPECIFY ->
  (a_busy (view d) <= max_busy)%nat -> a_phase (view d) = Idle ->
  exists d', hd_out drive nsect sect head cyl cmd intr (mk s d h rc rs) = Ok tt (mk s d' (Some intr) rc rs)
    /\ then_busy (view d') (ata_command cmd (put a_task (task_of drive nsect sect head cyl) (settled (view d)))).
Proof.
  intros Hdr Hhd Hi Hc Hcmd Hb Hp. unfold hd_out.
  rewrite (proj2 (Z.ltb_ge 1 drive)), (proj2 (Z.ltb_ge 15 head)) by done. cbn [orb].
  destruct (controller_ready_ok s d h rc rs Hb) as (v & d1 & E & Hv & Hd1). rewrite (bind_Ok _ _ _ _ _ E).
  unfold cbool. rewrite (proj2 (Z.eqb_neq v 0) Hv). cbn [negb].
  unfold bind at 1, modify at 1. change (put do_hd ?x (mk s d1 h rc rs)) with (mk s d1 x rc rs). cbn beta iota.
  rewrite (bind_Ok _ _ _ _ _ (info_ok drive i (mk s d1 (Some intr) rc rs) Hi)).
  assert (Hu : u8 cmd = cmd) by (by destruct Hcmd as [-> | [-> | [-> | ->]]]).
  set (d2 := d_out HD_CMD (u8 (i_ctl i)) d1).
  assert (E2 : view d2 = settled (view d)) by (unfold d2; by rewrite control_view).
  set (l := [(HD_DATA + 1, u8 (Z.shiftr (i_wpcom i) 2)); (HD_DATA + 2, u8 nsect); (HD_DATA + 3, u8 sect); (HD_DATA + 4, u8 cyl);
    (HD_DATA + 5, u8 (Z.shiftr cyl 8)); (HD_DATA + 6, u8 (Z.lor (Z.lor 0xA0 (Z.shiftl drive 4)) head))]).
  assert (El : view (foldl (fun d pv => d_out pv.1 pv.2 d) d2 l) = put a_task (task_of drive nsect sect head cyl) (settled (view d))).
  { rewrite registers_ok, E2; [reflexivity | | by rewrite E2 ..]. unfold l, HD_DATA, HD_STATUS. repeat constructor. }
  exists (d_out HD_STATUS (u8 cmd) (foldl (fun d pv => d_out pv.1 pv.2 d) d2 l)). split; [reflexivity |].
  rewrite Hu, <- El. apply command_view; [done | by rewrite El ..].
Qed.

(** The head, cylinder and sector of a block address it. *)
Lemma sdh_ok drive head : 0 <= drive <= 1 -> 0 <= head <= 15 ->
  let v := u8 (Z.lor (Z.lor 0xA0 (Z.shiftl drive 4)) head) in Z.b2z (Z.testbit v 4) = drive /\ Z.land v 15 = head.
Proof.
  intros Hd Hh. assert (Hdr : drive = 0 \/ drive = 1) by lia.
  rewrite <- (Z2Nat.id head) by lia. assert (Hn : (Z.to_nat head < 16)%nat) by lia. generalize dependent (Z.to_nat head). intros n Hn.
  do 16 (destruct n as [|n]; [by destruct Hdr as [-> | ->] |]). lia.
Qed.

Lemma chs_ok geom drive nsect lba spt heads : 0 <= drive <= 1 -> geom drive = (spt, heads) -> 1 <= spt <= 255 -> 1 <= heads <= 16 ->
  0 <= lba -> lba / spt / heads < 65536 ->
  let t := task_of drive nsect (lba mod spt + 1) (lba / spt mod heads) (lba / spt / heads) in
  t_drive t = drive /\ t_lba geom t = lba.
Proof.
  intros Hd Hg Hs Hh Hl Hc t.
  pose proof (Z.mod_pos_bound lba spt) as H1. pose proof (Z.mod_pos_bound (lba / spt) heads) as H2.
  destruct (sdh_ok drive (lba / spt mod heads) Hd) as [E1 E2]; [lia |]. cbn zeta in E1, E2.
  assert (E : t_drive t = drive) by done. split; [done |]. unfold t_lba. rewrite E, Hg. unfold t_head.
  unfold t, task_of. cbn [t_lcyl t_hcyl t_sect t_sdh]. rewrite E2.
  assert (H3 : 0 <= lba / spt / heads) by (apply Z.div_pos; [apply Z.div_pos |]; lia).
  rewrite (u8_small (_ + 1)) by lia. rewrite Z.shiftr_div_pow2 by done. unfold u8. change (2 ^ 8) with 256.
  rewrite (Z.mod_small (_ / 256)) by (split; [apply Z.div_pos; lia | apply Z.div_lt_upper_bound; lia]).
  pose proof (Z.div_mod (lba / spt / heads) 256). pose proof (Z.div_mod (lba / spt) heads). pose proof (Z.div_mod lba spt). nia.
Qed.

(** ** Interrupts *)

(** The next interrupt of the controller: it comes when one is due and the controller is
    no longer busy. *)
Definition next_irq : M (hd_machine D) unit := fun m =>
  if a_irq (view (hm_dev m)) then hd_interrupt (over hm_dev d_wait m) else Ub.
Fixpoint interrupts (k : nat) : M (hd_machine D) unit :=
  match k with O => ret tt | S k => next_irq ;;; interrupts k end.

Definition handler (h : hd_intr) : M (hd_machine D) unit :=
  match h with read_intr_p => read_intr | write_intr_p => write_intr | recal_intr_p => recal_intr end.

Lemma next_irq_ok s d h rc rs : a_irq (view d) = true ->
  exists d', next_irq (mk s d (Some h) rc rs) = handler h (mk s d' None rc rs) /\ view d' = put a_busy 0%nat (view d).
Proof.
  intros Hi. exists (d_out 0x20 0x20 (d_out 0xA0 0x20 (d_wait d))). split.
  - unfold next_irq. cbn [hm_dev mk]. rewrite Hi. by destruct h.
  - by rewrite (proj1 (pic_view _ _)), (proj2 (pic_view _ _)), wait_view.
Qed.

(** ** The request in service *)

(** The state with the current request [r] and the buffer [x] it is about. *)
Definition work (s : fs_state) (c : nat) (r : request_t) (b : nat) (x : buffer_head) : fs_state :=
  put request (<[c := r]> (request s)) (put bufs (<[b := x]> (bufs s)) s).
Record in_service (s : fs_state) (c b : nat) : Prop := {
  sv_cur : current_request <$> blk_dev s !! 3%nat = Some (Some c);
  sv_c : (c < length (request s))%nat;
  sv_b : (b < length (bufs s))%nat }.

Lemma over_work s c r b x g : over request (alter g c) (work s c r b x) = work s c (g r) b x.
Proof. unfold work, over, put. cbn. f_equal. apply alter_insert_eq. Qed.
Lemma over_work_buf s c r b x g : over bufs (alter g b) (work s c r b x) = work s c r b (g x).
Proof. unfold work, over, put. cbn. f_equal. apply alter_insert_eq. Qed.

Lemma zoom_ok {A} (m : M fs_state A) s a s' d h rc rs : m s = Ok a s' -> zoom hm_fs m (mk s d h rc rs) = Ok a (mk s' d h rc rs).
Proof. intros E. unfold zoom. cbn [hm_fs mk]. by rewrite E. Qed.

Section Service.
Context (s : fs_state) (c b : nat) (Hs : in_service s c b).

Lemma work_request r x : request (work s c r b x) !! c = Some r.
Proof. apply list_lookup_insert_eq, Hs. Qed.
Lemma work_buf r x : bufs (work s c r b x) !! b = Some x.
Proof. apply list_lookup_insert_eq, Hs. Qed.

Lemma current_of_ok r x : current_of 3 (work s c r b x) = Ok (Some c) (work s c r b x).
Proof.
  destruct Hs as [Hc _ _]. destruct (blk_dev s !! 3%nat) as [bd|] eqn:E; [| done]. injection Hc as Hc.
  unfold current_of. by rewrite (field_ok _ _ _ bd), Hc.
Qed.
Lemma CURRENT_ok r x d h rc rs : CURRENT (mk (work s c r b x) d h rc rs) = Ok (c, r) (mk (work s c r b x) d h rc rs).
Proof.
  apply zoom_ok. rewrite (bind_Ok _ _ _ _ _ (current_of_ok r x)). cbn [need].
  rewrite (bind_Ok (ret c) _ _ c _ eq_refl). by rewrite (bind_Ok _ _ _ _ _ (row_ok request c r _ (work_request r x))).
Qed.
Lemma update_work r x g : update request c g (work s c r b x) = Ok tt (work s c (g r) b x).
Proof. rewrite (update_ok request c g r) by apply work_request. f_equal. apply over_work. Qed.
Lemma update_work_buf r x g : update bufs b g (work s c r b x) = Ok tt (work s c r b (g x)).
Proof. rewrite (update_ok bufs b g x) by apply work_buf. f_equal. apply over_work_buf. Qed.
Lemma set_current_ok {T} (f : request_t -> T) {sf : Setter f} v r x d h rc rs :
  set_current f v (mk (work s c r b x) d h rc rs) = Ok tt (mk (work s c (put f v r) b x) d h rc rs).
Proof. unfold set_current. rewrite (bind_Ok _ _ _ _ _ (CURRENT_ok r x d h rc rs)). apply zoom_ok, update_work. Qed.
Lemma step_current_ok {T} (f : request_t -> T) {sf : Setter f} (g : request_t -> T) r x d h rc rs :
  (let* (_, r) := CURRENT in set_current f (g r)) (mk (work s c r b x) d h rc rs) = Ok tt (mk (work s c (put f (g r) r) b x) d h rc rs).
Proof. rewrite (bind_Ok _ _ _ _ _ (CURRENT_ok r x d h rc rs)). apply set_current_ok. Qed.
Lemma bh_work {T} (f : buffer_head -> T) r x : bh f b (work s c r b x) = Ok (f x) (work s c r b x).
Proof. apply field_ok, work_buf. Qed.

Lemma port_read_ok r x o drive lba n d h rc rs : r_buffer r = Some (b, o) -> o + 512 <= Z.of_nat (length (b_data x)) ->
  a_busy (view d) = 0%nat -> a_phase (view d) = Reading drive lba (S n) ->
  exists d', port_read (mk (work s c r b x) d h rc rs)
      = Ok tt (mk (work s c r b (put b_data (splice (Z.to_nat o) (a_disk (view d) drive lba) (b_data x)) x)) d' h rc rs)
    /\ then_busy (view d') (ata_taken drive lba n (view d)).
Proof.
  intros Hr Ho Hb Hp. destruct (insw_view drive lba n d Hb Hp) as [El Hd].
  destruct (d_insw d) as [l d'] eqn:E. cbn [fst snd] in *. subst l. exists d'. split; [| done].
  unfold port_read. rewrite (bind_Ok _ _ _ _ _ (CURRENT_ok r x d h rc rs)), Hr. cbn [need].
  unfold bind at 1, ret at 1. cbn [hm_dev mk]. rewrite E. change (put hm_dev d' (mk ?s d h rc rs)) with (mk s d' h rc rs).
  rewrite (bind_Ok _ _ _ _ _ (zoom_ok _ _ _ _ d' h rc rs (bh_work b_data r x))).
  rewrite (proj2 (Z.ltb_ge _ _) Ho). apply zoom_ok, update_work_buf.
Qed.

Lemma port_write_ok r x o drive lba n d h rc rs : r_buffer r = Some (b, o) -> 0 <= o -> o + 512 <= Z.of_nat (length (b_data x)) ->
  a_busy (view d) = 0%nat -> a_phase (view d) = Writing drive lba (S n) ->
  exists d', port_write (mk (work s c r b x) d h rc rs) = Ok tt (mk (work s c r b x) d' h rc rs)
    /\ then_busy (view d') (ata_given drive lba n (take 512 (drop (Z.to_nat o) (b_data x))) (view d)).
Proof.
  intros Hr Hz Ho Hb Hp. exists (d_outsw (take 512 (drop (Z.to_nat o) (b_data x))) d). split.
  - unfold port_write. rewrite (bind_Ok _ _ _ _ _ (CURRENT_ok r x d h rc rs)), Hr. cbn [need].
    unfold bind at 1, ret at 1. rewrite (bind_Ok _ _ _ _ _ (zoom_ok _ _ _ _ d h rc rs (bh_work b_data r x))).
    by rewrite (proj2 (Z.ltb_ge _ _) Ho).
  - apply outsw_view; [done.. |]. rewrite length_take, length_drop. lia.
Qed.

(** One sector read, and the way on. *)
Lemma read_step r x o drive lba n d rc rs : r_buffer r = Some (b, o) -> o + 512 <= Z.of_nat (length (b_data x)) ->
  r_nr_sectors r = Z.of_nat (S n) -> (n < 255)%nat -> a_irq (view d) = true -> a_phase (view d) = Reading drive lba (S n) ->
  exists r' d', moved r r' /\ r_buffer r' = Some (b, o + 512) /\ r_nr_sectors r' = Z.of_nat n
    /\ then_busy (view d') (ata_taken drive lba n (settled (view d)))
    /\ next_irq (mk (work s c r b x) d (Some read_intr_p) rc rs)
       = (if (n =? 0)%nat then zoom hm_fs (end_request 3 1) ;;; do_hd_request else modify (put do_hd (Some read_intr_p)))
           (mk (work s c r' b (put b_data (splice (Z.to_nat o) (a_disk (view d) drive lba) (b_data x)) x)) d' None rc rs).
Proof.
  intros Hr Ho Hn Hl Hi Hp. destruct (next_irq_ok (work s c r b x) d read_intr_p rc rs Hi) as (d1 & E1 & Hd1).
  destruct (win_result_ok (work s c r b x) d1 None rc rs) as (d2 & E2 & Hd2); [by rewrite Hd1 |].
  destruct (port_read_ok r x o drive lba n d2 None rc rs Hr Ho) as (d3 & E3 & Hd3); [by rewrite Hd2, ?Hd1 .. |].
  replace (a_disk (view d2)) with (a_disk (view d)) in E3 by (by rewrite Hd2, Hd1).
  eexists _, d3. split_and!; cycle 3.
  { by rewrite Hd2, Hd1 in Hd3. }
  { rewrite E1. cbn [handler]. unfold read_intr. rewrite (bind_Ok _ _ _ _ _ E2). cbn [cbool Z.eqb negb]. rewrite (bind_Ok _ _ _ _ _ E3).
    rewrite (bind_Ok _ _ _ _ _ (set_current_ok r_errors 0 _ _ _ _ _ _)).
    rewrite (bind_Ok _ _ _ _ _ (step_current_ok r_buffer (fun r => prod_map id (Z.add 512) <$> r_buffer r) _ _ _ _ _ _)).
    rewrite (bind_Ok _ _ _ _ _ (step_current_ok r_sector (fun r => u32 (r_sector r + 1)) _ _ _ _ _ _)).
    rewrite (bind_Ok _ _ _ _ _ (step_current_ok r_nr_sectors (fun r => u32 (r_nr_sectors r - 1)) _ _ _ _ _ _)).
    rewrite (bind_Ok _ _ _ _ _ (CURRENT_ok _ _ _ _ _ _)).
    match goal with |- context [if cbool ?v then _ else _] => replace (cbool v) with (negb (n =? 0)%nat) end.
    - by destruct (n =? 0)%nat.
    - cbn. rewrite Hn. replace (Z.of_nat (S n) - 1) with (Z.of_nat n) by lia. rewrite u32_small by lia. unfold cbool. f_equal. by destruct n. }
  - done.
  - cbn. rewrite Hr. cbn. by rewrite Z.add_comm.
  - cbn. rewrite Hn, u32_small; lia.
Qed.

(** One sector written, and the next. *)
Lemma write_last r x d rc rs : r_nr_sectors r = 1 -> a_irq (view d) = true ->
  exists r' d', moved r r' /\ view d' = settled (view d)
    /\ next_irq (mk (work s c r b x) d (Some write_intr_p) rc rs)
       = (zoom hm_fs (end_request 3 1) ;;; do_hd_request) (mk (work s c r' b x) d' None rc rs).
Proof.
  intros Hn Hi. destruct (next_irq_ok (work s c r b x) d write_intr_p rc rs Hi) as (d1 & E1 & Hd1).
  destruct (win_result_ok (work s c r b x) d1 None rc rs) as (d2 & E2 & Hd2); [by rewrite Hd1 |].
  eexists _, d2. split_and!; cycle 2.
  { rewrite E1. cbn [handler]. unfold write_intr. rewrite (bind_Ok _ _ _ _ _ E2). cbn [cbool Z.eqb negb].
    rewrite (bind_Ok _ _ _ _ _ (step_current_ok r_nr_sectors (fun r => u32 (r_nr_sectors r - 1)) _ _ _ _ _ _)).
    rewrite (bind_Ok _ _ _ _ _ (CURRENT_ok _ _ _ _ _ _)). rewrite Hn. reflexivity. }
  - done.
  - by rewrite Hd2, Hd1.
Qed.
Lemma write_step r x o drive lba n d rc rs : r_buffer r = Some (b, o) -> 0 <= o -> o + 1024 <= Z.of_nat (length (b_data x)) ->
  r_nr_sectors r = Z.of_nat (S (S n)) -> (n < 254)%nat -> a_irq (view d) = true -> a_phase (view d) = Writing drive lba (S n) ->
  exists r' d', moved r r' /\ r_buffer r' = Some (b, o + 512) /\ r_nr_sectors r' = Z.of_nat (S n)
    /\ then_busy (view d') (ata_given drive lba n (take 512 (drop (Z.to_nat (o + 512)) (b_data x))) (settled (view d)))
    /\ next_irq (mk (work s c r b x) d (Some write_intr_p) rc rs) = Ok tt (mk (work s c r' b x) d' (Some write_intr_p) rc rs).
Proof.
  intros Hr Hz Ho Hn Hl Hi Hp. destruct (next_irq_ok (work s c r b x) d write_intr_p rc rs Hi) as (d1 & E1 & Hd1).
  destruct (win_result_ok (work s c r b x) d1 None rc rs) as (d2 & E2 & Hd2); [by rewrite Hd1 |].
  pose (r1 := put r_nr_sectors (u32 (r_nr_sectors r - 1)) r).
  pose (r' := put r_buffer (prod_map id (Z.add 512) <$> r_buffer r1) (put r_sector (u32 (r_sector r1 + 1)) r1)).
  assert (En : u32 (r_nr_sectors r - 1) = Z.of_nat (S n)) by (rewrite Hn, u32_small; lia).
  assert (Eb : r_buffer r' = Some (b, o + 512)) by (cbn; rewrite Hr; cbn; by rewrite Z.add_comm).
  destruct (port_write_ok r' x (o + 512) drive lba n d2 (Some write_intr_p) rc rs Eb) as (d3 & E3 & Hd3); [lia | lia | by rewrite Hd2 | by rewrite Hd2, Hd1 |].
  exists r', d3. split_and!; [done | done | done | by rewrite Hd2, Hd1 in Hd3 |].
  rewrite E1. cbn [handler]. unfold write_intr. rewrite (bind_Ok _ _ _ _ _ E2). cbn [cbool Z.eqb negb].
  rewrite (bind_Ok _ _ _ _ _ (step_current_ok r_nr_sectors (fun r => u32 (r_nr_sectors r - 1)) _ _ _ _ _ _)).
  rewrite (bind_Ok _ _ _ _ _ (CURRENT_ok _ _ _ _ _ _)). fold r1. change (r_nr_sectors r1) with (u32 (r_nr_sectors r - 1)).
  rewrite En. unfold cbool. rewrite (proj2 (Z.eqb_neq _ 0)) by lia. cbn [negb].
  rewrite (bind_Ok _ _ _ _ _ (set_current_ok r_sector _ _ _ _ _ _ _)), (bind_Ok _ _ _ _ _ (set_current_ok r_buffer _ _ _ _ _ _ _)).
  exact E3.
Qed.

Lemma reads_ok drive rc rs n r x o lba d : r_buffer r = Some (b, o) -> 0 <= o -> o + 512 * Z.of_nat (S n) <= Z.of_nat (length (b_data x)) ->
  r_nr_sectors r = Z.of_nat (S n) -> (n < 255)%nat -> a_irq (view d) = true -> a_phase (view d) = Reading drive lba (S n) ->
  (forall l, length (a_disk (view d) drive l) = 512%nat) ->
  exists r' d', moved r r' /\ a_phase (view d') = Idle /\ (a_busy (view d') <= max_busy)%nat
    /\ a_disk (view d') = a_disk (view d) /\ a_geom (view d') = a_geom (view d) /\
    forall k, interrupts (S n + k) (mk (work s c r b x) d (Some read_intr_p) rc rs)
      = ((zoom hm_fs (end_request 3 1) ;;; do_hd_request) ;;; interrupts k)
          (mk (work s c r' b (put b_data (splice (Z.to_nat o) (read_sectors (a_disk (view d) drive) lba (S n)) (b_data x)) x)) d' None rc rs).
Proof.
  revert r x o lba d. induction n as [|n IH]; intros r x o lba d Hr Hz Ho Hn Hl Hi Hp Hd.
  all: destruct (read_step r x o drive lba _ d rc rs Hr ltac:(lia) Hn ltac:(lia) Hi Hp) as (r1 & d1 & Hm & Hr1 & Hn1 & (nb & Hnb & Hd1) & E1).
  - exists r1, d1. rewrite Hd1. split_and!; [done.. |]. intros k. cbn [Nat.add interrupts read_sectors].
    unfold bind at 1. rewrite E1, app_nil_r. done.
  - set (x1 := put b_data _ x) in E1. destruct (IH r1 x1 (o + 512) (lba + 1) d1) as (r' & d' & Hm' & Hp' & Hb' & Hdk & Hg & E); try by rewrite ?Hd1.
    { lia. }
    { unfold x1, put. cbn [b_data]. cbn. unfold splice. rewrite !length_app, length_take, length_drop, Hd. lia. }
    { lia. }
    exists r', d'. split_and!; [by eapply moved_trans | done | done | by rewrite Hdk, Hd1 | by rewrite Hg, Hd1 |].
    intros k. change (S (S n) + k)%nat with (S (S n + k)). cbn [interrupts]. rewrite (bind_Ok _ _ _ _ _ E1).
    change (put do_hd ?h (mk ?s d1 None rc rs)) with (mk s d1 h rc rs). rewrite E.
    replace (a_disk (view d1)) with (a_disk (view d)) by by rewrite Hd1.
    do 3 f_equal. change (read_sectors ?f lba (S (S n))) with (f lba ++ read_sectors f (lba + 1) (S n)).
    rewrite <- splice_app, Hd by (rewrite Hd; lia). replace (Z.to_nat (o + 512)) with (Z.to_nat o + 512)%nat by lia. done.
Qed.

Lemma writes_ok drive rc rs n r x o lba d : r_buffer r = Some (b, o) -> 0 <= o -> o + 512 * Z.of_nat (S n) <= Z.of_nat (length (b_data x)) ->
  r_nr_sectors r = Z.of_nat (S n) -> (n < 255)%nat -> a_irq (view d) = true ->
  a_phase (view d) = match n with O => Idle | _ => Writing drive lba n end ->
  exists r' d', moved r r' /\ a_phase (view d') = Idle /\ (a_busy (view d') <= max_busy)%nat
    /\ a_disk (view d') = write_sectors (drop (Z.to_nat o + 512) (b_data x)) drive lba n (a_disk (view d)) /\ a_geom (view d') = a_geom (view d) /\
    forall k, interrupts (S n + k) (mk (work s c r b x) d (Some write_intr_p) rc rs)
      = ((zoom hm_fs (end_request 3 1) ;;; do_hd_request) ;;; interrupts k) (mk (work s c r' b x) d' None rc rs).
Proof.
  revert r o lba d. induction n as [|n IH]; intros r o lba d Hr Hz Ho Hn Hl Hi Hp.
  - destruct (write_last r x d rc rs Hn Hi) as (r' & d' & Hm & Hd' & E). exists r', d'. rewrite Hd'.
    split_and!; [done | done | cbn; lia | done | done |]. intros k. cbn [Nat.add interrupts]. unfold bind at 1. rewrite E. done.
  - destruct (write_step r x o drive lba n d rc rs Hr Hz ltac:(lia) Hn ltac:(lia) Hi Hp) as (r1 & d1 & Hm & Hr1 & Hn1 & (nb & Hnb & Hd1) & E1).
    destruct (IH r1 (o + 512) (lba + 1) d1) as (r' & d' & Hm' & Hp' & Hb' & Hdk & Hg & E); try by rewrite ?Hd1.
    { lia. } { lia. } { lia. }
    exists r', d'. split_and!; [by eapply moved_trans | done | done | | by rewrite Hg, Hd1 |].
    + rewrite Hdk, Hd1. cbn [write_sectors]. rewrite drop_drop.
      replace (Z.to_nat (o + 512)) with (Z.to_nat o + 512)%nat by lia. done.
    + intros k. change (S (S n) + k)%nat with (S (S n + k)). cbn [interrupts]. rewrite (bind_Ok _ _ _ _ _ E1). apply E.
Qed.
End Service.
End Driver.
