(* ===== verification/HdQueue.v ===== *)
(** The queue of the hard disk is served: ending a request, starting the next one, and
    the way of a whole queue from [do_hd_request] through the interrupts. *)
From stdpp Require Import base list gmap strings.
From Stdlib Require Import ZArith Lia.
From S2P Require Import Prelude Memory Sched FsState Wakeup BlkDev Elevator Hd HdDrive HdSpec.
Open Scope Z_scope.

(** ** The end of a request *)

(** The state after the end of request [c]. *)
Definition ended (s : fs_state) (c : nat) (r : request_t) (b : nat) (x : buffer_head) (u : Z) (sc : sched) : fs_state :=
  put blk_dev (alter (put current_request (r_next r)) 3%nat (blk_dev s)) (put wait_for_request 0 (put fs_sched sc
    (work s c (put r_dev (-1) (put r_waiting 0 r)) b (put b_wait 0 (put b_lock 0 (put b_uptodate u x)))))).

Section End.
Context (s : fs_state) (c b : nat) (Hs : in_service s c b).

Lemma serv_sched sc : in_service (put fs_sched sc s) c b.
Proof. destruct Hs. by constructor. Qed.

Lemma wake_buffer sc r x : waiter sc (b_wait x) -> exists sc', woken [b_wait x] sc sc' /\
  wake_up (b_wait_var b) (work (put fs_sched sc s) c r b x) = Ok tt (work (put fs_sched sc' s) c r b (put b_wait 0 x)).
Proof.
  intros Hw. assert (E : rd_var (b_wait_var b) (work (put fs_sched sc s) c r b x) = b_wait x).
  { unfold b_wait_var, row_var. cbn [rd_var]. by rewrite (work_buf _ c b (serv_sched sc)). }
  destruct (wake_up_woken (b_wait_var b) (work (put fs_sched sc s) c r b x)) as (sc' & Hsc & E'); [by rewrite E |]. rewrite E in *.
  unfold cbool in E'. destruct (Z.eqb_spec (b_wait x) 0) as [E0|E0]; cbn [negb] in E'.
  - exists sc. split; [by rewrite E0; apply woken_zero |]. rewrite E'. do 2 f_equal. destruct x. cbn in *. by subst.
  - exists sc'. split; [done |]. rewrite E'. f_equal. exact (over_work_buf (put fs_sched sc' s) c r b x (put b_wait 0)).
Qed.
Lemma wake_waiting sc r x : waiter sc (r_waiting r) -> exists sc', woken [r_waiting r] sc sc' /\
  wake_up (row_var request r_waiting c) (work (put fs_sched sc s) c r b x) = Ok tt (work (put fs_sched sc' s) c (put r_waiting 0 r) b x).
Proof.
  intros Hw. assert (E : rd_var (row_var request r_waiting c) (work (put fs_sched sc s) c r b x) = r_waiting r).
  { unfold row_var. cbn [rd_var]. by rewrite (work_request _ c b (serv_sched sc)). }
  destruct (wake_up_woken (row_var request r_waiting c) (work (put fs_sched sc s) c r b x)) as (sc' & Hsc & E'); [by rewrite E |]. rewrite E in *.
  unfold cbool in E'. destruct (Z.eqb_spec (r_waiting r) 0) as [E0|E0]; cbn [negb] in E'.
  - exists sc. split; [by rewrite E0; apply woken_zero |]. rewrite E'. do 2 f_equal. destruct r. cbn in *. by subst.
  - exists sc'. split; [done |]. rewrite E'. f_equal. exact (over_work (put fs_sched sc' s) c r b x (put r_waiting 0)).
Qed.
Lemma wake_requests sc r x : waiter sc (wait_for_request s) -> exists sc', woken [wait_for_request s] sc sc' /\
  wake_up (fs_var wait_for_request) (work (put fs_sched sc s) c r b x) = Ok tt (put wait_for_request 0 (work (put fs_sched sc' s) c r b x)).
Proof.
  intros Hw. destruct (wake_up_woken (fs_var wait_for_request) (work (put fs_sched sc s) c r b x)) as (sc' & Hsc & E'); [exact Hw |].
  change (rd_var (fs_var wait_for_request) _) with (wait_for_request s) in *.
  unfold cbool in E'. destruct (Z.eqb_spec (wait_for_request s) 0) as [E0|E0]; cbn [negb] in E'.
  - exists sc. split; [by rewrite E0; apply woken_zero |]. rewrite E'. f_equal. unfold work, put. cbn. by rewrite E0.
  - by exists sc'.
Qed.

Lemma end_request_ok r x u : r_bh r = Some b -> 0 <= u < 2 ^ 8 ->
  Forall (waiter (fs_sched s)) [b_wait x; r_waiting r; wait_for_request s] ->
  exists sc, woken [b_wait x; r_waiting r; wait_for_request s] (fs_sched s) sc
    /\ end_request 3 u (work s c r b x) = Ok tt (ended s c r b x u sc).
Proof.
  intros Hb Hu Hw. apply Forall_cons in Hw as [Hw1 Hw]. apply Forall_cons in Hw as [Hw2 Hw]. apply Forall_cons in Hw as [Hw3 _].
  set (x1 := put b_lock 0 (put b_uptodate u x)).
  destruct (wake_buffer (fs_sched s) r x1 Hw1) as (sc1 & H1 & E1).
  destruct (wake_waiting sc1 r (put b_wait 0 x1) ltac:(by eapply woken_waiter)) as (sc2 & H2 & E2).
  destruct (wake_requests sc2 (put r_waiting 0 r) (put b_wait 0 x1)) as (sc3 & H3 & E3); [by eapply woken_waiter, woken_waiter |].
  exists sc3. split; [exact (woken_app _ _ _ _ _ H1 (woken_app _ _ _ _ _ H2 H3)) |].
  replace (put fs_sched (fs_sched s) s) with s in E1 by by destruct s.
  unfold end_request. rewrite (bind_Ok _ _ _ _ _ (current_of_ok s c b Hs r x)). cbn [need]. unfold bind at 1, ret at 1.
  rewrite (bind_Ok _ _ _ _ _ (row_ok request c r _ (work_request s c b Hs r x))), Hb.
  assert (E0 : (set_bh b_uptodate b (u8 u) ;;; unlock_buffer b) (work s c r b x) = Ok tt (work (put fs_sched sc1 s) c r b (put b_wait 0 x1))).
  { unfold unlock_buffer, set_bh, assign. rewrite (bind_Ok _ _ _ _ _ (update_work_buf s c b Hs r x _)), u8_small by done.
    rewrite (bind_Ok _ _ _ _ _ (update_work_buf s c b Hs r _ _)). exact E1. }
  rewrite (bind_Ok _ _ _ _ _ E0), (bind_Ok _ _ _ _ _ E2), (bind_Ok _ _ _ _ _ E3).
  set (s3 := put wait_for_request 0 (put fs_sched sc3 s)).
  assert (Hs3 : in_service s3 c b) by (destruct Hs; by constructor).
  change (put wait_for_request 0 _) with (work s3 c (put r_waiting 0 r) b (put b_wait 0 x1)).
  unfold set_req, assign. rewrite (bind_Ok _ _ _ _ _ (update_work s3 c b Hs3 _ _ _)), (bind_Ok _ _ _ _ _ (row_ok request c _ _ (work_request s3 c b Hs3 _ _))).
  destruct (blk_dev s !! 3%nat) as [bd|] eqn:Ebd; [| by destruct Hs as [Hc _ _]; rewrite Ebd in Hc].
  by rewrite (update_ok blk_dev 3%nat _ bd).
Qed.
End End.

(** ** The queue *)

(** A buffer whose request has ended. *)
Definition released (u : Z) (x : buffer_head) : buffer_head := put b_wait 0 (put b_lock 0 (put b_uptodate u x)).

Section Queue.
Context {D : Type} `{Drive D}.
Context (infos : list hd_i_struct) (parts : list hd_struct) (nr call : Z).

Definition drive_of (r : request_t) : Z := MINOR (r_dev r) / 5.
Definition part_of (r : request_t) : option hd_struct := parts !! Z.to_nat (MINOR (r_dev r)).
Definition lba_of (r : request_t) : Z := u32 (r_sector r + from_option start_sect 0 (part_of r)).
(** A request for a drive that is not there or for sectors behind the end of the partition. *)
Definition out_of_range (r : request_t) : bool :=
  (u32 (5 * nr) <=? MINOR (r_dev r)) || from_option (fun p => u32 (nr_sects p) <? u32 (r_sector r + 2)) true (part_of r).

(** What serving a request means for the sectors and for the buffers. *)
Definition serve (a : (Z -> Z -> list Z) * list buffer_head) (r : request_t) : (Z -> Z -> list Z) * list buffer_head :=
  let '(disk, bs) := a in
  match r_buffer r with
  | None => a
  | Some (b, o) =>
    let n := Z.to_nat (r_nr_sectors r) in
    if out_of_range r then (disk, alter (released 0) b bs)
    else if r_cmd r =? WRITE then
      (write_sectors (drop (Z.to_nat o) (from_option b_data [] (bs !! b))) (drive_of r) (lba_of r) n disk, alter (released 1) b bs)
    else (disk, alter (fun x => released 1 (put b_data (splice (Z.to_nat o) (read_sectors (disk (drive_of r)) (lba_of r) n) (b_data x)) x)) b bs)
  end.

(** Drives whose blocks the registers of the controller can address. *)
Record drive_ok (i : hd_i_struct) (lba : Z) : Prop := {
  dv_sect : 1 <= i_sect i <= 255; dv_head : 1 <= i_head i <= 16; dv_ctl : Z.testbit (i_ctl i) 2 = false;
  dv_cyl : lba / i_sect i / i_head i < 65536 }.
(** A request as [make_request] builds it. *)
Record servable (s : fs_state) (r : request_t) (b : nat) (o : Z) (x : buffer_head) : Prop := {
  sr_major : MAJOR (r_dev r) = 3; sr_bh : r_bh r = Some b; sr_buffer : r_buffer r = Some (b, o); sr_x : bufs s !! b = Some x;
  sr_lock : b_lock x <> 0; sr_wait : waiter (fs_sched s) (b_wait x) /\ waiter (fs_sched s) (r_waiting r);
  sr_cmd : r_cmd r = READ \/ r_cmd r = WRITE; sr_n : 0 < r_nr_sectors r <= 255;
  sr_o : 0 <= o /\ o + 512 * r_nr_sectors r <= Z.of_nat (length (b_data x));
  sr_part : u32 (5 * nr) <= MINOR (r_dev r) \/ is_Some (part_of r);
  sr_drive : out_of_range r = false -> 0 <= drive_of r <= 1 /\ exists i, infos !! Z.to_nat (drive_of r) = Some i /\ drive_ok i (lba_of r) }.
Record queued (s : fs_state) (ns : list nat) (rs : list request_t) : Prop := {
  qd_cur : current_request <$> blk_dev s !! 3%nat = Some (head ns);
  qd_chain : rchain (request s) (head ns) ns rs;
  qd_nodup : NoDup ns;
  qd_bufs : NoDup (r_bh <$> rs);
  qd_reqs : Forall (fun r => exists b o x, servable s r b o x) rs;
  qd_wait : waiter (fs_sched s) (wait_for_request s) }.

(** The controller between requests. *)
Record quiet (disk : Z -> Z -> list Z) (d : D) : Prop := {
  qt_phase : a_phase (view d) = Idle; qt_busy : (a_busy (view d) <= max_busy)%nat; qt_disk : a_disk (view d) = disk;
  qt_geom : forall k i, infos !! k = Some i -> a_geom (view d) (Z.of_nat k) = (i_sect i, i_head i) }.

#[local] Abbreviation mkd := (mk infos parts nr call).

Lemma testbit_u8 v : Z.testbit (u8 v) 2 = Z.testbit v 2.
Proof. unfold u8. by rewrite Z.mod_pow2_bits_low. Qed.

Lemma work_id s c r b x : request s !! c = Some r -> bufs s !! b = Some x -> work s c r b x = s.
Proof. intros Hr Hx. unfold work, put. cbn. rewrite !list_insert_id by done. by destruct s. Qed.

(** Taking the first request off the queue. *)
Lemma queued_next s c ns r rs b o x r' x' u sc l : queued s (c :: ns) (r :: rs) -> servable s r b o x -> moved r r' ->
  woken l (fs_sched s) sc -> queued (ended s c r' b x' u sc) ns rs.
Proof.
  intros [Hc Hch Hn Hb Hq Hw] Hr (_ & _ & Hm & _) Hsc. inversion Hch as [|? ? ? ? Hlk Hch']; subst.
  apply NoDup_cons in Hn as [Hni Hn]. cbn in Hb. apply NoDup_cons in Hb as [Hbi Hb]. apply Forall_cons in Hq as [_ Hq].
  assert (Eh : head ns = r_next r) by (by inversion Hch').
  constructor; cbn [ended].
  - cbn. destruct (blk_dev s !! 3%nat) as [bd|] eqn:E; [| done].
    rewrite list_lookup_alter_eq, E. cbn. by rewrite Hm, Eh.
  - cbn. rewrite Eh. eapply rchain_frame; [done |]. intros k Hk. rewrite list_lookup_insert_ne; [done |]. by intros ->.
  - done.
  - done.
  - apply Forall_forall. intros q Hin. pose proof (proj1 (Forall_forall _ _) Hq q Hin) as (b' & o' & x2 & [Qm B Bf X L W Qc N O Pt Dr]).
    assert (Hne : b <> b').
    { intros ->. apply Hbi. rewrite (sr_bh _ _ _ _ _ Hr), <- B. by apply list_elem_of_fmap_2. }
    exists b', o', x2. constructor; try done; [cbn; by rewrite list_lookup_insert_ne |]. destruct W. split; by eapply woken_waiter.
  - by intros [].
Qed.

(** ** The turns of [do_hd_request] *)

Section Turn.
Context (s : fs_state) (c b : nat) (r : request_t) (o : Z) (x : buffer_head) (ns : list nat) (rs : list request_t).
Hypothesis (Hq : queued s (c :: ns) (r :: rs)) (Hr : servable s r b o x).

Lemma turn_request : request s !! c = Some r.
Proof. destruct Hq as [_ Hch _ _ _ _]. by inversion Hch. Qed.
Lemma turn_service : in_service s c b.
Proof.
  constructor; [apply Hq | eapply lookup_lt_Some, turn_request | eapply lookup_lt_Some, Hr].
Qed.
Lemma turn_work : work s c r b x = s.
Proof. apply work_id; [apply turn_request | apply Hr]. Qed.
Lemma turn_CURRENT (d : D) h rc rst : CURRENT (mkd s d h rc rst) = Ok (c, r) (mkd s d h rc rst).
Proof. rewrite <- turn_work. apply CURRENT_ok, turn_service. Qed.

Lemma turn_init (d : D) h rc rst : zoom hm_fs (INIT_REQUEST 3 "harddisk") (mkd s d h rc rst) = Ok (Some c) (mkd s d h rc rst).
Proof.
  apply zoom_ok. unfold INIT_REQUEST. pose proof (current_of_ok s c b turn_service r x) as E. rewrite turn_work in E.
  rewrite (bind_Ok _ _ _ _ _ E), (bind_Ok _ _ _ _ _ (row_ok request c r s turn_request)).
  rewrite (sr_major _ _ _ _ _ Hr), Z.eqb_refl. cbn [negb]. rewrite (sr_bh _ _ _ _ _ Hr).
  rewrite (bind_Ok _ _ _ _ _ (field_ok bufs b_lock b x s (sr_x _ _ _ _ _ Hr))). unfold cbool.
  by rewrite (proj2 (Z.eqb_neq _ _) (sr_lock _ _ _ _ _ Hr)).
Qed.

Lemma turn_range (m : hd_machine D) :
  (if u32 (5 * nr) <=? MINOR (r_dev r) then ret true else
   let* p := need (parts !! Z.to_nat (MINOR (r_dev r))) in ret (u32 (nr_sects p) <? u32 (r_sector r + 2))) m
  = Ok (out_of_range r) m.
Proof.
  unfold out_of_range. destruct (Z.leb_spec (u32 (5 * nr)) (MINOR (r_dev r))) as [|Hlt]; [done |].
  destruct (sr_part _ _ _ _ _ Hr) as [? | [p Hp]]; [lia |]. rewrite Hp. unfold part_of in Hp. by rewrite Hp.
Qed.

Lemma turn_bad f (d : D) rc rst : out_of_range r = true ->
  hd_request_loop (S f) (mkd s d None rc rst) = (zoom hm_fs (end_request 3 0) ;;; hd_request_loop f) (mkd s d None rc rst).
Proof.
  intros Hbad. cbn [hd_request_loop]. rewrite (bind_Ok _ _ _ _ _ (turn_init d None rc rst)), (bind_Ok _ _ _ _ _ (turn_CURRENT d None rc rst)).
  unfold bind at 1 2, get. cbn [NR_HD hd mk]. unfold bind at 1. rewrite (turn_range (mkd s d None rc rst)), Hbad. done.
Qed.

(** Where the drive keeps the block. *)
Lemma turn_good f (d : D) rc rst i : out_of_range r = false -> infos !! Z.to_nat (drive_of r) = Some i -> drive_ok i (lba_of r) ->
  hd_request_loop (S f) (mkd s d None rc rst)
  = (let* again := hd_command (drive_of r) (lba_of r mod i_sect i + 1) (lba_of r / i_sect i mod i_head i) (lba_of r / i_sect i / i_head i) in
     if again then hd_request_loop f else ret tt) (mkd s d None rc rst).
Proof.
  intros Hgood Hi [Hse Hhe _ _]. cbn [hd_request_loop].
  rewrite (bind_Ok _ _ _ _ _ (turn_init d None rc rst)), (bind_Ok _ _ _ _ _ (turn_CURRENT d None rc rst)).
  unfold bind at 1 2, get. cbn [NR_HD hd mk]. unfold bind at 1. rewrite (turn_range (mkd s d None rc rst)), Hgood.
  destruct (sr_part _ _ _ _ _ Hr) as [Hp | [p Hp]].
  { exfalso. unfold out_of_range in Hgood. by rewrite (proj2 (Z.leb_le _ _) Hp) in Hgood. }
  unfold part_of in Hp. rewrite Hp. cbn [need]. unfold bind at 1, ret at 1.
  rewrite (bind_Ok _ _ _ _ _ (info_ok (drive_of r) i (mkd s d None rc rst) Hi)).
  unfold bind at 1, chs. rewrite (proj2 (Z.eqb_neq (i_sect i) 0)), (proj2 (Z.eqb_neq (i_head i) 0)) by lia. cbn [orb ret].
  unfold lba_of, part_of. rewrite Hp. done.
Qed.

Section Good.
Context (i : hd_i_struct) (disk : Z -> Z -> list Z) (d : D).
Hypothesis (Hgood : out_of_range r = false) (Hdr : 0 <= drive_of r <= 1) (Hi : infos !! Z.to_nat (drive_of r) = Some i)
  (Hok : drive_ok i (lba_of r)) (Hd : quiet disk d).

Lemma turn_task nsect : let t := task_of (drive_of r) nsect (lba_of r mod i_sect i + 1) (lba_of r / i_sect i mod i_head i) (lba_of r / i_sect i / i_head i) in
  t_drive t = drive_of r /\ t_lba (a_geom (view d)) t = lba_of r.
Proof.
  destruct Hok as [Hs Hh _ Hc]. apply chs_ok; [done | | done | done | apply u32_range | done].
  rewrite <- (Z2Nat.id (drive_of r)) by lia. by apply Hd.
Qed.

(** The command for a transfer. *)
Lemma turn_out cmd intr : cmd = WIN_READ \/ cmd = WIN_WRITE ->
  exists d', hd_out (drive_of r) (r_nr_sectors r) (lba_of r mod i_sect i + 1) (lba_of r / i_sect i mod i_head i) (lba_of r / i_sect i / i_head i)
      cmd intr (mkd s d None 0 0) = Ok tt (mkd s d' (Some intr) 0 0)
    /\ a_phase (view d') = (if cmd =? WIN_READ then Reading else Writing) (drive_of r) (lba_of r) (Z.to_nat (r_nr_sectors r))
    /\ a_irq (view d') = (cmd =? WIN_READ) /\ (a_busy (view d') <= max_busy)%nat
    /\ a_disk (view d') = disk /\ a_geom (view d') = a_geom (view d).
Proof.
  intros Hcmd. destruct Hok as [Hs Hh Hc _]. pose proof (sr_n _ _ _ _ _ Hr) as Hn. pose proof (turn_task (r_nr_sectors r)) as Ht. cbn zeta in Ht.
  pose proof (Z.mod_pos_bound (lba_of r / i_sect i) (i_head i)) as Hb.
  edestruct (hd_out_ok infos parts nr call (drive_of r) (r_nr_sectors r) (lba_of r mod i_sect i + 1) (lba_of r / i_sect i mod i_head i)
    (lba_of r / i_sect i / i_head i) cmd intr i s d None 0 0) as (d' & E & nb & Hnb & Hv);
    [lia | lia | done | by rewrite testbit_u8 | tauto | apply Hd | apply Hd |].
  assert (En : u8 (r_nr_sectors r) = r_nr_sectors r) by (apply u8_small; lia).
  exists d'. split; [exact E |]. rewrite Hv.
  destruct Ht as [Et El]. destruct Hcmd as [-> | ->]; cbn -[task_of t_drive t_lba]; rewrite Et, El; unfold task_of; cbn [t_nsect]; rewrite En;
    split_and!; first [done | apply Hd].
Qed.

Lemma turn_command dev sec hed cyl : hd_command dev sec hed cyl (mkd s d None 0 0)
  = (if r_cmd r =? WRITE then
       hd_out dev (r_nr_sectors r) sec hed cyl WIN_WRITE write_intr_p ;;;
       let* a := drq_loop (Z.to_nat 3000) in if negb a then bad_rw_intr ;;; ret true else port_write ;;; ret false
     else if r_cmd r =? READ then hd_out dev (r_nr_sectors r) sec hed cyl WIN_READ read_intr_p ;;; ret false
     else panic "unknown hd-command") (mkd s d None 0 0).
Proof.
  unfold hd_command. rewrite (bind_Ok _ _ _ _ _ (turn_CURRENT d None 0 0)).
  done.
Qed.

Lemma turn_read f : r_cmd r = READ ->
  exists d', hd_request_loop (S f) (mkd s d None 0 0) = Ok tt (mkd s d' (Some read_intr_p) 0 0)
    /\ a_phase (view d') = Reading (drive_of r) (lba_of r) (Z.to_nat (r_nr_sectors r)) /\ a_irq (view d') = true
    /\ a_disk (view d') = disk /\ a_geom (view d') = a_geom (view d).
Proof.
  intros Hcmd. destruct (turn_out WIN_READ read_intr_p) as (d' & E & Hp & Hirq & _ & Hdk & Hg); [by left |].
  exists d'. split_and!; [| done..]. rewrite (turn_good f d 0 0 i Hgood Hi Hok).
  unfold bind at 1. rewrite turn_command, Hcmd. cbn [READ WRITE Z.eqb]. by rewrite (bind_Ok _ _ _ _ _ E).
Qed.

(** The first sector of a write is handed over at once. *)
Lemma turn_write f n : r_cmd r = WRITE -> Z.to_nat (r_nr_sectors r) = S n ->
  exists d', hd_request_loop (S f) (mkd s d None 0 0) = Ok tt (mkd s d' (Some write_intr_p) 0 0)
    /\ a_phase (view d') = match n with O => Idle | _ => Writing (drive_of r) (lba_of r + 1) n end /\ a_irq (view d') = true
    /\ a_disk (view d') = updated (drive_of r) (updated (lba_of r) (take 512 (drop (Z.to_nat o) (b_data x))) (disk (drive_of r))) disk
    /\ a_geom (view d') = a_geom (view d).
Proof.
  intros Hcmd Hn. destruct (turn_out WIN_WRITE write_intr_p) as (d1 & E & Hp & Hirq & Hb & Hdk & Hg); [by right |]. rewrite Hn in Hp.
  destruct (drq_loop_ok infos parts nr call s d1 (Some write_intr_p) 0 0 Hb) as (d2 & E2 & Hd2); [by rewrite Hp |].
  pose proof (sr_o _ _ _ _ _ Hr) as Ho. pose proof (sr_n _ _ _ _ _ Hr) as Hnn.
  destruct (port_write_ok infos parts nr call s c b turn_service r x o (drive_of r) (lba_of r) n d2 (Some write_intr_p) 0 0)
    as (d3 & E3 & nb & Hnb & Hd3); [apply Hr | lia | lia | by rewrite Hd2 | by rewrite Hd2 |].
  rewrite turn_work in E3. exists d3. split_and!.
  - rewrite (turn_good f d 0 0 i Hgood Hi Hok).
    unfold bind at 1. rewrite turn_command, Hcmd. cbn [READ WRITE Z.eqb Pos.eqb]. rewrite (bind_Ok _ _ _ _ _ E), (bind_Ok _ _ _ _ _ E2). cbn [negb].
    by rewrite (bind_Ok _ _ _ _ _ E3).
  - by rewrite Hd3.
  - by rewrite Hd3.
  - rewrite Hd3, Hd2, <- Hdk. done.
  - by rewrite Hd3, Hd2, <- Hg.
Qed.

(** The whole service of a request that is in range. *)
Lemma turn_served f : (forall dr l, length (disk dr l) = 512%nat) ->
  exists r' x' disk' d', moved r r' /\ quiet disk' d' /\ serve (disk, bufs s) r = (disk', alter (fun _ => released 1 x') b (bufs s)) /\ b_wait x' = b_wait x /\
    forall k, (hd_request_loop (S f) ;;; interrupts (Z.to_nat (r_nr_sectors r) + k)) (mkd s d None 0 0)
      = ((zoom hm_fs (end_request 3 1) ;;; do_hd_request) ;;; interrupts k) (mkd (work s c r' b x') d' None 0 0).
Proof.
  intros Hlen. pose proof (sr_o _ _ _ _ _ Hr) as Ho. pose proof (sr_n _ _ _ _ _ Hr) as Hn. pose proof (sr_x _ _ _ _ _ Hr) as Hx.
  destruct (Z.to_nat (r_nr_sectors r)) as [|n] eqn:En; [lia |].
  unfold serve. rewrite (sr_buffer _ _ _ _ _ Hr), Hgood, Hx. cbn [from_option]. destruct (sr_cmd _ _ _ _ _ Hr) as [Hc|Hc]; rewrite Hc; cbn [READ WRITE Z.eqb Pos.eqb].
  - destruct (turn_read f Hc) as (d1 & E1 & Hp & Hirq & Hdk & Hg). rewrite En in Hp.
    destruct (reads_ok infos parts nr call s c b turn_service (drive_of r) 0 0 n r x o (lba_of r) d1) as (r' & d' & Hm & Hp' & Hb' & Hdk' & Hg' & E);
      [apply Hr | lia | lia | lia | lia | done | done | intros l; by rewrite Hdk |]. rewrite Hdk in *.
    eexists r', _, disk, d'. split_and!; [done | | | | intros k; rewrite turn_work in E; rewrite (bind_Ok _ _ _ _ _ E1); apply E].
    + constructor; [done | done | done |]. intros kk ii. rewrite Hg', Hg. apply Hd.
    + rewrite En, !(alter_insert _ _ _ _ Hx). done.
    + done.
  - destruct (turn_write f n Hc En) as (d1 & E1 & Hp & Hirq & Hdk & Hg).
    destruct (writes_ok infos parts nr call s c b turn_service (drive_of r) 0 0 n r x o (lba_of r + 1) d1) as (r' & d' & Hm & Hp' & Hb' & Hdk' & Hg' & E);
      [apply Hr | lia | lia | lia | lia | done | done |].
    eexists r', x, _, d'. split_and!; [done | | | | intros k; rewrite turn_work in E; rewrite (bind_Ok _ _ _ _ _ E1); apply E].
    + constructor; [done | done | exact Hdk' |]. intros kk ii. rewrite Hg', Hg. apply Hd.
    + rewrite En, !(alter_insert _ _ _ _ Hx), Hdk. cbn [write_sectors]. by rewrite drop_drop.
    + done.
Qed.

(** ** Resetting and recalibrating *)

Lemma recal_ok (d1 : D) rc rst : a_irq (view d1) = true -> quiet disk d1 -> exists d', quiet disk d' /\
  next_irq (mkd s d1 (Some recal_intr_p) rc rst) = do_hd_request (mkd s d' None rc rst).
Proof.
  intros Hirq [Hp _ Hdk Hg]. destruct (next_irq_ok infos parts nr call s d1 recal_intr_p rc rst Hirq) as (d2 & E2 & Hd2).
  destruct (win_result_ok infos parts nr call s d2 None rc rst) as (d3 & E3 & Hd3); [by rewrite Hd2 |].
  exists d3. split.
  - constructor; rewrite Hd3, Hd2; [done | cbn; lia | done | done].
  - rewrite E2. cbn [handler]. unfold recal_intr. unfold bind at 1. by rewrite (bind_Ok _ _ _ _ _ E3).
Qed.

Lemma turn_dev h rc rst (d1 : D) : CURRENT_DEV (mkd s d1 h rc rst) = Ok (drive_of r) (mkd s d1 h rc rst).
Proof. unfold CURRENT_DEV. by rewrite (bind_Ok _ _ _ _ _ (turn_CURRENT d1 h rc rst)). Qed.

Lemma turn_recal f rc : rc <> 0 -> exists d', quiet disk d' /\
  forall k, (hd_request_loop (S f) ;;; interrupts (S k)) (mkd s d None rc 0) = (do_hd_request ;;; interrupts k) (mkd s d' None 0 0).
Proof.
  intros Hrc. destruct Hok as [Hs Hh Hc _].
  destruct (hd_out_ok infos parts nr call (drive_of r) (i_sect i) 0 0 0 WIN_RESTORE recal_intr_p i s d None 0 0) as (d1 & E1 & nb & Hnb & Hd1);
    [lia | lia | done | by rewrite testbit_u8 | tauto | apply Hd | apply Hd |].
  destruct (recal_ok d1 0 0) as (d' & Hd' & E'); [by rewrite Hd1 | |].
  { constructor; rewrite Hd1; [apply Hd | done | apply Hd | apply Hd]. }
  exists d'. split; [done |]. intros k. unfold bind at 1. rewrite (turn_good f d rc 0 i Hgood Hi Hok). unfold bind at 1, hd_command.
  rewrite (bind_Ok _ _ _ _ _ (turn_CURRENT d None rc 0)). unfold bind at 1, get at 1. cbn [reset mk cbool Z.eqb negb].
  unfold bind at 1, get at 1. cbn [recalibrate mk]. unfold cbool. rewrite (proj2 (Z.eqb_neq rc 0) Hrc). cbn [negb].
  unfold bind at 1, modify at 1. change (put recalibrate 0 (mkd s d None rc 0)) with (mkd s d None 0 0). cbn beta iota.
  rewrite (bind_Ok _ _ _ _ _ (turn_dev None 0 0 d)), (bind_Ok _ _ _ _ _ (info_ok (drive_of r) i (mkd s d None 0 0) Hi)), (bind_Ok _ _ _ _ _ E1).
  cbn [ret interrupts]. unfold bind at 1. by rewrite E'.
Qed.

Lemma reset_controller_ok i0 rc rst : infos !! 0%nat = Some i0 -> Z.testbit (i_ctl i0) 2 = false ->
  exists d', quiet disk d' /\ reset_controller (mkd s d None rc rst) = Ok tt (mkd s d' None rc rst).
Proof.
  intros Hi0 Hc0. unfold reset_controller.
  set (d1 := d_out HD_CMD (u8 4) d). destruct (reset_view (u8 4) d eq_refl) as (nb & Hnb & Hd1). fold d1 in Hd1.
  set (d2 := d_out HD_CMD (u8 (Z.land (i_ctl i0) 0x0f)) d1).
  assert (Hd2 : view d2 = view d1) by (apply control_view; by rewrite testbit_u8, Z.land_spec, Hc0).
  destruct (busy_loop_ok infos parts nr call s d2 None rc rst) as (d3 & E3 & Hd3); [by rewrite Hd2, Hd1 |].
  destruct (status_at infos parts nr call s d3 None rc rst) as (v & d4 & E4 & _ & Hd4).
  exists (snd (d_in HD_ERROR d4)). split.
  - assert (E : view d4 = settled (view d1)) by (by rewrite Hd4, Hd3, Hd2).
    constructor; rewrite error_view, E, ?Hd1; [done | cbn; lia | apply Hd | apply Hd].
  - unfold bind at 1, port_out at 1, modify at 1. change (over hm_dev _ (mkd s d None rc rst)) with (mkd s d1 None rc rst). cbn beta iota.
    rewrite (bind_Ok _ _ _ _ _ (info_ok 0 i0 (mkd s d1 None rc rst) Hi0)).
    unfold bind at 1, port_out at 1, modify at 1. change (over hm_dev _ (mkd s d1 None rc rst)) with (mkd s d2 None rc rst). cbn beta iota.
    unfold drive_busy. unfold bind at 1. rewrite (bind_Ok _ _ _ _ _ E3), (bind_Ok _ _ _ _ _ E4). cbn [ret].
    unfold bind at 1, port_in at 1. cbn [hm_dev mk]. by destruct (d_in HD_ERROR d4).
Qed.
End Good.

Lemma turn_reset i i0 disk (d : D) f rc rst : out_of_range r = false -> 0 <= drive_of r <= 1 -> infos !! Z.to_nat (drive_of r) = Some i ->
  drive_ok i (lba_of r) -> quiet disk d -> infos !! 0%nat = Some i0 -> Z.testbit (i_ctl i0) 2 = false -> rst <> 0 ->
  exists d', quiet disk d' /\
  forall k, (hd_request_loop (S f) ;;; interrupts (S k)) (mkd s d None rc rst) = (do_hd_request ;;; interrupts k) (mkd s d' None 1 0).
Proof.
  intros Hgood Hdr Hi Hok Hd Hi0 Hc0 Hrst. destruct Hok as [Hs Hh Hc Hcy].
  destruct (reset_controller_ok disk d Hd i0 1 0 Hi0 Hc0) as (d1 & Hd1 & E1).
  assert (Eh : u32 (i_head i - 1) = i_head i - 1) by (apply u32_small; lia).
  destruct (hd_out_ok infos parts nr call (drive_of r) (i_sect i) (i_sect i) (i_head i - 1) (i_cyl i) WIN_SPECIFY recal_intr_p i s d1 None 1 0)
    as (d2 & E2 & nb & Hnb & Hd2); [lia | lia | done | by rewrite testbit_u8 | tauto | apply Hd1 | apply Hd1 |].
  destruct (recal_ok disk d2 1 0) as (d' & Hd' & E'); [by rewrite Hd2 | |].
  { destruct Hd1 as [Hp1 _ Hk1 Hg1]. destruct (sdh_ok (drive_of r) (i_head i - 1) Hdr ltac:(lia)) as [Et Eh'].
    constructor; rewrite Hd2; [done | done | done |]. intros k j Hk.
    cbn -[task_of t_drive t_head]. unfold updated. unfold t_drive, t_head, task_of. cbn [t_sdh t_nsect]. rewrite Et, Eh'.
    destruct (Z.eqb_spec (Z.of_nat k) (drive_of r)) as [Ek|]; [| by apply Hg1].
    assert (i = j) as -> by (rewrite <- Ek, Nat2Z.id in Hi; congruence). rewrite u8_small by lia. f_equal. lia. }
  exists d'. split; [done |]. intros k. unfold bind at 1. rewrite (turn_good f d rc rst i Hgood Hi); [| by constructor].
  unfold bind at 1, hd_command. rewrite (bind_Ok _ _ _ _ _ (turn_CURRENT d None rc rst)). unfold bind at 1, get at 1. cbn [reset mk].
  unfold cbool. rewrite (proj2 (Z.eqb_neq rst 0) Hrst). cbn [negb].
  unfold bind at 1, modify at 1. cbn beta iota. unfold bind at 1, modify at 1. cbn beta iota.
  change (put recalibrate 1 (put reset 0 (mkd s d None rc rst))) with (mkd s d None 1 0). unfold bind at 1.
  rewrite (bind_Ok _ _ _ _ _ (turn_dev None 1 0 d)). unfold reset_hd.
  rewrite (bind_Ok _ _ _ _ _ E1), (bind_Ok _ _ _ _ _ (info_ok (drive_of r) i (mkd s d1 None 1 0) Hi)), Eh, E2.
  cbn [ret interrupts]. unfold bind at 1. by rewrite E'.
Qed.
End Turn.

(** ** Serving the queue *)

(** The interrupts a queue takes: two more if the controller is to be reset first. *)
Definition warm_up (rc rst : Z) : nat := if cbool rst then 2 else if cbool rc then 1 else 0.
Fixpoint irqs (rc rst : Z) (rs : list request_t) : nat :=
  match rs with
  | [] => 0
  | r :: rs => if out_of_range r then irqs rc rst rs else (warm_up rc rst + (Z.to_nat (r_nr_sectors r) + irqs 0 0 rs))%nat
  end.

(** The tasks that wait for the requests, their buffers or a free request. *)
Definition waits (bs : list buffer_head) (rs : list request_t) : list Z :=
  flat_map (fun r => [from_option (fun b => from_option b_wait 0 (bs !! b)) 0 (r_bh r); r_waiting r]) rs.
Definition sleepers (s : fs_state) (rs : list request_t) : list Z :=
  match rs with
  | [] => []
  | _ => wait_for_request s :: waits (bufs s) rs
  end.
(** All requests [rs] have been served, and nothing else has changed. *)
Record served (s : fs_state) (disk : Z -> Z -> list Z) (ns : list nat) (rs : list request_t) (s' : fs_state) (disk' : Z -> Z -> list Z) : Prop := {
  sd_data : foldl serve (disk, bufs s) rs = (disk', bufs s');
  sd_free n : n ∈ ns -> r_dev <$> request s' !! n = Some (-1);
  sd_other n : n ∉ ns -> request s' !! n = request s !! n;
  sd_idle : blk_dev s' = alter (put current_request None) 3%nat (blk_dev s);
  sd_woken : woken (sleepers s rs) (fs_sched s) (fs_sched s');
  sd_rest : s' = put fs_sched (fs_sched s') (put bufs (bufs s') (put request (request s') (put blk_dev (blk_dev s')
    (put wait_for_request (wait_for_request s') s)))) }.

Lemma served_nil s disk : queued s [] [] -> served s disk [] [] s disk.
Proof.
  intros [Hc _ _ _ _ _]. constructor; [done | by intros n Hn%elem_of_nil | done | | apply woken_nil | by destruct s].
  cbn in Hc. destruct (blk_dev s !! 3%nat) as [bd|] eqn:E; [| done]. rewrite (alter_insert _ _ _ _ E). symmetry. apply list_insert_id.
  rewrite E. f_equal. injection Hc as Hc. destruct bd. cbn in *. by subst.
Qed.

Lemma waits_frame bs bs' b rs : Some b ∉ r_bh <$> rs -> (forall k, k <> b -> bs' !! k = bs !! k) -> waits bs' rs = waits bs rs.
Proof.
  intros Hb Hf. induction rs as [|r rs IH]; [done |]. rewrite fmap_cons, not_elem_of_cons in Hb. destruct Hb as [Hb Hbs].
  unfold waits. cbn [flat_map]. fold (waits bs' rs) (waits bs rs). rewrite IH by done. destruct (r_bh r) as [k|]; [| done]. cbn. rewrite Hf; [done |]. by intros ->.
Qed.

Lemma served_cons s disk c ns r rs b o x r' x' u sc disk1 s' disk' : queued s (c :: ns) (r :: rs) -> servable s r b o x -> moved r r' ->
  b_wait x' = b_wait x -> serve (disk, bufs s) r = (disk1, alter (fun _ => released u x') b (bufs s)) ->
  woken [b_wait x'; r_waiting r'; wait_for_request s] (fs_sched s) sc ->
  served (ended s c r' b x' u sc) disk1 ns rs s' disk' -> served s disk (c :: ns) (r :: rs) s' disk'.
Proof.
  intros Hq Hr Hm Hw Hs Hsc [Da Fr Ot Id Wo Re]. set (s1 := ended s c r' b x' u sc) in *.
  destruct (proj1 (NoDup_cons _ _) (qd_nodup _ _ _ Hq)) as [Hni _].
  assert (Hlt : (c < length (request s))%nat) by (eapply lookup_lt_Some, turn_request, Hq).
  assert (Eb : bufs s1 = alter (fun _ => released u x') b (bufs s)) by (by rewrite (alter_insert _ _ _ _ (sr_x _ _ _ _ _ Hr))).
  constructor.
  - cbn [foldl]. by rewrite Hs, <- Eb.
  - intros n [->|Hn]%elem_of_cons; [| by apply Fr]. rewrite Ot by done. cbn. by rewrite list_lookup_insert_eq.
  - intros n [Hne Hn]%not_elem_of_cons. rewrite Ot by done. cbn. by rewrite list_lookup_insert_ne.
  - destruct (blk_dev s !! 3%nat) as [bd|] eqn:Ebd; [| by pose proof (qd_cur _ _ _ Hq) as Hc; rewrite Ebd in Hc].
    rewrite Id. cbn [s1 ended]. change (blk_dev s1) with (alter (put current_request (r_next r')) 3%nat (blk_dev s)).
    by rewrite !(alter_insert _ _ _ _ Ebd), alter_insert_eq.
  - pose proof (woken_app _ _ _ _ _ Hsc Wo) as W. eapply woken_equiv, W. destruct Hm as (_ & _ & _ & Hm).
    intros p Hp. rewrite Hm, Hw. assert (E1 : p ∈ sleepers s1 rs <-> p ∈ waits (bufs s) rs).
    { destruct rs as [|r2 rs]; [done |]. unfold sleepers. rewrite elem_of_cons. erewrite waits_frame; cycle 1.
      - pose proof (qd_bufs _ _ _ Hq) as Hb. rewrite fmap_cons, NoDup_cons, (sr_bh _ _ _ _ _ Hr) in Hb. apply Hb.
      - intros k Hk. rewrite Eb. by apply list_lookup_alter_ne.
      - change (wait_for_request s1) with 0. tauto. }
    assert (E2 : sleepers s (r :: rs) = wait_for_request s :: b_wait x :: r_waiting r :: waits (bufs s) rs).
    { unfold sleepers, waits at 1. cbn [flat_map app]. rewrite (sr_bh _ _ _ _ _ Hr). cbn [from_option]. by rewrite (sr_x _ _ _ _ _ Hr). }
    rewrite E2, elem_of_app, !elem_of_cons, E1, elem_of_nil. tauto.
  - rewrite Re. by destruct s.
Qed.

(** Sectors stay 512 bytes long. *)
Definition sectored (disk : Z -> Z -> list Z) : Prop := forall drive l, length (disk drive l) = 512%nat.
Lemma write_sectored n data drive lba disk : (512 * n <= length data)%nat -> sectored disk -> sectored (write_sectors data drive lba n disk).
Proof.
  revert data lba disk. induction n as [|n IH]; intros data lba disk Hl Hd; cbn [write_sectors]; [done |].
  apply IH; [rewrite length_drop; lia |]. intros dr l. unfold updated. destruct (dr =? drive); [| done].
  destruct (l =? lba); [rewrite length_take; lia | done].
Qed.
Lemma serve_sectored s r b o x disk : servable s r b o x -> sectored disk -> sectored (fst (serve (disk, bufs s) r)).
Proof.
  intros [? ? Hb Hx ? ? ? Hn Ho ? ?] Hd. unfold serve. rewrite Hb. destruct (out_of_range r); [done |]. destruct (_ =? _); [| done]. cbn [fst].
  rewrite Hx. apply write_sectored; [| done]. cbn. rewrite length_drop. lia.
Qed.

(** A request in range, whether or not the controller is to be reset first. *)
Lemma turn_full i0 s c ns r rs b o x disk (d : D) f rc rst : infos !! 0%nat = Some i0 -> Z.testbit (i_ctl i0) 2 = false ->
  queued s (c :: ns) (r :: rs) -> servable s r b o x -> out_of_range r = false -> quiet disk d -> sectored disk ->
  exists r' x' disk' d', moved r r' /\ quiet disk' d' /\ serve (disk, bufs s) r = (disk', alter (fun _ => released 1 x') b (bufs s)) /\ b_wait x' = b_wait x /\
    forall k, (hd_request_loop (S f) ;;; interrupts (warm_up rc rst + (Z.to_nat (r_nr_sectors r) + k))) (mkd s d None rc rst)
      = ((zoom hm_fs (end_request 3 1) ;;; do_hd_request) ;;; interrupts k) (mkd (work s c r' b x') d' None 0 0).
Proof.
  intros Hi0 Hc0 Hq Hr Hgood Hd Hsec. destruct (sr_drive _ _ _ _ _ Hr Hgood) as (Hdr & i & Hi & Hok).
  assert (Hrec : forall g (d1 : D) rc1, quiet disk d1 -> exists d2, quiet disk d2 /\ exists g', forall k,
      (hd_request_loop (S g) ;;; interrupts (warm_up rc1 0 + k)) (mkd s d1 None rc1 0) = (hd_request_loop (S g') ;;; interrupts k) (mkd s d2 None 0 0)).
  { intros g d1 rc1 Hd1. unfold warm_up, cbool. cbn [Z.eqb negb]. destruct (Z.eqb_spec rc1 0) as [->|Hrc]; cbn [negb].
    - exists d1. split; [done |]. by exists g.
    - destruct (turn_recal s c b r o x ns rs Hq Hr i disk d1 Hgood Hdr Hi Hok Hd1 g rc1 Hrc) as (d2 & Hd2 & E). exists d2. split; [done |]. by exists (NR_REQUEST * 8)%nat. }
  assert (Hall : exists d2, quiet disk d2 /\ exists g', forall k,
      (hd_request_loop (S f) ;;; interrupts (warm_up rc rst + k)) (mkd s d None rc rst) = (hd_request_loop (S g') ;;; interrupts k) (mkd s d2 None 0 0)).
  { destruct (Z.eqb_spec rst 0) as [->|Hrst]; [by apply Hrec |].
    destruct (turn_reset s c b r o x ns rs Hq Hr i i0 disk d f rc rst Hgood Hdr Hi Hok Hd Hi0 Hc0 Hrst) as (d1 & Hd1 & E1).
    destruct (Hrec (NR_REQUEST * 8)%nat d1 1 Hd1) as (d2 & Hd2 & g' & E2). exists d2. split; [done |]. exists g'. intros k.
    unfold warm_up, cbool. rewrite (proj2 (Z.eqb_neq rst 0) Hrst). cbn [negb Nat.add]. rewrite E1. exact (E2 k). }
  destruct Hall as (d2 & Hd2 & g' & E2).
  destruct (turn_served s c b r o x ns rs Hq Hr i disk d2 Hgood Hdr Hi Hok Hd2 g' Hsec) as (r' & x' & disk' & d' & Hm & Hqt & Hs & Hw & E).
  exists r', x', disk', d'. split_and!; [done.. |]. intros k. by rewrite E2, E.
Qed.

Lemma end_turn s c ns r rs b o x r' x' u : queued s (c :: ns) (r :: rs) -> servable s r b o x -> moved r r' -> b_wait x' = b_wait x -> 0 <= u < 2 ^ 8 ->
  exists sc, woken [b_wait x'; r_waiting r'; wait_for_request s] (fs_sched s) sc
    /\ end_request 3 u (work s c r' b x') = Ok tt (ended s c r' b x' u sc).
Proof.
  intros Hq Hr (_ & Hb & _ & Hw) Hx Hu. destruct (sr_wait _ _ _ _ _ Hr) as [W1 W2].
  apply end_request_ok; [by eapply turn_service | by rewrite Hb, (sr_bh _ _ _ _ _ Hr) | done |].
  rewrite Hx, Hw. repeat constructor; [done | done | apply Hq].
Qed.

Lemma turn_none s (d : D) rc rst f : queued s [] [] -> hd_request_loop (S f) (mkd s d None rc rst) = Ok tt (mkd s d None rc rst).
Proof.
  intros [Hc _ _ _ _ _]. cbn in Hc. cbn [hd_request_loop]. assert (E : INIT_REQUEST 3 "harddisk" s = Ok None s).
  { destruct (blk_dev s !! 3%nat) as [bd|] eqn:Ebd; [| done]. injection Hc as Hc.
    unfold INIT_REQUEST, current_of. by rewrite (bind_Ok _ _ _ _ _ (field_ok _ _ _ bd _ Ebd)), Hc. }
  by rewrite (bind_Ok _ _ _ _ _ (zoom_ok _ _ _ _ _ _ _ _ _ _ _ _ E)).
Qed.

Lemma queue_served i0 rs : infos !! 0%nat = Some i0 -> Z.testbit (i_ctl i0) 2 = false ->
  forall ns s disk (d : D) rc rst f, queued s ns rs -> quiet disk d -> sectored disk -> (length ns <= NR_REQUEST)%nat -> (length ns < f)%nat ->
  exists s' disk' d' rc' rst', (hd_request_loop f ;;; interrupts (irqs rc rst rs)) (mkd s d None rc rst) = Ok tt (mkd s' d' None rc' rst')
    /\ quiet disk' d' /\ served s disk ns rs s' disk'.
Proof.
  intros Hi0 Hc0. induction rs as [|r rs IH]; intros ns s disk d rc rst f Hq Hd Hsec Hl Hf; destruct f as [|f]; try lia.
  - assert (ns = []) as -> by (destruct Hq as [_ Hch _ _ _ _]; by inversion Hch).
    exists s, disk, d, rc, rst. split_and!; [| done | by apply served_nil]. by rewrite (bind_Ok _ _ _ _ _ (turn_none s d rc rst f Hq)).
  - destruct ns as [|c ns]; [destruct Hq as [_ Hch _ _ _ _]; by inversion Hch |]. cbn [length] in Hl, Hf.
    pose proof (qd_reqs _ _ _ Hq) as [(b & o & x & Hr) _]%Forall_cons. cbn [irqs].
    destruct (out_of_range r) eqn:Hbad.
    + destruct (end_turn s c ns r rs b o x r x 0 Hq Hr ltac:(done) eq_refl ltac:(lia)) as (sc & Hsc & E).
      rewrite (turn_work s c b r o x ns rs Hq Hr) in E.
      destruct (IH ns (ended s c r b x 0 sc) disk d rc rst f) as (s' & disk' & d' & rc' & rst' & Erun & Hd' & Hs');
        [by eapply queued_next | done | done | lia | lia |].
      exists s', disk', d', rc', rst'. split_and!; [| done |].
      * unfold bind at 1. rewrite (turn_bad s c b r o x ns rs Hq Hr f d rc rst Hbad), (bind_Ok _ _ _ _ _ (zoom_ok _ _ _ _ _ _ _ _ _ _ _ _ E)).
        exact Erun.
      * eapply served_cons; try done. unfold serve. by rewrite (sr_buffer _ _ _ _ _ Hr), Hbad, !(alter_insert _ _ _ _ (sr_x _ _ _ _ _ Hr)).
    + destruct (turn_full i0 s c ns r rs b o x disk d f rc rst Hi0 Hc0 Hq Hr Hbad Hd Hsec) as (r' & x' & disk1 & d1 & Hm & Hd1 & Hs1 & Hw & E1).
      destruct (end_turn s c ns r rs b o x r' x' 1 Hq Hr Hm Hw ltac:(lia)) as (sc & Hsc & E).
      pose proof (serve_sectored s r b o x disk Hr Hsec) as Hsec1. rewrite Hs1 in Hsec1.
      destruct (IH ns (ended s c r' b x' 1 sc) disk1 d1 0 0 (S (NR_REQUEST * 8))) as (s' & disk' & d' & rc' & rst' & Erun & Hd' & Hs');
        [by eapply queued_next | done | done | lia | lia |].
      exists s', disk', d', rc', rst'. split_and!; [| done | by eapply served_cons].
      rewrite E1. unfold bind at 1. rewrite (bind_Ok _ _ _ _ _ (zoom_ok _ _ _ _ _ _ _ _ _ _ _ _ E)). exact Erun.
Qed.
End Queue.

(** ** Partitions *)

Lemma write_sectors_lookup n data drive lba disk dr l :
  write_sectors data drive lba n disk dr l =
  if (dr =? drive) && (lba <=? l) && (l <? lba + Z.of_nat n) then take 512 (drop (512 * Z.to_nat (l - lba)) data) else disk dr l.
Proof.
  revert data lba disk. induction n as [|n IH]; intros data lba disk; cbn [write_sectors].
  { destruct (dr =? drive); [| done]. destruct (Z.leb_spec lba l); [| done]. by destruct (Z.ltb_spec l (lba + Z.of_nat 0)); [lia |]. }
  rewrite IH. unfold updated. destruct (Z.eqb_spec dr drive) as [->|]; cbn [andb]; [| done].
  destruct (Z.eqb_spec l lba) as [->|Hne].
  - rewrite (proj2 (Z.leb_gt (lba + 1) lba)), (proj2 (Z.leb_le lba lba)), (proj2 (Z.ltb_lt lba (lba + Z.of_nat (S n)))) by lia. cbn [andb].
    by rewrite Z.sub_diag.
  - replace (lba + 1 <=? l) with (lba <=? l) by blia. replace (lba + 1 + Z.of_nat n) with (lba + Z.of_nat (S n)) by lia.
    destruct (Z.leb_spec lba l); cbn [andb]; [| done]. destruct (_ <? _); [| done].
    rewrite drop_drop. do 2 f_equal. lia.
Qed.

(** A request for two sectors of a partition that lies within the drive. *)
Definition within (parts : list hd_struct) (r : request_t) : Prop :=
  r_nr_sectors r = 2 /\ 0 <= r_sector r < 2 ^ 32 - 2 /\
  forall p, part_of parts r = Some p -> 0 <= start_sect p /\ 0 <= nr_sects p /\ start_sect p + nr_sects p < 2 ^ 32.
Definition writes_to (parts : list hd_struct) (r : request_t) (drive l : Z) : Prop :=
  r_cmd r = WRITE /\ drive_of r = drive /\ exists p, part_of parts r = Some p /\ start_sect p <= l < start_sect p + nr_sects p.

Lemma serve_within parts nr r disk bs drive l : within parts r ->
  fst (serve parts nr (disk, bs) r) drive l <> disk drive l -> writes_to parts r drive l.
Proof.
  intros (Hn & Hs & Hp). unfold serve. destruct (r_buffer r) as [[b o]|]; [| done]. destruct (out_of_range parts nr r) eqn:Hb; [done |].
  destruct (Z.eqb_spec (r_cmd r) WRITE) as [Hw|]; [| done]. cbn [fst]. rewrite write_sectors_lookup.
  destruct (Z.eqb_spec drive (drive_of r)) as [->|]; [| done]. unfold out_of_range in Hb. apply orb_false_iff in Hb as [_ Hb].
  unfold lba_of. destruct (part_of parts r) as [p|] eqn:Ep; [| done]. cbn [from_option] in *. destruct (Hp p eq_refl) as (H0 & H1 & H2).
  apply Z.ltb_ge in Hb. rewrite !u32_small in Hb by lia. rewrite u32_small, Hn by lia. cbn [andb]. change (Z.of_nat (Z.to_nat 2)) with 2.
  destruct (Z.leb_spec (r_sector r + start_sect p) l); [| done]. destruct (Z.ltb_spec l (r_sector r + start_sect p + 2)); [| done].
  intros _. split_and!; [done | done |]. exists p. split; [done | lia].
Qed.
Lemma serve_all_within parts nr rs disk bs disk' bs' drive l : Forall (within parts) rs ->
  foldl (serve parts nr) (disk, bs) rs = (disk', bs') -> disk' drive l <> disk drive l -> exists r, r ∈ rs /\ writes_to parts r drive l.
Proof.
  intros Hw. revert disk bs. induction Hw as [|r rs Hr Hw IH]; intros disk bs E Hne; [by injection E as <- <- |].
  cbn [foldl] in E. destruct (serve parts nr (disk, bs) r) as [disk1 bs1] eqn:E1.
  destruct (decide (disk1 drive l = disk drive l)) as [Eq|Hd].
  - rewrite <- Eq in Hne. destruct (IH _ _ E Hne) as (r1 & Hin & Hr1). exists r1. split; [by apply elem_of_cons; right | done].
  - exists r. split; [by apply elem_of_cons; left |]. apply (serve_within parts nr r disk bs); [done |]. by rewrite E1.
Qed.

(** C10: the hard disk driver serves its queue.  With any controller that keeps the laws of
    HdDrive.v (ready within 2999 looks at its status, an interrupt per sector), the call of
    [do_hd_request] followed by one interrupt per sector (and two more if the controller is
    to be reset, one if the heads are to be recalibrated) ends with an empty queue.  The
    requests have been served in their order as [serve] says: the sectors a write asks for
    hold the bytes of its buffer and no others have changed, the buffer of a read holds its
    sectors, from [start_sect] of the partition on; a request for a drive that is not there
    or behind the end of its partition transfers nothing, and its buffer is not up to date.
    Every buffer is unlocked, every request free, whoever waited is runnable, and nothing
    else of the file system has changed. *)
Theorem hd_queue_served {D : Type} `{Drive D} infos parts nr call i0 ns rs s disk (d : D) rc rst :
  infos !! 0%nat = Some i0 -> Z.testbit (i_ctl i0) 2 = false -> queued infos parts nr s ns rs -> quiet infos disk d -> sectored disk ->
  (length ns <= NR_REQUEST)%nat ->
  exists s' disk' d' rc' rst',
    (do_hd_request ;;; interrupts (irqs parts nr rc rst rs)) (mk infos parts nr call s d None rc rst)
      = Ok tt (mk infos parts nr call s' d' None rc' rst')
    /\ quiet infos disk' d' /\ served parts nr s disk ns rs s' disk'.
Proof. intros Hi Hc Hq Hd Hs Hl. eapply queue_served; try done. lia. Qed.

(** C32: partitions are kept apart.  While the driver serves a queue of requests for two
    sectors each, as [make_request] makes them, no sector of the disks changes that is not in
    the partition of a write among them. *)
Theorem hd_partitions_apart {D : Type} `{Drive D} infos parts nr call i0 ns rs s disk (d : D) rc rst :
  infos !! 0%nat = Some i0 -> Z.testbit (i_ctl i0) 2 = false -> queued infos parts nr s ns rs -> quiet infos disk d -> sectored disk ->
  (length ns <= NR_REQUEST)%nat -> Forall (within parts) rs ->
  exists m', (do_hd_request ;;; interrupts (irqs parts nr rc rst rs)) (mk infos parts nr call s d None rc rst) = Ok tt m'
    /\ forall drive l, a_disk (view (hm_dev m')) drive l <> disk drive l -> exists r, r ∈ rs /\ writes_to parts r drive l.
Proof.
  intros Hi Hc Hq Hd Hs Hl Hw.
  destruct (queue_served infos parts nr call i0 rs Hi Hc ns s disk d rc rst (S (NR_REQUEST * 8))) as (s' & disk' & d' & rc' & rst' & E & Hd' & Hsv);
    [done.. | lia |].
  eexists. split; [exact E |]. cbn [hm_dev mk]. intros drive l. rewrite (qt_disk _ _ _ Hd').
  eapply serve_all_within; [done | apply Hsv].
Qed.

(** A drive with two partitions; a write, a read and a read behind the end of the first
    partition are in the queue. *)
Definition demo_info : hd_i_struct := mk_hd_i 4 17 1024 0xffff 1024 8.
Definition demo_parts : list hd_struct := [mk_hd 0 69632; mk_hd 1 1000; mk_hd 1001 68631] ++ replicate 7 (mk_hd 0 0).
Definition demo_buf (v : Z) : buffer_head := mk_bh (replicate 1024 v) 0 0x301 0 0 1 1 0 None None None None.
Definition demo_write : request_t := mk_request 0x302 WRITE 0 10 2 (Some (0%nat, 0)) 0 (Some 0%nat) (Some 2%nat).
Definition demo_behind : request_t := mk_request 0x301 READ 0 1000 2 (Some (1%nat, 0)) 0 (Some 1%nat) (Some 0%nat).
Definition demo_read : request_t := mk_request 0x301 READ 0 998 2 (Some (2%nat, 0)) 0 (Some 2%nat) None.
Definition demo_queue : fs_state :=
  put bufs [demo_buf 5; demo_buf 0; demo_buf 0]
    (put request [demo_read; demo_write; demo_behind] (put blk_dev (<[3%nat := mk_blk true (Some 1%nat)]> (replicate 7 (mk_blk false None))) empty_fs)).
Definition demo_disk (drive l : Z) : list Z := replicate 512 (l mod 256).
Definition demo_drive : Sim.sim :=
  mk_ata Idle false 0 (mk_task 0 0 0 0 0) (fun _ => (17, 4)) demo_disk.

Lemma demo_servable r : r ∈ [demo_write; demo_behind; demo_read] ->
  exists b o x, servable [demo_info; demo_info] demo_parts 1 demo_queue r b o x.
Proof.
  rewrite !elem_of_cons, elem_of_nil. intros [-> | [-> | [-> | []]]].
  all: eexists _, 0, _; constructor; cbn -[demo_buf]; try reflexivity; try done; try lia;
    try (split; by intros []); try (by left); try (by right); try (by (right; eexists)).
  all: intros _; split; [done |]; eexists; split; [reflexivity |]; constructor; cbn; try done; lia.
Qed.
Lemma demo_queued : queued [demo_info; demo_info] demo_parts 1 demo_queue [1; 2; 0]%nat [demo_write; demo_behind; demo_read].
Proof.
  constructor; [done | | apply NoDup_ListNoDup; repeat constructor; cbn; lia | | | by intros []].
  - repeat (econstructor; [reflexivity |]). constructor.
  - cbn. repeat (apply NoDup_cons; split; [rewrite ?not_elem_of_cons; repeat split; try done; apply not_elem_of_nil |]). constructor.
  - apply Forall_forall. apply demo_servable.
Qed.

Lemma demo_quiet : quiet [demo_info; demo_info] demo_disk demo_drive.
Proof. constructor; [done | cbn; lia | done |]. intros [|[|k]] i; cbn; [by intros [= <-].. | done]. Qed.

Lemma hd_queue_served_witness :
  let infos := [demo_info; demo_info] in let rs := [demo_write; demo_behind; demo_read] in
  irqs demo_parts 1 1 1 rs = 6%nat /\
  exists s' disk' d' rc' rst',
    (do_hd_request ;;; interrupts (irqs demo_parts 1 1 1 rs)) (mk infos demo_parts 1 0 demo_queue demo_drive None 1 1)
      = Ok tt (mk infos demo_parts 1 0 s' d' None rc' rst')
    /\ quiet infos disk' d' /\ served demo_parts 1 demo_queue demo_disk [1; 2; 0]%nat rs s' disk'.
Proof.
  split; [reflexivity |].
  exact (hd_queue_served [demo_info; demo_info] demo_parts 1 0 demo_info [1; 2; 0]%nat [demo_write; demo_behind; demo_read] demo_queue
    demo_disk demo_drive 1 1 eq_refl eq_refl demo_queued demo_quiet (fun _ _ => length_replicate _ _) ltac:(unfold NR_REQUEST; cbn; lia)).
Defined.

Lemma hd_partitions_apart_witness :
  let infos := [demo_info; demo_info] in let rs := [demo_write; demo_behind; demo_read] in
  exists m', (do_hd_request ;;; interrupts (irqs demo_parts 1 1 1 rs)) (mk infos demo_parts 1 0 demo_queue demo_drive None 1 1) = Ok tt m'
    /\ forall drive l, a_disk (view (hm_dev m')) drive l <> demo_disk drive l -> exists r, r ∈ rs /\ writes_to demo_parts r drive l.
Proof.
  refine (hd_partitions_apart [demo_info; demo_info] demo_parts 1 0 demo_info [1; 2; 0]%nat [demo_write; demo_behind; demo_read] demo_queue
    demo_disk demo_drive 1 1 eq_refl eq_refl demo_queued demo_quiet (fun _ _ => length_replicate _ _) ltac:(unfold NR_REQUEST; cbn; lia) _).
  repeat constructor; cbn; try lia; match goal with H : _ = Some _ |- _ => injection H as <-; cbn; lia end.
Defined.
