(* ===== verification/Pthread.v ===== *)
(** Threads that share a structure protected by one mutex and wait on condition
    variables, as the routines of unpv22e do.  What a thread does from one point where
    it waits for the mutex to the next is one step: nobody else runs the code the mutex
    protects meanwhile.  [pthread_cond_wait] ends such a step and puts the thread to
    sleep; a signal makes one thread that sleeps on the variable compete for the mutex
    again, a broadcast all of them, and a thread may wake up without a signal. *)
From stdpp Require Import base list relations.
From Stdlib Require Import ZArith Lia.
From S2P Require Import Prelude.
Open Scope Z_scope.

(** Error numbers of the C library. *)
Definition E_INTR : Z := 4.
Definition E_BADF : Z := 9.
Definition E_AGAIN : Z := 11.
Definition E_BUSY : Z := 16.
Definition E_INVAL : Z := 22.
Definition E_MSGSIZE : Z := 90.

Inductive wakeup := Signal (c : nat) | Broadcast (c : nat).

(** How a step of a thread that is at [L] ends: the call returns and leaves its caller
    with [T], the thread goes on to wait for the mutex, or it waits on a condition
    variable, with the point it continues from. *)
Inductive next (L T : Type) := Done (t : T) | Go (l : L) | CondWait (c : nat) (l : L).
Arguments Done {L T} t.
Arguments Go {L T} l.
Arguments CondWait {L T} c l.

(** A thread outside of the routines, competing for the mutex, or asleep. *)
Inductive thread (L T : Type) := Out (t : T) | Want (l : L) | Asleep (c : nat) (l : L).
Arguments Out {L T} t.
Arguments Want {L T} l.
Arguments Asleep {L T} c l.

Section Monitor.
Context {S L T : Type}.

(** The code: from a point, on the shared structure; [None] when the program aborts. *)
Variable code : L -> S -> option (S * list wakeup * next L T).
(** The calls a thread may make when it is outside. *)
Variable calls : T -> L -> Prop.

Definition after (n : next L T) : thread L T :=
  match n with Done t => Out t | Go l => Want l | CondWait c l => Asleep c l end.

Definition wake (t : thread L T) : thread L T := match t with Asleep _ l => Want l | t => t end.
Definition sleeps_on (c : nat) (t : thread L T) : Prop := match t with Asleep d _ => d = c | _ => False end.
#[export] Instance sleeps_on_dec c t : Decision (sleeps_on c t).
Proof. unfold sleeps_on. destruct t; apply _. Defined.

Inductive wakes : wakeup -> list (thread L T) -> list (thread L T) -> Prop :=
| wakes_one c i t ts : ts !! i = Some t -> sleeps_on c t -> wakes (Signal c) ts (<[i := wake t]> ts)
| wakes_none c ts : Forall (fun t => ~ sleeps_on c t) ts -> wakes (Signal c) ts ts
| wakes_all c ts : wakes (Broadcast c) ts ((fun t => if decide (sleeps_on c t) then wake t else t) <$> ts).

Inductive wake_all : list wakeup -> list (thread L T) -> list (thread L T) -> Prop :=
| wake_all_nil ts : wake_all [] ts ts
| wake_all_cons w ws ts ts' ts'' : wakes w ts ts' -> wake_all ws ts' ts'' -> wake_all (w :: ws) ts ts''.

Inductive step : S * list (thread L T) -> S * list (thread L T) -> Prop :=
| step_call s ts i t l : ts !! i = Some (Out t) -> calls t l -> step (s, ts) (s, <[i := Want l]> ts)
| step_run s ts i l s' ws n ts' : ts !! i = Some (Want l) -> code l s = Some (s', ws, n) ->
    wake_all ws (<[i := after n]> ts) ts' -> step (s, ts) (s', ts')
| step_spurious s ts i c l : ts !! i = Some (Asleep c l) -> step (s, ts) (s, <[i := Want l]> ts).

Definition reaches : S * list (thread L T) -> S * list (thread L T) -> Prop := rtc step.

(** Invariants by induction on the steps; the waking of threads is a step of its own. *)
Lemma reaches_inv (I : S * list (thread L T) -> Prop) :
  (forall a b, I a -> step a b -> I b) -> forall a b, I a -> reaches a b -> I b.
Proof. intros HI a b Ha Hr. induction Hr as [|a b c Hab _ IH]; [done |]. by apply IH, (HI a). Qed.

(** A run by a schedule: which thread does what, and which threads the signals wake. *)
Inductive choice := Call (i : nat) (l : L) | Run (i : nat) (woken : list nat) | Spurious (i : nat).

Fixpoint do_wakes (ws : list wakeup) (who : list nat) (ts : list (thread L T)) : option (list (thread L T)) :=
  match ws with
  | [] => Some ts
  | Signal c :: ws =>
    match who with
    | i :: who => t ← ts !! i; if decide (sleeps_on c t) then do_wakes ws who (<[i := wake t]> ts) else None
    | [] => if decide (Forall (fun t => ~ sleeps_on c t) ts) then do_wakes ws [] ts else None
    end
  | Broadcast c :: ws => do_wakes ws who ((fun t => if decide (sleeps_on c t) then wake t else t) <$> ts)
  end.

Context `{!forall t l, Decision (calls t l)}.

Definition choose (c : choice) (a : S * list (thread L T)) : option (S * list (thread L T)) :=
  let '(s, ts) := a in
  match c with
  | Call i l => match ts !! i with
                | Some (Out t) => if decide (calls t l) then Some (s, <[i := Want l]> ts) else None
                | _ => None
                end
  | Run i who => match ts !! i with
                 | Some (Want l) => '(s', ws, n) ← code l s; ts' ← do_wakes ws who (<[i := after n]> ts); Some (s', ts')
                 | _ => None
                 end
  | Spurious i => match ts !! i with Some (Asleep c l) => Some (s, <[i := Want l]> ts) | _ => None end
  end.
Definition schedule_of (cs : list choice) (a : S * list (thread L T)) : option (S * list (thread L T)) :=
  foldl (fun o c => a ← o; choose c a) (Some a) cs.

Lemma do_wakes_ok ws who ts ts' : do_wakes ws who ts = Some ts' -> wake_all ws ts ts'.
Proof.
  revert who ts. induction ws as [|[c|c] ws IH]; intros who ts; cbn [do_wakes].
  - intros [= <-]. constructor.
  - destruct who as [|i who].
    + case_decide; [| done]. intros E. eapply wake_all_cons; [by constructor | by eapply IH].
    + destruct (ts !! i) as [t|] eqn:Et; [| done]. cbn. case_decide; [| done]. intros E.
      eapply wake_all_cons; [by eapply wakes_one | by eapply IH].
  - intros E. eapply wake_all_cons; [constructor | by eapply IH].
Qed.

Lemma choose_ok c a b : choose c a = Some b -> step a b.
Proof.
  destruct a as [s ts], c as [i l|i who|i]; cbn; destruct (ts !! i) as [[t|m|d m]|] eqn:Et; try done.
  - case_decide; [| done]. intros [= <-]. by eapply step_call.
  - destruct (code m s) as [[[s' ws] n]|] eqn:Ec; [| done]. cbn. destruct (do_wakes ws who _) as [ts'|] eqn:Ew; [| done].
    cbn. intros [= <-]. eapply step_run; [done | done | by eapply do_wakes_ok].
  - intros [= <-]. by eapply step_spurious.
Qed.

(** A schedule that runs through is a run. *)
Lemma schedule_runs cs a b : schedule_of cs a = Some b -> reaches a b.
Proof.
  revert a. induction cs as [|c cs IH]; intros a; unfold schedule_of in *; cbn.
  - intros [= <-]. constructor.
  - destruct (choose c a) as [a'|] eqn:Ec.
    + intros E. eapply rtc_l; [by eapply choose_ok | by apply IH].
    + intros E. exfalso. revert E. clear. by induction cs.
Qed.
End Monitor.

(** ** Counting threads *)

Section Count.
Context {L T : Type}.
Implicit Types ts : list (thread L T).

Fixpoint count (f : thread L T -> Z) ts : Z :=
  match ts with [] => 0 | t :: ts => f t + count f ts end.

Lemma count_insert f ts i t t' : ts !! i = Some t -> count f (<[i := t']> ts) = count f ts - f t + f t'.
Proof.
  revert i. induction ts as [|a ts IH]; intros [|i] Hi; try done.
  - injection Hi as ->. cbn. lia.
  - change (<[S i := t']> (a :: ts)) with (a :: <[i := t']> ts). cbn [count]. rewrite (IH i Hi). lia.
Qed.

Lemma count_pos f ts : (forall t, 0 <= f t) -> 0 <= count f ts.
Proof. intros Hf. induction ts as [|a ts IH]; cbn; [done |]. specialize (Hf a). lia. Qed.

Lemma count_ge f ts i t : (forall t, 0 <= f t) -> ts !! i = Some t -> f t <= count f ts.
Proof.
  intros Hf. revert i. induction ts as [|a ts IH]; intros [|i]; cbn; try done.
  - intros [= ->]. pose proof (count_pos f ts Hf). lia.
  - intros Hi. specialize (IH i Hi). specialize (Hf a). lia.
Qed.

Lemma count_two f ts i j t u :
  (forall t, 0 <= f t) -> i <> j -> ts !! i = Some t -> ts !! j = Some u -> f t + f u <= count f ts.
Proof.
  intros Hf Hij. revert i j Hij. induction ts as [|a ts IH]; intros [|i] [|j] Hij Hi Hj; try done.
  - injection Hi as ->. pose proof (count_ge f ts j u Hf Hj). cbn. lia.
  - injection Hj as ->. pose proof (count_ge f ts i t Hf Hi). cbn. lia.
  - pose proof (IH i j ltac:(congruence) Hi Hj). specialize (Hf a). cbn. lia.
Qed.

Lemma count_zero f ts : Forall (fun t => f t = 0) ts -> count f ts = 0.
Proof. induction 1; cbn; lia. Qed.

Lemma count_exists f ts : 0 < count f ts -> exists i t, ts !! i = Some t /\ 0 < f t.
Proof.
  induction ts as [|a ts IH]; cbn; [done |]. intros Hp. destruct (decide (0 < f a)) as [Ha|Ha].
  - by exists 0%nat, a.
  - destruct IH as (i & t & Hi & Ht); [lia |]. by exists (S i), t.
Qed.

Lemma count_fmap f (g : thread L T -> thread L T) ts : count f (g <$> ts) = count (fun t => f (g t)) ts.
Proof. induction ts as [|a ts IH]; cbn; [done |]. by rewrite IH. Qed.

Lemma count_ext f g ts : (forall t, t ∈ ts -> f t = g t) -> count f ts = count g ts.
Proof.
  induction ts as [|a ts IH]; cbn; [done |]. intros H. rewrite (H a) by left. rewrite IH; [done |].
  intros t Ht. apply H. by right.
Qed.

(** What does not depend on being awake. *)
Lemma count_wakes f w ts ts' : (forall t, f (wake t) = f t) -> wakes w ts ts' -> count f ts' = count f ts.
Proof.
  intros Hf [c i t l Hi _|c l _|c l].
  - rewrite (count_insert f l i t) by done. rewrite Hf. lia.
  - done.
  - rewrite count_fmap. apply count_ext. intros t _. case_decide; [apply Hf | done].
Qed.
Lemma count_wake_all f ws ts ts' : (forall t, f (wake t) = f t) -> wake_all ws ts ts' -> count f ts' = count f ts.
Proof. intros Hf. induction 1 as [|w ws ts ts' ts'' Hw _ IH]; [done |]. by rewrite IH, (count_wakes f w ts ts'). Qed.

Lemma wakes_length w ts ts' : wakes w ts ts' -> length ts' = length ts.
Proof. destruct 1; [apply length_insert | done | apply length_fmap]. Qed.
End Count.
