(* ===== verification/Rwlock.v ===== *)
(** Read-write locks on top of a mutex and two condition variables
    (unpv22e/my_rwlock).  The mutex calls and the condition variable calls of the
    program succeed, as they do on initialized objects. *)
From stdpp Require Import base list relations.
From Stdlib Require Import ZArith Lia.
From S2P Require Import Prelude Pthread.
Open Scope Z_scope.

Module Rw.

Definition RW_MAGIC : Z := 0x19283746.

Record pthread_rwlock_t := mk_rw {
  rw_magic : Z; rw_nwaitreaders : Z; rw_nwaitwriters : Z; rw_refcount : Z }.
#[export] Instance rw_fields : Fields pthread_rwlock_t := fun r =>
  mk_rw (rw_magic r) (rw_nwaitreaders r) (rw_nwaitwriters r) (rw_refcount r).

(** The condition variables. *)
Definition rw_condreaders : nat := 0.
Definition rw_condwriters : nat := 1.

(** What the caller has after a call: the lock for reading, for writing, or an error or
    nothing. *)
Inductive hold := Free (result : Z) | Reading | Writing.

(** Where a thread is: at the check of the magic number, before the mutex, or behind
    [pthread_cond_wait]. *)
Inductive rw_loc :=
| RdCall | RdLock | RdWoken | TryRdCall | TryRdLock
| WrCall | WrLock | WrWoken | TryWrCall | TryWrLock
| UnlockCall (h : hold) | UnlockLock (h : hold).

Definition rw_result : Type := option (pthread_rwlock_t * list wakeup * next rw_loc hold).
Definition ok (r : pthread_rwlock_t) (n : next rw_loc hold) : rw_result := Some (r, [], n).

Definition rw_check (r : pthread_rwlock_t) (l : rw_loc) : rw_result :=
  if negb (rw_magic r =? RW_MAGIC) then ok r (Done (Free E_INVAL)) else ok r (Go l).

(** The loop of [pthread_rwlock_rdlock] and what follows. *)
Definition rdlock_loop (r : pthread_rwlock_t) : rw_result :=
  if (rw_refcount r <? 0) || (0 <? rw_nwaitwriters r) then
    ok (over rw_nwaitreaders Z.succ r) (CondWait rw_condreaders RdWoken)
  else ok (over rw_refcount Z.succ r) (Done Reading).

Definition wrlock_loop (r : pthread_rwlock_t) : rw_result :=
  if negb (rw_refcount r =? 0) then
    ok (over rw_nwaitwriters Z.succ r) (CondWait rw_condwriters WrWoken)
  else ok (put rw_refcount (-1) r) (Done Writing).

Definition tryrdlock (r : pthread_rwlock_t) : rw_result :=
  if (rw_refcount r <? 0) || (0 <? rw_nwaitwriters r) then ok r (Done (Free E_BUSY))
  else ok (over rw_refcount Z.succ r) (Done Reading).

Definition trywrlock (r : pthread_rwlock_t) : rw_result :=
  if negb (rw_refcount r =? 0) then ok r (Done (Free E_BUSY))
  else ok (put rw_refcount (-1) r) (Done Writing).

(** [None]: [err_dump] ends the program. *)
Definition release (r : pthread_rwlock_t) : option pthread_rwlock_t :=
  if 0 <? rw_refcount r then Some (over rw_refcount Z.pred r)
  else if rw_refcount r =? -1 then Some (put rw_refcount 0 r)
  else None.
Definition unlock (r : pthread_rwlock_t) : rw_result :=
  r ← release r;
  let ws := if 0 <? rw_nwaitwriters r then
              (if rw_refcount r =? 0 then [Signal rw_condwriters] else [])
            else if 0 <? rw_nwaitreaders r then [Broadcast rw_condreaders] else [] in
  Some (r, ws, Done (Free 0)).

Definition rw_code (l : rw_loc) (r : pthread_rwlock_t) : rw_result :=
  match l with
  | RdCall => rw_check r RdLock
  | RdLock => rdlock_loop r
  | RdWoken => rdlock_loop (over rw_nwaitreaders Z.pred r)
  | TryRdCall => rw_check r TryRdLock
  | TryRdLock => tryrdlock r
  | WrCall => rw_check r WrLock
  | WrLock => wrlock_loop r
  | WrWoken => wrlock_loop (over rw_nwaitwriters Z.pred r)
  | TryWrCall => rw_check r TryWrLock
  | TryWrLock => trywrlock r
  | UnlockCall h => rw_check r (UnlockLock h)
  | UnlockLock _ => unlock r
  end.

(** A thread locks when it holds nothing, and unlocks what it holds. *)
Definition rw_calls (h : hold) (l : rw_loc) : Prop :=
  match h with
  | Free _ => l = RdCall \/ l = TryRdCall \/ l = WrCall \/ l = TryWrCall
  | h => l = UnlockCall h
  end.

(** [attr] is not NULL, and the results of the three initializations. *)
Definition pthread_rwlock_init (attr : bool) (mutex readers writers : Z) (r : pthread_rwlock_t) : pthread_rwlock_t * Z :=
  if attr then (r, E_INVAL) else
  if cbool mutex then (r, mutex) else
  if cbool readers then (r, readers) else
  if cbool writers then (r, writers) else
  (mk_rw RW_MAGIC 0 0 0, 0).

Definition pthread_rwlock_destroy (r : pthread_rwlock_t) : pthread_rwlock_t * Z :=
  if negb (rw_magic r =? RW_MAGIC) then (r, E_INVAL) else
  if cbool (rw_refcount r) || cbool (rw_nwaitreaders r) || cbool (rw_nwaitwriters r) then (r, E_BUSY) else
  (put rw_magic 0 r, 0).

Definition config : Type := pthread_rwlock_t * list (thread rw_loc hold).
Definition rw_reaches : config -> config -> Prop := reaches rw_code rw_calls.
Definition rw_start (n : nat) : config := (mk_rw RW_MAGIC 0 0 0, replicate n (Out (Free 0))).

(** ** Who is where *)

Definition holding (t : thread rw_loc hold) : hold :=
  match t with
  | Out h => h
  | Want (UnlockCall h | UnlockLock h) | Asleep _ (UnlockCall h | UnlockLock h) => h
  | _ => Free 0
  end.
Definition reading (t : thread rw_loc hold) : Z := match holding t with Reading => 1 | _ => 0 end.
Definition writing (t : thread rw_loc hold) : Z := match holding t with Writing => 1 | _ => 0 end.
(** Readers and writers inside of [pthread_cond_wait], woken or not. *)
Definition wait_r (t : thread rw_loc hold) : Z := match t with Want RdWoken | Asleep _ RdWoken => 1 | _ => 0 end.
Definition wait_w (t : thread rw_loc hold) : Z := match t with Want WrWoken | Asleep _ WrWoken => 1 | _ => 0 end.
(** Asleep, and woken. *)
Definition asleep_r (t : thread rw_loc hold) : Z := match t with Asleep _ RdWoken => 1 | _ => 0 end.
Definition asleep_w (t : thread rw_loc hold) : Z := match t with Asleep _ WrWoken => 1 | _ => 0 end.
Definition ready_w (t : thread rw_loc hold) : Z := match t with Want WrWoken => 1 | _ => 0 end.

(** Readers sleep on one variable and writers on the other; unlocking takes a lock. *)
Definition shape (t : thread rw_loc hold) : Prop :=
  match t with
  | Asleep c l => (c = rw_condreaders /\ l = RdWoken) \/ (c = rw_condwriters /\ l = WrWoken)
  | Want (UnlockCall h) | Want (UnlockLock h) => h = Reading \/ h = Writing
  | _ => True
  end.

Record rw_inv (a : config) : Prop := {
  inv_magic : rw_magic a.1 = RW_MAGIC;
  inv_ref : (rw_refcount a.1 = count reading a.2 /\ count writing a.2 = 0)
    \/ (rw_refcount a.1 = -1 /\ count writing a.2 = 1 /\ count reading a.2 = 0);
  inv_r : rw_nwaitreaders a.1 = count wait_r a.2;
  inv_w : rw_nwaitwriters a.1 = count wait_w a.2;
  inv_shape : Forall shape a.2;
  (** A free lock with waiting writers: one of them is awake. *)
  inv_wake_w : rw_refcount a.1 = 0 -> 0 < count wait_w a.2 -> 0 < count ready_w a.2;
  (** No writer has the lock or waits for it: no reader sleeps. *)
  inv_wake_r : 0 <= rw_refcount a.1 -> count wait_w a.2 = 0 -> count asleep_r a.2 = 0 }.
(** ** The invariant *)

Lemma shape_wake t : shape t -> shape (wake t).
Proof. destruct t as [h|l|c l]; try done. cbn. by intros [(_ & ->)|(_ & ->)]. Qed.

Lemma shape_wakes w ts ts' : Forall shape ts -> wakes w ts ts' -> Forall shape ts'.
Proof.
  intros Hs Hw. destruct Hw as [c i t l Hi _|c l _|c l]; [| done |].
  - apply Forall_insert; [done |]. apply shape_wake. by eapply Forall_lookup_1.
  - apply Forall_fmap. eapply Forall_impl; [done |]. intros t Ht. cbn. case_decide; [by apply shape_wake | done].
Qed.

Lemma wait_w_split ts : count wait_w ts = count asleep_w ts + count ready_w ts.
Proof. induction ts as [|[h|[]|c []] ts IH]; cbn; lia. Qed.

Lemma signal_writers ts ts' :
  Forall shape ts -> wakes (Signal rw_condwriters) ts ts' ->
  count asleep_r ts' = count asleep_r ts /\ (0 < count wait_w ts -> 0 < count ready_w ts').
Proof.
  intros Hs Hw. inversion Hw as [c i t l Hi Ht E1 E2|c l Hn E1 E2|]; subst.
  - assert (exists c, t = Asleep c WrWoken) as (c & ->).
    { pose proof (Forall_lookup_1 _ _ _ _ Hs Hi) as Hsh. destruct t as [h|l|c l]; try done. cbn in Ht, Hsh. subst c.
      destruct Hsh as [(? & _)|(_ & ->)]; [done | by eexists]. }
    pose proof (count_insert asleep_r ts i _ (wake (Asleep c WrWoken)) Hi) as H1.
    pose proof (count_insert ready_w ts i _ (wake (Asleep c WrWoken)) Hi) as H2.
    pose proof (count_pos ready_w ts). cbn in *. split; [lia |]. intros _.
    assert (0 <= count ready_w ts) by (apply count_pos; by intros [|[]|]). lia.
  - split; [done |]. rewrite wait_w_split, (count_zero asleep_w); [lia |].
    apply Forall_forall. intros t Ht. rewrite Forall_forall in Hn, Hs. specialize (Hn t Ht). specialize (Hs t Ht).
    destruct t as [h|l|c l]; try done. cbn in *. destruct Hs as [(_ & ->)|(-> & _)]; [done | by destruct Hn].
Qed.

Lemma broadcast_readers ts ts' :
  Forall shape ts -> wakes (Broadcast rw_condreaders) ts ts' ->
  count asleep_r ts' = 0 /\ count ready_w ts' = count ready_w ts.
Proof.
  intros Hs Hw. inversion Hw; subst. rewrite !count_fmap. rewrite Forall_forall in Hs. split.
  - apply count_zero, Forall_forall. intros t Ht. specialize (Hs t Ht). case_decide as Hd; [by destruct t |].
    destruct t as [h|l|c l]; try done. cbn in *. destruct Hs as [(-> & _)|(_ & ->)]; [by destruct Hd | done].
  - apply count_ext. intros t Ht. specialize (Hs t Ht). case_decide as Hd; [| done].
    destruct t as [h|l|c l]; try done. cbn in *. subst c. by destruct Hs as [(_ & ->)|(? & _)].
Qed.

(** All the counts after a thread has moved. *)
Ltac counts Hi t' :=
  pose proof (count_insert reading _ _ _ t' Hi); pose proof (count_insert writing _ _ _ t' Hi);
  pose proof (count_insert wait_r _ _ _ t' Hi); pose proof (count_insert wait_w _ _ _ t' Hi);
  pose proof (count_insert asleep_r _ _ _ t' Hi); pose proof (count_insert ready_w _ _ _ t' Hi).

Lemma indicators ts :
  0 <= count reading ts /\ 0 <= count writing ts /\ 0 <= count wait_r ts /\ 0 <= count wait_w ts
  /\ 0 <= count asleep_r ts /\ 0 <= count ready_w ts /\ 0 <= count asleep_w ts.
Proof. split_and!; apply count_pos; intros [[]|[| | | | | | | | | |[]|[]]|c [| | | | | | | | | |[]|[]]]; done. Qed.

Ltac rw_facts ts :=
  let H := fresh in pose proof (indicators ts) as H; destruct H as (? & ? & ? & ? & ? & ? & ?).

(** The invariant after a move that wakes nobody. *)
Ltac rw_move Hi t' :=
  match type of Hi with ?ts !! ?i = _ =>
    counts Hi t'; rw_facts ts; rw_facts (<[i := t']> ts); cbn in * |-;
    constructor; cbn -[count insert Z.succ Z.pred]; try done; try lia; try (apply Forall_insert; [done | cbn; tauto])
  end.

Lemma rw_inv_call r ts i h l :
  rw_inv (r, ts) -> ts !! i = Some (Out h) -> rw_calls h l -> rw_inv (r, <[i := Want l]> ts).
Proof.
  intros [Hm Href Hr Hw Hsh Hww Hwr] Hi Hc. cbn [fst snd] in *.
  destruct h as [e| |]; cbn in Hc; [destruct Hc as [->|[->|[->| ->]]] | subst l..].
  - rw_move Hi (@Want rw_loc hold RdCall).
  - rw_move Hi (@Want rw_loc hold TryRdCall).
  - rw_move Hi (@Want rw_loc hold WrCall).
  - rw_move Hi (@Want rw_loc hold TryWrCall).
  - rw_move Hi (@Want rw_loc hold (UnlockCall Reading)).
  - rw_move Hi (@Want rw_loc hold (UnlockCall Writing)).
Qed.

Lemma rw_inv_spurious r ts i c l :
  rw_inv (r, ts) -> ts !! i = Some (Asleep c l) -> rw_inv (r, <[i := Want l]> ts).
Proof.
  intros [Hm Href Hr Hw Hsh Hww Hwr] Hi. cbn [fst snd] in *.
  pose proof (Forall_lookup_1 _ _ _ _ Hsh Hi) as [(-> & ->)|(-> & ->)].
  - rw_move Hi (@Want rw_loc hold RdWoken).
  - rw_move Hi (@Want rw_loc hold WrWoken).
Qed.

(** A step that wakes nobody. *)
Lemma rw_inv_quiet r ts i l r' n :
  rw_inv (r, ts) -> ts !! i = Some (Want l) -> rw_code l r = Some (r', [], n) ->
  (forall h, l <> UnlockLock h) -> rw_inv (r', <[i := after n]> ts).
Proof.
  intros [Hm Href Hr Hw Hsh Hww Hwr] Hi Hc Hl. cbn [fst snd] in *.
  pose proof (Forall_lookup_1 _ _ _ _ Hsh Hi) as Ht.
  destruct l; cbn [rw_code] in Hc; try (unfold rw_check in Hc; rewrite Hm, Z.eqb_refl in Hc; injection Hc as <- <-).
  - rw_move Hi (@Want rw_loc hold RdLock).
  - unfold rdlock_loop in Hc. destruct (_ || _) eqn:E; b2p_in E; injection Hc as <- <-.
    + rw_move Hi (@Asleep rw_loc hold rw_condreaders RdWoken).
    + rw_move Hi (@Out rw_loc hold Reading).
  - unfold rdlock_loop in Hc. destruct (_ || _) eqn:E; b2p_in E; injection Hc as <- <-; cbn in E.
    + rw_move Hi (@Asleep rw_loc hold rw_condreaders RdWoken).
    + rw_move Hi (@Out rw_loc hold Reading).
  - rw_move Hi (@Want rw_loc hold TryRdLock).
  - unfold tryrdlock in Hc. destruct (_ || _) eqn:E; b2p_in E; injection Hc as <- <-.
    + rw_move Hi (@Out rw_loc hold (Free E_BUSY)).
    + rw_move Hi (@Out rw_loc hold Reading).
  - rw_move Hi (@Want rw_loc hold WrLock).
  - unfold wrlock_loop in Hc. destruct (negb _) eqn:E; b2p_in E; injection Hc as <- <-.
    + rw_move Hi (@Asleep rw_loc hold rw_condwriters WrWoken).
    + rw_move Hi (@Out rw_loc hold Writing).
  - unfold wrlock_loop in Hc. destruct (negb _) eqn:E; b2p_in E; injection Hc as <- <-; cbn in E.
    + rw_move Hi (@Asleep rw_loc hold rw_condwriters WrWoken).
    + rw_move Hi (@Out rw_loc hold Writing).
  - rw_move Hi (@Want rw_loc hold TryWrLock).
  - unfold trywrlock in Hc. destruct (negb _) eqn:E; b2p_in E; injection Hc as <- <-.
    + rw_move Hi (@Out rw_loc hold (Free E_BUSY)).
    + rw_move Hi (@Out rw_loc hold Writing).
  - destruct Ht as [-> | ->]; [rw_move Hi (@Want rw_loc hold (UnlockLock Reading)) | rw_move Hi (@Want rw_loc hold (UnlockLock Writing))].
  - by destruct (Hl h).
Qed.

(** What is left of the invariant between giving the lock back and waking threads. *)
Record rw_given (r : pthread_rwlock_t) (ts : list (thread rw_loc hold)) : Prop := {
  given_magic : rw_magic r = RW_MAGIC;
  given_ref : rw_refcount r = count reading ts /\ count writing ts = 0;
  given_r : rw_nwaitreaders r = count wait_r ts;
  given_w : rw_nwaitwriters r = count wait_w ts;
  given_shape : Forall shape ts }.

Lemma release_given r ts i h :
  rw_inv (r, ts) -> ts !! i = Some (Want (UnlockLock h)) ->
  exists r', release r = Some r' /\ rw_given r' (<[i := Out (Free 0)]> ts).
Proof.
  intros [Hm Href Hr Hw Hsh Hww Hwr] Hi. cbn [fst snd] in *.
  pose proof (Forall_lookup_1 _ _ _ _ Hsh Hi) as Ht. counts Hi (@Out rw_loc hold (Free 0)). rw_facts ts.
  rw_facts (<[i := @Out rw_loc hold (Free 0)]> ts). unfold release.
  destruct Ht as [-> | ->]; cbn in * |-.
  - rewrite (proj2 (Z.ltb_lt _ _)) by lia. eexists. split; [done |].
    constructor; cbn -[count insert Z.pred]; try done; try lia. by apply Forall_insert.
  - rewrite (proj2 (Z.ltb_ge _ _)) by lia. rewrite (proj2 (Z.eqb_eq _ _)) by lia. eexists. split; [done |].
    constructor; cbn -[count insert Z.pred]; try done; try lia. by apply Forall_insert.
Qed.

Lemma wait_closed t :
  reading (wake t) = reading t /\ writing (wake t) = writing t /\ wait_r (wake t) = wait_r t /\ wait_w (wake t) = wait_w t.
Proof. by destruct t as [h|l|c []]. Qed.

Lemma asleep_wait ts : count asleep_r ts <= count wait_r ts.
Proof. induction ts as [|[h|[]|c []] ts IH]; cbn; lia. Qed.

(** The threads are woken that have to be. *)
Lemma rw_given_wake r ts ts' :
  rw_given r ts ->
  wake_all (if 0 <? rw_nwaitwriters r then (if rw_refcount r =? 0 then [Signal rw_condwriters] else [])
            else if 0 <? rw_nwaitreaders r then [Broadcast rw_condreaders] else []) ts ts' ->
  rw_inv (r, ts').
Proof.
  intros [Hm (Hrd & Hwr) Hr Hw Hsh] Hwk. pose proof (asleep_wait ts). rw_facts ts.
  pose proof (count_wake_all reading _ _ _ (fun t => proj1 (wait_closed t)) Hwk) as C1.
  pose proof (count_wake_all writing _ _ _ (fun t => proj1 (proj2 (wait_closed t))) Hwk) as C2.
  pose proof (count_wake_all wait_r _ _ _ (fun t => proj1 (proj2 (proj2 (wait_closed t)))) Hwk) as C3.
  pose proof (count_wake_all wait_w _ _ _ (fun t => proj2 (proj2 (proj2 (wait_closed t)))) Hwk) as C4.
  assert (HW : Forall shape ts' /\ (rw_refcount r = 0 -> 0 < count wait_w ts -> 0 < count ready_w ts')
    /\ (count wait_w ts = 0 -> count asleep_r ts' = 0)).
  { destruct (Z.ltb_spec 0 (rw_nwaitwriters r)); [destruct (Z.eqb_spec (rw_refcount r) 0) |
      destruct (Z.ltb_spec 0 (rw_nwaitreaders r))]; inversion Hwk as [|w ws t1 t2 t3 Hw1 Hw2]; subst; try inversion Hw2; subst.
    - destruct (signal_writers _ _ Hsh Hw1). split_and!; [by eapply shape_wakes | done | lia].
    - split_and!; [done | done | lia].
    - destruct (broadcast_readers _ _ Hsh Hw1). split_and!; [by eapply shape_wakes | lia | lia].
    - split_and!; [done | lia | lia]. }
  destruct HW as (HW1 & HW2 & HW3). constructor; cbn [fst snd]; try done; rewrite ?C1, ?C2, ?C3, ?C4; try done.
  by left.
Qed.

Lemma rw_quiet l r r' ws n : rw_code l r = Some (r', ws, n) -> (exists h, l = UnlockLock h) \/ (ws = [] /\ forall h, l <> UnlockLock h).
Proof.
  destruct l; cbn [rw_code]; unfold rw_check, rdlock_loop, wrlock_loop, tryrdlock, trywrlock, ok;
    intros H; [right.. | left; by eexists]; repeat case_match; by simplify_eq.
Qed.

Lemma rw_inv_step a b : rw_inv a -> step rw_code rw_calls a b -> rw_inv b.
Proof.
  intros Hinv Hs. inversion Hs as [r ts i h l Hi Hc|r ts i l r' ws n ts' Hi Hc Hw|r ts i c l Hi]; subst.
  - by eapply rw_inv_call.
  - destruct (rw_quiet _ _ _ _ _ Hc) as [(h & ->)|(-> & Hl)].
    + destruct (release_given r ts i h Hinv Hi) as (r1 & E1 & Hg).
      cbn [rw_code] in Hc. unfold unlock in Hc. rewrite E1 in Hc. cbn in Hc. injection Hc as -> <- <-.
      by eapply rw_given_wake.
    + inversion Hw; subst. by eapply rw_inv_quiet.
  - by eapply rw_inv_spurious.
Qed.

Lemma rw_start_inv n : rw_inv (rw_start n).
Proof.
  assert (Hc : forall f, f (@Out rw_loc hold (Free 0)) = 0 -> count f (rw_start n).2 = 0).
  { intros f Hf. apply count_zero. by apply Forall_replicate. }
  constructor; cbn [fst]; rewrite ?Hc by done; try done.
  - left. done.
  - by apply Forall_replicate.
Qed.

Lemma rw_reaches_inv n a : rw_reaches (rw_start n) a -> rw_inv a.
Proof. apply reaches_inv; [apply rw_inv_step | apply rw_start_inv]. Qed.

Lemma indicator_pos t : 0 <= reading t /\ 0 <= writing t.
Proof. unfold reading, writing. by destruct (holding t). Qed.

Lemma rw_never_aborts r ts k l : rw_inv (r, ts) -> ts !! k = Some (Want l) -> rw_code l r <> None.
Proof.
  intros Hinv Hk. destruct l; cbn [rw_code]; unfold rw_check, rdlock_loop, wrlock_loop, tryrdlock, trywrlock, ok;
    repeat case_match; try done.
  destruct (release_given r ts k h Hinv Hk) as (r' & E & _). unfold unlock. by rewrite E.
Qed.

(** C20: However the threads that use a read-write lock are interleaved, whichever thread
    a signal wakes and even if threads wake up on their own, the lock excludes: while a
    thread has it for writing no other thread has it.  The reference count is minus one
    in that case and the number of readers otherwise, and no thread ever ends the program
    because the count is wrong. *)
Theorem rwlock_excludes n r ts :
  rw_reaches (rw_start n) (r, ts) ->
  (forall i j t u, ts !! i = Some t -> ts !! j = Some u -> holding t = Writing ->
    holding u = Reading \/ holding u = Writing -> i = j)
  /\ rw_refcount r = (if decide (count writing ts = 0) then count reading ts else -1)
  /\ forall k l, ts !! k = Some (Want l) -> rw_code l r <> None.
Proof.
  intros Hr. pose proof (rw_reaches_inv _ _ Hr) as Hinv. split_and!.
  - intros i j t u Hi Hj Ht Hu. destruct (decide (i = j)) as [|Hij]; [done |]. exfalso.
    pose proof (count_two writing ts i j t u (fun t => proj2 (indicator_pos t)) Hij Hi Hj).
    pose proof (count_ge reading ts j u (fun t => proj1 (indicator_pos t)) Hj).
    pose proof (count_ge writing ts i t (fun t => proj2 (indicator_pos t)) Hi).
    unfold reading, writing in *. rewrite Ht in *. pose proof (inv_ref _ Hinv) as Href. cbn [fst snd] in Href.
    unfold reading, writing in Href. destruct Hu as [Hu|Hu]; rewrite Hu in *; lia.
  - destruct (inv_ref _ Hinv) as [(H1 & H2)|(H1 & H2 & H3)]; cbn [fst snd] in *; case_decide; lia.
  - intros k l. by apply rw_never_aborts.
Qed.

(** C21: No wake-up is lost: when a thread sleeps in [pthread_rwlock_rdlock] or
    [pthread_rwlock_wrlock], either some thread has the lock, whose unlocking is still to
    come, or a writer has been woken and takes the lock as soon as it runs. *)
Theorem rwlock_no_lost_wakeup n r ts i c l :
  rw_reaches (rw_start n) (r, ts) -> ts !! i = Some (Asleep c l) ->
  (exists j t, ts !! j = Some t /\ (holding t = Reading \/ holding t = Writing))
  \/ (exists j r', ts !! j = Some (Want WrWoken) /\ rw_code WrWoken r = Some (r', [], Done Writing)).
Proof.
  intros Hr Hi. pose proof (rw_reaches_inv _ _ Hr) as [Hm Href Hnr Hnw Hsh Hww Hwr]. cbn [fst snd] in *.
  destruct (decide (rw_refcount r = 0)) as [Hz|Hz].
  - right. assert (Hp : 0 < count wait_w ts).
    { rw_facts ts. pose proof (Forall_lookup_1 _ _ _ _ Hsh Hi) as [(-> & ->)|(-> & ->)].
      - assert (1 <= count asleep_r ts) by (eapply (count_ge asleep_r ts i (Asleep _ RdWoken)); [by intros [|[]|? []] | done]). lia.
      - assert (1 <= count wait_w ts) by (eapply (count_ge wait_w ts i (Asleep _ WrWoken)); [by intros [|[]|? []] | done]). lia. }
    destruct (count_exists _ _ (Hww Hz Hp)) as (j & t & Hj & Ht). exists j.
    destruct t as [|[]|]; try done. eexists. split; [done |]. cbn. unfold wrlock_loop. cbn. by rewrite Hz.
  - left. assert (Hp : 0 < count reading ts \/ 0 < count writing ts) by (rw_facts ts; lia).
    destruct Hp as [Hp|Hp]; apply count_exists in Hp as (j & t & Hj & Ht); exists j, t; (split; [done |]);
      unfold reading, writing in Ht; destruct (holding t); tauto || done.
Qed.

(** A writer waits for a reader, and another reader for the writer. *)
Definition demo_run : list (choice (L := rw_loc)) :=
  [Call 0 RdCall; Run 0 []; Run 0 []; Call 1 WrCall; Run 1 []; Run 1 []; Call 2 RdCall; Run 2 []; Run 2 []].

#[export] Instance hold_eq : EqDecision hold.
Proof. solve_decision. Defined.
#[export] Instance loc_eq : EqDecision rw_loc.
Proof. solve_decision. Defined.
#[export] Instance rw_calls_dec h l : Decision (rw_calls h l).
Proof. unfold rw_calls. destruct h; apply _. Defined.

(** The state the run ends in. *)
Definition demo_rw : config :=
  (mk_rw RW_MAGIC 1 1 1, [Out Reading; Asleep rw_condwriters WrWoken; Asleep rw_condreaders RdWoken]).
Lemma demo_reaches : rw_reaches (rw_start 3) demo_rw.
Proof. apply (schedule_runs rw_code rw_calls demo_run). vm_compute. reflexivity. Qed.

Lemma rwlock_excludes_witness :
  rw_refcount demo_rw.1 = (if decide (count writing demo_rw.2 = 0) then count reading demo_rw.2 else -1).
Proof. exact (proj1 (proj2 (rwlock_excludes 3 _ _ demo_reaches))). Defined.

Lemma rwlock_no_lost_wakeup_witness :
  (exists j t, demo_rw.2 !! j = Some t /\ (holding t = Reading \/ holding t = Writing))
  \/ (exists j r', demo_rw.2 !! j = Some (Want WrWoken) /\ rw_code WrWoken demo_rw.1 = Some (r', [], Done Writing)).
Proof. exact (rwlock_no_lost_wakeup 3 demo_rw.1 demo_rw.2 1 rw_condwriters WrWoken demo_reaches eq_refl). Defined.
End Rw.
