(* ===== verification/Mqueue.v ===== *)
(** Message queues in a mapped file (unpv22e/my_pxmsg_mmap): the header, the messages
    with their free list and their list by priority, sending and receiving with a mutex
    and a condition variable, attributes and notification.  The file is as [mq_open]
    makes it: a header of [hdr_size] bytes and messages at fixed distances behind it; an
    index into the file that is not the start of a message is no access the program may
    make. *)
From stdpp Require Import base list gmap strings relations.
From Stdlib Require Import ZArith Lia.
From S2P Require Import Prelude Pthread.
Open Scope Z_scope.

Module Mq.

Record mymq_attr := mk_attr { mq_flags : Z; mq_maxmsg : Z; mq_msgsize : Z; mq_curmsgs : Z }.
#[export] Instance attr_fields : Fields mymq_attr := fun a =>
  mk_attr (mq_flags a) (mq_maxmsg a) (mq_msgsize a) (mq_curmsgs a).

(** A message: [struct mymsg_hdr] and the bytes behind it. *)
Record mymsg_hdr := mk_msg { msg_next : Z; msg_len : Z; msg_prio : Z; msg_bytes : list Z }.
#[export] Instance msg_fields : Fields mymsg_hdr := fun m =>
  mk_msg (msg_next m) (msg_len m) (msg_prio m) (msg_bytes m).

Record sigevent := mk_sigevent { sigev_notify : Z; sigev_signo : Z; sigev_value : Z }.
Definition SIGEV_SIGNAL : Z := 0.
Definition NONBLOCK : Z := 0x800.

(** The mapped file; [sigqueued] are the signals that were sent. *)
Record mymq_hdr := mk_hdr {
  mqh_attr : mymq_attr; mqh_head : Z; mqh_free : Z; mqh_nwait : Z; mqh_pid : Z; mqh_event : sigevent;
  mapped : gmap Z mymsg_hdr; sigqueued : list (Z * Z * Z) }.
#[export] Instance hdr_fields : Fields mymq_hdr := fun h =>
  mk_hdr (mqh_attr h) (mqh_head h) (mqh_free h) (mqh_nwait h) (mqh_pid h) (mqh_event h) (mapped h) (sigqueued h).

Record mymq_info := mk_info { mqi_magic : Z; mqi_flags : Z }.
#[export] Instance info_fields : Fields mymq_info := fun q => mk_info (mqi_magic q) (mqi_flags q).
Definition MQI_MAGIC : Z := 0x98765432.

(** [long] has four bytes. *)
Definition sizeof_long : Z := 4.
Definition sizeof_msg_hdr : Z := 12.
Definition MSGSIZE (i : Z) : Z := (i + sizeof_long - 1) / sizeof_long * sizeof_long.

Definition mqh_wait : nat := 0.

(** ** Access to the mapped file *)

Definition msg (i : Z) : M mymq_hdr mymsg_hdr := fun s => need (mapped s !! i) s.
Definition set_msg {A} (f : mymsg_hdr -> A) {sf : Setter f} (i : Z) (v : A) : M mymq_hdr unit :=
  let* _ := msg i in modify (over mapped (alter (put f v) i)).
(** [pmsghdr->msg_next = v]; the header's [mqh_head] is used as the first link. *)
Definition set_link (p : option Z) (v : Z) : M mymq_hdr unit :=
  match p with None => modify (put mqh_head v) | Some i => set_msg msg_next i v end.
Definition attr_of {A} (f : mymq_attr -> A) : M mymq_hdr A := get (fun s => f (mqh_attr s)).
Definition set_curmsgs (f : Z -> Z) : M mymq_hdr unit := modify (over mqh_attr (over mq_curmsgs f)).

(** ** mq_open: the new queue *)

(** The loop that links the messages behind [index]; the last one ends the free list. *)
Fixpoint free_links (n : nat) (msgsize index : Z) : M mymq_hdr unit :=
  match n with
  | O => set_msg msg_next index 0
  | S n =>
    let next := index + sizeof_msg_hdr + msgsize in
    set_msg msg_next index next ;;; free_links n msgsize next
  end.

Definition cells (hdr_size maxmsg msgsize : Z) : list Z :=
  map (fun k => hdr_size + Z.of_nat k * (sizeof_msg_hdr + msgsize)) (seq 0 (Z.to_nat maxmsg)).

(** The file after its size was set: zeros. *)
Definition zero_file (hdr_size : Z) (a : mymq_attr) : mymq_hdr :=
  let msgsize := MSGSIZE (mq_msgsize a) in
  mk_hdr (mk_attr 0 0 0 0) 0 0 0 0 (mk_sigevent 0 0 0)
    (list_to_map (map (fun i => (i, mk_msg 0 0 0 (replicate (Z.to_nat msgsize) 0)))
       (cells hdr_size (mq_maxmsg a) msgsize))) [].

(** The size of the file is a [long]; if it wraps around, the messages are not in the file. *)
Definition file_size (hdr_size maxmsg msgsize : Z) : Z := hdr_size + maxmsg * (sizeof_msg_hdr + msgsize).

Definition mq_init (hdr_size : Z) (a : mymq_attr) : M mymq_hdr unit :=
  let msgsize := MSGSIZE (mq_msgsize a) in
  (if 2 ^ 31 <=? file_size hdr_size (mq_maxmsg a) msgsize then ub else ret tt) ;;;
  modify (put mqh_attr (mk_attr 0 (mq_maxmsg a) (mq_msgsize a) 0)) ;;;
  modify (put mqh_nwait 0) ;;;
  modify (put mqh_pid 0) ;;;
  modify (put mqh_head 0) ;;;
  modify (put mqh_free hdr_size) ;;;
  free_links (Z.to_nat (mq_maxmsg a - 1)) msgsize hdr_size.

(** ** mq_send *)

(** The loop over the messages: the place of message [freeindex]. *)
Fixpoint place (fuel : nat) (prio freeindex index : Z) (pmsghdr : option Z) : M mymq_hdr unit :=
  match fuel with
  | O => ub
  | S fuel =>
    if index =? 0 then set_link pmsghdr freeindex ;;; set_msg msg_next freeindex 0 else
    let* m := msg index in
    if msg_prio m <? prio then set_msg msg_next freeindex index ;;; set_link pmsghdr freeindex
    else place fuel prio freeindex (msg_next m) (Some index)
  end.

(** The message is copied into the first free cell, which leaves the free list. *)
Definition write_msg (ptr : list Z) (prio freeindex : Z) : M mymq_hdr unit :=
  set_msg msg_prio freeindex prio ;;;
  set_msg msg_len freeindex (Z.of_nat (length ptr)) ;;;
  (let* m := msg freeindex in
   if (length (msg_bytes m) <? length ptr)%nat then ub
   else set_msg msg_bytes freeindex (ptr ++ drop (length ptr) (msg_bytes m))) ;;;
  (let* m := msg freeindex in modify (put mqh_free (msg_next m))).

(** From the point where there is room for a message. *)
Definition send_insert (ptr : list Z) (prio : Z) : M mymq_hdr (list wakeup) :=
  let* freeindex := get mqh_free in
  if freeindex =? 0 then panic "mymq_send: free = 0" else
  write_msg ptr prio freeindex ;;;
  let* index := get mqh_head in
  let* maxmsg := attr_of mq_maxmsg in
  place (S (Z.to_nat maxmsg)) prio freeindex index None ;;;
  let* cur := attr_of mq_curmsgs in
  set_curmsgs Z.succ ;;;
  ret (if cur =? 0 then [Signal mqh_wait] else []).

(** ** mq_receive *)

(** From the point where there is a message. *)
Definition receive_take : M mymq_hdr (Z * list Z * list wakeup) :=
  let* index := get mqh_head in
  if index =? 0 then panic "mymq_receive: head = 0" else
  let* m := msg index in
  modify (put mqh_head (msg_next m)) ;;;
  (let* f := get mqh_free in set_msg msg_next index f) ;;;
  modify (put mqh_free index) ;;;
  let* cur := attr_of mq_curmsgs in
  let* maxmsg := attr_of mq_maxmsg in
  set_curmsgs Z.pred ;;;
  ret (msg_prio m, take (Z.to_nat (msg_len m)) (msg_bytes m), if cur =? maxmsg then [Signal mqh_wait] else []).

(** ** The calls of a thread *)

Inductive outcome_of :=
| Failed (errno : Z)
| Sent
| Received (prio : Z) (bytes : list Z).

Inductive mq_loc :=
| SendCall (q : mymq_info) (ptr : list Z) (prio : Z)
| SendLock (q : mymq_info) (ptr : list Z) (prio : Z)
| SendWoken (ptr : list Z) (prio : Z)
| RecvCall (q : mymq_info) (maxlen : Z)
| RecvLock (q : mymq_info) (maxlen : Z)
| RecvWoken.

Definition nonblocking (q : mymq_info) : bool := cbool (Z.land (mqi_flags q) NONBLOCK).

Definition wait_at (l : mq_loc) : M mymq_hdr (list wakeup * next mq_loc outcome_of) := ret ([], CondWait mqh_wait l).
Definition mq_fail (e : Z) : M mymq_hdr (list wakeup * next mq_loc outcome_of) := ret ([], Done (Failed e)).

Definition send_now (ptr : list Z) (prio : Z) : M mymq_hdr (list wakeup * next mq_loc outcome_of) :=
  let* ws := send_insert ptr prio in ret (ws, Done Sent).
Definition receive_now : M mymq_hdr (list wakeup * next mq_loc outcome_of) :=
  let* r := receive_take in ret (r.2, Done (Received r.1.1 r.1.2)).

(** The process that asked for it learns of the first message. *)
Definition notify_first : M mymq_hdr unit :=
  let* s := get id in
  if cbool (mqh_pid s) && (mqh_nwait s =? 0) then
    (if sigev_notify (mqh_event s) =? SIGEV_SIGNAL then
       modify (over sigqueued (cons (mqh_pid s, sigev_signo (mqh_event s), sigev_value (mqh_event s))))
     else ret tt) ;;;
    modify (put mqh_pid 0)
  else ret tt.

Definition send_lock (q : mymq_info) (ptr : list Z) (prio : Z) : M mymq_hdr (list wakeup * next mq_loc outcome_of) :=
  let* a := attr_of id in
  if mq_msgsize a <? Z.of_nat (length ptr) then mq_fail E_MSGSIZE else
  if mq_curmsgs a =? 0 then notify_first ;;; send_now ptr prio else
  if mq_maxmsg a <=? mq_curmsgs a then
    (if nonblocking q then mq_fail E_AGAIN else wait_at (SendWoken ptr prio))
  else send_now ptr prio.
Definition send_woken (ptr : list Z) (prio : Z) : M mymq_hdr (list wakeup * next mq_loc outcome_of) :=
  let* a := attr_of id in
  if mq_maxmsg a <=? mq_curmsgs a then wait_at (SendWoken ptr prio) else send_now ptr prio.

Definition receive_lock (q : mymq_info) (maxlen : Z) : M mymq_hdr (list wakeup * next mq_loc outcome_of) :=
  let* a := attr_of id in
  if maxlen <? mq_msgsize a then mq_fail E_MSGSIZE else
  if mq_curmsgs a =? 0 then
    (if nonblocking q then mq_fail E_AGAIN else modify (over mqh_nwait Z.succ) ;;; wait_at RecvWoken)
  else receive_now.
Definition receive_woken : M mymq_hdr (list wakeup * next mq_loc outcome_of) :=
  let* a := attr_of id in
  if mq_curmsgs a =? 0 then wait_at RecvWoken
  else modify (over mqh_nwait Z.pred) ;;; receive_now.

Definition mq_check (q : mymq_info) (l : mq_loc) : M mymq_hdr (list wakeup * next mq_loc outcome_of) :=
  if negb (mqi_magic q =? MQI_MAGIC) then mq_fail E_BADF else ret ([], Go l).

Definition mq_body (l : mq_loc) : M mymq_hdr (list wakeup * next mq_loc outcome_of) :=
  match l with
  | SendCall q ptr prio => mq_check q (SendLock q ptr prio)
  | SendLock q ptr prio => send_lock q ptr prio
  | SendWoken ptr prio => send_woken ptr prio
  | RecvCall q maxlen => mq_check q (RecvLock q maxlen)
  | RecvLock q maxlen => receive_lock q maxlen
  | RecvWoken => receive_woken
  end.

(** [None]: the program ends in [err_dump], or makes an access it may not make. *)
Definition mq_code (l : mq_loc) (s : mymq_hdr) : option (mymq_hdr * list wakeup * next mq_loc outcome_of) :=
  match mq_body l s with Ok (ws, n) s' => Some (s', ws, n) | _ => None end.
Definition mq_calls (_ : outcome_of) (l : mq_loc) : Prop :=
  match l with SendCall _ _ _ | RecvCall _ _ => True | _ => False end.

(** ** Attributes and notification *)

(** The caller's copy of the attributes. *)
Definition mymq_getattr (q : mymq_info) (s : mymq_hdr) : Z + mymq_attr :=
  if negb (mqi_magic q =? MQI_MAGIC) then inl E_BADF
  else inr (put mq_flags (mqi_flags q) (mqh_attr s)).

(** The attributes before the call, and the descriptor with its new flags. *)
Definition mymq_setattr (q : mymq_info) (new : mymq_attr) (s : mymq_hdr) : Z + (mymq_attr * mymq_info) :=
  if negb (mqi_magic q =? MQI_MAGIC) then inl E_BADF else
  inr (put mq_flags (mqi_flags q) (mqh_attr s),
       if cbool (Z.land (mq_flags new) NONBLOCK) then over mqi_flags (Z.lor NONBLOCK) q
       else over mqi_flags (fun f => Z.land f (Z.lnot NONBLOCK)) q).

(** [alive] says what [kill(pid, 0)] finds out. *)
Definition mymq_notify (alive : Z -> bool) (pid : Z) (q : mymq_info) (notification : option sigevent) :
    M mymq_hdr (Z + unit) :=
  if negb (mqi_magic q =? MQI_MAGIC) then ret (inl E_BADF) else
  let* s := get id in
  match notification with
  | None => (if mqh_pid s =? pid then modify (put mqh_pid 0) else ret tt) ;;; ret (inr tt)
  | Some e =>
    if cbool (mqh_pid s) && alive (mqh_pid s) then ret (inl E_BUSY) else
    modify (put mqh_pid pid) ;;; modify (put mqh_event e) ;;; ret (inr tt)
  end.

(** [unmap] is the result of [munmap]. *)
Definition mymq_close (unmap : bool) (alive : Z -> bool) (pid : Z) (q : mymq_info) : M mymq_hdr (Z + mymq_info) :=
  if negb (mqi_magic q =? MQI_MAGIC) then ret (inl E_BADF) else
  let* r := mymq_notify alive pid q None in
  match r with
  | inl e => ret (inl e)
  | inr _ => ret (if unmap then inr (put mqi_magic 0 q) else inl E_INVAL)
  end.
End Mq.
