(* ===== verification/MqueueSpec.v ===== *)
(** What the message queues of unpv22e/my_pxmsg_mmap promise: a bounded queue ordered
    by priority, first come first served within a priority, and the routines implement
    it under every interleaving of the threads. *)
From stdpp Require Import base list gmap strings relations sorting.
From Stdlib Require Import ZArith Lia.
From S2P Require Import Prelude Pthread Mqueue.
Import Mq.
Open Scope Z_scope.

(** ** The abstract queue *)

Definition message : Type := Z * list Z.

(** Behind the messages of the same and of higher priority. *)
Fixpoint pq_insert (p : Z) (m : list Z) (q : list message) : list message :=
  match q with
  | [] => [(p, m)]
  | x :: q' => if x.1 <? p then (p, m) :: q else x :: pq_insert p m q'
  end.

Definition by_priority : relation message := fun x y => y.1 <= x.1.

Lemma pq_insert_split p m q :
  exists l1 l2, q = l1 ++ l2 /\ pq_insert p m q = l1 ++ (p, m) :: l2 /\ Forall (fun x => p <= x.1) l1
  /\ match l2 with [] => True | x :: _ => x.1 < p end.
Proof.
  induction q as [|x q IH]; [by exists [], [] |]. cbn. destruct (Z.ltb_spec x.1 p).
  - by exists [], (x :: q).
  - destruct IH as (l1 & l2 & -> & E & H1 & H2). exists (x :: l1), l2. rewrite E. split_and!; try done. by constructor.
Qed.

(** ** The lists in the mapped file *)

(** [l] are the messages from index [o] on. *)
Fixpoint chain (g : gmap Z mymsg_hdr) (o : Z) (l : list Z) : Prop :=
  match l with
  | [] => o = 0
  | i :: l => o = i /\ i <> 0 /\ exists m, g !! i = Some m /\ chain g (msg_next m) l
  end.

Definition content (g : gmap Z mymsg_hdr) (i : Z) : message :=
  from_option (fun m => (msg_prio m, take (Z.to_nat (msg_len m)) (msg_bytes m))) (0, []) (g !! i).

Lemma msgs_frame g g' o l :
  chain g o l -> (forall i, i ∈ l -> msg_next <$> g' !! i = msg_next <$> g !! i) -> chain g' o l.
Proof.
  revert o. induction l as [|i l IH]; intros o; [done |]. intros (-> & Hz & m & Hm & Hl) E. split; [done |]. split; [done |].
  pose proof (E i ltac:(left)) as Ei. rewrite Hm in Ei. destruct (g' !! i) as [m'|]; [| done]. injection Ei as Ei.
  exists m'. split; [done |]. rewrite Ei. apply IH; [done |]. intros j Hj. apply E. by right.
Qed.

Lemma chain_in g o l i : chain g o l -> i ∈ l -> i <> 0 /\ exists m, g !! i = Some m.
Proof.
  revert o. induction l as [|j l IH]; intros o; [by intros _ ?%elem_of_nil |].
  intros (_ & Hz & m & Hm & Hl) [->|Hi]%elem_of_cons; [by split; [| exists m] | by apply (IH (msg_next m))].
Qed.

(** The index of the first message, or 0. *)
Definition first (l : list Z) : Z := default 0 (list.head l).

Lemma chain_first g o l : chain g o l -> o = first l.
Proof. destruct l; [done | by intros (-> & _)]. Qed.

(** [g] with message [f] linked in behind [p]. *)
Definition link (p : option Z) (f idx : Z) (g : gmap Z mymsg_hdr) : gmap Z mymsg_hdr :=
  let g := alter (put msg_next idx) f g in
  match p with None => g | Some i => alter (put msg_next f) i g end.
Definition link_hdr (p : option Z) (f idx : Z) (s : mymq_hdr) : mymq_hdr :=
  let s := over mapped (link p f idx) s in match p with None => put mqh_head f s | Some _ => s end.

Lemma link_lookup p f idx g i :
  p <> Some f -> link p f idx g !! i
  = (if decide (p = Some i) then put msg_next f else if decide (i = f) then put msg_next idx else id) <$> g !! i.
Proof.
  intros Hp. unfold link. destruct p as [j|].
  - rewrite lookup_alter. destruct (decide (j = i)) as [->|Hj].
    + rewrite decide_True by done. rewrite lookup_alter_ne by congruence. done.
    + rewrite decide_False by congruence. rewrite lookup_alter. repeat case_decide; subst; try done. by rewrite option_fmap_id.
  - rewrite decide_False by done. rewrite lookup_alter. repeat case_decide; subst; try done. by rewrite option_fmap_id.
Qed.

Lemma link_content p f idx g i : p <> Some f -> content (link p f idx g) i = content g i.
Proof.
  intros Hp. unfold content. rewrite link_lookup by done. destruct (g !! i); [| done]. by repeat case_decide.
Qed.

(** Linking a message in between two parts of the list. *)
Lemma link_chain g o l1 l2 f :
  chain g o (l1 ++ l2) -> NoDup (l1 ++ l2) -> f ∉ l1 ++ l2 -> f <> 0 -> is_Some (g !! f) ->
  chain (link (last l1) f (first l2) g) (match l1 with [] => f | _ => o end) (l1 ++ f :: l2).
Proof.
  intros Hc Hn Hf Hz (fm & Hfm). revert o Hc. induction l1 as [|i l1 IH]; intros o Hc.
  - cbn [app last]. split; [done |]. split; [done |]. eexists. rewrite link_lookup by done.
    rewrite decide_False by done. rewrite decide_True, Hfm by done. split; [done |].
    change (chain (link None f (first l2) g) (first l2) l2). cbn [app] in Hc, Hf. pose proof (chain_first _ _ _ Hc) as <-. eapply msgs_frame; [done |]. intros j Hj.
    rewrite link_lookup by done. rewrite decide_False by done. rewrite decide_False by (intros ->; done). by rewrite option_fmap_id.
  - destruct Hc as (-> & Hi0 & m & Hm & Hc). cbn [app] in Hn, Hf. apply NoDup_cons in Hn as (Hil & Hn).
    apply not_elem_of_cons in Hf as (Hfi & Hf). specialize (IH Hn Hf (msg_next m) Hc).
    cbn [app]. split; [done |]. split; [done |].
    assert (Hlast : last (i :: l1) <> Some f).
    { destruct l1 as [|j l1]; [cbn; congruence |]. change (last (i :: j :: l1)) with (last (j :: l1)).
      intros E%last_Some_elem_of. apply Hf, elem_of_app. by left. }
    eexists. rewrite link_lookup by done. rewrite Hm. split; [done |].
    destruct l1 as [|j l1].
    + cbn [last]. rewrite decide_True by done. cbn [app] in IH |- *. cbn [last] in IH.
      eapply msgs_frame; [exact IH |]. intros k Hk. rewrite !link_lookup by (cbn; congruence).
      rewrite (decide_False (P := Some i = Some k)); [| intros [= ->]; apply elem_of_cons in Hk as [->|Hk]; done].
      by rewrite (decide_False (P := None = Some k)) by done.
    + change (last (i :: j :: l1)) with (last (j :: l1)). change (last (i :: j :: l1)) with (last (j :: l1)) in Hlast.
      assert (Hli : last (j :: l1) <> Some i).
      { intros E%last_Some_elem_of. apply Hil, elem_of_app. by left. }
      rewrite decide_False by done. rewrite decide_False by congruence. cbn [id].
      replace (msg_next m) with (match j :: l1 with [] => f | _ :: _ => msg_next m end) by done. exact IH.
Qed.

Lemma alter_swap (g h : mymsg_hdr -> mymsg_hdr) i j (m : gmap Z mymsg_hdr) :
  i <> j -> alter g i (alter h j m) = alter h j (alter g i m).
Proof. intros Hij. apply map_eq. intros k. rewrite !lookup_alter. repeat case_decide; congruence. Qed.

Lemma msg_ok s i m : mapped s !! i = Some m -> msg i s = Ok m s.
Proof. intros H. unfold msg. by rewrite H. Qed.
Lemma set_msg_ok {A} (f : mymsg_hdr -> A) {sf : Setter f} s i m v :
  mapped s !! i = Some m -> set_msg f i v s = Ok tt (over mapped (alter (put f v) i) s).
Proof. intros H. unfold set_msg. by rewrite (bind_Ok _ _ _ _ _ (msg_ok s i m H)). Qed.

(** Where the new message goes: behind [l1]. *)
Lemma place_ok prio f s fuel index p l :
  chain (mapped s) index l -> (length l < fuel)%nat -> f ∉ l -> is_Some (mapped s !! f) ->
  (forall i, p = Some i -> i <> f /\ is_Some (mapped s !! i)) ->
  exists l1 l2, l = l1 ++ l2
  /\ place fuel prio f index p s = Ok tt (link_hdr (match last l1 with Some i => Some i | None => p end) f (first l2) s)
  /\ Forall (fun i => prio <= (content (mapped s) i).1) l1
  /\ match l2 with [] => True | i :: _ => (content (mapped s) i).1 < prio end.
Proof.
  intros Hc Hl Hf (fm & Hfm) Hp. revert fuel index p Hc Hl Hp. induction l as [|i l IH]; intros [|fuel] index p Hc Hl Hp; cbn [length] in Hl; try lia.
  - cbn in Hc. subst index. exists [], []. split; [done |]. split_and!; try done. cbn [place Z.eqb last]. destruct p as [j|].
    + destruct (Hp j eq_refl) as (Hjf & jm & Hjm). cbn [set_link]. rewrite (bind_Ok _ _ _ _ _ (set_msg_ok msg_next s j jm f Hjm)).
      erewrite set_msg_ok; [| cbn; by rewrite lookup_alter_ne by done]. unfold link_hdr, link, over. cbn.
      do 2 f_equal. apply alter_swap. congruence.
    + cbn [set_link]. rewrite (bind_Ok (modify _) _ s tt _ eq_refl). by erewrite set_msg_ok by done.
  - destruct Hc as (-> & Hz & m & Hm & Hc). cbn [place]. rewrite (proj2 (Z.eqb_neq _ _) Hz).
    rewrite (bind_Ok _ _ _ _ _ (msg_ok s i m Hm)). apply not_elem_of_cons in Hf as (Hfi & Hf).
    assert (Hpr : (content (mapped s) i).1 = msg_prio m) by (unfold content; by rewrite Hm).
    destruct (Z.ltb_spec (msg_prio m) prio) as [Hlt|Hge].
    + exists [], (i :: l). split; [done |]. split_and!; [| done | by rewrite Hpr].
      rewrite (bind_Ok _ _ _ _ _ (set_msg_ok msg_next s f fm i Hfm)). cbn [last]. destruct p as [j|]; [| done].
      destruct (Hp j eq_refl) as (Hjf & jm & Hjm). cbn [set_link]. by erewrite set_msg_ok by (cbn; by rewrite lookup_alter_ne by done).
    + destruct (IH Hf fuel (msg_next m) (Some i) Hc ltac:(lia)) as (l1 & l2 & -> & E & H1 & H2).
      { intros j [= <-]. split; [done | by exists m]. }
      exists (i :: l1), l2. split; [done |]. rewrite E. split_and!; [| | done].
      * do 2 f_equal. destruct l1 as [|k l1]; [done |]. change (last (i :: k :: l1)) with (last (k :: l1)).
        by destruct (last (k :: l1)) eqn:El; [| apply last_None in El].
      * constructor; [by rewrite Hpr | done].
Qed.

(** ** The invariant *)

Record mq_ok (C : list Z) (s : mymq_hdr) (ml fl : list Z) : Prop := {
  ok_head : chain (mapped s) (mqh_head s) ml;
  ok_free : chain (mapped s) (mqh_free s) fl;
  ok_nodup : NoDup (ml ++ fl);
  ok_all : ml ++ fl ≡ₚ C;
  ok_cur : mq_curmsgs (mqh_attr s) = Z.of_nat (length ml);
  ok_max : mq_maxmsg (mqh_attr s) = Z.of_nat (length C);
  ok_room : forall i m, mapped s !! i = Some m -> mq_msgsize (mqh_attr s) <= Z.of_nat (length (msg_bytes m)) }.

Definition abs (s : mymq_hdr) (ml : list Z) : list message := content (mapped s) <$> ml.

Lemma pq_insert_at p m l1 l2 :
  Forall (fun x : message => p <= x.1) l1 -> match l2 with [] => True | x :: _ => x.1 < p end ->
  pq_insert p m (l1 ++ l2) = l1 ++ (p, m) :: l2.
Proof.
  intros H1 H2. induction H1 as [|x l1 Hx _ IH]; cbn.
  - destruct l2 as [|x l2]; [done |]. cbn. by rewrite (proj2 (Z.ltb_lt _ _)).
  - by rewrite (proj2 (Z.ltb_ge _ _)), IH by lia.
Qed.

(** The message in cell [f] after it was written. *)
Definition written (ptr : list Z) (prio : Z) (m : mymsg_hdr) : mymsg_hdr :=
  mk_msg (msg_next m) (Z.of_nat (length ptr)) prio (ptr ++ drop (length ptr) (msg_bytes m)).

Lemma alter_known (h : mymsg_hdr -> mymsg_hdr) i x (g : gmap Z mymsg_hdr) : g !! i = Some x -> alter h i g = <[i := h x]> g.
Proof.
  intros H. apply map_eq. intros k. rewrite lookup_alter, lookup_insert. repeat case_decide; subst; try done. by rewrite H.
Qed.

(** The new message is written into the first free cell. *)
Lemma send_write s f fm ptr prio :
  mapped s !! f = Some fm -> (length ptr <= length (msg_bytes fm))%nat ->
  write_msg ptr prio f s
  = Ok tt (put mqh_free (msg_next fm) (put mapped (<[f := written ptr prio fm]> (mapped s)) s)).
Proof.
  intros Hf Hl. set (m1 := put msg_prio prio fm). set (m2 := put msg_len (Z.of_nat (length ptr)) m1).
  set (s1 := put mapped (<[f := m1]> (mapped s)) s). set (s2 := put mapped (<[f := m2]> (mapped s)) s).
  assert (E1 : set_msg msg_prio f prio s = Ok tt s1).
  { rewrite (set_msg_ok _ _ _ _ _ Hf). unfold over. cbn. by rewrite (alter_known _ _ _ _ Hf). }
  assert (H1 : mapped s1 !! f = Some m1) by apply lookup_insert_eq.
  assert (E2 : set_msg msg_len f (Z.of_nat (length ptr)) s1 = Ok tt s2).
  { rewrite (set_msg_ok _ _ _ _ _ H1). unfold over. cbn. rewrite (alter_known _ f m1) by apply lookup_insert_eq.
    by rewrite insert_insert_eq. }
  assert (H2 : mapped s2 !! f = Some m2) by apply lookup_insert_eq.
  unfold write_msg. rewrite (bind_Ok _ _ _ _ _ E1), (bind_Ok _ _ _ _ _ E2).
  set (s3 := put mapped (<[f := written ptr prio fm]> (mapped s)) s).
  assert (E3 : set_msg msg_bytes f (ptr ++ drop (length ptr) (msg_bytes m2)) s2 = Ok tt s3).
  { rewrite (set_msg_ok _ _ _ _ _ H2). unfold over. cbn. rewrite (alter_known _ f m2) by apply lookup_insert_eq.
    by rewrite insert_insert_eq. }
  rewrite (bind_Ok _ _ s2 tt s3).
  2:{ rewrite (bind_Ok _ _ _ _ _ (msg_ok _ _ _ H2)), (proj2 (Nat.ltb_ge _ _)); [exact E3 | exact Hl]. }
  rewrite (bind_Ok _ _ s3 (written ptr prio fm) s3); [done |]. apply msg_ok. apply lookup_insert_eq.
Qed.

Lemma link_hdr_mapped p f idx s : mapped (link_hdr p f idx s) = link p f idx (mapped s).
Proof. by destruct p. Qed.

(** The queue with message [f] linked in behind [l1]. *)
Lemma linked_ok C s l1 l2 f fl ptr prio fm s1 s3 :
  mq_ok C s (l1 ++ l2) (f :: fl) -> mapped s !! f = Some fm -> (length ptr <= length (msg_bytes fm))%nat ->
  s1 = put mqh_free (msg_next fm) (put mapped (<[f := written ptr prio fm]> (mapped s)) s) ->
  s3 = over mqh_attr (over mq_curmsgs Z.succ) (link_hdr (last l1) f (first l2) s1) ->
  mq_ok C s3 (l1 ++ f :: l2) fl /\ abs s3 (l1 ++ f :: l2) = (content (mapped s) <$> l1) ++ (prio, ptr) :: (content (mapped s) <$> l2).
Proof.
  intros [Hh Hf Hn Ha Hc Hm Hr] Hfm Hlen E1 E3. destruct Hf as (Ef & Hf0 & fm' & Hfm' & Hfl).
  assert (fm' = fm) as -> by congruence.
  assert (Hd : (f ∉ l1 ++ l2) /\ (f ∉ fl) /\ forall i, i ∈ l1 -> i ∉ fl).
  { apply NoDup_app in Hn as (_ & Hd & (Hn & _)%NoDup_cons). split_and!; [| done |].
    - intros Hin. apply (Hd f Hin). left.
    - intros i Hi Hin. apply (Hd i); [apply elem_of_app; by left | by right]. }
  destruct Hd as (Hfm1 & Hff & Hdis).
  assert (Hp : last l1 <> Some f) by (intros E%last_Some_elem_of; apply Hfm1, elem_of_app; by left).
  assert (M1 : mapped s1 = <[f := written ptr prio fm]> (mapped s)) by (by subst s1).
  assert (M3 : mapped s3 = link (last l1) f (first l2) (mapped s1)).
  { subst s3. rewrite <- link_hdr_mapped. done. }
  assert (Hne : forall i, i <> f -> mapped s1 !! i = mapped s !! i) by (intros i Hi; rewrite M1; by rewrite lookup_insert_ne).
  assert (Hcont : forall i, i ∈ l1 ++ l2 -> content (mapped s3) i = content (mapped s) i).
  { intros i Hi. rewrite M3, link_content by done. unfold content. by rewrite Hne by (intros ->; done). }
  assert (Hch : chain (mapped s3) (mqh_head s3) (l1 ++ f :: l2)).
  { rewrite M3. replace (mqh_head s3) with (match l1 with [] => f | _ => mqh_head s end).
    - apply link_chain; try done.
      + eapply msgs_frame; [exact Hh |]. intros i Hi. by rewrite Hne by (intros ->; done).
      + by apply NoDup_app in Hn as (Hn & _).
      + rewrite M1, lookup_insert_eq. by eexists.
    - subst s3 s1. destruct l1 as [|a l1]; [done |].
      destruct (last (a :: l1)) eqn:El; [done | by apply last_None in El]. }
  split; [constructor |].
  - exact Hch.
  - assert (Efr : mqh_free s3 = msg_next fm) by (subst s3 s1; by destruct (last l1)). rewrite Efr, M3.
    eapply msgs_frame; [exact Hfl |]. intros i Hi. rewrite link_lookup by done.
    rewrite decide_False by (intros E%last_Some_elem_of; by apply (Hdis i)).
    rewrite decide_False by (intros ->; done). rewrite option_fmap_id. by rewrite Hne by (intros ->; done).
  - eapply (NoDup_Permutation_proper _ _); [| exact Hn]. solve_Permutation.
  - rewrite <- Ha. solve_Permutation.
  - assert (Ecu : mq_curmsgs (mqh_attr s3) = Z.succ (mq_curmsgs (mqh_attr s))) by (subst s3 s1; by destruct (last l1)).
    rewrite Ecu, Hc, !length_app. cbn. lia.
  - subst s3 s1. by destruct (last l1).
  - intros i m. assert (Ems : mq_msgsize (mqh_attr s3) = mq_msgsize (mqh_attr s)) by (subst s3 s1; by destruct (last l1)).
    rewrite Ems, M3, link_lookup, M1, lookup_insert by done. destruct (decide (f = i)) as [<-|Hfi].
    + cbn. intros [= <-]. assert (Hb : length (ptr ++ drop (length ptr) (msg_bytes fm)) = length (msg_bytes fm)).
      { rewrite length_app, length_drop. lia. }
      repeat case_decide; cbn; rewrite ?Hb; by apply (Hr f).
    + destruct (mapped s !! i) as [x|] eqn:Ex; [| done]. intros [= <-]. repeat case_decide; cbn; by apply (Hr i).
  - unfold abs. rewrite fmap_app, fmap_cons. f_equal; [| f_equal].
    + apply list_fmap_ext. intros k i Hi. apply Hcont, elem_of_app. left. by eapply list_elem_of_lookup_2.
    + rewrite M3, link_content by done. unfold content. rewrite M1, lookup_insert_eq. cbn.
      by rewrite Nat2Z.id, take_app_length.
    + apply list_fmap_ext. intros k i Hi. apply Hcont, elem_of_app. right. by eapply list_elem_of_lookup_2.
Qed.

Lemma send_insert_ok C s ml fl ptr prio :
  mq_ok C s ml fl -> mq_curmsgs (mqh_attr s) < mq_maxmsg (mqh_attr s) -> Z.of_nat (length ptr) <= mq_msgsize (mqh_attr s) ->
  exists s' ml' fl', send_insert ptr prio s = Ok (if mq_curmsgs (mqh_attr s) =? 0 then [Signal mqh_wait] else []) s'
  /\ mq_ok C s' ml' fl' /\ abs s' ml' = pq_insert prio ptr (abs s ml)
  /\ mq_msgsize (mqh_attr s') = mq_msgsize (mqh_attr s).
Proof.
  intros Hok Hroom Hlen. pose proof Hok as [Hh Hf Hn Ha Hc Hm Hr]. destruct fl as [|f fl].
  { rewrite app_nil_r in Ha. apply Permutation_length in Ha. lia. }
  destruct Hf as (Ef & Hf0 & fm & Hfm & _).
  assert (Hfml : f ∉ ml).
  { apply NoDup_app in Hn as (_ & Hd & _). intros Hin. apply (Hd f Hin). left. }
  assert (Hb : (length ptr <= length (msg_bytes fm))%nat) by (pose proof (Hr f fm Hfm); lia).
  set (s1 := put mqh_free (msg_next fm) (put mapped (<[f := written ptr prio fm]> (mapped s)) s)).
  assert (Hne : forall i, i ∈ ml -> mapped s1 !! i = mapped s !! i).
  { intros i Hi. change (<[f := written ptr prio fm]> (mapped s) !! i = mapped s !! i).
    rewrite lookup_insert_ne; [done |]. intros ->. done. }
  destruct (place_ok prio f s1 (S (Z.to_nat (mq_maxmsg (mqh_attr s)))) (mqh_head s) None ml)
    as (l1 & l2 & El & Ep & H1 & H2); [| | done | | done |].
  { eapply msgs_frame; [exact Hh |]. intros i Hi. by rewrite Hne. }
  { apply Permutation_length in Ha. rewrite length_app in Ha. lia. }
  { exists (written ptr prio fm). apply lookup_insert_eq. }
  assert (Hl : (match last l1 with Some i => Some i | None => None end) = last l1) by (by destruct (last l1)).
  rewrite Hl in Ep. set (s2 := link_hdr (last l1) f (first l2) s1) in *.
  subst ml. destruct (linked_ok C s l1 l2 f fl ptr prio fm s1 _ Hok Hfm Hb eq_refl eq_refl) as (Hok' & Habs).
  exists (over mqh_attr (over mq_curmsgs Z.succ) s2), (l1 ++ f :: l2), fl. split_and!; [| done | | unfold s2; by destruct (last l1)].
  - unfold send_insert. rewrite (bind_Ok (get mqh_free) _ s _ s eq_refl), Ef, (proj2 (Z.eqb_neq _ _) Hf0).
    rewrite (bind_Ok _ _ _ _ _ (send_write s f fm ptr prio Hfm Hb)). fold s1.
    rewrite (bind_Ok (get mqh_head) _ s1 _ s1 eq_refl), (bind_Ok (attr_of mq_maxmsg) _ s1 _ s1 eq_refl).
    change (mqh_head s1) with (mqh_head s). change (mqh_attr s1) with (mqh_attr s).
    rewrite (bind_Ok _ _ _ _ _ Ep), (bind_Ok (attr_of mq_curmsgs) _ s2 _ s2 eq_refl).
    assert (Ecur : mqh_attr s2 = mqh_attr s) by (unfold s2; by destruct (last l1)). by rewrite Ecur.
  - unfold s2. rewrite Habs. unfold abs. rewrite fmap_app. symmetry. apply pq_insert_at.
    + apply Forall_fmap, Forall_forall. intros i Hi. rewrite Forall_forall in H1. pose proof (H1 i Hi) as Hp. cbn.
      assert (Hi' : i ∈ l1 ++ l2) by (apply elem_of_app; by left). unfold content in Hp. by rewrite (Hne i Hi') in Hp.
    + destruct l2 as [|i l2]; [done |]. cbn. assert (Hi' : i ∈ l1 ++ i :: l2) by (apply elem_of_app; right; left).
      unfold content in H2. by rewrite (Hne i Hi') in H2.
Qed.

Lemma receive_take_ok C s i ml fl :
  mq_ok C s (i :: ml) fl ->
  exists s', receive_take s = Ok ((content (mapped s) i).1, (content (mapped s) i).2,
    if mq_curmsgs (mqh_attr s) =? mq_maxmsg (mqh_attr s) then [Signal mqh_wait] else []) s'
  /\ mq_ok C s' ml (i :: fl) /\ abs s' ml = abs s ml /\ mq_msgsize (mqh_attr s') = mq_msgsize (mqh_attr s).
Proof.
  intros [Hh Hf Hn Ha Hc Hm Hr]. destruct Hh as (Eh & Hi0 & m & Hi & Hml).
  set (g := alter (put msg_next (mqh_free s)) i (mapped s)).
  assert (Hg : forall j, j <> i -> g !! j = mapped s !! j) by (intros j Hj; unfold g; by rewrite lookup_alter_ne).
  assert (Hgi : g !! i = Some (put msg_next (mqh_free s) m)) by (unfold g; rewrite lookup_alter, Hi; by rewrite decide_True).
  cbn [app] in Hn. apply NoDup_cons in Hn as (Hil & Hn). rewrite elem_of_app in Hil.
  exists (over mqh_attr (over mq_curmsgs Z.pred) (put mqh_free i (put mapped g (put mqh_head (msg_next m) s)))). split_and!.
  - unfold receive_take. rewrite (bind_Ok (get mqh_head) _ s _ s eq_refl), Eh, (proj2 (Z.eqb_neq _ _) Hi0).
    rewrite (bind_Ok _ _ _ _ _ (msg_ok s i m Hi)), (bind_Ok (modify _) _ s tt _ eq_refl).
    set (s1 := put mqh_head (msg_next m) s). rewrite (bind_Ok _ _ s1 tt (put mapped g s1)).
    2:{ rewrite (bind_Ok (get mqh_free) _ s1 _ s1 eq_refl). by rewrite (set_msg_ok msg_next s1 i m) by exact Hi. }
    unfold content. by rewrite Hi.
  - constructor; cbn -[g]; try done.
    + eapply msgs_frame; [exact Hml |]. intros j Hj. by rewrite Hg by (intros ->; tauto).
    + split; [done |]. split; [done |]. exists (put msg_next (mqh_free s) m). split; [done |]. cbn.
      eapply msgs_frame; [exact Hf |]. intros j Hj. by rewrite Hg by (intros ->; tauto).
    + eapply (NoDup_Permutation_proper _ (i :: ml ++ fl)); [solve_Permutation |]. by constructor; [rewrite elem_of_app |].
    + rewrite <- Ha. symmetry. apply Permutation_middle.
    + rewrite Hc. cbn. lia.
    + intros j x. destruct (decide (j = i)) as [->|Hj]; [rewrite Hgi | rewrite Hg by done; apply Hr].
      intros [= <-]. exact (Hr i m Hi).
  - apply list_fmap_ext. intros k j Hj. apply list_elem_of_lookup_2 in Hj. unfold content. cbn -[g].
    by rewrite Hg by (intros ->; tauto).
  - done.
Qed.

(** ** A new queue *)

Definition cells_from (n : nat) (msgsize index : Z) : list Z :=
  map (fun k => index + Z.of_nat k * (sizeof_msg_hdr + msgsize)) (seq 0 n).

Lemma cells_from_S n msgsize index :
  cells_from (S n) msgsize index = index :: cells_from n msgsize (index + sizeof_msg_hdr + msgsize).
Proof.
  unfold cells_from. cbn [seq map]. f_equal; [lia |]. rewrite <- (seq_shift n 0), map_map. apply map_ext. intros k. lia.
Qed.

Lemma cells_from_gt n msgsize index i : 0 <= msgsize -> i ∈ cells_from n msgsize index -> index <= i.
Proof.
  intros Hm Hi. unfold cells_from in Hi. apply list_elem_of_fmap in Hi as (k & -> & _). unfold sizeof_msg_hdr. nia.
Qed.

Lemma cells_nodup n msgsize index : 0 <= msgsize -> NoDup (cells_from n msgsize index).
Proof.
  intros Hm. revert index. induction n as [|n IH]; intros index; [constructor |]. rewrite cells_from_S.
  constructor; [| apply IH]. intros Hi%cells_from_gt; [| done]. unfold sizeof_msg_hdr in Hi. lia.
Qed.

(** The loop that makes the free list. *)
Lemma free_links_ok n msgsize index s :
  0 <= msgsize -> 0 < index -> (forall i, i ∈ cells_from (S n) msgsize index -> is_Some (mapped s !! i)) ->
  exists g, free_links n msgsize index s = Ok tt (put mapped g s) /\ chain g index (cells_from (S n) msgsize index)
  /\ (forall i, i < index -> g !! i = mapped s !! i)
  /\ forall i, (fun m => (msg_len m, msg_prio m, msg_bytes m)) <$> g !! i = (fun m => (msg_len m, msg_prio m, msg_bytes m)) <$> mapped s !! i.
Proof.
  intros Hm. revert index s. induction n as [|n IH]; intros index s H0 Hin; rewrite cells_from_S in *;
    destruct (Hin index ltac:(left)) as (x & Hx); cbn [free_links].
  - exists (<[index := put msg_next 0 x]> (mapped s)). rewrite (set_msg_ok _ _ _ _ _ Hx). unfold over. cbn.
    rewrite (alter_known _ _ _ _ Hx). split_and!; [done | done | lia | | |].
    + eexists. rewrite lookup_insert_eq. done.
    + intros i Hi. by rewrite lookup_insert_ne by lia.
    + intros i. rewrite lookup_insert. case_decide; [subst; by rewrite Hx | done].
  - set (nx := index + sizeof_msg_hdr + msgsize) in *. rewrite (bind_Ok _ _ _ _ _ (set_msg_ok msg_next _ _ _ nx Hx)).
    set (s1 := over mapped _ s).
    assert (M1 : mapped s1 = <[index := put msg_next nx x]> (mapped s)) by (unfold s1, over; cbn; by rewrite (alter_known _ _ _ _ Hx)).
    assert (Hnx : index < nx) by (unfold nx, sizeof_msg_hdr; lia).
    destruct (IH nx s1 ltac:(lia)) as (g & Eg & Hg & Hlow & Hrest).
    { intros i Hi. rewrite M1, lookup_insert. case_decide; [by eexists | apply Hin; by right]. }
    exists g. rewrite Eg. split_and!; [done | | |].
    + split; [done |]. split; [lia |]. exists (put msg_next nx x). split; [| exact Hg]. rewrite Hlow, M1 by done. apply lookup_insert_eq.
    + intros i Hi. rewrite Hlow, M1 by lia. by rewrite lookup_insert_ne by lia.
    + intros i. rewrite Hrest, M1, lookup_insert. case_decide; [subst; by rewrite Hx | done].
Qed.

Lemma MSGSIZE_ge n : n <= MSGSIZE n /\ (0 <= n -> 0 <= MSGSIZE n).
Proof.
  unfold MSGSIZE, sizeof_long. pose proof (Z.div_mod (n + 4 - 1) 4 ltac:(lia)). pose proof (Z.mod_pos_bound (n + 4 - 1) 4). lia.
Qed.

Lemma mq_init_ok hdr_size a :
  0 < hdr_size -> 0 < mq_maxmsg a -> 0 < mq_msgsize a -> file_size hdr_size (mq_maxmsg a) (MSGSIZE (mq_msgsize a)) < 2 ^ 31 ->
  let C := cells hdr_size (mq_maxmsg a) (MSGSIZE (mq_msgsize a)) in
  exists s, mq_init hdr_size a (zero_file hdr_size a) = Ok tt s /\ mq_ok C s [] C
  /\ mqh_attr s = mk_attr 0 (mq_maxmsg a) (mq_msgsize a) 0.
Proof.
  intros Hh Hn Hm Hfs C. destruct (MSGSIZE_ge (mq_msgsize a)) as (Hge & Hpos). specialize (Hpos ltac:(lia)).
  set (ms := MSGSIZE (mq_msgsize a)) in *. set (n := Z.to_nat (mq_maxmsg a - 1)).
  assert (HC : C = cells_from (S n) ms hdr_size).
  { unfold C, cells, cells_from. by replace (Z.to_nat (mq_maxmsg a)) with (S n) by (unfold n; lia). }
  set (s0 := put mqh_free hdr_size (put mqh_attr (mk_attr 0 (mq_maxmsg a) (mq_msgsize a) 0) (zero_file hdr_size a))).
  set (z := mk_msg 0 0 0 (replicate (Z.to_nat ms) 0)).
  assert (Hz : forall i x, mapped s0 !! i = Some x <-> i ∈ C /\ x = z).
  { intros i x. change (mapped s0) with (list_to_map (M := gmap Z mymsg_hdr) (map (fun i => (i, z)) C)).
    rewrite <- elem_of_list_to_map.
    - rewrite list_elem_of_fmap. split; [intros (j & [= -> ->] & Hj); done | intros (Hi & ->); by exists i].
    - rewrite <- list_fmap_compose. cbn. rewrite list_fmap_id, HC. by apply cells_nodup. }
  destruct (free_links_ok n ms hdr_size s0 Hpos Hh) as (g & Eg & Hg & _ & Hrest).
  { intros i Hi. exists z. apply Hz. by rewrite HC. }
  exists (put mapped g s0). split.
  { unfold mq_init. fold ms. rewrite (proj2 (Z.leb_gt _ _)) by done. exact Eg. }
  split; [| done]. rewrite <- HC in Hg. constructor; try done.
  - rewrite HC. by apply cells_nodup.
  - change (mq_maxmsg (mqh_attr (put mapped g s0))) with (mq_maxmsg a). rewrite HC. unfold cells_from.
    rewrite length_map, length_seq. unfold n. lia.
  - intros i m Hi. change (mq_msgsize (mqh_attr (put mapped g s0))) with (mq_msgsize a).
    pose proof (Hrest i) as E. change (mapped (put mapped g s0)) with g in Hi. rewrite Hi in E.
    destruct (mapped s0 !! i) as [y|] eqn:Ey; [| done]. apply Hz in Ey as (_ & ->). injection E as _ _ ->.
    cbn. rewrite length_replicate. lia.
Qed.

(** ** The calls on the abstract queue *)

(** What a thread at [l] does to the queue, when it holds [cap] messages of at most
    [size] bytes. *)
Definition spec_send (cap : nat) (ptr : list Z) (prio : Z) (full : next mq_loc outcome_of) (q : list message) :
    list message * next mq_loc outcome_of :=
  if (cap <=? length q)%nat then (q, full) else (pq_insert prio ptr q, Done Sent).
Definition spec_receive (empty : next mq_loc outcome_of) (q : list message) : list message * next mq_loc outcome_of :=
  match q with [] => ([], empty) | (p, m) :: q => (q, Done (Received p m)) end.

Definition mq_spec (cap : nat) (size : Z) (l : mq_loc) (q : list message) : list message * next mq_loc outcome_of :=
  match l with
  | SendCall d ptr prio => (q, if mqi_magic d =? MQI_MAGIC then Go (SendLock d ptr prio) else Done (Failed E_BADF))
  | SendLock d ptr prio =>
    if size <? Z.of_nat (length ptr) then (q, Done (Failed E_MSGSIZE))
    else spec_send cap ptr prio (if nonblocking d then Done (Failed E_AGAIN) else CondWait mqh_wait (SendWoken ptr prio)) q
  | SendWoken ptr prio => spec_send cap ptr prio (CondWait mqh_wait (SendWoken ptr prio)) q
  | RecvCall d maxlen => (q, if mqi_magic d =? MQI_MAGIC then Go (RecvLock d maxlen) else Done (Failed E_BADF))
  | RecvLock d maxlen =>
    if maxlen <? size then (q, Done (Failed E_MSGSIZE))
    else spec_receive (if nonblocking d then Done (Failed E_AGAIN) else CondWait mqh_wait RecvWoken) q
  | RecvWoken => spec_receive (CondWait mqh_wait RecvWoken) q
  end.

(** The file represents queue [q]. *)
Definition represents (C : list Z) (size : Z) (s : mymq_hdr) (q : list message) : Prop :=
  exists ml fl, mq_ok C s ml fl /\ q = abs s ml /\ mq_msgsize (mqh_attr s) = size.

(** A sender that waits has been checked. *)
Definition loc_ok (size : Z) (l : mq_loc) : Prop :=
  match l with SendWoken ptr _ => Z.of_nat (length ptr) <= size | _ => True end.

Lemma represents_length C size s q :
  represents C size s q -> mq_curmsgs (mqh_attr s) = Z.of_nat (length q) /\ mq_maxmsg (mqh_attr s) = Z.of_nat (length C)
  /\ mq_msgsize (mqh_attr s) = size /\ (length q <= length C)%nat.
Proof.
  intros (ml & fl & Hok & -> & Hs). unfold abs. rewrite length_fmap. split_and!; [apply (ok_cur _ _ _ _ Hok) | apply (ok_max _ _ _ _ Hok) | done |].
  pose proof (Permutation_length (ok_all _ _ _ _ Hok)) as E. rewrite length_app in E. lia.
Qed.

(** The fields the representation does not depend on. *)
Lemma represents_same C size s s' q :
  represents C size s q -> mapped s' = mapped s -> mqh_head s' = mqh_head s -> mqh_free s' = mqh_free s ->
  mqh_attr s' = mqh_attr s -> represents C size s' q.
Proof.
  intros (ml & fl & [H1 H2 H3 H4 H5 H6 H7] & -> & Hs) E1 E2 E3 E4. exists ml, fl. unfold abs. rewrite E1, E4.
  split_and!; try done. constructor; rewrite ?E1, ?E2, ?E3, ?E4; done.
Qed.

Lemma send_now_ok C size s q ptr prio :
  represents C size s q -> (length q < length C)%nat -> Z.of_nat (length ptr) <= size ->
  exists s' ws, send_now ptr prio s = Ok (ws, Done Sent) s' /\ represents C size s' (pq_insert prio ptr q).
Proof.
  intros Hr Hq Hl. destruct (represents_length _ _ _ _ Hr) as (Hc & Hm & Hs & _). destruct Hr as (ml & fl & Hok & -> & _).
  destruct (send_insert_ok C s ml fl ptr prio Hok) as (s' & ml' & fl' & E & Hok' & Habs & Hsz); [lia | lia |].
  exists s'. eexists. unfold send_now. rewrite (bind_Ok _ _ _ _ _ E). split; [done |]. exists ml', fl'.
  split_and!; [done | done | lia].
Qed.

Lemma receive_now_ok C size s p m q :
  represents C size s ((p, m) :: q) ->
  exists s' ws, receive_now s = Ok (ws, Done (Received p m)) s' /\ represents C size s' q.
Proof.
  intros Hr. destruct Hr as (ml & fl & Hok & E & Hs). destruct ml as [|i ml]; [done |]. cbn in E. injection E as Ec ->.
  destruct (receive_take_ok C s i ml fl Hok) as (s' & E' & Hok' & Habs & Hsz). rewrite <- Ec in E'.
  exists s'. eexists. unfold receive_now. rewrite (bind_Ok _ _ _ _ _ E'). split; [done |]. exists ml, (i :: fl).
  split_and!; [done | by rewrite Habs | lia].
Qed.

Lemma notify_first_ok C size s q :
  represents C size s q -> exists s', notify_first s = Ok tt s' /\ represents C size s' q.
Proof.
  intros Hr. unfold notify_first. rewrite (bind_Ok (get id) _ s s s eq_refl).
  destruct (_ && _); [| by exists s]. destruct (_ =? _).
  - eexists. split; [done |]. by eapply represents_same.
  - eexists. split; [done |]. by eapply represents_same.
Qed.

Ltac mq_done := eexists _, _; (split; [done |]); by eapply represents_same.

Lemma mq_body_ok C size s q l :
  (0 < length C)%nat -> represents C size s q -> loc_ok size l ->
  exists s' ws, mq_body l s = Ok (ws, (mq_spec (length C) size l q).2) s'
  /\ represents C size s' (mq_spec (length C) size l q).1.
Proof.
  intros H0 Hr Hl. destruct (represents_length _ _ _ _ Hr) as (Hc & Hm & Hs & Hle).
  assert (Hfull : (mq_maxmsg (mqh_attr s) <=? mq_curmsgs (mqh_attr s)) = (length C <=? length q)%nat).
  { rewrite Hc, Hm. apply eq_true_iff_eq. rewrite Z.leb_le, Nat.leb_le. lia. }
  destruct l as [d ptr prio|d ptr prio|ptr prio|d maxlen|d maxlen|]; cbn [mq_body mq_spec].
  - unfold mq_check. destruct (mqi_magic d =? MQI_MAGIC); mq_done.
  - unfold send_lock. rewrite (bind_Ok (attr_of id) _ s _ s eq_refl). cbn [id]. rewrite Hs, Hfull.
    destruct (Z.ltb_spec size (Z.of_nat (length ptr))) as [Hlt|Hge]; [mq_done |]. unfold spec_send.
    destruct (Z.eqb_spec (mq_curmsgs (mqh_attr s)) 0) as [Hz|Hz].
    + destruct (notify_first_ok C size s q Hr) as (s1 & E1 & Hr1). rewrite (bind_Ok _ _ _ _ _ E1).
      rewrite (proj2 (Nat.leb_gt _ _)) by lia. apply send_now_ok; [done | lia | done].
    + destruct (Nat.leb_spec (length C) (length q)); [destruct (nonblocking d); mq_done | by apply send_now_ok].
  - unfold send_woken. rewrite (bind_Ok (attr_of id) _ s _ s eq_refl). cbn [id]. rewrite Hfull. unfold spec_send.
    destruct (Nat.leb_spec (length C) (length q)); [mq_done | by apply send_now_ok].
  - unfold mq_check. destruct (mqi_magic d =? MQI_MAGIC); mq_done.
  - unfold receive_lock. rewrite (bind_Ok (attr_of id) _ s _ s eq_refl). cbn [id]. rewrite Hs, Hc.
    destruct (maxlen <? size); [mq_done |]. destruct q as [|[p m] q].
    + cbn. destruct (nonblocking d); mq_done.
    + rewrite (proj2 (Z.eqb_neq _ _)) by (cbn [length]; lia). by apply receive_now_ok.
  - unfold receive_woken. rewrite (bind_Ok (attr_of id) _ s _ s eq_refl). cbn [id]. rewrite Hc. destruct q as [|[p m] q].
    + cbn. mq_done.
    + rewrite (proj2 (Z.eqb_neq _ _)) by (cbn [length]; lia). rewrite (bind_Ok (modify _) _ s tt _ eq_refl).
      apply receive_now_ok. by eapply represents_same.
Qed.

(** ** All interleavings *)

Lemma pq_insert_sorted p m q : StronglySorted by_priority q -> StronglySorted by_priority (pq_insert p m q).
Proof.
  intros H. induction H as [|x q Hs IH Hx]; cbn; [repeat constructor |]. destruct (Z.ltb_spec x.1 p).
  - constructor; [by constructor |]. constructor; [unfold by_priority; cbn; lia |].
    eapply Forall_impl; [exact Hx |]. unfold by_priority. cbn. intros y Hy. lia.
  - constructor; [done |]. destruct (pq_insert_split p m q) as (l1 & l2 & -> & -> & _). apply Forall_app in Hx as (H1 & H2).
    apply Forall_app. split; [done |]. constructor; [done | done].
Qed.

Lemma mq_spec_sorted cap size l q : StronglySorted by_priority q -> StronglySorted by_priority (mq_spec cap size l q).1.
Proof.
  intros H. destruct l; cbn [mq_spec]; try done; unfold spec_send, spec_receive; repeat case_match; cbn; try done;
    try (by apply pq_insert_sorted); by apply StronglySorted_inv in H as (? & _).
Qed.

Definition thread_ok (size : Z) (t : thread mq_loc outcome_of) : Prop :=
  match t with Out _ => True | Want l | Asleep _ l => loc_ok size l end.

Lemma mq_spec_next cap size l q : loc_ok size l -> thread_ok size (after (mq_spec cap size l q).2).
Proof.
  intros Hl. destruct l; cbn [mq_spec]; unfold spec_send, spec_receive; repeat case_match; cbn; try done; lia.
Qed.

Lemma thread_ok_wakes size w ts ts' : Forall (thread_ok size) ts -> wakes w ts ts' -> Forall (thread_ok size) ts'.
Proof.
  intros Hs Hw. assert (Hk : forall t, thread_ok size t -> thread_ok size (wake t)) by (by intros []).
  destruct Hw as [c i t l Hi _|c l _|c l]; [| done |].
  - apply Forall_insert; [done |]. apply Hk. by eapply Forall_lookup_1.
  - apply Forall_fmap. eapply Forall_impl; [done |]. intros t Ht. cbn. case_decide; [by apply Hk | done].
Qed.

Definition mq_inv (C : list Z) (size : Z) (a : mymq_hdr * list (thread mq_loc outcome_of)) : Prop :=
  (exists q, represents C size a.1 q /\ StronglySorted by_priority q) /\ Forall (thread_ok size) a.2.

Lemma mq_inv_step C size a b :
  (0 < length C)%nat -> mq_inv C size a -> step mq_code mq_calls a b -> mq_inv C size b.
Proof.
  intros H0 ((q & Hr & Hq) & Hts) Hs. inversion Hs as [s ts i t l Hi Hc|s ts i l s' ws n ts' Hi Hc Hw|s ts i c l Hi]; subst; cbn [fst snd] in *.
  - split; [by exists q |]. apply Forall_insert; [done |]. by destruct l.
  - pose proof (Forall_lookup_1 _ _ _ _ Hts Hi) as Hl. cbn in Hl.
    destruct (mq_body_ok C size s q l H0 Hr Hl) as (s1 & ws1 & E & Hr1). unfold mq_code in Hc. rewrite E in Hc. injection Hc as -> <- <-.
    split; [exists (mq_spec (length C) size l q).1; split; [done | by apply mq_spec_sorted] |].
    assert (H1 : Forall (thread_ok size) (<[i := after (mq_spec (length C) size l q).2]> ts)).
    { apply Forall_insert; [done |]. by apply mq_spec_next. }
    clear - Hw H1. induction Hw as [|w ws t1 t2 t3 Hw1 _ IH]; [done |]. apply IH. by eapply thread_ok_wakes.
  - split; [by exists q |]. apply Forall_insert; [done |]. by pose proof (Forall_lookup_1 _ _ _ _ Hts Hi).
Qed.

(** C19: A message queue made by [mq_open], whose file size does not overflow, behaves
    like a bounded queue ordered by priority, first come first served within a priority,
    under every interleaving of the threads that send and receive, whichever of them a
    signal wakes: the mapped file represents such a queue, never longer than
    [mq_maxmsg], and whatever step a thread in [mq_send] or [mq_receive] takes next
    returns or waits as the abstract queue says, in all cases with their error numbers,
    and leaves a file that represents the queue after it. No thread ever finds the free
    list or the list of messages empty when the count says it is not. *)
Theorem mq_refines hdr_size a n s0 s ts :
  0 < hdr_size -> 0 < mq_maxmsg a -> 0 < mq_msgsize a ->
  mq_init hdr_size a (zero_file hdr_size a) = Ok tt s0 ->
  reaches mq_code mq_calls (s0, replicate n (Out Sent)) (s, ts) ->
  let C := cells hdr_size (mq_maxmsg a) (MSGSIZE (mq_msgsize a)) in
  let spec := mq_spec (Z.to_nat (mq_maxmsg a)) (mq_msgsize a) in
  exists q, represents C (mq_msgsize a) s q /\ Z.of_nat (length q) <= mq_maxmsg a /\ StronglySorted by_priority q
  /\ forall i l, ts !! i = Some (Want l) ->
     exists s' ws, mq_code l s = Some (s', ws, (spec l q).2) /\ represents C (mq_msgsize a) s' (spec l q).1.
Proof.
  intros Hh Hm Hs E Hr C spec.
  assert (Hfs : file_size hdr_size (mq_maxmsg a) (MSGSIZE (mq_msgsize a)) < 2 ^ 31).
  { unfold mq_init in E. destruct (Z.leb_spec (2 ^ 31) (file_size hdr_size (mq_maxmsg a) (MSGSIZE (mq_msgsize a)))); [done | lia]. }
  destruct (mq_init_ok hdr_size a Hh Hm Hs Hfs) as (s0' & E' & Hok & Hattr).
  assert (s0' = s0) as -> by congruence.
  assert (HC : length C = Z.to_nat (mq_maxmsg a)) by (unfold C, cells; by rewrite length_map, length_seq).
  assert (Hinv : mq_inv C (mq_msgsize a) (s, ts)).
  { eapply reaches_inv; [| | exact Hr].
    - intros x y Hx Hxy. eapply mq_inv_step; [lia | done | done].
    - split; [| by apply Forall_replicate]. exists []. split; [| constructor]. exists [], C. cbn [fst]. rewrite Hattr. done. }
  destruct Hinv as ((q & Hq & Hsort) & Hts). exists q. destruct (represents_length _ _ _ _ Hq) as (_ & _ & _ & Hle).
  split_and!; [done | lia | done |]. intros i l Hi. pose proof (Forall_lookup_1 _ _ _ _ Hts Hi) as Hl.
  destruct (mq_body_ok C (mq_msgsize a) s q l ltac:(lia) Hq Hl) as (s' & ws & Eb & Hr'). rewrite HC in *.
  exists s', ws. unfold mq_code. by rewrite Eb.
Qed.

#[export] Instance mq_calls_dec o l : Decision (mq_calls o l).
Proof. unfold mq_calls. destruct l; apply _. Defined.

(** ** A queue of three messages of up to ten bytes *)

Definition demo_attr : mymq_attr := mk_attr 0 3 10 0.
Definition demo_info : mymq_info := mk_info MQI_MAGIC 0.
Definition demo_new : mymq_hdr :=
  match mq_init 100 demo_attr (zero_file 100 demo_attr) with Ok _ s => s | _ => zero_file 100 demo_attr end.
Lemma demo_init : mq_init 100 demo_attr (zero_file 100 demo_attr) = Ok tt demo_new.
Proof. vm_compute. reflexivity. Qed.

(** Two threads wait for a message and two send one. *)
Definition demo_schedule : list (choice (L := mq_loc)) :=
  [Call 0 (RecvCall demo_info 10); Run 0 []; Run 0 []; Call 1 (RecvCall demo_info 10); Run 1 []; Run 1 [];
   Call 2 (SendCall demo_info [1; 2] 5); Run 2 []; Run 2 [0%nat]; Call 3 (SendCall demo_info [3] 7); Run 3 []; Run 3 []].

Lemma mq_refines_witness :
  exists s ts, schedule_of mq_code mq_calls demo_schedule (demo_new, replicate 4 (Out Sent)) = Some (s, ts)
  /\ exists q, represents (cells 100 3 12) 10 s q /\ Z.of_nat (length q) <= 3 /\ StronglySorted by_priority q
  /\ forall i l, ts !! i = Some (Want l) ->
     exists s' ws, mq_code l s = Some (s', ws, (mq_spec 3 10 l q).2) /\ represents (cells 100 3 12) 10 s' (mq_spec 3 10 l q).1.
Proof.
  destruct (schedule_of mq_code mq_calls demo_schedule (demo_new, replicate 4 (Out Sent))) as [[s ts]|] eqn:E.
  - exists s, ts. split; [done |].
    exact (mq_refines 100 demo_attr 4 demo_new s ts ltac:(lia) ltac:(done) ltac:(done) demo_init (schedule_runs _ _ _ _ _ E)).
  - exfalso. revert E. vm_compute. discriminate.
Defined.

(** A wake-up can be lost: [mq_send] signals only when the queue was empty, so a second
    message that arrives before the receiver woken by the first one runs wakes nobody.
    A receiver is left asleep with a message in the queue and no other thread in the
    routines. *)
Theorem mq_lost_wakeup :
  exists s ts, reaches mq_code mq_calls (demo_new, replicate 4 (Out Sent)) (s, ts)
  /\ ts = [Out (Received 7 [3]); Asleep mqh_wait RecvWoken; Out Sent; Out Sent] /\ mq_curmsgs (mqh_attr s) = 1.
Proof.
  destruct (schedule_of mq_code mq_calls (demo_schedule ++ [Run 0 []]) (demo_new, replicate 4 (Out Sent))) as [[s ts]|] eqn:E.
  - exists s, ts. split; [by eapply schedule_runs |]. revert E. vm_compute. by intros [= <- <-].
  - exfalso. revert E. vm_compute. discriminate.
Qed.
