(* ===== verification/Semaphore.v ===== *)
(** Semaphores in a mapped file (unpv22e/my_pxsem_mmap): a count protected by a mutex,
    and a condition variable for the change from zero. *)
From stdpp Require Import base list relations.
From Stdlib Require Import ZArith Lia.
From S2P Require Import Prelude Pthread.
Open Scope Z_scope.

Module Sem.

Definition SEM_MAGIC : Z := 0x67458923.

(** [sem_count] is an [unsigned int]. *)
Record mysem_t := mk_sem { sem_count : Z; sem_magic : Z }.
#[export] Instance sem_fields : Fields mysem_t := fun s => mk_sem (sem_count s) (sem_magic s).

Definition sem_cond : nat := 0.

(** What a thread has done so far: how often it has incremented and decremented the
    semaphore, and the result of its last call. *)
Record past := mk_past { posted : Z; taken : Z; last_result : Z }.
#[export] Instance past_fields : Fields past := fun h => mk_past (posted h) (taken h) (last_result h).

Inductive sem_loc :=
| WaitCall (h : past) | WaitLock (h : past)
| PostCall (h : past) | PostLock (h : past)
| TryCall (h : past) | TryLock (h : past)
| GetCall (h : past) | GetLock (h : past).

Definition sem_result : Type := option (mysem_t * list wakeup * next sem_loc past).

(** A failing call returns -1; [errno] is noted as a negative result. *)
Definition failed (e : Z) (h : past) : past := put last_result (- e) h.
Definition sem_check (s : mysem_t) (h : past) (l : sem_loc) : sem_result :=
  if negb (sem_magic s =? SEM_MAGIC) then Some (s, [], Done (failed E_INVAL h)) else Some (s, [], Go l).

Definition take_one (h : past) : past := put last_result 0 (over taken Z.succ h).

(** A thread that was woken goes on at the test of the loop. *)
Definition mysem_wait (h : past) (s : mysem_t) : sem_result :=
  if sem_count s =? 0 then Some (s, [], CondWait sem_cond (WaitLock h))
  else Some (over sem_count (fun c => u32 (c - 1)) s, [], Done (take_one h)).

Definition mysem_post (h : past) (s : mysem_t) : sem_result :=
  Some (over sem_count (fun c => u32 (c + 1)) s, if sem_count s =? 0 then [Signal sem_cond] else [],
        Done (put last_result 0 (over posted Z.succ h))).

Definition mysem_trywait (h : past) (s : mysem_t) : sem_result :=
  if 0 <? sem_count s then Some (over sem_count (fun c => u32 (c - 1)) s, [], Done (take_one h))
  else Some (s, [], Done (failed E_AGAIN h)).

Definition mysem_getvalue (h : past) (s : mysem_t) : sem_result := Some (s, [], Done (put last_result (sem_count s) h)).

Definition sem_code (l : sem_loc) (s : mysem_t) : sem_result :=
  match l with
  | WaitCall h => sem_check s h (WaitLock h)
  | WaitLock h => mysem_wait h s
  | PostCall h => sem_check s h (PostLock h)
  | PostLock h => mysem_post h s
  | TryCall h => sem_check s h (TryLock h)
  | TryLock h => mysem_trywait h s
  | GetCall h => sem_check s h (GetLock h)
  | GetLock h => mysem_getvalue h s
  end.
Definition sem_calls (h : past) (l : sem_loc) : Prop := l = WaitCall h \/ l = PostCall h \/ l = TryCall h \/ l = GetCall h.

(** ** Conservation *)

Definition history (t : thread sem_loc past) : past :=
  match t with
  | Out h => h
  | Want (WaitCall h | WaitLock h | PostCall h | PostLock h | TryCall h | TryLock h | GetCall h | GetLock h)
  | Asleep _ (WaitCall h | WaitLock h | PostCall h | PostLock h | TryCall h | TryLock h | GetCall h | GetLock h) => h
  end.
Definition posts (ts : list (thread sem_loc past)) : Z := count (fun t => posted (history t)) ts.
Definition takes (ts : list (thread sem_loc past)) : Z := count (fun t => taken (history t)) ts.

Definition sem_start (value : Z) (n : nat) : mysem_t * list (thread sem_loc past) :=
  (mk_sem value SEM_MAGIC, replicate n (Out (mk_past 0 0 0))).

(** What a step does to the count and to the thread's history. *)
Lemma sem_code_effect l s s' ws n :
  sem_code l s = Some (s', ws, n) -> sem_magic s = SEM_MAGIC -> 0 <= sem_count s < 2 ^ 32 ->
  let h := history (Want l) in let h' := history (after n) in
  sem_magic s' = SEM_MAGIC /\ 0 <= sem_count s' < 2 ^ 32
  /\ exists p k, posted h' = posted h + p /\ taken h' = taken h + k /\ 0 <= p /\ 0 <= k
     /\ k <= sem_count s /\ sem_count s' = u32 (sem_count s + p - k).
Proof.
  intros E Hm Hc. pose proof (u32_small (sem_count s) Hc) as Hsm.
  assert (Hu : forall x, 0 <= u32 x < 2 ^ 32) by apply u32_range.
  destruct l; cbn [sem_code] in E; unfold sem_check, mysem_wait, mysem_post, mysem_trywait, mysem_getvalue in E;
    try (rewrite Hm, Z.eqb_refl in E; cbn [negb] in E); repeat case_match; simplify_eq; cbn -[u32 Z.pow];
    (split; [done |]); (split; [first [apply Hu | lia] |]).
  all: try (exists 0, 0; rewrite ?Z.add_0_r, ?Z.sub_0_r, Hsm; split_and!; (done || lia)).
  all: b2p_in H.
  1, 4: exists 0, 1; split_and!; (lia || (f_equal; lia)).
  all: exists 1, 0; split_and!; (lia || (f_equal; lia)).
Qed.

Lemma after_wake t : history (wake t) = history t.
Proof. by destruct t as [| |c []]. Qed.

(** The count, as long as it does not overflow. *)
Record sem_inv (value : Z) (a : mysem_t * list (thread sem_loc past)) : Prop := {
  sem_inv_magic : sem_magic a.1 = SEM_MAGIC;
  sem_inv_count : 0 <= sem_count a.1 < 2 ^ 32;
  sem_inv_pos : 0 <= posts a.2 /\ 0 <= takes a.2;
  sem_inv_sum : value + posts a.2 < 2 ^ 32 -> sem_count a.1 = value + posts a.2 - takes a.2 }.

Lemma sem_inv_same value s ts ts' :
  sem_inv value (s, ts) -> posts ts' = posts ts -> takes ts' = takes ts -> sem_inv value (s, ts').
Proof. intros [H1 H2 H3 H4] E1 E2. constructor; cbn [fst snd] in *; rewrite ?E1, ?E2; done. Qed.

Lemma sem_move ts i t t' :
  ts !! i = Some t ->
  posts (<[i := t']> ts) = posts ts - posted (history t) + posted (history t')
  /\ takes (<[i := t']> ts) = takes ts - taken (history t) + taken (history t').
Proof. intros Hi. split; by apply (count_insert (fun t => _ (history t))). Qed.

Lemma sem_inv_step value a b : sem_inv value a -> step sem_code sem_calls a b -> sem_inv value b.
Proof.
  intros Hinv Hs. inversion Hs as [s ts i h l Hi Hc|s ts i l s' ws n ts' Hi Hc Hw|s ts i c l Hi]; subst.
  - destruct (sem_move ts i _ (Want l) Hi) as (E1 & E2).
    assert (El : history (Want l) = h) by (destruct Hc as [->|[->|[->| ->]]]; done).
    rewrite El in E1, E2. cbn in E1, E2. eapply sem_inv_same; [done | lia | lia].
  - destruct (sem_move ts i _ (after n) Hi) as (E1 & E2).
    assert (Hp : posts ts' = posts (<[i := after n]> ts)).
    { apply (count_wake_all _ _ _ _ (fun t => f_equal posted (after_wake t)) Hw). }
    assert (Hk : takes ts' = takes (<[i := after n]> ts)).
    { apply (count_wake_all _ _ _ _ (fun t => f_equal taken (after_wake t)) Hw). }
    destruct Hinv as [H1 H2 H3 H4]. cbn [fst snd] in *.
    destruct (sem_code_effect l s s' ws n Hc H1 H2) as (Hm & Hr & p & k & Ep & Ek & Hp0 & Hk0 & Hle & Es).
    constructor; cbn [fst snd]; [done | done | lia |]. intros Hov. specialize (H4 ltac:(lia)).
    rewrite Es, u32_small by lia. lia.
  - destruct (sem_move ts i _ (Want l) Hi) as (E1 & E2).
    assert (El : history (Want l) = history (Asleep c l)) by (by destruct l). rewrite El in E1, E2.
    eapply sem_inv_same; [done | lia | lia].
Qed.

(** Under every interleaving of the threads the semaphore counts: as long as the
    value it started with and the number of [sem_post] calls together stay below two to
    the thirty-second, the count is that value plus the [sem_post] calls minus the
    successful [sem_wait] and [sem_trywait] calls, so that these never succeed more often
    than the value and the posts allow. *)
Theorem semaphore_counts value n s ts :
  0 <= value < 2 ^ 32 -> reaches sem_code sem_calls (sem_start value n) (s, ts) -> value + posts ts < 2 ^ 32 ->
  sem_count s = value + posts ts - takes ts /\ takes ts <= value + posts ts.
Proof.
  intros Hv Hr Hov. assert (Hinv : sem_inv value (s, ts)).
  { eapply reaches_inv; [| | exact Hr]; [apply sem_inv_step |].
    assert (Hz : posts (sem_start value n).2 = 0 /\ takes (sem_start value n).2 = 0) by (split; apply count_zero; by apply Forall_replicate).
    destruct Hz as (Hp & Hk). constructor; rewrite ?Hp, ?Hk; cbn [fst sem_start sem_count]; try done. lia. }
  destruct Hinv as [H1 H2 H3 H4]. cbn [fst snd] in *. specialize (H4 Hov). lia.
Qed.

#[export] Instance sem_calls_dec h l : Decision (sem_calls h l).
Proof.
  assert (EqDecision past) by solve_decision. assert (EqDecision sem_loc) by solve_decision. unfold sem_calls. apply _.
Defined.

(** Two threads wait, two others increment the semaphore before the first one that is
    woken runs. *)
Definition no_past : past := mk_past 0 0 0.
Definition sem_schedule : list (choice (L := sem_loc)) :=
  [Call 0 (WaitCall no_past); Run 0 []; Run 0 []; Call 1 (WaitCall no_past); Run 1 []; Run 1 [];
   Call 2 (PostCall no_past); Run 2 []; Run 2 [0%nat]; Call 3 (PostCall no_past); Run 3 []; Run 3 []; Run 0 []].
Definition demo_end : mysem_t * list (thread sem_loc past) :=
  (mk_sem 1 SEM_MAGIC,
   [Out (mk_past 0 1 0); Asleep sem_cond (WaitLock no_past); Out (mk_past 1 0 0); Out (mk_past 1 0 0)]).
Lemma demo_runs : reaches sem_code sem_calls (sem_start 0 4) demo_end.
Proof. apply (schedule_runs _ _ sem_schedule). vm_compute. reflexivity. Qed.

Lemma semaphore_counts_witness :
  sem_count demo_end.1 = 0 + posts demo_end.2 - takes demo_end.2 /\ takes demo_end.2 <= 0 + posts demo_end.2.
Proof. apply (semaphore_counts 0 4 demo_end.1 demo_end.2); [lia | exact demo_runs | vm_compute; reflexivity]. Defined.

(** A wake-up can be lost: [sem_post] signals only when the count was zero.  A thread is
    left asleep in [sem_wait] although the count is one and no other thread is in the
    routines. *)
Theorem semaphore_lost_wakeup :
  exists s ts, reaches sem_code sem_calls (sem_start 0 4) (s, ts) /\ sem_count s = 1
  /\ ts !! 1%nat = Some (Asleep sem_cond (WaitLock no_past)) /\ forall i, i <> 1%nat -> (i < 4)%nat -> exists h, ts !! i = Some (Out h).
Proof.
  exists demo_end.1, demo_end.2. split_and!; [exact demo_runs | done | done |].
  intros i Hi Hlt. do 4 (destruct i as [|i]; [first [done | by eexists] |]). lia.
Qed.
End Sem.
