(* ===== verification/Hoc.v ===== *)
(** The calculator hoc6 (hoc-soledad/src): its symbol table (symbol.c, init.c), the
    functions that check the mathematical library (math.c), the stack machine (code.c)
    and the code its grammar generates (hoc.y). *)
From stdpp Require Import base list gmap strings.
From Stdlib Require Import ZArith Lia Floats.SpecFloat.
From S2P Require Import Prelude.
Open Scope Z_scope.

Module Hoc.

(** ** Numbers

    [double] is the IEEE format of 64 bits. *)

Definition double : Type := spec_float.
Definition of_Z (z : Z) : double := binary_normalize 53 1024 z 0 false.
Definition of_bool (b : bool) : double := of_Z (bool_to_c b).
Definition zero : double := of_Z 0.
Definition one : double := of_Z 1.
Definition fadd : double -> double -> double := SFadd 53 1024.
Definition fsub : double -> double -> double := SFsub 53 1024.
Definition fmul : double -> double -> double := SFmul 53 1024.
Definition fdiv : double -> double -> double := SFdiv 53 1024.
(** [d] as a condition. *)
Definition truth (d : double) : bool := negb (SFeqb d zero).

(** The integer part, and the conversions to [long] and [int]: undefined when it does
    not fit. *)
Definition trunc (d : double) : option Z :=
  match d with
  | S754_zero _ => Some 0
  | S754_finite s m e =>
    let z := if 0 <=? e then Z.pos m * 2 ^ e else Z.pos m / 2 ^ (- e) in Some (if s then - z else z)
  | _ => None
  end.
Definition within (bits : Z) (z : Z) : bool := (- 2 ^ (bits - 1) <=? z) && (z <? 2 ^ (bits - 1)).
Definition to_long (d : double) : option Z := z ← trunc d; if within 64 z then Some z else None.
Definition to_int (d : double) : option Z := z ← trunc d; if within 32 z then Some z else None.

(** ** Results

    A routine returns, ends in [execerror] with its two strings, does something
    undefined, or is stopped because the fuel of a loop is used up. *)

Inductive res (S A : Type) : Type :=
| Done (a : A) (s : S)
| Err (s t : string) (st : S)
| Stuck
| Timeout.
Arguments Done {S A} _ _.
Arguments Err {S A} _ _ _.
Arguments Stuck {S A}.
Arguments Timeout {S A}.

Definition H (S A : Type) : Type := S -> res S A.

Section Monad.
Context {S : Type}.
Definition ret {A} (a : A) : H S A := fun s => Done a s.
Definition bind {A B} (m : H S A) (k : A -> H S B) : H S B := fun s =>
  match m s with Done a s' => k a s' | Err x y s' => Err x y s' | Stuck => Stuck | Timeout => Timeout end.
Definition get {A} (f : S -> A) : H S A := fun s => Done (f s) s.
Definition modify (f : S -> S) : H S unit := fun s => Done tt (f s).
Definition execerror {A} (s t : string) : H S A := fun st => Err s t st.
Definition stuck {A} : H S A := fun _ => Stuck.
Definition timeout {A} : H S A := fun _ => Timeout.
Definition need {A} (o : option A) : H S A := match o with Some a => ret a | None => stuck end.
End Monad.

Declare Scope hoc_scope.
Notation "'let*' x ':=' m 'in' k" := (bind m (fun x => k))
  (at level 10, x pattern, m at level 100, k at level 200) : hoc_scope.
Notation "m ';;;' k" := (bind m (fun _ => k))
  (at level 190, right associativity) : hoc_scope.
Open Scope hoc_scope.

(** ** Symbols *)

Inductive libfun : Type :=
| lib_sin | lib_cos | lib_tan | lib_atan | lib_asin | lib_acos | lib_sinh | lib_cosh | lib_tanh | lib_log | lib_log10
| lib_exp | lib_sqrt | lib_fabs | lib_erf | lib_erfc.
Inductive errno_t : Type := EDOM | ERANGE.

(** The mathematical library: the value, and what it stores in [errno] if it reports an
    error; [gamma] also gives the sign it leaves in [signgam]. *)
Class Libm := {
  libm : libfun -> double -> double * option errno_t;
  lib_pow : double -> double -> double * option errno_t;
  lib_gamma : double -> double * option errno_t * Z }.

(** The functions of the table [builtins]. *)
Inductive builtin : Type :=
| Lib (f : libfun)
| Asin | Acos | Sinh | Cosh | Log | Log10 | Exp | Sqrt | Gamma | integer.

Inductive keyword : Type := PROC | FUNC | RETURN | IF | ELSE | WHILE | FOR | PRINT | READ.
Inductive sym_type : Type := NUMBER | VAR | BLTIN | UNDEF | FUNCTION | PROCEDURE | Keyword (k : keyword).
#[export] Instance keyword_eq_dec : EqDecision keyword.
Proof. solve_decision. Defined.
#[export] Instance sym_type_eq_dec : EqDecision sym_type.
Proof. solve_decision. Defined.

(** The union [u]. *)
Inductive sym_u : Type := UVal (d : double) | UPtr (f : builtin) | UDefn (a : nat).
Record Symbol := mk_symbol { name : string; type : sym_type; u : sym_u }.
#[export] Instance symbol_fields : Fields Symbol := fun s => mk_symbol (name s) (type s) (u s).

(** What [fscanf(fin, "%lf", ...)] finds: a number, something else, or the end of the
    file, with the result of [moreinput]. *)
Inductive scanned : Type := ScanNum (d : double) | ScanOther | ScanEof (more : bool).
(** What is printed: a number with its precision, at the end of a line or not, or a
    string. *)
Inductive event : Type := PrNum (prec : Z) (d : double) (nl : bool) | PrStr (s : string).

(** The state outside the machine: the symbols, those installed first coming first, what
    was printed, the latest first, the numbers still to be read, [errno], and the symbol
    in which [printtop] keeps the last value. *)
Record world := mk_world {
  symbols : list Symbol; output : list event; input : list scanned; errno : option errno_t; last : option nat }.
#[export] Instance world_fields : Fields world := fun w =>
  mk_world (symbols w) (output w) (input w) (errno w) (last w).

(** A symbol is its place in the list. *)
Fixpoint find_last (s : string) (l : list Symbol) (i : nat) (found : option nat) : option nat :=
  match l with [] => found | x :: l => find_last s l (S i) (if String.eqb (name x) s then Some i else found) end.
Definition lookup_sym (s : string) : H world (option nat) := get (fun w => find_last s (symbols w) 0 None).
Definition install (s : string) (t : sym_type) (d : double) : H world nat :=
  let* n := get (fun w => length (symbols w)) in
  modify (over symbols (fun l => l ++ [mk_symbol s t (UVal d)])) ;;;
  ret n.

Definition symbol (n : nat) : H world Symbol := fun w => need (symbols w !! n) w.
Definition set_symbol (n : nat) (f : Symbol -> Symbol) : H world unit := fun w =>
  match symbols w !! n with Some _ => Done tt (over symbols (alter f n) w) | None => Stuck end.
(** [sp->u.val] and its assignment. *)
Definition val_of (x : Symbol) : option double := match u x with UVal d => Some d | _ => None end.
Definition sym_val (n : nat) : H world double := let* x := symbol n in need (val_of x).
Definition set_val (n : nat) (d : double) : H world unit := set_symbol n (put u (UVal d)).
Definition set_type (n : nat) (t : sym_type) : H world unit := set_symbol n (put type t).

(** ** init.c *)

Definition keywords : list (string * keyword) :=
  [("proc", PROC); ("func", FUNC); ("return", RETURN); ("if", IF); ("else", ELSE); ("while", WHILE); ("for", FOR);
   ("print", PRINT); ("read", READ)]%string.
Definition consts : list (string * double) :=
  [("PI", S754_finite false 7074237752028440 (-51)); ("E", S754_finite false 6121026514868073 (-51));
   ("GAMMA", S754_finite false 5199096506725913 (-53)); ("DEG", S754_finite false 8063664102031864 (-47));
   ("PHI", S754_finite false 7286977268806824 (-52)); ("PREC", of_Z 15)]%string.
Definition builtins : list (string * builtin) :=
  [("sin", Lib lib_sin); ("cos", Lib lib_cos); ("tan", Lib lib_tan); ("atan", Lib lib_atan); ("asin", Asin); ("acos", Acos);
   ("sinh", Sinh); ("cosh", Cosh); ("tanh", Lib lib_tanh); ("log", Log); ("log10", Log10); ("exp", Exp); ("sqrt", Sqrt);
   ("gamma", Gamma); ("int", integer); ("abs", Lib lib_fabs); ("erf", Lib lib_erf); ("erfc", Lib lib_erfc)]%string.

Fixpoint for_all {S A} (l : list A) (f : A -> H S unit) : H S unit :=
  match l with [] => ret tt | a :: l => f a ;;; for_all l f end.
Definition init : H world unit :=
  for_all keywords (fun '(s, k) => install s (Keyword k) zero ;;; ret tt) ;;;
  for_all consts (fun '(s, d) => install s VAR d ;;; ret tt) ;;;
  for_all builtins (fun '(s, f) => let* n := install s BLTIN zero in set_symbol n (put u (UPtr f))).

(** ** math.c *)

Section Machine.
Context `{Libm}.

(** A call of the library. *)
Definition with_errno (r : double * option errno_t) : H world double :=
  (match r.2 with Some e => modify (put errno (Some e)) | None => ret tt end) ;;; ret r.1.

Definition errcheck (d : double) (s : string) : H world double :=
  let* e := get errno in
  match e with
  | Some EDOM => modify (put errno None) ;;; execerror s "argument out of domain"
  | Some ERANGE => modify (put errno None) ;;; execerror s "result out of range"
  | None => ret d
  end.
Definition checked (r : double * option errno_t) (s : string) : H world double := let* d := with_errno r in errcheck d s.

Definition Pow (x y : double) : H world double := checked (lib_pow x y) "exponentiation".
Definition gamma_of (x : double) : H world double :=
  let '(r, e, sign) := lib_gamma x in
  let* y := checked (r, e) "gamma" in
  if SFltb (of_Z 88) y then execerror "gamma result out of range" "" else
  let* z := with_errno (libm lib_exp y) in ret (fmul (of_Z sign) z).
Definition integer_of (x : double) : H world double := let* z := need (to_long x) in ret (of_Z z).

Definition call_builtin (f : builtin) (x : double) : H world double :=
  match f with
  | Lib f => with_errno (libm f x)
  | Asin => checked (libm lib_asin x) "asin"
  | Acos => checked (libm lib_acos x) "acos"
  | Sinh => checked (libm lib_sinh x) "sinh"
  | Cosh => checked (libm lib_cosh x) "cosh"
  | Log => checked (libm lib_log x) "log"
  | Log10 => checked (libm lib_log10 x) "log10"
  | Exp => checked (libm lib_exp x) "exp"
  | Sqrt => checked (libm lib_sqrt x) "sqrt"
  | Gamma => gamma_of x
  | integer => integer_of x
  end.

(** ** code.c: the machine *)

Definition NSTACK : nat := 256.
Definition NPROG : nat := 2000.
Definition NFRAME : nat := 100.

(** The union [Datum]. *)
Inductive Datum : Type := DVal (d : double) | DSym (n : nat).

Inductive op : Type :=
| Xpop | Constpush | Varpush | Whilecode | Forcode | Ifcode | Call | Funcret | Procret
| Arg | Argassign | Argaddeq | Argsubeq | Argmuleq | Argdiveq | Argmodeq | Bltin
| Add | Sub | Mul | Divop | Mod | Negate | Eval | Preinc | Predec | Postinc | Postdec
| Gt | Lt | Ge | Le | Eq | Ne | And | Or | Not | Power
| Assign | Addeq | Subeq | Muleq | Diveq | Modeq | Printtop | Prexpr | Prstr | Varread.

(** A word of the program: an instruction or one of the operands that are stored as if
    they were instructions. *)
Inductive word : Type :=
| STOP | Op (o : op) | Sym (n : nat) | Fun (f : builtin) | Num (n : Z) | Addr (a : nat) | Str (s : string).

(** The frame of a call; [argn] is the height of the stack with the last argument on
    top. *)
Record Frame := mk_frame { sp : nat; retpc : nat; argn : nat; nargs : Z }.

(** [stack] and [frame] are the used parts, the top first. *)
Record machine := mk_machine {
  w : world; stack : list Datum; prog : list word; progp : nat; pc : nat; progbase : nat;
  returning : bool; indef : bool; frame : list Frame }.
#[export] Instance machine_fields : Fields machine := fun m =>
  mk_machine (w m) (stack m) (prog m) (progp m) (pc m) (progbase m) (returning m) (indef m) (frame m).

Definition on_world {A} (f : H world A) : H machine A := fun m =>
  match f (w m) with
  | Done a x => Done a (put w x m)
  | Err s t x => Err s t (put w x m)
  | Stuck => Stuck
  | Timeout => Timeout
  end.

Definition initcode : H machine unit :=
  let* b := get progbase in
  modify (fun m => put progp b (put stack [] (put frame [] (put returning false (put indef false m))))).

Definition push (d : Datum) : H machine unit :=
  let* l := get stack in
  if (NSTACK <=? length l)%nat then execerror "stack too deep" "" else modify (put stack (d :: l)).
Definition pop : H machine Datum :=
  let* l := get stack in
  match l with [] => execerror "stack underflow" "" | d :: l => modify (put stack l) ;;; ret d end.
Definition xpop : H machine unit := let* d := pop in ret tt.

(** [d.val] and [d.sym]: a member that was not stored must not be read. *)
Definition val (d : Datum) : H machine double := match d with DVal x => ret x | DSym _ => stuck end.
Definition sym (d : Datum) : H machine nat := match d with DSym n => ret n | DVal _ => stuck end.
Definition pop_val : H machine double := let* d := pop in val d.

(** [prog[a]], and [*pc++]. *)
Definition fetch (a : nat) : H machine word := fun m => need (prog m !! a) m.
Definition next : H machine word := let* a := get pc in let* x := fetch a in modify (over pc S) ;;; ret x.
Definition next_sym : H machine nat := let* x := next in match x with Sym n => ret n | _ => stuck end.
Definition next_num : H machine Z := let* x := next in match x with Num n => ret n | _ => stuck end.
(** The address stored at [a]. *)
Definition addr_at (a : nat) : H machine nat := let* x := fetch a in match x with Addr p => ret p | _ => stuck end.

Definition constpush : H machine unit :=
  let* n := next_sym in let* d := on_world (sym_val n) in push (DVal d).
Definition varpush : H machine unit := let* n := next_sym in push (DSym n).

Definition binary (f : double -> double -> H machine double) : H machine unit :=
  let* d2 := pop in
  let* d1 := pop in
  let* x := val d1 in
  let* y := val d2 in
  let* d := f x y in
  push (DVal d).
Definition add : H machine unit := binary (fun x y => ret (fadd x y)).
Definition sub : H machine unit := binary (fun x y => ret (fsub x y)).
Definition mul : H machine unit := binary (fun x y => ret (fmul x y)).
Definition divop : H machine unit :=
  let* y := pop_val in
  if SFeqb y zero then execerror "division by zero" "" else
  let* x := pop_val in push (DVal (fdiv x y)).

(** [x %= y] on [long]: the processor traps when there is no result, and the signal
    handler calls [execerror]. *)
Definition long_mod {S} (x y : double) : H S double :=
  let* i := need (to_long x) in
  let* j := need (to_long y) in
  if (j =? 0) || ((i =? - 2 ^ 63) && (j =? -1)) then execerror "floating point exception" "" else ret (of_Z (Z.rem i j)).
Definition mod_ : H machine unit :=
  let* y := pop_val in
  if SFeqb y zero then execerror "division by zero" "" else
  let* x := pop_val in
  let* d := long_mod x y in push (DVal d).
Definition negate : H machine unit := let* d := pop_val in push (DVal (SFopp d)).
Definition power : H machine unit := binary (fun x y => on_world (Pow x y)).

Definition gt : H machine unit := binary (fun x y => ret (of_bool (SFltb y x))).
Definition lt : H machine unit := binary (fun x y => ret (of_bool (SFltb x y))).
Definition ge : H machine unit := binary (fun x y => ret (of_bool (SFleb y x))).
Definition le : H machine unit := binary (fun x y => ret (of_bool (SFleb x y))).
Definition eq_ : H machine unit := binary (fun x y => ret (of_bool (SFeqb x y))).
Definition ne : H machine unit := binary (fun x y => ret (of_bool (negb (SFeqb x y)))).
Definition and_ : H machine unit := binary (fun x y => ret (of_bool (truth x && truth y))).
Definition or_ : H machine unit := binary (fun x y => ret (of_bool (truth x || truth y))).
Definition not_ : H machine unit := let* d := pop_val in push (DVal (of_bool (SFeqb d zero))).

(** *** Variables *)

Definition verify (n : nat) : H world unit :=
  let* x := symbol n in
  if negb (bool_decide (type x = VAR)) && negb (bool_decide (type x = UNDEF)) then execerror "attempt to evaluate non-variable" (name x) else
  if bool_decide (type x = UNDEF) then execerror "undefined variable" (name x) else ret tt.
Definition eval_sym (n : nat) : H world double := verify n ;;; sym_val n.
Definition eval : H machine unit :=
  let* d := pop in let* n := sym d in let* v := on_world (eval_sym n) in push (DVal v).

(** The four increments: the value of the expression is the new or the old one. *)
Definition step_sym (f : double -> double -> double) (post : bool) (n : nat) : H world double :=
  verify n ;;;
  let* v := sym_val n in
  set_val n (f v one) ;;;
  ret (if post then v else f v one).
Definition step_var (f : double -> double -> double) (post : bool) : H machine unit :=
  let* n := next_sym in let* v := on_world (step_sym f post n) in push (DVal v).
Definition preinc : H machine unit := step_var fadd false.
Definition predec : H machine unit := step_var fsub false.
Definition postinc : H machine unit := step_var fadd true.
Definition postdec : H machine unit := step_var fsub true.

(** The assignments: [old] is the value of the variable, [d] that of the expression. *)
Inductive aop : Type := Set_ | AddEq | SubEq | MulEq | DivEq | ModEq.
Definition combine {S} (o : aop) (old d : double) : H S double :=
  match o with
  | Set_ => ret d
  | AddEq => ret (fadd old d)
  | SubEq => ret (fsub old d)
  | MulEq => ret (fmul old d)
  | DivEq => ret (fdiv old d)
  | ModEq => long_mod old d
  end.
Definition assign_sym (o : aop) (n : nat) (d : double) : H world double :=
  let* x := symbol n in
  if negb (bool_decide (type x = VAR)) && negb (bool_decide (type x = UNDEF)) then execerror "assignment to non-variable" (name x) else
  let* old := (match o with Set_ => ret zero | _ => need (val_of x) end) in
  let* v := combine o old d in
  set_val n v ;;;
  set_type n VAR ;;;
  ret v.
Definition assign_op (o : aop) : H machine unit :=
  let* d1 := pop in
  let* d2 := pop in
  let* n := sym d1 in
  let* y := val d2 in
  let* v := on_world (assign_sym o n y) in
  push (DVal v).
Definition assign : H machine unit := assign_op Set_.
Definition addeq : H machine unit := assign_op AddEq.
Definition subeq : H machine unit := assign_op SubEq.
Definition muleq : H machine unit := assign_op MulEq.
Definition diveq : H machine unit := assign_op DivEq.
Definition modeq : H machine unit := assign_op ModEq.

(** *** Arguments *)

Definition fp : H machine Frame := let* l := get frame in match l with f :: _ => ret f | [] => stuck end.

(** The place of the argument on the stack, counted from its bottom. *)
Definition getarg : H machine nat :=
  let* n := next_num in
  let* f := fp in
  if nargs f <? n then let* x := on_world (symbol (sp f)) in execerror (name x) "not enough arguments" else
  let i := Z.of_nat (argn f) - 1 + (n - nargs f) in
  if i <? 0 then stuck else ret (Z.to_nat i).
(** Entry [i] from the bottom of the stack is entry [from_top i] from its top. *)
Definition from_top (i : nat) (l : list Datum) : option nat :=
  if (i <? length l)%nat then Some (length l - 1 - i)%nat else None.
Definition arg_val (i : nat) : H machine double :=
  let* l := get stack in let* k := need (from_top i l) in let* d := need (l !! k) in val d.
Definition set_arg (i : nat) (d : double) : H machine unit :=
  let* l := get stack in let* k := need (from_top i l) in modify (put stack (<[k := DVal d]> l)).

Definition arg : H machine unit := let* i := getarg in let* d := arg_val i in push (DVal d).
Definition argassign : H machine unit :=
  let* d := pop in
  push d ;;;
  let* i := getarg in
  let* v := val d in
  set_arg i v.
Definition arg_op (o : aop) : H machine unit :=
  let* d := pop_val in
  let* i := getarg in
  let* old := arg_val i in
  let* v := combine o old d in
  set_arg i v ;;;
  push (DVal v).
Definition argaddeq : H machine unit := arg_op AddEq.
Definition argsubeq : H machine unit := arg_op SubEq.
Definition argmuleq : H machine unit := arg_op MulEq.
Definition argdiveq : H machine unit := arg_op DivEq.
Definition argmodeq : H machine unit := arg_op ModEq.

(** *** Functions of the library, output and input *)

Definition bltin : H machine unit :=
  let* d := pop in
  let* x := next in
  let* f := (match x with Fun f => ret f | _ => stuck end) in
  let* v := val d in
  let* v := on_world (call_builtin f v) in
  push (DVal v).

(** [(int)lookup("PREC")->u.val]. *)
Definition precision : H world Z :=
  let* o := lookup_sym "PREC" in let* n := need o in let* d := sym_val n in need (to_int d).
Definition print_num (d : double) (nl : bool) : H world unit :=
  let* p := precision in modify (over output (cons (PrNum p d nl))).
Definition last_symbol : H world nat :=
  let* o := get last in
  match o with
  | Some n => ret n
  | None => let* n := install "_" VAR zero in modify (put last (Some n)) ;;; ret n
  end.
Definition printtop : H machine unit :=
  let* s := on_world last_symbol in
  let* d := pop_val in
  on_world (print_num d true ;;; set_val s d).
Definition prexpr : H machine unit := let* d := pop_val in on_world (print_num d false).
Definition print_str (s : string) : H world unit := modify (over output (cons (PrStr s))).
Definition prstr : H machine unit :=
  let* x := next in match x with Str s => on_world (print_str s) | _ => stuck end.

(** The numbers that are read; at the end of the input the variable becomes zero. *)
Fixpoint scan (l : list scanned) : option double * bool * list scanned :=
  match l with
  | [] => (None, true, [])
  | ScanNum d :: l => (Some d, true, l)
  | ScanOther :: l => (None, false, l)
  | ScanEof true :: l => scan l
  | ScanEof false :: l => (None, true, l)
  end.
Definition read_sym (n : nat) : H world double :=
  let* l := get input in
  let '(o, good, l) := scan l in
  modify (put input l) ;;;
  match o, good with
  | Some d, _ => set_val n d ;;; set_type n VAR ;;; ret one
  | None, true => set_val n zero ;;; set_type n VAR ;;; ret zero
  | None, false => let* x := symbol n in execerror "non-number read into" (name x)
  end.
Definition varread : H machine unit := let* n := next_sym in let* d := on_world (read_sym n) in push (DVal d).

(** *** Control

    [execute] stands for the calls of the routine of that name; [fuel] bounds the turns
    of a loop. *)

Section Control.
Variable execute : nat -> H machine unit.

(** The loops of [whilecode] and [forcode]: [d] is the value of the condition, [again]
    what is done between two turns to get the next one. *)
Fixpoint loop (fuel : nat) (body : H machine unit) (again : H machine double) (d : double) : H machine unit :=
  match fuel with
  | O => timeout
  | S fuel =>
    if negb (truth d) then ret tt else
    body ;;;
    let* r := get returning in
    if r then ret tt else
    let* d := again in
    loop fuel body again d
  end.
(** A call of [execute] with the address stored at [a]. *)
Definition execute_at (a : nat) : H machine unit := let* p := addr_at a in execute p.
(** [if (!returning) pc = ...]. *)
Definition resume (a : nat) : H machine unit :=
  let* r := get returning in if r then ret tt else let* p := addr_at a in modify (put pc p).

Definition while_cond (savepc : nat) : H machine double := execute (savepc + 2) ;;; pop_val.
Definition whilecode (fuel : nat) : H machine unit :=
  let* savepc := get pc in
  let* d := while_cond savepc in
  loop fuel (execute_at savepc) (while_cond savepc) d ;;;
  resume (savepc + 1).

Definition for_cond (savepc : nat) : H machine double := execute_at savepc ;;; pop_val.
Definition for_again (savepc : nat) : H machine double := execute_at (savepc + 1) ;;; xpop ;;; for_cond savepc.
Definition forcode (fuel : nat) : H machine unit :=
  let* savepc := get pc in
  execute (savepc + 4) ;;;
  xpop ;;;
  let* d := for_cond savepc in
  loop fuel (execute_at (savepc + 2)) (for_again savepc) d ;;;
  resume (savepc + 3).

Definition ifcode : H machine unit :=
  let* savepc := get pc in
  execute (savepc + 3) ;;;
  let* d := pop_val in
  (if truth d then execute_at savepc
   else let* x := fetch (savepc + 1) in
        match x with STOP => ret tt | Addr a => execute a | _ => stuck end) ;;;
  resume (savepc + 2).

Definition call : H machine unit :=
  let* a := get pc in
  let* n := (let* x := fetch a in match x with Sym n => ret n | _ => stuck end) in
  let* l := get frame in
  if (NFRAME - 1 <=? length l)%nat then let* x := on_world (symbol n) in execerror (name x) "call nested too deeply" else
  let* k := (let* x := fetch (a + 1) in match x with Num k => ret k | _ => stuck end) in
  let* st := get stack in
  modify (put frame (mk_frame n (a + 2) (length st) k :: l)) ;;;
  let* x := on_world (symbol n) in
  (match u x with UDefn p => execute p | _ => stuck end) ;;;
  modify (put returning false).
End Control.

Fixpoint pop_args (n : nat) : H machine unit := match n with O => ret tt | S n => pop ;;; pop_args n end.
(** The common end of [funcret] and [procret]. *)
Definition ret_ : H machine unit :=
  let* f := fp in
  pop_args (Z.to_nat (nargs f)) ;;;
  modify (put pc (retpc f)) ;;;
  modify (over frame tail) ;;;
  modify (put returning true).
Definition funcret : H machine unit :=
  let* f := fp in
  let* x := on_world (symbol (sp f)) in
  if bool_decide (type x = PROCEDURE) then execerror (name x) "(proc) returns value" else
  let* d := pop in
  ret_ ;;;
  push d.
Definition procret : H machine unit :=
  let* f := fp in
  let* x := on_world (symbol (sp f)) in
  if bool_decide (type x = FUNCTION) then execerror (name x) "(func) returns no value" else
  ret_.

(** The routine an instruction stands for. *)
Definition step (execute : nat -> H machine unit) (fuel : nat) (o : op) : H machine unit :=
  match o with
  | Xpop => xpop | Constpush => constpush | Varpush => varpush
  | Whilecode => whilecode execute fuel | Forcode => forcode execute fuel | Ifcode => ifcode execute
  | Call => call execute | Funcret => funcret | Procret => procret
  | Arg => arg | Argassign => argassign | Argaddeq => argaddeq | Argsubeq => argsubeq | Argmuleq => argmuleq
  | Argdiveq => argdiveq | Argmodeq => argmodeq | Bltin => bltin
  | Add => add | Sub => sub | Mul => mul | Divop => divop | Mod => mod_ | Negate => negate | Eval => eval
  | Preinc => preinc | Predec => predec | Postinc => postinc | Postdec => postdec
  | Gt => gt | Lt => lt | Ge => ge | Le => le | Eq => eq_ | Ne => ne | And => and_ | Or => or_ | Not => not_ | Power => power
  | Assign => assign | Addeq => addeq | Subeq => subeq | Muleq => muleq | Diveq => diveq | Modeq => modeq
  | Printtop => printtop | Prexpr => prexpr | Prstr => prstr | Varread => varread
  end.

(** The loop of [execute] from the present [pc] on, and [execute]. *)
Fixpoint run (fuel : nat) : H machine unit :=
  match fuel with
  | O => timeout
  | S fuel =>
    let* a := get pc in
    let* x := fetch a in
    let* r := get returning in
    match x with
    | STOP => ret tt
    | _ => if r then ret tt else
      modify (over pc S) ;;;
      (match x with Op o => step (fun p => modify (put pc p) ;;; run fuel) fuel o | _ => stuck end) ;;;
      run fuel
    end
  end.
Definition execute (fuel : nat) (p : nat) : H machine unit := modify (put pc p) ;;; run fuel.

(** ** hoc.y: the code that is generated

    The trees stand for what the parser recognises; a token that is a name is its
    symbol. *)

Inductive binop : Type := BAdd | BSub | BMul | BDiv | BMod | BPow | BGt | BGe | BLt | BLe | BEq | BNe | BAnd | BOr.
Inductive expr : Type :=
| ENumber (n : nat)
| EVar (n : nat)
| EArg (k : Z)
| EAsgn (o : aop) (n : nat) (e : expr)
| EArgAsgn (o : aop) (k : Z) (e : expr)
| ECall (n : nat) (a : args)
| ERead (n : nat)
| EBltin (f : builtin) (e : expr)
| EBin (o : binop) (a b : expr)
| ENeg (e : expr)
| ENot (e : expr)
| EStep (inc post : bool) (n : nat)
with args : Type :=
| ANil
| ASnoc (a : args) (e : expr).
Inductive pritem : Type := PExpr (e : expr) | PStr (s : string).
Inductive stmt : Type :=
| SExpr (e : expr)
| SReturn (token : nat)
| SReturnE (e : expr)
| SProc (n : nat) (a : args)
| SPrint (i : pritem) (l : list pritem)
| SWhile (e : expr) (s : stmt)
| SFor (e1 e2 e3 : expr) (s : stmt)
| SIf (e : expr) (s : stmt)
| SIfElse (e : expr) (s1 s2 : stmt)
| SBlock (l : stmts)
with stmts : Type :=
| SNil
| SSnoc (l : stmts) (s : stmt).

Definition bin_op (o : binop) : op :=
  match o with
  | BAdd => Add | BSub => Sub | BMul => Mul | BDiv => Divop | BMod => Mod | BPow => Power | BGt => Gt | BGe => Ge
  | BLt => Lt | BLe => Le | BEq => Eq | BNe => Ne | BAnd => And | BOr => Or
  end.
Definition asgn_op (o : aop) : op :=
  match o with Set_ => Assign | AddEq => Addeq | SubEq => Subeq | MulEq => Muleq | DivEq => Diveq | ModEq => Modeq end.
Definition arg_asgn_op (o : aop) : op :=
  match o with Set_ => Argassign | AddEq => Argaddeq | SubEq => Argsubeq | MulEq => Argmuleq | DivEq => Argdiveq | ModEq => Argmodeq end.
Definition step_op (inc post : bool) : op := if post then (if inc then Postinc else Postdec) else (if inc then Preinc else Predec).

Definition code (x : word) : H machine nat :=
  let* a := get progp in
  if (NPROG <=? a)%nat then execerror "program too big" "" else
  modify (over prog <[a := x]>) ;;;
  modify (put progp (S a)) ;;;
  ret a.
(** The macros [code2] and [code3]: the value is that of the first call. *)
Definition code2 (x y : word) : H machine nat := let* a := code x in code y ;;; ret a.
Definition code3 (x y z : word) : H machine nat := let* a := code x in code y ;;; code z ;;; ret a.
Definition patch (a : nat) (x : word) : H machine unit := modify (over prog <[a := x]>).

Definition defnonly (s : string) : H machine unit :=
  let* b := get indef in if b then ret tt else execerror s "used outside definition".
Definition define (n : nat) : H machine unit :=
  let* b := get progbase in
  on_world (set_symbol n (put u (UDefn b))) ;;;
  let* p := get progp in
  modify (put progbase p).

(** The actions for an expression; the value is that of [$$]. *)
Fixpoint gen_expr (e : expr) : H machine nat :=
  match e with
  | ENumber n => code2 (Op Constpush) (Sym n)
  | EVar n => code3 (Op Varpush) (Sym n) (Op Eval)
  | EArg k => defnonly "$" ;;; code2 (Op Arg) (Num k)
  | EAsgn o n e => let* a := gen_expr e in code3 (Op Varpush) (Sym n) (Op (asgn_op o)) ;;; ret a
  | EArgAsgn o k e => let* a := gen_expr e in defnonly "$" ;;; code2 (Op (arg_asgn_op o)) (Num k) ;;; ret a
  | ECall n l => let* a := get progp in let* k := gen_args l in code3 (Op Call) (Sym n) (Num k) ;;; ret a
  | ERead n => code2 (Op Varread) (Sym n)
  | EBltin f e => let* a := gen_expr e in code2 (Op Bltin) (Fun f) ;;; ret a
  | EBin o e1 e2 => let* a := gen_expr e1 in gen_expr e2 ;;; code (Op (bin_op o)) ;;; ret a
  | ENeg e => let* a := gen_expr e in code (Op Negate) ;;; ret a
  | ENot e => let* a := gen_expr e in code (Op Not) ;;; ret a
  | EStep inc post n => code2 (Op (step_op inc post)) (Sym n)
  end
with gen_args (l : args) : H machine Z :=
  match l with
  | ANil => ret 0
  | ASnoc l e => let* k := gen_args l in gen_expr e ;;; ret (k + 1)
  end.

Definition gen_item (i : pritem) : H machine nat :=
  match i with
  | PExpr e => let* a := gen_expr e in code (Op Prexpr) ;;; ret a
  | PStr s => code2 (Op Prstr) (Str s)
  end.
(** [cond] and [end]. *)
Definition gen_cond (e : expr) : H machine nat := let* a := gen_expr e in code STOP ;;; ret a.
Definition gen_end : H machine nat := code STOP ;;; get progp.

(** The actions for a statement.  The rule for a [return] without value assigns nothing
    to [$$], which then is the value of the token: a symbol. *)
Fixpoint gen_stmt (s : stmt) : H machine word :=
  match s with
  | SExpr e => let* a := gen_expr e in code (Op Xpop) ;;; ret (Addr a)
  | SReturn t => defnonly "return" ;;; code (Op Procret) ;;; ret (Sym t)
  | SReturnE e => let* a := gen_expr e in defnonly "return" ;;; code (Op Funcret) ;;; ret (Addr a)
  | SProc n l => let* a := get progp in let* k := gen_args l in code3 (Op Call) (Sym n) (Num k) ;;; ret (Addr a)
  | SPrint i l => let* a := gen_item i in for_all l (fun i => gen_item i ;;; ret tt) ;;; ret (Addr a)
  | SWhile e s =>
    let* a := code3 (Op Whilecode) STOP STOP in
    gen_cond e ;;;
    let* b := gen_stmt s in
    let* z := gen_end in
    patch (a + 1) b ;;; patch (a + 2) (Addr z) ;;; ret (Addr a)
  | SFor e1 e2 e3 s =>
    let* a := code (Op Forcode) in
    code3 STOP STOP STOP ;;; code STOP ;;;
    gen_cond e1 ;;;
    let* c := gen_cond e2 in
    let* p := gen_cond e3 in
    let* b := gen_stmt s in
    let* z := gen_end in
    patch (a + 1) (Addr c) ;;; patch (a + 2) (Addr p) ;;; patch (a + 3) b ;;; patch (a + 4) (Addr z) ;;; ret (Addr a)
  | SIf e s =>
    let* a := code (Op Ifcode) in
    code3 STOP STOP STOP ;;;
    gen_cond e ;;;
    let* b := gen_stmt s in
    let* z := gen_end in
    patch (a + 1) b ;;; patch (a + 3) (Addr z) ;;; ret (Addr a)
  | SIfElse e s1 s2 =>
    let* a := code (Op Ifcode) in
    code3 STOP STOP STOP ;;;
    gen_cond e ;;;
    let* b := gen_stmt s1 in
    gen_end ;;;
    let* c := gen_stmt s2 in
    let* z := gen_end in
    patch (a + 1) b ;;; patch (a + 2) c ;;; patch (a + 3) (Addr z) ;;; ret (Addr a)
  | SBlock l => let* a := get progp in gen_stmts l ;;; ret (Addr a)
  end
with gen_stmts (l : stmts) : H machine unit :=
  match l with
  | SNil => ret tt
  | SSnoc l s => gen_stmts l ;;; gen_stmt s ;;; ret tt
  end.

(** A line of input: an assignment, a statement, an expression, or a definition. *)
Inductive line : Type :=
| LAsgn (e : expr)
| LStmt (s : stmt)
| LExpr (e : expr)
| LDefn (t : sym_type) (n : nat) (s : stmt).

(** The rules for [list]: whether the parser returns to have the code executed. *)
Definition gen_line (l : line) : H machine bool :=
  match l with
  | LAsgn e => gen_expr e ;;; code2 (Op Xpop) STOP ;;; ret true
  | LStmt s => gen_stmt s ;;; code STOP ;;; ret true
  | LExpr e => gen_expr e ;;; code2 (Op Printtop) STOP ;;; ret true
  | LDefn t n s =>
    on_world (set_type n t) ;;; modify (put indef true) ;;;
    gen_stmt s ;;; code (Op Procret) ;;; define n ;;; modify (put indef false) ;;; ret false
  end.

(** A turn of the loop in [run] for a line that was parsed. *)
Definition run_line (fuel : nat) (l : line) : H machine unit :=
  let* go := gen_line l in
  if go then (let* b := get progbase in execute fuel b) ;;; initcode else ret tt.
End Machine.
End Hoc.
