(* ===== verification/HocSpec.v ===== *)
(** What hoc programs mean: a direct interpreter of the trees the parser recognises, to
    which the code of the machine in Hoc.v is compared.  It has the same limits (256
    values on the stack, 99 nested calls), so that the same programs fail with the same
    messages. *)
From stdpp Require Import base list gmap strings.
From Stdlib Require Import ZArith Lia Floats.SpecFloat.
From S2P Require Import Prelude Hoc.
Import Hoc.
Open Scope Z_scope.
Open Scope hoc_scope.

Module HocSpec.

(** The world, and the arguments of the function that is running. *)
Record tree := mk_tree { tw : world; targs : list double }.
#[export] Instance tree_fields : Fields tree := fun t => mk_tree (tw t) (targs t).

Definition on_tw {A} (f : H world A) : H tree A := fun t =>
  match f (tw t) with
  | Done a x => Done a (put tw x t)
  | Err s s' x => Err s s' (put tw x t)
  | Stuck => Stuck
  | Timeout => Timeout
  end.

(** How a statement ends. *)
Inductive outcome : Type := Normal | RetProc | RetFun (v : double).

(** There is room for one more value on [h] others. *)
Definition room (h : nat) : H tree unit := if (NSTACK <=? h)%nat then execerror "stack too deep" "" else ret tt.

Section Sem.
Context `{Libm}.
(** The body of the function whose code is at an address. *)
Variable defs : nat -> option stmt.

Definition arith (o : binop) (x y : double) : H tree double :=
  match o with
  | BAdd => ret (fadd x y)
  | BSub => ret (fsub x y)
  | BMul => ret (fmul x y)
  | BDiv => if SFeqb y zero then execerror "division by zero" "" else ret (fdiv x y)
  | BMod => if SFeqb y zero then execerror "division by zero" "" else long_mod x y
  | BPow => on_tw (Pow x y)
  | BGt => ret (of_bool (SFltb y x))
  | BGe => ret (of_bool (SFleb y x))
  | BLt => ret (of_bool (SFltb x y))
  | BLe => ret (of_bool (SFleb x y))
  | BEq => ret (of_bool (SFeqb x y))
  | BNe => ret (of_bool (negb (SFeqb x y)))
  | BAnd => ret (of_bool (truth x && truth y))
  | BOr => ret (of_bool (truth x || truth y))
  end.

(** Turns of a loop. *)
Fixpoint loop_sem (i : nat) (body : H tree outcome) (again : H tree double) (d : double) : H tree outcome :=
  match i with
  | O => timeout
  | S i =>
    if negb (truth d) then ret Normal else
    let* o := body in
    match o with Normal => let* d := again in loop_sem i body again d | o => ret o end
  end.

(** Meaning of trees in a function [self] (none for a line of input) with [d] calls
    under way and [h] values on the stack; [call] is the meaning of a call, whose result
    is the value that is returned, if there is one. *)
Section Fun.
Variable call : nat -> nat -> list double -> H world (option double).
Variable self : option nat.

(** The place of argument [k]. *)
Definition arg_index (k : Z) : H tree nat :=
  let* s := need self in
  let* l := get targs in
  if Z.of_nat (length l) <? k then let* x := on_tw (symbol s) in execerror (name x) "not enough arguments" else
  if k <? 1 then stuck else ret (Z.to_nat (k - 1)).
Definition targ (i : nat) : H tree double := let* l := get targs in need (l !! i).
Definition set_targ (i : nat) (v : double) : H tree unit := modify (over targs <[i := v]>).

(** A call, from a function with its own arguments. *)
Definition call_tree (h n : nat) (vs : list double) : H tree (option double) := on_tw (call h n vs).

Fixpoint expr_sem (h : nat) (e : expr) : H tree double :=
  match e with
  | ENumber n => let* v := on_tw (sym_val n) in room h ;;; ret v
  | EVar n => room h ;;; on_tw (eval_sym n)
  | EArg k => let* i := arg_index k in let* v := targ i in room h ;;; ret v
  | EAsgn o n e => let* v := expr_sem h e in room (S h) ;;; on_tw (assign_sym o n v)
  | EArgAsgn o k e =>
    let* v := expr_sem h e in
    let* i := arg_index k in
    let* old := targ i in
    let* v := combine o old v in
    set_targ i v ;;; ret v
  | ECall n a =>
    let* vs := args_sem h a in
    let* r := call_tree (h + length vs) n vs in
    need r
  | ERead n => let* v := on_tw (read_sym n) in room h ;;; ret v
  | EBltin f e => let* v := expr_sem h e in on_tw (call_builtin f v)
  | EBin o a b => let* x := expr_sem h a in let* y := expr_sem (S h) b in arith o x y
  | ENeg e => let* v := expr_sem h e in ret (SFopp v)
  | ENot e => let* v := expr_sem h e in ret (of_bool (SFeqb v zero))
  | EStep inc post n => let* v := on_tw (step_sym (if inc then fadd else fsub) post n) in room h ;;; ret v
  end
with args_sem (h : nat) (a : args) : H tree (list double) :=
  match a with
  | ANil => ret []
  | ASnoc a e => let* vs := args_sem h a in let* v := expr_sem (h + length vs) e in ret (vs ++ [v])
  end.

Definition item_sem (h : nat) (i : pritem) : H tree unit :=
  match i with
  | PExpr e => let* v := expr_sem h e in on_tw (print_num v false)
  | PStr s => on_tw (print_str s)
  end.

(** The end of a procedure. *)
Definition proc_ret : H tree unit :=
  let* s := need self in
  let* x := on_tw (symbol s) in
  if bool_decide (type x = FUNCTION) then execerror (name x) "(func) returns no value" else ret tt.

Variable turns : nat.

Fixpoint stmt_sem (h : nat) (s : stmt) : H tree outcome :=
  match s with
  | SExpr e => expr_sem h e ;;; ret Normal
  | SReturn _ => proc_ret ;;; ret RetProc
  | SReturnE e =>
    let* v := expr_sem h e in
    let* s := need self in
    let* x := on_tw (symbol s) in
    if bool_decide (type x = PROCEDURE) then execerror (name x) "(proc) returns value" else ret (RetFun v)
  | SProc n a =>
    let* vs := args_sem h a in
    let* r := call_tree (h + length vs) n vs in
    match r with None => ret Normal | Some _ => stuck end
  | SPrint i l => item_sem h i ;;; for_all l (item_sem h) ;;; ret Normal
  | SWhile e s => let* d := expr_sem h e in loop_sem turns (stmt_sem h s) (expr_sem h e) d
  | SFor e1 e2 e3 s =>
    expr_sem h e1 ;;;
    let* d := expr_sem h e2 in
    loop_sem turns (stmt_sem h s) (expr_sem h e3 ;;; expr_sem h e2) d
  | SIf e s => let* d := expr_sem h e in if truth d then stmt_sem h s else ret Normal
  | SIfElse e s1 s2 => let* d := expr_sem h e in if truth d then stmt_sem h s1 else stmt_sem h s2
  | SBlock l => stmts_sem h l
  end
with stmts_sem (h : nat) (l : stmts) : H tree outcome :=
  match l with
  | SNil => ret Normal
  | SSnoc l s => let* o := stmts_sem h l in match o with Normal => stmt_sem h s | o => ret o end
  end.
End Fun.

(** A call of [n] with [d] calls under way, the arguments being the last of [h] values
    on the stack; [fuel] bounds the nesting of calls and the turns of the loops. *)
Fixpoint call_sem (fuel : nat) (d h n : nat) (vs : list double) : H world (option double) :=
  match fuel with
  | O => timeout
  | S fuel => fun x =>
    match
      (let* y := on_tw (symbol n) in
       if (NFRAME - 1 <=? d)%nat then execerror (name y) "call nested too deeply" else
       let* p := (match u y with UDefn p => ret p | _ => stuck end) in
       let* body := need (defs p) in
       let* o := stmt_sem (call_sem fuel (S d)) (Some n) fuel h body in
       match o with
       | Normal => proc_ret (Some n) ;;; ret None
       | RetProc => ret None
       | RetFun v => ret (Some v)
       end) (mk_tree x vs)
    with
    | Done r t => Done r (tw t)
    | Err s s' t => Err s s' (tw t)
    | Stuck => Stuck
    | Timeout => Timeout
    end
  end.

(** A line of input that is executed. *)
Definition line_sem (fuel : nat) (l : line) : H tree unit :=
  match l with
  | LAsgn e => expr_sem (call_sem fuel 0) None 0 e ;;; ret tt
  | LStmt s =>
    let* o := stmt_sem (call_sem fuel 0) None fuel 0 s in
    match o with Normal => ret tt | _ => stuck end
  | LExpr e =>
    let* v := expr_sem (call_sem fuel 0) None 0 e in
    on_tw (let* s := last_symbol in print_num v true ;;; set_val s v)
  | LDefn _ _ _ => ret tt
  end.
End Sem.
End HocSpec.
