(* ===== verification/HocRun.v ===== *)
(** Running the machine of Hoc.v with more fuel, and simulations between the machine and
    the interpreter of HocSpec.v. *)
From stdpp Require Import base list gmap strings.
From Stdlib Require Import ZArith Lia Floats.SpecFloat.
From S2P Require Import Prelude Hoc HocSpec.
Import Hoc HocSpec.
Open Scope Z_scope.
Open Scope hoc_scope.

(** ** More fuel *)

(** [r'] is what [r] becomes with more fuel. *)
Definition less {S A} (r r' : res S A) : Prop := r = Timeout \/ r = r'.
Lemma less_refl {S A} (r : res S A) : less r r.
Proof. by right. Qed.
Lemma less_trans {S A} (r1 r2 r3 : res S A) : less r1 r2 -> less r2 r3 -> less r1 r3.
Proof. intros [-> | ->]; [by left | done]. Qed.

Definition lessm {S A} (m m' : H S A) : Prop := forall s, less (m s) (m' s).
Lemma lessm_refl {S A} (m : H S A) : lessm m m.
Proof. intros s. apply less_refl. Qed.
Lemma less_timeout {S A} (m : H S A) : lessm timeout m.
Proof. intros s. by left. Qed.
Lemma less_bind {S A B} (m m' : H S A) (k k' : A -> H S B) :
  lessm m m' -> (forall a, lessm (k a) (k' a)) -> lessm (bind m k) (bind m' k').
Proof.
  intros Hm Hk s. unfold bind. destruct (Hm s) as [-> | ->]; [by left |]. destruct (m' s); [apply Hk | apply less_refl..].
Qed.
Lemma less_if {S A} (b : bool) (m m' k k' : H S A) : lessm m m' -> lessm k k' -> lessm (if b then m else k) (if b then m' else k').
Proof. by destruct b. Qed.

Create HintDb less discriminated.
#[export] Hint Resolve lessm_refl less_timeout less_bind less_if : less.
Ltac less_auto := repeat first [apply lessm_refl | apply less_bind; [| intros ?] | apply less_if | progress auto with less].

Section Less.
Context `{Libm}.

Lemma loop_less fuel body body' again again' d :
  lessm body body' -> (lessm again again') -> lessm (loop fuel body again d) (loop (S fuel) body' again' d).
Proof.
  intros Hb Ha. revert d. induction fuel as [|fuel IH]; intros d; [apply less_timeout |].
  change (lessm (loop (S fuel) body again d) (if negb (truth d) then ret tt else
    body' ;;; let* r := get returning in if r then ret tt else let* d := again' in loop (S fuel) body' again' d)).
  cbn [loop]. less_auto.
Qed.

Lemma execute_at_less e e' a : (forall p, lessm (e p) (e' p)) -> lessm (execute_at e a) (execute_at e' a).
Proof. intros He. unfold execute_at. less_auto. Qed.
Lemma for_cond_less e e' a : (forall p, lessm (e p) (e' p)) -> lessm (for_cond e a) (for_cond e' a).
Proof. intros He. unfold for_cond. pose proof (execute_at_less e e' a He). less_auto. Qed.

Lemma step_less e e' fuel o :
  (forall p, lessm (e p) (e' p)) -> lessm (step e fuel o) (step e' (S fuel) o).
Proof.
  intros He. destruct o; try apply lessm_refl; cbn [step].
  - unfold whilecode, while_cond. less_auto. apply loop_less; [by apply execute_at_less | less_auto].
  - unfold forcode. pose proof (for_cond_less e e'). less_auto. apply loop_less; [by apply execute_at_less |].
    unfold for_again. pose proof (fun a => execute_at_less e e' a He). less_auto.
  - unfold ifcode. pose proof (fun a => execute_at_less e e' a He). less_auto.
    match goal with |- context [match ?x with STOP => _ | _ => _ end] => destruct x end; less_auto.
  - unfold call. less_auto. match goal with |- context [match u ?x with _ => _ end] => destruct (u x) end; less_auto.
Qed.

Lemma run_less fuel : lessm (run fuel) (run (S fuel)).
Proof.
  induction fuel as [|fuel IH]; [apply less_timeout |].
  change (lessm (run (S fuel)) (let* a := get pc in let* x := fetch a in let* r := get returning in
    match x with STOP => ret tt | _ => if r then ret tt else modify (over pc S) ;;;
      (match x with Op o => step (fun p => modify (put pc p) ;;; run (S fuel)) (S fuel) o | _ => stuck end) ;;; run (S fuel) end)).
  cbn [run]. less_auto. match goal with |- context [match ?x with STOP => _ | _ => _ end] => destruct x end; less_auto.
  apply step_less. less_auto.
Qed.
End Less.

(** ** Simulation

    [r] is what the interpreter does, [f m] what the machine does with fuel [m], and [g]
    how the machine goes on when the interpreter is done.  If the interpreter is done,
    the machine goes on that way, with enough fuel, and whatever the fuel it does not do
    anything else; it fails with the same message in the same world; and if the
    interpreter, whose own fuel is [n], runs out of it, the machine with no more fuel
    does too. *)

Definition grows {A} (f : nat -> res machine A) : Prop := forall m, less (f m) (f (S m)).

Definition sim {A B} (n k0 : nat) (r : res tree A) (f : nat -> res machine B) (g : A -> tree -> nat -> res machine B) : Prop :=
  match r with
  | Done a t => length (targs t) = k0 /\ (forall m, less (f m) (g a t m)) /\ exists k j, forall m, f (k + m)%nat = g a t (j + m)%nat
  | Err x y t => exists c k, w c = tw t /\ (forall m, less (f m) (Err x y c)) /\ forall m, f (k + m)%nat = Err x y c
  | Stuck => True
  | Timeout => forall m, (m <= n)%nat -> f m = Timeout
  end.

Section Sim.
Context {A B : Type} (n k0 : nat).
Implicit Types (r : res tree A) (f : nat -> res machine B) (g : A -> tree -> nat -> res machine B).

Lemma sim_bind {C} (x : H tree A) (kk : A -> H tree C) t f g (g2 : C -> tree -> nat -> res machine B) :
  sim n k0 (x t) f g ->
  (forall a t', x t = Done a t' -> length (targs t') = k0 -> sim n k0 (kk a t') (g a t') g2) ->
  sim n k0 (bind x kk t) f g2.
Proof.
  intros Hx Hk. unfold bind. destruct (x t) as [a t'|s s' t'| |] eqn:E; try done.
  destruct Hx as (Hl & Hle & k & j & Hev). specialize (Hk a t' eq_refl Hl). unfold sim in *.
  destruct (kk a t') as [c t2|s s' t2| |]; try done.
  - destruct Hk as (Hl2 & Hle2 & k2 & j2 & Hev2). split_and!; [done | intros m; by eapply less_trans |].
    exists (k + k2)%nat, (j2 + j)%nat. intros m. replace (k + k2 + m)%nat with (k + (k2 + m))%nat by lia. rewrite Hev.
    replace (j + (k2 + m))%nat with (k2 + (j + m))%nat by lia. rewrite Hev2. f_equal. lia.
  - destruct Hk as (c & k2 & Hc & Hle2 & Hev2). exists c, (k + k2)%nat. split_and!; [done | intros m; by eapply less_trans |].
    intros m. replace (k + k2 + m)%nat with (k + (k2 + m))%nat by lia. rewrite Hev.
    replace (j + (k2 + m))%nat with (k2 + (j + m))%nat by lia. apply Hev2.
  - intros m Hm. destruct (Hle m) as [-> | ->]; [done | by apply Hk].
Qed.

Lemma sim_step r f f' g :
  f 0%nat = Timeout -> (forall m, f (S m) = f' m) -> (forall a t, grows (g a t)) -> sim n k0 r f' g -> sim n k0 r f g.
Proof.
  intros H0 HS Hg. unfold sim. destruct r as [a t|s s' t| |]; try done.
  - intros (Hl & Hle & k & j & Hev). split_and!; [done | |].
    + intros [|m]; [by left |]. rewrite HS. eapply less_trans; [apply Hle | apply Hg].
    + exists (S k), j. intros m. by rewrite <- Hev, <- HS.
  - intros (c & k & Hc & Hle & Hev). exists c, (S k). split_and!; [done | | intros m; by rewrite <- (Hev m), <- HS].
    intros [|m]; [by left | by rewrite HS].
  - intros Ht [|m] Hm; [done |]. rewrite HS. apply Ht. lia.
Qed.

Lemma sim_step_S r f f' g :
  f 0%nat = Timeout -> (forall m, f (S m) = f' m) -> (forall a t, grows (g a t)) -> sim n k0 r f' g -> sim (S n) k0 r f g.
Proof.
  intros H0 HS Hg Hs. destruct r as [a t|s s' t| |]; [by apply (sim_step (Done a t) f f' g) | by apply (sim_step (Err s s' t) f f' g) | done |].
  intros [|m] Hm; [done |]. rewrite HS. apply Hs. lia.
Qed.

(** A part of the machine's work that ends in a state known beforehand. *)
Lemma sim_nested {C D} (x : H tree A) (kk : A -> H tree C) t (f1 : nat -> res machine D) b fin
    (K : nat -> D -> H machine B) (g2 : C -> tree -> nat -> res machine B) :
  sim n k0 (x t) f1 (fun a t' _ => Done (b a t') (fin a t')) ->
  (forall a t', x t = Done a t' -> length (targs t') = k0 -> sim n k0 (kk a t') (fun m => K m (b a t') (fin a t')) g2) ->
  sim n k0 (bind x kk t)
    (fun m => match f1 m with Done d s => K m d s | Err y z s => Err y z s | Stuck => Stuck | Timeout => Timeout end) g2.
Proof.
  intros Hx Hk. unfold bind. destruct (x t) as [a t'|s s' t'| |] eqn:E; try done.
  - destruct Hx as (Hl & Hle & k & j & Hev). specialize (Hk a t' eq_refl Hl). unfold sim in *.
    assert (Hle1 : forall (q : nat -> res machine B), (forall m, less (K m (b a t') (fin a t')) (q m)) -> forall m,
      less (match f1 m with Done d s => K m d s | Err y z s => Err y z s | Stuck => Stuck | Timeout => Timeout end) (q m)).
    { intros q Hq m. destruct (Hle m) as [-> | ->]; [by left | apply Hq]. }
    destruct (kk a t') as [c t2|s s' t2| |]; try done.
    + destruct Hk as (Hl2 & Hle2 & k2 & j2 & Hev2). split_and!; [done | by apply Hle1 |].
      exists (k + k2)%nat, (j2 + k)%nat. intros m. replace (k + k2 + m)%nat with (k + (k2 + m))%nat by lia. rewrite Hev.
      replace (k + (k2 + m))%nat with (k2 + (k + m))%nat by lia. rewrite Hev2. f_equal. lia.
    + destruct Hk as (c & k2 & Hc & Hle2 & Hev2). exists c, (k + k2)%nat. split_and!; [done | by apply (Hle1 (fun _ => Err s s' c)) |].
      intros m. replace (k + k2 + m)%nat with (k + (k2 + m))%nat by lia. rewrite Hev.
      replace (k + (k2 + m))%nat with (k2 + (k + m))%nat by lia. apply Hev2.
    + intros m Hm. destruct (Hle m) as [-> | ->]; [done | by apply Hk].
  - destruct Hx as (c & k & Hc & Hle & Hev). exists c, k. split_and!; [done | |].
    + intros m. destruct (Hle m) as [-> | ->]; [by left | by right].
    + intros m. by rewrite Hev.
  - intros m Hm. by rewrite (Hx m Hm).
Qed.
Lemma sim_bindm {C D} (x : H tree A) (kk : A -> H tree C) t (X : nat -> H machine D) s b fin
    (K : nat -> D -> H machine B) (g2 : C -> tree -> nat -> res machine B) :
  sim n k0 (x t) (fun m => X m s) (fun a t' _ => Done (b a t') (fin a t')) ->
  (forall a t', x t = Done a t' -> length (targs t') = k0 -> sim n k0 (kk a t') (fun m => K m (b a t') (fin a t')) g2) ->
  sim n k0 (bind x kk t) (fun m => bind (X m) (K m) s) g2.
Proof. apply sim_nested. Qed.

Lemma sim_ext r f f' g : (forall m, f m = f' m) -> sim n k0 r f' g -> sim n k0 r f g.
Proof.
  intros Hf. unfold sim. destruct r as [a t|x y t| |]; try done.
  - intros (Hl & Hle & k & j & Hev). split_and!; [done | intros m; by rewrite Hf | exists k, j; intros m; by rewrite Hf].
  - intros (c & k & Hc & Hle & Hev). exists c, k. split_and!; [done | intros m; by rewrite Hf | intros m; by rewrite Hf].
  - intros Ht m Hm. rewrite Hf. by apply Ht.
Qed.
Lemma sim_ret a t g : length (targs t) = k0 -> sim n k0 (Done a t) (fun m => g a t m) g.
Proof. intros Hl. split_and!; [done | intros m; apply less_refl | by exists 0%nat, 0%nat]. Qed.

(** A call: the interpreter works on other arguments. *)
Definition call_res (r : res tree A) (t : tree) : res tree A :=
  match r with
  | Done a t' => Done a (put tw (tw t') t)
  | Err x y t' => Err x y (put tw (tw t') t)
  | Stuck => Stuck
  | Timeout => Timeout
  end.
Lemma sim_call k1 r t (f : nat -> res machine unit) fin (K : nat -> H machine B) g :
  sim n k1 r f (fun a t' _ => Done tt (fin a t')) -> length (targs t) = k0 ->
  (forall a t' m, K m (fin a t') = g a (put tw (tw t') t) m) ->
  sim n k0 (call_res r t) (fun m => match f m with Done _ s => K m s | Err y z s => Err y z s | Stuck => Stuck | Timeout => Timeout end) g.
Proof.
  intros Hs Hl HK. unfold sim in Hs |- *. destruct r as [a t'|x y t'| |]; cbn [call_res]; try done.
  - destruct Hs as (_ & Hle & k & j & Hev). split_and!; [done | |].
    + intros m. destruct (Hle m) as [-> | ->]; [by left | right; apply HK].
    + exists k, k. intros m. rewrite Hev. apply HK.
  - destruct Hs as (c & k & Hc & Hle & Hev). exists c, k. split_and!; [done | |].
    + intros m. destruct (Hle m) as [-> | ->]; [by left | by right].
    + intros m. by rewrite Hev.
  - intros m Hm. by rewrite (Hs m Hm).
Qed.

(** What follows ends in a state known beforehand. *)
Lemma sim_end r f g (fin : A -> tree -> res machine B) :
  sim n k0 r f g -> (forall a t, r = Done a t -> (forall m, less (g a t m) (fin a t)) /\ exists k, forall m, g a t (k + m)%nat = fin a t) ->
  sim n k0 r f (fun a t _ => fin a t).
Proof.
  unfold sim. destruct r as [a t|x y t| |]; try done. intros (Hl & Hle & k & j & Hev) Hg. destruct (Hg a t eq_refl) as (Hle2 & k2 & Hev2).
  split_and!; [done | intros m; by eapply less_trans |]. exists (k + k2)%nat, 0%nat. intros m.
  replace (k + k2 + m)%nat with (k + (k2 + m))%nat by lia. rewrite Hev. replace (j + (k2 + m))%nat with (k2 + (j + m))%nat by lia. apply Hev2.
Qed.
End Sim.

(** ** Loops *)

Section Loop.
Context `{Libm} (n k0 : nat).
Context (bodyS : H tree outcome) (againS : H tree double) (bodyM : nat -> H machine unit) (againM : nat -> H machine double).
(** The machine before a turn, and after the body. *)
Context (head : tree -> machine) (fin : outcome -> tree -> machine).
Hypothesis sim_body : forall t, length (targs t) = k0 -> sim n k0 (bodyS t) (fun m => bodyM m (head t)) (fun o t' _ => Done tt (fin o t')).
Hypothesis sim_again : forall t, length (targs t) = k0 -> sim n k0 (againS t) (fun m => againM m (fin Normal t)) (fun d t' _ => Done d (head t')).
Hypothesis fin_returning : forall o t, returning (fin o t) = (match o with Normal => false | _ => true end).

Definition loop_end (o : outcome) (t : tree) : machine := match o with Normal => head t | o => fin o t end.

Lemma loop_turn i m d s s1 : truth d = true -> bodyM m s = Done tt s1 ->
  loop (S i) (bodyM m) (againM m) d s = (if returning s1 then Done tt s1 else bind (againM m) (loop i (bodyM m) (againM m)) s1).
Proof. intros Hd Hb. cbn [loop]. rewrite Hd. cbn [negb]. unfold bind at 1. rewrite Hb. unfold bind at 1, get. by destruct (returning s1). Qed.
Lemma loop_stuck i m d s r : truth d = true -> bodyM m s = r -> (forall a s1, r <> Done a s1) ->
  loop (S i) (bodyM m) (againM m) d s = match r with Done _ _ => Stuck | Err x y c => Err x y c | Stuck => Stuck | Timeout => Timeout end.
Proof. intros Hd Hb Hr. cbn [loop]. rewrite Hd. cbn [negb]. unfold bind at 1. rewrite Hb. destruct r; [by destruct (Hr a s0) | done..]. Qed.

Definition loop_rel (i : nat) (d : double) (t : tree) (r : res tree outcome) : Prop :=
  match r with
  | Done o t' => length (targs t') = k0
    /\ (forall i' m, less (loop i' (bodyM m) (againM m) d (head t)) (Done tt (loop_end o t')))
    /\ exists k, forall i' m, loop (k + i') (bodyM (k + m)%nat) (againM (k + m)%nat) d (head t) = Done tt (loop_end o t')
  | Err x y t' => exists c k, w c = tw t'
    /\ (forall i' m, less (loop i' (bodyM m) (againM m) d (head t)) (Err x y c))
    /\ forall i' m, loop (k + i') (bodyM (k + m)%nat) (againM (k + m)%nat) d (head t) = Err x y c
  | Stuck => True
  | Timeout => forall i' m, (i' <= i)%nat -> (m <= n)%nat -> loop i' (bodyM m) (againM m) d (head t) = Timeout
  end.

(** One turn whose body ends normally. *)
Lemma loop_rel_again i d t t1 : truth d = true -> length (targs t1) = k0 ->
  (forall m, less (bodyM m (head t)) (Done tt (fin Normal t1))) -> (exists k, forall m, bodyM (k + m)%nat (head t) = Done tt (fin Normal t1)) ->
  (forall d' t', againS t1 = Done d' t' -> length (targs t') = k0 -> loop_rel i d' t' (loop_sem i bodyS againS d' t')) ->
  loop_rel (S i) d t (bind againS (loop_sem i bodyS againS) t1).
Proof.
  intros Hd Hl Hle (k & Hev) IH. pose proof (sim_again t1 Hl) as Ha. unfold bind.
  assert (Hturn : forall i' m, less (loop (S i') (bodyM m) (againM m) d (head t)) (bind (againM m) (loop i' (bodyM m) (againM m)) (fin Normal t1))).
  { intros i' m. destruct (Hle m) as [E|E].
    - left. rewrite (loop_stuck i' m d _ Timeout Hd E) by done. done.
    - right. rewrite (loop_turn i' m d _ _ Hd E), fin_returning. done. }
  assert (Hgo : forall i' m, loop (S i') (bodyM (k + m)%nat) (againM (k + m)%nat) d (head t)
    = bind (againM (k + m)%nat) (loop i' (bodyM (k + m)%nat) (againM (k + m)%nat)) (fin Normal t1)).
  { intros i' m. by rewrite (loop_turn i' _ d _ _ Hd (Hev m)), fin_returning. }
  destruct (againS t1) as [d' t'|x y t'| |] eqn:E; try done.
  - destruct Ha as (Hl' & Hle' & ka & ja & Hev'). specialize (IH d' t' eq_refl Hl').
    assert (Hle2 : forall i' m q, (forall i' m, less (loop i' (bodyM m) (againM m) d' (head t')) q) -> less (loop i' (bodyM m) (againM m) d (head t)) q).
    { intros [|i'] m q Hq; [by left |]. eapply less_trans; [apply Hturn |]. unfold bind. destruct (Hle' m) as [-> | ->]; [by left | apply Hq]. }
    assert (Hev2 : forall kr q, (forall i' m, loop (kr + i') (bodyM (kr + m)%nat) (againM (kr + m)%nat) d' (head t') = q) ->
      forall i' m, loop (S (k + ka + kr) + i') (bodyM (S (k + ka + kr) + m)%nat) (againM (S (k + ka + kr) + m)%nat) d (head t) = q).
    { intros kr q Hq i' m. change (S (k + ka + kr) + i')%nat with (S (k + ka + kr + i')).
      replace (S (k + ka + kr) + m)%nat with (k + (ka + kr + S m))%nat by lia. rewrite Hgo. unfold bind.
      replace (k + (ka + kr + S m))%nat with (ka + (k + kr + S m))%nat by lia. rewrite Hev'.
      replace (ka + (k + kr + S m))%nat with (kr + (k + ka + S m))%nat by lia.
      replace (k + ka + kr + i')%nat with (kr + (k + ka + i'))%nat by lia. apply Hq. }
    destruct (loop_sem i bodyS againS d' t') as [o t2|x y t2| |]; try done.
    + destruct IH as (H1 & H2 & kr & H3). split_and!; [done | intros; by apply Hle2 |]. eexists. by apply Hev2.
    + destruct IH as (c & kr & H1 & H2 & H3). exists c. eexists. split_and!; [done | intros; by apply Hle2 |]. by apply Hev2.
    + intros [|i'] m Hi Hm; [done |]. destruct (Hturn i' m) as [-> | Et]; [done |]. rewrite Et. unfold bind.
      destruct (Hle' m) as [-> | ->]; [done |]. apply IH; lia.
  - destruct Ha as (c & ka & Hc & Hle' & Hev'). exists c, (S (k + ka)). split_and!; [done | |].
    + intros [|i'] m; [by left |]. eapply less_trans; [apply Hturn |]. unfold bind. destruct (Hle' m) as [-> | ->]; [by left | by right].
    + intros i' m. change (S (k + ka) + i')%nat with (S (k + ka + i')).
      replace (S (k + ka) + m)%nat with (k + (ka + S m))%nat by lia. rewrite Hgo. unfold bind.
      replace (k + (ka + S m))%nat with (ka + (k + S m))%nat by lia. by rewrite Hev'.
  - intros [|i'] m Hi Hm; [done |]. destruct (Hturn i' m) as [-> | Et]; [done |]. rewrite Et. unfold bind. by rewrite (Ha m Hm).
Qed.

Lemma loop_ok i d t : length (targs t) = k0 -> loop_rel i d t (loop_sem i bodyS againS d t).
Proof.
  revert d t. induction i as [|i IH]; intros d t Hl; [by intros [|i'] m Hi Hm; [| lia] |].
  cbn [loop_sem]. destruct (truth d) eqn:Hd; cbn [negb].
  2:{ split_and!; [done | |].
      - intros [|i'] m; [by left |]. right. cbn [loop]. by rewrite Hd.
      - exists 1%nat. intros i' m. cbn [Nat.add loop]. by rewrite Hd. }
  pose proof (sim_body t Hl) as Hb. unfold bind at 1. destruct (bodyS t) as [o t1|x y t1| |] eqn:E; try done.
  - destruct Hb as (Hl1 & Hle & k & j & Hev). assert (Ho : o = Normal \/ o <> Normal) by (destruct o; [by left | by right..]). destruct Ho as [-> | Ho].
    { apply (loop_rel_again i d t t1); [done | done | done | by exists k |]. intros d' t' _ Hl'. by apply IH. }
    assert (Hr : returning (fin o t1) = true) by (rewrite fin_returning; by destruct o).
    assert (Eo : (match o with Normal => let* d := againS in loop_sem i bodyS againS d | o => ret o end) t1 = Done o t1) by (by destruct o).
    rewrite Eo. assert (Ee : loop_end o t1 = fin o t1) by (by destruct o). unfold loop_rel. rewrite Ee. split_and!; [done | |].
    + intros [|i'] m; [by left |]. destruct (Hle m) as [E1|E1].
      * left. by rewrite (loop_stuck i' m d _ Timeout Hd E1).
      * right. by rewrite (loop_turn i' m d _ _ Hd E1), Hr.
    + exists (S k). intros i' m. change (S k + i')%nat with (S (k + i')). replace (S k + m)%nat with (k + S m)%nat by lia.
      by rewrite (loop_turn _ _ d _ _ Hd (Hev (S m))), Hr.
  - destruct Hb as (c & k & Hc & Hle & Hev). exists c, (S k). split_and!; [done | |].
    + intros [|i'] m; [by left |]. destruct (Hle m) as [E1|E1]; [left | right]; by rewrite (loop_stuck i' m d _ _ Hd E1).
    + intros i' m. change (S k + i')%nat with (S (k + i')). replace (S k + m)%nat with (k + S m)%nat by lia.
      by rewrite (loop_stuck _ _ d _ _ Hd (Hev (S m))).
  - intros [|i'] m Hi Hm; [done |]. by rewrite (loop_stuck i' m d _ _ Hd (Hb m Hm)).
Qed.

Lemma sim_loop d t : length (targs t) = k0 ->
  sim n k0 (loop_sem n bodyS againS d t) (fun m => loop m (bodyM m) (againM m) d (head t)) (fun o t' _ => Done tt (loop_end o t')).
Proof.
  intros Hl. pose proof (loop_ok n d t Hl) as Hr. unfold sim, loop_rel in *. destruct (loop_sem n bodyS againS d t) as [o t'|x y t'| |]; [| | done |].
  - destruct Hr as (H1 & H2 & k & H3). split_and!; [done | done |]. by exists k, k.
  - destruct Hr as (c & k & H1 & H2 & H3). by exists c, k.
  - intros m Hm. by apply Hr.
Qed.
End Loop.
