(* ===== verification/HocExpr.v ===== *)
(** The code of hoc expressions does what the expressions mean. *)
From stdpp Require Import base list gmap strings.
From Stdlib Require Import ZArith Lia Floats.SpecFloat.
From S2P Require Import Prelude Hoc HocSpec HocRun.
Import Hoc HocSpec.
Open Scope Z_scope.
Open Scope hoc_scope.

Scheme expr_mut := Induction for expr Sort Prop with args_mut := Induction for args Sort Prop.
Combined Scheme expr_args_ind from expr_mut, args_mut.

(** ** The code of an expression *)

Fixpoint arity (l : args) : nat := match l with ANil => 0 | ASnoc l _ => S (arity l) end.

Fixpoint cexpr (e : expr) : list word :=
  match e with
  | ENumber n => [Op Constpush; Sym n]
  | EVar n => [Op Varpush; Sym n; Op Eval]
  | EArg k => [Op Arg; Num k]
  | EAsgn o n e => cexpr e ++ [Op Varpush; Sym n; Op (asgn_op o)]
  | EArgAsgn o k e => cexpr e ++ [Op (arg_asgn_op o); Num k]
  | ECall n l => cargs l ++ [Op Call; Sym n; Num (Z.of_nat (arity l))]
  | ERead n => [Op Varread; Sym n]
  | EBltin f e => cexpr e ++ [Op Bltin; Fun f]
  | EBin o e1 e2 => cexpr e1 ++ cexpr e2 ++ [Op (bin_op o)]
  | ENeg e => cexpr e ++ [Op Negate]
  | ENot e => cexpr e ++ [Op Not]
  | EStep inc post n => [Op (step_op inc post); Sym n]
  end
with cargs (l : args) : list word :=
  match l with
  | ANil => []
  | ASnoc l e => cargs l ++ cexpr e
  end.

Definition code_at (pr : list word) (p : nat) (l : list word) : Prop := forall i x, l !! i = Some x -> pr !! (p + i)%nat = Some x.

Lemma code_at_app pr p l l' : code_at pr p (l ++ l') <-> code_at pr p l /\ code_at pr (p + length l) l'.
Proof.
  split.
  - intros Hc. split; intros i x Hi.
    + apply Hc. rewrite lookup_app_l; [done | by eapply lookup_lt_Some].
    + replace (p + length l + i)%nat with (p + (length l + i))%nat by lia. apply Hc. rewrite lookup_app_r by lia.
      by replace (length l + i - length l)%nat with i by lia.
  - intros [H1 H2] i x. destruct (decide (i < length l)%nat) as [Hi|Hi].
    + rewrite lookup_app_l by done. apply H1.
    + rewrite lookup_app_r by lia. intros Hx. apply H2 in Hx. by replace (p + length l + (i - length l))%nat with (p + i)%nat in Hx by lia.
Qed.
Lemma code_at_cons pr p x l : code_at pr p (x :: l) <-> pr !! p = Some x /\ code_at pr (S p) l.
Proof.
  change (x :: l) with ([x] ++ l). rewrite code_at_app. cbn [length]. rewrite (Nat.add_comm p 1). split; intros [H1 H2]; (split; [| done]).
  - specialize (H1 0%nat x eq_refl). by rewrite Nat.add_0_r in H1.
  - intros [|i] y [= <-]. by rewrite Nat.add_0_r.
Qed.
Lemma code_at_nil pr p : code_at pr p [].
Proof. by intros i x. Qed.

(** ** The machine in a function

    [c_self] is the function, [c_ret] where its call returns to, [c_rest] the stack below
    its [c_n] arguments and [c_fr] the frames of the other calls. *)
Record ctx := mk_ctx { c_self : option nat; c_ret : nat; c_rest : list Datum; c_fr : list Frame; c_n : nat }.

Section Machine.
Context `{Libm} (M0 : machine).

Definition at_ (p : nat) (x : world) (st : list Datum) (fr : list Frame) : machine :=
  mk_machine x st (prog M0) (progp M0) p (progbase M0) false (indef M0) fr.

Section Ctx.
Variable G : ctx.
Definition stk (l : list double) : list Datum := map DVal (rev l) ++ c_rest G.
Definition frs : list Frame :=
  match c_self G with
  | Some s => mk_frame s (c_ret G) (c_n G + length (c_rest G)) (Z.of_nat (c_n G)) :: c_fr G
  | None => c_fr G
  end.
(** The machine at [p] with [temps] on top of the arguments. *)
Definition st (p : nat) (temps : list Datum) (t : tree) : machine := at_ p (tw t) (temps ++ stk (targs t)) frs.
Definition height (temps : list Datum) : nat := (length temps + (c_n G + length (c_rest G)))%nat.

Lemma stk_length l : length l = c_n G -> length (stk l) = (c_n G + length (c_rest G))%nat.
Proof. intros Hl. unfold stk. rewrite length_app, length_map, length_rev. lia. Qed.
Lemma st_height p temps t : length (targs t) = c_n G -> length (stack (st p temps t)) = height temps.
Proof. intros Hl. unfold st, at_, height. cbn [stack]. rewrite length_app, stk_length; done. Qed.
End Ctx.

Lemma run_grows s : grows (fun m => run m s).
Proof. intros m. apply run_less. Qed.

(** ** One instruction *)

(** The instruction at [p] does in one step what the interpreter does. *)
Definition op_match {A} (k0 : nat) (r : res tree A) (R : res machine unit) (fin : A -> tree -> machine) : Prop :=
  match r with
  | Done a t => length (targs t) = k0 /\ R = Done tt (fin a t)
  | Err x y t => exists c, R = Err x y c /\ w c = tw t
  | Stuck => True
  | Timeout => R = Timeout
  end.

Lemma run_op p o x st fr m : prog M0 !! p = Some (Op o) ->
  run (S m) (at_ p x st fr) = bind (step (fun p => modify (put pc p) ;;; run m) m o) (fun _ => run m) (at_ (S p) x st fr).
Proof. intros Hp. cbn [run]. unfold bind at 1, get. unfold bind at 1, fetch. cbn [pc prog at_]. rewrite Hp. done. Qed.

Lemma sim_op {A} n k0 (r : res tree A) p o x st fr R fin :
  prog M0 !! p = Some (Op o) -> (forall e fuel, step e fuel o (at_ (S p) x st fr) = R) -> op_match k0 r R fin ->
  sim n k0 r (fun m => run m (at_ p x st fr)) (fun a t m => run m (fin a t)).
Proof.
  intros Hp HR Hm. apply (sim_step n k0 r _ (fun m => match R with Done _ s => run m s | Err y z s => Err y z s | Stuck => Stuck | Timeout => Timeout end)).
  - done.
  - intros m. rewrite (run_op p o x st fr m Hp). unfold bind. rewrite HR. by destruct R.
  - intros a t. apply run_grows.
  - destruct r as [a t|y z t| |]; cbn in *; try done.
    + destruct Hm as (Hl & ->). split_and!; [done | intros m; apply less_refl | by exists 0%nat, 0%nat].
    + destruct Hm as (c & -> & Hc). exists c, 0%nat. split_and!; [done | intros m; apply less_refl | done].
    + intros m _. by rewrite Hm.
Qed.

(** The parts of an instruction. *)
Lemma bind_Done {S A B} (m : H S A) (k : A -> H S B) s a s' : m s = Done a s' -> bind m k s = k a s'.
Proof. unfold bind. by intros ->. Qed.

Section Parts.
Context (q : nat) (x : world) (s : list Datum) (fr : list Frame).

Lemma push_at d : (length s < NSTACK)%nat -> push d (at_ q x s fr) = Done tt (at_ q x (d :: s) fr).
Proof. intros Hs. unfold push, bind, get. cbn [stack at_]. by rewrite (proj2 (Nat.leb_gt _ _) Hs). Qed.
Lemma push_full d : (NSTACK <= length s)%nat -> push d (at_ q x s fr) = Err "stack too deep" "" (at_ q x s fr).
Proof. intros Hs. unfold push, bind, get. cbn [stack at_]. by rewrite (proj2 (Nat.leb_le _ _) Hs). Qed.
Lemma pop_at d : pop (at_ q x (d :: s) fr) = Done d (at_ q x s fr).
Proof. done. Qed.
Lemma pop_val_at d : pop_val (at_ q x (DVal d :: s) fr) = Done d (at_ q x s fr).
Proof. done. Qed.
Lemma next_at y : prog M0 !! q = Some y -> next (at_ q x s fr) = Done y (at_ (S q) x s fr).
Proof. intros Hq. unfold next, bind, get, fetch. cbn [pc prog at_]. by rewrite Hq. Qed.
Lemma next_sym_at n : prog M0 !! q = Some (Sym n) -> next_sym (at_ q x s fr) = Done n (at_ (S q) x s fr).
Proof. intros Hq. unfold next_sym. by rewrite (bind_Done _ _ _ _ _ (next_at _ Hq)). Qed.
Lemma next_num_at n : prog M0 !! q = Some (Num n) -> next_num (at_ q x s fr) = Done n (at_ (S q) x s fr).
Proof. intros Hq. unfold next_num. by rewrite (bind_Done _ _ _ _ _ (next_at _ Hq)). Qed.
End Parts.

(** A computation on the world, as the interpreter and the machine do it. *)
Lemma op_world {A} k0 (F : H world A) (K : A -> H machine unit) t q s fr fin :
  length (targs t) = k0 ->
  (forall a x, F (tw t) = Done a x -> K a (at_ q x s fr) = Done tt (fin a (put tw x t))) ->
  op_match k0 (on_tw F t) (bind (on_world F) K (at_ q (tw t) s fr)) fin.
Proof.
  intros Hl HK. unfold op_match, on_tw, bind, on_world. change (w (at_ q (tw t) s fr)) with (tw t).
  destruct (F (tw t)) as [a x|y z x| |] eqn:E; [split; [done | by apply HK] | | done | done].
  by eexists.
Qed.

(** The same with the value pushed, for which there may be no room. *)
Lemma op_world_push G k0 (F : H world double) t q temps :
  k0 = c_n G -> length (targs t) = k0 ->
  op_match k0 ((let* v := on_tw F in room (height G temps) ;;; ret v) t)
    (bind (on_world F) (fun v => push (DVal v)) (st G q temps t)) (fun v t' => st G q (DVal v :: temps) t').
Proof.
  intros -> Hl. unfold op_match, on_tw, bind, on_world, st. change (w (at_ q (tw t) (temps ++ stk G (targs t)) (frs G))) with (tw t).
  destruct (F (tw t)) as [a x|y z x| |] eqn:E; [| by eexists | done | done].
  change (put w x (at_ q (tw t) (temps ++ stk G (targs t)) (frs G))) with (at_ q x (temps ++ stk G (targs t)) (frs G)).
  pose proof (st_height G q temps t Hl) as Hh. unfold st in Hh. cbn [stack at_] in Hh. unfold room.
  destruct (NSTACK <=? height G temps)%nat eqn:El.
  - apply Nat.leb_le in El. rewrite push_full by (by rewrite Hh). by eexists.
  - apply Nat.leb_gt in El. rewrite push_at by (by rewrite Hh). done.
Qed.

Lemma bind_inv {S A B} (m : H S A) (k : A -> H S B) s b s' : bind m k s = Done b s' -> exists a s1, m s = Done a s1 /\ k a s1 = Done b s'.
Proof. unfold bind. destruct (m s) as [a s1| | |]; try done. intros E. by exists a, s1. Qed.
Lemma room_inv h t u t' : room h t = Done u t' -> (h < NSTACK)%nat /\ t' = t.
Proof. unfold room. destruct (NSTACK <=? h)%nat eqn:E; [done |]. intros [= _ <-]. split; [by apply Nat.leb_gt | done]. Qed.

(** ** Expressions *)

(** What the code of a caller relies on: a call that returns a value had room for it,
    and the code of a call does what the call means. *)
Definition calls_room (call : nat -> nat -> list double -> H world (option double)) : Prop :=
  forall h s vs x v x', call h s vs x = Done (Some v) x' -> (h < NSTACK)%nat.
Definition calls_ok (n : nat) (call : nat -> nat -> list double -> H world (option double)) (G : ctx) : Prop :=
  forall p s vs temps t,
    code_at (prog M0) p [Op Call; Sym s; Num (Z.of_nat (length vs))] -> is_Some (prog M0 !! (p + 3)%nat) -> length (targs t) = c_n G ->
    sim n (c_n G) (call_tree call (height G temps + length vs) s vs t) (fun m => run m (st G p (map DVal (rev vs) ++ temps) t))
      (fun r t' m => run m (st G (p + 3) (match r with Some v => DVal v :: temps | None => temps end) t')).

Section Expr.
Context (n : nat) (call : nat -> nat -> list double -> H world (option double)) (G : ctx).
Hypothesis call_room : calls_room call.
Hypothesis call_ok : calls_ok n call G.

(** An expression that has a value had room for it. *)
Lemma expr_room e h t v t' : expr_sem call (c_self G) h e t = Done v t' -> (h < NSTACK)%nat.
Proof.
  revert h t v t'. induction e; intros h t v t'; cbn [expr_sem]; intros E;
    try (apply bind_inv in E as (? & ? & E1 & E); by eauto).
  - apply bind_inv in E as (? & ? & _ & E). apply bind_inv in E as (? & ? & E & _). by apply room_inv in E as (? & _).
  - apply bind_inv in E as (? & ? & E & _). by apply room_inv in E as (? & _).
  - apply bind_inv in E as (? & ? & _ & E). apply bind_inv in E as (? & ? & _ & E). apply bind_inv in E as (? & ? & E & _). by apply room_inv in E as (? & _).
  - apply bind_inv in E as (vs & t1 & _ & E). apply bind_inv in E as (r & t2 & E & E'). unfold call_tree, on_tw in E.
    destruct (call _ _ _ _) as [r' x| | |] eqn:Ec; try done. injection E as -> _.
    destruct r as [y|]; [| done]. apply call_room in Ec. lia.
  - apply bind_inv in E as (? & ? & _ & E). apply bind_inv in E as (? & ? & E & _). by apply room_inv in E as (? & _).
  - apply bind_inv in E as (? & ? & _ & E). apply bind_inv in E as (? & ? & E & _). by apply room_inv in E as (? & _).
Qed.

(** What is proved of an expression and of a list of arguments. *)
Definition expr_ok (e : expr) : Prop := forall p temps t,
  code_at (prog M0) p (cexpr e) -> is_Some (prog M0 !! (p + length (cexpr e))%nat) -> length (targs t) = c_n G ->
  sim n (c_n G) (expr_sem call (c_self G) (height G temps) e t) (fun m => run m (st G p temps t))
    (fun v t' m => run m (st G (p + length (cexpr e)) (DVal v :: temps) t')).
Definition args_ok (l : args) : Prop := forall p temps t,
  code_at (prog M0) p (cargs l) -> is_Some (prog M0 !! (p + length (cargs l))%nat) -> length (targs t) = c_n G ->
  sim n (c_n G) (args_sem call (c_self G) (height G temps) l t) (fun m => run m (st G p temps t))
    (fun vs t' m => run m (st G (p + length (cargs l)) (map DVal (rev vs) ++ temps) t')).

(** An instruction with a symbol as its operand that pushes a value. *)
Lemma sym_op_ok o F s p temps t :
  (forall e fuel, step e fuel o = (let* k := next_sym in let* v := on_world (F k) in push (DVal v))) ->
  code_at (prog M0) p [Op o; Sym s] -> length (targs t) = c_n G ->
  sim n (c_n G) ((let* v := on_tw (F s) in room (height G temps) ;;; ret v) t) (fun m => run m (st G p temps t))
    (fun v t' m => run m (st G (p + 2) (DVal v :: temps) t')).
Proof.
  intros Ho Hc Hl. rewrite !code_at_cons in Hc. destruct Hc as (H1 & H2 & _).
  replace (p + 2)%nat with (S (S p)) by lia.
  eapply (sim_op n (c_n G) _ p o); [done | | by apply op_world_push].
  intros e fuel. rewrite Ho. by rewrite (bind_Done _ _ _ _ _ (next_sym_at _ _ _ _ _ H2)).
Qed.

(** The step that pushes a variable. *)
Lemma varpush_ok s p temps t :
  code_at (prog M0) p [Op Varpush; Sym s] -> length (targs t) = c_n G ->
  sim n (c_n G) (room (height G temps) t) (fun m => run m (st G p temps t)) (fun _ t' m => run m (st G (p + 2) (DSym s :: temps) t')).
Proof.
  intros Hc Hl. rewrite !code_at_cons in Hc. destruct Hc as (H1 & H2 & _). replace (p + 2)%nat with (S (S p)) by lia.
  eapply (sim_op n (c_n G) _ p Varpush); [done | |].
  - intros e fuel. cbn [step]. unfold varpush. by rewrite (bind_Done _ _ _ _ _ (next_sym_at _ _ _ _ _ H2)).
  - pose proof (st_height G (S (S p)) temps t Hl) as Hh. unfold st in Hh. cbn [stack at_] in Hh. unfold room.
    destruct (NSTACK <=? height G temps)%nat eqn:El.
    + apply Nat.leb_le in El. rewrite push_full by (by rewrite Hh). by eexists.
    + apply Nat.leb_gt in El. rewrite push_at by (by rewrite Hh). done.
Qed.

(** An instruction that takes values off the stack, computes on the world and pushes. *)
Lemma pops_op_ok o F ds p p' temps t :
  prog M0 !! p = Some (Op o) -> (height G temps < NSTACK)%nat -> length (targs t) = c_n G ->
  (forall e fuel, step e fuel o (st G (S p) (ds ++ temps) t) = bind (on_world F) (fun v => push (DVal v)) (st G p' temps t)) ->
  sim n (c_n G) (on_tw F t) (fun m => run m (st G p (ds ++ temps) t)) (fun v t' m => run m (st G p' (DVal v :: temps) t')).
Proof.
  intros Hp Hh Hl Hs. eapply (sim_op n (c_n G) _ p o); [done | exact Hs |]. apply op_world; [done |].
  intros a x _. rewrite push_at; [done |]. pose proof (st_height G p' temps t Hl) as E. cbn [stack st at_] in E. by rewrite E.
Qed.

(** A result that does not depend on the state. *)
Lemma on_tw_ret {A} (a : A) t : on_tw (ret a) t = Done a t.
Proof. by destruct t. Qed.

Lemma long_mod_tw x y t : on_tw (long_mod x y) t = long_mod x y t.
Proof.
  unfold on_tw, long_mod, bind, need. destruct (to_long x) as [i|]; [| done]. destruct (to_long y) as [j|]; [| done]. cbn [ret].
  destruct ((j =? 0) || _); by destruct t.
Qed.
Lemma combine_tw o x y t : on_tw (combine o x y) t = combine o x y t.
Proof. destruct o; [apply on_tw_ret.. | apply long_mod_tw]. Qed.

Lemma combine_any {S S'} o x y (s : S) (s' : S') :
  match combine o x y s with
  | Done v s1 => s1 = s /\ combine o x y s' = Done v s'
  | Err a b s1 => s1 = s /\ combine o x y s' = Err a b s'
  | Stuck => True
  | Timeout => False
  end.
Proof.
  destruct o; try done. unfold combine, long_mod, bind, need. destruct (to_long x) as [i|]; [| done].
  destruct (to_long y) as [j|]; [| done]. cbn [ret]. by destruct ((j =? 0) || _).
Qed.

(** The arithmetic instructions. *)
Lemma bin_op_ok o x y p temps t :
  prog M0 !! p = Some (Op (bin_op o)) -> (height G temps < NSTACK)%nat -> length (targs t) = c_n G ->
  sim n (c_n G) (arith o x y t) (fun m => run m (st G p (DVal y :: DVal x :: temps) t)) (fun v t' m => run m (st G (S p) (DVal v :: temps) t')).
Proof.
  intros Hp Hh Hl. pose proof (fun F => pops_op_ok (bin_op o) F [DVal y; DVal x] p (S p) temps t Hp Hh Hl) as Hpop.
  assert (Hdiv : SFeqb y zero = true -> o = BDiv \/ o = BMod ->
    sim n (c_n G) (Err (A := double) "division by zero" "" t) (fun m => run m (st G p (DVal y :: DVal x :: temps) t)) (fun v t' m => run m (st G (S p) (DVal v :: temps) t'))).
  { intros Ey Ho. eapply (sim_op n (c_n G) _ p (bin_op o) (tw t) _ _ (Err "division by zero" "" (st G (S p) (DVal x :: temps) t))); [done | | by eexists].
    intros e fuel. destruct Ho as [-> | ->]; cbn [step bin_op]; unfold divop, mod_;
      rewrite (bind_Done pop_val _ _ y (st G (S p) (DVal x :: temps) t)) by done; by rewrite Ey. }
  destruct o; cbn [arith]; try (rewrite <- (on_tw_ret _ t); by apply Hpop).
  - destruct (SFeqb y zero) eqn:Ey; [apply Hdiv; [done | by left] |]. rewrite <- (on_tw_ret _ t). apply Hpop.
    intros e fuel. cbn [step bin_op]. unfold divop. rewrite (bind_Done pop_val _ _ y (st G (S p) (DVal x :: temps) t)) by done. by rewrite Ey.
  - destruct (SFeqb y zero) eqn:Ey; [apply Hdiv; [done | by right] |]. rewrite <- long_mod_tw. apply Hpop.
    intros e fuel. cbn [step bin_op]. unfold mod_. rewrite (bind_Done pop_val _ _ y (st G (S p) (DVal x :: temps) t)) by done. rewrite Ey.
    rewrite (bind_Done pop_val _ _ x (st G (S p) temps t)) by done. unfold long_mod, bind, need, on_world.
    destruct (to_long x) as [i|]; [| done]. destruct (to_long y) as [j|]; [| done]. cbn [ret].
    by destruct ((j =? 0) || _).
  - apply Hpop. done.
Qed.

(** *** Arguments on the stack *)

Lemma rev_lookup {A} (l : list A) i : (i < length l)%nat -> rev l !! i = l !! (length l - S i)%nat.
Proof. intros Hi. rewrite rev_alt. by apply reverse_lookup. Qed.
Lemma rev_insert {A} (l : list A) i v : (i < length l)%nat -> rev (<[i := v]> l) = <[(length l - S i)%nat := v]> (rev l).
Proof.
  intros Hi. apply list_eq. intros j. destruct (decide (j < length l)%nat) as [Hj|Hj].
  - rewrite rev_lookup by (by rewrite length_insert). rewrite length_insert. destruct (decide (j = length l - S i)%nat) as [-> | Hn].
    + rewrite list_lookup_insert_eq by (rewrite length_rev; lia). replace (length l - S (length l - S i))%nat with i by lia.
      by apply list_lookup_insert_eq.
    + rewrite list_lookup_insert_ne by lia. rewrite list_lookup_insert_ne by lia. by rewrite rev_lookup.
  - rewrite !lookup_ge_None_2; [done | rewrite length_insert, length_rev; lia | rewrite length_rev, length_insert; lia].
Qed.

(** Argument [i] is entry [length (c_rest G) + i] from the bottom. *)
Lemma arg_place temps l i : length l = c_n G -> (i < c_n G)%nat ->
  from_top (length (c_rest G) + i) (temps ++ stk G l) = Some (length temps + (c_n G - S i))%nat
  /\ (temps ++ stk G l) !! (length temps + (c_n G - S i))%nat = DVal <$> l !! i
  /\ forall v, <[(length temps + (c_n G - S i))%nat := DVal v]> (temps ++ stk G l) = temps ++ stk G (<[i := v]> l).
Proof.
  intros Hl Hi. assert (Hlen : length (temps ++ stk G l) = (length temps + (c_n G + length (c_rest G)))%nat) by (by rewrite length_app, stk_length).
  split_and!.
  - unfold from_top. rewrite Hlen, (proj2 (Nat.ltb_lt _ _)) by lia. f_equal. lia.
  - rewrite lookup_app_r by lia. replace (length temps + (c_n G - S i) - length temps)%nat with (c_n G - S i)%nat by lia. unfold stk.
    rewrite lookup_app_l by (rewrite length_map, length_rev; lia). change (map DVal (rev l)) with (DVal <$> rev l).
    rewrite list_lookup_fmap, rev_lookup by lia. do 2 f_equal. lia.
  - intros v. rewrite insert_app_r. f_equal. unfold stk. rewrite insert_app_l by (rewrite length_map, length_rev; lia). f_equal.
    change (<[(c_n G - S i)%nat := DVal v]> (DVal <$> rev l) = DVal <$> rev (<[i := v]> l)).
    rewrite rev_insert by lia. rewrite list_fmap_insert. by rewrite Hl.
Qed.

(** The search for an argument by the machine is the one by the interpreter. *)
Definition arg_match (r : res tree nat) (R : res machine nat) (q : nat) (temps : list Datum) (t : tree) : Prop :=
  match r with
  | Done i t' => t' = t /\ (i < c_n G)%nat /\ R = Done (length (c_rest G) + i)%nat (st G q temps t)
  | Err x y t' => t' = t /\ R = Err x y (st G q temps t)
  | Stuck => True
  | Timeout => False
  end.
Lemma getarg_ok k q temps t : prog M0 !! q = Some (Num k) -> length (targs t) = c_n G ->
  arg_match (arg_index (c_self G) k t) (getarg (st G q temps t)) (S q) temps t.
Proof.
  intros Hq Hl. unfold getarg. rewrite (bind_Done next_num _ _ k (st G (S q) temps t)) by (by apply next_num_at). unfold arg_index, arg_match.
  destruct (c_self G) as [s|] eqn:Es; [| done].
  change ((let* s0 := need (Some s) in let* l := get targs in if Z.of_nat (length l) <? k then let* x := on_tw (symbol s0) in execerror (name x) "not enough arguments"
    else if k <? 1 then stuck else ret (Z.to_nat (k - 1))) t)
    with ((if Z.of_nat (length (targs t)) <? k then let* x := on_tw (symbol s) in execerror (name x) "not enough arguments"
    else if k <? 1 then stuck else ret (Z.to_nat (k - 1))) t). rewrite Hl.
  set (F := mk_frame s (c_ret G) (c_n G + length (c_rest G)) (Z.of_nat (c_n G))).
  rewrite (bind_Done fp _ _ F (st G (S q) temps t)) by (unfold fp, bind, get, st, at_, frs; by rewrite Es).
  cbn [nargs argn F]. destruct (Z.ltb_spec (Z.of_nat (c_n G)) k) as [Hk|Hk].
  - unfold bind, on_tw, on_world, symbol, need. cbn [sp F]. change (w (st G (S q) temps t)) with (tw t).
    destruct (symbols (tw t) !! s); [| done]. cbn [ret execerror]. split; by destruct t.
  - destruct (Z.ltb_spec k 1) as [Hk1|Hk1]; [done |]. rewrite (proj2 (Z.ltb_ge _ _)) by lia. cbn [ret].
    split_and!; [done | lia |]. unfold ret. f_equal. lia.
Qed.

Lemma targ_Some t i : (i < length (targs t))%nat -> exists v, targs t !! i = Some v /\ targ i t = Done v t.
Proof. intros Hi. destruct (lookup_lt_is_Some_2 _ _ Hi) as (v & Hv). exists v. split; [done |]. unfold targ, bind, get. by rewrite Hv. Qed.
Lemma arg_val_at q temps t i v : length (targs t) = c_n G -> targs t !! i = Some v ->
  arg_val (length (c_rest G) + i) (st G q temps t) = Done v (st G q temps t).
Proof.
  intros Hl Hv. assert (Hi : (i < c_n G)%nat) by (rewrite <- Hl; by eapply lookup_lt_Some). destruct (arg_place temps (targs t) i Hl Hi) as (E1 & E2 & _).
  unfold arg_val, bind, get. cbn [stack st at_]. rewrite E1. cbn [need ret]. rewrite E2, Hv. done.
Qed.
Lemma set_arg_at q temps t i v : length (targs t) = c_n G -> (i < c_n G)%nat ->
  set_arg (length (c_rest G) + i) v (st G q temps t) = Done tt (st G q temps (over targs <[i := v]> t)).
Proof.
  intros Hl Hi. destruct (arg_place temps (targs t) i Hl Hi) as (E1 & _ & E3).
  unfold set_arg, bind, get. cbn [stack st at_]. rewrite E1. cbn [need ret]. unfold modify. f_equal.
  change (at_ q (tw t) (<[(length temps + (c_n G - S i))%nat := DVal v]> (temps ++ stk G (targs t))) (frs G) = st G q temps (over targs <[i := v]> t)).
  by rewrite E3.
Qed.

Lemma arg_op_ok k p temps t :
  code_at (prog M0) p [Op Arg; Num k] -> length (targs t) = c_n G ->
  sim n (c_n G) (expr_sem call (c_self G) (height G temps) (EArg k) t) (fun m => run m (st G p temps t))
    (fun v t' m => run m (st G (p + 2) (DVal v :: temps) t')).
Proof.
  intros Hc Hl. rewrite !code_at_cons in Hc. destruct Hc as (H1 & H2 & _). replace (p + 2)%nat with (S (S p)) by lia.
  eapply (sim_op n (c_n G) _ p Arg _ _ _ (arg (st G (S p) temps t))); [done | done |]. cbn [expr_sem]. unfold arg.
  pose proof (getarg_ok k (S p) temps t H2 Hl) as Ha. unfold arg_match in Ha. unfold bind at 1 4.
  destruct (arg_index (c_self G) k t) as [i t'|x y t'| |]; [| destruct Ha as (-> & ->); by eexists | done | done].
  destruct Ha as (-> & Hi & ->). destruct (targ_Some t i) as (v & Hv & Et); [by rewrite Hl |].
  rewrite (bind_Done _ _ _ _ _ Et), (bind_Done _ _ _ _ _ (arg_val_at (S (S p)) temps t i v Hl Hv)).
  pose proof (st_height G (S (S p)) temps t Hl) as Hh. unfold st in Hh. cbn [stack at_] in Hh. unfold bind, room, st at 1.
  destruct (NSTACK <=? height G temps)%nat eqn:El.
  - apply Nat.leb_le in El. rewrite push_full by (by rewrite Hh). by eexists.
  - apply Nat.leb_gt in El. rewrite push_at by (by rewrite Hh). done.
Qed.

Lemma arg_asgn_ok o k v p temps t :
  code_at (prog M0) p [Op (arg_asgn_op o); Num k] -> length (targs t) = c_n G -> (height G temps < NSTACK)%nat ->
  sim n (c_n G) ((let* i := arg_index (c_self G) k in let* old := targ i in let* v := combine o old v in set_targ i v ;;; ret v) t)
    (fun m => run m (st G p (DVal v :: temps) t)) (fun v t' m => run m (st G (p + 2) (DVal v :: temps) t')).
Proof.
  intros Hc Hl Hh. rewrite !code_at_cons in Hc. destruct Hc as (H1 & H2 & _). replace (p + 2)%nat with (S (S p)) by lia.
  assert (Hstep : forall e fuel, step e fuel (arg_asgn_op o) = (match o with Set_ => argassign | _ => arg_op o end)) by (by destruct o).
  eapply (sim_op n (c_n G) _ p (arg_asgn_op o) _ _ _ ((match o with Set_ => argassign | _ => arg_op o end) (st G (S p) (DVal v :: temps) t)));
    [done | intros e fuel; by rewrite Hstep |].
  assert (Hpush : forall d q t', length (targs t') = c_n G -> push d (st G q temps t') = Done tt (st G q (d :: temps) t')).
  { intros d q t' Hl'. pose proof (st_height G q temps t' Hl') as E. cbn [stack st at_] in E. unfold st. rewrite push_at; [done | by rewrite E]. }
  assert (Hset : o = Set_ \/ o <> Set_) by (destruct o; [by left | by right..]). destruct Hset as [-> | Ho].
  - unfold argassign. rewrite (bind_Done pop _ _ (DVal v) (st G (S p) temps t)) by done. rewrite (bind_Done _ _ _ _ _ (Hpush _ _ _ Hl)).
    pose proof (getarg_ok k (S p) (DVal v :: temps) t H2 Hl) as Ha. unfold arg_match in Ha. unfold bind at 1 5.
    destruct (arg_index (c_self G) k t) as [i t'|x y t'| |]; [| destruct Ha as (-> & ->); by eexists | done | done].
    destruct Ha as (-> & Hi & ->). destruct (targ_Some t i) as (old & Hv & Et); [by rewrite Hl |].
    rewrite (bind_Done _ _ _ _ _ Et), (bind_Done (combine Set_ old v) _ _ v t) by done.
    rewrite (bind_Done (val (DVal v)) _ _ v (st G (S (S p)) (DVal v :: temps) t)) by done.
    rewrite (set_arg_at (S (S p)) (DVal v :: temps) t i v Hl Hi). split; [| done]. cbn. by rewrite length_insert.
  - replace (match o with Set_ => argassign | _ => arg_op o end) with (arg_op o) by (by destruct o). unfold arg_op.
    rewrite (bind_Done pop_val _ _ v (st G (S p) temps t)) by done.
    pose proof (getarg_ok k (S p) temps t H2 Hl) as Ha. unfold arg_match in Ha. unfold bind at 1 5.
    destruct (arg_index (c_self G) k t) as [i t'|x y t'| |]; [| destruct Ha as (-> & ->); by eexists | done | done].
    destruct Ha as (-> & Hi & ->). destruct (targ_Some t i) as (old & Hv & Et); [by rewrite Hl |].
    rewrite (bind_Done _ _ _ _ _ Et), (bind_Done _ _ _ _ _ (arg_val_at (S (S p)) temps t i old Hl Hv)).
    pose proof (combine_any o old v t (st G (S (S p)) temps t)) as Hc. unfold bind at 1 3.
    destruct (combine o old v t) as [v'|x y t'| |]; [| destruct Hc as (-> & ->); by eexists | done | done].
    destruct Hc as (-> & ->). rewrite (bind_Done _ _ _ _ _ (set_arg_at (S (S p)) temps t i v' Hl Hi)).
    assert (Hl' : length (targs (over targs <[i := v']> t)) = c_n G) by (cbn; by rewrite length_insert).
    rewrite (Hpush _ _ _ Hl'). done.
Qed.

Lemma args_length l h t vs t' : args_sem call (c_self G) h l t = Done vs t' -> length vs = arity l.
Proof.
  revert h t vs t'. induction l as [|l IH e]; intros h t vs t'; cbn [args_sem arity]; [by intros [= <- _] |].
  intros E. apply bind_inv in E as (us & t1 & E1 & E). apply bind_inv in E as (v & t2 & _ & E). injection E as <- _.
  rewrite length_app. cbn [length]. rewrite (IH _ _ _ _ E1). lia.
Qed.

(** An operand, then the rest of the code. *)
Lemma sim_operand e code (kk : double -> H tree double) p temps t :
  expr_ok e -> code_at (prog M0) p (cexpr e ++ code) -> code <> [] -> length (targs t) = c_n G ->
  (forall v t', code_at (prog M0) (p + length (cexpr e)) code -> (height G temps < NSTACK)%nat -> length (targs t') = c_n G ->
    sim n (c_n G) (kk v t') (fun m => run m (st G (p + length (cexpr e)) (DVal v :: temps) t'))
      (fun v t' m => run m (st G (p + length (cexpr e) + length code) (DVal v :: temps) t'))) ->
  sim n (c_n G) (bind (expr_sem call (c_self G) (height G temps) e) kk t) (fun m => run m (st G p temps t))
    (fun v t' m => run m (st G (p + length (cexpr e ++ code)) (DVal v :: temps) t')).
Proof.
  intros He Hc Hne Hl Hk. apply code_at_app in Hc as (H1 & H2).
  eapply sim_bind; [apply He; [done | | done] |].
  - destruct code as [|x l]; [done |]. apply code_at_cons in H2 as (H2 & _). by eexists.
  - intros v t' E Hl'. rewrite length_app. rewrite Nat.add_assoc. apply Hk; [done | by eapply expr_room | done].
Qed.


Lemma asgn_ok o s e : expr_ok e -> expr_ok (EAsgn o s e).
Proof.
  intros He p temps t Hc _ Hl. cbn [cexpr expr_sem]. apply sim_operand; [done | done | done | done |]. intros v t1 Hc' Hh Hl1. cbn [length].
  set (q := (p + length (cexpr e))%nat) in *. rewrite (code_at_app _ _ [Op Varpush; Sym s] [Op (asgn_op o)]) in Hc'. destruct Hc' as (H1 & H2).
  eapply sim_bind; [by apply (varpush_ok s q (DVal v :: temps) t1) |]. intros ? t2 _ Hl2.
  apply code_at_cons in H2 as (H2 & _). replace (q + 3)%nat with (S (q + 2)) by lia.
  apply (pops_op_ok (asgn_op o) (assign_sym o s v) [DSym s; DVal v] (q + 2) (S (q + 2)) temps t2 H2 Hh Hl2). by destruct o.
Qed.

Lemma call_expr_ok s l : args_ok l -> expr_ok (ECall s l).
Proof.
  intros Ha p temps t Hc Hend Hl. cbn [cexpr expr_sem] in *. rewrite length_app, Nat.add_assoc in *. apply code_at_app in Hc as (H1 & H2).
  eapply sim_bind; [apply Ha; [done | | done] |].
  - apply code_at_cons in H2 as (H2 & _). by eexists.
  - intros vs t1 E Hl1. rewrite <- (args_length _ _ _ _ _ E) in H2. cbn [length] in *.
    eapply sim_bind; [by apply call_ok |]. intros r t2 _ Hl2. destruct r as [v|]; [| done].
    exact (sim_ret n (c_n G) v t2 (fun v t m => run m (st G _ (DVal v :: temps) t)) Hl2).
Qed.

Lemma expr_args_ok : (forall e, expr_ok e) /\ (forall l, args_ok l).
Proof.
  apply expr_args_ind.
  - intros s p temps t Hc _ Hl. by apply (sym_op_ok Constpush sym_val).
  - intros s p temps t Hc _ Hl. cbn [cexpr expr_sem length] in *. rewrite (code_at_app _ _ [Op Varpush; Sym s] [Op Eval]) in Hc. destruct Hc as (H1 & H2).
    eapply sim_bind; [by apply (varpush_ok s p temps t) |]. intros ? t' E Hl'. apply room_inv in E as (Hh & _).
    apply code_at_cons in H2 as (H2 & _). replace (p + 3)%nat with (S (p + 2)) by lia.
    by apply (pops_op_ok Eval (eval_sym s) [DSym s] (p + 2) (S (p + 2)) temps t').
  - intros k p temps t Hc _ Hl. by apply arg_op_ok.
  - intros. by apply asgn_ok.
  - intros o k e He p temps t Hc _ Hl. cbn [cexpr expr_sem]. apply sim_operand; [done | done | done | done |]. intros v t' Hc' Hh Hl'. by apply arg_asgn_ok.
  - intros. by apply call_expr_ok.
  - intros s p temps t Hc _ Hl. by apply (sym_op_ok Varread read_sym).
  - intros f e He p temps t Hc _ Hl. cbn [cexpr expr_sem]. apply sim_operand; [done | done | done | done |]. intros v t' Hc' Hh Hl'.
    rewrite !code_at_cons in Hc'. destruct Hc' as (H1 & H2 & _). cbn [length]. rewrite !Nat.add_succ_r, Nat.add_0_r.
    apply (pops_op_ok Bltin (call_builtin f v) [DVal v]); [done | done | done |]. intros e' fuel. cbn [step]. unfold bltin.
    rewrite (bind_Done pop _ _ (DVal v) (st G (S (p + length (cexpr e))) temps t')) by done.
    by rewrite (bind_Done next _ _ (Fun f) (st G (S (S (p + length (cexpr e)))) temps t')) by (by apply next_at).
  - intros o e1 He1 e2 He2 p temps t Hc _ Hl. cbn [cexpr expr_sem]. apply sim_operand; [done | done | by destruct (cexpr e2) | done |].
    intros x t1 Hc' Hh Hl1. pose proof Hc' as Hc2. apply code_at_app in Hc2 as (_ & Hc2). rewrite length_app, Nat.add_assoc.
    set (q := (p + length (cexpr e1))%nat) in *. apply code_at_app in Hc' as (H1 & H2). apply code_at_cons in H2 as (H2 & _).
    eapply sim_bind; [apply (He2 q (DVal x :: temps) t1); [done | by eexists | done] |]. intros y t2 _ Hl2. cbn [length].
    rewrite Nat.add_1_r. by apply bin_op_ok.
  - intros e He p temps t Hc _ Hl. cbn [cexpr expr_sem]. apply sim_operand; [done | done | done | done |]. intros v t' Hc' Hh Hl'.
    apply code_at_cons in Hc' as (H1 & _). cbn [length]. rewrite Nat.add_1_r. rewrite <- (on_tw_ret _ t').
    by apply (pops_op_ok Negate (ret (SFopp v)) [DVal v]).
  - intros e He p temps t Hc _ Hl. cbn [cexpr expr_sem]. apply sim_operand; [done | done | done | done |]. intros v t' Hc' Hh Hl'.
    apply code_at_cons in Hc' as (H1 & _). cbn [length]. rewrite Nat.add_1_r. rewrite <- (on_tw_ret _ t').
    by apply (pops_op_ok Not (ret (of_bool (SFeqb v zero))) [DVal v]).
  - intros inc post s p temps t Hc _ Hl. apply (sym_op_ok (step_op inc post) (step_sym (if inc then fadd else fsub) post)); [| done | done].
    by destruct inc, post.
  - intros p temps t _ _ Hl. cbn. rewrite Nat.add_0_r. split_and!; [done | intros m; apply less_refl | by exists 0%nat, 0%nat].
  - intros l Ha e He p temps t Hc Hend Hl. cbn [cargs args_sem] in *. rewrite length_app, Nat.add_assoc in *. apply code_at_app in Hc as (H1 & H2).
    eapply sim_bind; [apply Ha; [done | | done] |].
    + destruct (cexpr e) as [|x c] eqn:Ee; [cbn in Hend; by rewrite Nat.add_0_r in Hend |]. apply code_at_cons in H2 as (H2 & _). by eexists.
    + intros vs t1 E Hl1. replace (height G temps + length vs)%nat with (height G (map DVal (rev vs) ++ temps)).
      2: { unfold height. rewrite length_app, length_map, length_rev. lia. }
      eapply sim_bind; [by apply He |]. intros v t2 _ Hl2. unfold ret, sim. rewrite rev_app_distr.
      exact (sim_ret n (c_n G) v t2 (fun v t m => run m (st G _ (DVal v :: map DVal (rev vs) ++ temps) t)) Hl2).
Qed.

End Expr.
End Machine.
