(* ===== verification/HocStmt.v ===== *)
(** The code of hoc statements and of functions does what they mean. *)
From stdpp Require Import base list gmap strings.
From Stdlib Require Import ZArith Lia Floats.SpecFloat.
From S2P Require Import Prelude Hoc HocSpec HocRun HocExpr.
Import Hoc HocSpec.
Open Scope Z_scope.
Open Scope hoc_scope.

Scheme stmt_mut := Induction for stmt Sort Prop with stmts_mut := Induction for stmts Sort Prop.
Combined Scheme stmt_stmts_ind from stmt_mut, stmts_mut.

(** ** The code of a statement at an address *)

Definition citem (i : pritem) : list word :=
  match i with
  | PExpr e => cexpr e ++ [Op Prexpr]
  | PStr s => [Op Prstr; Str s]
  end.
(** A condition, and the value of a statement in the grammar. *)
Definition ccond (e : expr) : list word := cexpr e ++ [STOP].
Definition start (b : nat) (s : stmt) : word := match s with SReturn t => Sym t | _ => Addr b end.

Fixpoint cstmt (b : nat) (s : stmt) : list word :=
  match s with
  | SExpr e => cexpr e ++ [Op Xpop]
  | SReturn _ => [Op Procret]
  | SReturnE e => cexpr e ++ [Op Funcret]
  | SProc n l => cargs l ++ [Op Call; Sym n; Num (Z.of_nat (arity l))]
  | SPrint i l => citem i ++ concat (map citem l)
  | SWhile e s =>
    let p := (b + 3 + length (ccond e))%nat in
    let k := cstmt p s ++ [STOP] in
    [Op Whilecode; start p s; Addr (p + length k)] ++ ccond e ++ k
  | SFor e1 e2 e3 s =>
    let c := (b + 5 + length (ccond e1))%nat in
    let i := (c + length (ccond e2))%nat in
    let p := (i + length (ccond e3))%nat in
    let k := cstmt p s ++ [STOP] in
    [Op Forcode; Addr c; Addr i; start p s; Addr (p + length k)] ++ ccond e1 ++ ccond e2 ++ ccond e3 ++ k
  | SIf e s =>
    let p := (b + 4 + length (ccond e))%nat in
    let k := cstmt p s ++ [STOP] in
    [Op Ifcode; start p s; STOP; Addr (p + length k)] ++ ccond e ++ k
  | SIfElse e s1 s2 =>
    let p := (b + 4 + length (ccond e))%nat in
    let k := cstmt p s1 ++ [STOP] in
    let q := (p + length k)%nat in
    let k' := cstmt q s2 ++ [STOP] in
    [Op Ifcode; start p s1; start q s2; Addr (q + length k')] ++ ccond e ++ k ++ k'
  | SBlock l => cstmts b l
  end
with cstmts (b : nat) (l : stmts) : list word :=
  match l with
  | SNil => []
  | SSnoc l s => cstmts b l ++ cstmt (b + length (cstmts b l)) s
  end.

(** No [return] without a value is itself the body of a loop or a branch: the address
    of its code would be the value of the token. *)
Definition body_ok (s : stmt) : bool := match s with SReturn _ => false | _ => true end.
Fixpoint wf_stmt (s : stmt) : bool :=
  match s with
  | SWhile _ s | SFor _ _ _ s | SIf _ s => body_ok s && wf_stmt s
  | SIfElse _ s1 s2 => body_ok s1 && wf_stmt s1 && (body_ok s2 && wf_stmt s2)
  | SBlock l => wf_stmts l
  | _ => true
  end
with wf_stmts (l : stmts) : bool := match l with SNil => true | SSnoc l s => wf_stmts l && wf_stmt s end.

Section Machine.
Context `{Libm} (M0 : machine).

Lemma bind_ret {S A} (x : H S A) s : bind x ret s = x s.
Proof. unfold bind. by destruct (x s). Qed.

(** ** Statements *)

Section Stmt.
Context (n : nat) (call : nat -> nat -> list double -> H world (option double)) (G : ctx).
Hypothesis call_room : calls_room call.
Hypothesis call_ok : calls_ok M0 n call G.
Hypothesis ret_in : is_Some (prog M0 !! c_ret G).

(** The machine when the function has returned. *)
Definition ret_state (o : outcome) (t : tree) : machine :=
  mk_machine (tw t) (match o with RetFun v => DVal v :: c_rest G | _ => c_rest G end) (prog M0) (progp M0) (c_ret G) (progbase M0) true (indef M0) (c_fr G).
Definition fin (q : nat) (o : outcome) (t : tree) : machine := match o with Normal => st M0 G q [] t | o => ret_state o t end.

Lemma expr_sim e p temps t :
  code_at (prog M0) p (cexpr e) -> is_Some (prog M0 !! (p + length (cexpr e))%nat) -> length (targs t) = c_n G ->
  sim n (c_n G) (expr_sem call (c_self G) (height G temps) e t) (fun m => run m (st M0 G p temps t))
    (fun v t' m => run m (st M0 G (p + length (cexpr e)) (DVal v :: temps) t')).
Proof. by apply (expr_args_ok M0 n call G call_room call_ok). Qed.

(** [execute] stops at a STOP. *)
Lemma run_stop q temps t : prog M0 !! q = Some STOP -> forall m, run (S m) (st M0 G q temps t) = Done tt (st M0 G q temps t).
Proof. intros Hq m. cbn [run]. unfold bind at 1, get. unfold bind at 1, fetch. cbn [pc prog st at_]. rewrite Hq. done. Qed.

Definition exec (m p : nat) : H machine unit := modify (put pc p) ;;; run m.

Lemma exec_expr e p q t : code_at (prog M0) p (ccond e) -> length (targs t) = c_n G ->
  sim n (c_n G) (expr_sem call (c_self G) (height G []) e t) (fun m => exec m p (st M0 G q [] t))
    (fun d t' _ => Done tt (st M0 G (p + length (cexpr e)) [DVal d] t')).
Proof.
  intros Hc Hl. apply code_at_app in Hc as (H1 & H2). apply code_at_cons in H2 as (H2 & _).
  eapply sim_end; [apply (expr_sim e p [] t); [done | by eexists | done] |]. intros v t' _. split.
  - intros [|m]; [by left | right; by apply run_stop].
  - exists 1%nat. intros m. by apply run_stop.
Qed.
Lemma exec_value e p q t : code_at (prog M0) p (ccond e) -> length (targs t) = c_n G ->
  sim n (c_n G) (expr_sem call (c_self G) (height G []) e t) (fun m => (exec m p ;;; pop_val) (st M0 G q [] t))
    (fun d t' _ => Done d (st M0 G (p + length (cexpr e)) [] t')).
Proof.
  intros Hc Hl.
  rewrite <- (bind_ret (expr_sem call (c_self G) (height G []) e)). eapply sim_bindm; [by apply exec_expr |]. intros d t' _ Hl'.
  exact (sim_ret n (c_n G) d t' (fun d t' _ => Done d (st M0 G (p + length (cexpr e)) [] t')) Hl').
Qed.

(** The same for a value that is dropped. *)
Lemma exec_drop e p q t : code_at (prog M0) p (ccond e) -> length (targs t) = c_n G ->
  sim n (c_n G) (expr_sem call (c_self G) (height G []) e t) (fun m => (exec m p ;;; xpop) (st M0 G q [] t))
    (fun _ t' _ => Done tt (st M0 G (p + length (cexpr e)) [] t')).
Proof.
  intros Hc Hl. rewrite <- (bind_ret (expr_sem call (c_self G) (height G []) e)). eapply sim_bindm; [by apply exec_expr |]. intros d t' _ Hl'.
  exact (sim_ret n (c_n G) d t' (fun _ t' _ => Done tt (st M0 G (p + length (cexpr e)) [] t')) Hl').
Qed.

(** How the machine goes on after a statement. *)
Definition go (q : nat) (o : outcome) (t : tree) (m : nat) : res machine unit :=
  match o with Normal => run m (st M0 G q [] t) | o => Done tt (ret_state o t) end.
Lemma go_grows q o t : grows (go q o t).
Proof. destruct o; [apply run_grows | intros m; apply less_refl..]. Qed.

(** A function that has returned leaves the loop of [execute]. *)
Lemma run_returned m o t : run (S m) (ret_state o t) = Done tt (ret_state o t).
Proof.
  destruct ret_in as (x & Hx). cbn [run]. unfold bind at 1, get. unfold bind at 1, fetch. cbn [pc prog ret_state]. rewrite Hx.
  by destruct x.
Qed.
Lemma sim_go q o t : length (targs t) = c_n G -> sim n (c_n G) (ret o t) (fun m => run m (fin q o t)) (go q).
Proof.
  intros Hl. destruct o as [| |v]; [exact (sim_ret n (c_n G) Normal t (go q) Hl) | |];
    (split_and!; [done | intros [|m]; [by left | right; by apply run_returned] | exists 1%nat, 0%nat; intros m; by apply run_returned]).
Qed.

(** An instruction that works by executing other code. *)
Lemma sim_ctl o (x : H tree outcome) p temps z t :
  prog M0 !! p = Some (Op o) ->
  sim n (c_n G) (x t) (fun m => step (exec m) m o (st M0 G (S p) temps t)) (fun o t' _ => Done tt (fin z o t')) ->
  sim n (c_n G) (x t) (fun m => run m (st M0 G p temps t)) (go z).
Proof.
  intros Hp Hs. rewrite <- (bind_ret x) in *. eapply (sim_step _ _ _ _ (fun m => bind (step (exec m) m o) (fun _ => run m) (st M0 G (S p) temps t))).
  - done.
  - intros m. by apply (run_op M0 p o).
  - intros o' t'. apply go_grows.
  - rewrite bind_ret in Hs. eapply sim_bindm; [exact Hs |]. intros o' t' _ Hl'. by apply sim_go.
Qed.

Lemma resume_fin a q z o t : prog M0 !! a = Some (Addr z) -> resume a (fin q o t) = Done tt (fin z o t).
Proof.
  intros Ha. destruct o; try done. unfold resume, bind at 1, get. cbn [fin returning st at_]. unfold addr_at, bind, fetch. cbn [prog st at_].
  by rewrite Ha.
Qed.

(** What is proved of a statement. *)
Definition stmt_ok (s : stmt) : Prop := forall p t, wf_stmt s = true ->
  code_at (prog M0) p (cstmt p s) -> is_Some (prog M0 !! (p + length (cstmt p s))%nat) -> length (targs t) = c_n G ->
  sim n (c_n G) (stmt_sem call (c_self G) n (height G []) s t) (fun m => run m (st M0 G p [] t)) (go (p + length (cstmt p s))).
Definition stmts_ok (l : stmts) : Prop := forall p t, wf_stmts l = true ->
  code_at (prog M0) p (cstmts p l) -> is_Some (prog M0 !! (p + length (cstmts p l))%nat) -> length (targs t) = c_n G ->
  sim n (c_n G) (stmts_sem call (c_self G) n (height G []) l t) (fun m => run m (st M0 G p [] t)) (go (p + length (cstmts p l))).

(** The body of a loop or a branch. *)
Lemma exec_stmt s p q t : stmt_ok s -> wf_stmt s = true -> code_at (prog M0) p (cstmt p s ++ [STOP]) -> length (targs t) = c_n G ->
  sim n (c_n G) (stmt_sem call (c_self G) n (height G []) s t) (fun m => exec m p (st M0 G q [] t))
    (fun o t' _ => Done tt (fin (p + length (cstmt p s)) o t')).
Proof.
  intros Hs Hw Hc Hl. apply code_at_app in Hc as (H1 & H2). apply code_at_cons in H2 as (H2 & _).
  eapply sim_end; [apply (Hs p t); [done | done | by eexists | done] |]. intros [| |v] t' _; cbn [go fin].
  2-3: split; [intros m; by right | by exists 0%nat].
  split; [intros [|m]; [by left | right; by apply run_stop] | exists 1%nat; intros m; by apply run_stop].
Qed.
Lemma exec_body s a p q t : stmt_ok s -> body_ok s && wf_stmt s = true -> prog M0 !! a = Some (start p s) ->
  code_at (prog M0) p (cstmt p s ++ [STOP]) -> length (targs t) = c_n G ->
  sim n (c_n G) (stmt_sem call (c_self G) n (height G []) s t) (fun m => execute_at (exec m) a (st M0 G q [] t))
    (fun o t' _ => Done tt (fin (p + length (cstmt p s)) o t')).
Proof.
  intros Hs Hw Ha Hc Hl. apply andb_prop in Hw as (Hb & Hw).
  eapply sim_ext; [| by apply (exec_stmt s p q t)]. intros m. assert (Ep : start p s = Addr p) by (by destruct s). rewrite Ep in Ha.
  unfold execute_at, addr_at, bind, fetch. cbn [prog st at_]. by rewrite Ha.
Qed.

(** The turns of a loop, and the jump behind it. *)
Lemma turns_ok s a b hd p z againS againM d t :
  stmt_ok s -> body_ok s && wf_stmt s = true -> prog M0 !! a = Some (start p s) -> prog M0 !! b = Some (Addr z) ->
  code_at (prog M0) p (cstmt p s ++ [STOP]) -> length (targs t) = c_n G ->
  (forall q t, length (targs t) = c_n G -> sim n (c_n G) (againS t) (fun m => againM m (st M0 G q [] t)) (fun d t' _ => Done d (st M0 G hd [] t'))) ->
  sim n (c_n G) (loop_sem n (stmt_sem call (c_self G) n (height G []) s) againS d t)
    (fun m => (loop m (execute_at (exec m) a) (againM m) d ;;; resume b) (st M0 G hd [] t)) (fun o t' _ => Done tt (fin z o t')).
Proof.
  intros Hs Hw Ha Hz Hc Hl Hagain. rewrite <- (bind_ret (loop_sem _ _ _ d)).
  eapply (sim_bindm _ _ _ _ _ (fun m => loop m (execute_at (exec m) a) (againM m) d)).
  - apply (sim_loop n (c_n G) _ _ (fun m => execute_at (exec m) a) againM (st M0 G hd []) (fin (p + length (cstmt p s)))); [| | by intros [] | done].
    + intros t1 Hl1. by apply exec_body.
    + intros t1 Hl1. by apply Hagain.
  - intros o t1 _ Hl1. cbn beta. assert (E : loop_end (st M0 G hd []) (fin (p + length (cstmt p s))) o t1 = fin hd o t1) by (by destruct o).
    rewrite E, (resume_fin _ _ _ _ _ Hz). exact (sim_ret n (c_n G) o t1 (fun o t' _ => Done tt (fin z o t')) Hl1).
Qed.

Lemma while_ok e s : stmt_ok s -> stmt_ok (SWhile e s).
Proof.
  intros Hs p t Hw Hc _ Hl. cbn [wf_stmt cstmt stmt_sem] in *. set (pb := (p + 3 + length (ccond e))%nat) in *.
  set (z := (pb + length (cstmt pb s ++ [STOP]))%nat) in *. cbn [app] in Hc. rewrite !code_at_cons, code_at_app in Hc.
  destruct Hc as (H1 & H2 & H3 & H4 & H5). replace (S (S (S p)) + length (ccond e))%nat with pb in H5 by lia.
  replace (p + length _)%nat with z by (rewrite !length_app; unfold z, pb; cbn [length]; rewrite length_app; cbn [length]; lia).
  apply (sim_ctl Whilecode (let* d := expr_sem call (c_self G) (height G []) e in
    loop_sem n (stmt_sem call (c_self G) n (height G []) s) (expr_sem call (c_self G) (height G []) e) d) p [] z t H1).
  change (fun m => step (exec m) m Whilecode (st M0 G (S p) [] t)) with
    (fun m => (let* d := (exec m (S p + 2) ;;; pop_val) in
       loop m (execute_at (exec m) (S p)) (exec m (S p + 2) ;;; pop_val) d ;;; resume (S p + 1)) (st M0 G (S p) [] t)).
  replace (S p + 2)%nat with (S (S (S p))) by lia. replace (S p + 1)%nat with (S (S p)) by lia.
  eapply sim_bindm; [by apply exec_value |]. intros d t' _ Hl'.
  apply (turns_ok s (S p) (S (S p)) _ pb z _ (fun m => exec m (S (S (S p))) ;;; pop_val)); [done.. |]. intros q t1 Hl1. by apply exec_value.
Qed.

Lemma exec_addr a p m q t : prog M0 !! a = Some (Addr p) -> execute_at (exec m) a (st M0 G q [] t) = exec m p (st M0 G q [] t).
Proof. intros Ha. unfold execute_at, addr_at, bind, fetch. cbn [prog st at_]. by rewrite Ha. Qed.

Lemma for_ok e1 e2 e3 s : stmt_ok s -> stmt_ok (SFor e1 e2 e3 s).
Proof.
  intros Hs p t Hw Hc _ Hl. cbn [wf_stmt cstmt stmt_sem] in *. set (c := (p + 5 + length (ccond e1))%nat) in *.
  set (i := (c + length (ccond e2))%nat) in *. set (pb := (i + length (ccond e3))%nat) in *.
  set (z := (pb + length (cstmt pb s ++ [STOP]))%nat) in *. cbn [app] in Hc. rewrite !code_at_cons, !code_at_app in Hc.
  destruct Hc as (H1 & Hc & Hi & Hb & Hz & C1 & C2 & C3 & C4). replace (S (S (S (S (S p)))) + length (ccond e1))%nat with c in * by lia.
  fold i pb in C3, C4. rewrite <- code_at_app in C4.
  replace (p + length _)%nat with z by (rewrite !length_app; unfold z, pb, i, c; cbn [length]; rewrite !length_app; cbn [length]; lia).
  apply (sim_ctl Forcode (expr_sem call (c_self G) (height G []) e1 ;;; let* d := expr_sem call (c_self G) (height G []) e2 in
    loop_sem n (stmt_sem call (c_self G) n (height G []) s) (expr_sem call (c_self G) (height G []) e3 ;;; expr_sem call (c_self G) (height G []) e2) d) p [] z t H1).
  apply (sim_ext _ _ _ _ (fun m => ((exec m (S p + 4) ;;; xpop) ;;; let* d := for_cond (exec m) (S p) in
       loop m (execute_at (exec m) (S p + 2)) (for_again (exec m) (S p)) d ;;; resume (S p + 3)) (st M0 G (S p) [] t))).
  { intros m. cbn [step]. unfold forcode, bind, get. cbn [pc st at_]. by destruct (exec m (S p + 4) _). }
  replace (S p + 4)%nat with (S (S (S (S (S p))))) by lia. replace (S p + 2)%nat with (S (S (S p))) by lia. replace (S p + 3)%nat with (S (S (S (S p)))) by lia.
  assert (Hcond : forall q t, length (targs t) = c_n G -> sim n (c_n G) (expr_sem call (c_self G) (height G []) e2 t)
    (fun m => for_cond (exec m) (S p) (st M0 G q [] t)) (fun d t' _ => Done d (st M0 G (c + length (cexpr e2)) [] t'))).
  { intros q t1 Hl1. eapply sim_ext; [| by apply (exec_value e2 c q t1)]. intros m. unfold for_cond, bind at 1. by rewrite (exec_addr _ _ _ _ _ Hc). }
  eapply sim_bindm; [by apply exec_drop |]. intros d1 t1 _ Hl1.
  eapply sim_bindm; [by apply Hcond |]. intros d t2 _ Hl2.
  apply (turns_ok s _ _ _ pb z _ (fun m => for_again (exec m) (S p))); [done.. |]. intros q t3 Hl3.
  apply (sim_ext _ _ _ _ (fun m => ((exec m i ;;; xpop) ;;; for_cond (exec m) (S p)) (st M0 G q [] t3))).
  { intros m. unfold for_again. replace (S p + 1)%nat with (S (S p)) by lia. unfold bind. rewrite (exec_addr _ _ _ _ _ Hi). by destruct (exec m i _). }
  eapply sim_bindm; [by apply exec_drop |]. intros d3 t4 _ Hl4. by apply Hcond.
Qed.

(** A branch, and the jump behind it. *)
Lemma branch_ok s a b q p z t :
  stmt_ok s -> body_ok s && wf_stmt s = true -> prog M0 !! a = Some (start p s) -> prog M0 !! b = Some (Addr z) ->
  code_at (prog M0) p (cstmt p s ++ [STOP]) -> length (targs t) = c_n G ->
  sim n (c_n G) (stmt_sem call (c_self G) n (height G []) s t)
    (fun m => (execute_at (exec m) a ;;; resume b) (st M0 G q [] t)) (fun o t' _ => Done tt (fin z o t')).
Proof.
  intros Hs Hw Ha Hz Hc Hl. rewrite <- (bind_ret (stmt_sem _ _ _ _ s)). eapply sim_bindm; [by apply exec_body |].
  intros o t' _ Hl'. cbn beta. rewrite (resume_fin _ _ _ _ _ Hz). exact (sim_ret n (c_n G) o t' (fun o t' _ => Done tt (fin z o t')) Hl').
Qed.

Lemma ifcode_eq m p t : step (exec m) m Ifcode (st M0 G (S p) [] t) =
  (let* d := (exec m (S (S (S (S p)))) ;;; pop_val) in
   (if truth d then execute_at (exec m) (S p)
    else let* x := fetch (S (S p)) in match x with STOP => ret tt | Addr a => exec m a | _ => stuck end) ;;;
   resume (S (S (S p)))) (st M0 G (S p) [] t).
Proof.
  cbn [step]. unfold ifcode. unfold bind at 1, get. cbn [pc st at_]. replace (S p + 3)%nat with (S (S (S (S p)))) by lia.
  replace (S p + 1)%nat with (S (S p)) by lia. replace (S p + 2)%nat with (S (S (S p))) by lia. unfold bind. by destruct (exec m _ _).
Qed.

Lemma if_ok e s : stmt_ok s -> stmt_ok (SIf e s).
Proof.
  intros Hs p t Hw Hc _ Hl. cbn [wf_stmt cstmt stmt_sem] in *. set (pb := (p + 4 + length (ccond e))%nat) in *.
  set (z := (pb + length (cstmt pb s ++ [STOP]))%nat) in *. cbn [app] in Hc. rewrite !code_at_cons, code_at_app in Hc.
  destruct Hc as (H1 & Hb & He & Hz & C1 & C2). replace (S (S (S (S p))) + length (ccond e))%nat with pb in C2 by lia.
  replace (p + length _)%nat with z by (rewrite !length_app; unfold z, pb; cbn [length]; rewrite length_app; cbn [length]; lia).
  apply (sim_ctl Ifcode (let* d := expr_sem call (c_self G) (height G []) e in
    if truth d then stmt_sem call (c_self G) n (height G []) s else ret Normal) p [] z t H1).
  eapply sim_ext; [intros m; apply ifcode_eq |]. eapply sim_bindm; [by apply exec_value |]. intros d t' _ Hl'.
  destruct (truth d); [by apply (branch_ok s _ _ _ pb) |].
  eapply sim_ext; [| exact (sim_ret n (c_n G) Normal t' (fun o t' _ => Done tt (fin z o t')) Hl')].
  intros m. unfold fetch, bind at 1 2. cbn [prog st at_]. rewrite He. exact (resume_fin _ _ z Normal t' Hz).
Qed.

Lemma ifelse_ok e s1 s2 : stmt_ok s1 -> stmt_ok s2 -> stmt_ok (SIfElse e s1 s2).
Proof.
  intros Hs1 Hs2 p t Hw Hc _ Hl. cbn [wf_stmt cstmt stmt_sem] in *. apply andb_prop in Hw as (Hw1 & Hw2).
  set (pb := (p + 4 + length (ccond e))%nat) in *. set (q := (pb + length (cstmt pb s1 ++ [STOP]))%nat) in *.
  set (z := (q + length (cstmt q s2 ++ [STOP]))%nat) in *. cbn [app] in Hc. rewrite !code_at_cons, 2!code_at_app in Hc.
  destruct Hc as (H1 & Hb & He & Hz & C1 & C2 & C3). replace (S (S (S (S p))) + length (ccond e))%nat with pb in * by lia. fold q in C3.
  replace (p + length _)%nat with z by (rewrite !length_app; unfold z, q, pb; cbn [length]; rewrite !length_app; cbn [length]; lia).
  apply (sim_ctl Ifcode (let* d := expr_sem call (c_self G) (height G []) e in
    if truth d then stmt_sem call (c_self G) n (height G []) s1 else stmt_sem call (c_self G) n (height G []) s2) p [] z t H1).
  eapply sim_ext; [intros m; apply ifcode_eq |]. eapply sim_bindm; [by apply exec_value |]. intros d t' _ Hl'.
  destruct (truth d); [by apply (branch_ok s1 _ _ _ pb) |].
  eapply sim_ext; [| by apply (branch_ok s2 (S (S p)) (S (S (S p))) (S (S (S (S p))) + length (cexpr e)) q z t')].
  intros m. assert (Eq : start q s2 = Addr q) by (by destruct s2). rewrite Eq in He.
  unfold bind at 1 3. rewrite (exec_addr _ _ _ _ _ He). unfold fetch, bind at 1. cbn [prog st at_]. by rewrite He.
Qed.


(** An instruction after an expression, at the end of a statement. *)
Lemma expr_then o e (kk : double -> H tree outcome) p t :
  code_at (prog M0) p (cexpr e ++ [Op o]) -> length (targs t) = c_n G ->
  (forall v t', prog M0 !! (p + length (cexpr e))%nat = Some (Op o) -> (height G [] < NSTACK)%nat -> length (targs t') = c_n G ->
    sim n (c_n G) (kk v t') (fun m => run m (st M0 G (p + length (cexpr e)) [DVal v] t')) (go (S (p + length (cexpr e))))) ->
  sim n (c_n G) (bind (expr_sem call (c_self G) (height G []) e) kk t) (fun m => run m (st M0 G p [] t)) (go (p + length (cexpr e ++ [Op o]))).
Proof.
  intros Hc Hl Hk. apply code_at_app in Hc as (H1 & H2). apply code_at_cons in H2 as (H2 & _).
  eapply sim_bind; [apply expr_sim; [done | by eexists | done] |]. intros v t' E Hl'. rewrite length_app. cbn [length].
  rewrite Nat.add_assoc, Nat.add_1_r. apply Hk; [done | by eapply expr_room | done].
Qed.

(** The end of a function. *)
Lemma pop_args_at k q x l r fr : length l = k -> pop_args k (at_ M0 q x (l ++ r) fr) = Done tt (at_ M0 q x r fr).
Proof. revert k. induction l as [|d l IH]; intros [|k] Hk; try done. injection Hk as Hk. cbn [pop_args app]. rewrite (bind_Done pop _ _ d (at_ M0 q x (l ++ r) fr)) by done. by apply IH. Qed.
Lemma ret_at s q t : c_self G = Some s -> length (targs t) = c_n G ->
  ret_ (st M0 G q [] t) = Done tt (ret_state RetProc t).
Proof.
  intros Hs Hl. unfold ret_, st. unfold frs. rewrite Hs. unfold bind at 1, fp, get, bind at 1. cbn [frame at_]. cbn [need ret nargs retpc head].
  rewrite Nat2Z.id. unfold stk. cbn [app]. erewrite bind_Done; [| apply pop_args_at; by rewrite length_map, length_rev]. done.
Qed.

(** An instruction that does not execute other code. *)
Lemma sim_const {A B} (r : res tree A) (R : res machine B) (g : A -> tree -> res machine B) :
  match r with
  | Done a t => length (targs t) = c_n G /\ R = g a t
  | Err x y t => exists c, R = Err x y c /\ w c = tw t
  | Stuck => True
  | Timeout => R = Timeout
  end -> sim n (c_n G) r (fun _ => R) (fun a t _ => g a t).
Proof.
  unfold sim. destruct r as [a t|x y t| |]; try done.
  - intros (Hl & ->). split_and!; [done | intros m; apply less_refl | by exists 0%nat, 0%nat].
  - intros (c & -> & Hc). exists c, 0%nat. split_and!; [done | intros m; apply less_refl | done].
Qed.
Lemma symbol_cases s x : symbol s x = Stuck \/ exists y, symbol s x = Done y x.
Proof. unfold symbol, need. destruct (symbols x !! s) as [y|]; [right; by exists y | by left]. Qed.

Lemma fp_at s q temps t : c_self G = Some s ->
  exists f, fp (st M0 G q temps t) = Done f (st M0 G q temps t) /\ sp f = s.
Proof. intros Hs. unfold fp, bind, get, st, frs. cbn [frame at_]. rewrite Hs. by eexists. Qed.

Lemma procret_ok p z t : prog M0 !! p = Some (Op Procret) -> length (targs t) = c_n G ->
  sim n (c_n G) ((proc_ret (c_self G) ;;; ret RetProc) t) (fun m => run m (st M0 G p [] t)) (go z).
Proof.
  intros Hp Hl. apply (sim_ctl Procret (proc_ret (c_self G) ;;; ret RetProc) p [] z t Hp). cbn [step].
  apply (sim_const _ _ (fun o t => Done tt (fin z o t))). unfold proc_ret. destruct (c_self G) as [s|] eqn:Hs; [| done].
  destruct (fp_at s (S p) [] t Hs) as (f & Ef & Esp). unfold procret. rewrite (bind_Done _ _ _ _ _ Ef), Esp.
  unfold bind, on_tw, on_world, need, ret at 1. change (w (st M0 G (S p) [] t)) with (tw t).
  destruct (symbol_cases s (tw t)) as [-> | (y & ->)]; [done |]. change (put tw (tw t) t) with (mk_tree (tw t) (targs t)).
  destruct (bool_decide (type y = FUNCTION)); [by eexists |]. split; [done |].
  change (put w (tw t) (st M0 G (S p) [] t)) with (st M0 G (S p) [] t). by rewrite (ret_at s _ _ Hs Hl).
Qed.

Lemma funcret_ok v p z t : prog M0 !! p = Some (Op Funcret) -> (height G [] < NSTACK)%nat -> length (targs t) = c_n G ->
  sim n (c_n G) ((let* s := need (c_self G) in let* x := on_tw (symbol s) in
    if bool_decide (type x = PROCEDURE) then execerror (name x) "(proc) returns value" else ret (RetFun v)) t)
    (fun m => run m (st M0 G p [DVal v] t)) (go z).
Proof.
  intros Hp Hh Hl. eapply (sim_ctl Funcret (let* s := need (c_self G) in let* x := on_tw (symbol s) in
    if bool_decide (type x = PROCEDURE) then execerror (name x) "(proc) returns value" else ret (RetFun v)) p [DVal v] z t Hp). cbn [step].
  apply (sim_const _ _ (fun o t => Done tt (fin z o t))). destruct (c_self G) as [s|] eqn:Hs; [| done].
  destruct (fp_at s (S p) [DVal v] t Hs) as (f & Ef & Esp). unfold funcret. rewrite (bind_Done _ _ _ _ _ Ef), Esp.
  unfold bind, on_tw, on_world, need, ret at 1. change (w (st M0 G (S p) [DVal v] t)) with (tw t).
  destruct (symbol_cases s (tw t)) as [-> | (y & ->)]; [done |]. change (put tw (tw t) t) with (mk_tree (tw t) (targs t)).
  destruct (bool_decide (type y = PROCEDURE)); [by eexists |]. split; [done |].
  change (pop (put w (tw t) (st M0 G (S p) [DVal v] t))) with (Done (DVal v) (st M0 G (S p) [] t)). cbv beta iota. rewrite (ret_at s _ _ Hs Hl).
  unfold push, bind, get. cbn [stack ret_state]. rewrite (proj2 (Nat.leb_gt _ _)); [done |]. unfold height in Hh. cbn in Hh. lia.
Qed.


Lemma world_op F q temps t : length (targs t) = c_n G ->
  op_match (c_n G) (on_tw F t) (on_world F (st M0 G q temps t)) (fun _ t' => st M0 G q temps t').
Proof. intros Hl. rewrite <- (bind_ret (on_world F)). apply op_world; [done |]. by intros [] x _. Qed.

(** What is printed. *)
Definition items_sem (l : list pritem) : H tree unit := for_all l (item_sem call (c_self G) (height G [])).
Lemma item_ok i p t : code_at (prog M0) p (citem i) -> is_Some (prog M0 !! (p + length (citem i))%nat) -> length (targs t) = c_n G ->
  sim n (c_n G) (item_sem call (c_self G) (height G []) i t) (fun m => run m (st M0 G p [] t)) (fun _ t' m => run m (st M0 G (p + length (citem i)) [] t')).
Proof.
  intros Hc _ Hl. destruct i as [e|s]; cbn [citem item_sem length] in *.
  - apply code_at_app in Hc as (H1 & H2). apply code_at_cons in H2 as (H2 & _). rewrite length_app, Nat.add_assoc. cbn [length]. rewrite Nat.add_1_r.
    eapply sim_bind; [apply expr_sim; [done | by eexists | done] |]. intros v t' _ Hl'.
    by eapply (sim_op M0 n (c_n G) _ _ Prexpr); [| | by apply (world_op (print_num v false) _ [])].
  - rewrite !code_at_cons in Hc. destruct Hc as (H1 & H2 & _). replace (p + 2)%nat with (S (S p)) by lia.
    eapply (sim_op M0 n (c_n G) _ p Prstr); [done | |].
    + intros e fuel. cbn [step]. unfold prstr. by rewrite (bind_Done _ _ _ _ _ (next_at _ _ _ _ _ _ H2)).
    + by apply world_op.
Qed.
Lemma items_ok l p t : code_at (prog M0) p (concat (map citem l)) -> is_Some (prog M0 !! (p + length (concat (map citem l)))%nat) -> length (targs t) = c_n G ->
  sim n (c_n G) (items_sem l t) (fun m => run m (st M0 G p [] t)) (fun _ t' m => run m (st M0 G (p + length (concat (map citem l))) [] t')).
Proof.
  revert p t. induction l as [|i l IH]; intros p t Hc Hend Hl; cbn [map concat items_sem for_all] in *.
  - cbn. rewrite Nat.add_0_r. exact (sim_ret n (c_n G) tt t (fun _ t' m => run m (st M0 G p [] t')) Hl).
  - rewrite length_app, Nat.add_assoc in *. apply code_at_app in Hc as (H1 & H2). unfold items_sem. cbn [for_all].
    eapply sim_bind; [apply item_ok; [done | | done] |].
    + destruct (concat (map citem l)) as [|x c]; [cbn in Hend; by rewrite Nat.add_0_r in Hend |]. apply code_at_cons in H2 as (H2 & _). by eexists.
    + intros [] t' _ Hl'. by apply IH.
Qed.

(** Procedures are called as statements. *)
Lemma proc_ok k l : stmt_ok (SProc k l).
Proof.
  intros p t _ Hc Hend Hl. cbn [cstmt stmt_sem] in *. rewrite length_app, Nat.add_assoc in *. apply code_at_app in Hc as (H1 & H2).
  eapply sim_bind; [apply (proj2 (expr_args_ok M0 n call G call_room call_ok) l p [] t); [done | | done] |].
  - apply code_at_cons in H2 as (H2 & _). by eexists.
  - intros vs t1 E Hl1. rewrite <- (args_length _ _ _ _ _ _ _ E) in H2. cbn [length] in *.
    eapply sim_bind; [by apply (call_ok _ k vs [] t1) |]. intros [v|] t2 _ Hl2; [done |].
    exact (sim_ret n (c_n G) Normal t2 (go _) Hl2).
Qed.
Lemma print_ok i l : stmt_ok (SPrint i l).
Proof.
  intros p t _ Hc Hend Hl. cbn [cstmt stmt_sem] in *.
  change (citem i ++ concat (map citem l)) with (concat (map citem (i :: l))) in *.
  assert (E : (item_sem call (c_self G) (height G []) i ;;; for_all l (item_sem call (c_self G) (height G [])) ;;; ret Normal) t
    = (items_sem (i :: l) ;;; ret Normal) t).
  { unfold items_sem. cbn [for_all]. unfold bind. by destruct (item_sem _ _ _ i t). }
  rewrite E. eapply sim_bind; [by apply items_ok |]. intros ? t' _ Hl'. exact (sim_ret n (c_n G) Normal t' (go _) Hl').
Qed.

Lemma snoc_ok l s : stmts_ok l -> stmt_ok s -> stmts_ok (SSnoc l s).
Proof.
  intros Hls Hs p t Hw Hc Hend Hl. cbn [cstmts stmts_sem wf_stmts] in *. apply andb_prop in Hw as (Hw1 & Hw2).
  rewrite length_app, Nat.add_assoc in *. apply code_at_app in Hc as (H1 & H2). set (q := (p + length (cstmts p l))%nat) in *.
  eapply sim_bind; [apply Hls; [done | done | | done] |].
  - fold q. destruct (cstmt q s) as [|x c]; [cbn in Hend; by rewrite Nat.add_0_r in Hend |]. apply code_at_cons in H2 as (H2 & _). by eexists.
  - intros [| |v] t' _ Hl'; [by apply Hs | |].
    + exact (sim_ret n (c_n G) RetProc t' (go _) Hl').
    + exact (sim_ret n (c_n G) (RetFun v) t' (go _) Hl').
Qed.

Lemma stmt_stmts_ok : (forall s, stmt_ok s) /\ (forall l, stmts_ok l).
Proof.
  apply stmt_stmts_ind.
  - intros e p t _ Hc _ Hl. cbn [cstmt stmt_sem] in *. apply expr_then; [done | done |]. intros v t' Hp _ Hl'.
    by apply (sim_op M0 n (c_n G) (Done Normal t') _ Xpop (tw t') _ _ (Done tt (st M0 G (S (p + length (cexpr e))) [] t')) (fun _ t' => st M0 G (S (p + length (cexpr e))) [] t')).
  - intros k p t _ Hc _ Hl. apply code_at_cons in Hc as (Hp & _). by apply procret_ok.
  - intros e p t _ Hc _ Hl. apply expr_then; [done | done |]. intros v t' Hp Hh Hl'. by apply funcret_ok.
  - intros. by apply proc_ok.
  - intros. by apply print_ok.
  - intros. by apply while_ok.
  - intros. by apply for_ok.
  - intros. by apply if_ok.
  - intros. by apply ifelse_ok.
  - intros l Hls p t. apply Hls.
  - intros p t _ _ _ Hl. cbn [cstmts stmts_sem length]. rewrite Nat.add_0_r. exact (sim_ret n (c_n G) Normal t (go p) Hl).
  - intros. by apply snoc_ok.
Qed.
End Stmt.

(** ** Calls *)

Section Calls.
Variable defs : nat -> option stmt.

(** A function that returns a value had room for it. *)
Section Room.
Context (call : nat -> nat -> list double -> H world (option double)) (self : option nat) (turns : nat).
Hypothesis call_room : calls_room call.

Lemma loop_room h i body again d t v t' : (forall t v t', body t = Done (RetFun v) t' -> (h < NSTACK)%nat) ->
  loop_sem i body again d t = Done (RetFun v) t' -> (h < NSTACK)%nat.
Proof.
  intros Hb. revert d t. induction i as [|i IH]; intros d t; [done |]. cbn [loop_sem]. destruct (truth d); cbn [negb]; [| done].
  intros E. apply bind_inv in E as ([| |v'] & t1 & E1 & E); [| done |].
  - apply bind_inv in E as (d' & t2 & _ & E). by eapply IH.
  - by eapply Hb.
Qed.

Lemma stmt_stmts_room :
  (forall s h t v t', stmt_sem call self turns h s t = Done (RetFun v) t' -> (h < NSTACK)%nat)
  /\ (forall l h t v t', stmts_sem call self turns h l t = Done (RetFun v) t' -> (h < NSTACK)%nat).
Proof.
  apply stmt_stmts_ind; cbn [stmt_sem stmts_sem].
  - intros e h t v t' E. by apply bind_inv in E as (? & ? & _ & E).
  - intros k h t v t' E. by apply bind_inv in E as (? & ? & _ & E).
  - intros e h t v t' E. apply bind_inv in E as (x & t1 & E1 & _). by eapply (expr_room call (mk_ctx self 0 [] [] 0) call_room).
  - intros k l h t v t' E. apply bind_inv in E as (? & ? & _ & E). apply bind_inv in E as ([] & ? & _ & E); done.
  - intros i l h t v t' E. apply bind_inv in E as (? & ? & _ & E). by apply bind_inv in E as (? & ? & _ & E).
  - intros e s IH h t v t' E. apply bind_inv in E as (d & t1 & _ & E). eapply loop_room; [| exact E]. apply IH.
  - intros e1 e2 e3 s IH h t v t' E. apply bind_inv in E as (? & ? & _ & E). apply bind_inv in E as (d & t1 & _ & E).
    eapply loop_room; [| exact E]. apply IH.
  - intros e s IH h t v t' E. apply bind_inv in E as (d & t1 & _ & E). destruct (truth d); [by eapply IH | done].
  - intros e s1 IH1 s2 IH2 h t v t' E. apply bind_inv in E as (d & t1 & _ & E). destruct (truth d); by eauto.
  - intros l IH h t v t' E. by eapply IH.
  - done.
  - intros l IHl s IHs h t v t' E. apply bind_inv in E as ([] & t1 & E1 & E); [by eapply IHs | done | by eapply IHl].
Qed.
End Room.

Lemma call_sem_room n d : calls_room (call_sem defs n d).
Proof.
  revert d. induction n as [|n IH]; intros d h s vs x v x'; [done |]. cbn [call_sem].
  match goal with |- (match ?m with _ => _ end = _) -> _ => destruct m as [r t| | |] eqn:E; try done end.
  intros [= -> _]. apply bind_inv in E as (y & t1 & _ & E). destruct (NFRAME - 1 <=? d)%nat; [done |].
  apply bind_inv in E as (p & t2 & _ & E). apply bind_inv in E as (b & t3 & _ & E). apply bind_inv in E as (o & t4 & Eb & E).
  destruct o as [| |v']; [by apply bind_inv in E as (? & ? & _ & E) | done |].
  by eapply (proj1 (stmt_stmts_room (call_sem defs n (S d)) (Some s) n (IH (S d)))).
Qed.

(** The code of the functions is in the program. *)
Definition linked (pr : list word) : Prop := forall p s, defs p = Some s -> wf_stmt s = true /\ code_at pr p (cstmt p s ++ [Op Procret]).

Hypothesis Hlinked : linked (prog M0).

(** The body of a function, up to its return. *)
Lemma body_run n call G s pb body t :
  calls_room call -> calls_ok M0 n call G ->
  is_Some (prog M0 !! c_ret G) -> c_self G = Some s -> defs pb = Some body -> length (targs t) = c_n G ->
  sim n (c_n G) ((let* o := stmt_sem call (Some s) n (height G []) body in
      match o with Normal => proc_ret (Some s) ;;; ret None | RetProc => ret None | RetFun v => ret (Some v) end) t)
    (fun m => run m (st M0 G pb [] t))
    (fun r t' _ => Done tt (ret_state G (match r with Some v => RetFun v | None => RetProc end) t')).
Proof.
  intros Hroom Hcall Hret Hs Hd Hl. destruct (Hlinked pb body Hd) as (Hw & Hc). apply code_at_app in Hc as (H1 & H2).
  apply code_at_cons in H2 as (H2 & _). set (g := fun r t' (_ : nat) => Done tt (ret_state G (match r with Some v => RetFun v | None => RetProc end) t')).
  rewrite <- Hs. eapply sim_bind; [apply (proj1 (stmt_stmts_ok n call G Hroom Hcall Hret)); [done | done | by eexists | done] |].
  intros [| |v] t' _ Hl'.
  - assert (E : (proc_ret (c_self G) ;;; ret (@None double)) t' = ((proc_ret (c_self G) ;;; ret RetProc) ;;; ret None) t').
    { unfold bind. by destruct (proc_ret _ _). }
    rewrite E. eapply sim_bind; [by apply (procret_ok n G Hret _ 0 t' H2) |]. intros o t2 Eo Hl2. apply bind_inv in Eo as (? & ? & _ & Eo).
    injection Eo as <- _. exact (sim_ret n (c_n G) None t2 g Hl2).
  - exact (sim_ret n (c_n G) None t' g Hl').
  - exact (sim_ret n (c_n G) (Some v) t' g Hl').
Qed.

(** The machine's step to the body of a function. *)
Definition callee (G : ctx) (p s : nat) (vs : list double) (temps : list Datum) (t : tree) : ctx :=
  mk_ctx (Some s) (p + 3) (temps ++ stk G (targs t)) (frs G) (length vs).
Lemma call_step G p s vs temps t y e :
  code_at (prog M0) p [Op Call; Sym s; Num (Z.of_nat (length vs))] -> symbol s (tw t) = Done y (tw t) -> length (targs t) = c_n G ->
  Hoc.call e (st M0 G (S p) (map DVal (rev vs) ++ temps) t) =
    if (NFRAME - 1 <=? length (frs G))%nat then Err (name y) "call nested too deeply" (st M0 G (S p) (map DVal (rev vs) ++ temps) t) else
    match u y with
    | UDefn pb => (e pb ;;; modify (put returning false)) (st M0 (callee G p s vs temps t) (S p) [] (mk_tree (tw t) vs))
    | _ => Stuck
    end.
Proof.
  intros Hc Hy Hl. rewrite !code_at_cons in Hc. destruct Hc as (_ & H2 & H3 & _).
  assert (Es : (map DVal (rev vs) ++ temps) ++ stk G (targs t) = stk (callee G p s vs temps t) vs) by (unfold stk at 2; cbn [callee c_rest]; by rewrite app_assoc).
  assert (El : length ((map DVal (rev vs) ++ temps) ++ stk G (targs t)) = (length vs + length (temps ++ stk G (targs t)))%nat).
  { rewrite !length_app, length_map, length_rev. lia. }
  unfold Hoc.call. rewrite (bind_Done (get pc) _ _ (S p) (st M0 G (S p) (map DVal (rev vs) ++ temps) t)) by done.
  rewrite (bind_Done _ _ _ s (st M0 G (S p) (map DVal (rev vs) ++ temps) t)) by (unfold bind, fetch; cbn [prog st at_]; by rewrite H2).
  rewrite (bind_Done (get frame) _ _ (frs G) (st M0 G (S p) (map DVal (rev vs) ++ temps) t)) by done.
  assert (Ey : forall G' q l t', tw t' = tw t -> on_world (symbol s) (st M0 G' q l t') = Done y (st M0 G' q l t')).
  { intros G' q l t' Et. unfold on_world. change (w (st M0 G' q l t')) with (tw t'). rewrite Et, Hy. unfold st. by rewrite Et. }
  destruct (NFRAME - 1 <=? length (frs G))%nat; [by rewrite (bind_Done _ _ _ _ _ (Ey _ _ _ t eq_refl)) |]. replace (S p + 1)%nat with (S (S p)) by lia.
  rewrite (bind_Done _ _ _ (Z.of_nat (length vs)) (st M0 G (S p) (map DVal (rev vs) ++ temps) t)) by (unfold bind, fetch; cbn [prog st at_]; by rewrite H3).
  rewrite (bind_Done (get stack) _ _ ((map DVal (rev vs) ++ temps) ++ stk G (targs t)) (st M0 G (S p) (map DVal (rev vs) ++ temps) t)) by done.
  rewrite El. rewrite (bind_Done (modify _) _ _ tt (st M0 (callee G p s vs temps t) (S p) [] (mk_tree (tw t) vs))).
  - rewrite (bind_Done _ _ _ _ _ (Ey _ _ _ (mk_tree (tw t) vs) eq_refl)). by destruct (u y).
  - unfold modify. f_equal. unfold st at 2. cbn [app tw targs]. rewrite <- Es. unfold frs at 2. cbn [callee c_self c_ret c_n c_rest].
    replace (S p + 2)%nat with (p + 3)%nat by lia. done.
Qed.

Lemma call_tree_eq n d h s vs t y : symbol s (tw t) = Done y (tw t) ->
  call_tree (call_sem defs (S n) d) h s vs t =
    if (NFRAME - 1 <=? d)%nat then Err (name y) "call nested too deeply" t else
    match u y with
    | UDefn pb =>
      match defs pb with
      | Some body => call_res ((let* o := stmt_sem (call_sem defs n (S d)) (Some s) n h body in
          match o with Normal => proc_ret (Some s) ;;; ret None | RetProc => ret None | RetFun v => ret (Some v) end) (mk_tree (tw t) vs)) t
      | None => Stuck
      end
    | _ => Stuck
    end.
Proof.
  intros Hy. unfold call_tree, on_tw at 1. cbn [call_sem]. rewrite (bind_Done _ _ _ y (mk_tree (tw t) vs)) by (unfold on_tw; cbn [tw]; by rewrite Hy).
  destruct (NFRAME - 1 <=? d)%nat; [by destruct t |]. destruct (u y) as [| |pb]; try done. rewrite (bind_Done (ret pb) _ _ pb (mk_tree (tw t) vs)) by done.
  destruct (defs pb) as [body|]; [| done]. rewrite (bind_Done (need (Some body)) _ _ body (mk_tree (tw t) vs)) by done. unfold call_res.
  match goal with |- (match match ?m with _ => _ end with _ => _ end = _) => by destruct m end.
Qed.

(** The code of a call does what the call means. *)
Lemma calls_sim n G : calls_ok M0 n (call_sem defs n (length (frs G))) G.
Proof.
  revert G. induction n as [|n IH]; intros G p s vs temps t Hc Hend Hl.
  - intros m Hm. by replace m with 0%nat by lia.
  - pose proof Hc as Hop. apply code_at_cons in Hop as (Hop & _).
    destruct (symbol_cases s (tw t)) as [Hy | (y & Hy)]; [unfold call_tree, on_tw; cbn [call_sem]; unfold bind at 1, on_tw; cbn [tw]; by rewrite Hy |].
    rewrite (call_tree_eq n _ _ s vs t y Hy).
    apply (sim_step_S n (c_n G) _ _ (fun m => bind (Hoc.call (exec m)) (fun _ => run m) (st M0 G (S p) (map DVal (rev vs) ++ temps) t)));
      [done | intros m; by apply (run_op M0 p Call) | intros r t'; apply run_grows |].
    eapply sim_ext; [intros m; unfold bind at 1; by rewrite (call_step G p s vs temps t y (exec m) Hc Hy Hl) |].
    destruct (NFRAME - 1 <=? length (frs G))%nat.
    { eexists _, 0%nat. split_and!; [| intros m; apply less_refl | done]. done. }
    destruct (u y) as [| |pb]; try done. destruct (defs pb) as [body|] eqn:Hd; [| done].
    pose proof (body_run n (call_sem defs n (S (length (frs G)))) (callee G p s vs temps t) s pb body (mk_tree (tw t) vs)
      (call_sem_room n _) (IH (callee G p s vs temps t)) Hend eq_refl Hd eq_refl) as Hb.
    replace (height (callee G p s vs temps t) []) with (height G temps + length vs)%nat in Hb.
    2:{ unfold height. cbn [callee c_n c_rest length]. rewrite length_app, stk_length; [lia | done]. }
    eapply sim_ext; [| apply (sim_call n (c_n G) _ _ t _ _ (fun m => modify (put returning false) ;;; run m) _ Hb Hl)].
    + intros m. unfold exec, bind, modify. change (put pc pb (st M0 (callee G p s vs temps t) (S p) [] (mk_tree (tw t) vs))) with
        (st M0 (callee G p s vs temps t) pb [] (mk_tree (tw t) vs)). by destruct (run m _).
    + by intros [v|] t' m.
Qed.
End Calls.
End Machine.
