(* ===== verification/HocCompile.v ===== *)
(** What the actions of the grammar write into the program is the code of the tree. *)
From stdpp Require Import base list gmap strings.
From Stdlib Require Import ZArith Lia Floats.SpecFloat.
From S2P Require Import Prelude Hoc HocSpec HocRun HocExpr HocStmt.
Import Hoc HocSpec.
Open Scope Z_scope.
Open Scope hoc_scope.

(** ** Words written into the program *)

(** [l] in place of the words from [p] on. *)
Definition put_words {A} (p : nat) (l pr : list A) : list A := take p pr ++ l ++ drop (p + length l) pr.
Arguments put_words : simpl never.

Lemma put_words_lookup {A} p (l pr : list A) i : (p + length l <= length pr)%nat ->
  put_words p l pr !! i = if decide (p <= i < p + length l)%nat then l !! (i - p)%nat else pr !! i.
Proof.
  intros Hp. unfold put_words. destruct (decide (i < p)%nat) as [Hi|Hi].
  - rewrite lookup_app_l by (rewrite length_take; lia). rewrite lookup_take_lt by lia. by rewrite decide_False by lia.
  - rewrite lookup_app_r by (rewrite length_take; lia). rewrite length_take_le by lia.
    destruct (decide (i < p + length l)%nat) as [Hj|Hj].
    + rewrite decide_True by lia. by rewrite lookup_app_l by lia.
    + rewrite decide_False by lia. rewrite lookup_app_r, lookup_drop by lia. f_equal. lia.
Qed.
Lemma put_words_length {A} p (l pr : list A) : (p + length l <= length pr)%nat -> length (put_words p l pr) = length pr.
Proof. intros Hp. unfold put_words. rewrite !length_app, length_take, length_drop. lia. Qed.
Lemma put_words_app {A} p (l l' pr : list A) : (p + length (l ++ l') <= length pr)%nat ->
  put_words (p + length l) l' (put_words p l pr) = put_words p (l ++ l') pr.
Proof.
  intros Hp. rewrite length_app in Hp. apply list_eq. intros i.
  rewrite (put_words_lookup p (l ++ l')) by (rewrite length_app; lia). rewrite put_words_lookup by (rewrite put_words_length; lia).
  rewrite put_words_lookup by lia. rewrite length_app. repeat case_decide; try lia; try done.
  - rewrite lookup_app_r by lia. f_equal. lia.
  - by rewrite lookup_app_l by lia.
Qed.
Lemma put_words_insert {A} p i x (l pr : list A) : (p + length l <= length pr)%nat -> (i < length l)%nat ->
  <[(p + i)%nat := x]> (put_words p l pr) = put_words p (<[i := x]> l) pr.
Proof.
  intros Hp Hi. apply list_eq. intros j. rewrite (put_words_lookup p (<[i := x]> l)) by (by rewrite length_insert). rewrite length_insert.
  destruct (decide (j = p + i)%nat) as [-> | Hj].
  - rewrite list_lookup_insert_eq by (rewrite put_words_length; lia). rewrite decide_True by lia.
    replace (p + i - p)%nat with i by lia. by rewrite list_lookup_insert_eq.
  - rewrite list_lookup_insert_ne by lia. rewrite put_words_lookup by lia. case_decide; [| done]. by rewrite list_lookup_insert_ne by lia.
Qed.
Lemma code_at_put p l pr : (p + length l <= length pr)%nat -> code_at (put_words p l pr) p l.
Proof.
  intros Hp i x Hi. pose proof (lookup_lt_Some _ _ _ Hi). rewrite put_words_lookup, decide_True by lia.
  by replace (p + i - p)%nat with i by lia.
Qed.

Section Gen.
Context `{Libm}.

Definition emit (l : list word) (m : machine) : machine :=
  put progp (progp m + length l)%nat (over prog (put_words (progp m) l) m).
Definition fits (m : machine) (l : list word) : Prop := length (prog m) = NPROG /\ (progp m + length l <= NPROG)%nat.

Lemma emit_app l l' m : fits m (l ++ l') -> emit l' (emit l m) = emit (l ++ l') m.
Proof.
  intros (Hlen & Hf). destruct m as [x st pr pp q b r d fr]. unfold emit, put, over, setter. cbn in *. f_equal.
  - apply put_words_app. by rewrite Hlen.
  - rewrite length_app. lia.
Qed.
Lemma fits_l l l' m : fits m (l ++ l') -> fits m l.
Proof. intros (Hlen & Hf). rewrite length_app in Hf. split; [done | lia]. Qed.
Lemma fits_emit l l' m : fits m (l ++ l') -> fits (emit l m) l'.
Proof.
  intros (Hlen & Hf). rewrite length_app in Hf. split; cbn.
  - rewrite put_words_length; lia.
  - lia.
Qed.

Lemma code_emit x m : fits m [x] -> code x m = Done (progp m) (emit [x] m).
Proof.
  intros (Hlen & Hf). cbn [length] in Hf. unfold code. rewrite (bind_Done (get progp) _ _ (progp m) m) by done.
  rewrite (proj2 (Nat.leb_gt _ _)) by lia. unfold bind, modify, ret. f_equal. destruct m as [a st pr pp q b r d fr]. unfold emit, put, over, setter. cbn in *.
  f_equal; [| lia]. apply list_eq. intros i. rewrite put_words_lookup by (cbn; lia). cbn [length]. destruct (decide (i = pp)) as [-> | Hi].
  - rewrite list_lookup_insert_eq by lia. rewrite decide_True by lia. by rewrite Nat.sub_diag.
  - rewrite list_lookup_insert_ne by lia. by rewrite decide_False by lia.
Qed.

(** The code of the parts of an action, one after the other. *)
Definition emits {A} (x : H machine A) (a : A) (l : list word) (m : machine) : Prop := x m = Done a (emit l m).
Lemma emits_bind {A B} (x : H machine A) (k : A -> H machine B) a b l l' m :
  fits m (l ++ l') -> (fits m l -> emits x a l m) -> (fits (emit l m) l' -> emits (k a) b l' (emit l m)) -> emits (bind x k) b (l ++ l') m.
Proof.
  intros Hf Hx Hk. unfold emits in *. rewrite (bind_Done _ _ _ _ _ (Hx (fits_l _ _ _ Hf))), (Hk (fits_emit _ _ _ Hf)). by rewrite emit_app.
Qed.
Lemma emit_nil m : fits m [] -> emit [] m = m.
Proof.
  intros (Hlen & Hf). destruct m as [a st pr pp q b r d fr]. unfold emit, put, over, setter. cbn in *. f_equal; [| lia].
  unfold put_words. cbn [length app]. rewrite Nat.add_0_r. apply take_drop.
Qed.
Lemma emits_ret {A} (a : A) m : fits m [] -> emits (ret a) a [] m.
Proof. intros Hf. unfold emits. by rewrite emit_nil. Qed.
Lemma emits_then {A B} (x : H machine A) (a : A) (b : B) l m : fits m l -> (fits m l -> emits x a l m) -> emits (x ;;; ret b) b l m.
Proof. intros Hf Hx. unfold emits in *. by rewrite (bind_Done _ _ _ _ _ (Hx Hf)). Qed.

Lemma code2_emits x y m : fits m [x; y] -> emits (code2 x y) (progp m) [x; y] m.
Proof.
  intros Hf. apply (emits_bind (code x) _ (progp m) _ [x] [y]); [done | apply code_emit |].
  intros Hf'. eapply emits_then; [done | apply code_emit].
Qed.
Lemma code3_emits x y z m : fits m [x; y; z] -> emits (code3 x y z) (progp m) [x; y; z] m.
Proof.
  intros Hf. apply (emits_bind (code x) _ (progp m) _ [x] [y; z]); [done | apply code_emit |].
  intros Hf'. eapply (emits_bind (code y) _ _ _ [y] [z]); [done | apply code_emit |]. intros Hf2. eapply emits_then; [done | apply code_emit].
Qed.

(** Trees without [$] and without [return], which may stand outside a definition. *)
Fixpoint top_expr (e : expr) : bool :=
  match e with
  | EArg _ | EArgAsgn _ _ _ => false
  | EAsgn _ _ e | EBltin _ e | ENeg e | ENot e => top_expr e
  | EBin _ a b => top_expr a && top_expr b
  | ECall _ l => top_args l
  | ENumber _ | EVar _ | ERead _ | EStep _ _ _ => true
  end
with top_args (l : args) : bool := match l with ANil => true | ASnoc l e => top_args l && top_expr e end.
Definition top_item (i : pritem) : bool := match i with PExpr e => top_expr e | PStr _ => true end.
Fixpoint top_stmt (s : stmt) : bool :=
  match s with
  | SExpr e => top_expr e
  | SReturn _ | SReturnE _ => false
  | SProc _ l => top_args l
  | SPrint i l => top_item i && forallb top_item l
  | SWhile e s | SIf e s => top_expr e && top_stmt s
  | SFor e1 e2 e3 s => top_expr e1 && top_expr e2 && top_expr e3 && top_stmt s
  | SIfElse e s1 s2 => top_expr e && top_stmt s1 && top_stmt s2
  | SBlock l => top_stmts l
  end
with top_stmts (l : stmts) : bool := match l with SNil => true | SSnoc l s => top_stmts l && top_stmt s end.

Lemma defnonly_in s m : indef m = true -> defnonly s m = Done tt m.
Proof. intros Hi. unfold defnonly, bind, get. by rewrite Hi. Qed.

Lemma emits_defnonly {A} s (x : H machine A) a l m : indef m = true -> emits x a l m -> emits (defnonly s ;;; x) a l m.
Proof. intros Hi Hx. unfold emits. by rewrite (bind_Done _ _ _ _ _ (defnonly_in s m Hi)). Qed.
Lemma emits_progp {A} (k : nat -> H machine A) a l m : emits (k (progp m)) a l m -> emits (bind (get progp) k) a l m.
Proof. done. Qed.

(** The code behind a first operand. *)
Lemma emits_operand {A B} (x : H machine A) (y : A -> H machine B) a b l l' m :
  fits m (l ++ l') -> (fits m l -> emits x a l m) -> (fits (emit l m) l' -> emits (y a) b l' (emit l m)) ->
  emits (let* a := x in y a ;;; ret a) a (l ++ l') m.
Proof. intros Hf Hx Hy. eapply emits_bind; [done | exact Hx |]. intros Hf'. by eapply emits_then. Qed.

Definition gen_expr_ok (e : expr) : Prop := forall m, indef m || top_expr e = true -> fits m (cexpr e) -> emits (gen_expr e) (progp m) (cexpr e) m.
Definition gen_args_ok (l : args) : Prop :=
  forall m, indef m || top_args l = true -> fits m (cargs l) -> emits (gen_args l) (Z.of_nat (arity l)) (cargs l) m.

Lemma gen_expr_args : (forall e, gen_expr_ok e) /\ (forall l, gen_args_ok l).
Proof.
  apply expr_args_ind; unfold gen_expr_ok, gen_args_ok; cbn [gen_expr gen_args cexpr cargs top_expr top_args].
  - intros s m _ Hf. by apply code2_emits.
  - intros s m _ Hf. by apply code3_emits.
  - intros k m Hi Hf. rewrite orb_false_r in Hi. by apply emits_defnonly, code2_emits.
  - intros o s e IH m Hi Hf. eapply emits_operand; [done | by apply IH | intros; by apply code3_emits].
  - intros o k e IH m Hi Hf. rewrite orb_false_r in Hi. eapply emits_bind; [done | intros; apply IH; [by rewrite Hi | done] |]. intros Hf'.
    apply emits_defnonly; [done |]. eapply emits_then; [done | apply code2_emits].
  - intros s l IH m Hi Hf. apply emits_progp. eapply emits_bind; [done | by apply IH |]. intros Hf'. eapply emits_then; [done | apply code3_emits].
  - intros s m _ Hf. by apply code2_emits.
  - intros f e IH m Hi Hf. eapply emits_operand; [done | by apply IH | intros; by apply code2_emits].
  - intros o e1 IH1 e2 IH2 m Hi Hf. apply emits_bind with (progp m); [done | intros Hf'; apply IH1; [| done] |].
    + by destruct (indef m), (top_expr e1).
    + intros Hf'. eapply emits_bind; [done | intros; apply IH2; [| done] |].
      * cbn. by destruct (indef m), (top_expr e1).
      * intros Hf2. eapply emits_then; [done | apply code_emit].
  - intros e IH m Hi Hf. eapply emits_operand; [done | by apply IH | intros; by apply code_emit].
  - intros e IH m Hi Hf. eapply emits_operand; [done | by apply IH | intros; by apply code_emit].
  - intros inc post s m _ Hf. by apply code2_emits.
  - intros m _ Hf. by apply emits_ret.
  - intros l IHl e IHe m Hi Hf. eapply emits_bind; [done | intros; apply IHl; [by destruct (indef m), (top_args l) | done] |].
    intros Hf'. cbn [arity]. replace (Z.of_nat (S (arity l))) with (Z.of_nat (arity l) + 1) by lia.
    eapply emits_then; [done |]. intros _. apply IHe; [cbn; by destruct (indef m), (top_args l) | done].
Qed.

(** Code that is patched once the rest is there. *)
Lemma fits_length l l' m : fits m l -> (length l' <= length l)%nat -> fits m l'.
Proof. intros (Hlen & Hf) Hl. split; [done | lia]. Qed.
Lemma after_bind {A B} (x : H machine A) (k : A -> H machine B) a l0 l m R :
  fits m (l0 ++ l) -> (fits (emit l0 m) l -> emits x a l (emit l0 m)) -> k a (emit (l0 ++ l) m) = R -> bind x k (emit l0 m) = R.
Proof. intros Hf Hx <-. rewrite (bind_Done _ _ _ _ _ (Hx (fits_emit _ _ _ Hf))). by rewrite emit_app. Qed.
Lemma patch_bind {B} (k : unit -> H machine B) a i x l m R : a = (progp m + i)%nat ->
  fits m l -> (i < length l)%nat -> k tt (emit (<[i := x]> l) m) = R -> bind (patch a x) k (emit l m) = R.
Proof.
  intros -> (Hlen & Hf) Hi <-. unfold bind, patch, modify. f_equal. destruct m as [y st pr pp q b r d fr]. unfold emit, put, over, setter. cbn in *. f_equal.
  - apply put_words_insert; [by rewrite Hlen | done].
  - by rewrite length_insert.
Qed.

Lemma gen_cond_emits e m q : q = progp m -> indef m || top_expr e = true -> fits m (ccond e) -> emits (gen_cond e) q (ccond e) m.
Proof. intros -> Hi Hf. eapply emits_operand; [done | intros; by apply gen_expr_args | apply code_emit]. Qed.
Lemma gen_end_emits m : fits m [STOP] -> emits gen_end (progp m + 1)%nat [STOP] m.
Proof. intros Hf. unfold emits, gen_end. by rewrite (bind_Done _ _ _ _ _ (code_emit _ _ Hf)). Qed.
Lemma gen_item_emits i m : indef m || top_item i = true -> fits m (citem i) -> emits (gen_item i) (progp m) (citem i) m.
Proof.
  intros Hi Hf. destruct i as [e|s]; [| by apply code2_emits]. eapply emits_operand; [done | intros; by apply gen_expr_args | apply code_emit].
Qed.
Lemma gen_items_emits l m : indef m || forallb top_item l = true -> fits m (concat (map citem l)) ->
  emits (for_all l (fun i => gen_item i ;;; ret tt)) tt (concat (map citem l)) m.
Proof.
  revert m. induction l as [|i l IH]; intros m Hi Hf; cbn [for_all map concat forallb] in *; [by apply emits_ret |].
  eapply emits_bind; [done | intros Hf'; eapply emits_then; [done |]; intros _; apply gen_item_emits; [| done] |].
  - by destruct (indef m), (top_item i).
  - intros Hf'. apply IH; [| done]. cbn. by destruct (indef m), (top_item i).
Qed.

Definition gen_stmt_ok (s : stmt) : Prop := forall m, indef m || top_stmt s = true -> fits m (cstmt (progp m) s) ->
  emits (gen_stmt s) (start (progp m) s) (cstmt (progp m) s) m.
Definition gen_stmts_ok (l : stmts) : Prop := forall m, indef m || top_stmts l = true -> fits m (cstmts (progp m) l) ->
  emits (gen_stmts l) tt (cstmts (progp m) l) m.

(** The body of a loop or a branch with its STOP, behind [l0]. *)
Lemma body_bind {B} s (k : word -> H machine B) (k' : word -> nat -> H machine B) l0 p m R : gen_stmt_ok s ->
  indef m || top_stmt s = true -> p = (progp m + length l0)%nat -> fits m (l0 ++ cstmt p s ++ [STOP]) ->
  (forall b, k b = bind gen_end (k' b)) ->
  k' (start p s) (p + length (cstmt p s ++ [STOP]))%nat (emit (l0 ++ cstmt p s ++ [STOP]) m) = R -> bind (gen_stmt s) k (emit l0 m) = R.
Proof.
  intros Hs Hi -> Hf Hk HR. rewrite app_assoc in Hf, HR.
  eapply after_bind; [by eapply fits_l | intros Hf'; by apply (Hs (emit l0 m)) |]. rewrite Hk.
  eapply after_bind; [done | apply gen_end_emits |].
  replace (progp (emit (l0 ++ cstmt (progp m + length l0) s) m) + 1)%nat with (progp m + length l0 + length (cstmt (progp m + length l0) s ++ [STOP]))%nat; [done |].
  cbn. rewrite !length_app. cbn [length]. lia.
Qed.

Lemma first_bind {A B} (x : H machine A) (k : A -> H machine B) a l m R :
  fits m l -> emits x a l m -> k a (emit l m) = R -> bind x k m = R.
Proof. intros Hf Hx <-. by rewrite (bind_Done _ _ _ _ _ Hx). Qed.

Ltac fits_len H := (apply (fits_length _ _ _ H); rewrite ?length_insert, ?length_app; cbn [length app]; rewrite ?length_app; cbn [length]; lia).

Ltac at_end := (cbn [progp emit]; unfold emit, put, over, setter; cbn [progp]; rewrite ?length_app; cbn [length]; rewrite ?length_app; cbn [length]; lia).

Lemma gen_while e s : gen_stmt_ok s -> gen_stmt_ok (SWhile e s).
Proof.
  intros Hs m Hi Hf. cbn [gen_stmt cstmt top_stmt start] in *. unfold emits. set (p := (progp m + 3 + length (ccond e))%nat) in *.
  assert (Hi1 : indef m || top_expr e = true) by (by destruct (indef m), (top_expr e)).
  assert (Hi2 : indef m || top_stmt s = true) by (by destruct (indef m), (top_expr e)).
  eapply (first_bind _ _ _ [Op Whilecode; STOP; STOP]); [fits_len Hf | apply code3_emits; fits_len Hf |].
  eapply (after_bind _ _ _ _ (ccond e)); [fits_len Hf | intros Hf'; by apply gen_cond_emits |].
  eapply (body_bind s _ (fun b z => patch (progp m + 1) b ;;; patch (progp m + 2) (Addr z) ;;; ret (Addr (progp m))) _ p); [done | done | | | done |].
  - rewrite length_app. cbn [length]. lia.
  - fits_len Hf.
  - eapply patch_bind; [done | fits_len Hf | cbn; lia |]. eapply patch_bind; [done | fits_len Hf | cbn; lia |]. done.
Qed.

Lemma gen_for e1 e2 e3 s : gen_stmt_ok s -> gen_stmt_ok (SFor e1 e2 e3 s).
Proof.
  intros Hs m Hi Hf. cbn [gen_stmt cstmt top_stmt start] in *. unfold emits. set (c := (progp m + 5 + length (ccond e1))%nat) in *.
  set (i := (c + length (ccond e2))%nat) in *. set (p := (i + length (ccond e3))%nat) in *.
  assert (Hi1 : (indef m || top_expr e1 = true) /\ (indef m || top_expr e2 = true) /\ (indef m || top_expr e3 = true) /\ (indef m || top_stmt s = true)).
  { destruct (indef m); [done |]. cbn in *. apply andb_prop in Hi as (Hi & ->). apply andb_prop in Hi as (Hi & ->). by apply andb_prop in Hi as (-> & ->). }
  destruct Hi1 as (Hi1 & Hi2 & Hi3 & Hi4).
  eapply (first_bind _ _ _ [Op Forcode]); [fits_len Hf | apply code_emit; fits_len Hf |].
  eapply (after_bind _ _ _ _ [STOP; STOP; STOP]); [fits_len Hf | intros Hf'; by apply code3_emits |].
  eapply (after_bind _ _ _ _ [STOP]); [fits_len Hf | intros Hf'; by apply code_emit |].
  eapply (after_bind _ _ _ _ (ccond e1)); [fits_len Hf | intros Hf'; by apply gen_cond_emits |].
  eapply (after_bind _ _ c _ (ccond e2)); [fits_len Hf | intros Hf'; apply gen_cond_emits; [at_end | done | done] |].
  eapply (after_bind _ _ i _ (ccond e3)); [fits_len Hf | intros Hf'; apply gen_cond_emits; [at_end | done | done] |].
  eapply (body_bind s _ (fun b z => patch (progp m + 1) (Addr c) ;;; patch (progp m + 2) (Addr i) ;;; patch (progp m + 3) b ;;;
    patch (progp m + 4) (Addr z) ;;; ret (Addr (progp m))) _ p); [done | done | at_end | fits_len Hf | done |].
  do 4 (eapply patch_bind; [done | fits_len Hf | cbn; lia |]). cbn. unfold ret. by rewrite <- !app_assoc.
Qed.

Lemma gen_if e s : gen_stmt_ok s -> gen_stmt_ok (SIf e s).
Proof.
  intros Hs m Hi Hf. cbn [gen_stmt cstmt top_stmt start] in *. unfold emits. set (p := (progp m + 4 + length (ccond e))%nat) in *.
  assert (Hi1 : indef m || top_expr e = true) by (by destruct (indef m), (top_expr e)).
  assert (Hi2 : indef m || top_stmt s = true) by (by destruct (indef m), (top_expr e)).
  eapply (first_bind _ _ _ [Op Ifcode]); [fits_len Hf | apply code_emit; fits_len Hf |].
  eapply (after_bind _ _ _ _ [STOP; STOP; STOP]); [fits_len Hf | intros Hf'; by apply code3_emits |].
  eapply (after_bind _ _ _ _ (ccond e)); [fits_len Hf | intros Hf'; by apply gen_cond_emits |].
  eapply (body_bind s _ (fun b z => patch (progp m + 1) b ;;; patch (progp m + 3) (Addr z) ;;; ret (Addr (progp m))) _ p);
    [done | done | at_end | fits_len Hf | done |].
  do 2 (eapply patch_bind; [done | fits_len Hf | cbn; lia |]). done.
Qed.

Lemma gen_ifelse e s1 s2 : gen_stmt_ok s1 -> gen_stmt_ok s2 -> gen_stmt_ok (SIfElse e s1 s2).
Proof.
  intros Hs1 Hs2 m Hi Hf. cbn [gen_stmt cstmt top_stmt start] in *. unfold emits. set (p := (progp m + 4 + length (ccond e))%nat) in *.
  set (q := (p + length (cstmt p s1 ++ [STOP]))%nat) in *.
  assert (Hi1 : (indef m || top_expr e = true) /\ (indef m || top_stmt s1 = true) /\ (indef m || top_stmt s2 = true)).
  { destruct (indef m); [done |]. cbn in *. apply andb_prop in Hi as (Hi & ->). by apply andb_prop in Hi as (-> & ->). }
  destruct Hi1 as (Hi1 & Hi2 & Hi3).
  eapply (first_bind _ _ _ [Op Ifcode]); [fits_len Hf | apply code_emit; fits_len Hf |].
  eapply (after_bind _ _ _ _ [STOP; STOP; STOP]); [fits_len Hf | intros Hf'; by apply code3_emits |].
  eapply (after_bind _ _ _ _ (ccond e)); [fits_len Hf | intros Hf'; by apply gen_cond_emits |].
  eapply (body_bind s1 _ (fun b _ => let* c := gen_stmt s2 in let* z := gen_end in patch (progp m + 1) b ;;; patch (progp m + 2) c ;;;
    patch (progp m + 3) (Addr z) ;;; ret (Addr (progp m))) _ p); [done | done | at_end | fits_len Hf | done |].
  eapply (body_bind s2 _ (fun c z => patch (progp m + 1) (start p s1) ;;; patch (progp m + 2) c ;;; patch (progp m + 3) (Addr z) ;;; ret (Addr (progp m))) _ q);
    [done | done | unfold q; at_end | fits_len Hf | done |].
  do 3 (eapply patch_bind; [done | fits_len Hf | cbn; lia |]). cbn. unfold ret. by rewrite <- !app_assoc.
Qed.

Lemma gen_stmt_stmts : (forall s, gen_stmt_ok s) /\ (forall l, gen_stmts_ok l).
Proof.
  apply stmt_stmts_ind.
  - intros e m Hi Hf. eapply emits_bind; [done | intros; by apply gen_expr_args |]. intros Hf'. eapply emits_then; [done | apply code_emit].
  - intros k m Hi Hf. cbn [top_stmt] in Hi. rewrite orb_false_r in Hi. apply emits_defnonly; [done |]. eapply emits_then; [done | apply code_emit].
  - intros e m Hi Hf. cbn [top_stmt] in Hi. rewrite orb_false_r in Hi.
    eapply emits_bind; [done | intros; apply gen_expr_args; [by rewrite Hi | done] |]. intros Hf'.
    apply emits_defnonly; [done |]. eapply emits_then; [done | apply code_emit].
  - intros k l m Hi Hf. apply emits_progp. eapply emits_bind; [done | by apply gen_expr_args |]. intros Hf'. eapply emits_then; [done | apply code3_emits].
  - intros i l m Hi Hf. cbn [top_stmt] in Hi. eapply emits_bind; [done | intros; apply gen_item_emits; [by destruct (indef m), (top_item i) | done] |].
    intros Hf'. eapply emits_then; [done |]. apply gen_items_emits. cbn. by destruct (indef m), (top_item i).
  - apply gen_while.
  - apply gen_for.
  - apply gen_if.
  - intros. by apply gen_ifelse.
  - intros l IH m Hi Hf. apply emits_progp. eapply emits_then; [done |]. by apply IH.
  - intros m Hi Hf. by apply emits_ret.
  - intros l IHl s IHs m Hi Hf. cbn [top_stmts] in Hi.
    eapply emits_bind; [done | intros; apply IHl; [by destruct (indef m), (top_stmts l) | done] |]. intros Hf'.
    eapply emits_then; [done |]. intros _. apply (IHs (emit (cstmts (progp m) l) m)); [cbn; by destruct (indef m), (top_stmts l) | done].
Qed.
End Gen.
