(* ===== verification/HocSession.v ===== *)
(** A session with hoc: the lines of input, one after the other, do on the machine what
    they mean. *)
From stdpp Require Import base list gmap strings.
From Stdlib Require Import ZArith Lia Floats.SpecFloat.
From S2P Require Import Prelude Hoc HocSpec HocRun HocExpr HocStmt HocCompile.
Import Hoc HocSpec.
Open Scope Z_scope.
Open Scope hoc_scope.

(** ** What a session means

    [s_defs] has the bodies of the functions by the addresses of their code, [s_base]
    the address of the next one. *)
Record session := mk_session { s_world : world; s_defs : nat -> option stmt; s_base : nat }.

Definition add_def (defs : nat -> option stmt) (p : nat) (s : stmt) : nat -> option stmt := fun q => if (q =? p)%nat then Some s else defs q.

(** The code of a line at [b], and whether the line is one that can be compiled. *)
Definition cline (b : nat) (l : line) : list word :=
  match l with
  | LAsgn e => cexpr e ++ [Op Xpop; STOP]
  | LStmt s => cstmt b s ++ [STOP]
  | LExpr e => cexpr e ++ [Op Printtop; STOP]
  | LDefn _ _ s => cstmt b s ++ [Op Procret]
  end.
Definition line_ok (b : nat) (l : line) : bool :=
  (b + length (cline b l) <=? NPROG)%nat &&
  match l with
  | LAsgn e | LExpr e => top_expr e
  | LStmt s => top_stmt s && wf_stmt s
  | LDefn _ _ s => wf_stmt s
  end.
Definition next_base (b : nat) (l : line) : nat := match l with LDefn _ _ _ => (b + length (cline b l))%nat | _ => b end.
Fixpoint lines_ok (b : nat) (ls : list line) : bool :=
  match ls with [] => true | l :: ls => line_ok b l && lines_ok (next_base b l) ls end.

Section Session.
Context `{Libm}.

Definition line_step (fuel : nat) (l : line) : H session unit := fun S =>
  match l with
  | LDefn t n s =>
    match (set_type n t ;;; set_symbol n (put u (UDefn (s_base S)))) (s_world S) with
    | Done _ x => Done tt (mk_session x (add_def (s_defs S) (s_base S) s) (next_base (s_base S) l))
    | Err x y z => Err x y (mk_session z (s_defs S) (s_base S))
    | Stuck => Stuck
    | Timeout => Timeout
    end
  | _ =>
    match line_sem (s_defs S) fuel l (mk_tree (s_world S) []) with
    | Done _ t => Done tt (mk_session (tw t) (s_defs S) (s_base S))
    | Err x y t => Err x y (mk_session (tw t) (s_defs S) (s_base S))
    | Stuck => Stuck
    | Timeout => Timeout
    end
  end.
Definition session_sem (fuel : nat) (ls : list line) : H session unit := for_all ls (line_step fuel).

(** The machine that has read the same lines. *)
Record ready (S : session) (M : machine) : Prop := {
  r_world : w M = s_world S;
  r_stack : stack M = [];
  r_frame : frame M = [];
  r_base : progbase M = s_base S;
  r_progp : progp M = s_base S;
  r_flags : returning M = false /\ indef M = false;
  r_prog : length (prog M) = NPROG;
  r_linked : forall p s, s_defs S p = Some s ->
    wf_stmt s = true /\ code_at (prog M) p (cstmt p s ++ [Op Procret]) /\ (p + length (cstmt p s ++ [Op Procret]) <= s_base S)%nat }.

(** ** A line that is executed *)

Definition top : ctx := mk_ctx None 0 [] [] 0.

Section Line.
Context (M : machine) (defs : nat -> option stmt) (n : nat).
Hypothesis Hlinked : linked defs (prog M).
Hypothesis Hprog : is_Some (prog M !! 0%nat).

Lemma top_calls : calls_ok M n (call_sem defs n 0) top.
Proof. by apply (calls_sim M defs Hlinked n top). Qed.

Lemma run_end p z t (r : res tree unit) :
  sim n 0 r (fun m => run m (st M top p [] t)) (fun _ t' m => run m (st M top z [] t')) -> prog M !! z = Some STOP ->
  sim n 0 r (fun m => run m (st M top p [] t)) (fun _ t' _ => Done tt (st M top z [] t')).
Proof.
  intros Hs Hz. apply (sim_end _ _ _ _ _ (fun _ t' => Done tt (st M top z [] t')) Hs). intros [] t' _. split.
  - intros [|m]; [by left | right; by apply run_stop].
  - exists 1%nat. intros m. by apply run_stop.
Qed.

(** The value of an expression, an instruction that takes it off the stack, and STOP. *)
Lemma expr_end o e (kk : double -> H tree unit) b t :
  code_at (prog M) b (cexpr e ++ [Op o; STOP]) -> length (targs t) = 0%nat ->
  (forall v t', length (targs t') = 0%nat ->
    exists R, (forall x fuel, step x fuel o (st M top (S (b + length (cexpr e))) [DVal v] t') = R)
      /\ op_match 0 (kk v t') R (fun _ t' => st M top (S (b + length (cexpr e))) [] t')) ->
  sim n 0 (bind (expr_sem (call_sem defs n 0) None 0 e) kk t) (fun m => run m (st M top b [] t))
    (fun _ t' _ => Done tt (st M top (S (b + length (cexpr e))) [] t')).
Proof.
  intros Hc Hl Ho. apply code_at_app in Hc as (H1 & H2). rewrite !code_at_cons in H2. destruct H2 as (H2 & H3 & _).
  apply run_end; [| done].
  eapply sim_bind; [apply (expr_sim M n (call_sem defs n 0) top (call_sem_room defs n 0) top_calls e b [] t); [done | by eexists | done] |].
  intros v t' _ Hl'. destruct (Ho v t' Hl') as (R & HR & Hm). by eapply (sim_op M n 0 _ _ o).
Qed.

Lemma last_symbol_done x : exists k x', last_symbol x = Done k x'.
Proof. unfold last_symbol, bind, get. destruct (last x) as [k|]; [by exists k, x |]. by eexists _, _. Qed.
Lemma printtop_eq v q t : exists R, (forall x fuel, step x fuel Printtop (st M top q [DVal v] t) = R)
  /\ (length (targs t) = 0%nat -> op_match 0 (on_tw (let* s := last_symbol in print_num v true ;;; set_val s v) t) R (fun _ t' => st M top q [] t')).
Proof.
  exists (on_world (let* s := last_symbol in print_num v true ;;; set_val s v) (st M top q [] t)). split; [| intros; by apply (world_op M top)].
  intros x fuel. cbn [step]. unfold printtop, bind, on_world. cbn [w st at_ tw]. destruct (last_symbol_done (tw t)) as (k & x' & ->). done.
Qed.

Lemma line_sim b l x : line_ok b l = true -> next_base b l = b -> code_at (prog M) b (cline b l) ->
  sim n 0 (line_sem defs n l (mk_tree x [])) (fun m => run m (st M top b [] (mk_tree x [])))
    (fun _ t' _ => Done tt (st M top (b + length (cline b l) - 1) [] t')).
Proof.
  intros Hok Hn Hc. apply andb_prop in Hok as (Hfit & Hok). destruct l as [e|s|e|k s st]; cbn [cline line_sem next_base] in *.
  - rewrite length_app. cbn [length]. replace (b + (length (cexpr e) + 2) - 1)%nat with (S (b + length (cexpr e))) by lia.
    eapply expr_end; [done | done |]. intros v t' Hl'. by eexists (Done tt (st M top (S (b + length (cexpr e))) [] t')).
  - apply andb_prop in Hok as (_ & Hw). apply code_at_app in Hc as (H1 & H2). apply code_at_cons in H2 as (H2 & _).
    rewrite length_app. cbn [length]. replace (b + (length (cstmt b s) + 1) - 1)%nat with (b + length (cstmt b s))%nat by lia.
    apply run_end; [| done].
    eapply sim_bind; [apply (proj1 (stmt_stmts_ok M n (call_sem defs n 0) top (call_sem_room defs n 0) top_calls Hprog) s b); [done | done | by eexists | done] |].
    intros [| |v] t' _ Hl'; [| done..]. exact (sim_ret n 0 tt t' (fun _ t' m => run m (st M top (b + length (cstmt b s)) [] t')) Hl').
  - rewrite length_app. cbn [length]. replace (b + (length (cexpr e) + 2) - 1)%nat with (S (b + length (cexpr e))) by lia.
    eapply expr_end; [done | done |]. intros v t' Hl'. destruct (printtop_eq v (S (b + length (cexpr e))) t') as (R & HR & Hm). exists R. by split; [| apply Hm].
  - rewrite length_app in Hn. cbn in Hn. lia.
Qed.
End Line.

(** ** Lines on the machine *)

(** What the machine does, given fuel, agrees with what the session means: when it
    means a result the machine, with enough fuel, gets to a machine ready for the next
    line, in the same world; when it means a failure the machine fails with the same
    message in the same world; with less fuel it only runs out of fuel; and when the
    meaning runs out of fuel [n], the machine with no more fuel does too. *)
Definition agrees (n : nat) (r : res session unit) (f : nat -> res machine unit) : Prop :=
  match r with
  | Done _ se => exists M k, ready se M /\ (forall m, less (f m) (Done tt M)) /\ forall m, f (k + m)%nat = Done tt M
  | Err x y se => exists M k, w M = s_world se /\ (forall m, less (f m) (Err x y M)) /\ forall m, f (k + m)%nat = Err x y M
  | Stuck => True
  | Timeout => forall m, (m <= n)%nat -> f m = Timeout
  end.

Lemma agrees_bind n (x : H session unit) y S (f : nat -> H machine unit) g M :
  agrees n (x S) (fun m => f m M) -> (forall S' M', x S = Done tt S' -> ready S' M' -> agrees n (y S') (fun m => g m M')) ->
  agrees n ((x ;;; y) S) (fun m => (f m ;;; g m) M).
Proof.
  intros Hx Hy. unfold bind. destruct (x S) as [[] S'|a b S'| |]; [| | done |].
  - destruct Hx as (M' & k & Hr & Hle & Hev). specialize (Hy S' M' eq_refl Hr).
    assert (Hle2 : forall r, (forall m, less (g m M') r) -> forall m, less (match f m M with Done _ s => g m s | Err x y s => Err x y s | Stuck => Stuck | Timeout => Timeout end) r).
    { intros r Hg m. destruct (Hle m) as [-> | ->]; [by left | apply Hg]. }
    assert (Hev2 : forall r k2, (forall m, g (k2 + m)%nat M' = r) ->
      forall m, (match f (k + k2 + m)%nat M with Done _ s => g (k + k2 + m)%nat s | Err x y s => Err x y s | Stuck => Stuck | Timeout => Timeout end) = r).
    { intros r k2 Hg m. replace (k + k2 + m)%nat with (k + (k2 + m))%nat by lia. rewrite Hev. replace (k + (k2 + m))%nat with (k2 + (k + m))%nat by lia. apply Hg. }
    destruct (y S') as [[] S2|a b S2| |]; [| | done |].
    + destruct Hy as (M2 & k2 & Hr2 & Hl2 & He2). exists M2, (k + k2)%nat. split_and!; [done | by apply Hle2 | by apply Hev2].
    + destruct Hy as (M2 & k2 & Hr2 & Hl2 & He2). exists M2, (k + k2)%nat. split_and!; [done | by apply Hle2 | by apply Hev2].
    + intros m Hm. destruct (Hle m) as [-> | ->]; [done | by apply Hy].
  - destruct Hx as (M' & k & Hw & Hle & Hev). exists M', k. split_and!; [done | |].
    + intros m. destruct (Hle m) as [-> | ->]; [by left | by right].
    + intros m. by rewrite Hev.
  - intros m Hm. by rewrite (Hx m Hm).
Qed.

(** The code of a line goes behind that of the functions. *)
Lemma linked_put M se l : ready se M -> (s_base se + length l <= NPROG)%nat ->
  forall p s, s_defs se p = Some s -> wf_stmt s = true /\ code_at (put_words (s_base se) l (prog M)) p (cstmt p s ++ [Op Procret])
    /\ (p + length (cstmt p s ++ [Op Procret]) <= s_base se)%nat.
Proof.
  intros Hr Hl p s Hd. destruct (r_linked _ _ Hr p s Hd) as (H1 & H2 & H3). split_and!; [done | | done].
  intros i x Hi. pose proof (lookup_lt_Some _ _ _ Hi). rewrite put_words_lookup by (by rewrite (r_prog _ _ Hr)).
  rewrite decide_False by lia. by apply H2.
Qed.

Lemma initcode_ready M se : length (prog M) = NPROG ->
  (forall p s, s_defs se p = Some s ->
    wf_stmt s = true /\ code_at (prog M) p (cstmt p s ++ [Op Procret]) /\ (p + length (cstmt p s ++ [Op Procret]) <= s_base se)%nat) ->
  w M = s_world se -> progbase M = s_base se -> exists M', initcode M = Done tt M' /\ ready se M'.
Proof. intros Hlen Hlink Hw Hb. eexists. split; [done |]. by constructor. Qed.

Lemma gen_line_emits M se l : ready se M -> line_ok (s_base se) l = true -> next_base (s_base se) l = s_base se ->
  gen_line l M = Done true (emit (cline (s_base se) l) M).
Proof.
  intros Hr Hok Hn. apply andb_prop in Hok as (Hfit & Hok). apply Nat.leb_le in Hfit.
  assert (Hf : fits M (cline (progp M) l)) by (split; [apply (r_prog _ _ Hr) | by rewrite (r_progp _ _ Hr)]).
  rewrite <- (r_progp _ _ Hr). destruct l as [e|s|e|k s st]; cbn [cline gen_line next_base] in *.
  - eapply emits_bind; [done | intros; apply gen_expr_args; [by rewrite Hok, orb_true_r | done] |]. intros Hf'. eapply emits_then; [done | apply code2_emits].
  - apply andb_prop in Hok as (Hok & _).
    eapply emits_bind; [done | intros; apply gen_stmt_stmts; [by rewrite Hok, orb_true_r | done] |]. intros Hf'. eapply emits_then; [done | apply code_emit].
  - eapply emits_bind; [done | intros; apply gen_expr_args; [by rewrite Hok, orb_true_r | done] |]. intros Hf'. eapply emits_then; [done | apply code2_emits].
  - rewrite length_app in Hn. cbn in Hn. lia.
Qed.

Lemma line_step_exec n l se : next_base (s_base se) l = s_base se -> line_step n l se =
  match line_sem (s_defs se) n l (mk_tree (s_world se) []) with
  | Done _ t => Done tt (mk_session (tw t) (s_defs se) (s_base se))
  | Err x y t => Err x y (mk_session (tw t) (s_defs se) (s_base se))
  | Stuck => Stuck
  | Timeout => Timeout
  end.
Proof. intros Hn. destruct l; try done. cbn [next_base cline] in Hn. rewrite length_app in Hn. cbn in Hn. lia. Qed.

Lemma exec_line n se M l : ready se M -> line_ok (s_base se) l = true -> next_base (s_base se) l = s_base se ->
  agrees n (line_step n l se) (fun m => run_line m l M).
Proof.
  intros Hr Hok Hn. rewrite (line_step_exec n l se Hn). pose proof Hok as Hfit. apply andb_prop in Hfit as (Hfit & _). apply Nat.leb_le in Hfit.
  set (M1 := emit (cline (s_base se) l) M). set (b := s_base se) in *.
  assert (Hpr : prog M1 = put_words b (cline b l) (prog M)) by (unfold M1, emit, put, over, setter; cbn [prog]; by rewrite (r_progp _ _ Hr)).
  assert (Hlen1 : length (prog M1) = NPROG) by (rewrite Hpr, put_words_length; [apply Hr | by rewrite (r_prog _ _ Hr)]).
  pose proof (linked_put M se (cline b l) Hr Hfit) as Hlink. fold b in Hlink. rewrite <- Hpr in Hlink.
  assert (Hc : code_at (prog M1) b (cline b l)) by (rewrite Hpr; apply code_at_put; by rewrite (r_prog _ _ Hr)).
  assert (Hnil : is_Some (prog M1 !! 0%nat)) by (apply lookup_lt_is_Some; rewrite Hlen1; unfold NPROG; lia).
  assert (Hst : put pc b M1 = st M1 top b [] (mk_tree (s_world se) [])).
  { destruct Hr as [E1 E2 E3 E4 E5 (E6 & E7) E8 E9]. destruct M as [x sk pr pp q pb r d fr]. cbn in *. by subst. }
  assert (Hrun : forall m, run_line m l M = match run m (st M1 top b [] (mk_tree (s_world se) [])) with
    Done _ s => initcode s | Err x y s => Err x y s | Stuck => Stuck | Timeout => Timeout end).
  { intros m. unfold run_line. rewrite (bind_Done _ _ _ _ _ (gen_line_emits M se l Hr Hok Hn)). fold b M1. cbv iota.
    unfold bind at 1 2, get, execute, bind at 1, modify. change (progbase M1) with (progbase M). rewrite (r_base _ _ Hr). fold b. by rewrite Hst. }
  pose proof (line_sim M1 (s_defs se) n (fun p s Hd => conj (proj1 (Hlink p s Hd)) (proj1 (proj2 (Hlink p s Hd)))) Hnil b l (s_world se) Hok Hn Hc) as Hs.
  destruct (line_sem (s_defs se) n l (mk_tree (s_world se) [])) as [a t|x y t| |]; [| | done |].
  - destruct Hs as (_ & Hle & k & j & Hev).
    destruct (initcode_ready (st M1 top (b + length (cline b l) - 1) [] t) (mk_session (tw t) (s_defs se) b) Hlen1 Hlink eq_refl (r_base _ _ Hr)) as (M' & Ei & Hr').
    exists M', k. split_and!; [done | |].
    + intros m. rewrite Hrun. destruct (Hle m) as [-> | ->]; [by left | right; apply Ei].
    + intros m. rewrite Hrun, Hev. apply Ei.
  - destruct Hs as (c & k & Hw & Hle & Hev). exists c, k. split_and!; [done | |].
    + intros m. rewrite Hrun. destruct (Hle m) as [-> | ->]; [by left | by right].
    + intros m. by rewrite Hrun, Hev.
  - intros m Hm. rewrite Hrun. by rewrite (Hs m Hm).
Qed.

(** ** Definitions *)

Lemma define_ready M se k s x1 x2 ty : ready se M -> line_ok (s_base se) (LDefn ty k s) = true ->
  set_type k ty (s_world se) = Done tt x1 -> set_symbol k (put u (UDefn (s_base se))) x1 = Done tt x2 ->
  exists M', gen_line (LDefn ty k s) M = Done false M' /\ ready (mk_session x2 (add_def (s_defs se) (s_base se) s) (next_base (s_base se) (LDefn ty k s))) M'.
Proof.
  intros Hr Hok E1 E2. apply andb_prop in Hok as (Hfit & Hw). apply Nat.leb_le in Hfit. cbn [cline next_base gen_line] in *.
  set (b := s_base se) in *. set (c := cstmt b s ++ [Op Procret]) in *. set (M2 := put indef true (put w x1 M)).
  assert (Hp2 : progp M2 = b) by apply (r_progp _ _ Hr).
  assert (Hf : fits M2 (cstmt (progp M2) s ++ [Op Procret])) by (rewrite Hp2; split; [apply (r_prog _ _ Hr) | by rewrite Hp2]).
  rewrite (bind_Done _ _ _ tt (put w x1 M)) by (unfold on_world; rewrite (r_world _ _ Hr); by rewrite E1).
  rewrite (bind_Done (modify _) _ _ tt M2) by done.
  rewrite (bind_Done (gen_stmt s) _ _ (start (progp M2) s) (emit (cstmt (progp M2) s) M2)) by (by apply gen_stmt_stmts; [| eapply fits_l]).
  rewrite (bind_Done (code _) _ _ _ (emit [Op Procret] (emit (cstmt (progp M2) s) M2))) by (by apply code_emit, fits_emit).
  rewrite emit_app by done. rewrite Hp2 in *. fold c in Hf |- *.
  set (M4 := put progbase (b + length c)%nat (put w x2 (emit c M2))).
  rewrite (bind_Done (define k) _ _ tt M4).
  2:{ unfold define. rewrite (bind_Done (get progbase) _ _ b (emit c M2)) by (unfold get; f_equal; apply (r_base _ _ Hr)).
      rewrite (bind_Done _ _ _ tt (put w x2 (emit c M2))) by (unfold on_world; change (w (emit c M2)) with x1; by rewrite E2).
      unfold bind, get, modify. change (progp (put w x2 (emit c M2))) with (progp M2 + length c)%nat. by rewrite Hp2. }
  eexists. split; [reflexivity |]. cbn [s_world s_defs s_base].
  assert (Hpr : prog M4 = put_words b c (prog M)) by (unfold M4, emit, put, over, setter; cbn [prog]; f_equal; exact Hp2).
  constructor; try done.
  - apply (r_stack _ _ Hr).
  - apply (r_frame _ _ Hr).
  - change (progp (put indef false M4)) with (progp M2 + length c)%nat. by rewrite Hp2.
  - split; [apply (proj1 (r_flags _ _ Hr)) | done].
  - change (prog (put indef false M4)) with (prog M4). rewrite Hpr, put_words_length; [apply Hr | by rewrite (r_prog _ _ Hr)].
  - change (prog (put indef false M4)) with (prog M4). rewrite Hpr. cbn [s_defs s_base]. intros p s'. unfold add_def.
    destruct (p =? b)%nat eqn:Ep.
    + intros [= <-]. apply Nat.eqb_eq in Ep as ->. split_and!; [done | | done]. apply code_at_put. by rewrite (r_prog _ _ Hr).
    + intros Hd. destruct (linked_put M se c Hr Hfit p s' Hd) as (H1 & H2 & H3). split_and!; [done | done | lia].
Qed.

Lemma set_symbol_cases k f x : set_symbol k f x = Stuck \/ exists x', set_symbol k f x = Done tt x'.
Proof. unfold set_symbol. destruct (symbols x !! k); [right; by eexists | by left]. Qed.

Lemma define_line n se M ty k s : ready se M -> line_ok (s_base se) (LDefn ty k s) = true ->
  agrees n (line_step n (LDefn ty k s) se) (fun m => run_line m (LDefn ty k s) M).
Proof.
  intros Hr Hok. cbn [line_step]. unfold bind at 1, set_type.
  destruct (set_symbol_cases k (put type ty) (s_world se)) as [-> | (x1 & E1)]; [done |]. rewrite E1.
  destruct (set_symbol_cases k (put u (UDefn (s_base se))) x1) as [-> | (x2 & E2)]; [done |]. rewrite E2.
  destruct (define_ready M se k s x1 x2 ty Hr Hok E1 E2) as (M' & E & Hr').
  assert (Hrun : forall m, run_line m (LDefn ty k s) M = Done tt M') by (intros m; unfold run_line; by rewrite (bind_Done _ _ _ _ _ E)).
  exists M', 0%nat. split_and!; [done | intros m; by right | done].
Qed.

Lemma line_agrees n se M l : ready se M -> line_ok (s_base se) l = true -> agrees n (line_step n l se) (fun m => run_line m l M).
Proof. intros Hr Hok. destruct l; [by apply exec_line.. | by apply define_line]. Qed.

Lemma line_step_base n l se se' : line_step n l se = Done tt se' -> s_base se' = next_base (s_base se) l.
Proof.
  unfold line_step. destruct l; try (destruct (line_sem _ _ _ _); try done; by intros [= <-]).
  destruct (bind _ _ _); try done. by intros [= <-].
Qed.

(** ** The session *)

(** What [run] does with the lines of the input. *)
Definition run_lines (m : nat) (ls : list line) : H machine unit := for_all ls (run_line m).

(** C1: A session of hoc6, compiled line by line into the code of the stack machine and
    executed, does what its lines mean.  Let the machine be ready (in particular the
    code of the functions defined so far is in its program) and let every line be one
    that can be compiled (its code fits, a [return] or a [$] is inside a definition and
    a bare [return] is not itself the body of a loop or a branch).  If the interpreter
    of the trees gets through the lines, the machine does too, given enough fuel, and
    is then in the same world, with the same output, and ready for more; if a line fails,
    the machine fails with the same message in the same world; and the machine runs on
    for as long as the interpreter does. *)
Theorem session_correct n ls se M : ready se M -> lines_ok (s_base se) ls = true -> agrees n (session_sem n ls se) (fun m => run_lines m ls M).
Proof.
  revert se M. induction ls as [|l ls IH]; intros se M Hr Hok.
  - exists M, 0%nat. split_and!; [done | intros m; by right | done].
  - apply andb_prop in Hok as (Hl & Hls). apply agrees_bind; [by apply line_agrees |].
    intros se' M' E Hr'. apply IH; [done |]. by rewrite (line_step_base _ _ _ _ E).
Qed.
End Session.

(** ** A session *)

(** [func fac() if ($1 <= 1) return 1 else return $1 * fac($1 - 1)], then [fac(5)], on
    the machine [main] starts with, the names and the numbers being symbols. *)
Definition demo_lib : Libm := Build_Libm (fun _ x => (x, None)) (fun x _ => (x, None)) (fun x => (x, None, 1)).
Definition demo_world : world :=
  match (init ;;; install "fac" UNDEF zero ;;; install "" NUMBER one ;;; install "" NUMBER (of_Z 5)) (mk_world [] [] [] None None) with
  | Done _ x => x
  | _ => mk_world [] [] [] None None
  end.
Definition demo_fac : nat := (length (symbols demo_world) - 3)%nat.
Definition demo_lines : list line :=
  let num1 := ENumber (demo_fac + 1) in
  [LDefn FUNCTION demo_fac (SIfElse (EBin BLe (EArg 1) num1) (SReturnE num1)
     (SReturnE (EBin BMul (EArg 1) (ECall demo_fac (ASnoc ANil (EBin BSub (EArg 1) num1))))));
   LExpr (ECall demo_fac (ASnoc ANil (ENumber (demo_fac + 2))))].
Definition demo_session : session := mk_session demo_world (fun _ => None) 0.
Definition demo_machine : machine := mk_machine demo_world [] (replicate NPROG STOP) 0 0 0 false false [].

Lemma demo_ready : ready demo_session demo_machine.
Proof.
  unfold demo_session, demo_machine. constructor; cbn [w stack frame progbase progp returning indef prog s_world s_base s_defs];
    [reflexivity.. | split; reflexivity | apply length_replicate | discriminate].
Qed.
(** It prints 120. *)
Lemma demo_result : match session_sem (H0 := demo_lib) 20 demo_lines demo_session with
  | Done _ se => output (s_world se) = [PrNum 15 (of_Z 120) true]
  | _ => False
  end.
Proof. vm_compute. reflexivity. Qed.

Lemma session_correct_witness : ready demo_session demo_machine /\ lines_ok 0 demo_lines = true /\
  exists se M k, output (s_world se) = [PrNum 15 (of_Z 120) true] /\ ready se M /\ forall m, run_lines (H0 := demo_lib) (k + m) demo_lines demo_machine = Done tt M.
Proof.
  split; [exact demo_ready | split; [vm_compute; reflexivity |]].
  pose proof (session_correct (H0 := demo_lib) 20 demo_lines demo_session demo_machine demo_ready ltac:(vm_compute; reflexivity)) as Hs.
  pose proof demo_result as Hr. destruct (session_sem 20 demo_lines demo_session) as [[] se| | |]; [| done..].
  destruct Hs as (M & k & HM & _ & Hev). exists se, M, k. exact (conj Hr (conj HM Hev)).
Defined.
