(* ===== verification/HocTyped.v ===== *)
(** The types of hoc symbols: whatever is executed, the member of the union in a symbol
    is the one that its type says. *)
From stdpp Require Import base list gmap strings.
From Stdlib Require Import ZArith Lia Floats.SpecFloat.
From S2P Require Import Prelude Hoc.
Import Hoc.
Open Scope Z_scope.
Open Scope hoc_scope.

(** ** Invariants of computations *)

Definition keeps {S A} (I : S -> Prop) (m : H S A) : Prop := forall s, I s ->
  match m s with Done _ s' | Err _ _ s' => I s' | _ => True end.

Section Keeps.
Context {S : Type} (I : S -> Prop).
Lemma hoc_keeps_bind {A B} (m : H S A) (k : A -> H S B) : keeps I m -> (forall a, keeps I (k a)) -> keeps I (bind m k).
Proof. intros Hm Hk s Hs. specialize (Hm s Hs). unfold bind. destruct (m s) as [a s'| | |]; try done. by apply Hk. Qed.
Lemma hoc_keeps_ret {A} (a : A) : keeps I (ret a).
Proof. by intros s Hs. Qed.
Lemma hoc_keeps_get {A} (f : S -> A) : keeps I (get f).
Proof. by intros s Hs. Qed.
Lemma keeps_execerror {A} x y : keeps I (@execerror S A x y).
Proof. by intros s Hs. Qed.
Lemma keeps_stuck {A} : keeps I (@stuck S A).
Proof. by intros s Hs. Qed.
Lemma keeps_timeout {A} : keeps I (@timeout S A).
Proof. by intros s Hs. Qed.
Lemma keeps_need {A} (o : option A) : keeps I (need o).
Proof. by destruct o; intros s Hs. Qed.
Lemma hoc_keeps_modify f : (forall s, I s -> I (f s)) -> keeps I (modify f).
Proof. intros Hf s Hs. by apply Hf. Qed.
Lemma keeps_for_all {A} (l : list A) f : (forall a, keeps I (f a)) -> keeps I (for_all l f).
Proof. intros Hf. induction l as [|a l IH]; [apply hoc_keeps_ret |]. apply hoc_keeps_bind; [apply Hf | by intros _]. Qed.
End Keeps.

Create HintDb keeps discriminated.
#[export] Hint Resolve hoc_keeps_ret hoc_keeps_get keeps_execerror keeps_stuck keeps_timeout keeps_need : keeps.
(** Goes through the parts of a computation. *)
Ltac keeps_auto :=
  repeat first
    [ progress auto with keeps
    | apply hoc_keeps_bind; [| intros ?]
    | apply hoc_keeps_modify; intros ? ?; assumption
    | match goal with |- keeps _ (match ?x with _ => _ end) => destruct x end ].

(** ** Symbols of the right type *)

Definition sym_has (x : Symbol) : bool :=
  match type x, u x with
  | BLTIN, UPtr _ | FUNCTION, UDefn _ | PROCEDURE, UDefn _ | NUMBER, UVal _ | VAR, UVal _ | UNDEF, UVal _ | Keyword _, UVal _ => true
  | _, _ => false
  end.
Definition typed_sym (x : Symbol) : Prop := sym_has x = true.
(** The symbol of the last value is a variable. *)
Record typed (x : world) : Prop := {
  t_syms : Forall typed_sym (symbols x);
  t_last : forall n, last x = Some n -> exists y, symbols x !! n = Some y /\ type y = VAR }.

Lemma alter_typed f n (l : list Symbol) : Forall typed_sym l -> (forall y, l !! n = Some y -> typed_sym (f y)) -> Forall typed_sym (alter f n l).
Proof.
  rewrite !Forall_lookup. intros Hl Hf i y Hi. destruct (decide (n = i)) as [<-|Hn].
  - rewrite list_lookup_alter_eq in Hi. destruct (l !! n) as [z|] eqn:E; [| done]. injection Hi as <-. by apply Hf.
  - rewrite list_lookup_alter_ne in Hi by done. by apply (Hl i).
Qed.
(** A change of symbol [n] that leaves it right. *)
Lemma set_symbol_typed n f x : typed x -> (forall y, symbols x !! n = Some y -> typed_sym y -> typed_sym (f y) /\ (last x = Some n -> type y = VAR -> type (f y) = VAR)) ->
  match set_symbol n f x with Done _ x' => typed x' | _ => True end.
Proof.
  intros [Hs Hl] Hf. unfold set_symbol. destruct (symbols x !! n) as [y|] eqn:E; [| done]. constructor; cbn.
  - apply alter_typed; [done |]. intros z Hz. apply Hf; [by simplify_eq |]. by eapply (proj1 (Forall_lookup _ _) Hs n).
  - intros k Hk. destruct (Hl k Hk) as (z & Hz & Ht). destruct (decide (n = k)) as [<-|Hn].
    + exists (f z). rewrite list_lookup_alter_eq, Hz. split; [done |]. apply Hf; [by simplify_eq | | done | done].
      by eapply (proj1 (Forall_lookup _ _) Hs n).
    + exists z. by rewrite list_lookup_alter_ne.
Qed.

Section World.
Context `{Libm}.

(** A value stored in a variable. *)
Lemma set_val_typed n d x : typed x -> (forall y, symbols x !! n = Some y -> type y = VAR \/ type y = UNDEF) ->
  match set_val n d x with Done _ x' => typed x' | _ => True end.
Proof.
  intros Hx Hn. apply set_symbol_typed; [done |]. intros y Hy _. unfold typed_sym, sym_has. cbn. split; [| done]. by destruct (Hn y Hy) as [-> | ->].
Qed.
(** The symbol that becomes a variable. *)
Lemma become_var n d {A} (a : A) : keeps typed (set_val n d ;;; set_type n VAR ;;; ret a).
Proof.
  intros x Hx. unfold bind, set_val, set_type, set_symbol. destruct (symbols x !! n) as [y|] eqn:E; [| done].
  cbn [symbols over setter]. change (symbols (over symbols (alter (put u (UVal d)) n) x)) with (alter (put u (UVal d)) n (symbols x)).
  rewrite list_lookup_alter_eq, E. cbn [fmap option_fmap option_map ret].
  assert (Ht : match set_symbol n (put type VAR ∘ put u (UVal d)) x with Done _ x' => typed x' | _ => True end) by (by apply set_symbol_typed).
  unfold set_symbol in Ht. rewrite E in Ht. unfold over, setter in *. cbn in *. by rewrite list_alter_alter_eq.
Qed.

Lemma keeps_symbol I n : keeps I (symbol n).
Proof. intros x Hx. unfold symbol, need. by destruct (symbols x !! n). Qed.
Hint Resolve become_var keeps_symbol : keeps.

Lemma keeps_sym_val I n : keeps I (sym_val n).
Proof. unfold sym_val. keeps_auto. Qed.
Hint Resolve keeps_sym_val : keeps.
Lemma keeps_verify n : keeps typed (verify n).
Proof. unfold verify. keeps_auto. Qed.
Hint Resolve keeps_verify : keeps.
(** A variable that may be used is one. *)
Lemma verify_var n x a x' : verify n x = Done a x' -> x' = x /\ exists y, symbols x !! n = Some y /\ type y = VAR.
Proof.
  unfold verify, bind, symbol, need. destruct (symbols x !! n) as [y|]; [| done]. cbn [ret].
  destruct (bool_decide (type y = VAR)) eqn:E1, (bool_decide (type y = UNDEF)) eqn:E2; cbn; try done.
  intros [= _ <-]. split; [done |]. exists y. split; [done | by apply bool_decide_eq_true in E1].
Qed.

Lemma keeps_combine {S} (I : S -> Prop) o x y : keeps I (combine o x y).
Proof. unfold combine, long_mod. destruct o; keeps_auto. Qed.
Hint Resolve keeps_combine : keeps.
Lemma keeps_assign o n d : keeps typed (assign_sym o n d).
Proof. unfold assign_sym. keeps_auto. Qed.
Lemma keeps_eval n : keeps typed (eval_sym n).
Proof. unfold eval_sym. keeps_auto. Qed.
Lemma keeps_step f post n : keeps typed (step_sym f post n).
Proof.
  intros x Hx. unfold step_sym, bind at 1. pose proof (keeps_verify n x Hx) as Hv. destruct (verify n x) as [a x'|y z x'| |] eqn:E; try done.
  apply verify_var in E as (-> & y & Hy & Ht). unfold bind at 1, sym_val, bind at 1, symbol, need. rewrite Hy. cbn [ret].
  destruct (val_of y) as [v|]; [| done]. cbn [ret]. unfold bind. pose proof (set_val_typed n (f v one) x Hx) as Hs.
  destruct (set_val n (f v one) x) as [b x2| | |] eqn:Es; [| | done | done].
  - apply Hs. intros y' Hy'. left. by simplify_eq.
  - unfold set_val, set_symbol in Es. by rewrite Hy in Es.
Qed.
Lemma keeps_install s d : keeps typed (install s VAR d).
Proof.
  apply hoc_keeps_bind; [keeps_auto | intros k]. apply hoc_keeps_bind; [| keeps_auto]. apply hoc_keeps_modify. intros x [Hs Hl]. constructor; cbn.
  - apply Forall_app. split; [done | by repeat constructor].
  - intros i Hi. destruct (Hl i Hi) as (y & Hy & Ht). exists y. split; [by apply lookup_app_l_Some | done].
Qed.
Lemma keeps_errno e : keeps typed (modify (put errno e)).
Proof. apply hoc_keeps_modify. intros x [Hs Hl]. by constructor. Qed.
Lemma keeps_output f : keeps typed (modify (over output f)).
Proof. apply hoc_keeps_modify. intros x [Hs Hl]. by constructor. Qed.
Lemma keeps_input l : keeps typed (modify (put input l)).
Proof. apply hoc_keeps_modify. intros x [Hs Hl]. by constructor. Qed.
Hint Resolve keeps_assign keeps_eval keeps_step keeps_install keeps_errno keeps_output keeps_input : keeps.

Lemma keeps_builtin f d : keeps typed (call_builtin f d).
Proof. destruct f; cbn [call_builtin]; unfold gamma_of, checked, with_errno, errcheck, integer_of; keeps_auto. Qed.
Lemma keeps_Pow a b : keeps typed (Pow a b).
Proof. unfold Pow, checked, with_errno, errcheck. keeps_auto. Qed.
Lemma keeps_print_num d nl : keeps typed (print_num d nl).
Proof. unfold print_num, precision, lookup_sym. keeps_auto. Qed.
Lemma keeps_print_str s : keeps typed (print_str s).
Proof. unfold print_str. keeps_auto. Qed.
Lemma keeps_read n : keeps typed (read_sym n).
Proof. unfold read_sym. keeps_auto. Qed.
Hint Resolve keeps_builtin keeps_Pow keeps_print_num keeps_print_str keeps_read : keeps.

(** ** The machine *)

Definition wtyped (m : machine) : Prop := typed (w m).

Lemma keeps_world {A} (f : H world A) : keeps typed f -> keeps wtyped (on_world f).
Proof. intros Hf m Hm. specialize (Hf (w m) Hm). unfold on_world. by destruct (f (w m)). Qed.
Hint Resolve keeps_world : keeps.

Section Parts.
Context (I : machine -> Prop).
Hypothesis I_stack : forall l m, I m -> I (put stack l m).
Hypothesis I_pc : forall f m, I m -> I (over pc f m).

Lemma keeps_fetch a : keeps I (fetch a).
Proof. intros m Hm. unfold fetch, need. by destruct (prog m !! a). Qed.
Lemma keeps_push d : keeps I (push d).
Proof. unfold push. apply hoc_keeps_bind; [apply hoc_keeps_get | intros l]. destruct (NSTACK <=? length l)%nat; [apply keeps_execerror | by apply hoc_keeps_modify, I_stack]. Qed.
Lemma keeps_pop : keeps I pop.
Proof.
  unfold pop. apply hoc_keeps_bind; [apply hoc_keeps_get | intros [|d l]]; [apply keeps_execerror |].
  apply hoc_keeps_bind; [by apply hoc_keeps_modify, I_stack | intros; apply hoc_keeps_ret].
Qed.
Lemma keeps_pop_val : keeps I pop_val.
Proof. apply hoc_keeps_bind; [apply keeps_pop | intros [d|k]; [apply hoc_keeps_ret | apply keeps_stuck]]. Qed.
Lemma keeps_next : keeps I next.
Proof. unfold next. repeat first [apply hoc_keeps_get | apply keeps_fetch | apply hoc_keeps_ret | by apply hoc_keeps_modify, I_pc | apply hoc_keeps_bind; [| intros ?]]. Qed.
End Parts.

Lemma put_stack_typed l m : wtyped m -> wtyped (put stack l m).
Proof. done. Qed.
Lemma over_pc_typed f m : wtyped m -> wtyped (over pc f m).
Proof. done. Qed.
Hint Resolve put_stack_typed over_pc_typed keeps_fetch keeps_push keeps_pop keeps_pop_val keeps_next : keeps.

Lemma keeps_val d : keeps wtyped (val d).
Proof. unfold val. keeps_auto. Qed.
Lemma keeps_sym d : keeps wtyped (sym d).
Proof. unfold sym. keeps_auto. Qed.
Hint Resolve keeps_val keeps_sym : keeps.
Lemma keeps_next_sym : keeps wtyped next_sym.
Proof. unfold next_sym. keeps_auto. Qed.
Lemma keeps_next_num : keeps wtyped next_num.
Proof. unfold next_num. keeps_auto. Qed.
Lemma keeps_addr_at a : keeps wtyped (addr_at a).
Proof. unfold addr_at. keeps_auto. Qed.
Lemma keeps_getarg : keeps wtyped getarg.
Proof. unfold getarg. pose proof keeps_next_num. unfold fp. keeps_auto. Qed.
Lemma keeps_arg_val i : keeps wtyped (arg_val i).
Proof. unfold arg_val. keeps_auto. Qed.
Lemma keeps_set_arg i v : keeps wtyped (set_arg i v).
Proof. unfold set_arg. keeps_auto. Qed.
Hint Resolve keeps_next_sym keeps_next_num keeps_addr_at keeps_getarg keeps_arg_val keeps_set_arg : keeps.

(** [printtop] stores into the symbol of the last value. *)
Lemma last_symbol_var x : typed x -> exists k x' y, last_symbol x = Done k x' /\ typed x' /\ symbols x' !! k = Some y /\ type y = VAR.
Proof.
  intros Hx. pose proof (keeps_install "_" zero x Hx) as Hi. unfold last_symbol, bind, get. destruct (last x) as [k|] eqn:E.
  - destruct (t_last x Hx k E) as (y & Hy & Ht). by exists k, x, y.
  - cbn in Hi |- *. eexists _, _, (mk_symbol "_" VAR (UVal zero)). split; [reflexivity |]. cbn.
    assert (Hk : (symbols x ++ [mk_symbol "_" VAR (UVal zero)]) !! length (symbols x) = Some (mk_symbol "_" VAR (UVal zero))).
    { rewrite lookup_app_r, Nat.sub_diag by done. done. }
    split_and!; [| exact Hk | done]. constructor; cbn; [apply Hi |]. intros i [= <-]. eexists. split; [exact Hk | done].
Qed.
Lemma keeps_store_last k d nl x y : typed x -> symbols x !! k = Some y -> type y = VAR ->
  match (print_num d nl ;;; set_val k d) x with Done _ x' | Err _ _ x' => typed x' | _ => True end.
Proof.
  intros Hx Hy Ht. pose proof (keeps_print_num d nl x Hx) as Hp.
  assert (Hs : keeps (fun x' => symbols x' = symbols x) (print_num d nl)) by (unfold print_num, precision, lookup_sym; keeps_auto).
  specialize (Hs x eq_refl). unfold bind. destruct (print_num d nl x) as [a x'|a b x'| |]; try done.
  pose proof (set_val_typed k d x' Hp) as Hv. unfold set_val, set_symbol in *. rewrite Hs, Hy in *.
  apply Hv. intros y' Hy'. left. by simplify_eq.
Qed.
Lemma keeps_printtop : keeps wtyped printtop.
Proof.
  intros m Hm. destruct (last_symbol_var (w m) Hm) as (k & x' & y & E & Hx' & Hy & Ht).
  unfold printtop, bind at 1, on_world at 1. rewrite E. unfold bind at 1.
  pose proof (keeps_pop_val (fun m' => w m' = x') (fun l m' H => H) (put w x' m) eq_refl) as Hp.
  destruct (pop_val (put w x' m)) as [d m'|a b m'| |]; [| by rewrite <- Hp in Hx' | done | done].
  unfold on_world. rewrite Hp. pose proof (keeps_store_last k d true x' y Hx' Hy Ht) as Hs. by destruct (bind _ _ x').
Qed.
Hint Resolve keeps_printtop : keeps.

Section Step.
Context (e : nat -> H machine unit) (fuel : nat).
Hypothesis He : forall p, keeps wtyped (e p).

Lemma keeps_loop i body again d : keeps wtyped body -> keeps wtyped again -> keeps wtyped (loop i body again d).
Proof. intros Hb Ha. revert d. induction i as [|i IH]; intros d; cbn [loop]; keeps_auto. Qed.
Lemma keeps_execute_at a : keeps wtyped (execute_at e a).
Proof. unfold execute_at. keeps_auto. Qed.
Lemma keeps_resume a : keeps wtyped (resume a).
Proof. unfold resume. keeps_auto. Qed.
Lemma keeps_pop_args k : keeps wtyped (pop_args k).
Proof. induction k as [|k IH]; cbn [pop_args]; keeps_auto. Qed.
Hint Resolve keeps_loop keeps_execute_at keeps_resume keeps_pop_args : keeps.

Lemma keeps_step_op o : keeps wtyped (step e fuel o).
Proof.
  destruct o; cbn [step];
    unfold xpop, constpush, varpush, whilecode, while_cond, forcode, for_cond, for_again, ifcode, call, funcret, procret, ret_, fp,
      arg, argassign, argaddeq, argsubeq, argmuleq, argdiveq, argmodeq, arg_op, bltin, add, sub, mul, divop, mod_, long_mod, negate, eval,
      preinc, predec, postinc, postdec, step_var, gt, lt, ge, le, eq_, ne, and_, or_, not_, power, binary,
      assign, addeq, subeq, muleq, diveq, modeq, assign_op, prexpr, prstr, varread, xpop; keeps_auto;
    apply keeps_loop; unfold for_cond; keeps_auto.
Qed.
End Step.

Lemma keeps_run fuel : keeps wtyped (run fuel).
Proof.
  induction fuel as [|fuel IH]; cbn [run]; [keeps_auto |].
  assert (Hs : forall o, keeps wtyped (step (fun p => modify (put pc p) ;;; run fuel) fuel o)) by (intros o; apply keeps_step_op; intros p; keeps_auto).
  keeps_auto.
Qed.

(** ** Compiling changes no symbol *)

Section Gen.
Context (x : world).
Definition same (m : machine) : Prop := w m = x.
Lemma keeps_code c : keeps same (code c).
Proof. unfold code. keeps_auto. Qed.
Lemma keeps_patch a c : keeps same (patch a c).
Proof. unfold patch. keeps_auto. Qed.
Lemma keeps_defnonly s : keeps same (defnonly s).
Proof. unfold defnonly. keeps_auto. Qed.
Hint Resolve keeps_code keeps_patch keeps_defnonly : keeps.

Lemma keeps_gen_expr e : keeps same (gen_expr e)
with keeps_gen_args l : keeps same (gen_args l).
Proof.
  - destruct e; cbn [gen_expr]; unfold code2, code3; keeps_auto.
  - destruct l; cbn [gen_args]; keeps_auto.
Qed.
Hint Resolve keeps_gen_expr keeps_gen_args : keeps.
Lemma keeps_gen_item i : keeps same (gen_item i).
Proof. unfold gen_item, code2. keeps_auto. Qed.
Hint Resolve keeps_gen_item : keeps.
Lemma keeps_gen_stmt s : keeps same (gen_stmt s)
with keeps_gen_stmts l : keeps same (gen_stmts l).
Proof.
  - destruct s; cbn [gen_stmt]; unfold code3, gen_cond, gen_end; keeps_auto. apply keeps_for_all. intros ?. keeps_auto.
  - destruct l; cbn [gen_stmts]; keeps_auto.
Qed.
Hint Resolve keeps_gen_stmt : keeps.
Lemma keeps_gen_exec l : (forall t n s, l <> LDefn t n s) -> keeps same (gen_line l).
Proof. intros Hl. destruct l as [| | |t n s]; [.. | by destruct (Hl t n s)]; cbn [gen_line]; unfold code2; keeps_auto. Qed.
Lemma keeps_gen_body s : keeps same (gen_stmt s ;;; code (Op Procret)).
Proof. keeps_auto. Qed.
End Gen.

(** Defining a function makes its symbol one. *)
Lemma define_typed n t b x : typed x -> t = FUNCTION \/ t = PROCEDURE ->
  match (set_type n t ;;; set_symbol n (put u (UDefn b))) x with Done _ x' => Forall typed_sym (symbols x') /\ (last x <> Some n -> typed x') | _ => True end.
Proof.
  intros Hx Ht. unfold set_type, bind, set_symbol. destruct (symbols x !! n) as [y|] eqn:E; [| done].
  change (symbols (over symbols (alter (put type t) n) x)) with (alter (put type t) n (symbols x)).
  rewrite list_lookup_alter_eq, E. cbn [fmap option_fmap option_map]. unfold over, setter. cbn. rewrite list_alter_alter_eq.
  assert (Hs : forall z, typed_sym ((put u (UDefn b) ∘ put type t) z)) by (intros z; by destruct Ht as [-> | ->]).
  split; [apply alter_typed; [apply Hx | done] |]. intros Hn.
  pose proof (set_symbol_typed n (put u (UDefn b) ∘ put type t) x Hx) as Hd. unfold set_symbol in Hd. rewrite E in Hd. apply Hd.
  intros z _ _. by split.
Qed.

Lemma exec_typed fuel l M : typed (w M) -> (forall t n s, l <> LDefn t n s) ->
  match run_line fuel l M with Done _ M' | Err _ _ M' => typed (w M') | _ => True end.
Proof.
  intros HM Hl. pose proof (keeps_gen_exec (w M) l Hl M eq_refl) as Hg. unfold same in Hg. unfold run_line, bind at 1.
  destruct (gen_line l M) as [go M1|x y M1| |]; try done; [| by rewrite Hg].
  assert (Hr : keeps wtyped (if go then (let* b := get progbase in execute fuel b) ;;; initcode else ret tt)).
  { pose proof keeps_run. unfold execute, initcode. keeps_auto. }
  apply Hr. unfold wtyped. by rewrite Hg.
Qed.
Lemma defn_typed fuel t n s M : typed (w M) -> t = FUNCTION \/ t = PROCEDURE ->
  match run_line fuel (LDefn t n s) M with
  | Done _ M' => Forall typed_sym (symbols (w M')) /\ (last (w M) <> Some n -> typed (w M'))
  | Err _ _ M' => w M' = over symbols (alter (put type t) n) (w M)
  | _ => True
  end.
Proof.
  intros HM Ht. unfold run_line. cbn [gen_line]. unfold bind at 1 2, on_world.
  assert (Hcase : set_type n t (w M) = Stuck \/ set_type n t (w M) = Done tt (over symbols (alter (put type t) n) (w M))).
  { unfold set_type, set_symbol. destruct (symbols (w M) !! n); [by right | by left]. }
  destruct Hcase as [-> | E1]; [done |]. rewrite E1. set (x1 := over symbols _ (w M)) in *. unfold bind at 1, modify at 1.
  set (M2 := put indef true (put w x1 M)). pose proof (keeps_gen_body x1 s M2 eq_refl) as Hg. unfold bind in Hg. unfold bind at 1.
  destruct (gen_stmt s M2) as [a M3| | |]; try done. unfold bind at 1. destruct (code (Op Procret) M3) as [b M4| | |]; try done.
  pose proof (define_typed n t (progbase M4) (w M) HM Ht) as Hd. unfold bind in Hd. rewrite E1 in Hd.
  unfold define, bind, get, on_world, modify. unfold same in Hg. rewrite Hg.
  unfold set_symbol in *. by destruct (symbols x1 !! n).
Qed.

(** C33: Whatever line is compiled and executed, each symbol afterwards holds the member of
    the union that its type says: a variable, a number or a name without a value a
    double, a built-in function its pointer, a function or procedure an address of code;
    and the symbol that keeps the last value printed is a variable.  This also holds after
    a line that fails when it is compiled or executed.  A definition is the exception in
    two ways.  If it cannot be compiled, its symbol has got its new type but not the code,
    and nothing else has changed.  If it is for the symbol of the last value itself, that
    symbol is no longer a variable.  Nothing is said of a line that never ends or whose
    execution is undefined in C. *)
Theorem symbols_typed fuel l M : typed (w M) ->
  match l, run_line fuel l M with
  | LDefn t n _, Done _ M' => t = FUNCTION \/ t = PROCEDURE -> Forall typed_sym (symbols (w M')) /\ (last (w M) <> Some n -> typed (w M'))
  | LDefn t n _, Err _ _ M' => t = FUNCTION \/ t = PROCEDURE -> w M' = over symbols (alter (put type t) n) (w M)
  | _, (Done _ M' | Err _ _ M') => typed (w M')
  | _, _ => True
  end.
Proof.
  intros HM. pose proof (exec_typed fuel l M HM) as Hk. destruct l as [| | |t n s]; [by destruct (run_line _ _ _); try done; apply Hk.. |].
  pose proof (fun Ht => defn_typed fuel t n s M HM Ht) as Hd. by destruct (run_line _ _ _).
Qed.
End World.

(** The state in which [init] leaves the symbols, and a definition. *)
Definition plain_lib : Libm := Build_Libm (fun _ x => (x, None)) (fun x _ => (x, None)) (fun x => (x, None, 1)).
Definition start_world : world :=
  match (init ;;; install "f" UNDEF zero) (mk_world [] [] [] None None) with Done _ x => x | _ => mk_world [] [] [] None None end.
Lemma symbols_typed_witness : typed start_world /\
  match run_line (H0 := plain_lib) 10 (LDefn FUNCTION 33 (SReturnE (EArg 1))) (mk_machine start_world [] (replicate NPROG STOP) 0 0 0 false false []) with
  | Done _ M' => typed (w M')
  | _ => False
  end.
Proof.
  assert (Ht : typed start_world).
  { constructor; [| by intros n E; vm_compute in E]. unfold typed_sym. apply (bool_decide_unpack (Forall (fun x => sym_has x = true) (symbols start_world))).
    vm_compute. exact I. }
  split; [exact Ht |].
  pose proof (symbols_typed (H0 := plain_lib) 10 (LDefn FUNCTION 33 (SReturnE (EArg 1)))
    (mk_machine start_world [] (replicate NPROG STOP) 0 0 0 false false []) Ht) as Hs. cbv iota in Hs.
  assert (Hd : match run_line (H0 := plain_lib) 10 (LDefn FUNCTION 33 (SReturnE (EArg 1)))
    (mk_machine start_world [] (replicate NPROG STOP) 0 0 0 false false []) with Done _ _ => True | _ => False end) by (vm_compute; exact I).
  destruct (run_line _ _ _); [| destruct Hd..]. apply Hs; [by left | vm_compute; discriminate].
Defined.
