(* ===== verification/HocLex.v ===== *)
(** The lexical analysis of hoc6 (yylex in hoc-soledad/src/hoc.y), and that it reads back
    the tokens of a line that is written out. *)
From stdpp Require Import base list gmap strings.
From Stdlib Require Import ZArith Lia Floats.SpecFloat.
From S2P Require Import Prelude Hoc.
Import Hoc.
Open Scope Z_scope.
Open Scope hoc_scope.

Module HocLex.

(** Characters are bytes, and [EOF] is -1. *)
Definition EOF : Z := -1.
Definition ch (s : string) : Z := match s with String a _ => Z.of_N (Ascii.N_of_ascii a) | EmptyString => 0 end.
Definition isdigit (c : Z) : bool := (48 <=? c) && (c <=? 57).
Definition islower (c : Z) : bool := (97 <=? c) && (c <=? 122).
Definition isalpha (c : Z) : bool := islower c || ((65 <=? c) && (c <=? 90)).
Definition isalnum (c : Z) : bool := isalpha c || isdigit c.
Definition text (l : list Z) : string := String.string_of_list_ascii (map (fun c => Ascii.ascii_of_N (Z.to_N c)) l).

(** The tokens that are not a character. *)
Inductive optoken : Type := INC | DEC | ADDEQ | SUBEQ | MULEQ | DIVEQ | MODEQ | GE | GT | LE | LT | EQ | NE | NOT | OR | AND.
(** What [yylex] returns, with the value it leaves in [yylval]. *)
Inductive token : Type :=
| TChar (c : Z)
| TNumber (n : nat)
| TName (t : sym_type) (n : nat)
| TArg (k : Z)
| TString (s : list Z)
| TOp (o : optoken).

(** [fin] is the rest of the input and [lc] the global [c]. *)
Record lexer := mk_lexer { lw : world; fin : list Z; lineno : Z; lc : Z }.
#[export] Instance lexer_fields : Fields lexer := fun x => mk_lexer (lw x) (fin x) (lineno x) (lc x).

Definition on_lw {A} (f : H world A) : H lexer A := fun x =>
  match f (lw x) with
  | Done a y => Done a (put lw y x)
  | Err s t y => Err s t (put lw y x)
  | Stuck => Stuck
  | Timeout => Timeout
  end.

Definition getc : H lexer Z :=
  let* l := get fin in match l with [] => ret EOF | c :: l => modify (put fin l) ;;; ret c end.
Definition ungetc (c : Z) : H lexer unit := if c =? EOF then ret tt else modify (over fin (cons c)).
(** [c = getc(fin)] for the global [c]. *)
Definition next_c : H lexer Z := let* c := getc in modify (put lc c) ;;; ret c.

Definition follow {A} (expect : Z) (ifyes ifno : A) : H lexer A :=
  let* c := getc in if c =? expect then ret ifyes else ungetc c ;;; ret ifno.

Definition transtab : list (Z * Z) := [(98, 8); (102, 12); (110, 10); (114, 13); (116, 9)].
Definition backslash (c : Z) : H lexer Z :=
  if negb (c =? ch "\") then ret c else
  let* c := getc in
  match list_find (fun p => p.1 = c) transtab with
  | Some (_, p) => ret p.2
  | None => ret c
  end.

(** The loops of [yylex], with [fuel] for the characters that are left. *)
Fixpoint skip_blanks (fuel : nat) : H lexer Z :=
  match fuel with
  | O => timeout
  | S fuel => let* c := next_c in if (c =? ch " ") || (c =? 9) then skip_blanks fuel else ret c
  end.
Fixpoint skip_comment (fuel : nat) : H lexer Z :=
  match fuel with
  | O => timeout
  | S fuel => let* c := next_c in if negb (c =? 10) && negb (c =? EOF) then skip_comment fuel else ret c
  end.
(** [sbuf] is the part of the buffer that is filled, the last character first. *)
Definition NBUF : nat := 100.
Fixpoint read_name (fuel : nat) (sbuf : list Z) (c : Z) : H lexer (list Z * Z) :=
  match fuel with
  | O => timeout
  | S fuel =>
    if (NBUF - 1 <=? length sbuf)%nat then execerror "name too long" (text (rev sbuf)) else
    let sbuf := c :: sbuf in
    let* c := next_c in
    if negb (c =? EOF) && (isalnum c || (c =? ch "_")) then read_name fuel sbuf c else ret (rev sbuf, c)
  end.
Fixpoint read_digits (fuel : nat) (n : Z) : H lexer (Z * Z) :=
  match fuel with
  | O => timeout
  | S fuel =>
    let* c := next_c in
    if isdigit c then (if within 32 (10 * n + c - 48) then read_digits fuel (10 * n + c - 48) else stuck) else ret (n, c)
  end.
Fixpoint read_string (fuel : nat) (sbuf : list Z) : H lexer (list Z) :=
  match fuel with
  | O => timeout
  | S fuel =>
    let* c := next_c in
    if c =? 34 then ret (rev sbuf) else
    if (c =? 10) || (c =? EOF) then execerror "missing quote" "" else
    if (NBUF - 1 <=? length sbuf)%nat then execerror "string too long" (text (rev sbuf)) else
    let* c := backslash c in read_string fuel (c :: sbuf)
  end.
(** The string that [strlen] and [strcpy] see. *)
Fixpoint c_string (l : list Z) : list Z :=
  match l with [] => [] | c :: l => if c mod 256 =? 0 then [] else c mod 256 :: c_string l end.

(** [fscanf(fin, "%lf", &d)]: the number, if there is one, and the rest of the input. *)
Class Scanf := scanf_double : list Z -> option double * list Z.

Section Lex.
Context `{Scanf}.

Definition lex_number : H lexer token :=
  let* l := get fin in
  let '(o, l) := scanf_double l in
  modify (put fin l) ;;;
  let* d := need o in
  let* n := on_lw (install "" NUMBER d) in
  ret (TNumber n).
Definition lex_name (fuel : nat) (c : Z) : H lexer token :=
  let* r := read_name fuel [] c in
  let '(sbuf, c) := r in
  ungetc c ;;;
  let* o := on_lw (lookup_sym (text sbuf)) in
  let* n := (match o with Some n => ret n | None => on_lw (install (text sbuf) UNDEF zero) end) in
  let* s := on_lw (symbol n) in
  ret (TName (if bool_decide (type s = UNDEF) then VAR else type s) n).
Definition lex_arg (fuel : nat) : H lexer token :=
  let* r := read_digits fuel 0 in
  let '(n, c) := r in
  ungetc c ;;;
  if n =? 0 then execerror "strange $..." "" else ret (TArg n).
Definition lex_string (fuel : nat) : H lexer token :=
  let* sbuf := read_string fuel [] in ret (TString (c_string sbuf)).
(** The [switch]. *)
Definition lex_op (c : Z) : H lexer token :=
  if c =? ch "+" then let* t := follow 61 (TOp ADDEQ) (TChar c) in follow 43 (TOp INC) t else
  if c =? ch "-" then let* t := follow 61 (TOp SUBEQ) (TChar c) in follow 45 (TOp DEC) t else
  if c =? ch "*" then follow 61 (TOp MULEQ) (TChar c) else
  if c =? ch "/" then follow 61 (TOp DIVEQ) (TChar c) else
  if c =? ch "%" then follow 61 (TOp MODEQ) (TChar c) else
  if c =? ch ">" then follow 61 (TOp GE) (TOp GT) else
  if c =? ch "<" then follow 61 (TOp LE) (TOp LT) else
  if c =? ch "=" then follow 61 (TOp EQ) (TChar c) else
  if c =? ch "!" then follow 61 (TOp NE) (TOp NOT) else
  if c =? ch "|" then follow 124 (TOp OR) (TChar c) else
  if c =? ch "&" then follow 38 (TOp AND) (TChar c) else
  if c =? 10 then modify (over lineno (fun n => n + 1)) ;;; ret (TChar 10) else ret (TChar c).

(** What follows the blanks, from its first character [c] on. *)
Definition lex_token (fuel : nat) (c : Z) : H lexer token :=
  if c =? ch "#" then
    let* c := skip_comment fuel in
    (if c =? 10 then modify (over lineno (fun n => n + 1)) else ret tt) ;;;
    ret (TChar c)
  else if (c =? ch ".") || isdigit c then ungetc c ;;; lex_number
  else if isalpha c || (c =? ch "_") then lex_name fuel c
  else if c =? ch "$" then lex_arg fuel
  else if c =? 34 then lex_string fuel
  else lex_op c.
Fixpoint yylex (fuel : nat) : H lexer token :=
  match fuel with
  | O => timeout
  | S fuel =>
    let* c := skip_blanks fuel in
    if c =? EOF then ret (TChar 0) else
    if c =? ch "\" then
      let* c := next_c in
      if c =? 10 then modify (over lineno (fun n => n + 1)) ;;; yylex fuel else lex_token fuel c
    else lex_token fuel c
  end.

(** The calls of [yylex] until it returns 0. *)
Fixpoint lex_file (fuel : nat) : H lexer (list token) :=
  match fuel with
  | O => timeout
  | S fuel =>
    let* t := yylex (S fuel) in
    match t with TChar 0 => ret [] | t => let* l := lex_file fuel in ret (t :: l) end
  end.
End Lex.
End HocLex.

Import HocLex.

(** ** Tokens written out *)

(** A number as it is written, with its value; a name; the digits of an argument; a
    string; an operator; a character that is a token. *)
Inductive item : Type :=
| INum (l : list Z) (d : double)
| IName (s : list Z)
| IArg (ds : list Z)
| IStr (s : list Z)
| IOp (o : optoken)
| IChar (c : Z).

Definition op_text (o : optoken) : list Z :=
  match o with
  | INC => [43; 43] | DEC => [45; 45] | ADDEQ => [43; 61] | SUBEQ => [45; 61] | MULEQ => [42; 61] | DIVEQ => [47; 61] | MODEQ => [37; 61]
  | GE => [62; 61] | GT => [62] | LE => [60; 61] | LT => [60] | EQ => [61; 61] | NE => [33; 61] | NOT => [33] | OR => [124; 124] | AND => [38; 38]
  end.
Definition escape (c : Z) : list Z :=
  if c =? 10 then [92; 110] else if (c =? 34) || (c =? 92) then [92; c] else [c].
Definition show (i : item) : list Z :=
  match i with
  | INum l _ => l
  | IName s => s
  | IArg ds => 36 :: ds
  | IStr s => 34 :: concat (map escape s) ++ [34]
  | IOp o => op_text o
  | IChar c => [c]
  end.
(** Each token is followed by a blank. *)
Definition show_all (l : list item) : list Z := concat (map (fun i => show i ++ [32]) l).

Definition digits_value (n : Z) (ds : list Z) : Z := fold_left (fun n c => 10 * n + c - 48) ds n.
Definition name_char (c : Z) : bool := isalnum c || (c =? 95).
Definition op_char (c : Z) : bool :=
  negb (existsb (Z.eqb c) [-1; 0; 9; 32; 34; 35; 36; 46; 92; 95; 33; 60; 62]) && negb (isalnum c).

Section Spec.
Context `{Scanf}.

Definition item_ok (i : item) : Prop :=
  match i with
  | INum l d => (exists c l', l = c :: l' /\ (c = 46 \/ isdigit c = true)) /\ forall rest, scanf_double (l ++ 32 :: rest) = (Some d, 32 :: rest)
  | IName s => (exists c l, s = c :: l /\ (isalpha c = true \/ c = 95)) /\ Forall (fun c => name_char c = true) s /\ (length s < NBUF)%nat
  | IArg ds => Forall (fun c => isdigit c = true) ds /\ 0 < digits_value 0 ds < 2 ^ 31
  | IStr s => Forall (fun c => 0 < c < 256) s /\ (length s < NBUF)%nat
  | IOp _ => True
  | IChar c => op_char c = true
  end.

(** What is returned for it, and the symbols afterwards. *)
Definition item_token (i : item) (x : world) : token * world :=
  match i with
  | INum _ d => (TNumber (length (symbols x)), over symbols (fun l => l ++ [mk_symbol "" NUMBER (UVal d)]) x)
  | IName s =>
    match find_last (text s) (symbols x) 0 None with
    | Some n => (TName (match type <$> symbols x !! n with Some UNDEF | None => VAR | Some t => t end) n, x)
    | None => (TName VAR (length (symbols x)), over symbols (fun l => l ++ [mk_symbol (text s) UNDEF (UVal zero)]) x)
    end
  | IArg ds => (TArg (digits_value 0 ds), x)
  | IStr s => (TString s, x)
  | IOp o => (TOp o, x)
  | IChar c => (TChar c, x)
  end.
Fixpoint items_tokens (l : list item) (x : world) : list token * world :=
  match l with
  | [] => ([], x)
  | i :: l => let '(t, x) := item_token i x in let '(ts, x) := items_tokens l x in (t :: ts, x)
  end.
Definition newlines (i : item) : Z := match i with IChar 10 => 1 | _ => 0 end.

(** ** The loops *)

Lemma bind_at {S A B} (m : H S A) (k : A -> H S B) s a s' : m s = Done a s' -> bind m k s = k a s'.
Proof. unfold bind. by intros ->. Qed.
Lemma next_c_at x c l ln c0 : next_c (mk_lexer x (c :: l) ln c0) = Done c (mk_lexer x l ln c).
Proof. done. Qed.
Lemma bind_next {A} (k : Z -> H lexer A) x c l ln c0 : bind next_c k (mk_lexer x (c :: l) ln c0) = k c (mk_lexer x l ln c).
Proof. done. Qed.

Lemma isalnum_not_blank c : name_char c = true -> (c =? EOF) = false.
Proof. unfold name_char, isalnum, isalpha, islower, isdigit, EOF. intros Hc. apply Z.eqb_neq. intros ->. done. Qed.

Lemma read_name_ok x rest ln : forall s fuel sbuf c, Forall (fun c => name_char c = true) s -> (length s < fuel)%nat ->
  (length sbuf + length (c :: s) < NBUF)%nat ->
  read_name fuel sbuf c (mk_lexer x (s ++ 32 :: rest) ln c) = Done (rev sbuf ++ c :: s, 32) (mk_lexer x rest ln 32).
Proof.
  intros s. induction s as [|a s IH]; intros fuel sbuf c Hs Hf Hn; (destruct fuel as [|fuel]; [cbn in Hf; lia |]); cbn [read_name length app] in *.
  - rewrite (proj2 (Nat.leb_gt _ _)) by lia. by rewrite bind_next.
  - rewrite (proj2 (Nat.leb_gt _ _)) by lia. cbn [app]. rewrite bind_next. apply Forall_cons in Hs as (Ha & Hs).
    rewrite (isalnum_not_blank _ Ha). change (isalnum a || (a =? ch "_")) with (name_char a). rewrite Ha. cbn [negb andb].
    rewrite IH by (try done; cbn; lia). cbn [rev]. by rewrite <- app_assoc.
Qed.

Lemma digits_mono ds : Forall (fun c => isdigit c = true) ds -> forall n, 0 <= n -> n <= digits_value n ds.
Proof.
  induction 1 as [|c ds Hc _ IH]; intros n Hn; cbn; [done |]. apply andb_prop in Hc as (Hc & _). apply Z.leb_le in Hc.
  specialize (IH (10 * n + c - 48) ltac:(lia)). unfold digits_value in IH. lia.
Qed.
Lemma read_digits_ok x rest ln : forall ds fuel n c0, Forall (fun c => isdigit c = true) ds -> (length ds < fuel)%nat -> 0 <= n ->
  digits_value n ds < 2 ^ 31 -> read_digits fuel n (mk_lexer x (ds ++ 32 :: rest) ln c0) = Done (digits_value n ds, 32) (mk_lexer x rest ln 32).
Proof.
  intros ds. induction ds as [|c ds IH]; intros fuel n c0 Hs Hf Hn Hv; (destruct fuel as [|fuel]; [cbn in Hf; lia |]); cbn [read_digits length app] in *; rewrite bind_next.
  - done.
  - apply Forall_cons in Hs as (Hc & Hs). rewrite Hc. pose proof Hc as Hc'. apply andb_prop in Hc' as (Hc' & _). apply Z.leb_le in Hc'.
    cbn [digits_value fold_left] in Hv |- *. pose proof (digits_mono ds Hs (10 * n + c - 48) ltac:(lia)) as Hm. unfold digits_value in Hm, Hv.
    assert (Hw : within 32 (10 * n + c - 48) = true) by (unfold within; apply andb_true_intro; split; [apply Z.leb_le | apply Z.ltb_lt]; lia).
    rewrite Hw. by rewrite IH by (try done; lia).
Qed.

(** One character of a string, which may be written with a backslash. *)
Lemma read_string_step fuel sbuf x l l' ln c0 c d : (c =? 34) || ((c =? 10) || (c =? EOF)) = false -> (length sbuf < NBUF - 1)%nat ->
  backslash c (mk_lexer x l ln c) = Done d (mk_lexer x l' ln c) ->
  read_string (S fuel) sbuf (mk_lexer x (c :: l) ln c0) = read_string fuel (d :: sbuf) (mk_lexer x l' ln c).
Proof.
  intros Hc Hn Hb. apply orb_false_elim in Hc as (H34 & Hc). cbn [read_string]. rewrite bind_next, H34, Hc, (proj2 (Nat.leb_gt _ _) Hn).
  unfold bind. by rewrite Hb.
Qed.
Lemma escape_step fuel sbuf x l ln c0 c : 0 < c < 256 -> (length sbuf < NBUF - 1)%nat ->
  exists c1, read_string (S fuel) sbuf (mk_lexer x (escape c ++ l) ln c0) = read_string fuel (c :: sbuf) (mk_lexer x l ln c1).
Proof.
  intros Hc Hn. unfold escape. destruct (c =? 10) eqn:E10; [| destruct ((c =? 34) || (c =? 92)) eqn:Eq]; cbn [app].
  - apply Z.eqb_eq in E10 as ->. exists 92. by apply read_string_step.
  - exists 92. apply read_string_step; [done | done |]. apply orb_prop in Eq as [Eq | Eq]; apply Z.eqb_eq in Eq as ->; done.
  - apply orb_false_elim in Eq as (E34 & E92). exists c. apply read_string_step; [| done |].
    + rewrite E34, E10. apply Z.eqb_neq. unfold EOF. lia.
    + unfold backslash. change (ch "\") with 92. by rewrite E92.
Qed.
Lemma read_string_ok x rest ln : forall s fuel sbuf c0, Forall (fun c => 0 < c < 256) s -> (length s < fuel)%nat -> (length sbuf + length s < NBUF)%nat ->
  exists c1, read_string fuel sbuf (mk_lexer x (concat (map escape s) ++ 34 :: rest) ln c0) = Done (rev sbuf ++ s) (mk_lexer x rest ln c1).
Proof.
  intros s. induction s as [|c s IH]; intros fuel sbuf c0 Hs Hf Hn; (destruct fuel as [|fuel]; [cbn in Hf; lia |]); cbn [map concat length app] in *.
  - exists 34. cbn [read_string]. rewrite bind_next. by rewrite app_nil_r.
  - apply Forall_cons in Hs as (Hc & Hs). rewrite <- app_assoc.
    destruct (escape_step fuel sbuf x (concat (map escape s) ++ 34 :: rest) ln c0 c Hc) as (c1 & ->); [lia |].
    destruct (IH fuel (c :: sbuf) c1 Hs) as (c2 & E); [lia | cbn; lia |]. exists c2. rewrite E. cbn [rev]. by rewrite <- app_assoc.
Qed.
Lemma c_string_id s : Forall (fun c => 0 < c < 256) s -> c_string s = s.
Proof. induction 1 as [|c s Hc _ IH]; cbn [c_string]; [done |]. rewrite Z.mod_small by lia. rewrite (proj2 (Z.eqb_neq _ _)) by lia. by rewrite IH. Qed.

(** ** One token *)

Lemma op_char_not c : op_char c = true -> forall k, In k [-1; 0; 9; 32; 34; 35; 36; 46; 92; 95; 33; 60; 62] -> (c =? k) = false.
Proof.
  intros Hc k Hk. apply andb_prop in Hc as (Hc & _). destruct (c =? k) eqn:E; [| done]. apply negb_true_iff, not_true_iff_false in Hc.
  destruct Hc. apply existsb_exists. by exists k.
Qed.

(** The first character of what is written for a token. *)
Lemma show_first i : item_ok i -> exists c l, show i = c :: l /\ (c =? 32) || (c =? 9) = false /\ (c =? EOF) = false /\ (c =? 92) = false /\ (c =? 35) = false.
Proof.
  assert (Hd : forall c, isdigit c = true -> (c =? 32) || (c =? 9) = false /\ (c =? EOF) = false /\ (c =? 92) = false /\ (c =? 35) = false).
  { intros c Hc. apply andb_prop in Hc as (H1 & H2). apply Z.leb_le in H1, H2. unfold EOF. rewrite !(proj2 (Z.eqb_neq _ _)) by lia. done. }
  assert (Ha : forall c, isalpha c = true -> (c =? 32) || (c =? 9) = false /\ (c =? EOF) = false /\ (c =? 92) = false /\ (c =? 35) = false).
  { intros c Hc. unfold isalpha, islower, EOF in *. rewrite !(proj2 (Z.eqb_neq _ _)) by lia. done. }
  destruct i as [l d|s|ds|s|o|c]; cbn [item_ok show].
  - intros ((c & l' & -> & [-> | Hc]) & _); (eexists _, _; split; [done |]); [done | by apply Hd].
  - intros ((c & l & -> & [Hc | ->]) & _); (eexists _, _; split; [done |]); [by apply Ha | done].
  - intros _. by eexists _, _.
  - intros _. by eexists _, _.
  - intros _. destruct o; by eexists _, _.
  - intros Hc. eexists _, _. split; [done |]. unfold EOF. rewrite !(op_char_not c Hc) by (cbn; tauto). done.
Qed.

Lemma find_last_lt s l : forall i found n, find_last s l i found = Some n -> found = Some n \/ (i <= n < i + length l)%nat.
Proof.
  induction l as [|x l IH]; intros i found n; cbn [find_last length]; [by left |]. intros E. apply IH in E as [E|E]; [| right; lia].
  destruct (String.eqb (name x) s); [injection E as <-; right; lia | by left].
Qed.
Lemma lex_name_ok fuel c s x rest ln : item_ok (IName (c :: s)) -> (length s < fuel)%nat ->
  lex_name fuel c (mk_lexer x (s ++ 32 :: rest) ln c) = Done (item_token (IName (c :: s)) x).1 (mk_lexer (item_token (IName (c :: s)) x).2 (32 :: rest) ln 32).
Proof.
  intros (_ & Hs & Hn) Hf. apply Forall_cons in Hs as (_ & Hs). unfold lex_name, bind at 1. rewrite read_name_ok by done.
  cbn [rev app item_token]. unfold bind at 1. change (ungetc 32 (mk_lexer x rest ln 32)) with (Done tt (mk_lexer x (32 :: rest) ln 32)). cbv iota beta.
  unfold bind at 1, on_lw at 1, lookup_sym, get. cbn [lw]. destruct (find_last (text (c :: s)) (symbols x) 0 None) as [n|] eqn:E.
  - destruct (find_last_lt _ _ _ _ _ E) as [|Hlt]; [done |]. destruct (lookup_lt_is_Some_2 (symbols x) n) as (y & Hy); [lia |].
    unfold bind, ret, on_lw, symbol, need. cbn [lw]. change (put lw x (mk_lexer x (32 :: rest) ln 32)) with (mk_lexer x (32 :: rest) ln 32). cbn [lw].
    rewrite Hy. cbn. by destruct (type y).
  - set (y := mk_symbol (text (c :: s)) UNDEF (UVal zero)). set (x' := over symbols (fun l => l ++ [y]) x).
    rewrite (bind_at (on_lw (install (text (c :: s)) UNDEF zero)) _ _ (length (symbols x)) (mk_lexer x' (32 :: rest) ln 32)) by done.
    rewrite (bind_at (on_lw (symbol (length (symbols x)))) _ _ y (mk_lexer x' (32 :: rest) ln 32)); [done |].
    unfold on_lw, symbol, need. cbn [lw]. change (symbols x') with (symbols x ++ [y]). by rewrite lookup_app_r, Nat.sub_diag by done.
Qed.

Lemma lex_op_ok i c l x rest ln c0 : item_ok i -> match i with IOp _ | IChar _ => True | _ => False end -> show i = c :: l ->
  lex_op c (mk_lexer x (l ++ 32 :: rest) ln c0) = Done (item_token i x).1 (mk_lexer (item_token i x).2 (32 :: rest) (ln + newlines i) c0).
Proof.
  intros Hi Hk Hs. destruct i as [| | | |o|c']; try done.
  - destruct o; injection Hs as <- <-; cbn [newlines]; rewrite Z.add_0_r; done.
  - injection Hs as <- <-. cbn [app item_ok] in *. unfold lex_op.
    change (ch ">") with 62. change (ch "<") with 60. change (ch "!") with 33. rewrite (op_char_not c' Hi 62), (op_char_not c' Hi 60), (op_char_not c' Hi 33) by (cbn; tauto).
    repeat match goal with |- context [if ?b then _ else _] =>
      let E := fresh in destruct b eqn:E; [apply Z.eqb_eq in E as ->; cbn [newlines]; rewrite ?Z.add_0_r; done |] end.
    assert (Hn : newlines (IChar c') = 0) by (unfold newlines; by destruct c' as [|p|p]; try done; repeat (destruct p; try done)).
    by rewrite Hn, Z.add_0_r.
Qed.

Lemma lex_number_ok c l d x rest ln : item_ok (INum (c :: l) d) ->
  (if (c =? ch ".") || isdigit c then ungetc c ;;; lex_number else stuck) (mk_lexer x (l ++ 32 :: rest) ln c)
  = Done (item_token (INum (c :: l) d) x).1 (mk_lexer (item_token (INum (c :: l) d) x).2 (32 :: rest) (ln + newlines (INum (c :: l) d)) c).
Proof.
  intros ((c0 & l0 & [= <- <-] & Hc) & Hscan).
  assert (Hd : (c =? ch ".") || isdigit c = true) by (destruct Hc as [-> | ->]; [done | apply orb_true_r]). rewrite Hd.
  assert (He : (c =? EOF) = false).
  { destruct Hc as [-> | Hc]; [done |]. apply andb_prop in Hc as (Hc & _). apply Z.leb_le in Hc. apply Z.eqb_neq. unfold EOF. lia. }
  rewrite (bind_at (ungetc c) _ _ tt (mk_lexer x (c :: l ++ 32 :: rest) ln c)) by (unfold ungetc; by rewrite He).
  unfold lex_number. rewrite (bind_at (get fin) _ _ (c :: l ++ 32 :: rest) (mk_lexer x (c :: l ++ 32 :: rest) ln c)) by done.
  change (c :: l ++ 32 :: rest) with ((c :: l) ++ 32 :: rest). rewrite Hscan. cbn. by rewrite Z.add_0_r.
Qed.
Lemma escape_length (s : list Z) : (length s <= length (concat (map escape s)))%nat.
Proof.
  induction s as [|c s IH]; cbn [map concat length]; [done |]. rewrite length_app.
  assert (1 <= length (escape c))%nat by (unfold escape; destruct (c =? 10), ((c =? 34) || (c =? 92)); cbn; lia). lia.
Qed.

Lemma lex_token_ok fuel i c l x rest ln : item_ok i -> show i = c :: l -> (length l < fuel)%nat ->
  exists c1, lex_token fuel c (mk_lexer x (l ++ 32 :: rest) ln c) = Done (item_token i x).1 (mk_lexer (item_token i x).2 (32 :: rest) (ln + newlines i) c1).
Proof.
  intros Hi Hs Hf. destruct (show_first i Hi) as (c' & l' & Hs' & _ & _ & _ & H35). rewrite Hs in Hs'. injection Hs' as <- <-.
  unfold lex_token. change (ch "#") with 35. rewrite H35. destruct i as [l0 d|s|ds|s|o|c0].
  - cbn [show] in Hs. subst l0. exists c. pose proof (lex_number_ok c l d x rest ln Hi) as Hn. by destruct ((c =? ch ".") || isdigit c).
  - cbn [show] in Hs. subst s. exists 32. pose proof Hi as ((c0 & l0 & [= <- <-] & Hc) & _).
    assert (Hd : (c =? ch ".") || isdigit c = false).
    { destruct Hc as [Hc | ->]; [| done]. unfold isalpha, islower, isdigit, ch in *. cbn. rewrite (proj2 (Z.eqb_neq _ _)) by lia. lia. }
    assert (Ha : isalpha c || (c =? ch "_") = true) by (destruct Hc as [-> | ->]; done).
    rewrite Hd, Ha. cbn [newlines]. rewrite Z.add_0_r. by apply lex_name_ok.
  - injection Hs as <- <-. exists 32. destruct Hi as (Hds & Hv). cbn [item_token newlines fst snd]. rewrite Z.add_0_r.
    change (lex_arg fuel (mk_lexer x (ds ++ 32 :: rest) ln 36) = Done (TArg (digits_value 0 ds)) (mk_lexer x (32 :: rest) ln 32)).
    unfold lex_arg, bind at 1. rewrite read_digits_ok by (try done; lia). cbn. by rewrite (proj2 (Z.eqb_neq _ _)) by lia.
  - injection Hs as <- <-. destruct Hi as (Hs' & Hn). cbn [item_token newlines fst snd]. rewrite Z.add_0_r.
    rewrite <- app_assoc. cbn [app]. rewrite length_app in Hf. cbn in Hf.
    pose proof (escape_length s) as Hlen. destruct (read_string_ok x (32 :: rest) ln s fuel [] 34 Hs') as (c1 & E); [lia | cbn; lia |]. exists c1.
    change (lex_string fuel (mk_lexer x (concat (map escape s) ++ 34 :: 32 :: rest) ln 34) = Done (TString s) (mk_lexer x (32 :: rest) ln c1)).
    unfold lex_string. rewrite (bind_at _ _ _ _ _ E). cbn [rev app]. by rewrite c_string_id.
  - exists c. assert (Hd : (c =? ch ".") || isdigit c = false /\ isalpha c || (c =? ch "_") = false /\ (c =? ch "$") = false /\ (c =? 34) = false)
      by (destruct o; injection Hs as <- <-; done).
    destruct Hd as (-> & -> & -> & ->). by apply lex_op_ok.
  - injection Hs as <- <-. exists c0. pose proof Hi as Hi'. cbn [item_ok] in Hi. pose proof (op_char_not c0 Hi) as Hn. apply andb_prop in Hi as (_ & Ha). apply negb_true_iff in Ha.
    unfold isalnum in Ha. apply orb_false_elim in Ha as (Ha & Hd). change (ch ".") with 46. change (ch "_") with 95. change (ch "$") with 36.
    rewrite Ha, Hd, !Hn by (cbn; tauto). cbn [orb]. by apply (lex_op_ok (IChar c0) c0 []).
Qed.

Lemma skip_char f x c l ln c0 : (c =? 32) || (c =? 9) = false -> skip_blanks (S f) (mk_lexer x (c :: l) ln c0) = Done c (mk_lexer x l ln c).
Proof. intros Hc. cbn [skip_blanks]. rewrite bind_next. change (ch " ") with 32. by rewrite Hc. Qed.
Lemma yylex_ok fuel pre i x rest ln c0 : pre = [] \/ pre = [32] -> item_ok i -> (length (pre ++ show i) + 2 < fuel)%nat ->
  exists c1, yylex fuel (mk_lexer x (pre ++ show i ++ 32 :: rest) ln c0)
    = Done (item_token i x).1 (mk_lexer (item_token i x).2 (32 :: rest) (ln + newlines i) c1).
Proof.
  intros Hpre Hi Hf. destruct (show_first i Hi) as (c & l & Hs & Hb & He & H92 & _). rewrite Hs in *. rewrite length_app in Hf. cbn [length] in Hf.
  destruct fuel as [|[|[|fuel]]]; [lia.. |].
  assert (Hskip : skip_blanks (S (S fuel)) (mk_lexer x (pre ++ (c :: l) ++ 32 :: rest) ln c0) = Done c (mk_lexer x (l ++ 32 :: rest) ln c)).
  { destruct Hpre as [-> | ->]; [by apply skip_char | exact (skip_char fuel x c (l ++ 32 :: rest) ln 32 Hb)]. }
  destruct (lex_token_ok (S (S fuel)) i c l x rest ln Hi Hs) as (c1 & E); [lia |]. exists c1. cbn [yylex]. rewrite (bind_at _ _ _ _ _ Hskip), He.
  change (ch "\") with 92. by rewrite H92.
Qed.

Lemma item_token_not_end i x : item_ok i -> (item_token i x).1 <> TChar 0.
Proof.
  intros Hi. destruct i as [| | | | |c]; try done; cbn [item_token]; [by destruct (find_last _ _ _ _) |]. intros [= ->]. done.
Qed.

Definition all_newlines (l : list item) : Z := fold_right (fun i n => newlines i + n) 0 l.

Lemma lex_items fuel : forall l pre x ln c0, pre = [] \/ pre = [32] -> Forall item_ok l -> (length (pre ++ show_all l) + 3 < fuel)%nat ->
  lex_file fuel (mk_lexer x (pre ++ show_all l) ln c0) = Done (items_tokens l x).1 (mk_lexer (items_tokens l x).2 [] (ln + all_newlines l) EOF).
Proof.
  induction fuel as [|fuel IH]; intros l pre x ln c0 Hpre Hl Hf; [lia |]. cbn [lex_file]. destruct Hl as [|i l Hi Hl].
  - cbn [show_all map concat items_tokens all_newlines fold_right fst snd]. rewrite Z.add_0_r. destruct fuel as [|[|[|fuel]]]; [cbn in Hf; lia.. |].
    by destruct Hpre as [-> | ->].
  - unfold show_all in Hf |- *. cbn [map concat] in Hf |- *. fold (show_all l) in Hf |- *. rewrite <- app_assoc. cbn [app].
    rewrite !length_app in Hf. cbn [length] in Hf.
    destruct (yylex_ok (S fuel) pre i x (show_all l) ln c0 Hpre Hi) as (c1 & E); [rewrite length_app; lia |]. rewrite (bind_at _ _ _ _ _ E).
    destruct (show_first i Hi) as (c & l' & Hs & _). rewrite Hs in Hf. cbn [length] in Hf.
    pose proof (item_token_not_end i x Hi) as Hne. cbn [items_tokens]. destruct (item_token i x) as [t x']. cbn [fst snd] in *.
    specialize (IH l [32] x' (ln + newlines i) c1 (or_intror eq_refl) Hl). cbn [app length] in IH. specialize (IH ltac:(lia)).
    destruct (items_tokens l x') as [ts x2]. cbn [fst snd] in *.
    assert (Hm : (match t with TChar 0 => ret [] | t => let* l := lex_file fuel in ret (t :: l) end) (mk_lexer x' (32 :: show_all l) (ln + newlines i) c1)
      = (let* l := lex_file fuel in ret (t :: l)) (mk_lexer x' (32 :: show_all l) (ln + newlines i) c1)) by (destruct t as [[| |]| | | | |]; done).
    rewrite Hm, (bind_at _ _ _ _ _ IH). unfold ret. cbn [all_newlines fold_right]. unfold all_newlines. by rewrite Z.add_assoc.
Qed.

(** C34: Writing out tokens and reading them back: for any sequence of numbers, names,
    arguments, strings, operators and other characters, each written followed by a
    blank (a string with its quotes, newlines and backslashes escaped), the calls of
    yylex return exactly these tokens and then the end of the file; the table of
    symbols has each number and each new name entered once, in order, and the lines
    have been counted.  A name or string may have up to 99 characters. *)
Theorem lex_roundtrip l x ln c0 fuel : Forall item_ok l -> (length (show_all l) + 3 < fuel)%nat ->
  lex_file fuel (mk_lexer x (show_all l) ln c0) = Done (items_tokens l x).1 (mk_lexer (items_tokens l x).2 [] (ln + all_newlines l) EOF).
Proof. intros Hl Hf. by apply (lex_items fuel l [] x ln c0 (or_introl eq_refl)). Qed.
End Spec.

(** ** A line *)

(** Whole numbers, read as [fscanf] does. *)
Fixpoint read_whole (n : Z) (l : list Z) : Z * list Z :=
  match l with c :: l' => if isdigit c then read_whole (10 * n + c - 48) l' else (n, l) | [] => (n, []) end.
Definition whole_scanf : Scanf := fun l =>
  match l with c :: _ => if isdigit c then let '(n, l') := read_whole 0 l in (Some (of_Z n), l') else (None, l) | [] => (None, []) end.
(** [x1 += 42 ; $3 "say \"hi\"" <= end of line]. *)
Definition demo_items : list item :=
  [IName [120; 49]; IOp ADDEQ; INum [52; 50] (of_Z 42); IChar 59; IArg [51]; IStr [115; 34; 10; 92]; IOp LE; IOp DEC; IChar 45; IName [120; 49]; IChar 10].

Lemma lex_roundtrip_witness :
  lex_file (H0 := whole_scanf) 200 (mk_lexer (mk_world [] [] [] None None) (show_all demo_items) 1 10)
  = Done [TName VAR 0; TOp ADDEQ; TNumber 1; TChar 59; TArg 3; TString [115; 34; 10; 92]; TOp LE; TOp DEC; TChar 45; TName VAR 0; TChar 10]
      (mk_lexer (mk_world [mk_symbol "x1" UNDEF (UVal zero); mk_symbol "" NUMBER (UVal (of_Z 42))] [] [] None None) [] 2 (-1)).
Proof.
  rewrite (lex_roundtrip (H0 := whole_scanf) demo_items (mk_world [] [] [] None None) 1 10 200).
  - vm_compute. reflexivity.
  - assert (Hx : item_ok (H0 := whole_scanf) (IName [120; 49])).
    { split; [exists 120, [49]; split; [reflexivity | left; reflexivity] | split; [repeat constructor | cbn; unfold NBUF; lia]]. }
    assert (H42 : item_ok (H0 := whole_scanf) (INum [52; 50] (of_Z 42))).
    { split; [exists 52, [50]; split; [reflexivity | right; reflexivity] | reflexivity]. }
    assert (H3 : item_ok (H0 := whole_scanf) (IArg [51])) by (split; [repeat constructor | cbn; lia]).
    assert (Hs : item_ok (H0 := whole_scanf) (IStr [115; 34; 10; 92])) by (split; [repeat constructor; lia | cbn; unfold NBUF; lia]).
    unfold demo_items. repeat (apply Forall_cons; split); try assumption; try exact I; try reflexivity. constructor.
  - apply (bool_decide_unpack (length (show_all demo_items) + 3 < 200)%nat). vm_compute. exact I.
Defined.
